(* ===== verification/_CoqProject ===== *)
-Q . S2P
Prelude.v
Bytes.v
Core.v
Dll.v
Bio.v
Log.v
Txn.v
Crash.v
Recover.v
Boot.v
LogSpec.v
Reserve.v
StringLib.v
Kbd.v
Cons.v
Fs.v
FsTx.v
FsBlocks.v
FsInodes.v
FsData.v
FsDir.v
FsPath.v
FsDemo.v
Vm.v
VmAlloc.v
VmTables.v
VmSpace.v
VmCopy.v
Kern.v
File.v
FileSpec.v
Proc.v
Exec.v
Syscall.v
Sysfile.v
Trap.v
ProcSpec.v
SysSpec.v
Spinlock.v
Grep.v
Malloc.v
Sh.v
ShPrint.v
ShRun.v
Ulib.v
LinuxTime.v
LinuxSched.v
LinuxTimer.v
LinuxSleep.v
LinuxMm.v
LinuxCow.v
LinuxFork.v
LinuxExit.v
LinuxProc.v
LinuxTree.v
LinuxLife.v
LinuxFamily.v
LinuxBirth.v
LinuxBuf.v
LinuxCache.v
LinuxGetblk.v
LinuxSys.v
LinuxCred.v
LinuxSignal.v
LinuxPrintf.v
LinuxBlk.v
LinuxElev.v
Ide.v
LinuxMalloc.v
LinuxHeap.v
LinuxTty.v
LinuxLine.v
