(* ===== verification/Prelude.v ===== *)
(** * Verification of xv6 and of the core of Linux 0.12

    The repository holds two operating systems to read: xv6 (src/xv6-read/xv6),
    the x86 teaching kernel with its shell and user library, and Linux 0.12
    (src/Linux-0.12/linux-0.12).  This development models xv6 and, of Linux,
    the scheduler, the clock, memory with the kernel's allocator, processes,
    identities and signals, terminals, the buffer cache, block requests and
    formatted printing, and proves what makes their parts correct.

    ** The programs

    xv6, from the bottom up: a disk ([memide.c], or the driver [ide.c] for a
    real one) below a cache of thirty buffers ([bio.c]); a write-ahead log that makes system calls atomic against
    crashes ([log.c]); a file system of blocks, inodes, directories and paths
    ([fs.c]); pipes and open files ([pipe.c], [file.c]); a page allocator and
    two-level page tables ([kalloc.c], [vm.c]); processes, their scheduler,
    sleep and wakeup ([proc.c], [sleeplock.c], [spinlock.c]); program loading
    ([exec.c]); system calls and traps ([syscall.c], [sysproc.c],
    [sysfile.c], [trap.c]); the keyboard and the console ([kbd.c],
    [console.c]); and on top, in user space, the shell ([sh.c]), a memory
    allocator ([umalloc.c]), a library ([ulib.c], [printf.c]) and small
    programs ([grep.c], [wc.c]).

    Linux 0.12: a table of 64 tasks, which [schedule] chooses from by the time
    each has left, sleep queues threaded through the kernel stacks of the
    sleepers, lists of timers and the clock interrupt ([kernel/sched.c],
    [kernel/mktime.c]); one page directory of which each task has 16 entries,
    pages with reference counts, copy on write, demand loading and swapping
    ([mm/memory.c], [mm/swap.c]); a tree of processes linked through the task
    structures ([kernel/fork.c], [kernel/exit.c]).  Both use the memory and the
    scheduler: [copy_process] copies page tables, [do_exit] frees them and
    never returns from [schedule].  The allocator of the kernel
    ([lib/malloc.c]) divides pages of the memory manager into objects.  System
    calls on identities, limits and clocks ([kernel/sys.c]) and on signals,
    with their delivery ([kernel/signal.c]), work on the tasks.  The buffer
    cache ([fs/buffer.c]) keeps blocks in hash queues and a free list and asks
    the block layer ([kernel/blk_drv/ll_rw_blk.c], [blk.h]) for them, which
    sorts requests into one queue for each device; the ram disk
    ([ramdisk.c]) serves such a queue.  [kernel/vsprintf.c] formats messages.
    Terminals ([kernel/chr_drv/tty_io.c], [tty_ioctl.c], [pty.c]) turn typed
    characters into lines, send signals to process groups and hand lines to
    readers.

    ** How they are modelled

    A kernel routine is a Rocq function of type [M St A] (below): it runs from
    a state to a result and a new state, or it panics, gives up the CPU
    through [swtch] or [switch_to], meets behaviour C leaves undefined, or runs
    out of the fuel of a loop.  Each component has its own state record; a
    component that calls another reaches its state through a [Lens].  Machine
    integers are [Z] with the reductions [u8], [u16], [u32], [s16], [s32]
    written where the code wraps; pointers into tables are indices, pointers
    into memory addresses; on-disk and in-memory structures read through casts
    are slices of byte lists ([Bytes]).  A routine that sleeps ends with
    [Switched]; what it does when the scheduler comes back to it is its
    [_resume] part.  Where several tasks sleep inside one component ([Ide],
    [LinuxBuf], [LinuxBlk]) a routine is cut at the places where it sleeps, and
    a step relation lets tasks, devices and interrupts interleave there.  In
    [Ide] a sleeper goes on when [wakeup] has reached it; in [LinuxBuf] and
    [LinuxBlk], whose theorems are about safety, it may go on at any time, which
    covers every order of wake-ups.

    - [Prelude]: integers, the monad, weakest preconditions, loops, lenses.
      [Bytes]: byte buffers and little-endian fields.  [Dll]: linked lists.
    - [Ide]: the disk driver: its queue, the commands it gives, its interrupt,
      the processes that sleep in it.
    - [Core]: the process table, spin locks as one CPU sees them, sched,
      sleep, wakeup, the scheduler, sleep locks.  [Spinlock]: acquire and
      release as atomic steps of any number of CPUs.
    - [Bio], [Log]: the buffer cache with the disk, the log.  [Txn]: the
      contract of the two towards their clients.  [Crash], [Recover], [Boot],
      [LogSpec], [Reserve]: commits, crashes, recovery, start-up, group commit
      and log space.
    - [Fs]: the file system.  [FsTx], [FsBlocks], [FsInodes], [FsData],
      [FsDir], [FsPath]: its theorems; [FsDemo]: a concrete disk they are
      instantiated on.
    - [StringLib], [Kbd], [Cons]: string routines, keyboard, console.
    - [Vm]: pages and page tables.  [VmAlloc], [VmTables], [VmSpace],
      [VmCopy]: their theorems, up to growing and copying an address space.
    - [Kern]: the global state [kst], user memory through the page tables, the
      console device.  [File]: pipes and files.  [Proc], [Exec], [Syscall],
      [Sysfile], [Trap]: the rest of the kernel.  [FileSpec], [ProcSpec],
      [SysSpec]: theorems about them.
    - [Malloc], [Sh], [ShPrint], [ShRun], [Ulib], [Grep]: user programs.
    - [LinuxTime]: [mktime.c] and [time_init] of [init/main.c].  [LinuxSched]: [sched.c] with the
      theorem about [schedule]; [LinuxTimer], [LinuxSleep]: those about timers
      and sleep queues.
    - [LinuxMm]: [memory.c] and [swap.c].  [LinuxCow]: the invariant of the
      reference counts and write faults; [LinuxFork], [LinuxExit]: copying and
      freeing page tables.
    - [LinuxProc]: [fork.c] and [exit.c].  [LinuxTree]: the tree the links of
      the tasks stand for, and what fork, exit and release do to it;
      [LinuxLife]: routines that work on links; [LinuxFamily]: exit, release
      and waitpid; [LinuxBirth]: process ids and fork.
    - [LinuxMalloc]: [malloc.c] over the state of [LinuxMm]; [LinuxHeap]: its
      invariant and theorem.
    - [LinuxBuf]: [buffer.c] over a class for the devices and the other
      caches; [LinuxCache]: the invariant of hash queues and free list;
      [LinuxGetblk]: [getblk] and any number of tasks using the cache.
    - [LinuxBlk]: [ll_rw_blk.c], [blk.h], the requests of [ramdisk.c] and what
      interrupts of [hd.c] do to the current request; [LinuxElev]: the
      invariant of the request queues.
    - [LinuxSys]: [sys.c] and [signal.c]; [LinuxCred]: identities;
      [LinuxSignal]: masks and delivery.
    - [LinuxTty]: [tty_io.c], [tty_ioctl.c] and [pty.c] over a class for what
      moves output on ([TtyOps]), with [rs_write] of [serial.c]; [LinuxLine]:
      editing, reading, writing and settings.
    - [LinuxPrintf]: [vsprintf.c] and its theorems.

    ** What is proved

    - The log: a crash after any prefix of a commit's writes, and any number
      of interrupted recoveries, leave the home blocks all old or all new; the
      last [end_op] commits and clears the header on disk; the reservations of
      [begin_op], which may sleep, cover what running calls may log, also while
      a commit runs, provided the log on disk has room for its header and
      [LOGSIZE] blocks, which the one [mkfs] makes does not.
    - The disk driver: the controller is told to read and write the sectors of
      the calls, in the order of the calls and one at a time, and its interrupts
      wake every caller once the requests are answered.
    - Strings, keyboard, console: functional specifications, the line editor
      the console's ring buffer implements, printed numbers.
    - The file system of xv6: the block allocator against the bitmap, the
      on-disk encoding of inodes, uniqueness in the inode cache, paths; through
      [bmap], [writei] and [readi] a file is an array of bytes, and a directory
      a list of entries that [dirlookup] and [dirlink] search and extend.
    - Memory of xv6: no page is handed out twice; [mappages] maps exactly what
      is asked; [allocuvm] grows an address space or undoes everything;
      [copyuvm] makes an independent copy.
    - Pipes are queues of bytes.
    - Processes and system calls of xv6: exit, wait, one pass of the
      scheduler, argument checks, process identifiers, [growproc] to size 0.
    - Spin locks: mutual exclusion on any number of CPUs, and that they
      implement the lock set of [Core].
    - User programs: the matcher of grep decides its language and grep prints
      the matching lines, or loses part of a line that two reads deliver;
      malloc, of fewer than [KERNBASE - 15] bytes, and free keep the heap well
      formed; the shell's parser
      terminates, delimits words, and reads back printed commands; [runcmd]
      leaks no descriptors; [memmove] and [atoi] of the library.
    - Linux, time: [kernel_mktime] is the Gregorian calendar from 1970 to 2099;
      [time_init], which has two digits of the year, is right up to 1999;
      [schedule] decides after at most one recalculation; every sleeper of a queue is
      reached by a wake-up, whoever joins meanwhile; timers fire in order, at
      times the forgotten subtraction in [add_timer] puts off.
    - Linux, memory: under the invariant that the count of a page is the number
      of entries that map it, a write fault isolates its task if the task is
      the only user of the page or a page is free; with enough free pages,
      copying page tables shares the pages in memory read-only, and reads those
      on the swap device in for the parent and leaves the child the copies
      there; freeing page tables drops exactly the references of a task, and
      frees exactly its pages on the swap device.
    - Linux, processes: fork, with enough free pages, makes the child the
      youngest of its parent, with the registers, identity and files of the
      parent, its memory as above, and exact counts of users of open files and
      inodes; the exit of a task that is no session leader and orphans no
      process group frees the memory, hands the children to init in order and
      leaves; waitpid reaps a dead child or reports why it does not; a process
      id is found in at most 129 tries.
    - Linux, allocator: with two pages free at every [malloc], objects are apart
      from each other and from all page tables, calls find what they need, and a
      page goes back to the memory manager with its last object.
    - Linux, buffers and requests: whatever tasks sleep where, no block is
      cached twice, a buffer that is given out is the one asked for and stays
      so, and no list is broken; each device has an acyclic queue of the
      requests in use, for buffers or pages to swap, also in the middle of a
      transfer; but for the swap device, whose pages are not sorted in, it is
      at most two ascending sweeps.
    - Linux, identities and signals: a task that is not privileged stays within
      its three identities whatever it calls of [sys.c], [signal.c] and
      [exit.c], unless it passes a negative resource to [setrlimit], which
      overwrites them; what delivery of a signal pushes is what the handler
      returns to, with the mask and restart rules.
    - Linux, terminals: on serial lines (not on consoles, which answer inquiries
      into their own input, nor on pseudo terminals, where echo comes back to
      the same queues), typed characters are edited into lines as a function on
      lists says, the count of lines is right, a read returns the first line,
      and writing puts out what the output flags say.
    - Linux, printing: numbers read back from what is printed, which has
      exactly the width asked for or needed, and the conversions compose to the
      format; a width or precision given by an asterisk does not.

    ** Fuel

    Loops bounded by a table or a count get that bound.  Kernel loops over
    linked lists get the number of nodes ([NBUF] and the like).  [free] and
    [malloc] get the number of words of the process, which bounds the free
    blocks; the parser one unit per character; grep one read per byte of
    input.  [schedule] of Linux needs two rounds; loops over siblings one more
    than the number of tasks; [find_empty_process] 130, as 64 tasks use at
    most 128 ids; searches of hash queues and of the free list as many as there
    are buffers, of a request queue 33 for 32 requests, of the chains of the
    allocator one more than there are pages; queues of terminals their size;
    the format of [vsprintf] one unit per character.  The theorems about these
    routines show that the fuel is enough: their conclusions exclude
    [OutOfFuel].  String loops of [ulib.c] that run to a terminating zero,
    [swap_out], [show_mem], [pty_copy], whose echo may come back to it, and
    [getblk], which starts over each time it may have slept, have a fuel
    argument; the theorem about [getblk] takes its pieces one by one and needs
    none.

    ** What is not modelled

    Interrupts arrive between routines and not inside them: the multi-CPU
    behaviour is modelled for the spin locks themselves, and the rest of the
    kernel as one CPU sees it between its locks.  Hardware set-up and port
    I/O ([main.c], [mp.c], [lapic.c], [ioapic.c], [picirq.c], the set-up half
    of [uart.c] and [trap.c], [bootmain.c]) and the assembly files have no
    state the theorems are about.  [mkfs.c] runs on the host.  The test
    programs and the user programs that only pass their arguments to a system
    call are left out, as are [main] and [getcmd] of the shell.  Of Linux, the
    file system above the buffer cache, program loading, traps and start-up
    (but for the clock), the screen and serial drivers (but for [rs_write]),
    the hard disk and floppy drivers and the floating-point emulator are not
    modelled; memory uses the file system
    through the class [FileOps], the buffer cache devices and the other caches
    through [DevOps], requests the drivers through [Drivers], and processes
    record the calls to files.  Stores through null pointers, which the kernel
    does not trap, are counted in the buffer cache and not followed further.
    The theorem about exit is for a task that is no session leader and
    whose exit leaves no process group orphaned: the scans of the task table
    those cases need dereference empty slots, as examples in [LinuxFamily]
    show.  The theorem about identities has no steps for fork and exec. *)

From Stdlib Require Export ZArith Lia.
From Stdlib Require Znumtheory.
From stdpp Require Export base strings numbers gmap list.
Export stdpp.list_basics.list.

#[global] Set Default Goal Selector "1".
Open Scope Z_scope.

(** ** Machine integers

    [uint], [ushort] and [uchar] values are integers [Z] kept in range by an
    explicit reduction; [int] and [short] are the two's complement readings. *)

Definition u8 (x : Z) : Z := x mod 256.
Definition u16 (x : Z) : Z := x mod 65536.
Definition u32 (x : Z) : Z := x mod 4294967296.
Definition s16 (x : Z) : Z := (x + 32768) mod 65536 - 32768.
Definition s32 (x : Z) : Z := (x + 2147483648) mod 4294967296 - 2147483648.

Lemma u8_range x : 0 <= u8 x < 256.
Proof. apply Z.mod_pos_bound; lia. Qed.
Lemma u16_range x : 0 <= u16 x < 65536.
Proof. apply Z.mod_pos_bound; lia. Qed.
Lemma u32_range x : 0 <= u32 x < 4294967296.
Proof. apply Z.mod_pos_bound; lia. Qed.
Lemma s16_range x : -32768 <= s16 x < 32768.
Proof. unfold s16. pose proof (Z.mod_pos_bound (x + 32768) 65536). lia. Qed.
Lemma s32_range x : -2147483648 <= s32 x < 2147483648.
Proof. unfold s32. pose proof (Z.mod_pos_bound (x + 2147483648) 4294967296). lia. Qed.
Lemma u8_id x : 0 <= x < 256 -> u8 x = x.
Proof. intros; apply Z.mod_small; lia. Qed.
Lemma u16_id x : 0 <= x < 65536 -> u16 x = x.
Proof. intros; apply Z.mod_small; lia. Qed.
Lemma u32_id x : 0 <= x < 4294967296 -> u32 x = x.
Proof. intros; apply Z.mod_small; lia. Qed.
Lemma s16_id x : -32768 <= x < 32768 -> s16 x = x.
Proof. intros; unfold s16; rewrite Z.mod_small; lia. Qed.
Lemma s32_id x : -2147483648 <= x < 2147483648 -> s32 x = x.
Proof. intros; unfold s32; rewrite Z.mod_small; lia. Qed.
Lemma s16_u16 x : -32768 <= x < 32768 -> s16 (u16 x) = x.
Proof.
  intros. unfold s16, u16. rewrite Zplus_mod_idemp_l.
  rewrite Z.mod_small; lia.
Qed.
Lemma s32_u32 x : -2147483648 <= x < 2147483648 -> s32 (u32 x) = x.
Proof.
  intros. unfold s32, u32. rewrite Zplus_mod_idemp_l.
  rewrite Z.mod_small; lia.
Qed.
Lemma u32_s32 x : 0 <= x < 4294967296 -> u32 (s32 x) = x.
Proof.
  intros. unfold s32, u32. rewrite Zminus_mod_idemp_l.
  replace (x + 2147483648 - 2147483648) with x by lia. apply Z.mod_small; lia.
Qed.

Lemma testbit_high b n i : 0 <= b < 2 ^ n -> n <= i -> Z.testbit b i = false.
Proof.
  intros Hb Hi. destruct (decide (b = 0)) as [->|]; [apply Z.bits_0|].
  apply Z.bits_above_log2; [lia|]. assert (Z.log2 b < n) by (apply Z.log2_lt_pow2; lia). lia.
Qed.

Lemma land_shiftl_0 a b n : 0 <= n -> 0 <= b < 2 ^ n -> Z.land (Z.shiftl a n) b = 0.
Proof.
  intros Hn Hb. apply Z.bits_inj'. intros i Hi. rewrite Z.land_spec, Z.shiftl_spec, Z.bits_0 by lia.
  destruct (Z.lt_ge_cases i n).
  - by rewrite Z.testbit_neg_r by lia.
  - rewrite (testbit_high b n) by lia. apply andb_false_r.
Qed.

Lemma lor_shiftl a b n : 0 <= n -> 0 <= b < 2 ^ n -> Z.lor (Z.shiftl a n) b = a * 2 ^ n + b.
Proof.
  intros Hn Hb. pose proof (land_shiftl_0 a b n Hn Hb) as H0.
  rewrite <- Z.shiftl_mul_pow2 by done. rewrite Z.add_nocarry_lxor by done. by rewrite Z.lxor_lor.
Qed.

(** Reducing modulo a power of two that divides the word size. *)
Lemma u32_mod x k : 0 <= k <= 32 -> u32 x mod 2 ^ k = x mod 2 ^ k.
Proof.
  intros Hk. unfold u32. change 4294967296 with (2 ^ 32).
  symmetry. apply Znumtheory.Zmod_div_mod; [lia|lia|].
  exists (2 ^ (32 - k)). rewrite <- Z.pow_add_r by lia. f_equal. lia.
Qed.

Lemma u32_add_l x y : u32 (u32 x + y) = u32 (x + y).
Proof. unfold u32. apply Zplus_mod_idemp_l. Qed.
Lemma u32_sub_l x y : u32 (u32 x - y) = u32 (x - y).
Proof. unfold u32. apply Zminus_mod_idemp_l. Qed.
Lemma u32_sub_r x y : u32 (x - u32 y) = u32 (x - y).
Proof. unfold u32. apply Zminus_mod_idemp_r. Qed.
Lemma u32_u32 x : u32 (u32 x) = u32 x.
Proof. unfold u32. by rewrite Zmod_mod. Qed.

(** The bytes of a string literal. *)
Fixpoint str (s : string) : list Z :=
  match s with
  | EmptyString => []
  | String c s' => Z.of_nat (Ascii.nat_of_ascii c) :: str s'
  end.

Create HintDb ints.
Create Rewrite HintDb ints.
#[export] Hint Resolve u8_range u16_range u32_range s16_range s32_range : ints.
#[export] Hint Rewrite u8_id u16_id u32_id s16_id s32_id using lia : ints.

(** ** Outcomes and the kernel monad

    A kernel routine runs from a state to one of five outcomes: it returns,
    calls [panic], gives up the CPU through [swtch] with the process suspended
    in the given state, runs into behaviour C leaves undefined (an index out
    of an array, a null pointer), or exhausts the fuel of a model loop.  The
    last outcome is a modelling artefact: every termination theorem below
    excludes it. *)

Inductive outcome (St A : Type) : Type :=
| Ok (a : A) (s : St)
| Panic (msg : string)
| Switched (s : St)
| Fault
| OutOfFuel.
Arguments Ok {St A} a s.
Arguments Panic {St A} msg.
Arguments Switched {St A} s.
Arguments Fault {St A}.
Arguments OutOfFuel {St A}.

Definition M (St A : Type) : Type := St -> outcome St A.

#[export] Instance M_ret {St} : MRet (M St) := fun A a s => Ok a s.
#[export] Instance M_bind {St} : MBind (M St) := fun A B f m s =>
  match m s with
  | Ok a s' => f a s'
  | Panic msg => Panic msg
  | Switched s' => Switched s'
  | Fault => Fault
  | OutOfFuel => OutOfFuel
  end.

Definition get {St} : M St St := fun s => Ok s s.
Definition gets {St A} (f : St -> A) : M St A := fun s => Ok (f s) s.
Definition modify {St} (f : St -> St) : M St unit := fun s => Ok tt (f s).
Definition panic {St A} (msg : string) : M St A := fun _ => Panic msg.
Definition fault {St A} : M St A := fun _ => Fault.
(** An infinite loop: no amount of fuel is enough. *)
Definition spin {St A} : M St A := fun _ => OutOfFuel.
Definition skip {St} : M St unit := mret tt.

(** Reading entry [i] of an array: out of range is undefined behaviour. *)
Definition idx {St A} (l : list A) (i : nat) : M St A :=
  match l !! i with Some x => mret x | None => fault end.
(** Dereferencing a pointer that may be null. *)
Definition deref {St A} (p : option A) : M St A :=
  match p with Some x => mret x | None => fault end.

(** ** Weakest preconditions for total correctness: the routine returns, and
    its result and final state satisfy the postcondition. *)

Definition wp {St A} (m : M St A) (Q : A -> St -> Prop) (s : St) : Prop :=
  match m s with Ok a s' => Q a s' | _ => False end.

Create Rewrite HintDb wp.

Section wp.
Context {St : Type}.

Lemma wp_bind {A B} (m : M St A) (f : A -> M St B) Q s :
  wp (m ≫= f) Q s = wp m (fun a => wp (f a) Q) s.
Proof. unfold wp, mbind, M_bind. by destruct (m s). Qed.

Lemma wp_ret {A} (a : A) (Q : A -> St -> Prop) s : wp (mret a) Q s = Q a s.
Proof. done. Qed.

Lemma wp_get (Q : St -> St -> Prop) s : wp get Q s = Q s s.
Proof. done. Qed.

Lemma wp_gets {A} (f : St -> A) Q s : wp (gets f) Q s = Q (f s) s.
Proof. done. Qed.

Lemma wp_modify (f : St -> St) Q s : wp (modify f) Q s = Q tt (f s).
Proof. done. Qed.

Lemma wp_skip (Q : unit -> St -> Prop) s : wp skip Q s = Q tt s.
Proof. done. Qed.

Lemma wp_idx {A} (l : list A) i x (Q : A -> St -> Prop) s :
  l !! i = Some x -> Q x s -> wp (idx l i) Q s.
Proof. intros Hi. unfold wp, idx. by rewrite Hi. Qed.

Lemma wp_mono {A} (m : M St A) (Q Q' : A -> St -> Prop) s :
  wp m Q s -> (forall a s', Q a s' -> Q' a s') -> wp m Q' s.
Proof. unfold wp. destruct (m s); naive_solver. Qed.

Lemma wp_if {A} (b : bool) (m1 m2 : M St A) Q s :
  (b = true -> wp m1 Q s) -> (b = false -> wp m2 Q s) ->
  wp (if b then m1 else m2) Q s.
Proof. destruct b; auto. Qed.

Lemma wp_inv {A} (m : M St A) Q s :
  wp m Q s -> exists a s', m s = Ok a s' /\ Q a s'.
Proof. unfold wp. destruct (m s); naive_solver. Qed.

Lemma wp_intro {A} (m : M St A) (Q : A -> St -> Prop) s a s' :
  m s = Ok a s' -> Q a s' -> wp m Q s.
Proof. unfold wp. by intros ->. Qed.

Lemma bind_ok {A B} (m : M St A) (f : A -> M St B) s a s' :
  m s = Ok a s' -> (m ≫= f) s = f a s'.
Proof. unfold mbind, M_bind. by intros ->. Qed.

Lemma bind_panic {A B} (m : M St A) (f : A -> M St B) s msg :
  m s = Panic msg -> (m ≫= f) s = Panic msg.
Proof. unfold mbind, M_bind. by intros ->. Qed.

Lemma bind_switched {A B} (m : M St A) (f : A -> M St B) s s' :
  m s = Switched s' -> (m ≫= f) s = Switched s'.
Proof. unfold mbind, M_bind. by intros ->. Qed.
End wp.

#[export] Hint Rewrite @wp_bind @wp_ret @wp_get @wp_gets @wp_modify @wp_skip : wp.

Ltac wp_simpl := cbv beta iota; repeat progress (autorewrite with wp; cbv beta iota).
Ltac wp_apply H := eapply wp_mono; [eapply H | cbn beta].

(** ** Loops

    [loop fuel body l] iterates [body] from the loop state [l]; the body
    either continues with a new loop state or leaves the loop with a result. *)

Fixpoint loop {St L R} (fuel : nat) (body : L -> M St (L + R)) (l : L) : M St R :=
  match fuel with
  | O => fun _ => OutOfFuel
  | S fuel' => r ← body l;
      match r with
      | inl l' => loop fuel' body l'
      | inr r' => mret r'
      end
  end.

(** Total correctness of a loop: an invariant and a variant that decreases
    at each iteration and starts below the fuel. *)
Lemma wp_loop {St L R} (I : L -> St -> Prop) (mu : L -> nat) fuel
    (body : L -> M St (L + R)) (Q : R -> St -> Prop) l s :
  (forall l s, I l s ->
     wp (body l) (fun r s' => match r with
                  | inl l' => I l' s' /\ (mu l' < mu l)%nat
                  | inr r' => Q r' s' end) s) ->
  I l s -> (mu l < fuel)%nat -> wp (loop fuel body l) Q s.
Proof.
  intros Hbody. revert l s. induction fuel as [|fuel IH]; intros l s HI Hmu; [lia|].
  cbn [loop]. rewrite wp_bind. eapply wp_mono; [by apply Hbody|].
  intros [l'|r'] s' H; [|done]. destruct H as [HI' Hlt]. apply IH; [done|lia].
Qed.

(** Running a loop for [j] iterations. *)
Lemma loop_steps {St L R} (body : L -> M St (L + R)) (st : nat -> L) (ss : nat -> St) j fuel :
  (forall k, (k < j)%nat -> body (st k) (ss k) = Ok (inl (st (S k))) (ss (S k))) ->
  loop (j + fuel) body (st 0%nat) (ss 0%nat) = loop fuel body (st j) (ss j).
Proof.
  revert st ss. induction j as [|j IH]; intros st ss Hb; [done|].
  cbn [loop Nat.add]. rewrite (bind_ok _ _ _ _ _ (Hb 0%nat ltac:(lia))).
  apply (IH (fun k => st (S k)) (fun k => ss (S k))). intros k Hk. apply Hb. lia.
Qed.

Lemma loop_done {St L R} (body : L -> M St (L + R)) fuel l s r s' :
  body l s = Ok (inr r) s' -> loop (S fuel) body l s = Ok r s'.
Proof. intros E. cbn [loop]. by rewrite (bind_ok _ _ _ _ _ E). Qed.
Lemma loop_next {St L R} (body : L -> M St (L + R)) fuel l s l' s' :
  body l s = Ok (inl l') s' -> loop (S fuel) body l s = loop fuel body l' s'.
Proof. intros E. cbn [loop]. by rewrite (bind_ok _ _ _ _ _ E). Qed.
Lemma loop_switched {St L R} (body : L -> M St (L + R)) fuel l s s' :
  body l s = Switched s' -> loop (S fuel) body l s = Switched s'.
Proof. intros E. cbn [loop]. by rewrite (bind_switched _ _ _ _ E). Qed.

Lemma wp_eq {St A} (m : M St A) s a s' : wp m (fun b t => b = a /\ t = s') s -> m s = Ok a s'.
Proof. intros (b & t & E & -> & ->)%wp_inv. exact E. Qed.

(** A [for] loop over the consecutive indices [i, i+1, ..., i+n-1]. *)
Fixpoint for_range {St} (i n : nat) (body : nat -> M St unit) : M St unit :=
  match n with
  | O => skip
  | S n' => body i ;; for_range (S i) n' body
  end.

Lemma wp_for_range {St} (I : nat -> St -> Prop) n (body : nat -> M St unit) i s :
  (forall j s, (i <= j < i + n)%nat -> I j s -> wp (body j) (fun _ s' => I (S j) s') s) ->
  I i s -> wp (for_range i n body) (fun _ s' => I (i + n)%nat s') s.
Proof.
  revert i s. induction n as [|n IH]; intros i s Hbody HI; cbn [for_range].
  - by rewrite wp_skip, Nat.add_0_r.
  - rewrite wp_bind. eapply wp_mono; [apply Hbody; [lia|done]|].
    intros [] s' HI'. replace (i + S n)%nat with (S i + n)%nat by lia.
    apply IH; [|done]. intros j s0 Hj. apply Hbody. lia.
Qed.

(** ** Lenses

    A component state [C] inside a larger state [St]; [lift] runs the
    component's routines on the larger state. *)

Class Lens (St C : Type) := { lget : St -> C; lset : C -> St -> St }.
Class LensOk (St C : Type) `{Lens St C} := {
  lget_lset : forall c s, lget (lset c s) = c;
  lset_lget : forall s, lset (lget s) s = s;
  lset_lset : forall c c' s, lset c (lset c' s) = lset c s }.

Definition lift {St C A} `{Lens St C} (m : M C A) : M St A := fun s =>
  match m (lget s) with
  | Ok a c => Ok a (lset c s)
  | Panic msg => Panic msg
  | Switched c => Switched (lset c s)
  | Fault => Fault
  | OutOfFuel => OutOfFuel
  end.

Lemma wp_lift {St C A} `{Lens St C} (m : M C A) (Q : A -> St -> Prop) s :
  wp (lift m) Q s = wp m (fun a c => Q a (lset c s)) (lget s).
Proof. unfold wp, lift. by destruct (m (lget s)). Qed.

Lemma lift_ok {St C A} `{Lens St C} (m : M C A) s a c :
  m (lget s) = Ok a c -> lift m s = Ok a (lset c s).
Proof. unfold lift. by intros ->. Qed.

Lemma lift_panic {St C A} `{Lens St C} (m : M C A) s msg :
  m (lget s) = Panic msg -> lift m s = Panic msg.
Proof. unfold lift. by intros ->. Qed.

Definition lens_compose {A B C} (l1 : Lens A B) (l2 : Lens B C) : Lens A C :=
  {| lget a := lget (lget a); lset c a := lset (lset c (lget a)) a |}.

#[export] Hint Rewrite @wp_lift : wp.
