(* ===== verification/Bytes.v ===== *)
(** * Byte arrays and little-endian fields

    The code reads and writes C structs through casts of byte buffers
    ([(struct dinode* )bp->data + i], [((uint* )bp->data)[bn]]).  A buffer is a
    list of bytes, bytes are integers in [0, 256), and a field is a slice of
    the buffer decoded in little-endian order, which is the byte order of the
    x86 the code runs on. *)

From S2P Require Import Prelude.

Definition is_byte (b : Z) : Prop := 0 <= b < 256.
Abbreviation bytes_ok := (Forall is_byte).

#[export] Instance is_byte_dec b : Decision (is_byte b).
Proof. unfold is_byte. apply _. Defined.

(** ** Slices *)

Definition slice {A} (l : list A) (off n : nat) : list A := take n (drop off l).

Definition splice {A} (l : list A) (off : nat) (l' : list A) : list A :=
  take off l ++ l' ++ drop (off + length l') l.

Section slices.
Context {A : Type}.
Implicit Types l : list A.

Lemma length_slice l off n : (off + n <= length l)%nat -> length (slice l off n) = n.
Proof. intros. unfold slice. rewrite length_take, length_drop. lia. Qed.

Lemma lookup_slice l off n i :
  (i < n)%nat -> slice l off n !! i = l !! (off + i)%nat.
Proof. intros. unfold slice. by rewrite lookup_take_lt, lookup_drop by done. Qed.

Lemma length_splice l off l' :
  (off + length l' <= length l)%nat -> length (splice l off l') = length l.
Proof.
  intros. unfold splice. rewrite !length_app, length_take, length_drop. lia.
Qed.

Lemma lookup_splice_in l off l' i :
  (off + length l' <= length l)%nat -> (off <= i < off + length l')%nat ->
  splice l off l' !! i = l' !! (i - off)%nat.
Proof.
  intros. unfold splice.
  rewrite lookup_app_r; rewrite length_take; [|lia].
  rewrite lookup_app_l by lia. f_equal. lia.
Qed.

Lemma lookup_splice_out l off l' i :
  (off + length l' <= length l)%nat -> (i < off \/ off + length l' <= i)%nat ->
  splice l off l' !! i = l !! i.
Proof.
  intros Hlen [Hi|Hi]; unfold splice.
  - by rewrite lookup_app_l, lookup_take_lt by (rewrite ?length_take; lia).
  - rewrite lookup_app_r; rewrite length_take; [|lia].
    rewrite lookup_app_r by lia. rewrite lookup_drop. f_equal. lia.
Qed.

Lemma slice_ext l1 l2 o1 o2 n :
  (o1 + n <= length l1)%nat -> (o2 + n <= length l2)%nat ->
  (forall i, (i < n)%nat -> l1 !! (o1 + i)%nat = l2 !! (o2 + i)%nat) ->
  slice l1 o1 n = slice l2 o2 n.
Proof.
  intros H1 H2 Hext. apply list_eq. intros i.
  destruct (decide (i < n)%nat).
  - rewrite !lookup_slice by done. by apply Hext.
  - rewrite !lookup_ge_None_2; rewrite ?length_slice; try done; lia.
Qed.

Lemma slice_splice_eq l off l' :
  (off + length l' <= length l)%nat -> slice (splice l off l') off (length l') = l'.
Proof.
  intros. unfold slice, splice.
  rewrite drop_app_length'; [apply take_app_length|rewrite length_take; lia].
Qed.

Lemma slice_splice_ne l off l' o n :
  (off + length l' <= length l)%nat -> (o + n <= length l)%nat ->
  (o + n <= off \/ off + length l' <= o)%nat ->
  slice (splice l off l') o n = slice l o n.
Proof.
  intros. apply slice_ext; rewrite ?length_splice; try lia.
  intros i Hi. apply lookup_splice_out; lia.
Qed.

(** A slice taken inside the replaced part. *)
Lemma slice_splice_sub l off l' o n :
  (off + length l' <= length l)%nat -> (o + n <= length l')%nat ->
  slice (splice l off l') (off + o) n = slice l' o n.
Proof.
  intros. apply slice_ext; rewrite ?length_splice; try lia.
  intros i Hi. rewrite lookup_splice_in by lia. f_equal. lia.
Qed.

Lemma splice_slice l off n :
  (off + n <= length l)%nat -> splice l off (slice l off n) = l.
Proof.
  intros. apply list_eq. intros i.
  assert (length (slice l off n) = n) by (by apply length_slice).
  destruct (decide (off <= i < off + n)%nat).
  - rewrite lookup_splice_in, lookup_slice by lia. f_equal. lia.
  - by rewrite lookup_splice_out by lia.
Qed.

Lemma splice_splice_eq l off l1 l2 :
  length l1 = length l2 -> (off + length l1 <= length l)%nat ->
  splice (splice l off l1) off l2 = splice l off l2.
Proof.
  intros. apply list_eq. intros i.
  destruct (decide (off <= i < off + length l2)%nat).
  - rewrite !lookup_splice_in; rewrite ?length_splice; auto; lia.
  - rewrite !lookup_splice_out; rewrite ?length_splice; auto; lia.
Qed.

Lemma Forall_slice (P : A -> Prop) l off n : Forall P l -> Forall P (slice l off n).
Proof. intros. by apply Forall_take, Forall_drop. Qed.

Lemma Forall_splice (P : A -> Prop) l off l' :
  Forall P l -> Forall P l' -> Forall P (splice l off l').
Proof.
  intros. unfold splice. apply Forall_app; split; [by apply Forall_take|].
  apply Forall_app; split; [done|by apply Forall_drop].
Qed.
End slices.

#[export] Hint Resolve Forall_slice Forall_splice : core.

(** ** Little-endian integers *)

Fixpoint le_dec (l : list Z) : Z :=
  match l with [] => 0 | b :: l' => b + 256 * le_dec l' end.

Fixpoint le_enc (n : nat) (z : Z) : list Z :=
  match n with O => [] | S n' => z mod 256 :: le_enc n' (z / 256) end.

Lemma length_le_enc n z : length (le_enc n z) = n.
Proof. revert z. induction n; intros z; cbn; auto. Qed.

Lemma le_enc_bytes n z : bytes_ok (le_enc n z).
Proof.
  revert z. induction n as [|n IH]; intros z; cbn; constructor; [|auto].
  apply Z.mod_pos_bound; lia.
Qed.

Lemma le_dec_range l : bytes_ok l -> 0 <= le_dec l < 256 ^ Z.of_nat (length l).
Proof.
  induction 1 as [|b l Hb Hl IH]; cbn [le_dec length]; [cbn; lia|].
  rewrite Nat2Z.inj_succ, Z.pow_succ_r by lia. unfold is_byte in Hb. lia.
Qed.

Lemma le_dec_enc n z : le_dec (le_enc n z) = z mod 256 ^ Z.of_nat n.
Proof.
  revert z. induction n as [|n IH]; intros z; cbn [le_dec le_enc].
  - by rewrite Z.mod_1_r.
  - rewrite IH, Nat2Z.inj_succ, Z.pow_succ_r by lia.
    pose proof (Z.pow_pos_nonneg 256 (Z.of_nat n)).
    rewrite Z.rem_mul_r by lia. lia.
Qed.

Lemma le_enc_dec l : bytes_ok l -> le_enc (length l) (le_dec l) = l.
Proof.
  induction 1 as [|b l Hb Hl IH]; cbn [le_dec le_enc length]; [done|].
  unfold is_byte in Hb. f_equal.
  - rewrite Z.mul_comm, Z_mod_plus_full. apply Z.mod_small; lia.
  - rewrite Z.mul_comm, Z.div_add, (Z.div_small b) by lia. apply IH.
Qed.

(** Fields of a buffer, at byte offset [off]. *)
Definition get_le (n : nat) (d : list Z) (off : nat) : Z := le_dec (slice d off n).
Definition put_le (n : nat) (d : list Z) (off : nat) (v : Z) : list Z :=
  splice d off (le_enc n v).
Abbreviation get16 := (get_le 2).
Abbreviation put16 := (put_le 2).
Abbreviation get32 := (get_le 4).
Abbreviation put32 := (put_le 4).

Lemma length_put_le n d off v :
  (off + n <= length d)%nat -> length (put_le n d off v) = length d.
Proof. intros. apply length_splice. by rewrite length_le_enc. Qed.

Lemma put_le_bytes n d off v : bytes_ok d -> bytes_ok (put_le n d off v).
Proof. intros. apply Forall_splice; [done|apply le_enc_bytes]. Qed.

Lemma get_put_le n d off v :
  (off + n <= length d)%nat -> get_le n (put_le n d off v) off = v mod 256 ^ Z.of_nat n.
Proof.
  intros. unfold get_le, put_le.
  pose proof (slice_splice_eq d off (le_enc n v)) as Heq.
  rewrite length_le_enc in Heq. rewrite Heq by done. apply le_dec_enc.
Qed.

Lemma get_put_le_ne n m d off off' v :
  (off + n <= length d)%nat -> (off' + m <= length d)%nat ->
  (off' + m <= off \/ off + n <= off')%nat ->
  get_le m (put_le n d off v) off' = get_le m d off'.
Proof.
  intros. unfold get_le, put_le. f_equal. apply slice_splice_ne; rewrite ?length_le_enc; lia.
Qed.

Lemma get_le_range n d off :
  bytes_ok d -> (off + n <= length d)%nat -> 0 <= get_le n d off < 256 ^ Z.of_nat n.
Proof.
  intros Hd Hlen. unfold get_le. rewrite <- (length_slice d off n Hlen) at 3.
  apply le_dec_range. by apply Forall_slice.
Qed.

#[export] Hint Resolve le_enc_bytes put_le_bytes : core.
