(* ===== verification/Core.v ===== *)
(** * Processes, spin locks as seen by one CPU, sleep and wakeup, sleep locks

    Models [proc.h], the scheduling half of [proc.c] (sched, yield, sleep,
    wakeup1, wakeup, kill, scheduler), [switchuvm]/[switchkvm] of [vm.c] and
    [sleeplock.c].  The state [kcore] is what one CPU sees: the spin locks it
    holds, its current process, and the process table.  The detailed
    multi-CPU model of the spin locks themselves is in [Spinlock.v], with the
    theorem that it implements the lock set used here. *)

From S2P Require Import Prelude Bytes.

(** ** Addresses used as lock names and sleep channels *)

(** Sleep locks live inside buffers and inodes: [&b->lock] and [&ip->lock]. *)
Inductive slid := SlBuf (i : nat) | SlInode (i : nat).

Inductive lockid :=
| LkPtable | LkBcache | LkLog | LkIcache | LkFtable | LkKmem | LkCons
| LkTicks | LkIde
| LkPipe (p : Z)       (* &p->lock, for the pipe at address p *)
| LkSleep (l : slid).  (* &l->lk, the spin lock inside a sleep lock *)

Inductive chan :=
| ChSleep (l : slid)   (* a sleep lock *)
| ChLog                (* &log *)
| ChBuf (i : nat)      (* a buffer, while the disk works on it *)
| ChPipeR (p : Z)      (* &p->nread *)
| ChPipeW (p : Z)      (* &p->nwrite *)
| ChProc (i : nat)     (* a struct proc, in wait() *)
| ChTicks              (* &ticks *)
| ChInput.             (* &input.r *)

#[export] Instance slid_eq_dec : EqDecision slid.
Proof. solve_decision. Defined.
#[export] Instance slid_countable : Countable slid.
Proof.
  apply (inj_countable' (fun l => match l with SlBuf i => inl i | SlInode i => inr i end)
           (fun x => match x with inl i => SlBuf i | inr i => SlInode i end)).
  by intros [].
Defined.
#[export] Instance lockid_eq_dec : EqDecision lockid.
Proof. solve_decision. Defined.
#[export] Instance chan_eq_dec : EqDecision chan.
Proof. solve_decision. Defined.

(** ** struct proc *)

Inductive procstate := UNUSED | EMBRYO | SLEEPING | RUNNABLE | RUNNING | ZOMBIE.

#[export] Instance procstate_eq_dec : EqDecision procstate.
Proof. solve_decision. Defined.

(** The trap frame, without its padding. *)
Record trapframe := mkTf {
  tf_edi : Z; tf_esi : Z; tf_ebp : Z; tf_oesp : Z;
  tf_ebx : Z; tf_edx : Z; tf_ecx : Z; tf_eax : Z;
  tf_gs : Z; tf_fs : Z; tf_es : Z; tf_ds : Z;
  tf_trapno : Z; tf_err : Z; tf_eip : Z; tf_cs : Z;
  tf_eflags : Z; tf_esp : Z; tf_ss : Z }.

Record context := mkContext {
  ctx_edi : Z; ctx_esi : Z; ctx_ebx : Z; ctx_ebp : Z; ctx_eip : Z }.

(** Pointers to processes, files and inodes are indices into their tables,
    [None] for the null pointer; [p_pgdir] and [p_kstack] are addresses, 0 for
    null. *)
Record proc := mkProc {
  p_sz : Z;
  p_pgdir : Z;
  p_kstack : Z;
  p_state : procstate;
  p_pid : Z;
  p_parent : option nat;
  p_tf : trapframe;
  p_context : context;
  p_chan : option chan;
  p_killed : Z;
  p_ofile : list (option nat);
  p_cwd : option nat;
  p_name : list Z }.

Definition set_p_state v p := mkProc (p_sz p) (p_pgdir p) (p_kstack p) v (p_pid p)
  (p_parent p) (p_tf p) (p_context p) (p_chan p) (p_killed p) (p_ofile p) (p_cwd p) (p_name p).
Definition set_p_chan v p := mkProc (p_sz p) (p_pgdir p) (p_kstack p) (p_state p) (p_pid p)
  (p_parent p) (p_tf p) (p_context p) v (p_killed p) (p_ofile p) (p_cwd p) (p_name p).
Definition set_p_killed v p := mkProc (p_sz p) (p_pgdir p) (p_kstack p) (p_state p) (p_pid p)
  (p_parent p) (p_tf p) (p_context p) (p_chan p) v (p_ofile p) (p_cwd p) (p_name p).
Definition set_p_ofile v p := mkProc (p_sz p) (p_pgdir p) (p_kstack p) (p_state p) (p_pid p)
  (p_parent p) (p_tf p) (p_context p) (p_chan p) (p_killed p) v (p_cwd p) (p_name p).
Definition set_p_cwd v p := mkProc (p_sz p) (p_pgdir p) (p_kstack p) (p_state p) (p_pid p)
  (p_parent p) (p_tf p) (p_context p) (p_chan p) (p_killed p) (p_ofile p) v (p_name p).
Definition set_p_parent v p := mkProc (p_sz p) (p_pgdir p) (p_kstack p) (p_state p) (p_pid p)
  v (p_tf p) (p_context p) (p_chan p) (p_killed p) (p_ofile p) (p_cwd p) (p_name p).
Definition set_p_pid v p := mkProc (p_sz p) (p_pgdir p) (p_kstack p) (p_state p) v
  (p_parent p) (p_tf p) (p_context p) (p_chan p) (p_killed p) (p_ofile p) (p_cwd p) (p_name p).
Definition set_p_kstack v p := mkProc (p_sz p) (p_pgdir p) v (p_state p) (p_pid p)
  (p_parent p) (p_tf p) (p_context p) (p_chan p) (p_killed p) (p_ofile p) (p_cwd p) (p_name p).
Definition set_p_pgdir v p := mkProc (p_sz p) v (p_kstack p) (p_state p) (p_pid p)
  (p_parent p) (p_tf p) (p_context p) (p_chan p) (p_killed p) (p_ofile p) (p_cwd p) (p_name p).
Definition set_p_sz v p := mkProc v (p_pgdir p) (p_kstack p) (p_state p) (p_pid p)
  (p_parent p) (p_tf p) (p_context p) (p_chan p) (p_killed p) (p_ofile p) (p_cwd p) (p_name p).
Definition set_p_tf v p := mkProc (p_sz p) (p_pgdir p) (p_kstack p) (p_state p) (p_pid p)
  (p_parent p) v (p_context p) (p_chan p) (p_killed p) (p_ofile p) (p_cwd p) (p_name p).
Definition set_p_context v p := mkProc (p_sz p) (p_pgdir p) (p_kstack p) (p_state p) (p_pid p)
  (p_parent p) (p_tf p) v (p_chan p) (p_killed p) (p_ofile p) (p_cwd p) (p_name p).
Definition set_p_name v p := mkProc (p_sz p) (p_pgdir p) (p_kstack p) (p_state p) (p_pid p)
  (p_parent p) (p_tf p) (p_context p) (p_chan p) (p_killed p) (p_ofile p) (p_cwd p) v.

Definition NPROC : nat := 64.
Definition NOFILE : nat := 16.
Definition KSTACKSIZE : Z := 4096.
Definition KERNBASE : Z := 2147483648.
Definition V2P (a : Z) : Z := u32 (a - KERNBASE).
Definition P2V (a : Z) : Z := u32 (a + KERNBASE).

(** ** The state of one CPU *)

Record sleeplock := mkSl { sl_locked : bool; sl_pid : Z }.
Definition sl_init : sleeplock := mkSl false 0.

Record kcore := mkCore {
  held : list lockid;         (* spin locks this CPU holds, latest first *)
  cur : option nat;           (* cpu->proc *)
  procs : list proc;          (* ptable.proc *)
  nextpid : Z;
  initproc : option nat;
  slocks : gmap slid sleeplock;
  cr3 : Z;                    (* page directory base register *)
  esp0 : Z;                   (* ts.esp0 *)
  kpgdir : Z }.

Definition set_held v c := mkCore v (cur c) (procs c) (nextpid c) (initproc c) (slocks c)
  (cr3 c) (esp0 c) (kpgdir c).
Definition set_cur v c := mkCore (held c) v (procs c) (nextpid c) (initproc c) (slocks c)
  (cr3 c) (esp0 c) (kpgdir c).
Definition set_procs v c := mkCore (held c) (cur c) v (nextpid c) (initproc c) (slocks c)
  (cr3 c) (esp0 c) (kpgdir c).
Definition set_nextpid v c := mkCore (held c) (cur c) (procs c) v (initproc c) (slocks c)
  (cr3 c) (esp0 c) (kpgdir c).
Definition set_initproc v c := mkCore (held c) (cur c) (procs c) (nextpid c) v (slocks c)
  (cr3 c) (esp0 c) (kpgdir c).
Definition set_slocks v c := mkCore (held c) (cur c) (procs c) (nextpid c) (initproc c) v
  (cr3 c) (esp0 c) (kpgdir c).
Definition set_cr3 v c := mkCore (held c) (cur c) (procs c) (nextpid c) (initproc c) (slocks c)
  v (esp0 c) (kpgdir c).
Definition set_esp0 v c := mkCore (held c) (cur c) (procs c) (nextpid c) (initproc c) (slocks c)
  (cr3 c) v (kpgdir c).

Definition set_kpgdir v c := mkCore (held c) (cur c) (procs c) (nextpid c) (initproc c) (slocks c)
  (cr3 c) (esp0 c) v.

(** [p->f = v] for the process with index [i]. *)
Definition upd_proc (i : nat) (f : proc -> proc) : M kcore unit :=
  p ← (ps ← gets procs; idx ps i);
  modify (fun c => set_procs (<[i := f p]> (procs c)) c).
Definition get_proc (i : nat) : M kcore proc := ps ← gets procs; idx ps i.

(** ** Spin locks, the view of one CPU *)

Definition holding (lk : lockid) : M kcore bool := gets (fun c => bool_decide (lk ∈ held c)).

Fixpoint remove1 (lk : lockid) (l : list lockid) : list lockid :=
  match l with
  | [] => []
  | x :: l' => if decide (x = lk) then l' else x :: remove1 lk l'
  end.

Definition acquire (lk : lockid) : M kcore unit :=
  h ← holding lk;
  if (h : bool) then panic "acquire"
  else modify (fun c => set_held (lk :: held c) c).

Definition release (lk : lockid) : M kcore unit :=
  h ← holding lk;
  if (h : bool) then modify (fun c => set_held (remove1 lk (held c)) c)
  else panic "release".

Definition myproc : M kcore (option nat) := gets cur.
Definition curproc : M kcore nat := p ← myproc; deref p.

(** ** Scheduling *)

(** Switch to the scheduler.  The interrupt-flag test of the source cannot
    fire here: interrupts are off while a spin lock is held. *)
Definition sched : M kcore unit :=
  p ← curproc;
  h ← holding LkPtable;
  if negb h then panic "sched ptable.lock" else
  hs ← gets held;
  if negb (length hs =? 1)%nat then panic "sched locks" else
  pr ← get_proc p;
  if bool_decide (p_state pr = RUNNING) then panic "sched running" else
  fun c => Switched c.

Definition yield : M kcore unit :=
  acquire LkPtable ;;
  p ← curproc;
  upd_proc p (set_p_state RUNNABLE) ;;
  sched.
(** What [yield] does once the scheduler switches back to it. *)
Definition yield_resume : M kcore unit := release LkPtable.

(** Atomically release [lk] and sleep on [ch]. *)
Definition sleep (ch : chan) (lk : lockid) : M kcore unit :=
  mp ← myproc;
  match mp with
  | None => panic "sleep"
  | Some p =>
    (if decide (lk = LkPtable) then skip else acquire LkPtable ;; release lk) ;;
    upd_proc p (set_p_chan (Some ch)) ;;
    upd_proc p (set_p_state SLEEPING) ;;
    sched
  end.
(** The rest of [sleep], after [sched] returns. *)
Definition sleep_resume (lk : lockid) : M kcore unit :=
  p ← curproc;
  upd_proc p (set_p_chan None) ;;
  if decide (lk = LkPtable) then skip else release LkPtable ;; acquire lk.

Definition wake (ch : option chan) (p : proc) : proc :=
  if decide (p_state p = SLEEPING /\ p_chan p = ch) then set_p_state RUNNABLE p else p.
Definition wakeup1 (ch : option chan) : M kcore unit :=
  modify (fun c => set_procs (wake ch <$> procs c) c).
Definition wakeup (ch : chan) : M kcore unit :=
  acquire LkPtable ;; wakeup1 (Some ch) ;; release LkPtable.

Definition kill_found (p : proc) : proc :=
  let p := set_p_killed 1 p in
  if decide (p_state p = SLEEPING) then set_p_state RUNNABLE p else p.
Definition kill (pid : Z) : M kcore Z :=
  acquire LkPtable ;;
  ps ← gets procs;
  match list_find (fun p => p_pid p = pid) ps with
  | Some (i, _) => upd_proc i kill_found ;; release LkPtable ;; mret 0
  | None => release LkPtable ;; mret (-1)
  end.

(** Switch TSS and page table to process [i].  Of the task state only [esp0]
    differs between processes. *)
Definition switchuvm (i : option nat) : M kcore unit :=
  match i with None => panic "switchuvm: no process" | Some i =>
  p ← get_proc i;
  if p_kstack p =? 0 then panic "switchuvm: no kstack" else
  if p_pgdir p =? 0 then panic "switchuvm: no pgdir" else
  modify (fun c => set_cr3 (V2P (p_pgdir p)) (set_esp0 (u32 (p_kstack p + KSTACKSIZE)) c))
  end.
Definition switchkvm : M kcore unit := modify (fun c => set_cr3 (V2P (kpgdir c)) c).

(** One pass of [scheduler]'s inner loop from slot [i]: dispatch the first
    RUNNABLE process at or after [i] ([Some] its index; the CPU then runs it
    until it switches back), or finish the pass. *)
Definition scheduler_from (i : nat) : M kcore (option nat) :=
  ps ← gets procs;
  match list_find (fun p => p_state p = RUNNABLE) (drop i ps) with
  | Some (j, _) =>
      let k := (i + j)%nat in
      modify (set_cur (Some k)) ;;
      switchuvm (Some k) ;;
      upd_proc k (set_p_state RUNNING) ;;
      mret (Some k)
  | None => release LkPtable ;; mret None
  end.
(** Start of a pass, and the return of a process to the scheduler. *)
Definition scheduler_start : M kcore (option nat) := acquire LkPtable ;; scheduler_from 0.
Definition scheduler_back (i : nat) : M kcore (option nat) :=
  switchkvm ;; modify (set_cur None) ;; scheduler_from (S i).

(** ** Sleep locks *)

Definition sl_of (c : kcore) (l : slid) : sleeplock := default sl_init (slocks c !! l).
Definition set_sl (l : slid) (v : sleeplock) (c : kcore) : kcore :=
  set_slocks (<[l := v]> (slocks c)) c.

Definition initsleeplock (l : slid) : M kcore unit := modify (set_sl l sl_init).

(** The loop of [acquiresleep]; [sleep] never returns here, the process comes
    back through [acquiresleep_resume]. *)
Definition acquiresleep_loop (l : slid) : M kcore unit :=
  v ← gets (fun c => sl_of c l);
  if sl_locked v then sleep (ChSleep l) (LkSleep l) else
  p ← curproc; pr ← get_proc p;
  modify (set_sl l (mkSl true (p_pid pr))) ;;
  release (LkSleep l).
Definition acquiresleep (l : slid) : M kcore unit :=
  acquire (LkSleep l) ;; acquiresleep_loop l.
Definition acquiresleep_resume (l : slid) : M kcore unit :=
  sleep_resume (LkSleep l) ;; acquiresleep_loop l.

Definition releasesleep (l : slid) : M kcore unit :=
  acquire (LkSleep l) ;;
  modify (set_sl l (mkSl false 0)) ;;
  wakeup (ChSleep l) ;;
  release (LkSleep l).

Definition holdingsleep (l : slid) : M kcore bool :=
  acquire (LkSleep l) ;;
  v ← gets (fun c => sl_of c l);
  r ← (if sl_locked v
       then p ← curproc; pr ← get_proc p; mret (sl_pid v =? p_pid pr)
       else mret false);
  release (LkSleep l) ;;
  mret r.

(** ** Lemmas *)

(** Membership in the list of held locks. *)
Ltac solve_lk :=
  cbn; try match goal with H : held _ = [] |- _ => rewrite H end; cbn;
  first [ apply list_elem_of_here | apply not_elem_of_nil
        | rewrite ?not_elem_of_cons; repeat split; first [done | apply not_elem_of_nil] ].

(** The pid of the current process, [None] when there is none. *)
Definition mypid (c : kcore) : option Z := i ← cur c; p ← procs c !! i; Some (p_pid p).

(** What the file-system and pipe routines keep: the locks held, the current
    process, and every process up to its scheduling state (a wakeup turns
    sleepers runnable). *)
Definition anystate (p : proc) : proc := set_p_state UNUSED p.
Definition core_step (c c' : kcore) : Prop :=
  held c' = held c /\ cur c' = cur c /\ anystate <$> procs c' = anystate <$> procs c.

Lemma core_step_refl c : core_step c c.
Proof. done. Qed.
Lemma core_step_trans c1 c2 c3 : core_step c1 c2 -> core_step c2 c3 -> core_step c1 c3.
Proof. intros (? & ? & ?) (? & ? & ?). repeat split; congruence. Qed.

#[export] Instance core_step_preorder : PreOrder core_step.
Proof. split; [exact core_step_refl|exact core_step_trans]. Qed.

#[export] Hint Resolve core_step_refl : core.

Lemma remove1_cons lk l : remove1 lk (lk :: l) = l.
Proof. cbn. by rewrite decide_True. Qed.

Lemma set_held_held c : set_held (held c) c = c.
Proof. by destruct c. Qed.

Lemma mypid_Some c pid :
  mypid c = Some pid ->
  exists i p, cur c = Some i /\ procs c !! i = Some p /\ p_pid p = pid.
Proof.
  unfold mypid. destruct (cur c) as [i|]; [cbn|done].
  destruct (procs c !! i) as [p|] eqn:Hp; [cbn|done]. intros [= <-]. eauto.
Qed.

Lemma wake_anystate ch p : anystate (wake ch p) = anystate p.
Proof. unfold wake. by case_decide. Qed.

Lemma core_step_proc c c' i p :
  core_step c c' -> procs c !! i = Some p ->
  exists p', procs c' !! i = Some p' /\ anystate p' = anystate p.
Proof.
  intros (_ & _ & Heq) Hp. apply (f_equal (fun l => l !! i)) in Heq.
  rewrite !list_lookup_fmap, Hp in Heq. cbn in Heq.
  destruct (procs c' !! i) as [p'|]; cbn in Heq; [|done]. exists p'. split; congruence.
Qed.

Lemma core_step_mypid c c' pid : core_step c c' -> mypid c = Some pid -> mypid c' = Some pid.
Proof.
  intros Hs (i & p & Hi & Hp & <-)%mypid_Some.
  destruct (core_step_proc _ _ _ _ Hs Hp) as (p' & Hp' & Heq).
  destruct Hs as (_ & Hc & _). unfold mypid. rewrite Hc, Hi. cbn. rewrite Hp'. cbn.
  apply (f_equal p_pid) in Heq. cbn in Heq. by rewrite Heq.
Qed.

Section specs.
Implicit Types c : kcore.

Lemma wp_acquire lk Q c :
  lk ∉ held c -> Q tt (set_held (lk :: held c) c) -> wp (acquire lk) Q c.
Proof.
  intros Hn HQ. unfold acquire, holding. wp_simpl. by rewrite bool_decide_false.
Qed.

Lemma wp_release lk Q c :
  lk ∈ held c -> Q tt (set_held (remove1 lk (held c)) c) -> wp (release lk) Q c.
Proof.
  intros Hn HQ. unfold release, holding. wp_simpl. by rewrite bool_decide_true.
Qed.

Lemma wp_curproc i Q c : cur c = Some i -> Q i c -> wp curproc Q c.
Proof. intros Hc HQ. unfold curproc, myproc. wp_simpl. by rewrite Hc. Qed.

Lemma wp_get_proc i p Q c : procs c !! i = Some p -> Q p c -> wp (get_proc i) Q c.
Proof. intros Hp HQ. unfold get_proc. wp_simpl. by eapply wp_idx. Qed.

Lemma wp_upd_proc i f p Q c :
  procs c !! i = Some p -> Q tt (set_procs (<[i := f p]> (procs c)) c) ->
  wp (upd_proc i f) Q c.
Proof. intros Hp HQ. unfold upd_proc. wp_simpl. by eapply wp_idx. Qed.

Lemma wp_wakeup ch Q c :
  LkPtable ∉ held c -> Q tt (set_procs (wake (Some ch) <$> procs c) c) ->
  wp (wakeup ch) Q c.
Proof.
  intros Hn HQ. unfold wakeup, wakeup1. wp_simpl.
  apply wp_acquire; [done|]. wp_simpl. apply wp_release; [solve_lk|].
  cbn [set_procs set_held held]. rewrite remove1_cons.
  by destruct c.
Qed.

(** Taking a free sleep lock. *)
Lemma wp_acquiresleep l pid Q c :
  held c = [] -> mypid c = Some pid -> sl_locked (sl_of c l) = false ->
  Q tt (set_sl l (mkSl true pid) c) -> wp (acquiresleep l) Q c.
Proof.
  intros Hh (i & p & Hi & Hp & <-)%mypid_Some Hl HQ.
  unfold acquiresleep, acquiresleep_loop. wp_simpl.
  apply wp_acquire; [solve_lk|]. wp_simpl.
  change (sl_of (set_held (LkSleep l :: held c) c) l) with (sl_of c l). rewrite Hl.
  wp_simpl. apply (wp_curproc i); [done|]. wp_simpl.
  apply (wp_get_proc i p); [done|]. wp_simpl.
  apply wp_release; [solve_lk|].
  cbn [set_sl set_slocks set_held held]. rewrite remove1_cons. by destruct c.
Qed.

Lemma wp_releasesleep l Q c :
  held c = [] ->
  Q tt (set_sl l (mkSl false 0) (set_procs (wake (Some (ChSleep l)) <$> procs c) c)) ->
  wp (releasesleep l) Q c.
Proof.
  intros Hh HQ. unfold releasesleep. wp_simpl.
  apply wp_acquire; [solve_lk|]. wp_simpl.
  apply wp_wakeup; [solve_lk|].
  apply wp_release; [solve_lk|].
  cbn [set_sl set_slocks set_held held set_procs]. rewrite remove1_cons. by destruct c.
Qed.

Lemma wp_holdingsleep l pid Q c :
  held c = [] -> mypid c = Some pid ->
  Q (sl_locked (sl_of c l) && (sl_pid (sl_of c l) =? pid)) c -> wp (holdingsleep l) Q c.
Proof.
  intros Hh (i & p & Hi & Hp & <-)%mypid_Some HQ. unfold holdingsleep. wp_simpl.
  apply wp_acquire; [solve_lk|]. wp_simpl.
  change (sl_of (set_held (LkSleep l :: held c) c) l) with (sl_of c l).
  eapply (wp_mono _ (fun r c' => r = sl_locked (sl_of c l) && (sl_pid (sl_of c l) =? p_pid p)
                      /\ c' = set_held (LkSleep l :: held c) c)).
  - destruct (sl_locked (sl_of c l)); [|done]. wp_simpl.
    apply (wp_curproc i); [done|]. wp_simpl. by apply (wp_get_proc i p).
  - intros r c' [-> ->]. wp_simpl. apply wp_release; [solve_lk|]. wp_simpl.
    cbn [set_held held]. rewrite remove1_cons. by destruct c.
Qed.
End specs.

Lemma core_step_sl l v c : core_step c (set_sl l v c).
Proof. done. Qed.

Lemma core_step_wake ch c : core_step c (set_procs (wake ch <$> procs c) c).
Proof.
  repeat split. cbn. rewrite <- list_fmap_compose. apply list_fmap_ext. intros i p _.
  apply wake_anystate.
Qed.

Lemma sl_of_set_eq l v c : sl_of (set_sl l v c) l = v.
Proof. unfold sl_of, set_sl. cbn. by rewrite lookup_insert_eq. Qed.

Lemma sl_of_set_ne l l' v c : l <> l' -> sl_of (set_sl l v c) l' = sl_of c l'.
Proof. intros. unfold sl_of, set_sl. cbn. by rewrite lookup_insert_ne. Qed.

#[export] Hint Resolve core_step_sl core_step_wake : core.
