(* ===== verification/Dll.v ===== *)
(** * Circular doubly linked lists

    Pointers are indices into a table of nodes.  [chain nx pv a ls z] states
    that following the [next] fields [nx] from [a] visits the nodes of [ls] in
    order and reaches [z], and that the [prev] fields [pv] lead back. *)

From S2P Require Import Prelude.

Definition fupd {A} (f : nat -> A) (k : nat) (v : A) : nat -> A :=
  fun i => if decide (i = k) then v else f i.

Lemma fupd_eq {A} (f : nat -> A) k v : fupd f k v k = v.
Proof. unfold fupd. by rewrite decide_True. Qed.
Lemma fupd_ne {A} (f : nat -> A) k v i : i <> k -> fupd f k v i = f i.
Proof. intros. unfold fupd. by rewrite decide_False. Qed.

Fixpoint chain (nx pv : nat -> nat) (a : nat) (ls : list nat) (z : nat) : Prop :=
  match ls with
  | [] => nx a = z /\ pv z = a
  | x :: ls' => nx a = x /\ pv x = a /\ chain nx pv x ls' z
  end.

Section chains.
Implicit Types (nx pv : nat -> nat) (ls : list nat).

Lemma chain_app nx pv a l1 x l2 z :
  chain nx pv a (l1 ++ x :: l2) z <-> chain nx pv a l1 x /\ chain nx pv x l2 z.
Proof. revert a. induction l1 as [|y l1 IH]; intros a; cbn; [tauto|]. rewrite IH. tauto. Qed.

Lemma chain_ext nx pv nx' pv' a ls z :
  (forall y, y = a \/ y ∈ ls -> nx' y = nx y) ->
  (forall y, y = z \/ y ∈ ls -> pv' y = pv y) ->
  chain nx pv a ls z -> chain nx' pv' a ls z.
Proof.
  revert a. induction ls as [|x ls IH]; intros a Hn Hp; cbn.
  - intros [H1 H2]. rewrite Hn, Hp by (by left). done.
  - intros (H1 & H2 & Hc). split_and!.
    + rewrite Hn by (by left). done.
    + rewrite Hp by (right; left). done.
    + apply IH; [| |done].
      * intros y Hy. apply Hn. right. destruct Hy as [->|Hy]; [left|by right].
      * intros y [->|Hy]; apply Hp; [by left|right; by right].
Qed.

(** The first node after [a] and the last node before [z]. *)
Lemma chain_first nx pv a ls z : chain nx pv a ls z -> nx a = default z (head ls).
Proof. destruct ls; cbn; tauto. Qed.

Lemma chain_last nx pv a ls z : chain nx pv a ls z -> pv z = default a (last ls).
Proof.
  revert a. induction ls as [|x ls IH]; intros a; cbn [chain]; [by intros [_ <-]|].
  intros (_ & _ & H%IH). rewrite last_cons. by destruct (last ls).
Qed.

(** Read backwards, a chain is a chain of the [prev] fields. *)
Lemma chain_rev nx pv a ls z : chain nx pv a ls z -> chain pv nx z (reverse ls) a.
Proof.
  revert a. induction ls as [|x ls IH]; intros a; cbn [chain].
  - rewrite reverse_nil. cbn. tauto.
  - intros (H1 & H2 & H3%IH). rewrite reverse_cons. apply chain_app. cbn. tauto.
Qed.

(** Redirecting the end of a chain to another node. *)
Lemma chain_retarget nx pv a ls z n :
  NoDup (a :: ls) -> n ∉ ls -> chain nx pv a ls z ->
  chain (fupd nx (default a (last ls)) n) (fupd pv n (default a (last ls))) a ls n.
Proof.
  revert a. induction ls as [|x ls IH]; intros a Hnd Hn Hc; cbn.
  - by rewrite !fupd_eq.
  - destruct Hc as (<- & Hpx & Hc).
    apply NoDup_cons in Hnd as [Ha Hnd]. apply not_elem_of_cons in Hn as [Hnx Hn].
    specialize (IH _ Hnd Hn Hc).
    assert (default a (last (nx a :: ls)) = default (nx a) (last ls)) as Hl
      by (rewrite last_cons; by destruct (last ls)).
    cbn [last] in Hl. cbn [last]. rewrite Hl.
    assert (default (nx a) (last ls) ∈ nx a :: ls) as Hin.
    { destruct (last ls) as [y|] eqn:E; cbn; [|left].
      right. by apply last_Some_elem_of. }
    split_and!.
    + apply fupd_ne. intros E. apply Ha. by rewrite <- E in Hin.
    + by rewrite fupd_ne.
    + done.
Qed.

(** [b->next->prev = b->prev; b->prev->next = b->next] *)
Lemma chain_unlink nx pv h l1 b l2 :
  NoDup (h :: l1 ++ b :: l2) -> chain nx pv h (l1 ++ b :: l2) h ->
  chain (fupd nx (pv b) (nx b)) (fupd pv (nx b) (pv b)) h (l1 ++ l2) h.
Proof.
  intros Hnd [H1 H2]%chain_app.
  rewrite (chain_first _ _ _ _ _ H2), (chain_last _ _ _ _ _ H1).
  apply NoDup_cons in Hnd as [Hh Hnd]. apply NoDup_app in Hnd as (Hnd1 & Hd & Hnd2).
  apply NoDup_cons in Hnd2 as [Hb Hnd2].
  assert (NoDup (h :: l1)) as Hnd1' by (apply NoDup_cons; set_solver).
  destruct l2 as [|y l2]; cbn [head default].
  - rewrite app_nil_r. eapply chain_retarget; eauto. set_solver.
  - apply chain_app. destruct H2 as (_ & _ & H2). split.
    + eapply chain_retarget; eauto. set_solver.
    + assert (default h (last l1) = h \/ default h (last l1) ∈ l1) as Hl.
      { destruct (last l1) eqn:E; [right; by apply last_Some_elem_of|by left]. }
      apply NoDup_cons in Hnd2 as [Hy Hnd2].
      set (d := default h (last l1)) in *. clearbody d.
      eapply chain_ext; [| |exact H2].
      * intros w Hw. apply fupd_ne. intros ->.
        destruct Hl as [->|Hl]; [|apply (Hd d Hl)]; set_solver.
      * intros w Hw. apply fupd_ne. intros ->. set_solver.
Qed.

(** [b->next = head.next; b->prev = &head; head.next->prev = b; head.next = b] *)
Lemma chain_push nx pv h ls b :
  b <> h -> b ∉ ls -> h ∉ ls -> NoDup ls -> chain nx pv h ls h ->
  chain (fupd (fupd nx b (nx h)) h b) (fupd (fupd pv b h) (nx h) b) h (b :: ls) h.
Proof.
  intros Hbh Hb Hh Hnd Hc. cbn [chain].
  pose proof (chain_first _ _ _ _ _ Hc) as Hf.
  assert (b <> nx h) as Hbn.
  { rewrite Hf. destruct ls as [|y ls]; cbn; [done|]. set_solver. }
  split_and!.
  - apply fupd_eq.
  - by rewrite fupd_ne, fupd_eq.
  - destruct ls as [|y ls]; cbn [chain] in *.
    + destruct Hc as [Hn Hp]. split.
      * by rewrite fupd_ne, fupd_eq.
      * rewrite Hn. apply fupd_eq.
    + destruct Hc as (Hn & Hp & Hc). split_and!.
      * by rewrite fupd_ne, fupd_eq.
      * rewrite Hn. apply fupd_eq.
      * apply NoDup_cons in Hnd as [Hy Hnd].
        eapply chain_ext; [| |exact Hc].
        -- intros w Hw. rewrite !fupd_ne; set_solver.
        -- intros w Hw. rewrite Hn, !fupd_ne; set_solver.
Qed.

(** The neighbours of a node are on the list. *)
Lemma chain_next_in nx pv h ls b :
  chain nx pv h ls h -> b ∈ h :: ls -> nx b ∈ h :: ls.
Proof.
  intros Hc Hb. apply elem_of_cons in Hb as [->|(l1 & l2 & ->)%list_elem_of_split].
  - rewrite (chain_first _ _ _ _ _ Hc). destruct ls; cbn; set_solver.
  - apply chain_app in Hc as [_ Hc]. rewrite (chain_first _ _ _ _ _ Hc).
    destruct l2; cbn; set_solver.
Qed.

Lemma chain_prev_in nx pv h ls b :
  chain nx pv h ls h -> b ∈ ls -> pv b ∈ h :: ls.
Proof.
  intros Hc (l1 & l2 & ->)%list_elem_of_split. apply chain_app in Hc as [Hc _].
  rewrite (chain_last _ _ _ _ _ Hc). destruct (last l1) as [y|] eqn:E; cbn; [|left].
  apply last_Some_elem_of in E. set_solver.
Qed.

Lemma chain_next_ne nx pv h ls b :
  NoDup (h :: ls) -> chain nx pv h ls h -> b ∈ ls -> nx b <> b.
Proof.
  intros [Hh Hnd]%NoDup_cons Hc (l1 & l2 & ->)%list_elem_of_split.
  apply chain_app in Hc as [_ Hc]. rewrite (chain_first _ _ _ _ _ Hc).
  apply NoDup_app in Hnd as (_ & _ & [Hb _]%NoDup_cons). destruct l2; cbn; set_solver.
Qed.

(** Unlinking [b] and pushing it in front, the updates of [brelse]. *)
Lemma chain_move_front nx pv h l1 b l2 :
  NoDup (h :: l1 ++ b :: l2) -> chain nx pv h (l1 ++ b :: l2) h ->
  let nx2 := fupd nx (pv b) (nx b) in let pv2 := fupd pv (nx b) (pv b) in
  nx2 h ∈ h :: l1 ++ b :: l2 /\
  chain (fupd (fupd nx2 b (nx2 h)) h b) (fupd (fupd pv2 b h) (nx2 h) b) h (b :: l1 ++ l2) h.
Proof.
  intros Hnd Hc nx2 pv2. pose proof (chain_unlink _ _ _ _ _ _ Hnd Hc) as Hu.
  fold nx2 pv2 in Hu. split.
  - pose proof (chain_next_in _ _ _ _ h Hu) as Hin. set_solver.
  - apply NoDup_cons in Hnd as [Hh Hnd]. rewrite <- Permutation_middle in Hnd.
    apply NoDup_cons in Hnd as [Hb Hnd]. apply chain_push; [set_solver..|done|done].
Qed.
End chains.
