(* ===== verification/Bio.v ===== *)
(** * The buffer cache and the disk below it

    Models [buf.h], [bio.c] and the disk of [memide.c].  A [struct buf*] is an
    index into [bufs], the array [bcache.buf] followed by [bcache.head], which
    is where the C struct places it: [&bcache.head] is the index [HEAD].  The
    sleep lock of buffer [i] is [SlBuf i] of the process layer.  The disk is a
    list of blocks; [dtrace] is a ghost field, the blocks written so far in
    order, from which the crash theorems of [Log.v] cut. *)

From S2P Require Import Prelude Bytes Core Dll.

Definition NBUF : nat := 30.
Definition HEAD : nat := NBUF.
Definition BSIZE : Z := 512.
Definition B_VALID : Z := 2.
Definition B_DIRTY : Z := 4.

Abbreviation block := (list Z).

Record buf := mkBuf {
  b_flags : Z;
  b_dev : Z;
  b_blockno : Z;
  b_refcnt : Z;
  b_prev : nat;
  b_next : nat;
  b_data : block }.

Definition set_b_flags v b := mkBuf v (b_dev b) (b_blockno b) (b_refcnt b) (b_prev b) (b_next b) (b_data b).
Definition set_b_dev v b := mkBuf (b_flags b) v (b_blockno b) (b_refcnt b) (b_prev b) (b_next b) (b_data b).
Definition set_b_blockno v b := mkBuf (b_flags b) (b_dev b) v (b_refcnt b) (b_prev b) (b_next b) (b_data b).
Definition set_b_refcnt v b := mkBuf (b_flags b) (b_dev b) (b_blockno b) v (b_prev b) (b_next b) (b_data b).
Definition set_b_prev v b := mkBuf (b_flags b) (b_dev b) (b_blockno b) (b_refcnt b) v (b_next b) (b_data b).
Definition set_b_next v b := mkBuf (b_flags b) (b_dev b) (b_blockno b) (b_refcnt b) (b_prev b) v (b_data b).
Definition set_b_data v b := mkBuf (b_flags b) (b_dev b) (b_blockno b) (b_refcnt b) (b_prev b) (b_next b) v.

Record bst := mkBst {
  bcore : kcore;
  disk : list block;
  bufs : list buf;
  dtrace : list (nat * block) }.

Definition set_bcore v s := mkBst v (disk s) (bufs s) (dtrace s).
Definition set_bufs v s := mkBst (bcore s) (disk s) v (dtrace s).

#[export] Instance bst_core : Lens bst kcore := {| lget := bcore; lset := set_bcore |}.
#[export] Instance bst_core_ok : LensOk bst kcore.
Proof. split; [done|by intros []|done]. Qed.

Definition get_buf (b : nat) : M bst buf := bs ← gets bufs; idx bs b.
Definition upd_buf (b : nat) (f : buf -> buf) : M bst unit :=
  x ← get_buf b; modify (fun s => set_bufs (<[b := f x]> (bufs s)) s).

(** Writing a block of the disk. *)
Definition disk_write (n : nat) (d : block) : M bst unit :=
  modify (fun s => mkBst (bcore s) (<[n := d]> (disk s)) (bufs s) (dtrace s ++ [(n, d)])).

(** ** memide.c: iderw *)
Definition iderw (b : nat) : M bst unit :=
  h ← lift (holdingsleep (SlBuf b));
  if negb h then panic "iderw: buf not locked" else
  x ← get_buf b;
  if Z.land (b_flags x) (Z.lor B_VALID B_DIRTY) =? B_VALID
  then panic "iderw: nothing to do" else
  if negb (b_dev x =? 1) then panic "iderw: request not for disk 1" else
  dk ← gets disk;
  if Z.of_nat (length dk) <=? b_blockno x then panic "iderw: block out of range" else
  let p := Z.to_nat (b_blockno x) in
  (if negb (Z.land (b_flags x) B_DIRTY =? 0)
   then upd_buf b (fun x => set_b_flags (Z.land (b_flags x) (Z.lnot B_DIRTY)) x) ;;
        disk_write p (b_data x)
   else d ← idx dk p; upd_buf b (set_b_data d)) ;;
  upd_buf b (fun x => set_b_flags (Z.lor (b_flags x) B_VALID) x).

(** ** bio.c *)

Definition binit : M bst unit :=
  upd_buf HEAD (set_b_prev HEAD) ;;
  upd_buf HEAD (set_b_next HEAD) ;;
  for_range 0 NBUF (fun b =>
    h ← get_buf HEAD;
    upd_buf b (set_b_next (b_next h)) ;;
    upd_buf b (set_b_prev HEAD) ;;
    lift (initsleeplock (SlBuf b)) ;;
    upd_buf (b_next h) (set_b_prev b) ;;
    upd_buf HEAD (set_b_next b)).

(** Is the block already cached?  From the most recently used end. *)
Definition bget_lookup (dev blockno : Z) (b : nat) : M bst (nat + option nat) :=
  if (b =? HEAD)%nat then mret (inr None) else
  x ← get_buf b;
  if (b_dev x =? dev) && (b_blockno x =? blockno) then mret (inr (Some b))
  else mret (inl (b_next x)).
(** An unused buffer, from the least recently used end. *)
Definition bget_unused (b : nat) : M bst (nat + option nat) :=
  if (b =? HEAD)%nat then mret (inr None) else
  x ← get_buf b;
  if (b_refcnt x =? 0) && (Z.land (b_flags x) B_DIRTY =? 0) then mret (inr (Some b))
  else mret (inl (b_prev x)).

Definition bget (dev blockno : Z) : M bst nat :=
  lift (acquire LkBcache) ;;
  h ← get_buf HEAD;
  r ← loop (S (S NBUF)) (bget_lookup dev blockno) (b_next h);
  match r with
  | Some b =>
      upd_buf b (fun x => set_b_refcnt (u32 (b_refcnt x + 1)) x) ;;
      lift (release LkBcache) ;;
      lift (acquiresleep (SlBuf b)) ;;
      mret b
  | None =>
      r ← loop (S (S NBUF)) bget_unused (b_prev h);
      match r with
      | Some b =>
          upd_buf b (fun x => set_b_refcnt 1 (set_b_flags 0 (set_b_blockno blockno (set_b_dev dev x)))) ;;
          lift (release LkBcache) ;;
          lift (acquiresleep (SlBuf b)) ;;
          mret b
      | None => panic "bget: no buffers"
      end
  end.

Definition bread (dev blockno : Z) : M bst nat :=
  b ← bget dev blockno;
  x ← get_buf b;
  (if Z.land (b_flags x) B_VALID =? 0 then iderw b else skip) ;;
  mret b.

Definition bwrite (b : nat) : M bst unit :=
  h ← lift (holdingsleep (SlBuf b));
  if negb h then panic "bwrite" else
  upd_buf b (fun x => set_b_flags (Z.lor (b_flags x) B_DIRTY) x) ;;
  iderw b.

(** The list updates of [brelse]: unlink [b] and put it at the head. *)
Definition move_front (b : nat) : M bst unit :=
  x ← get_buf b;
  upd_buf (b_next x) (set_b_prev (b_prev x)) ;;
  x ← get_buf b;
  upd_buf (b_prev x) (set_b_next (b_next x)) ;;
  h ← get_buf HEAD;
  upd_buf b (set_b_next (b_next h)) ;;
  upd_buf b (set_b_prev HEAD) ;;
  upd_buf (b_next h) (set_b_prev b) ;;
  upd_buf HEAD (set_b_next b).

Definition brelse (b : nat) : M bst unit :=
  h ← lift (holdingsleep (SlBuf b));
  if negb h then panic "brelse" else
  lift (releasesleep (SlBuf b)) ;;
  lift (acquire LkBcache) ;;
  upd_buf b (fun x => set_b_refcnt (u32 (b_refcnt x - 1)) x) ;;
  x ← get_buf b;
  (if b_refcnt x =? 0 then move_front b else skip) ;;
  lift (release LkBcache).

(** ** Well-formed cache states

    The cache as one process sees it between scheduling points: a buffer is
    referenced exactly when its sleep lock is held. *)

Definition block_ok (d : block) : Prop := length d = Z.to_nat BSIZE /\ bytes_ok d.

Definition nxt (bs : list buf) (i : nat) : nat := from_option b_next 0%nat (bs !! i).
Definition prv (bs : list buf) (i : nat) : nat := from_option b_prev 0%nat (bs !! i).

(** The LRU list: [ls] lists all buffers, most recently used first. *)
Definition lru (bs : list buf) (ls : list nat) : Prop :=
  ls ≡ₚ seq 0 NBUF /\ chain (nxt bs) (prv bs) HEAD ls HEAD.

Definition blocked (c : kcore) (i : nat) : bool := sl_locked (sl_of c (SlBuf i)).

Record buf_ok (c : kcore) (dk : list block) (i : nat) (b : buf) : Prop := {
  bo_flags : b_flags b = 0 \/ b_flags b = 2 \/ b_flags b = 6;
  bo_data : block_ok (b_data b);
  bo_ref : b_refcnt b = if blocked c i then 1 else 0;
  bo_dev : b_flags b <> 0 -> b_dev b = 1 /\ 0 <= b_blockno b < Z.of_nat (length dk);
  bo_coh : b_flags b = 2 -> blocked c i = false ->
           dk !! Z.to_nat (b_blockno b) = Some (b_data b) }.

Record bio_inv (s : bst) : Prop := {
  bi_len : length (bufs s) = S NBUF;
  bi_lru : exists ls, lru (bufs s) ls;
  bi_disk : Forall block_ok (disk s);
  bi_buf : forall i b, (i < NBUF)%nat -> bufs s !! i = Some b -> buf_ok (bcore s) (disk s) i b;
  bi_head : forall b, bufs s !! HEAD = Some b -> b_flags b = 0 /\ b_dev b = 0;
  bi_uniq : forall i j bi bj, bufs s !! i = Some bi -> bufs s !! j = Some bj ->
            b_dev bi = 1 -> b_dev bj = 1 -> b_blockno bi = b_blockno bj -> i = j }.

(** The contents of block [n] as the file system sees it: the cached copy if
    there is one, the disk otherwise. *)
Definition caches (n : Z) (b : buf) : Prop := b_flags b <> 0 /\ b_dev b = 1 /\ b_blockno b = n.
#[export] Instance caches_dec n b : Decision (caches n b).
Proof. unfold caches. apply _. Defined.
Definition view (s : bst) (n : Z) : block :=
  match list_find (caches n) (bufs s) with
  | Some (_, b) => b_data b
  | None => default [] (disk s !! Z.to_nat n)
  end.

(** ** The list walks of bget *)

Fixpoint find_idx (P : buf -> bool) (bs : list buf) (l : list nat) : option nat :=
  match l with
  | [] => None
  | i :: l' => match bs !! i with
      | Some x => if P x then Some i else find_idx P bs l'
      | None => None
      end
  end.

Definition has_block (dev n : Z) (x : buf) : bool := (b_dev x =? dev) && (b_blockno x =? n).
Definition unused (x : buf) : bool := (b_refcnt x =? 0) && (Z.land (b_flags x) B_DIRTY =? 0).

Lemma find_idx_Some P bs l i :
  find_idx P bs l = Some i -> i ∈ l /\ exists x, bs !! i = Some x /\ P x = true.
Proof.
  induction l as [|j l IH]; cbn; [done|].
  destruct (bs !! j) as [x|] eqn:Hj; [|done]. destruct (P x) eqn:HP.
  - intros [= <-]. split; [left|eauto].
  - intros H%IH. destruct H as [H1 H2]. split; [by right|done].
Qed.

Lemma find_idx_None P bs l :
  (forall i, i ∈ l -> is_Some (bs !! i)) ->
  find_idx P bs l = None -> forall i x, i ∈ l -> bs !! i = Some x -> P x = false.
Proof.
  intros Hin. induction l as [|j l IH]; cbn; [set_solver|].
  destruct (Hin j) as [y Hy]; [left|]. rewrite Hy. destruct (P y) eqn:HP; [done|].
  intros Hn i x Hi Hx. apply elem_of_cons in Hi as [->|Hi]; [congruence|].
  eapply IH; eauto. intros k Hk. apply Hin. by right.
Qed.

Lemma nxt_lookup bs i x : bs !! i = Some x -> b_next x = nxt bs i.
Proof. unfold nxt. by intros ->. Qed.
Lemma prv_lookup bs i x : bs !! i = Some x -> b_prev x = prv bs i.
Proof. unfold prv. by intros ->. Qed.

(** A walk along the chain [nx] with a step function that tests [P] at each
    node computes [find_idx]. *)
Lemma walk_loop (P : buf -> bool) (nx pv : list buf -> nat -> nat)
    (step : nat -> M bst (nat + option nat)) s :
  length (bufs s) = S NBUF ->
  step HEAD s = Ok (inr None) s ->
  (forall i x, (i < NBUF)%nat -> bufs s !! i = Some x ->
     step i s = Ok (if P x then inr (Some i) else inl (nx (bufs s) i)) s) ->
  forall l a fuel, chain (nx (bufs s)) (pv (bufs s)) a l HEAD ->
    (forall i, i ∈ l -> (i < NBUF)%nat) -> (length l < fuel)%nat ->
    loop fuel step (nx (bufs s) a) s = Ok (find_idx P (bufs s) l) s.
Proof.
  intros Hlen Hhead Hstep l. induction l as [|x l IH]; intros a fuel Hc Hlt Hfuel;
    (destruct fuel as [|fuel]; [cbn in Hfuel; lia|]); cbn [loop].
  - destruct Hc as [-> _]. by rewrite (bind_ok _ _ _ _ _ Hhead).
  - destruct Hc as (-> & _ & Hc).
    assert (x < NBUF)%nat as Hx by (apply Hlt; left).
    destruct (lookup_lt_is_Some_2 (bufs s) x) as [b Hb]; [lia|].
    rewrite (bind_ok _ _ _ _ _ (Hstep _ _ Hx Hb)). cbn [find_idx]. rewrite Hb.
    destruct (P b); [done|]. apply IH; [done| |cbn in Hfuel; lia].
    intros i Hi. apply Hlt. by right.
Qed.

Lemma get_buf_ok s i x : bufs s !! i = Some x -> get_buf i s = Ok x s.
Proof. intros Hi. unfold get_buf, mbind, M_bind, gets, idx. by rewrite Hi. Qed.

Lemma bget_lookup_run dev n s ls :
  length (bufs s) = S NBUF -> lru (bufs s) ls ->
  loop (S (S NBUF)) (bget_lookup dev n) (nxt (bufs s) HEAD) s
  = Ok (find_idx (has_block dev n) (bufs s) ls) s.
Proof.
  intros Hlen [Hp Hc].
  apply (walk_loop (has_block dev n) nxt prv); try done.
  - intros i x Hi Hx. unfold bget_lookup.
    destruct (Nat.eqb_spec i HEAD) as [->|_]; [unfold HEAD in Hi; lia|].
    rewrite (bind_ok _ _ _ _ _ (get_buf_ok _ _ _ Hx)), <- (nxt_lookup _ _ _ Hx).
    fold (has_block dev n x). by destruct (has_block dev n x).
  - intros i Hi. rewrite Hp in Hi. apply elem_of_seq in Hi. lia.
  - rewrite Hp, length_seq. lia.
Qed.

Lemma bget_unused_run s ls :
  length (bufs s) = S NBUF -> lru (bufs s) ls ->
  loop (S (S NBUF)) bget_unused (prv (bufs s) HEAD) s
  = Ok (find_idx unused (bufs s) (reverse ls)) s.
Proof.
  intros Hlen [Hp Hc].
  apply (walk_loop unused prv nxt); try done.
  - intros i x Hi Hx. unfold bget_unused.
    destruct (Nat.eqb_spec i HEAD) as [->|_]; [unfold HEAD in Hi; lia|].
    rewrite (bind_ok _ _ _ _ _ (get_buf_ok _ _ _ Hx)), <- (prv_lookup _ _ _ Hx).
    fold (unused x). by destruct (unused x).
  - by apply chain_rev.
  - intros i Hi. rewrite elem_of_reverse, Hp in Hi. apply elem_of_seq in Hi. lia.
  - rewrite length_reverse, Hp, length_seq. lia.
Qed.

(** ** Specifications *)

Ltac core_cbn := cbn [lget lset bst_core set_bcore set_bufs bcore bufs disk dtrace
  set_held held cur procs slocks set_sl set_slocks].

Lemma wp_get_buf i x Q s : bufs s !! i = Some x -> Q x s -> wp (get_buf i) Q s.
Proof. intros Hi HQ. eapply wp_intro; [by apply get_buf_ok|done]. Qed.

Lemma wp_upd_buf i f x Q s :
  bufs s !! i = Some x -> Q tt (set_bufs (<[i := f x]> (bufs s)) s) -> wp (upd_buf i f) Q s.
Proof. intros Hi HQ. unfold upd_buf. rewrite wp_bind. by eapply wp_get_buf. Qed.

Lemma lru_bound bs ls i : lru bs ls -> i ∈ ls <-> (i < NBUF)%nat.
Proof. intros [Hp _]. rewrite Hp, elem_of_seq. lia. Qed.

Lemma dev1_bound s i x :
  bio_inv s -> bufs s !! i = Some x -> b_dev x = 1 -> (i < NBUF)%nat.
Proof.
  intros Hinv Hx Hd. pose proof (lookup_lt_Some _ _ _ Hx) as Hlt.
  rewrite (bi_len _ Hinv) in Hlt.
  destruct (decide (i = HEAD)) as [->|]; [|unfold HEAD in *; lia].
  destruct (bi_head _ Hinv _ Hx). lia.
Qed.

Definition with_buf (i : nat) (x : buf) (c : kcore) (s : bst) : bst :=
  mkBst c (disk s) (<[i := x]> (bufs s)) (dtrace s).

(** The buffer [bget] hands out: the cached copy of the block, or an unused
    buffer re-labelled when the block is not cached. *)
Definition bget_result (s : bst) (n : Z) (b : nat) (x x' : buf) : Prop :=
  (b_dev x = 1 /\ b_blockno x = n /\ x' = set_b_refcnt 1 x) \/
  ((forall j y, bufs s !! j = Some y -> b_dev y = 1 -> b_blockno y <> n) /\
   unused x = true /\ x' = mkBuf 0 1 n 1 (b_prev x) (b_next x) (b_data x)).

Lemma wp_bget n pid s Q :
  bio_inv s -> held (bcore s) = [] -> mypid (bcore s) = Some pid ->
  (forall b x, bufs s !! b = Some x -> b_dev x = 1 -> b_blockno x = n ->
     blocked (bcore s) b = false) ->
  ((exists b x, bufs s !! b = Some x /\ b_dev x = 1 /\ b_blockno x = n) \/
   (exists b x, (b < NBUF)%nat /\ bufs s !! b = Some x /\ unused x = true)) ->
  (forall b x x', (b < NBUF)%nat -> bufs s !! b = Some x -> blocked (bcore s) b = false ->
     bget_result s n b x x' ->
     Q b (with_buf b x' (set_sl (SlBuf b) (mkSl true pid) (bcore s)) s)) ->
  wp (bget 1 n) Q s.
Proof.
  intros Hinv Hh Hpid Hfree Hex HQ.
  destruct (bi_lru _ Hinv) as [ls Hls]. pose proof (bi_len _ Hinv) as Hlen.
  assert (is_Some (bufs s !! HEAD)) as [hd Hhd]
    by (apply lookup_lt_is_Some_2; unfold HEAD; lia).
  assert (forall i, i ∈ ls -> is_Some (bufs s !! i)) as Hin.
  { intros i Hi. apply lookup_lt_is_Some_2. apply (lru_bound _ _ _ Hls) in Hi. lia. }
  unfold bget. wp_simpl. apply wp_acquire; [solve_lk|]. core_cbn. rewrite Hh.
  set (s1 := set_bcore (set_held [LkBcache] (bcore s)) s).
  wp_simpl. apply (wp_get_buf _ hd); [done|]. rewrite (nxt_lookup _ _ _ Hhd). wp_simpl.
  eapply wp_intro; [by apply (bget_lookup_run 1 n s1 ls)|].
  change (bufs s1) with (bufs s).
  destruct (find_idx (has_block 1 n) (bufs s) ls) as [b|] eqn:Hfind.
  - apply find_idx_Some in Hfind as (Hb & x & Hx & Hmatch).
    apply andb_true_iff in Hmatch as [Hd Hn]. rewrite Z.eqb_eq in Hd, Hn.
    apply (lru_bound _ _ _ Hls) in Hb.
    pose proof (Hfree _ _ Hx Hd Hn) as Hbl.
    pose proof (bo_ref _ _ _ _ (bi_buf _ Hinv _ _ Hb Hx)) as Href. rewrite Hbl in Href.
    wp_simpl. apply (wp_upd_buf _ _ x); [done|]. wp_simpl. rewrite Href.
    apply wp_release; [solve_lk|]. wp_simpl. subst s1. core_cbn. rewrite remove1_cons.
    apply (wp_acquiresleep _ pid); [done|done|done|]. wp_simpl. core_cbn.
    specialize (HQ b x (set_b_refcnt 1 x) Hb Hx Hbl).
    unfold with_buf in HQ. destruct s as [c ? ? ?], c. core_cbn. cbn in Hh. subst.
    apply HQ. by left.
  - assert (forall j y, bufs s !! j = Some y -> b_dev y = 1 -> b_blockno y <> n) as Hnone.
    { intros j y Hy Hd Hn. pose proof (dev1_bound _ _ _ Hinv Hy Hd) as Hj.
      eapply (find_idx_None (has_block 1 n) (bufs s) ls) in Hfind;
        [|done|by apply (lru_bound _ _ _ Hls)|done].
      unfold has_block in Hfind. rewrite Hd, Hn, !Z.eqb_refl in Hfind. done. }
    destruct Hex as [(b & x & Hx & Hd & Hn)|(b0 & x0 & Hb0 & Hx0 & Hu0)];
      [by destruct (Hnone _ _ Hx Hd)|].
    wp_simpl. rewrite (prv_lookup _ _ _ Hhd).
    eapply wp_intro; [by apply (bget_unused_run s1 ls)|].
    change (bufs s1) with (bufs s).
    destruct (find_idx unused (bufs s) (reverse ls)) as [b|] eqn:Hfind2.
    + apply find_idx_Some in Hfind2 as (Hb & x & Hx & Hu).
      rewrite elem_of_reverse, (lru_bound _ _ _ Hls) in Hb.
      pose proof (bi_buf _ Hinv _ _ Hb Hx) as Hok.
      assert (blocked (bcore s) b = false) as Hbl.
      { pose proof (bo_ref _ _ _ _ Hok) as Href. unfold unused in Hu.
        destruct (blocked (bcore s) b); [|done]. rewrite Href in Hu. done. }
      wp_simpl. apply (wp_upd_buf _ _ x); [done|]. wp_simpl.
      apply wp_release; [solve_lk|]. wp_simpl. subst s1. core_cbn. rewrite remove1_cons.
      apply (wp_acquiresleep _ pid); [done|done|done|]. wp_simpl. core_cbn.
      specialize (HQ b x (mkBuf 0 1 n 1 (b_prev x) (b_next x) (b_data x)) Hb Hx Hbl).
      unfold with_buf in HQ. destruct s as [c ? ? ?], c. core_cbn. cbn in Hh. subst.
      apply HQ. right. done.
    + eapply (find_idx_None unused (bufs s) (reverse ls)) in Hfind2;
        [|intros i; rewrite elem_of_reverse; apply Hin
         |rewrite elem_of_reverse; by apply (lru_bound _ _ _ Hls)|done].
      congruence.
Qed.

(** *** Replacing one buffer *)

Lemma nxt_insert bs b x x' i :
  bs !! b = Some x -> b_next x' = b_next x -> nxt (<[b := x']> bs) i = nxt bs i.
Proof.
  intros Hx Hn. unfold nxt. rewrite list_lookup_insert.
  case_decide as Hd; [destruct Hd as [-> _]|done]. rewrite Hx. done.
Qed.
Lemma prv_insert bs b x x' i :
  bs !! b = Some x -> b_prev x' = b_prev x -> prv (<[b := x']> bs) i = prv bs i.
Proof.
  intros Hx Hn. unfold prv. rewrite list_lookup_insert.
  case_decide as Hd; [destruct Hd as [-> _]|done]. rewrite Hx. done.
Qed.

Lemma lru_insert bs ls b x x' :
  bs !! b = Some x -> b_next x' = b_next x -> b_prev x' = b_prev x ->
  lru bs ls -> lru (<[b := x']> bs) ls.
Proof.
  intros Hx Hn Hp [Hperm Hc]. split; [done|].
  eapply chain_ext; [| |exact Hc]; intros y _.
  - by eapply nxt_insert.
  - by eapply prv_insert.
Qed.

Lemma lookup_insert_buf (bs : list buf) b x x' i y :
  bs !! b = Some x -> <[b := x']> bs !! i = Some y ->
  (i = b /\ y = x') \/ (i <> b /\ bs !! i = Some y).
Proof.
  intros Hx. destruct (decide (i = b)) as [->|Hne].
  - rewrite list_lookup_insert_eq by (by eapply lookup_lt_Some). intros [= <-]. by left.
  - rewrite list_lookup_insert_ne by done. by right.
Qed.

Lemma bio_inv_with_buf s b x x' c' :
  bio_inv s -> (b < NBUF)%nat -> bufs s !! b = Some x ->
  b_next x' = b_next x -> b_prev x' = b_prev x -> buf_ok c' (disk s) b x' ->
  (forall j, j <> b -> blocked c' j = blocked (bcore s) j) ->
  (b_dev x' = 1 -> forall j y, j <> b -> bufs s !! j = Some y -> b_dev y = 1 ->
     b_blockno y <> b_blockno x') ->
  bio_inv (with_buf b x' c' s).
Proof.
  intros Hinv Hb Hx Hn Hp Hok Hc' Hu. split; unfold with_buf; cbn.
  - rewrite length_insert. apply bi_len, Hinv.
  - destruct (bi_lru _ Hinv) as [ls Hls]. exists ls. by eapply lru_insert.
  - apply bi_disk, Hinv.
  - intros i y Hi Hy. apply (lookup_insert_buf _ _ x) in Hy as [[-> ->]|[Hne Hy]]; [done| |done].
    destruct (bi_buf _ Hinv _ _ Hi Hy) as [H1 H2 H3 H4 H5].
    split; try done; rewrite Hc' by done; done.
  - intros y Hy. apply (lookup_insert_buf _ _ x) in Hy as [[E ->]|[Hne Hy]]; [| |done].
    + unfold HEAD in E. lia.
    + eapply bi_head; eauto.
  - intros i j yi yj Hi Hj Hdi Hdj Hbn.
    apply (lookup_insert_buf _ _ x) in Hi as [[-> ->]|[Hni Hi]];
      apply (lookup_insert_buf _ _ x) in Hj as [[-> ->]|[Hnj Hj]]; try done.
    + exfalso. eapply (Hu Hdi j yj); eauto.
    + exfalso. eapply (Hu Hdj i yi); eauto.
    + eapply (bi_uniq _ Hinv i j); eauto.
Qed.

(** *** The view *)

Lemma view_hit s i x n :
  bio_inv s -> bufs s !! i = Some x -> caches n x -> view s n = b_data x.
Proof.
  intros Hinv Hx (Hf & Hd & Hn). unfold view.
  destruct (list_find (caches n) (bufs s)) as [[j y]|] eqn:E.
  - apply list_find_Some in E as (Hy & (Hf' & Hd' & Hn') & _).
    assert (i = j) as -> by (eapply (bi_uniq _ Hinv); eauto; congruence). congruence.
  - apply list_find_None in E. rewrite Forall_lookup in E. destruct (E _ _ Hx). done.
Qed.

Lemma view_miss s n :
  (forall i x, bufs s !! i = Some x -> ~ caches n x) ->
  view s n = default [] (disk s !! Z.to_nat n).
Proof.
  intros Hno. unfold view.
  destruct (list_find (caches n) (bufs s)) as [[j y]|] eqn:E; [|done].
  apply list_find_Some in E as (Hy & Hc & _). by destruct (Hno _ _ Hy).
Qed.

Lemma view_cases s n :
  bio_inv s ->
  (exists i x, bufs s !! i = Some x /\ caches n x /\ view s n = b_data x) \/
  ((forall i x, bufs s !! i = Some x -> ~ caches n x) /\
   view s n = default [] (disk s !! Z.to_nat n)).
Proof.
  intros Hinv. destruct (list_find (caches n) (bufs s)) as [[j y]|] eqn:E.
  - apply list_find_Some in E as (Hy & Hc & _). left. exists j, y.
    split_and!; [done..|]. by eapply view_hit.
  - apply list_find_None in E. rewrite Forall_lookup in E. right.
    split; [exact E|]. apply view_miss. exact E.
Qed.

Lemma view_ok s n : bio_inv s -> 0 <= n < Z.of_nat (length (disk s)) -> block_ok (view s n).
Proof.
  intros Hinv Hn. destruct (view_cases s n Hinv) as [(i & x & Hx & Hc & ->)|[_ ->]].
  - destruct Hc as (? & Hd & ?). pose proof (dev1_bound _ _ _ Hinv Hx Hd).
    by eapply bo_data, bi_buf.
  - destruct (lookup_lt_is_Some_2 (disk s) (Z.to_nat n)) as [d Hd]; [lia|].
    rewrite Hd. cbn. eapply Forall_lookup_1; [apply bi_disk, Hinv|done].
Qed.

Lemma view_with_buf s b x x' c' :
  bio_inv s -> bio_inv (with_buf b x' c' s) -> bufs s !! b = Some x ->
  (forall m, caches m x' -> b_data x' = view s m) ->
  (forall m, caches m x -> caches m x' \/ disk s !! Z.to_nat m = Some (b_data x)) ->
  forall m, view (with_buf b x' c' s) m = view s m.
Proof.
  intros Hinv Hinv' Hx H1 H2 m.
  destruct (view_cases _ m Hinv') as [(i & y & Hy & Hc & ->)|[Hno ->]].
  - apply (lookup_insert_buf _ _ x) in Hy as [[-> ->]|[Hne Hy]]; [by apply H1| |done].
    symmetry. by eapply view_hit.
  - cbn [disk with_buf].
    destruct (view_cases s m Hinv) as [(i & y & Hy & Hc & ->)|[_ ->]]; [|done].
    assert (i = b) as ->.
    { destruct (decide (i = b)); [done|]. destruct (Hno i y); [|done].
      unfold with_buf. cbn. by rewrite list_lookup_insert_ne. }
    simplify_eq. destruct (H2 m Hc) as [Hc'| ->]; [|done].
    destruct (Hno b x'); [|done]. unfold with_buf. cbn.
    apply list_lookup_insert_eq. by eapply lookup_lt_Some.
Qed.

(** [iderw] on a locked buffer that has not been read yet. *)
Lemma wp_iderw_read b x d pid s Q :
  held (bcore s) = [] -> mypid (bcore s) = Some pid ->
  sl_of (bcore s) (SlBuf b) = mkSl true pid ->
  bufs s !! b = Some x -> b_flags x = 0 -> b_dev x = 1 ->
  0 <= b_blockno x -> disk s !! Z.to_nat (b_blockno x) = Some d ->
  Q tt (with_buf b (set_b_flags 2 (set_b_data d x)) (bcore s) s) -> wp (iderw b) Q s.
Proof.
  intros Hh Hpid Hsl Hx Hf Hdev Hn Hd HQ. unfold iderw. wp_simpl.
  apply (wp_holdingsleep _ pid); [done..|]. core_cbn. rewrite Hsl. cbn [sl_locked sl_pid andb].
  rewrite Z.eqb_refl. cbn [negb]. wp_simpl.
  apply (wp_get_buf _ x); [destruct s; done|]. wp_simpl.
  rewrite Hf, Hdev.
  change (Z.land 0 (Z.lor B_VALID B_DIRTY) =? B_VALID) with false.
  change (Z.land 0 B_DIRTY =? 0) with true. change (1 =? 1) with true. cbn [negb]. wp_simpl. core_cbn.
  destruct (Z.leb_spec (Z.of_nat (length (disk s))) (b_blockno x)) as [Hle|_].
  { apply lookup_lt_Some in Hd. lia. }
  wp_simpl. apply (wp_idx _ _ d); [done|].
  apply (wp_upd_buf _ _ x); [destruct s; done|].
  apply (wp_upd_buf _ _ (set_b_data d x)).
  { core_cbn. apply list_lookup_insert_eq. by eapply lookup_lt_Some. }
  core_cbn. rewrite list_insert_insert_eq. unfold with_buf in HQ.
  cbn [set_b_data b_flags]. rewrite Hf. cbn [Z.lor B_VALID].
  destruct s; cbn in *. done.
Qed.

(** [iderw] on a locked dirty buffer writes it to the disk. *)
Lemma wp_iderw_write b x pid s Q :
  held (bcore s) = [] -> mypid (bcore s) = Some pid ->
  sl_of (bcore s) (SlBuf b) = mkSl true pid ->
  bufs s !! b = Some x -> b_flags x = 6 -> b_dev x = 1 ->
  0 <= b_blockno x < Z.of_nat (length (disk s)) ->
  Q tt (mkBst (bcore s) (<[Z.to_nat (b_blockno x) := b_data x]> (disk s))
          (<[b := set_b_flags 2 x]> (bufs s))
          (dtrace s ++ [(Z.to_nat (b_blockno x), b_data x)])) ->
  wp (iderw b) Q s.
Proof.
  intros Hh Hpid Hsl Hx Hf Hdev Hn HQ. unfold iderw. wp_simpl.
  apply (wp_holdingsleep _ pid); [done..|]. core_cbn. rewrite Hsl. cbn [sl_locked sl_pid andb].
  rewrite Z.eqb_refl. cbn [negb]. wp_simpl.
  apply (wp_get_buf _ x); [destruct s; done|]. wp_simpl.
  rewrite Hf, Hdev.
  change (Z.land 6 (Z.lor B_VALID B_DIRTY) =? B_VALID) with false.
  change (Z.land 6 B_DIRTY =? 0) with false. change (1 =? 1) with true. cbn [negb].
  wp_simpl. core_cbn.
  destruct (Z.leb_spec (Z.of_nat (length (disk s))) (b_blockno x)) as [Hle|_]; [lia|].
  wp_simpl.
  apply (wp_upd_buf _ _ x); [destruct s; done|]. unfold disk_write. wp_simpl.
  apply (wp_upd_buf _ _ (set_b_flags (Z.land (b_flags x) (Z.lnot B_DIRTY)) x)).
  { core_cbn. apply list_lookup_insert_eq. by eapply lookup_lt_Some. }
  core_cbn. rewrite list_insert_insert_eq. cbn [set_b_flags b_flags]. rewrite Hf.
  change (Z.lor (Z.land 6 (Z.lnot B_DIRTY)) B_VALID) with 2.
  destruct s; cbn in *. done.
Qed.

(** *** bread *)

Definition is_dirty (s : bst) (n : Z) : Prop :=
  exists i x, bufs s !! i = Some x /\ b_flags x = 6 /\ b_blockno x = n.

Record bread_post (s : bst) (n pid : Z) (b : nat) (s' : bst) : Prop := {
  bp_inv : bio_inv s';
  bp_lt : (b < NBUF)%nat;
  bp_free : blocked (bcore s) b = false;
  bp_core : bcore s' = set_sl (SlBuf b) (mkSl true pid) (bcore s);
  bp_disk : disk s' = disk s;
  bp_trace : dtrace s' = dtrace s;
  bp_view : forall m, view s' m = view s m;
  bp_dirty : forall m, is_dirty s' m <-> is_dirty s m;
  bp_other : forall j, j <> b -> bufs s' !! j = bufs s !! j;
  bp_buf : exists x, bufs s' !! b = Some x /\ caches n x /\ b_data x = view s n;
  bp_coh : forall x, bufs s' !! b = Some x -> b_flags x = 2 ->
           disk s !! Z.to_nat n = Some (b_data x) }.

Lemma blocked_set_ne b j v c : j <> b -> blocked (set_sl (SlBuf b) v c) j = blocked c j.
Proof. intros. unfold blocked. rewrite sl_of_set_ne; [done|congruence]. Qed.
Lemma blocked_set_eq b v c : blocked (set_sl (SlBuf b) v c) b = sl_locked v.
Proof. unfold blocked. by rewrite sl_of_set_eq. Qed.

Lemma lookup_with_buf s b x x' c : bufs s !! b = Some x -> bufs (with_buf b x' c s) !! b = Some x'.
Proof. intros Hx. cbn. apply list_lookup_insert_eq. by eapply lookup_lt_Some. Qed.

(** A buffer replaced by one with the same dirtiness of the same block. *)
Lemma is_dirty_with_buf s b x x' c :
  bufs s !! b = Some x ->
  (b_flags x' = 6 <-> b_flags x = 6) -> (b_flags x = 6 -> b_blockno x' = b_blockno x) ->
  forall m, is_dirty (with_buf b x' c s) m <-> is_dirty s m.
Proof.
  intros Hx Hf Hn m. unfold is_dirty. split; intros (i & y & Hy & Hy6 & Hym).
  - apply (lookup_insert_buf _ _ x) in Hy as [[-> ->]|[Hne Hy]]; [| |done].
    + exists b, x. naive_solver.
    + eauto.
  - destruct (decide (i = b)) as [->|Hne].
    + exists b, x'. rewrite (lookup_with_buf _ _ x) by done. naive_solver.
    + exists i, y. cbn. by rewrite list_lookup_insert_ne.
Qed.

Lemma unused_clean x : unused x = true -> b_flags x <> 6.
Proof. unfold unused. intros H E. rewrite E in H. by destruct (b_refcnt x =? 0). Qed.

(** The case of a block already in the cache. *)
Lemma bread_post_hit s n pid b x :
  bio_inv s -> (b < NBUF)%nat -> bufs s !! b = Some x -> blocked (bcore s) b = false ->
  caches n x ->
  bread_post s n pid b
    (with_buf b (set_b_refcnt 1 x) (set_sl (SlBuf b) (mkSl true pid) (bcore s)) s).
Proof.
  intros Hinv Hb Hx Hbl Hc. pose proof (bi_buf _ Hinv _ _ Hb Hx) as Hok.
  assert (bio_inv (with_buf b (set_b_refcnt 1 x)
            (set_sl (SlBuf b) (mkSl true pid) (bcore s)) s)) as Hinv'.
  { eapply bio_inv_with_buf; eauto.
    - destruct Hok as [H1 H2 H3 H4 H5]. split; try done; rewrite blocked_set_eq; done.
    - intros j Hj. by apply blocked_set_ne.
    - cbn. intros Hd j y Hne Hy Hdy Heq. apply Hne. eapply (bi_uniq _ Hinv); eauto. }
  split; try done.
  - eapply view_with_buf; eauto. intros m Hm. symmetry. exact (view_hit _ _ _ _ Hinv Hx Hm).
  - eapply is_dirty_with_buf; eauto; done.
  - intros j Hj. cbn. by rewrite list_lookup_insert_ne.
  - exists (set_b_refcnt 1 x). rewrite (lookup_with_buf _ _ x) by done.
    split_and!; [done|done|]. cbn. symmetry. by eapply view_hit.
  - intros y. rewrite (lookup_with_buf _ _ x) by done. intros [= <-] Hf. cbn in Hf |- *.
    destruct Hc as (_ & _ & <-). by apply (bo_coh _ _ _ _ Hok).
Qed.

(** The case of a block read from the disk into a recycled buffer. *)
Lemma bread_post_miss s n pid b x d :
  bio_inv s -> (b < NBUF)%nat -> bufs s !! b = Some x -> blocked (bcore s) b = false ->
  (forall i y, bufs s !! i = Some y -> ~ caches n y) ->
  (forall j y, j <> b -> bufs s !! j = Some y -> b_dev y = 1 -> b_blockno y <> n) ->
  b_flags x <> 6 -> 0 <= n -> disk s !! Z.to_nat n = Some d ->
  bread_post s n pid b
    (with_buf b (mkBuf 2 1 n 1 (b_prev x) (b_next x) d)
       (set_sl (SlBuf b) (mkSl true pid) (bcore s)) s).
Proof.
  intros Hinv Hb Hx Hbl Hno Huniq Hclean Hn Hd. pose proof (bi_buf _ Hinv _ _ Hb Hx) as Hok.
  assert (view s n = d) as Hview by (rewrite view_miss, Hd; done).
  assert (bio_inv (with_buf b (mkBuf 2 1 n 1 (b_prev x) (b_next x) d)
            (set_sl (SlBuf b) (mkSl true pid) (bcore s)) s)) as Hinv'.
  { eapply bio_inv_with_buf; eauto.
    - pose proof (lookup_lt_Some _ _ _ Hd).
      split; cbn; rewrite ?blocked_set_eq; try done; [right; by left| |].
      + eapply Forall_lookup_1; [apply bi_disk, Hinv|done].
      + intros _. split; [done|lia].
    - intros j Hj. by apply blocked_set_ne. }
  split; try done.
  - eapply view_with_buf; eauto.
    + intros m (_ & _ & <-). done.
    + intros m Hm. right. destruct Hm as (Hm1 & Hm2 & <-). apply (bo_coh _ _ _ _ Hok); [|done].
      destruct (bo_flags _ _ _ _ Hok) as [|[|]]; done.
  - eapply is_dirty_with_buf; eauto; [|done]. cbn. split; [lia|done].
  - intros j Hj. cbn. by rewrite list_lookup_insert_ne.
  - eexists. rewrite (lookup_with_buf _ _ x) by done. split_and!; [done| |done]. by split_and!.
  - intros y. rewrite (lookup_with_buf _ _ x) by done. by intros [= <-] _.
Qed.

Lemma wp_bread n pid s Q :
  bio_inv s -> held (bcore s) = [] -> mypid (bcore s) = Some pid ->
  0 <= n < Z.of_nat (length (disk s)) ->
  (forall b x, bufs s !! b = Some x -> b_dev x = 1 -> b_blockno x = n ->
     blocked (bcore s) b = false) ->
  ((exists b x, bufs s !! b = Some x /\ b_dev x = 1 /\ b_blockno x = n) \/
   (exists b x, (b < NBUF)%nat /\ bufs s !! b = Some x /\ unused x = true)) ->
  (forall b s', bread_post s n pid b s' -> Q b s') ->
  wp (bread 1 n) Q s.
Proof.
  intros Hinv Hh Hpid Hn Hfree Hex HQ. unfold bread. wp_simpl.
  apply (wp_bget n pid); [done..|]. intros b x x' Hb Hx Hbl Hres. wp_simpl.
  destruct (lookup_lt_is_Some_2 (disk s) (Z.to_nat n)) as [d Hd]; [lia|].
  apply (wp_get_buf _ x'); [by eapply lookup_with_buf|]. wp_simpl.
  set (c := set_sl (SlBuf b) (mkSl true pid) (bcore s)) in *.
  assert (forall y, b_flags y = 0 -> b_dev y = 1 -> b_blockno y = n ->
    b_refcnt y = 1 -> b_prev y = b_prev x -> b_next y = b_next x -> b_flags x <> 6 ->
    (forall i z, bufs s !! i = Some z -> ~ caches n z) ->
    (forall j z, j <> b -> bufs s !! j = Some z -> b_dev z = 1 -> b_blockno z <> n) ->
    wp (iderw b) (fun _ => Q b) (with_buf b y c s)) as Hread.
  { intros y Hyf Hyd Hyn Hyr Hyp Hyx Hclean Hno Huniq.
    eapply (wp_iderw_read b y d pid); try done; rewrite ?Hyn; try done; try lia.
    - unfold with_buf, c. cbn [bcore]. by rewrite sl_of_set_eq.
    - by eapply lookup_with_buf.
    - apply HQ. pose proof (bread_post_miss s n pid b x d) as Hpost. fold c in Hpost.
      unfold with_buf in *. cbn [bufs disk dtrace bcore] in *. rewrite list_insert_insert_eq.
      destruct y; cbn in *; subst. apply Hpost; try done; lia. }
  destruct Hres as [(Hxd & Hxn & ->)|(Hnone & Hu & ->)].
  - pose proof (bi_buf _ Hinv _ _ Hb Hx) as Hok.
    destruct (decide (b_flags x = 0)) as [Hf0|Hf0].
    + cbn [b_flags set_b_refcnt]. rewrite Hf0. change (Z.land 0 B_VALID =? 0) with true.
      apply Hread; try done; [lia| |].
      * intros i z Hz (Hzf & Hzd & Hzn). apply Hzf.
        assert (i = b) as -> by (eapply (bi_uniq _ Hinv); eauto; congruence). congruence.
      * intros j z Hne Hz Hzd Hzn. apply Hne. eapply (bi_uniq _ Hinv); eauto; congruence.
    + destruct (bo_flags _ _ _ _ Hok) as [|[Hf|Hf]]; [done| |];
        cbn [b_flags set_b_refcnt]; rewrite Hf; wp_simpl;
        (apply HQ, bread_post_hit; [done..|]; split_and!; [lia|done|done]).
  - change (Z.land (b_flags _) B_VALID =? 0) with true.
    apply Hread; try done; [by apply unused_clean| |].
    + intros i z Hz (_ & Hzd & Hzn). by eapply Hnone.
    + intros j z _ Hz Hzd. by eapply Hnone.
Qed.

(** *** bwrite *)

Definition bwrite_state (b : nat) (x : buf) (s : bst) : bst :=
  mkBst (bcore s) (<[Z.to_nat (b_blockno x) := b_data x]> (disk s))
    (<[b := set_b_flags 2 x]> (bufs s))
    (dtrace s ++ [(Z.to_nat (b_blockno x), b_data x)]).

Lemma bio_inv_bwrite s b x n :
  bio_inv s -> bufs s !! b = Some x -> caches n x -> bio_inv (bwrite_state b x s).
Proof.
  intros Hinv Hx (Hf & Hd & Hn). pose proof (dev1_bound _ _ _ Hinv Hx Hd) as Hb.
  pose proof (bi_buf _ Hinv _ _ Hb Hx) as Hok.
  destruct (bo_dev _ _ _ _ Hok Hf) as [_ Hrange].
  split; unfold bwrite_state; cbn.
  - rewrite length_insert. apply bi_len, Hinv.
  - destruct (bi_lru _ Hinv) as [ls Hls]. exists ls. by eapply lru_insert.
  - apply Forall_insert; [apply bi_disk, Hinv|apply Hok].
  - intros i y Hi Hy. apply (lookup_insert_buf _ _ x) in Hy as [[-> ->]|[Hne Hy]]; [| |done].
    + destruct Hok as [H1 H2 H3 H4 H5]. split; cbn; try done; [right; by left| |].
      * intros _. rewrite length_insert. done.
      * intros _ _. apply list_lookup_insert_eq. lia.
    + destruct (bi_buf _ Hinv _ _ Hi Hy) as [H1 H2 H3 H4 H5]. split; try done.
      * rewrite length_insert. done.
      * intros Hyf Hybl. rewrite list_lookup_insert_ne; [by apply H5|].
        intros E. apply Hne. destruct H4 as [H4 H4']; [lia|].
        eapply (bi_uniq _ Hinv); eauto. lia.
  - intros y Hy. apply (lookup_insert_buf _ _ x) in Hy as [[E ->]|[Hne Hy]]; [| |done].
    + unfold HEAD in E. lia.
    + eapply bi_head; eauto.
  - intros i j yi yj Hi Hj Hdi Hdj Hbn.
    apply (lookup_insert_buf _ _ x) in Hi as [[-> ->]|[Hni Hi]];
      apply (lookup_insert_buf _ _ x) in Hj as [[-> ->]|[Hnj Hj]]; try done;
      eapply (bi_uniq _ Hinv); eauto.
Qed.

(** The view depends on the disk only where no buffer caches the block. *)
Lemma view_bwrite s b x n m :
  bio_inv s -> bufs s !! b = Some x -> caches n x ->
  0 <= m -> view (bwrite_state b x s) m = view s m.
Proof.
  intros Hinv Hx Hc Hm0. pose proof (bio_inv_bwrite _ _ _ _ Hinv Hx Hc) as Hinv'.
  assert (caches n (set_b_flags 2 x)) as Hc' by (destruct Hc as (? & ? & ?); by split_and!).
  destruct Hc as (Hf & Hd & Hn).
  destruct (decide (m = n)) as [->|Hne].
  - rewrite (view_hit _ b (set_b_flags 2 x) n), (view_hit _ b x n); try done.
    cbn. apply list_lookup_insert_eq. by eapply lookup_lt_Some.
  - destruct (view_cases s m Hinv) as [(i & y & Hy & Hcy & ->)|[Hno ->]].
    + destruct (decide (i = b)) as [->|Hib].
      { destruct Hcy as (? & ? & ?). congruence. }
      eapply view_hit; [done| |done]. cbn. by rewrite list_lookup_insert_ne.
    + rewrite view_miss; cbn.
      * pose proof (dev1_bound _ _ _ Hinv Hx Hd) as Hb.
        destruct (bo_dev _ _ _ _ (bi_buf _ Hinv _ _ Hb Hx) Hf).
        rewrite list_lookup_insert_ne by lia. done.
      * intros i y Hy. apply (lookup_insert_buf _ _ x) in Hy as [[-> ->]|[_ Hy]]; [|by eapply Hno|done].
        intros (_ & _ & E). cbn in E. congruence.
Qed.

Lemma wp_bwrite b x n pid s Q :
  bio_inv s -> held (bcore s) = [] -> mypid (bcore s) = Some pid ->
  sl_of (bcore s) (SlBuf b) = mkSl true pid -> bufs s !! b = Some x -> caches n x ->
  Q tt (bwrite_state b x s) -> wp (bwrite b) Q s.
Proof.
  intros Hinv Hh Hpid Hsl Hx (Hf & Hd & Hn) HQ. unfold bwrite. wp_simpl.
  pose proof (dev1_bound _ _ _ Hinv Hx Hd) as Hb.
  pose proof (bi_buf _ Hinv _ _ Hb Hx) as Hok.
  destruct (bo_dev _ _ _ _ Hok Hf) as [_ Hrange].
  apply (wp_holdingsleep _ pid); [done..|]. core_cbn. rewrite Hsl. cbn [sl_locked sl_pid andb].
  rewrite Z.eqb_refl. cbn [negb]. wp_simpl.
  apply (wp_upd_buf _ _ x); [destruct s; done|].
  assert (Z.lor (b_flags x) B_DIRTY = 6) as ->.
  { destruct (bo_flags _ _ _ _ Hok) as [|[->| ->]]; done. }
  apply (wp_iderw_write b (set_b_flags 6 x) pid); try done.
  - core_cbn. apply list_lookup_insert_eq. by eapply lookup_lt_Some.
  - unfold bwrite_state in HQ. core_cbn. rewrite list_insert_insert_eq. done.
Qed.

(** *** brelse *)

(** Everything of a buffer but its list links. *)
Definition strip (b : buf) : Z * Z * Z * Z * block :=
  (b_flags b, b_dev b, b_blockno b, b_refcnt b, b_data b).
Definition same_but_links (s s' : bst) : Prop :=
  bcore s' = bcore s /\ disk s' = disk s /\ dtrace s' = dtrace s /\
  strip <$> bufs s' = strip <$> bufs s.
Definition linked (bs : list buf) (nx pv : nat -> nat) : Prop :=
  forall i, nxt bs i = nx i /\ prv bs i = pv i.

#[export] Instance same_but_links_trans : Transitive same_but_links.
Proof. intros s1 s2 s3 (?&?&?&?) (?&?&?&?). repeat split; congruence. Qed.

Lemma same_links_lookup s s' i x' :
  same_but_links s s' -> bufs s' !! i = Some x' ->
  exists x, bufs s !! i = Some x /\ strip x = strip x'.
Proof.
  intros (_ & _ & _ & Heq) Hx. apply (f_equal (fun l => l !! i)) in Heq.
  rewrite !list_lookup_fmap, Hx in Heq. cbn in Heq.
  destruct (bufs s !! i) as [x|]; [|done]. exists x. split; [done|]. cbn in Heq. congruence.
Qed.

Lemma same_links_length s s' : same_but_links s s' -> length (bufs s') = length (bufs s).
Proof.
  intros (_ & _ & _ & Heq). apply (f_equal length) in Heq. by rewrite !length_fmap in Heq.
Qed.

Lemma wp_relink (f : buf -> buf) nx pv nx' pv' i Q s :
  (forall x, strip (f x) = strip x) ->
  (forall x, bufs s !! i = Some x -> linked (<[i := f x]> (bufs s)) nx' pv') ->
  (i < length (bufs s))%nat -> linked (bufs s) nx pv ->
  (forall s', same_but_links s s' -> linked (bufs s') nx' pv' -> Q tt s') ->
  wp (upd_buf i f) Q s.
Proof.
  intros Hf Hl Hi _ HQ. destruct (lookup_lt_is_Some_2 _ _ Hi) as [x Hx].
  apply (wp_upd_buf _ _ x); [done|]. apply HQ; [|by apply Hl].
  repeat split; cbn. rewrite list_fmap_insert, Hf. apply list_insert_id.
  by rewrite list_lookup_fmap, Hx.
Qed.

Lemma wp_set_prev nx pv i v Q s :
  (i < length (bufs s))%nat -> linked (bufs s) nx pv ->
  (forall s', same_but_links s s' -> linked (bufs s') nx (fupd pv i v) -> Q tt s') ->
  wp (upd_buf i (set_b_prev v)) Q s.
Proof.
  intros Hi Hl HQ. eapply (wp_relink _ nx pv nx (fupd pv i v)); try done.
  intros x Hx j. destruct (Hl j) as [Hj1 Hj2]. split; [by erewrite nxt_insert|].
  unfold prv, fupd. rewrite list_lookup_insert. case_decide as E.
  - destruct E as [-> _]. by rewrite decide_True.
  - rewrite decide_False; [done|]. intros ->. apply E. split; [done|].
    by eapply lookup_lt_Some.
Qed.

Lemma wp_set_next nx pv i v Q s :
  (i < length (bufs s))%nat -> linked (bufs s) nx pv ->
  (forall s', same_but_links s s' -> linked (bufs s') (fupd nx i v) pv -> Q tt s') ->
  wp (upd_buf i (set_b_next v)) Q s.
Proof.
  intros Hi Hl HQ. eapply (wp_relink _ nx pv (fupd nx i v) pv); try done.
  intros x Hx j. destruct (Hl j) as [Hj1 Hj2]. split; [|by erewrite prv_insert].
  unfold nxt, fupd. rewrite list_lookup_insert. case_decide as E.
  - destruct E as [-> _]. by rewrite decide_True.
  - rewrite decide_False; [done|]. intros ->. apply E. split; [done|].
    by eapply lookup_lt_Some.
Qed.

Lemma bio_inv_relink s s' ls :
  bio_inv s -> same_but_links s s' -> lru (bufs s') ls -> bio_inv s'.
Proof.
  intros Hinv Hs Hls. pose proof Hs as (Hc & Hd & Ht & _). split.
  - rewrite (same_links_length _ _ Hs). apply bi_len, Hinv.
  - by exists ls.
  - rewrite Hd. apply bi_disk, Hinv.
  - intros i x' Hi Hx'. destruct (same_links_lookup _ _ _ _ Hs Hx') as (x & Hx & Heq).
    injection Heq as E1 E2 E3 E4 E5. destruct (bi_buf _ Hinv _ _ Hi Hx) as [H1 H2 H3 H4 H5].
    rewrite Hc, Hd. split; rewrite <- ?E1, <- ?E2, <- ?E3, <- ?E4, <- ?E5; done.
  - intros x' Hx'. destruct (same_links_lookup _ _ _ _ Hs Hx') as (x & Hx & Heq).
    injection Heq as E1 E2 E3 E4 E5. destruct (bi_head _ Hinv _ Hx). split; congruence.
  - intros i j xi xj Hi Hj Hdi Hdj Hb.
    destruct (same_links_lookup _ _ _ _ Hs Hi) as (yi & Hyi & Hei).
    destruct (same_links_lookup _ _ _ _ Hs Hj) as (yj & Hyj & Hej).
    injection Hei as E1 E2 E3 E4 E5. injection Hej as F1 F2 F3 F4 F5. eapply (bi_uniq _ Hinv); eauto; congruence.
Qed.

Lemma view_same_links s s' :
  bio_inv s -> bio_inv s' -> same_but_links s s' -> forall m, view s' m = view s m.
Proof.
  intros Hinv Hinv' Hs m.
  destruct (view_cases _ m Hinv') as [(i & x' & Hx' & Hc & ->)|[Hno ->]].
  - destruct (same_links_lookup _ _ _ _ Hs Hx') as (x & Hx & Heq).
    injection Heq as E1 E2 E3 E4 E5. rewrite <- E5. symmetry. eapply view_hit; eauto.
    unfold caches in *. by rewrite E1, E2, E3.
  - pose proof Hs as (_ & -> & _). symmetry. apply view_miss.
    intros i x Hx Hc. destruct (lookup_lt_is_Some_2 (bufs s') i) as [x' Hx'].
    { rewrite (same_links_length _ _ Hs). by eapply lookup_lt_Some. }
    destruct (same_links_lookup _ _ _ _ Hs Hx') as (y & Hy & Heq).
    rewrite Hx in Hy. injection Hy as <-. injection Heq as E1 E2 E3 E4 E5.
    apply (Hno _ _ Hx'). unfold caches in *. by rewrite <- E1, <- E2, <- E3.
Qed.

Lemma wp_get_linked nx pv i Q s :
  (i < length (bufs s))%nat -> linked (bufs s) nx pv ->
  (forall x, bufs s !! i = Some x -> b_next x = nx i -> b_prev x = pv i -> Q x s) ->
  wp (get_buf i) Q s.
Proof.
  intros Hi Hl HQ. destruct (lookup_lt_is_Some_2 _ _ Hi) as [x Hx].
  apply (wp_get_buf _ x); [done|]. destruct (Hl i) as [H1 H2]. unfold nxt, prv in *.
  rewrite Hx in H1, H2. by apply HQ.
Qed.

Lemma wp_move_front b ls Q s :
  length (bufs s) = S NBUF -> lru (bufs s) ls -> (b < NBUF)%nat ->
  (forall s' l1 l2, same_but_links s s' -> ls = l1 ++ b :: l2 ->
     lru (bufs s') (b :: l1 ++ l2) -> Q tt s') ->
  wp (move_front b) Q s.
Proof.
  intros Hlen Hls Hb HQ. pose proof Hls as [Hperm Hc].
  assert (forall i, i ∈ HEAD :: ls -> (i < S NBUF)%nat) as Hbd.
  { intros i Hi. apply elem_of_cons in Hi as [->|Hi]; [unfold HEAD; lia|].
    apply (lru_bound _ _ _ Hls) in Hi. lia. }
  assert (NoDup (HEAD :: ls)) as Hnd.
  { apply NoDup_cons. split; [|rewrite Hperm; apply NoDup_seq].
    intros HH%(lru_bound _ _ _ Hls). unfold HEAD in HH. lia. }
  assert (b ∈ ls) as Hin by (by apply (lru_bound _ _ _ Hls)).
  set (nx := nxt (bufs s)) in *. set (pv := prv (bufs s)) in *.
  assert (linked (bufs s) nx pv) as Hl by done.
  pose proof (chain_next_ne _ _ _ _ _ Hnd Hc Hin) as Hnb.
  pose proof (chain_next_in _ _ _ _ b Hc ltac:(by right)) as Hnx%Hbd.
  pose proof (chain_prev_in _ _ _ _ b Hc Hin) as Hpv%Hbd.
  apply list_elem_of_split in Hin as (l1 & l2 & ->).
  destruct (chain_move_front _ _ _ _ _ _ Hnd Hc) as [Hnx2%Hbd Hfront].
  set (nx2 := fupd nx (pv b) (nx b)) in *. set (pv2 := fupd pv (nx b) (pv b)) in *.
  assert (forall s', same_but_links s s' -> length (bufs s') = S NBUF) as HL.
  { intros s' Hs'. by rewrite (same_links_length _ _ Hs'). }
  unfold move_front. wp_simpl. apply (wp_get_linked nx pv); [lia|done|].
  intros x _ -> ->. wp_simpl. apply (wp_set_prev nx pv); [lia|done|].
  intros s1 Hs1 Hl1. pose proof (HL _ Hs1). wp_simpl.
  apply (wp_get_linked nx pv2); [lia|done|].
  intros x1 _ -> ->. wp_simpl. unfold pv2 at 1. rewrite fupd_ne by done.
  apply (wp_set_next nx pv2); [lia|done|].
  intros s2 Hs2 Hl2. assert (same_but_links s s2) as Hs02 by (by etrans).
  pose proof (HL _ Hs02). wp_simpl.
  apply (wp_get_linked nx2 pv2); [unfold HEAD; lia|done|].
  intros h _ -> _. wp_simpl. apply (wp_set_next nx2 pv2); [lia|done|].
  intros s3 Hs3 Hl3. assert (same_but_links s s3) as Hs03 by (by etrans).
  pose proof (HL _ Hs03). wp_simpl. eapply wp_set_prev; [lia|exact Hl3|].
  intros s4 Hs4 Hl4. assert (same_but_links s s4) as Hs04 by (by etrans).
  pose proof (HL _ Hs04). wp_simpl. eapply wp_set_prev; [lia|exact Hl4|].
  intros s5 Hs5 Hl5. assert (same_but_links s s5) as Hs05 by (by etrans).
  pose proof (HL _ Hs05). wp_simpl. eapply wp_set_next; [unfold HEAD; lia|exact Hl5|].
  intros s6 Hs6 Hl6. assert (same_but_links s s6) as Hs06 by (by etrans).
  assert (l1 ++ b :: l2 ≡ₚ b :: l1 ++ l2) as Hperm' by (by rewrite Permutation_middle).
  apply (HQ s6 l1 l2); [done..|]. split; [by rewrite <- Hperm'|].
  eapply chain_ext; [| |exact Hfront]; intros y _; apply Hl6.
Qed.

Definition unlock_core (b : nat) (c : kcore) : kcore :=
  set_sl (SlBuf b) (mkSl false 0) (set_procs (wake (Some (ChSleep (SlBuf b))) <$> procs c) c).

Record brelse_post (s : bst) (b : nat) (s' : bst) : Prop := {
  br_inv : bio_inv s';
  br_core : bcore s' = unlock_core b (bcore s);
  br_disk : disk s' = disk s;
  br_trace : dtrace s' = dtrace s;
  br_view : forall m, view s' m = view s m;
  br_dirty : forall m, is_dirty s' m <-> is_dirty s m;
  br_bufs : forall i x', bufs s' !! i = Some x' -> exists x, bufs s !! i = Some x /\
      b_flags x' = b_flags x /\ b_dev x' = b_dev x /\ b_blockno x' = b_blockno x /\
      b_data x' = b_data x;
  br_lru : exists l1 l2, lru (bufs s) (l1 ++ b :: l2) /\ lru (bufs s') (b :: l1 ++ l2) }.

Lemma blocked_unlock b c j : blocked (unlock_core b c) j = if decide (j = b) then false else blocked c j.
Proof.
  unfold unlock_core. case_decide as E.
  - subst j. by rewrite blocked_set_eq.
  - by rewrite blocked_set_ne.
Qed.

Lemma is_dirty_same_links s s' m : same_but_links s s' -> is_dirty s' m <-> is_dirty s m.
Proof.
  intros Hs. split; intros (i & x & Hx & Hf & Hm).
  - destruct (same_links_lookup _ _ _ _ Hs Hx) as (y & Hy & Heq).
    injection Heq as E1 E2 E3 E4 E5. exists i, y. split_and!; congruence.
  - destruct (lookup_lt_is_Some_2 (bufs s') i) as [x' Hx'].
    { rewrite (same_links_length _ _ Hs). by eapply lookup_lt_Some. }
    destruct (same_links_lookup _ _ _ _ Hs Hx') as (y & Hy & Heq).
    injection Heq as E1 E2 E3 E4 E5. exists i, x'. split_and!; congruence.
Qed.

Lemma bio_inv_core s c' :
  bio_inv s -> (forall i, blocked c' i = blocked (bcore s) i) -> bio_inv (set_bcore c' s).
Proof.
  intros [H1 H2 H3 H4 H5 H6] Hc. split; try done. cbn. intros i b Hi Hb.
  destruct (H4 _ _ Hi Hb) as [G1 G2 G3 G4 G5]. split; rewrite ?Hc; done.
Qed.

Lemma wp_brelse b x pid s Q :
  bio_inv s -> held (bcore s) = [] -> mypid (bcore s) = Some pid -> (b < NBUF)%nat ->
  sl_of (bcore s) (SlBuf b) = mkSl true pid -> bufs s !! b = Some x ->
  (b_flags x = 2 -> disk s !! Z.to_nat (b_blockno x) = Some (b_data x)) ->
  (forall s', brelse_post s b s' -> Q tt s') -> wp (brelse b) Q s.
Proof.
  intros Hinv Hh Hpid Hb Hsl Hx Hcoh HQ. unfold brelse. wp_simpl.
  apply (wp_holdingsleep _ pid); [done..|]. core_cbn. rewrite Hsl. cbn [sl_locked sl_pid andb].
  rewrite Z.eqb_refl. cbn [negb]. wp_simpl.
  apply wp_releasesleep; [destruct s; done|]. wp_simpl.
  apply wp_acquire; [solve_lk|]. core_cbn.
  change (set_sl (SlBuf b) _ (set_procs _ (bcore s))) with (unlock_core b (bcore s)).
  pose proof (bi_buf _ Hinv _ _ Hb Hx) as Hok.
  assert (b_refcnt x = 1) as Href.
  { rewrite (bo_ref _ _ _ _ Hok). unfold blocked. by rewrite Hsl. }
  wp_simpl. apply (wp_upd_buf _ _ x); [done|]. rewrite Href. change (u32 (1 - 1)) with 0.
  pose (c1 := set_held (LkBcache :: held (bcore s)) (unlock_core b (bcore s))).
  match goal with |- wp _ _ ?st => change st with (with_buf b (set_b_refcnt 0 x) c1 s) end.
  assert (forall j, blocked c1 j = if decide (j = b) then false else blocked (bcore s) j) as Hc1
    by (intros j; apply blocked_unlock).
  assert (bio_inv (with_buf b (set_b_refcnt 0 x) c1 s)) as Hinv1.
  { eapply bio_inv_with_buf; eauto.
    - destruct Hok as [G1 G2 G3 G4 G5]. split; rewrite ?Hc1, ?decide_True by done; try done.
      intros Hf2 _. by apply Hcoh.
    - intros j Hj. by rewrite Hc1, decide_False.
    - cbn. intros Hd j y Hne Hy Hdy Heq. apply Hne. eapply (bi_uniq _ Hinv); eauto. }
  wp_simpl. eapply wp_get_buf; [by eapply lookup_with_buf|]. change (b_refcnt _ =? 0) with true.
  wp_simpl. destruct (bi_lru _ Hinv) as [ls Hls].
  apply (wp_move_front b ls); [apply bi_len, Hinv1|by eapply lru_insert|done|].
  intros s2 l1 l2 Hs2 -> Hlru. pose proof (bio_inv_relink _ _ _ Hinv1 Hs2 Hlru) as Hinv2.
  pose proof Hs2 as (Hc2 & Hd2 & Ht2 & _).
  wp_simpl. core_cbn. rewrite Hc2. apply wp_release; [solve_lk|]. cbn [bcore with_buf].
  apply HQ. assert (set_held (remove1 LkBcache (held c1)) c1 = unlock_core b (bcore s)) as ->.
  { unfold c1, unlock_core. core_cbn. rewrite remove1_cons. reflexivity. }
  split; try done.
  - apply bio_inv_core; [done|]. intros i. rewrite Hc2. cbn. by rewrite Hc1, blocked_unlock.
  - intros m. change (view (set_bcore _ s2) m) with (view s2 m).
    rewrite (view_same_links _ _ Hinv1 Hinv2 Hs2). eapply view_with_buf; eauto.
    intros m' Hm'. symmetry. exact (view_hit _ _ _ _ Hinv Hx Hm').
  - intros m. change (is_dirty (set_bcore _ s2) m) with (is_dirty s2 m).
    rewrite (is_dirty_same_links _ _ _ Hs2). by eapply is_dirty_with_buf.
  - cbn. intros i x' Hx'. destruct (same_links_lookup _ _ _ _ Hs2 Hx') as (y & Hy & Heq).
    injection Heq as E1 E2 E3 E4 E5.
    apply (lookup_insert_buf _ _ x) in Hy as [[-> ->]|[Hne Hy]]; [exists x|exists y|done]; done.
  - by exists l1, l2.
Qed.
