(* ===== verification/Log.v ===== *)
(** * The write-ahead log

    Models [log.c] and [readsb] of [fs.c].  The in-memory log header is kept
    apart from its on-disk copy, which is the byte encoding of [struct
    logheader] in block [log.start]. *)

From S2P Require Import Prelude Bytes Core Bio.

Definition MAXOPBLOCKS : Z := 10.
Definition LOGSIZE : nat := 30.

Record log := mkLog {
  l_start : Z;
  l_size : Z;
  l_outstanding : Z;
  l_committing : Z;
  l_dev : Z;
  lh_n : Z;
  lh_block : list Z }.

Definition set_l_outstanding v l := mkLog (l_start l) (l_size l) v (l_committing l) (l_dev l) (lh_n l) (lh_block l).
Definition set_l_committing v l := mkLog (l_start l) (l_size l) (l_outstanding l) v (l_dev l) (lh_n l) (lh_block l).
Definition set_lh_n v l := mkLog (l_start l) (l_size l) (l_outstanding l) (l_committing l) (l_dev l) v (lh_block l).
Definition set_lh_block v l := mkLog (l_start l) (l_size l) (l_outstanding l) (l_committing l) (l_dev l) (lh_n l) v.

Record lst := mkLst { lbio : bst; lg : log }.

Definition set_lbio v s := mkLst v (lg s).
Definition set_lg v s := mkLst (lbio s) v.

#[export] Instance lst_bio : Lens lst bst := {| lget := lbio; lset := set_lbio |}.
#[export] Instance lst_bio_ok : LensOk lst bst.
Proof. split; [done|by intros []|done]. Qed.

(** Routines of the layers below, on the log's state. *)
Definition bcall {A} (m : M bst A) : M lst A := lift m.
Definition ccall {A} (m : M kcore A) : M lst A := bcall (lift m).
Definition upd_lg (f : log -> log) : M lst unit := modify (fun s => set_lg (f (lg s)) s).

Definition bdata (b : nat) : M lst block := x ← bcall (get_buf b); mret (b_data x).
Definition set_bdata (b : nat) (d : block) : M lst unit := bcall (upd_buf b (set_b_data d)).

(** [log.lh.block[i]], an [int] used as a block number, and its update. *)
Definition get_lh_block (i : nat) : M lst Z := l ← gets lg; v ← idx (lh_block l) i; mret v.
Definition put_lh_block (i : nat) (v : Z) : M lst unit :=
  l ← gets lg;
  idx (lh_block l) i ;;
  upd_lg (fun l => set_lh_block (<[i := v]> (lh_block l)) l).

(** Offset of [block[i]] in the header block. *)
Definition hdr_off (i : nat) : nat := 4 + 4 * i.

(** Copy committed blocks from log to their home location. *)
Definition install_step (tail : nat) : M lst unit :=
  l ← gets lg;
  lbuf ← bcall (bread (l_dev l) (u32 (l_start l + Z.of_nat tail + 1)));
  n ← get_lh_block tail;
  dbuf ← bcall (bread (l_dev l) (u32 n));
  d ← bdata lbuf;
  set_bdata dbuf d ;;
  bcall (bwrite dbuf) ;;
  bcall (brelse lbuf) ;;
  bcall (brelse dbuf).
Definition install_trans : M lst unit :=
  l ← gets lg;
  for_range 0 (Z.to_nat (lh_n l)) install_step.

(** Read the log header from disk into the in-memory log header. *)
Definition read_head : M lst unit :=
  l ← gets lg;
  b ← bcall (bread (l_dev l) (u32 (l_start l)));
  d ← bdata b;
  upd_lg (set_lh_n (s32 (get32 d 0))) ;;
  l ← gets lg;
  for_range 0 (Z.to_nat (lh_n l)) (fun i =>
    put_lh_block i (s32 (get32 d (hdr_off i)))) ;;
  bcall (brelse b).

(** Write in-memory log header to disk, the commit point. *)
Definition write_head : M lst unit :=
  l ← gets lg;
  b ← bcall (bread (l_dev l) (u32 (l_start l)));
  d ← bdata b;
  set_bdata b (put32 d 0 (lh_n l)) ;;
  for_range 0 (Z.to_nat (lh_n l)) (fun i =>
    v ← get_lh_block i;
    d ← bdata b;
    set_bdata b (put32 d (hdr_off i) v)) ;;
  bcall (bwrite b) ;;
  bcall (brelse b).

Definition recover_from_log : M lst unit :=
  read_head ;; install_trans ;; upd_lg (set_lh_n 0) ;; write_head.

(** Called at the start of each FS system call.  [sleep] does not return
    here; the process comes back through [begin_op_resume]. *)
Definition begin_op_loop : M lst unit :=
  l ← gets lg;
  if negb (l_committing l =? 0) then ccall (sleep ChLog LkLog) else
  if Z.of_nat LOGSIZE <? lh_n l + (l_outstanding l + 1) * MAXOPBLOCKS
  then ccall (sleep ChLog LkLog) else
  upd_lg (set_l_outstanding (l_outstanding l + 1)) ;;
  ccall (release LkLog).
Definition begin_op : M lst unit := ccall (acquire LkLog) ;; begin_op_loop.
Definition begin_op_resume : M lst unit := ccall (sleep_resume LkLog) ;; begin_op_loop.

(** Copy modified blocks from cache to log. *)
Definition write_log_step (tail : nat) : M lst unit :=
  l ← gets lg;
  to ← bcall (bread (l_dev l) (u32 (l_start l + Z.of_nat tail + 1)));
  n ← get_lh_block tail;
  from ← bcall (bread (l_dev l) (u32 n));
  d ← bdata from;
  set_bdata to d ;;
  bcall (bwrite to) ;;
  bcall (brelse from) ;;
  bcall (brelse to).
Definition write_log : M lst unit :=
  l ← gets lg;
  for_range 0 (Z.to_nat (lh_n l)) write_log_step.

Definition commit : M lst unit :=
  l ← gets lg;
  if 0 <? lh_n l then
    write_log ;; write_head ;; install_trans ;; upd_lg (set_lh_n 0) ;; write_head
  else skip.

(** Called at the end of each FS system call; commits if this was the last
    outstanding operation.  The part up to the first [release], with the
    [do_commit] it finds, and the part after the commit are critical sections
    of their own. *)
Definition end_op_first : M lst bool :=
  ccall (acquire LkLog) ;;
  upd_lg (fun l => set_l_outstanding (l_outstanding l - 1) l) ;;
  l ← gets lg;
  if negb (l_committing l =? 0) then panic "log.committing" else
  do_commit ← (if l_outstanding l =? 0
               then upd_lg (set_l_committing 1) ;; mret true
               else ccall (wakeup ChLog) ;; mret false);
  ccall (release LkLog) ;;
  mret (do_commit : bool).
Definition end_op_last : M lst unit :=
  ccall (acquire LkLog) ;;
  upd_lg (set_l_committing 0) ;;
  ccall (wakeup ChLog) ;;
  ccall (release LkLog).
Definition end_op : M lst unit :=
  do_commit ← end_op_first;
  if (do_commit : bool) then commit ;; end_op_last else skip.

(** The search of [log_write]: the index of [blockno] among the first [n]
    entries, or [n]. *)
Fixpoint log_find (blockno : Z) (i : nat) (n : nat) : M lst nat :=
  match n with
  | O => mret i
  | S n' => v ← get_lh_block i;
      if u32 v =? blockno then mret i else log_find blockno (S i) n'
  end.

Definition log_write (b : nat) : M lst unit :=
  l ← gets lg;
  if (Z.of_nat LOGSIZE <=? lh_n l) || (l_size l - 1 <=? lh_n l)
  then panic "too big a transaction" else
  if l_outstanding l <? 1 then panic "log_write outside of trans" else
  ccall (acquire LkLog) ;;
  x ← bcall (get_buf b);
  i ← log_find (b_blockno x) 0 (Z.to_nat (lh_n l));
  put_lh_block i (s32 (b_blockno x)) ;;
  (if Z.of_nat i =? lh_n l then upd_lg (fun l => set_lh_n (lh_n l + 1) l) else skip) ;;
  bcall (upd_buf b (fun x => set_b_flags (Z.lor (b_flags x) B_DIRTY) x)) ;;
  ccall (release LkLog).

(** ** The superblock and initlog *)

Record superblock := mkSb {
  sb_size : Z; sb_nblocks : Z; sb_ninodes : Z; sb_nlog : Z;
  sb_logstart : Z; sb_inodestart : Z; sb_bmapstart : Z }.

Definition dec_sb (d : block) : superblock :=
  mkSb (get32 d 0) (get32 d 4) (get32 d 8) (get32 d 12) (get32 d 16) (get32 d 20) (get32 d 24).

Definition readsb (dev : Z) : M lst superblock :=
  bp ← bcall (bread dev 1);
  d ← bdata bp;
  bcall (brelse bp) ;;
  mret (dec_sb d).

Definition sizeof_logheader : Z := 4 * (1 + Z.of_nat LOGSIZE).

Definition initlog (dev : Z) : M lst unit :=
  if BSIZE <=? sizeof_logheader then panic "initlog: too big logheader" else
  sb ← readsb dev;
  upd_lg (fun l => mkLog (s32 (sb_logstart sb)) (s32 (sb_nlog sb)) (l_outstanding l)
                     (l_committing l) dev (lh_n l) (lh_block l)) ;;
  recover_from_log.
