(* ===== verification/Txn.v ===== *)
(** * The block layer as the file system uses it

    The contract of [bread], [brelse], [bwrite] and [log_write] towards their
    clients.  [tx s pid hs D] describes a state of the log and cache in which
    process [pid] holds the buffers [hs] (a map from buffer to the block it
    holds and whether it was changed without being logged), no one else holds
    any, and the blocks [D] are pinned dirty in the cache. *)

From S2P Require Import Prelude Bytes Core Bio Log.

Definition tcore (s : lst) : kcore := bcore (lbio s).
Definition tview (s : lst) (n : Z) : block := view (lbio s) n.
Definition tdisk (s : lst) : list block := disk (lbio s).
Definition logged (s : lst) : list Z := take (Z.to_nat (lh_n (lg s))) (lh_block (lg s)).

Definition in_log (l : log) (n : Z) : Prop := l_start l <= n < l_start l + l_size l.
Definition home (s : lst) (n : Z) : Prop :=
  0 <= n < Z.of_nat (length (tdisk s)) /\ ~ in_log (lg s) n.

Record log_ok (s : lst) : Prop := {
  lo_dev : l_dev (lg s) = 1;
  lo_region : 0 <= l_start (lg s) /\ 1 <= l_size (lg s) /\
     l_start (lg s) + l_size (lg s) <= Z.of_nat (length (tdisk s)) < 2147483648;
  lo_n : 0 <= lh_n (lg s) <= Z.of_nat LOGSIZE /\ lh_n (lg s) <= l_size (lg s) - 1;
  lo_len : length (lh_block (lg s)) = LOGSIZE;
  lo_nodup : NoDup (logged s);
  lo_home : forall m, m ∈ logged s -> home s m }.

Abbreviation handles := (gmap nat (Z * bool)).

Record tx (s : lst) (pid : Z) (hs : handles) (D : list Z) : Prop := {
  tx_bio : bio_inv (lbio s);
  tx_noheld : held (tcore s) = [];
  tx_pid : mypid (tcore s) = Some pid;
  tx_blocked : forall b, blocked (tcore s) b = true -> is_Some (hs !! b);
  tx_hs : forall b n m, hs !! b = Some (n, m) ->
     sl_of (tcore s) (SlBuf b) = mkSl true pid /\
     exists x, bufs (lbio s) !! b = Some x /\ caches n x /\
       (m = false -> b_flags x = 2 -> tdisk s !! Z.to_nat n = Some (b_data x));
  tx_dirty : forall m, is_dirty (lbio s) m -> m ∈ D;
  tx_cached : forall m, m ∈ D -> is_dirty (lbio s) m }.

(** What the block layer never changes behind its client. *)
Record tframe (s s' : lst) : Prop := {
  tf_core : core_step (tcore s) (tcore s');
  tf_inode : forall i, sl_of (tcore s') (SlInode i) = sl_of (tcore s) (SlInode i);
  tf_len : length (tdisk s') = length (tdisk s) }.

#[export] Instance tframe_preorder : PreOrder tframe.
Proof.
  split.
  - intros s. split; done.
  - intros s1 s2 s3 [H1 H2 H3] [G1 G2 G3]. split; [by etrans| |congruence].
    intros i. by rewrite G2.
Qed.

Lemma blocked_true c b pid : sl_of c (SlBuf b) = mkSl true pid -> blocked c b = true.
Proof. unfold blocked. by intros ->. Qed.

Lemma busy_dirty c dk i x :
  buf_ok c dk i x -> blocked c i = false -> unused x = false -> b_flags x = 6.
Proof.
  intros [F _ R _ _] Hb. rewrite Hb in R. unfold unused. rewrite R.
  by destruct F as [-> |[-> | ->]].
Qed.

(** Fewer than [NBUF] buffers are locked or dirty: one can be recycled. *)
Lemma unused_exists t (L : list nat) (D : list Z) :
  bio_inv t -> (forall b, blocked (bcore t) b = true -> b ∈ L) ->
  (forall m, is_dirty t m -> m ∈ D) -> (length L + length D < NBUF)%nat ->
  exists b x, (b < NBUF)%nat /\ bufs t !! b = Some x /\ unused x = true.
Proof.
  intros Hinv HL HD Hlt. destruct (bi_lru _ Hinv) as [ls [Hperm Hc]].
  destruct (find_idx unused (bufs t) (seq 0 NBUF)) as [b|] eqn:Hfind.
  { apply find_idx_Some in Hfind as (Hb & x & Hx & Hu). apply elem_of_seq in Hb.
    exists b, x. split_and!; [lia|done..]. }
  exfalso.
  assert (forall i, i ∈ seq 0 NBUF -> is_Some (bufs t !! i)) as Hin.
  { intros i Hi. apply elem_of_seq in Hi. apply lookup_lt_is_Some_2.
    rewrite (bi_len _ Hinv). lia. }
  pose proof (find_idx_None _ _ _ Hin Hfind) as Hnone.
  pose (key := fun i => if blocked (bcore t) i then inl i
                        else inr (from_option b_blockno 0 (bufs t !! i)) : nat + Z).
  assert (NoDup (key <$> seq 0 NBUF)) as Hnd.
  { apply NoDup_fmap_2_strong; [|apply NoDup_seq].
    intros i j Hi Hj. destruct (Hin i Hi) as [x Hx]. destruct (Hin j Hj) as [y Hy].
    unfold key. rewrite Hx, Hy. cbn.
    pose proof (Hnone _ _ Hi Hx) as Hux. pose proof (Hnone _ _ Hj Hy) as Huy.
    apply elem_of_seq in Hi, Hj.
    pose proof (bi_buf _ Hinv i x ltac:(lia) Hx) as Ox.
    pose proof (bi_buf _ Hinv j y ltac:(lia) Hy) as Oy.
    destruct (blocked (bcore t) i) eqn:Bi, (blocked (bcore t) j) eqn:Bj; intros [= E]; [done|].
    pose proof (busy_dirty _ _ _ _ Ox Bi Hux). pose proof (busy_dirty _ _ _ _ Oy Bj Huy).
    eapply (bi_uniq _ Hinv i j); eauto; eapply bo_dev; eauto; lia. }
  assert ((key <$> seq 0 NBUF) ⊆ (inl <$> L) ++ (inr <$> D)) as Hsub.
  { intros k Hk. apply list_elem_of_fmap in Hk as (i & -> & Hi).
    destruct (Hin i Hi) as [x Hx]. pose proof (Hnone _ _ Hi Hx) as Hux.
    apply elem_of_seq in Hi. unfold key. rewrite Hx. cbn. apply elem_of_app.
    destruct (blocked (bcore t) i) eqn:Hbl.
    - left. apply list_elem_of_fmap. exists i. split; [done|]. by apply HL.
    - right. apply list_elem_of_fmap. eexists. split; [done|]. apply HD. exists i, x.
      split_and!; [done| |done]. eapply busy_dirty; eauto. apply (bi_buf _ Hinv); [lia|done]. }
  apply NoDup_submseteq in Hsub; [|done]. apply submseteq_length in Hsub.
  rewrite length_app, !length_fmap, length_seq in Hsub. lia.
Qed.

(** A buffer with data belongs to the array and to the disk. *)
Lemma flags_bound t i x :
  bio_inv t -> bufs t !! i = Some x -> b_flags x <> 0 ->
  (i < NBUF)%nat /\ b_dev x = 1 /\ 0 <= b_blockno x < Z.of_nat (length (disk t)).
Proof.
  intros Hinv Hx Hf. assert (i < NBUF)%nat as Hi.
  { pose proof (lookup_lt_Some _ _ _ Hx) as Hlt. rewrite (bi_len _ Hinv) in Hlt.
    destruct (decide (i = HEAD)) as [->|]; [|unfold HEAD in *; lia].
    by destruct (bi_head _ Hinv _ Hx). }
  split; [done|]. by apply (bo_dev _ _ _ _ (bi_buf _ Hinv _ _ Hi Hx)).
Qed.

(** ** The calls, on the log's state *)

Lemma wp_bcall {A} (m : M bst A) (Q : A -> lst -> Prop) s :
  wp (bcall m) Q s = wp m (fun a t => Q a (set_lbio t s)) (lbio s).
Proof. unfold bcall. by rewrite wp_lift. Qed.

Lemma wp_ccall {A} (m : M kcore A) (Q : A -> lst -> Prop) s :
  wp (ccall m) Q s = wp m (fun a c => Q a (set_lbio (set_bcore c (lbio s)) s)) (tcore s).
Proof. unfold ccall. by rewrite wp_bcall, wp_lift. Qed.

(** Unfold the calls into the layer below. *)
Ltac wp_low := wp_simpl; repeat progress (rewrite ?wp_bcall, ?wp_ccall; wp_simpl).

Lemma tx_lookup s pid hs D b n m :
  tx s pid hs D -> hs !! b = Some (n, m) ->
  exists x, bufs (lbio s) !! b = Some x /\ caches n x /\ b_data x = tview s n.
Proof.
  intros Htx Hb. destruct (tx_hs _ _ _ _ Htx _ _ _ Hb) as (_ & x & Hx & Hc & _).
  exists x. split_and!; [done..|]. symmetry. eapply view_hit; eauto. apply Htx.
Qed.

Lemma tx_block_lt s pid hs D b n m :
  tx s pid hs D -> hs !! b = Some (n, m) ->
  (b < NBUF)%nat /\ 0 <= n < Z.of_nat (length (tdisk s)).
Proof.
  intros Htx Hb. destruct (tx_hs _ _ _ _ Htx _ _ _ Hb) as (_ & x & Hx & (Hf & Hd & Hn) & _).
  pose proof (dev1_bound _ _ _ (tx_bio _ _ _ _ Htx) Hx Hd) as Hlt. split; [done|].
  destruct (bo_dev _ _ _ _ (bi_buf _ (tx_bio _ _ _ _ Htx) _ _ Hlt Hx) Hf). by subst n.
Qed.

Lemma tx_view_ok s pid hs D n :
  tx s pid hs D -> 0 <= n < Z.of_nat (length (tdisk s)) -> block_ok (tview s n).
Proof. intros Htx Hn. by apply view_ok; [apply Htx|]. Qed.

Lemma wp_tx_bread s pid hs D n Q :
  tx s pid hs D -> 0 <= n < Z.of_nat (length (tdisk s)) ->
  (forall b m, hs !! b <> Some (n, m)) ->
  (n ∈ D \/ (size hs + length D < NBUF)%nat) ->
  (forall b s', tx s' pid (<[b := (n, false)]> hs) D -> tframe s s' ->
     hs !! b = None -> lg s' = lg s -> tdisk s' = tdisk s ->
     dtrace (lbio s') = dtrace (lbio s) -> (forall m, tview s' m = tview s m) -> Q b s') ->
  wp (bcall (bread 1 n)) Q s.
Proof.
  intros Htx Hn Hnh Hroom HQ. pose proof (tx_bio _ _ _ _ Htx) as Hinv. wp_low.
  apply (wp_bread n pid); [apply Htx..|done| | |].
  - intros b x Hx Hd Hbn. destruct (blocked (bcore (lbio s)) b) eqn:E; [|done].
    apply (tx_blocked _ _ _ _ Htx) in E as [[n' m'] Hb].
    destruct (tx_lookup _ _ _ _ _ _ _ Htx Hb) as (y & Hy & (_ & _ & Hyn) & _).
    rewrite Hx in Hy. injection Hy as <-. destruct (Hnh b m'). congruence.
  - destruct Hroom as [Hin|Hlt].
    + left. destruct (tx_cached _ _ _ _ Htx _ Hin) as (i & x & Hx & Hf & Hbn).
      exists i, x. split_and!; [done| |done]. by apply (flags_bound _ _ _ Hinv Hx); rewrite Hf.
    + right. apply (unused_exists _ ((map_to_list hs).*1) D); [done| |apply Htx|].
      * intros b [v Hv]%(tx_blocked _ _ _ _ Htx). apply list_elem_of_fmap.
        exists (b, v). split; [done|]. by apply elem_of_map_to_list.
      * rewrite length_fmap, length_map_to_list. lia.
  - intros b t [P1 P2 P3 P4 P5 P6 P7 P8 P9 P10 P11].
    assert (hs !! b = None) as Hnb.
    { destruct (hs !! b) as [[n' m']|] eqn:E; [|done].
      destruct (tx_hs _ _ _ _ Htx _ _ _ E) as [Hsl _].
      apply blocked_true in Hsl. unfold tcore in Hsl. congruence. }
    assert (tframe s (set_lbio t s)) as Hfr.
    { split; unfold tcore, tdisk; cbn; rewrite ?P4, ?P5; [done| |done].
      intros i. by rewrite sl_of_set_ne. }
    apply HQ; try done. split; unfold tcore, tdisk; cbn; rewrite ?P4, ?P5;
      [done|apply Htx|apply (tx_pid _ _ _ _ Htx)| | | |].
    + intros j. destruct (decide (j = b)) as [->|Hne].
      * intros _. rewrite lookup_insert_eq. eauto.
      * rewrite blocked_set_ne, lookup_insert_ne by done. apply Htx.
    + intros j n' m'. destruct (decide (j = b)) as [->|Hne].
      * rewrite lookup_insert_eq. intros [= <- <-]. rewrite sl_of_set_eq. split; [done|].
        destruct P10 as (x & Hx & Hc & Hdata). exists x. split_and!; [done..|].
        intros _ Hf. by apply P11.
      * rewrite lookup_insert_ne by done. intros Hj.
        rewrite sl_of_set_ne by congruence. rewrite P9 by done. by apply Htx.
    + intros m. rewrite P8. apply Htx.
    + intros m. rewrite P8. apply Htx.
Qed.

Lemma wp_tx_bdata s pid hs D b n m Q :
  tx s pid hs D -> hs !! b = Some (n, m) -> Q (tview s n) s -> wp (bdata b) Q s.
Proof.
  intros Htx Hb HQ. destruct (tx_lookup _ _ _ _ _ _ _ Htx Hb) as (x & Hx & _ & Hd).
  unfold bdata. wp_low. apply (wp_get_buf _ x); [done|]. rewrite Hd.
  by destruct s.
Qed.

Definition vupd (v : Z -> block) (n : Z) (d : block) : Z -> block :=
  fun m => if decide (m = n) then d else v m.

Lemma vupd_eq v n d : vupd v n d n = d.
Proof. unfold vupd. by rewrite decide_True. Qed.
Lemma vupd_ne v n d m : m <> n -> vupd v n d m = v m.
Proof. intros. unfold vupd. by rewrite decide_False. Qed.

(** Changing the data of a held buffer changes the view of its block. *)
Lemma wp_tx_set_bdata s pid hs D b n m d Q :
  tx s pid hs D -> hs !! b = Some (n, m) -> block_ok d ->
  (forall s', tx s' pid (<[b := (n, true)]> hs) D -> tframe s s' ->
     lg s' = lg s -> tdisk s' = tdisk s -> dtrace (lbio s') = dtrace (lbio s) ->
     (forall k, tview s' k = vupd (tview s) n d k) -> Q tt s') ->
  wp (set_bdata b d) Q s.
Proof.
  intros Htx Hb Hd HQ. pose proof (tx_bio _ _ _ _ Htx) as Hinv.
  destruct (tx_hs _ _ _ _ Htx _ _ _ Hb) as (Hsl & x & Hx & Hc & _).
  destruct (tx_block_lt _ _ _ _ _ _ _ Htx Hb) as [Hlt _].
  assert (bio_inv (with_buf b (set_b_data d x) (bcore (lbio s)) (lbio s))) as Hinv'.
  { eapply bio_inv_with_buf; eauto.
    - destruct (bi_buf _ Hinv _ _ Hlt Hx) as [G1 G2 G3 G4 G5]. split; try done.
      apply blocked_true in Hsl. unfold tcore in Hsl. rewrite Hsl. done.
    - cbn. intros Hdev j y Hne Hy Hdy Heq. apply Hne. eapply (bi_uniq _ Hinv); eauto. }
  assert (forall k, is_dirty (with_buf b (set_b_data d x) (bcore (lbio s)) (lbio s)) k
                    <-> is_dirty (lbio s) k) as Hdt by (apply (is_dirty_with_buf _ _ x); done).
  unfold set_bdata. wp_low. apply (wp_upd_buf _ _ x); [done|].
  match goal with |- Q tt (set_lbio ?t s) =>
    change t with (with_buf b (set_b_data d x) (bcore (lbio s)) (lbio s)) end.
  apply HQ; try done.
  - split; try done; try apply Htx.
    + intros j Hj. apply (tx_blocked _ _ _ _ Htx) in Hj.
      destruct (decide (j = b)) as [->|]; [rewrite lookup_insert_eq; eauto|].
      by rewrite lookup_insert_ne.
    + intros j n' m'. destruct (decide (j = b)) as [->|Hne].
      * rewrite lookup_insert_eq. intros [= <- <-]. split; [done|].
        exists (set_b_data d x). split_and!; [by eapply lookup_with_buf|done|done].
      * rewrite lookup_insert_ne by done. intros Hj.
        destruct (tx_hs _ _ _ _ Htx _ _ _ Hj) as (Hslj & y & Hy & Hcy & Hco).
        split; [done|]. exists y. cbn. by rewrite list_lookup_insert_ne.
    + intros k Hk%Hdt. by apply Htx.
    + intros k Hk. by apply Hdt, (tx_cached _ _ _ _ Htx).
  - intros k. unfold tview, set_lbio. cbn [lbio]. unfold vupd. case_decide as E.
    + subst k. rewrite (view_hit _ b (set_b_data d x) n); [done|done| |done].
      by eapply lookup_with_buf.
    + destruct (view_cases _ k Hinv) as [(i & y & Hy & Hcy & ->)|[Hno ->]].
      * eapply view_hit; [done| |exact Hcy]. cbn. rewrite list_lookup_insert_ne; [done|].
        intros ->. rewrite Hx in Hy. injection Hy as <-.
        destruct Hc as (_ & _ & ?), Hcy as (_ & _ & ?). congruence.
      * rewrite view_miss; [done|]. intros i y Hy.
        apply (lookup_insert_buf _ _ x) in Hy as [[-> ->]|[_ Hy]]; [|by eapply Hno|done].
        intros (_ & _ & ?). destruct Hc as (_ & _ & ?). cbn in *. congruence.
Qed.

Lemma wp_tx_brelse s pid hs D b n Q :
  tx s pid hs D -> hs !! b = Some (n, false) ->
  (forall s', tx s' pid (delete b hs) D -> tframe s s' -> lg s' = lg s ->
     tdisk s' = tdisk s -> dtrace (lbio s') = dtrace (lbio s) ->
     (forall k, tview s' k = tview s k) -> Q tt s') ->
  wp (bcall (brelse b)) Q s.
Proof.
  intros Htx Hb HQ. pose proof (tx_bio _ _ _ _ Htx) as Hinv.
  destruct (tx_hs _ _ _ _ Htx _ _ _ Hb) as (Hsl & x & Hx & Hc & Hco).
  destruct (tx_block_lt _ _ _ _ _ _ _ Htx Hb) as [Hlt _]. wp_low.
  apply (wp_brelse b x pid); try done; try apply Htx.
  { destruct Hc as (_ & _ & ->). by apply Hco. }
  intros t [R1 R2 R3 R4 R5 R6 R7 _].
  assert (core_step (tcore s) (tcore (set_lbio t s))) as Hcs.
  { unfold tcore. cbn. rewrite R2. unfold unlock_core. etrans; [apply core_step_wake|done]. }
  apply HQ; try done.
  - split; try done; unfold tcore, tdisk; cbn; rewrite ?R3.
    + rewrite <- (tx_noheld _ _ _ _ Htx). apply Hcs.
    + eapply core_step_mypid; [exact Hcs|apply Htx].
    + intros j. rewrite R2, blocked_unlock. case_decide as E; [done|].
      intros Hj%(tx_blocked _ _ _ _ Htx). by rewrite lookup_delete_ne.
    + intros j n' m'. destruct (decide (j = b)) as [->|Hne]; [by rewrite lookup_delete_eq|].
      rewrite lookup_delete_ne by done. intros Hj.
      destruct (tx_hs _ _ _ _ Htx _ _ _ Hj) as (Hslj & y & Hy & Hcy & Hcoj).
      split; [rewrite R2; unfold unlock_core; by rewrite sl_of_set_ne by congruence|].
      destruct (lookup_lt_is_Some_2 (bufs t) j) as [y' Hy'].
      { rewrite (bi_len _ R1), <- (bi_len _ Hinv). by eapply lookup_lt_Some. }
      destruct (R7 _ _ Hy') as (y0 & Hy0 & E1 & E2 & E3 & E4).
      rewrite Hy in Hy0. injection Hy0 as <-. exists y'. unfold caches in *.
      rewrite E1, E2, E3, E4. done.
    + intros m. rewrite R6. apply Htx.
    + intros m. rewrite R6. apply Htx.
  - split; [done| |unfold tdisk; cbn; by rewrite R3].
    intros i. unfold tcore. cbn. rewrite R2. unfold unlock_core. by rewrite sl_of_set_ne.
Qed.

Lemma wp_tx_bwrite s pid hs D b n m Q :
  tx s pid hs D -> hs !! b = Some (n, m) ->
  (forall s', tx s' pid (<[b := (n, false)]> hs) (filter (.≠ n) D) -> tframe s s' ->
     lg s' = lg s -> tdisk s' = <[Z.to_nat n := tview s n]> (tdisk s) ->
     dtrace (lbio s') = dtrace (lbio s) ++ [(Z.to_nat n, tview s n)] ->
     (forall k, 0 <= k -> tview s' k = tview s k) -> Q tt s') ->
  wp (bcall (bwrite b)) Q s.
Proof.
  intros Htx Hb HQ. pose proof (tx_bio _ _ _ _ Htx) as Hinv.
  destruct (tx_hs _ _ _ _ Htx _ _ _ Hb) as (Hsl & x & Hx & Hc & Hco).
  destruct (tx_lookup _ _ _ _ _ _ _ Htx Hb) as (x0 & Hx0 & _ & Hdata).
  rewrite Hx in Hx0. injection Hx0 as <-.
  destruct (tx_block_lt _ _ _ _ _ _ _ Htx Hb) as [Hlt Hrange]. wp_low.
  apply (wp_bwrite b x n pid); try done; try apply Htx.
  pose proof (bio_inv_bwrite _ _ _ _ Hinv Hx Hc) as Hinv'.
  pose proof (fun k => view_bwrite (lbio s) b x n k Hinv Hx Hc) as Hview.
  assert (b_blockno x = n) as Hbn by apply Hc.
  unfold bwrite_state in *. rewrite Hbn, Hdata in *.
  apply HQ; try done.
  - split; try done; unfold tcore, tdisk; cbn; try apply Htx.
    + intros j Hj. apply (tx_blocked _ _ _ _ Htx) in Hj.
      destruct (decide (j = b)) as [->|]; [rewrite lookup_insert_eq; eauto|].
      by rewrite lookup_insert_ne.
    + intros j n' m'. destruct (decide (j = b)) as [->|Hne].
      * rewrite lookup_insert_eq. intros [= <- <-]. split; [done|].
        exists (set_b_flags 2 x). split_and!.
        -- apply list_lookup_insert_eq. by eapply lookup_lt_Some.
        -- by destruct Hc as (? & ? & ?).
        -- intros _ _. cbn. rewrite Hdata. apply list_lookup_insert_eq. unfold tdisk in Hrange. lia.
      * rewrite lookup_insert_ne by done. intros Hj.
        destruct (tx_hs _ _ _ _ Htx _ _ _ Hj) as (Hslj & y & Hy & Hcy & Hcoj).
        destruct (tx_block_lt _ _ _ _ _ _ _ Htx Hj) as [_ Hrj].
        split; [done|]. exists y. rewrite list_lookup_insert_ne by done.
        split_and!; [done..|]. intros Hm' Hf. rewrite list_lookup_insert_ne; [by apply Hcoj|].
        intros E. apply Hne. destruct Hcy as (_ & Hyd & Hyn).
        eapply (bi_uniq _ Hinv j b); eauto; [apply Hc|lia].
    + intros k (i & y & Hy & Hf & Hk). cbn in Hy.
      apply (lookup_insert_buf _ _ x) in Hy as [[-> ->]|[Hne Hy]]; [done| |done].
      apply list_elem_of_filter. split.
      * intros ->. apply Hne. eapply (bi_uniq _ Hinv i b); eauto; [|apply Hc|lia].
        by apply (flags_bound _ _ _ Hinv Hy); rewrite Hf.
      * apply Htx. by exists i, y.
    + intros k [Hkn Hk]%list_elem_of_filter.
      destruct (tx_cached _ _ _ _ Htx _ Hk) as (i & y & Hy & Hf & Hyk).
      exists i, y. cbn. rewrite list_lookup_insert_ne; [done|].
      intros ->. rewrite Hx in Hy. injection Hy as <-. congruence.
  - split; try done. unfold tdisk. cbn. by rewrite length_insert.
Qed.

(** ** log_write *)

Lemma wp_get_lh_block i v Q s :
  lh_block (lg s) !! i = Some v -> Q v s -> wp (get_lh_block i) Q s.
Proof. intros Hv HQ. unfold get_lh_block. wp_low. by apply (wp_idx _ _ v). Qed.

Lemma wp_put_lh_block i v Q s :
  (i < length (lh_block (lg s)))%nat ->
  Q tt (set_lg (set_lh_block (<[i := v]> (lh_block (lg s))) (lg s)) s) ->
  wp (put_lh_block i v) Q s.
Proof.
  intros [w Hw]%lookup_lt_is_Some_2 HQ. unfold put_lh_block, upd_lg. wp_low.
  by apply (wp_idx _ _ w).
Qed.

Lemma wp_log_find n i k Q s :
  (i + k <= length (lh_block (lg s)))%nat ->
  (forall t v, (i <= t < i + k)%nat -> lh_block (lg s) !! t = Some v -> 0 <= v < 4294967296) ->
  (forall j, (i <= j <= i + k)%nat ->
     (forall t v, (i <= t < j)%nat -> lh_block (lg s) !! t = Some v -> v <> n) ->
     ((j < i + k)%nat -> lh_block (lg s) !! j = Some n) -> Q j s) ->
  wp (log_find n i k) Q s.
Proof.
  revert i. induction k as [|k IH]; intros i Hlen Hr HQ; cbn [log_find].
  - rewrite wp_ret. apply HQ; [lia| |lia]. intros; lia.
  - destruct (lookup_lt_is_Some_2 (lh_block (lg s)) i) as [v Hv]; [lia|].
    rewrite wp_bind. apply (wp_get_lh_block _ v); [done|].
    rewrite u32_id by (apply (Hr i); [lia|done]).
    destruct (Z.eqb_spec v n) as [->|Hne].
    + wp_low. apply HQ; [lia| |done]. intros; lia.
    + apply IH; [lia| |].
      * intros t w Ht. apply Hr. lia.
      * intros j Hj Hbefore Hat. apply HQ; [lia| |intros; apply Hat; lia].
        intros t w Ht Hw. destruct (decide (t = i)) as [->|]; [congruence|].
        apply (Hbefore t); [lia|done].
Qed.

Definition log_add (n : Z) (l : list Z) : list Z := if decide (n ∈ l) then l else l ++ [n].

Lemma log_ok_logged_range s m : log_ok s -> m ∈ logged s -> 0 <= m < 2147483648.
Proof. intros Hl Hm. pose proof (lo_region _ Hl). destruct (lo_home _ Hl m Hm). lia. Qed.

(** The header after [log_write]: the block is appended unless present. *)
Lemma log_write_logged (bl : list Z) (j k : nat) (n : Z) :
  (k < length bl)%nat -> (j <= k)%nat ->
  (forall t v, (t < j)%nat -> bl !! t = Some v -> v <> n) ->
  ((j < k)%nat -> bl !! j = Some n) ->
  take (if decide (j = k) then S k else k) (<[j := n]> bl) = log_add n (take k bl).
Proof.
  intros Hk Hj Hbefore Hat. unfold log_add. case_decide as E.
  - subst j. rewrite decide_False.
    + apply list_eq. intros t. destruct (Nat.lt_trichotomy t k) as [Ht|[->|Ht]].
      * rewrite lookup_take_lt, list_lookup_insert_ne, lookup_app_l, lookup_take_lt
          by (rewrite ?length_take; lia). done.
      * rewrite lookup_take_lt by lia. rewrite list_lookup_insert_eq by lia.
        assert (length (take k bl) = k) as Hl by (rewrite length_take; lia).
        rewrite lookup_app_r by lia. by rewrite Hl, Nat.sub_diag.
      * rewrite !lookup_ge_None_2; [done| |]; rewrite ?length_app, !length_take, ?length_insert; cbn [length]; lia.
    + intros (t & Ht)%list_elem_of_lookup. apply lookup_take_Some in Ht as [Ht Hlt].
      by apply (Hbefore t n).
  - assert (j < k)%nat as Hjk by lia. specialize (Hat Hjk). rewrite decide_True.
    + by rewrite list_insert_id.
    + apply list_elem_of_lookup. exists j. by rewrite lookup_take_lt.
Qed.

Definition log_write_lg (n : Z) (j : nat) (l : log) : log :=
  let l := set_lh_block (<[j := n]> (lh_block l)) l in
  if Z.of_nat j =? lh_n l then set_lh_n (lh_n l + 1) l else l.

(** [log_write], up to the position it finds for the block. *)
Lemma wp_log_write_run s b x n Q :
  log_ok s -> held (tcore s) = [] -> bufs (lbio s) !! b = Some x -> b_blockno x = n ->
  0 <= n < 2147483648 ->
  lh_n (lg s) < Z.of_nat LOGSIZE -> lh_n (lg s) < l_size (lg s) - 1 ->
  1 <= l_outstanding (lg s) ->
  (forall j, (j <= Z.to_nat (lh_n (lg s)))%nat ->
     (forall t v, (t < j)%nat -> lh_block (lg s) !! t = Some v -> v <> n) ->
     ((j < Z.to_nat (lh_n (lg s)))%nat -> lh_block (lg s) !! j = Some n) ->
     Q tt (mkLst (with_buf b (set_b_flags (Z.lor (b_flags x) B_DIRTY) x) (tcore s) (lbio s))
             (log_write_lg n j (lg s)))) ->
  wp (log_write b) Q s.
Proof.
  intros Hlog Hh Hx Hbn Hn H1 H2 H3 HQ. pose proof (lo_n _ Hlog) as [[Hn0 _] _].
  pose proof (lo_len _ Hlog) as Hlen.
  unfold log_write. wp_low.
  destruct (Z.leb_spec (Z.of_nat LOGSIZE) (lh_n (lg s))); [lia|].
  destruct (Z.leb_spec (l_size (lg s) - 1) (lh_n (lg s))); [lia|]. cbn [orb].
  destruct (Z.ltb_spec (l_outstanding (lg s)) 1); [lia|]. wp_low.
  apply wp_acquire; [solve_lk|]. wp_low. apply (wp_get_buf _ x); [done|]. wp_low.
  rewrite Hbn. apply wp_log_find; cbn [lg set_lbio].
  { rewrite Hlen. unfold LOGSIZE in *. lia. }
  { intros t v Ht Hv. pose proof (log_ok_logged_range s v Hlog) as Hr.
    assert (v ∈ logged s) as Hin; [|specialize (Hr Hin); lia]. unfold logged. apply list_elem_of_lookup. exists t.
    rewrite lookup_take_lt by lia. done. }
  intros j Hj Hbefore Hat. wp_low. rewrite s32_id by lia.
  apply wp_put_lh_block; [cbn [lg set_lbio]; rewrite Hlen; unfold LOGSIZE in *; lia|].
  specialize (HQ j ltac:(lia) (fun t v Ht => Hbefore t v (conj (Nat.le_0_l t) Ht)) Hat).
  assert (forall s1, lbio s1 = set_bcore (set_held [LkLog] (tcore s)) (lbio s) ->
    lg s1 = log_write_lg n j (lg s) ->
    wp (bcall (upd_buf b (fun x => set_b_flags (Z.lor (b_flags x) B_DIRTY) x)) ;;
        ccall (release LkLog)) Q s1) as Hrest.
  { intros [t1 l1]. cbn. intros -> ->. wp_low. apply (wp_upd_buf _ _ x); [done|]. wp_low.
    apply wp_release; [solve_lk|]. unfold with_buf, tcore in HQ.
    destruct s as [[[] ? ? ?] ?]. cbn in *. subst. by rewrite decide_True. }
  unfold log_write_lg in Hrest. cbn [lh_n set_lh_block] in Hrest.
  rewrite wp_bind. destruct (Z.of_nat j =? lh_n (lg s));
    [unfold upd_lg; rewrite wp_modify|rewrite wp_skip]; apply Hrest; cbn; try done; by rewrite Hh.
Qed.

Lemma wp_tx_log_write s pid hs b n m Q :
  tx s pid hs (logged s) -> log_ok s -> hs !! b = Some (n, m) -> home s n ->
  lh_n (lg s) < Z.of_nat LOGSIZE -> lh_n (lg s) < l_size (lg s) - 1 ->
  1 <= l_outstanding (lg s) ->
  (forall s', tx s' pid (<[b := (n, false)]> hs) (logged s') -> log_ok s' -> tframe s s' ->
     logged s' = log_add n (logged s) ->
     l_start (lg s') = l_start (lg s) -> l_size (lg s') = l_size (lg s) ->
     l_outstanding (lg s') = l_outstanding (lg s) ->
     l_committing (lg s') = l_committing (lg s) ->
     tdisk s' = tdisk s -> dtrace (lbio s') = dtrace (lbio s) ->
     (forall k, tview s' k = tview s k) -> Q tt s') ->
  wp (log_write b) Q s.
Proof.
  intros Htx Hlog Hb Hhome H1 H2 H3 HQ. pose proof (tx_bio _ _ _ _ Htx) as Hinv.
  destruct (tx_hs _ _ _ _ Htx _ _ _ Hb) as (Hsl & x & Hx & Hc & _).
  destruct (tx_block_lt _ _ _ _ _ _ _ Htx Hb) as [Hlt Hrange].
  pose proof (lo_region _ Hlog) as Hreg. pose proof (lo_n _ Hlog) as Hln.
  apply (wp_log_write_run s b x n); try done; [apply Htx|apply Hc|lia|].
  intros j Hj Hbefore Hat.
  assert (Z.lor (b_flags x) B_DIRTY = 6) as ->.
  { destruct Hc as (Hf & _).
    destruct (bo_flags _ _ _ _ (bi_buf _ Hinv _ _ Hlt Hx)) as [|[->| ->]]; done. }
  set (s' := mkLst _ _).
  assert (logged s' = log_add n (logged s)) as Hlogged.
  { unfold logged. rewrite <- (log_write_logged _ j).
    - unfold s', log_write_lg. cbn. case_decide as E.
      + subst j. rewrite Z2Nat.id, Z.eqb_refl by lia. cbn. f_equal. lia.
      + destruct (Z.eqb_spec (Z.of_nat j) (lh_n (lg s))); [lia|]. done.
    - rewrite (lo_len _ Hlog). unfold LOGSIZE in *. lia.
    - done.
    - exact Hbefore.
    - exact Hat. }
  assert (bio_inv (lbio s')) as Hinv'.
  { eapply bio_inv_with_buf; eauto.
    - destruct (bi_buf _ Hinv _ _ Hlt Hx) as [G1 G2 G3 G4 G5].
      split; cbn; try done; [right; by right|intros _; apply G4, Hc].
    - cbn. intros Hdev i y Hne Hy Hdy Heq. apply Hne. eapply (bi_uniq _ Hinv); eauto. }
  assert (forall k, is_dirty (lbio s') k <-> k = n \/ is_dirty (lbio s) k) as Hdirty.
  { intros k. split.
    - intros (i & y & Hy & Hf & Hk).
      apply (lookup_insert_buf _ _ x) in Hy as [[-> ->]|[Hne Hy]]; [left|right|done].
      + rewrite <- Hk. apply Hc.
      + by exists i, y.
    - assert (is_dirty (lbio s') n) as Hdn.
      { exists b, (set_b_flags 6 x). split_and!; [by eapply lookup_with_buf|done|apply Hc]. }
      intros [->|(i & y & Hy & Hf & Hk)]; [done|].
      destruct (decide (i = b)) as [->|Hne].
      + rewrite Hx in Hy. injection Hy as <-. destruct Hc as (_ & _ & E). congruence.
      + exists i, y. cbn. by rewrite list_lookup_insert_ne. }
  assert (l_start (lg s') = l_start (lg s) /\ l_size (lg s') = l_size (lg s) /\
          l_dev (lg s') = l_dev (lg s) /\ l_outstanding (lg s') = l_outstanding (lg s) /\
          l_committing (lg s') = l_committing (lg s) /\
          length (lh_block (lg s')) = length (lh_block (lg s)) /\
          (lh_n (lg s') = lh_n (lg s) \/ lh_n (lg s') = lh_n (lg s) + 1))
    as (E1 & E2 & E3 & E4 & E5 & E6 & E7).
  { unfold s', log_write_lg. cbn. destruct (Z.of_nat j =? lh_n (lg s)); cbn;
      rewrite length_insert; naive_solver. }
  assert (forall k, k ∈ logged s' -> k = n \/ k ∈ logged s) as Hin.
  { intros k. rewrite Hlogged. unfold log_add. case_decide; set_solver. }
  assert (n ∈ logged s' /\ forall k, k ∈ logged s -> k ∈ logged s') as [Hinn Hin'].
  { rewrite Hlogged. unfold log_add. case_decide; set_solver. }
  apply HQ; try done.
  - split; try done; try apply Htx.
    + intros i Hi. apply (tx_blocked _ _ _ _ Htx) in Hi.
      destruct (decide (i = b)) as [->|]; [rewrite lookup_insert_eq; eauto|].
      by rewrite lookup_insert_ne.
    + intros i n' m'. destruct (decide (i = b)) as [->|Hne].
      * rewrite lookup_insert_eq. intros [= <- <-]. split; [done|].
        exists (set_b_flags 6 x). split_and!; [by eapply lookup_with_buf| |done].
        destruct Hc as (_ & ? & ?). by split_and!.
      * rewrite lookup_insert_ne by done. intros Hi.
        destruct (tx_hs _ _ _ _ Htx _ _ _ Hi) as (Hsli & y & Hy & Hcy & Hco).
        split; [done|]. exists y. cbn. by rewrite list_lookup_insert_ne.
    + intros k [->|Hk]%Hdirty; [done|]. apply Hin'. by apply Htx.
    + intros k [->|Hk]%Hin; apply Hdirty; [by left|right]. by apply (tx_cached _ _ _ _ Htx).
  - split; unfold tdisk; rewrite ?E1, ?E2, ?E3, ?E6; cbn [lbio s' with_buf disk]; try apply Hlog.
    + lia.
    + rewrite Hlogged. unfold log_add. case_decide; [apply Hlog|].
      apply NoDup_app. split_and!; [apply Hlog| |apply NoDup_singleton]. set_solver.
    + intros k [->|Hk]%Hin; unfold home, in_log; rewrite E1, E2; [apply Hhome|].
      by apply (lo_home _ Hlog).
  - intros k. unfold tview. eapply view_with_buf; eauto.
    + intros k' (_ & Hd' & Hk'). symmetry. apply (view_hit _ b x); [done|done|]. split_and!; [apply Hc|done..].
    + intros k' (? & ? & ?). left. by split_and!.
Qed.
