(* ===== verification/Crash.v ===== *)
(** * Commit, crash and recovery

    The commit of [log.c] writes to the disk in a fixed order: the log blocks,
    the header, the home blocks, the cleared header.  A crash keeps a prefix
    of these writes and loses the memory.  The theorems at the end state that
    whatever the prefix, [recover_from_log] run from an empty cache leaves the
    home blocks all as before the transaction or all as after it. *)

From S2P Require Import Prelude Bytes Core Bio Log Txn.

(** ** Sequences of disk writes *)

Definition apply_writes (ws : list (nat * block)) (d : list block) : list block :=
  foldl (fun d w => <[w.1 := w.2]> d) d ws.

Lemma apply_writes_app ws1 ws2 d :
  apply_writes (ws1 ++ ws2) d = apply_writes ws2 (apply_writes ws1 d).
Proof. apply foldl_app. Qed.

Lemma length_apply_writes ws d : length (apply_writes ws d) = length d.
Proof.
  revert d. induction ws as [|w ws IH]; intros d; cbn; [done|].
  unfold apply_writes in IH. by rewrite IH, length_insert.
Qed.

Lemma apply_writes_other ws d n :
  n ∉ ws.*1 -> apply_writes ws d !! n = d !! n.
Proof.
  revert d. induction ws as [|[k v] ws IH]; intros d Hn; cbn in *; [done|].
  apply not_elem_of_cons in Hn as [Hk Hn].
  unfold apply_writes in IH. rewrite IH by done. by rewrite list_lookup_insert_ne.
Qed.

Lemma apply_writes_nodup ws d n v :
  NoDup ws.*1 -> (n, v) ∈ ws -> (n < length d)%nat -> apply_writes ws d !! n = Some v.
Proof.
  revert d. induction ws as [|[k w] ws IH]; intros d Hnd Hin Hlt; cbn in *; [set_solver|].
  apply NoDup_cons in Hnd as [Hk Hnd]. apply elem_of_cons in Hin as [[= <- <-]|Hin].
  - pose proof (apply_writes_other ws (<[n:=v]> d) n Hk) as E. unfold apply_writes in E.
    rewrite E. by apply list_lookup_insert_eq.
  - apply IH; [done..|]. by rewrite length_insert.
Qed.

(** ** The header block *)

Definition hdr_n (d : block) : Z := s32 (get32 d 0).
Definition hdr_blk (d : block) (i : nat) : Z := s32 (get32 d (hdr_off i)).

Definition header_is (d : block) (n : nat) (bl : list Z) : Prop :=
  block_ok d /\ hdr_n d = Z.of_nat n /\
  forall i v, (i < n)%nat -> bl !! i = Some v -> hdr_blk d i = v.

Definition small_blocks (bl : list Z) : Prop := Forall (fun v => 0 <= v < 2147483648) bl.

Lemma s32_get_put d off v :
  (off + 4 <= length d)%nat -> 0 <= v < 2147483648 -> s32 (get32 (put32 d off v) off) = v.
Proof.
  intros Hlen Hv. rewrite get_put_le by done. change (256 ^ Z.of_nat 4) with 4294967296.
  rewrite Z.mod_small by lia. apply s32_id. lia.
Qed.

Lemma put32_ok d off v : block_ok d -> (off + 4 <= Z.to_nat BSIZE)%nat -> block_ok (put32 d off v).
Proof. intros [H1 H2] Ho. split; [rewrite length_put_le by lia; done|auto]. Qed.

(** Entry [i] written into a header that holds the entries before it. *)
Lemma header_is_put d n i (bl : list Z) v :
  block_ok d -> (i < LOGSIZE)%nat -> hdr_n d = n -> bl !! i = Some v -> 0 <= v < 2147483648 ->
  (forall j w, (j < i)%nat -> bl !! j = Some w -> hdr_blk d j = w) ->
  let d' := put32 d (hdr_off i) v in
  block_ok d' /\ hdr_n d' = n /\ forall j w, (j < S i)%nat -> bl !! j = Some w -> hdr_blk d' j = w.
Proof.
  intros Hd Hi Hn Hv Hr Hb d'. pose proof (proj1 Hd) as Hl. unfold BSIZE, LOGSIZE in *.
  assert (hdr_off i + 4 <= length d)%nat as Ho by (unfold hdr_off; lia). split_and!.
  - apply put32_ok; [done|]. unfold BSIZE; lia.
  - unfold hdr_n, d'. rewrite get_put_le_ne; [done|done|lia|]. left. unfold hdr_off. lia.
  - intros j w Hj Hw. unfold hdr_blk, d'. destruct (decide (j = i)) as [->|Hne].
    + rewrite s32_get_put by done. congruence.
    + rewrite get_put_le_ne; [apply (Hb j); [lia|done]|done|unfold hdr_off in *; lia|].
      left. unfold hdr_off. lia.
Qed.

Lemma filter_ne_id (n : Z) (D : list Z) : n ∉ D -> filter (.≠ n) D = D.
Proof.
  induction D as [|x D IH]; intros Hn; [done|]. apply not_elem_of_cons in Hn as [Hx Hn].
  rewrite filter_cons_True by done. by rewrite IH.
Qed.

(** ** Framed steps on the log state *)

(** A transaction state reached from [s0] with the log record unchanged. *)
Record at_log (s0 : lst) (pid : Z) (hs : handles) (D : list Z) (s : lst) : Prop := {
  al_tx : tx s pid hs D;
  al_frame : tframe s0 s;
  al_lg : lg s = lg s0 }.

Lemma log_ok_at s0 pid hs D s : log_ok s0 -> at_log s0 pid hs D s -> log_ok s.
Proof.
  intros [H1 H2 H3 H4 H5 H6] [_ Hf Hl]. split; unfold logged, home in *; rewrite ?Hl; try done.
  - by rewrite (tf_len _ _ Hf).
  - intros m Hm. rewrite (tf_len _ _ Hf). by apply H6.
Qed.

Definition lblk (s : lst) (i : nat) : Z := default 0 (lh_block (lg s) !! i).

Lemma lblk_lookup s i :
  log_ok s -> (i < LOGSIZE)%nat -> lh_block (lg s) !! i = Some (lblk s i).
Proof.
  intros Hlog Hi. unfold lblk. rewrite <- (lo_len _ Hlog) in Hi.
  apply lookup_lt_is_Some_2 in Hi as [v ->]. done.
Qed.

Lemma logged_length s : log_ok s -> length (logged s) = Z.to_nat (lh_n (lg s)).
Proof.
  intros Hlog. pose proof (lo_n _ Hlog). unfold logged. rewrite length_take, (lo_len _ Hlog). lia.
Qed.

Lemma lblk_logged s i :
  log_ok s -> (i < Z.to_nat (lh_n (lg s)))%nat -> logged s !! i = Some (lblk s i).
Proof.
  intros Hlog Hi. pose proof (lo_n _ Hlog). unfold logged. rewrite lookup_take_lt by done.
  apply lblk_lookup; [done|lia].
Qed.

Lemma lblk_home s i :
  log_ok s -> (i < Z.to_nat (lh_n (lg s)))%nat -> home s (lblk s i).
Proof. intros Hlog Hi. apply (lo_home _ Hlog). eapply list_elem_of_lookup. eauto using lblk_logged. Qed.

(** ** write_head *)

Lemma wp_write_head s pid D Q :
  tx s pid ∅ D -> log_ok s -> (length D < NBUF)%nat -> (l_start (lg s) ∉ D) ->
  (forall s' h, at_log s pid ∅ D s' -> header_is h (Z.to_nat (lh_n (lg s))) (lh_block (lg s)) ->
     tdisk s' = <[Z.to_nat (l_start (lg s)) := h]> (tdisk s) ->
     dtrace (lbio s') = dtrace (lbio s) ++ [(Z.to_nat (l_start (lg s)), h)] ->
     (forall k, 0 <= k -> k <> l_start (lg s) -> tview s' k = tview s k) -> Q tt s') ->
  wp write_head Q s.
Proof.
  intros Htx Hlog HD Hst HQ. pose proof (lo_region _ Hlog) as Hreg.
  pose proof (lo_n _ Hlog) as Hn. set (n := Z.to_nat (lh_n (lg s))) in *.
  set (st := l_start (lg s)) in *.
  unfold write_head. wp_simpl. fold st. rewrite (lo_dev _ Hlog), u32_id by lia.
  apply (wp_tx_bread s pid ∅ D); [done|lia|done|right; rewrite map_size_empty; lia|].
  intros b s1 Htx1 Hf1 _ Hl1 Hd1 Ht1 Hv1. wp_simpl.
  eapply wp_tx_bdata; [done|by rewrite lookup_insert_eq|].
  assert (block_ok (tview s1 st)) as Hok by (eapply tx_view_ok; [done|rewrite Hd1; lia]).
  wp_simpl. eapply wp_tx_set_bdata; [done|by rewrite lookup_insert_eq|apply put32_ok; [done|unfold BSIZE; lia]|].
  rewrite insert_insert_eq. intros s2 Htx2 Hf2 Hl2 Hd2 Ht2 Hv2. wp_simpl.
  pose (I := fun (i : nat) s' => tx s' pid {[b := (st, true)]} D /\ tframe s s' /\
    lg s' = lg s /\ tdisk s' = tdisk s /\ dtrace (lbio s') = dtrace (lbio s) /\
    (forall k, k <> st -> tview s' k = tview s k) /\
    hdr_n (tview s' st) = lh_n (lg s) /\
    forall j w, (j < i)%nat -> lh_block (lg s) !! j = Some w -> hdr_blk (tview s' st) j = w).
  eapply wp_mono; [apply (wp_for_range I)|].
  - intros j s3 Hj (Htx3 & Hf3 & Hl3 & Hd3 & Ht3 & Hv3 & Hn3 & Hb3).
    assert (lh_block (lg s) !! j = Some (lblk s j)) as Hlb by (apply lblk_lookup; [done|lia]).
    wp_simpl. apply (wp_get_lh_block _ (lblk s j)); [by rewrite Hl3|]. wp_simpl.
    eapply wp_tx_bdata; [done|by rewrite lookup_singleton_eq|].
    assert (block_ok (tview s3 st)) as Hok3 by (eapply tx_view_ok; [done|rewrite Hd3; lia]).
    assert (0 <= lblk s j < 2147483648) as Hrange.
    { eapply log_ok_logged_range; [done|]. eapply list_elem_of_lookup_2. apply lblk_logged; [done|lia]. }
    destruct (header_is_put _ _ j _ _ Hok3 ltac:(lia) Hn3 Hlb Hrange Hb3) as (P1 & P2 & P3).
    eapply wp_tx_set_bdata; [done|by rewrite lookup_singleton_eq|done|].
    rewrite insert_singleton_eq. intros s4 Htx4 Hf4 Hl4 Hd4 Ht4 Hv4. unfold I.
    split_and!; [done|by etrans|congruence..| | |].
    + intros k Hk. by rewrite Hv4, vupd_ne, Hv3.
    + by rewrite Hv4, vupd_eq.
    + by rewrite Hv4, vupd_eq.
  - unfold I. split_and!; [done|by etrans|congruence..| | |lia].
    + intros k Hk. by rewrite Hv2, vupd_ne, Hv1.
    + rewrite Hv2, vupd_eq. apply s32_get_put; [|lia]. destruct Hok as [-> _]. unfold BSIZE. lia.
  - intros [] s3 (Htx3 & Hf3 & Hl3 & Hd3 & Ht3 & Hv3 & Hn3 & Hb3). wp_simpl.
    eapply wp_tx_bwrite; [done|by rewrite lookup_singleton_eq|].
    rewrite insert_singleton_eq. intros s4 Htx4 Hf4 Hl4 Hd4 Ht4 Hv4.
    eapply wp_tx_brelse; [done|by rewrite lookup_singleton_eq|].
    rewrite delete_singleton_eq. intros s5 Htx5 Hf5 Hl5 Hd5 Ht5 Hv5.
    assert (filter (.≠ st) D = D) as HDD by (by apply filter_ne_id).
    rewrite HDD in Htx5. apply (HQ s5 (tview s3 st)).
    + split; [done| |congruence]. etrans; [done|]. by etrans.
    + split_and!; [eapply tx_view_ok; [done|rewrite Hd3; lia]|lia|done].
    + congruence.
    + congruence.
    + intros k Hk Hne. by rewrite Hv5, Hv4, Hv3.
Qed.

(** ** Copying a block through the cache

    Both [write_log] and [install_trans] read two blocks, copy one over the
    other, write the latter to the disk and release both; they differ in
    which one they read first. *)

(** The state after block [src] has been copied to [dst]. *)
Record copied (s : lst) (pid : Z) (D : list Z) (src dst : Z) (s' : lst) : Prop := {
  cp_at : at_log s pid ∅ (filter (.≠ dst) D) s';
  cp_disk : tdisk s' = <[Z.to_nat dst := tview s src]> (tdisk s);
  cp_trace : dtrace (lbio s') = dtrace (lbio s) ++ [(Z.to_nat dst, tview s src)];
  cp_view : forall k, 0 <= k -> tview s' k = vupd (tview s) dst (tview s src) k }.

Lemma wp_copy_tail s0 s pid (hs : handles) D b1 b2 src dst Q :
  at_log s0 pid hs D s -> hs = <[b1 := (src, false)]> {[b2 := (dst, false)]} -> b1 <> b2 ->
  tdisk s = tdisk s0 -> dtrace (lbio s) = dtrace (lbio s0) ->
  (forall k, tview s k = tview s0 k) ->
  (forall s', copied s0 pid D src dst s' -> Q tt s') ->
  wp (d ← bdata b1; set_bdata b2 d ;; bcall (bwrite b2) ;; bcall (brelse b1) ;;
      bcall (brelse b2)) Q s.
Proof.
  intros [Htx Hf Hl] -> Hne Hd Ht Hv HQ.
  assert (<[b1 := (src, false)]> {[b2 := (dst, false)]} !! b2 = Some (dst, false)) as Hb2
    by (by rewrite lookup_insert_ne, lookup_singleton_eq).
  destruct (tx_block_lt _ _ _ _ b1 src false Htx) as [_ Hsrc]; [by rewrite lookup_insert_eq|].
  rewrite wp_bind. eapply wp_tx_bdata; [done|by rewrite lookup_insert_eq|]. wp_simpl.
  eapply wp_tx_set_bdata; [done|done|by eapply tx_view_ok|].
  intros s1 Htx1 Hf1 Hl1 Hd1 Ht1 Hv1. wp_simpl.
  eapply wp_tx_bwrite; [done|by rewrite lookup_insert_eq|]. rewrite insert_insert_eq.
  intros s2 Htx2 Hf2 Hl2 Hd2 Ht2 Hv2. wp_simpl.
  eapply (wp_tx_brelse _ _ _ _ b1); [done|by rewrite lookup_insert_ne, lookup_insert_eq by done|].
  intros s3 Htx3 Hf3 Hl3 Hd3 Ht3 Hv3.
  eapply (wp_tx_brelse _ _ _ _ b2); [done|by rewrite lookup_delete_ne, lookup_insert_eq by done|].
  intros s4 Htx4 Hf4 Hl4 Hd4 Ht4 Hv4.
  assert (delete b2 (delete b1 (<[b2:=(dst,false)]> (<[b1:=(src,false)]> {[b2:=(dst,false)]}))) = (∅ : handles))
    as Hemp.
  { apply map_eq. intros i. rewrite lookup_empty, !lookup_delete. repeat case_decide; try done.
    rewrite !lookup_insert_ne by done. rewrite lookup_singleton_ne by done. done. }
  rewrite Hemp in Htx4. rewrite Hv1, vupd_eq, Hv in *. apply HQ. split.
  - split; [done| |congruence]. repeat (etrans; [eassumption|]). done.
  - by rewrite Hd4, Hd3, Hd2, Hd1, Hd.
  - by rewrite Ht4, Ht3, Ht2, Ht1, Ht.
  - intros k Hk. rewrite Hv4, Hv3, Hv2, Hv1 by done. unfold vupd. by rewrite Hv.
Qed.

Definition log_block (s : lst) (i : nat) : Z := l_start (lg s) + Z.of_nat i + 1.

Lemma log_block_range s i :
  log_ok s -> (i < Z.to_nat (lh_n (lg s)))%nat ->
  0 <= log_block s i < Z.of_nat (length (tdisk s)) /\ log_block s i < 2147483648 /\
  in_log (lg s) (log_block s i).
Proof.
  intros Hlog Hi. pose proof (lo_region _ Hlog). pose proof (lo_n _ Hlog).
  unfold in_log, log_block. lia.
Qed.

Lemma log_block_home_ne s i :
  log_ok s -> (i < Z.to_nat (lh_n (lg s)))%nat -> log_block s i <> lblk s i.
Proof.
  intros Hlog Hi E. destruct (lblk_home s i Hlog Hi) as [_ Hn]. rewrite <- E in Hn.
  by apply Hn, log_block_range.
Qed.

Section copies.
Context (s : lst) (pid : Z) (D : list Z) (Htx : tx s pid ∅ D) (Hlog : log_ok s)
  (HD : (length D < NBUF)%nat) (i : nat) (Hi : (i < Z.to_nat (lh_n (lg s)))%nat).

Local Abbreviation lb := (log_block s i).

Lemma wp_write_log_step Q :
  (lblk s i ∈ D \/ (1 + length D < NBUF)%nat) ->
  (forall s', copied s pid D (lblk s i) lb s' -> Q tt s') ->
  wp (write_log_step i) Q s.
Proof.
  intros Hroom HQ. destruct (log_block_range s i Hlog Hi) as (Hlb & Hlb' & _).
  pose proof (log_block_home_ne s i Hlog Hi) as Hne.
  destruct (lblk_home s i Hlog Hi) as [Hrange _]. pose proof (lo_region _ Hlog).
  pose proof (lo_n _ Hlog).
  unfold write_log_step. wp_simpl. fold (log_block s i).
  rewrite (lo_dev _ Hlog), u32_id by lia.
  eapply wp_tx_bread; [done|lia|done|right; rewrite map_size_empty; lia|].
  intros b1 s1 Htx1 Hf1 _ Hl1 Hd1 Ht1 Hv1. wp_simpl.
  apply (wp_get_lh_block _ (lblk s i)); [rewrite Hl1; apply lblk_lookup; [done|lia]|].
  wp_simpl. rewrite u32_id by lia. rewrite insert_empty in Htx1.
  eapply wp_tx_bread; [done|rewrite Hd1; lia| | |].
  - intros b m. destruct (decide (b = b1)) as [->|]; [rewrite lookup_singleton_eq; congruence|].
    by rewrite lookup_singleton_ne.
  - rewrite map_size_singleton. done.
  - intros b2 s2 Htx2 Hf2 Hb2 Hl2 Hd2 Ht2 Hv2.
    assert (b2 <> b1) by (intros ->; by rewrite lookup_singleton_eq in Hb2).
    eapply (wp_copy_tail s s2); [|done|done| | | |exact HQ].
    + split; [done|by etrans|congruence].
    + congruence.
    + congruence.
    + intros k. by rewrite Hv2.
Qed.

Lemma wp_install_step Q :
  (lblk s i ∈ D \/ (1 + length D < NBUF)%nat) ->
  (forall s', copied s pid D lb (lblk s i) s' -> Q tt s') ->
  wp (install_step i) Q s.
Proof.
  intros Hroom HQ. destruct (log_block_range s i Hlog Hi) as (Hlb & Hlb' & _).
  pose proof (log_block_home_ne s i Hlog Hi) as Hne.
  destruct (lblk_home s i Hlog Hi) as [Hrange _]. pose proof (lo_region _ Hlog).
  pose proof (lo_n _ Hlog).
  unfold install_step. wp_simpl. fold (log_block s i).
  rewrite (lo_dev _ Hlog), u32_id by lia.
  eapply wp_tx_bread; [done|lia|done|right; rewrite map_size_empty; lia|].
  intros b1 s1 Htx1 Hf1 _ Hl1 Hd1 Ht1 Hv1. wp_simpl.
  apply (wp_get_lh_block _ (lblk s i)); [rewrite Hl1; apply lblk_lookup; [done|lia]|].
  wp_simpl. rewrite u32_id by lia. rewrite insert_empty in Htx1.
  eapply wp_tx_bread; [done|rewrite Hd1; lia| | |].
  - intros b m. destruct (decide (b = b1)) as [->|]; [rewrite lookup_singleton_eq; congruence|].
    by rewrite lookup_singleton_ne.
  - rewrite map_size_singleton. done.
  - intros b2 s2 Htx2 Hf2 Hb2 Hl2 Hd2 Ht2 Hv2.
    assert (b1 <> b2) as Hb12 by (intros ->; by rewrite lookup_singleton_eq in Hb2).
    eapply (wp_copy_tail s s2); [| |exact Hb12| | | |exact HQ].
    + split; [exact Htx2|by etrans|congruence].
    + rewrite <- !insert_empty. by apply insert_insert_ne.
    + congruence.
    + congruence.
    + intros k. by rewrite Hv2.
Qed.
End copies.

(** ** The loops *)

Definition log_writes (s : lst) (k : nat) : list (nat * block) :=
  (fun i => (Z.to_nat (log_block s i), tview s (lblk s i))) <$> seq 0 k.
Definition install_writes (s : lst) (k : nat) : list (nat * block) :=
  (fun i => (Z.to_nat (lblk s i), tview s (log_block s i))) <$> seq 0 k.

Lemma apply_writes_snoc ws n v d :
  apply_writes (ws ++ [(n, v)]) d = <[n := v]> (apply_writes ws d).
Proof. by rewrite apply_writes_app. Qed.

Lemma log_writes_S s k :
  log_writes s (S k) = log_writes s k ++ [(Z.to_nat (log_block s k), tview s (lblk s k))].
Proof. unfold log_writes. by rewrite seq_S, fmap_app. Qed.

Lemma install_writes_S s k :
  install_writes s (S k) = install_writes s k ++ [(Z.to_nat (lblk s k), tview s (log_block s k))].
Proof. unfold install_writes. by rewrite seq_S, fmap_app. Qed.

Lemma lblk_at s0 pid hs D s i : at_log s0 pid hs D s -> lblk s i = lblk s0 i.
Proof. intros [_ _ Hl]. unfold lblk. by rewrite Hl. Qed.

Lemma at_log_refl s pid hs D : tx s pid hs D -> at_log s pid hs D s.
Proof. by split. Qed.

Lemma at_log_trans s0 s1 s2 pid hs1 hs2 D1 D2 :
  at_log s0 pid hs1 D1 s1 -> at_log s1 pid hs2 D2 s2 -> at_log s0 pid hs2 D2 s2.
Proof. intros [_ F1 L1] [T2 F2 L2]. split; [done|by etrans|congruence]. Qed.

Lemma wp_write_log s pid Q :
  tx s pid ∅ (logged s) -> log_ok s -> (length (logged s) < NBUF)%nat ->
  (forall s', at_log s pid ∅ (logged s) s' ->
     tdisk s' = apply_writes (log_writes s (Z.to_nat (lh_n (lg s)))) (tdisk s) ->
     dtrace (lbio s') = dtrace (lbio s) ++ log_writes s (Z.to_nat (lh_n (lg s))) ->
     (forall m, 0 <= m -> ~ in_log (lg s) m -> tview s' m = tview s m) ->
     (forall i, (i < Z.to_nat (lh_n (lg s)))%nat ->
        tview s' (log_block s i) = tview s (lblk s i)) -> Q tt s') ->
  wp write_log Q s.
Proof.
  intros Htx Hlog HD HQ. unfold write_log. wp_simpl. set (n := Z.to_nat (lh_n (lg s))) in *.
  pose (I := fun (k : nat) s' => at_log s pid ∅ (logged s) s' /\
    tdisk s' = apply_writes (log_writes s k) (tdisk s) /\
    dtrace (lbio s') = dtrace (lbio s) ++ log_writes s k /\
    (forall m, 0 <= m -> ~ in_log (lg s) m -> tview s' m = tview s m) /\
    (forall i, (i < k)%nat -> tview s' (log_block s i) = tview s (lblk s i))).
  eapply wp_mono; [apply (wp_for_range I)|].
  - intros j s1 Hj (Hat & Hd & Ht & Hv1 & Hv2). cbn [Nat.add] in Hj.
    pose proof (log_ok_at _ _ _ _ _ Hlog Hat) as Hlog1. pose proof (al_lg _ _ _ _ _ Hat) as Hl.
    assert (j < Z.to_nat (lh_n (lg s1)))%nat as Hj1 by (rewrite Hl; lia).
    destruct (log_block_range s1 j Hlog1 Hj1) as (Hr1 & Hr2 & Hr3).
    destruct (lblk_home s j Hlog) as [Hbr Hbh]; [lia|].
    apply (wp_write_log_step s1 pid (logged s)); try done; [apply Hat| |].
    { left. apply list_elem_of_lookup. exists j. rewrite (lblk_at _ _ _ _ _ _ Hat).
      apply lblk_logged; [done|lia]. }
    intros s2 [C1 C2 C3 C4]. rewrite (lblk_at _ _ _ _ _ _ Hat) in *.
    assert (log_block s1 j = log_block s j) as Elb by (unfold log_block; by rewrite Hl).
    rewrite Elb, Hl in *. clear Elb.
    rewrite filter_ne_id in C1.
    2:{ intros Hin. destruct (lo_home _ Hlog _ Hin) as [_ Hn]. by apply Hn. }
    rewrite (Hv1 (lblk s j)) in * by (done || lia).
    unfold I. rewrite log_writes_S. split_and!.
    + by eapply at_log_trans.
    + rewrite apply_writes_snoc, C2. by rewrite Hd.
    + rewrite C3, Ht. by rewrite (assoc_L (++)).
    + intros m Hm Hnm. rewrite C4 by done. rewrite vupd_ne; [by apply Hv1|]. intros ->. by apply Hnm.
    + intros i Hi. pose proof (lo_region _ Hlog).
      rewrite C4 by (unfold log_block; lia).
      destruct (decide (i = j)) as [->|]; [apply vupd_eq|].
      rewrite vupd_ne by (unfold log_block; lia). apply Hv2. lia.
  - unfold I. split_and!; try done; [by rewrite app_nil_r|lia].
  - intros [] s1 (Hat & Hd & Ht & Hv1 & Hv2). by apply HQ.
Qed.

Lemma wp_install_trans s pid D Q :
  tx s pid ∅ D -> log_ok s -> (length D < NBUF)%nat ->
  ((forall i, (i < Z.to_nat (lh_n (lg s)))%nat -> lblk s i ∈ D) \/ (1 + length D < NBUF)%nat) ->
  (forall s' D', at_log s pid ∅ D' s' -> (length D' <= length D)%nat ->
     (forall m, m ∈ D' <-> m ∈ D /\ m ∉ logged s) ->
     tdisk s' = apply_writes (install_writes s (Z.to_nat (lh_n (lg s)))) (tdisk s) ->
     dtrace (lbio s') = dtrace (lbio s) ++ install_writes s (Z.to_nat (lh_n (lg s))) -> Q tt s') ->
  wp install_trans Q s.
Proof.
  intros Htx Hlog HD Hroom HQ. unfold install_trans. wp_simpl.
  set (n := Z.to_nat (lh_n (lg s))) in *.
  pose (I := fun (k : nat) s' => exists D', at_log s pid ∅ D' s' /\ (length D' <= length D)%nat /\
    (forall m, m ∈ D' <-> m ∈ D /\ m ∉ take k (logged s)) /\
    tdisk s' = apply_writes (install_writes s k) (tdisk s) /\
    dtrace (lbio s') = dtrace (lbio s) ++ install_writes s k /\
    (forall m, 0 <= m -> in_log (lg s) m -> tview s' m = tview s m)).
  eapply wp_mono; [apply (wp_for_range I)|].
  - intros j s1 Hj (D1 & Hat & HD1 & Hin & Hd & Ht & Hv). cbn [Nat.add] in Hj.
    pose proof (log_ok_at _ _ _ _ _ Hlog Hat) as Hlog1. pose proof (al_lg _ _ _ _ _ Hat) as Hl.
    assert (j < Z.to_nat (lh_n (lg s1)))%nat as Hj1 by (rewrite Hl; lia).
    destruct (log_block_range s1 j Hlog1 Hj1) as (Hr1 & Hr2 & Hr3).
    destruct (lblk_home s j Hlog) as [Hbr Hbh]; [lia|].
    assert (logged s !! j = Some (lblk s j)) as Hlj by (apply lblk_logged; [done|lia]).
    apply (wp_install_step s1 pid D1); try done; [apply Hat|lia| |].
    { rewrite (lblk_at _ _ _ _ _ _ Hat). destruct Hroom as [Hroom|]; [left|right; lia].
      apply Hin. split; [apply Hroom; lia|].
      intros (i & Hi)%list_elem_of_lookup. apply lookup_take_Some in Hi as [Hi Hlt].
      pose proof (NoDup_lookup _ _ _ _ (lo_nodup _ Hlog) Hi Hlj). lia. }
    intros s2 [C1 C2 C3 C4]. rewrite (lblk_at _ _ _ _ _ _ Hat) in *.
    assert (log_block s1 j = log_block s j) as Elb by (unfold log_block; by rewrite Hl).
    rewrite Elb, Hl in *. clear Elb.
    rewrite (Hv (log_block s j)) in * by (done || lia).
    exists (filter (.≠ lblk s j) D1). rewrite install_writes_S. split_and!.
    + by eapply at_log_trans.
    + etrans; [apply length_filter|done].
    + intros m. rewrite list_elem_of_filter, Hin, (take_S_r _ _ _ Hlj). set_solver.
    + rewrite apply_writes_snoc, C2. by rewrite Hd.
    + rewrite C3, Ht. by rewrite (assoc_L (++)).
    + intros m Hm Hlm. rewrite C4 by done. rewrite vupd_ne; [by apply Hv|]. by intros ->.
  - exists D. split_and!; try done; [set_solver|by rewrite app_nil_r].
  - intros [] s1 (D1 & Hat & HD1 & Hin & Hd & Ht & Hv). apply (HQ s1 D1); try done.
    intros m. rewrite Hin. cbn [Nat.add]. rewrite take_ge; [done|].
    rewrite logged_length by done. unfold n. lia.
Qed.

(** ** commit *)

Definition home_writes (s : lst) (k : nat) : list (nat * block) :=
  (fun i => (Z.to_nat (lblk s i), tview s (lblk s i))) <$> seq 0 k.

(** The disk writes of a commit, in order. *)
Definition commit_writes (s : lst) (h1 h2 : block) : list (nat * block) :=
  let n := Z.to_nat (lh_n (lg s)) in let st := Z.to_nat (l_start (lg s)) in
  log_writes s n ++ [(st, h1)] ++ home_writes s n ++ [(st, h2)].

Lemma tx_set_lg s l pid hs D : tx s pid hs D -> tx (set_lg l s) pid hs D.
Proof. intros [H1 H2 H3 H4 H5 H6 H7]. by split. Qed.

Lemma tframe_set_lg s s' l : tframe s s' -> tframe s (set_lg l s').
Proof. intros [H1 H2 H3]. by split. Qed.

Lemma log_ok_clear s : log_ok s -> log_ok (set_lg (set_lh_n 0 (lg s)) s).
Proof.
  intros [H1 H2 H3 H4 H5 H6]. split; try done; cbn.
  - lia.
  - apply NoDup_nil_2.
  - intros m Hm. apply not_elem_of_nil in Hm. done.
Qed.

Lemma start_not_logged s : log_ok s -> l_start (lg s) ∉ logged s.
Proof.
  intros Hlog Hin. destruct (lo_home _ Hlog _ Hin) as [_ Hn]. apply Hn.
  pose proof (lo_region _ Hlog). unfold in_log. lia.
Qed.

Lemma home_writes_ext s s' k :
  (forall i, (i < k)%nat -> lblk s' i = lblk s i) ->
  (forall i, (i < k)%nat -> tview s' (log_block s' i) = tview s (lblk s i)) ->
  install_writes s' k = home_writes s k.
Proof.
  intros H1 H2. apply list_fmap_ext. intros j i Hi. apply lookup_seq in Hi as [-> Hi].
  cbn. by rewrite H1, H2.
Qed.

Lemma wp_commit s pid Q :
  tx s pid ∅ (logged s) -> log_ok s -> (length (logged s) < NBUF)%nat -> 0 < lh_n (lg s) ->
  (forall s' h1 h2, tx s' pid ∅ [] -> tframe s s' -> lg s' = set_lh_n 0 (lg s) ->
     header_is h1 (Z.to_nat (lh_n (lg s))) (lh_block (lg s)) -> header_is h2 0 [] ->
     dtrace (lbio s') = dtrace (lbio s) ++ commit_writes s h1 h2 ->
     tdisk s' = apply_writes (commit_writes s h1 h2) (tdisk s) -> Q tt s') ->
  wp commit Q s.
Proof.
  intros Htx Hlog HD Hn HQ. unfold commit. wp_simpl.
  destruct (Z.ltb_spec 0 (lh_n (lg s))); [|lia]. wp_simpl.
  apply (wp_write_log s pid); [done..|]. intros s1 A1 D1 T1 V1 L1. wp_simpl.
  pose proof (log_ok_at _ _ _ _ _ Hlog A1) as Hlog1. pose proof (al_lg _ _ _ _ _ A1) as E1.
  apply (wp_write_head s1 pid (logged s)); [apply A1|done|done|rewrite E1; by apply start_not_logged|].
  rewrite E1. intros s2 h1 A2 H1 D2 T2 V2. wp_simpl.
  pose proof (at_log_trans _ _ _ _ _ _ _ _ A1 A2) as A02.
  pose proof (log_ok_at _ _ _ _ _ Hlog A02) as Hlog2. pose proof (al_lg _ _ _ _ _ A02) as E2.
  apply (wp_install_trans s2 pid (logged s)); [apply A2|done|done|left|].
  { rewrite E2. intros i Hi. rewrite (lblk_at _ _ _ _ _ _ A02).
    eapply list_elem_of_lookup_2. by apply lblk_logged. }
  rewrite E2. intros s3 D' A3 _ HD' D3 T3. unfold upd_lg. wp_simpl.
  pose proof (at_log_trans _ _ _ _ _ _ _ _ A02 A3) as A03. pose proof (al_lg _ _ _ _ _ A03) as E3.
  assert (D' = []) as ->.
  { destruct D' as [|m D']; [done|]. destruct (proj1 (HD' m)) as [Hm Hm']; [left|].
    unfold logged in Hm, Hm'. rewrite E2 in Hm'. done. }
  assert (install_writes s2 (Z.to_nat (lh_n (lg s))) = home_writes s (Z.to_nat (lh_n (lg s)))) as Ew.
  { apply home_writes_ext; [intros i _; by rewrite (lblk_at _ _ _ _ _ _ A02)|].
    intros i Hi. unfold log_block. rewrite E2. fold (log_block s i).
    destruct (log_block_range s i Hlog Hi) as (R1 & R2 & R3). pose proof (lo_region _ Hlog).
    rewrite V2 by (unfold log_block in *; lia). by apply L1. }
  rewrite Ew in D3, T3. clear Ew.
  apply (wp_write_head (set_lg (set_lh_n 0 (lg s3)) s3) pid []).
  - apply tx_set_lg, A3.
  - apply log_ok_clear. by eapply log_ok_at.
  - cbn. unfold NBUF. lia.
  - apply not_elem_of_nil.
  - cbn [lg set_lg set_lh_n l_start lh_n lh_block]. rewrite E3.
    intros s4 h2 A4 [H2 [H2' _]] D4 T4 _. destruct A4 as [X4 F4 L4].
    assert (lg s4 = set_lh_n 0 (lg s)) as L4' by (by rewrite L4).
    apply (HQ s4 h1 h2); [done| |done|done| | |].
    + etrans; [|exact F4]. apply tframe_set_lg, A03.
    + split_and!; [done..|lia].
    + change (lbio (set_lg _ s3)) with (lbio s3) in T4.
      rewrite T4, T3, T2, T1. unfold commit_writes. by rewrite !(assoc_L (++)).
    + change (tdisk (set_lg _ s3)) with (tdisk s3) in D4.
      rewrite D4, D3, D2, D1. unfold commit_writes.
      rewrite !apply_writes_app. done.
Qed.
