(* ===== verification/Recover.v ===== *)
(** * Recovery and crash atomicity

    [recover_from_log] as a function of the disk alone, and the theorems that
    a crash anywhere in a commit, followed by any number of recoveries
    themselves interrupted by crashes, leaves the home blocks all as before
    the transaction or all as after it. *)

From S2P Require Import Prelude Bytes Core Bio Log Txn Crash.

Lemma tx_view_disk s pid hs D m :
  tx s pid hs D -> 0 <= m < Z.of_nat (length (tdisk s)) -> m ∉ D ->
  (forall b, hs !! b <> Some (m, true)) ->
  tdisk s !! Z.to_nat m = Some (tview s m).
Proof.
  intros Htx Hm HD Hh. pose proof (tx_bio _ _ _ _ Htx) as Hinv. unfold tview.
  destruct (view_cases (lbio s) m Hinv) as [(i & x & Hx & Hc & ->)|[_ ->]].
  - destruct Hc as (Hf & Hd & Hn). pose proof (dev1_bound _ _ _ Hinv Hx Hd) as Hi.
    pose proof (bi_buf _ Hinv _ _ Hi Hx) as Hok.
    destruct (bo_flags _ _ _ _ Hok) as [?|[Hf2|Hf6]]; [done| |].
    + destruct (blocked (tcore s) i) eqn:Hbl.
      * apply (tx_blocked _ _ _ _ Htx) in Hbl as [[n m'] Hi'].
        destruct (tx_hs _ _ _ _ Htx _ _ _ Hi') as (_ & y & Hy & (_ & _ & Hyn) & Hco).
        rewrite Hx in Hy. injection Hy as <-. assert (n = m) as -> by congruence.
        destruct m'; [by destruct (Hh i)|]. by apply Hco.
      * rewrite <- Hn. by apply (bo_coh _ _ _ _ Hok).
    + destruct HD. apply (tx_dirty _ _ _ _ Htx). by exists i, x.
  - destruct (lookup_lt_is_Some_2 (tdisk s) (Z.to_nat m)) as [d Hd]; [lia|].
    unfold tdisk in *. by rewrite Hd.
Qed.

(** ** The log on the disk *)

Definition disk_block (d : list block) (n : Z) : block := default [] (d !! Z.to_nat n).
Definition disk_n (st : Z) (d : list block) : nat := Z.to_nat (hdr_n (disk_block d st)).
Definition disk_hdr (st : Z) (d : list block) : list Z :=
  hdr_blk (disk_block d st) <$> seq 0 (disk_n st d).

(** The writes recovery makes to install the log it finds on disk [d]. *)
Definition recover_writes (st : Z) (d : list block) : list (nat * block) :=
  (fun i => (Z.to_nat (hdr_blk (disk_block d st) i), disk_block d (st + Z.of_nat i + 1)))
    <$> seq 0 (disk_n st d).
Definition recover_disk (st : Z) (d : list block) : list block :=
  apply_writes (recover_writes st d) d.

(** A log region [st, st+sz) whose header names distinct home blocks. *)
Record disk_log_ok (st sz : Z) (d : list block) : Prop := {
  dl_region : 0 <= st /\ 1 <= sz /\ st + sz <= Z.of_nat (length d) < 2147483648;
  dl_n : 0 <= hdr_n (disk_block d st) <= Z.of_nat LOGSIZE /\ hdr_n (disk_block d st) <= sz - 1;
  dl_nodup : NoDup (disk_hdr st d);
  dl_home : forall m, m ∈ disk_hdr st d ->
            0 <= m < Z.of_nat (length d) /\ ~ (st <= m < st + sz) }.

(** A freshly booted log: the region known, nothing cached or held. *)
Record booted (s : lst) (pid : Z) : Prop := {
  bt_tx : tx s pid ∅ [];
  bt_dev : l_dev (lg s) = 1;
  bt_len : length (lh_block (lg s)) = LOGSIZE;
  bt_disk : disk_log_ok (l_start (lg s)) (l_size (lg s)) (tdisk s) }.

Lemma booted_view s pid m :
  tx s pid ∅ [] -> 0 <= m < Z.of_nat (length (tdisk s)) -> tview s m = disk_block (tdisk s) m.
Proof.
  intros Htx Hm. unfold disk_block.
  rewrite (tx_view_disk s pid ∅ []) by (done || apply not_elem_of_nil). done.
Qed.

(** The in-memory header holds the disk's. *)
Definition with_head (l : log) (n : Z) (bl : list Z) : log := set_lh_block bl (set_lh_n n l).

Lemma wp_read_head s pid Q :
  booted s pid ->
  (forall s' bl, tx s' pid ∅ [] -> tframe s s' -> tdisk s' = tdisk s ->
     dtrace (lbio s') = dtrace (lbio s) ->
     lg s' = with_head (lg s) (hdr_n (disk_block (tdisk s) (l_start (lg s)))) bl ->
     length bl = LOGSIZE -> 
     take (disk_n (l_start (lg s)) (tdisk s)) bl = disk_hdr (l_start (lg s)) (tdisk s) -> Q tt s') ->
  wp read_head Q s.
Proof.
  intros [Htx Hdev Hlen [Hreg Hn Hnd Hhome]] HQ. unfold read_head. wp_simpl.
  rewrite Hdev, u32_id by lia.
  apply (wp_tx_bread s pid ∅ []); [done|lia|done|right; rewrite map_size_empty; cbn; unfold NBUF; lia|].
  intros b s1 Htx1 Hf1 _ Hl1 Hd1 Ht1 Hv1. wp_simpl.
  eapply wp_tx_bdata; [done|by rewrite lookup_insert_eq|]. unfold upd_lg. wp_simpl.
  set (h := disk_block (tdisk s) (l_start (lg s))) in *.
  assert (tview s1 (l_start (lg s)) = h) as ->.
  { rewrite Hv1. eapply booted_view; [done|lia]. }
  fold (hdr_n h). set (s2 := set_lg _ s1).
  assert (lh_n (lg s2) = hdr_n h) as -> by done.
  pose (I := fun (i : nat) s' => exists bl, s' = set_lg (with_head (lg s) (hdr_n h) bl) s1 /\
     length bl = LOGSIZE /\ take i bl = hdr_blk h <$> seq 0 i).
  eapply wp_mono; [apply (wp_for_range I)|].
  - intros j s3 Hj (bl & -> & Hbl & Htk). apply wp_put_lh_block; [cbn; lia|].
    exists (<[j := hdr_blk h j]> bl). split; [done|]. rewrite length_insert. split; [done|].
    rewrite (take_S_r _ _ (hdr_blk h j)) by (apply list_lookup_insert_eq; lia).
    rewrite take_insert_ge by lia. by rewrite Htk, seq_S, fmap_app.
  - exists (lh_block (lg s)). split; [unfold s2; rewrite Hl1; by destruct (lg s)|done].
  - intros [] s3 (bl & -> & Hbl & Htk). wp_simpl.
    eapply (wp_tx_brelse _ pid _ []); [by apply tx_set_lg|by rewrite lookup_insert_eq|].
    rewrite delete_insert_id by done. intros s4 Htx4 Hf4 Hl4 Hd4 Ht4 Hv4.
    apply (HQ s4 bl); try done; [|by rewrite Hd4|by rewrite Ht4].
    etrans; [|exact Hf4]. by apply tframe_set_lg.
Qed.

Lemma log_ok_read s s' pid bl :
  booted s pid -> tframe s s' ->
  lg s' = with_head (lg s) (hdr_n (disk_block (tdisk s) (l_start (lg s)))) bl ->
  length bl = LOGSIZE ->
  take (disk_n (l_start (lg s)) (tdisk s)) bl = disk_hdr (l_start (lg s)) (tdisk s) ->
  log_ok s' /\ logged s' = disk_hdr (l_start (lg s)) (tdisk s).
Proof.
  intros [Htx Hdev Hlen [Hreg Hn Hnd Hhome]] Hf Hl Hbl Htk.
  assert (logged s' = disk_hdr (l_start (lg s)) (tdisk s)) as El.
  { unfold logged. rewrite Hl. exact Htk. }
  split; [|done]. split; unfold home, in_log; rewrite ?El, ?(tf_len _ _ Hf), ?Hl; try done.
Qed.

Lemma install_writes_recover s s' pid bl :
  booted s pid -> tx s' pid ∅ [] -> tdisk s' = tdisk s ->
  lg s' = with_head (lg s) (hdr_n (disk_block (tdisk s) (l_start (lg s)))) bl ->
  take (disk_n (l_start (lg s)) (tdisk s)) bl = disk_hdr (l_start (lg s)) (tdisk s) ->
  install_writes s' (disk_n (l_start (lg s)) (tdisk s)) = recover_writes (l_start (lg s)) (tdisk s).
Proof.
  intros [Htx Hdev Hlen [Hreg Hn Hnd Hhome]] Htx' Hd Hl Htk.
  unfold install_writes, recover_writes. apply list_fmap_ext.
  intros j i Hi. apply lookup_seq in Hi as [-> Hi]. cbn [Nat.add].
  unfold log_block, lblk. rewrite Hl. cbn [with_head set_lh_block set_lh_n lh_block l_start].
  f_equal.
  - assert (bl !! j = Some (hdr_blk (disk_block (tdisk s) (l_start (lg s))) j)) as ->; [|done].
    rewrite <- (lookup_take_lt bl (disk_n (l_start (lg s)) (tdisk s))) by done. rewrite Htk.
    unfold disk_hdr. rewrite list_lookup_fmap, lookup_seq_lt by done. done.
  - rewrite <- Hd. eapply booted_view; [done|]. rewrite Hd. unfold disk_n in Hi. lia.
Qed.

Lemma wp_recover s pid Q :
  booted s pid ->
  (forall s' h bl, tx s' pid ∅ [] -> tframe s s' -> lg s' = with_head (lg s) 0 bl ->
     length bl = LOGSIZE -> header_is h 0 [] ->
     tdisk s' = <[Z.to_nat (l_start (lg s)) := h]> (recover_disk (l_start (lg s)) (tdisk s)) ->
     dtrace (lbio s') = dtrace (lbio s) ++ recover_writes (l_start (lg s)) (tdisk s) ++
                        [(Z.to_nat (l_start (lg s)), h)] -> Q tt s') ->
  wp recover_from_log Q s.
Proof.
  intros Hb HQ. unfold recover_from_log. wp_simpl. apply (wp_read_head s pid); [done|].
  intros s1 bl Htx1 Hf1 Hd1 Ht1 Hl1 Hbl Htk. wp_simpl.
  destruct (log_ok_read _ _ _ _ Hb Hf1 Hl1 Hbl Htk) as [Hlog1 Hlg1].
  apply (wp_install_trans s1 pid []); [done|done|cbn; unfold NBUF; lia|right; cbn; unfold NBUF; lia|].
  replace (Z.to_nat (lh_n (lg s1))) with (disk_n (l_start (lg s)) (tdisk s)) by (by rewrite Hl1).
  rewrite (install_writes_recover s s1 pid bl) by done.
  intros s2 D' A2 HD' _ Hd2 Ht2. unfold upd_lg. wp_simpl.
  assert (D' = []) as -> by (destruct D'; cbn in *; [done|lia]).
  pose proof (al_lg _ _ _ _ _ A2) as E2.
  apply (wp_write_head (set_lg (set_lh_n 0 (lg s2)) s2) pid []).
  - apply tx_set_lg, A2.
  - apply log_ok_clear. by eapply log_ok_at.
  - cbn. unfold NBUF. lia.
  - apply not_elem_of_nil.
  - cbn [lg set_lg set_lh_n l_start lh_n lh_block]. rewrite E2, Hl1.
    intros s3 h [X3 F3 L3] (Hh1 & Hh2 & _) Hd3 Ht3 _.
    apply (HQ s3 h bl); [done| |exact L3|done| | |].
    + etrans; [exact Hf1|]. etrans; [|exact F3]. apply tframe_set_lg, A2.
    + split_and!; [done..|lia].
    + change (tdisk (set_lg _ s2)) with (tdisk s2) in Hd3. rewrite Hd3, Hd2, Hd1. done.
    + change (lbio (set_lg _ s2)) with (lbio s2) in Ht3. rewrite Ht3, Ht2, Ht1.
      by rewrite <- (assoc_L (++)).
Qed.

(** ** Recovery as a function of the disk *)

Section recover.
Context (st sz : Z) (d : list block) (Hd : disk_log_ok st sz d).

Lemma recover_writes_keys : (recover_writes st d).*1 = Z.to_nat <$> disk_hdr st d.
Proof. unfold recover_writes, disk_hdr. by rewrite <- !list_fmap_compose. Qed.

Lemma hdr_entry i : (i < disk_n st d)%nat -> hdr_blk (disk_block d st) i ∈ disk_hdr st d.
Proof.
  intros Hi. apply list_elem_of_fmap. exists i. split; [done|]. apply elem_of_seq. lia.
Qed.

Lemma hdr_keys_nodup : NoDup (recover_writes st d).*1.
Proof.
  rewrite recover_writes_keys. apply NoDup_fmap_2_strong; [|apply (dl_nodup _ _ _ Hd)].
  intros x y Hx%(dl_home _ _ _ Hd) Hy%(dl_home _ _ _ Hd) E. lia.
Qed.

Lemma hdr_key_iff m : 0 <= m -> Z.to_nat m ∈ Z.to_nat <$> disk_hdr st d <-> m ∈ disk_hdr st d.
Proof.
  intros Hm. split; [|by apply list_elem_of_fmap_2].
  intros (x & E & Hx)%list_elem_of_fmap. pose proof (dl_home _ _ _ Hd x Hx).
  by replace m with x by lia.
Qed.

Lemma recover_logged i :
  (i < disk_n st d)%nat ->
  recover_disk st d !! Z.to_nat (hdr_blk (disk_block d st) i) =
    Some (disk_block d (st + Z.of_nat i + 1)).
Proof.
  intros Hi. apply apply_writes_nodup; [apply hdr_keys_nodup| |].
  - apply list_elem_of_fmap. exists i. split; [done|]. apply elem_of_seq. lia.
  - pose proof (dl_home _ _ _ Hd _ (hdr_entry i Hi)). lia.
Qed.

Lemma recover_other m :
  0 <= m -> m ∉ disk_hdr st d -> recover_disk st d !! Z.to_nat m = d !! Z.to_nat m.
Proof.
  intros Hm Hn. apply apply_writes_other. rewrite recover_writes_keys. by rewrite hdr_key_iff.
Qed.

(** A disk that differs from [d] in logged home blocks only recovers alike. *)
Lemma recover_agree d' :
  length d' = length d ->
  (forall m, 0 <= m -> m ∉ disk_hdr st d -> d' !! Z.to_nat m = d !! Z.to_nat m) ->
  disk_log_ok st sz d' /\
  forall m, 0 <= m -> recover_disk st d' !! Z.to_nat m = recover_disk st d !! Z.to_nat m.
Proof.
  intros Hlen Hag. pose proof (dl_region _ _ _ Hd) as Hreg. pose proof (dl_n _ _ _ Hd) as Hn.
  assert (forall m, st <= m < st + sz -> disk_block d' m = disk_block d m) as Hlb.
  { intros m Hm. unfold disk_block. rewrite Hag; [done|lia|].
    intros Hin%(dl_home _ _ _ Hd). lia. }
  assert (disk_block d' st = disk_block d st) as Hst by (apply Hlb; lia).
  assert (disk_n st d' = disk_n st d) as En by (unfold disk_n; by rewrite Hst).
  assert (disk_hdr st d' = disk_hdr st d) as Eh by (unfold disk_hdr; by rewrite Hst, En).
  assert (recover_writes st d' = recover_writes st d) as Ew.
  { unfold recover_writes. rewrite Hst, En. apply list_fmap_ext.
    intros j i Hi. apply lookup_seq in Hi as [-> Hi]. f_equal. apply Hlb.
    unfold disk_n in Hi. lia. }
  split.
  - split; rewrite ?Hst, ?Eh, ?Hlen; apply Hd.
  - intros m Hm. unfold recover_disk. rewrite Ew.
    destruct (decide (m ∈ disk_hdr st d)) as [Hin|Hin].
    + apply list_elem_of_fmap in Hin as (i & -> & Hi). apply elem_of_seq in Hi.
      fold (recover_disk st d). rewrite recover_logged by lia.
      apply apply_writes_nodup; [apply hdr_keys_nodup| |].
      * apply list_elem_of_fmap. exists i. split; [done|]. apply elem_of_seq. lia.
      * pose proof (dl_home _ _ _ Hd _ (hdr_entry i ltac:(lia))). lia.
    + rewrite !apply_writes_other; [by apply Hag| |]; rewrite recover_writes_keys;
        by rewrite hdr_key_iff.
Qed.

(** Writing a cleared header ends recovery. *)
Lemma clear_header d' h :
  length d' = length d -> header_is h 0 [] ->
  let d'' := <[Z.to_nat st := h]> d' in disk_log_ok st sz d'' /\ recover_disk st d'' = d''.
Proof.
  intros Hlen (Hok & Hh & _). pose proof (dl_region _ _ _ Hd) as Hreg. cbn.
  assert (disk_block (<[Z.to_nat st:=h]> d') st = h) as Eb.
  { unfold disk_block. by rewrite list_lookup_insert_eq by lia. }
  assert (disk_n st (<[Z.to_nat st:=h]> d') = 0%nat) as En by (unfold disk_n; rewrite Eb, Hh; lia).
  split.
  - split; rewrite ?Eb, ?length_insert, ?Hlen; [done|rewrite Hh; unfold LOGSIZE; lia| |];
      unfold disk_hdr; rewrite En; [apply NoDup_nil_2|]. intros m []%not_elem_of_nil.
  - unfold recover_disk, recover_writes. by rewrite En.
Qed.
End recover.

Lemma take_fst {A B} k (l : list (A * B)) x : x ∈ (take k l).*1 -> x ∈ l.*1.
Proof.
  rewrite !list_elem_of_fmap. intros (y & -> & Hy). exists y. split; [done|].
  rewrite <- (take_drop k l). apply elem_of_app. by left.
Qed.

(** ** A machine that boots on disk [d] *)

Record reboots (s : lst) (d : list block) (r : lst) (pid : Z) : Prop := {
  rb_tx : tx r pid ∅ [];
  rb_dev : l_dev (lg r) = 1;
  rb_len : length (lh_block (lg r)) = LOGSIZE;
  rb_start : l_start (lg r) = l_start (lg s);
  rb_size : l_size (lg r) = l_size (lg s);
  rb_disk : tdisk r = d }.

Lemma reboots_booted s d r pid :
  reboots s d r pid -> disk_log_ok (l_start (lg s)) (l_size (lg s)) d -> booted r pid.
Proof. intros [H1 H2 H3 H4 H5 H6] Hd. split; [done..|]. by rewrite H4, H5, H6. Qed.

(** What recovery leaves on the home blocks, whatever it found. *)
Lemma recover_home s d r pid :
  reboots s d r pid -> disk_log_ok (l_start (lg s)) (l_size (lg s)) d ->
  exists r', recover_from_log r = Ok tt r' /\ tx r' pid ∅ [] /\
    disk_n (l_start (lg s)) (tdisk r') = 0%nat /\
    forall m, 0 <= m -> m <> l_start (lg s) ->
      tdisk r' !! Z.to_nat m = recover_disk (l_start (lg s)) d !! Z.to_nat m.
Proof.
  intros Hr Hd. pose proof (reboots_booted _ _ _ _ Hr Hd) as Hb.
  assert (wp recover_from_log (fun _ r' => tx r' pid ∅ [] /\
    disk_n (l_start (lg s)) (tdisk r') = 0%nat /\ forall m, 0 <= m -> m <> l_start (lg s) ->
      tdisk r' !! Z.to_nat m = recover_disk (l_start (lg s)) d !! Z.to_nat m) r) as Hw.
  { apply (wp_recover r pid); [done|]. rewrite (rb_start _ _ _ _ Hr), (rb_disk _ _ _ _ Hr).
    pose proof (dl_region _ _ _ Hd) as Hreg.
    intros r' h bl Htx _ _ _ (_ & Hh & _) Hd' _. split; [done|]. rewrite Hd'. split.
    - unfold disk_n, disk_block. rewrite list_lookup_insert_eq; [cbn; lia|].
      unfold recover_disk. rewrite length_apply_writes. lia.
    - intros m Hm Hne. by rewrite list_lookup_insert_ne by lia. }
  apply wp_inv in Hw as ([] & r' & E & H1 & H2 & H3). by exists r'.
Qed.

(** ** The disk at each point of a commit *)

Section crash.
Context (s : lst) (pid : Z) (Htx : tx s pid ∅ (logged s)) (Hlog : log_ok s)
  (Hclean : hdr_n (disk_block (tdisk s) (l_start (lg s))) = 0)
  (h1 h2 : block) (Hh1 : header_is h1 (Z.to_nat (lh_n (lg s))) (lh_block (lg s)))
  (Hh2 : header_is h2 0 []).

Let st := l_start (lg s).
Let sz := l_size (lg s).
Let n := Z.to_nat (lh_n (lg s)).
Let d0 := tdisk s.

Lemma log_writes_keys k x :
  (k <= n)%nat -> x ∈ (log_writes s k).*1 -> exists i, (i < n)%nat /\ x = Z.to_nat (log_block s i).
Proof.
  intros Hk (y & -> & (i & -> & Hi)%list_elem_of_fmap)%list_elem_of_fmap.
  apply elem_of_seq in Hi. exists i. split; [lia|done].
Qed.

Lemma log_writes_off ws m :
  ws.*1 ⊆ (log_writes s n).*1 -> 0 <= m -> m = st \/ ~ in_log (lg s) m ->
  apply_writes ws d0 !! Z.to_nat m = d0 !! Z.to_nat m.
Proof.
  intros Hsub Hm Hor. apply apply_writes_other. intros Hin%Hsub.
  apply log_writes_keys in Hin as (i & Hi & E); [|done]. unfold n in Hi.
  destruct (log_block_range s i Hlog Hi) as (R1 & R2 & R3).
  assert (m = log_block s i) as -> by lia. destruct Hor as [Hor|Hor]; [|done].
  unfold st, log_block in Hor. lia.
Qed.

Lemma log_writes_at i :
  (i < n)%nat -> apply_writes (log_writes s n) d0 !! Z.to_nat (log_block s i) = Some (tview s (lblk s i)).
Proof.
  intros Hi. apply apply_writes_nodup.
  - unfold log_writes. rewrite <- list_fmap_compose. apply NoDup_fmap_2_strong; [|apply NoDup_seq].
    intros x y _ _. cbn. unfold log_block. pose proof (lo_region _ Hlog). lia.
  - apply list_elem_of_fmap. exists i. split; [done|]. apply elem_of_seq. lia.
  - pose proof (log_block_range s i Hlog Hi). unfold d0. lia.
Qed.

(** Before the commit point the disk's log is empty. *)
Lemma crash_before k :
  (k <= n)%nat ->
  let d := apply_writes (take k (commit_writes s h1 h2)) d0 in
  disk_log_ok st sz d /\ recover_disk st d = d /\
  forall m, home s m -> d !! Z.to_nat m = d0 !! Z.to_nat m.
Proof.
  intros Hk d. unfold d, commit_writes. fold n.
  assert (length (log_writes s n) = n) as Hlen by (unfold log_writes; by rewrite length_fmap, length_seq).
  rewrite take_app_le by lia. clear d. set (ws := take k (log_writes s n)).
  pose proof (lo_region _ Hlog) as Hreg.
  assert (ws.*1 ⊆ (log_writes s n).*1) as Hsub by (intros x; apply take_fst).
  assert (disk_block (apply_writes ws d0) st = disk_block d0 st) as Est.
  { unfold disk_block. rewrite log_writes_off; [done|done|unfold st; lia|by left]. }
  assert (disk_n st (apply_writes ws d0) = 0%nat) as En.
  { unfold disk_n. rewrite Est. unfold st, d0. rewrite Hclean. done. }
  split_and!.
  - split; rewrite ?length_apply_writes, ?Est; [done|unfold st, d0; rewrite Hclean; unfold LOGSIZE, sz; lia| |];
      unfold disk_hdr; rewrite En; [apply NoDup_nil_2|]. intros m []%not_elem_of_nil.
  - unfold recover_disk at 1. unfold recover_writes. by rewrite En.
  - intros m [Hm Hnl]. apply log_writes_off; [done|lia|by right].
Qed.

(** The disk once the header is written: the commit point. *)
Definition commit_point : list block := <[Z.to_nat st := h1]> (apply_writes (log_writes s n) d0).

Lemma commit_point_hdr :
  disk_block commit_point st = h1 /\ disk_n st commit_point = n /\
  disk_hdr st commit_point = logged s.
Proof.
  pose proof (lo_region _ Hlog) as Hreg. pose proof (lo_n _ Hlog) as Hn.
  destruct Hh1 as (_ & Hn1 & Hb1).
  assert (disk_block commit_point st = h1) as E1.
  { unfold disk_block, commit_point. rewrite list_lookup_insert_eq; [done|].
    rewrite length_apply_writes. unfold d0, st. lia. }
  assert (disk_n st commit_point = n) as E2.
  { unfold disk_n. rewrite E1, Hn1. unfold n. lia. }
  split_and!; [done..|]. unfold disk_hdr. rewrite E1, E2. apply list_eq. intros i.
  destruct (decide (i < n)%nat) as [Hi|Hi].
  - rewrite list_lookup_fmap, lookup_seq_lt by done. cbn. rewrite lblk_logged by done.
    f_equal. apply Hb1; [done|]. apply lblk_lookup; [done|]. unfold n in Hi. lia.
  - rewrite !lookup_ge_None_2; [done| |].
    + rewrite logged_length by done. unfold n in Hi. lia.
    + rewrite length_fmap, length_seq. lia.
Qed.

Lemma commit_point_log_ok : disk_log_ok st sz commit_point.
Proof.
  destruct commit_point_hdr as (E1 & E2 & E3). pose proof (lo_n _ Hlog) as Hn.
  assert (length commit_point = length d0) as El.
  { unfold commit_point. by rewrite length_insert, length_apply_writes. }
  split; rewrite ?E1, ?E3, ?El; [apply Hlog| |apply Hlog|apply Hlog].
  destruct Hh1 as (_ & -> & _). unfold sz. lia.
Qed.

Lemma commit_point_recovers m :
  home s m -> recover_disk st commit_point !! Z.to_nat m = Some (tview s m).
Proof.
  intros [Hm Hnl]. destruct commit_point_hdr as (E1 & E2 & E3).
  pose proof (lo_region _ Hlog) as Hreg.
  destruct (decide (m ∈ logged s)) as [Hin|Hin].
  - apply list_elem_of_lookup in Hin as [i Hi].
    assert (i < n)%nat as Hlt.
    { apply lookup_lt_Some in Hi. rewrite logged_length in Hi by done. done. }
    assert (m = lblk s i) as -> by (rewrite lblk_logged in Hi by done; congruence).
    assert (hdr_blk (disk_block commit_point st) i = lblk s i) as Eb.
    { rewrite E1. apply Hh1; [done|]. apply lblk_lookup; [done|].
      pose proof (lo_n _ Hlog). unfold n in Hlt. lia. }
    pose proof (recover_logged st sz commit_point commit_point_log_ok i ltac:(by rewrite E2)) as R.
    rewrite Eb in R. rewrite R. f_equal. unfold disk_block, commit_point.
    replace (st + Z.of_nat i + 1) with (log_block s i) by done.
    rewrite list_lookup_insert_ne by (unfold log_block, st in *; lia).
    by rewrite log_writes_at.
  - rewrite (recover_other st sz); [|apply commit_point_log_ok|lia|by rewrite E3].
    unfold commit_point. rewrite list_lookup_insert_ne.
    + rewrite log_writes_off; [|done|lia|by right].
      by apply (tx_view_disk s pid ∅ (logged s)).
    + intros E. assert (m = st) as -> by (unfold st in *; lia). apply Hnl.
      unfold in_log, st. lia.
Qed.
End crash.

Section after.
Context (s : lst) (pid : Z) (Htx : tx s pid ∅ (logged s)) (Hlog : log_ok s)
  (h1 h2 : block) (Hh1 : header_is h1 (Z.to_nat (lh_n (lg s))) (lh_block (lg s)))
  (Hh2 : header_is h2 0 []).

Lemma home_writes_keys k :
  (home_writes s k).*1 = (fun i => Z.to_nat (lblk s i)) <$> seq 0 k.
Proof. unfold home_writes. by rewrite <- list_fmap_compose. Qed.

(** Partly installed disks recover to the new contents. *)
Lemma crash_installing j :
  let d := apply_writes (take j (home_writes s (Z.to_nat (lh_n (lg s))))) (commit_point s h1) in
  disk_log_ok (l_start (lg s)) (l_size (lg s)) d /\
  forall m, home s m -> recover_disk (l_start (lg s)) d !! Z.to_nat m = Some (tview s m).
Proof.
  intros d. destruct (commit_point_hdr s Hlog h1 Hh1) as (E1 & E2 & E3).
  destruct (recover_agree _ _ _ (commit_point_log_ok s Hlog h1 Hh1) d) as [Hok Hrec].
  - unfold d. apply length_apply_writes.
  - intros m Hm Hnin. apply apply_writes_other. intros Hin%take_fst.
    rewrite home_writes_keys in Hin. apply list_elem_of_fmap in Hin as (i & E & Hi).
    apply elem_of_seq in Hi. destruct (lblk_home s i Hlog ltac:(lia)) as [Hr _].
    apply Hnin. rewrite E3. replace m with (lblk s i) by lia.
    eapply list_elem_of_lookup_2, lblk_logged; [done|lia].
  - split; [done|]. intros m Hm. rewrite Hrec by (destruct Hm; lia).
    by apply (commit_point_recovers s pid).
Qed.

Lemma home_writes_all m :
  home s m -> apply_writes (home_writes s (Z.to_nat (lh_n (lg s)))) (commit_point s h1) !! Z.to_nat m
    = Some (tview s m).
Proof.
  intros Hm. rewrite <- (commit_point_recovers s pid Htx Hlog h1 Hh1) by done.
  unfold recover_disk. f_equal. f_equal.
  destruct (commit_point_hdr s Hlog h1 Hh1) as (E1 & E2 & E3).
  unfold recover_writes, home_writes. rewrite E2, E1. apply list_fmap_ext.
  intros k i Hi. apply lookup_seq in Hi as [-> Hi]. cbn [Nat.add]. f_equal.
  - f_equal. symmetry. apply Hh1; [done|]. pose proof (lo_n _ Hlog). apply lblk_lookup; [done|lia].
  - fold (log_block s k). unfold disk_block, commit_point.
    pose proof (log_block_range s k Hlog Hi). pose proof (lo_region _ Hlog).
    rewrite list_lookup_insert_ne by (unfold log_block; lia).
    by rewrite log_writes_at.
Qed.

Lemma crash_after k :
  (Z.to_nat (lh_n (lg s)) < k)%nat ->
  let d := apply_writes (take k (commit_writes s h1 h2)) (tdisk s) in
  disk_log_ok (l_start (lg s)) (l_size (lg s)) d /\
  forall m, home s m -> recover_disk (l_start (lg s)) d !! Z.to_nat m = Some (tview s m).
Proof.
  set (n := Z.to_nat (lh_n (lg s))). intros Hk d. unfold d, commit_writes. fold n.
  assert (length (log_writes s n) = n) as Hl1 by (unfold log_writes; by rewrite length_fmap, length_seq).
  assert (length (home_writes s n) = n) as Hl2 by (unfold home_writes; by rewrite length_fmap, length_seq).
  rewrite take_app_ge by lia. rewrite Hl1. destruct (k - n)%nat as [|j] eqn:Ej; [lia|].
  cbn [take app]. rewrite apply_writes_app. cbn [apply_writes foldl fst snd].
  change (foldl _ ?x ?ws) with (apply_writes ws x). fold n. fold (commit_point s h1).
  destruct (decide (j <= n)%nat) as [Hj|Hj].
  - rewrite take_app_le by lia. apply crash_installing.
  - rewrite take_ge by (rewrite length_app; cbn; lia). rewrite apply_writes_snoc.
    destruct (clear_header _ _ _ (commit_point_log_ok s Hlog h1 Hh1)
      (apply_writes (home_writes s n) (commit_point s h1)) h2) as [Hok Hrec];
      [apply length_apply_writes|done|].
    split; [exact Hok|]. intros m Hm. pose proof (lo_region _ Hlog) as Hreg.
    etrans; [exact (f_equal (lookup (Z.to_nat m)) Hrec)|].
    rewrite list_lookup_insert_ne; [by apply home_writes_all|].
    destruct Hm as [Hm Hnl]. intros E. apply Hnl. unfold in_log. lia.
Qed.
End after.
