(* ===== verification/Boot.v ===== *)
(** * Start-up of the block layer

    [binit] run on the zero-initialised cache builds a well-formed empty
    cache, and [boot] gives the state of a machine that has just started on a
    given disk, on which the concrete examples of this development run. *)

From S2P Require Import Prelude Bytes Core Dll Bio Log Txn.

(** The cache as the loader leaves it: every field zero. *)
Definition zero_block : block := replicate (Z.to_nat BSIZE) 0.
Definition zero_buf : buf := mkBuf 0 0 0 0 0 0 zero_block.

Record blank (s : bst) : Prop := {
  bl_len : length (bufs s) = S NBUF;
  bl_buf : Forall (fun x => b_flags x = 0 /\ b_dev x = 0 /\ b_refcnt x = 0 /\ block_ok (b_data x)) (bufs s);
  bl_disk : Forall block_ok (disk s) }.

Definition init_locks (k : nat) (c : kcore) : kcore :=
  foldl (fun c b => set_sl (SlBuf b) sl_init c) c (seq 0 k).

Lemma init_locks_S k c : init_locks (S k) c = set_sl (SlBuf k) sl_init (init_locks k c).
Proof. unfold init_locks. by rewrite seq_S, foldl_app. Qed.

Lemma init_locks_free k c b : (b < k)%nat -> sl_of (init_locks k c) (SlBuf b) = sl_init.
Proof.
  induction k as [|k IH]; intros Hb; [lia|]. rewrite init_locks_S.
  destruct (decide (b = k)) as [->|]; [apply sl_of_set_eq|].
  rewrite sl_of_set_ne by congruence. apply IH. lia.
Qed.

(** After [k] rounds of the loop of [binit]. *)
Record binit_at (s0 : bst) (k : nat) (s : bst) : Prop := {
  ba_disk : disk s = disk s0;
  ba_trace : dtrace s = dtrace s0;
  ba_core : bcore s = init_locks k (bcore s0);
  ba_strip : strip <$> bufs s = strip <$> bufs s0;
  ba_chain : chain (nxt (bufs s)) (prv (bufs s)) HEAD (reverse (seq 0 k)) HEAD }.

Lemma binit_at_len s0 k s : binit_at s0 k s -> length (bufs s) = length (bufs s0).
Proof. intros H%ba_strip%(f_equal length). by rewrite !length_fmap in H. Qed.

Lemma binit_step s0 k s :
  length (bufs s0) = S NBUF -> (k < NBUF)%nat -> binit_at s0 k s ->
  wp (h ← get_buf HEAD;
      upd_buf k (set_b_next (b_next h)) ;;
      upd_buf k (set_b_prev HEAD) ;;
      lift (initsleeplock (SlBuf k)) ;;
      upd_buf (b_next h) (set_b_prev k) ;;
      upd_buf HEAD (set_b_next k)) (fun _ s' => binit_at s0 (S k) s') s.
Proof.
  intros Hlen Hk Hat. pose proof (binit_at_len _ _ _ Hat) as Hl. rewrite Hlen in Hl.
  destruct Hat as [H1 H2 H3 H4 Hc].
  set (nx := nxt (bufs s)) in *. set (pv := prv (bufs s)) in *.
  assert (linked (bufs s) nx pv) as Hln by done.
  assert (k ∉ reverse (seq 0 k) /\ HEAD ∉ reverse (seq 0 k) /\ NoDup (reverse (seq 0 k))) as (N1 & N2 & N3).
  { rewrite reverse_Permutation. split_and!; [..|apply NoDup_seq];
      intros Hin%elem_of_seq; unfold HEAD in *; lia. }
  pose proof (chain_push nx pv HEAD _ k ltac:(unfold HEAD; lia) N1 N2 N3 Hc) as Hpush.
  assert (nx HEAD < S NBUF)%nat as Hnb.
  { pose proof (chain_next_in _ _ _ _ HEAD Hc ltac:(left)) as Hin.
    rewrite reverse_Permutation in Hin. apply elem_of_cons in Hin as [->|Hin%elem_of_seq];
      [unfold HEAD|]; lia. }
  wp_simpl. apply (wp_get_linked nx pv); [unfold HEAD; lia|done|]. intros h _ Hh _. rewrite Hh.
  wp_simpl. apply (wp_set_next nx pv); [lia|done|]. intros s1 S1 L1.
  pose proof (same_links_length _ _ S1). wp_simpl.
  eapply wp_set_prev; [lia|exact L1|]. intros s2 S2 L2.
  pose proof (same_links_length _ _ S2). unfold initsleeplock. wp_simpl.
  eapply wp_set_prev; [cbn; lia|exact L2|]. intros s3 S3 L3.
  pose proof (same_links_length _ _ S3) as E3. cbn in E3. wp_simpl.
  eapply wp_set_next; [unfold HEAD; lia|exact L3|]. intros s4 S4 L4.
  destruct S1 as (A1 & A2 & A3 & A4), S2 as (B1 & B2 & B3 & B4),
    S3 as (C1 & C2 & C3 & C4), S4 as (D1 & D2 & D3 & D4). cbn in *.
  split; [congruence|congruence| |congruence|].
  - rewrite init_locks_S. congruence.
  - rewrite seq_S, reverse_app. cbn [Nat.add reverse app].
    eapply chain_ext; [| |exact Hpush]; intros y _; apply L4.
Qed.

Lemma wp_binit s :
  blank s -> wp binit (fun _ s' => bio_inv s' /\ disk s' = disk s /\ dtrace s' = dtrace s /\
    bcore s' = init_locks NBUF (bcore s) /\
    (forall i x, bufs s' !! i = Some x -> b_flags x = 0)) s.
Proof.
  intros [Hlen Hbuf Hdisk]. unfold binit. wp_simpl.
  apply (wp_set_prev (nxt (bufs s)) (prv (bufs s))); [unfold HEAD; lia|done|]. intros s1 S1 L1.
  pose proof (same_links_length _ _ S1). wp_simpl.
  eapply wp_set_next; [unfold HEAD; lia|exact L1|]. intros s2 S2 L2.
  pose proof (same_links_length _ _ S2).
  destruct S1 as (A1 & A2 & A3 & A4), S2 as (B1 & B2 & B3 & B4). wp_simpl.
  eapply wp_mono; [apply (wp_for_range (binit_at s) NBUF _ 0)|].
  - intros j s3 Hj Hat. apply binit_step; [done|lia|done].
  - split; [congruence|congruence|unfold init_locks; cbn; congruence|congruence|].
    cbn. destruct (L2 HEAD) as [-> ->]. by rewrite !fupd_eq.
  - intros [] s3 Hat. pose proof (binit_at_len _ _ _ Hat) as Hl.
    destruct Hat as [C1 C2 C3 C4 C5]. cbn [Nat.add] in *.
    assert (forall i x, bufs s3 !! i = Some x ->
      b_flags x = 0 /\ b_dev x = 0 /\ b_refcnt x = 0 /\ block_ok (b_data x)) as Hall.
    { intros i x Hx. apply (f_equal (lookup i)) in C4. rewrite !list_lookup_fmap, Hx in C4.
      destruct (bufs s !! i) as [y|] eqn:Hy; [|done]. injection C4 as -> -> E -> ->.
      by eapply (Forall_lookup_1 _ _ _ _ Hbuf). }
    split_and!; [|congruence|congruence|done|by intros i x Hx; destruct (Hall _ _ Hx)]. split.
    + congruence.
    + exists (reverse (seq 0 NBUF)). split; [apply reverse_Permutation|done].
    + by rewrite C1.
    + intros i x Hi Hx. destruct (Hall _ _ Hx) as (F1 & F2 & F3 & F4).
      assert (blocked (bcore s3) i = false) as Hb.
      { unfold blocked. by rewrite C3, init_locks_free. }
      split; rewrite ?Hb; [by left|done|done|done|]. by rewrite F1.
    + intros x Hx. by destruct (Hall _ _ Hx) as (? & ? & _).
    + intros i j xi xj Hxi _ Hd. destruct (Hall _ _ Hxi) as (_ & E & _). lia.
Qed.

(** ** A machine that has just started *)

Definition no_tf : trapframe := mkTf 0 0 0 0 0 0 0 0 0 0 0 0 0 0 0 0 0 0 0.
Definition unused_proc : proc :=
  mkProc 0 0 0 UNUSED 0 None no_tf (mkContext 0 0 0 0 0) None 0 (replicate NOFILE None) None [].
Definition boot_proc : proc :=
  mkProc 4096 0 0 RUNNING 1 None no_tf (mkContext 0 0 0 0 0) None 0 (replicate NOFILE None) None [].
Definition boot_core : kcore :=
  mkCore [] (Some 0%nat) (boot_proc :: replicate (pred NPROC) unused_proc) 2 (Some 0%nat) ∅ 0 0 0.
Definition blank_bst (d : list block) : bst := mkBst boot_core d (replicate (S NBUF) zero_buf) [].
(** The log record before [recover_from_log], for a log at [st] of [sz] blocks. *)
Definition boot_log (st sz : Z) : log := mkLog st sz 0 0 1 0 (replicate LOGSIZE 0).

Definition boot_bst (d : list block) : bst :=
  match binit (blank_bst d) with Ok _ s => s | _ => blank_bst d end.
Definition boot (d : list block) (st sz : Z) : lst := mkLst (boot_bst d) (boot_log st sz).

Lemma zero_block_ok : block_ok zero_block.
Proof. split; [done|]. apply Forall_replicate. unfold is_byte. lia. Qed.

Lemma blank_boot d : Forall block_ok d -> blank (blank_bst d).
Proof.
  intros Hd. split; [done| |done]. apply Forall_replicate. split_and!; [done..|apply zero_block_ok].
Qed.

Lemma boot_bst_spec d :
  Forall block_ok d ->
  bio_inv (boot_bst d) /\ disk (boot_bst d) = d /\ dtrace (boot_bst d) = [] /\
  bcore (boot_bst d) = init_locks NBUF boot_core /\
  (forall i x, bufs (boot_bst d) !! i = Some x -> b_flags x = 0).
Proof.
  intros Hd. pose proof (wp_binit _ (blank_boot d Hd)) as (a & s & E & H)%wp_inv.
  unfold boot_bst. rewrite E. exact H.
Qed.

Lemma boot_tx d st sz : Forall block_ok d -> tx (boot d st sz) 1 ∅ [].
Proof.
  intros Hd. destruct (boot_bst_spec d Hd) as (H1 & H2 & H3 & H4 & H5).
  split; unfold tcore; cbn [lbio boot]; rewrite ?H4.
  - done.
  - done.
  - done.
  - intros b Hb. exfalso. unfold blocked in Hb. destruct (decide (b < NBUF)%nat).
    + by rewrite init_locks_free in Hb.
    + assert (sl_of (init_locks NBUF boot_core) (SlBuf b) = sl_init) as E; [|by rewrite E in Hb].
      unfold init_locks. cbn. rewrite !sl_of_set_ne by (injection 1; unfold NBUF in *; lia).
      done.
  - intros b n m Hb. by rewrite lookup_empty in Hb.
  - intros m (i & x & Hx & Hf & _). cbn in Hx. apply H5 in Hx. lia.
  - intros m []%not_elem_of_nil.
Qed.

(** ** A client of the log: replace the contents of a block *)

Definition write_block (n : Z) (d : block) : M lst unit :=
  b ← bcall (bread 1 n); set_bdata b d ;; log_write b ;; bcall (brelse b).

Lemma wp_write_block s pid n d Q :
  tx s pid ∅ (logged s) -> log_ok s -> home s n -> block_ok d ->
  lh_n (lg s) < Z.of_nat LOGSIZE -> lh_n (lg s) < l_size (lg s) - 1 -> 1 <= l_outstanding (lg s) ->
  (forall s', tx s' pid ∅ (logged s') -> log_ok s' -> tframe s s' ->
     logged s' = log_add n (logged s) -> l_start (lg s') = l_start (lg s) ->
     l_size (lg s') = l_size (lg s) -> l_outstanding (lg s') = l_outstanding (lg s) ->
     tdisk s' = tdisk s ->
     dtrace (lbio s') = dtrace (lbio s) -> (forall k, tview s' k = vupd (tview s) n d k) -> Q tt s') ->
  wp (write_block n d) Q s.
Proof.
  intros Htx Hlog Hh Hd H1 H2 H3 HQ. unfold write_block. wp_simpl.
  pose proof (lo_len _ Hlog) as Hlen. pose proof (lo_n _ Hlog) as Hn.
  apply (wp_tx_bread s pid ∅ (logged s)); [done|apply Hh|done| |].
  { right. rewrite map_size_empty. unfold logged. rewrite length_take. unfold LOGSIZE, NBUF in *. lia. }
  intros b s1 X1 F1 _ L1 D1 T1 V1. wp_simpl.
  eapply wp_tx_set_bdata; [exact X1|by rewrite lookup_insert_eq|done|].
  rewrite insert_insert_eq. intros s2 X2 F2 L2 D2 T2 V2. wp_simpl.
  assert (lg s2 = lg s) as E2 by congruence.
  assert (logged s2 = logged s) as El by (unfold logged; by rewrite E2).
  assert (length (tdisk s2) = length (tdisk s)) as Ed by congruence.
  eapply wp_tx_log_write; [by rewrite El| |by rewrite lookup_insert_eq| |by rewrite E2..|].
  { destruct Hlog as [G1 G2 G3 G4 G5 G6]. split; unfold home in *; rewrite ?E2, ?Ed, ?El; done. }
  { unfold home. rewrite E2, Ed. apply Hh. }
  rewrite insert_insert_eq, E2, El. intros s3 X3 O3 F3 G3 S3 Z3 U3 C3 D3 T3 V3.
  eapply wp_tx_brelse; [exact X3|by rewrite lookup_insert_eq|].
  rewrite delete_insert_id by done. intros s4 X4 F4 L4 D4 T4 V4.
  assert (logged s4 = logged s3) as El4 by (unfold logged; by rewrite L4).
  apply HQ.
  - by rewrite El4.
  - assert (length (tdisk s4) = length (tdisk s3)) as Ed4 by congruence.
    destruct O3 as [K1 K2 K3 K4 K5 K6]. split; unfold home in *; rewrite ?L4, ?Ed4, ?El4; done.
  - etrans; [exact F1|]. etrans; [exact F2|]. by etrans.
  - congruence.
  - congruence.
  - congruence.
  - congruence.
  - congruence.
  - congruence.
  - intros k. rewrite V4, V3, V2. unfold vupd. case_decide; by rewrite ?V1.
Qed.

#[global] Opaque boot_bst.
