(* ===== verification/LogSpec.v ===== *)
(** * What the log promises: crash atomicity, reservations, group commit *)

From S2P Require Import Prelude Bytes Core Bio Log Txn Crash Recover Boot.

Lemma set_held_id c : held c = [] -> set_held [] c = c.
Proof. intros <-. apply set_held_held. Qed.

Lemma set_lbio_id s : set_lbio (lbio s) s = s.
Proof. by destruct s. Qed.
Lemma set_bcore_id t : set_bcore (bcore t) t = t.
Proof. by destruct t. Qed.

(** [begin_op] when there is room: one more outstanding operation. *)
Lemma wp_begin_op s Q :
  held (tcore s) = [] -> l_committing (lg s) = 0 ->
  lh_n (lg s) + (l_outstanding (lg s) + 1) * MAXOPBLOCKS <= Z.of_nat LOGSIZE ->
  Q tt (set_lg (set_l_outstanding (l_outstanding (lg s) + 1) (lg s)) s) ->
  wp begin_op Q s.
Proof.
  intros Hh Hc Hroom HQ. unfold begin_op, begin_op_loop. wp_low.
  apply wp_acquire; [solve_lk|]. wp_low. cbn [lg set_lbio]. rewrite Hc. cbn [Z.eqb negb].
  destruct (Z.ltb_spec (Z.of_nat LOGSIZE) (lh_n (lg s) + (l_outstanding (lg s) + 1) * MAXOPBLOCKS)); [lia|].
  unfold upd_lg. wp_low. apply wp_release; [solve_lk|].
  destruct s as [[[] ? ? ?] ?]. unfold tcore in *. cbn in *. subst. by rewrite decide_True.
Qed.

(** ** Crash atomicity *)

(** C1.  Crash atomicity of [commit].  From a state with a non-empty
    transaction pinned in the cache and a clear log on disk, [commit] returns,
    and its disk writes are a list [ws] such that a machine that crashes after
    any [k] of them and reboots runs [recover_from_log] to completion and finds
    on every home block either the contents from before the transaction, for
    all blocks together ([k] at most the number of logged blocks), or the
    transaction's contents, for all of them (once the header is written); the
    on-disk log is clear again afterwards. *)
Theorem commit_crash_atomic s pid :
  tx s pid ∅ (logged s) -> log_ok s -> (length (logged s) < NBUF)%nat -> 0 < lh_n (lg s) ->
  hdr_n (disk_block (tdisk s) (l_start (lg s))) = 0 ->
  exists s' ws, commit s = Ok tt s' /\ dtrace (lbio s') = dtrace (lbio s) ++ ws /\
    tdisk s' = apply_writes ws (tdisk s) /\ (Z.to_nat (lh_n (lg s)) < length ws)%nat /\
    forall k r rpid, reboots s (apply_writes (take k ws) (tdisk s)) r rpid ->
      exists r', recover_from_log r = Ok tt r' /\ tx r' rpid ∅ [] /\
        disk_n (l_start (lg s)) (tdisk r') = 0%nat /\
        forall m, home s m ->
          tdisk r' !! Z.to_nat m =
            if decide (k <= Z.to_nat (lh_n (lg s)))%nat then tdisk s !! Z.to_nat m
            else Some (tview s m).
Proof.
  intros Htx Hlog HD Hn Hclean.
  assert (wp commit (fun _ s' => exists h1 h2,
     header_is h1 (Z.to_nat (lh_n (lg s))) (lh_block (lg s)) /\ header_is h2 0 [] /\
     dtrace (lbio s') = dtrace (lbio s) ++ commit_writes s h1 h2 /\
     tdisk s' = apply_writes (commit_writes s h1 h2) (tdisk s)) s) as Hw.
  { apply (wp_commit s pid); [done..|]. intros s' h1 h2 _ _ _ Hh1 Hh2 Ht Hd. by exists h1, h2. }
  apply wp_inv in Hw as ([] & s' & E & h1 & h2 & Hh1 & Hh2 & Ht & Hd).
  exists s', (commit_writes s h1 h2). split_and!; [done..| |].
  { unfold commit_writes, log_writes. rewrite !length_app, length_fmap, length_seq. cbn. lia. }
  intros k r rpid Hr.
  assert (disk_log_ok (l_start (lg s)) (l_size (lg s)) (apply_writes (take k (commit_writes s h1 h2)) (tdisk s)) /\
    forall m, home s m -> recover_disk (l_start (lg s)) (apply_writes (take k (commit_writes s h1 h2)) (tdisk s))
        !! Z.to_nat m = if decide (k <= Z.to_nat (lh_n (lg s)))%nat then tdisk s !! Z.to_nat m
            else Some (tview s m)) as [Hok Hrec].
  { case_decide as Hk.
    - destruct (crash_before s Hlog Hclean h1 h2 k Hk) as (H1 & H2 & H3).
      split; [done|]. intros m Hm. rewrite H2. by apply H3.
    - apply (crash_after s pid); [done..|lia]. }
  destruct (recover_home _ _ _ _ Hr Hok) as (r' & Er & Htx' & Hn' & Hm').
  exists r'. split_and!; [done..|]. intros m Hm. rewrite <- Hrec by done. apply Hm'.
  - destruct Hm; lia.
  - intros ->. destruct Hm as [_ Hm]. apply Hm. pose proof (lo_region _ Hlog). unfold in_log. lia.
Qed.

(** A concrete transaction: one block of a 40-block disk changed, the log in
    blocks 2 to 31. *)
Definition demo_data : block := replicate (Z.to_nat BSIZE) 7.
Definition demo_boot : lst := boot (replicate 40 zero_block) 2 30.
Definition run {A} (m : M lst A) (s : lst) : lst :=
  match m s with Ok _ s' => s' | _ => s end.
Definition demo : lst := run (begin_op ;; write_block 35 demo_data) demo_boot.

Lemma demo_boot_tx : tx demo_boot 1 ∅ [].
Proof. apply boot_tx, Forall_replicate, zero_block_ok. Qed.

Lemma demo_log_ok : log_ok demo_boot.
Proof.
  split; [done|vm_compute; split_and!; congruence|vm_compute; split_and!; congruence|done|
    apply NoDup_nil_2|]. intros m []%not_elem_of_nil.
Qed.

Lemma demo_disk : tdisk demo_boot = replicate 40 zero_block.
Proof.
  destruct (boot_bst_spec (replicate 40 zero_block)) as (_ & E & _); [|exact E].
  apply Forall_replicate, zero_block_ok.
Qed.

Lemma log_ok_outstanding s v : log_ok s -> log_ok (set_lg (set_l_outstanding v (lg s)) s).
Proof. by intros [G1 G2 G3 G4 G5 G6]. Qed.

Lemma demo_tx : tx demo 1 ∅ (logged demo) /\ log_ok demo /\ logged demo = [35] /\
  tdisk demo = replicate 40 zero_block /\ l_start (lg demo) = 2 /\ l_size (lg demo) = 30.
Proof.
  assert (wp (begin_op ;; write_block 35 demo_data) (fun _ s => tx s 1 ∅ (logged s) /\ log_ok s /\
    logged s = [35] /\ tdisk s = replicate 40 zero_block /\ l_start (lg s) = 2 /\ l_size (lg s) = 30)
    demo_boot) as Hw.
  { wp_simpl. apply wp_begin_op; [done|done|vm_compute; congruence|].
    apply (wp_write_block _ 1).
    - apply tx_set_lg, demo_boot_tx.
    - apply log_ok_outstanding, demo_log_ok.
    - split; [|unfold in_log; cbn; lia]. change (tdisk (set_lg _ _)) with (tdisk demo_boot).
      rewrite demo_disk. done.
    - split; [done|]. apply Forall_replicate. unfold is_byte. lia.
    - by vm_compute.
    - by vm_compute.
    - by vm_compute.
    - intros s' H1 H2 _ H4 H5 H6 _ H8 _ _. split_and!; [done|done|exact H4| |done|done].
      rewrite H8. apply demo_disk. }
  apply wp_inv in Hw as (a & s & E & H). unfold demo, run. by rewrite E.
Qed.

Lemma demo_header : hdr_n (disk_block (tdisk demo) (l_start (lg demo))) = 0.
Proof. destruct demo_tx as (_ & _ & _ & -> & -> & _). by vm_compute. Qed.

Lemma demo_lh_n : lh_n (lg demo) = 1.
Proof.
  destruct demo_tx as (_ & Hlog & Hl & _). pose proof (logged_length _ Hlog) as E.
  pose proof (lo_n _ Hlog). rewrite Hl in E. cbn in E. lia.
Qed.

Lemma commit_crash_atomic_witness :
  exists s' ws, commit demo = Ok tt s' /\ dtrace (lbio s') = dtrace (lbio demo) ++ ws /\
    tdisk s' = apply_writes ws (tdisk demo) /\ (Z.to_nat (lh_n (lg demo)) < length ws)%nat /\
    forall k r rpid, reboots demo (apply_writes (take k ws) (tdisk demo)) r rpid ->
      exists r', recover_from_log r = Ok tt r' /\ tx r' rpid ∅ [] /\
        disk_n (l_start (lg demo)) (tdisk r') = 0%nat /\
        forall m, home demo m ->
          tdisk r' !! Z.to_nat m =
            if decide (k <= Z.to_nat (lh_n (lg demo)))%nat then tdisk demo !! Z.to_nat m
            else Some (tview demo m).
Proof.
  destruct demo_tx as (H1 & H2 & H3 & _). apply (commit_crash_atomic demo 1); [done..| | |].
  - rewrite H3. cbn. unfold NBUF. lia.
  - rewrite demo_lh_n. lia.
  - apply demo_header.
Defined.

(** C2.  Recovery installs the log it finds and can itself be interrupted.
    [recover_from_log] returns with a clear log on disk, every block named in
    the header holding its copy from the log and every other block as it was;
    and when [ws] are the writes it made to the disk, in their order, whatever
    prefix of them a crash leaves behind, recovering again ends with the same
    contents on every block other than the log header. *)
Theorem recovery_restartable s pid :
  booted s pid ->
  exists s' ws, recover_from_log s = Ok tt s' /\ tx s' pid ∅ [] /\
    dtrace (lbio s') = dtrace (lbio s) ++ ws /\ tdisk s' = apply_writes ws (tdisk s) /\
    disk_n (l_start (lg s)) (tdisk s') = 0%nat /\
    (forall i, (i < disk_n (l_start (lg s)) (tdisk s))%nat ->
       tdisk s' !! Z.to_nat (hdr_blk (disk_block (tdisk s) (l_start (lg s))) i) =
         Some (disk_block (tdisk s) (l_start (lg s) + Z.of_nat i + 1))) /\
    (forall m, 0 <= m -> m <> l_start (lg s) -> m ∉ disk_hdr (l_start (lg s)) (tdisk s) ->
       tdisk s' !! Z.to_nat m = tdisk s !! Z.to_nat m) /\
    forall k r rpid, reboots s (apply_writes (take k ws) (tdisk s)) r rpid ->
      exists r', recover_from_log r = Ok tt r' /\
        forall m, 0 <= m -> m <> l_start (lg s) -> tdisk r' !! Z.to_nat m = tdisk s' !! Z.to_nat m.
Proof.
  intros Hb. set (st := l_start (lg s)). set (d := tdisk s).
  pose proof (bt_disk _ _ Hb) as Hok. fold st d in Hok.
  assert (wp recover_from_log (fun _ s' => exists h, tx s' pid ∅ [] /\ header_is h 0 [] /\
    tdisk s' = <[Z.to_nat st := h]> (recover_disk st d) /\
    dtrace (lbio s') = dtrace (lbio s) ++ recover_writes st d ++ [(Z.to_nat st, h)]) s) as Hw.
  { apply (wp_recover s pid); [done|]. intros s' h bl Htx _ _ _ Hh Hd Ht. by exists h. }
  apply wp_inv in Hw as ([] & s' & E & h & Htx & Hh & Hd & Ht).
  pose proof (dl_region _ _ _ Hok) as Hreg.
  exists s', (recover_writes st d ++ [(Z.to_nat st, h)]). split_and!; [done..| | | | |].
  - by rewrite apply_writes_snoc.
  - destruct Hh as (_ & Hh & _). pose proof (dl_region _ _ _ Hok). unfold disk_n, disk_block.
    rewrite Hd, list_lookup_insert_eq; [cbn; lia|]. unfold recover_disk.
    rewrite length_apply_writes. lia.
  - intros i Hi. pose proof (dl_home _ _ _ Hok _ (hdr_entry _ _ i Hi)).
    rewrite Hd, list_lookup_insert_ne by lia. by apply (recover_logged _ _ _ Hok).
  - intros m Hm Hne Hn. rewrite Hd, list_lookup_insert_ne by lia. by apply (recover_other _ _ _ Hok).
  - intros k r rpid Hr. fold st in Hr |- *. set (d' := apply_writes _ d) in Hr.
    assert (disk_log_ok st (l_size (lg s)) d' /\ forall m, 0 <= m -> m <> st ->
      recover_disk st d' !! Z.to_nat m = recover_disk st d !! Z.to_nat m) as [Hok' Hrec].
    { destruct (decide (k <= length (recover_writes st d))%nat) as [Hk|Hk].
      - unfold d'. rewrite take_app_le by done.
        destruct (recover_agree _ _ _ Hok (apply_writes (take k (recover_writes st d)) d)) as [H1 H2].
        + apply length_apply_writes.
        + intros m Hm Hn. apply apply_writes_other. intros Hin%take_fst.
          rewrite recover_writes_keys in Hin. by apply (hdr_key_iff _ _ _ Hok) in Hin.
        + split; [done|]. intros m Hm _. by apply H2.
      - unfold d'. rewrite take_ge by (rewrite length_app; cbn; lia). rewrite apply_writes_snoc.
        destruct (clear_header _ _ _ Hok (recover_disk st d) h) as [H1 H2];
          [apply length_apply_writes|done|].
        split; [done|]. intros m Hm Hne. fold (recover_disk st d). rewrite H2.
        pose proof (dl_region _ _ _ Hok). by rewrite list_lookup_insert_ne by lia. }
    destruct (recover_home _ _ _ _ Hr Hok') as (r' & Er & _ & _ & Hm').
    exists r'. split; [done|]. intros m Hm Hne. fold st in Hm'. rewrite Hm', Hrec by done.
    rewrite Hd. pose proof (dl_region _ _ _ Hok). by rewrite list_lookup_insert_ne by lia.
Qed.

(** A disk whose log holds one block, for block 35. *)
Definition logged_header : block := [1; 0; 0; 0; 35] ++ replicate (Z.to_nat BSIZE - 5) 0.
Definition logged_disk : list block := <[2%nat := logged_header]> (<[3%nat := demo_data]> (replicate 40 zero_block)).
Definition logged_boot : lst := boot logged_disk 2 30.

Lemma logged_disk_ok : Forall block_ok logged_disk.
Proof.
  apply Forall_insert; [apply Forall_insert; [apply Forall_replicate, zero_block_ok|]|]; (split; [by vm_compute|]).
  - apply Forall_replicate. unfold is_byte. lia.
  - apply Forall_app. split; [repeat constructor; done|]. apply Forall_replicate. unfold is_byte. lia.
Qed.
Lemma logged_tdisk : tdisk logged_boot = logged_disk.
Proof. destruct (boot_bst_spec logged_disk) as (_ & E & _); [apply logged_disk_ok|exact E]. Qed.

Lemma logged_booted : booted logged_boot 1.
Proof.
  assert (disk_hdr 2 logged_disk = [35]) as Eh by (by vm_compute).
  split; [apply boot_tx, logged_disk_ok|done|done|]. rewrite logged_tdisk. cbn [lg logged_boot boot boot_log l_start l_size].
  split.
  - by vm_compute.
  - vm_compute. split_and!; congruence.
  - rewrite Eh. apply NoDup_singleton.
  - rewrite Eh. intros m ->%list_elem_of_singleton. split; [by vm_compute|lia].
Qed.

(** The logged block is installed, wherever recovery is cut short. *)
Lemma recovery_restartable_witness :
  exists s' ws, recover_from_log logged_boot = Ok tt s' /\ dtrace (lbio s') = dtrace (lbio logged_boot) ++ ws /\
    tdisk s' !! 35%nat = Some demo_data /\
    forall k r rpid, reboots logged_boot (apply_writes (take k ws) logged_disk) r rpid ->
      exists r', recover_from_log r = Ok tt r' /\ tdisk r' !! 35%nat = Some demo_data.
Proof.
  destruct (recovery_restartable logged_boot 1 logged_booted) as (s' & ws & E & _ & Ht & _ & _ & Hin & _ & Hk).
  rewrite logged_tdisk in Hin, Hk. specialize (Hin 0%nat ltac:(by vm_compute)).
  assert (tdisk s' !! 35%nat = Some demo_data) as H35 by exact Hin.
  exists s', ws. split_and!; [done..|]. intros k r rpid Hr. destruct (Hk k r rpid Hr) as (r' & E' & Hm).
  exists r'. split; [done|]. rewrite <- H35. apply (Hm 35); [lia|done].
Defined.

(** ** end_op *)

(** The core changed by a wakeup, the locks held again as before. *)
Lemma tx_core s c' pid hs D :
  tx s pid hs D -> core_step (tcore s) c' -> slocks c' = slocks (tcore s) ->
  tx (set_lbio (set_bcore c' (lbio s)) s) pid hs D.
Proof.
  intros [H1 H2 H3 H4 H5 H6 H7] Hc Hsl. pose proof Hc as (C1 & C2 & _).
  assert (forall l, sl_of c' l = sl_of (tcore s) l) as Es by (intros l; unfold sl_of; by rewrite Hsl).
  assert (forall b, blocked c' b = blocked (tcore s) b) as Eb by (intros b; unfold blocked; by rewrite Es).
  split; unfold tcore, tdisk; cbn.
  - by apply bio_inv_core.
  - congruence.
  - by eapply core_step_mypid.
  - intros b. rewrite Eb. apply H4.
  - intros b n m Hb. rewrite Es. by apply H5.
  - exact H6.
  - exact H7.
Qed.

Lemma tframe_core s c' :
  core_step (tcore s) c' -> slocks c' = slocks (tcore s) ->
  tframe s (set_lbio (set_bcore c' (lbio s)) s).
Proof. intros H1 H2. split; [done| |done]. intros i. unfold sl_of, tcore. cbn. by rewrite H2. Qed.

Definition woken (ch : chan) (s : lst) : lst :=
  set_lbio (set_bcore (set_procs (wake (Some ch) <$> procs (tcore s)) (tcore s)) (lbio s)) s.

Lemma tx_woken ch s pid hs D : tx s pid hs D -> tx (woken ch s) pid hs D.
Proof. intros H. apply tx_core; [done|apply core_step_wake|done]. Qed.

(** The short critical sections of [end_op]. *)
Lemma wp_log_locked (f : log -> log) (wk : bool) (Q : unit -> lst -> Prop) s :
  held (tcore s) = [] ->
  (let s' := set_lg (f (lg s)) s in Q tt (if wk then woken ChLog s' else s')) ->
  wp (ccall (acquire LkLog) ;; upd_lg f ;; (if wk then ccall (wakeup ChLog) else skip) ;;
      ccall (release LkLog)) Q s.
Proof.
  intros Hh HQ. unfold upd_lg. wp_low. apply wp_acquire; [solve_lk|]. wp_low. destruct wk; wp_low.
  - apply wp_wakeup; [solve_lk|]. wp_low. apply wp_release; [solve_lk|].
    destruct s as [[[] ? ? ?] ?]. unfold woken, tcore in *. cbn in *. subst. by rewrite decide_True.
  - apply wp_release; [solve_lk|].
    destruct s as [[[] ? ? ?] ?]. unfold tcore in *. cbn in *. subst. by rewrite decide_True.
Qed.

(** [end_op] as the sequence of its critical sections. *)
Lemma wp_end_op_last s Q :
  held (tcore s) = [] -> l_committing (lg s) = 0 -> l_outstanding (lg s) = 1 ->
  wp (commit ;; end_op_last) Q
     (set_lg (set_l_committing 1 (set_l_outstanding 0 (lg s))) s) ->
  wp end_op Q s.
Proof.
  intros Hh Hc Ho HQ. unfold end_op, end_op_first, upd_lg in *. wp_low. apply wp_acquire; [solve_lk|]. wp_low.
  cbn [lg set_lg set_lbio l_outstanding l_committing set_l_outstanding].
  rewrite Ho, Hc. change (negb (0 =? 0)) with false. change (1 - 1 =? 0) with true.
  wp_low. apply wp_release; [solve_lk|]. wp_low.
  destruct s as [[[] ? ? ?] ?]. unfold tcore in *. cbn in *. subst. rewrite decide_True by done.
  revert HQ. wp_low. done.
Qed.

(** The state in which a transaction with work left for others ends. *)
Lemma wp_end_op_more s Q :
  held (tcore s) = [] -> l_committing (lg s) = 0 -> 1 < l_outstanding (lg s) ->
  Q tt (woken ChLog (set_lg (set_l_outstanding (l_outstanding (lg s) - 1) (lg s)) s)) ->
  wp end_op Q s.
Proof.
  intros Hh Hc Ho HQ. unfold end_op, end_op_first, upd_lg in *. wp_low. apply wp_acquire; [solve_lk|]. wp_low.
  cbn [lg set_lg set_lbio l_outstanding l_committing set_l_outstanding].
  rewrite Hc. change (negb (0 =? 0)) with false. destruct (Z.eqb_spec (l_outstanding (lg s) - 1) 0); [lia|]. wp_low.
  apply wp_wakeup; [solve_lk|]. wp_low. apply wp_release; [solve_lk|]. wp_low.
  destruct s as [[[] ? ? ?] ?]. unfold woken, tcore in *. cbn in *. subst. by rewrite decide_True.
Qed.

(** After a complete commit every home block holds the transaction's data. *)
Lemma commit_disk s pid h1 h2 m :
  tx s pid ∅ (logged s) -> log_ok s ->
  header_is h1 (Z.to_nat (lh_n (lg s))) (lh_block (lg s)) -> header_is h2 0 [] -> home s m ->
  apply_writes (commit_writes s h1 h2) (tdisk s) !! Z.to_nat m = Some (tview s m).
Proof.
  intros Htx Hlog Hh1 Hh2 Hm.
  destruct (crash_after s pid Htx Hlog h1 h2 Hh1 Hh2 (length (commit_writes s h1 h2))) as [Hok Hrec].
  { unfold commit_writes, log_writes. rewrite !length_app, length_fmap, length_seq. cbn. lia. }
  rewrite firstn_all in *. specialize (Hrec m Hm). rewrite <- Hrec. symmetry. f_equal.
  unfold commit_writes. rewrite !(assoc_L (++)), apply_writes_snoc.
  eapply clear_header; [by apply (commit_point_log_ok s Hlog h1)| |done].
  rewrite length_apply_writes. unfold commit_point. by rewrite length_insert, length_apply_writes.
Qed.

Lemma commit_header s h1 h2 :
  log_ok s -> header_is h2 0 [] -> hdr_n (disk_block (apply_writes (commit_writes s h1 h2) (tdisk s)) (l_start (lg s))) = 0.
Proof.
  intros Hlog (_ & Hh & _). pose proof (lo_region _ Hlog). unfold commit_writes. rewrite !(assoc_L (++)), apply_writes_snoc.
  unfold disk_block. rewrite list_lookup_insert_eq; [done|]. rewrite length_apply_writes. lia.
Qed.

(** C18.  The end of the last outstanding operation is a commit: when the log
    on disk is clear, as between transactions, [end_op] returns with no
    operation outstanding, the log empty in memory and clear on disk again, no
    block pinned, and every home block of the disk holding what the file system
    saw. *)
Theorem end_op_commits s pid :
  tx s pid ∅ (logged s) -> log_ok s -> (length (logged s) < NBUF)%nat ->
  l_committing (lg s) = 0 -> l_outstanding (lg s) = 1 ->
  hdr_n (disk_block (tdisk s) (l_start (lg s))) = 0 ->
  exists s', end_op s = Ok tt s' /\ tx s' pid ∅ [] /\ log_ok s' /\
    lh_n (lg s') = 0 /\ l_outstanding (lg s') = 0 /\ l_committing (lg s') = 0 /\
    hdr_n (disk_block (tdisk s') (l_start (lg s'))) = 0 /\
    (forall m, home s m -> tdisk s' !! Z.to_nat m = Some (tview s m) /\ tview s' m = tview s m).
Proof.
  intros Htx Hlog HD Hc Ho Hclean.
  set (s1 := set_lg (set_l_committing 1 (set_l_outstanding 0 (lg s))) s).
  assert (log_ok s1) as Hlog1 by (by destruct Hlog).
  assert (tx s1 pid ∅ (logged s1)) as Htx1 by (by apply tx_set_lg).
  assert (wp commit (fun _ s2 => tx s2 pid ∅ [] /\ log_ok s2 /\ lg s2 = set_lh_n 0 (lg s1) /\
     hdr_n (disk_block (tdisk s2) (l_start (lg s))) = 0 /\ forall m, home s m -> tdisk s2 !! Z.to_nat m = Some (tview s m)) s1) as Hcommit.
  { destruct (decide (0 < lh_n (lg s1))) as [Hpos|Hz].
    - apply (wp_commit s1 pid); [done..|]. intros s2 h1 h2 X F L Hh1 Hh2 _ D. split_and!; [done| |done| |].
      + destruct (log_ok_clear s1 Hlog1) as [K1 K2 K3 K4 K5 K6].
        split; unfold home, logged in *; rewrite ?L, ?(tf_len _ _ F); done.
      + rewrite D. by apply (commit_header s1).
      + intros m Hm. rewrite D. by apply (commit_disk s1 pid).
    - pose proof (lo_n _ Hlog1). assert (lh_n (lg s1) = 0) as E0 by lia.
      unfold commit. wp_simpl. destruct (Z.ltb_spec 0 (lh_n (lg s1))); [lia|]. wp_simpl.
      assert (logged s1 = []) as El by (unfold logged; by rewrite E0).
      rewrite El in Htx1. split_and!; [done|done| |done|].
      + rewrite <- E0. by destruct (lg s1).
      + intros m Hm. apply (tx_view_disk s1 pid ∅ []); [done|apply Hm|apply not_elem_of_nil|done]. }
  assert (wp end_op (fun _ s' => tx s' pid ∅ [] /\ log_ok s' /\ lh_n (lg s') = 0 /\
    l_outstanding (lg s') = 0 /\ l_committing (lg s') = 0 /\
    hdr_n (disk_block (tdisk s') (l_start (lg s'))) = 0 /\
    forall m, home s m -> tdisk s' !! Z.to_nat m = Some (tview s m)) s) as Hw.
  { apply wp_end_op_last; [apply Htx|done..|]. rewrite wp_bind. eapply wp_mono; [exact Hcommit|].
    intros [] s2 (X2 & O2 & L2 & H2 & D2).
    apply (wp_log_locked (set_l_committing 0) true); [apply X2|]. cbv zeta. rewrite L2. split_and!; try done.
    - by apply tx_woken, tx_set_lg.
    - destruct O2 as [K1 K2 K3 K4 K5 K6]. unfold home, logged in *. rewrite L2 in *. by split. }
  apply wp_inv in Hw as ([] & s' & E & X & O & R1 & R2 & R3 & R5 & R4).
  exists s'. split_and!; [done..|]. intros m Hm. split; [by apply R4|].
  pose proof (R4 m Hm) as Hd.
  assert (0 <= m < Z.of_nat (length (tdisk s'))) as Hr.
  { apply lookup_lt_Some in Hd. destruct Hm. lia. }
  pose proof (tx_view_disk s' pid ∅ [] m X Hr ltac:(apply not_elem_of_nil) ltac:(done)). congruence.
Qed.

Lemma end_op_commits_witness :
  exists s', end_op demo = Ok tt s' /\ tx s' 1 ∅ [] /\ log_ok s' /\
    lh_n (lg s') = 0 /\ l_outstanding (lg s') = 0 /\ l_committing (lg s') = 0 /\
    hdr_n (disk_block (tdisk s') (l_start (lg s'))) = 0 /\
    (forall m, home demo m -> tdisk s' !! Z.to_nat m = Some (tview demo m) /\ tview s' m = tview demo m).
Proof.
  destruct demo_tx as (H1 & H2 & H3 & _). apply (end_op_commits demo 1); [done..| | | |].
  - rewrite H3. cbn. unfold NBUF. lia.
  - by vm_compute.
  - by vm_compute.
  - apply demo_header.
Defined.

(** ** Reservations

    The evolution of the log record under the operations of concurrent system
    calls.  Each call that has passed [begin_op] carries the number of
    [log_write]s it may still make, [MAXOPBLOCKS] at first; a step is a run of
    the modelled routine from any state of the rest of the machine. *)

Definition keeps_lg {A} (m : M lst A) : Prop := forall s a s', m s = Ok a s' -> lg s' = lg s.

Lemma keeps_bind {A B} (m : M lst A) (f : A -> M lst B) :
  keeps_lg m -> (forall a, keeps_lg (f a)) -> keeps_lg (m ≫= f).
Proof.
  intros Hm Hf s b s'. unfold mbind, M_bind. destruct (m s) as [a s1| | | |] eqn:E; try done.
  intros H. apply Hf in H. apply Hm in E. congruence.
Qed.
Lemma keeps_bcall {A} (m : M bst A) : keeps_lg (bcall m).
Proof. intros s a s'. unfold bcall, lift. destruct (m (lget s)); try done. by intros [= <- <-]. Qed.
Lemma keeps_ccall {A} (m : M kcore A) : keeps_lg (ccall m).
Proof. apply keeps_bcall. Qed.
Lemma keeps_ret {A} (a : A) : keeps_lg (mret a).
Proof. by intros s x s' [= _ <-]. Qed.
Lemma keeps_gets {A} (f : lst -> A) : keeps_lg (gets f).
Proof. by intros s x s' [= _ <-]. Qed.
Lemma keeps_idx {A} (l : list A) i : keeps_lg (idx l i).
Proof. intros s x s'. unfold idx. destruct (l !! i); [|done]. by intros [= _ <-]. Qed.
Lemma keeps_for i n (body : nat -> M lst unit) : (forall j, keeps_lg (body j)) -> keeps_lg (for_range i n body).
Proof.
  intros Hb. revert i. induction n as [|n IH]; intros i; cbn; [apply keeps_ret|].
  apply keeps_bind; [apply Hb|]. intros []. apply IH.
Qed.

Ltac keeps := repeat first [apply keeps_bcall | apply keeps_ccall | apply keeps_ret | apply keeps_gets
  | apply keeps_idx | apply keeps_for; intros ? | apply keeps_bind; [|intros ?] ].

Lemma keeps_write_log : keeps_lg write_log.
Proof. unfold write_log, write_log_step, get_lh_block, bdata, set_bdata. keeps. Qed.
Lemma keeps_install_trans : keeps_lg install_trans.
Proof. unfold install_trans, install_step, get_lh_block, bdata, set_bdata. keeps. Qed.
Lemma keeps_write_head : keeps_lg write_head.
Proof. unfold write_head, get_lh_block, bdata, set_bdata. keeps. Qed.

(** Taking a successful sequence apart. *)
Lemma bind_ok_inv {St A B} (m : M St A) (f : A -> M St B) s b s' :
  (m ≫= f) s = Ok b s' -> exists a s1, m s = Ok a s1 /\ f a s1 = Ok b s'.
Proof. unfold mbind, M_bind. destruct (m s) as [a s1| | | |]; try done. intros H. by exists a, s1. Qed.

Lemma commit_lg s s' : commit s = Ok tt s' -> 0 <= lh_n (lg s) -> lg s' = set_lh_n 0 (lg s).
Proof.
  unfold commit. intros (l & s0 & [= <- <-] & H)%bind_ok_inv Hn.
  destruct (Z.ltb_spec 0 (lh_n (lg s))) as [Hlt|Hge].
  - apply bind_ok_inv in H as ([] & s1 & H1%keeps_write_log & H).
    apply bind_ok_inv in H as ([] & s2 & H2%keeps_write_head & H).
    apply bind_ok_inv in H as ([] & s3 & H3%keeps_install_trans & H).
    apply bind_ok_inv in H as ([] & s4 & [= <-] & H%keeps_write_head). cbn in H. congruence.
  - injection H as <-. assert (lh_n (lg s) = 0) as E by lia. rewrite <- E. by destruct (lg s).
Qed.
