(* ===== verification/Reserve.v ===== *)
(** * Log space reservation

    [begin_op] admits a system call only if the log can take [MAXOPBLOCKS]
    more blocks for it and for every call already running.  The invariant of
    the resulting protocol is proved by induction over its steps, each a run
    of the modelled [begin_op], [log_write] or one of the sections of
    [end_op], with calls that sleep in [begin_op] and come back, and a commit
    that other calls run beside. *)

From S2P Require Import Prelude Bytes Core Bio Log Txn Crash Recover Boot LogSpec.

(** ** The log record after each routine *)

Lemma sched_not_ok c a c' : sched c <> Ok a c'.
Proof.
  unfold sched. intros (p & c1 & _ & H)%bind_ok_inv. apply bind_ok_inv in H as (h & c2 & _ & H).
  destruct h; [|done]. apply bind_ok_inv in H as (hs & c3 & _ & H). cbn in H.
  destruct (length hs =? 1)%nat; [|done]. apply bind_ok_inv in H as (pr & c4 & _ & H).
  by destruct (bool_decide (p_state pr = RUNNING)).
Qed.

(** [sleep] gives up the CPU, it does not return in one run. *)
Lemma sleep_not_ok ch lk c a c' : sleep ch lk c <> Ok a c'.
Proof.
  unfold sleep. intros (mp & c1 & _ & H)%bind_ok_inv. destruct mp as [p|]; [|done].
  apply bind_ok_inv in H as (u & c2 & _ & H). apply bind_ok_inv in H as (u2 & c3 & _ & H).
  apply bind_ok_inv in H as (u3 & c4 & _ & H). by apply sched_not_ok in H.
Qed.

Lemma ccall_not_ok {A} (m : M kcore A) s a s' :
  (forall c a c', m c <> Ok a c') -> ccall m s <> Ok a s'.
Proof.
  intros Hm. unfold ccall, bcall, lift. cbn. destruct (m (bcore (lbio s))) eqn:E; try done.
  by destruct (Hm _ _ _ E).
Qed.

(** What the loop of [begin_op] leaves: one more operation, or, the CPU given
    up, the log as it was. *)
Definition admitted (s : lst) (o : outcome lst unit) : Prop :=
  match o with
  | Ok _ s' => l_committing (lg s) = 0 /\
      lh_n (lg s) + (l_outstanding (lg s) + 1) * MAXOPBLOCKS <= Z.of_nat LOGSIZE /\
      lg s' = set_l_outstanding (l_outstanding (lg s) + 1) (lg s)
  | Switched s' => lg s' = lg s
  | _ => True
  end.
Lemma ccall_keeps {A} (m : M kcore A) s :
  match ccall m s with Ok _ s' | Switched s' => lg s' = lg s | _ => True end.
Proof. unfold ccall, bcall, lift. cbn. by destruct (m (bcore (lbio s))). Qed.
Lemma sleep_admitted s : admitted s (ccall (sleep ChLog LkLog) s).
Proof.
  pose proof (ccall_keeps (sleep ChLog LkLog) s) as Hk.
  destruct (ccall (sleep ChLog LkLog) s) as [[] s'|?|s'| |] eqn:E; try done.
  by apply ccall_not_ok in E; [|intros *; apply sleep_not_ok].
Qed.
Lemma release_stays lk s s' : ccall (release lk) s <> Switched s'.
Proof.
  unfold ccall, bcall, lift, release, holding, mbind, M_bind, gets. cbn. by destruct (bool_decide _).
Qed.
Lemma begin_loop_lg s : admitted s (begin_op_loop s).
Proof.
  pose proof (sleep_admitted s) as Hsl. unfold begin_op_loop. unfold mbind at 1, M_bind at 1. cbn [gets].
  destruct (Z.eqb_spec (l_committing (lg s)) 0) as [Hc|]; cbn [negb]; [|done].
  destruct (Z.ltb_spec (Z.of_nat LOGSIZE) (lh_n (lg s) + (l_outstanding (lg s) + 1) * MAXOPBLOCKS)); [done|].
  unfold upd_lg, modify, mbind, M_bind. set (s1 := set_lg _ s). pose proof (ccall_keeps (release LkLog) s1) as Hk.
  destruct (ccall (release LkLog) s1) as [[] s'|?|s'| |] eqn:E; try done.
  by apply release_stays in E.
Qed.
(** Both for a call that comes for the first time and for one that slept. *)
Lemma begin_op_lg s : admitted s (begin_op s) /\ admitted s (begin_op_resume s).
Proof.
  assert (forall m : M kcore unit, (forall c c', m c <> Switched c') -> admitted s ((ccall m ;; begin_op_loop) s)) as H.
  { intros m Hm. unfold mbind, M_bind. pose proof (ccall_keeps m s) as Hk.
    destruct (ccall m s) as [[] s1|?|s1| |] eqn:E; try done.
    pose proof (begin_loop_lg s1) as Hl. unfold admitted in *. by rewrite Hk in Hl. }
  split; apply H; intros c c'.
  - unfold acquire, holding, mbind, M_bind, gets. cbn. by destruct (bool_decide _).
  - unfold sleep_resume, curproc, myproc, upd_proc, get_proc, deref, idx, acquire, release, holding, mbind, M_bind, gets, modify.
    repeat (case_match; simplify_eq/=; try done).
Qed.

Lemma log_find_lg n i k s j s' : log_find n i k s = Ok j s' -> lg s' = lg s.
Proof.
  revert i. induction k as [|k IH]; intros i; cbn; [by intros [= _ <-]|].
  intros (v & s1 & H1 & H)%bind_ok_inv.
  assert (lg s1 = lg s) as E.
  { revert H1. apply (keeps_bind (gets lg) _ (keeps_gets _)). intros l. keeps. }
  assert (s1 = s) as ->.
  { unfold get_lh_block in H1. apply bind_ok_inv in H1 as (l & s2 & [= <- <-] & H1).
    apply bind_ok_inv in H1 as (w & s3 & H1 & [= _ <-]). unfold idx in H1.
    destruct (lh_block (lg s) !! i); [by injection H1|done]. }
  destruct (u32 v =? n); [by injection H as _ <-|]. by apply IH in H.
Qed.

(** [log_write] adds at most one block and keeps everything else. *)
Lemma log_write_lg_n b s s' :
  log_write b s = Ok tt s' ->
  1 <= l_outstanding (lg s) /\ lh_n (lg s) <= lh_n (lg s') <= lh_n (lg s) + 1 /\
  l_outstanding (lg s') = l_outstanding (lg s) /\ l_committing (lg s') = l_committing (lg s) /\
  l_size (lg s') = l_size (lg s).
Proof.
  unfold log_write. intros (l & s0 & [= <- <-] & H)%bind_ok_inv.
  destruct (_ || _); [done|]. destruct (Z.ltb_spec (l_outstanding (lg s)) 1); [done|].
  apply bind_ok_inv in H as ([] & s1 & H1%keeps_ccall & H).
  apply bind_ok_inv in H as (x & s2 & H2%keeps_bcall & H).
  apply bind_ok_inv in H as (i & s3 & H3%log_find_lg & H).
  apply bind_ok_inv in H as ([] & s4 & H4 & H).
  apply bind_ok_inv in H as ([] & s5 & H5 & H).
  apply bind_ok_inv in H as ([] & s6 & H6%keeps_bcall & H7%keeps_ccall).
  assert (exists bl, lg s4 = set_lh_block bl (lg s)) as [bl E4].
  { unfold put_lh_block in H4. apply bind_ok_inv in H4 as (l & sa & [= <- <-] & H4).
    apply bind_ok_inv in H4 as (w & sb & Hb%keeps_idx & H4). injection H4 as <-. cbn.
    eexists. rewrite Hb, H3, H2, H1. done. }
  rewrite H7, H6. split; [done|].
  destruct (Z.of_nat i =? lh_n (lg s)); injection H5 as <-; cbn; rewrite E4; cbn; repeat split; lia.
Qed.

(** The sections of [end_op]. *)
Lemma end_op_first_lg s c s' :
  end_op_first s = Ok c s' ->
  l_committing (lg s) = 0 /\ c = bool_decide (l_outstanding (lg s) = 1) /\
  lg s' = (if c then set_l_committing 1 else id) (set_l_outstanding (l_outstanding (lg s) - 1) (lg s)).
Proof.
  unfold end_op_first. intros ([] & s1 & H1%keeps_ccall & H)%bind_ok_inv.
  apply bind_ok_inv in H as ([] & s2 & [= <-] & H).
  apply bind_ok_inv in H as (l & s3 & [= <- <-] & H). cbn [lg set_lg] in H. rewrite H1 in H.
  cbn [l_committing l_outstanding set_l_outstanding] in H.
  destruct (Z.eqb_spec (l_committing (lg s)) 0) as [Hc|]; cbn [negb] in H; [|done].
  apply bind_ok_inv in H as (d & s4 & H4 & H). apply bind_ok_inv in H as ([] & s5 & H5%keeps_ccall & [= <- <-]).
  destruct (Z.eqb_spec (l_outstanding (lg s) - 1) 0) as [Ho|Ho].
  - apply bind_ok_inv in H4 as ([] & s6 & [= <-] & [= <- <-]). rewrite bool_decide_eq_true_2 by lia.
    split_and!; [done..|]. rewrite H5. done.
  - apply bind_ok_inv in H4 as ([] & s6 & H6%keeps_ccall & [= <- <-]). rewrite bool_decide_eq_false_2 by lia.
    split_and!; [done..|]. rewrite H5, H6. done.
Qed.
Lemma end_op_last_lg s s' : end_op_last s = Ok tt s' -> lg s' = set_l_committing 0 (lg s).
Proof.
  unfold end_op_last. intros ([] & s1 & H1%keeps_ccall & H)%bind_ok_inv.
  apply bind_ok_inv in H as ([] & s2 & [= <-] & H).
  apply bind_ok_inv in H as ([] & s3 & H3%keeps_ccall & H4%keeps_ccall). rewrite H4, H3. cbn. by rewrite H1.
Qed.

(** ** The protocol *)

(** Where the call that ended last is in its commit, if there is one. *)
Inductive phase := NoCommit | Commit | Committed.
(** The log, what each running operation may still log, and the commit. *)
Definition rstate : Type := log * list nat * phase.

Inductive rstep : rstate -> rstate -> Prop :=
| RBegin s s' B ph :
    begin_op s = Ok tt s' \/ begin_op_resume s = Ok tt s' -> rstep (lg s, B, ph) (lg s', Z.to_nat MAXOPBLOCKS :: B, ph)
| RWait s s' B ph :
    begin_op s = Switched s' \/ begin_op_resume s = Switched s' -> rstep (lg s, B, ph) (lg s', B, ph)
| RWrite b s s' B1 r B2 ph :
    log_write b s = Ok tt s' -> rstep (lg s, B1 ++ S r :: B2, ph) (lg s', B1 ++ r :: B2, ph)
| REnd c s s' B1 r B2 ph :
    end_op_first s = Ok c s' -> rstep (lg s, B1 ++ r :: B2, ph) (lg s', B1 ++ B2, if c then Commit else ph)
| RCommit s s' B :
    commit s = Ok tt s' -> rstep (lg s, B, Commit) (lg s', B, Committed)
| RDone s s' B :
    end_op_last s = Ok tt s' -> rstep (lg s, B, Committed) (lg s', B, NoCommit).

Definition rinit (p : rstate) : Prop :=
  let '(l, B, ph) := p in l_outstanding l = 0 /\ l_committing l = 0 /\ lh_n l = 0 /\ B = [] /\ ph = NoCommit.

Record rinv (l : log) (B : list nat) (ph : phase) : Prop := {
  ri_out : l_outstanding l = Z.of_nat (length B);
  ri_com : l_committing l = match ph with NoCommit => 0 | _ => 1 end;
  ri_alone : ph <> NoCommit -> B = [];
  ri_n : 0 <= lh_n l;
  ri_done : ph = Committed \/ (ph = NoCommit /\ B = []) -> lh_n l = 0;
  ri_budget : Forall (fun r => r <= Z.to_nat MAXOPBLOCKS)%nat B;
  ri_sum : lh_n l + Z.of_nat (sum_list B) <= Z.of_nat LOGSIZE }.

Lemma sum_budget (B : list nat) (k : nat) : Forall (fun r => r <= k)%nat B -> (sum_list B <= length B * k)%nat.
Proof. induction 1; cbn; lia. Qed.

Lemma rinv_begin s s' B ph : admitted s (Ok tt s') -> rinv (lg s) B ph -> rinv (lg s') (Z.to_nat MAXOPBLOCKS :: B) ph.
Proof.
  intros (Hc & Hroom & ->) [H1 H2 H3 H4 H5 H6 H7]. rewrite Hc in H2. destruct ph; try done.
  split; cbn; [lia|done|done|done|by intros [?|[_ ?]]|by constructor|].
  pose proof (sum_budget _ _ H6). unfold MAXOPBLOCKS, LOGSIZE in *. lia.
Qed.
Lemma rinv_write b s s' B1 r B2 ph :
  log_write b s = Ok tt s' -> rinv (lg s) (B1 ++ S r :: B2) ph -> rinv (lg s') (B1 ++ r :: B2) ph.
Proof.
  intros (_ & Hn & Ho & Hc & _)%log_write_lg_n [H1 H2 H3 H4 H5 H6 H7].
  assert (ph = NoCommit) as -> by (destruct ph; [done|..]; by destruct B1; specialize (H3 ltac:(done))).
  rewrite Forall_app, Forall_cons in H6. rewrite sum_list_with_app in H7. cbn in H7.
  split; rewrite ?length_app in *; cbn [length] in *; [lia|congruence|done|lia| | |].
  - intros [?|[_ ?]]; [done|]. by destruct B1.
  - rewrite Forall_app, Forall_cons. intuition lia.
  - rewrite sum_list_with_app. cbn. lia.
Qed.
Lemma rinv_end c s s' B1 r B2 ph :
  end_op_first s = Ok c s' -> rinv (lg s) (B1 ++ r :: B2) ph -> rinv (lg s') (B1 ++ B2) (if c then Commit else ph).
Proof.
  intros (Hc & -> & ->)%end_op_first_lg [H1 H2 H3 H4 H5 H6 H7].
  rewrite Hc in H2. destruct ph; try done.
  rewrite Forall_app, Forall_cons in H6. rewrite sum_list_with_app in H7. cbn in H7.
  rewrite length_app in H1. cbn [length] in H1.
  case_bool_decide as Ho; (split; cbn; [rewrite ?length_app in *; lia|done| |done| |rewrite Forall_app; tauto|rewrite sum_list_with_app; lia]).
  - intros _. apply nil_length_inv. rewrite length_app. lia.
  - by intros [?|[? _]].
  - done.
  - intros [?|[_ E]]; [done|]. apply app_nil in E as [-> ->]. cbn in *. lia.
Qed.
Lemma rinv_step l B ph l' B' ph' : rstep (l, B, ph) (l', B', ph') -> rinv l B ph -> rinv l' B' ph'.
Proof.
  inversion 1 as [s s' ? ? Hb|s s' ? ? Hb|b s s' ? ? ? ? Hw|c s s' ? ? ? ? He|s s' ? Hco|s s' ? Hl]; subst; intros Hi.
  - apply rinv_begin with s; [|done]. destruct (begin_op_lg s) as [Ha1 Ha2]. by destruct Hb as [<-|<-].
  - replace (lg s') with (lg s); [done|]. destruct (begin_op_lg s) as [Ha1 Ha2]. by destruct Hb as [E|E]; rewrite E in *.
  - by eapply rinv_write.
  - by eapply rinv_end.
  - destruct Hi as [H1 H2 H3 H4 H5 H6 H7]. rewrite (commit_lg _ _ Hco H4). specialize (H3 ltac:(done)). subst.
    split; cbn; try done.
  - destruct Hi as [H1 H2 H3 H4 H5 H6 H7]. rewrite (end_op_last_lg _ _ Hl). specialize (H3 ltac:(done)). subst.
    specialize (H5 ltac:(by left)). by split.
Qed.

Lemma rinv_reach p l B ph : rinit p -> rtc rstep p (l, B, ph) -> rinv l B ph.
Proof.
  destruct p as [[l0 B0] ph0]. intros (I1 & I2 & I3 & -> & ->) Hr.
  assert (rinv l0 [] NoCommit) as Hp.
  { split; rewrite ?I1, ?I2, ?I3; cbn; try done. }
  clear I1 I2 I3. remember (l0, [] : list nat, NoCommit) as p0 eqn:E0. remember (l, B, ph) as p1 eqn:E1.
  revert l0 Hp E0 E1. generalize ([] : list nat) as B0, NoCommit as ph0. intros B0 ph0.
  revert B0 ph0. induction Hr as [p|p [[l1 B1] ph1] q Hs _ IH]; intros B0 ph0 l0 Hp E0 E1; subst.
  - by injection E1 as <- <- <-.
  - eapply IH; [by eapply rinv_step|done|done].
Qed.

(** [end_op] of a running operation: no panic, a commit for the last one. *)
Lemma end_op_first_run s :
  held (tcore s) = [] -> l_committing (lg s) = 0 ->
  exists s', end_op_first s = Ok (bool_decide (l_outstanding (lg s) = 1)) s'.
Proof.
  intros Hh Hc.
  assert (wp end_op_first (fun c _ => c = bool_decide (l_outstanding (lg s) = 1)) s) as Hw.
  { unfold end_op_first, upd_lg. wp_low. apply wp_acquire; [solve_lk|]. wp_low.
    cbn [lg set_lg set_lbio l_outstanding l_committing set_l_outstanding]. rewrite Hc. change (negb (0 =? 0)) with false.
    destruct (Z.eqb_spec (l_outstanding (lg s) - 1) 0) as [Ho|Ho]; wp_low.
    - apply wp_release; [solve_lk|]. wp_low. by rewrite bool_decide_eq_true_2 by lia.
    - apply wp_wakeup; [solve_lk|]. wp_low. apply wp_release; [solve_lk|]. wp_low. by rewrite bool_decide_eq_false_2 by lia. }
  apply wp_inv in Hw as (c & s' & E & ->). by exists s'.
Qed.

(** C19.  Reservations hold, when the log has a block for its header besides
    its [LOGSIZE] data blocks.  In every state reached by calls that enter
    [begin_op] (or sleep there and come back), make at most [MAXOPBLOCKS]
    [log_write]s each, and leave through the sections of [end_op], with the
    commit of the last one under way beside the others: the blocks logged and
    those still promised fit into [LOGSIZE]; an operation with budget left
    logs another block without a panic; none is running while a commit is under
    way, so that [end_op] never finds one and the last operation commits; and
    when none is running and none commits, [begin_op] lets a call in. *)
Theorem reservation_suffices p l B ph :
  rinit p -> rtc rstep p (l, B, ph) ->
  lh_n l + Z.of_nat (sum_list B) <= Z.of_nat LOGSIZE /\
  (ph <> NoCommit -> B = []) /\
  ((0 < sum_list B)%nat -> Z.of_nat LOGSIZE < l_size l ->
   forall s b x, lg s = l -> log_ok s -> held (tcore s) = [] -> bufs (lbio s) !! b = Some x ->
     0 <= b_blockno x < 2147483648 -> exists s', log_write b s = Ok tt s') /\
  (B <> [] -> forall s, lg s = l -> held (tcore s) = [] ->
     exists s', end_op_first s = Ok (bool_decide (length B = 1%nat)) s') /\
  (B = [] -> ph = NoCommit -> forall s, lg s = l -> held (tcore s) = [] -> exists s', begin_op s = Ok tt s').
Proof.
  intros Hi Hr%(rinv_reach _ _ _ _ Hi). destruct Hr as [R1 R2 R3 R4 R5 R6 R7].
  split_and!; [done|done| | |].
  - intros HB Hsz s b x Hl Hlog Hh Hx Hbn.
    assert (wp (log_write b) (fun _ _ => True) s) as Hw.
    { apply (wp_log_write_run s b x (b_blockno x)); try done; rewrite Hl; try lia.
      destruct B; cbn in *; lia. }
    apply wp_inv in Hw as ([] & s' & E & _). by exists s'.
  - intros HB s <- Hh. destruct ph; [|by destruct HB; apply R3 ..].
    destruct (end_op_first_run s Hh R2) as [s' E]. exists s'. rewrite E. f_equal. apply bool_decide_ext. lia.
  - intros -> -> s <- Hh.
    assert (wp begin_op (fun _ _ => True) s) as Hw.
    { apply wp_begin_op; [done|done| |done]. rewrite R5, R1 by auto. vm_compute. congruence. }
    apply wp_inv in Hw as ([] & s' & E & _). by exists s'.
Qed.

(** A 70-block disk with a log of [sz] blocks at block 2. *)
Definition rboot (sz : Z) : lst := boot (replicate 70 zero_block) 2 sz.
Definition begun (sz : Z) : lst := set_lg (set_l_outstanding 1 (boot_log 2 sz)) (rboot sz).

Lemma begun_run sz : begin_op (rboot sz) = Ok tt (begun sz).
Proof.
  destruct (boot_bst_spec (replicate 70 zero_block)) as (_ & _ & _ & Hc & _).
  { apply Forall_replicate, zero_block_ok. }
  assert (held (tcore (rboot sz)) = []) as Hh.
  { change (held (bcore (boot_bst (replicate 70 zero_block))) = []). by rewrite Hc. }
  assert (wp begin_op (fun _ s' => s' = begun sz) (rboot sz)) as Hw.
  { apply wp_begin_op; [done|done|vm_compute; congruence|done]. }
  apply wp_inv in Hw as ([] & s' & E & ->). done.
Qed.

Lemma reservation_suffices_witness :
  lh_n (lg (begun 31)) + Z.of_nat (sum_list [10%nat]) <= Z.of_nat LOGSIZE /\
  exists s', log_write 0 (begun 31) = Ok tt s'.
Proof.
  destruct (reservation_suffices (lg (rboot 31), [], NoCommit) (lg (begun 31)) [10%nat] NoCommit) as (H1 & _ & H2 & _); [done| |].
  { apply rtc_once. apply (RBegin (rboot 31) (begun 31) [] NoCommit). left. apply begun_run. }
  split; [exact H1|]. destruct (boot_bst_spec (replicate 70 zero_block)) as (_ & Ed & _ & Hc & _).
  { apply Forall_replicate, zero_block_ok. }
  assert (b_blockno <$> bufs (lbio (begun 31)) !! 0%nat = Some 0) as Eb by (vm_compute; reflexivity).
  destruct (bufs (lbio (begun 31)) !! 0%nat) as [x|] eqn:Ex; [|discriminate Eb]. injection Eb as Eb.
  apply (H2 ltac:(cbn; lia) ltac:(done) (begun 31) 0%nat x); [done| |change (held (bcore (boot_bst (replicate 70 zero_block))) = []); by rewrite Hc|done|].
  - split; [done| | |done|apply NoDup_nil_2|intros m []%not_elem_of_nil].
    + change (tdisk (begun 31)) with (disk (boot_bst (replicate 70 zero_block))). rewrite Ed, length_replicate. cbn. lia.
    + vm_compute. split_and!; congruence.
  - rewrite Eb. clear. lia.
Defined.

(** ** The log mkfs makes is one block short

    [mkfs] lays out [LOGSIZE] blocks for the whole log, header included, so
    [log_write] refuses the block that [begin_op] has promised last. *)

Fixpoint write_blocks (n : Z) (k : nat) : M lst unit :=
  match k with
  | O => skip
  | S k' => write_block n zero_block ;; write_blocks (n + 1) k'
  end.

(** With the log of [LOGSIZE] blocks that [mkfs] makes, three system
    calls that all pass [begin_op] and write ten distinct blocks each, within
    their [MAXOPBLOCKS], make [log_write] panic on the thirtieth block. *)
Theorem mkfs_log_too_small :
  exists s, (begin_op ;; begin_op ;; begin_op) (rboot (Z.of_nat LOGSIZE)) = Ok tt s /\
    (exists s', write_blocks 32 29 s = Ok tt s') /\
    write_blocks 32 30 s = Panic "too big a transaction".
Proof.
  eexists. split; [vm_compute; reflexivity|]. split; [eexists; vm_compute; reflexivity|].
  vm_compute. reflexivity.
Qed.
