(* ===== verification/StringLib.v ===== *)
(** * Memory and string routines

    Models [string.c].  Memory is a function from addresses to bytes; a
    pointer parameter that is only read is also seen as the stream of bytes
    after it ([strm]), which lets the file system use the same [strncmp] and
    [strncpy] on its name buffers. *)

From S2P Require Import Prelude Bytes.

Abbreviation mem := (Z -> Z).
Abbreviation strm := (Z -> Z).

Definition mset (m : mem) (a v : Z) : mem := fun b => if b =? a then v else m b.

Lemma mset_eq m a v : mset m a v a = v.
Proof. unfold mset. by rewrite Z.eqb_refl. Qed.
Lemma mset_ne m a v b : b <> a -> mset m a v b = m b.
Proof. unfold mset. intros H. by rewrite (proj2 (Z.eqb_neq _ _) H). Qed.

(** The stream of bytes at address [p]. *)
Definition at_ptr (m : mem) (p : Z) : strm := fun i => m (p + i).
(** A buffer as a stream; zero past its end. *)
Definition of_list (l : list Z) : strm := fun i => if i <? 0 then 0 else default 0 (l !! Z.to_nat i).

(** ** memset: [rep stosl] and [rep stosb] *)

Fixpoint stosb (m : mem) (dst c : Z) (n : nat) : mem :=
  match n with O => m | S n' => stosb (mset m dst (u8 c)) (dst + 1) c n' end.
Definition store32 (m : mem) (a w : Z) : mem :=
  mset (mset (mset (mset m a (u8 w)) (a + 1) (u8 (Z.shiftr w 8))) (a + 2) (u8 (Z.shiftr w 16)))
    (a + 3) (u8 (Z.shiftr w 24)).
Fixpoint stosl (m : mem) (dst w : Z) (n : nat) : mem :=
  match n with O => m | S n' => stosl (store32 m dst w) (dst + 4) w n' end.

Definition memset (m : mem) (dst c n : Z) : mem :=
  if (Z.rem (s32 dst) 4 =? 0) && (n mod 4 =? 0) then
    let c := Z.land c 255 in
    stosl m dst (u32 (Z.lor (Z.lor (Z.lor (Z.shiftl c 24) (Z.shiftl c 16)) (Z.shiftl c 8)) c)) (Z.to_nat (n / 4))
  else stosb m dst c (Z.to_nat n).

(** ** memcmp, memmove, memcpy *)

Fixpoint memcmp_loop (s1 s2 : strm) (i : Z) (n : nat) : Z :=
  match n with
  | O => 0
  | S n' => if negb (s1 i =? s2 i) then s1 i - s2 i else memcmp_loop s1 s2 (i + 1) n'
  end.
Definition memcmp (m : mem) (v1 v2 n : Z) : Z :=
  memcmp_loop (at_ptr m v1) (at_ptr m v2) 0 (Z.to_nat n).

Fixpoint copy_down (m : mem) (d s : Z) (n : nat) : mem :=
  match n with O => m | S n' => copy_down (mset m (d - 1) (m (s - 1))) (d - 1) (s - 1) n' end.
Fixpoint copy_up (m : mem) (d s : Z) (n : nat) : mem :=
  match n with O => m | S n' => copy_up (mset m d (m s)) (d + 1) (s + 1) n' end.
Definition memmove (m : mem) (dst src n : Z) : mem :=
  if (src <? dst) && (dst <? src + n) then copy_down m (dst + n) (src + n) (Z.to_nat n)
  else copy_up m dst src (Z.to_nat n).
Definition memcpy (m : mem) (dst src n : Z) : mem := memmove m dst src n.

(** ** Strings *)

(** The loop of [strncmp] from offset [i] with [n] characters left. *)
Fixpoint strncmp_loop (p q : strm) (i : Z) (n : nat) : Z :=
  match n with
  | O => 0
  | S n' => if negb (p i =? 0) && (p i =? q i) then strncmp_loop p q (i + 1) n'
            else u8 (p i) - u8 (q i)
  end.
Definition strncmp (p q : strm) (n : Z) : Z := strncmp_loop p q 0 (Z.to_nat n).

Fixpoint zero_fill (m : mem) (s : Z) (n : nat) : mem :=
  match n with O => m | S n' => zero_fill (mset m s 0) (s + 1) n' end.
Fixpoint strncpy_loop (m : mem) (s t : Z) (n : nat) : mem :=
  match n with
  | O => m
  | S n' => let c := m t in let m' := mset m s c in
            if c =? 0 then zero_fill m' (s + 1) n' else strncpy_loop m' (s + 1) (t + 1) n'
  end.
Definition strncpy (m : mem) (s t n : Z) : mem := strncpy_loop m s t (Z.to_nat n).

(** [n] is the value after the pre-decrement of the loop condition. *)
Fixpoint safestrcpy_loop (m : mem) (s t : Z) (n : nat) : mem :=
  match n with
  | O => mset m s 0
  | S n' => let c := m t in let m' := mset m s c in
            if c =? 0 then mset m' (s + 1) 0 else safestrcpy_loop m' (s + 1) (t + 1) n'
  end.
Definition safestrcpy (m : mem) (s t n : Z) : mem :=
  if n <=? 0 then m else safestrcpy_loop m s t (Z.to_nat (n - 1)).

Fixpoint strlen_loop (s : strm) (n : Z) (fuel : nat) : option Z :=
  match fuel with
  | O => None
  | S f => if s n =? 0 then Some n else strlen_loop s (n + 1) f
  end.
Definition strlen (fuel : nat) (m : mem) (s : Z) : option Z := strlen_loop (at_ptr m s) 0 fuel.

(** ** memset *)

Lemma stosb_spec m dst c n a :
  stosb m dst c n a = if (dst <=? a) && (a <? dst + Z.of_nat n) then u8 c else m a.
Proof.
  revert m dst. induction n as [|n IH]; intros m dst; cbn [stosb].
  - destruct (Z.leb_spec dst a), (Z.ltb_spec a (dst + Z.of_nat 0)); cbn; (done || lia).
  - rewrite IH. unfold mset. destruct (Z.leb_spec (dst + 1) a), (Z.leb_spec dst a),
      (Z.ltb_spec a (dst + 1 + Z.of_nat n)), (Z.ltb_spec a (dst + Z.of_nat (S n))),
      (Z.eqb_spec a dst); cbn; (done || lia).
Qed.

Lemma store32_spec m a w b :
  store32 m a w b = if (a <=? b) && (b <? a + 4) then u8 (Z.shiftr w (8 * (b - a))) else m b.
Proof.
  unfold store32, mset.
  destruct (Z.eqb_spec b (a + 3)) as [->|]; [|destruct (Z.eqb_spec b (a + 2)) as [->|];
    [|destruct (Z.eqb_spec b (a + 1)) as [->|]; [|destruct (Z.eqb_spec b a) as [->|]]]].
  all: try (rewrite (proj2 (Z.leb_le _ _)), (proj2 (Z.ltb_lt _ _)) by lia; cbn [andb]).
  - by replace (8 * (a + 3 - a)) with 24 by lia.
  - by replace (8 * (a + 2 - a)) with 16 by lia.
  - by replace (8 * (a + 1 - a)) with 8 by lia.
  - replace (8 * (a - a)) with 0 by lia. by rewrite Z.shiftr_0_r.
  - destruct (Z.leb_spec a b), (Z.ltb_spec b (a + 4)); cbn; (done || lia).
Qed.

Lemma stosl_spec m dst w n a :
  stosl m dst w n a =
    if (dst <=? a) && (a <? dst + 4 * Z.of_nat n) then u8 (Z.shiftr w (8 * ((a - dst) mod 4))) else m a.
Proof.
  revert m dst. induction n as [|n IH]; intros m dst; cbn [stosl].
  - destruct (Z.leb_spec dst a), (Z.ltb_spec a (dst + 4 * Z.of_nat 0)); cbn; (done || lia).
  - rewrite IH, store32_spec.
    destruct (Z.leb_spec (dst + 4) a), (Z.leb_spec dst a),
      (Z.ltb_spec a (dst + 4 + 4 * Z.of_nat n)), (Z.ltb_spec a (dst + 4 * Z.of_nat (S n))),
      (Z.ltb_spec a (dst + 4)); cbn [andb]; try (done || lia).
    + replace (a - (dst + 4)) with (a - dst + (-1) * 4) by lia. by rewrite Z_mod_plus_full.
    + by rewrite Z.mod_small by lia.
Qed.

(** All four bytes of the word [memset] stores are the fill byte. *)
Lemma fill_word_byte c k :
  0 <= c < 256 -> 0 <= k < 4 ->
  u8 (Z.shiftr (u32 (Z.lor (Z.lor (Z.lor (Z.shiftl c 24) (Z.shiftl c 16)) (Z.shiftl c 8)) c)) (8 * k)) = c.
Proof.
  intros Hc Hk. unfold u8, u32. change 256 with (2 ^ 8). change 4294967296 with (2 ^ 32).
  rewrite <- !Z.land_ones by lia. apply Z.bits_inj'. intros i Hi.
  assert (forall j, 8 <= j -> Z.testbit c j = false) as Hhi.
  { intros j Hj. destruct (decide (c = 0)) as [->|]; [apply Z.bits_0|].
    apply Z.bits_above_log2; [lia|]. assert (Z.log2 c < 8) by (apply Z.log2_lt_pow2; lia). lia. }
  assert (forall j, j < 0 -> Z.testbit c j = false) as Hlo by (intros j Hj; by apply Z.testbit_neg_r).
  rewrite Z.land_spec, Z.shiftr_spec, Z.land_spec, !Z.lor_spec, !Z.shiftl_spec, !Z.testbit_ones_nonneg by lia.
  destruct (Z.ltb_spec i 8) as [Hi8|Hi8].
  - destruct (Z.ltb_spec (i + 8 * k) 32); [|lia]. rewrite !andb_true_r.
    assert (k = 0 \/ k = 1 \/ k = 2 \/ k = 3) as [-> |[-> |[-> | ->]]] by lia.
    + rewrite (Hlo (i + 8 * 0 - 24)), (Hlo (i + 8 * 0 - 16)), (Hlo (i + 8 * 0 - 8)) by lia. cbn. f_equal; lia.
    + rewrite (Hlo (i + 8 * 1 - 24)), (Hlo (i + 8 * 1 - 16)), (Hhi (i + 8 * 1)) by lia.
      rewrite orb_false_r. cbn. f_equal; lia.
    + rewrite (Hlo (i + 8 * 2 - 24)), (Hhi (i + 8 * 2 - 8)), (Hhi (i + 8 * 2)) by lia.
      rewrite !orb_false_r. cbn. f_equal; lia.
    + rewrite (Hhi (i + 8 * 3 - 16)), (Hhi (i + 8 * 3 - 8)), (Hhi (i + 8 * 3)) by lia.
      rewrite !orb_false_r. f_equal; lia.
  - rewrite andb_false_r. symmetry. by apply Hhi.
Qed.

Lemma memset_spec m dst c n a :
  0 <= n -> memset m dst c n a = if (dst <=? a) && (a <? dst + n) then u8 c else m a.
Proof.
  intros Hn. unfold memset. destruct (_ && _) eqn:E.
  - apply andb_prop in E as [_ E%Z.eqb_eq]. rewrite stosl_spec.
    replace (4 * Z.of_nat (Z.to_nat (n / 4))) with n.
    2:{ pose proof (Z.div_mod n 4). rewrite Z2Nat.id by (apply Z.div_pos; lia). lia. }
    destruct (_ && _); [|done].
    assert (Z.land c 255 = u8 c) as ->.
    { change 255 with (Z.ones 8). rewrite Z.land_ones by lia. done. }
    apply fill_word_byte; [apply u8_range|apply Z.mod_pos_bound; lia].
  - rewrite stosb_spec. by rewrite Z2Nat.id.
Qed.

(** ** memmove *)

Lemma copy_up_spec m d s n a :
  ~ (s < d < s + Z.of_nat n) ->
  copy_up m d s n a = if (d <=? a) && (a <? d + Z.of_nat n) then m (s + (a - d)) else m a.
Proof.
  revert m d s. induction n as [|n IH]; intros m d s Hov; cbn [copy_up].
  - destruct (Z.leb_spec d a), (Z.ltb_spec a (d + Z.of_nat 0)); cbn; (done || lia).
  - rewrite IH by lia. unfold mset.
    destruct (Z.leb_spec (d + 1) a), (Z.leb_spec d a),
      (Z.ltb_spec a (d + 1 + Z.of_nat n)), (Z.ltb_spec a (d + Z.of_nat (S n))),
      (Z.eqb_spec a d); cbn [andb]; try (done || lia).
    + destruct (Z.eqb_spec (s + 1 + (a - (d + 1))) d); [|f_equal; lia].
      f_equal. lia.
    + f_equal. lia.
Qed.

Lemma copy_down_spec m d s n a :
  s < d ->
  copy_down m d s n a = if (d - Z.of_nat n <=? a) && (a <? d) then m (s + (a - d)) else m a.
Proof.
  revert m d s. induction n as [|n IH]; intros m d s Hov; cbn [copy_down].
  - destruct (Z.leb_spec (d - Z.of_nat 0) a), (Z.ltb_spec a d); cbn; (done || lia).
  - rewrite IH by lia. unfold mset.
    destruct (Z.leb_spec (d - 1 - Z.of_nat n) a), (Z.leb_spec (d - Z.of_nat (S n)) a),
      (Z.ltb_spec a (d - 1)), (Z.ltb_spec a d),
      (Z.eqb_spec a (d - 1)); cbn [andb]; try (done || lia).
    + destruct (Z.eqb_spec (s - 1 + (a - (d - 1))) (d - 1)); [lia|f_equal; lia].
    + f_equal. lia.
Qed.

Lemma memmove_spec (m : mem) (dst src n a : Z) : 0 <= n ->
  memmove m dst src n a = (if (dst <=? a) && (a <? dst + n) then m (src + (a - dst)) else m a).
Proof.
  intros Hn. unfold memmove.
  destruct (Z.ltb_spec src dst), (Z.ltb_spec dst (src + n)); cbn [andb].
  - rewrite copy_down_spec by lia. rewrite Z2Nat.id by lia.
    replace (dst + n - n) with dst by lia. destruct (_ && _); [f_equal; lia|done].
  - rewrite copy_up_spec, Z2Nat.id by lia. done.
  - rewrite copy_up_spec, Z2Nat.id by lia. done.
  - rewrite copy_up_spec, Z2Nat.id by lia. done.
Qed.

(** [memmove] copies [n] bytes whether or not the areas overlap: each
    destination byte becomes the byte its source had before the call, and no
    other byte changes; [memset] fills its area with the low byte of its
    argument on the word path as on the byte path. *)
Theorem memmove_memset_correct (m : mem) (dst src n c : Z) (a : Z) :
  0 <= n ->
  memmove m dst src n a = (if (dst <=? a) && (a <? dst + n) then m (src + (a - dst)) else m a) /\
  memset m dst c n a = (if (dst <=? a) && (a <? dst + n) then u8 c else m a).
Proof.
  intros Hn. split; [by apply memmove_spec|by apply memset_spec].
Qed.

Lemma memmove_memset_correct_witness :
  memmove (fun a => a) 12 10 5 13 = 11 /\ memset (fun a => a) 8 300 8 9 = 44.
Proof.
  destruct (memmove_memset_correct (fun a => a) 12 10 5 300 13 ltac:(lia)) as [-> _].
  destruct (memmove_memset_correct (fun a => a) 8 10 8 300 9 ltac:(lia)) as [_ ->]. done.
Defined.

(** ** Comparison *)

Lemma memcmp_loop_0 s1 s2 i n :
  memcmp_loop s1 s2 i n = 0 <-> forall j, i <= j < i + Z.of_nat n -> s1 j = s2 j.
Proof.
  revert i. induction n as [|n IH]; intros i; cbn [memcmp_loop]; [split; [lia|done]|].
  destruct (Z.eqb_spec (s1 i) (s2 i)) as [E|E]; cbn [negb].
  - rewrite IH. split; intros H j Hj; [|apply H; lia].
    destruct (decide (j = i)) as [->|]; [done|apply H; lia].
  - split; [lia|]. intros H. destruct E. apply H. lia.
Qed.

(** The two strings agree on their first [n] characters, up to a NUL. *)
Definition same_prefix (p q : strm) (n : Z) : Prop :=
  forall j, 0 <= j < n -> (forall k, 0 <= k < j -> p k <> 0) -> p j = q j.

Lemma strncmp_loop_0 (p q : strm) i n :
  (forall j, is_byte (p j)) -> (forall j, is_byte (q j)) ->
  strncmp_loop p q i n = 0 <->
  (forall j, i <= j < i + Z.of_nat n -> (forall k, i <= k < j -> p k <> 0) -> p j = q j).
Proof.
  intros Hp Hq. revert i. induction n as [|n IH]; intros i; cbn [strncmp_loop]; [split; [lia|done]|].
  destruct (Z.eqb_spec (p i) 0) as [E0|E0]; cbn [negb andb].
  - rewrite !u8_id by (apply Hp || apply Hq). split.
    + intros H j Hj Hk. destruct (decide (j = i)) as [->|]; [lia|]. destruct (Hk i); [lia|done].
    + intros H. rewrite (H i); lia.
  - destruct (Z.eqb_spec (p i) (q i)) as [E|E].
    + rewrite IH. split; intros H j Hj Hk.
      * destruct (decide (j = i)) as [->|]; [done|]. apply H; [lia|]. intros k Hk'. apply Hk. lia.
      * apply H; [lia|]. intros k Hk'. destruct (decide (k = i)) as [->|]; [done|apply Hk; lia].
    + rewrite !u8_id by (apply Hp || apply Hq). split; [lia|]. intros H. destruct E. apply H; lia.
Qed.

Lemma strncmp_0 p q n :
  (forall j, is_byte (p j)) -> (forall j, is_byte (q j)) -> 0 <= n ->
  strncmp p q n = 0 <-> same_prefix p q n.
Proof.
  intros Hp Hq Hn. unfold strncmp. rewrite strncmp_loop_0 by done. unfold same_prefix.
  rewrite Z2Nat.id by lia. done.
Qed.

(** ** Copying *)

(** The [n] bytes [strncpy] leaves: the string up to its NUL, then zeroes. *)
Fixpoint strncpy_bytes (t : strm) (i : Z) (n : nat) : list Z :=
  match n with
  | O => []
  | S n' => t i :: (if t i =? 0 then replicate n' 0 else strncpy_bytes t (i + 1) n')
  end.

Lemma length_strncpy_bytes t i n : length (strncpy_bytes t i n) = n.
Proof.
  revert i. induction n as [|n IH]; intros i; [done|]. cbn [strncpy_bytes length]. f_equal.
  destruct (t i =? 0); [apply length_replicate|apply IH].
Qed.

Lemma zero_fill_spec m s n a :
  zero_fill m s n a = if (s <=? a) && (a <? s + Z.of_nat n) then 0 else m a.
Proof.
  revert m s. induction n as [|n IH]; intros m s; cbn [zero_fill].
  - destruct (Z.leb_spec s a), (Z.ltb_spec a (s + Z.of_nat 0)); cbn; (done || lia).
  - rewrite IH. unfold mset. destruct (Z.leb_spec (s + 1) a), (Z.leb_spec s a),
      (Z.ltb_spec a (s + 1 + Z.of_nat n)), (Z.ltb_spec a (s + Z.of_nat (S n))),
      (Z.eqb_spec a s); cbn; (done || lia).
Qed.

Lemma strncpy_bytes_ext (t t' : strm) i n :
  (forall j, i <= j < i + Z.of_nat n -> t' j = t j) -> strncpy_bytes t' i n = strncpy_bytes t i n.
Proof.
  revert i. induction n as [|n IH]; intros i H; [done|]. cbn. rewrite (H i) by lia. f_equal.
  destruct (t i =? 0); [done|]. apply IH. intros j Hj. apply H. lia.
Qed.

Lemma strncpy_loop_spec m s t n a :
  (s + Z.of_nat n <= t \/ t + Z.of_nat n <= s) ->
  strncpy_loop m s t n a =
    if (s <=? a) && (a <? s + Z.of_nat n)
    then default 0 (strncpy_bytes m t n !! Z.to_nat (a - s)) else m a.
Proof.
  revert m s t. induction n as [|n IH]; intros m s t Hd; cbn [strncpy_loop].
  - destruct (Z.leb_spec s a), (Z.ltb_spec a (s + Z.of_nat 0)); cbn; (done || lia).
  - set (m' := mset m s (m t)).
    destruct (decide (a = s)) as [->|Hne].
    + rewrite (proj2 (Z.leb_le s s)), (proj2 (Z.ltb_lt s (s + Z.of_nat (S n)))) by lia. cbn [andb].
      replace (Z.to_nat (s - s)) with 0%nat by lia. cbn.
      assert (m' s = m t) as Hs by apply mset_eq.
      destruct (Z.eqb_spec (m t) 0).
      * rewrite zero_fill_spec. destruct (Z.leb_spec (s + 1) s); cbn; [lia|done].
      * rewrite IH by lia. destruct (Z.leb_spec (s + 1) s); cbn; [lia|done].
    + assert (m' a = m a) as Ha by (by apply mset_ne).
      assert (((s <=? a) && (a <? s + Z.of_nat (S n))) = ((s + 1 <=? a) && (a <? s + 1 + Z.of_nat n))) as ->.
      { destruct (Z.leb_spec s a), (Z.ltb_spec a (s + Z.of_nat (S n))),
          (Z.leb_spec (s + 1) a), (Z.ltb_spec a (s + 1 + Z.of_nat n)); (done || lia). }
      cbn [strncpy_bytes]. destruct (Z.eqb_spec (m t) 0) as [E|E].
      * rewrite zero_fill_spec, Ha. destruct (_ && _) eqn:Hin; [|done].
        apply andb_prop in Hin as [H1%Z.leb_le H2%Z.ltb_lt].
        replace (Z.to_nat (a - s)) with (S (Z.to_nat (a - s - 1))) by lia. change ((?x :: ?l) !! S ?i) with (l !! i).
        rewrite lookup_replicate_2 by lia. done.
      * rewrite IH, Ha by lia. destruct (_ && _) eqn:Hin; [|done].
        apply andb_prop in Hin as [H1%Z.leb_le H2%Z.ltb_lt].
        replace (Z.to_nat (a - s)) with (S (Z.to_nat (a - (s + 1)))) by lia. change ((?x :: ?l) !! S ?i) with (l !! i).
        do 2 f_equal. apply strncpy_bytes_ext. intros j Hj. apply mset_ne. lia.
Qed.

(** On buffers that do not overlap, [strncpy] stores exactly the source
    string up to its NUL and pads the rest with zeroes; [memcmp] and [strncmp]
    return zero exactly on equal areas, the latter up to the first NUL. *)
Theorem string_compare_copy (m : mem) (s t n : Z) :
  0 <= n -> (s + n <= t \/ t + n <= s) -> (forall a, is_byte (m a)) ->
  (forall a, strncpy m s t n a = if (s <=? a) && (a <? s + n)
     then default 0 (strncpy_bytes m t (Z.to_nat n) !! Z.to_nat (a - s)) else m a) /\
  (memcmp m s t n = 0 <-> forall j, 0 <= j < n -> m (s + j) = m (t + j)) /\
  (strncmp (at_ptr m s) (at_ptr m t) n = 0 <-> same_prefix (at_ptr m s) (at_ptr m t) n) /\
  (strncmp (at_ptr m t) (at_ptr (strncpy m s t n) s) n = 0).
Proof.
  intros Hn Hd Hb. split_and!.
  - intros a. unfold strncpy. rewrite strncpy_loop_spec, Z2Nat.id by lia. done.
  - unfold memcmp. rewrite memcmp_loop_0, Z2Nat.id by lia. done.
  - apply strncmp_0; [intros j; apply Hb..|done].
  - assert (forall a, strncpy m s t n a = if (s <=? a) && (a <? s + n)
     then default 0 (strncpy_bytes m t (Z.to_nat n) !! Z.to_nat (a - s)) else m a) as Hc.
    { intros a. unfold strncpy. rewrite strncpy_loop_spec, Z2Nat.id by lia. done. }
    assert (forall k i j, 0 <= j < Z.of_nat k -> (forall l, 0 <= l < j -> m (i + l) <> 0) ->
      strncpy_bytes m i k !! Z.to_nat j = Some (m (i + j))) as Hl.
    { intros k. induction k as [|k IH]; intros i j Hj Hk; [lia|]. cbn [strncpy_bytes].
      destruct (decide (j = 0)) as [->|]; [by rewrite Z.add_0_r|].
      replace (Z.to_nat j) with (S (Z.to_nat (j - 1))) by lia. change ((?x :: ?l) !! S ?i) with (l !! i).
      destruct (Z.eqb_spec (m i) 0) as [E|E].
      { destruct (Hk 0); [lia|]. by rewrite Z.add_0_r. }
      rewrite IH; [do 2 f_equal; lia|lia|]. intros l Hl E'. apply (Hk (l + 1)); [lia|].
      by replace (i + (l + 1)) with (i + 1 + l) by lia. }
    apply strncmp_0; [intros j; apply Hb| |done|].
    + intros j. unfold at_ptr. rewrite Hc. destruct (_ && _); [|apply Hb].
      destruct (strncpy_bytes m t (Z.to_nat n) !! _) eqn:E; [|unfold is_byte; cbn; lia]. cbn.
      assert (Forall is_byte (strncpy_bytes m t (Z.to_nat n))) as Hf.
      { clear -Hb. revert t. induction (Z.to_nat n) as [|k IH]; intros t; [constructor|]. cbn.
        constructor; [apply Hb|]. destruct (m t =? 0); [|apply IH].
        apply Forall_replicate. unfold is_byte. lia. }
      by eapply Forall_lookup_1.
    + intros j Hj Hk. unfold at_ptr. rewrite Hc.
      rewrite (proj2 (Z.leb_le s (s + j))), (proj2 (Z.ltb_lt (s + j) (s + n))) by lia. cbn [andb].
      replace (s + j - s) with j by lia. by rewrite Hl by (lia || done).
Qed.

Lemma string_compare_copy_witness :
  strncmp (at_ptr (fun a => if a <? 3 then 65 else 0) 0)
    (at_ptr (strncpy (fun a => if a <? 3 then 65 else 0) 20 0 8) 20) 8 = 0.
Proof.
  apply (string_compare_copy (fun a => if a <? 3 then 65 else 0) 20 0 8); [lia|lia|].
  intros a. unfold is_byte. destruct (a <? 3); lia.
Defined.

(** ** safestrcpy and strlen *)

Lemma safestrcpy_loop_spec m s t n :
  (s + Z.of_nat n + 1 <= t \/ t + Z.of_nat n <= s) ->
  exists k, 0 <= k <= Z.of_nat n /\ (forall j, 0 <= j < k -> m (t + j) <> 0) /\
    (forall j, 0 <= j < k -> safestrcpy_loop m s t n (s + j) = m (t + j)) /\
    safestrcpy_loop m s t n (s + k) = 0 /\
    (k < Z.of_nat n -> m (t + k) = 0) /\
    (forall a, a < s \/ s + Z.of_nat n < a -> safestrcpy_loop m s t n a = m a).
Proof.
  revert m s t. induction n as [|n IH]; intros m s t Hd; cbn [safestrcpy_loop].
  - exists 0. rewrite Z.add_0_r, mset_eq. split_and!; try (intros; lia). 
    intros a Ha. apply mset_ne. lia.
  - destruct (Z.eqb_spec (m t) 0) as [E|E].
    + exists 0. rewrite !Z.add_0_r. split_and!; try (intros; lia).
      * rewrite mset_ne by lia. by rewrite mset_eq.
      * intros a Ha. rewrite !mset_ne by lia. done.
    + destruct (IH (mset m s (m t)) (s + 1) (t + 1)) as (k & Hk & Hnz & Hcp & H0 & Hz & Hout); [lia|].
      exists (k + 1). split_and!; [lia..| | | | |].
      * intros j Hj. destruct (decide (j = 0)) as [->|]; [by rewrite Z.add_0_r|].
        specialize (Hnz (j - 1) ltac:(lia)). rewrite mset_ne in Hnz by lia.
        by replace (t + 1 + (j - 1)) with (t + j) in Hnz by lia.
      * intros j Hj. destruct (decide (j = 0)) as [->|].
        { rewrite !Z.add_0_r, Hout by lia. apply mset_eq. }
        specialize (Hcp (j - 1) ltac:(lia)). rewrite mset_ne in Hcp by lia.
        by replace (s + 1 + (j - 1)) with (s + j) in Hcp by lia; replace (t + 1 + (j - 1)) with (t + j) in Hcp by lia.
      * by replace (s + (k + 1)) with (s + 1 + k) by lia.
      * intros Hlt. specialize (Hz ltac:(lia)). rewrite mset_ne in Hz by lia.
        by replace (t + (k + 1)) with (t + 1 + k) by lia.
      * intros a Ha. rewrite Hout by lia. apply mset_ne. lia.
Qed.

Lemma strlen_loop_spec (s : strm) i k fuel :
  0 <= k -> (Z.to_nat k < fuel)%nat -> s (i + k) = 0 -> (forall j, 0 <= j < k -> s (i + j) <> 0) ->
  strlen_loop s i fuel = Some (i + k).
Proof.
  revert i k. induction fuel as [|f IH]; intros i k Hk Hf H0 Hnz; [lia|]. cbn [strlen_loop].
  destruct (decide (k = 0)) as [->|].
  - rewrite Z.add_0_r in *. by rewrite H0.
  - destruct (Z.eqb_spec (s i) 0) as [E|E].
    { destruct (Hnz 0); [lia|]. by rewrite Z.add_0_r. }
    rewrite (IH (i + 1) (k - 1)); [f_equal; lia|lia|lia| |].
    + by replace (i + 1 + (k - 1)) with (i + k) by lia.
    + intros j Hj. replace (i + 1 + j) with (i + (j + 1)) by lia. apply Hnz. lia.
Qed.

(** [safestrcpy] of [n > 0] bytes always leaves a NUL-terminated string
    that is a prefix of the source, as long as fits, and writes nothing
    outside its [n] bytes; [strlen] then terminates on the copy and returns
    the length of that prefix. *)
Theorem safestrcpy_terminated (m : mem) (s t n : Z) :
  0 < n -> (s + n <= t \/ t + n <= s) ->
  exists k, 0 <= k < n /\ strlen (Z.to_nat n) (safestrcpy m s t n) s = Some k /\
    (forall j, 0 <= j < k -> safestrcpy m s t n (s + j) = m (t + j)) /\
    (k < n - 1 -> m (t + k) = 0) /\
    (forall a, a < s \/ s + n <= a -> safestrcpy m s t n a = m a).
Proof.
  intros Hn Hd. unfold safestrcpy. destruct (Z.leb_spec n 0); [lia|].
  destruct (safestrcpy_loop_spec m s t (Z.to_nat (n - 1))) as (k & Hk & Hnz & Hcp & H0 & Hz & Hout); [lia|].
  exists k. split_and!; [lia..| |done| |].
  - unfold strlen. rewrite (strlen_loop_spec _ 0 k); [done|lia|lia|done|].
    intros j Hj. unfold at_ptr. rewrite Z.add_0_l, Hcp by done. by apply Hnz.
  - intros Hlt. apply Hz. lia.
  - intros a Ha. apply Hout. lia.
Qed.

Lemma safestrcpy_terminated_witness :
  exists k, 0 <= k < 4 /\ strlen 4 (safestrcpy (fun _ => 65) 0 10 4) 0 = Some k /\
    (forall j, 0 <= j < k -> safestrcpy (fun _ => 65) 0 10 4 (0 + j) = 65) /\
    (k < 4 - 1 -> 65 = 0) /\
    (forall a, a < 0 \/ 0 + 4 <= a -> safestrcpy (fun _ => 65) 0 10 4 a = 65).
Proof. apply (safestrcpy_terminated (fun _ => 65) 0 10 4); lia. Defined.
