(* ===== verification/Kbd.v ===== *)
(** * The keyboard driver

    Models [kbd.c] and the key tables of [kbd.h]: [kbdgetc] as a function of
    the controller's status and data bytes and of its static [shift] state. *)

From S2P Require Import Prelude.

Definition KBS_DIB : Z := 1.
Definition SHIFT : Z := 1.
Definition CTL : Z := 2.
Definition ALT : Z := 4.
Definition CAPSLOCK : Z := 8.
Definition NUMLOCK : Z := 16.
Definition SCROLLLOCK : Z := 32.
Definition E0ESC : Z := 64.

(** A 256-entry table given by its first entries and designated ones. *)
Definition table (first : list Z) (set : list (nat * Z)) : list Z :=
  foldl (fun t p => <[p.1 := p.2]> t) (first ++ replicate (256 - length first) 0) set.

Definition shiftcode : list Z :=
  table [] [(29%nat, CTL); (42%nat, SHIFT); (54%nat, SHIFT); (56%nat, ALT); (157%nat, CTL); (184%nat, ALT)].
Definition togglecode : list Z :=
  table [] [(58%nat, CAPSLOCK); (69%nat, NUMLOCK); (70%nat, SCROLLLOCK)].

Definition normalmap : list Z := table
  [0; 27; 49; 50; 51; 52; 53; 54; 55; 56; 57; 48; 45; 61; 8; 9;
   113; 119; 101; 114; 116; 121; 117; 105; 111; 112; 91; 93; 10; 0; 97; 115;
   100; 102; 103; 104; 106; 107; 108; 59; 39; 96; 0; 92; 122; 120; 99; 118;
   98; 110; 109; 44; 46; 47; 0; 42; 0; 32; 0; 0; 0; 0; 0; 0;
   0; 0; 0; 0; 0; 0; 0; 55; 56; 57; 45; 52; 53; 54; 43; 49;
   50; 51; 48; 46; 0; 0; 0; 0]
  [(156%nat, 10); (181%nat, 47); (200%nat, 226); (208%nat, 227);
   (201%nat, 230); (209%nat, 231); (203%nat, 228); (205%nat, 229); (151%nat, 224); (207%nat, 225); (210%nat, 232); (211%nat, 233)].

Definition shiftmap : list Z := table
  [0; 27; 33; 64; 35; 36; 37; 94; 38; 42; 40; 41; 95; 43; 8; 9;
   81; 87; 69; 82; 84; 89; 85; 73; 79; 80; 123; 125; 10; 0; 65; 83;
   68; 70; 71; 72; 74; 75; 76; 58; 34; 126; 0; 124; 90; 88; 67; 86;
   66; 78; 77; 60; 62; 63; 0; 42; 0; 32; 0; 0; 0; 0; 0; 0;
   0; 0; 0; 0; 0; 0; 0; 55; 56; 57; 45; 52; 53; 54; 43; 49;
   50; 51; 48; 46; 0; 0; 0; 0]
  [(156%nat, 10); (181%nat, 47); (200%nat, 226); (208%nat, 227);
   (201%nat, 230); (209%nat, 231); (203%nat, 228); (205%nat, 229); (151%nat, 224); (207%nat, 225); (210%nat, 232); (211%nat, 233)].

Definition ctlmap : list Z := table
  [0; 0; 0; 0; 0; 0; 0; 0; 0; 0; 0; 0; 0; 0; 0; 0;
   17; 23; 5; 18; 20; 25; 21; 9; 15; 16; 0; 0; 13; 0; 1; 19;
   4; 6; 7; 8; 10; 11; 12; 0; 0; 0; 0; 28; 26; 24; 3; 22;
   2; 14; 13; 0; 0; 239; 0; 0]
  [(156%nat, 13); (181%nat, 239); (200%nat, 226); (208%nat, 227);
   (201%nat, 230); (209%nat, 231); (203%nat, 228); (205%nat, 229); (151%nat, 224); (207%nat, 225); (210%nat, 232); (211%nat, 233)].

Definition charcode : list (list Z) := [normalmap; shiftmap; ctlmap; ctlmap].

Definition tab (t : list Z) (i : Z) : Z := default 0 (t !! Z.to_nat i).

(** [kbdgetc] with the bytes [st] and [data] at the status and data ports:
    the character and the new shift state.  All values fit in a byte, so the
    complement is taken on 32 bits. *)
Definition kbdgetc (st data : Z) (shift : Z) : Z * Z :=
  if Z.land st KBS_DIB =? 0 then (-1, shift) else
  if data =? 224 then (0, Z.lor shift E0ESC) else
  if negb (Z.land data 128 =? 0) then
    let data := if negb (Z.land shift E0ESC =? 0) then data else Z.land data 127 in
    (0, Z.land shift (u32 (Z.lnot (Z.lor (tab shiftcode data) E0ESC))))
  else
    let '(data, shift) := if negb (Z.land shift E0ESC =? 0)
      then (Z.lor data 128, Z.land shift (u32 (Z.lnot E0ESC))) else (data, shift) in
    let shift := Z.lor shift (tab shiftcode data) in
    let shift := Z.lxor shift (tab togglecode data) in
    let c := tab (default [] (charcode !! Z.to_nat (Z.land shift (Z.lor CTL SHIFT)))) data in
    let c := if negb (Z.land shift CAPSLOCK =? 0) then
               if (97 <=? c) && (c <=? 122) then u32 (c + (65 - 97)) else
               if (65 <=? c) && (c <=? 90) then u32 (c + (97 - 65)) else c
             else c in
    (c, shift).

(** A sequence of scan codes, each ready when [kbdgetc] polls. *)
Fixpoint kbd_run (codes : list Z) (shift : Z) : list Z * Z :=
  match codes with
  | [] => ([], shift)
  | d :: codes' => let '(c, shift) := kbdgetc KBS_DIB d shift in
                   let '(cs, shift) := kbd_run codes' shift in (c :: cs, shift)
  end.

(** ** Checking all keys and states *)

Definition upto (n : nat) : list Z := Z.of_nat <$> seq 0 n.

Lemma forallb_upto n f x : forallb f (upto n) = true -> 0 <= x < Z.of_nat n -> f x = true.
Proof.
  intros Hf Hx. rewrite forallb_forall in Hf. apply Hf, list_elem_of_In, list_elem_of_fmap.
  exists (Z.to_nat x). split; [lia|]. apply elem_of_seq. lia.
Qed.

Definition is_lower (c : Z) : bool := (97 <=? c) && (c <=? 122).
Definition held_key (shift d : Z) : bool := negb (Z.land shift (tab shiftcode d) =? 0).

(** The checks, for one shift state and one scan code. *)
Definition release_ok (shift d : Z) : bool :=
  (d =? 96) || held_key shift d || negb (tab togglecode d =? 0) ||
  (snd (kbd_run [d; d + 128] shift) =? shift).
Definition toggle_ok (shift d : Z) : bool :=
  held_key shift d || (d =? 96) || (snd (kbd_run [d; d + 128; d; d + 128] shift) =? shift).
Definition letter_ok (shift d : Z) : bool :=
  negb (is_lower (tab normalmap d)) || negb (Z.land shift CTL =? 0) ||
  (fst (kbdgetc KBS_DIB d shift) =?
     if xorb (negb (Z.land shift SHIFT =? 0)) (negb (Z.land shift CAPSLOCK =? 0))
     then tab normalmap d - 32 else tab normalmap d).

Lemma kbd_checks :
  forallb (fun sh => forallb (fun d => release_ok sh d && toggle_ok sh d && letter_ok sh d) (upto 128)) (upto 64) = true.
Proof. vm_compute. reflexivity. Qed.

Lemma kbd_check shift d :
  0 <= shift < 64 -> 0 <= d < 128 ->
  release_ok shift d = true /\ toggle_ok shift d = true /\ letter_ok shift d = true.
Proof.
  intros Hs Hd. pose proof (forallb_upto 64 _ shift kbd_checks ltac:(lia)) as H. cbn beta in H.
  pose proof (forallb_upto 128 _ d H ltac:(lia)) as H'. cbn beta in H'.
  apply andb_prop in H' as [[H1 H2]%andb_prop H3]. done.
Qed.

(** The modifier state of the keyboard driver: outside an E0 escape,
    pressing and releasing a key other than a lock key leaves the state as it
    was (unless the key's modifier was already held), pressing any key twice
    restores every lock, and a letter key without Ctrl gives the upper-case
    letter exactly when one of Shift and Caps Lock is on, not both. *)
Theorem kbd_modifiers (shift d : Z) :
  0 <= shift < 64 -> 0 <= d < 128 -> d <> 96 ->
  (held_key shift d = false -> tab togglecode d = 0 -> snd (kbd_run [d; d + 128] shift) = shift) /\
  (held_key shift d = false -> snd (kbd_run [d; d + 128; d; d + 128] shift) = shift) /\
  (is_lower (tab normalmap d) = true -> Z.land shift CTL = 0 ->
   fst (kbdgetc KBS_DIB d shift) =
     if xorb (negb (Z.land shift SHIFT =? 0)) (negb (Z.land shift CAPSLOCK =? 0))
     then tab normalmap d - 32 else tab normalmap d).
Proof.
  intros Hs Hd Hne. destruct (kbd_check shift d Hs Hd) as (H1 & H2 & H3).
  unfold release_ok, toggle_ok, letter_ok in *. rewrite (proj2 (Z.eqb_neq _ _) Hne) in *. split_and!.
  - intros Hh Ht. rewrite Hh, Ht in H1. cbn [orb negb Z.eqb] in H1. by apply Z.eqb_eq in H1.
  - intros Hh. rewrite Hh in H2. cbn [orb] in H2. by apply Z.eqb_eq in H2.
  - intros Hl Hc. rewrite Hl, Hc in H3. cbn [orb negb Z.eqb] in H3. by apply Z.eqb_eq in H3.
Qed.

Lemma kbd_modifiers_witness :
  snd (kbd_run [30; 158] 8) = 8 /\ fst (kbdgetc KBS_DIB 30 8) = 65 /\ fst (kbdgetc KBS_DIB 30 9) = 97.
Proof.
  split_and!.
  - apply (kbd_modifiers 8 30); (lia || done).
  - apply (kbd_modifiers 8 30); (lia || done).
  - apply (kbd_modifiers 9 30); (lia || done).
Defined.
