(* ===== verification/Cons.v ===== *)
(** * Console: screen, formatted output, line editing

    Models [console.c] except [consoleread] and [consolewrite], which lock
    inodes and are in [Kern.v], and [uartputc] of [uart.c].  Output goes
    to the CGA text buffer and to the serial port, whose bytes are recorded. *)

From S2P Require Import Prelude Bytes Core.

Definition INPUT_BUF : Z := 128.
Definition BACKSPACE : Z := 256.

Record consst := mkCons {
  cs_locking : Z;
  cs_panicked : Z;
  crt : list Z;       (* 25 rows of 80 cells *)
  crt_pos : Z;        (* the cursor location registers *)
  uart : Z;           (* is there a serial port? *)
  uart_out : list Z;  (* bytes sent to it *)
  in_buf : list Z;
  in_r : Z; in_w : Z; in_e : Z }.

Definition set_crt v s := mkCons (cs_locking s) (cs_panicked s) v (crt_pos s) (uart s) (uart_out s) (in_buf s) (in_r s) (in_w s) (in_e s).
Definition set_crt_pos v s := mkCons (cs_locking s) (cs_panicked s) (crt s) v (uart s) (uart_out s) (in_buf s) (in_r s) (in_w s) (in_e s).
Definition set_uart_out v s := mkCons (cs_locking s) (cs_panicked s) (crt s) (crt_pos s) (uart s) v (in_buf s) (in_r s) (in_w s) (in_e s).
Definition set_in_buf v s := mkCons (cs_locking s) (cs_panicked s) (crt s) (crt_pos s) (uart s) (uart_out s) v (in_r s) (in_w s) (in_e s).
Definition set_in_r v s := mkCons (cs_locking s) (cs_panicked s) (crt s) (crt_pos s) (uart s) (uart_out s) (in_buf s) v (in_w s) (in_e s).
Definition set_in_w v s := mkCons (cs_locking s) (cs_panicked s) (crt s) (crt_pos s) (uart s) (uart_out s) (in_buf s) (in_r s) v (in_e s).
Definition set_in_e v s := mkCons (cs_locking s) (cs_panicked s) (crt s) (crt_pos s) (uart s) (uart_out s) (in_buf s) (in_r s) (in_w s) v.

(** ** Output *)

(** [crt[i] = v] *)
Definition put_crt (i v : Z) : M consst unit :=
  s ← get;
  if (0 <=? i) && (i <? Z.of_nat (length (crt s)))
  then modify (fun s => set_crt (<[Z.to_nat i := v]> (crt s)) s) else fault.

(** Move 23 rows up by one. *)
Definition scroll_rows (t : list Z) : list Z := take (23 * 80) (drop 80 t) ++ drop (23 * 80) t.
(** Clear from [pos] to the end of row 24. *)
Definition clear_from (pos : Z) (t : list Z) : list Z :=
  take (Z.to_nat pos) t ++ replicate (Z.to_nat (24 * 80 - pos)) 0 ++ drop (24 * 80) t.

Definition cgaputc (c : Z) : M consst unit :=
  s ← get;
  pos ← (let pos := crt_pos s in
         if c =? 10 then mret (pos + (80 - pos mod 80)) else
         if c =? BACKSPACE then mret (if 0 <? pos then pos - 1 else pos) else
         put_crt pos (Z.lor (Z.land c 255) 1792) ;; mret (pos + 1));
  if (pos <? 0) || (25 * 80 <? pos) then panic "pos under/overflow" else
  pos ← (if 24 <=? pos / 80 then
           modify (fun s => set_crt (clear_from (pos - 80) (scroll_rows (crt s))) s) ;; mret (pos - 80)
         else mret pos);
  modify (set_crt_pos (Z.lor (Z.shiftl (u8 (Z.shiftr pos 8)) 8) (u8 pos))) ;;
  put_crt pos (Z.lor 32 1792).

Definition uartputc (c : Z) : M consst unit :=
  modify (fun s => if uart s =? 0 then s else set_uart_out (uart_out s ++ [u8 c]) s).

(** With [panicked] set the CPU spins here for ever. *)
Definition consputc (c : Z) : M consst unit :=
  s ← get;
  if negb (cs_panicked s =? 0) then spin else
  (if c =? BACKSPACE then uartputc 8 ;; uartputc 32 ;; uartputc 8 else uartputc c) ;;
  cgaputc c.

Fixpoint consputs (l : list Z) : M consst unit :=
  match l with [] => skip | c :: l' => consputc c ;; consputs l' end.

(** ** printint and cprintf *)

Definition digit (d : Z) : Z := if d <? 10 then 48 + d else 97 + (d - 10).

(** The digits of [x], least significant first, as [buf] holds them. *)
Fixpoint digits_loop (fuel : nat) (x base : Z) : list Z :=
  match fuel with
  | O => []
  | S f => digit (x mod base) :: (if x / base =? 0 then [] else digits_loop f (x / base) base)
  end.

(** The characters [printint] outputs, for a base of at least 10. *)
Definition printint_chars (xx base sign : Z) : list Z :=
  let neg := negb (sign =? 0) && (xx <? 0) in
  let x := if neg then u32 (- xx) else u32 xx in
  let buf := digits_loop 10 x base in
  reverse (if neg then buf ++ [45] else buf).
Definition printint (xx base sign : Z) : M consst unit := consputs (printint_chars xx base sign).

(** Arguments of [cprintf]: a word or a string pointer, [None] for null. *)
Inductive arg := AInt (v : Z) | AStr (s : option (list Z)).

Fixpoint cprintf_loop (fmt : list Z) (args : list arg) {struct fmt} : M consst unit :=
  match fmt with
  | [] => skip
  | c :: fmt' =>
    if negb (c =? 37) then consputc c ;; cprintf_loop fmt' args else
    match fmt' with
    | [] => skip
    | c :: fmt'' =>
      if c =? 100 then
        match args with AInt v :: args' => printint (s32 v) 10 1 ;; cprintf_loop fmt'' args' | _ => fault end
      else if (c =? 120) || (c =? 112) then
        match args with AInt v :: args' => printint (s32 v) 16 0 ;; cprintf_loop fmt'' args' | _ => fault end
      else if c =? 115 then
        match args with
        | AStr o :: args' => consputs (default [40; 110; 117; 108; 108; 41] o) ;; cprintf_loop fmt'' args'
        | _ => fault end
      else if c =? 37 then consputc 37 ;; cprintf_loop fmt'' args
      else consputc 37 ;; consputc c ;; cprintf_loop fmt'' args
    end
  end.

(** ** Line editing: one key of [consoleintr] *)

Definition buf_at (s : consst) (i : Z) : Z := default 0 (in_buf s !! Z.to_nat (i mod INPUT_BUF)).

(** Kill line: back up to the previous newline or the committed part. *)
Definition kill_line : M consst unit :=
  loop (S (Z.to_nat INPUT_BUF)) (fun _ : unit =>
    s ← get;
    if negb (in_e s =? in_w s) && negb (buf_at s (u32 (in_e s - 1)) =? 10)
    then modify (set_in_e (u32 (in_e s - 1))) ;; consputc BACKSPACE ;; mret (inl tt)
    else mret (inr tt)) tt.

(** The [switch] of [consoleintr]; returns whether to wake the readers. *)
Definition cons_key (c : Z) : M consst bool :=
  if c =? 16 then mret false else   (* C('P'): process listing, after the loop *)
  if c =? 21 then kill_line ;; mret false else
  if (c =? 8) || (c =? 127) then
    s ← get;
    (if negb (in_e s =? in_w s)
     then modify (set_in_e (u32 (in_e s - 1))) ;; consputc BACKSPACE else skip) ;;
    mret false
  else
    s ← get;
    if negb (c =? 0) && (u32 (in_e s - in_r s) <? INPUT_BUF) then
      let c := if c =? 13 then 10 else c in
      modify (fun s => set_in_e (u32 (in_e s + 1))
        (set_in_buf (<[Z.to_nat (in_e s mod INPUT_BUF) := u8 c]> (in_buf s)) s)) ;;
      consputc c ;;
      s ← get;
      if (c =? 10) || (c =? 4) || (in_e s =? u32 (in_r s + INPUT_BUF))
      then modify (set_in_w (in_e s)) ;; mret true
      else mret false
    else mret false.

(** ** The routines with their locks, on a state with the core and a console *)

Section locked.
Context {St : Type} `{Lc : Lens St kcore} `{Ls : Lens St consst}.

Definition cprintf (fmt : option (list Z)) (args : list arg) : M St unit :=
  s ← gets lget;
  let locking := negb (cs_locking s =? 0) in
  (if locking then lift (H := Lc) (acquire LkCons) else skip) ;;
  match fmt with None => panic "null fmt" | Some fmt =>
  lift (H := Ls) (cprintf_loop fmt args) ;;
  (if locking then lift (H := Lc) (release LkCons) else skip)
  end.

(** [chars]: what [getc] returns until it has no more. *)
Fixpoint consoleintr_loop (chars : list Z) : M St unit :=
  match chars with
  | [] => skip
  | c :: chars' => if c <? 0 then skip else
      w ← lift (H := Ls) (cons_key c);
      (if (w : bool) then lift (H := Lc) (wakeup ChInput) else skip) ;;
      consoleintr_loop chars'
  end.
(** Was ^P among the characters [consoleintr] took? *)
Fixpoint doprocdump (chars : list Z) : bool :=
  match chars with
  | [] => false
  | c :: chars' => if c <? 0 then false else (c =? 16) || doprocdump chars'
  end.
(** The process listing is printed by [procdump] of [proc.c]. *)
Definition consoleintr (procdump : M St unit) (chars : list Z) : M St unit :=
  lift (H := Lc) (acquire LkCons) ;;
  consoleintr_loop chars ;;
  lift (H := Lc) (release LkCons) ;;
  if doprocdump chars then procdump else skip.
End locked.

(** ** The screen *)

Definition screen_ok (s : consst) : Prop :=
  length (crt s) = Z.to_nat (25 * 80) /\ 0 <= crt_pos s < 24 * 80 /\ cs_panicked s = 0.

(** The input half of the state, which output leaves alone. *)
Definition same_input (s s' : consst) : Prop :=
  in_buf s' = in_buf s /\ in_r s' = in_r s /\ in_w s' = in_w s /\ in_e s' = in_e s /\
  cs_locking s' = cs_locking s.

#[export] Instance same_input_preorder : PreOrder same_input.
Proof. split; [by intros s|]. intros s1 s2 s3 (?&?&?&?&?) (?&?&?&?&?). repeat split; congruence. Qed.

Lemma cursor_registers pos :
  0 <= pos < 65536 -> Z.lor (Z.shiftl (u8 (Z.shiftr pos 8)) 8) (u8 pos) = pos.
Proof.
  intros Hp. rewrite lor_shiftl by (lia || apply u8_range). rewrite Z.shiftr_div_pow2 by lia.
  change (2 ^ 8) with 256. rewrite u8_id by (split; [apply Z.div_pos|apply Z.div_lt_upper_bound]; lia).
  unfold u8. pose proof (Z.div_mod pos 256). lia.
Qed.

Lemma wp_put_crt i v Q s :
  0 <= i < Z.of_nat (length (crt s)) -> Q tt (set_crt (<[Z.to_nat i := v]> (crt s)) s) -> wp (put_crt i v) Q s.
Proof.
  intros Hi HQ. unfold put_crt. wp_simpl.
  rewrite (proj2 (Z.leb_le _ _)), (proj2 (Z.ltb_lt _ _)) by lia. cbn [andb]. by wp_simpl.
Qed.

(** Placing the cursor, the end of [cgaputc]. *)
Lemma wp_cga_tail pos s0 s (Q : unit -> consst -> Prop) :
  screen_ok s0 -> same_input s0 s -> length (crt s) = length (crt s0) -> cs_panicked s = 0 ->
  0 <= pos <= 24 * 80 ->
  (forall s', screen_ok s' -> same_input s0 s' -> Q tt s') ->
  wp (if (pos <? 0) || (25 * 80 <? pos) then panic "pos under/overflow" else
  pos ← (if 24 <=? pos / 80 then
           modify (fun s => set_crt (clear_from (pos - 80) (scroll_rows (crt s))) s) ;; mret (pos - 80)
         else mret pos);
  modify (set_crt_pos (Z.lor (Z.shiftl (u8 (Z.shiftr pos 8)) 8) (u8 pos))) ;;
  put_crt pos (Z.lor 32 1792)) Q s.
Proof.
  intros (H1 & H2 & H3) Hs Hl Hp Hpos HQ.
  destruct (Z.ltb_spec pos 0), (Z.ltb_spec (25 * 80) pos); cbn [orb]; try lia.
  assert (forall p s1, 0 <= p < 24 * 80 -> same_input s0 s1 -> length (crt s1) = Z.to_nat (25 * 80) ->
    cs_panicked s1 = 0 -> wp (modify (set_crt_pos (Z.lor (Z.shiftl (u8 (Z.shiftr p 8)) 8) (u8 p))) ;;
      put_crt p (Z.lor 32 1792)) Q s1) as Htail.
  { intros p s1 Hp1 Hs1 Hl1 Hk1. wp_simpl. apply wp_put_crt; [cbn [crt set_crt_pos]; lia|]. apply HQ; [|done].
    split; [cbn [crt set_crt]; by rewrite length_insert|]. split; [|done].
    cbn [crt_pos set_crt set_crt_pos]. rewrite cursor_registers; lia. }
  rewrite wp_bind. destruct (Z.leb_spec 24 (pos / 80)) as [Hge|Hlt].
  - wp_simpl. assert (24 * 80 <= pos) by (pose proof (Z.mul_div_le pos 80); lia).
    revert Htail. wp_simpl. intros Htail. apply Htail; [lia|done| |done].
    assert (pos = 24 * 80) as -> by lia. cbn [crt set_crt].
    unfold clear_from, scroll_rows. rewrite !length_app, length_replicate, length_take, !length_drop, !length_app,
      length_take, !length_drop. lia.
  - wp_simpl. revert Htail. wp_simpl. intros Htail. apply Htail; [|done|congruence|done].
    assert (pos < 24 * 80); [|lia]. pose proof (Z.div_mod pos 80). pose proof (Z.mod_pos_bound pos 80). lia.
Qed.

Lemma wp_cgaputc c s (Q : unit -> consst -> Prop) :
  screen_ok s -> (forall s', screen_ok s' -> same_input s s' -> Q tt s') -> wp (cgaputc c) Q s.
Proof.
  intros Hok HQ. pose proof Hok as (H1 & H2 & H3). unfold cgaputc. rewrite wp_bind, wp_get. cbv zeta.
  rewrite wp_bind. destruct (c =? 10).
  - rewrite wp_ret. apply (wp_cga_tail _ s); [done..| |done].
    pose proof (Z.mod_pos_bound (crt_pos s) 80). pose proof (Z.div_mod (crt_pos s) 80). lia.
  - destruct (c =? BACKSPACE).
    + rewrite wp_ret. apply (wp_cga_tail _ s); [done..| |done]. destruct (Z.ltb_spec 0 (crt_pos s)); lia.
    + rewrite wp_bind. apply wp_put_crt; [lia|]. rewrite wp_ret.
      apply (wp_cga_tail _ s); [done|done|cbn; apply length_insert|done|lia|done].
Qed.

Lemma wp_uartputc c s (Q : unit -> consst -> Prop) :
  screen_ok s -> (forall s', screen_ok s' -> same_input s s' -> Q tt s') -> wp (uartputc c) Q s.
Proof. intros Hok HQ. unfold uartputc. wp_simpl. destruct (uart s =? 0); by apply HQ. Qed.

Lemma wp_consputc c s (Q : unit -> consst -> Prop) :
  screen_ok s -> (forall s', screen_ok s' -> same_input s s' -> Q tt s') -> wp (consputc c) Q s.
Proof.
  intros Hok HQ. unfold consputc. wp_simpl. destruct Hok as (H1 & H2 & H3). rewrite H3. cbn [Z.eqb negb].
  rewrite wp_bind.
  assert (forall s1, screen_ok s1 -> same_input s s1 -> wp (cgaputc c) Q s1) as Hk.
  { intros s1 O1 S1. apply wp_cgaputc; [done|]. intros s2 O2 S2. apply HQ; [done|by etrans]. }
  destruct (c =? BACKSPACE).
  - wp_simpl. apply wp_uartputc; [done|]. intros s1 O1 S1. wp_simpl.
    apply wp_uartputc; [done|]. intros s2 O2 S2. wp_simpl.
    apply wp_uartputc; [done|]. intros s3 O3 S3. apply Hk; [done|]. etrans; [done|]. by etrans.
  - apply wp_uartputc; [done|]. intros s1 O1 S1. by apply Hk.
Qed.

Lemma wp_consputs l s (Q : unit -> consst -> Prop) :
  screen_ok s -> (forall s', screen_ok s' -> same_input s s' -> Q tt s') -> wp (consputs l) Q s.
Proof.
  revert s. induction l as [|c l IH]; intros s Hok HQ; cbn [consputs]; [wp_simpl; by apply HQ|].
  wp_simpl. apply wp_consputc; [done|]. intros s1 O1 S1. apply IH; [done|].
  intros s2 O2 S2. apply HQ; [done|by etrans].
Qed.

(** ** The abstract line discipline

    [avail] is what readers may take, [line] the line being edited. *)

Definition commits (avail line : list Z) (c : Z) : bool :=
  (c =? 10) || (c =? 4) || (Z.of_nat (length avail + length line) =? INPUT_BUF).

Definition edit (c : Z) (avail line : list Z) : list Z * list Z * bool :=
  if c =? 16 then (avail, line, false) else
  if c =? 21 then (avail, [], false) else
  if (c =? 8) || (c =? 127) then (avail, take (length line - 1) line, false) else
  if negb (c =? 0) && (Z.of_nat (length avail + length line) <? INPUT_BUF) then
    let c := if c =? 13 then 10 else c in
    if commits avail (line ++ [c]) c then (avail ++ line ++ [c], [], true)
    else (avail, line ++ [c], false)
  else (avail, line, false).

(** The ring buffer holds [avail ++ line] from its read index, and no newline
    waits uncommitted. *)
Record ring (s : consst) (avail line : list Z) : Prop := {
  ca_screen : screen_ok s;
  ca_buf : length (in_buf s) = Z.to_nat INPUT_BUF;
  ca_r : 0 <= in_r s < 4294967296;
  ca_w : in_w s = u32 (in_r s + Z.of_nat (length avail));
  ca_e : in_e s = u32 (in_r s + Z.of_nat (length avail + length line));
  ca_cap : Z.of_nat (length avail + length line) <= INPUT_BUF;
  ca_data : forall i x, (avail ++ line) !! i = Some x ->
    in_buf s !! Z.to_nat ((in_r s + Z.of_nat i) mod INPUT_BUF) = Some x }.
Definition cabs (s : consst) (avail line : list Z) : Prop := ring s avail line /\ 10 ∉ line.

Lemma u32_mod_buf x : u32 x mod INPUT_BUF = x mod INPUT_BUF.
Proof. apply (u32_mod x 7). lia. Qed.

Lemma ring_same s s' a l : ring s a l -> screen_ok s' -> same_input s s' -> ring s' a l.
Proof.
  intros [H1 H2 H3 H4 H5 H6 H7] Ho (E1 & E2 & E3 & E4 & _).
  split; rewrite ?E1, ?E2, ?E3, ?E4; done.
Qed.

Lemma u32_diff x y : 0 <= y < 4294967296 -> u32 (u32 (x + y) - x) = y.
Proof. intros Hy. rewrite u32_sub_l. replace (x + y - x) with y by lia. by apply u32_id. Qed.

Lemma u32_inj x y k : 0 <= y - x < 4294967296 -> 0 <= k < 4294967296 ->
  u32 y = u32 (x + k) -> y - x = k.
Proof.
  intros H1 H2 E. assert (u32 (u32 y - x) = y - x) as E1.
  { rewrite u32_sub_l. by apply u32_id. }
  rewrite E, u32_diff in E1 by done. lia.
Qed.

(** The line is empty exactly when the edit and write indices meet. *)
Lemma ring_empty s a l : ring s a l -> (in_e s =? in_w s) = bool_decide (l = []).
Proof.
  intros [H1 H2 H3 H4 H5 H6 H7]. unfold INPUT_BUF in *. rewrite H4, H5. case_bool_decide as E.
  - subst l. rewrite Nat.add_0_r. apply Z.eqb_refl.
  - apply Z.eqb_neq. intros Eq. apply u32_inj in Eq; [|lia..].
    destruct l; [done|]. cbn [length] in *. lia.
Qed.

Lemma ring_removelast s a l x :
  ring s a (l ++ [x]) -> ring (set_in_e (u32 (in_e s - 1)) s) a l /\
  buf_at s (u32 (in_e s - 1)) = x.
Proof.
  intros [H1 H2 H3 H4 H5 H6 H7]. rewrite length_app in *. cbn [length] in *. split.
  - split; cbn; try done.
    + rewrite H5, u32_sub_l. f_equal. lia.
    + lia.
    + intros i y Hi. apply H7. rewrite (assoc_L (++)). by apply lookup_app_l_Some.
  - unfold buf_at. rewrite u32_mod_buf, H5, Zminus_mod, u32_mod_buf, <- Zminus_mod.
    replace (in_r s + Z.of_nat (length a + (length l + 1)) - 1)
      with (in_r s + Z.of_nat (length (a ++ l))) by (rewrite length_app; lia).
    rewrite (H7 (length (a ++ l)) x); [done|].
    rewrite (assoc_L (++)), lookup_app_r, Nat.sub_diag by done. done.
Qed.

Lemma wp_kill_loop fuel s a l (Q : unit -> consst -> Prop) :
  cabs s a l -> (length l < fuel)%nat -> (forall s', cabs s' a [] -> Q tt s') ->
  wp (loop fuel (fun _ : unit =>
    s ← get;
    if negb (in_e s =? in_w s) && negb (buf_at s (u32 (in_e s - 1)) =? 10)
    then modify (set_in_e (u32 (in_e s - 1))) ;; consputc BACKSPACE ;; mret (inl tt)
    else mret (inr tt)) tt) Q s.
Proof.
  intros Hc Hf HQ. revert s l Hc Hf. induction fuel as [|f IH]; intros s l Hc Hf; [lia|].
  cbn [loop]. wp_simpl. destruct Hc as [Hc Hnl]. rewrite (ring_empty _ _ _ Hc).
  destruct l as [|x l _] using rev_ind.
  { rewrite bool_decide_true by done. cbn [negb andb]. wp_simpl. by apply HQ. }
  rewrite bool_decide_false by (by destruct l). destruct (ring_removelast _ _ _ _ Hc) as [Hc' ->].
  assert (x <> 10) as Hx by set_solver.
  rewrite (proj2 (Z.eqb_neq _ _) Hx). cbn [negb andb]. wp_simpl.
  apply wp_consputc; [apply Hc'|]. intros s1 O1 S1. wp_simpl.
  rewrite length_app in Hf. cbn in Hf. apply (IH _ l); [|lia]. split; [by eapply ring_same|set_solver].
Qed.

Lemma wp_kill_line s a l (Q : unit -> consst -> Prop) :
  cabs s a l -> (forall s', cabs s' a [] -> Q tt s') -> wp kill_line Q s.
Proof.
  intros Hc HQ. apply (wp_kill_loop _ s a l); [done| |done].
  pose proof (ca_cap _ _ _ (proj1 Hc)). unfold INPUT_BUF in *. lia.
Qed.

(** Appending a character at the edit index. *)
Lemma ring_append s a l c :
  ring s a l -> Z.of_nat (length a + length l) < INPUT_BUF ->
  ring (set_in_e (u32 (in_e s + 1)) (set_in_buf (<[Z.to_nat (in_e s mod INPUT_BUF) := c]> (in_buf s)) s))
    a (l ++ [c]).
Proof.
  intros [H1 H2 H3 H4 H5 H6 H7] Hlt. unfold INPUT_BUF in *.
  split; cbn; rewrite ?length_app; cbn [length]; try done; unfold INPUT_BUF.
  - by rewrite length_insert.
  - rewrite H5, u32_add_l. f_equal. lia.
  - lia.
  - intros i x Hi. rewrite H5. change 128 with INPUT_BUF. rewrite u32_mod_buf.
    rewrite (assoc_L (++)) in Hi. apply lookup_app_Some in Hi as [Hi|[Hge Hi]].
    + assert (i < length a + length l)%nat as Hil.
      { apply lookup_lt_Some in Hi. by rewrite length_app in Hi. }
      rewrite list_lookup_insert_ne; [by apply H7|]. intros E.
      pose proof (Z.mod_pos_bound (in_r s + Z.of_nat i) 128).
      pose proof (Z.mod_pos_bound (in_r s + Z.of_nat (length a + length l)) 128). unfold INPUT_BUF in *.
      pose proof (Z.div_mod (in_r s + Z.of_nat i) 128).
      pose proof (Z.div_mod (in_r s + Z.of_nat (length a + length l)) 128). lia.
    + rewrite length_app in *. apply list_lookup_singleton_Some in Hi as [Hi <-].
      replace i with (length a + length l)%nat by lia. apply list_lookup_insert_eq.
      pose proof (Z.mod_pos_bound (in_r s + Z.of_nat (length a + length l)) 128). unfold INPUT_BUF. lia.
Qed.

(** Committing the line to the readers. *)
Lemma ring_commit s a l : ring s a l -> cabs (set_in_w (in_e s) s) (a ++ l) [].
Proof.
  intros [H1 H2 H3 H4 H5 H6 H7]. split; [|apply not_elem_of_nil].
  split; cbn; rewrite ?app_nil_r, ?length_app, ?Nat.add_0_r; done.
Qed.

Lemma ring_len s a l : ring s a l -> u32 (in_e s - in_r s) = Z.of_nat (length a + length l).
Proof.
  intros [H1 H2 H3 H4 H5 H6 H7]. rewrite H5. unfold INPUT_BUF in *. by rewrite u32_diff by lia.
Qed.

Lemma ring_full s a l :
  ring s a l -> (in_e s =? u32 (in_r s + INPUT_BUF)) = (Z.of_nat (length a + length l) =? INPUT_BUF).
Proof.
  intros Hr. pose proof (ring_len _ _ _ Hr) as Hlen. destruct Hr as [H1 H2 H3 H4 H5 H6 H7]. rewrite H5.
  unfold INPUT_BUF in *. destruct (Z.eqb_spec (Z.of_nat (length a + length l)) 128) as [->|Hne].
  - apply Z.eqb_refl.
  - apply Z.eqb_neq. intros E. apply u32_inj in E; lia.
Qed.

Lemma wp_cons_key c s a l (Q : bool -> consst -> Prop) :
  cabs s a l -> is_byte c ->
  (let '(a', l', w) := edit c a l in forall s', cabs s' a' l' -> Q w s') ->
  wp (cons_key c) Q s.
Proof.
  intros Hc Hb HQ. unfold edit in HQ. unfold cons_key.
  destruct (c =? 16); [wp_simpl; by apply HQ|].
  destruct (c =? 21).
  { wp_simpl. apply (wp_kill_line s a l); [done|]. intros s' Hs'. wp_simpl. by apply HQ. }
  destruct Hc as [Hr Hnl]. destruct ((c =? 8) || (c =? 127)).
  { wp_simpl. rewrite (ring_empty _ _ _ Hr). destruct l as [|x l _] using rev_ind.
    - rewrite bool_decide_true by done. wp_simpl. by apply HQ.
    - rewrite bool_decide_false by (by destruct l). cbn [negb]. wp_simpl.
      destruct (ring_removelast _ _ _ _ Hr) as [Hr' _].
      apply wp_consputc; [apply Hr'|]. intros s1 O1 S1. apply HQ.
      rewrite length_app. cbn [length]. rewrite Nat.add_sub, take_app_length.
      split; [by eapply ring_same|set_solver]. }
  wp_simpl. rewrite (ring_len _ _ _ Hr).
  destruct (negb (c =? 0) && (Z.of_nat (length a + length l) <? INPUT_BUF)) eqn:Hput; [|wp_simpl; by apply HQ].
  apply andb_prop in Hput as [_ Hput%Z.ltb_lt].
  set (d := if c =? 13 then 10 else c) in *.
  assert (u8 d = d) as -> by (apply u8_id; unfold d, is_byte in *; destruct (c =? 13); lia).
  wp_simpl. pose proof (ring_append _ _ _ d Hr Hput) as Hr1.
  apply wp_consputc; [apply Hr1|]. intros s1 O1 S1. wp_simpl.
  pose proof (ring_same _ _ _ _ Hr1 O1 S1) as Hr2. rewrite (ring_full _ _ _ Hr2).
  unfold commits in HQ. destruct ((d =? 10) || (d =? 4) || _) eqn:Hcm; wp_simpl; apply HQ.
  - by apply ring_commit.
  - split; [done|]. apply orb_false_iff in Hcm as [[Hd%Z.eqb_neq _]%orb_false_iff _]. set_solver.
Qed.

(** ** consoleintr *)

#[export] Instance pair_core {A} : Lens (kcore * A) kcore := {| lget := fst; lset c s := (c, snd s) |}.
#[export] Instance pair_cons : Lens (kcore * consst) consst := {| lget := snd; lset v s := (fst s, v) |}.

Definition edits (keys : list Z) (avail line : list Z) : list Z * list Z :=
  foldl (fun al c => (edit c al.1 al.2).1) (avail, line) keys.

Lemma wp_consoleintr_loop keys c s a l (Q : unit -> kcore * consst -> Prop) :
  LkPtable ∉ held c -> cabs s a l -> Forall is_byte keys ->
  (forall c' s', core_step c c' -> cabs s' (edits keys a l).1 (edits keys a l).2 -> Q tt (c', s')) ->
  wp (consoleintr_loop keys) Q (c, s).
Proof.
  intros Hh Hc Hk HQ. revert c s a l Hh Hc HQ. induction Hk as [|k keys Hk Hks IH]; intros c s a l Hh Hc HQ.
  - cbn. apply HQ; done.
  - cbn [consoleintr_loop]. destruct (Z.ltb_spec k 0); [unfold is_byte in Hk; lia|]. wp_simpl.
    apply (wp_cons_key k s a l); [done..|]. destruct (edit k a l) as [[a' l'] w] eqn:E.
    intros s1 Hs1. wp_simpl. cbn [lset lget pair_cons pair_core fst snd].
    assert (edits (k :: keys) a l = edits keys a' l') as Ee by (unfold edits; cbn; by rewrite E).
    rewrite Ee in HQ. destruct w; wp_simpl; cbn [lset lget pair_cons pair_core fst snd].
    + apply wp_wakeup; [done|].
      apply (IH _ _ a' l'); [done|done|]. intros c' s' Hc' Hs'. apply HQ; [|done].
      etrans; [|exact Hc']. apply core_step_wake.
    + apply (IH c s1 a' l'); done.
Qed.

Lemma doprocdump_spec keys : Forall is_byte keys -> doprocdump keys = bool_decide (16 ∈ keys).
Proof.
  induction 1 as [|k keys Hk _ IH]; cbn; [by rewrite bool_decide_false by apply not_elem_of_nil|].
  destruct (Z.ltb_spec k 0); [unfold is_byte in Hk; lia|]. rewrite IH.
  destruct (Z.eqb_spec k 16) as [->|]; cbn; [symmetry; apply bool_decide_true; left|].
  apply bool_decide_ext. rewrite elem_of_cons. naive_solver lia.
Qed.

(** C20.  The console's line discipline: from any state of the ring buffer
    (its indices may be about to wrap around) that holds the committed input
    [avail] and the line [line], [consoleintr] with any bytes typed takes them
    all, keeps the locks it was given, never leaves the screen memory, and the
    buffer then holds what the abstract line editor computes; if ^P was among
    them it ends by listing the processes, with the console lock released. *)
Theorem consoleintr_edits procdump keys c s avail line :
  LkPtable ∉ held c -> LkCons ∉ held c -> cabs s avail line -> Forall is_byte keys ->
  exists c' s', core_step c c' /\ cabs s' (edits keys avail line).1 (edits keys avail line).2 /\
    consoleintr procdump keys (c, s) =
      if bool_decide (16 ∈ keys) then procdump (c', s') else Ok tt (c', s').
Proof.
  intros Hp Hl Hc Hk.
  assert (wp (lift (H := pair_core) (acquire LkCons) ;; consoleintr_loop keys ;; lift (H := pair_core) (release LkCons))
    (fun _ p => core_step c p.1 /\
    cabs p.2 (edits keys avail line).1 (edits keys avail line).2) (c, s)) as Hw.
  { wp_simpl. cbn [lget pair_core fst]. apply wp_acquire; [done|].
    cbn [lset lget pair_core snd]. wp_simpl.
    apply (wp_consoleintr_loop _ _ _ avail line); [|done|done|].
    - cbn. rewrite not_elem_of_cons. done.
    - intros c' s' Hs Hc'. wp_simpl. cbn [lget pair_core fst].
      pose proof Hs as (H1 & H2 & H3). apply wp_release; [rewrite H1; left|].
      cbn [lset pair_core fst snd]. split; [|done]. repeat split; cbn; [|done|done].
      rewrite H1. cbn [held set_held]. apply remove1_cons. }
  apply wp_inv in Hw as ([] & [c' s'] & E & H1 & H2). exists c', s'. split_and!; [done|done|].
  rewrite <- (doprocdump_spec keys Hk). unfold consoleintr.
  unfold mbind, M_bind in E |- *. destruct (lift (acquire LkCons) (c, s)); try done.
  destruct (consoleintr_loop keys s0); try done. destruct (lift (release LkCons) s1); try done.
  inversion E; subst. by destruct (doprocdump keys).
Qed.

Definition demo_cons : consst :=
  mkCons 1 0 (replicate 2000 0) 0 1 [] (replicate 128 0) 4294967290 4294967290 4294967290.
Definition demo_core : kcore := mkCore [] None [] 1 None ∅ 0 0 0.

Lemma demo_cons_ok : cabs demo_cons [] [].
Proof.
  split; [|apply not_elem_of_nil]. split; try done.
Qed.

(** Typing "ab^Hc", a newline, and "x": the reader gets "ac\n". *)
Lemma consoleintr_edits_witness :
  exists c' s', core_step demo_core c' /\ cabs s' [97; 99; 10] [120] /\
    consoleintr skip [97; 98; 8; 99; 13; 120] (demo_core, demo_cons) = Ok tt (c', s').
Proof.
  apply (consoleintr_edits skip [97; 98; 8; 99; 13; 120] demo_core demo_cons [] []);
    [apply not_elem_of_nil|apply not_elem_of_nil|apply demo_cons_ok|].
  repeat constructor; unfold is_byte; lia.
Defined.

(** ** Printed numbers *)

Definition undigit (d : Z) : Z := if d <? 58 then d - 48 else d - 87.
(** The value of a string of digits, most significant first. *)
Definition digits_value (base : Z) (l : list Z) : Z := foldl (fun v d => v * base + undigit d) 0 l.
Definition read_int (base : Z) (l : list Z) : Z :=
  match l with 45 :: l' => - digits_value base l' | _ => digits_value base l end.

Lemma undigit_digit d : 0 <= d < 16 -> undigit (digit d) = d.
Proof.
  intros Hd. unfold undigit, digit. destruct (Z.ltb_spec d 10).
  - destruct (Z.ltb_spec (48 + d) 58); lia.
  - destruct (Z.ltb_spec (97 + (d - 10)) 58); lia.
Qed.

Lemma digits_loop_value fuel x base :
  2 <= base <= 16 -> 0 <= x < base ^ Z.of_nat fuel ->
  digits_value base (reverse (digits_loop fuel x base)) = x.
Proof.
  intros Hb. revert x. induction fuel as [|f IH]; intros x Hx; [cbn in *; lia|].
  cbn [digits_loop]. rewrite reverse_cons. unfold digits_value. rewrite foldl_app. cbn.
  rewrite undigit_digit by (pose proof (Z.mod_pos_bound x base); lia).
  pose proof (Z.div_mod x base). destruct (Z.eqb_spec (x / base) 0) as [E|E].
  - cbn. lia.
  - fold (digits_value base (reverse (digits_loop f (x / base) base))). rewrite IH; [lia|].
    split; [apply Z.div_pos; lia|]. apply Z.div_lt_upper_bound; [lia|].
    rewrite Nat2Z.inj_succ, Z.pow_succ_r in Hx by lia. lia.
Qed.

Lemma digits_loop_cons fuel x base : (0 < fuel)%nat -> exists d l, reverse (digits_loop fuel x base) = d :: l /\ d ∈ digits_loop fuel x base.
Proof.
  intros Hf. destruct (reverse (digits_loop fuel x base)) as [|d l] eqn:E.
  - apply (f_equal length) in E. rewrite length_reverse in E. destruct fuel; [lia|done].
  - exists d, l. split; [done|]. apply elem_of_reverse. rewrite E. left.
Qed.

Lemma digits_loop_range fuel x base d :
  2 <= base <= 16 -> d ∈ digits_loop fuel x base -> 48 <= d.
Proof.
  intros Hb. revert x. induction fuel as [|f IH]; intros x; cbn; [by intros ?%not_elem_of_nil|].
  intros [->|Hin]%elem_of_cons.
  - unfold digit. pose proof (Z.mod_pos_bound x base). destruct (x mod base <? 10); lia.
  - destruct (x / base =? 0); [by apply not_elem_of_nil in Hin|eauto].
Qed.

(** Printing an [int] with [printint] and reading the characters back
    gives the same number: in decimal with its sign, the most negative one
    included, and in hexadecimal as an unsigned word. *)
Theorem printint_roundtrip x :
  -2147483648 <= x < 2147483648 ->
  read_int 10 (printint_chars x 10 1) = x /\ read_int 16 (printint_chars x 16 0) = u32 x.
Proof.
  intros Hx. pose proof (u32_range x). pose proof (u32_range (- x)).
  assert (forall base y, 10 <= base <= 16 -> 0 <= y < 4294967296 ->
    read_int base (reverse (digits_loop 10 y base)) = y) as Hpos.
  { intros base y Hb Hy. pose proof (digits_loop_value 10 y base ltac:(lia)) as Hv.
    destruct (digits_loop_cons 10 y base ltac:(lia)) as (d & l & E & Hin).
    apply digits_loop_range in Hin; [|lia]. rewrite E in *. unfold read_int.
    rewrite <- Hv; [|split; [lia|]]; [|eapply Z.lt_le_trans; [apply Hy|];
      transitivity (10 ^ Z.of_nat 10); [cbn; lia|apply Z.pow_le_mono_l; lia]].
    destruct (decide (d = 45)) as [->|Hne]; [lia|].
    destruct d as [|p|p]; try lia. do 6 (destruct p as [p|p|]; try done). }
  unfold printint_chars. cbn [Z.eqb negb andb]. split; [|by apply Hpos].
  destruct (Z.ltb_spec x 0) as [Hneg|Hge].
  - rewrite reverse_app. cbn [reverse app read_int].
    change (read_int 10 (45 :: reverse (digits_loop 10 (u32 (- x)) 10)) = x). cbn [read_int].
    rewrite digits_loop_value; [rewrite u32_id by lia; lia|lia|]. cbn. lia.
  - rewrite Hpos by lia. apply u32_id. lia.
Qed.

Lemma printint_roundtrip_witness :
  read_int 10 (printint_chars (-2147483648) 10 1) = -2147483648 /\
  read_int 16 (printint_chars (-2147483648) 16 0) = 2147483648.
Proof. apply (printint_roundtrip (-2147483648)); lia. Defined.
