(* ===== verification/Fs.v ===== *)
(** * The file system

    Models [fs.c]: the block allocator, the inode cache and table, file
    contents, directories and path names.  An inode pointer is an index into
    [icache.inode], [None] the null pointer.  Data that a routine copies to
    memory at [dst] is returned, data it copies from [src] is passed, as a
    list of bytes.  Device files go through the switch [devsw]. *)

From S2P Require Import Prelude Bytes Core Bio Log StringLib Cons.

Definition NINODE : nat := 50.
Definition NDEV : Z := 10.
Definition ROOTDEV : Z := 1.
Definition ROOTINO : Z := 1.
Definition NDIRECT : nat := 12.
Definition NINDIRECT : Z := 128.
Definition MAXFILE : Z := 140.
Definition IPB : Z := 8.
Definition BPB : Z := 4096.
Definition DIRSIZ : nat := 14.
Definition DIRENT : Z := 16.     (* sizeof(struct dirent) *)
Definition T_DIR : Z := 1.
Definition T_FILE : Z := 2.
Definition T_DEV : Z := 3.

(** ** The in-memory inode *)

Record inode := mkInode {
  i_dev : Z; i_inum : Z; i_ref : Z; i_valid : Z;
  i_type : Z; i_major : Z; i_minor : Z; i_nlink : Z;
  i_size : Z; i_addrs : list Z }.

Definition set_i_ref v i := mkInode (i_dev i) (i_inum i) v (i_valid i) (i_type i) (i_major i) (i_minor i) (i_nlink i) (i_size i) (i_addrs i).
Definition set_i_valid v i := mkInode (i_dev i) (i_inum i) (i_ref i) v (i_type i) (i_major i) (i_minor i) (i_nlink i) (i_size i) (i_addrs i).
Definition set_i_type v i := mkInode (i_dev i) (i_inum i) (i_ref i) (i_valid i) v (i_major i) (i_minor i) (i_nlink i) (i_size i) (i_addrs i).
Definition set_i_majmin v w i := mkInode (i_dev i) (i_inum i) (i_ref i) (i_valid i) (i_type i) v w (i_nlink i) (i_size i) (i_addrs i).
Definition set_i_nlink v i := mkInode (i_dev i) (i_inum i) (i_ref i) (i_valid i) (i_type i) (i_major i) (i_minor i) v (i_size i) (i_addrs i).
Definition set_i_size v i := mkInode (i_dev i) (i_inum i) (i_ref i) (i_valid i) (i_type i) (i_major i) (i_minor i) (i_nlink i) v (i_addrs i).
Definition set_i_addrs v i := mkInode (i_dev i) (i_inum i) (i_ref i) (i_valid i) (i_type i) (i_major i) (i_minor i) (i_nlink i) (i_size i) v.

Record fsst := mkFs {
  flog : lst;
  fsb : superblock;
  inodes : list inode;
  fcons : consst }.

Definition set_flog v s := mkFs v (fsb s) (inodes s) (fcons s).
Definition set_fsb v s := mkFs (flog s) v (inodes s) (fcons s).
Definition set_inodes v s := mkFs (flog s) (fsb s) v (fcons s).
Definition set_fcons v s := mkFs (flog s) (fsb s) (inodes s) v.

#[export] Instance fs_log : Lens fsst lst := {| lget := flog; lset := set_flog |}.
#[export] Instance fs_log_ok : LensOk fsst lst.
Proof. split; [done|by intros []|done]. Qed.
#[export] Instance fs_cons : Lens fsst consst := {| lget := fcons; lset := set_fcons |}.
#[export] Instance fs_core : Lens fsst kcore :=
  {| lget s := bcore (lbio (flog s));
     lset c s := set_flog (set_lbio (set_bcore c (lbio (flog s))) (flog s)) s |}.

(** Routines of the layers below. *)
Definition lcall {A} (m : M lst A) : M fsst A := lift m.
Definition fcore {A} (m : M kcore A) : M fsst A := lcall (ccall m).
Definition fbread (dev n : Z) : M fsst nat := lcall (bcall (bread dev n)).
Definition fbrelse (b : nat) : M fsst unit := lcall (bcall (brelse b)).
Definition fdata (b : nat) : M fsst block := lcall (bdata b).
Definition fset (b : nat) (d : block) : M fsst unit := lcall (set_bdata b d).
Definition flogw (b : nat) : M fsst unit := lcall (log_write b).

Definition get_inode (i : nat) : M fsst inode := l ← gets inodes; idx l i.
Definition upd_inode (i : nat) (f : inode -> inode) : M fsst unit :=
  x ← get_inode i; modify (fun s => set_inodes (<[i := f x]> (inodes s)) s).

(** ** Blocks *)

Definition IBLOCK (i : Z) (sb : superblock) : Z := u32 (i / IPB + sb_inodestart sb).
Definition BBLOCK (b : Z) (sb : superblock) : Z := u32 (b / BPB + sb_bmapstart sb).

Definition bzero (dev bno : Z) : M fsst unit :=
  bp ← fbread dev bno;
  fset bp (replicate (Z.to_nat BSIZE) 0) ;;
  flogw bp ;;
  fbrelse bp.

Definition byte_at (d : block) (i : Z) : Z := default 0 (d !! Z.to_nat i).
Definition bit (bi : Z) : Z := Z.shiftl 1 (bi mod 8).

(** The inner loop of [balloc]: the first clear bit from [bi] on. *)
Fixpoint balloc_find (d : block) (b bi size : Z) (n : nat) : option Z :=
  match n with
  | O => None
  | S n' => if b + bi <? size then
              if Z.land (byte_at d (bi / 8)) (bit bi) =? 0 then Some bi
              else balloc_find d b (bi + 1) size n'
            else None
  end.

Definition balloc_step (dev b : Z) : M fsst (Z + Z) :=
  sb ← gets fsb;
  if negb (b <? sb_size sb) then panic "balloc: out of blocks" else
  bp ← fbread dev (BBLOCK b sb);
  d ← fdata bp;
  match balloc_find d b 0 (sb_size sb) (Z.to_nat BPB) with
  | Some bi =>
      fset bp (<[Z.to_nat (bi / 8) := Z.lor (byte_at d (bi / 8)) (bit bi)]> d) ;;
      flogw bp ;;
      fbrelse bp ;;
      bzero dev (b + bi) ;;
      mret (inr (b + bi))
  | None => fbrelse bp ;; mret (inl (b + BPB))
  end.
Definition balloc (dev : Z) : M fsst Z :=
  sb ← gets fsb;
  loop (Z.to_nat (sb_size sb / BPB) + 2) (balloc_step dev) 0.

Definition bfree (dev b : Z) : M fsst unit :=
  sb ← lcall (readsb dev);
  modify (set_fsb sb) ;;
  bp ← fbread dev (BBLOCK b sb);
  let bi := b mod BPB in
  d ← fdata bp;
  if Z.land (byte_at d (bi / 8)) (bit bi) =? 0 then panic "freeing free block" else
  fset bp (<[Z.to_nat (bi / 8) := Z.land (byte_at d (bi / 8)) (u8 (Z.lnot (bit bi)))]> d) ;;
  flogw bp ;;
  fbrelse bp.

(** ** Inodes *)

(** The on-disk inode at offset [o] of a block: type, major, minor and nlink
    as shorts, the size, and thirteen block addresses. *)
Definition dinode_addrs (d : block) (o : nat) : list Z :=
  (fun k => get32 d (o + 12 + 4 * k)) <$> seq 0 (S NDIRECT).
Definition put_addrs (d : block) (o : nat) (l : list Z) : block :=
  foldl (fun d p => put32 d (o + 12 + 4 * p.1) p.2) d (zip (seq 0 (length l)) l).
Definition dinode_off (inum : Z) : nat := Z.to_nat (64 * (inum mod IPB)).

Definition put_dinode (d : block) (o : nat) (ip : inode) : block :=
  let d := put16 d o (i_type ip) in
  let d := put16 d (o + 2) (i_major ip) in
  let d := put16 d (o + 4) (i_minor ip) in
  let d := put16 d (o + 6) (i_nlink ip) in
  let d := put32 d (o + 8) (i_size ip) in
  put_addrs d o (i_addrs ip).
Definition get_dinode (d : block) (o : nat) (ip : inode) : inode :=
  mkInode (i_dev ip) (i_inum ip) (i_ref ip) (i_valid ip)
    (s16 (get16 d o)) (s16 (get16 d (o + 2))) (s16 (get16 d (o + 4))) (s16 (get16 d (o + 6)))
    (get32 d (o + 8)) (dinode_addrs d o).

Definition iinit (dev : Z) : M fsst unit :=
  for_range 0 NINODE (fun i => fcore (initsleeplock (SlInode i))) ;;
  sb ← lcall (readsb dev);
  modify (set_fsb sb) ;;
  cprintf (Some (str "sb: size %d nblocks %d ninodes %d nlog %d logstart %d inodestart %d bmap start %d" ++ [10]))
    (AInt <$> [sb_size sb; sb_nblocks sb; sb_ninodes sb; sb_nlog sb; sb_logstart sb; sb_inodestart sb; sb_bmapstart sb]).

(** The scan of [iget]: a hit, or the first free entry. *)
Fixpoint iget_scan (dev inum : Z) (l : list inode) (i : nat) (empty : option nat) : nat + option nat :=
  match l with
  | [] => inr empty
  | ip :: l' =>
      if (0 <? i_ref ip) && (i_dev ip =? dev) && (i_inum ip =? inum) then inl i
      else iget_scan dev inum l' (S i)
             (match empty with None => if i_ref ip =? 0 then Some i else None | Some _ => empty end)
  end.

Definition iget (dev inum : Z) : M fsst nat :=
  fcore (acquire LkIcache) ;;
  l ← gets inodes;
  match iget_scan dev inum l 0 None with
  | inl i => upd_inode i (fun ip => set_i_ref (i_ref ip + 1) ip) ;; fcore (release LkIcache) ;; mret i
  | inr None => panic "iget: no inodes"
  | inr (Some i) =>
      upd_inode i (fun ip => mkInode dev inum 1 0 (i_type ip) (i_major ip) (i_minor ip)
                               (i_nlink ip) (i_size ip) (i_addrs ip)) ;;
      fcore (release LkIcache) ;; mret i
  end.

Definition idup (ip : option nat) : M fsst (option nat) :=
  fcore (acquire LkIcache) ;;
  i ← deref ip;
  upd_inode i (fun x => set_i_ref (i_ref x + 1) x) ;;
  fcore (release LkIcache) ;;
  mret ip.

Definition ialloc_step (dev type inum : Z) : M fsst (Z + nat) :=
  sb ← gets fsb;
  if negb (inum <? sb_ninodes sb) then panic "ialloc: no inodes" else
  bp ← fbread dev (IBLOCK inum sb);
  let o := dinode_off inum in
  d ← fdata bp;
  if s16 (get16 d o) =? 0 then
    fset bp (put16 (splice d o (replicate 64 0)) o type) ;;
    flogw bp ;;
    fbrelse bp ;;
    i ← iget dev inum; mret (inr i)
  else fbrelse bp ;; mret (inl (inum + 1)).
Definition ialloc (dev type : Z) : M fsst nat :=
  sb ← gets fsb;
  loop (S (Z.to_nat (sb_ninodes sb))) (ialloc_step dev type) 1.

Definition iupdate (i : nat) : M fsst unit :=
  ip ← get_inode i;
  sb ← gets fsb;
  bp ← fbread (i_dev ip) (IBLOCK (i_inum ip) sb);
  d ← fdata bp;
  fset bp (put_dinode d (dinode_off (i_inum ip)) ip) ;;
  flogw bp ;;
  fbrelse bp.

(** The part of [ilock] after the lock is taken. *)
Definition ilock_load (i : nat) : M fsst unit :=
  ip ← get_inode i;
  if i_valid ip =? 0 then
    sb ← gets fsb;
    bp ← fbread (i_dev ip) (IBLOCK (i_inum ip) sb);
    d ← fdata bp;
    upd_inode i (get_dinode d (dinode_off (i_inum ip))) ;;
    fbrelse bp ;;
    upd_inode i (set_i_valid 1) ;;
    ip ← get_inode i;
    if i_type ip =? 0 then panic "ilock: no type" else skip
  else skip.
Definition ilock (ip : option nat) : M fsst unit :=
  match ip with
  | None => panic "ilock"
  | Some i =>
      x ← get_inode i;
      if i_ref x <? 1 then panic "ilock" else
      fcore (acquiresleep (SlInode i)) ;;
      ilock_load i
  end.
(** [ilock] continued after a sleep in [acquiresleep]. *)
Definition ilock_resume (i : nat) : M fsst unit :=
  fcore (acquiresleep_resume (SlInode i)) ;; ilock_load i.

Definition iunlock (ip : option nat) : M fsst unit :=
  match ip with
  | None => panic "iunlock"
  | Some i =>
      h ← fcore (holdingsleep (SlInode i));
      if negb h then panic "iunlock" else
      x ← get_inode i;
      if i_ref x <? 1 then panic "iunlock" else
      fcore (releasesleep (SlInode i))
  end.

(** ** Inode content *)

Definition get_addr (i : nat) (k : nat) : M fsst Z := ip ← get_inode i; idx (i_addrs ip) k.
Definition put_addr (i : nat) (k : nat) (v : Z) : M fsst unit :=
  upd_inode i (fun ip => set_i_addrs (<[k := v]> (i_addrs ip)) ip).

Definition bmap (i : nat) (bn : Z) : M fsst Z :=
  ip ← get_inode i;
  if bn <? Z.of_nat NDIRECT then
    addr ← get_addr i (Z.to_nat bn);
    if addr =? 0 then
      addr ← balloc (i_dev ip);
      put_addr i (Z.to_nat bn) addr ;;
      mret addr
    else mret addr
  else
    let bn := bn - Z.of_nat NDIRECT in
    if bn <? NINDIRECT then
      addr ← get_addr i NDIRECT;
      addr ← (if addr =? 0 then
                addr ← balloc (i_dev ip); put_addr i NDIRECT addr ;; mret addr
              else mret addr);
      bp ← fbread (i_dev ip) addr;
      d ← fdata bp;
      let addr := get32 d (Z.to_nat (4 * bn)) in
      addr ← (if addr =? 0 then
                addr ← balloc (i_dev ip);
                d ← fdata bp;
                fset bp (put32 d (Z.to_nat (4 * bn)) addr) ;;
                flogw bp ;;
                mret addr
              else mret addr);
      fbrelse bp ;;
      mret addr
    else panic "bmap: out of range".

Definition itrunc_indirect (dev : Z) (bp : nat) (j : nat) : M fsst unit :=
  d ← fdata bp;
  let a := get32 d (4 * j) in
  if negb (a =? 0) then bfree dev a else skip.

Definition itrunc (i : nat) : M fsst unit :=
  ip ← get_inode i;
  for_range 0 NDIRECT (fun k =>
    a ← get_addr i k;
    if negb (a =? 0) then bfree (i_dev ip) a ;; put_addr i k 0 else skip) ;;
  a ← get_addr i NDIRECT;
  (if negb (a =? 0) then
     bp ← fbread (i_dev ip) a;
     for_range 0 (Z.to_nat NINDIRECT) (itrunc_indirect (i_dev ip) bp) ;;
     fbrelse bp ;;
     a ← get_addr i NDIRECT;
     bfree (i_dev ip) a ;;
     put_addr i NDIRECT 0
   else skip) ;;
  upd_inode i (set_i_size 0) ;;
  iupdate i.

Definition iput (ip : option nat) : M fsst unit :=
  i ← deref ip;
  fcore (acquiresleep (SlInode i)) ;;
  x ← get_inode i;
  (if negb (i_valid x =? 0) && (i_nlink x =? 0) then
     fcore (acquire LkIcache) ;;
     y ← get_inode i;
     fcore (release LkIcache) ;;
     if i_ref y =? 1 then
       itrunc i ;;
       upd_inode i (set_i_type 0) ;;
       iupdate i ;;
       upd_inode i (set_i_valid 0)
     else skip
   else skip) ;;
  fcore (releasesleep (SlInode i)) ;;
  fcore (acquire LkIcache) ;;
  upd_inode i (fun x => set_i_ref (i_ref x - 1) x) ;;
  fcore (release LkIcache).

Definition iunlockput (ip : option nat) : M fsst unit := iunlock ip ;; iput ip.

Record stat := mkStat { st_type : Z; st_dev : Z; st_ino : Z; st_nlink : Z; st_size : Z }.
Definition stati (i : nat) : M fsst stat :=
  ip ← get_inode i;
  mret (mkStat (i_type ip) (s32 (i_dev ip)) (i_inum ip) (i_nlink ip) (i_size ip)).

(** ** Reading and writing *)

(** Device operations: [read] returns the count and the bytes stored at its
    destination, [write] takes the bytes at its source. *)
Record devops := mkDev {
  dev_read : option (nat -> Z -> M fsst (Z * list Z));
  dev_write : option (nat -> list Z -> Z -> M fsst Z) }.

Section content.
Context (devsw : list devops).

Definition devop {A} (f : devops -> option A) (major : Z) : option A :=
  if (major <? 0) || (NDEV <=? major) then None
  else d ← devsw !! Z.to_nat major; f d.

(** The loop state: bytes done, offset, data so far. *)
Definition readi_step (i : nat) (n : Z) (l : Z * Z * list Z) : M fsst (Z * Z * list Z + list Z) :=
  let '(tot, off, acc) := l in
  if tot <? n then
    ip ← get_inode i;
    addr ← bmap i (off / BSIZE);
    bp ← fbread (i_dev ip) addr;
    let m := Z.min (n - tot) (BSIZE - off mod BSIZE) in
    d ← fdata bp;
    fbrelse bp ;;
    mret (inl (tot + m, u32 (off + m), acc ++ slice d (Z.to_nat (off mod BSIZE)) (Z.to_nat m)))
  else mret (inr acc).

(** Returns the result and the bytes stored at [dst]. *)
Definition readi (i : nat) (off n : Z) : M fsst (Z * list Z) :=
  ip ← get_inode i;
  if i_type ip =? T_DEV then
    match devop dev_read (i_major ip) with
    | None => mret (-1, [])
    | Some read => read i n
    end
  else
  if (i_size ip <? off) || (u32 (off + n) <? off) then mret (-1, []) else
  let n := if i_size ip <? u32 (off + n) then u32 (i_size ip - off) else n in
  data ← loop (Z.to_nat (n / BSIZE) + 3) (readi_step i n) (0, off, []);
  mret (s32 n, data).

Definition writei_step (i : nat) (src : list Z) (n : Z) (l : Z * Z) : M fsst (Z * Z + Z) :=
  let '(tot, off) := l in
  if tot <? n then
    ip ← get_inode i;
    addr ← bmap i (off / BSIZE);
    bp ← fbread (i_dev ip) addr;
    let m := Z.min (n - tot) (BSIZE - off mod BSIZE) in
    d ← fdata bp;
    fset bp (splice d (Z.to_nat (off mod BSIZE)) (slice src (Z.to_nat tot) (Z.to_nat m))) ;;
    flogw bp ;;
    fbrelse bp ;;
    mret (inl (tot + m, u32 (off + m)))
  else mret (inr off).

(** [src] holds at least [n] bytes. *)
Definition writei (i : nat) (src : list Z) (off n : Z) : M fsst Z :=
  ip ← get_inode i;
  if i_type ip =? T_DEV then
    match devop dev_write (i_major ip) with
    | None => mret (-1)
    | Some write => write i src n
    end
  else
  if (i_size ip <? off) || (u32 (off + n) <? off) then mret (-1) else
  if MAXFILE * BSIZE <? u32 (off + n) then mret (-1) else
  off ← loop (Z.to_nat (n / BSIZE) + 3) (writei_step i src n) (0, off);
  ip ← get_inode i;
  (if (0 <? n) && (i_size ip <? off)
   then upd_inode i (set_i_size off) ;; iupdate i
   else skip) ;;
  mret (s32 n).

(** ** Directories *)

Definition namecmp (s t : list Z) : Z := strncmp (of_list s) (of_list t) (Z.of_nat DIRSIZ).
Definition de_inum (de : list Z) : Z := get16 de 0.
Definition de_name (de : list Z) : list Z := slice de 2 DIRSIZ.

Definition dirlookup_step (dp : nat) (name : list Z) (off : Z) : M fsst (Z + option (nat * Z)) :=
  ip ← get_inode dp;
  if off <? i_size ip then
    r ← readi dp off DIRENT;
    if negb (fst r =? DIRENT) then panic "dirlookup read" else
    let de := snd r in
    if de_inum de =? 0 then mret (inl (u32 (off + DIRENT))) else
    if namecmp name (de_name de) =? 0 then
      ip ← get_inode dp;
      j ← iget (i_dev ip) (de_inum de); mret (inr (Some (j, off)))
    else mret (inl (u32 (off + DIRENT)))
  else mret (inr None).
(** The inode found and the offset of its entry. *)
Definition dirlookup (dp : nat) (name : list Z) : M fsst (option (nat * Z)) :=
  ip ← get_inode dp;
  if negb (i_type ip =? T_DIR) then panic "dirlookup not DIR" else
  loop (Z.to_nat (i_size ip / DIRENT) + 2) (dirlookup_step dp name) 0.

Definition dirlink_step (dp : nat) (off : Z) : M fsst (Z + Z) :=
  ip ← get_inode dp;
  if off <? i_size ip then
    r ← readi dp off DIRENT;
    if negb (fst r =? DIRENT) then panic "dirlink read" else
    if de_inum (snd r) =? 0 then mret (inr off) else mret (inl (off + DIRENT))
  else mret (inr off).
Definition dirlink (dp : nat) (name : list Z) (inum : Z) : M fsst Z :=
  f ← dirlookup dp name;
  match f with
  | Some (j, _) => iput (Some j) ;; mret (-1)
  | None =>
      ip ← get_inode dp;
      off ← loop (Z.to_nat (i_size ip / DIRENT) + 2) (dirlink_step dp) 0;
      let de := le_enc 2 (u16 inum) ++ strncpy_bytes (of_list name) 0 DIRSIZ in
      r ← writei dp de off DIRENT;
      if negb (r =? DIRENT) then panic "dirlink" else mret 0
  end.

(** ** Paths *)

(** The byte a path pointer points to; a string ends with a zero. *)
Definition peek (p : list Z) : Z := default 0 (head p).

Fixpoint skip_slashes (p : list Z) : list Z :=
  match p with
  | c :: p' => if c =? 47 then skip_slashes p' else p
  | [] => []
  end.
(** The element at the front of a path and what follows it. *)
Fixpoint take_elem (p : list Z) : list Z * list Z :=
  match p with
  | c :: p' => if negb (c =? 47) && negb (c =? 0)
               then let '(e, r) := take_elem p' in (c :: e, r) else ([], p)
  | [] => ([], [])
  end.

(** The rest of the path and the new contents of the buffer [name]. *)
Definition skipelem (path name : list Z) : option (list Z * list Z) :=
  let path := skip_slashes path in
  if peek path =? 0 then None else
  let '(s, path) := take_elem path in
  let name := if (DIRSIZ <=? length s)%nat then splice name 0 (take DIRSIZ s)
              else splice name 0 (s ++ [0]) in
  Some (skip_slashes path, name).

Definition namex_step (nameiparent : bool) (l : nat * list Z * list Z)
    : M fsst (nat * list Z * list Z + option (nat * list Z)) :=
  let '(ip, path, name) := l in
  match skipelem path name with
  | None => if nameiparent then iput (Some ip) ;; mret (inr None) else mret (inr (Some (ip, name)))
  | Some (path, name) =>
      ilock (Some ip) ;;
      x ← get_inode ip;
      if negb (i_type x =? T_DIR) then iunlockput (Some ip) ;; mret (inr None) else
      if nameiparent && (peek path =? 0) then iunlock (Some ip) ;; mret (inr (Some (ip, name))) else
      next ← dirlookup ip name;
      match next with
      | None => iunlockput (Some ip) ;; mret (inr None)
      | Some (next, _) => iunlockput (Some ip) ;; mret (inl (next, path, name))
      end
  end.

(** The inode and the final contents of [name]. *)
Definition namex (path : list Z) (nameiparent : bool) (name : list Z) : M fsst (option (nat * list Z)) :=
  ip ← (if peek path =? 47 then iget ROOTDEV ROOTINO else
        p ← fcore curproc; pr ← fcore (get_proc p); d ← idup (p_cwd pr); deref d);
  loop (S (length path)) (namex_step nameiparent) (ip, path, name).

Definition namei (path : list Z) : M fsst (option nat) :=
  r ← namex path false (replicate DIRSIZ 0);
  mret (fst <$> r).
Definition nameiparent (path name : list Z) : M fsst (option (nat * list Z)) := namex path true name.
End content.
