(* ===== verification/FsTx.v ===== *)
(** * The block layer seen from the file system

    Inside a transaction the file system reads and changes blocks through the
    cache.  [fx s pid hs] says that process [pid] is in a transaction and
    holds the buffers [hs]; [fkeep k s s'] what a step that logs at most [k]
    new blocks preserves; [room s k] that the log can take [k] more. *)

From S2P Require Import Prelude Bytes Core Bio Log Txn StringLib Cons Fs.

Definition fview (s : fsst) (n : Z) : block := tview (flog s) n.
Definition flen (s : fsst) : Z := Z.of_nat (length (tdisk (flog s))).
Definition fhome (s : fsst) (n : Z) : Prop := home (flog s) n.
Definition lhn (s : fsst) : Z := lh_n (lg (flog s)).

Record fx (s : fsst) (pid : Z) (hs : handles) : Prop := {
  fx_tx : tx (flog s) pid hs (logged (flog s));
  fx_log : log_ok (flog s);
  fx_out : 1 <= l_outstanding (lg (flog s)) }.

Definition room (s : fsst) (k : Z) : Prop :=
  lhn s + k <= Z.of_nat LOGSIZE - 1 /\ lhn s + k <= l_size (lg (flog s)) - 1.

Record fkeep (k : Z) (s s' : fsst) : Prop := {
  fk_frame : tframe (flog s) (flog s');
  fk_inodes : inodes s' = inodes s;
  fk_sb : fsb s' = fsb s;
  fk_cons : fcons s' = fcons s;
  fk_start : l_start (lg (flog s')) = l_start (lg (flog s));
  fk_size : l_size (lg (flog s')) = l_size (lg (flog s));
  fk_out : l_outstanding (lg (flog s')) = l_outstanding (lg (flog s));
  fk_com : l_committing (lg (flog s')) = l_committing (lg (flog s));
  fk_n : lhn s <= lhn s' <= lhn s + k;
  fk_trace : dtrace (lbio (flog s')) = dtrace (lbio (flog s)) }.

Lemma fkeep_trans k1 k2 k s1 s2 s3 :
  fkeep k1 s1 s2 -> fkeep k2 s2 s3 -> k1 + k2 <= k -> fkeep k s1 s3.
Proof.
  intros [A1 A2 A3 A4 A5 A6 A7 A8 A9 A10] [B1 B2 B3 B4 B5 B6 B7 B8 B9 B10] Hk.
  split; try congruence; [by etrans|lia].
Qed.

Lemma fkeep_refl s : fkeep 0 s s.
Proof. split; try done. lia. Qed.

Lemma fkeep_weaken k k' s s' : fkeep k s s' -> k <= k' -> fkeep k' s s'.
Proof. intros H Hk. eapply (fkeep_trans k 0); [done|apply fkeep_refl|lia]. Qed.

Lemma fkeep_len k s s' : fkeep k s s' -> flen s' = flen s.
Proof. intros H. unfold flen. by rewrite (tf_len _ _ (fk_frame _ _ _ H)). Qed.

Lemma fkeep_home k s s' n : fkeep k s s' -> fhome s' n <-> fhome s n.
Proof.
  intros H. unfold fhome, home, in_log. rewrite (tf_len _ _ (fk_frame _ _ _ H)).
  by rewrite (fk_start _ _ _ H), (fk_size _ _ _ H).
Qed.

Lemma room_keep k j s s' : fkeep j s s' -> room s (j + k) -> room s' k.
Proof. intros H [H1 H2]. pose proof (fk_n _ _ _ H). unfold room. rewrite (fk_size _ _ _ H). lia. Qed.

Lemma room_weaken s k j : room s k -> j <= k -> room s j.
Proof. unfold room. lia. Qed.

Lemma log_ok_eq s s' : log_ok s -> tframe s s' -> lg s' = lg s -> log_ok s'.
Proof.
  intros [G1 G2 G3 G4 G5 G6] F E. split; unfold home, logged in *; rewrite ?E, ?(tf_len _ _ F); done.
Qed.

Lemma logged_n s : log_ok s -> length (logged s) = Z.to_nat (lh_n (lg s)).
Proof. intros [_ _ G3 G4 _ _]. unfold logged. rewrite length_take, G4. lia. Qed.

(** Changing the data of a held buffer keeps [fx] up to its mark. *)
Lemma fx_eq s l pid hs hs' :
  fx s pid hs -> tx l pid hs' (logged (flog s)) -> tframe (flog s) l -> lg l = lg (flog s) ->
  fx (set_flog l s) pid hs'.
Proof.
  intros [H1 H2 H3] Ht Hf El. split; cbn.
  - unfold logged. by rewrite El.
  - by eapply log_ok_eq.
  - by rewrite El.
Qed.

Lemma fkeep_eq s l :
  tframe (flog s) l -> lg l = lg (flog s) -> dtrace (lbio l) = dtrace (lbio (flog s)) ->
  fkeep 0 s (set_flog l s).
Proof. intros H1 H2 H3. split; cbn; unfold lhn; cbn; rewrite ?H2; try done. lia. Qed.

Lemma wp_lcall {A} (m : M lst A) (Q : A -> fsst -> Prop) s :
  wp (lcall m) Q s = wp m (fun a l => Q a (set_flog l s)) (flog s).
Proof. unfold lcall. by rewrite wp_lift. Qed.

Lemma wp_fbread s pid hs n Q :
  fx s pid hs -> 0 <= n < flen s -> (forall b m, hs !! b <> Some (n, m)) ->
  Z.of_nat (size hs) + lhn s < Z.of_nat NBUF ->
  (forall b s', fx s' pid (<[b := (n, false)]> hs) -> fkeep 0 s s' -> hs !! b = None ->
     (forall m, fview s' m = fview s m) -> Q b s') ->
  wp (fbread 1 n) Q s.
Proof.
  intros Hx Hn Hnh Hroom HQ. pose proof Hx as [H1 H2 H3]. unfold fbread. rewrite wp_lcall.
  apply (wp_tx_bread _ pid hs (logged (flog s))); [done|done|done| |].
  - right. rewrite logged_n by done. pose proof (lo_n _ H2). unfold lhn in Hroom. lia.
  - intros b l Ht Hf Hb El Ed Etr Hv. apply HQ; [by eapply fx_eq|by apply fkeep_eq|done|done].
Qed.

Lemma wp_fdata s pid hs b n m Q :
  fx s pid hs -> hs !! b = Some (n, m) -> Q (fview s n) s -> wp (fdata b) Q s.
Proof.
  intros Hx Hb HQ. unfold fdata. rewrite wp_lcall. eapply wp_tx_bdata; [apply Hx|done|].
  by destruct s.
Qed.

Lemma wp_fset s pid hs b n m d Q :
  fx s pid hs -> hs !! b = Some (n, m) -> block_ok d ->
  (forall s', fx s' pid (<[b := (n, true)]> hs) -> fkeep 0 s s' ->
     (forall k, fview s' k = vupd (fview s) n d k) -> Q tt s') ->
  wp (fset b d) Q s.
Proof.
  intros Hx Hb Hd HQ. unfold fset. rewrite wp_lcall.
  eapply wp_tx_set_bdata; [apply Hx|done|done|].
  intros l Ht Hf El Ed Etr Hv. apply HQ; [by eapply fx_eq|by apply fkeep_eq|done].
Qed.

Lemma wp_fbrelse s pid hs b n Q :
  fx s pid hs -> hs !! b = Some (n, false) ->
  (forall s', fx s' pid (delete b hs) -> fkeep 0 s s' -> (forall k, fview s' k = fview s k) -> Q tt s') ->
  wp (fbrelse b) Q s.
Proof.
  intros Hx Hb HQ. unfold fbrelse. rewrite wp_lcall.
  eapply wp_tx_brelse; [apply Hx|done|].
  intros l Ht Hf El Ed Etr Hv. apply HQ; [by eapply fx_eq|by apply fkeep_eq|done].
Qed.

Lemma length_log_add n l : (length l <= length (log_add n l) <= S (length l))%nat.
Proof. unfold log_add. case_decide; rewrite ?length_app; cbn; lia. Qed.

Lemma wp_flogw s pid hs b n m Q :
  fx s pid hs -> hs !! b = Some (n, m) -> fhome s n -> room s 1 ->
  (forall s', fx s' pid (<[b := (n, false)]> hs) -> fkeep 1 s s' ->
     (forall k, fview s' k = fview s k) -> Q tt s') ->
  wp (flogw b) Q s.
Proof.
  intros Hx Hb Hh [Hr1 Hr2] HQ. pose proof Hx as [H1 H2 H3]. unfold flogw. rewrite wp_lcall.
  unfold lhn in *. eapply wp_tx_log_write; [done|done|done|done|lia|lia|done|].
  intros l Ht Ho Hf Hl Es Ez Eo Ec Ed Etr Hv. apply HQ; [| |done].
  - split; cbn; [done|done|lia].
  - split; cbn; try done. unfold lhn. cbn.
    pose proof (length_log_add n (logged (flog s))) as Hlen. rewrite <- Hl in Hlen.
    rewrite !logged_n in Hlen by done. pose proof (lo_n _ H2). pose proof (lo_n _ Ho). lia.
Qed.

Lemma fview_ok s pid hs n : fx s pid hs -> 0 <= n < flen s -> block_ok (fview s n).
Proof. intros Hx Hn. eapply tx_view_ok; [apply Hx|done]. Qed.

(** Read a block, look at it, release it. *)
Lemma wp_fread {A} s pid hs n (k : block -> M fsst A) Q :
  fx s pid hs -> 0 <= n < flen s -> (forall b m, hs !! b <> Some (n, m)) ->
  Z.of_nat (size hs) + lhn s < Z.of_nat NBUF ->
  (forall s', fx s' pid hs -> fkeep 0 s s' -> (forall m, fview s' m = fview s m) ->
     wp (k (fview s n)) Q s') ->
  wp (bp ← fbread 1 n; d ← fdata bp; fbrelse bp ;; k d) Q s.
Proof.
  intros Hx Hn Hnh Hroom HQ. wp_simpl. apply (wp_fbread s pid hs n); [done..|].
  intros b s1 X1 K1 Hb V1. wp_simpl. eapply wp_fdata; [done|by rewrite lookup_insert_eq|].
  wp_simpl. eapply wp_fbrelse; [done|by rewrite lookup_insert_eq|].
  rewrite delete_insert_id by done. intros s2 X2 K2 V2. rewrite V1.
  apply HQ; [done|by eapply fkeep_trans|]. intros m. by rewrite V2, V1.
Qed.

(** Store a block, log it, release it, and go on. *)
Lemma wp_fstore_k {A} s pid hs b n m d (k : M fsst A) Q :
  fx s pid (<[b := (n, m)]> hs) -> hs !! b = None -> block_ok d -> fhome s n -> room s 1 ->
  (forall s', fx s' pid hs -> fkeep 1 s s' -> (forall k, fview s' k = vupd (fview s) n d k) -> wp k Q s') ->
  wp (fset b d ;; flogw b ;; fbrelse b ;; k) Q s.
Proof.
  intros Hx Hb Hd Hh Hr HQ. wp_simpl. eapply wp_fset; [done|by rewrite lookup_insert_eq|done|].
  rewrite insert_insert_eq. intros s1 X1 K1 V1. wp_simpl.
  eapply wp_flogw; [done|by rewrite lookup_insert_eq|by eapply fkeep_home|by eapply room_keep|].
  rewrite insert_insert_eq. intros s2 X2 K2 V2. wp_simpl.
  eapply wp_fbrelse; [done|by rewrite lookup_insert_eq|].
  rewrite delete_insert_id by done. intros s3 X3 K3 V3. apply HQ; [done| |].
  - eapply (fkeep_trans 0 1); [done| |lia]. by eapply (fkeep_trans 1 0).
  - intros j. by rewrite V3, V2, V1.
Qed.

Lemma wp_fstore s pid hs b n m d Q :
  fx s pid (<[b := (n, m)]> hs) -> hs !! b = None -> block_ok d -> fhome s n -> room s 1 ->
  (forall s', fx s' pid hs -> fkeep 1 s s' -> (forall k, fview s' k = vupd (fview s) n d k) -> Q tt s') ->
  wp (fset b d ;; flogw b ;; fbrelse b) Q s.
Proof.
  intros Hx Hb Hd Hh Hr HQ. pose proof (wp_fstore_k s pid hs b n m d skip Q Hx Hb Hd Hh Hr HQ) as H.
  revert H. wp_simpl. intros H. eapply wp_mono; [exact H|]. intros [] s1. wp_simpl. intros H1.
  eapply wp_mono; [exact H1|]. intros [] s2. wp_simpl. intros H2.
  eapply wp_mono; [exact H2|]. by intros [] s3.
Qed.
