(* ===== verification/FsBlocks.v ===== *)
(** * The block allocator: [balloc] and [bfree] against the free bitmap *)

From S2P Require Import Prelude Bytes Core Bio Log Txn StringLib Cons Fs FsTx.

(** ** Bits of a block *)

Lemma land_bit x k : 0 <= k -> (Z.land x (Z.shiftl 1 k) =? 0) = negb (Z.testbit x k).
Proof.
  intros Hk. assert (Z.land x (Z.shiftl 1 k) = if Z.testbit x k then Z.shiftl 1 k else 0) as ->.
  { apply Z.bits_inj'. intros i Hi. rewrite Z.land_spec, Z.shiftl_spec by done.
    destruct (decide (i = k)) as [->|Hne].
    - rewrite Z.sub_diag. destruct (Z.testbit x k); [by rewrite Z.shiftl_spec, Z.sub_diag by done|by rewrite Z.bits_0].
    - assert (Z.testbit 1 (i - k) = false) as E.
      { destruct (Z.lt_ge_cases (i - k) 0); [by apply Z.testbit_neg_r|].
        apply (testbit_high 1 1); lia. }
      rewrite E, andb_false_r. destruct (Z.testbit x k); [|by rewrite Z.bits_0].
      by rewrite Z.shiftl_spec, E by done. }
  destruct (Z.testbit x k); [|done]. cbn. rewrite Z.shiftl_1_l. apply Z.eqb_neq.
  pose proof (Z.pow_pos_nonneg 2 k). lia.
Qed.

Lemma byte_of_bits x : 0 <= x -> (forall i, 8 <= i -> Z.testbit x i = false) -> is_byte x.
Proof.
  intros Hx Hb. assert (x = x mod 2 ^ 8) as E.
  { rewrite <- Z.land_ones by lia. apply Z.bits_inj'. intros i Hi.
    rewrite Z.land_spec, Z.testbit_ones_nonneg by lia.
    destruct (Z.ltb_spec i 8); [by rewrite andb_true_r|rewrite andb_false_r; by apply Hb]. }
  rewrite E. unfold is_byte. pose proof (Z.mod_pos_bound x (2 ^ 8)). lia.
Qed.

Lemma byte_high x i : is_byte x -> 8 <= i -> Z.testbit x i = false.
Proof. intros Hx Hi. apply (testbit_high x 8); [unfold is_byte in Hx; lia|done]. Qed.

Lemma shiftl_1_testbit k i : 0 <= k -> 0 <= i -> Z.testbit (Z.shiftl 1 k) i = (i =? k).
Proof.
  intros Hk Hi. rewrite Z.shiftl_spec by done. destruct (Z.eqb_spec i k) as [->|Hne].
  - by rewrite Z.sub_diag.
  - destruct (Z.lt_ge_cases (i - k) 0); [by apply Z.testbit_neg_r|]. apply (testbit_high 1 1); lia.
Qed.

Lemma byte_set x k : is_byte x -> 0 <= k < 8 -> is_byte (Z.lor x (Z.shiftl 1 k)).
Proof.
  intros Hx Hk. apply byte_of_bits.
  - apply Z.lor_nonneg. split; [apply Hx|]. apply Z.shiftl_nonneg. lia.
  - intros i Hi. rewrite Z.lor_spec, byte_high, shiftl_1_testbit by (done || lia). cbn.
    apply Z.eqb_neq. lia.
Qed.

Lemma u8_lnot_testbit k i : 0 <= k < 8 -> 0 <= i < 8 -> Z.testbit (u8 (Z.lnot (Z.shiftl 1 k))) i = negb (i =? k).
Proof.
  intros Hk Hi. unfold u8. change 256 with (2 ^ 8). rewrite Z.mod_pow2_bits_low by lia.
  rewrite Z.lnot_spec by lia. by rewrite shiftl_1_testbit by lia.
Qed.

Lemma byte_clear x m : is_byte x -> is_byte (Z.land x (u8 m)).
Proof.
  intros Hx. apply byte_of_bits.
  - apply Z.land_nonneg. left. apply Hx.
  - intros i Hi. rewrite Z.land_spec, byte_high by done. done.
Qed.

(** Bit [bi] of a block. *)
Definition bmbit (d : block) (bi : Z) : bool := Z.testbit (byte_at d (bi / 8)) (bi mod 8).

Lemma byte_at_ok d i : block_ok d -> is_byte (byte_at d i).
Proof.
  intros [_ Hb]. unfold byte_at. destruct (d !! Z.to_nat i) as [x|] eqn:E; cbn.
  - by eapply Forall_lookup_1.
  - unfold is_byte. lia.
Qed.

(** Replacing the byte of bit [bi] by [v]. *)
Lemma bmbit_update d bi v bj :
  block_ok d -> 0 <= bi < BPB -> 0 <= bj ->
  bmbit (<[Z.to_nat (bi / 8) := v]> d) bj =
    if bj / 8 =? bi / 8 then Z.testbit v (bj mod 8) else bmbit d bj.
Proof.
  intros [Hl _] Hi Hj. unfold bmbit, byte_at, BPB, BSIZE in *.
  assert (0 <= bi / 8 < 512) by (split; [apply Z.div_pos|apply Z.div_lt_upper_bound]; lia).
  assert (0 <= bj / 8) by (apply Z.div_pos; lia).
  destruct (Z.eqb_spec (bj / 8) (bi / 8)) as [E|E].
  - rewrite E, list_lookup_insert_eq by lia. done.
  - rewrite list_lookup_insert_ne by lia. done.
Qed.

Lemma same_bit a b : a / 8 = b / 8 -> a mod 8 = b mod 8 -> a = b.
Proof. intros H1 H2. pose proof (Z.div_mod a 8). pose proof (Z.div_mod b 8). lia. Qed.

Lemma bmbit_mark d bi bj :
  block_ok d -> 0 <= bi < BPB -> 0 <= bj ->
  let d' := <[Z.to_nat (bi / 8) := Z.lor (byte_at d (bi / 8)) (bit bi)]> d in
  block_ok d' /\ bmbit d' bj = (bj =? bi) || bmbit d bj.
Proof.
  intros Hd Hi Hj d'. pose proof (Z.mod_pos_bound bi 8) as Hm. split.
  - destruct Hd as [H1 H2]. split; [unfold d'; by rewrite length_insert|].
    apply Forall_insert; [done|]. apply byte_set; [by apply byte_at_ok|lia].
  - unfold d'. rewrite bmbit_update by done. unfold bit.
    destruct (Z.eqb_spec (bj / 8) (bi / 8)) as [E|E].
    + rewrite Z.lor_spec, shiftl_1_testbit by (try apply Z.mod_pos_bound; lia). unfold bmbit. rewrite E, orb_comm.
      f_equal. destruct (Z.eqb_spec bj bi) as [->|Hne]; [apply Z.eqb_refl|].
      apply Z.eqb_neq. intros ?. apply Hne. by apply same_bit.
    + destruct (Z.eqb_spec bj bi) as [->|]; done.
Qed.

Lemma bmbit_clear d bi bj :
  block_ok d -> 0 <= bi < BPB -> 0 <= bj ->
  let d' := <[Z.to_nat (bi / 8) := Z.land (byte_at d (bi / 8)) (u8 (Z.lnot (bit bi)))]> d in
  block_ok d' /\ bmbit d' bj = negb (bj =? bi) && bmbit d bj.
Proof.
  intros Hd Hi Hj d'. pose proof (Z.mod_pos_bound bi 8) as Hm. pose proof (Z.mod_pos_bound bj 8) as Hmj. split.
  - destruct Hd as [H1 H2]. split; [unfold d'; by rewrite length_insert|].
    apply Forall_insert; [done|]. apply byte_clear. by apply byte_at_ok.
  - unfold d'. rewrite bmbit_update by done. unfold bit.
    destruct (Z.eqb_spec (bj / 8) (bi / 8)) as [E|E].
    + rewrite Z.land_spec, u8_lnot_testbit by lia. unfold bmbit. rewrite E, andb_comm.
      f_equal. f_equal. destruct (Z.eqb_spec bj bi) as [->|Hne]; [apply Z.eqb_refl|].
      apply Z.eqb_neq. intros ?. apply Hne. by apply same_bit.
    + destruct (Z.eqb_spec bj bi) as [->|]; done.
Qed.

(** The inner loop of [balloc] finds the first clear bit. *)
Lemma balloc_find_Some d b bi size n r :
  0 <= bi -> balloc_find d b bi size n = Some r ->
  bi <= r < bi + Z.of_nat n /\ b + r < size /\ bmbit d r = false /\
  forall j, bi <= j < r -> bmbit d j = true.
Proof.
  revert bi. induction n as [|n IH]; intros bi Hb; [done|]. cbn [balloc_find].
  destruct (Z.ltb_spec (b + bi) size); [|done].
  unfold bit. rewrite land_bit by (apply Z.mod_pos_bound; lia). fold (bmbit d bi).
  destruct (bmbit d bi) eqn:E; cbn [negb].
  - intros (H1 & H2 & H3 & H4)%IH; [|lia]. split_and!; [lia..|done|].
    intros j Hj. destruct (decide (j = bi)) as [->|]; [done|apply H4; lia].
  - intros [= <-]. split_and!; [lia..|done|]. intros; lia.
Qed.

Lemma balloc_find_None d b bi size n :
  0 <= bi -> balloc_find d b bi size n = None ->
  forall j, bi <= j < bi + Z.of_nat n -> b + j < size -> bmbit d j = true.
Proof.
  revert bi. induction n as [|n IH]; intros bi Hb; [intros _ j Hj; lia|]. cbn [balloc_find].
  destruct (Z.ltb_spec (b + bi) size); [|intros _ j Hj Hs; lia].
  unfold bit. rewrite land_bit by (apply Z.mod_pos_bound; lia). fold (bmbit d bi).
  destruct (bmbit d bi) eqn:E; cbn [negb]; [|done].
  intros Hn j Hj Hs. destruct (decide (j = bi)) as [->|]; [done|]. eapply IH; [|done|lia|done]. lia.
Qed.

(** ** The bitmap of the disk *)

Definition bmblock (sb : superblock) (b : Z) : Z := b / BPB + sb_bmapstart sb.
Definition used (s : fsst) (b : Z) : bool := bmbit (fview s (bmblock (fsb s) b)) (b mod BPB).

(** The superblock describes the disk: the bitmap blocks are outside the log,
    free blocks are outside the log and the bitmap, block 1 holds the
    superblock itself. *)
Record layout (s : fsst) : Prop := {
  ly_size : 0 <= sb_size (fsb s) <= flen s;
  ly_bm0 : 0 <= sb_bmapstart (fsb s);
  ly_bm : forall b, 0 <= b < sb_size (fsb s) -> fhome s (bmblock (fsb s) b);
  ly_free : forall b, 0 <= b < sb_size (fsb s) -> used s b = false ->
     fhome s b /\ forall b', 0 <= b' < sb_size (fsb s) -> bmblock (fsb s) b' <> b;
  ly_len : 1 < flen s;
  ly_sb : dec_sb (fview s 1) = fsb s;
  ly_one : 1 < sb_size (fsb s) /\ used s 1 = true /\
     forall b, 0 <= b < sb_size (fsb s) -> bmblock (fsb s) b <> 1 }.

(** The buffers held are neither bitmap blocks, nor free blocks, nor block 1. *)
Definition hs_ok (s : fsst) (hs : handles) : Prop :=
  forall b n m, hs !! b = Some (n, m) ->
    (forall b', 0 <= b' < sb_size (fsb s) -> bmblock (fsb s) b' <> n) /\
    (0 <= n < sb_size (fsb s) -> used s n = true) /\ n <> 1.

Lemma hs_ok_empty s : hs_ok s ∅.
Proof. intros b n m Hb. by rewrite lookup_empty in Hb. Qed.

Definition zeros : block := replicate (Z.to_nat BSIZE) 0.

Lemma zeros_ok : block_ok zeros.
Proof. split; [done|]. apply Forall_replicate. unfold is_byte. lia. Qed.

Definition fits (s : fsst) (hs : handles) : Prop := Z.of_nat (size hs) + lhn s < Z.of_nat NBUF.

Lemma fits_room s hs : room s 1 -> (size hs <= 1)%nat -> fits s hs.
Proof. unfold room, fits, LOGSIZE, NBUF. lia. Qed.

Lemma flen_lt s pid hs : fx s pid hs -> flen s < 2147483648.
Proof. intros Hx. pose proof (lo_region _ (fx_log _ _ _ Hx)). unfold flen. lia. Qed.

Lemma bblock_eq s pid hs b :
  fx s pid hs -> layout s -> 0 <= b < sb_size (fsb s) -> BBLOCK b (fsb s) = bmblock (fsb s) b.
Proof.
  intros Hx Hl Hb. pose proof (flen_lt _ _ _ Hx). destruct (ly_bm _ Hl b Hb) as [Hr _].
  unfold BBLOCK, bmblock, flen in *. apply u32_id. lia.
Qed.

Lemma wp_bzero s pid hs n Q :
  fx s pid hs -> fhome s n -> (forall b m, hs !! b <> Some (n, m)) -> room s 1 -> fits s hs ->
  (forall s', fx s' pid hs -> fkeep 1 s s' -> (forall k, fview s' k = vupd (fview s) n zeros k) -> Q tt s') ->
  wp (bzero 1 n) Q s.
Proof.
  intros Hx Hh Hnh Hr Hf HQ. unfold bzero. rewrite wp_bind.
  apply (wp_fbread s pid hs n); [done|apply Hh|done|done|]. intros b s1 X1 K1 Hb V1.
  eapply wp_fstore; [done|done|apply zeros_ok|by eapply fkeep_home|by eapply room_keep|].
  intros s2 X2 K2 V2. apply HQ; [done|by eapply (fkeep_trans 0 1)|].
  intros k. rewrite V2. unfold vupd. case_decide; by rewrite ?V1.
Qed.

(** The bitmap block of [b] with its bit set. *)
Definition marked (s : fsst) (b : Z) : block :=
  let d := fview s (bmblock (fsb s) b) in let bi := b mod BPB in
  <[Z.to_nat (bi / 8) := Z.lor (byte_at d (bi / 8)) (bit bi)]> d.

Lemma block_split b k : 0 <= k < BPB -> b mod BPB = 0 -> (b + k) mod BPB = k /\ (b + k) / BPB = b / BPB.
Proof.
  intros Hk Hb. unfold BPB in *. assert (b = 4096 * (b / 4096)) as Eb by (pose proof (Z.div_mod b 4096); lia).
  rewrite Eb, Z.add_comm, Z.mul_comm. rewrite Z_mod_plus_full, Z_div_plus_full by lia.
  rewrite Z_div_mult by lia. rewrite Z.mod_small, Z.div_small by lia. lia.
Qed.

(** What a successful [balloc] leaves. *)
Record balloc_post (s : fsst) (pid : Z) (hs : handles) (b : Z) (s' : fsst) : Prop := {
  bp_fx : fx s' pid hs;
  bp_keep : fkeep 2 s s';
  bp_range : 0 <= b < sb_size (fsb s);
  bp_free : used s b = false;
  bp_least : forall j, 0 <= j < b -> used s j = true;
  bp_view : forall k, fview s' k = vupd (vupd (fview s) (bmblock (fsb s) b) (marked s b)) b zeros k }.

Section balloc.
Context (s : fsst) (pid : Z) (hs : handles) (Hx : fx s pid hs) (Hl : layout s)
  (Hh : hs_ok s hs) (Hr : room s 2) (Hsz : (size hs <= 1)%nat).

Record bscan (b : Z) (s' : fsst) : Prop := {
  bs_b : 0 <= b /\ b mod BPB = 0;
  bs_fx : fx s' pid hs;
  bs_keep : fkeep 0 s s';
  bs_view : forall m, fview s' m = fview s m;
  bs_used : forall j, 0 <= j < b -> j < sb_size (fsb s) -> used s j = true }.

Lemma held_not_bm b k m : 0 <= b < sb_size (fsb s) -> hs !! k <> Some (bmblock (fsb s) b, m).
Proof. intros Hb Hk. destruct (Hh _ _ _ Hk) as (H1 & _). by apply (H1 b). Qed.

Lemma held_not_free b k m : 0 <= b < sb_size (fsb s) -> used s b = false -> hs !! k <> Some (b, m).
Proof. intros Hb Hu Hk. destruct (Hh _ _ _ Hk) as (_ & H2 & _). rewrite H2 in Hu; done. Qed.

Lemma wp_balloc_found b bi bp s1 Q :
  0 <= b -> b mod BPB = 0 -> 0 <= bi < BPB -> b + bi < sb_size (fsb s) -> used s (b + bi) = false ->
  (forall j, 0 <= j < b + bi -> used s j = true) ->
  fx s1 pid (<[bp := (bmblock (fsb s) b, false)]> hs) -> hs !! bp = None -> fkeep 0 s s1 ->
  (forall m, fview s1 m = fview s m) ->
  (forall b s', balloc_post s pid hs b s' -> Q (inr b : Z + Z) s') ->
  let d := fview s (bmblock (fsb s) b) in
  wp (fset bp (<[Z.to_nat (bi / 8) := Z.lor (byte_at d (bi / 8)) (bit bi)]> d) ;;
      flogw bp ;; fbrelse bp ;; bzero 1 (b + bi) ;; mret (inr (b + bi))) Q s1.
Proof.
  intros Hb0 Hbm Hbi Hlt Hu Hleast X1 Hbp K1 V1 HQ d.
  destruct (block_split b bi Hbi Hbm) as [E1 E2].
  assert (0 <= b + bi < sb_size (fsb s)) as Hrange by lia.
  assert (fhome s (bmblock (fsb s) b)) as Hhome by (apply (ly_bm _ Hl); lia).
  assert (block_ok d) as Hd by (eapply fview_ok; [done|apply Hhome]).
  assert (marked s (b + bi) = <[Z.to_nat (bi / 8) := Z.lor (byte_at d (bi / 8)) (bit bi)]> d) as Em.
  { unfold marked. rewrite E1. unfold bmblock. by rewrite E2. }
  eapply wp_fstore_k; [exact X1|done| |by eapply fkeep_home| |].
  { by apply (bmbit_mark d bi bi Hd Hbi ltac:(lia)). }
  { eapply room_keep; [done|]. by apply (room_weaken s 2); [|lia]. }
  intros s2 X2 K2 V2. rewrite wp_bind.
  assert (fkeep 1 s s2) as K02 by (by eapply (fkeep_trans 0 1)).
  destruct (ly_free _ Hl (b + bi) Hrange Hu) as [Hfh _].
  apply (wp_bzero s2 pid hs); [done|by eapply fkeep_home| | | |].
  { intros k m. by apply held_not_free. }
  { by eapply room_keep. }
  { apply fits_room; [by eapply room_keep|done]. }
  intros s3 X3 K3 V3. rewrite wp_ret. apply HQ. split; [done|by eapply (fkeep_trans 1 1)|done..|].
  intros k. rewrite V3. unfold vupd. case_decide; [done|]. rewrite V2. unfold vupd, bmblock. rewrite E2, Em.
  fold (bmblock (fsb s) b). case_decide; [done|apply V1].
Qed.

Lemma wp_balloc Q :
  (exists f, 0 <= f < sb_size (fsb s) /\ used s f = false) ->
  (forall b s', balloc_post s pid hs b s' -> Q b s') ->
  wp (balloc 1) Q s.
Proof.
  intros (f & Hf & Huf) HQ. unfold balloc. wp_simpl.
  apply (wp_loop bscan (fun b => Z.to_nat ((sb_size (fsb s) - b) / BPB + 1))).
  - intros b s1 [[Hb0 Hbm] X1 K1 V1 U1]. unfold balloc_step. wp_simpl. rewrite (fk_sb _ _ _ K1).
    destruct (Z.ltb_spec b (sb_size (fsb s))) as [Hb|Hb]; cbn [negb].
    2:{ rewrite (U1 f) in Huf; [done|lia..]. }
    wp_simpl. rewrite (bblock_eq s pid hs) by (done || lia).
    assert (fhome s (bmblock (fsb s) b)) as Hhome by (apply (ly_bm _ Hl); lia).
    apply (wp_fbread s1 pid hs); [done|rewrite (fkeep_len _ _ _ K1); apply Hhome| | |].
    { intros k m. apply held_not_bm. lia. }
    { apply fits_room; [|done]. eapply room_keep; [done|]. by apply (room_weaken s 2); [|lia]. }
    intros bp s2 X2 K2 Hbp V2. wp_simpl. eapply wp_fdata; [done|by rewrite lookup_insert_eq|].
    assert (fview s2 (bmblock (fsb s) b) = fview s (bmblock (fsb s) b)) as -> by (by rewrite V2, V1).
    assert (forall j, 0 <= j < BPB -> used s (b + j) = bmbit (fview s (bmblock (fsb s) b)) j) as Hused.
    { intros j Hj. destruct (block_split b j Hj Hbm) as [E1 E2]. unfold used, bmblock. by rewrite E1, E2. }
    destruct (balloc_find _ b 0 _ _) as [bi|] eqn:Hfind.
    + apply balloc_find_Some in Hfind as (R1 & R2 & R3 & R4); [|lia].
      rewrite Z2Nat.id in R1 by (unfold BPB; lia).
      apply (wp_balloc_found b bi bp s2); [done|done|lia|done|rewrite Hused by lia; done| |done|done| | |done].
      * intros j Hj. destruct (Z.lt_ge_cases j b); [apply U1; lia|].
        replace j with (b + (j - b)) by lia. rewrite Hused by lia. apply R4. lia.
      * by eapply (fkeep_trans 0 0).
      * intros m. by rewrite V2.
    + pose proof (balloc_find_None _ _ _ _ _ (Z.le_refl 0) Hfind) as Hn.
      rewrite Z2Nat.id in Hn by (unfold BPB; lia). wp_simpl.
      eapply wp_fbrelse; [done|by rewrite lookup_insert_eq|]. rewrite delete_insert_id by done.
      intros s3 X3 K3 V3. wp_simpl. split.
      * split; [|done| | |].
        -- split; [unfold BPB; lia|]. by rewrite <- Zplus_mod_idemp_l, Hbm.
        -- eapply (fkeep_trans 0 0); [done| |lia]. by eapply (fkeep_trans 0 0).
        -- intros m. by rewrite V3, V2.
        -- intros j Hj Hs. destruct (Z.lt_ge_cases j b); [apply U1; lia|].
           replace j with (b + (j - b)) by lia. rewrite Hused by lia. apply Hn; lia.
      * replace (sb_size (fsb s) - (b + BPB)) with (sb_size (fsb s) - b + (-1) * BPB) by lia.
        rewrite Z_div_plus_full by (unfold BPB; lia).
        assert (0 <= (sb_size (fsb s) - b) / BPB) by (apply Z.div_pos; unfold BPB; lia). lia.
  - split; [done|done|apply fkeep_refl|done|lia].
  - rewrite Z.sub_0_r. assert (0 <= sb_size (fsb s) / BPB) by (apply Z.div_pos; unfold BPB; lia). lia.
Qed.
End balloc.

(** ** bfree *)

Lemma wp_readsb s pid hs Q :
  fx s pid hs -> 1 < flen s -> (forall b m, hs !! b <> Some (1, m)) -> fits s hs ->
  (forall s', fx s' pid hs -> fkeep 0 s s' -> (forall m, fview s' m = fview s m) ->
     Q (dec_sb (fview s 1)) s') ->
  wp (lcall (readsb 1)) Q s.
Proof.
  intros Hx Hn Hnh Hf HQ. rewrite wp_lcall. unfold readsb. pose proof Hx as [H1 H2 H3]. wp_simpl.
  apply (wp_tx_bread _ pid hs (logged (flog s))); [done|unfold flen in Hn; lia|done| |].
  { right. rewrite logged_n by done. pose proof (lo_n _ H2). unfold fits, lhn in Hf. lia. }
  intros b l1 X1 F1 Hb L1 D1 T1 V1. wp_simpl.
  eapply wp_tx_bdata; [done|by rewrite lookup_insert_eq|]. wp_simpl.
  eapply wp_tx_brelse; [done|by rewrite lookup_insert_eq|]. rewrite delete_insert_id by done.
  intros l2 X2 F2 L2 D2 T2 V2. wp_simpl. rewrite V1.
  assert (tframe (flog s) l2) by (by etrans). assert (lg l2 = lg (flog s)) by congruence.
  apply HQ; [by eapply fx_eq|apply fkeep_eq; congruence|]. intros m. unfold fview. cbn. by rewrite V2, V1.
Qed.

(** The bitmap block of [b] with its bit cleared. *)
Definition cleared (s : fsst) (b : Z) : block :=
  let d := fview s (bmblock (fsb s) b) in let bi := b mod BPB in
  <[Z.to_nat (bi / 8) := Z.land (byte_at d (bi / 8)) (u8 (Z.lnot (bit bi)))]> d.

Lemma set_fsb_id s : set_fsb (fsb s) s = s.
Proof. by destruct s. Qed.

Definition bfree_tail (bp : nat) (d : block) (bi : Z) : M fsst unit :=
  if Z.land (byte_at d (bi / 8)) (bit bi) =? 0 then panic "freeing free block" else
  fset bp (<[Z.to_nat (bi / 8) := Z.land (byte_at d (bi / 8)) (u8 (Z.lnot (bit bi)))]> d) ;;
  flogw bp ;;
  fbrelse bp.

(** [bfree] up to the test of the bit. *)
Lemma bfree_run s pid hs b :
  fx s pid hs -> layout s -> hs_ok s hs -> fits s hs -> 0 <= b < sb_size (fsb s) ->
  exists bp s1, fx s1 pid (<[bp := (bmblock (fsb s) b, false)]> hs) /\ hs !! bp = None /\
    fkeep 0 s s1 /\ (forall m, fview s1 m = fview s m) /\
    bfree 1 b s = bfree_tail bp (fview s (bmblock (fsb s) b)) (b mod BPB) s1.
Proof.
  intros Hx Hl Hh Hf Hb.
  assert (wp (lcall (readsb 1)) (fun sb s0 => sb = fsb s /\ fx s0 pid hs /\ fkeep 0 s s0 /\
    forall m, fview s0 m = fview s m) s) as (sb & s0 & E0 & -> & X0 & K0 & V0)%wp_inv.
  { apply (wp_readsb s pid hs); [done|by apply ly_len| |done|].
    - intros k m Hk. by destruct (Hh _ _ _ Hk) as (_ & _ & ?).
    - intros s' X' K' V'. split_and!; [by apply ly_sb|done..]. }
  assert (wp (fbread 1 (bmblock (fsb s) b)) (fun bp s1 => fx s1 pid (<[bp := (bmblock (fsb s) b, false)]> hs) /\
     hs !! bp = None /\ fkeep 0 s s1 /\ forall m, fview s1 m = fview s m) s0)
    as (bp & s1 & E1 & X1 & Hbp & K1 & V1)%wp_inv.
  { apply (wp_fbread s0 pid hs); [done| | | |].
    - rewrite (fkeep_len _ _ _ K0). by apply (ly_bm _ Hl).
    - intros k m Hk. destruct (Hh _ _ _ Hk) as (H & _). by apply (H b).
    - unfold fits in Hf. pose proof (fk_n _ _ _ K0). lia.
    - intros bp s1 X1 K1 Hbp V1. split_and!; [done|done|by eapply (fkeep_trans 0 0)|].
      intros m. by rewrite V1. }
  exists bp, s1. split_and!; [done..|]. unfold bfree. rewrite (bind_ok _ _ _ _ _ E0).
  assert (set_fsb (fsb s) s0 = s0) as Es by (rewrite <- (fk_sb _ _ _ K0); apply set_fsb_id).
  erewrite bind_ok by (unfold modify; rewrite Es; reflexivity).
  rewrite (bblock_eq s pid hs) by done. rewrite (bind_ok _ _ _ _ _ E1). cbv zeta.
  assert (wp (fdata bp) (fun d s2 => d = fview s (bmblock (fsb s) b) /\ s2 = s1) s1)
    as (d & s2 & E2 & -> & ->)%wp_inv.
  { eapply wp_fdata; [done|by rewrite lookup_insert_eq|]. by rewrite V1. }
  by rewrite (bind_ok _ _ _ _ _ E2).
Qed.

Lemma used_bit s b :
  (Z.land (byte_at (fview s (bmblock (fsb s) b)) (b mod BPB / 8)) (bit (b mod BPB)) =? 0) = negb (used s b).
Proof. unfold bit, used, bmbit. apply land_bit. apply Z.mod_pos_bound. lia. Qed.

Lemma bfree_free_panics s pid hs b :
  fx s pid hs -> layout s -> hs_ok s hs -> fits s hs -> 0 <= b < sb_size (fsb s) ->
  used s b = false -> bfree 1 b s = Panic "freeing free block".
Proof.
  intros Hx Hl Hh Hf Hb Hu. destruct (bfree_run s pid hs b) as (bp & s1 & _ & _ & _ & _ & ->); [done..|].
  unfold bfree_tail. by rewrite used_bit, Hu.
Qed.

Lemma wp_bfree s pid hs b Q :
  fx s pid hs -> layout s -> hs_ok s hs -> room s 1 -> (size hs <= 1)%nat -> 0 <= b < sb_size (fsb s) ->
  used s b = true ->
  (forall s', fx s' pid hs -> fkeep 1 s s' ->
     (forall k, fview s' k = vupd (fview s) (bmblock (fsb s) b) (cleared s b) k) -> Q tt s') ->
  wp (bfree 1 b) Q s.
Proof.
  intros Hx Hl Hh Hr Hsz Hb Hu HQ.
  destruct (bfree_run s pid hs b) as (bp & s1 & X1 & Hbp & K1 & V1 & E); [done|done|done|by apply fits_room|done|].
  unfold wp. rewrite E. fold (wp (bfree_tail bp (fview s (bmblock (fsb s) b)) (b mod BPB)) Q s1).
  unfold bfree_tail. rewrite used_bit, Hu. cbn [negb].
  assert (fhome s (bmblock (fsb s) b)) as Hhome by (by apply (ly_bm _ Hl)).
  pose proof (Z.mod_pos_bound b BPB ltac:(unfold BPB; lia)) as Hm.
  eapply wp_fstore; [exact X1|done| |by eapply fkeep_home|by eapply room_keep|].
  { eapply (bmbit_clear _ (b mod BPB) 0); [eapply fview_ok; [done|apply Hhome]|done|lia]. }
  intros s2 X2 K2 V2. apply HQ; [done|by eapply (fkeep_trans 0 1)|].
  intros k. rewrite V2. unfold vupd. case_decide; [done|apply V1].
Qed.

(** ** The bitmap after each operation *)

Lemma bmblock_inj_bit s b b' :
  0 <= b -> 0 <= b' -> bmblock (fsb s) b' = bmblock (fsb s) b -> b' mod BPB = b mod BPB -> b' = b.
Proof.
  unfold bmblock, BPB. intros Hb Hb' E1 E2. pose proof (Z.div_mod b 4096). pose proof (Z.div_mod b' 4096). lia.
Qed.


Lemma used_vupd s s' b d' v j :
  fsb s' = fsb s -> 0 <= b -> 0 <= j ->
  fview s' (bmblock (fsb s) j) = vupd (fview s) (bmblock (fsb s) b) d' (bmblock (fsb s) j) ->
  (forall bj, 0 <= bj -> bmbit d' bj = if bj =? b mod BPB then v else bmbit (fview s (bmblock (fsb s) b)) bj) ->
  used s' j = if j =? b then v else used s j.
Proof.
  intros Es Hb Hj Ev Hd. unfold used. rewrite Es, Ev. unfold vupd.
  pose proof (Z.mod_pos_bound j BPB ltac:(unfold BPB; lia)). case_decide as E.
  - rewrite Hd by lia. rewrite <- E. destruct (Z.eqb_spec (j mod BPB) (b mod BPB)) as [Em|Em].
    + rewrite (proj2 (Z.eqb_eq j b)); [done|]. by apply (bmblock_inj_bit s).
    + destruct (Z.eqb_spec j b) as [->|]; done.
  - destruct (Z.eqb_spec j b) as [->|]; done.
Qed.

Section posts.
Context (s : fsst) (pid : Z) (hs : handles) (Hx : fx s pid hs) (Hl : layout s).

Lemma bm_block_ok b : 0 <= b < sb_size (fsb s) -> block_ok (fview s (bmblock (fsb s) b)).
Proof. intros Hb. eapply fview_ok; [done|]. by apply (ly_bm _ Hl). Qed.

Lemma balloc_used b s' j :
  balloc_post s pid hs b s' -> 0 <= j < sb_size (fsb s) -> used s' j = (j =? b) || used s j.
Proof.
  intros [H1 H2 H3 H4 H5 H6] Hj.
  pose proof (Z.mod_pos_bound b BPB ltac:(unfold BPB; lia)) as Hm.
  destruct (ly_free _ Hl b H3 H4) as [_ Hnb].
  rewrite (used_vupd s s' b (marked s b) true); [by destruct (j =? b)|apply H2|lia|lia| |].
  - rewrite H6. unfold vupd at 1. rewrite decide_False; [done|]. by apply Hnb.
  - intros bj Hbj. unfold marked. destruct (bmbit_mark _ _ bj (bm_block_ok b H3) Hm Hbj) as [_ ->].
    by destruct (bj =? b mod BPB).
Qed.

Lemma balloc_other b s' k :
  balloc_post s pid hs b s' -> k <> b -> (forall j, 0 <= j < sb_size (fsb s) -> bmblock (fsb s) j <> k) ->
  fview s' k = fview s k.
Proof.
  intros [H1 H2 H3 H4 H5 H6] Hk Hnb. rewrite H6. unfold vupd. rewrite !decide_False; [done| |done].
  intros ->. by destruct (Hnb b H3).
Qed.

Lemma layout_keep k s' :
  fkeep k s s' -> (forall j, 0 <= j < sb_size (fsb s) -> used s' j = false ->
     fhome s j /\ forall b', 0 <= b' < sb_size (fsb s) -> bmblock (fsb s) b' <> j) ->
  fview s' 1 = fview s 1 -> used s' 1 = true -> layout s'.
Proof.
  intros K Hfree E1 Hu. split; rewrite ?(fk_sb _ _ _ K), ?(fkeep_len _ _ _ K).
  - by apply ly_size.
  - by apply ly_bm0.
  - intros b Hb. rewrite (fkeep_home _ _ _ _ K). by apply (ly_bm _ Hl).
  - intros b Hb Hub. rewrite (fkeep_home _ _ _ _ K). by apply Hfree.
  - by apply ly_len.
  - rewrite E1. by apply ly_sb.
  - destruct (ly_one _ Hl) as (H1 & H2 & H3). done.
Qed.

Lemma balloc_layout b s' : balloc_post s pid hs b s' -> layout s'.
Proof.
  intros Hp. destruct (ly_one _ Hl) as (H1 & H2 & H3). pose proof Hp as [P1 P2 P3 P4 P5 P6].
  assert (b <> 1) as Hb1 by (intros ->; congruence).
  eapply layout_keep; [done| | |].
  - intros j Hj Hu. rewrite (balloc_used b s' j Hp Hj) in Hu. apply orb_false_iff in Hu as [_ Hu].
    by apply (ly_free _ Hl).
  - by apply (balloc_other b s').
  - rewrite (balloc_used b s' 1 Hp) by lia. rewrite H2. apply orb_true_r.
Qed.
End posts.

(** [balloc] in a transaction: with a free block in the bitmap and room
    for two blocks in the log it returns the lowest free block number, marks
    exactly that block used, fills it with zeroes and changes no other block
    than its bitmap block; the layout invariant is kept. *)
Theorem balloc_allocates s pid hs :
  fx s pid hs -> layout s -> hs_ok s hs -> room s 2 -> (size hs <= 1)%nat ->
  (exists f, 0 <= f < sb_size (fsb s) /\ used s f = false) ->
  exists b s', balloc 1 s = Ok b s' /\ fx s' pid hs /\ layout s' /\ fkeep 2 s s' /\
    0 <= b < sb_size (fsb s) /\ used s b = false /\ (forall j, 0 <= j < b -> used s j = true) /\
    (forall j, 0 <= j < sb_size (fsb s) -> used s' j = (j =? b) || used s j) /\
    fview s' b = zeros /\
    (forall k, k <> b -> (forall j, 0 <= j < sb_size (fsb s) -> bmblock (fsb s) j <> k) ->
       fview s' k = fview s k).
Proof.
  intros Hx Hl Hh Hr Hsz Hfree.
  assert (wp (balloc 1) (balloc_post s pid hs) s) as (b & s' & E & Hp)%wp_inv.
  { apply (wp_balloc s pid hs); [done..|]. done. }
  exists b, s'. pose proof Hp as [P1 P2 P3 P4 P5 P6]. split_and!; try done; try lia.
  - by apply (balloc_layout s pid hs Hx Hl b).
  - intros j Hj. by apply (balloc_used s pid hs Hx Hl b).
  - rewrite P6. apply vupd_eq.
  - intros k Hk Hnb. by apply (balloc_other s pid hs b).
Qed.

(** [bfree] clears exactly the bit of the block it is given and changes
    no block but that bitmap block; freeing a block that is already free
    panics. *)
Theorem bfree_frees s pid hs b :
  fx s pid hs -> layout s -> hs_ok s hs -> room s 1 -> (size hs <= 1)%nat -> 0 <= b < sb_size (fsb s) ->
  if used s b then
    exists s', bfree 1 b s = Ok tt s' /\ fx s' pid hs /\ fkeep 1 s s' /\
      (forall j, 0 <= j < sb_size (fsb s) -> used s' j = negb (j =? b) && used s j) /\
      (forall k, k <> bmblock (fsb s) b -> fview s' k = fview s k)
  else bfree 1 b s = Panic "freeing free block".
Proof.
  intros Hx Hl Hh Hr Hsz Hb. destruct (used s b) eqn:Hu.
  - assert (wp (bfree 1 b) (fun _ s' => fx s' pid hs /\ fkeep 1 s s' /\
      forall k, fview s' k = vupd (fview s) (bmblock (fsb s) b) (cleared s b) k) s)
      as ([] & s' & E & X & K & V)%wp_inv.
    { apply (wp_bfree s pid hs); done. }
    exists s'. split_and!; [done..| |].
    + intros j Hj. pose proof (Z.mod_pos_bound b BPB ltac:(unfold BPB; lia)) as Hm.
      rewrite (used_vupd s s' b (cleared s b) false); [by destruct (j =? b)|apply K|lia|lia|apply V|].
      intros bj Hbj. unfold cleared.
      destruct (bmbit_clear _ _ bj (bm_block_ok s pid hs Hx Hl b Hb) Hm Hbj) as [_ ->].
      by destruct (bj =? b mod BPB).
    + intros k Hk. rewrite V. by apply vupd_ne.
  - eapply bfree_free_panics; try done. by apply fits_room.
Qed.
