(* ===== verification/FsInodes.v ===== *)
(** * Inodes: the on-disk encoding and the inode cache *)

From S2P Require Import Prelude Bytes Core Bio Log Txn StringLib Cons Fs FsTx.

(** ** struct dinode *)

Record inode_ok (ip : inode) : Prop := {
  io_type : -32768 <= i_type ip < 32768;
  io_major : -32768 <= i_major ip < 32768;
  io_minor : -32768 <= i_minor ip < 32768;
  io_nlink : -32768 <= i_nlink ip < 32768;
  io_size : 0 <= i_size ip < 4294967296;
  io_addrs : length (i_addrs ip) = S NDIRECT /\ Forall (fun a => 0 <= a < 4294967296) (i_addrs ip) }.

(** The fields that live on disk. *)
Definition same_dinode (a b : inode) : Prop :=
  i_type a = i_type b /\ i_major a = i_major b /\ i_minor a = i_minor b /\ i_nlink a = i_nlink b /\
  i_size a = i_size b /\ i_addrs a = i_addrs b.

(** Storing the addresses from entry [j] on. *)
Definition put_addrs_from (d : block) (o j : nat) (l : list Z) : block :=
  foldl (fun d p => put32 d (o + 12 + 4 * p.1) p.2) d (zip (seq j (length l)) l).

Lemma put_addrs_from_cons d o j v l :
  put_addrs_from d o j (v :: l) = put_addrs_from (put32 d (o + 12 + 4 * j) v) o (S j) l.
Proof. done. Qed.

Lemma length_put_addrs d o j l :
  (o + 12 + 4 * (j + length l) <= length d)%nat -> length (put_addrs_from d o j l) = length d.
Proof.
  revert d j. induction l as [|v l IH]; intros d j Hl; [done|]. cbn [length] in Hl.
  rewrite put_addrs_from_cons, IH; rewrite length_put_le by lia; [done|lia].
Qed.

Lemma put_addrs_ne n d o j l p :
  (o + 12 + 4 * (j + length l) <= length d)%nat -> (p + n <= length d)%nat ->
  (p + n <= o + 12 + 4 * j \/ o + 12 + 4 * (j + length l) <= p)%nat ->
  get_le n (put_addrs_from d o j l) p = get_le n d p.
Proof.
  revert d j. induction l as [|v l IH]; intros d j Hl Hp Hd; [done|]. cbn [length] in *.
  rewrite put_addrs_from_cons, IH by (rewrite ?length_put_le by lia; lia).
  apply get_put_le_ne; lia.
Qed.

Lemma put_addrs_get d o j l k v :
  (o + 12 + 4 * (j + length l) <= length d)%nat -> l !! k = Some v -> 0 <= v < 4294967296 ->
  get32 (put_addrs_from d o j l) (o + 12 + 4 * (j + k)) = v.
Proof.
  revert d j k. induction l as [|w l IH]; intros d j k Hl Hk Hv; [done|]. cbn [length] in *.
  rewrite put_addrs_from_cons. destruct k as [|k].
  - injection Hk as ->. rewrite Nat.add_0_r. rewrite put_addrs_ne by (rewrite ?length_put_le by lia; lia).
    rewrite get_put_le by lia. apply Z.mod_small. done.
  - cbn in Hk. replace (j + S k)%nat with (S j + k)%nat by lia. apply IH; [|done|done].
    rewrite length_put_le by lia. lia.
Qed.

(** The address fields of a slot as bytes ranges. *)
Lemma dinode_addrs_put d o l :
  length l = S NDIRECT -> Forall (fun a => 0 <= a < 4294967296) l -> (o + 64 <= length d)%nat ->
  dinode_addrs (put_addrs d o l) o = l.
Proof.
  intros Hl Hr Ho. unfold dinode_addrs. unfold NDIRECT in *. apply list_eq. intros k.
  rewrite list_lookup_fmap. destruct (decide (k < 13)%nat) as [Hk|Hk].
  - rewrite lookup_seq_lt by done. cbn [fmap option_fmap option_map Nat.add].
    destruct (lookup_lt_is_Some_2 l k) as [v Hv]; [lia|]. rewrite Hv. f_equal.
    apply (put_addrs_get d o 0 l k v); [lia|done|]. by eapply (Forall_lookup_1 _ _ _ _ Hr).
  - rewrite lookup_ge_None_2 by (rewrite length_seq; lia). cbn. symmetry. apply lookup_ge_None_2. lia.
Qed.

Lemma length_put_dinode d o ip :
  length (i_addrs ip) = S NDIRECT -> (o + 64 <= length d)%nat -> length (put_dinode d o ip) = length d.
Proof.
  intros Hl Ho. unfold NDIRECT in Hl. unfold put_dinode. change (put_addrs ?d ?o ?l) with (put_addrs_from d o 0 l).
  rewrite length_put_addrs; rewrite ?length_put_le; rewrite ?length_put_le; rewrite ?length_put_le;
    rewrite ?length_put_le; rewrite ?length_put_le; lia.
Qed.

Lemma s16_mod x : -32768 <= x < 32768 -> s16 (x mod 256 ^ Z.of_nat 2) = x.
Proof. apply s16_u16. Qed.

(** Reads and writes of a slot's fields never meet outside the slot. *)
Ltac dinode_len := rewrite ?length_put_le; rewrite ?length_put_le; rewrite ?length_put_le;
  rewrite ?length_put_le; rewrite ?length_put_le; lia.
Ltac dinode_get :=
  repeat first [ rewrite put_addrs_ne by dinode_len
               | rewrite get_put_le by dinode_len
               | rewrite get_put_le_ne by dinode_len ].

Lemma dinode_roundtrip d o ip x :
  inode_ok ip -> (o + 64 <= length d)%nat -> same_dinode (get_dinode (put_dinode d o ip) o x) ip.
Proof.
  intros [H1 H2 H3 H4 H5 [H6 H7]] Ho. unfold NDIRECT in H6.
  assert (same_dinode (mkInode 0 0 0 0 (s16 (get16 (put_dinode d o ip) o))
    (s16 (get16 (put_dinode d o ip) (o + 2))) (s16 (get16 (put_dinode d o ip) (o + 4)))
    (s16 (get16 (put_dinode d o ip) (o + 6))) (get32 (put_dinode d o ip) (o + 8))
    (dinode_addrs (put_dinode d o ip) o)) ip) as H; [|exact H].
  unfold same_dinode, put_dinode. cbn [i_type i_major i_minor i_nlink i_size i_addrs]. split_and!.
  1-5: change (put_addrs ?d ?o ?l) with (put_addrs_from d o 0 l); dinode_get.
  1-4: by apply s16_mod.
  - by apply Z.mod_small.
  - apply dinode_addrs_put; [done|done|dinode_len].
Qed.

Lemma dinode_other d o o' ip x :
  length (i_addrs ip) = S NDIRECT -> (o + 64 <= length d)%nat -> (o' + 64 <= length d)%nat ->
  (o + 64 <= o' \/ o' + 64 <= o)%nat -> get_dinode (put_dinode d o ip) o' x = get_dinode d o' x.
Proof.
  intros Hl Ho Ho' Hd. unfold NDIRECT in Hl.
  assert (forall n p, (o' <= p)%nat -> (p + n <= o' + 64)%nat ->
    get_le n (put_dinode d o ip) p = get_le n d p) as Hg.
  { intros n p H1 H2. unfold put_dinode. change (put_addrs ?d ?o ?l) with (put_addrs_from d o 0 l).
    dinode_get. done. }
  unfold get_dinode. rewrite !Hg by lia. f_equal. unfold dinode_addrs. apply list_fmap_ext.
  intros k j Hj. apply lookup_seq in Hj as [-> Hk]. unfold NDIRECT in Hk. apply Hg; lia.
Qed.

(** ** iupdate *)

Definition iblock (sb : superblock) (inum : Z) : Z := inum / IPB + sb_inodestart sb.

(** The disk inode [inum] as the file system sees it (with the bookkeeping
    fields of [x]). *)
Definition dinode_at (s : fsst) (inum : Z) (x : inode) : inode :=
  get_dinode (fview s (iblock (fsb s) inum)) (dinode_off inum) x.

(** The inode blocks lie outside the log. *)
Definition itable_ok (s : fsst) : Prop :=
  0 <= sb_inodestart (fsb s) /\
  forall inum, 0 <= inum < sb_ninodes (fsb s) -> fhome s (iblock (fsb s) inum).

Lemma iblock_eq s pid hs inum :
  fx s pid hs -> itable_ok s -> 0 <= inum < sb_ninodes (fsb s) ->
  IBLOCK inum (fsb s) = iblock (fsb s) inum.
Proof.
  intros Hx [_ Hi] Hn. destruct (Hi inum Hn) as [Hr _].
  pose proof (lo_region _ (fx_log _ _ _ Hx)) as Hreg. unfold IBLOCK, iblock in *. apply u32_id. lia.
Qed.

Lemma dinode_off_bound inum : (dinode_off inum + 64 <= Z.to_nat BSIZE)%nat.
Proof. unfold dinode_off, BSIZE, IPB. pose proof (Z.mod_pos_bound inum 8). lia. Qed.

Lemma dinode_off_ne a b sb :
  0 <= a -> 0 <= b -> a <> b -> iblock sb a = iblock sb b ->
  (dinode_off a + 64 <= dinode_off b \/ dinode_off b + 64 <= dinode_off a)%nat.
Proof.
  unfold iblock, dinode_off, IPB. intros Ha Hb Hne E. pose proof (Z.div_mod a 8). pose proof (Z.div_mod b 8).
  pose proof (Z.mod_pos_bound a 8). pose proof (Z.mod_pos_bound b 8). lia.
Qed.

Lemma put_le_ok n d off v :
  block_ok d -> (off + n <= Z.to_nat BSIZE)%nat -> block_ok (put_le n d off v).
Proof. intros [H1 H2] Ho. split; [rewrite length_put_le by lia; done|by apply put_le_bytes]. Qed.

Lemma put_addrs_ok d o j l :
  block_ok d -> (o + 12 + 4 * (j + length l) <= Z.to_nat BSIZE)%nat -> block_ok (put_addrs_from d o j l).
Proof.
  revert d j. induction l as [|v l IH]; intros d j Hd Hl; [done|]. cbn [length] in Hl.
  rewrite put_addrs_from_cons. apply IH; [|lia]. apply put_le_ok; [done|lia].
Qed.

Lemma put_dinode_ok d inum ip :
  block_ok d -> length (i_addrs ip) = S NDIRECT -> block_ok (put_dinode d (dinode_off inum) ip).
Proof.
  intros Hd Hl. pose proof (dinode_off_bound inum). unfold NDIRECT in Hl. unfold put_dinode.
  change (put_addrs ?d ?o ?l) with (put_addrs_from d o 0 l).
  apply put_addrs_ok; [|lia]. repeat (apply put_le_ok; [|lia]). done.
Qed.

Lemma wp_get_inode s i ip (Q : inode -> fsst -> Prop) :
  inodes s !! i = Some ip -> Q ip s -> wp (get_inode i) Q s.
Proof. intros Hi HQ. unfold get_inode. wp_simpl. by apply (wp_idx _ _ ip). Qed.

Lemma wp_upd_inode s i f ip (Q : unit -> fsst -> Prop) :
  inodes s !! i = Some ip -> Q tt (set_inodes (<[i := f ip]> (inodes s)) s) -> wp (upd_inode i f) Q s.
Proof. intros Hi HQ. unfold upd_inode. wp_simpl. apply (wp_get_inode _ _ ip); [done|]. by wp_simpl. Qed.

Lemma wp_iupdate s pid hs i ip Q :
  fx s pid hs -> itable_ok s -> inodes s !! i = Some ip -> i_dev ip = 1 ->
  0 <= i_inum ip < sb_ninodes (fsb s) -> length (i_addrs ip) = S NDIRECT ->
  (forall b m, hs !! b <> Some (iblock (fsb s) (i_inum ip), m)) -> room s 1 ->
  Z.of_nat (size hs) + lhn s < Z.of_nat NBUF ->
  (forall s', fx s' pid hs -> fkeep 1 s s' ->
     (forall k, fview s' k = vupd (fview s) (iblock (fsb s) (i_inum ip))
        (put_dinode (fview s (iblock (fsb s) (i_inum ip))) (dinode_off (i_inum ip)) ip) k) -> Q tt s') ->
  wp (iupdate i) Q s.
Proof.
  intros Hx Hit Hi Hdev Hn Hl Hnh Hr Hf HQ. unfold iupdate. wp_simpl.
  apply (wp_get_inode _ _ ip); [done|]. wp_simpl. rewrite Hdev, (iblock_eq s pid hs) by done.
  pose proof (proj2 Hit _ Hn) as Hhome.
  apply (wp_fbread s pid hs); [done|apply Hhome|done|done|]. intros b s1 X1 K1 Hb V1. wp_simpl.
  eapply wp_fdata; [done|by rewrite lookup_insert_eq|]. rewrite V1.
  assert (forall Q', (forall s', fx s' pid hs -> fkeep 1 s s' ->
     (forall k, fview s' k = vupd (fview s) (iblock (fsb s) (i_inum ip))
        (put_dinode (fview s (iblock (fsb s) (i_inum ip))) (dinode_off (i_inum ip)) ip) k) -> Q' tt s') ->
     wp (fset b (put_dinode (fview s (iblock (fsb s) (i_inum ip))) (dinode_off (i_inum ip)) ip) ;;
         flogw b ;; fbrelse b) Q' s1) as Hst.
  { intros Q' HQ'. eapply wp_fstore; [exact X1|done| |by eapply fkeep_home|by eapply room_keep|].
    - apply put_dinode_ok; [|done]. eapply fview_ok; [done|apply Hhome].
    - intros s2 X2 K2 V2. apply HQ'; [done|by eapply (fkeep_trans 0 1)|].
      intros k. rewrite V2. unfold vupd. case_decide; by rewrite ?V1. }
  specialize (Hst Q HQ). revert Hst. wp_simpl. done.
Qed.

Lemma fx_inodes s pid hs v : fx s pid hs -> fx (set_inodes v s) pid hs.
Proof. intros [H1 H2 H3]. by split. Qed.

(** Loading an inode from the disk. *)
Lemma wp_ilock_load s pid hs i ip Q :
  fx s pid hs -> itable_ok s -> inodes s !! i = Some ip -> i_valid ip = 0 -> i_dev ip = 1 ->
  0 <= i_inum ip < sb_ninodes (fsb s) ->
  (forall b m, hs !! b <> Some (iblock (fsb s) (i_inum ip), m)) ->
  Z.of_nat (size hs) + lhn s < Z.of_nat NBUF ->
  i_type (dinode_at s (i_inum ip) ip) <> 0 ->
  (forall s', fx s' pid hs -> (forall k, fview s' k = fview s k) -> fsb s' = fsb s ->
     inodes s' = <[i := set_i_valid 1 (dinode_at s (i_inum ip) ip)]> (inodes s) -> Q tt s') ->
  wp (ilock_load i) Q s.
Proof.
  intros Hx Hit Hi Hv Hdev Hn Hnh Hf Hty HQ. unfold ilock_load. wp_simpl.
  apply (wp_get_inode _ _ ip); [done|]. rewrite Hv. cbn [Z.eqb]. wp_simpl.
  rewrite Hdev, (iblock_eq s pid hs) by done. pose proof (proj2 Hit _ Hn) as Hhome.
  apply (wp_fbread s pid hs); [done|apply Hhome|done|done|]. intros b s1 X1 K1 Hb V1. wp_simpl.
  eapply wp_fdata; [done|by rewrite lookup_insert_eq|]. wp_simpl. rewrite V1.
  apply (wp_upd_inode _ _ _ ip); [by rewrite (fk_inodes _ _ _ K1)|]. wp_simpl.
  assert (i < length (inodes s))%nat as Hlt by (by eapply lookup_lt_Some).
  rewrite (fk_inodes _ _ _ K1). fold (dinode_at s (i_inum ip) ip).
  eapply wp_fbrelse; [by apply fx_inodes|by rewrite lookup_insert_eq|]. rewrite delete_insert_id by done.
  intros s2 X2 K2 V2. wp_simpl. pose proof (fk_inodes _ _ _ K2) as E2. cbn in E2.
  apply (wp_upd_inode _ _ _ (dinode_at s (i_inum ip) ip)); [rewrite E2; by apply list_lookup_insert_eq|].
  rewrite E2, list_insert_insert_eq. wp_simpl.
  eapply wp_get_inode; [cbn; by apply list_lookup_insert_eq|].
  cbn [i_type set_i_valid]. rewrite (proj2 (Z.eqb_neq _ _) Hty). wp_simpl. apply HQ; [by apply fx_inodes| | |done].
  - intros k. change (fview (set_inodes _ s2) k) with (fview s2 k). rewrite V2.
    change (fview (set_inodes _ s1) k) with (fview s1 k). apply V1.
  - cbn. rewrite (fk_sb _ _ _ K2). cbn. apply K1.
Qed.

(** C21.  The inode cache is write-through: after [iupdate] of an inode, loading
    its number into a cache entry gives back the same type, device numbers,
    link count, size and block addresses, for every value these fields can
    have; no other inode of the disk changes. *)
Theorem iupdate_ilock_roundtrip s pid i j ip x :
  fx s pid ∅ -> itable_ok s -> room s 1 ->
  inodes s !! i = Some ip -> inode_ok ip -> i_type ip <> 0 -> i_dev ip = 1 ->
  0 <= i_inum ip < sb_ninodes (fsb s) ->
  inodes s !! j = Some x -> i_valid x = 0 -> i_dev x = 1 -> i_inum x = i_inum ip ->
  exists s' y, (iupdate i ;; ilock_load j) s = Ok tt s' /\ fx s' pid ∅ /\
    inodes s' !! j = Some y /\ same_dinode y ip /\ i_valid y = 1 /\ i_inum y = i_inum ip /\
    forall n z, 0 <= n < sb_ninodes (fsb s) -> n <> i_inum ip -> dinode_at s' n z = dinode_at s n z.
Proof.
  intros Hx Hit Hr Hi Hok Hty Hdev Hn Hj Hv Hdx Hnx.
  assert (Z.of_nat (size (∅ : handles)) + lhn s < Z.of_nat NBUF - 1) as Hf.
  { rewrite map_size_empty. unfold room, LOGSIZE, NBUF in *. lia. }
  destruct (io_addrs _ Hok) as [Hla _]. pose proof (proj2 Hit _ Hn) as Hhome.
  pose proof (fview_ok _ _ _ _ Hx (proj1 Hhome)) as [Hlen _].
  set (d' := put_dinode (fview s (iblock (fsb s) (i_inum ip))) (dinode_off (i_inum ip)) ip).
  assert (same_dinode (get_dinode d' (dinode_off (i_inum ip)) x) ip) as Hsame.
  { apply dinode_roundtrip; [done|]. rewrite Hlen. apply dinode_off_bound. }
  assert (wp (iupdate i ;; ilock_load j) (fun _ s' => fx s' pid ∅ /\
    inodes s' = <[j := set_i_valid 1 (get_dinode d' (dinode_off (i_inum ip)) x)]> (inodes s) /\
    fsb s' = fsb s /\ forall k, fview s' k = vupd (fview s) (iblock (fsb s) (i_inum ip)) d' k) s)
    as ([] & s' & E & X' & I' & B' & V')%wp_inv.
  { wp_simpl. apply (wp_iupdate s pid ∅ i ip); [done..|lia|]. intros s1 X1 K1 V1.
    assert (dinode_at s1 (i_inum x) x = get_dinode d' (dinode_off (i_inum ip)) x) as Ed.
    { unfold dinode_at. by rewrite Hnx, (fk_sb _ _ _ K1), V1, vupd_eq. }
    apply (wp_ilock_load s1 pid ∅ j x); try done.
    - destruct Hit as [I0 I1]. split; rewrite (fk_sb _ _ _ K1); [done|].
      intros n Hn'. rewrite (fkeep_home _ _ _ _ K1). by apply I1.
    - by rewrite (fk_inodes _ _ _ K1).
    - by rewrite Hnx, (fk_sb _ _ _ K1).
    - pose proof (fk_n _ _ _ K1). lia.
    - rewrite Ed. destruct Hsame as (-> & _). done.
    - intros s2 X2 V2 B2 I2. split_and!; [done| | |].
      + by rewrite I2, Ed, (fk_inodes _ _ _ K1).
      + by rewrite B2, (fk_sb _ _ _ K1).
      + intros k. by rewrite V2, V1. }
  exists s', (set_i_valid 1 (get_dinode d' (dinode_off (i_inum ip)) x)).
  split_and!; [done|done|rewrite I'; apply list_lookup_insert_eq; by eapply lookup_lt_Some|exact Hsame|done|done|].
  intros n z Hn' Hne. unfold dinode_at. rewrite B', V'. unfold vupd. case_decide as Eb; [|done].
  rewrite Eb. apply dinode_other; [done|rewrite Hlen; apply dinode_off_bound..|].
  apply (dinode_off_ne _ _ (fsb s)); [lia|lia|done|done].
Qed.

(** ** The inode cache *)

Definition hits (dev inum : Z) (ip : inode) : bool := (0 <? i_ref ip) && (i_dev ip =? dev) && (i_inum ip =? inum).

(** No inode is cached twice. *)
Record icache_ok (l : list inode) : Prop := {
  ic_ref : Forall (fun ip => 0 <= i_ref ip) l;
  ic_uniq : forall i j x y dev inum, l !! i = Some x -> l !! j = Some y ->
    hits dev inum x = true -> hits dev inum y = true -> i = j }.

Lemma iget_scan_hit dev inum l k e i :
  iget_scan dev inum l k e = inl i -> exists j x, i = (k + j)%nat /\ l !! j = Some x /\ hits dev inum x = true.
Proof.
  revert k e. induction l as [|ip l IH]; intros k e; cbn [iget_scan]; [done|].
  fold (hits dev inum ip). destruct (hits dev inum ip) eqn:E.
  - intros [= <-]. exists 0%nat, ip. split_and!; [lia|done|done].
  - intros (j & x & -> & Hx & Hh)%IH. exists (S j), x. split_and!; [lia|done|done].
Qed.

Lemma iget_scan_miss dev inum l k e r :
  iget_scan dev inum l k e = inr r ->
  (forall j x, l !! j = Some x -> hits dev inum x = false) /\
  match e with
  | Some _ => r = e
  | None => match r with
            | Some i => exists j x, i = (k + j)%nat /\ l !! j = Some x /\ i_ref x = 0
            | None => forall j x, l !! j = Some x -> i_ref x <> 0
            end
  end.
Proof.
  revert k e. induction l as [|ip l IH]; intros k e; cbn [iget_scan].
  - intros [= <-]. split; [done|]. by destruct e.
  - fold (hits dev inum ip). destruct (hits dev inum ip) eqn:E; [done|]. intros [H1 H2]%IH. split.
    { intros [|j] x Hx; [by injection Hx as <-|by apply (H1 j)]. }
    destruct e as [e|]; [done|]. destruct (Z.eqb_spec (i_ref ip) 0) as [E0|E0].
    + subst r. exists 0%nat, ip. split_and!; [lia|done|done].
    + destruct r as [i|].
      * destruct H2 as (j & x & -> & Hx & Hr). exists (S j), x. split_and!; [lia|done|done].
      * intros [|j] x Hx; [by injection Hx as <-|by apply (H2 j)].
Qed.

Lemma icache_insert l i x y :
  icache_ok l -> l !! i = Some x -> 0 <= i_ref y ->
  (forall j z, j <> i -> l !! j = Some z -> hits (i_dev y) (i_inum y) z = true -> i_ref y <= 0) ->
  icache_ok (<[i := y]> l).
Proof.
  intros [H1 H2] Hx Hy Hu. assert (i < length l)%nat as Hi by (by eapply lookup_lt_Some). split.
  - by apply Forall_insert.
  - assert (forall dev inum, hits dev inum y = true -> 0 < i_ref y /\ i_dev y = dev /\ i_inum y = inum) as Hd.
    { intros dev inum. unfold hits. intros [[?%Z.ltb_lt ?%Z.eqb_eq]%andb_prop ?%Z.eqb_eq]%andb_prop. done. }
    intros a b xa xb dev inum Ha Hb Hha Hhb.
    destruct (decide (a = i)) as [->|Hai], (decide (b = i)) as [->|Hbi]; [done| | |].
    + rewrite list_lookup_insert_eq in Ha by done. injection Ha as <-.
      rewrite list_lookup_insert_ne in Hb by done. destruct (Hd _ _ Hha) as (? & <- & <-).
      specialize (Hu b xb Hbi Hb Hhb). lia.
    + rewrite list_lookup_insert_eq in Hb by done. injection Hb as <-.
      rewrite list_lookup_insert_ne in Ha by done. destruct (Hd _ _ Hhb) as (? & <- & <-).
      specialize (Hu a xa Hai Ha Hha). lia.
    + rewrite list_lookup_insert_ne in Ha, Hb by done. by eapply H2.
Qed.

Lemma wp_fcore {A} (m : M kcore A) (Q : A -> fsst -> Prop) s :
  wp (fcore m) Q s = wp m (fun a c => Q a (lset c s)) (tcore (flog s)).
Proof. unfold fcore. by rewrite wp_lcall, wp_ccall. Qed.

(** The entry [iget] leaves: the cached one with one more reference, or the
    first free one taken over. *)
Definition iget_entry (dev inum : Z) (x : inode) : inode :=
  if hits dev inum x then set_i_ref (i_ref x + 1) x
  else mkInode dev inum 1 0 (i_type x) (i_major x) (i_minor x) (i_nlink x) (i_size x) (i_addrs x).

(** The cache lock around the update of one entry. *)
Lemma fcore_acquire s lk :
  held (tcore (flog s)) = [] -> fcore (acquire lk) s = Ok tt (lset (set_held [lk] (tcore (flog s))) s).
Proof.
  intros Hh. assert (wp (fcore (acquire lk)) (fun _ s' => s' = lset (set_held [lk] (tcore (flog s))) s) s)
    as ([] & s' & E & ->)%wp_inv; [|exact E].
  rewrite wp_fcore. apply wp_acquire; [rewrite Hh; apply not_elem_of_nil|]. by rewrite Hh.
Qed.

Lemma iget_update s i x f :
  held (tcore (flog s)) = [] -> inodes s !! i = Some x ->
  (upd_inode i f ;; fcore (release LkIcache) ;; mret i) (lset (set_held [LkIcache] (tcore (flog s))) s) =
    Ok i (set_inodes (<[i := f x]> (inodes s)) s).
Proof.
  intros Hh Hx.
  assert (wp (upd_inode i f ;; fcore (release LkIcache) ;; mret i)
    (fun r s' => r = i /\ s' = set_inodes (<[i := f x]> (inodes s)) s)
    (lset (set_held [LkIcache] (tcore (flog s))) s)) as (r & s' & -> & -> & ->)%wp_inv; [|done].
  wp_simpl. apply (wp_upd_inode _ _ _ x); [done|]. wp_simpl. rewrite wp_fcore.
  apply wp_release; [cbn; left|]. split; [done|].
  destruct s as [[[[] ? ? ?] ?] ? ? ?]. cbn in *. subst. by rewrite decide_True.
Qed.

(** [iget] keeps the inode cache free of duplicates: it either returns
    the entry that caches (dev, inum), with one more reference, or takes over
    an unreferenced entry for it, marked not loaded, and panics only when
    every entry is referenced; no other entry and no block changes. *)
Theorem iget_unique s dev inum :
  held (tcore (flog s)) = [] -> icache_ok (inodes s) ->
  (exists i x, iget dev inum s = Ok i (set_inodes (<[i := iget_entry dev inum x]> (inodes s)) s) /\
     inodes s !! i = Some x /\ (hits dev inum x = true \/ i_ref x = 0) /\
     icache_ok (<[i := iget_entry dev inum x]> (inodes s)) /\
     hits dev inum (iget_entry dev inum x) = true) \/
  (iget dev inum s = Panic "iget: no inodes" /\
   forall j x, inodes s !! j = Some x -> i_ref x <> 0 /\ hits dev inum x = false).
Proof.
  intros Hh Hok. unfold iget. rewrite (bind_ok _ _ _ _ _ (fcore_acquire s LkIcache Hh)).
  erewrite bind_ok by reflexivity. cbn [inodes lset fs_core set_flog].
  destruct (iget_scan dev inum (inodes s) 0 None) as [i|r] eqn:Hs.
  - apply iget_scan_hit in Hs as (j & x & -> & Hx & Hhit). left. exists j, x.
    assert (iget_entry dev inum x = set_i_ref (i_ref x + 1) x) as Ee by (unfold iget_entry; by rewrite Hhit).
    pose proof Hhit as [[?%Z.ltb_lt Ed%Z.eqb_eq]%andb_prop Ei%Z.eqb_eq]%andb_prop.
    rewrite Ee.
    split_and!; [exact (iget_update s j x (fun ip => set_i_ref (i_ref ip + 1) ip) Hh Hx)|done|by left| |].
    + apply (icache_insert _ _ x); [done|done|cbn; lia|]. cbn. intros k z Hk Hz Hhz. rewrite Ed, Ei in Hhz.
      destruct Hk. by apply (ic_uniq _ Hok k j z x dev inum).
    + unfold hits. cbn. rewrite Ed, Ei, !Z.eqb_refl. destruct (Z.ltb_spec 0 (i_ref x + 1)); [done|lia].
  - apply iget_scan_miss in Hs as [Hmiss Hr]. destruct r as [i|].
    + destruct Hr as (j & x & -> & Hx & Hr). left. exists j, x.
      assert (iget_entry dev inum x = mkInode dev inum 1 0 (i_type x) (i_major x) (i_minor x) (i_nlink x) (i_size x) (i_addrs x))
        as Ee by (unfold iget_entry; by rewrite (Hmiss _ _ Hx)).
      rewrite Ee. split_and!; [|done|by right| |].
      * exact (iget_update s j x (fun ip => mkInode dev inum 1 0 (i_type ip) (i_major ip) (i_minor ip)
          (i_nlink ip) (i_size ip) (i_addrs ip)) Hh Hx).
      * apply (icache_insert _ _ x); [done|done|cbn; lia|]. cbn. intros k z Hk Hz Hhz.
        by rewrite (Hmiss _ _ Hz) in Hhz.
      * unfold hits. cbn. by rewrite !Z.eqb_refl.
    + right. split; [done|]. intros j x Hx. split; [by eapply Hr|by eapply Hmiss].
Qed.
