(* ===== verification/FsData.v ===== *)
(** * File contents: [bmap], [readi] and [writei] against an array of bytes

    A file is the array of bytes its block addresses lead to, with zeroes
    where no block is allocated.  [bmap] allocates without changing the array,
    [writei] stores into it and [readi] returns it. *)

From S2P Require Import Prelude Bytes Core Bio Log Txn StringLib Cons Fs FsTx FsBlocks FsInodes.

(** ** Blocks a file may own *)

Definition notbm (s : fsst) (k : Z) : Prop := forall b, 0 <= b < sb_size (fsb s) -> bmblock (fsb s) b <> k.

(** The layout with the inode table: the boot block and the inode blocks are
    marked used. *)
Record fslay (s : fsst) : Prop := {
  fl_layout : layout s;
  fl_itable : itable_ok s;
  fl_zero : used s 0 = true;
  fl_iused : forall n, 0 <= n < sb_ninodes (fsb s) ->
     0 <= iblock (fsb s) n < sb_size (fsb s) /\ used s (iblock (fsb s) n) = true /\ iblock (fsb s) n <> 1 /\
     notbm s (iblock (fsb s) n) }.

Record datab (s : fsst) (k : Z) : Prop := {
  db_range : 0 < k < sb_size (fsb s);
  db_home : fhome s k;
  db_used : used s k = true;
  db_bm : notbm s k;
  db_one : k <> 1;
  db_inode : forall n, 0 <= n < sb_ninodes (fsb s) -> iblock (fsb s) n <> k }.

(** What allocation and data writes keep: the shape of the disk, and that used
    blocks stay used. *)
Record grow (s s' : fsst) : Prop := {
  gr_sb : fsb s' = fsb s;
  gr_len : flen s' = flen s;
  gr_home : forall n, fhome s' n <-> fhome s n;
  gr_used : forall j, 0 <= j < sb_size (fsb s) -> used s j = true -> used s' j = true;
  gr_one : fview s' 1 = fview s 1 }.

Lemma grow_refl s : grow s s.
Proof. by split. Qed.
Lemma grow_trans s1 s2 s3 : grow s1 s2 -> grow s2 s3 -> grow s1 s3.
Proof.
  intros [A1 A2 A3 A4 A5] [B1 B2 B3 B4 B5]. split; try congruence.
  - intros n. by rewrite B3, A3.
  - intros j Hj Hu. apply B4; [by rewrite A1|by apply A4].
Qed.
Lemma datab_grow s s' k : grow s s' -> datab s k -> datab s' k.
Proof.
  intros [G1 G2 G3 G4 G5] [D1 D2 D3 D4 D5 D6]. split; unfold notbm in *; rewrite ?G1; try done; [by apply G3|apply G4; [lia|done]].
Qed.
Lemma fslay_grow s s' : grow s s' -> fslay s -> fslay s'.
Proof.
  intros [G1 G2 G3 G4 G5] [[L1 L2 L3 L4 L5 L6 L7] [T1 T2] Hz Hi]. split.
  - split; rewrite ?G1, ?G2; try done.
    + intros b Hb. apply G3. by apply L3.
    + intros b Hb Hu. rewrite G3. apply L4; [done|]. destruct (used s b) eqn:E; [|done]. rewrite (G4 b Hb E) in Hu. done.
    + by rewrite G5.
    + destruct L7 as (? & ? & ?). split_and!; [done|apply G4; [lia|done]|done].
  - split; rewrite G1; [done|]. intros n Hn. apply G3. by apply T2.
  - apply G4; [|done]. destruct L7. lia.
  - intros n Hn. unfold notbm in *. rewrite G1 in *. destruct (Hi n Hn) as (? & ? & ? & ?). split_and!; try done; try lia. by apply G4.
Qed.

(** The number of free blocks. *)
Definition nfree (s : fsst) : nat := length (filter (fun b => used s b = false) (seqZ 0 (sb_size (fsb s)))).

Lemma nfree_pos s : (0 < nfree s)%nat -> exists f, 0 <= f < sb_size (fsb s) /\ used s f = false.
Proof.
  unfold nfree. destruct (filter _ _) as [|f l] eqn:E; [cbn; lia|]. intros _. exists f.
  assert (f ∈ filter (fun b => used s b = false) (seqZ 0 (sb_size (fsb s)))) as Hf by (rewrite E; set_solver).
  apply list_elem_of_filter in Hf as [Hu Hr]. apply elem_of_seqZ in Hr. split; [lia|done].
Qed.
Lemma filter_same (P Q : Z -> Prop) `{!forall x, Decision (P x), !forall x, Decision (Q x)} (l : list Z) :
  (forall x, x ∈ l -> P x <-> Q x) -> filter P l = filter Q l.
Proof.
  induction l as [|x l IH]; intros HPQ; [done|]. rewrite !filter_cons. rewrite IH by (intros y Hy; apply HPQ; set_solver).
  assert (P x <-> Q x) by (apply HPQ; set_solver). destruct (decide (P x)), (decide (Q x)); tauto.
Qed.
Lemma filter_drop_one (P Q : Z -> Prop) `{!forall x, Decision (P x), !forall x, Decision (Q x)} (l : list Z) b :
  NoDup l -> b ∈ l -> P b -> (forall x, x ∈ l -> Q x <-> (P x /\ x <> b)) -> length (filter P l) = S (length (filter Q l)).
Proof.
  intros Hnd. induction Hnd as [|x l Hx Hnd IH]; [by intros ?%not_elem_of_nil|]. intros Hb HP HQ. rewrite !filter_cons.
  destruct (decide (x = b)) as [-> |Hne].
  - rewrite decide_True by done. rewrite (decide_False (P := Q b)) by (rewrite HQ by set_solver; naive_solver). cbn. f_equal. f_equal.
    apply filter_same. intros y Hy. rewrite HQ by set_solver. split; [intros ?; split; [done|by intros ->]|naive_solver].
  - apply elem_of_cons in Hb as [?|Hb]; [done|]. assert (Q x <-> P x) as Hx' by (rewrite HQ by set_solver; naive_solver).
    specialize (IH Hb HP ltac:(intros y Hy; apply HQ; set_solver)).
    destruct (decide (P x)), (decide (Q x)); cbn; rewrite ?IH; tauto.
Qed.

Lemma wp_balloc_file s pid hs Q :
  fx s pid hs -> fslay s -> hs_ok s hs -> room s 2 -> (size hs <= 1)%nat -> (0 < nfree s)%nat ->
  (forall b s', fx s' pid hs -> fkeep 2 s s' -> grow s s' -> used s b = false -> 0 <= b < sb_size (fsb s) -> datab s' b ->
     fview s' b = zeros -> (forall k, k <> b -> notbm s k -> fview s' k = fview s k) ->
     nfree s = S (nfree s') -> Q b s') ->
  wp (balloc 1) Q s.
Proof.
  intros Hx Hl Hh Hr Hsz Hf HQ. pose proof (fl_layout _ Hl) as Hly.
  apply (wp_balloc s pid hs); [done..|by apply nfree_pos|]. intros b s' Hp. pose proof Hp as [P1 P2 P3 P4 P5 P6].
  destruct (ly_one _ Hly) as (O1 & O2 & O3). destruct (ly_free _ Hly b P3 P4) as [F1 F2].
  assert (b <> 1) as Hb1 by congruence. assert (b <> 0) as Hb0 by (pose proof (fl_zero _ Hl); congruence).
  assert (grow s s') as Hg.
  { split; [apply P2|by eapply fkeep_len|intros n; by eapply fkeep_home| |by apply (balloc_other s pid hs b)].
    intros j Hj Hu. rewrite (balloc_used s pid hs Hx Hly b s' j Hp Hj), Hu. apply orb_true_r. }
  apply HQ; try done.
  - split; unfold notbm; rewrite ?(gr_sb _ _ Hg); try done; [lia|by apply (gr_home _ _ Hg)| |].
    + rewrite (balloc_used s pid hs Hx Hly b s' b Hp P3), Z.eqb_refl. done.
    + intros n Hn E. destruct (fl_iused _ Hl n Hn) as (_ & Hu & _). congruence.
  - rewrite P6. apply vupd_eq.
  - intros k Hk Hnb. by apply (balloc_other s pid hs b).
  - unfold nfree. rewrite (gr_sb _ _ Hg). apply filter_drop_one with b; [apply NoDup_seqZ|apply elem_of_seqZ; lia|done|].
    intros j Hj%elem_of_seqZ. rewrite (balloc_used s pid hs Hx Hly b s' j Hp) by lia. rewrite orb_false_iff, Z.eqb_neq. naive_solver.
Qed.

(** ** Steps that may change an inode *)

Definition fstep (k : Z) (s s' : fsst) : Prop := fkeep k (set_inodes (inodes s') s) s'.

Lemma fstep_keep k s s' : fkeep k s s' -> fstep k s s'.
Proof. intros K. unfold fstep. rewrite (fk_inodes _ _ _ K). by destruct s. Qed.
Lemma fstep_inodes s v : fstep 0 s (set_inodes v s).
Proof. apply fkeep_refl. Qed.
Lemma fstep_trans k1 k2 k s1 s2 s3 : fstep k1 s1 s2 -> fstep k2 s2 s3 -> k1 + k2 <= k -> fstep k s1 s3.
Proof.
  intros [A1 _ A3 A4 A5 A6 A7 A8 A9 A10] [B1 _ B3 B4 B5 B6 B7 B8 B9 B10] Hk. unfold lhn in *. cbn in *.
  split; unfold lhn; cbn; try congruence; [by etrans|lia].
Qed.
Lemma fstep_room k j s s' : fstep j s s' -> room s (j + k) -> room s' k.
Proof. intros H Hr. eapply (room_keep k j); [exact H|exact Hr]. Qed.
Lemma fstep_refl s : fstep 0 s s.
Proof. apply fstep_keep, fkeep_refl. Qed.
Lemma fstep_weaken k k' s s' : fstep k s s' -> k <= k' -> fstep k' s s'.
Proof. intros H Hk. eapply (fstep_trans k 0); [done|apply fstep_refl|lia]. Qed.

Lemma grow_inodes s v : grow s (set_inodes v s).
Proof. by split. Qed.
Lemma used_same s s' j : fsb s' = fsb s -> fview s' (bmblock (fsb s) j) = fview s (bmblock (fsb s) j) -> used s' j = used s j.
Proof. intros E1 E2. unfold used. by rewrite E1, E2. Qed.
(** Changing only blocks a file may own. *)
Lemma grow_views s s' k :
  fkeep k s s' ->
  (forall b, 0 <= b < sb_size (fsb s) -> fview s' (bmblock (fsb s) b) = fview s (bmblock (fsb s) b)) ->
  fview s' 1 = fview s 1 -> grow s s' /\ nfree s' = nfree s.
Proof.
  intros K Hv H1. assert (forall j, 0 <= j < sb_size (fsb s) -> used s' j = used s j) as Hu.
  { intros j Hj. apply used_same; [apply K|by apply Hv]. }
  split.
  - split; [apply K|by eapply fkeep_len|intros n; by eapply fkeep_home| |done]. intros j Hj Huj. by rewrite Hu.
  - unfold nfree. rewrite (fk_sb _ _ _ K). f_equal. apply filter_same. intros j Hj%elem_of_seqZ. rewrite Hu by lia. done.
Qed.
Lemma grow_vupd s s' k n d :
  fkeep k s s' -> datab s n -> (forall m, fview s' m = vupd (fview s) n d m) -> grow s s' /\ nfree s' = nfree s.
Proof.
  intros K Hd Hv. eapply grow_views; [done| |].
  - intros b Hb. rewrite Hv. apply vupd_ne. by apply (db_bm _ _ Hd).
  - rewrite Hv. apply vupd_ne. intros E. by destruct (db_one _ _ Hd).
Qed.

(** ** The blocks of a file *)

Definition ind (ip : inode) : Z := default 0 (i_addrs ip !! NDIRECT).
Definition baddr (s : fsst) (ip : inode) (bn : Z) : Z :=
  if bn <? Z.of_nat NDIRECT then default 0 (i_addrs ip !! Z.to_nat bn)
  else if ind ip =? 0 then 0 else get32 (fview s (ind ip)) (Z.to_nat (4 * (bn - Z.of_nat NDIRECT))).
(** The byte at offset [o]; a missing block reads as zeroes. *)
Definition fbyte (s : fsst) (ip : inode) (o : Z) : Z :=
  let a := baddr s ip (o / BSIZE) in if a =? 0 then 0 else byte_at (fview s a) (o mod BSIZE).

Record file (s : fsst) (ip : inode) : Prop := {
  f_dev : i_dev ip = 1;
  f_len : length (i_addrs ip) = S NDIRECT;
  f_ind : ind ip <> 0 -> datab s (ind ip);
  f_data : forall bn, 0 <= bn < MAXFILE -> baddr s ip bn <> 0 -> datab s (baddr s ip bn) /\ baddr s ip bn <> ind ip;
  f_inj : forall bn bn', 0 <= bn < MAXFILE -> 0 <= bn' < MAXFILE -> baddr s ip bn <> 0 ->
     baddr s ip bn = baddr s ip bn' -> bn = bn' }.

Definition same_content (s : fsst) (ip : inode) (s' : fsst) (ip' : inode) : Prop :=
  forall o, 0 <= o < MAXFILE * BSIZE -> fbyte s' ip' o = fbyte s ip o.

Lemma datab_used s k b : datab s k -> used s b = false -> k <> b.
Proof. intros Hd Hu ->. rewrite (db_used _ _ Hd) in Hu. done. Qed.

Lemma byte_zeros i : byte_at zeros i = 0.
Proof. unfold byte_at, zeros. destruct (replicate _ 0 !! Z.to_nat i) as [x|] eqn:E; [|done]. by apply lookup_replicate in E as [-> _]. Qed.

(** A file that gains at most one fresh block at [bn], and maybe a fresh
    indirect block. *)
Lemma file_extend s s' ip ip' bn a :
  file s ip -> grow s s' -> i_dev ip' = i_dev ip -> length (i_addrs ip') = S NDIRECT ->
  (ind ip' = ind ip \/ (ind ip = 0 /\ datab s' (ind ip') /\ used s (ind ip') = false)) ->
  (forall k, 0 <= k < MAXFILE -> baddr s' ip' k = baddr s ip k \/
     (k = bn /\ baddr s ip k = 0 /\ baddr s' ip' k = a /\ datab s' a /\ used s a = false /\ fview s' a = zeros /\ ind ip' <> a)) ->
  (forall k, datab s k -> k <> ind ip -> fview s' k = fview s k) ->
  file s' ip' /\ same_content s ip s' ip'.
Proof.
  intros [F1 F2 F3 F4 F5] Hg Hdev Hlen Hind Hk Hv. split; [split|].
  - by rewrite Hdev.
  - done.
  - intros Hi. destruct Hind as [E|(_ & Hd & _)]; [|done]. rewrite E in *. eapply datab_grow; [done|by apply F3].
  - intros k Hr Hn. destruct (Hk k Hr) as [E|(_ & _ & E & Hd & _ & _ & Hne)]; rewrite E in *; [|by split].
    destruct (F4 k Hr Hn) as [Hd Hne]. split; [by eapply datab_grow|].
    destruct Hind as [-> |(_ & _ & Hu)]; [done|]. by eapply datab_used.
  - intros k k' Hr Hr' Hn E. destruct (Hk k Hr) as [E1|(-> & _ & E1 & _ & Hu & _)], (Hk k' Hr') as [E2|(-> & _ & E2 & _ & Hu' & _)]; [| | |done].
    + apply F5; [done|done|congruence|congruence].
    + exfalso. rewrite E1 in Hn. destruct (F4 k Hr Hn) as [Hd _]. by apply (datab_used _ _ _ Hd Hu'); congruence.
    + exfalso. assert (baddr s ip k' <> 0) as Hn' by congruence. destruct (F4 k' Hr' Hn') as [Hd _].
      by apply (datab_used _ _ _ Hd Hu); congruence.
  - intros o Ho. unfold fbyte. assert (0 <= o / BSIZE < MAXFILE) as Hr.
    { unfold BSIZE in *. split; [apply Z.div_pos; lia|apply Z.div_lt_upper_bound; lia]. }
    destruct (Hk _ Hr) as [E|(_ & E0 & E & Hd & _ & Hz & _)]; rewrite E.
    + destruct (Z.eqb_spec (baddr s ip (o / BSIZE)) 0); [done|]. destruct (F4 _ Hr ltac:(done)) as [Hd Hne]. by rewrite Hv.
    + rewrite E0, Hz. cbn [Z.eqb]. destruct (a =? 0); [done|]. apply byte_zeros.
Qed.

(** ** bmap *)

Lemma wp_get_addr s i ip k v (Q : Z -> fsst -> Prop) :
  inodes s !! i = Some ip -> i_addrs ip !! k = Some v -> Q v s -> wp (get_addr i k) Q s.
Proof. intros Hi Hk HQ. unfold get_addr. rewrite wp_bind. apply (wp_get_inode _ _ ip); [done|]. by eapply wp_idx. Qed.

Definition with_addr (k : nat) (a : Z) (ip : inode) : inode := set_i_addrs (<[k := a]> (i_addrs ip)) ip.

Lemma addr_lookup ip k : length (i_addrs ip) = S NDIRECT -> (k < 13)%nat -> i_addrs ip !! k = Some (default 0 (i_addrs ip !! k)).
Proof. intros Hl Hk. unfold NDIRECT in Hl. destruct (lookup_lt_is_Some_2 (i_addrs ip) k) as [v ->]; [lia|done]. Qed.

Record bmap_post (s : fsst) (pid : Z) (i : nat) (ip : inode) (bn a : Z) (s' : fsst) (ip' : inode) : Prop := {
  bm_fx : fx s' pid ∅;
  bm_step : fstep 5 s s';
  bm_grow : grow s s';
  bm_inodes : inodes s' = <[i := ip']> (inodes s);
  bm_ip : exists l, ip' = set_i_addrs l ip;
  bm_file : file s' ip';
  bm_content : same_content s ip s' ip';
  bm_addr : a = baddr s' ip' bn /\ a <> 0;
  bm_mono : forall k, 0 <= k < MAXFILE -> baddr s ip k <> 0 -> baddr s' ip' k = baddr s ip k;
  bm_view : forall k, 0 <= k < sb_size (fsb s) -> used s k = true -> notbm s k -> k <> ind ip -> fview s' k = fview s k;
  bm_fresh : forall k, 0 <= k < sb_size (fsb s) -> used s k = true -> k <> ind ip ->
     (forall b, 0 <= b < MAXFILE -> baddr s ip b <> k) ->
     k <> ind ip' /\ forall b, 0 <= b < MAXFILE -> baddr s' ip' b <> k;
  bm_free : (nfree s <= nfree s' + 2)%nat }.

(** A block that is there already. *)
Lemma wp_bmap_hit s pid i ip bn (Q : Z -> fsst -> Prop) :
  fx s pid ∅ -> inodes s !! i = Some ip -> file s ip -> 0 <= bn < MAXFILE -> baddr s ip bn <> 0 -> room s 1 ->
  (forall s', fx s' pid ∅ -> fkeep 0 s s' -> (forall m, fview s' m = fview s m) -> Q (baddr s ip bn) s') ->
  wp (bmap i bn) Q s.
Proof.
  intros Hx Hi Hf Hbn Hne Hr HQ. unfold bmap. rewrite wp_bind. apply (wp_get_inode _ _ ip); [done|].
  unfold baddr in *. destruct (Z.ltb_spec bn (Z.of_nat NDIRECT)) as [Hd|Hd].
  - rewrite wp_bind. eapply wp_get_addr; [done|apply addr_lookup; [apply Hf|unfold NDIRECT in *; lia]|].
    rewrite (proj2 (Z.eqb_neq _ _) Hne). apply HQ; [done|apply fkeep_refl|done].
  - destruct (Z.ltb_spec (bn - Z.of_nat NDIRECT) NINDIRECT) as [Hb|Hb]; [|unfold MAXFILE, NINDIRECT, NDIRECT in *; lia].
    rewrite wp_bind. eapply wp_get_addr; [done|apply addr_lookup; [apply Hf|unfold NDIRECT; lia]|]. fold (ind ip).
    destruct (Z.eqb_spec (ind ip) 0) as [E|E]; [done|]. cbv iota. rewrite wp_bind, wp_ret.
    pose proof (f_ind _ _ Hf E) as Hdb. rewrite (f_dev _ _ Hf), wp_bind.
    apply (wp_fbread s pid ∅); [done|apply (db_home _ _ Hdb)|by intros b m; rewrite lookup_empty| |].
    { by apply fits_room; [|rewrite map_size_empty; lia]. }
    intros bp s1 X1 K1 Hbp V1. rewrite wp_bind. eapply wp_fdata; [done|by rewrite lookup_insert_eq|]. rewrite V1.
    rewrite (proj2 (Z.eqb_neq _ _) Hne). rewrite wp_bind, wp_ret, wp_bind.
    eapply wp_fbrelse; [done|by rewrite lookup_insert_eq|]. rewrite delete_insert_id by done. intros s2 X2 K2 V2. rewrite wp_ret.
    apply HQ; [done|by eapply (fkeep_trans 0 0)|]. intros m. by rewrite V2, V1.
Qed.

Lemma post_of_hit s pid i ip bn s' :
  inodes s !! i = Some ip -> file s ip -> 0 <= bn < MAXFILE -> baddr s ip bn <> 0 ->
  fx s' pid ∅ -> fkeep 0 s s' -> (forall m, fview s' m = fview s m) -> bmap_post s pid i ip bn (baddr s ip bn) s' ip.
Proof.
  intros Hi Hf Hbn Hne Hx K V. destruct (grow_views s s' 0 K) as [Hg Hfr]; [by intros; rewrite V|by rewrite V|].
  assert (forall k, baddr s' ip k = baddr s ip k) as Hb by (intros k; unfold baddr; by rewrite V).
  destruct (file_extend s s' ip ip bn 0) as [Hf' Hc]; try done; [apply Hf|by left|intros k _; by left|].
  split; try done.
  - eapply fstep_weaken; [by apply fstep_keep|lia].
  - rewrite (fk_inodes _ _ _ K). by rewrite list_insert_id.
  - exists (i_addrs ip). by destruct ip.
  - intros k _ _ Hk Hnb. split; [done|]. intros b Hb'. rewrite Hb. by apply Hnb.
  - lia.
Qed.

(** A direct block that has to be allocated. *)
Lemma wp_bmap_direct s pid i ip bn (Q : Z -> fsst -> Prop) :
  fx s pid ∅ -> fslay s -> inodes s !! i = Some ip -> file s ip -> 0 <= bn < Z.of_nat NDIRECT -> baddr s ip bn = 0 ->
  room s 2 -> (0 < nfree s)%nat ->
  (forall a s' ip', bmap_post s pid i ip bn a s' ip' -> Q a s') -> wp (bmap i bn) Q s.
Proof.
  intros Hx Hl Hi Hf Hbn He Hr Hfr HQ. unfold bmap. rewrite wp_bind. apply (wp_get_inode _ _ ip); [done|].
  destruct (Z.ltb_spec bn (Z.of_nat NDIRECT)) as [_|?]; [|lia]. rewrite wp_bind.
  pose proof (f_len _ _ Hf) as Hlen. unfold NDIRECT in *.
  eapply wp_get_addr; [done|apply addr_lookup; [done|lia]|].
  assert (default 0 (i_addrs ip !! Z.to_nat bn) = 0) as E0 by (unfold baddr, NDIRECT in He; by rewrite (proj2 (Z.ltb_lt _ _)) in He by lia).
  rewrite E0. cbn [Z.eqb]. rewrite wp_bind, (f_dev _ _ Hf).
  apply (wp_balloc_file s pid ∅); [done|done|apply hs_ok_empty|done|rewrite map_size_empty; lia|done|].
  intros b s1 X1 K1 G1 Hu Hrange Hdb Hz Hv Hn. rewrite wp_bind. unfold put_addr.
  apply (wp_upd_inode _ _ _ ip); [by rewrite (fk_inodes _ _ _ K1)|]. rewrite wp_ret.
  set (ip' := set_i_addrs (<[Z.to_nat bn := b]> (i_addrs ip)) ip). rewrite (fk_inodes _ _ _ K1).
  set (s2 := set_inodes (<[i := ip']> (inodes s)) s1).
  assert (ind ip' = ind ip) as Ei by (unfold ind, ip', NDIRECT; cbn; by rewrite list_lookup_insert_ne by lia).
  assert (forall k, 0 <= k < sb_size (fsb s) -> used s k = true -> notbm s k -> fview s2 k = fview s k) as Hv2.
  { intros k _ Huk Hnb. change (fview s2 k) with (fview s1 k). apply Hv; [|done]. intros ->. congruence. }
  assert (b <> 0) as Hb0 by (pose proof (db_range _ _ Hdb); lia).
  assert (baddr s2 ip' bn = b) as Eb.
  { unfold baddr, NDIRECT. rewrite (proj2 (Z.ltb_lt _ _)) by lia. unfold ip'. cbn. by rewrite list_lookup_insert_eq by lia. }
  assert (forall k, 0 <= k < MAXFILE -> k <> bn -> baddr s2 ip' k = baddr s ip k) as Eo.
  { intros k Hk Hne. unfold baddr. rewrite Ei. destruct (Z.ltb_spec k (Z.of_nat NDIRECT)).
    - unfold ip'. cbn. by rewrite list_lookup_insert_ne by lia.
    - destruct (Z.eqb_spec (ind ip) 0) as [|Hin]; [done|]. pose proof (f_ind _ _ Hf Hin) as [? ? ? ? ? ?]. by rewrite Hv2 by (done || lia). }
  assert (ind ip <> b) as Hib.
  { intros E. destruct (decide (ind ip = 0)); [lia|]. eapply (datab_used s (ind ip) b); [by apply f_ind|done|done]. }
  assert (grow s s2) as G2 by (eapply grow_trans; [exact G1|apply grow_inodes]).
  assert (datab s2 b) as Hdb2 by (eapply datab_grow; [apply grow_inodes|exact Hdb]).
  destruct (file_extend s s2 ip ip' bn b) as [Hf' Hc]; try done.
  { unfold ip', set_i_addrs. cbn [i_addrs]. by rewrite length_insert. }
  { by left. }
  { intros k Hk. destruct (decide (k = bn)) as [-> |Hne]; [right|left; by apply Eo]. split_and!; try done. by rewrite Ei. }
  { intros k [? ? ? ? ? ?] _. apply Hv2; [lia|done|done]. }
  apply (HQ b s2 ip'). split; try done.
  - by apply fx_inodes.
  - eapply fstep_weaken; [eapply (fstep_trans 2 0); [by apply fstep_keep|apply fstep_inodes|reflexivity]|lia].
  - by eexists.
  - intros k Hk Hne. apply Eo; [done|]. intros ->. done.
  - intros k Hk Huk Hnb _. by apply Hv2.
  - intros k Hk Huk Hki Hnb. rewrite Ei. split; [done|]. intros m Hm. destruct (decide (m = bn)) as [-> |Hne]; [rewrite Eb; congruence|].
    rewrite Eo by done. by apply Hnb.
  - change (nfree s2) with (nfree s1). lia.
Qed.

(** The indirect block, allocated if need be. *)
Record ind_post (s : fsst) (pid : Z) (i : nat) (ip : inode) (a : Z) (s' : fsst) (ip' : inode) : Prop := {
  in_fx : fx s' pid ∅;
  in_step : fstep 2 s s';
  in_grow : grow s s';
  in_inodes : inodes s' = <[i := ip']> (inodes s);
  in_ip : exists l, ip' = set_i_addrs l ip;
  in_file : file s' ip';
  in_content : same_content s ip s' ip';
  in_addr : a = ind ip' /\ a <> 0 /\ (ind ip <> 0 -> ind ip' = ind ip) /\ (ind ip = 0 -> used s a = false);
  in_same : forall k, 0 <= k < MAXFILE -> baddr s' ip' k = baddr s ip k;
  in_view : forall k, 0 <= k < sb_size (fsb s) -> used s k = true -> notbm s k -> fview s' k = fview s k;
  in_fresh : forall k, 0 <= k < sb_size (fsb s) -> used s k = true -> k <> ind ip ->
     (forall b, 0 <= b < MAXFILE -> baddr s ip b <> k) ->
     k <> ind ip' /\ forall b, 0 <= b < MAXFILE -> baddr s' ip' b <> k;
  in_free : (nfree s <= nfree s' + 1)%nat }.

Definition bmap_ind (i : nat) (dev addr : Z) : M fsst Z :=
  if addr =? 0 then addr ← balloc dev; put_addr i NDIRECT addr ;; mret addr else mret addr.
Definition bmap_entry (dev addr bn : Z) : M fsst Z :=
  bp ← fbread dev addr;
  d ← fdata bp;
  let addr := get32 d (Z.to_nat (4 * bn)) in
  addr ← (if addr =? 0 then
            addr ← balloc dev;
            d ← fdata bp;
            fset bp (put32 d (Z.to_nat (4 * bn)) addr) ;;
            flogw bp ;;
            mret addr
          else mret addr);
  fbrelse bp ;;
  mret addr.

Lemma get32_zeros o : get32 zeros o = 0.
Proof.
  unfold get_le, slice, zeros. rewrite drop_replicate, take_replicate. generalize (4 `min` (Z.to_nat BSIZE - o))%nat. intros n.
  induction n as [|n IH]; [done|]. cbn in *. lia.
Qed.

Lemma wp_bmap_ind s pid i ip (Q : Z -> fsst -> Prop) :
  fx s pid ∅ -> fslay s -> inodes s !! i = Some ip -> file s ip -> room s 2 -> (0 < nfree s)%nat ->
  (forall a s' ip', ind_post s pid i ip a s' ip' -> Q a s') -> wp (bmap_ind i 1 (ind ip)) Q s.
Proof.
  intros Hx Hl Hi Hf Hr Hfr HQ. unfold bmap_ind. destruct (Z.eqb_spec (ind ip) 0) as [E0|E0].
  2: { rewrite wp_ret. apply (HQ _ s ip). split; try done.
       - eapply fstep_weaken; [apply fstep_refl|lia].
       - by rewrite list_insert_id.
       - exists (i_addrs ip). by destruct ip.
       - lia. }
  pose proof (f_len _ _ Hf) as Hlen. unfold NDIRECT in Hlen. rewrite wp_bind.
  apply (wp_balloc_file s pid ∅); [done|done|apply hs_ok_empty|done|rewrite map_size_empty; lia|done|].
  intros b s1 X1 K1 G1 Hu Hrange Hdb Hz Hv Hn. rewrite wp_bind. unfold put_addr.
  apply (wp_upd_inode _ _ _ ip); [by rewrite (fk_inodes _ _ _ K1)|]. rewrite wp_ret.
  set (ip' := set_i_addrs (<[NDIRECT := b]> (i_addrs ip)) ip). rewrite (fk_inodes _ _ _ K1).
  set (s2 := set_inodes (<[i := ip']> (inodes s)) s1).
  assert (ind ip' = b) as Ei by (unfold ind, ip', NDIRECT; cbn; by rewrite list_lookup_insert_eq by lia).
  assert (forall k, 0 <= k < sb_size (fsb s) -> used s k = true -> notbm s k -> fview s2 k = fview s k) as Hv2.
  { intros k _ Huk Hnb. change (fview s2 k) with (fview s1 k). apply Hv; [|done]. intros ->. congruence. }
  assert (b <> 0) as Hb0 by (pose proof (db_range _ _ Hdb); lia).
  assert (forall k, 0 <= k < MAXFILE -> baddr s2 ip' k = baddr s ip k) as Eo.
  { intros k Hk. unfold baddr. rewrite Ei, E0. destruct (Z.ltb_spec k (Z.of_nat NDIRECT)).
    - unfold ip', NDIRECT in *. cbn. by rewrite list_lookup_insert_ne by lia.
    - destruct (Z.eqb_spec b 0); [done|]. cbn [Z.eqb]. change (fview s2 b) with (fview s1 b). rewrite Hz. apply get32_zeros. }
  assert (grow s s2) as G2 by (eapply grow_trans; [exact G1|apply grow_inodes]).
  assert (datab s2 b) as Hdb2 by (eapply datab_grow; [apply grow_inodes|exact Hdb]).
  destruct (file_extend s s2 ip ip' 0 0) as [Hf' Hc]; try done.
  { unfold ip', set_i_addrs. cbn [i_addrs]. by rewrite length_insert. }
  { right. rewrite Ei. by split_and!. }
  { intros k Hk. left. by apply Eo. }
  { intros k [? ? ? ? ? ?] _. apply Hv2; [lia|done|done]. }
  apply (HQ b s2 ip'). split; try done.
  - by apply fx_inodes.
  - eapply (fstep_trans 2 0); [by apply fstep_keep|apply fstep_inodes|lia].
  - by eexists.
  - intros k Hk Huk Hki Hnb. rewrite Ei. split; [congruence|]. intros m Hm. rewrite Eo by done. by apply Hnb.
  - change (nfree s2) with (nfree s1). lia.
Qed.

(** What a fresh entry of the indirect block makes of a file. *)
Lemma entry_post s pid i ip bn b s2 s5 :
  fslay s -> inodes s !! i = Some ip -> file s ip -> ind ip <> 0 -> Z.of_nat NDIRECT <= bn < MAXFILE -> baddr s ip bn = 0 ->
  fx s pid ∅ -> fx s5 pid ∅ -> fkeep 3 s s5 -> grow s s2 -> grow s2 s5 -> used s b = false -> datab s2 b -> fview s2 b = zeros ->
  (forall k, k <> b -> notbm s k -> fview s2 k = fview s k) ->
  (forall m, fview s5 m = vupd (fview s2) (ind ip) (put32 (fview s (ind ip)) (Z.to_nat (4 * (bn - Z.of_nat NDIRECT))) b) m) ->
  (nfree s <= nfree s5 + 2)%nat -> bmap_post s pid i ip bn b s5 ip.
Proof.
  intros Hl Hi Hf Hind Hbn E0 Hx Hx5 K05 G2 G5 Hub Hdb Hz Hv V25 Hn. pose proof (f_ind _ _ Hf Hind) as Hdi.
  assert (ind ip <> b) as Hib by (by eapply datab_used). pose proof (db_range _ _ Hdb) as Hbr.
  assert (fx_len : length (fview s (ind ip)) = Z.to_nat BSIZE) by (eapply fview_ok; [exact Hx|apply (db_home _ _ Hdi)]).
  assert (sb_size (fsb s2) < 4294967296) as Hsz.
  { rewrite (gr_sb _ _ G2). pose proof (ly_size _ (fl_layout _ Hl)). pose proof (flen_lt _ _ _ Hx). lia. }
  assert (baddr s5 ip bn = b) as Eb.
  { unfold baddr. destruct (Z.ltb_spec bn (Z.of_nat NDIRECT)); [lia|]. rewrite (proj2 (Z.eqb_neq _ _) Hind), V25, vupd_eq.
    rewrite get_put_le by (rewrite fx_len; unfold BSIZE, MAXFILE, NDIRECT in *; lia). apply Z.mod_small. lia. }
  assert (forall k, 0 <= k < MAXFILE -> k <> bn -> baddr s5 ip k = baddr s ip k) as Eo.
  { intros k Hk Hne. unfold baddr. destruct (Z.ltb_spec k (Z.of_nat NDIRECT)); [done|].
    destruct (ind ip =? 0); [done|]. rewrite V25, vupd_eq.
    apply get_put_le_ne; rewrite ?fx_len; unfold BSIZE, MAXFILE, NDIRECT in *; lia. }
  assert (forall k, 0 <= k < sb_size (fsb s) -> used s k = true -> notbm s k -> k <> ind ip -> fview s5 k = fview s k) as Hv5.
  { intros k _ Huk Hnb Hki. rewrite V25, vupd_ne by done. apply Hv; [intros ->; congruence|done]. }
  assert (grow s s5) as G by (by eapply grow_trans). assert (datab s5 b) as Hdb5 by (eapply datab_grow; [exact G5|exact Hdb]).
  destruct (file_extend s s5 ip ip bn b) as [Hf' Hc]; try done.
  { apply Hf. }
  { by left. }
  { intros k Hk. destruct (decide (k = bn)) as [-> |Hne]; [right|left; by apply Eo]. split_and!; try done.
    rewrite V25, vupd_ne by done. done. }
  { intros k [? ? ? ? ? ?] Hki. apply Hv5; [lia|done|done|done]. }
  split; try done.
  - eapply fstep_weaken; [by apply fstep_keep|lia].
  - rewrite (fk_inodes _ _ _ K05). by rewrite list_insert_id.
  - exists (i_addrs ip). by destruct ip.
  - split; [done|lia].
  - intros k Hk Hne. apply Eo; [done|]. intros ->. done.
  - intros k Hk Huk Hki Hnb. split; [done|]. intros m Hm. destruct (decide (m = bn)) as [-> |Hne]; [rewrite Eb; congruence|].
    rewrite Eo by done. by apply Hnb.
Qed.

(** The entry of the indirect block, allocated if need be. *)
Lemma wp_bmap_entry s pid i ip bn (Q : Z -> fsst -> Prop) :
  fx s pid ∅ -> fslay s -> inodes s !! i = Some ip -> file s ip -> ind ip <> 0 -> Z.of_nat NDIRECT <= bn < MAXFILE ->
  room s 3 -> (0 < nfree s)%nat ->
  (forall a s' ip', ip' = ip -> fkeep 3 s s' -> bmap_post s pid i ip bn a s' ip' -> (nfree s <= nfree s' + 1)%nat -> Q a s') ->
  wp (bmap_entry 1 (ind ip) (bn - Z.of_nat NDIRECT)) Q s.
Proof.
  intros Hx Hl Hi Hf Hind Hbn Hr Hfr HQ. unfold bmap_entry. rewrite wp_bind. pose proof (f_ind _ _ Hf Hind) as Hdi.
  assert (room s 1) as Hr1 by (eapply room_weaken; [exact Hr|lia]).
  apply (wp_fbread s pid ∅); [done|apply (db_home _ _ Hdi)|by intros b m; rewrite lookup_empty| |].
  { by apply fits_room; [|rewrite map_size_empty; lia]. }
  intros bp s1 X1 K1 Hbp V1. rewrite wp_bind. eapply wp_fdata; [done|by rewrite lookup_insert_eq|]. rewrite V1.
  set (o := Z.to_nat (4 * (bn - Z.of_nat NDIRECT))). assert (o + 4 <= Z.to_nat BSIZE)%nat as Ho by (unfold o, BSIZE, MAXFILE, NDIRECT in *; lia).
  assert (baddr s ip bn = get32 (fview s (ind ip)) o) as Eb.
  { unfold baddr. destruct (Z.ltb_spec bn (Z.of_nat NDIRECT)); [lia|]. by rewrite (proj2 (Z.eqb_neq _ _) Hind). }
  assert (0 <= bn < MAXFILE) as Hbn' by (unfold NDIRECT in *; lia).
  destruct (grow_views s s1 0 K1) as [G1 N1]; [by intros; rewrite V1|by rewrite V1|].
  destruct (Z.eqb_spec (get32 (fview s (ind ip)) o) 0) as [E0|E0].
  2: { rewrite wp_bind, wp_ret, wp_bind. eapply wp_fbrelse; [done|by rewrite lookup_insert_eq|]. rewrite delete_insert_id by done.
       intros s2 X2 K2 V2. rewrite wp_ret, <- Eb.
       assert (fkeep 0 s s2) as K02 by (by eapply (fkeep_trans 0 0)).
       assert (forall m, fview s2 m = fview s m) as V02 by (intros m; by rewrite V2, V1).
       apply (HQ _ s2 ip); [done|eapply (fkeep_weaken 0); [exact K02|lia]|apply post_of_hit; try done; by rewrite Eb|].
       destruct (grow_views s s2 0 K02) as [_ Hn]; [by intros; rewrite V02|by rewrite V02|lia]. }
  rewrite wp_bind, wp_bind. assert (datab s1 (ind ip)) as Hdi1 by (by eapply datab_grow).
  apply (wp_balloc_file s1 pid (<[bp := (ind ip, false)]> ∅)); [done|by eapply fslay_grow| | |by rewrite map_size_insert_None, map_size_empty by done|lia|].
  { intros b n m Hb. apply lookup_insert_Some in Hb as [[-> [= <- <-]]|[_ Hb]]; [|by rewrite lookup_empty in Hb].
    destruct Hdi1 as [D1 D2 D3 D4 D5 D6]. by split_and!. }
  { eapply (room_keep 2 0); [done|]. eapply room_weaken; [exact Hr|lia]. }
  intros b s2 X2 K2 G2 Hub Hrange Hdb Hz Hv Hn. rewrite (gr_sb _ _ G1) in Hrange.
  assert (ind ip <> b) as Hib by (by eapply datab_used).
  assert (fview s2 (ind ip) = fview s (ind ip)) as Ev2 by (rewrite Hv, V1; [done|done|apply Hdi1]).
  rewrite wp_bind. eapply wp_fdata; [done|by rewrite lookup_insert_eq|]. rewrite Ev2. set (d' := put32 (fview s (ind ip)) o b).
  assert (block_ok (fview s (ind ip))) as Hok by (eapply fview_ok; [exact Hx|apply (db_home _ _ Hdi)]).
  rewrite wp_bind. eapply wp_fset; [done|by rewrite lookup_insert_eq|by apply put_le_ok|]. rewrite insert_insert_eq.
  intros s3 X3 K3 V3. rewrite wp_bind. assert (datab s2 (ind ip)) as Hdi2 by (by eapply datab_grow).
  eapply wp_flogw; [done|by rewrite lookup_insert_eq|eapply fkeep_home; [done|apply Hdi2]| |].
  { eapply (room_keep 1 0); [exact K3|]. eapply (room_keep 1 2); [exact K2|]. eapply (room_keep 3 0); [exact K1|done]. }
  rewrite insert_insert_eq. intros s4 X4 K4 V4. rewrite wp_ret, wp_bind.
  eapply wp_fbrelse; [done|by rewrite lookup_insert_eq|]. rewrite delete_insert_id by done. intros s5 X5 K5 V5. rewrite wp_ret.
  assert (fkeep 1 s2 s5) as K25 by (eapply (fkeep_trans 0 1); [done| |lia]; by eapply (fkeep_trans 1 0)).
  assert (fkeep 3 s s5) as K05 by (eapply (fkeep_trans 0 3); [done| |lia]; by eapply (fkeep_trans 2 1)).
  assert (forall m, fview s5 m = vupd (fview s2) (ind ip) d' m) as V25 by (intros m; by rewrite V5, V4, V3).
  destruct (grow_vupd s2 s5 1 _ _ K25 Hdi2 V25) as [G5 N5].
  apply (HQ b s5 ip); [done|done| |lia]. eapply entry_post with (s2 := s2); try done.
  - by rewrite Eb.
  - by eapply grow_trans.
  - rewrite <- Hub. symmetry. apply used_same; [apply K1|apply V1].
  - intros k Hk Hnb. rewrite Hv, V1; [done|done|]. unfold notbm. by rewrite (gr_sb _ _ G1).
  - lia.
Qed.

Lemma bmap_split i bn ip s :
  inodes s !! i = Some ip -> Z.of_nat NDIRECT <= bn < MAXFILE -> length (i_addrs ip) = S NDIRECT ->
  bmap i bn s = (a ← bmap_ind i (i_dev ip) (ind ip); bmap_entry (i_dev ip) a (bn - Z.of_nat NDIRECT)) s.
Proof.
  intros Hi Hbn Hlen. unfold bmap. rewrite (bind_ok (get_inode i) _ s ip s) by (unfold get_inode, gets, mbind, M_bind, idx; by rewrite Hi).
  destruct (Z.ltb_spec bn (Z.of_nat NDIRECT)); [lia|].
  destruct (Z.ltb_spec (bn - Z.of_nat NDIRECT) NINDIRECT); [|unfold MAXFILE, NINDIRECT, NDIRECT in *; lia].
  rewrite (bind_ok (get_addr i NDIRECT) _ s (ind ip) s); [done|].
  unfold get_addr. rewrite (bind_ok (get_inode i) _ s ip s) by (unfold get_inode, gets, mbind, M_bind, idx; by rewrite Hi).
  unfold idx. by rewrite (addr_lookup ip NDIRECT Hlen ltac:(unfold NDIRECT; lia)).
Qed.

(** [bmap] finds or makes the block, and the content stays as it was. *)
Lemma wp_bmap s pid i ip bn (Q : Z -> fsst -> Prop) :
  fx s pid ∅ -> fslay s -> inodes s !! i = Some ip -> file s ip -> 0 <= bn < MAXFILE -> room s 5 -> (2 <= nfree s)%nat ->
  (forall a s' ip', bmap_post s pid i ip bn a s' ip' -> Q a s') -> wp (bmap i bn) Q s.
Proof.
  intros Hx Hl Hi Hf Hbn Hr Hfr HQ. destruct (Z.lt_ge_cases bn (Z.of_nat NDIRECT)) as [Hd|Hd].
  { destruct (decide (baddr s ip bn = 0)) as [E|E].
    - apply (wp_bmap_direct s pid i ip); try done; [lia|eapply room_weaken; [exact Hr|lia]|lia].
    - apply (wp_bmap_hit s pid i ip); try done; [eapply room_weaken; [exact Hr|lia]|]. intros s' X K V. eapply HQ. by apply post_of_hit. }
  unfold wp. rewrite (bmap_split i bn ip s) by (done || lia || apply Hf). fold (wp (a ← bmap_ind i (i_dev ip) (ind ip); bmap_entry (i_dev ip) a (bn - Z.of_nat NDIRECT)) Q s).
  rewrite (f_dev _ _ Hf), wp_bind. apply (wp_bmap_ind s pid i ip); try done; [eapply room_weaken; [exact Hr|lia]|lia|].
  intros a s1 ip1 [I1 I2 I3 I4 [l1 I5] I6 I7 (-> & I8 & I9 & I10) I11 I12 I14 I13].
  assert (i < length (inodes s))%nat as Hlt by (by eapply lookup_lt_Some).
  apply (wp_bmap_entry s1 pid i ip1); try done; [by eapply fslay_grow|rewrite I4; by apply list_lookup_insert_eq|lia|by eapply (fstep_room 3 2)|lia|].
  intros a s2 ip2 -> K2 [B1 B2 B3 B4 B5 B6 B7 B8 B9 B10 B12 B11] Hn. apply (HQ a s2 ip1). split; try done.
  - eapply (fstep_trans 2 3); [done|by apply fstep_keep|lia].
  - by eapply grow_trans.
  - by rewrite B4, I4, list_insert_insert_eq.
  - by exists l1.
  - intros o Ho. by rewrite B7, I7.
  - intros k Hk Hne. rewrite B9; [by apply I11|done|by rewrite I11].
  - intros k Hk Hu Hnb Hki. rewrite <- (I12 k Hk Hu Hnb). apply B10.
    + by rewrite (gr_sb _ _ I3).
    + by apply (gr_used _ _ I3).
    + unfold notbm. by rewrite (gr_sb _ _ I3).
    + destruct (decide (ind ip = 0)) as [E|E]; [|by rewrite (I9 E)]. intros ->. rewrite (I10 E) in Hu. done.
  - intros k Hk Hu Hki Hnb. destruct (I14 k Hk Hu Hki Hnb) as [J1 J2]. apply B12; [by rewrite (gr_sb _ _ I3)|by apply (gr_used _ _ I3)|done|done].
  - lia.
Qed.


(** ** Slices of a block as bytes of the file *)

Definition content (s : fsst) (ip : inode) (off n : Z) : list Z := fbyte s ip <$> seqZ off n.

Lemma slice_bytes d a m :
  0 <= a -> 0 <= m -> a + m <= Z.of_nat (length d) ->
  slice d (Z.to_nat a) (Z.to_nat m) = byte_at d <$> seqZ a m.
Proof.
  intros Ha Hm Hl. apply list_eq. intros j. rewrite list_lookup_fmap. destruct (decide (j < Z.to_nat m)%nat) as [Hj|Hj].
  - rewrite lookup_slice by done. rewrite lookup_seqZ_lt by lia. cbn. unfold byte_at.
    replace (Z.to_nat (a + Z.of_nat j)) with (Z.to_nat a + j)%nat by lia.
    destruct (lookup_lt_is_Some_2 d (Z.to_nat a + j)) as [x ->]; [lia|done].
  - rewrite lookup_seqZ_ge by lia. cbn. apply lookup_ge_None_2. unfold slice. rewrite length_take. lia.
Qed.

Lemma div_in_block off j : 0 <= j -> off mod BSIZE + j < BSIZE -> (off + j) / BSIZE = off / BSIZE /\ (off + j) mod BSIZE = off mod BSIZE + j.
Proof.
  unfold BSIZE. intros Hj Hlt. pose proof (Z.div_mod off 512 ltac:(lia)). pose proof (Z.mod_pos_bound off 512 ltac:(lia)).
  split; [symmetry; apply Z.div_unique with (off mod 512 + j)|symmetry; apply Z.mod_unique with (off / 512)]; lia.
Qed.
(** The part of a block that one iteration of the loops moves. *)
Lemma slice_content s ip off m :
  baddr s ip (off / BSIZE) <> 0 -> length (fview s (baddr s ip (off / BSIZE))) = Z.to_nat BSIZE ->
  0 <= m -> off mod BSIZE + m <= BSIZE ->
  slice (fview s (baddr s ip (off / BSIZE))) (Z.to_nat (off mod BSIZE)) (Z.to_nat m) = content s ip off m.
Proof.
  intros Hne Hlen Hm Hfit. pose proof (Z.mod_pos_bound off BSIZE ltac:(unfold BSIZE; lia)).
  rewrite slice_bytes by (rewrite ?Hlen; unfold BSIZE in *; lia). unfold content. apply list_eq. intros j. rewrite !list_lookup_fmap.
  destruct (decide (Z.of_nat j < m)) as [Hj|Hj]; [|by rewrite !lookup_seqZ_ge by lia].
  rewrite !lookup_seqZ_lt by lia. cbn. f_equal. unfold fbyte. destruct (div_in_block off (Z.of_nat j)) as [-> ->]; [lia|lia|].
  by rewrite (proj2 (Z.eqb_neq _ _) Hne).
Qed.
Lemma content_app s ip off a b : 0 <= a -> 0 <= b -> content s ip off (a + b) = content s ip off a ++ content s ip (off + a) b.
Proof. intros Ha Hb. unfold content. by rewrite seqZ_app, fmap_app by lia. Qed.

(** Every block below the size is there. *)
Record whole (s : fsst) (ip : inode) : Prop := {
  wh_size : 0 <= i_size ip <= MAXFILE * BSIZE;
  wh_blocks : forall bn, 0 <= bn -> bn * BSIZE < i_size ip -> baddr s ip bn <> 0 }.

(** ** readi *)

Section fcontent.
Context (devsw : list devops).

(** How many blocks the range touches from offset [off] on. *)
Definition nblocks (off fin : Z) : Z := if off <? fin then (fin - 1) / BSIZE - off / BSIZE + 1 else 0.

Lemma nblocks_next off fin m :
  0 <= off < fin -> m = Z.min (fin - off) (BSIZE - off mod BSIZE) ->
  1 <= m /\ nblocks (off + m) fin = nblocks off fin - 1 /\ 1 <= nblocks off fin.
Proof.
  intros Hoff ->. unfold nblocks, BSIZE. pose proof (Z.div_mod off 512 ltac:(lia)). pose proof (Z.mod_pos_bound off 512 ltac:(lia)).
  pose proof (Z.div_mod (fin - 1) 512 ltac:(lia)). pose proof (Z.mod_pos_bound (fin - 1) 512 ltac:(lia)).
  destruct (Z.ltb_spec off fin); [|lia]. split; [lia|].
  destruct (Z.le_gt_cases (fin - off) (512 - off mod 512)) as [Hc|Hc].
  - rewrite Z.min_l by lia. destruct (Z.ltb_spec (off + (fin - off)) fin); lia.
  - rewrite Z.min_r by lia. destruct (Z.ltb_spec (off + (512 - off mod 512)) fin); [|lia].
    replace (off + (512 - off mod 512)) with ((off / 512 + 1) * 512) by lia. rewrite Z_div_mult by lia. lia.
Qed.
Lemma nblocks_fuel off n : 0 <= off -> 0 <= n -> nblocks off (off + n) < n / BSIZE + 3.
Proof.
  intros Ho Hn. unfold nblocks, BSIZE. assert (0 <= n / 512) by (apply Z.div_pos; lia). destruct (Z.ltb_spec off (off + n)); [|lia].
  pose proof (Z.div_mod off 512 ltac:(lia)). pose proof (Z.mod_pos_bound off 512 ltac:(lia)).
  pose proof (Z.div_mod (off + n - 1) 512 ltac:(lia)). pose proof (Z.mod_pos_bound (off + n - 1) 512 ltac:(lia)).
  pose proof (Z.div_mod n 512 ltac:(lia)). pose proof (Z.mod_pos_bound n 512 ltac:(lia)). lia.
Qed.
Lemma nblocks_nonneg off fin : 0 <= nblocks off fin.
Proof. unfold nblocks, BSIZE. destruct (Z.ltb_spec off fin); [|lia]. assert (off / 512 <= (fin - 1) / 512) by (apply Z.div_le_mono; lia). lia. Qed.

Lemma baddr_views s s' ip bn : (forall m, fview s' m = fview s m) -> baddr s' ip bn = baddr s ip bn.
Proof. intros V. unfold baddr. by rewrite V. Qed.
Lemma file_views s s' ip k : fkeep k s s' -> (forall m, fview s' m = fview s m) -> file s ip -> file s' ip.
Proof.
  intros K V Hf. destruct (grow_views s s' k K) as [Hg _]; [by intros; rewrite V|by rewrite V|].
  destruct (file_extend s s' ip ip 0 0); try done; [apply Hf|by left|]. intros bn _. left. by apply baddr_views.
Qed.

Lemma wp_readi_loop s pid i ip off n (Q : list Z -> fsst -> Prop) :
  fx s pid ∅ -> inodes s !! i = Some ip -> file s ip -> whole s ip -> room s 1 ->
  0 <= off -> 0 <= n -> off + n <= i_size ip ->
  (forall s', fx s' pid ∅ -> fkeep 0 s s' -> (forall m, fview s' m = fview s m) -> Q (content s ip off n) s') ->
  wp (loop (Z.to_nat (n / BSIZE) + 3) (readi_step i n) (0, off, [])) Q s.
Proof.
  intros Hx Hi Hf [Hw1 Hw2] Hr Ho Hn Hend HQ. pose proof (nblocks_fuel off n Ho Hn). pose proof (nblocks_nonneg off (off + n)).
  assert (0 <= n / BSIZE) by (apply Z.div_pos; unfold BSIZE; lia).
  apply (wp_loop (fun '(tot, o, acc) s' => fx s' pid ∅ /\ fkeep 0 s s' /\ (forall m, fview s' m = fview s m) /\
      0 <= tot <= n /\ o = off + tot /\ acc = content s ip off tot)
    (fun '(tot, o, acc) => Z.to_nat (nblocks o (off + n)))).
  2: { split_and!; try done; try lia. apply fkeep_refl. }
  2: { lia. }
  intros [[tot o] acc] s1 (X1 & K1 & V1 & Ht & -> & ->). unfold readi_step.
  destruct (Z.ltb_spec tot n) as [Hlt|Hge]; [|rewrite wp_ret; assert (tot = n) as -> by lia; by apply HQ].
  assert (0 <= (off + tot) / BSIZE) as Hb0 by (apply Z.div_pos; unfold BSIZE; lia).
  pose proof (Z.div_mod (off + tot) BSIZE ltac:(unfold BSIZE; lia)) as Hdm. pose proof (Z.mod_pos_bound (off + tot) BSIZE ltac:(unfold BSIZE; lia)) as Hmb.
  assert (0 <= (off + tot) / BSIZE < MAXFILE) as Hbr by (split; [done|]; apply Z.div_lt_upper_bound; unfold BSIZE, MAXFILE in *; lia).
  assert (baddr s ip ((off + tot) / BSIZE) <> 0) as Hne by (apply Hw2; lia).
  rewrite wp_bind. apply (wp_get_inode _ _ ip); [by rewrite (fk_inodes _ _ _ K1)|]. rewrite wp_bind.
  assert (room s1 1) as Hr1 by (by eapply (room_keep 1 0)).
  apply (wp_bmap_hit s1 pid i ip); [done|by rewrite (fk_inodes _ _ _ K1)|by eapply file_views|done|by rewrite (baddr_views s)|done|].
  intros s2 X2 K2 V2. rewrite (baddr_views s) by done. rewrite (f_dev _ _ Hf).
  destruct (f_data _ _ Hf _ Hbr Hne) as [Hdb _]. set (a := baddr s ip ((off + tot) / BSIZE)) in *.
  set (m := Z.min (n - tot) (BSIZE - (off + tot) mod BSIZE)).
  apply (wp_fread s2 pid ∅ a (fun d => mret (inl (tot + m, u32 (off + tot + m), content s ip off tot ++ slice d (Z.to_nat ((off + tot) mod BSIZE)) (Z.to_nat m))))).
  - done.
  - rewrite (fkeep_len _ _ _ K2), (fkeep_len _ _ _ K1). apply (db_home _ _ Hdb).
  - intros b k. by rewrite lookup_empty.
  - assert (room s2 1) as Hr2 by (by eapply (room_keep 1 0)). by apply fits_room; [|rewrite map_size_empty; lia].
  - intros s3 X3 K3 V3. rewrite V2, V1, wp_ret.
    destruct (nblocks_next (off + tot) (off + n) m) as (Hm1 & Hm2 & Hm3); [lia|unfold m; f_equal; lia|].
    assert (m <= n - tot /\ (off + tot) mod BSIZE + m <= BSIZE) as [Hm4 Hm5] by (unfold m; lia).
    rewrite u32_id by (unfold MAXFILE, BSIZE in *; lia). split; [split_and!; try done; try lia|].
    + eapply (fkeep_trans 0 0); [done| |lia]. by eapply (fkeep_trans 0 0).
    + intros k. by rewrite V3, V2.
    + rewrite content_app by lia. f_equal. unfold a. apply slice_content; [done| |lia|done].
      eapply fview_ok; [exact Hx|apply (db_home _ _ Hdb)].
    + lia.
Qed.

Lemma wp_readi s pid i ip off n (Q : Z * list Z -> fsst -> Prop) :
  fx s pid ∅ -> inodes s !! i = Some ip -> i_type ip <> T_DEV -> file s ip -> whole s ip -> room s 1 ->
  0 <= off <= i_size ip -> 0 <= n -> off + n < 2147483648 ->
  (forall s', fx s' pid ∅ -> fkeep 0 s s' -> (forall m, fview s' m = fview s m) ->
     let m := Z.min n (i_size ip - off) in Q (m, content s ip off m) s') ->
  wp (readi devsw i off n) Q s.
Proof.
  intros Hx Hi Hty Hf Hw Hr Ho Hn Hlim HQ. pose proof (wh_size _ _ Hw) as Hsz. unfold MAXFILE, BSIZE in Hsz.
  unfold readi. rewrite wp_bind. apply (wp_get_inode _ _ ip); [done|].
  rewrite (proj2 (Z.eqb_neq _ _) Hty), !(u32_id (off + n)) by lia.
  destruct (Z.ltb_spec (i_size ip) off); [lia|]. destruct (Z.ltb_spec (off + n) off); [lia|]. cbn [orb].
  assert ((if i_size ip <? off + n then u32 (i_size ip - off) else n) = Z.min n (i_size ip - off)) as ->.
  { destruct (Z.ltb_spec (i_size ip) (off + n)); [rewrite u32_id by lia|]; lia. }
  rewrite wp_bind. apply (wp_readi_loop s pid i ip); try done; try lia. intros s' X K V. rewrite wp_ret, s32_id by lia. by apply HQ.
Qed.

(** ** writei *)

Lemma byte_splice d a src t m j :
  (a + m <= length d)%nat -> (t + m <= length src)%nat -> 0 <= j ->
  byte_at (splice d a (slice src t m)) j =
    if (Z.of_nat a <=? j) && (j <? Z.of_nat (a + m)) then byte_at src (Z.of_nat t + (j - Z.of_nat a)) else byte_at d j.
Proof.
  intros Ha Ht Hj. unfold byte_at. assert (length (slice src t m) = m) as Hl by (by apply length_slice).
  destruct (Z.leb_spec (Z.of_nat a) j), (Z.ltb_spec j (Z.of_nat (a + m))); cbn [andb].
  2-4: rewrite lookup_splice_out by lia; done.
  rewrite lookup_splice_in by lia. rewrite lookup_slice by lia. do 2 f_equal. lia.
Qed.

(** Storing a block of a file. *)
Lemma file_write s s' ip bn d k :
  file s ip -> 0 <= bn < MAXFILE -> baddr s ip bn <> 0 -> fkeep k s s' ->
  (forall m, fview s' m = vupd (fview s) (baddr s ip bn) d m) ->
  grow s s' /\ nfree s' = nfree s /\ file s' ip /\ (forall b, baddr s' ip b = baddr s ip b) /\
  forall o, 0 <= o < MAXFILE * BSIZE -> fbyte s' ip o = if o / BSIZE =? bn then byte_at d (o mod BSIZE) else fbyte s ip o.
Proof.
  intros Hf Hbn Hne K V. destruct (f_data _ _ Hf bn Hbn Hne) as [Hdb Hni].
  destruct (grow_vupd s s' k _ _ K Hdb V) as [Hg Hn].
  assert (forall b, baddr s' ip b = baddr s ip b) as Hb by (intros b; unfold baddr; by rewrite V, vupd_ne).
  split_and!; [done|done| |done|].
  - destruct Hf as [F1 F2 F3 F4 F5]. split; try done.
    + intros H. eapply datab_grow; [done|by apply F3].
    + intros b Hr Hnb. rewrite Hb in *. destruct (F4 b Hr Hnb). split; [by eapply datab_grow|done].
    + intros b b'. rewrite !Hb. apply F5.
  - intros o Ho. unfold fbyte. rewrite Hb. assert (0 <= o / BSIZE < MAXFILE) as Hr.
    { unfold BSIZE in *. split; [apply Z.div_pos; lia|apply Z.div_lt_upper_bound; lia]. }
    destruct (Z.eqb_spec (o / BSIZE) bn) as [-> |Hd].
    + rewrite (proj2 (Z.eqb_neq _ _) Hne), V, vupd_eq. done.
    + destruct (Z.eqb_spec (baddr s ip (o / BSIZE)) 0) as [E|E]; [done|]. rewrite V, vupd_ne; [done|].
      intros E'. apply Hd. by apply (f_inj _ _ Hf).
Qed.

(** The state of the loop of [writei] after [tot] bytes. *)
Record wloop (s0 : fsst) (pid : Z) (i : nat) (ip0 : inode) (src : list Z) (off n tot : Z) (s : fsst) (ip : inode) : Prop := {
  wl_fx : fx s pid ∅;
  wl_grow : grow s0 s;
  wl_inodes : inodes s = <[i := ip]> (inodes s0);
  wl_ip : exists l, ip = set_i_addrs l ip0;
  wl_file : file s ip;
  wl_room : room s (6 * nblocks (off + tot) (off + n) + 2);
  wl_free : 2 * nblocks (off + tot) (off + n) <= Z.of_nat (nfree s);
  wl_tot : 0 <= tot <= n;
  wl_mono : forall k, 0 <= k < MAXFILE -> baddr s0 ip0 k <> 0 -> baddr s ip k <> 0;
  wl_new : forall k, off / BSIZE <= k -> k * BSIZE < off + tot -> baddr s ip k <> 0;
  wl_view : forall k, 0 <= k < sb_size (fsb s0) -> used s0 k = true -> notbm s0 k -> k <> ind ip0 ->
     (forall b, 0 <= b < MAXFILE -> baddr s0 ip0 b <> k) ->
     fview s k = fview s0 k /\ k <> ind ip /\ forall b, 0 <= b < MAXFILE -> baddr s ip b <> k;
  wl_content : forall o, 0 <= o < MAXFILE * BSIZE ->
     fbyte s ip o = if (off <=? o) && (o <? off + tot) then byte_at src (o - off) else fbyte s0 ip0 o }.

Section writei.
  Context (s0 : fsst) (pid : Z) (i : nat) (ip0 : inode) (src : list Z) (off n : Z).
  Hypothesis Hl0 : fslay s0.
  Hypothesis Hi0 : inodes s0 !! i = Some ip0.
  Hypothesis Hoff : 0 <= off.
  Hypothesis Hend : off + n <= MAXFILE * BSIZE.
  Hypothesis Hsrc : n <= Z.of_nat (length src).
  Hypothesis Hbytes : Forall is_byte src.
  Local Notation wl := (wloop s0 pid i ip0 src off n).

Lemma wloop_block tot : 0 <= tot < n ->
  0 <= (off + tot) / BSIZE < MAXFILE /\ 0 <= (off + tot) mod BSIZE < BSIZE /\
  off + tot = (off + tot) / BSIZE * BSIZE + (off + tot) mod BSIZE.
Proof.
  intros Ht. unfold BSIZE in *. split; [split; [apply Z.div_pos; lia|apply Z.div_lt_upper_bound; lia]|].
  pose proof (Z.div_mod (off + tot) 512 ltac:(lia)). pose proof (Z.mod_pos_bound (off + tot) 512 ltac:(lia)). lia.
Qed.

(** After [bmap] and the store of one block. *)
Lemma wloop_next tot s ip s1 ip1 a s2 m d :
  wl tot s ip -> 0 <= tot < n -> bmap_post s pid i ip ((off + tot) / BSIZE) a s1 ip1 ->
  m = Z.min (n - tot) (BSIZE - (off + tot) mod BSIZE) ->
  d = splice (fview s1 a) (Z.to_nat ((off + tot) mod BSIZE)) (slice src (Z.to_nat tot) (Z.to_nat m)) ->
  length (fview s1 a) = Z.to_nat BSIZE ->
  fx s2 pid ∅ -> fkeep 1 s1 s2 -> (forall k, fview s2 k = vupd (fview s1) a d k) ->
  wl (tot + m) s2 ip1.
Proof.
  intros [W1 W2 W3 [l W4] W5 W6 W7 W8 W9 W10 W11 W12] Ht [B1 B2 B3 B4 [l' B5] B6 B7 [Ba Bne] B8 B9 B10 B11] Em Ed Hlen X2 K2 V2.
  destruct (wloop_block tot Ht) as (Hbr & Hmb & Hdm).
  destruct (nblocks_next (off + tot) (off + n) m) as (Hm1 & Hm2 & Hm3); [lia|rewrite Em; f_equal; lia|].
  assert (m <= n - tot /\ (off + tot) mod BSIZE + m <= BSIZE) as [Hm4 Hm5] by lia.
  rewrite Ba in V2, Bne. destruct (file_write s1 s2 ip1 _ d 1 B6 Hbr Bne K2 V2) as (G2 & N2 & F2 & E2 & C2).
  assert (grow s s2) as G by (by eapply grow_trans).
  assert (off + (tot + m) = off + tot + m) as Ea by lia. split; try done; rewrite ?Ea, ?Hm2; try lia.
  - by eapply grow_trans.
  - by rewrite (fk_inodes _ _ _ K2), B4, W3, list_insert_insert_eq.
  - exists l'. by rewrite B5, W4.
  - eapply (room_keep _ 1); [exact K2|]. eapply (fstep_room _ 5); [exact B2|]. eapply room_weaken; [exact W6|lia].
  - intros k Hk Hne. rewrite E2. rewrite B8; [by apply W9|done|by apply W9].
  - intros k Hk1 Hk2. rewrite E2. destruct (decide (k = (off + tot) / BSIZE)) as [-> |Hkn]; [done|].
    assert (0 <= off / BSIZE) by (apply Z.div_pos; unfold BSIZE; lia).
    assert (k * BSIZE < off + tot) as Hk3 by (unfold BSIZE in *; lia).
    assert (0 <= k < MAXFILE) as Hkr by (unfold BSIZE, MAXFILE in *; lia).
    specialize (W10 k Hk1 Hk3). by rewrite B8.
  - intros k Hk Hu Hnb Hki Hbn. destruct (W11 k Hk Hu Hnb Hki Hbn) as (V1 & J1 & J2).
    assert (used s k = true) as Hu' by (by apply (gr_used _ _ W2)).
    assert (0 <= k < sb_size (fsb s)) as Hk' by (by rewrite (gr_sb _ _ W2)).
    destruct (B10 k Hk' Hu' J1 J2) as [J3 J4]. split_and!; [|done|intros b Hb; rewrite E2; by apply J4].
    rewrite V2, vupd_ne by (intros E; by apply (J4 _ Hbr)). rewrite <- V1. apply B9; [done|done| |done]. unfold notbm. by rewrite (gr_sb _ _ W2).
  - intros o Ho. rewrite C2 by done. rewrite (B7 o Ho), (W12 o Ho).
    assert (o = o / BSIZE * BSIZE + o mod BSIZE /\ 0 <= o mod BSIZE < BSIZE) as [Hod Hom].
    { unfold BSIZE. pose proof (Z.div_mod o 512 ltac:(lia)). pose proof (Z.mod_pos_bound o 512 ltac:(lia)). lia. }
    destruct (Z.eqb_spec (o / BSIZE) ((off + tot) / BSIZE)) as [Eb|Eb].
    + assert (fbyte s1 ip1 o = byte_at (fview s1 a) (o mod BSIZE)) as Eold.
      { unfold fbyte. rewrite Eb, <- Ba. destruct (Z.eqb_spec a 0); [congruence|done]. }
      rewrite (B7 o Ho), (W12 o Ho) in Eold. rewrite Ed, byte_splice by (rewrite ?Hlen; unfold BSIZE in *; lia).
      rewrite Nat2Z.inj_add, !Z2Nat.id by lia. rewrite <- Eold. rewrite Eb in Hod.
      destruct (Z.leb_spec ((off + tot) mod BSIZE) (o mod BSIZE)), (Z.ltb_spec (o mod BSIZE) ((off + tot) mod BSIZE + m)),
        (Z.leb_spec off o), (Z.ltb_spec o (off + tot)), (Z.ltb_spec o (off + tot + m)); cbn [andb]; try lia; try done.
      f_equal. lia.
    + destruct (Z.leb_spec off o), (Z.ltb_spec o (off + tot)), (Z.ltb_spec o (off + tot + m)); cbn [andb]; try lia; try done.
      exfalso. apply Eb. assert (o = off + tot + (o - (off + tot))) as -> by lia.
      by destruct (div_in_block (off + tot) (o - (off + tot))) as [-> _]; [lia|lia|].
Qed.

Lemma wp_writei_step tot s ip (Q : Z * Z + Z -> fsst -> Prop) :
  wl tot s ip -> 0 <= tot < n ->
  (forall m s' ip', m = Z.min (n - tot) (BSIZE - (off + tot) mod BSIZE) -> wl (tot + m) s' ip' -> Q (inl (tot + m, off + (tot + m))) s') ->
  wp (writei_step i src n (tot, off + tot)) Q s.
Proof.
  intros W Ht HQ. pose proof W as [W1 W2 W3 [l W4] W5 W6 W7 W8 W9 W10 W11 W12]. unfold writei_step.
  destruct (Z.ltb_spec tot n); [|lia]. destruct (wloop_block tot Ht) as (Hbr & Hmb & Hdm).
  assert (i < length (inodes s0))%nat as Hlt by (by eapply lookup_lt_Some).
  assert (inodes s !! i = Some ip) as Hi by (rewrite W3; by apply list_lookup_insert_eq).
  set (m := Z.min (n - tot) (BSIZE - (off + tot) mod BSIZE)).
  destruct (nblocks_next (off + tot) (off + n) m) as (Hm1 & Hm2 & Hm3); [lia|unfold m; f_equal; lia|].
  assert (m <= n - tot /\ (off + tot) mod BSIZE + m <= BSIZE) as [Hm4 Hm5] by (unfold m; lia).
  rewrite wp_bind. apply (wp_get_inode _ _ ip); [done|]. rewrite wp_bind.
  apply (wp_bmap s pid i ip); [done|by eapply fslay_grow|done|done|done|eapply room_weaken; [exact W6|lia]|lia|].
  intros a s1 ip1 B. pose proof B as [B1 B2 B3 B4 _ B6 _ [Ba Bne] _ _ _ _].
  assert (datab s1 a) as Hdb by (rewrite Ba in *; by apply (f_data _ _ B6)).
  assert (room s1 2) as Hr1 by (eapply (fstep_room 2 5); [exact B2|]; eapply room_weaken; [exact W6|lia]).
  rewrite (f_dev _ _ W5), wp_bind.
  apply (wp_fbread s1 pid ∅); [done|apply (db_home _ _ Hdb)|by intros b k; rewrite lookup_empty| |].
  { apply fits_room; [eapply room_weaken; [exact Hr1|lia]|rewrite map_size_empty; lia]. }
  intros bp s2 X2 K2 Hbp V2. rewrite wp_bind. eapply wp_fdata; [done|by rewrite lookup_insert_eq|]. rewrite V2.
  assert (block_ok (fview s1 a)) as [Hlen Hok] by (eapply fview_ok; [exact B1|apply (db_home _ _ Hdb)]).
  eapply wp_fstore_k; [exact X2|done| |eapply fkeep_home; [exact K2|apply Hdb]|eapply (room_keep 1 0); [exact K2|eapply room_weaken; [exact Hr1|lia]]|].
  { split; [rewrite length_splice; [done|]; rewrite length_slice; unfold BSIZE in *; lia|apply Forall_splice; [done|by apply Forall_slice]]. }
  intros s3 X3 K3 V3. rewrite wp_ret. rewrite u32_id by (unfold MAXFILE, BSIZE in *; lia).
  replace (off + tot + m) with (off + (tot + m)) by lia. apply (HQ m s3 ip1); [done|].
  eapply (wloop_next tot s ip s1 ip1 a s3 m _ W Ht B eq_refl eq_refl Hlen X3).
  - by eapply (fkeep_trans 0 1).
  - intros k. rewrite V3. unfold vupd. case_decide; by rewrite ?V2.
Qed.

Lemma wloop_start :
  fx s0 pid ∅ -> file s0 ip0 -> whole s0 ip0 -> off <= i_size ip0 -> 0 <= n -> room s0 (6 * nblocks off (off + n) + 2) ->
  2 * nblocks off (off + n) <= Z.of_nat (nfree s0) -> wl 0 s0 ip0.
Proof.
  intros Hx Hf Hw Hos Hn Hr Hfr. split; rewrite ?Z.add_0_r; try done.
  - by rewrite list_insert_id.
  - exists (i_addrs ip0). by destruct ip0.
  - intros k H1 H2. apply (wh_blocks _ _ Hw); [|lia]. assert (0 <= off / BSIZE) by (apply Z.div_pos; unfold BSIZE; lia). lia.
  - intros o Ho. destruct (Z.leb_spec off o), (Z.ltb_spec o off); cbn [andb]; try lia; done.
Qed.

Lemma wp_writei_loop s ip (Q : Z -> fsst -> Prop) :
  wl 0 s ip -> 0 <= n -> (forall s' ip', wl n s' ip' -> Q (off + n) s') ->
  wp (loop (Z.to_nat (n / BSIZE) + 3) (writei_step i src n) (0, off)) Q s.
Proof.
  intros W Hn HQ. pose proof (nblocks_fuel off n Hoff Hn). pose proof (nblocks_nonneg off (off + n)).
  assert (0 <= n / BSIZE) by (apply Z.div_pos; unfold BSIZE; lia).
  apply (wp_loop (fun '(tot, o) s' => o = off + tot /\ exists ip', wl tot s' ip') (fun '(tot, o) => Z.to_nat (nblocks o (off + n)))).
  2: { split; [lia|by exists ip]. }
  2: { lia. }
  intros [tot o] s1 (-> & ip1 & W1). pose proof (wl_tot _ _ _ _ _ _ _ _ _ _ W1) as Ht.
  destruct (Z.lt_ge_cases tot n) as [Hlt|Hge].
  - apply (wp_writei_step tot s1 ip1); [done|lia|]. intros m s' ip' Em W'. split; [split; [done|by exists ip']|].
    destruct (nblocks_next (off + tot) (off + n) m) as (Hm1 & Hm2 & Hm3); [lia|rewrite Em; f_equal; lia|].
    replace (off + (tot + m)) with (off + tot + m) by lia. lia.
  - unfold writei_step. destruct (Z.ltb_spec tot n); [lia|]. rewrite wp_ret. assert (tot = n) as -> by lia. by apply (HQ s1 ip1).
Qed.
End writei.

(** The new size goes to the inode and, with the addresses, to the disk. *)
Lemma wp_set_size s pid i ip sz (Q : unit -> fsst -> Prop) :
  fx s pid ∅ -> fslay s -> inodes s !! i = Some ip -> file s ip -> 0 <= i_inum ip < sb_ninodes (fsb s) -> room s 1 ->
  (forall s', fx s' pid ∅ -> fstep 1 s s' -> grow s s' -> inodes s' = <[i := set_i_size sz ip]> (inodes s) ->
     file s' (set_i_size sz ip) -> same_content s ip s' (set_i_size sz ip) ->
     (forall k, 0 <= k < MAXFILE -> baddr s' (set_i_size sz ip) k = baddr s ip k) ->
     (forall k, k <> iblock (fsb s) (i_inum ip) -> fview s' k = fview s k) -> Q tt s') ->
  wp (upd_inode i (set_i_size sz) ;; iupdate i) Q s.
Proof.
  intros Hx Hl Hi Hf Hn Hr HQ. rewrite wp_bind. apply (wp_upd_inode _ _ _ ip); [done|].
  set (ip' := set_i_size sz ip). set (s1 := set_inodes (<[i := ip']> (inodes s)) s).
  assert (i < length (inodes s))%nat as Hlt by (by eapply lookup_lt_Some).
  assert (fits s1 ∅) as Hfits by (apply fits_room; [exact Hr|rewrite map_size_empty; lia]).
  apply (wp_iupdate s1 pid ∅ i ip'); [by apply fx_inodes|exact (fl_itable _ Hl)|by apply list_lookup_insert_eq|apply Hf|done|apply Hf
    |by intros b m; rewrite lookup_empty|exact Hr|exact Hfits|].
  intros s2 X2 K2 V2. change (fsb s1) with (fsb s) in V2. change (i_inum ip') with (i_inum ip) in V2.
  destruct (fl_iused _ Hl _ Hn) as (I1 & I2 & I3 & I4).
  assert (forall k, k <> iblock (fsb s) (i_inum ip) -> fview s2 k = fview s k) as Hv by (intros k Hk; rewrite V2; by rewrite vupd_ne).
  destruct (grow_views s1 s2 1 K2) as [G2 _]; [intros b Hb; apply Hv; by apply I4|apply Hv; by intros ?; apply I3|].
  assert (grow s s2) as G by (eapply grow_trans; [apply (grow_inodes s (<[i := ip']> (inodes s)))|exact G2]).
  assert (forall k, 0 <= k < MAXFILE -> baddr s2 ip' k = baddr s ip k) as Eb.
  { intros k Hk. unfold baddr. change (ind ip') with (ind ip). change (i_addrs ip') with (i_addrs ip).
    destruct (k <? _); [done|]. destruct (Z.eqb_spec (ind ip) 0) as [|Hne]; [done|]. rewrite Hv; [done|].
    intros E. by apply (db_inode _ _ (f_ind _ _ Hf Hne) _ Hn). }
  destruct (file_extend s s2 ip ip' 0 0) as [Hf' Hc]; try done; [apply Hf|by left|intros k Hk; left; by apply Eb| |].
  { intros k Hd _. apply Hv. intros E. by apply (db_inode _ _ Hd _ Hn). }
  apply HQ; try done.
  - eapply (fstep_trans 0 1); [apply fstep_inodes|by apply fstep_keep|lia].
  - by rewrite (fk_inodes _ _ _ K2).
Qed.

Record writei_post (s : fsst) (pid : Z) (i : nat) (ip : inode) (src : list Z) (off n : Z) (s' : fsst) (ip' : inode) : Prop := {
  wi_fx : fx s' pid ∅;
  wi_lay : fslay s';
  wi_inodes : inodes s' = <[i := ip']> (inodes s);
  wi_ip : exists l, ip' = set_i_size (if 0 <? n then Z.max (i_size ip) (off + n) else i_size ip) (set_i_addrs l ip);
  wi_file : file s' ip';
  wi_whole : whole s' ip';
  wi_room : room s' 1;
  wi_content : forall o, 0 <= o < MAXFILE * BSIZE ->
     fbyte s' ip' o = if (off <=? o) && (o <? off + n) then byte_at src (o - off) else fbyte s ip o;
  wi_view : forall k, 0 <= k < sb_size (fsb s) -> used s k = true -> notbm s k -> k <> ind ip ->
     (forall b, 0 <= b < MAXFILE -> baddr s ip b <> k) -> k <> iblock (fsb s) (i_inum ip) -> fview s' k = fview s k }.

Lemma wp_writei s pid i ip src off n (Q : Z -> fsst -> Prop) :
  fx s pid ∅ -> fslay s -> inodes s !! i = Some ip -> i_type ip <> T_DEV -> 0 <= i_inum ip < sb_ninodes (fsb s) ->
  file s ip -> whole s ip -> 0 <= off <= i_size ip -> 0 <= n -> off + n <= MAXFILE * BSIZE ->
  n <= Z.of_nat (length src) -> Forall is_byte src ->
  room s (6 * nblocks off (off + n) + 2) -> 2 * nblocks off (off + n) <= Z.of_nat (nfree s) ->
  (forall s' ip', writei_post s pid i ip src off n s' ip' -> Q n s') -> wp (writei devsw i src off n) Q s.
Proof.
  intros Hx Hl Hi Hty Hin Hf Hw Ho Hn Hend Hsrc Hby Hr Hfr HQ. pose proof (wh_size _ _ Hw) as Hsz.
  unfold writei. rewrite wp_bind. apply (wp_get_inode _ _ ip); [done|].
  assert (off + n < 2147483648) as Hlim by (unfold MAXFILE, BSIZE in *; lia).
  rewrite (proj2 (Z.eqb_neq _ _) Hty), !(u32_id (off + n)) by lia.
  destruct (Z.ltb_spec (i_size ip) off); [lia|]. destruct (Z.ltb_spec (off + n) off); [lia|]. cbn [orb].
  destruct (Z.ltb_spec (MAXFILE * BSIZE) (off + n)); [lia|]. rewrite wp_bind.
  apply (wp_writei_loop s pid i ip src off n Hl Hi ltac:(lia) Hend Hsrc Hby s ip); [apply wloop_start; try done; lia|done|].
  intros s1 ip1 [W1 W2 W3 [l W4] W5 W6 W7 W8 W9 W10 W11 W12].
  assert (i < length (inodes s))%nat as Hlt by (by eapply lookup_lt_Some).
  assert (inodes s1 !! i = Some ip1) as Hi1 by (rewrite W3; by apply list_lookup_insert_eq).
  rewrite wp_bind. apply (wp_get_inode _ _ ip1); [done|]. rewrite wp_bind.
  assert (i_size ip1 = i_size ip) as Es by (by rewrite W4). rewrite Es.
  assert (fslay s1) as Hl1 by (by eapply fslay_grow).
  assert (room s1 2) as Hr1 by (eapply room_weaken; [exact W6|pose proof (nblocks_nonneg (off + n) (off + n)); lia]).
  assert (forall bn, 0 <= bn -> bn * BSIZE < Z.max (i_size ip) (off + n) -> baddr s1 ip1 bn <> 0) as Hnb.
  { intros bn Hb0 Hb. assert (0 <= bn < MAXFILE) as Hbr by (unfold MAXFILE, BSIZE in *; lia).
    destruct (Z.lt_ge_cases (bn * BSIZE) (i_size ip)) as [Hc1|Hc1]; [apply W9; [done|by apply (wh_blocks _ _ Hw)]|].
    apply W10; [|lia]. apply Z.div_le_upper_bound; unfold BSIZE in *; lia. }
  destruct ((0 <? n) && (i_size ip <? off + n)) eqn:Ec.
  - apply andb_true_iff in Ec as [E1%Z.ltb_lt E2%Z.ltb_lt].
    apply (wp_set_size s1 pid i ip1); [done|done|done|done|by rewrite W4, (gr_sb _ _ W2)|eapply room_weaken; [exact Hr1|lia]|].
    intros s2 X2 S2 G2 I2 F2 C2 B2 V2. rewrite wp_ret, s32_id by lia. apply (HQ s2 (set_i_size (off + n) ip1)).
    split; try done.
    + by eapply fslay_grow.
    + by rewrite I2, W3, list_insert_insert_eq.
    + exists l. rewrite (proj2 (Z.ltb_lt _ _) E1), Z.max_r by lia. by rewrite W4.
    + split; [cbn; lia|]. cbn [i_size set_i_size]. intros bn Hb0 Hb. rewrite B2; [apply Hnb; lia|unfold MAXFILE, BSIZE in *; lia].
    + by eapply (fstep_room 1 1).
    + intros o Hor. by rewrite C2, W12.
    + intros k Hk Hu Hnb' Hki Hbn Hib. rewrite V2; [by apply W11|]. by rewrite W4, (gr_sb _ _ W2).
  - rewrite wp_skip, wp_ret, s32_id by lia. apply (HQ s1 ip1).
    assert ((if 0 <? n then Z.max (i_size ip) (off + n) else i_size ip) = i_size ip) as Em.
    { destruct (Z.ltb_spec 0 n); [|done]. cbn [andb] in Ec. apply Z.ltb_ge in Ec. lia. }
    rewrite andb_false_iff, !Z.ltb_ge in Ec. split; try done.
    + exists l. rewrite Em, W4. by destruct ip.
    + split; rewrite Es; [done|]. intros bn Hb0 Hb. apply Hnb; lia.
    + eapply room_weaken; [exact Hr1|lia].
    + intros k Hk Hu Hnb' Hki Hbn _. by apply W11.
Qed.
End fcontent.

Lemma byte_content s ip off m j : 0 <= j < m -> byte_at (content s ip off m) j = fbyte s ip (off + j).
Proof. intros Hj. unfold byte_at, content. rewrite list_lookup_fmap, lookup_seqZ_lt by lia. cbn. f_equal. lia. Qed.

(** C3.  A regular file is an array of bytes.  In a transaction with room in
    the log and free blocks for the blocks touched, [writei] returns the
    number of bytes it was given, the file grows to the end of the write if it
    was shorter, no block outside the file and its inode changes, and reading
    any part of the file with [readi] afterwards gives the bytes written where
    they were written and the bytes the file had before elsewhere, up to its
    size; the invariants of the file and of the disk layout are kept. *)
Theorem file_is_array devsw s pid i ip src off n :
  fx s pid ∅ -> fslay s -> inodes s !! i = Some ip -> i_type ip <> T_DEV -> 0 <= i_inum ip < sb_ninodes (fsb s) ->
  file s ip -> whole s ip -> 0 <= off <= i_size ip -> 0 < n -> off + n <= MAXFILE * BSIZE ->
  n <= Z.of_nat (length src) -> Forall is_byte src ->
  room s (6 * nblocks off (off + n) + 2) -> 2 * nblocks off (off + n) <= Z.of_nat (nfree s) ->
  exists s' ip', writei devsw i src off n s = Ok n s' /\ inodes s' !! i = Some ip' /\
    i_size ip' = Z.max (i_size ip) (off + n) /\ fx s' pid ∅ /\ fslay s' /\ file s' ip' /\ whole s' ip' /\
    (forall k, 0 <= k < sb_size (fsb s) -> used s k = true -> notbm s k -> k <> ind ip ->
       (forall b, 0 <= b < MAXFILE -> baddr s ip b <> k) -> k <> iblock (fsb s) (i_inum ip) -> fview s' k = fview s k) /\
    forall off' n', 0 <= off' <= i_size ip' -> 0 <= n' -> off' + n' < 2147483648 ->
      let m := Z.min n' (i_size ip' - off') in
      exists data s'', readi devsw i off' n' s' = Ok (m, data) s'' /\ Z.of_nat (length data) = m /\
        forall j, 0 <= j < m -> byte_at data j =
          if (off <=? off' + j) && (off' + j <? off + n) then byte_at src (off' + j - off) else fbyte s ip (off' + j).
Proof.
  intros Hx Hl Hi Hty Hin Hf Hw Ho Hn Hend Hsrc Hby Hr Hfr.
  assert (wp (writei devsw i src off n) (fun r s' => r = n /\ exists ip', writei_post s pid i ip src off n s' ip') s)
    as (r & s' & E & -> & ip' & [P1 P2 P3 [l P4] P5 P6 P7 P8 P9])%wp_inv.
  { apply (wp_writei devsw s pid i ip); try done; [lia|]. intros s' ip' P. split; [done|by exists ip']. }
  assert (inodes s' !! i = Some ip') as Hi' by (rewrite P3; apply list_lookup_insert_eq; by eapply lookup_lt_Some).
  rewrite (proj2 (Z.ltb_lt _ _) Hn) in P4. exists s', ip'. split_and!; try done; [by rewrite P4|].
  intros off' n' Ho' Hn' Hlim m. pose proof (wh_size _ _ P6) as Hsz.
  assert (wp (readi devsw i off' n') (fun r _ => r = (m, content s' ip' off' m)) s') as (r & s'' & E' & ->)%wp_inv.
  { apply (wp_readi devsw s' pid i ip'); try done. by rewrite P4. }
  exists (content s' ip' off' m), s''. split_and!; [done|unfold content; rewrite length_fmap, length_seqZ; lia|].
  intros j Hj. rewrite byte_content by done. apply P8. lia.
Qed.
