(* ===== verification/FsDir.v ===== *)
(** * Directories: [dirlookup] and [dirlink] against a list of entries

    A directory is a file of 16-byte entries.  Names are compared and stored
    up to fourteen characters or their NUL, whichever comes first, so the
    abstract name of an entry is the padded form [strncpy] stores. *)

From S2P Require Import Prelude Bytes Core Bio Log Txn StringLib Cons Fs FsTx FsBlocks FsInodes FsData.

(** ** Names *)

Definition name_of (l : list Z) : list Z := strncpy_bytes (of_list l) 0 DIRSIZ.

Lemma of_list_byte l j : Forall is_byte l -> is_byte (of_list l j).
Proof.
  intros Hl. unfold of_list. destruct (j <? 0); [unfold is_byte; lia|].
  destruct (l !! Z.to_nat j) as [x|] eqn:E; [|unfold is_byte; cbn; lia]. cbn. by eapply Forall_lookup_1.
Qed.

Lemma strncpy_bytes_byte t i n : (forall j, is_byte (t j)) -> Forall is_byte (strncpy_bytes t i n).
Proof.
  intros Ht. revert i. induction n as [|n IH]; intros i; [constructor|]. cbn. constructor; [apply Ht|].
  destruct (t i =? 0); [|apply IH]. apply Forall_replicate. unfold is_byte. lia.
Qed.

Lemma name_of_byte l : Forall is_byte l -> Forall is_byte (name_of l).
Proof. intros Hl. apply strncpy_bytes_byte. intros j. by apply of_list_byte. Qed.

(** Two strings have the same padded form exactly when they agree up to a NUL. *)
Lemma strncpy_bytes_eq (p q : strm) i n :
  strncpy_bytes p i n = strncpy_bytes q i n <->
  (forall j, i <= j < i + Z.of_nat n -> (forall k, i <= k < j -> p k <> 0) -> p j = q j).
Proof.
  revert i. induction n as [|n IH]; intros i; cbn [strncpy_bytes]; [split; [lia|done]|]. split.
  - intros [= E1 E2] j Hj Hk. destruct (decide (j = i)) as [->|Hne]; [done|].
    assert (p i <> 0) as Hp by (apply Hk; lia). rewrite <- E1, (proj2 (Z.eqb_neq _ _) Hp) in E2.
    apply (proj1 (IH (i + 1)) E2); [lia|]. intros k Hk'. apply Hk. lia.
  - intros Hj. assert (p i = q i) as E by (apply Hj; lia). rewrite <- E. f_equal.
    destruct (Z.eqb_spec (p i) 0) as [|Hp]; [done|]. apply IH. intros j Hj' Hk. apply Hj; [lia|].
    intros k Hk'. destruct (decide (k = i)) as [->|]; [done|]. apply Hk. lia.
Qed.

Lemma namecmp_0 a b : Forall is_byte a -> Forall is_byte b -> namecmp a b = 0 <-> name_of a = name_of b.
Proof.
  intros Ha Hb. unfold namecmp, name_of. rewrite strncmp_0; [|intros j; by apply of_list_byte..|lia].
  unfold same_prefix. by rewrite strncpy_bytes_eq.
Qed.

Lemma strncpy_bytes_lookup t i n j : (forall k, i <= k < i + Z.of_nat j -> t k <> 0) -> (j < n)%nat ->
  strncpy_bytes t i n !! j = Some (t (i + Z.of_nat j)).
Proof.
  revert i j. induction n as [|n IH]; intros i j Hk Hj; [lia|]. cbn [strncpy_bytes].
  destruct j as [|j]; [cbn; do 2 f_equal; lia|]. rewrite (proj2 (Z.eqb_neq _ _)) by (apply Hk; lia).
  change ((?x :: ?l) !! S j) with (l !! j). rewrite IH; [do 2 f_equal; lia| |lia]. intros k Hk'. apply Hk. lia.
Qed.

(** What is stored is its own padded form. *)
Lemma name_of_idem l : name_of (name_of l) = name_of l.
Proof.
  symmetry. unfold name_of at 1 2. apply strncpy_bytes_eq. intros j Hj Hk. unfold of_list at 2.
  destruct (Z.ltb_spec j 0); [lia|]. unfold name_of. rewrite strncpy_bytes_lookup; [|intros k Hk'; apply Hk; lia|lia].
  cbn. f_equal. lia.
Qed.

(** ** Entries *)

Definition dent (s : fsst) (ip : inode) (k : Z) : Z * list Z :=
  let d := content s ip (DIRENT * k) DIRENT in (de_inum d, name_of (de_name d)).
Definition dents (s : fsst) (ip : inode) : list (Z * list Z) := dent s ip <$> seqZ 0 (i_size ip / DIRENT).

(** The first entry in use with the name: its position and inode number. *)
Fixpoint dfind (name : list Z) (l : list (Z * list Z)) : option (Z * Z) :=
  match l with
  | [] => None
  | (ino, nm) :: l' =>
      if negb (ino =? 0) && bool_decide (name = nm) then Some (0, ino)
      else (fun p => (p.1 + 1, p.2)) <$> dfind name l'
  end.
(** The first free entry taken, or one more at the end. *)
Fixpoint dinsert (e : Z * list Z) (l : list (Z * list Z)) : list (Z * list Z) :=
  match l with
  | [] => [e]
  | x :: l' => if x.1 =? 0 then e :: l' else x :: dinsert e l'
  end.
(** Where it goes. *)
Fixpoint dslot (l : list (Z * list Z)) : nat :=
  match l with [] => 0 | x :: l' => if x.1 =? 0 then 0 else S (dslot l') end.

Lemma dinsert_lookup e l k : dinsert e l !! k = if decide (k = dslot l) then Some e else l !! k.
Proof.
  revert k. induction l as [|x l IH]; intros k; cbn [dinsert dslot].
  - by destruct k as [|k].
  - destruct (x.1 =? 0); [by destruct k|]. destruct k as [|k]; [done|]. cbn. rewrite IH.
    by destruct (decide (k = dslot l)), (decide (S k = S (dslot l))); try lia.
Qed.

Lemma dslot_le l : (dslot l <= length l)%nat.
Proof. induction l as [|x l IH]; cbn; [lia|]. destruct (x.1 =? 0); lia. Qed.

(** Lookup after insertion. *)
Lemma dfind_dinsert_eq name ino l :
  ino <> 0 -> dfind name l = None -> dfind name (dinsert (ino, name) l) = Some (Z.of_nat (dslot l), ino).
Proof.
  intros Hi. induction l as [|[i nm] l IH]; cbn [dfind dinsert dslot fst].
  - by rewrite (proj2 (Z.eqb_neq _ _) Hi), bool_decide_true.
  - destruct (Z.eqb_spec i 0) as [->|Hne]; cbn [negb andb dfind].
    + intros _. by rewrite (proj2 (Z.eqb_neq _ _) Hi), bool_decide_true.
    + rewrite (proj2 (Z.eqb_neq _ _) Hne). cbn [negb andb]. destruct (bool_decide (name = nm)); [done|].
      destruct (dfind name l); [done|]. intros _. rewrite IH by done. cbn. do 2 f_equal. lia.
Qed.

Lemma dfind_dinsert_ne name name' ino l :
  name <> name' -> dfind name' (dinsert (ino, name) l) = dfind name' l.
Proof.
  intros Hn. induction l as [|[i nm] l IH]; cbn [dfind dinsert fst].
  - rewrite bool_decide_false by congruence. by rewrite andb_false_r.
  - destruct (Z.eqb_spec i 0) as [->|Hne]; cbn [negb andb dfind].
    + rewrite bool_decide_false by congruence. by rewrite andb_false_r.
    + rewrite (proj2 (Z.eqb_neq _ _) Hne). cbn [negb andb]. destruct (bool_decide _); [done|]. by rewrite IH.
Qed.

(** ** Reading entries *)

Lemma fbyte_byte s pid hs ip o : fx s pid hs -> file s ip -> 0 <= o < MAXFILE * BSIZE -> is_byte (fbyte s ip o).
Proof.
  intros Hx Hf Ho. unfold fbyte. destruct (Z.eqb_spec (baddr s ip (o / BSIZE)) 0) as [|Hne]; [unfold is_byte; lia|].
  assert (0 <= o / BSIZE < MAXFILE) as Hb.
  { split; [apply Z.div_pos; unfold BSIZE; lia|apply Z.div_lt_upper_bound; unfold BSIZE in *; lia]. }
  destruct (f_data _ _ Hf _ Hb Hne) as [Hd _]. destruct (db_home _ _ Hd) as [Hr _].
  destruct (fview_ok s pid hs _ Hx Hr) as [_ Hok]. unfold byte_at.
  destruct (fview s _ !! _) as [x|] eqn:E; [|unfold is_byte; cbn; lia]. cbn. by eapply Forall_lookup_1.
Qed.

Lemma content_byte s pid hs ip off n :
  fx s pid hs -> file s ip -> 0 <= off -> off + n <= MAXFILE * BSIZE -> Forall is_byte (content s ip off n).
Proof.
  intros Hx Hf Ho Hn. unfold content. apply Forall_fmap, Forall_forall. intros o Hin%elem_of_seqZ. cbn.
  eapply fbyte_byte; [done..|lia].
Qed.

(** The file a directory is stored in. *)
Record dirfile (s : fsst) (dp : nat) (ip : inode) : Prop := {
  df_ip : inodes s !! dp = Some ip;
  df_type : i_type ip = T_DIR;
  df_file : file s ip;
  df_whole : whole s ip;
  df_size : i_size ip mod DIRENT = 0 }.

Section dirs.
Context (devsw : list devops) (s : fsst) (pid : Z) (dp : nat) (ip : inode).
Context (Hx : fx s pid ∅) (Hd : dirfile s dp ip) (Hr : room s 1).

(** Only the cache has changed. *)
Record quiet (s' : fsst) : Prop := {
  qt_fx : fx s' pid ∅;
  qt_keep : fkeep 0 s s';
  qt_view : forall m, fview s' m = fview s m }.

Lemma quiet_refl : quiet s.
Proof. split; [done|apply fkeep_refl|done]. Qed.

Let K := i_size ip / DIRENT.

Lemma dir_size : i_size ip = DIRENT * K /\ 0 <= K /\ DIRENT * K <= MAXFILE * BSIZE.
Proof.
  pose proof (Z.div_mod (i_size ip) DIRENT ltac:(done)) as E. rewrite (df_size _ _ _ Hd), Z.add_0_r in E.
  pose proof (wh_size _ _ (df_whole _ _ _ Hd)). subst K. split_and!; [done|apply Z.div_pos; unfold DIRENT; lia|lia].
Qed.

Lemma content_views s' off n : (forall m, fview s' m = fview s m) -> content s' ip off n = content s ip off n.
Proof.
  intros V. unfold content. apply list_fmap_ext. intros j o _. unfold fbyte. rewrite (baddr_views s s') by done.
  by rewrite V.
Qed.

(** One entry is read. *)
Lemma read_dent s1 k : quiet s1 -> 0 <= k < K ->
  exists s2, quiet s2 /\ readi devsw dp (DIRENT * k) DIRENT s1 = Ok (DIRENT, content s ip (DIRENT * k) DIRENT) s2.
Proof.
  intros [X1 K1 V1] Hk. destruct dir_size as (Es & HK & Hmax). destruct Hd as [D1 D2 D3 D4 D5].
  assert (wp (readi devsw dp (DIRENT * k) DIRENT) (fun r s2 => quiet s2 /\ r = (DIRENT, content s ip (DIRENT * k) DIRENT)) s1)
    as (r & s2 & E & Q2 & ->)%wp_inv; [|by exists s2].
  unfold DIRENT, MAXFILE, BSIZE in Es, Hmax.
  apply (wp_readi devsw s1 pid dp ip); [done|by rewrite (fk_inodes _ _ _ K1)|by rewrite D2|by eapply file_views| | | | | |].
  - destruct D4 as [W1 W2]. split; [done|]. intros bn H1 H2. rewrite (baddr_views s) by done. by apply W2.
  - by eapply (room_keep 1 0).
  - unfold DIRENT. lia.
  - done.
  - unfold DIRENT. lia.
  - intros s2 X2 K2 V2. replace (Z.min DIRENT (i_size ip - DIRENT * k)) with DIRENT by (unfold DIRENT; lia).
    cbv zeta. rewrite content_views by done. split; [|done].
    split; [done|by eapply (fkeep_trans 0 0)|]. intros m. by rewrite V2.
Qed.

Lemma dent_cmp name k : 0 <= k < K -> Forall is_byte name ->
  (namecmp name (de_name (content s ip (DIRENT * k) DIRENT)) =? 0) = bool_decide (name_of name = (dent s ip k).2).
Proof.
  intros Hk Hn. destruct dir_size as (Es & HK & Hmax). assert (Forall is_byte (de_name (content s ip (DIRENT * k) DIRENT))) as Hb.
  { apply Forall_slice. eapply content_byte; [done|apply Hd|unfold DIRENT; lia|].
    unfold DIRENT, MAXFILE, BSIZE in *. lia. }
  pose proof (namecmp_0 _ _ Hn Hb) as E. unfold dent. cbn [snd]. apply eq_bool_prop_intro.
  rewrite bool_decide_spec, Is_true_true, Z.eqb_eq. exact E.
Qed.

(** ** dirlookup *)

Definition found (off : Z) (r : option (Z * Z)) (s' : fsst) : outcome fsst (option (nat * Z)) :=
  match r with
  | None => Ok None s'
  | Some (j, ino) => (i ← iget 1 ino; mret (Some (i, off + DIRENT * j))) s'
  end.

Lemma dirlookup_loop name fuel : forall k s1, quiet s1 -> Forall is_byte name -> 0 <= k <= K -> (Z.to_nat (K - k) < fuel)%nat ->
  exists s', quiet s' /\
    loop fuel (dirlookup_step devsw dp name) (DIRENT * k) s1 =
      found (DIRENT * k) (dfind (name_of name) (dent s ip <$> seqZ k (K - k))) s'.
Proof.
  destruct dir_size as (Es & HK & Hmax). induction fuel as [|fuel IH]; intros k s1 Hq Hn Hk Hf; [lia|].
  assert (inodes s1 !! dp = Some ip) as Hi1 by (rewrite (fk_inodes _ _ _ (qt_keep _ Hq)); apply Hd).
  cbn [loop]. unfold mbind at 1, M_bind at 1. unfold dirlookup_step at 1.
  assert (get_inode dp s1 = Ok ip s1) as Eg.
  { unfold get_inode. erewrite bind_ok by reflexivity. unfold idx. by rewrite Hi1. }
  rewrite (bind_ok _ _ _ _ _ Eg). rewrite Es. destruct (Z.ltb_spec (DIRENT * k) (DIRENT * K)) as [Hlt|Hge].
  2: { assert (k = K) as -> by (unfold DIRENT in *; lia). exists s1. split; [done|]. by rewrite Z.sub_diag. }
  assert (k < K) as HkK by (unfold DIRENT in *; lia).
  destruct (read_dent s1 k Hq ltac:(lia)) as (s2 & Hq2 & E2). rewrite (bind_ok _ _ _ _ _ E2). cbn [fst snd].
  rewrite Z.eqb_refl. cbn [negb]. rewrite seqZ_cons by lia. rewrite fmap_cons. cbn [dfind].
  destruct (dent s ip k) as [ino nm] eqn:Ed. pose proof (dent_cmp name k ltac:(lia) Hn) as Ec. rewrite Ed in Ec.
  unfold dent in Ed. injection Ed as Ei _. rewrite Ei. cbn [snd] in Ec.
  assert (DIRENT * k + DIRENT = DIRENT * (k + 1)) as Eo by (unfold DIRENT; lia).
  assert (u32 (DIRENT * k + DIRENT) = DIRENT * (k + 1)) as Eu.
  { rewrite Eo. apply u32_id. unfold DIRENT, MAXFILE, BSIZE in *. lia. }
  assert (exists s', quiet s' /\ loop fuel (dirlookup_step devsw dp name) (DIRENT * (k + 1)) s2 =
    found (DIRENT * k) ((fun p => (p.1 + 1, p.2)) <$> dfind (name_of name) (dent s ip <$> seqZ (Z.succ k) (Z.pred (K - k)))) s') as Hrec.
  { destruct (IH (k + 1) s2) as (s' & Hq' & E'); [done|done|lia|lia|]. exists s'. split; [done|]. rewrite E'. clear E'.
    replace (K - (k + 1)) with (Z.pred (K - k)) by lia. replace (k + 1) with (Z.succ k) by lia.
    destruct (dfind _ _) as [[j i0]|]; [|done]. cbn. unfold mbind, M_bind. destruct (iget 1 i0 s'); try done.
    unfold mret, M_ret. do 3 f_equal. unfold DIRENT. lia. }
  destruct (Z.eqb_spec ino 0) as [->|Hne]; cbn [negb andb].
  { unfold mret at 1, M_ret at 1. rewrite Eu. exact Hrec. }
  rewrite Ec. destruct (bool_decide (name_of name = nm)).
  - exists s2. split; [done|]. assert (get_inode dp s2 = Ok ip s2) as Eg2.
    { unfold get_inode. erewrite bind_ok by reflexivity. unfold idx. rewrite (fk_inodes _ _ _ (qt_keep _ Hq2)). by rewrite (df_ip _ _ _ Hd). }
    rewrite (bind_ok _ _ _ _ _ Eg2). rewrite (f_dev _ _ (df_file _ _ _ Hd)). cbn [found].
    unfold mbind, M_bind. destruct (iget 1 ino s2); try done. unfold mret, M_ret. do 3 f_equal. lia.
  - unfold mret at 1, M_ret at 1. rewrite Eu. exact Hrec.
Qed.

Lemma dirlookup_run name : Forall is_byte name ->
  exists s', quiet s' /\ dirlookup devsw dp name s = found 0 (dfind (name_of name) (dents s ip)) s'.
Proof.
  intros Hn. destruct dir_size as (Es & HK & _). unfold dirlookup.
  assert (get_inode dp s = Ok ip s) as Eg.
  { unfold get_inode. erewrite bind_ok by reflexivity. unfold idx. by rewrite (df_ip _ _ _ Hd). }
  rewrite (bind_ok _ _ _ _ _ Eg). rewrite (df_type _ _ _ Hd). cbn [negb].
  destruct (dirlookup_loop name (Z.to_nat (i_size ip / DIRENT) + 2) 0 s) as (s' & Hq & E); [apply quiet_refl|done|lia|lia|].
  exists s'. split; [done|]. rewrite Z.mul_0_r in E. change (T_DIR =? T_DIR) with true. cbn [negb]. rewrite E.
  unfold dents. fold K. by rewrite Z.sub_0_r.
Qed.

(** ** dirlink *)

Lemma dirlink_loop fuel : forall k s1, quiet s1 -> 0 <= k <= K -> (Z.to_nat (K - k) < fuel)%nat ->
  exists s', quiet s' /\
    loop fuel (dirlink_step devsw dp) (DIRENT * k) s1 =
      Ok (DIRENT * (k + Z.of_nat (dslot (dent s ip <$> seqZ k (K - k))))) s'.
Proof.
  destruct dir_size as (Es & HK & Hmax). induction fuel as [|fuel IH]; intros k s1 Hq Hk Hf; [lia|].
  assert (get_inode dp s1 = Ok ip s1) as Eg.
  { unfold get_inode. erewrite bind_ok by reflexivity. unfold idx.
    rewrite (fk_inodes _ _ _ (qt_keep _ Hq)). by rewrite (df_ip _ _ _ Hd). }
  cbn [loop]. unfold mbind at 1, M_bind at 1. unfold dirlink_step at 1. rewrite (bind_ok _ _ _ _ _ Eg).
  rewrite Es. destruct (Z.ltb_spec (DIRENT * k) (DIRENT * K)) as [Hlt|Hge].
  2: { assert (k = K) as -> by (unfold DIRENT in *; lia). exists s1. split; [done|].
       rewrite Z.sub_diag. cbn [dslot fmap list_fmap seqZ]. by rewrite Z.add_0_r. }
  assert (k < K) as HkK by (unfold DIRENT in *; lia).
  destruct (read_dent s1 k Hq ltac:(lia)) as (s2 & Hq2 & E2). rewrite (bind_ok _ _ _ _ _ E2). cbn [fst snd].
  rewrite Z.eqb_refl. cbn [negb]. rewrite seqZ_cons by lia. rewrite fmap_cons. cbn [dslot].
  change (de_inum (content s ip (DIRENT * k) DIRENT)) with (dent s ip k).1.
  destruct ((dent s ip k).1 =? 0).
  - exists s2. split; [done|]. unfold mret, M_ret. f_equal. unfold DIRENT. lia.
  - destruct (IH (k + 1) s2) as (s' & Hq' & E'); [done|lia|lia|]. exists s'. split; [done|]. unfold mret at 1, M_ret at 1.
    replace (DIRENT * k + DIRENT) with (DIRENT * (k + 1)) by (unfold DIRENT; lia). rewrite E'.
    replace (K - (k + 1)) with (Z.pred (K - k)) by lia. replace (k + 1) with (Z.succ k) by lia. f_equal.
    unfold DIRENT. lia.
Qed.

Definition new_dent (name : list Z) (inum : Z) : list Z := le_enc 2 (u16 inum) ++ name_of name.
#[local] Arguments new_dent : simpl never.

Lemma new_dent_ok name inum : Forall is_byte name ->
  length (new_dent name inum) = Z.to_nat DIRENT /\ Forall is_byte (new_dent name inum) /\
  (de_inum (new_dent name inum), name_of (de_name (new_dent name inum))) = (u16 inum, name_of name).
Proof.
  intros Hn. unfold new_dent. split_and!.
  - rewrite length_app, length_le_enc. unfold name_of. by rewrite length_strncpy_bytes.
  - apply Forall_app. split; [apply le_enc_bytes|by apply name_of_byte].
  - unfold de_inum, de_name, get16. f_equal.
    + unfold slice. rewrite drop_0, take_app_le by (by rewrite length_le_enc).
      rewrite take_ge by (by rewrite length_le_enc). rewrite le_dec_enc. unfold u16. by rewrite Zmod_mod.
    + unfold slice. rewrite drop_app_length' by (by rewrite length_le_enc).
      rewrite take_ge by (unfold name_of; by rewrite length_strncpy_bytes). apply name_of_idem.
Qed.

Lemma dents_lookup s' ip' k : 0 <= k ->
  dents s' ip' !! Z.to_nat k = if k <? i_size ip' / DIRENT then Some (dent s' ip' k) else None.
Proof.
  intros Hk. unfold dents. rewrite list_lookup_fmap. destruct (Z.ltb_spec k (i_size ip' / DIRENT)).
  - rewrite lookup_seqZ_lt by lia. cbn. do 2 f_equal. lia.
  - by rewrite lookup_seqZ_ge by lia.
Qed.

(** The entries after an entry is written over the free one at [k] or the end. *)
Lemma dents_write s0 ip0 s' ip' name inum k :
  Forall is_byte name -> 0 <= k <= i_size ip0 / DIRENT -> i_size ip0 mod DIRENT = 0 -> DIRENT * (k + 1) <= MAXFILE * BSIZE ->
  0 <= i_size ip0 <= MAXFILE * BSIZE -> i_size ip' = Z.max (i_size ip0) (DIRENT * k + DIRENT) ->
  (forall o, 0 <= o < MAXFILE * BSIZE -> fbyte s' ip' o =
     if (DIRENT * k <=? o) && (o <? DIRENT * k + DIRENT) then byte_at (new_dent name inum) (o - DIRENT * k) else fbyte s0 ip0 o) ->
  (forall j, 0 <= j -> dents s' ip' !! Z.to_nat j =
     if j =? k then Some (u16 inum, name_of name) else dents s0 ip0 !! Z.to_nat j).
Proof.
  intros Hn Hk Hm Hmax H0 Hs Hb j Hj. destruct (new_dent_ok name inum Hn) as (L1 & L2 & L3).
  pose proof (Z.div_mod (i_size ip0) DIRENT ltac:(done)) as Ez. rewrite Hm, Z.add_0_r in Ez.
  set (n := i_size ip0 / DIRENT) in *.
  assert (i_size ip' / DIRENT = Z.max n (k + 1)) as Es.
  { rewrite Hs, Ez. replace (DIRENT * k + DIRENT) with (DIRENT * (k + 1)) by (unfold DIRENT; lia).
    replace (Z.max (DIRENT * n) (DIRENT * (k + 1))) with (Z.max n (k + 1) * DIRENT) by (unfold DIRENT; lia).
    by apply Z.div_mul. }
  rewrite !dents_lookup by done. rewrite Es. fold n. destruct (Z.eqb_spec j k) as [->|Hjk].
  - destruct (Z.ltb_spec k (Z.max n (k + 1))); [|lia]. f_equal. rewrite <- L3. unfold dent. cbv zeta.
    assert (content s' ip' (DIRENT * k) DIRENT = new_dent name inum) as ->; [|done].
    unfold content. apply list_eq. intros i. rewrite list_lookup_fmap. destruct (decide (i < 16)%nat) as [Hi|Hi].
    + rewrite lookup_seqZ_lt by (unfold DIRENT; lia). cbn. rewrite Hb by (unfold DIRENT in *; lia).
      destruct (Z.leb_spec (DIRENT * k) (DIRENT * k + Z.of_nat i)), (Z.ltb_spec (DIRENT * k + Z.of_nat i) (DIRENT * k + DIRENT));
        try (unfold DIRENT in *; lia). cbn [andb]. unfold byte_at.
      replace (Z.to_nat (DIRENT * k + Z.of_nat i - DIRENT * k)) with i by lia.
      destruct (lookup_lt_is_Some_2 (new_dent name inum) i) as [x Hxi]; [rewrite L1; cbn; lia|].
      by rewrite Hxi.
    + rewrite lookup_seqZ_ge by (unfold DIRENT; lia). cbn. symmetry. apply lookup_ge_None_2. rewrite L1. change (Z.to_nat DIRENT) with 16%nat. lia.
  - destruct (Z.ltb_spec j (Z.max n (k + 1))) as [Hlt|Hge], (Z.ltb_spec j n) as [Hlt'|Hge']; try lia; [|done]. f_equal.
    assert (content s' ip' (DIRENT * j) DIRENT = content s0 ip0 (DIRENT * j) DIRENT) as E; [|unfold dent; by rewrite E].
    unfold content. apply list_fmap_ext. intros i o [-> Ho]%lookup_seqZ. unfold DIRENT in *. rewrite Hb by lia.
    destruct (Z.leb_spec (16 * k) (16 * j + Z.of_nat i)), (Z.ltb_spec (16 * j + Z.of_nat i) (16 * k + 16)); cbn [andb]; (done || lia).
Qed.
End dirs.

(** [dirlookup] refines the search of a list of entries: with [s] only
    changing in its block cache, it finds the first entry in use whose name
    agrees up to fourteen characters or the NUL, returns the cache entry
    [iget] gives for its inode number with the offset of the entry, and null
    when there is none. *)
Theorem dirlookup_refines devsw s pid dp ip name :
  fx s pid ∅ -> dirfile s dp ip -> room s 1 -> Forall is_byte name ->
  exists s', fx s' pid ∅ /\ fkeep 0 s s' /\ (forall m, fview s' m = fview s m) /\
    dirlookup devsw dp name s =
      match dfind (name_of name) (dents s ip) with
      | None => Ok None s'
      | Some (k, ino) => (i ← iget 1 ino; mret (Some (i, DIRENT * k))) s'
      end.
Proof.
  intros Hx Hd Hr Hn. destruct (dirlookup_run devsw s pid dp ip Hx Hd Hr name Hn) as (s' & [Q1 Q2 Q3] & E).
  exists s'. split_and!; [done..|]. rewrite E. by destruct (dfind _ _) as [[k ino]|].
Qed.

Lemma nblocks_dirent k : 0 <= k -> nblocks (DIRENT * k) (DIRENT * k + DIRENT) = 1.
Proof.
  intros Hk. unfold nblocks. destruct (Z.ltb_spec (DIRENT * k) (DIRENT * k + DIRENT)); [|unfold DIRENT in *; lia].
  unfold DIRENT, BSIZE. pose proof (Z.div_mod k 32). pose proof (Z.mod_pos_bound k 32).
  assert (16 * k / 512 = k / 32) as ->; [symmetry; apply Z.div_unique with (16 * (k mod 32)); lia|].
  assert ((16 * k + 16 - 1) / 512 = k / 32) as ->; [symmetry; apply Z.div_unique with (16 * (k mod 32) + 15); lia|]. lia.
Qed.

(** C17.  [dirlink] refines the insertion into a list of entries: a name that
    is there already gives -1 after the reference [dirlookup] took is dropped;
    otherwise the first free entry, or one at the end, gets the name and the
    inode number, so that looking the name up finds that number and every
    other lookup is as before, and the invariants of the directory's file and
    of the disk are kept. *)
Theorem dirlink_refines devsw s pid dp ip name inum :
  fx s pid ∅ -> fslay s -> dirfile s dp ip -> 0 <= i_inum ip < sb_ninodes (fsb s) ->
  Forall is_byte name -> 0 < inum < 65536 -> i_size ip + DIRENT <= MAXFILE * BSIZE -> room s 8 -> (2 <= nfree s)%nat ->
  match dfind (name_of name) (dents s ip) with
  | Some (k, ino) => exists s', fx s' pid ∅ /\ fkeep 0 s s' /\ (forall m, fview s' m = fview s m) /\
      dirlink devsw dp name inum s = (i ← iget 1 ino; iput (Some i) ;; mret (-1)) s'
  | None => exists s' ip', dirlink devsw dp name inum s = Ok 0 s' /\ fx s' pid ∅ /\ fslay s' /\ dirfile s' dp ip' /\
      dents s' ip' = dinsert (inum, name_of name) (dents s ip) /\
      dfind (name_of name) (dents s' ip') = Some (Z.of_nat (dslot (dents s ip)), inum) /\
      (forall other, name_of other <> name_of name ->
         dfind (name_of other) (dents s' ip') = dfind (name_of other) (dents s ip)) /\
      forall j x, j <> dp -> inodes s !! j = Some x -> inodes s' !! j = Some x
  end.
Proof.
  intros Hx Hl Hd Hin Hn Hi Hmax Hr Hfr. assert (room s 1) as Hr1 by (eapply room_weaken; [exact Hr|lia]).
  destruct (dirlookup_run devsw s pid dp ip Hx Hd Hr1 name Hn) as (s1 & Q1 & E1). unfold dirlink.
  destruct (dfind (name_of name) (dents s ip)) as [[k ino]|] eqn:Ef.
  { exists s1. split_and!; [apply Q1..|]. unfold mbind at 1, M_bind at 1. rewrite E1. cbn [found].
    unfold mbind, M_bind. destruct (iget 1 ino s1) as [i t| | | |]; try done. }
  rewrite (bind_ok _ _ _ _ _ E1).
  assert (get_inode dp s1 = Ok ip s1) as Eg.
  { unfold get_inode. erewrite bind_ok by reflexivity. unfold idx.
    rewrite (fk_inodes _ _ _ (qt_keep _ _ _ Q1)). by rewrite (df_ip _ _ _ Hd). }
  rewrite (bind_ok _ _ _ _ _ Eg). pose proof (dir_size s dp ip Hd) as (Es & HK & _).
  destruct (dirlink_loop devsw s pid dp ip Hd Hr1 (Z.to_nat (i_size ip / DIRENT) + 2) 0 s1 Q1) as (s2 & Q2 & E2); [lia|lia|].
  rewrite Z.mul_0_r, Z.sub_0_r, Z.add_0_l in E2. fold (dents s ip) in E2. rewrite (bind_ok _ _ _ _ _ E2).
  set (k := Z.of_nat (dslot (dents s ip))) in *. fold (name_of name). change (le_enc 2 (u16 inum) ++ name_of name) with (new_dent name inum).
  assert (0 <= k <= i_size ip / DIRENT) as Hk.
  { pose proof (dslot_le (dents s ip)) as Hle. unfold dents in Hle at 2. rewrite length_fmap, length_seqZ in Hle. lia. }
  destruct (new_dent_ok name inum Hn) as (L1 & L2 & _). destruct Q2 as [X2 K2 V2]. destruct Hd as [D1 D2 D3 D4 D5].
  destruct (grow_views s s2 0 K2) as [Hg Hnf]; [by intros; rewrite V2|by rewrite V2|].
  assert (inodes s2 !! dp = Some ip) as Hi2 by (by rewrite (fk_inodes _ _ _ K2)).
  assert (whole s2 ip) as Hw2.
  { destruct D4 as [W1 W2]. split; [done|]. intros bn H1 H2. rewrite (baddr_views s) by done. by apply W2. }
  assert (DIRENT * (k + 1) <= MAXFILE * BSIZE) as Hend by (unfold DIRENT in *; lia).
  assert (wp (writei devsw dp (new_dent name inum) (DIRENT * k) DIRENT)
    (fun r s' => r = DIRENT /\ exists ip', writei_post s2 pid dp ip (new_dent name inum) (DIRENT * k) DIRENT s' ip') s2)
    as (r & s' & E3 & -> & ip' & [P1 P2 P3 [l P4] P5 P6 P7 P8 P9])%wp_inv.
  { apply (wp_writei devsw s2 pid dp ip); [done|by eapply fslay_grow|done|by rewrite D2|by rewrite (gr_sb _ _ Hg)|by eapply file_views|done
      |unfold DIRENT in *; lia|done|unfold DIRENT in *; lia|rewrite L1; by cbn|done| | |].
    - rewrite nblocks_dirent by lia. by eapply (room_keep 8 0).
    - rewrite nblocks_dirent by lia. rewrite Hnf. lia.
    - intros s' ip' P. split; [done|by exists ip']. }
  rewrite (bind_ok _ _ _ _ _ E3). change (DIRENT =? DIRENT) with true. cbn [negb]. change (0 <? DIRENT) with true in P4. cbn iota in P4.
  assert (i_size ip' = Z.max (i_size ip) (DIRENT * k + DIRENT)) as Es' by (by rewrite P4).
  assert (forall j, 0 <= j -> dents s' ip' !! Z.to_nat j =
     if j =? k then Some (u16 inum, name_of name) else dents s ip !! Z.to_nat j) as Hdl.
  { apply dents_write; try done; [apply D4|]. intros o Ho. rewrite P8 by done. destruct (_ && _); [done|].
    unfold fbyte. rewrite (baddr_views s s2) by done. by rewrite V2. }
  assert (dents s' ip' = dinsert (inum, name_of name) (dents s ip)) as Ed.
  { apply list_eq. intros j. rewrite dinsert_lookup. specialize (Hdl (Z.of_nat j) ltac:(lia)). rewrite Nat2Z.id in Hdl. rewrite Hdl, u16_id by lia.
    destruct (Z.eqb_spec (Z.of_nat j) k), (decide (j = dslot (dents s ip))); try done; lia. }
  exists s', ip'. rewrite Ed. split_and!; try done.
  - split; [rewrite P3; apply list_lookup_insert_eq; by eapply lookup_lt_Some|by rewrite P4|done|done|].
    rewrite Es', Es. replace (DIRENT * k + DIRENT) with (DIRENT * (k + 1)) by (unfold DIRENT; lia).
    replace (Z.max (DIRENT * (i_size ip / DIRENT)) (DIRENT * (k + 1))) with (Z.max (i_size ip / DIRENT) (k + 1) * DIRENT) by (unfold DIRENT; lia).
    by apply Z_mod_mult.
  - apply dfind_dinsert_eq; [lia|done].
  - intros other Ho. by apply dfind_dinsert_ne.
  - intros j x Hj Hx'. rewrite P3, list_lookup_insert_ne by done. by rewrite (fk_inodes _ _ _ K2).
Qed.
