(* ===== verification/FsPath.v ===== *)
(** * Path names: [skipelem] against a reference split of the path *)

From S2P Require Import Prelude Bytes Core Bio Log StringLib Cons Fs.

(** The elements of a path: the maximal runs of characters other than '/'. *)
Definition emit (cur : list Z) : list (list Z) := match cur with [] => [] | _ => [cur] end.
Fixpoint elems_from (cur : list Z) (p : list Z) : list (list Z) :=
  match p with
  | [] => emit cur
  | c :: p' => if c =? 47 then emit cur ++ elems_from [] p' else elems_from (cur ++ [c]) p'
  end.
Definition elems (p : list Z) : list (list Z) := elems_from [] p.

Definition cstring (p : list Z) : Prop := Forall (fun c => c <> 0) p.

Lemma elems_skip_slashes p : elems (skip_slashes p) = elems p.
Proof.
  induction p as [|c p IH]; [done|]. cbn [skip_slashes]. destruct (Z.eqb_spec c 47) as [->|]; [|done].
  rewrite IH. done.
Qed.

Lemma skip_slashes_length p : (length (skip_slashes p) <= length p)%nat.
Proof. induction p as [|c p IH]; cbn; [lia|]. destruct (c =? 47); cbn; lia. Qed.

Lemma skip_slashes_head p c p' : skip_slashes p = c :: p' -> c <> 47.
Proof.
  induction p as [|d p IH]; cbn; [done|]. destruct (Z.eqb_spec d 47); [done|]. by intros [= -> _].
Qed.

Lemma skip_slashes_cstring p : cstring p -> cstring (skip_slashes p).
Proof. unfold cstring. induction 1; cbn; [constructor|]. destruct (x =? 47); [done|by constructor]. Qed.

Lemma take_elem_split p :
  cstring p -> let '(e, r) := take_elem p in
  p = e ++ r /\ Forall (fun c => c <> 47) e /\ (r = [] \/ exists r', r = 47 :: r').
Proof.
  induction 1 as [|c p Hc Hp IH]; cbn; [split_and!; [done|constructor|by left]|].
  destruct (Z.eqb_spec c 47) as [->|Hne]; cbn.
  - split_and!; [done|constructor|right; by exists p].
  - rewrite (proj2 (Z.eqb_neq c 0)) by done. cbn. destruct (take_elem p) as [e r].
    destruct IH as (-> & H1 & H2). split_and!; [done|by constructor|done].
Qed.

Lemma elems_from_app cur e r :
  Forall (fun c => c <> 47) e -> elems_from cur (e ++ r) = elems_from (cur ++ e) r.
Proof.
  revert cur. induction e as [|c e IH]; intros cur He; cbn; [by rewrite app_nil_r|].
  apply Forall_cons in He as [Hc He]. rewrite (proj2 (Z.eqb_neq c 47)) by done.
  rewrite IH by done. by rewrite <- (assoc_L (++)).
Qed.

Lemma elems_cons e r :
  e <> [] -> Forall (fun c => c <> 47) e -> (r = [] \/ exists r', r = 47 :: r') ->
  elems (e ++ r) = e :: elems r.
Proof.
  intros Hne He Hr. unfold elems. rewrite elems_from_app by done. cbn [app].
  destruct Hr as [-> |(r' & ->)]; cbn; by destruct e.
Qed.

(** The name buffer holds an element, cut to [DIRSIZ] characters. *)
Definition holds_name (name e : list Z) : Prop :=
  length name = DIRSIZ /\ take (length e) name = take DIRSIZ e /\
  ((length e < DIRSIZ)%nat -> name !! length e = Some 0).

Lemma splice_front {A} (l l' : list A) : (length l' <= length l)%nat -> splice l 0 l' = l' ++ drop (length l') l.
Proof. intros Hl. unfold splice. cbn. done. Qed.

Lemma skipelem_name name s :
  length name = DIRSIZ ->
  holds_name (if (DIRSIZ <=? length s)%nat then splice name 0 (take DIRSIZ s) else splice name 0 (s ++ [0])) s.
Proof.
  intros Hn. destruct (Nat.leb_spec DIRSIZ (length s)) as [Hge|Hlt].
  - assert (length (take DIRSIZ s) = DIRSIZ) as Ht by (rewrite length_take; lia).
    rewrite splice_front by lia. rewrite Ht, drop_ge, app_nil_r by lia. split_and!; [done| |lia].
    apply take_ge. lia.
  - rewrite splice_front by (rewrite length_app; cbn; lia). rewrite length_app. cbn [length].
    split_and!.
    + rewrite !length_app, length_drop. cbn. lia.
    + rewrite <- (assoc_L (++)), take_app_length. symmetry. apply take_ge. lia.
    + intros _. rewrite <- (assoc_L (++)), lookup_app_r, Nat.sub_diag by done. done.
Qed.

(** [skipelem] on any NUL-terminated path: it returns null exactly when
    the path has no element left; otherwise the name buffer holds the first
    element (cut to [DIRSIZ] characters), the returned path has the remaining
    elements in order, does not start with a slash, and is shorter, so the
    walk of [namex] ends. *)
Theorem skipelem_spec path name :
  cstring path -> length name = DIRSIZ ->
  match skipelem path name with
  | None => elems path = []
  | Some (rest, name') =>
      exists e, elems path = e :: elems rest /\ e <> [] /\ Forall (fun c => c <> 47) e /\
        holds_name name' e /\ cstring rest /\ peek rest <> 47 /\ (length rest < length path)%nat
  end.
Proof.
  intros Hc Hn. unfold skipelem. pose proof (skip_slashes_cstring _ Hc) as Hc'.
  pose proof (skip_slashes_length path) as Hlen. rewrite <- (elems_skip_slashes path).
  destruct (skip_slashes path) as [|c p] eqn:Ep; [done|].
  pose proof (skip_slashes_head _ _ _ Ep) as Hc47. change (peek (c :: p)) with c.
  assert (c <> 0) as Hc0 by (by apply Forall_cons in Hc' as [? _]).
  rewrite (proj2 (Z.eqb_neq c 0)) by done.
  pose proof (take_elem_split _ Hc') as Hsplit. cbn [take_elem] in *.
  rewrite (proj2 (Z.eqb_neq c 47)), (proj2 (Z.eqb_neq c 0)) in * by done. cbn [negb andb] in *.
  destruct (take_elem p) as [e r]. destruct Hsplit as (Heq & He & Hr).
  exists (c :: e). split_and!; [|done|done|by apply skipelem_name| | |].
  - rewrite elems_skip_slashes, Heq. by apply elems_cons.
  - apply skip_slashes_cstring. unfold cstring in *. rewrite Heq in Hc'. apply Forall_app in Hc'. tauto.
  - destruct (skip_slashes r) as [|d r'] eqn:Er; [done|]. cbn. by eapply skip_slashes_head.
  - pose proof (skip_slashes_length r). apply (f_equal length) in Heq. rewrite length_app in Heq.
    cbn [length] in *. lia.
Qed.

(** "/a//bb" *)
Lemma skipelem_spec_witness :
  exists e, elems [47; 97; 47; 47; 98; 98] = e :: elems [98; 98] /\ e <> [] /\ Forall (fun c => c <> 47) e /\
    holds_name ([97; 0] ++ replicate 12 1) e /\ cstring [98; 98] /\ peek [98; 98] <> 47 /\
    (length [98; 98] < length [47; 97; 47; 47; 98; 98])%nat.
Proof.
  apply (skipelem_spec [47; 97; 47; 47; 98; 98] (replicate DIRSIZ 1)); [|done].
  repeat constructor; lia.
Defined.

(** The examples of the comment above [skipelem]. *)
Example skipelem_examples :
  (fst <$> skipelem [97; 47; 98; 98; 47; 99] (replicate DIRSIZ 0)) = Some [98; 98; 47; 99] /\
  (fst <$> skipelem [47; 47; 47; 97; 47; 47; 98; 98] (replicate DIRSIZ 0)) = Some [98; 98] /\
  (fst <$> skipelem [97] (replicate DIRSIZ 0)) = Some [] /\
  skipelem [] (replicate DIRSIZ 0) = None /\ skipelem [47; 47; 47; 47] (replicate DIRSIZ 0) = None.
Proof. done. Qed.
