(* ===== verification/FsDemo.v ===== *)
(** * A small file system on which the theorems are instantiated

    Sixty blocks: the superblock, a log of thirty blocks, two inode blocks,
    the bitmap, and a root directory with "." and "..". *)

From S2P Require Import Prelude Bytes Core Bio Log Txn Crash Recover Boot LogSpec StringLib Cons Fs FsTx FsBlocks FsInodes FsData FsDir.

Definition tiny_sb : superblock := mkSb 60 24 16 30 2 32 34.

Definition pad (l : list Z) : block := take (Z.to_nat BSIZE) (l ++ replicate (Z.to_nat BSIZE) 0).
Definition sb_bytes (sb : superblock) : list Z :=
  le_enc 4 (sb_size sb) ++ le_enc 4 (sb_nblocks sb) ++ le_enc 4 (sb_ninodes sb) ++ le_enc 4 (sb_nlog sb) ++
  le_enc 4 (sb_logstart sb) ++ le_enc 4 (sb_inodestart sb) ++ le_enc 4 (sb_bmapstart sb).
Definition tiny_root : inode := mkInode 1 1 0 0 T_DIR 0 0 1 32 (35 :: replicate 12 0).
Definition dirent_bytes (inum : Z) (name : list Z) : list Z :=
  le_enc 2 inum ++ strncpy_bytes (of_list name) 0 DIRSIZ.

Definition tiny_disk : list block :=
  [zero_block; pad (sb_bytes tiny_sb)] ++ replicate 30 zero_block ++
  [put_dinode zero_block 64 tiny_root; zero_block; pad [255; 255; 255; 255; 15];
   pad (dirent_bytes 1 [46] ++ dirent_bytes 1 [46; 46])] ++ replicate 24 zero_block.

Definition block_okb (d : block) : bool :=
  (length d =? Z.to_nat BSIZE)%nat && forallb (fun x => (0 <=? x) && (x <? 256)) d.

Lemma block_okb_ok d : block_okb d = true -> block_ok d.
Proof.
  unfold block_okb. intros [H1%Nat.eqb_eq H2]%andb_prop. split; [done|]. rewrite forallb_forall in H2.
  apply Forall_forall. intros x Hx%list_elem_of_In%H2. apply andb_prop in Hx as [?%Z.leb_le ?%Z.ltb_lt].
  by split.
Qed.

Lemma blocks_okb_ok l : forallb block_okb l = true -> Forall block_ok l.
Proof.
  rewrite forallb_forall. intros H. apply Forall_forall. intros x Hx%list_elem_of_In%H. by apply block_okb_ok.
Qed.

Lemma tiny_disk_ok : Forall block_ok tiny_disk.
Proof. apply blocks_okb_ok. vm_compute. reflexivity. Qed.

Definition tiny_boot : lst := boot tiny_disk 2 30.
Definition tiny_cons : consst := demo_cons.
Definition no_inode : inode := mkInode 0 0 0 0 0 0 0 0 0 (replicate 13 0).
(** In a transaction, with an empty inode cache. *)
Definition tiny_log : lst := set_lg (set_l_outstanding 1 (boot_log 2 30)) tiny_boot.
Definition tiny_fs : fsst := mkFs tiny_log tiny_sb (replicate NINODE no_inode) tiny_cons.

Lemma tiny_begin : begin_op tiny_boot = Ok tt tiny_log.
Proof.
  pose proof (boot_tx tiny_disk 2 30 tiny_disk_ok) as Hx.
  assert (wp begin_op (fun _ s => s = tiny_log) tiny_boot) as ([] & s & E & ->)%wp_inv; [|done].
  apply wp_begin_op; [apply Hx|done|vm_compute; congruence|done].
Qed.

Lemma tiny_tdisk : tdisk tiny_log = tiny_disk.
Proof. exact (proj1 (proj2 (boot_bst_spec tiny_disk tiny_disk_ok))). Qed.

Lemma tiny_len : flen tiny_fs = 60.
Proof. unfold flen. cbn [flog tiny_fs]. by rewrite tiny_tdisk. Qed.

Lemma tiny_log_ok : log_ok tiny_log.
Proof.
  split; rewrite ?tiny_tdisk; [done|vm_compute; split_and!; congruence|vm_compute; split_and!; congruence|done|
    apply NoDup_nil_2|]. intros m []%not_elem_of_nil.
Qed.

Lemma tiny_fx : fx tiny_fs 1 ∅.
Proof.
  split; [|apply tiny_log_ok|by vm_compute].
  apply tx_set_lg. exact (boot_tx tiny_disk 2 30 tiny_disk_ok).
Qed.

Lemma tiny_room : room tiny_fs 20.
Proof. unfold room, LOGSIZE. vm_compute. split; congruence. Qed.

Lemma tiny_view n : 0 <= n < 60 -> fview tiny_fs n = default [] (tiny_disk !! Z.to_nat n).
Proof.
  intros Hn. pose proof (tx_view_disk tiny_log 1 ∅ [] n (fx_tx _ _ _ tiny_fx)) as H.
  rewrite tiny_tdisk in H. unfold fview. cbn [flog tiny_fs]. rewrite H; [done| |apply not_elem_of_nil|done].
  change (Z.of_nat (length tiny_disk)) with 60. done.
Qed.

Lemma tiny_home n : 0 <= n < 60 -> ~ (2 <= n < 32) -> fhome tiny_fs n.
Proof.
  intros Hn Hl. split; [|done]. change (tdisk (flog tiny_fs)) with (tdisk tiny_log). rewrite tiny_tdisk. done.
Qed.

Lemma tiny_used b : 0 <= b < 60 -> used tiny_fs b = (b <? 36).
Proof.
  intros Hb. unfold used. cbn [fsb tiny_fs].
  assert (bmblock tiny_sb b = 34) as -> by (unfold bmblock, BPB; cbn; rewrite Z.div_small by lia; lia).
  rewrite tiny_view by lia. rewrite Z.mod_small by (unfold BPB; lia).
  assert (forallb (fun b => Bool.eqb (bmbit (default [] (tiny_disk !! Z.to_nat 34)) b) (b <? 36))
    (Z.of_nat <$> seq 0 60) = true) as Hc by (vm_compute; reflexivity).
  rewrite forallb_forall in Hc. apply Bool.eqb_true_iff, Hc, list_elem_of_In, list_elem_of_fmap.
  exists (Z.to_nat b). split; [lia|]. apply elem_of_seq. lia.
Qed.

Lemma tiny_layout : layout tiny_fs.
Proof.
  assert (forall b, 0 <= b < 60 -> bmblock tiny_sb b = 34) as Hbm.
  { intros b Hb. unfold bmblock, BPB. cbn. rewrite Z.div_small by lia. lia. }
  split; rewrite ?tiny_len; cbn [fsb tiny_fs sb_size tiny_sb sb_bmapstart].
  - lia.
  - lia.
  - intros b Hb. fold tiny_sb. rewrite Hbm by done. apply tiny_home; lia.
  - intros b Hb Hu. rewrite tiny_used in Hu by done. apply Z.ltb_ge in Hu. split; [apply tiny_home; lia|].
    intros b' Hb'. fold tiny_sb. rewrite Hbm by done. lia.
  - lia.
  - rewrite tiny_view by lia. vm_compute. reflexivity.
  - split_and!; [lia|by rewrite tiny_used by lia|]. intros b Hb. fold tiny_sb. rewrite Hbm by done. lia.
Qed.

Lemma balloc_allocates_witness :
  exists b s', balloc 1 tiny_fs = Ok b s' /\ fx s' 1 ∅ /\ layout s' /\ fkeep 2 tiny_fs s' /\
    0 <= b < 60 /\ used tiny_fs b = false /\ (forall j, 0 <= j < b -> used tiny_fs j = true) /\
    (forall j, 0 <= j < 60 -> used s' j = (j =? b) || used tiny_fs j) /\
    fview s' b = zeros /\
    (forall k, k <> b -> (forall j, 0 <= j < 60 -> bmblock tiny_sb j <> k) -> fview s' k = fview tiny_fs k).
Proof.
  apply (balloc_allocates tiny_fs 1 ∅ tiny_fx tiny_layout (hs_ok_empty _)).
  - apply (room_weaken _ 20); [apply tiny_room|lia].
  - rewrite map_size_empty. lia.
  - exists 40. split; [cbn; lia|]. by rewrite tiny_used by lia.
Defined.

Lemma bfree_frees_witness :
  (exists s', bfree 1 35 tiny_fs = Ok tt s' /\ fx s' 1 ∅ /\ fkeep 1 tiny_fs s' /\
      (forall j, 0 <= j < 60 -> used s' j = negb (j =? 35) && used tiny_fs j) /\
      (forall k, k <> bmblock tiny_sb 35 -> fview s' k = fview tiny_fs k)) /\
  bfree 1 40 tiny_fs = Panic "freeing free block".
Proof.
  assert (room tiny_fs 1) as Hr by (apply (room_weaken _ 20); [apply tiny_room|lia]).
  assert (size (∅ : handles) <= 1)%nat as Hs by (rewrite map_size_empty; lia).
  pose proof (bfree_frees tiny_fs 1 ∅ 35 tiny_fx tiny_layout (hs_ok_empty _) Hr Hs ltac:(cbn; lia)) as H1.
  pose proof (bfree_frees tiny_fs 1 ∅ 40 tiny_fx tiny_layout (hs_ok_empty _) Hr Hs ltac:(cbn; lia)) as H2.
  rewrite tiny_used in H1, H2 by lia. split; [exact H1|exact H2].
Defined.

(** Inode 2, a file of one block with the most extreme field values, cached in
    entry 0; entry 1 is about to be loaded for the same number. *)
Definition file_two : inode := mkInode 1 2 1 1 T_FILE (-32768) 32767 1 4294967295 (36 :: replicate 12 4294967295).
Definition entry_two : inode := mkInode 1 2 1 0 0 0 0 0 0 (replicate 13 0).
Definition tiny_inodes (l : list inode) : fsst := set_inodes l tiny_fs.

Lemma tiny_itable l : itable_ok (tiny_inodes l).
Proof.
  split; [done|]. intros n Hn. cbn in Hn.
  assert (32 <= iblock tiny_sb n < 34) as Hb.
  { unfold iblock, IPB. cbn. assert (0 <= n / 8 < 2); [|lia].
    split; [apply Z.div_pos; lia|apply Z.div_lt_upper_bound; lia]. }
  apply (tiny_home (iblock tiny_sb n)); lia.
Qed.

Lemma iupdate_ilock_roundtrip_witness :
  exists s' y, (iupdate 0 ;; ilock_load 1) (tiny_inodes [file_two; entry_two]) = Ok tt s' /\ fx s' 1 ∅ /\
    inodes s' !! 1%nat = Some y /\ same_dinode y file_two /\ i_valid y = 1 /\ i_inum y = 2 /\
    forall n z, 0 <= n < 16 -> n <> 2 ->
      dinode_at s' n z = dinode_at (tiny_inodes [file_two; entry_two]) n z.
Proof.
  apply (iupdate_ilock_roundtrip (tiny_inodes [file_two; entry_two]) 1 0 1 file_two entry_two).
  - destruct tiny_fx. by split.
  - apply tiny_itable.
  - apply (room_weaken _ 20); [apply tiny_room|lia].
  - reflexivity.
  - split; cbn; unfold T_FILE; try lia. split; [reflexivity|]. repeat constructor; lia.
  - discriminate.
  - reflexivity.
  - cbn. lia.
  - reflexivity.
  - reflexivity.
  - reflexivity.
  - reflexivity.
Defined.

Lemma tiny_icache : icache_ok (inodes tiny_fs).
Proof.
  split.
  - cbn [inodes tiny_fs]. apply Forall_replicate. done.
  - intros i j x y dev inum Hx _ Hh _. cbn [inodes tiny_fs] in Hx. apply lookup_replicate in Hx as [-> _].
    discriminate.
Qed.

(** The first use of the cache. *)
Lemma iget_unique_witness :
  (exists i x, iget 1 1 tiny_fs = Ok i (set_inodes (<[i := iget_entry 1 1 x]> (inodes tiny_fs)) tiny_fs) /\
     inodes tiny_fs !! i = Some x /\ (hits 1 1 x = true \/ i_ref x = 0) /\
     icache_ok (<[i := iget_entry 1 1 x]> (inodes tiny_fs)) /\
     hits 1 1 (iget_entry 1 1 x) = true) \/
  (iget 1 1 tiny_fs = Panic "iget: no inodes" /\
   forall j x, inodes tiny_fs !! j = Some x -> i_ref x <> 0 /\ hits 1 1 x = false).
Proof.
  apply (iget_unique tiny_fs 1 1); [|apply tiny_icache].
  change (held (bcore (boot_bst tiny_disk)) = []).
  by rewrite (proj1 (proj2 (proj2 (proj2 (boot_bst_spec tiny_disk tiny_disk_ok))))).
Defined.

(** The root directory, cached; its one block is 35. *)
Definition root_entry : inode := mkInode 1 1 1 1 T_DIR 0 0 1 32 (35 :: replicate 12 0).
Definition root_fs : fsst := tiny_inodes [root_entry].

Lemma root_fx : fx root_fs 1 ∅.
Proof. destruct tiny_fx. by split. Qed.

Lemma tiny_notbm k : k <> 34 -> notbm root_fs k.
Proof. intros Hk b Hb. cbn in Hb. unfold bmblock, BPB. cbn. rewrite Z.div_small by lia. lia. Qed.

Lemma tiny_iblock n : 0 <= n < 16 -> 32 <= iblock tiny_sb n < 34.
Proof.
  intros Hn. unfold iblock, IPB. cbn. assert (0 <= n / 8 < 2); [|lia].
  split; [apply Z.div_pos; lia|apply Z.div_lt_upper_bound; lia].
Qed.

Lemma root_fslay : fslay root_fs.
Proof.
  split.
  - destruct tiny_layout. by split.
  - apply tiny_itable.
  - exact (tiny_used 0 ltac:(lia)).
  - intros n Hn. cbn in Hn. pose proof (tiny_iblock n Hn) as Hb.
    change (iblock (fsb root_fs) n) with (iblock tiny_sb n). change (sb_size (fsb root_fs)) with 60.
    split_and!; [lia|lia| |lia|apply tiny_notbm; lia].
    change (used tiny_fs (iblock tiny_sb n) = true). rewrite tiny_used by lia. apply Z.ltb_lt. lia.
Qed.

Lemma root_baddr bn : 0 <= bn -> baddr root_fs root_entry bn = if bn =? 0 then 35 else 0.
Proof.
  intros Hb. unfold baddr. destruct (Z.ltb_spec bn (Z.of_nat NDIRECT)) as [Hlt|Hge].
  - destruct (Z.eqb_spec bn 0) as [->|Hn]; [done|]. cbn [i_addrs root_entry].
    destruct (Z.to_nat bn) as [|k] eqn:E; [lia|]. change ((35 :: replicate 12 0) !! S k) with (replicate 12 0 !! k).
    unfold NDIRECT in Hlt. by rewrite lookup_replicate_2 by lia.
  - unfold NDIRECT in Hge. destruct (Z.eqb_spec bn 0); [lia|done].
Qed.

Lemma root_file : file root_fs root_entry.
Proof.
  split; [done|done|done| |].
  - intros bn [Hb _]. rewrite root_baddr by done. destruct (bn =? 0); [intros _|done]. split; [|done].
    split; [cbn; lia|apply (tiny_home 35); lia|exact (tiny_used 35 ltac:(lia))|apply tiny_notbm; lia|lia|].
    intros n Hn. cbn in Hn. pose proof (tiny_iblock n Hn).
    change (iblock (fsb root_fs) n) with (iblock tiny_sb n). lia.
  - intros bn bn' [Hb _] [Hb' _]. rewrite !root_baddr by done.
    destruct (Z.eqb_spec bn 0), (Z.eqb_spec bn' 0); congruence.
Qed.

Lemma root_whole : whole root_fs root_entry.
Proof.
  split; [cbn; unfold MAXFILE, BSIZE; cbn; lia|]. intros bn Hb Hs. cbn in Hs. unfold BSIZE in Hs. rewrite root_baddr by done.
  by destruct (Z.eqb_spec bn 0); [|lia].
Qed.

Lemma root_nfree : nfree root_fs = 24%nat.
Proof.
  unfold nfree. change (sb_size (fsb root_fs)) with 60.
  rewrite (filter_same _ (fun b => (b <? 36) = false) (seqZ 0 60)); [by vm_compute|].
  intros b Hb%elem_of_seqZ. change (used root_fs b) with (used tiny_fs b). by rewrite tiny_used by lia.
Qed.

(** Six hundred bytes from offset 30, past the end of the first block. *)
Lemma file_is_array_witness :
  let src := replicate 600 7 in
  exists s' ip', writei [] 0 src 30 600 root_fs = Ok 600 s' /\ inodes s' !! 0%nat = Some ip' /\
    i_size ip' = 630 /\ fx s' 1 ∅ /\ fslay s' /\ file s' ip' /\ whole s' ip' /\
    (forall k, 0 <= k < 60 -> used root_fs k = true -> notbm root_fs k -> k <> ind root_entry ->
       (forall b, 0 <= b < MAXFILE -> baddr root_fs root_entry b <> k) -> k <> 32 -> fview s' k = fview root_fs k) /\
    forall off' n', 0 <= off' <= i_size ip' -> 0 <= n' -> off' + n' < 2147483648 ->
      let m := Z.min n' (i_size ip' - off') in
      exists data s'', readi [] 0 off' n' s' = Ok (m, data) s'' /\ Z.of_nat (length data) = m /\
        forall j, 0 <= j < m -> byte_at data j =
          if (30 <=? off' + j) && (off' + j <? 30 + 600) then byte_at src (off' + j - 30)
          else fbyte root_fs root_entry (off' + j).
Proof.
  apply (file_is_array [] root_fs 1 0 root_entry (replicate 600 7) 30 600).
  - apply root_fx.
  - apply root_fslay.
  - reflexivity.
  - discriminate.
  - cbn. lia.
  - apply root_file.
  - apply root_whole.
  - cbn. lia.
  - lia.
  - vm_compute. congruence.
  - vm_compute. congruence.
  - apply Forall_replicate. unfold is_byte. lia.
  - apply (room_weaken _ 20); [apply tiny_room|vm_compute; congruence].
  - rewrite root_nfree. vm_compute. congruence.
Defined.

Lemma root_dirfile : dirfile root_fs 0 root_entry.
Proof. split; [done|done|apply root_file|apply root_whole|done]. Qed.

Lemma root_dents : dents root_fs root_entry = [(1, name_of [46]); (1, name_of [46; 46])].
Proof.
  assert (forall o, 0 <= o < 32 -> fbyte root_fs root_entry o = byte_at (default [] (tiny_disk !! 35%nat)) o) as Hb.
  { intros o Ho. unfold fbyte, BSIZE. rewrite Z.div_small, Z.mod_small by lia. change (fview root_fs) with (fview tiny_fs).
    change (baddr root_fs root_entry 0) with 35. by rewrite tiny_view by lia. }
  assert (forall k, 0 <= k < 2 -> content root_fs root_entry (DIRENT * k) DIRENT =
    byte_at (default [] (tiny_disk !! 35%nat)) <$> seqZ (DIRENT * k) DIRENT) as Hc.
  { intros k Hk. unfold content. apply list_fmap_ext. intros i o [-> Ho]%lookup_seqZ. apply Hb. unfold DIRENT in *. lia. }
  unfold dents. change (seqZ 0 (i_size root_entry / DIRENT)) with [0; 1]. cbn [fmap list_fmap]. unfold dent.
  rewrite !Hc by lia. vm_compute. reflexivity.
Qed.

(** ".." is the second entry. *)
Lemma dirlookup_refines_witness :
  exists s', fx s' 1 ∅ /\ fkeep 0 root_fs s' /\ (forall m, fview s' m = fview root_fs m) /\
    dirlookup [] 0 [46; 46] root_fs = (i ← iget 1 1; mret (Some (i, 16))) s'.
Proof.
  assert (room root_fs 1) as Hr by (apply (room_weaken _ 20); [apply tiny_room|lia]).
  pose proof (dirlookup_refines [] root_fs 1 0 root_entry [46; 46] root_fx root_dirfile Hr) as H.
  rewrite root_dents in H. apply H. repeat constructor; unfold is_byte; lia.
Defined.

(** A file "a" is entered; the directory had no entry for it. *)
Lemma dirlink_refines_witness :
  exists s' ip', dirlink [] 0 [97] 5 root_fs = Ok 0 s' /\ fx s' 1 ∅ /\ fslay s' /\ dirfile s' 0 ip' /\
      dents s' ip' = [(1, name_of [46]); (1, name_of [46; 46]); (5, name_of [97])] /\
      dfind (name_of [97]) (dents s' ip') = Some (2, 5) /\
      (forall other, name_of other <> name_of [97] ->
         dfind (name_of other) (dents s' ip') = dfind (name_of other) [(1, name_of [46]); (1, name_of [46; 46])]) /\
      forall j x, j <> 0%nat -> inodes root_fs !! j = Some x -> inodes s' !! j = Some x.
Proof.
  pose proof (dirlink_refines [] root_fs 1 0 root_entry [97] 5 root_fx root_fslay root_dirfile) as H.
  rewrite root_dents in H. apply H.
  - cbn. lia.
  - repeat constructor; unfold is_byte; lia.
  - lia.
  - vm_compute. congruence.
  - apply (room_weaken _ 20); [apply tiny_room|lia].
  - rewrite root_nfree. lia.
Defined.
