(* ===== verification/Vm.v ===== *)
(** * Physical page allocator and page tables

    Models [kalloc.c] and the page-table half of [vm.c].  Memory is the direct
    mapping the kernel runs in: byte [a] is the byte at kernel virtual address
    [a], so physical address [pa] is at [P2V pa].  The free list is threaded
    through the free pages themselves, as in the source.  [KSyms] stands for
    what the linker provides: the symbols [end] and [data], and the addresses
    of the routines [forkret] and [trapret]. *)

From S2P Require Import Prelude Bytes Core StringLib Cons.

Class KSyms := { sym_end : Z; sym_data : Z; sym_forkret : Z; sym_trapret : Z }.

Definition PGSIZE : Z := 4096.
Definition NPDENTRIES : Z := 1024.
Definition EXTMEM : Z := 1048576.
Definition PHYSTOP : Z := 234881024.
Definition DEVSPACE : Z := 4261412864.
Definition KERNLINK : Z := KERNBASE + EXTMEM.
Definition PTE_P : Z := 1.
Definition PTE_W : Z := 2.
Definition PTE_U : Z := 4.

Definition PDX (va : Z) : Z := Z.land (Z.shiftr va 22) 1023.
Definition PTX (va : Z) : Z := Z.land (Z.shiftr va 12) 1023.
Definition PGADDR (d t o : Z) : Z := u32 (Z.lor (Z.lor (Z.shiftl d 22) (Z.shiftl t 12)) o).
Definition PGROUNDUP (sz : Z) : Z := Z.land (u32 (sz + PGSIZE - 1)) 4294963200.
Definition PGROUNDDOWN (a : Z) : Z := Z.land a 4294963200.
Definition PTE_ADDR (pte : Z) : Z := Z.land pte 4294963200.
Definition PTE_FLAGS (pte : Z) : Z := Z.land pte 4095.

(** A 32-bit load at a kernel address. *)
Definition load32 (m : mem) (a : Z) : Z := le_dec [m a; m (a + 1); m (a + 2); m (a + 3)].

Record vst := mkV {
  vcore : kcore;
  vcons : consst;
  use_lock : Z;
  freelist : Z;         (* kmem.freelist, 0 when empty *)
  kmemory : mem }.

Definition set_vcore v s := mkV v (vcons s) (use_lock s) (freelist s) (kmemory s).
Definition set_vcons v s := mkV (vcore s) v (use_lock s) (freelist s) (kmemory s).
Definition set_use_lock v s := mkV (vcore s) (vcons s) v (freelist s) (kmemory s).
Definition set_freelist v s := mkV (vcore s) (vcons s) (use_lock s) v (kmemory s).
Definition set_kmemory v s := mkV (vcore s) (vcons s) (use_lock s) (freelist s) v.

#[export] Instance v_core : Lens vst kcore := {| lget := vcore; lset := set_vcore |}.
#[export] Instance v_cons : Lens vst consst := {| lget := vcons; lset := set_vcons |}.

Definition upd_mem (f : mem -> mem) : M vst unit := modify (fun s => set_kmemory (f (kmemory s)) s).
Definition rd32 (a : Z) : M vst Z := gets (fun s => load32 (kmemory s) a).
Definition wr32 (a w : Z) : M vst unit := upd_mem (fun m => store32 m a w).

Section vm.
Context `{KSyms}.

(** ** kalloc.c *)

Definition kmem_lock : M vst unit :=
  s ← get; if negb (use_lock s =? 0) then lift (acquire LkKmem) else skip.
Definition kmem_unlock : M vst unit :=
  s ← get; if negb (use_lock s =? 0) then lift (release LkKmem) else skip.

Definition kfree (v : Z) : M vst unit :=
  if negb (v mod PGSIZE =? 0) || (v <? sym_end) || (PHYSTOP <=? V2P v) then panic "kfree" else
  upd_mem (fun m => memset m v 1 PGSIZE) ;;
  kmem_lock ;;
  s ← get;
  wr32 v (freelist s) ;;
  modify (set_freelist v) ;;
  kmem_unlock.

(** Returns 0 when there is no memory. *)
Definition kalloc : M vst Z :=
  kmem_lock ;;
  r ← gets freelist;
  (if negb (r =? 0) then n ← rd32 r; modify (set_freelist n) else skip) ;;
  kmem_unlock ;;
  mret r.

Definition freerange_step (vend p : Z) : M vst (Z + unit) :=
  if p + PGSIZE <=? vend then kfree p ;; mret (inl (p + PGSIZE)) else mret (inr tt).
Definition freerange (vstart vend : Z) : M vst unit :=
  loop (Z.to_nat ((vend - vstart) / PGSIZE) + 2) (freerange_step vend) (PGROUNDUP vstart).

Definition kinit1 (vstart vend : Z) : M vst unit := modify (set_use_lock 0) ;; freerange vstart vend.
Definition kinit2 (vstart vend : Z) : M vst unit := freerange vstart vend ;; modify (set_use_lock 1).

(** ** Page tables *)

(** The address of the PTE of [va], [None] for a null pointer. *)
Definition walkpgdir (pgdir va : Z) (alloc : bool) : M vst (option Z) :=
  let pde := pgdir + 4 * PDX va in
  e ← rd32 pde;
  if negb (Z.land e PTE_P =? 0) then mret (Some (P2V (PTE_ADDR e) + 4 * PTX va)) else
  if negb alloc then mret None else
  pgtab ← kalloc;
  if pgtab =? 0 then mret None else
  upd_mem (fun m => memset m pgtab 0 PGSIZE) ;;
  wr32 pde (Z.lor (Z.lor (Z.lor (V2P pgtab) PTE_P) PTE_W) PTE_U) ;;
  mret (Some (pgtab + 4 * PTX va)).

Definition mappages_step (pgdir last perm : Z) (l : Z * Z) : M vst (Z * Z + Z) :=
  let '(a, pa) := l in
  p ← walkpgdir pgdir a true;
  match p with
  | None => mret (inr (-1))
  | Some pte =>
      e ← rd32 pte;
      if negb (Z.land e PTE_P =? 0) then panic "remap" else
      wr32 pte (Z.lor (Z.lor pa perm) PTE_P) ;;
      if a =? last then mret (inr 0) else mret (inl (u32 (a + PGSIZE), u32 (pa + PGSIZE)))
  end.
Definition mappages (pgdir va size pa perm : Z) : M vst Z :=
  let a := PGROUNDDOWN va in
  let last := PGROUNDDOWN (u32 (va + size - 1)) in
  loop (Z.to_nat (u32 (last - a) / PGSIZE) + 1) (mappages_step pgdir last perm) (a, pa).

(** The loop of [deallocuvm] at address [a]; the last branch is the [a = ...]
    of a missing page table, which the increment of the loop follows. *)
Definition deallocuvm_step (pgdir oldsz a : Z) : M vst (Z + unit) :=
  if a <? oldsz then
    p ← walkpgdir pgdir a false;
    match p with
    | None => mret (inl (u32 (u32 (PGADDR (PDX a + 1) 0 0 - PGSIZE) + PGSIZE)))
    | Some pte =>
        e ← rd32 pte;
        (if negb (Z.land e PTE_P =? 0) then
           let pa := PTE_ADDR e in
           if pa =? 0 then panic "kfree" else kfree (P2V pa) ;; wr32 pte 0
         else skip) ;;
        mret (inl (u32 (a + PGSIZE)))
    end
  else mret (inr tt).
Definition deallocuvm (pgdir oldsz newsz : Z) : M vst Z :=
  if oldsz <=? newsz then mret oldsz else
  loop (Z.to_nat (oldsz / PGSIZE) + 2) (deallocuvm_step pgdir oldsz) (PGROUNDUP newsz) ;;
  mret newsz.

Definition allocuvm_step (pgdir oldsz newsz a : Z) : M vst (Z + Z) :=
  if a <? newsz then
    mem ← kalloc;
    if mem =? 0 then
      cprintf (Some (str "allocuvm out of memory" ++ [10])) [] ;;
      deallocuvm pgdir newsz oldsz ;; mret (inr 0)
    else
    upd_mem (fun m => memset m mem 0 PGSIZE) ;;
    r ← mappages pgdir a PGSIZE (V2P mem) (Z.lor PTE_W PTE_U);
    if r <? 0 then
      cprintf (Some (str "allocuvm out of memory (2)" ++ [10])) [] ;;
      deallocuvm pgdir newsz oldsz ;; kfree mem ;; mret (inr 0)
    else mret (inl (u32 (a + PGSIZE)))
  else mret (inr newsz).
Definition allocuvm (pgdir oldsz newsz : Z) : M vst Z :=
  if KERNBASE <=? newsz then mret 0 else
  if newsz <? oldsz then mret oldsz else
  loop (Z.to_nat (newsz / PGSIZE) + 2) (allocuvm_step pgdir oldsz newsz) (PGROUNDUP oldsz).

Definition freevm_step (pgdir : Z) (i : nat) : M vst unit :=
  e ← rd32 (pgdir + 4 * Z.of_nat i);
  if negb (Z.land e PTE_P =? 0) then kfree (P2V (PTE_ADDR e)) else skip.
Definition freevm (pgdir : Z) : M vst unit :=
  if pgdir =? 0 then panic "freevm: no pgdir" else
  deallocuvm pgdir KERNBASE 0 ;;
  for_range 0 (Z.to_nat NPDENTRIES) (freevm_step pgdir) ;;
  kfree pgdir.

(** virt, phys_start, phys_end, perm *)
Definition kmap : list (Z * Z * Z * Z) :=
  [(KERNBASE, 0, EXTMEM, PTE_W); (KERNLINK, V2P KERNLINK, V2P sym_data, 0);
   (sym_data, V2P sym_data, PHYSTOP, PTE_W); (DEVSPACE, DEVSPACE, 0, PTE_W)].

Fixpoint setupkvm_loop (pgdir : Z) (k : list (Z * Z * Z * Z)) : M vst Z :=
  match k with
  | [] => mret pgdir
  | (virt, ps, pe, perm) :: k' =>
      r ← mappages pgdir virt (u32 (pe - ps)) ps perm;
      if r <? 0 then freevm pgdir ;; mret 0 else setupkvm_loop pgdir k'
  end.
Definition setupkvm : M vst Z :=
  pgdir ← kalloc;
  if pgdir =? 0 then mret 0 else
  upd_mem (fun m => memset m pgdir 0 PGSIZE) ;;
  if DEVSPACE <? P2V PHYSTOP then panic "PHYSTOP too high" else
  setupkvm_loop pgdir kmap.

Definition kvmalloc : M vst unit :=
  d ← setupkvm;
  modify (fun s => set_vcore (set_kpgdir d (vcore s)) s) ;;
  lift switchkvm.

Definition inituvm (pgdir : Z) (init : list Z) : M vst unit :=
  if PGSIZE <=? Z.of_nat (length init) then panic "inituvm: more than a page" else
  mem ← kalloc;
  if mem =? 0 then fault else
  upd_mem (fun m => memset m mem 0 PGSIZE) ;;
  mappages pgdir 0 PGSIZE (V2P mem) (Z.lor PTE_W PTE_U) ;;
  upd_mem (fun m a => if (mem <=? a) && (a <? mem + Z.of_nat (length init))
                      then default 0 (init !! Z.to_nat (a - mem)) else m a).

Definition clearpteu (pgdir uva : Z) : M vst unit :=
  p ← walkpgdir pgdir uva false;
  match p with
  | None => panic "clearpteu"
  | Some pte => e ← rd32 pte; wr32 pte (Z.land e (u32 (Z.lnot PTE_U)))
  end.

Definition copyuvm_step (pgdir d sz i : Z) : M vst (Z + bool) :=
  if i <? sz then
    p ← walkpgdir pgdir i false;
    match p with
    | None => panic "copyuvm: pte should exist"
    | Some pte =>
        e ← rd32 pte;
        if Z.land e PTE_P =? 0 then panic "copyuvm: page not present" else
        let pa := PTE_ADDR e in let flags := PTE_FLAGS e in
        mem ← kalloc;
        if mem =? 0 then mret (inr false) else
        upd_mem (fun m => memmove m mem (P2V pa) PGSIZE) ;;
        r ← mappages d i PGSIZE (V2P mem) flags;
        if r <? 0 then kfree mem ;; mret (inr false) else mret (inl (u32 (i + PGSIZE)))
    end
  else mret (inr true).
Definition copyuvm (pgdir sz : Z) : M vst Z :=
  d ← setupkvm;
  if d =? 0 then mret 0 else
  ok ← loop (Z.to_nat (sz / PGSIZE) + 2) (copyuvm_step pgdir d sz) 0;
  if (ok : bool) then mret d else freevm d ;; mret 0.

(** The null pointer [walkpgdir] may return is dereferenced unchecked. *)
Definition uva2ka (pgdir uva : Z) : M vst Z :=
  p ← walkpgdir pgdir uva false;
  match p with
  | None => fault
  | Some pte =>
      e ← rd32 pte;
      if Z.land e PTE_P =? 0 then mret 0 else
      if Z.land e PTE_U =? 0 then mret 0 else
      mret (P2V (PTE_ADDR e))
  end.

(** Copying a buffer of the kernel to memory. *)
Definition store_bytes (a : Z) (l : list Z) (m : mem) : mem :=
  fun b => if (a <=? b) && (b <? a + Z.of_nat (length l)) then default 0 (l !! Z.to_nat (b - a)) else m b.

Definition copyout_step (pgdir : Z) (l : Z * list Z) : M vst (Z * list Z + Z) :=
  let '(va, buf) := l in
  let len := Z.of_nat (length buf) in
  if 0 <? len then
    let va0 := PGROUNDDOWN va in
    pa0 ← uva2ka pgdir va0;
    if pa0 =? 0 then mret (inr (-1)) else
    let n := if len <? PGSIZE - (va - va0) then len else PGSIZE - (va - va0) in
    upd_mem (store_bytes (pa0 + (va - va0)) (take (Z.to_nat n) buf)) ;;
    mret (inl (u32 (va0 + PGSIZE), drop (Z.to_nat n) buf))
  else mret (inr 0).
Definition copyout (pgdir va : Z) (p : list Z) : M vst Z :=
  loop (length p + 1) (copyout_step pgdir) (va, p).
End vm.
