(* ===== verification/VmAlloc.v ===== *)
(** * The page allocator

    The free list that [kalloc.c] threads through the free pages, related to
    an abstract list of pages; no page is ever handed out twice. *)

From S2P Require Import Prelude Bytes Core StringLib Cons Vm.

(** ** Words in memory *)

Lemma store32_bytes m a w b :
  store32 m a w b = if (a <=? b) && (b <? a + 4) then u8 (Z.shiftr w (8 * (b - a))) else m b.
Proof. apply store32_spec. Qed.

Lemma load32_ext m m' a : (forall b, a <= b < a + 4 -> m' b = m b) -> load32 m' a = load32 m a.
Proof. intros H. unfold load32. by rewrite !H by lia. Qed.

Lemma le_dec4 w : 0 <= w < 4294967296 ->
  le_dec [u8 w; u8 (Z.shiftr w 8); u8 (Z.shiftr w 16); u8 (Z.shiftr w 24)] = w.
Proof.
  intros Hw. rewrite !Z.shiftr_div_pow2 by lia.
  change (2 ^ 8) with 256. change (2 ^ 16) with (256 * 256). change (2 ^ 24) with (256 * 256 * 256).
  rewrite <- !Z.div_div by lia. unfold u8. cbn [le_dec].
  set (w1 := w / 256). set (w2 := w1 / 256). set (w3 := w2 / 256).
  pose proof (Z.div_mod w 256). pose proof (Z.div_mod w1 256). pose proof (Z.div_mod w2 256).
  fold w1 in H. fold w2 in H0. fold w3 in H1.
  assert (0 <= w3 < 256).
  { unfold w3, w2, w1. rewrite !Z.div_div by lia. split; [apply Z.div_pos; lia|apply Z.div_lt_upper_bound; lia]. }
  rewrite (Z.mod_small w3) by done. lia.
Qed.

Lemma load32_store32 m a w : 0 <= w < 4294967296 -> load32 (store32 m a w) a = w.
Proof.
  intros Hw. unfold load32. rewrite !store32_bytes.
  rewrite !(proj2 (Z.leb_le _ _)), !(proj2 (Z.ltb_lt _ _)) by lia. cbn [andb].
  replace (8 * (a - a)) with 0 by lia. replace (8 * (a + 1 - a)) with 8 by lia.
  replace (8 * (a + 2 - a)) with 16 by lia. replace (8 * (a + 3 - a)) with 24 by lia.
  rewrite Z.shiftr_0_r. by apply le_dec4.
Qed.

Lemma load32_store32_ne m a w b : a + 4 <= b \/ b + 4 <= a -> load32 (store32 m a w) b = load32 m b.
Proof.
  intros Hd. apply load32_ext. intros c Hc. rewrite store32_bytes.
  destruct (Z.leb_spec a c), (Z.ltb_spec c (a + 4)); cbn; (done || lia).
Qed.

Lemma memset_out m v c n a : 0 <= n -> a < v \/ v + n <= a -> memset m v c n a = m a.
Proof.
  intros Hn Ha. rewrite memset_spec by done. destruct (Z.leb_spec v a), (Z.ltb_spec a (v + n)); cbn; (done || lia).
Qed.

Section alloc.
Context `{KS : KSyms}.

Record page_ok (v : Z) : Prop := {
  pg_align : v mod PGSIZE = 0;
  pg_end : sym_end <= v;
  pg_base : KERNBASE < v;
  pg_top : v - KERNBASE < PHYSTOP }.

Definition in_page (v a : Z) : Prop := v <= a < v + PGSIZE.

Lemma page_disjoint v w a : v mod PGSIZE = 0 -> w mod PGSIZE = 0 -> v <> w -> in_page v a -> ~ in_page w a.
Proof.
  unfold in_page, PGSIZE. intros Hv Hw Hne Ha Hb. pose proof (Z.div_mod v 4096). pose proof (Z.div_mod w 4096). lia.
Qed.

Lemma page_word32 v : page_ok v -> 0 <= v < 4294967296.
Proof. intros [H1 H2 H3 H4]. unfold KERNBASE, PHYSTOP in *. lia. Qed.

(** The list in memory from pointer [p]. *)
Fixpoint flist (m : mem) (p : Z) (l : list Z) : Prop :=
  match l with
  | [] => p = 0
  | v :: l' => p = v /\ flist m (load32 m v) l'
  end.

Lemma flist_ext m m' p l :
  (forall v a, v ∈ l -> v <= a < v + 4 -> m' a = m a) -> flist m p l -> flist m' p l.
Proof.
  revert p. induction l as [|v l IH]; intros p Hext; cbn [flist]; [done|]. intros [-> Hl]. split; [done|].
  rewrite (load32_ext m m') by (intros b Hb; apply (Hext v); [left|done]).
  apply IH; [|done]. intros w a Hw. apply Hext. by right.
Qed.

Record kmem_ok (s : vst) (l : list Z) : Prop := {
  km_list : flist (kmemory s) (freelist s) l;
  km_nodup : NoDup l;
  km_pages : Forall page_ok l }.

Definition no_kmem (s : vst) : Prop := LkKmem ∉ held (vcore s).

Lemma set_vcore_id s : set_vcore (vcore s) s = s.
Proof. by destruct s. Qed.

Lemma relock s c : vcore s = set_held (LkKmem :: held c) c ->
  set_vcore (set_held (remove1 LkKmem (held (vcore s))) (vcore s)) s = set_vcore c s.
Proof. intros ->. cbn. rewrite decide_True by done. by destruct c. Qed.

(** The lock around a critical section that does not touch the core. *)
Lemma wp_kmem_locked {A} (m : M vst A) (Q : A -> vst -> Prop) s :
  no_kmem s ->
  (forall c, wp m (fun a s' => vcore s' = c /\ use_lock s' = use_lock s /\ Q a (set_vcore (vcore s) s')) (set_vcore c s)) ->
  wp (kmem_lock ;; r ← m; kmem_unlock ;; mret r) Q s.
Proof.
  intros Hn Hm. unfold kmem_lock, kmem_unlock. wp_simpl. destruct (Z.eqb_spec (use_lock s) 0) as [E|E]; cbn [negb].
  - wp_simpl. specialize (Hm (vcore s)). rewrite set_vcore_id in Hm. eapply wp_mono; [exact Hm|].
    intros a s' (Hc & Hu & HQ). wp_simpl. rewrite Hu, E. cbn. wp_simpl. rewrite <- Hc, set_vcore_id in HQ. exact HQ.
  - wp_simpl. apply wp_acquire; [done|]. wp_simpl. eapply wp_mono; [apply Hm|].
    intros a s' (Hc & Hu & HQ). wp_simpl. rewrite Hu. rewrite (proj2 (Z.eqb_neq _ _) E). cbn [negb]. wp_simpl.
    cbn [lget v_core lset]. apply wp_release; [rewrite Hc; left|]. by rewrite (relock _ (vcore s)).
Qed.

Lemma wp_kalloc s l (Q : Z -> vst -> Prop) :
  no_kmem s -> kmem_ok s l ->
  match l with
  | [] => Q 0 s
  | v :: l' => forall s', s' = set_freelist (load32 (kmemory s) v) s -> kmem_ok s' l' -> Q v s'
  end -> wp kalloc Q s.
Proof.
  intros Hn [Hl Hnd Hp] HQ. unfold kalloc.
  assert (wp (kmem_lock ;; r ← (r ← gets freelist;
      (if negb (r =? 0) then n ← rd32 r; modify (set_freelist n) else skip) ;; mret r);
      kmem_unlock ;; mret r) Q s) as Hw.
  { apply wp_kmem_locked; [done|]. intros c. unfold rd32. wp_simpl. cbn [freelist set_vcore].
    destruct l as [|v l].
    - cbn in Hl. rewrite Hl. cbn [Z.eqb negb]. wp_simpl. split_and!; [done|done|]. cbn. by destruct s.
    - destruct Hl as [-> Hl]. apply Forall_cons in Hp as [Hv Hp]. apply NoDup_cons in Hnd as [_ Hnd].
      pose proof (page_word32 _ Hv). pose proof (pg_base _ Hv). unfold KERNBASE in *.
      destruct (Z.eqb_spec v 0); [lia|]. cbn [negb]. wp_simpl. split_and!; [done|done|].
      apply HQ; [by destruct s|]. by split. }
  revert Hw. wp_simpl. intros Hw. eapply wp_mono; [exact Hw|]. intros [] s1. wp_simpl.
  destruct (negb (freelist s1 =? 0)); by wp_simpl.
Qed.

(** The memory after freeing page [v]. *)
Definition freed_mem (m : mem) (v fl : Z) : mem := store32 (memset m v 1 PGSIZE) v fl.

Lemma freed_mem_out m v fl a : ~ in_page v a -> freed_mem m v fl a = m a.
Proof.
  unfold in_page, PGSIZE. intros Ha. unfold freed_mem. rewrite store32_bytes.
  destruct (Z.leb_spec v a), (Z.ltb_spec a (v + 4)); cbn [andb]; try lia; apply memset_out; unfold PGSIZE; lia.
Qed.

Lemma head_word m p l : flist m p l -> Forall page_ok l -> 0 <= p < 4294967296.
Proof. destruct l as [|v l]; cbn; [lia|]. intros [-> _] [Hv _]%Forall_cons. by apply page_word32. Qed.

Lemma wp_kfree s l v (Q : unit -> vst -> Prop) :
  no_kmem s -> kmem_ok s l -> page_ok v -> v ∉ l ->
  (forall s', s' = set_freelist v (set_kmemory (freed_mem (kmemory s) v (freelist s)) s) ->
     kmem_ok s' (v :: l) -> Q tt s') ->
  wp (kfree v) Q s.
Proof.
  intros Hn [Hl Hnd Hp] Hv Hvl HQ. unfold kfree.
  pose proof Hv as [V1 V2 V3 V4]. pose proof (page_word32 _ Hv) as Hw.
  assert (V2P v = v - KERNBASE) as -> by (unfold V2P; apply u32_id; unfold KERNBASE in *; lia).
  rewrite V1. cbn [Z.eqb negb orb]. destruct (Z.ltb_spec v sym_end); [lia|].
  destruct (Z.leb_spec PHYSTOP (v - KERNBASE)); [lia|]. cbn [orb]. unfold upd_mem at 1. rewrite wp_bind, wp_modify.
  set (s1 := set_kmemory (memset (kmemory s) v 1 PGSIZE) s).
  assert (wp (kmem_lock ;; r ← (s ← get; wr32 v (freelist s) ;; modify (set_freelist v)); kmem_unlock ;; mret r) Q s1) as Hwp.
  { apply wp_kmem_locked; [done|]. intros c. unfold wr32, upd_mem. wp_simpl. split_and!; [done|done|].
    match goal with |- Q tt ?x =>
      assert (x = set_freelist v (set_kmemory (freed_mem (kmemory s) v (freelist s)) s)) as -> by (by destruct s)
    end. apply HQ; [done|]. split; cbn [kmemory freelist set_freelist set_kmemory flist]; [|by apply NoDup_cons|by constructor].
    split; [done|]. unfold freed_mem.
    rewrite load32_store32 by (by eapply head_word).
    eapply flist_ext; [|exact Hl]. intros w a Hw' Ha. apply freed_mem_out.
    intros Hin. eapply (page_disjoint v w a); [done| |congruence|done|unfold in_page, PGSIZE; lia].
    apply list_elem_of_lookup in Hw' as [i Hi]. by eapply (Forall_lookup_1 _ _ _ _ Hp). }
  revert Hwp. rewrite !wp_bind. intros Hwp. eapply wp_mono; [exact Hwp|]. intros [] s2.
  unfold wr32, upd_mem, kmem_unlock. wp_simpl. destruct (negb _); wp_simpl; [|done].
  intros H2. eapply wp_mono; [exact H2|]. by intros [] c.
Qed.

Lemma kfree_bad s v :
  v mod PGSIZE <> 0 \/ v < sym_end \/ PHYSTOP <= V2P v -> kfree v s = Panic "kfree".
Proof.
  intros Hb. unfold kfree. destruct (Z.eqb_spec (v mod PGSIZE) 0), (Z.ltb_spec v sym_end),
    (Z.leb_spec PHYSTOP (V2P v)); cbn; (done || lia).
Qed.

(** ** Pages in use

    A history of calls: [owned] lists the pages handed out and not returned. *)

Inductive astep : vst * list Z -> vst * list Z -> Prop :=
| AAlloc s s' v owned : kalloc s = Ok v s' -> v <> 0 -> astep (s, owned) (s', v :: owned)
| ANone s s' owned : kalloc s = Ok 0 s' -> astep (s, owned) (s', owned)
| AFree s s' v owned1 owned2 :
    kfree v s = Ok tt s' -> astep (s, owned1 ++ v :: owned2) (s', owned1 ++ owned2)
| AUse s owned f :
    (* the client writes pages it owns *)
    (forall a, (forall v, v ∈ owned -> ~ in_page v a) -> f (kmemory s) a = kmemory s a) ->
    astep (s, owned) (set_kmemory (f (kmemory s)) s, owned).

Record ainv (pages : list Z) (p : vst * list Z) : Prop := {
  ai_lock : no_kmem p.1;
  ai_split : exists l, kmem_ok p.1 l /\ p.2 ++ l ≡ₚ pages }.

Lemma ainv_step pages p q :
  NoDup pages -> Forall page_ok pages -> astep p q -> ainv pages p -> ainv pages q.
Proof.
  intros Hnd Hpg Hs [Hn (l & Hk & Hp)].
  destruct Hs as [s s' v owned E Hv|s s' owned E|s s' v o1 o2 E|s owned f Hf]; cbn [fst snd] in *.
  - assert (wp kalloc (fun r t => r = v -> ainv pages (t, r :: owned)) s) as Hw.
    { apply (wp_kalloc s l); [done..|]. destruct l as [|w l]; [by intros <-|].
      intros t -> Hk' _. split; [done|]. exists l. split; [done|]. cbn. rewrite <- Hp. apply Permutation_middle. }
    unfold wp in Hw. rewrite E in Hw. by apply Hw.
  - assert (wp kalloc (fun r t => r = 0 -> t = s) s) as Hw.
    { apply (wp_kalloc s l); [done..|]. destruct l as [|w l]; [done|]. intros t -> _ ->.
      pose proof (km_pages _ _ Hk) as [Hw _]%Forall_cons. pose proof (pg_base _ Hw). unfold KERNBASE in *. lia. }
    unfold wp in Hw. rewrite E in Hw. rewrite Hw by done. split; [done|]. by exists l.
  - assert (v ∈ pages) as Hin by (rewrite <- Hp; set_solver).
    assert (page_ok v) as Hv by (by eapply Forall_forall).
    assert (NoDup ((o1 ++ v :: o2) ++ l)) as Hnd' by (by rewrite Hp).
    assert (v ∉ l) as Hvl.
    { rewrite <- (assoc_L (++)) in Hnd'. apply NoDup_app in Hnd' as (_ & _ & Hnd').
      cbn in Hnd'. apply NoDup_cons in Hnd'. set_solver. }
    assert (wp (kfree v) (fun _ t => ainv pages (t, o1 ++ o2)) s) as Hw.
    { apply (wp_kfree s l); [done..|]. intros t -> Hk'. split; [done|]. exists (v :: l). split; [done|].
      cbn [fst snd]. by rewrite <- Hp, <- (Permutation_middle (o1 ++ o2) l v), <- (Permutation_middle o1 o2 v). }
    unfold wp in Hw. by rewrite E in Hw.
  - split; [done|]. exists l. split; [|done]. destruct Hk as [K1 K2 K3]. split; [|done|done]. cbn.
    eapply flist_ext; [|exact K1]. intros w a Hw Ha. apply Hf. intros v Hv Hin.
    assert (NoDup (owned ++ l)) as Hnd' by (by rewrite Hp). apply NoDup_app in Hnd' as (_ & Hd & _).
    rewrite Forall_forall in Hpg. eapply (page_disjoint v w a); [| |intros ->; by apply (Hd w)|done|unfold in_page, PGSIZE; lia].
    + apply Hpg. rewrite <- Hp. set_solver.
    + apply Hpg. rewrite <- Hp. set_solver.
Qed.

(** C22.  The page allocator never hands out a page twice: from a free list of
    distinct pages, through any sequence of [kalloc], [kfree] of pages handed
    out, and arbitrary writes by the owners to their pages, the pages in use
    and those on the list threaded through free memory together are always
    exactly the initial pages, each once. *)
Theorem kalloc_pages_disjoint s0 s l owned :
  no_kmem s0 -> kmem_ok s0 l -> rtc astep (s0, []) (s, owned) ->
  exists l', kmem_ok s l' /\ owned ++ l' ≡ₚ l /\ NoDup (owned ++ l').
Proof.
  intros Hn Hk Hr. assert (ainv l (s0, [])) as Hi by (split; [done|]; by exists l).
  remember (s0, []) as p eqn:Ep. clear Ep. remember (s, owned) as q eqn:Eq. revert s owned Eq.
  assert (ainv l q) as Hq.
  { clear -Hr Hi Hk. induction Hr as [|x y z Hs Hr IH]; [done|]. apply IH.
    eapply ainv_step; [apply Hk|apply Hk|done|done]. }
  intros s owned ->. destruct Hq as [_ (l' & H1 & H2)]. cbn in *. exists l'. split_and!; [done..|].
  rewrite H2. apply Hk.
Qed.
End alloc.

#[local] Instance demo_syms : KSyms := 
  {| sym_end := 2148532224; sym_data := 2148536320; sym_forkret := 2148532300; sym_trapret := 2148532400 |}.

(** Two pages, the first pointing to the second. *)
Definition demo_pages : vst :=
  mkV (mkCore [] None [] 1 None ∅ 0 0 0) demo_cons 1 2149580800
    (store32 (store32 (fun _ => 0) 2149580800 2149584896) 2149584896 0).

Lemma demo_pages_ok : kmem_ok demo_pages [2149580800; 2149584896].
Proof.
  split.
  - vm_compute. done.
  - apply NoDup_cons; split; [intros ?%list_elem_of_singleton; lia|apply NoDup_singleton].
  - repeat constructor; cbn; unfold PGSIZE, KERNBASE, PHYSTOP; (done || lia).
Qed.

Lemma kalloc_pages_disjoint_witness :
  exists l', kmem_ok (set_freelist 2149584896 demo_pages) l' /\
    [2149580800] ++ l' ≡ₚ [2149580800; 2149584896] /\ NoDup ([2149580800] ++ l').
Proof.
  apply (kalloc_pages_disjoint demo_pages); [apply not_elem_of_nil|apply demo_pages_ok|].
  apply rtc_once. apply AAlloc; [vm_compute; reflexivity|lia].
Defined.
