(* ===== verification/VmTables.v ===== *)
(** * Page tables: [walkpgdir] and [mappages] against address translation *)

From S2P Require Import Prelude Bytes Core StringLib Vm VmAlloc.

(** ** Arithmetic of addresses *)

Lemma land_mask12 x : 0 <= x < 4294967296 -> Z.land x 4294963200 = x - x mod 4096.
Proof.
  intros Hx. change 4294963200 with (Z.shiftl (Z.ones 20) 12).
  assert (Z.land x (Z.shiftl (Z.ones 20) 12) = Z.shiftl (Z.land (Z.shiftr x 12) (Z.ones 20)) 12) as ->.
  { apply Z.bits_inj'. intros i Hi. rewrite Z.land_spec, !Z.shiftl_spec by done.
    destruct (Z.lt_ge_cases i 12) as [Hlt|Hge].
    - rewrite !(Z.testbit_neg_r _ (i - 12)) by lia. apply andb_false_r.
    - rewrite Z.land_spec, Z.shiftr_spec by lia. f_equal. f_equal. lia. }
  rewrite Z.land_ones, Z.shiftl_mul_pow2, Z.shiftr_div_pow2 by lia. change (2 ^ 12) with 4096. change (2 ^ 20) with 1048576.
  assert (0 <= x / 4096 < 1048576) by (split; [apply Z.div_pos|apply Z.div_lt_upper_bound]; lia).
  rewrite Z.mod_small by done. pose proof (Z.div_mod x 4096). lia.
Qed.

Lemma PDX_eq va : 0 <= va < 4294967296 -> PDX va = va / 4194304.
Proof.
  intros Hv. unfold PDX. change 1023 with (Z.ones 10). rewrite Z.land_ones, Z.shiftr_div_pow2 by lia.
  change (2 ^ 22) with 4194304. change (2 ^ 10) with 1024. apply Z.mod_small.
  split; [apply Z.div_pos|apply Z.div_lt_upper_bound]; lia.
Qed.
Lemma PTX_eq va : PTX va = (va / 4096) mod 1024.
Proof. unfold PTX. change 1023 with (Z.ones 10). by rewrite Z.land_ones, Z.shiftr_div_pow2 by lia. Qed.

Lemma PDX_range va : 0 <= PDX va < 1024.
Proof. unfold PDX. change 1023 with (Z.ones 10). rewrite Z.land_ones by lia. apply Z.mod_pos_bound. lia. Qed.
Lemma PTX_range va : 0 <= PTX va < 1024.
Proof. rewrite PTX_eq. apply Z.mod_pos_bound. lia. Qed.

(** Addresses with the same indices are on the same page. *)
Lemma same_page va va' :
  0 <= va < 4294967296 -> 0 <= va' < 4294967296 -> PDX va = PDX va' -> PTX va = PTX va' -> va / 4096 = va' / 4096.
Proof.
  intros H1 H2. rewrite !PDX_eq, !PTX_eq by done. intros E1 E2.
  assert (forall x, x / 4194304 = x / 4096 / 1024) as Hd by (intros x; by rewrite Z.div_div by lia).
  rewrite !Hd in E1. pose proof (Z.div_mod (va / 4096) 1024). pose proof (Z.div_mod (va' / 4096) 1024). lia.
Qed.

(** The flag bits of an entry for an aligned physical address. *)
Lemma lor_flags a f : a mod 4096 = 0 -> 0 <= f < 4096 -> Z.lor a f = a + f.
Proof.
  intros Ha Hf. assert (a = Z.shiftl (a / 4096) 12) as E.
  { rewrite Z.shiftl_mul_pow2 by lia. change (2 ^ 12) with 4096. pose proof (Z.div_mod a 4096). lia. }
  rewrite E, lor_shiftl by lia. rewrite Z.shiftl_mul_pow2 by lia. lia.
Qed.

Lemma entry_fields a f :
  0 <= a < 4294967296 -> a mod 4096 = 0 -> 0 <= f < 4096 ->
  0 <= a + f < 4294967296 /\ PTE_ADDR (a + f) = a /\ PTE_FLAGS (a + f) = f /\ Z.land (a + f) PTE_P = Z.land f PTE_P.
Proof.
  intros Ha Hm Hf. assert (a + f < 4294967296) as Hlt.
  { pose proof (Z.div_mod a 4096). assert (a / 4096 < 1048576) by (apply Z.div_lt_upper_bound; lia). lia. }
  assert ((a + f) mod 4096 = f) as Em by (rewrite <- Zplus_mod_idemp_l, Hm; apply Z.mod_small; lia).
  split_and!; [lia|lia| | |].
  - unfold PTE_ADDR. rewrite land_mask12 by lia. lia.
  - unfold PTE_FLAGS. change 4095 with (Z.ones 12). rewrite Z.land_ones by lia. exact Em.
  - unfold PTE_P. change 1 with (Z.ones 1). rewrite !Z.land_ones by lia. change (2 ^ 1) with 2.
    pose proof (Z.div_mod a 4096). replace (a + f) with (f + (a / 4096 * 2048) * 2) by lia. apply Z_mod_plus_full.
Qed.

Section tables.
Context `{KS : KSyms}.

Lemma page_phys t : page_ok t ->
  V2P t = t - KERNBASE /\ 0 <= t - KERNBASE < 4294967296 /\ (t - KERNBASE) mod 4096 = 0 /\ P2V (t - KERNBASE) = t.
Proof.
  intros Ht. pose proof (page_word32 _ Ht). destruct Ht as [H1 H2 H3 H4]. unfold V2P, P2V, KERNBASE, PHYSTOP, PGSIZE in *.
  split_and!; [apply u32_id; lia|lia|lia| |rewrite u32_id; lia].
  replace (t - 2147483648) with (t + (-524288) * 4096) by lia. by rewrite Z_mod_plus_full.
Qed.

(** ** Translation *)

Definition pde_of (m : mem) (pgdir d : Z) : Z := load32 m (pgdir + 4 * d).
Definition present (e : Z) : bool := negb (Z.land e PTE_P =? 0).
Definition table_of (e : Z) : Z := P2V (PTE_ADDR e).

(** The page-table entry that translates [va], if it is present. *)
Definition xlate (m : mem) (pgdir va : Z) : option Z :=
  let e := pde_of m pgdir (PDX va) in
  if present e then
    let p := load32 m (table_of e + 4 * PTX va) in if present p then Some p else None
  else None.

(** The page directory and its tables are distinct pages in use. *)
Record pgd_ok (m : mem) (free : list Z) (pgdir : Z) : Prop := {
  pd_page : page_ok pgdir;
  pd_free : pgdir ∉ free;
  pd_tab : forall d, 0 <= d < 1024 -> present (pde_of m pgdir d) = true ->
     page_ok (table_of (pde_of m pgdir d)) /\ table_of (pde_of m pgdir d) ∉ free /\
     table_of (pde_of m pgdir d) <> pgdir;
  pd_inj : forall d d', 0 <= d < 1024 -> 0 <= d' < 1024 ->
     present (pde_of m pgdir d) = true -> present (pde_of m pgdir d') = true ->
     table_of (pde_of m pgdir d) = table_of (pde_of m pgdir d') -> d = d' }.

(** Words of distinct pages, and distinct words of a page. *)
Lemma word_in_page v k : 0 <= k < 1024 -> forall b, v + 4 * k <= b < v + 4 * k + 4 -> in_page v b.
Proof. unfold in_page, PGSIZE. lia. Qed.

Lemma load32_outside m m' v w k :
  (forall a, ~ in_page v a -> m' a = m a) -> page_ok v -> page_ok w -> w <> v -> 0 <= k < 1024 ->
  load32 m' (w + 4 * k) = load32 m (w + 4 * k).
Proof.
  intros Hm Hv Hw Hne Hk. apply load32_ext. intros b Hb. apply Hm.
  apply (page_disjoint w v); [apply Hw|apply Hv|done|]. by eapply word_in_page.
Qed.

Lemma store32_outside m v k w : 0 <= k < 1024 -> forall a, ~ in_page v a -> store32 m (v + 4 * k) w a = m a.
Proof.
  intros Hk a Ha. rewrite store32_bytes. unfold in_page, PGSIZE in Ha.
  destruct (Z.leb_spec (v + 4 * k) a), (Z.ltb_spec a (v + 4 * k + 4)); cbn; (done || lia).
Qed.

Lemma load32_zeroed m v k : 0 <= k < 1024 -> load32 (memset m v 0 PGSIZE) (v + 4 * k) = 0.
Proof.
  intros Hk. unfold load32. rewrite !memset_spec by (unfold PGSIZE; lia). unfold PGSIZE.
  rewrite !(proj2 (Z.leb_le _ _)), !(proj2 (Z.ltb_lt _ _)) by lia. done.
Qed.

Lemma kmem_ok_mem s l m' :
  kmem_ok s l -> (forall v a, v ∈ l -> in_page v a -> m' a = kmemory s a) -> kmem_ok (set_kmemory m' s) l.
Proof.
  intros [H1 H2 H3] Hm. split; [|done|done]. cbn. eapply flist_ext; [|exact H1].
  intros v a Hv Ha. apply (Hm v); [done|]. unfold in_page, PGSIZE. lia.
Qed.

(** The pages of the directory itself. *)
Definition tabpage (m : mem) (pgdir w : Z) : Prop :=
  w = pgdir \/ exists d, 0 <= d < 1024 /\ present (pde_of m pgdir d) = true /\ table_of (pde_of m pgdir d) = w.

Lemma tabpage_ok m l pgdir w : pgd_ok m l pgdir -> tabpage m pgdir w -> page_ok w /\ w ∉ l.
Proof. intros [P1 P2 P3 P4] [->|(d & Hd & Hpr & <-)]; [done|]. destruct (P3 d Hd Hpr) as (? & ? & ?). done. Qed.

(** Work on one directory: pages are taken from the front of the free list,
    and pages in use elsewhere keep their contents. *)
Record pframe (m : mem) (l : list Z) (pgdir : Z) (m' : mem) (l' : list Z) : Prop := {
  pf_suf : l' `suffix_of` l;
  pf_same : forall w, page_ok w -> w ∉ l -> ~ tabpage m pgdir w ->
     (forall a, in_page w a -> m' a = m a) /\ ~ tabpage m' pgdir w;
  pf_tab : forall w, tabpage m pgdir w -> tabpage m' pgdir w;
  pf_taken : forall w, w ∈ l -> w ∈ l' \/ tabpage m' pgdir w }.

Lemma pframe_refl m l pgdir : pframe m l pgdir m l.
Proof. split; try done. by left. Qed.
Lemma pframe_trans m1 l1 m2 l2 m3 l3 pgdir :
  pframe m1 l1 pgdir m2 l2 -> pframe m2 l2 pgdir m3 l3 -> pframe m1 l1 pgdir m3 l3.
Proof.
  intros [A1 A2 A3' A4'] [B1 B2 B3' B4']. split; [by etrans| |by eauto|].
  2: { intros w [Hw|Hw]%A4'; [by apply B4'|right; by apply B3']. }
  intros w Hw Hl Ht. destruct (A2 w Hw Hl Ht) as [A3 A4].
  assert (w ∉ l2) as Hl2 by (intros Hin; apply Hl; destruct A1 as [k ->]; apply elem_of_app; by right).
  destruct (B2 w Hw Hl2 A4) as [B3 B4]. split; [|done]. intros a Ha. by rewrite B3, A3.
Qed.

(** ** walkpgdir *)

(** What a walk leaves: the entry's table exists and no translation changes. *)
Record walked (s : vst) (l : list Z) (pgdir va : Z) (s' : vst) (l' : list Z) (pte : Z) : Prop := {
  wk_kmem : kmem_ok s' l';
  wk_lock : no_kmem s';
  wk_core : vcore s' = vcore s /\ use_lock s' = use_lock s;
  wk_pgd : pgd_ok (kmemory s') l' pgdir;
  wk_pde : present (pde_of (kmemory s') pgdir (PDX va)) = true;
  wk_pte : pte = table_of (pde_of (kmemory s') pgdir (PDX va)) + 4 * PTX va;
  wk_xlate : forall va', xlate (kmemory s') pgdir va' = xlate (kmemory s) pgdir va';
  wk_free : l' = l \/ exists v, l = v :: l';
  wk_frame : pframe (kmemory s) l pgdir (kmemory s') l';
  wk_cons : vcons s' = vcons s }.

Lemma wp_walk_present s l pgdir va alloc (Q : option Z -> vst -> Prop) :
  no_kmem s -> kmem_ok s l -> pgd_ok (kmemory s) l pgdir ->
  present (pde_of (kmemory s) pgdir (PDX va)) = true ->
  (forall pte, walked s l pgdir va s l pte -> Q (Some pte) s) -> wp (walkpgdir pgdir va alloc) Q s.
Proof.
  intros Hn Hk Hp Hpr HQ. unfold walkpgdir, rd32. cbv zeta. wp_simpl. fold (pde_of (kmemory s) pgdir (PDX va)).
  unfold present in Hpr. rewrite Hpr. wp_simpl. apply HQ. split; try done; [by left|apply pframe_refl].
Qed.

(** A fresh table: the new memory. *)
Definition with_table (m : mem) (pgdir d t : Z) : mem :=
  store32 (memset m t 0 PGSIZE) (pgdir + 4 * d) (V2P t + 7).

Section fresh.
Context (m : mem) (l : list Z) (pgdir d t : Z) (Hp : pgd_ok m (t :: l) pgdir)
  (Ht : page_ok t) (Htl : t ∉ l) (Hd : 0 <= d < 1024) (Hn : present (pde_of m pgdir d) = false).

Let m' := with_table m pgdir d t.

Lemma fresh_ne : t <> pgdir.
Proof. intros ->. apply (pd_free _ _ _ Hp). left. Qed.

Lemma fresh_out a : ~ in_page t a -> ~ in_page pgdir a -> m' a = m a.
Proof.
  intros H1 H2. unfold m', with_table. rewrite store32_outside by done.
  apply memset_out; unfold in_page, PGSIZE in *; lia.
Qed.

Lemma fresh_entry : 0 <= V2P t + 7 < 4294967296 /\ present (V2P t + 7) = true /\ table_of (V2P t + 7) = t.
Proof.
  destruct (page_phys t Ht) as (-> & R & A & B). destruct (entry_fields (t - KERNBASE) 7 R A ltac:(lia)) as (E1 & E2 & E3 & E4).
  split; [done|]. unfold present, table_of. rewrite E2, E4. done.
Qed.

Lemma fresh_pde d' : 0 <= d' < 1024 -> pde_of m' pgdir d' = if d' =? d then V2P t + 7 else pde_of m pgdir d'.
Proof.
  intros Hd'. unfold pde_of, m', with_table. destruct (Z.eqb_spec d' d) as [->|Hne].
  - apply load32_store32. apply fresh_entry.
  - rewrite load32_store32_ne by lia. apply (load32_outside _ _ t); [|done|apply Hp|by apply not_eq_sym, fresh_ne|done].
    intros a Ha. apply memset_out; unfold in_page, PGSIZE in *; lia.
Qed.

Lemma fresh_table k : 0 <= k < 1024 -> load32 m' (t + 4 * k) = 0.
Proof.
  intros Hk. unfold m', with_table.
  rewrite (load32_outside (memset m t 0 PGSIZE) _ pgdir); [by apply load32_zeroed| |apply Hp|done|apply fresh_ne|done].
  intros a Ha. by apply store32_outside.
Qed.

Lemma fresh_old d' k : 0 <= d' < 1024 -> 0 <= k < 1024 -> present (pde_of m pgdir d') = true ->
  load32 m' (table_of (pde_of m pgdir d') + 4 * k) = load32 m (table_of (pde_of m pgdir d') + 4 * k).
Proof.
  intros Hd' Hk Hpr. destruct (pd_tab _ _ _ Hp d' Hd' Hpr) as (P1 & P2 & P3).
  apply load32_ext. intros b Hb. pose proof (word_in_page _ k Hk _ Hb) as Hin. apply fresh_out.
  - eapply (page_disjoint _ t); [apply P1|apply Ht| |exact Hin]. intros E. apply P2. rewrite E. left.
  - eapply (page_disjoint _ pgdir); [apply P1|apply Hp|done|exact Hin].
Qed.

Lemma fresh_pgd : pgd_ok m' l pgdir.
Proof.
  destruct fresh_entry as (F1 & F2 & F3). destruct Hp as [P1 P2 P3 P4].
  split; [done|set_solver| |].
  - intros d' Hd'. rewrite fresh_pde by done. destruct (Z.eqb_spec d' d) as [->|Hne].
    + intros _. rewrite F3. split_and!; [done|done|apply fresh_ne].
    + intros Hpr. destruct (P3 d' Hd' Hpr) as (Q1 & Q2 & Q3). split_and!; [done|set_solver|done].
  - intros a b Ha Hb. rewrite !fresh_pde by done.
    destruct (Z.eqb_spec a d) as [->|Hna], (Z.eqb_spec b d) as [->|Hnb]; [done| | |by apply P4].
    + rewrite F3. intros _ Hpb E. destruct (P3 b Hb Hpb) as (_ & Q2 & _). destruct Q2. rewrite <- E. left.
    + rewrite F3. intros Hpa _ E. destruct (P3 a Ha Hpa) as (_ & Q2 & _). destruct Q2. rewrite E. left.
Qed.

Lemma fresh_xlate va' : xlate m' pgdir va' = xlate m pgdir va'.
Proof.
  pose proof (PDX_range va'). pose proof (PTX_range va'). destruct fresh_entry as (F1 & F2 & F3).
  unfold xlate. rewrite fresh_pde by done. destruct (Z.eqb_spec (PDX va') d) as [->|Hne].
  - rewrite F2, F3, fresh_table, Hn by done. done.
  - destruct (present (pde_of m pgdir (PDX va'))) eqn:E; [|done]. by rewrite fresh_old.
Qed.

Lemma fresh_frame : pframe m (t :: l) pgdir m' l.
Proof using Hp Ht Htl Hd Hn.
  destruct fresh_entry as (F1 & F2 & F3). split; [by exists [t]| | |].
  2: { intros w [->|(d' & Hd' & Hpr' & Et)]; [by left|]. right. exists d'. rewrite fresh_pde by done.
       destruct (Z.eqb_spec d' d) as [->|]; [congruence|done]. }
  2: { intros w [->|Hw]%elem_of_cons; [|by left]. right. right. exists d. rewrite fresh_pde, Z.eqb_refl by done. done. }
  intros w Hw Hl Htab.
  assert (w <> t) as Hwt by (intros ->; apply Hl; left). assert (w <> pgdir) as Hwp by (intros ->; apply Htab; by left).
  split.
  - intros a Ha. apply fresh_out; eapply (page_disjoint w); try done; try apply Hw; [apply Ht|apply Hp].
  - intros [->|(d' & Hd' & Hpr' & Et)]; [done|]. rewrite fresh_pde in Hpr', Et by done.
    destruct (Z.eqb_spec d' d) as [->|Hne]; [congruence|]. apply Htab. right. by exists d'.
Qed.
End fresh.

Lemma wp_walk_alloc s l pgdir va (Q : option Z -> vst -> Prop) :
  no_kmem s -> kmem_ok s l -> pgd_ok (kmemory s) l pgdir ->
  (l = [] -> present (pde_of (kmemory s) pgdir (PDX va)) = false -> Q None s) ->
  (forall s' l' pte, walked s l pgdir va s' l' pte -> Q (Some pte) s') ->
  wp (walkpgdir pgdir va true) Q s.
Proof.
  intros Hn Hk Hp HQ0 HQ. pose proof (PDX_range va) as Hd.
  destruct (present (pde_of (kmemory s) pgdir (PDX va))) eqn:Hpr.
  { apply (wp_walk_present s l); [done..|]. intros pte Hw. by apply (HQ s l). }
  unfold walkpgdir. cbv zeta. unfold rd32. wp_simpl. fold (pde_of (kmemory s) pgdir (PDX va)).
  pose proof Hpr as Hpr'. unfold present in Hpr'. rewrite Hpr'. cbn [negb]. wp_simpl.
  apply (wp_kalloc s l); [done..|]. destruct l as [|t l]; [cbn; wp_simpl; by apply HQ0|].
  intros s1 -> Hk1. pose proof (km_pages _ _ Hk) as [Ht _]%Forall_cons.
  pose proof (km_nodup _ _ Hk) as [Htl _]%NoDup_cons.
  pose proof (pg_base _ Ht). unfold KERNBASE in *. destruct (Z.eqb_spec t 0); [lia|].
  unfold wr32, upd_mem. wp_simpl.
  destruct (page_phys t Ht) as (E1 & E2 & E3 & E4).
  assert (Z.lor (Z.lor (Z.lor (V2P t) PTE_P) PTE_W) PTE_U = V2P t + 7) as ->.
  { rewrite E1, <- !Z.lor_assoc. by apply lor_flags. }
  set (m' := with_table (kmemory s) pgdir (PDX va) t).
  match goal with |- Q _ ?x => set (s' := x) end.
  assert (kmemory s' = m') as Em by done.
  destruct (fresh_entry t Ht) as (F1 & F2 & F3).
  assert (pde_of m' pgdir (PDX va) = V2P t + 7) as Epde.
  { pose proof (fresh_pde (kmemory s) l pgdir (PDX va) t Hp Ht Htl (PDX va) Hd) as E. by rewrite Z.eqb_refl in E. }
  apply (HQ s' l). split; rewrite ?Em.
  - apply (kmem_ok_mem (set_freelist (load32 (kmemory s) t) s) l m'); [done|].
    intros v a Hv Ha. apply (fresh_out (kmemory s) pgdir (PDX va) t Hd).
    + eapply (page_disjoint v t); [| |intros ->; by apply Htl|done].
      * apply list_elem_of_lookup in Hv as [i Hi]. by eapply (Forall_lookup_1 _ _ _ _ (km_pages _ _ Hk1)).
      * apply Ht.
    + eapply (page_disjoint v pgdir); [|apply Hp| |done].
      * apply list_elem_of_lookup in Hv as [i Hi]. by eapply (Forall_lookup_1 _ _ _ _ (km_pages _ _ Hk1)).
      * intros ->. apply (pd_free _ _ _ Hp). by right.
  - exact Hn.
  - split; reflexivity.
  - exact (fresh_pgd (kmemory s) l pgdir (PDX va) t Hp Ht Htl Hd Hpr).
  - rewrite Epde. exact F2.
  - rewrite Epde, F3. reflexivity.
  - exact (fresh_xlate (kmemory s) l pgdir (PDX va) t Hp Ht Htl Hd Hpr).
  - right. by exists t.
  - exact (fresh_frame (kmemory s) l pgdir (PDX va) t Hp Ht Htl Hd Hpr).
  - reflexivity.
Qed.

(** ** Storing an entry *)

Section entry.
Context (m : mem) (l : list Z) (pgdir va v : Z) (Hp : pgd_ok m l pgdir) (Hva : 0 <= va < 4294967296)
  (Hpr : present (pde_of m pgdir (PDX va)) = true) (Hv : 0 <= v < 4294967296).

Definition with_entry : mem := store32 m (table_of (pde_of m pgdir (PDX va)) + 4 * PTX va) v.

Lemma entry_out a : ~ in_page (table_of (pde_of m pgdir (PDX va))) a -> with_entry a = m a.
Proof. apply store32_outside. apply PTX_range. Qed.

Lemma entry_pde d : 0 <= d < 1024 -> pde_of with_entry pgdir d = pde_of m pgdir d.
Proof.
  intros Hd. destruct (pd_tab _ _ _ Hp _ (PDX_range va) Hpr) as (P1 & P2 & P3).
  apply (load32_outside _ _ (table_of (pde_of m pgdir (PDX va)))); [apply entry_out|done|apply Hp|done|done].
Qed.

Lemma entry_pgd : pgd_ok with_entry l pgdir.
Proof.
  destruct Hp as [P1 P2 P3 P4]. split; [done|done| |].
  - intros d Hd. rewrite entry_pde by done. by apply P3.
  - intros a b Ha Hb. rewrite !entry_pde by done. by apply P4.
Qed.

Lemma entry_xlate va' : 0 <= va' < 4294967296 ->
  xlate with_entry pgdir va' =
    if va' / 4096 =? va / 4096 then (if present v then Some v else None) else xlate m pgdir va'.
Proof.
  intros Hva'. pose proof (PDX_range va) as Hd. pose proof (PDX_range va') as Hd'.
  pose proof (PTX_range va) as Hk. pose proof (PTX_range va') as Hk'.
  unfold xlate. rewrite entry_pde by done.
  destruct (Z.eqb_spec (PDX va') (PDX va)) as [Ed|Ed], (Z.eqb_spec (PTX va') (PTX va)) as [Ek|Ek].
  - rewrite (same_page va' va), Z.eqb_refl by done. rewrite Ed, Hpr, Ek. unfold with_entry. by rewrite load32_store32.
  - destruct (Z.eqb_spec (va' / 4096) (va / 4096)) as [E|E].
    { destruct Ek. rewrite !PTX_eq. by rewrite E. }
    rewrite Ed, Hpr. unfold with_entry. rewrite load32_store32_ne by lia. done.
  - destruct (Z.eqb_spec (va' / 4096) (va / 4096)) as [E|E].
    { destruct Ed. rewrite !PDX_eq by done. change 4194304 with (4096 * 1024). rewrite <- !Z.div_div by lia. by rewrite E. }
    destruct (present (pde_of m pgdir (PDX va'))) eqn:Hpr'; [|done].
    rewrite (load32_outside m _ (table_of (pde_of m pgdir (PDX va)))); [done|apply entry_out| | | |done].
    + by apply (pd_tab _ _ _ Hp).
    + by apply (pd_tab _ _ _ Hp).
    + intros Et. apply Ed. by apply (pd_inj _ _ _ Hp).
  - destruct (Z.eqb_spec (va' / 4096) (va / 4096)) as [E|E].
    { destruct Ek. rewrite !PTX_eq. by rewrite E. }
    destruct (present (pde_of m pgdir (PDX va'))) eqn:Hpr'; [|done].
    rewrite (load32_outside m _ (table_of (pde_of m pgdir (PDX va)))); [done|apply entry_out| | | |done].
    + by apply (pd_tab _ _ _ Hp).
    + by apply (pd_tab _ _ _ Hp).
    + intros Et. apply Ed. by apply (pd_inj _ _ _ Hp).
Qed.

Lemma entry_frame : pframe m l pgdir with_entry l.
Proof using Hp Hva Hpr Hv.
  split; [done| | |by left].
  2: { intros w [->|(d' & Hd' & Hpr' & Et)]; [by left|]. right. exists d'. by rewrite entry_pde by done. }
  intros w Hw Hl Htab. split.
  - intros a Ha. apply entry_out. destruct (pd_tab _ _ _ Hp _ (PDX_range va) Hpr) as (P1 & P2 & P3).
    eapply (page_disjoint w); [apply Hw|apply P1| |done]. intros ->. apply Htab. right. exists (PDX va). split; [apply PDX_range|done].
  - intros [->|(d' & Hd' & Hpr' & Et)]; [apply Htab; by left|]. rewrite entry_pde in Hpr', Et by done. apply Htab. right. by exists d'.
Qed.
End entry.

Lemma xlate_pte m pgdir va :
  present (pde_of m pgdir (PDX va)) = true ->
  xlate m pgdir va = (let p := load32 m (table_of (pde_of m pgdir (PDX va)) + 4 * PTX va) in
                      if present p then Some p else None).
Proof. intros H. unfold xlate. by rewrite H. Qed.

(** ** mappages *)

(** The entries [mappages] writes. *)
Definition pte_val (pa perm : Z) (k : Z) : Z := Z.lor (Z.lor (pa + 4096 * k) perm) PTE_P.

Record mapped (s : vst) (l : list Z) (pgdir va pa perm : Z) (k : Z) (s' : vst) (l' : list Z) : Prop := {
  mp_kmem : kmem_ok s' l';
  mp_lock : no_kmem s';
  mp_core : vcore s' = vcore s /\ use_lock s' = use_lock s;
  mp_pgd : pgd_ok (kmemory s') l' pgdir;
  mp_new : forall i, 0 <= i < k -> xlate (kmemory s') pgdir (va + 4096 * i) = Some (pte_val pa perm i);
  mp_old : forall va', 0 <= va' < 4294967296 -> ~ (va <= va' < va + 4096 * k) ->
     xlate (kmemory s') pgdir va' = xlate (kmemory s) pgdir va';
  mp_frame : pframe (kmemory s) l pgdir (kmemory s') l';
  mp_cons : vcons s' = vcons s }.

Lemma pte_val_ok pa perm k :
  0 <= pa -> pa mod 4096 = 0 -> 0 <= k -> pa + 4096 * k < 4294967296 -> 0 <= perm < 4096 ->
  0 <= pte_val pa perm k < 4294967296 /\ present (pte_val pa perm k) = true.
Proof.
  intros Hpa Hm Hk Hlt Hperm. unfold pte_val, PTE_P. rewrite <- Z.lor_assoc.
  assert (0 <= Z.lor perm 1 < 4096) as Hf.
  { split; [apply Z.lor_nonneg; lia|]. change 4096 with (2 ^ 12). apply Z.log2_lt_cancel.
    rewrite Z.log2_lor, Z.log2_pow2 by lia. change (Z.log2 1) with 0.
    assert (Z.log2 perm < 12); [|lia]. destruct (decide (perm = 0)) as [->|]; [done|]. apply Z.log2_lt_pow2; lia. }
  assert ((pa + 4096 * k) mod 4096 = 0) as Ha by (rewrite Z.mul_comm, Z_mod_plus_full; done).
  rewrite lor_flags by done.
  destruct (entry_fields (pa + 4096 * k) (Z.lor perm 1) ltac:(lia) Ha Hf) as (E1 & _ & _ & E4).
  split; [done|]. unfold present. rewrite E4. unfold PTE_P. rewrite Z.land_lor_distr_l.
  change (Z.land 1 1) with 1. apply negb_true_iff, Z.eqb_neq. intros E. apply Z.lor_eq_0_iff in E. lia.
Qed.

Section map.
Context (s : vst) (l : list Z) (pgdir va pa perm n : Z) (Hn : no_kmem s) (Hk : kmem_ok s l)
  (Hp : pgd_ok (kmemory s) l pgdir) (Hva : 0 <= va) (Hal : va mod 4096 = 0) (Hpos : 0 < n)
  (Hend : va + 4096 * n <= 4294967296) (Hpa : 0 <= pa) (Hpal : pa mod 4096 = 0)
  (Hpend : pa + 4096 * n <= 4294967296) (Hperm : 0 <= perm < 4096)
  (Hfree : forall i, 0 <= i < n -> xlate (kmemory s) pgdir (va + 4096 * i) = None).

Lemma mapped_step k s1 l1 s2 l2 pte :
  0 <= k < n -> mapped s l pgdir va pa perm k s1 l1 -> walked s1 l1 pgdir (va + 4096 * k) s2 l2 pte ->
  load32 (kmemory s2) pte = load32 (kmemory s2) pte /\ present (load32 (kmemory s2) pte) = false /\
  mapped s l pgdir va pa perm (k + 1) (set_kmemory (store32 (kmemory s2) pte (pte_val pa perm k)) s2) l2.
Proof.
  intros Hk1 [M1 M2 M3 M4 M5 M6 M7 M8] [W1 W2 W3 W4 W5 W6 W7 W8 W9 W10]. split; [done|].
  set (a := va + 4096 * k) in *. assert (0 <= a < 4294967296) as Ha by lia.
  destruct (pte_val_ok pa perm k) as [Hv Hvp]; [done|done|lia|lia|done|].
  assert (xlate (kmemory s2) pgdir a = None) as Hx.
  { rewrite W7, M6 by lia. apply Hfree. lia. }
  split.
  { rewrite xlate_pte, <- W6 in Hx by done. cbv zeta in Hx.
    destruct (present (load32 (kmemory s2) pte)); [discriminate Hx|reflexivity]. }
  assert (store32 (kmemory s2) pte (pte_val pa perm k) = with_entry (kmemory s2) pgdir a (pte_val pa perm k)) as Em
    by (unfold with_entry; by rewrite <- W6).
  destruct (pd_tab _ _ _ W4 _ (PDX_range a) W5) as (T1 & T2 & T3).
  rewrite Em. split.
  - apply kmem_ok_mem; [done|]. intros v b Hv' Hb. apply entry_out.
    eapply (page_disjoint v); [|apply T1|intros ->; by apply T2|done].
    apply list_elem_of_lookup in Hv' as [i Hi]. by eapply (Forall_lookup_1 _ _ _ _ (km_pages _ _ W1)).
  - exact W2.
  - destruct W3 as [W3 W3'], M3 as [M3 M3']. split; [exact (eq_trans W3 M3)|exact (eq_trans W3' M3')].
  - by apply (entry_pgd _ _ _ _ _ W4).
  - intros i Hi. cbn [kmemory set_kmemory]. rewrite (entry_xlate _ l2) by (done || lia).
    destruct (Z.eqb_spec ((va + 4096 * i) / 4096) (a / 4096)) as [E|E].
    + rewrite Hvp. f_equal. f_equal. unfold a in E. rewrite !(Z.mul_comm 4096), !Z_div_plus_full in E by lia. lia.
    + rewrite W7. apply M5. unfold a in E. destruct (decide (i = k)) as [->|]; [done|lia].
  - intros va' Hva' Hout. cbn [kmemory set_kmemory]. rewrite (entry_xlate _ l2) by (done || lia).
    destruct (Z.eqb_spec (va' / 4096) (a / 4096)) as [E|E].
    + exfalso. apply Hout. unfold a in E. pose proof (Z.div_mod va' 4096). pose proof (Z.mod_pos_bound va' 4096).
      pose proof (Z.div_mod va 4096). rewrite (Z.mul_comm 4096), Z_div_plus_full in E by lia. lia.
    + rewrite W7. apply M6; [done|lia].
  - eapply pframe_trans; [exact M7|]. eapply pframe_trans; [exact W9|]. apply (entry_frame _ _ _ _ _ W4); done.
  - cbn. by rewrite W10.
Qed.

Lemma wp_mappages (Q : Z -> vst -> Prop) :
  (forall s' l', mapped s l pgdir va pa perm n s' l' -> Q 0 s') ->
  (forall k s', 0 <= k < n -> mapped s l pgdir va pa perm k s' [] -> Q (-1) s') ->
  wp (mappages pgdir va (4096 * n) pa perm) Q s.
Proof.
  intros HQ0 HQ1. unfold mappages, PGROUNDDOWN. rewrite (u32_id (va + 4096 * n - 1)) by lia.
  rewrite !land_mask12 by lia. rewrite Hal, Z.sub_0_r.
  assert ((va + 4096 * n - 1) mod 4096 = 4095) as Em.
  { pose proof (Z.div_mod va 4096). replace (va + 4096 * n - 1) with (4095 + (va / 4096 + n - 1) * 4096) by lia.
    rewrite Z_mod_plus_full. done. }
  rewrite Em. replace (va + 4096 * n - 1 - 4095) with (va + 4096 * (n - 1)) by lia. set (last := va + 4096 * (n - 1)).
  assert (u32 (last - va) / PGSIZE = n - 1) as ->.
  { rewrite u32_id by (unfold last; lia). unfold last, PGSIZE.
    replace (va + 4096 * (n - 1) - va) with ((n - 1) * 4096) by lia. apply Z_div_mult. lia. }
  apply (wp_loop (fun p s1 => exists k l1, 0 <= k < n /\ p = (va + 4096 * k, pa + 4096 * k) /\
      mapped s l pgdir va pa perm k s1 l1) (fun p => Z.to_nat ((last - p.1) / 4096))).
  - intros [a p] s1 (k & l1 & Hk1 & [= -> ->] & Hm). unfold mappages_step. wp_simpl.
    apply (wp_walk_alloc s1 l1); [apply Hm|apply Hm|apply Hm| |].
    + intros -> _. wp_simpl. by eapply HQ1.
    + intros s2 l2 pte Hw. destruct (mapped_step k s1 l1 s2 l2 pte Hk1 Hm Hw) as (_ & Hnp & Hm').
      unfold rd32, wr32, upd_mem. wp_simpl. unfold present in Hnp. rewrite Hnp. cbn [negb]. wp_simpl.
      fold (pte_val pa perm k).
      destruct (Z.eqb_spec (va + 4096 * k) last) as [E|E].
      * wp_simpl. assert (k + 1 = n) as En by (unfold last in E; lia). rewrite En in Hm'. by eapply HQ0.
      * wp_simpl. assert (k + 1 < n) by (unfold last in E; lia). unfold PGSIZE. split.
        -- exists (k + 1), l2. split_and!; [lia|lia| |exact Hm']. rewrite !u32_id by lia. f_equal; lia.
        -- cbn [fst]. rewrite u32_id by lia. unfold last.
           replace (va + 4096 * (n - 1) - (va + 4096 * k + 4096)) with ((n - 1 - k - 1) * 4096) by lia.
           replace (va + 4096 * (n - 1) - (va + 4096 * k)) with ((n - 1 - k) * 4096) by lia.
           rewrite !Z_div_mult by lia. lia.
  - exists 0, l. split_and!; [lia|lia|f_equal; lia|]. split; try done; [lia|apply pframe_refl].
  - cbn [fst]. unfold last. replace (va + 4096 * (n - 1) - va) with ((n - 1) * 4096) by lia. rewrite Z_div_mult by lia. lia.
Qed.
End map.
End tables.

(** [mappages] of [n] unmapped pages at page-aligned addresses either
    returns 0, and then exactly those pages are translated to the consecutive
    physical pages with the given permissions, or runs out of memory for page
    tables and returns -1; every other address translates as before, the
    directory and its tables stay distinct pages in use, and the free list
    stays well formed. *)
Theorem mappages_maps `{KSyms} s l pgdir va pa perm n :
  no_kmem s -> kmem_ok s l -> pgd_ok (kmemory s) l pgdir ->
  0 <= va -> va mod 4096 = 0 -> 0 < n -> va + 4096 * n <= 4294967296 ->
  0 <= pa -> pa mod 4096 = 0 -> pa + 4096 * n <= 4294967296 -> 0 <= perm < 4096 ->
  (forall i, 0 <= i < n -> xlate (kmemory s) pgdir (va + 4096 * i) = None) ->
  exists r s' l' k, mappages pgdir va (4096 * n) pa perm s = Ok r s' /\
    (r = 0 /\ k = n \/ r = -1 /\ 0 <= k < n /\ l' = []) /\
    kmem_ok s' l' /\ pgd_ok (kmemory s') l' pgdir /\
    (forall i, 0 <= i < k -> xlate (kmemory s') pgdir (va + 4096 * i) = Some (pte_val pa perm i)) /\
    (forall va', 0 <= va' < 4294967296 -> ~ (va <= va' < va + 4096 * k) ->
       xlate (kmemory s') pgdir va' = xlate (kmemory s) pgdir va').
Proof.
  intros Hn Hk Hp H1 H2 H3 H4 H5 H6 H7 H8 H9.
  assert (wp (mappages pgdir va (4096 * n) pa perm) (fun r s' => exists l' k,
    (r = 0 /\ k = n \/ r = -1 /\ 0 <= k < n /\ l' = []) /\ mapped s l pgdir va pa perm k s' l') s)
    as (r & s' & E & l' & k & Hr & M)%wp_inv.
  { apply (wp_mappages s l); [done..| |].
    - intros s' l' M. exists l', n. split; [by left|done].
    - intros k s' Hk' M. exists [], k. split; [by right|done]. }
  exists r, s', l', k. destruct M as [M1 M2 M3 M4 M5 M6 _ _]. split_and!; done.
Qed.

(** ** A witness: two pages mapped in an empty directory *)

#[local] Existing Instance demo_syms.

(** The page after the two free ones, all zero. *)
Definition demo_pgdir : Z := 2149588992.

Lemma demo_pde d : 0 <= d < 1024 -> pde_of (kmemory demo_pages) demo_pgdir d = 0.
Proof.
  intros Hd. unfold pde_of. cbn [kmemory demo_pages]. unfold demo_pgdir.
  rewrite !load32_store32_ne by lia. done.
Qed.
Lemma demo_pgd_ok : pgd_ok (kmemory demo_pages) [2149580800; 2149584896] demo_pgdir.
Proof.
  split.
  - unfold demo_pgdir. repeat split; unfold PGSIZE, KERNBASE, PHYSTOP; cbn; (done || lia).
  - unfold demo_pgdir. rewrite !not_elem_of_cons. repeat split; [lia|lia|apply not_elem_of_nil].
  - intros d Hd. by rewrite demo_pde.
  - intros d d' Hd _. by rewrite demo_pde.
Qed.

Lemma mappages_maps_witness :
  exists r s' l' k, mappages demo_pgdir 8192 (4096 * 2) 4194304 6 demo_pages = Ok r s' /\
    (r = 0 /\ k = 2 \/ r = -1 /\ 0 <= k < 2 /\ l' = []) /\
    kmem_ok s' l' /\ pgd_ok (kmemory s') l' demo_pgdir /\
    (forall i, 0 <= i < k -> xlate (kmemory s') demo_pgdir (8192 + 4096 * i) = Some (pte_val 4194304 6 i)) /\
    (forall va', 0 <= va' < 4294967296 -> ~ (8192 <= va' < 8192 + 4096 * k) ->
       xlate (kmemory s') demo_pgdir va' = xlate (kmemory demo_pages) demo_pgdir va').
Proof.
  apply (mappages_maps demo_pages [2149580800; 2149584896] demo_pgdir 8192 4194304 6 2);
    [apply not_elem_of_nil|apply demo_pages_ok|apply demo_pgd_ok|done..|lia|].
  intros i Hi. unfold xlate. rewrite demo_pde; [done|]. apply PDX_range.
Defined.
