(* ===== verification/VmSpace.v ===== *)
(** * Address spaces: [deallocuvm] and [allocuvm]

    An address space is a page directory whose user pages, page tables and
    directory page are all distinct and in use.  The routines that grow and
    shrink it keep this, give pages back to the free list when they unmap
    them, and never touch a page of anybody else. *)

From S2P Require Import Prelude Bytes Core StringLib Cons Vm VmAlloc VmTables.

Section space.
Context `{KS : KSyms}.

(** ** Memory that agrees on the pages of a directory *)

Lemma tab_ext m m' pgdir :
  (forall w a, tabpage m pgdir w -> in_page w a -> m' a = m a) ->
  (forall d, 0 <= d < 1024 -> pde_of m' pgdir d = pde_of m pgdir d) /\
  (forall va, xlate m' pgdir va = xlate m pgdir va) /\
  (forall w, tabpage m' pgdir w <-> tabpage m pgdir w).
Proof.
  intros Hw. assert (forall d, 0 <= d < 1024 -> pde_of m' pgdir d = pde_of m pgdir d) as Hp.
  { intros d Hd. apply load32_ext. intros b Hb. apply (Hw pgdir); [by left|]. by eapply word_in_page. }
  split_and!; [done| |].
  - intros va. unfold xlate. rewrite Hp by apply PDX_range.
    destruct (present (pde_of m pgdir (PDX va))) eqn:E; [|done].
    rewrite (load32_ext m m'); [done|]. intros b Hb. apply (Hw (table_of (pde_of m pgdir (PDX va)))).
    + right. exists (PDX va). split; [apply PDX_range|done].
    + eapply word_in_page; [apply PTX_range|done].
  - intros w. unfold tabpage. split; (intros [->|(d & Hd & Hpr & Et)]; [by left|]); right; exists d;
      rewrite Hp in * by done; done.
Qed.

Lemma pgd_ext m m' l pgdir :
  (forall w a, tabpage m pgdir w -> in_page w a -> m' a = m a) -> pgd_ok m l pgdir -> pgd_ok m' l pgdir.
Proof.
  intros Hw [P1 P2 P3 P4]. destruct (tab_ext m m' pgdir Hw) as (E1 & _ & _). split; [done|done| |].
  - intros d Hd. rewrite E1 by done. by apply P3.
  - intros d d' Hd Hd'. rewrite !E1 by done. by apply P4.
Qed.

Lemma pgd_free m l l' pgdir : pgd_ok m l pgdir -> (forall w, w ∈ l' -> w ∈ l \/ ~ tabpage m pgdir w) -> pgd_ok m l' pgdir.
Proof.
  intros [P1 P2 P3 P4] Hl. split; [done| | |done].
  - intros Hin. destruct (Hl _ Hin) as [|Ht]; [done|]. apply Ht. by left.
  - intros d Hd Hpr. destruct (P3 d Hd Hpr) as (? & ? & ?). split_and!; [done| |done].
    intros Hin. destruct (Hl _ Hin) as [|Ht]; [done|]. apply Ht. right. by exists d.
Qed.

(** Translation depends on the page number only. *)
Lemma xlate_page m pgdir va va' :
  0 <= va < 4294967296 -> 0 <= va' < 4294967296 -> va / 4096 = va' / 4096 -> xlate m pgdir va = xlate m pgdir va'.
Proof.
  intros H1 H2 E. unfold xlate. assert (PDX va = PDX va') as ->.
  { rewrite !PDX_eq by done. change 4194304 with (4096 * 1024). rewrite <- !Z.div_div by lia. by rewrite E. }
  by rewrite !PTX_eq, E.
Qed.

(** ** User address spaces *)

Record uspace (m : mem) (l : list Z) (pgdir : Z) : Prop := {
  us_pgd : pgd_ok m l pgdir;
  us_page : forall va e, 0 <= va < KERNBASE -> xlate m pgdir va = Some e ->
     page_ok (table_of e) /\ table_of e ∉ l /\ ~ tabpage m pgdir (table_of e);
  us_inj : forall va va' e e', 0 <= va < KERNBASE -> 0 <= va' < KERNBASE ->
     xlate m pgdir va = Some e -> xlate m pgdir va' = Some e' -> table_of e = table_of e' -> va / 4096 = va' / 4096 }.

(** ** Freeing the page of one entry *)

Lemma xlate_present m pgdir va e : xlate m pgdir va = Some e ->
  present (pde_of m pgdir (PDX va)) = true /\ load32 m (table_of (pde_of m pgdir (PDX va)) + 4 * PTX va) = e /\ present e = true.
Proof.
  unfold xlate. destruct (present (pde_of m pgdir (PDX va))); [|done]. cbv zeta.
  destruct (present (load32 m _)) eqn:E; [|done]. intros [= <-]. done.
Qed.

Section one.
Context (m : mem) (l : list Z) (pgdir va e fl : Z) (Hu : uspace m l pgdir) (Hva : 0 <= va < KERNBASE)
  (Hx : xlate m pgdir va = Some e).
Let w := table_of e.
Let m1 := freed_mem m w fl.
Let m2 := store32 m1 (table_of (pde_of m pgdir (PDX va)) + 4 * PTX va) 0.

Lemma free_tab v a : tabpage m pgdir v -> in_page v a -> m1 a = m a.
Proof.
  intros Hv Ha. destruct (us_page _ _ _ Hu va e Hva Hx) as (W1 & W2 & W3). apply freed_mem_out.
  destruct (tabpage_ok _ _ _ _ (us_pgd _ _ _ Hu) Hv) as [V1 V2].
  eapply (page_disjoint v w); [apply V1|apply W1| |done]. intros E. apply W3. fold w. by rewrite <- E.
Qed.

Lemma free_one_eq : m2 = with_entry m1 pgdir va 0.
Proof. unfold m2, with_entry. destruct (tab_ext m m1 pgdir free_tab) as (E & _ & _). by rewrite E by apply PDX_range. Qed.

Lemma free_one :
  uspace m2 (w :: l) pgdir /\ page_ok w /\ w ∉ l /\
  (forall va', 0 <= va' < 4294967296 -> xlate m2 pgdir va' = if va' / 4096 =? va / 4096 then None else xlate m pgdir va') /\
  (forall v, tabpage m2 pgdir v <-> tabpage m pgdir v) /\
  (forall v a, page_ok v -> v <> w -> ~ tabpage m pgdir v -> in_page v a -> m2 a = m a) /\
  (forall v a, page_ok v -> v ∈ w :: l -> in_page v a -> m2 a = m1 a).
Proof.
  destruct (us_page _ _ _ Hu va e Hva Hx) as (W1 & W2 & W3). fold w in W1, W2, W3.
  destruct (tab_ext m m1 pgdir free_tab) as (E1 & E2 & E3). pose proof (us_pgd _ _ _ Hu) as Hp.
  assert (pgd_ok m1 (w :: l) pgdir) as Hp1.
  { apply (pgd_free _ l); [by eapply pgd_ext; [apply free_tab|]|]. intros v [->|?]%elem_of_cons; [right; by rewrite E3|by left]. }
  destruct (xlate_present _ _ _ _ Hx) as (Hpr & _ & _). assert (0 <= va < 4294967296) as Hva' by (unfold KERNBASE in Hva; lia).
  assert (present (pde_of m1 pgdir (PDX va)) = true) as Hpr1 by (rewrite E1 by apply PDX_range; done).
  pose proof (entry_xlate m1 (w :: l) pgdir va 0 Hp1 Hva' Hpr1 ltac:(lia)) as Hxl. cbn in Hxl.
  assert (forall v, tabpage m2 pgdir v <-> tabpage m pgdir v) as Ht.
  { intros v. rewrite <- E3, free_one_eq. pose proof (entry_pde m1 (w :: l) pgdir va 0 Hp1 Hpr1) as Ep. unfold tabpage.
    split; (intros [->|(d & Hd & Hpr' & Et)]; [by left|]); right; exists d; rewrite Ep in * by done; done. }
  assert (forall va', 0 <= va' < 4294967296 -> xlate m2 pgdir va' = if va' / 4096 =? va / 4096 then None else xlate m pgdir va') as Hx2.
  { intros va' Hv'. rewrite free_one_eq, Hxl by done. change (present 0) with false. cbn iota. by rewrite E2. }
  assert (forall v a, page_ok v -> ~ tabpage m pgdir v -> in_page v a -> m2 a = m1 a) as Hout.
  { intros v a Hv Hnt Ha. rewrite free_one_eq. apply entry_out. destruct (pd_tab _ _ _ Hp1 _ (PDX_range va) Hpr1) as (P1 & P2 & P3).
    eapply (page_disjoint v); [apply Hv|apply P1| |done]. intros ->. apply Hnt. rewrite <- E3. right. exists (PDX va). split; [apply PDX_range|done]. }
  split_and!; [|done|done|done|done| |].
  - split.
    + rewrite free_one_eq. by apply entry_pgd.
    + intros va' e' Hv' Hx'. rewrite Hx2 in Hx' by (unfold KERNBASE in *; lia). destruct (Z.eqb_spec (va' / 4096) (va / 4096)); [done|].
      destruct (us_page _ _ _ Hu va' e' Hv' Hx') as (U1 & U2 & U3). split_and!; [done| |by rewrite Ht].
      apply not_elem_of_cons. split; [|done]. intros E. apply n. by apply (us_inj _ _ _ Hu va' va e' e).
    + intros va1 va2 e1 e2 H1 H2. rewrite !Hx2 by (unfold KERNBASE in *; lia).
      destruct (va1 / 4096 =? va / 4096); [done|]. destruct (va2 / 4096 =? va / 4096); [done|]. by apply (us_inj _ _ _ Hu).
  - intros v a Hv Hne Hnt Ha. rewrite (Hout v) by done. apply freed_mem_out. eapply (page_disjoint v w); [apply Hv|apply W1|done|done].
  - intros v a Hv Hin Ha. apply (Hout v); [done| |done]. intros Htab.
    destruct (tabpage_ok _ _ _ _ Hp Htab) as [_ Hnl]. apply elem_of_cons in Hin as [->|]; done.
Qed.
End one.

(** ** deallocuvm *)

(** The pages from [lo] up to [a] have been unmapped and freed. *)
Record freed (s0 : vst) (l0 : list Z) (pgdir lo a : Z) (s : vst) (l : list Z) : Prop := {
  fr_kmem : kmem_ok s l;
  fr_lock : no_kmem s;
  fr_core : vcore s = vcore s0 /\ use_lock s = use_lock s0 /\ vcons s = vcons s0;
  fr_space : uspace (kmemory s) l pgdir;
  fr_xlate : forall va, 0 <= va < 4294967296 ->
     xlate (kmemory s) pgdir va = if (lo <=? va) && (va <? a) then None else xlate (kmemory s0) pgdir va;
  fr_tab : forall v, tabpage (kmemory s) pgdir v <-> tabpage (kmemory s0) pgdir v;
  fr_list : forall v, v ∈ l <-> v ∈ l0 \/ exists va e, lo <= va < a /\ xlate (kmemory s0) pgdir va = Some e /\ v = table_of e;
  fr_same : forall v b, page_ok v -> v ∉ l -> ~ tabpage (kmemory s0) pgdir v -> in_page v b -> kmemory s b = kmemory s0 b }.

Section dealloc.
Context (s0 : vst) (l0 : list Z) (pgdir lo oldsz : Z).
Context (Hlo : 0 <= lo) (Hal : lo mod 4096 = 0) (Hold : 0 <= oldsz <= KERNBASE).

(** Nothing is mapped in between. *)
Lemma freed_skip a a' s l : lo <= a -> lo <= a' ->
  (forall va, a <= va < a' \/ a' <= va < a -> xlate (kmemory s0) pgdir va = None) ->
  freed s0 l0 pgdir lo a s l -> freed s0 l0 pgdir lo a' s l.
Proof.
  intros Ha Ha' Hn [F1 F2 F3 F4 F5 F6 F7 F8]. split; try done.
  - intros va Hva. rewrite F5 by done. destruct (Z.leb_spec lo va), (Z.ltb_spec va a), (Z.ltb_spec va a'); cbn [andb]; try done;
      [symmetry|]; apply Hn; lia.
  - intros v. rewrite F7. split; (intros [Hv|(va & e & H1 & H2 & H3)]; [by left|]); right; exists va, e; split_and!; try done; try lia;
      match goal with |- _ < ?b => destruct (Z.lt_ge_cases va b); [lia|rewrite Hn in H2 by lia; done] end.
Qed.

Lemma freed_page a s l e : 0 <= a -> lo <= a -> a mod 4096 = 0 -> a < KERNBASE ->
  freed s0 l0 pgdir lo a s l -> xlate (kmemory s) pgdir a = Some e ->
  forall (Q : unit -> vst -> Prop),
  (forall s' l', freed s0 l0 pgdir lo (a + 4096) s' l' -> Q tt s') ->
  wp (kfree (table_of e) ;; wr32 (table_of (pde_of (kmemory s) pgdir (PDX a)) + 4 * PTX a) 0) Q s.
Proof.
  intros Ha Hla Hma Hk [F1 F2 F3 F4 F5 F6 F7 F8] Hx Q HQ.
  destruct (free_one _ _ _ a e (freelist s) F4 ltac:(lia) Hx) as (G1 & G2 & G3 & G4 & G5 & G6 & G7).
  rewrite wp_bind. apply (wp_kfree s l); [done|done|done|done|]. intros s1 -> Hk1. unfold wr32, upd_mem. rewrite wp_modify.
  set (m2 := store32 (freed_mem (kmemory s) (table_of e) (freelist s)) (table_of (pde_of (kmemory s) pgdir (PDX a)) + 4 * PTX a) 0) in *.
  change (Q tt (set_kmemory m2 (set_freelist (table_of e) s))).
  assert (xlate (kmemory s0) pgdir a = Some e) as Hx0.
  { rewrite F5 in Hx by (unfold KERNBASE in *; lia). destruct (Z.leb_spec lo a), (Z.ltb_spec a a); cbn [andb] in Hx; (done || lia). }
  assert (forall va, (va / 4096 =? a / 4096) = (a <=? va) && (va <? a + 4096)) as Hpg.
  { intros va. pose proof (Z.div_mod va 4096). pose proof (Z.mod_pos_bound va 4096). pose proof (Z.div_mod a 4096).
    destruct (Z.eqb_spec (va / 4096) (a / 4096)), (Z.leb_spec a va), (Z.ltb_spec va (a + 4096)); cbn [andb]; try done; lia. }
  apply (HQ _ (table_of e :: l)). split.
  - apply (kmem_ok_mem (set_freelist (table_of e) (set_kmemory (freed_mem (kmemory s) (table_of e) (freelist s)) s)) (table_of e :: l) m2); [done|].
    intros v b Hv Hb. cbn [kmemory set_freelist set_kmemory]. apply (G7 v b); [|done|done].
    apply list_elem_of_lookup in Hv as [i Hi]. by eapply (Forall_lookup_1 _ _ _ _ (km_pages _ _ Hk1)).
  - done.
  - done.
  - done.
  - intros va Hva. cbn [kmemory set_kmemory]. rewrite G4, Hpg, F5 by done.
    destruct (Z.leb_spec a va), (Z.ltb_spec va (a + 4096)), (Z.leb_spec lo va), (Z.ltb_spec va a); cbn [andb]; (done || lia).
  - intros v. cbn [kmemory set_kmemory]. by rewrite G5, F6.
  - intros v. rewrite elem_of_cons, F7. split.
    + intros [->|[Hv|(va & e' & H1 & H2 & H3)]]; [right; exists a, e; split_and!; [lia|lia|done|done]|by left|].
      right. exists va, e'. split_and!; [lia|lia|done|done].
    + intros [Hv|(va & e' & H1 & H2 & ->)]; [right; by left|]. destruct (Z.lt_ge_cases va a) as [Hlt|Hge].
      * right. right. exists va, e'. split_and!; [lia|lia|done|done].
      * left. specialize (Hpg va). destruct (Z.leb_spec a va), (Z.ltb_spec va (a + 4096)); try lia. cbn in Hpg. apply Z.eqb_eq in Hpg.
        rewrite (xlate_page _ _ va a) in H2; [congruence|unfold KERNBASE in *; lia..|done].
  - intros v b Hv Hnl Hnt Hb. cbn [kmemory set_kmemory]. apply not_elem_of_cons in Hnl as [N1 N2].
    rewrite (G6 v b Hv N1) by (by rewrite ?F6). by apply (F8 v).
Qed.

(** The address space the loop starts with. *)
Lemma freed_refl s l : kmem_ok s l -> no_kmem s -> uspace (kmemory s) l pgdir -> freed s l pgdir lo lo s l.
Proof.
  intros Hk Hn Hu. split; try done.
  - intros va _. destruct (Z.leb_spec lo va), (Z.ltb_spec va lo); cbn [andb]; (done || lia).
  - intros v. split; [by left|]. intros [?|(va & e & H1 & _)]; [done|lia].
Qed.

Lemma wp_walk_peek s va (Q : option Z -> vst -> Prop) :
  Q (if present (pde_of (kmemory s) pgdir (PDX va))
     then Some (table_of (pde_of (kmemory s) pgdir (PDX va)) + 4 * PTX va) else None) s -> wp (walkpgdir pgdir va false) Q s.
Proof.
  intros HQ. unfold walkpgdir, rd32. cbv zeta. wp_simpl. fold (pde_of (kmemory s) pgdir (PDX va)).
  unfold present in HQ. destruct (negb (Z.land (pde_of (kmemory s) pgdir (PDX va)) PTE_P =? 0)); by wp_simpl.
Qed.

Lemma next_table a : 0 <= a < KERNBASE ->
  u32 (u32 (PGADDR (PDX a + 1) 0 0 - PGSIZE) + PGSIZE) = 4194304 * (a / 4194304 + 1).
Proof.
  intros Ha. unfold KERNBASE in Ha. assert (0 <= a / 4194304 < 512) as Hq.
  { split; [apply Z.div_pos; lia|apply Z.div_lt_upper_bound; lia]. }
  unfold PGADDR. rewrite PDX_eq by lia. rewrite !Z.lor_0_r, Z.shiftl_mul_pow2 by lia. change (2 ^ 22) with 4194304.
  rewrite u32_add_l. replace (u32 ((a / 4194304 + 1) * 4194304) - PGSIZE + PGSIZE) with (u32 ((a / 4194304 + 1) * 4194304)) by lia.
  rewrite u32_u32, u32_id by lia. lia.
Qed.

Lemma pde_gap m a va : 0 <= a < KERNBASE -> present (pde_of m pgdir (PDX a)) = false ->
  a <= va < 4194304 * (a / 4194304 + 1) -> xlate m pgdir va = None.
Proof.
  intros Ha Hpr Hva. unfold KERNBASE in Ha. unfold xlate. assert (0 <= a / 4194304 < 512) as Hq.
  { split; [apply Z.div_pos; lia|apply Z.div_lt_upper_bound; lia]. }
  assert (PDX va = PDX a) as ->; [|by rewrite Hpr]. rewrite !PDX_eq by lia.
  pose proof (Z.div_mod a 4194304). pose proof (Z.mod_pos_bound a 4194304).
  symmetry. apply Z.div_unique with (va - 4194304 * (a / 4194304)); lia.
Qed.

Lemma wp_dealloc_loop hi (Q : unit -> vst -> Prop) :
  kmem_ok s0 l0 -> no_kmem s0 -> uspace (kmemory s0) l0 pgdir -> lo <= hi -> hi mod 4096 = 0 -> oldsz <= hi < oldsz + 4096 -> hi <= KERNBASE ->
  (forall s' l', freed s0 l0 pgdir lo hi s' l' -> Q tt s') ->
  wp (loop (Z.to_nat (oldsz / PGSIZE) + 2) (deallocuvm_step pgdir oldsz) lo) Q s0.
Proof using Hlo Hal Hold.
  intros Hk Hn Hu Hlh Hmh Hhi Hhk HQ. assert (0 <= oldsz / PGSIZE) as Hos.
  { apply Z.div_pos; unfold PGSIZE; lia. }
  apply (wp_loop (fun a s => lo <= a /\ a mod 4096 = 0 /\ exists l, freed s0 l0 pgdir lo a s l /\
      (a <= hi \/ forall va, hi <= va < a -> xlate (kmemory s0) pgdir va = None))
    (fun a => if a <? oldsz then S (Z.to_nat ((oldsz - a) / 4096)) else 0%nat)).
  - intros a s (Ha & Hma & l & Hf & Hgap). unfold deallocuvm_step.
    pose proof (Z.div_mod a 4096) as Hdm. pose proof (Z.div_mod hi 4096) as Hdh. destruct (Z.ltb_spec a oldsz) as [Hlt|Hge].
    2: { wp_simpl. apply (HQ s l). apply (freed_skip a hi); [done|done| |done]. intros va [?|Hva].
         - lia.
         - destruct Hgap as [|Hg]; [lia|]. by apply Hg. }
    assert (a < KERNBASE) as Hak by lia.
    assert (forall a', a + 4096 <= a' -> Nat.lt (if a' <? oldsz then S (Z.to_nat ((oldsz - a') / 4096)) else 0%nat) (S (Z.to_nat ((oldsz - a) / 4096)))) as Hmu.
    { intros a' Ha'. destruct (Z.ltb_spec a' oldsz); [|lia]. assert ((oldsz - a') / 4096 < (oldsz - a) / 4096); [|].
      - assert ((oldsz - a') / 4096 + 1 <= (oldsz - a) / 4096); [|lia].
        rewrite <- (Z_div_plus_full _ 1) by lia. apply Z.div_le_mono; lia.
      - assert (0 <= (oldsz - a') / 4096) by (apply Z.div_pos; lia). lia. }
    wp_simpl. apply wp_walk_peek. pose proof Hf as [F1 F2 F3 F4 F5 F6 F7 F8].
    assert (xlate (kmemory s) pgdir a = xlate (kmemory s0) pgdir a) as Exa.
    { rewrite F5 by (unfold KERNBASE in *; lia). destruct (Z.leb_spec lo a), (Z.ltb_spec a a); cbn [andb]; (done || lia). }
    destruct (present (pde_of (kmemory s) pgdir (PDX a))) eqn:Hpr.
    + unfold rd32. wp_simpl. pose proof (xlate_pte (kmemory s) pgdir a Hpr) as Hx. cbv zeta in Hx.
      set (e := load32 (kmemory s) _) in *. unfold present in Hx at 1. unfold PGSIZE. rewrite u32_id by (unfold KERNBASE in *; lia).
      destruct (negb (Z.land e PTE_P =? 0)) eqn:Epe.
      * destruct (us_page _ _ _ F4 a e ltac:(lia) Hx) as (W1 & _ & _).
        destruct (Z.eqb_spec (PTE_ADDR e) 0) as [E0|E0].
        { exfalso. pose proof (pg_base _ W1) as Hb. unfold table_of in Hb. rewrite E0 in Hb. vm_compute in Hb. done. }
        fold (table_of e). apply (freed_page a s l e); [lia|done|done|done|done|done|]. intros s' l' Hf'. wp_simpl. split; [|apply Hmu; lia].
        split_and!; [lia|by rewrite <- Zplus_mod_idemp_r, Z_mod_same_full, Z.add_0_r|]. exists l'. split; [done|]. left. lia.
      * wp_simpl. split; [|apply Hmu; lia]. split_and!; [lia|by rewrite <- Zplus_mod_idemp_r, Z_mod_same_full, Z.add_0_r|].
        exists l. split; [|left; lia]. apply (freed_skip a); [done|lia| |done]. intros va [Hva|?]; [|lia].
        rewrite (xlate_page _ _ va a); [congruence|unfold KERNBASE in *; lia..|]. symmetry. apply Z.div_unique with (va - a); [lia|].
        rewrite Hdm, Hma, Z.add_0_r by lia. rewrite (Z.mul_comm 4096 (a / 4096)), Z.div_mul by lia. lia.
    + wp_simpl. rewrite next_table by lia. pose proof (Z.div_mod a 4194304). pose proof (Z.mod_pos_bound a 4194304).
      assert (forall va, a <= va < 4194304 * (a / 4194304 + 1) -> xlate (kmemory s0) pgdir va = None) as Hg'.
      { intros va Hva. assert (xlate (kmemory s) pgdir va = None) as Hx0 by (eapply pde_gap; [|exact Hpr|done]; lia).
        rewrite F5 in Hx0; [|unfold KERNBASE in *; assert (a / 4194304 < 512) by (apply Z.div_lt_upper_bound; lia); lia].
          destruct (Z.leb_spec lo va), (Z.ltb_spec va a); cbn [andb] in Hx0; (done || lia). }
      split; [split_and!|].
      * lia.
      * replace (4194304 * (a / 4194304 + 1)) with ((1024 * (a / 4194304 + 1)) * 4096) by lia. apply Z_mod_mult.
      * exists l. split; [apply (freed_skip a); [done|lia| |done]; intros va [?|?]; [by apply Hg'|lia]|].
        right. intros va Hva. apply Hg'. lia.
      * apply Hmu. replace a with (4096 * (a / 4096)) at 1 by lia.
        assert (a / 4096 < 1024 * (a / 4194304 + 1)); [|lia]. lia.
  - split_and!; [lia|done|]. exists l0. split; [by apply freed_refl|by left].
  - destruct (Z.ltb_spec lo oldsz); [|lia]. assert ((oldsz - lo) / 4096 <= oldsz / PGSIZE) by (apply Z.div_le_mono; unfold PGSIZE; lia). lia.
Qed.
End dealloc.

Lemma PGROUNDUP_spec x : 0 <= x <= KERNBASE ->
  PGROUNDUP x mod 4096 = 0 /\ x <= PGROUNDUP x < x + 4096 /\ PGROUNDUP x <= KERNBASE.
Proof.
  intros Hx. unfold KERNBASE in *. unfold PGROUNDUP, PGSIZE. rewrite u32_id, land_mask12 by lia.
  pose proof (Z.div_mod (x + 4096 - 1) 4096). pose proof (Z.mod_pos_bound (x + 4096 - 1) 4096).
  split_and!; try lia. apply Z.mod_divide; [lia|]. exists ((x + 4096 - 1) / 4096). lia.
Qed.

Lemma PGROUNDUP_mono x y : 0 <= x -> x <= y -> y <= KERNBASE -> PGROUNDUP x <= PGROUNDUP y.
Proof.
  intros H1 H2 H3. destruct (PGROUNDUP_spec x) as (A1 & A2 & A3); [lia|]. destruct (PGROUNDUP_spec y) as (B1 & B2 & B3); [lia|].
  pose proof (Z.div_mod (PGROUNDUP x) 4096). pose proof (Z.div_mod (PGROUNDUP y) 4096). lia.
Qed.

Lemma wp_deallocuvm s l pgdir oldsz newsz (Q : Z -> vst -> Prop) :
  kmem_ok s l -> no_kmem s -> uspace (kmemory s) l pgdir -> 0 <= newsz < oldsz -> oldsz <= KERNBASE ->
  (forall s' l', freed s l pgdir (PGROUNDUP newsz) (PGROUNDUP oldsz) s' l' -> Q newsz s') ->
  wp (deallocuvm pgdir oldsz newsz) Q s.
Proof.
  intros Hk Hn Hu Hsz Ho HQ. unfold deallocuvm. destruct (Z.leb_spec oldsz newsz); [lia|]. rewrite wp_bind.
  destruct (PGROUNDUP_spec newsz) as (A1 & A2 & A3); [lia|]. destruct (PGROUNDUP_spec oldsz) as (B1 & B2 & B3); [lia|].
  apply (wp_dealloc_loop s l pgdir (PGROUNDUP newsz) oldsz ltac:(lia) A1 ltac:(lia) (PGROUNDUP oldsz)); try done.
  apply PGROUNDUP_mono; lia.
Qed.

(** ** Messages on the console *)

Definition can_print (s : vst) : Prop := screen_ok (vcons s) /\ LkCons ∉ held (vcore s).

Lemma wp_cprintf_plain fmt s (Q : unit -> vst -> Prop) :
  Forall (fun c => c <> 37) fmt -> can_print s ->
  (forall c, screen_ok c -> same_input (vcons s) c -> Q tt (set_vcons c s)) -> wp (cprintf (Some fmt) []) Q s.
Proof.
  intros Hf [Hs Hl] HQ. unfold cprintf. wp_simpl. cbn [lget v_cons].
  assert (forall (P : unit -> consst -> Prop) c, screen_ok c -> same_input (vcons s) c ->
    (forall c', screen_ok c' -> same_input (vcons s) c' -> P tt c') -> wp (cprintf_loop fmt []) P c) as Hloop.
  { intros P. induction Hf as [|c fmt Hc Hf IH]; intros c0 H1 H2 H3; cbn [cprintf_loop]; [wp_simpl; by apply H3|].
    rewrite (proj2 (Z.eqb_neq _ _) Hc). cbn [negb]. wp_simpl. apply wp_consputc; [done|]. intros c1 O1 S1.
    apply IH; [done|by etrans|done]. }
  destruct (cs_locking (vcons s) =? 0); cbn [negb]; wp_simpl; cbn [lget v_core lset v_cons].
  - apply Hloop; [done|done|]. intros c' O1 S1. wp_simpl. by apply HQ.
  - apply wp_acquire; [done|]. wp_simpl. cbn. apply Hloop; [done|done|]. intros c' O1 S1. wp_simpl.
    apply wp_release; [cbn; left|]. cbn. rewrite decide_True by done. specialize (HQ c' O1 S1). by destruct s as [[] ? ? ? ?].
Qed.

(** ** allocuvm *)

(** The pages from [lo] up to [a] have been mapped to fresh pages. *)
Record grown (s0 : vst) (l0 : list Z) (pgdir lo a : Z) (s : vst) (l : list Z) : Prop := {
  gw_kmem : kmem_ok s l;
  gw_lock : no_kmem s;
  gw_core : vcore s = vcore s0 /\ use_lock s = use_lock s0 /\ vcons s = vcons s0;
  gw_space : uspace (kmemory s) l pgdir;
  gw_suf : l `suffix_of` l0;
  gw_same : forall w, page_ok w -> w ∉ l0 -> ~ tabpage (kmemory s0) pgdir w ->
     (forall b, in_page w b -> kmemory s b = kmemory s0 b) /\ ~ tabpage (kmemory s) pgdir w;
  gw_tab : forall w, tabpage (kmemory s0) pgdir w -> tabpage (kmemory s) pgdir w;
  gw_new : forall va, lo <= va < a -> exists e, xlate (kmemory s) pgdir va = Some e /\ table_of e ∈ l0 /\ PTE_FLAGS e = 7 /\
     forall b, in_page (table_of e) b -> kmemory s b = 0;
  gw_old : forall va, 0 <= va < 4294967296 -> ~ (lo <= va < a) -> xlate (kmemory s) pgdir va = xlate (kmemory s0) pgdir va;
  gw_taken : forall w, w ∈ l0 -> w ∈ l \/ tabpage (kmemory s) pgdir w \/
     exists va e, lo <= va < a /\ xlate (kmemory s) pgdir va = Some e /\ table_of e = w }.

(** A page taken from the free list is filled; nobody else sees it. *)
Lemma uspace_take m m' v l pgdir :
  uspace m (v :: l) pgdir -> page_ok v -> (forall b, ~ in_page v b -> m' b = m b) ->
  uspace m' l pgdir /\ ~ tabpage m' pgdir v /\ (forall va, xlate m' pgdir va = xlate m pgdir va) /\
  (forall w, tabpage m' pgdir w <-> tabpage m pgdir w).
Proof.
  intros [U1 U2 U3] Hv Hm.
  assert (forall w a, tabpage m pgdir w -> in_page w a -> m' a = m a) as Ht.
  { intros w a Hw Ha. destruct (tabpage_ok _ _ _ _ U1 Hw) as [W1 W2]. apply Hm.
    eapply (page_disjoint w); [apply W1|apply Hv| |done]. intros ->. apply W2. left. }
  destruct (tab_ext m m' pgdir Ht) as (E1 & E2 & E3). split_and!; [split| |done|done].
  - apply (pgd_free _ (v :: l)); [by eapply pgd_ext|]. intros w Hw. left. by right.
  - intros va e Hva. rewrite E2, E3. intros Hx. destruct (U2 va e Hva Hx) as (? & ? & ?). split_and!; [done| |done].
    intros Hin. by apply H0, elem_of_cons; right.
  - intros va va' e e' H1 H2. rewrite !E2. by apply U3.
  - rewrite E3. intros Hw. destruct (tabpage_ok _ _ _ _ U1 Hw) as [_ W2]. apply W2. left.
Qed.

(** ** Mapping one page *)

Record addpage (s1 : vst) (l : list Z) (pgdir a : Z) (e : option Z) (s' : vst) (l' : list Z) : Prop := {
  ap_kmem : kmem_ok s' l';
  ap_lock : no_kmem s';
  ap_core : vcore s' = vcore s1 /\ use_lock s' = use_lock s1 /\ vcons s' = vcons s1;
  ap_space : uspace (kmemory s') l' pgdir;
  ap_frame : pframe (kmemory s1) l pgdir (kmemory s') l';
  ap_xlate : forall va, 0 <= va < 4294967296 ->
     xlate (kmemory s') pgdir va = if va / 4096 =? a / 4096 then e else xlate (kmemory s1) pgdir va }.

Lemma user_entry v perm : page_ok v -> 0 <= perm < 4096 ->
  table_of (pte_val (V2P v) perm 0) = v /\ PTE_FLAGS (pte_val (V2P v) perm 0) = Z.lor perm PTE_P /\
  PTE_ADDR (pte_val (V2P v) perm 0) = V2P v.
Proof.
  intros Hv Hperm. destruct (page_phys v Hv) as (E1 & E2 & E3 & E4). unfold pte_val, PTE_P. rewrite E1, Z.mul_0_r, Z.add_0_r, <- Z.lor_assoc.
  assert (0 <= Z.lor perm 1 < 4096) as Hf.
  { split; [apply Z.lor_nonneg; lia|]. change 4096 with (2 ^ 12). apply Z.log2_lt_cancel.
    rewrite Z.log2_lor, Z.log2_pow2 by lia. change (Z.log2 1) with 0.
    assert (Z.log2 perm < 12); [|lia]. destruct (decide (perm = 0)) as [->|]; [done|]. apply Z.log2_lt_pow2; lia. }
  rewrite lor_flags by done. destruct (entry_fields (v - KERNBASE) (Z.lor perm 1) E2 E3 Hf) as (_ & F2 & F3 & _).
  unfold table_of. by rewrite F2, F3, E4.
Qed.

Section add.
Context (s1 : vst) (v : Z) (l : list Z) (pgdir a perm : Z).
Context (Hu : uspace (kmemory s1) l pgdir) (Hv : page_ok v) (Hvl : v ∉ l) (Hvt : ~ tabpage (kmemory s1) pgdir v)
  (Hvu : forall va e, 0 <= va < KERNBASE -> xlate (kmemory s1) pgdir va = Some e -> table_of e <> v)
  (Hk : kmem_ok s1 l) (Hn : no_kmem s1) (Ha : 0 <= a < KERNBASE) (Hal : a mod 4096 = 0)
  (Hx : xlate (kmemory s1) pgdir a = None) (Hperm : 0 <= perm < 4096).

Lemma mapped_addpage s' l' k : k = 0 \/ k = 1 -> mapped s1 l pgdir a (V2P v) perm k s' l' ->
  addpage s1 l pgdir a (if k =? 1 then Some (pte_val (V2P v) perm 0) else None) s' l'.
Proof.
  intros Hk' [M1 M2 [M3 M3'] M4 M5 M6 M7 M8]. destruct (user_entry v perm Hv Hperm) as (E1 & E2 & _).
  assert (forall va, (va / 4096 =? a / 4096) = (a <=? va) && (va <? a + 4096)) as Hpg.
  { intros va. pose proof (Z.div_mod va 4096). pose proof (Z.mod_pos_bound va 4096). pose proof (Z.div_mod a 4096).
    destruct (Z.eqb_spec (va / 4096) (a / 4096)), (Z.leb_spec a va), (Z.ltb_spec va (a + 4096)); cbn [andb]; try done; lia. }
  set (e := if k =? 1 then Some (pte_val (V2P v) perm 0) else None).
  assert (forall va, 0 <= va < 4294967296 -> xlate (kmemory s') pgdir va = if va / 4096 =? a / 4096 then e else xlate (kmemory s1) pgdir va) as Hxl.
  { intros va Hva. destruct (Z.eqb_spec (va / 4096) (a / 4096)) as [Ep|Ep].
    - rewrite (xlate_page _ _ va a); [|done|unfold KERNBASE in *; lia|done]. unfold e. destruct Hk' as [->| ->]; cbn [Z.eqb].
      + rewrite M6, Hx; [done|unfold KERNBASE in *; lia|lia].
      + specialize (M5 0 ltac:(lia)). by rewrite Z.mul_0_r, Z.add_0_r in M5.
    - apply M6; [done|]. specialize (Hpg va). rewrite (proj2 (Z.eqb_neq _ _) Ep) in Hpg.
      destruct (Z.leb_spec a va), (Z.ltb_spec va (a + 4096)); try done; lia. }
  pose proof M7 as [P1 P2 P3 P4]. destruct (P2 v Hv Hvl Hvt) as [_ Hvt'].
  assert (forall w, w ∉ l -> w ∉ l') as Hsuf by (intros w Hw Hin; apply Hw; destruct P1 as [z ->]; apply elem_of_app; by right).
  split; try done. split; [done| |].
  - intros va e' Hva. rewrite Hxl by (unfold KERNBASE in *; lia). destruct (va / 4096 =? a / 4096).
    + unfold e. destruct (k =? 1); [|done]. intros [= <-]. rewrite E1. split_and!; [done|by apply Hsuf|done].
    + intros Hx'. destruct (us_page _ _ _ Hu va e' Hva Hx') as (U1 & U2 & U3). split_and!; [done|by apply Hsuf|by apply P2].
  - intros va va' e1 e2 H1 H2. rewrite !Hxl by (unfold KERNBASE in *; lia).
    destruct (Z.eqb_spec (va / 4096) (a / 4096)) as [G1|G1], (Z.eqb_spec (va' / 4096) (a / 4096)) as [G2|G2].
    + congruence.
    + unfold e. destruct (k =? 1); [|done]. intros [= <-] Hx2 Et. rewrite E1 in Et. by destruct (Hvu va' e2 H2 Hx2).
    + unfold e. intros Hx1. destruct (k =? 1); [|done]. intros [= <-] Et. rewrite E1 in Et. by destruct (Hvu va e1 H1 Hx1).
    + by apply (us_inj _ _ _ Hu).
Qed.

Lemma wp_map_page (Q : Z -> vst -> Prop) :
  (forall s' l', addpage s1 l pgdir a (Some (pte_val (V2P v) perm 0)) s' l' -> Q 0 s') ->
  (forall s', addpage s1 l pgdir a None s' [] -> Q (-1) s') ->
  wp (mappages pgdir a PGSIZE (V2P v) perm) Q s1.
Proof using Hu Hv Hvl Hvt Hvu Hk Hn Ha Hal Hx Hperm.
  intros HQ0 HQ1. change PGSIZE with (4096 * 1). destruct (page_phys v Hv) as (E1 & E2 & E3 & E4).
  assert (v - KERNBASE + 4096 <= 4294967296) by (pose proof (pg_top _ Hv); unfold PHYSTOP in *; lia).
  apply (wp_mappages s1 l); try done; try (rewrite ?E1; unfold KERNBASE in *; lia).
  - apply Hu.
  - intros i Hi. assert (i = 0) as -> by lia. by rewrite Z.mul_0_r, Z.add_0_r.
  - intros s' l' M. apply (HQ0 s' l'). apply (mapped_addpage s' l' 1); [by right|done].
  - intros k s' Hk' M. assert (k = 0) as -> by lia. apply (HQ1 s'). apply (mapped_addpage s' [] 0); [by left|done].
Qed.
End add.

Section alloc.
Context (s0 : vst) (l0 : list Z) (pgdir lo newsz : Z).
Context (Hlo : 0 <= lo) (Hal : lo mod 4096 = 0) (Hnew : newsz < KERNBASE).

Definition zeroed (s : vst) (v : Z) : vst :=
  set_kmemory (memset (kmemory s) v 0 PGSIZE) (set_freelist (load32 (kmemory s) v) s).

Lemma zeroed_out s v b : ~ in_page v b -> kmemory (zeroed s v) b = kmemory s b.
Proof. intros Hb. cbn. apply memset_out; unfold in_page, PGSIZE in *; lia. Qed.
Lemma zeroed_in s v b : in_page v b -> kmemory (zeroed s v) b = 0.
Proof.
  intros Hb. cbn. unfold in_page, PGSIZE in *. rewrite memset_spec by (unfold PGSIZE; lia).
  destruct (Z.leb_spec v b), (Z.ltb_spec b (v + 4096)); cbn; (done || lia).
Qed.

Lemma grown_refl : kmem_ok s0 l0 -> no_kmem s0 -> uspace (kmemory s0) l0 pgdir -> grown s0 l0 pgdir lo lo s0 l0.
Proof. intros Hk Hn Hu. split; try done; [lia|]. intros w Hw. by left. Qed.

Lemma grown_step a s v l s' l' e : lo <= a -> a mod 4096 = 0 -> a < newsz -> grown s0 l0 pgdir lo a s (v :: l) ->
  addpage (zeroed s v) l pgdir a (Some e) s' l' -> table_of e = v -> PTE_FLAGS e = 7 ->
  grown s0 l0 pgdir lo (a + 4096) s' l'.
Proof using Hlo Hnew.
  intros Ha Hma Hlt [G1 G2 G3 G4 G5 G6 G6' G7 G8 G9] [A1 A2 A3 A4 A5 A6] Et Ef.
  pose proof (km_pages _ _ G1) as [Hv _]%Forall_cons. pose proof (km_nodup _ _ G1) as [Hvl _]%NoDup_cons.
  destruct (uspace_take _ (kmemory (zeroed s v)) v l pgdir G4 Hv (zeroed_out s v)) as (T1 & T2 & T3 & T4).
  destruct A5 as [P1 P2 P3 P4].
  assert (v ∈ l0) as Hv0 by (destruct G5 as [z ->]; apply elem_of_app; right; left).
  assert (forall va, (va / 4096 =? a / 4096) = (a <=? va) && (va <? a + 4096)) as Hpg.
  { intros va. pose proof (Z.div_mod va 4096). pose proof (Z.mod_pos_bound va 4096). pose proof (Z.div_mod a 4096).
    destruct (Z.eqb_spec (va / 4096) (a / 4096)), (Z.leb_spec a va), (Z.ltb_spec va (a + 4096)); cbn [andb]; try done; lia. }
  assert (forall va, 0 <= va < 4294967296 -> ~ (a <= va < a + 4096) -> xlate (kmemory s') pgdir va = xlate (kmemory s) pgdir va) as Hxo.
  { intros va Hva Hout. rewrite A6, T3, Hpg by done. destruct (Z.leb_spec a va), (Z.ltb_spec va (a + 4096)); cbn [andb]; (done || lia). }
  assert (forall va, a <= va < a + 4096 -> xlate (kmemory s') pgdir va = Some e) as Hxi.
  { intros va Hva. rewrite A6, Hpg by (unfold KERNBASE in *; lia). destruct (Z.leb_spec a va), (Z.ltb_spec va (a + 4096)); cbn [andb]; (done || lia). }
  assert (forall w, w ∉ l0 -> w <> v /\ w ∉ l) as Hnl.
  { intros w Hw. split; [congruence|]. intros Hin. apply Hw. destruct G5 as [z ->]. apply elem_of_app. right. by right. }
  split; try done.
  - destruct G3 as (G3a & G3b & G3c), A3 as (A3a & A3b & A3c). split_and!; by etrans.
  - etrans; [exact P1|]. etrans; [|exact G5]. by exists [v].
  - intros w Hw Hl0 Ht0. destruct (G6 w Hw Hl0 Ht0) as [Hc Ht]. destruct (Hnl w Hl0) as [N1 N2].
    destruct (P2 w Hw N2) as [Hc' Ht']; [by rewrite T4|]. split; [|done]. intros b Hb. rewrite Hc' by done.
    rewrite zeroed_out; [by apply Hc|]. eapply (page_disjoint w); [apply Hw|apply Hv|done|done].
  - intros w Hw. apply P3, T4. by apply G6'.
  - intros va Hva. destruct (Z.lt_ge_cases va a) as [Hlt'|Hge].
    + destruct (G7 va ltac:(lia)) as (e' & X1 & X2 & X3 & X4). exists e'. rewrite Hxo by (unfold KERNBASE in *; lia). split_and!; try done.
      destruct (us_page _ _ _ G4 va e' ltac:(unfold KERNBASE in *; lia) X1) as (W1 & W2 & W3). apply not_elem_of_cons in W2 as [W2 W2'].
      intros b Hb. destruct (P2 _ W1 W2') as [Hc' _]; [by rewrite T4|]. rewrite Hc' by done. rewrite zeroed_out; [by apply X4|].
      eapply (page_disjoint (table_of e')); [apply W1|apply Hv|done|done].
    + exists e. split_and!; [apply Hxi; lia|by rewrite Et|done|]. rewrite Et. intros b Hb.
      destruct (P2 v Hv Hvl T2) as [Hc' _]. rewrite Hc' by done. by apply zeroed_in.
  - intros va Hva Hout. rewrite Hxo by lia. apply G8; [done|lia].
  - intros w Hw. destruct (G9 w Hw) as [[->|Hin]%elem_of_cons|[Htab|(va & e' & X1 & X2 & X3)]].
    + right. right. exists a, e. split_and!; [lia|lia|apply Hxi; lia|done].
    + destruct (P4 w Hin); [by left|by right; left].
    + right. left. by apply P3, T4.
    + right. right. exists va, e'. split_and!; [lia|lia| |done]. rewrite Hxo; [done|unfold KERNBASE in *; lia|lia].
Qed.

(** ** Giving up *)

(** Pages of the free list [l0] are used up: some are page tables now, some
    mapped from [lo] to [hi], and [pend] is not in use yet. *)
Record midway (hi : Z) (pend : list Z) (s : vst) : Prop := {
  md_kmem : kmem_ok s [];
  md_lock : no_kmem s;
  md_core : vcore s = vcore s0 /\ use_lock s = use_lock s0;
  md_space : uspace (kmemory s) [] pgdir;
  md_same : forall w, page_ok w -> w ∉ l0 -> ~ tabpage (kmemory s0) pgdir w ->
     (forall b, in_page w b -> kmemory s b = kmemory s0 b) /\ ~ tabpage (kmemory s) pgdir w;
  md_tab : forall w, tabpage (kmemory s0) pgdir w -> tabpage (kmemory s) pgdir w;
  md_user : forall va e, lo <= va < hi -> xlate (kmemory s) pgdir va = Some e -> table_of e ∈ l0;
  md_old : forall va, 0 <= va < 4294967296 -> ~ (lo <= va < hi) -> xlate (kmemory s) pgdir va = xlate (kmemory s0) pgdir va;
  md_taken : forall w, w ∈ l0 -> w ∈ pend \/ tabpage (kmemory s) pgdir w \/
     exists va e, lo <= va < hi /\ xlate (kmemory s) pgdir va = Some e /\ table_of e = w;
  md_pend : forall w, w ∈ pend -> page_ok w /\ w ∈ l0 /\ ~ tabpage (kmemory s) pgdir w /\
     forall va e, 0 <= va < KERNBASE -> xlate (kmemory s) pgdir va = Some e -> table_of e <> w }.

(** The address space is as it was, up to page tables that stay. *)
Record undone (s : vst) (l : list Z) : Prop := {
  ud_kmem : kmem_ok s l;
  ud_lock : no_kmem s;
  ud_core : vcore s = vcore s0 /\ use_lock s = use_lock s0 /\ screen_ok (vcons s);
  ud_space : uspace (kmemory s) l pgdir;
  ud_xlate : forall va, 0 <= va < 4294967296 -> xlate (kmemory s) pgdir va = xlate (kmemory s0) pgdir va;
  ud_same : forall w, page_ok w -> w ∉ l0 -> ~ tabpage (kmemory s0) pgdir w -> forall b, in_page w b -> kmemory s b = kmemory s0 b;
  ud_noleak : forall w, w ∈ l0 -> w ∈ l \/ tabpage (kmemory s) pgdir w }.

Lemma uspace_give m m' v l : uspace m l pgdir -> page_ok v -> v ∉ l -> ~ tabpage m pgdir v ->
  (forall va e, 0 <= va < KERNBASE -> xlate m pgdir va = Some e -> table_of e <> v) ->
  (forall b, ~ in_page v b -> m' b = m b) ->
  uspace m' (v :: l) pgdir /\ (forall va, xlate m' pgdir va = xlate m pgdir va) /\ (forall w, tabpage m' pgdir w <-> tabpage m pgdir w).
Proof.
  intros [U1 U2 U3] Hv Hvl Hvt Hvu Hm.
  assert (forall w a, tabpage m pgdir w -> in_page w a -> m' a = m a) as Ht.
  { intros w a Hw Ha. destruct (tabpage_ok _ _ _ _ U1 Hw) as [W1 W2]. apply Hm.
    eapply (page_disjoint w); [apply W1|apply Hv| |done]. by intros ->. }
  destruct (tab_ext m m' pgdir Ht) as (E1 & E2 & E3). split_and!; [split|done|done].
  - apply (pgd_free _ l); [by eapply pgd_ext|]. intros w [->|Hw]%elem_of_cons; [right; by rewrite E3|by left].
  - intros va e Hva. rewrite E2, E3. intros Hx. destruct (U2 va e Hva Hx) as (W1 & W2 & W3). split_and!; [done| |done].
    apply not_elem_of_cons. split; [by eapply Hvu|done].
  - intros va va' e e' H1 H2. rewrite !E2. by apply U3.
Qed.

Section giveup.
Context (oldsz : Z) (Eold : lo = PGROUNDUP oldsz) (Hold : 0 <= oldsz < newsz).
Let hi := PGROUNDUP newsz.
Context (Hun : forall va, lo <= va < hi -> xlate (kmemory s0) pgdir va = None).

Lemma wp_unwind pend s (Q : Z -> vst -> Prop) : midway hi pend s -> screen_ok (vcons s) ->
  (forall s' l', kmem_ok s' l' -> no_kmem s' -> vcore s' = vcore s0 /\ use_lock s' = use_lock s0 /\ screen_ok (vcons s') ->
     uspace (kmemory s') l' pgdir ->
     (forall va, 0 <= va < 4294967296 -> xlate (kmemory s') pgdir va = xlate (kmemory s0) pgdir va) ->
     (forall w, page_ok w -> w ∉ l0 -> ~ tabpage (kmemory s0) pgdir w ->
        (forall b, in_page w b -> kmemory s' b = kmemory s0 b) /\ ~ tabpage (kmemory s') pgdir w) ->
     (forall w, w ∈ l0 -> w ∈ l' \/ tabpage (kmemory s') pgdir w \/ w ∈ pend) ->
     (forall w, w ∈ pend -> page_ok w /\ w ∈ l0 /\ w ∉ l' /\ ~ tabpage (kmemory s') pgdir w /\
        forall va e, 0 <= va < KERNBASE -> xlate (kmemory s') pgdir va = Some e -> table_of e <> w) -> Q oldsz s') ->
  wp (deallocuvm pgdir newsz oldsz) Q s.
Proof using Hlo Eold Hold Hun Hnew.
  intros [D1 D2 D3 D4 D5 D6 D7 D8 D9 D10] Hscr HQ. destruct D3 as [D3 D3'].
  destruct (PGROUNDUP_spec newsz) as (R1 & R2 & R3); [unfold KERNBASE in *; lia|]. fold hi in R1, R2, R3.
  apply (wp_deallocuvm s []); [done|done|done|lia|lia|]. intros s' l' [F1 F2 F3 F4 F5 F6 F7 F8].
  fold hi in F5, F7. rewrite <- Eold in F5, F7.
  assert (forall va, 0 <= va < 4294967296 -> xlate (kmemory s') pgdir va = xlate (kmemory s0) pgdir va) as Hx.
  { intros va Hva. rewrite F5 by done. destruct (Z.leb_spec lo va), (Z.ltb_spec va hi); cbn [andb]; try (apply D8; [done|lia]).
    symmetry. apply Hun. lia. }
  destruct F3 as (F3 & F3' & F3''). apply (HQ s' l'); try done.
  - rewrite F3, F3', F3''. done.
  - intros w Hw Hl0 Ht0. destruct (D5 w Hw Hl0 Ht0) as [Hc Ht]. split; [|by rewrite F6].
    intros b Hb. rewrite (F8 w); [by apply Hc|done| |done|done].
    rewrite F7. intros [[]%not_elem_of_nil|(va & e & H1 & H2 & ->)]. apply Hl0. by eapply D7.
  - intros w Hw. destruct (D9 w Hw) as [Hp|[Ht|(va & e & H1 & H2 & <-)]]; [by right; right|right; left; by rewrite F6|].
    left. rewrite F7. right. by exists va, e.
  - intros w Hw. destruct (D10 w Hw) as (P1 & P2 & P3 & P4). split_and!; [done|done| |by rewrite F6|].
    + rewrite F7. intros [[]%not_elem_of_nil|(va & e & H1 & H2 & ->)]. apply (P4 va e); [|done|done]. lia.
    + intros va e Hva. rewrite F5 by (unfold KERNBASE in *; lia). destruct (_ && _); [done|]. by apply P4.
Qed.

(** Out of memory for the page itself. *)
Lemma grown_midway a s c : lo <= a < hi -> grown s0 l0 pgdir lo a s [] -> midway hi [] (set_vcons c s).
Proof using Hlo Hun Hnew Hold.
  intros Ha [G1 G2 [G3 [G3' _]] G4 G5 G6 G6' G7 G8 G9]. destruct (PGROUNDUP_spec newsz) as (R1 & R2 & R3); [unfold KERNBASE in *; lia|].
  fold hi in R1, R2, R3. split; try done.
  - destruct G1. by split.
  - intros va e Hva Hx. destruct (Z.lt_ge_cases va a) as [Hlt|Hge].
    + destruct (G7 va ltac:(lia)) as (e' & X1 & X2 & _). cbn in Hx. congruence.
    + cbn in Hx. rewrite G8, Hun in Hx; [done|lia|unfold KERNBASE in *; lia|lia].
  - intros va Hva Hout. cbn. apply G8; [done|lia].
  - intros w Hw. destruct (G9 w Hw) as [[]%not_elem_of_nil|[Ht|(va & e & H1 & H2 & H3)]]; [by right; left|].
    right. right. exists va, e. split_and!; [lia|lia|done|done].
  - intros w []%not_elem_of_nil.
Qed.

(** Out of memory for a page table: page [v] is not mapped yet. *)
Lemma addpage_midway a s v l s' c : lo <= a < hi -> grown s0 l0 pgdir lo a s (v :: l) ->
  addpage (zeroed s v) l pgdir a None s' [] -> midway hi [v] (set_vcons c s').
Proof using Hlo Hun Hnew Hold.
  intros Ha [G1 G2 [G3 [G3' _]] G4 G5 G6 G6' G7 G8 G9] [A1 A2 [A3 [A3' _]] A4 A5 A6].
  destruct (PGROUNDUP_spec newsz) as (R1 & R2 & R3); [unfold KERNBASE in *; lia|]. fold hi in R1, R2, R3.
  pose proof (km_pages _ _ G1) as [Hv _]%Forall_cons. pose proof (km_nodup _ _ G1) as [Hvl _]%NoDup_cons.
  destruct (uspace_take _ (kmemory (zeroed s v)) v l pgdir G4 Hv (zeroed_out s v)) as (T1 & T2 & T3 & T4). destruct A5 as [P1 P2 P3 P4].
  assert (v ∈ l0) as Hv0 by (destruct G5 as [z ->]; apply elem_of_app; right; left).
  assert (forall w, w ∉ l0 -> w <> v /\ w ∉ l) as Hnl.
  { intros w Hw. split; [congruence|]. intros Hin. apply Hw. destruct G5 as [z ->]. apply elem_of_app. right. by right. }
  assert (forall va, 0 <= va < 4294967296 -> xlate (kmemory s') pgdir va = xlate (kmemory s) pgdir va) as Hxs.
  { intros va Hva. rewrite A6, T3 by done. destruct (Z.eqb_spec (va / 4096) (a / 4096)) as [E|]; [|done].
    rewrite (xlate_page _ _ va a); [|done|unfold KERNBASE in *; lia|done]. rewrite G8, Hun; [done|lia|unfold KERNBASE in *; lia|lia]. }
  split; try done; cbn [kmemory set_vcons].
  - destruct A1. by split.
  - split; [by etrans|by etrans].
  - intros w Hw Hl0 Ht0. destruct (G6 w Hw Hl0 Ht0) as [Hc Ht]. destruct (Hnl w Hl0) as [N1 N2].
    destruct (P2 w Hw N2) as [Hc' Ht']; [by rewrite T4|]. split; [|done]. intros b Hb. rewrite Hc' by done.
    rewrite zeroed_out; [by apply Hc|]. eapply (page_disjoint w); [apply Hw|apply Hv|done|done].
  - intros w Hw. apply P3, T4. by apply G6'.
  - intros va e Hva Hx. rewrite Hxs in Hx by (unfold KERNBASE in *; lia). destruct (Z.lt_ge_cases va a) as [Hlt|Hge].
    + destruct (G7 va ltac:(lia)) as (e' & X1 & X2 & _). congruence.
    + rewrite G8, Hun in Hx; [done|lia|unfold KERNBASE in *; lia|lia].
  - intros va Hva Hout. rewrite Hxs by done. apply G8; [done|lia].
  - intros w Hw. destruct (G9 w Hw) as [[->|Hin]%elem_of_cons|[Ht|(va & e & H1 & H2 & H3)]].
    + left. left.
    + destruct (P4 w Hin) as [[]%not_elem_of_nil|?]. by right; left.
    + right. left. by apply P3, T4.
    + right. right. exists va, e. split_and!; [lia|lia| |done]. rewrite Hxs; [done|unfold KERNBASE in *; lia].
  - intros w Hw. apply list_elem_of_singleton in Hw as ->. split_and!; [done|done|by apply P2|].
    intros va e Hva Hx. rewrite Hxs in Hx by (unfold KERNBASE in *; lia).
    destruct (us_page _ _ _ G4 va e Hva Hx) as (_ & W2 & _). by apply not_elem_of_cons in W2 as [? _].
Qed.
End giveup.
End alloc.

Lemma oom_plain : Forall (fun c => c <> 37) (str "allocuvm out of memory" ++ [10]) /\
  Forall (fun c => c <> 37) (str "allocuvm out of memory (2)" ++ [10]).
Proof. split; apply (bool_decide_unpack _); vm_compute; exact I. Qed.

Lemma wp_allocuvm s0 l0 pgdir oldsz newsz (Q : Z -> vst -> Prop) :
  kmem_ok s0 l0 -> no_kmem s0 -> can_print s0 -> uspace (kmemory s0) l0 pgdir -> 0 <= oldsz <= newsz -> newsz < KERNBASE ->
  (forall va, PGROUNDUP oldsz <= va < PGROUNDUP newsz -> xlate (kmemory s0) pgdir va = None) ->
  (forall s' l', grown s0 l0 pgdir (PGROUNDUP oldsz) (PGROUNDUP newsz) s' l' -> Q newsz s') ->
  (forall s' l', undone s0 l0 pgdir s' l' -> Q 0 s') ->
  wp (allocuvm pgdir oldsz newsz) Q s0.
Proof.
  intros Hk Hn Hpr Hu Hsz Hnew Hun HQ HQ0. unfold allocuvm.
  destruct (Z.leb_spec KERNBASE newsz); [lia|]. destruct (Z.ltb_spec newsz oldsz); [lia|].
  set (lo := PGROUNDUP oldsz) in *. set (hi := PGROUNDUP newsz) in *.
  destruct (PGROUNDUP_spec oldsz) as (L1 & L2 & L3); [unfold KERNBASE in *; lia|]. fold lo in L1, L2, L3.
  destruct (PGROUNDUP_spec newsz) as (R1 & R2 & R3); [unfold KERNBASE in *; lia|]. fold hi in R1, R2, R3.
  assert (lo <= hi) as Hlh by (apply PGROUNDUP_mono; unfold KERNBASE in *; lia).
  destruct oom_plain as [Hp1 Hp2].
  pose proof (Z.div_mod lo 4096) as Dlo. pose proof (Z.div_mod hi 4096) as Dhi.
  apply (wp_loop (fun a s => lo <= a <= hi /\ a mod 4096 = 0 /\ exists l, grown s0 l0 pgdir lo a s l) (fun a => Z.to_nat ((hi - a) / 4096))).
  2: { split_and!; [lia|lia|done|]. exists l0. apply grown_refl; done. }
  2: { assert ((hi - lo) / 4096 <= newsz / PGSIZE + 1); [|assert (0 <= newsz / PGSIZE) by (apply Z.div_pos; unfold PGSIZE; lia); lia].
       rewrite <- (Z_div_plus_full _ 1) by (unfold PGSIZE; lia). unfold PGSIZE. apply Z.div_le_mono; lia. }
  intros a s (Ha & Hma & l & G). unfold allocuvm_step. pose proof (Z.div_mod a 4096) as Da. destruct (Z.ltb_spec a newsz) as [Hlt|Hge].
  2: { wp_simpl. assert (a = hi) as -> by lia. by eapply HQ. }
  assert (a < hi) as Hah by lia. assert (0 <= oldsz < newsz) as Hold by lia.
  pose proof G as [G1 G2 [G3 [G3' G3'']] G4 G5 G6 G6' G7 G8 G9].
  assert (can_print s) as Hps by (destruct Hpr as [? ?]; split; [by rewrite G3''|by rewrite G3]).
  wp_simpl. apply (wp_kalloc s l); [done|done|]. destruct l as [|v l].
  - cbn [Z.eqb]. wp_simpl. apply wp_cprintf_plain; [done|done|]. intros c O1 S1. wp_simpl.
    apply (wp_unwind s0 l0 pgdir lo newsz ltac:(lia) Hnew oldsz eq_refl Hold Hun []).
    + apply (grown_midway s0 l0 pgdir lo newsz ltac:(lia) Hnew oldsz Hold Hun a); [lia|done].
    + done.
    + intros s' l' U1 U2 U3 U4 U5 U6 U7 _. wp_simpl. apply (HQ0 s' l'). split; try done.
      * intros w Hw H1 H2. by apply U6.
      * intros w Hw. destruct (U7 w Hw) as [?|[?|[]%not_elem_of_nil]]; [by left|by right].
  - intros s1 -> Hk1. pose proof (km_pages _ _ G1) as [Hv _]%Forall_cons. pose proof (km_nodup _ _ G1) as [Hvl _]%NoDup_cons.
    pose proof (pg_base _ Hv). destruct (Z.eqb_spec v 0); [unfold KERNBASE in *; lia|]. unfold upd_mem. wp_simpl.
    match goal with |- wp _ _ ?x => change x with (zeroed s v) end.
    destruct (uspace_take _ (kmemory (zeroed s v)) v l pgdir G4 Hv (zeroed_out s v)) as (T1 & T2 & T3 & T4).
    assert (forall va e, 0 <= va < KERNBASE -> xlate (kmemory (zeroed s v)) pgdir va = Some e -> table_of e <> v) as Hvu.
    { intros va e Hva. rewrite T3. intros Hx. destruct (us_page _ _ _ G4 va e Hva Hx) as (_ & W2 & _). by apply not_elem_of_cons in W2 as [? _]. }
    assert (kmem_ok (zeroed s v) l) as Hkz.
    { apply (kmem_ok_mem (set_freelist (load32 (kmemory s) v) s)); [done|]. intros w b Hw Hb. apply (zeroed_out s v b).
      apply list_elem_of_lookup in Hw as [i Hi]. eapply (page_disjoint w); [|apply Hv| |done].
      - by eapply (Forall_lookup_1 _ _ _ _ (km_pages _ _ Hk1)).
      - intros ->. apply Hvl, list_elem_of_lookup. by exists i. }
    apply (wp_map_page (zeroed s v) v l pgdir a (Z.lor PTE_W PTE_U)); try done; [unfold KERNBASE in *; lia|rewrite T3, G8, Hun; [done|lia|unfold KERNBASE in *; lia|lia]| |].
    + intros s' l' A. wp_simpl. destruct (user_entry v (Z.lor PTE_W PTE_U) Hv ltac:(done)) as (E1 & E2 & _).
      change (0 <? 0) with false. cbn iota. wp_simpl. unfold PGSIZE. rewrite u32_id by (unfold KERNBASE in *; lia). split.
      * split_and!; [lia|lia|by rewrite <- Zplus_mod_idemp_r, Z_mod_same_full, Z.add_0_r|]. exists l'.
        eapply (grown_step s0 l0 pgdir lo newsz ltac:(lia) Hnew a s v l s' l'); [lia|done|done|done|exact A|done|done].
      * replace (hi - (a + 4096)) with (hi - a + (-1) * 4096) by lia. rewrite Z_div_plus_full by lia.
        assert (1 <= (hi - a) / 4096) by (apply Z.div_le_lower_bound; lia). lia.
    + intros s' A. change (-1 <? 0) with true. cbn iota. wp_simpl.
      assert (can_print s') as Hps'.
      { destruct (ap_core _ _ _ _ _ _ _ A) as (C1 & _ & C3), Hps. split; [by rewrite C3|by rewrite C1]. }
      apply wp_cprintf_plain; [done|done|]. intros c O1 S1. wp_simpl.
      apply (wp_unwind s0 l0 pgdir lo newsz ltac:(lia) Hnew oldsz eq_refl Hold Hun [v]).
      * apply (addpage_midway s0 l0 pgdir lo newsz ltac:(lia) Hnew oldsz Hold Hun a s v l); [lia|done..].
      * done.
      * intros s2 l2 U1 U2 U3 U4 U5 U6 U7 U8. destruct (U8 v ltac:(left)) as (W1 & W2 & W3 & W4 & W5). wp_simpl.
        apply (wp_kfree s2 l2); [done..|]. intros s3 -> Hk3. wp_simpl.
        destruct (uspace_give pgdir (kmemory s2) (freed_mem (kmemory s2) v (freelist s2)) v l2 U4 W1 W3 W4 W5) as (V1 & V2 & V3).
        { intros b Hb. by apply freed_mem_out. }
        apply (HQ0 _ (v :: l2)). split; try done.
        -- intros va Hva. cbn [kmemory set_freelist set_kmemory]. by rewrite V2, U5.
        -- intros w Hw N1 N2 b Hb. cbn [kmemory set_freelist set_kmemory]. rewrite freed_mem_out; [by apply (U6 w)|].
           eapply (page_disjoint w); [apply Hw|apply Hv|congruence|done].
        -- intros w Hw. cbn [kmemory set_freelist set_kmemory]. rewrite V3. destruct (U7 w Hw) as [?|[?|Ew%list_elem_of_singleton]]; [left; by right|by right|left; rewrite Ew; left].
Qed.
End space.

(** Growing an address space with [allocuvm] either returns the new
    size, and then every page between the old and the new size is mapped
    writable for the user to its own fresh page of zeroes, or runs out of
    memory and returns 0, and then every address translates as before and
    every page taken is back on the free list or a page table; in both cases
    no other translation and no page in use before changes, and directory,
    tables and user pages stay distinct pages in use. *)
Theorem allocuvm_grows `{KSyms} s l pgdir oldsz newsz :
  kmem_ok s l -> no_kmem s -> can_print s -> uspace (kmemory s) l pgdir -> 0 <= oldsz <= newsz -> newsz < KERNBASE ->
  (forall va, PGROUNDUP oldsz <= va < PGROUNDUP newsz -> xlate (kmemory s) pgdir va = None) ->
  exists r s' l', allocuvm pgdir oldsz newsz s = Ok r s' /\ kmem_ok s' l' /\ uspace (kmemory s') l' pgdir /\
    (forall va, 0 <= va < 4294967296 -> ~ (PGROUNDUP oldsz <= va < PGROUNDUP newsz) ->
       xlate (kmemory s') pgdir va = xlate (kmemory s) pgdir va) /\
    (forall w b, page_ok w -> w ∉ l -> ~ tabpage (kmemory s) pgdir w -> in_page w b -> kmemory s' b = kmemory s b) /\
    ((r = newsz /\ forall va, PGROUNDUP oldsz <= va < PGROUNDUP newsz ->
        exists e, xlate (kmemory s') pgdir va = Some e /\ table_of e ∈ l /\ PTE_FLAGS e = Z.lor (Z.lor PTE_W PTE_U) PTE_P /\
          forall b, in_page (table_of e) b -> kmemory s' b = 0) \/
     (r = 0 /\ (forall va, 0 <= va < 4294967296 -> xlate (kmemory s') pgdir va = xlate (kmemory s) pgdir va) /\
        forall w, w ∈ l -> w ∈ l' \/ tabpage (kmemory s') pgdir w)).
Proof.
  intros Hk Hn Hp Hu Hsz Hnew Hun.
  assert (wp (allocuvm pgdir oldsz newsz) (fun r s' => exists l', (r = newsz /\ grown s l pgdir (PGROUNDUP oldsz) (PGROUNDUP newsz) s' l') \/
    (r = 0 /\ undone s l pgdir s' l')) s) as (r & s' & E & l' & Hr)%wp_inv.
  { apply (wp_allocuvm s l); try done; intros s' l' G; exists l'; [by left|by right]. }
  exists r, s', l'. destruct Hr as [[-> [G1 G2 G3 G4 G5 G6 G6' G7 G8 G9]]|[-> [U1 U2 U3 U4 U5 U6 U7]]].
  - split_and!; [done|done|done|done| |by left]. intros w b Hw H1 H2 Hb. by apply (G6 w).
  - split_and!; [done|done|done| | |by right].
    + intros va Hva _. by apply U5.
    + intros w b Hw H1 H2 Hb. by apply (U6 w).
Qed.
