(* ===== verification/VmCopy.v ===== *)
(** * Whole address spaces: [freevm], [setupkvm] and [copyuvm]

    [freevm] gives back every page of an address space, [setupkvm] makes one
    with the kernel mappings and no user pages, and [copyuvm], the core of
    fork, makes a copy whose user pages are fresh. *)

From S2P Require Import Prelude Bytes Core StringLib Cons Vm VmAlloc VmTables VmSpace.

Section copy.
Context `{KS : KSyms}.

(** Pages in use before, other than those of the free list [l0], are as in [s0]. *)
Definition kept (s0 : vst) (l0 : list Z) (s : vst) : Prop :=
  forall w b, page_ok w -> w ∉ l0 -> in_page w b -> kmemory s b = kmemory s0 b.

Definition same_cpu (s0 s : vst) : Prop := vcore s = vcore s0 /\ use_lock s = use_lock s0 /\ vcons s = vcons s0.

(** ** freevm *)

(** The pages of an address space. *)
Definition of_space (m : mem) (pgdir w : Z) : Prop :=
  tabpage m pgdir w \/ exists va e, 0 <= va < KERNBASE /\ xlate m pgdir va = Some e /\ table_of e = w.

Section tear.
Context (s1 : vst) (l1 : list Z) (pgdir : Z) (Hp : pgd_ok (kmemory s1) l1 pgdir).

(** The page tables below [i] have been freed. *)
Record torn (i : nat) (s : vst) (l : list Z) : Prop := {
  tn_kmem : kmem_ok s l;
  tn_lock : no_kmem s;
  tn_cpu : same_cpu s1 s;
  tn_list : forall w, w ∈ l <-> w ∈ l1 \/ exists d, 0 <= d < Z.of_nat i /\ present (pde_of (kmemory s1) pgdir d) = true /\
     table_of (pde_of (kmemory s1) pgdir d) = w;
  tn_kept : forall w b, page_ok w -> w ∉ l -> in_page w b -> kmemory s b = kmemory s1 b }.

Lemma torn_dir i s l : (i <= 1024)%nat -> torn i s l -> pgdir ∉ l /\
  forall d, 0 <= d < 1024 -> pde_of (kmemory s) pgdir d = pde_of (kmemory s1) pgdir d.
Proof.
  intros Hi [T1 T2 T3 T4 T5]. assert (pgdir ∉ l) as Hl.
  { rewrite T4. intros [Hin|(d & Hd & Hpr & Et)]; [by apply (pd_free _ _ _ Hp)|].
    destruct (pd_tab _ _ _ Hp d ltac:(lia) Hpr) as (_ & _ & N). done. }
  split; [done|]. intros d Hd. apply load32_ext. intros b Hb. apply (T5 pgdir); [apply Hp|done|]. by eapply word_in_page.
Qed.

Lemma wp_tear (Q : unit -> vst -> Prop) : kmem_ok s1 l1 -> no_kmem s1 ->
  (forall s l, torn 1024 s l -> Q tt s) ->
  wp (for_range 0 (Z.to_nat NPDENTRIES) (freevm_step pgdir)) Q s1.
Proof.
  intros Hk Hn HQ. eapply wp_mono; [apply (wp_for_range (fun i s => exists l, torn i s l))|].
  - change (0 + Z.to_nat NPDENTRIES)%nat with 1024%nat. intros i s Hi (l & T). pose proof T as [T1 T2 T3 T4 T5].
    destruct (torn_dir i s l ltac:(lia) T) as [Hpl Hpd]. unfold freevm_step, rd32. wp_simpl. fold (pde_of (kmemory s) pgdir (Z.of_nat i)).
    rewrite Hpd by lia. fold (present (pde_of (kmemory s1) pgdir (Z.of_nat i))).
    destruct (present (pde_of (kmemory s1) pgdir (Z.of_nat i))) eqn:Hpr.
    + fold (table_of (pde_of (kmemory s1) pgdir (Z.of_nat i))). destruct (pd_tab _ _ _ Hp (Z.of_nat i) ltac:(lia) Hpr) as (W1 & W2 & W3).
      set (w := table_of (pde_of (kmemory s1) pgdir (Z.of_nat i))) in *.
      assert (w ∉ l) as Hwl.
      { rewrite T4. intros [?|(d & Hd & Hpr' & Et)]; [done|].
        assert (d = Z.of_nat i) by (apply (pd_inj _ _ _ Hp); [lia|lia|done|done|done]). lia. }
      apply (wp_kfree s l); [done..|]. intros s' -> Hk'. exists (w :: l). split; try done.
      * intros v. rewrite elem_of_cons, T4. split.
        -- intros [->|[?|(d & Hd & Hpr' & Et)]]; [right; exists (Z.of_nat i); split_and!; (done || lia)|by left|].
           right. exists d. split_and!; (done || lia).
        -- intros [?|(d & Hd & Hpr' & Et)]; [right; by left|]. destruct (decide (d = Z.of_nat i)) as [->|]; [by left|].
           right. right. exists d. split_and!; (done || lia).
      * intros v b Hv [N1 N2]%not_elem_of_cons Hb. cbn. rewrite freed_mem_out; [by apply (T5 v)|].
        eapply (page_disjoint v); [apply Hv|apply W1|done|done].
    + wp_simpl. exists l. split; try done. intros v. rewrite T4. split; (intros [?|(d & Hd & Hpr' & Et)]; [by left|]); right; exists d.
      * split_and!; (done || lia).
      * destruct (decide (d = Z.of_nat i)) as [->|]; [congruence|]. split_and!; (done || lia).
  - exists l1. split; try done. intros w. split; [by left|]. intros [?|(d & Hd & _)]; [done|lia].
  - intros [] s (l & T). change (0 + Z.to_nat NPDENTRIES)%nat with 1024%nat in T. by eapply HQ.
Qed.
End tear.

Lemma wp_freevm s l pgdir (Q : unit -> vst -> Prop) :
  kmem_ok s l -> no_kmem s -> uspace (kmemory s) l pgdir ->
  (forall s' l', kmem_ok s' l' -> no_kmem s' -> same_cpu s s' ->
     (forall w, w ∈ l' <-> w ∈ l \/ of_space (kmemory s) pgdir w) ->
     (forall w b, page_ok w -> w ∉ l' -> in_page w b -> kmemory s' b = kmemory s b) -> Q tt s') ->
  wp (freevm pgdir) Q s.
Proof.
  intros Hk Hn Hu HQ. unfold freevm. pose proof (pd_page _ _ _ (us_pgd _ _ _ Hu)) as Hpg. pose proof (pg_base _ Hpg).
  destruct (Z.eqb_spec pgdir 0); [unfold KERNBASE in *; lia|]. rewrite wp_bind.
  apply (wp_deallocuvm s l); [done|done|done|unfold KERNBASE; lia|lia|]. change (PGROUNDUP 0) with 0. change (PGROUNDUP KERNBASE) with KERNBASE.
  intros s1 l1 [F1 F2 F3 F4 F5 F6 F7 F8]. rewrite wp_bind. apply (wp_tear s1 l1); [apply F4|done|done|].
  intros s2 l2 T. pose proof T as [T1 T2 T3 T4 T5]. destruct (torn_dir s1 l1 pgdir (us_pgd _ _ _ F4) 1024 s2 l2 ltac:(lia) T) as [Hpl Hpd].
  apply (wp_kfree s2 l2); [done..|]. intros s3 -> Hk3.
  assert (forall w, w ∈ pgdir :: l2 <-> w ∈ l \/ of_space (kmemory s) pgdir w) as Hl.
  { intros w. rewrite elem_of_cons, T4, F7. unfold of_space. rewrite <- F6. unfold tabpage. split.
    - intros [->|[[?|(va & e & H1 & H2 & ->)]|Hd]]; [by right; left; left|by left| |by right; left; right].
      right. right. exists va, e. done.
    - intros [?|[[->|Hd]|(va & e & H1 & H2 & <-)]]; [right; left; by left|by left|right; by right|].
      right. left. right. by exists va, e. }
  apply (HQ _ (pgdir :: l2)); try done.
  - destruct T3 as (? & ? & ?), F3 as (? & ? & ?). split_and!; by etrans.
  - intros w b Hw Hnl Hb. pose proof (proj1 (not_elem_of_cons _ _ _) Hnl) as [N1 N2]. cbn [kmemory set_freelist set_kmemory].
    rewrite freed_mem_out by (eapply (page_disjoint w); [apply Hw|apply Hpg|done|done]). rewrite (T5 w) by done.
    apply (F8 w); [done| | |done].
    + intros Hin. apply N2, T4. by left.
    + intros Ht. apply Hnl, Hl. right. by left.
Qed.

(** ** setupkvm *)

(** What the linker script gives: the data section starts on a page boundary
    above the kernel text. *)
Record syms_ok : Prop := {
  sy_align : sym_data mod 4096 = 0;
  sy_low : KERNLINK < sym_data;
  sy_high : sym_data < KERNBASE + PHYSTOP }.

(** A range of [n] pages of the kernel map, above address [cur]. *)
Record krange (cur : Z) (r : Z * Z * Z * Z) (n : Z) : Prop := {
  kr_pos : 0 < n;
  kr_va : cur <= r.1.1.1;
  kr_val : r.1.1.1 mod 4096 = 0;
  kr_vend : r.1.1.1 + 4096 * n <= 4294967296;
  kr_pa : 0 <= r.1.1.2;
  kr_pal : r.1.1.2 mod 4096 = 0;
  kr_pend : r.1.1.2 + 4096 * n <= 4294967296;
  kr_size : u32 (r.1.2 - r.1.1.2) = 4096 * n;
  kr_perm : 0 <= r.2 < 4096 }.

Inductive kranges : Z -> list (Z * Z * Z * Z) -> Prop :=
| kr_nil cur : kranges cur []
| kr_cons cur r n k : krange cur r n -> kranges (r.1.1.1 + 4096 * n) k -> kranges cur (r :: k).

Lemma kmap_ranges : syms_ok -> kranges KERNBASE kmap.
Proof.
  intros [A L H]. unfold kmap. pose proof (Z.div_mod sym_data 4096 ltac:(lia)) as D. rewrite A, Z.add_0_r in D.
  unfold KERNLINK, KERNBASE, EXTMEM, PHYSTOP, DEVSPACE in *. set (q := sym_data / 4096) in *.
  assert (forall x, (4096 * x) mod 4096 = 0) as Hm by (intros x; rewrite Z.mul_comm; apply Z_mod_mult).
  assert (V2P sym_data = 4096 * (q - 524288)) as Ev by (unfold V2P, KERNBASE; rewrite u32_id; lia).
  assert (V2P (2147483648 + 1048576) = 1048576) as Ek by done.
  apply (kr_cons _ _ 256); [split; cbn; (done || lia)|].
  apply (kr_cons _ _ (q - 524544)); [split; cbn [fst snd]; rewrite ?Ev, ?Ek; try (done || lia); rewrite u32_id; lia|].
  apply (kr_cons _ _ (581632 - q)); [split; cbn [fst snd]; rewrite ?Ev; try (done || lia); rewrite ?u32_id; try lia; rewrite D; apply Hm|].
  apply (kr_cons _ _ 8192); [split; cbn [fst snd]; try (done || lia)|]. constructor.
Qed.

(** A directory under construction: no user pages, tables from [l0]. *)
Record kdir (s0 : vst) (l0 : list Z) (pgdir cur : Z) (s : vst) (l : list Z) : Prop := {
  kd_kmem : kmem_ok s l;
  kd_lock : no_kmem s;
  kd_cpu : same_cpu s0 s;
  kd_pgd : pgd_ok (kmemory s) l pgdir;
  kd_none : forall va, 0 <= va < 4294967296 -> va < KERNBASE \/ cur <= va -> xlate (kmemory s) pgdir va = None;
  kd_suf : l `suffix_of` l0;
  kd_fresh : forall w, page_ok w -> w ∉ l0 -> (forall b, in_page w b -> kmemory s b = kmemory s0 b) /\ ~ tabpage (kmemory s) pgdir w;
  kd_taken : forall w, w ∈ l0 -> w ∈ l \/ tabpage (kmemory s) pgdir w }.

Lemma kdir_space s0 l0 pgdir cur s l : kdir s0 l0 pgdir cur s l -> uspace (kmemory s) l pgdir.
Proof.
  intros [K1 K2 K3 K4 K5 K6 K7 K8]. split; [done| |].
  - intros va e Hva. rewrite K5; [done|unfold KERNBASE in *; lia|by left; lia].
  - intros va va' e e' Hva _. rewrite K5; [done|unfold KERNBASE in *; lia|by left; lia].
Qed.

(** Everything was given back. *)
Record nothing (s0 : vst) (l0 : list Z) (s : vst) (l : list Z) : Prop := {
  no_kmem' : kmem_ok s l;
  no_lock : no_kmem s;
  no_cpu : same_cpu s0 s;
  no_list : forall w, w ∈ l <-> w ∈ l0;
  no_kept : kept s0 l0 s }.

(** An address space made of pages of the free list [l0], the rest of which
    is [l]. *)
Record partial (s0 : vst) (l0 : list Z) (d : Z) (s : vst) (l : list Z) : Prop := {
  pt_kmem : kmem_ok s l;
  pt_lock : no_kmem s;
  pt_cpu : same_cpu s0 s;
  pt_space : uspace (kmemory s) l d;
  pt_sub : forall w, w ∈ l -> w ∈ l0;
  pt_fresh : forall w, page_ok w -> w ∉ l0 -> (forall b, in_page w b -> kmemory s b = kmemory s0 b) /\ ~ tabpage (kmemory s) d w;
  pt_user : forall va e, 0 <= va < KERNBASE -> xlate (kmemory s) d va = Some e -> table_of e ∈ l0;
  pt_taken : forall w, w ∈ l0 -> w ∈ l \/ of_space (kmemory s) d w }.

Lemma partial_freevm s0 l0 d s l (Q : unit -> vst -> Prop) :
  partial s0 l0 d s l -> (forall s' l', nothing s0 l0 s' l' -> Q tt s') -> wp (freevm d) Q s.
Proof.
  intros [K1 K2 K3 K4 K5 K6 K7 K8] HQ. apply (wp_freevm s l); [done..|]. intros s' l' F1 F2 F3 F4 F5.
  assert (forall w, w ∈ l' <-> w ∈ l0) as Hl.
  { intros w. rewrite F4. split; [|by apply K8].
    intros [Hin|[Ht|(va & e & Hva & Hx & <-)]]; [by apply K5| |by eapply K7].
    destruct (decide (w ∈ l0)) as [|Hn]; [done|]. destruct (tabpage_ok _ _ _ _ (us_pgd _ _ _ K4) Ht) as [Hw _]. by destruct (K6 w Hw Hn). }
  apply (HQ s' l'). split; try done.
  - destruct F3 as (? & ? & ?), K3 as (? & ? & ?). split_and!; by etrans.
  - intros w b Hw Hnl Hb. rewrite (F5 w); [by apply (K6 w)|done|by rewrite Hl|done].
Qed.

Lemma kdir_partial s0 l0 pgdir cur s l : kdir s0 l0 pgdir cur s l -> partial s0 l0 pgdir s l.
Proof.
  intros K. pose proof K as [K1 K2 K3 K4 K5 K6 K7 K8]. split; try done.
  - by eapply kdir_space.
  - intros w Hin. destruct K6 as [z ->]. apply elem_of_app. by right.
  - intros va e Hva. rewrite K5; [done|unfold KERNBASE in *; lia|by left; lia].
  - intros w Hw. destruct (K8 w Hw); [by left|right; by left].
Qed.

Section ranges.
Context (s0 : vst) (l0 : list Z) (pgdir : Z).

(** Some pages of a range mapped: by [mappages], completely or up to a failure. *)
Lemma kdir_mapped cur r n k s l s' l' : krange cur r n -> KERNBASE <= cur -> 0 <= k <= n -> kdir s0 l0 pgdir cur s l ->
  mapped s l pgdir r.1.1.1 r.1.1.2 r.2 k s' l' -> kdir s0 l0 pgdir (r.1.1.1 + 4096 * n) s' l'.
Proof.
  intros [R1 R2 R3 R4 R5 R6 R7 R8 R9] Hc Hk [K1 K2 K3 K4 K5 K6 K7 K8] [M1 M2 [M3 M3'] M4 M5 M6 [P1 P2 P3 P4] M8]. split; try done.
  - destruct K3 as (? & ? & ?). split_and!; by etrans.
  - intros va Hva Hor. rewrite M6; [|done|lia]. apply K5; [done|]. destruct Hor; [by left|right; lia].
  - by etrans.
  - intros w Hw Hl0. destruct (K7 w Hw Hl0) as [C1 C2].
    assert (w ∉ l) as Hnl by (intros Hin; apply Hl0; destruct K6 as [z ->]; apply elem_of_app; by right).
    destruct (P2 w Hw Hnl C2) as [C3 C4]. split; [|done]. intros b Hb. by rewrite C3, C1.
  - intros w Hw. destruct (K8 w Hw) as [Hin|Ht]; [by apply P4|right; by apply P3].
Qed.

Lemma wp_setup_loop k : forall cur s l (Q : Z -> vst -> Prop), kranges cur k -> KERNBASE <= cur -> kdir s0 l0 pgdir cur s l ->
  (forall s' l', kdir s0 l0 pgdir 4294967296 s' l' -> Q pgdir s') ->
  (forall s' l', nothing s0 l0 s' l' -> Q 0 s') ->
  wp (setupkvm_loop pgdir k) Q s.
Proof.
  induction k as [|[[[virt ps] pe] perm] k IH]; intros cur s l Q Hr Hc K HQ HQ0; cbn [setupkvm_loop].
  - rewrite wp_ret. apply (HQ s l). destruct K as [K1 K2 K3 K4 K5 K6 K7 K8]. split; try done.
    intros va Hva [?|?]; [apply K5; [done|by left]|lia].
  - inversion Hr as [|? ? n ? R Rk]; subst. pose proof R as [R1 R2 R3 R4 R5 R6 R7 R8 R9]. cbn [fst snd] in *.
    rewrite wp_bind, R8. pose proof K as [K1 K2 K3 K4 K5 K6 K7 K8].
    apply (wp_mappages s l); try done; [unfold KERNBASE in *; lia|intros i Hi; apply K5; [unfold KERNBASE in *; lia|right; lia]| |].
    + intros s' l' M. change (0 <? 0) with false. cbn iota. eapply IH; [exact Rk|lia| |exact HQ|exact HQ0].
      apply (kdir_mapped cur (virt, ps, pe, perm) n n s l); [done|done|lia|done|done].
    + intros j s' Hj M. change (-1 <? 0) with true. cbn iota. rewrite wp_bind.
      apply (partial_freevm s0 l0 pgdir s' []).
      * eapply kdir_partial, (kdir_mapped cur (virt, ps, pe, perm) n j s l); [done|done|lia|done|done].
      * intros s2 l2 N. rewrite wp_ret. by eapply HQ0.
Qed.
End ranges.

Lemma zeroed_pde s v d : 0 <= d < 1024 -> pde_of (kmemory (zeroed s v)) v d = 0.
Proof. intros Hd. unfold pde_of. cbn. by apply load32_zeroed. Qed.

Lemma kdir_start s v l cur : kmem_ok s (v :: l) -> no_kmem s -> kdir s (v :: l) v cur (zeroed s v) l.
Proof.
  intros Hk Hn. pose proof (km_pages _ _ Hk) as [Hv Hpl]%Forall_cons. pose proof (km_nodup _ _ Hk) as [Hvl Hnd]%NoDup_cons.
  assert (forall d, 0 <= d < 1024 -> present (pde_of (kmemory (zeroed s v)) v d) = false) as Hnp.
  { intros d Hd. by rewrite zeroed_pde. }
  assert (forall w, tabpage (kmemory (zeroed s v)) v w -> w = v) as Ht.
  { intros w [->|(d & Hd & Hpr & _)]; [done|]. rewrite Hnp in Hpr by done. done. }
  assert (forall w b, page_ok w -> w <> v -> in_page w b -> kmemory (zeroed s v) b = kmemory s b) as Hout.
  { intros w b Hw Hne Hb. apply zeroed_out. eapply (page_disjoint w); [apply Hw|apply Hv|done|done]. }
  split; try done.
  - destruct (km_list _ _ Hk) as [_ Hl]. split; [|done|done]. cbn [freelist zeroed set_kmemory set_freelist].
    eapply flist_ext; [|exact Hl]. intros w a Hw Ha. apply (Hout w); [|by intros ->|unfold in_page, PGSIZE; lia].
    apply list_elem_of_lookup in Hw as [i Hi]. by eapply (Forall_lookup_1 _ _ _ _ Hpl).
  - split; [done|done| |].
    + intros d Hd Hpr. rewrite Hnp in Hpr by done. done.
    + intros d d' Hd _ Hpr. rewrite Hnp in Hpr by done. done.
  - intros va Hva _. unfold xlate. by rewrite Hnp by apply PDX_range.
  - by exists [v].
  - intros w Hw Hnl. apply not_elem_of_cons in Hnl as [N1 N2]. split; [intros b Hb; by apply (Hout w)|]. by intros ->%Ht.
  - intros w [->|Hw]%elem_of_cons; [right; by left|by left].
Qed.

Lemma wp_setupkvm s l (Q : Z -> vst -> Prop) : syms_ok -> kmem_ok s l -> no_kmem s ->
  (forall v s' l', v ∈ l -> kdir s l v 4294967296 s' l' -> Q v s') ->
  (forall s' l', nothing s l s' l' -> Q 0 s') ->
  wp setupkvm Q s.
Proof.
  intros Hsy Hk Hn HQ HQ0. unfold setupkvm. rewrite wp_bind. apply (wp_kalloc s l); [done|done|]. destruct l as [|v l].
  - cbn [Z.eqb]. rewrite wp_ret. apply (HQ0 s []). by split.
  - intros s1 -> Hk1. pose proof (km_pages _ _ Hk) as [Hv _]%Forall_cons. pose proof (pg_base _ Hv).
    destruct (Z.eqb_spec v 0); [unfold KERNBASE in *; lia|]. unfold upd_mem. wp_simpl.
    change (DEVSPACE <? P2V PHYSTOP) with false. cbn iota.
    match goal with |- wp _ _ ?x => change x with (zeroed s v) end.
    apply (wp_setup_loop s (v :: l) v kmap KERNBASE (zeroed s v) l); [by apply kmap_ranges|lia|by apply kdir_start| |done].
    intros s' l' K. apply (HQ v s' l'); [left|done].
Qed.

(** ** copyuvm *)

Lemma flags_present e : present e = true -> Z.lor (PTE_FLAGS e) PTE_P = PTE_FLAGS e /\ 0 <= PTE_FLAGS e < 4096.
Proof.
  intros Hp. unfold PTE_FLAGS, PTE_P. change 4095 with (Z.ones 12). split.
  - apply Z.bits_inj'. intros i Hi. rewrite Z.lor_spec, Z.land_spec. destruct (decide (i = 0)) as [->|Hn].
    + change (Z.testbit 1 0) with true. rewrite orb_true_r, Z.ones_spec_low by lia. rewrite andb_true_r. symmetry.
      unfold present, PTE_P in Hp. change 1 with (Z.ones 1) in Hp. rewrite Z.land_ones in Hp by lia. change (2 ^ 1) with 2 in Hp.
      rewrite Z.bit0_odd. rewrite Zmod_odd in Hp. by destruct (Z.odd e).
    + change 1 with (2 ^ 0) at 1. rewrite Z.pow2_bits_false by lia. apply orb_false_r.
  - rewrite Z.land_ones by lia. apply Z.mod_pos_bound. done.
Qed.

Section parent.
Context (s0 : vst) (l0 : list Z) (pgdir : Z) (Hu : uspace (kmemory s0) l0 pgdir).

(** The copy of a page: the same flags and bytes in a page of [l0]. *)
Definition copy_of (d : Z) (s : vst) (va : Z) : Prop :=
  exists e e', xlate (kmemory s0) pgdir va = Some e /\ xlate (kmemory s) d va = Some e' /\ table_of e' ∈ l0 /\
    PTE_FLAGS e' = PTE_FLAGS e /\ forall o, 0 <= o < 4096 -> kmemory s (table_of e' + o) = kmemory s0 (table_of e + o).

Record copied (d i : Z) (s : vst) (l : list Z) : Prop := {
  cp_partial : partial s0 l0 d s l;
  cp_page : forall va, 0 <= va < i -> copy_of d s va;
  cp_none : forall va, i <= va < KERNBASE -> xlate (kmemory s) d va = None }.

(** The parent is not touched. *)
Lemma parent_kept s : kept s0 l0 s ->
  (forall va, xlate (kmemory s) pgdir va = xlate (kmemory s0) pgdir va) /\
  (forall k, 0 <= k < 1024 -> pde_of (kmemory s) pgdir k = pde_of (kmemory s0) pgdir k) /\
  (forall w, tabpage (kmemory s) pgdir w <-> tabpage (kmemory s0) pgdir w).
Proof.
  intros Hk. destruct (tab_ext (kmemory s0) (kmemory s) pgdir) as (E1 & E2 & E3); [|done].
  intros w a Hw Ha. destruct (tabpage_ok _ _ _ _ (us_pgd _ _ _ Hu) Hw). by apply (Hk w).
Qed.

Lemma parent_space s l : kept s0 l0 s -> (forall w, w ∈ l -> w ∈ l0) -> uspace (kmemory s) l pgdir.
Proof.
  intros Hk Hl. destruct (parent_kept s Hk) as (E1 & E2 & E3). pose proof (us_pgd _ _ _ Hu) as Hp. split.
  - apply (pgd_free _ l0); [|intros w Hw; left; by apply Hl]. eapply pgd_ext; [|exact Hp].
    intros w a Hw Ha. destruct (tabpage_ok _ _ _ _ Hp Hw). by apply (Hk w).
  - intros va e Hva. rewrite E1, E3. intros Hx. destruct (us_page _ _ _ Hu va e Hva Hx) as (? & ? & ?). split_and!; [done|by eauto|done].
  - intros va va' e e' H1 H2. rewrite !E1. by apply (us_inj _ _ _ Hu).
Qed.

Lemma partial_kept d s l : partial s0 l0 d s l -> kept s0 l0 s.
Proof. intros P w b Hw Hnl Hb. by apply (pt_fresh _ _ _ _ _ P w). Qed.

(** One page: taken, filled from the parent's page, and mapped. *)
Section page.
Context (d i : Z) (s : vst) (v : Z) (l : list Z) (e : Z) (Hc : copied d i s (v :: l))
  (Hi : 0 <= i < KERNBASE) (Hal : i mod 4096 = 0) (Hx : xlate (kmemory s0) pgdir i = Some e).
Let s1 := set_kmemory (memmove (kmemory s) v (table_of e) PGSIZE) (set_freelist (load32 (kmemory s) v) s).

Lemma filled_out b : ~ in_page v b -> kmemory s1 b = kmemory s b.
Proof.
  intros Hb. cbn. rewrite memmove_spec by (unfold PGSIZE; lia). unfold in_page in Hb.
  destruct (Z.leb_spec v b), (Z.ltb_spec b (v + PGSIZE)); cbn; (done || lia).
Qed.
Lemma filled_in o : 0 <= o < 4096 -> kmemory s1 (v + o) = kmemory s0 (table_of e + o).
Proof.
  intros Ho. cbn. rewrite memmove_spec by (unfold PGSIZE; lia).
  destruct (Z.leb_spec v (v + o)), (Z.ltb_spec (v + o) (v + PGSIZE)); unfold PGSIZE in *; try lia. cbn [andb].
  destruct (us_page _ _ _ Hu i e Hi Hx) as (W1 & W2 & W3). replace (v + o - v) with o by lia.
  apply (partial_kept d s (v :: l) (cp_partial _ _ _ _ Hc) (table_of e)); [done|done|unfold in_page, PGSIZE; lia].
Qed.

Lemma taken_facts : page_ok v /\ v ∉ l /\ v ∈ l0 /\ kmem_ok s1 l /\ uspace (kmemory s1) l d /\ ~ tabpage (kmemory s1) d v /\
  (forall va, xlate (kmemory s1) d va = xlate (kmemory s) d va) /\ (forall w, tabpage (kmemory s1) d w <-> tabpage (kmemory s) d w) /\
  (forall va e', 0 <= va < KERNBASE -> xlate (kmemory s1) d va = Some e' -> table_of e' <> v).
Proof.
  destruct Hc as [[K1 K2 K3 K4 K5 K6 K7 K8] C1 C2].
  pose proof (km_pages _ _ K1) as [Hv Hpl]%Forall_cons. pose proof (km_nodup _ _ K1) as [Hvl Hnd]%NoDup_cons.
  destruct (uspace_take _ (kmemory s1) v l d K4 Hv filled_out) as (T1 & T2 & T3 & T4). split_and!; try done.
  - apply K5. left.
  - destruct (km_list _ _ K1) as [_ Hl]. split; [|done|done]. cbn [freelist s1 set_kmemory set_freelist].
    eapply flist_ext; [|exact Hl]. intros w a Hw Ha. apply filled_out. pose proof Hw as [j Hj]%list_elem_of_lookup.
    eapply (page_disjoint w); [by eapply (Forall_lookup_1 _ _ _ _ Hpl)|apply Hv|by intros ->|unfold in_page, PGSIZE; lia].
  - intros va e' Hva. rewrite T3. intros Hx'. destruct (us_page _ _ _ K4 va e' Hva Hx') as (_ & W2 & _).
    by apply not_elem_of_cons in W2 as [? _].
Qed.

Lemma copied_add s' l' : addpage s1 l d i (Some (pte_val (V2P v) (PTE_FLAGS e) 0)) s' l' -> copied d (i + 4096) s' l'.
Proof.
  intros [A1 A2 A3 A4 [P1 P2 P3 P4] A6]. destruct taken_facts as (Hv & Hvl & Hv0 & Hk1 & T1 & T2 & T3 & T4 & T5).
  destruct (xlate_present _ _ _ _ Hx) as (_ & _ & Hpe). destruct (flags_present e Hpe) as [Hf1 Hf2].
  destruct (user_entry v (PTE_FLAGS e) Hv Hf2) as (E1 & E2 & _). rewrite Hf1 in E2. destruct Hc as [[K1 K2 K3 K4 K5 K6 K7 K8] C1 C2].
  set (en := pte_val (V2P v) (PTE_FLAGS e) 0) in *.
  assert (forall va, (va / 4096 =? i / 4096) = (i <=? va) && (va <? i + 4096)) as Hpg.
  { intros va. pose proof (Z.div_mod va 4096). pose proof (Z.mod_pos_bound va 4096). pose proof (Z.div_mod i 4096).
    destruct (Z.eqb_spec (va / 4096) (i / 4096)), (Z.leb_spec i va), (Z.ltb_spec va (i + 4096)); cbn [andb]; try done; lia. }
  assert (forall va, 0 <= va < KERNBASE -> xlate (kmemory s') d va = if (i <=? va) && (va <? i + 4096) then Some en else xlate (kmemory s) d va) as Hxl.
  { intros va Hva. by rewrite A6, T3, Hpg by (unfold KERNBASE in *; lia). }
  assert (forall w, w ∉ l0 -> w <> v /\ w ∉ l) as Hnl.
  { intros w Hw. split; [congruence|]. intros Hin. apply Hw, K5. by right. }
  split; [split; try done|..].
  - destruct K3 as (? & ? & ?), A3 as (? & ? & ?). split_and!; by etrans.
  - intros w Hw. apply K5. right. destruct P1 as [z ->]. apply elem_of_app. by right.
  - intros w Hw Hl0. destruct (K6 w Hw Hl0) as [B1 B2]. destruct (Hnl w Hl0) as [N1 N2].
    destruct (P2 w Hw N2) as [B3 B4]; [by rewrite T4|]. split; [|done]. intros b Hb. rewrite B3 by done.
    rewrite filled_out; [by apply B1|]. eapply (page_disjoint w); [apply Hw|apply Hv|done|done].
  - intros va e' Hva. rewrite Hxl by done. destruct (_ && _); [|by apply K7]. intros [= <-]. by rewrite E1.
  - intros w Hw. destruct (K8 w Hw) as [[->|Hin]%elem_of_cons|[Ht|(va & e' & H1 & H2 & H3)]].
    + right. right. exists i, en. split_and!; [lia|lia| |done]. rewrite Hxl by lia.
      destruct (Z.leb_spec i i), (Z.ltb_spec i (i + 4096)); cbn; (done || lia).
    + destruct (P4 w Hin); [by left|right; by left].
    + right. left. by apply P3, T4.
    + right. right. exists va, e'. split_and!; [lia|lia| |done]. rewrite Hxl by done.
      destruct (Z.leb_spec i va), (Z.ltb_spec va (i + 4096)); cbn [andb]; try done. rewrite C2 in H2 by lia. done.
  - intros va Hva. destruct (Z.lt_ge_cases va i) as [Hlt|Hge].
    + destruct (C1 va ltac:(lia)) as (a & a' & X1 & X2 & X3 & X4 & X5). exists a, a'. split_and!; try done.
      * rewrite Hxl by lia. destruct (Z.leb_spec i va); [lia|]. done.
      * intros o Ho. rewrite <- X5 by done. destruct (us_page _ _ _ K4 va a' ltac:(lia) X2) as (W1 & W2 & W3).
        apply not_elem_of_cons in W2 as [W2 W2']. destruct (P2 _ W1 W2') as [B3 _]; [by rewrite T4|].
        assert (in_page (table_of a') (table_of a' + o)) as Hin by (unfold in_page, PGSIZE; lia).
        rewrite B3 by done. apply filled_out. eapply (page_disjoint (table_of a')); [apply W1|apply Hv|done|done].
    + exists e, en. split_and!; [|rewrite Hxl by (unfold KERNBASE in *; pose proof (Z.div_mod i 4096); lia)|by rewrite E1|done|].
      * rewrite <- Hx. apply xlate_page; [unfold KERNBASE in *; lia..|]. specialize (Hpg va).
        destruct (Z.leb_spec i va), (Z.ltb_spec va (i + 4096)); lia.
      * destruct (Z.leb_spec i va), (Z.ltb_spec va (i + 4096)); cbn [andb]; (done || lia).
      * intros o Ho. rewrite E1. destruct (P2 v Hv Hvl T2) as [B3 _]. rewrite B3 by (unfold in_page, PGSIZE; lia). by apply filled_in.
  - intros va Hva. rewrite Hxl by lia. destruct (Z.leb_spec i va), (Z.ltb_spec va (i + 4096)); try lia. cbn [andb]. apply C2. lia.
Qed.

(** The page was not mapped and goes back. *)
Lemma partial_give s2 s3 fl : addpage s1 l d i None s2 [] ->
  s3 = set_freelist v (set_kmemory (freed_mem (kmemory s2) v fl) s2) -> kmem_ok s3 [v] -> partial s0 l0 d s3 [v].
Proof.
  intros [A1 A2 A3 A4 [P1 P2 P3 P4] A6] -> Hk3. destruct taken_facts as (Hv & Hvl & Hv0 & Hk1 & T1 & T2 & T3 & T4 & T5).
  destruct Hc as [[K1 K2 K3 K4 K5 K6 K7 K8] C1 C2]. destruct (P2 v Hv Hvl T2) as [_ Hvt].
  assert (forall va, 0 <= va < KERNBASE -> xlate (kmemory s2) d va = xlate (kmemory s) d va) as Hxs.
  { intros va Hva. rewrite A6, T3 by (unfold KERNBASE in *; lia). destruct (Z.eqb_spec (va / 4096) (i / 4096)) as [E|]; [|done].
    rewrite (xlate_page _ _ va i); [|unfold KERNBASE in *; lia..|done]. symmetry. apply C2. lia. }
  destruct (uspace_give d (kmemory s2) (freed_mem (kmemory s2) v fl) v [] A4 Hv (not_elem_of_nil _) Hvt) as (V1 & V2 & V3).
  { intros va e' Hva Hx'. rewrite Hxs in Hx' by done. apply (T5 va); [done|by rewrite T3]. }
  { intros b Hb. by apply freed_mem_out. }
  split; try done; cbn [kmemory set_freelist set_kmemory].
  - destruct K3 as (? & ? & ?), A3 as (? & ? & ?). split_and!; by etrans.
  - intros w Hw. apply list_elem_of_singleton in Hw as ->. done.
  - intros w Hw Hl0. destruct (K6 w Hw Hl0) as [B1 B2]. assert (w <> v) as N1 by congruence.
    assert (w ∉ l) as N2 by (intros Hin; apply Hl0, K5; by right). destruct (P2 w Hw N2) as [B3 B4]; [by rewrite T4|].
    split; [|by rewrite V3]. intros b Hb. assert (~ in_page v b) by (eapply (page_disjoint w); [apply Hw|apply Hv|done|done]).
    rewrite freed_mem_out, B3, filled_out by done. by apply B1.
  - intros va e' Hva. rewrite V2, Hxs by done. by apply K7.
  - intros w Hw. destruct (K8 w Hw) as [[->|Hin]%elem_of_cons|[Ht|(va & e' & H1 & H2 & H3)]].
    + left. left.
    + destruct (P4 w Hin) as [[]%not_elem_of_nil|?]. right. left. by rewrite V3.
    + right. left. by apply V3, P3, T4.
    + right. right. exists va, e'. by rewrite V2, Hxs.
Qed.
End page.

Lemma kdir_copied d cur s l : kdir s0 l0 d cur s l -> copied d 0 s l.
Proof.
  intros K. split; [by eapply kdir_partial|lia|]. intros va Hva. apply (kd_none _ _ _ _ _ _ K); [unfold KERNBASE in *; lia|left; lia].
Qed.

Lemma wp_copyuvm sz (Q : Z -> vst -> Prop) :
  syms_ok -> kmem_ok s0 l0 -> no_kmem s0 -> 0 <= sz <= KERNBASE ->
  (forall va, 0 <= va < sz -> is_Some (xlate (kmemory s0) pgdir va)) ->
  (forall d s' l', d ∈ l0 -> page_ok d -> copied d (PGROUNDUP sz) s' l' -> Q d s') ->
  (forall s' l', nothing s0 l0 s' l' -> Q 0 s') ->
  wp (copyuvm pgdir sz) Q s0.
Proof.
  intros Hsy Hk Hn Hsz Hmap HQ HQ0. unfold copyuvm. rewrite wp_bind. apply (wp_setupkvm s0 l0); [done..| |].
  2: { intros s' l' N. cbn [Z.eqb]. rewrite wp_ret. by eapply HQ0. }
  intros d s1 l1 Hd K. assert (page_ok d) as Hdp by apply (kd_pgd _ _ _ _ _ _ K). pose proof (pg_base _ Hdp).
  destruct (Z.eqb_spec d 0); [unfold KERNBASE in *; lia|]. rewrite wp_bind.
  destruct (PGROUNDUP_spec sz Hsz) as (R1 & R2 & R3). set (hi := PGROUNDUP sz) in *. pose proof (Z.div_mod hi 4096) as Dhi.
  apply (wp_loop (fun i s => 0 <= i <= hi /\ i mod 4096 = 0 /\ exists l, copied d i s l) (fun i => Z.to_nat ((hi - i) / 4096))).
  2: { split_and!; [lia|lia|done|]. exists l1. by eapply kdir_copied. }
  2: { rewrite Z.sub_0_r. assert (hi / 4096 <= sz / PGSIZE + 1); [|assert (0 <= sz / PGSIZE) by (apply Z.div_pos; unfold PGSIZE; lia); lia].
       rewrite <- (Z_div_plus_full _ 1) by (unfold PGSIZE; lia). unfold PGSIZE. apply Z.div_le_mono; lia. }
  intros i s (Hi & Hmi & l & C). unfold copyuvm_step. pose proof (Z.div_mod i 4096) as Di. destruct (Z.ltb_spec i sz) as [Hlt|Hge].
  2: { rewrite !wp_ret. assert (i = hi) as -> by lia. by eapply HQ. }
  destruct (Hmap i ltac:(lia)) as [e Hx]. pose proof (partial_kept d s l (cp_partial _ _ _ _ C)) as Hkept.
  destruct (parent_kept s Hkept) as (E1 & E2 & E3). destruct (xlate_present _ _ _ _ Hx) as (Hp1 & Hp2 & Hp3).
  rewrite wp_bind. apply wp_walk_peek. rewrite E2, Hp1 by apply PDX_range. unfold rd32. wp_simpl.
  assert (load32 (kmemory s) (table_of (pde_of (kmemory s0) pgdir (PDX i)) + 4 * PTX i) = e) as ->.
  { pose proof (E1 i) as Hxs. rewrite Hx in Hxs. destruct (xlate_present _ _ _ _ Hxs) as (_ & Hl & _). by rewrite E2 in Hl by apply PDX_range. }
  unfold present in Hp3. destruct (Z.land e PTE_P =? 0) eqn:Ep; [done|]. assert (0 <= i < KERNBASE) as Hik by lia.
  pose proof (cp_partial _ _ _ _ C) as P. wp_simpl. apply (wp_kalloc s l); [apply P|apply P|]. destruct l as [|v l].
  - cbn [Z.eqb]. wp_simpl. apply (partial_freevm s0 l0 d s []); [done|]. intros s' l' N. wp_simpl. by eapply HQ0.
  - intros s2 -> Hk2. destruct (taken_facts d i s v l e C) as (Hv & Hvl & Hv0 & Hk1 & T1 & T2 & T3 & T4 & T5).
    pose proof (pg_base _ Hv). destruct (Z.eqb_spec v 0); [unfold KERNBASE in *; lia|]. unfold upd_mem. wp_simpl. fold (table_of e).
    destruct (flags_present e ltac:(unfold present; by rewrite Ep)) as [_ Hf].
    eapply (wp_map_page _ v l d i (PTE_FLAGS e)); [exact T1|done|done|exact T2|exact T5|exact Hk1|apply P|done|done| |done| |].
    + etrans; [exact (T3 i)|]. apply (cp_none _ _ _ _ C). lia.
    + intros s' l' A. change (0 <? 0) with false. cbn iota. wp_simpl. unfold PGSIZE. rewrite u32_id by (unfold KERNBASE in *; lia). split.
      * split_and!; [lia|lia|by rewrite <- Zplus_mod_idemp_r, Z_mod_same_full, Z.add_0_r|]. exists l'.
        by apply (copied_add d i s v l e C Hik Hmi Hx).
      * replace (hi - (i + 4096)) with (hi - i + (-1) * 4096) by lia. rewrite Z_div_plus_full by lia.
        assert (1 <= (hi - i) / 4096) by (apply Z.div_le_lower_bound; lia). lia.
    + intros s' A. change (-1 <? 0) with true. cbn iota. wp_simpl. apply (wp_kfree s' []); [apply A|apply A|done|apply not_elem_of_nil|].
      intros s3 E3' Hk3. wp_simpl. apply (partial_freevm s0 l0 d s3 [v]).
      * by eapply (partial_give d i s v l e C Hik s').
      * intros s4 l4 N. wp_simpl. by eapply HQ0.
Qed.
End parent.
End copy.

(** C13.  [copyuvm], the address space of a forked child: it returns either a
    new directory in which every user page of the parent has a copy with the
    same permissions and bytes, in a page that was free before, and nothing
    else is mapped below KERNBASE, or 0 when memory runs out, and then the
    free list has the pages it had before.  In both cases every page in use
    before keeps its bytes, so the parent's translations and contents do not
    change, and both address spaces consist of distinct pages in use. *)
Theorem copyuvm_copies `{KSyms} s l pgdir sz :
  syms_ok -> kmem_ok s l -> no_kmem s -> uspace (kmemory s) l pgdir -> 0 <= sz <= KERNBASE ->
  (forall va, 0 <= va < sz -> is_Some (xlate (kmemory s) pgdir va)) ->
  exists r s' l', copyuvm pgdir sz s = Ok r s' /\ kmem_ok s' l' /\ uspace (kmemory s') l' pgdir /\
    (forall va, xlate (kmemory s') pgdir va = xlate (kmemory s) pgdir va) /\
    (forall w b, page_ok w -> w ∉ l -> in_page w b -> kmemory s' b = kmemory s b) /\
    ((r = 0 /\ forall w, w ∈ l' <-> w ∈ l) \/
     (r <> 0 /\ r ∈ l /\ uspace (kmemory s') l' r /\
      forall va, 0 <= va < KERNBASE ->
        if va <? PGROUNDUP sz then
          exists e e', xlate (kmemory s) pgdir va = Some e /\ xlate (kmemory s') r va = Some e' /\
            table_of e' ∈ l /\ PTE_FLAGS e' = PTE_FLAGS e /\
            forall o, 0 <= o < 4096 -> kmemory s' (table_of e' + o) = kmemory s (table_of e + o)
        else xlate (kmemory s') r va = None)).
Proof.
  intros Hsy Hk Hn Hu Hsz Hmap.
  assert (wp (copyuvm pgdir sz) (fun r s' => exists l', (r ∈ l /\ page_ok r /\ copied s l pgdir r (PGROUNDUP sz) s' l') \/
    (r = 0 /\ nothing s l s' l')) s) as (r & s' & E & l' & Hr)%wp_inv.
  { apply (wp_copyuvm s l pgdir Hu); try done; intros; eexists; [by left|by right]. }
  exists r, s', l'. destruct Hr as [(Hr & Hpr & [P C1 C2])|[-> [N1 N2 N3 N4 N5]]].
  - pose proof (partial_kept _ _ _ _ _ P) as Hkept. destruct (parent_kept s l pgdir Hu s' Hkept) as (E1 & _ & _).
    destruct P as [K1 K2 K3 K4 K5 K6 K7 K8]. split_and!; [done|done|by eapply parent_space|done|done|].
    right. split_and!; [pose proof (pg_base _ Hpr); unfold KERNBASE in *; lia|done|done|].
    intros va Hva. destruct (Z.ltb_spec va (PGROUNDUP sz)); [apply C1; lia|apply C2; lia].
  - destruct (parent_kept s l pgdir Hu s' N5) as (E1 & _ & _).
    split_and!; [done|done|eapply parent_space; [done|done|intros w Hw; by apply N4]|done|done|by left].
Qed.

(** ** A process of one page *)

#[local] Existing Instance demo_syms.

Definition demo_table : Z := 2149593088.
Definition demo_user : Z := 2149597184.
Definition demo_proc : vst :=
  set_kmemory (store32 (store32 (kmemory demo_pages) demo_pgdir (V2P demo_table + 7)) demo_table (V2P demo_user + 7)) demo_pages.

Lemma demo_free_pages w : w ∈ [2149580800; 2149584896] -> w = 2149580800 \/ w = 2149584896.
Proof. rewrite elem_of_cons, list_elem_of_singleton. done. Qed.

Lemma demo_proc_kmem : kmem_ok demo_proc [2149580800; 2149584896].
Proof.
  apply (kmem_ok_mem demo_pages); [apply demo_pages_ok|]. intros v a Hv%demo_free_pages Ha. unfold in_page, PGSIZE in Ha.
  rewrite !store32_bytes. unfold demo_table, demo_pgdir.
  repeat match goal with |- context [?x <=? a] => destruct (Z.leb_spec x a) | |- context [a <? ?x] => destruct (Z.ltb_spec a x) end; cbn [andb]; (done || lia).
Qed.

Lemma demo_proc_pde d : 0 <= d < 1024 -> pde_of (kmemory demo_proc) demo_pgdir d = if d =? 0 then V2P demo_table + 7 else 0.
Proof.
  intros Hd. unfold pde_of. cbn [kmemory demo_proc set_kmemory].
  rewrite load32_store32_ne by (unfold demo_table, demo_pgdir; lia).
  destruct (Z.eqb_spec d 0) as [->|Hn]; [rewrite Z.add_0_r; by apply load32_store32|].
  rewrite load32_store32_ne by (unfold demo_pgdir; lia). cbn [kmemory demo_pages].
  rewrite !load32_store32_ne by (unfold demo_pgdir; lia). done.
Qed.

Lemma demo_proc_xlate va : 0 <= va < 4294967296 ->
  xlate (kmemory demo_proc) demo_pgdir va = if va / 4096 =? 0 then Some (V2P demo_user + 7) else None.
Proof.
  intros Hva. pose proof (PDX_range va) as Hd. pose proof (PTX_range va) as Ht. unfold xlate. rewrite demo_proc_pde by done.
  assert (0 <= va / 4096 < 1048576) as Hq by (split; [apply Z.div_pos; lia|apply Z.div_lt_upper_bound; lia]).
  assert (PDX va = va / 4096 / 1024) as Ed by (rewrite PDX_eq, Z.div_div by lia; done).
  pose proof (PTX_eq va) as Et. pose proof (Z.div_mod (va / 4096) 1024 ltac:(lia)) as Dm.
  destruct (Z.eqb_spec (PDX va) 0) as [E|E].
  - change (present (V2P demo_table + 7)) with true. change (table_of (V2P demo_table + 7)) with demo_table. cbv iota zeta. cbn [kmemory demo_proc set_kmemory].
    destruct (Z.eqb_spec (va / 4096) 0) as [Ev|Ev].
    + assert (PTX va = 0) as -> by (rewrite Et, Ev; done). rewrite Z.mul_0_r, Z.add_0_r, load32_store32 by done. done.
    + assert (PTX va <> 0) by lia. rewrite !load32_store32_ne by (unfold demo_table, demo_pgdir; lia). cbn [kmemory demo_pages].
      rewrite !load32_store32_ne by (unfold demo_table; lia). done.
  - destruct (Z.eqb_spec (va / 4096) 0); [|done]. exfalso. apply E. rewrite Ed. by rewrite e.
Qed.

Lemma demo_proc_tab w : tabpage (kmemory demo_proc) demo_pgdir w -> w = demo_pgdir \/ w = demo_table.
Proof.
  intros [->|(d & Hd & Hpr & <-)]; [by left|]. rewrite demo_proc_pde in * by done. destruct (d =? 0); [by right|done].
Qed.

Lemma demo_page w : w ∈ [demo_pgdir; demo_table; demo_user] -> page_ok w /\ w ∉ [2149580800; 2149584896].
Proof.
  intros Hw. repeat (apply elem_of_cons in Hw as [->|Hw]); [..|by apply not_elem_of_nil in Hw];
    (split; [repeat split; unfold PGSIZE, KERNBASE, PHYSTOP; cbn; unfold demo_pgdir, demo_table, demo_user; (done || lia)
            |intros [H|H]%demo_free_pages; vm_compute in H; done]).
Qed.

Lemma demo_proc_space : uspace (kmemory demo_proc) [2149580800; 2149584896] demo_pgdir.
Proof.
  destruct (demo_page demo_pgdir ltac:(left)) as [A1 A2]. destruct (demo_page demo_table ltac:(right; left)) as [B1 B2].
  destruct (demo_page demo_user ltac:(do 2 right; left)) as [C1 C2]. split.
  - split; [done|done| |].
    + intros d Hd. rewrite demo_proc_pde by done. destruct (d =? 0); [|done]. intros _.
      change (table_of (V2P demo_table + 7)) with demo_table. done.
    + intros d d' Hd Hd'. rewrite !demo_proc_pde by done. destruct (Z.eqb_spec d 0), (Z.eqb_spec d' 0); try done. lia.
  - intros va e Hva. rewrite demo_proc_xlate by (unfold KERNBASE in *; lia). destruct (va / 4096 =? 0); [|done]. intros [= <-].
    change (table_of (V2P demo_user + 7)) with demo_user. split_and!; [done|done|]. intros [H|H]%demo_proc_tab; vm_compute in H; done.
  - intros va va' e e' Hva Hva'. rewrite !demo_proc_xlate by (unfold KERNBASE in *; lia).
    destruct (Z.eqb_spec (va / 4096) 0), (Z.eqb_spec (va' / 4096) 0); try done. lia.
Qed.

Lemma copyuvm_copies_witness :
  exists r s' l', copyuvm demo_pgdir 100 demo_proc = Ok r s' /\ kmem_ok s' l' /\ uspace (kmemory s') l' demo_pgdir /\
    (forall va, xlate (kmemory s') demo_pgdir va = xlate (kmemory demo_proc) demo_pgdir va) /\
    (forall w b, page_ok w -> w ∉ [2149580800; 2149584896] -> in_page w b -> kmemory s' b = kmemory demo_proc b) /\
    ((r = 0 /\ forall w, w ∈ l' <-> w ∈ [2149580800; 2149584896]) \/
     (r <> 0 /\ r ∈ [2149580800; 2149584896] /\ uspace (kmemory s') l' r /\
      forall va, 0 <= va < KERNBASE ->
        if va <? 4096 then
          exists e e', xlate (kmemory demo_proc) demo_pgdir va = Some e /\ xlate (kmemory s') r va = Some e' /\
            table_of e' ∈ [2149580800; 2149584896] /\ PTE_FLAGS e' = PTE_FLAGS e /\
            forall o, 0 <= o < 4096 -> kmemory s' (table_of e' + o) = kmemory demo_proc (table_of e + o)
        else xlate (kmemory s') r va = None)).
Proof.
  apply (copyuvm_copies demo_proc [2149580800; 2149584896] demo_pgdir 100).
  - split; cbn; unfold KERNLINK, KERNBASE, EXTMEM, PHYSTOP; (done || lia).
  - apply demo_proc_kmem.
  - apply not_elem_of_nil.
  - apply demo_proc_space.
  - unfold KERNBASE. lia.
  - intros va Hva. rewrite demo_proc_xlate by lia. rewrite Z.div_small by lia. by eexists.
Defined.

(** One page more. *)
Lemma allocuvm_grows_witness :
  exists r s' l', allocuvm demo_pgdir 100 8000 demo_proc = Ok r s' /\ kmem_ok s' l' /\ uspace (kmemory s') l' demo_pgdir /\
    (forall va, 0 <= va < 4294967296 -> ~ (4096 <= va < 8192) ->
       xlate (kmemory s') demo_pgdir va = xlate (kmemory demo_proc) demo_pgdir va) /\
    (forall w b, page_ok w -> w ∉ [2149580800; 2149584896] -> ~ tabpage (kmemory demo_proc) demo_pgdir w -> in_page w b ->
       kmemory s' b = kmemory demo_proc b) /\
    ((r = 8000 /\ forall va, 4096 <= va < 8192 ->
        exists e, xlate (kmemory s') demo_pgdir va = Some e /\ table_of e ∈ [2149580800; 2149584896] /\ PTE_FLAGS e = 7 /\
          forall b, in_page (table_of e) b -> kmemory s' b = 0) \/
     (r = 0 /\ (forall va, 0 <= va < 4294967296 -> xlate (kmemory s') demo_pgdir va = xlate (kmemory demo_proc) demo_pgdir va) /\
        forall w, w ∈ [2149580800; 2149584896] -> w ∈ l' \/ tabpage (kmemory s') demo_pgdir w)).
Proof.
  apply (allocuvm_grows demo_proc [2149580800; 2149584896] demo_pgdir 100 8000).
  - apply demo_proc_kmem.
  - apply not_elem_of_nil.
  - split; [apply demo_cons_ok|apply not_elem_of_nil].
  - apply demo_proc_space.
  - lia.
  - unfold KERNBASE. lia.
  - change (PGROUNDUP 100) with 4096. change (PGROUNDUP 8000) with 8192. intros va Hva. rewrite demo_proc_xlate by lia.
    destruct (Z.eqb_spec (va / 4096) 0); [|done]. pose proof (Z.div_mod va 4096). pose proof (Z.mod_pos_bound va 4096). lia.
Defined.
