(* ===== verification/Kern.v ===== *)
(** * The kernel state, memory seen through page tables, the console device

    [kst] puts together the states of the components: the file system (with
    the log, the buffers, the process table and the console below it), the
    page allocator and memory, the file table, the pipes and the tick count.
    [consoleread], [consolewrite] of [console.c] fill the device switch.  A
    pipe lives in a page of its own; it is kept as a record under the page's
    address. *)

From S2P Require Import Prelude Bytes Core Bio Log StringLib Cons Fs Vm.

Definition NFILE : nat := 100.
Definition PIPESIZE : Z := 512.
Definition CONSOLE : Z := 1.

(** ** The console device *)

(** The loop of [consoleread] with [n] bytes to go and [acc] stored: [None]
    when the process is killed. *)
Definition consoleread_step (target : Z) (l : Z * list Z) : M fsst (Z * list Z + option Z * list Z) :=
  let '(n, acc) := l in
  if 0 <? n then
    s ← gets fcons;
    if in_r s =? in_w s then
      p ← fcore curproc; pr ← fcore (get_proc p);
      if negb (p_killed pr =? 0) then mret (inr (None, acc)) else
      fcore (sleep ChInput LkCons) ;; mret (inl (n, acc))
    else
      let c := buf_at s (in_r s) in
      modify (fun s => set_fcons (set_in_r (u32 (in_r (fcons s) + 1)) (fcons s)) s) ;;
      if c =? 4 then
        (if u32 n <? target
         then modify (fun s => set_fcons (set_in_r (u32 (in_r (fcons s) - 1)) (fcons s)) s) else skip) ;;
        mret (inr (Some n, acc))
      else
        let acc := acc ++ [c] in let n := n - 1 in
        if c =? 10 then mret (inr (Some n, acc)) else mret (inl (n, acc))
  else mret (inr (Some n, acc)).

(** [consoleread] with the console lock held: the result and the bytes stored. *)
Definition consoleread_from (i : nat) (target n : Z) (acc : list Z) : M fsst (Z * list Z) :=
  r ← loop (Z.to_nat n + 1) (consoleread_step target) (n, acc);
  fcore (release LkCons) ;;
  ilock (Some i) ;;
  mret (match fst r with None => -1 | Some n => s32 (target - n) end, snd r).
Definition consoleread (i : nat) (n : Z) : M fsst (Z * list Z) :=
  iunlock (Some i) ;;
  fcore (acquire LkCons) ;;
  consoleread_from i (u32 n) n [].
(** After a sleep. *)
Definition consoleread_resume (i : nat) (target n : Z) (acc : list Z) : M fsst (Z * list Z) :=
  fcore (sleep_resume LkCons) ;; consoleread_from i target n acc.

Definition consolewrite (i : nat) (buf : list Z) (n : Z) : M fsst Z :=
  iunlock (Some i) ;;
  fcore (acquire LkCons) ;;
  lift (H := fs_cons) (consputs (take (Z.to_nat n) buf)) ;;
  fcore (release LkCons) ;;
  ilock (Some i) ;;
  mret n.

(** The device switch after [consoleinit]; the count is passed as an [int]. *)
Definition devsw : list devops :=
  mkDev None None ::
  mkDev (Some (fun i n => consoleread i (s32 n))) (Some (fun i buf n => consolewrite i buf (s32 n))) ::
  replicate 8 (mkDev None None).

(** ** Files and pipes *)

Inductive ftype := FD_NONE | FD_PIPE | FD_INODE.
#[export] Instance ftype_eq_dec : EqDecision ftype.
Proof. solve_decision. Defined.

Record file := mkFile {
  f_type : ftype; f_ref : Z; f_readable : Z; f_writable : Z;
  f_pipe : Z; f_ip : option nat; f_off : Z }.
Definition set_f_type v f := mkFile v (f_ref f) (f_readable f) (f_writable f) (f_pipe f) (f_ip f) (f_off f).
Definition set_f_ref v f := mkFile (f_type f) v (f_readable f) (f_writable f) (f_pipe f) (f_ip f) (f_off f).
Definition set_f_off v f := mkFile (f_type f) (f_ref f) (f_readable f) (f_writable f) (f_pipe f) (f_ip f) v.

Record pipe := mkPipe {
  pi_data : list Z; pi_nread : Z; pi_nwrite : Z; pi_readopen : Z; pi_writeopen : Z }.
Definition set_pi_data v p := mkPipe v (pi_nread p) (pi_nwrite p) (pi_readopen p) (pi_writeopen p).
Definition set_pi_nread v p := mkPipe (pi_data p) v (pi_nwrite p) (pi_readopen p) (pi_writeopen p).
Definition set_pi_nwrite v p := mkPipe (pi_data p) (pi_nread p) v (pi_readopen p) (pi_writeopen p).
Definition set_pi_readopen v p := mkPipe (pi_data p) (pi_nread p) (pi_nwrite p) v (pi_writeopen p).
Definition set_pi_writeopen v p := mkPipe (pi_data p) (pi_nread p) (pi_nwrite p) (pi_readopen p) v.

(** ** The kernel state *)

Record kst := mkK {
  kfs : fsst;
  kuse_lock : Z;
  kfreelist : Z;
  kmem : mem;
  files : list file;
  pipes : gmap Z pipe;
  ticks : Z }.

Definition set_kfs v s := mkK v (kuse_lock s) (kfreelist s) (kmem s) (files s) (pipes s) (ticks s).
Definition set_files v s := mkK (kfs s) (kuse_lock s) (kfreelist s) (kmem s) v (pipes s) (ticks s).
Definition set_pipes v s := mkK (kfs s) (kuse_lock s) (kfreelist s) (kmem s) (files s) v (ticks s).
Definition set_ticks v s := mkK (kfs s) (kuse_lock s) (kfreelist s) (kmem s) (files s) (pipes s) v.

#[export] Instance k_fs : Lens kst fsst := {| lget := kfs; lset := set_kfs |}.
#[export] Instance k_core : Lens kst kcore := lens_compose k_fs fs_core.
#[export] Instance k_cons : Lens kst consst := lens_compose k_fs fs_cons.
#[export] Instance k_vm : Lens kst vst :=
  {| lget s := mkV (lget (kfs s)) (fcons (kfs s)) (kuse_lock s) (kfreelist s) (kmem s);
     lset v s := mkK (set_fcons (vcons v) (lset (vcore v) (kfs s)))
                     (use_lock v) (freelist v) (kmemory v) (files s) (pipes s) (ticks s) |}.

Definition core {A} (m : M kcore A) : M kst A := lift (H := k_core) m.
Definition fs {A} (m : M fsst A) : M kst A := lift (H := k_fs) m.
Definition vm {A} (m : M vst A) : M kst A := lift (H := k_vm) m.
Definition logop {A} (m : M lst A) : M kst A := fs (lcall m).

(** [myproc()->killed], with a current process. *)
Definition killed : M kst bool :=
  p ← core curproc; pr ← core (get_proc p); mret (negb (p_killed pr =? 0)).

(** ** Memory through the current page table

    A load or store at [va] by the kernel, which runs with write protection
    on: it goes where the page table that %cr3 holds maps [va]. *)

Definition vaddr (write : bool) (va : Z) : M vst Z :=
  d ← gets (fun s => P2V (cr3 (vcore s)));
  p ← walkpgdir d va false;
  match p with
  | None => fault
  | Some pte =>
      e ← rd32 pte;
      if (Z.land e PTE_P =? 0) || write && (Z.land e PTE_W =? 0) then fault
      else mret (P2V (PTE_ADDR e) + Z.land va 4095)
  end.

Definition uload (va : Z) : M vst Z := a ← vaddr false va; gets (fun s => kmemory s a).
Definition ustore (va v : Z) : M vst unit := a ← vaddr true va; upd_mem (fun m => mset m a v).
Fixpoint uloads (va : Z) (n : nat) : M vst (list Z) :=
  match n with
  | O => mret []
  | S n' => b ← uload va; l ← uloads (u32 (va + 1)) n'; mret (b :: l)
  end.
Fixpoint ustores (va : Z) (l : list Z) : M vst unit :=
  match l with
  | [] => skip
  | b :: l' => ustore va b ;; ustores (u32 (va + 1)) l'
  end.

(** The characters of a C string kept in a buffer. *)
Fixpoint cstr (l : list Z) : list Z :=
  match l with
  | [] => []
  | c :: l' => if c =? 0 then [] else c :: cstr l'
  end.
