(* ===== verification/File.v ===== *)
(** * Pipes and open files

    Models [pipe.c] and [file.c].  A [struct file*] is an index into
    [ftable.file], a [struct pipe*] the address of the pipe's page.  Buffers
    of the caller are addresses in its memory.  A routine that sleeps stops
    there and continues in its [_resume] part. *)

From S2P Require Import Prelude Bytes Core Bio Log StringLib Cons Fs Vm Kern.

Section file.
Context `{KSyms}.

(** ** pipe.c *)

Definition get_pipe (p : Z) : M kst pipe := m ← gets pipes; deref (m !! p).
Definition upd_pipe (p : Z) (f : pipe -> pipe) : M kst unit :=
  x ← get_pipe p; modify (fun s => set_pipes (<[p := f x]> (pipes s)) s).

Definition pipeclose (p : Z) (writable : Z) : M kst unit :=
  core (acquire (LkPipe p)) ;;
  (if negb (writable =? 0)
   then upd_pipe p (set_pi_writeopen 0) ;; core (wakeup (ChPipeR p))
   else upd_pipe p (set_pi_readopen 0) ;; core (wakeup (ChPipeW p))) ;;
  x ← get_pipe p;
  if (pi_readopen x =? 0) && (pi_writeopen x =? 0)
  then core (release (LkPipe p)) ;; vm (kfree p) ;; modify (fun s => set_pipes (delete p (pipes s)) s)
  else core (release (LkPipe p)).

(** Byte [i] of the loop of [pipewrite]; [None] when the reader is gone. *)
Definition pipewrite_step (p addr n i : Z) : M kst (Z + option unit) :=
  if i <? n then
    x ← get_pipe p;
    if pi_nwrite x =? u32 (pi_nread x + PIPESIZE) then
      k ← (if pi_readopen x =? 0 then mret true else killed);
      if (k : bool) then mret (inr None) else
      core (wakeup (ChPipeR p)) ;; core (sleep (ChPipeW p) (LkPipe p)) ;; mret (inl i)
    else
      b ← vm (uload (u32 (addr + i)));
      upd_pipe p (fun x => set_pi_nwrite (u32 (pi_nwrite x + 1))
        (set_pi_data (<[Z.to_nat (pi_nwrite x mod PIPESIZE) := b]> (pi_data x)) x)) ;;
      mret (inl (i + 1))
  else mret (inr (Some tt)).
Definition pipewrite_from (p addr n i : Z) : M kst Z :=
  r ← loop (Z.to_nat (n - i) + 1) (pipewrite_step p addr n) i;
  match r with
  | None => core (release (LkPipe p)) ;; mret (-1)
  | Some _ => core (wakeup (ChPipeR p)) ;; core (release (LkPipe p)) ;; mret n
  end.
Definition pipewrite (p addr n : Z) : M kst Z :=
  core (acquire (LkPipe p)) ;; pipewrite_from p addr n 0.
Definition pipewrite_resume (p addr n i : Z) : M kst Z :=
  core (sleep_resume (LkPipe p)) ;; pipewrite_from p addr n i.

Definition piperead_step (p addr n i : Z) : M kst (Z + Z) :=
  if i <? n then
    x ← get_pipe p;
    if pi_nread x =? pi_nwrite x then mret (inr i) else
    b ← idx (pi_data x) (Z.to_nat (pi_nread x mod PIPESIZE));
    upd_pipe p (fun x => set_pi_nread (u32 (pi_nread x + 1)) x) ;;
    vm (ustore (u32 (addr + i)) b) ;;
    mret (inl (i + 1))
  else mret (inr i).
Definition piperead_from (p addr n : Z) : M kst Z :=
  x ← get_pipe p;
  if (pi_nread x =? pi_nwrite x) && negb (pi_writeopen x =? 0) then
    k ← killed;
    if (k : bool) then core (release (LkPipe p)) ;; mret (-1) else
    core (sleep (ChPipeR p) (LkPipe p)) ;; spin
  else
    i ← loop (Z.to_nat n + 1) (piperead_step p addr n) 0;
    core (wakeup (ChPipeW p)) ;;
    core (release (LkPipe p)) ;;
    mret i.
Definition piperead (p addr n : Z) : M kst Z :=
  core (acquire (LkPipe p)) ;; piperead_from p addr n.
Definition piperead_resume (p addr n : Z) : M kst Z :=
  core (sleep_resume (LkPipe p)) ;; piperead_from p addr n.

(** ** file.c *)

Definition get_file (f : nat) : M kst file := l ← gets files; idx l f.
Definition upd_file (f : nat) (g : file -> file) : M kst unit :=
  x ← get_file f; modify (fun s => set_files (<[f := g x]> (files s)) s).

Definition filealloc : M kst (option nat) :=
  core (acquire LkFtable) ;;
  l ← gets files;
  match list_find (fun f => f_ref f = 0) l with
  | Some (f, _) => upd_file f (set_f_ref 1) ;; core (release LkFtable) ;; mret (Some f)
  | None => core (release LkFtable) ;; mret None
  end.

Definition filedup (f : nat) : M kst nat :=
  core (acquire LkFtable) ;;
  x ← get_file f;
  if f_ref x <? 1 then panic "filedup" else
  upd_file f (set_f_ref (f_ref x + 1)) ;;
  core (release LkFtable) ;;
  mret f.

Definition fileclose (f : nat) : M kst unit :=
  core (acquire LkFtable) ;;
  x ← get_file f;
  if f_ref x <? 1 then panic "fileclose" else
  upd_file f (set_f_ref (f_ref x - 1)) ;;
  if 0 <? f_ref x - 1 then core (release LkFtable) else
  ff ← get_file f;
  upd_file f (fun y => set_f_type FD_NONE (set_f_ref 0 y)) ;;
  core (release LkFtable) ;;
  match f_type ff with
  | FD_PIPE => pipeclose (f_pipe ff) (f_writable ff)
  | FD_INODE => logop begin_op ;; fs (iput (f_ip ff)) ;; logop end_op
  | FD_NONE => skip
  end.

(** [struct stat] has two bytes of padding after each short. *)
Definition filestat (f : nat) (st : Z) : M kst Z :=
  x ← get_file f;
  if decide (f_type x = FD_INODE) then
    fs (ilock (f_ip x)) ;;
    i ← deref (f_ip x);
    v ← fs (stati i);
    vm (ustores st (le_enc 2 (u16 (st_type v)))) ;;
    vm (ustores (u32 (st + 4)) (le_enc 4 (u32 (st_dev v)))) ;;
    vm (ustores (u32 (st + 8)) (le_enc 4 (st_ino v))) ;;
    vm (ustores (u32 (st + 12)) (le_enc 2 (u16 (st_nlink v)))) ;;
    vm (ustores (u32 (st + 16)) (le_enc 4 (st_size v))) ;;
    fs (iunlock (f_ip x)) ;;
    mret 0
  else mret (-1).

Definition fileread (f : nat) (addr n : Z) : M kst Z :=
  x ← get_file f;
  if f_readable x =? 0 then mret (-1) else
  match f_type x with
  | FD_PIPE => piperead (f_pipe x) addr n
  | FD_INODE =>
      fs (ilock (f_ip x)) ;;
      i ← deref (f_ip x);
      rd ← fs (readi devsw i (f_off x) (u32 n));
      vm (ustores addr (snd rd)) ;;
      (if 0 <? fst rd then upd_file f (fun y => set_f_off (u32 (f_off y + fst rd)) y) else skip) ;;
      fs (iunlock (f_ip x)) ;;
      mret (fst rd)
  | FD_NONE => panic "fileread"
  end.

(** The most bytes one transaction of [filewrite] writes. *)
Definition filewrite_max : Z := ((MAXOPBLOCKS - 1 - 1 - 2) / 2) * 512.

(** One round of [filewrite] with [i] bytes written. *)
Definition filewrite_step (f : nat) (addr n i : Z) : M kst (Z + Z) :=
  if i <? n then
    let n1 := if filewrite_max <? n - i then filewrite_max else n - i in
    logop begin_op ;;
    x ← get_file f;
    fs (ilock (f_ip x)) ;;
    ip ← deref (f_ip x);
    x ← get_file f;
    src ← vm (uloads (u32 (addr + i)) (Z.to_nat n1));
    r ← fs (writei devsw ip src (f_off x) n1);
    (if 0 <? r then upd_file f (fun y => set_f_off (u32 (f_off y + r)) y) else skip) ;;
    fs (iunlock (f_ip x)) ;;
    logop end_op ;;
    if r <? 0 then mret (inr i) else
    if negb (r =? n1) then panic "short filewrite" else mret (inl (i + r))
  else mret (inr i).
Definition filewrite (f : nat) (addr n : Z) : M kst Z :=
  x ← get_file f;
  if f_writable x =? 0 then mret (-1) else
  match f_type x with
  | FD_PIPE => pipewrite (f_pipe x) addr n
  | FD_INODE =>
      i ← loop (Z.to_nat n + 1) (filewrite_step f addr n) 0;
      mret (if i =? n then n else -1)
  | FD_NONE => panic "filewrite"
  end.

(** A new pipe: the data bytes are whatever the page holds after the lock. *)
Definition new_pipe (m : mem) (p : Z) : pipe :=
  mkPipe ((fun k => m (p + 52 + Z.of_nat k)) <$> seq 0 (Z.to_nat PIPESIZE)) 0 0 1 1.
Definition pipealloc : M kst (option (nat * nat)) :=
  o0 ← filealloc;
  match o0 with
  | None => mret None
  | Some f0 =>
      o1 ← filealloc;
      match o1 with
      | None => fileclose f0 ;; mret None
      | Some f1 =>
          p ← vm kalloc;
          if p =? 0 then fileclose f0 ;; fileclose f1 ;; mret None else
          modify (fun s => set_pipes (<[p := new_pipe (kmem s) p]> (pipes s)) s) ;;
          upd_file f0 (fun x => mkFile FD_PIPE (f_ref x) 1 0 p (f_ip x) (f_off x)) ;;
          upd_file f1 (fun x => mkFile FD_PIPE (f_ref x) 0 1 p (f_ip x) (f_off x)) ;;
          mret (Some (f0, f1))
      end
  end.
End file.
