(* ===== verification/FileSpec.v ===== *)
(** * Pipes are queues of bytes

    The ring buffer of a pipe, with its free-running 32-bit counters, refines a
    queue of at most [PIPESIZE] bytes. *)

From S2P Require Import Prelude Bytes Core Bio Log StringLib Cons Fs Vm Kern File.

(** ** Translation of addresses *)

Definition utrans (m : mem) (cr3 : Z) (write : bool) (va : Z) : option Z :=
  let pde := load32 m (P2V cr3 + 4 * PDX va) in
  if Z.land pde PTE_P =? 0 then None else
  let e := load32 m (P2V (PTE_ADDR pde) + 4 * PTX va) in
  if (Z.land e PTE_P =? 0) || write && (Z.land e PTE_W =? 0) then None
  else Some (P2V (PTE_ADDR e) + Z.land va 4095).

Definition kcr3 (s : kst) : Z := cr3 (bcore (lbio (flog (kfs s)))).
Definition kcore_of (s : kst) : kcore := bcore (lbio (flog (kfs s))).
Definition set_kcore (c : kcore) (s : kst) : kst :=
  set_kfs (set_flog (set_lbio (set_bcore c (lbio (flog (kfs s)))) (flog (kfs s))) (kfs s)) s.
Definition set_kmem (m : mem) (s : kst) : kst :=
  mkK (kfs s) (kuse_lock s) (kfreelist s) m (files s) (pipes s) (ticks s).

Lemma wp_core {A} (m : M kcore A) (Q : A -> kst -> Prop) s :
  wp (core m) Q s = wp m (fun a c => Q a (set_kcore c s)) (kcore_of s).
Proof. unfold core. by rewrite wp_lift. Qed.

Lemma set_kcore_id s : set_kcore (kcore_of s) s = s.
Proof. by destruct s as [[[[] ?] ? ? ?] ? ? ? ? ? ?]. Qed.
Lemma set_kcore_twice c c' s : set_kcore c (set_kcore c' s) = set_kcore c s.
Proof. done. Qed.

Lemma vaddr_eq write va (v : vst) :
  vaddr write va v = match utrans (kmemory v) (cr3 (vcore v)) write va with Some a => Ok a v | None => Fault end.
Proof.
  unfold vaddr, utrans, walkpgdir, rd32, mbind, M_bind, gets. cbn [negb].
  destruct (Z.land (load32 _ _) PTE_P =? 0); [done|]. cbn [negb]. unfold mret, M_ret.
  by destruct (_ || _).
Qed.

Lemma vm_back (s : kst) m : lset (Lens := k_vm) (set_kmemory m (lget s)) s = set_kmem m s.
Proof. by destruct s as [[[[] ?] ? ? ?] ? ? ? ? ? ?]. Qed.
Lemma vm_id (s : kst) : lset (Lens := k_vm) (lget s) s = s.
Proof. by destruct s as [[[[] ?] ? ? ?] ? ? ? ? ? ?]. Qed.

Lemma wp_uload va a (Q : Z -> kst -> Prop) s :
  utrans (kmem s) (kcr3 s) false va = Some a -> Q (kmem s a) s -> wp (vm (uload va)) Q s.
Proof.
  intros Ht HQ. unfold vm. rewrite wp_lift. unfold uload. rewrite wp_bind. unfold wp at 1. rewrite vaddr_eq.
  cbn [kmemory vcore lget k_vm]. change (cr3 (lget (kfs s))) with (kcr3 s). rewrite Ht. rewrite wp_gets.
  change (Q (kmem s a) (lset (Lens := k_vm) (lget s) s)). by rewrite vm_id.
Qed.

Lemma wp_ustore va a v (Q : unit -> kst -> Prop) s :
  utrans (kmem s) (kcr3 s) true va = Some a -> Q tt (set_kmem (mset (kmem s) a v) s) -> wp (vm (ustore va v)) Q s.
Proof.
  intros Ht HQ. unfold vm. rewrite wp_lift. unfold ustore. rewrite wp_bind. unfold wp at 1. rewrite vaddr_eq.
  cbn [kmemory vcore lget k_vm]. change (cr3 (lget (kfs s))) with (kcr3 s). rewrite Ht. unfold upd_mem. rewrite wp_modify.
  change (Q tt (lset (Lens := k_vm) (set_kmemory (mset (kmem s) a v) (lget s)) s)). by rewrite vm_back.
Qed.

(** ** The queue in a pipe *)

Record pipe_abs (x : pipe) (q : list Z) : Prop := {
  pa_data : length (pi_data x) = Z.to_nat PIPESIZE;
  pa_read : 0 <= pi_nread x < 4294967296;
  pa_write : pi_nwrite x = u32 (pi_nread x + Z.of_nat (length q));
  pa_len : Z.of_nat (length q) <= PIPESIZE;
  pa_bytes : forall k b, q !! k = Some b ->
    pi_data x !! Z.to_nat ((pi_nread x + Z.of_nat k) mod PIPESIZE) = Some b }.

Definition ring_index (a : Z) : nat := Z.to_nat (a mod PIPESIZE).

Lemma ring_index_u32 a : ring_index (u32 a) = ring_index a.
Proof. unfold ring_index, PIPESIZE. f_equal. exact (u32_mod a 9 ltac:(lia)). Qed.

Lemma ring_index_lt a : (ring_index a < Z.to_nat PIPESIZE)%nat.
Proof. unfold ring_index, PIPESIZE. pose proof (Z.mod_pos_bound a 512). lia. Qed.

Lemma ring_index_ne a j k : 0 <= j < k -> k - j < 512 -> ring_index (a + j) <> ring_index (a + k).
Proof.
  unfold ring_index, PIPESIZE. intros Hjk Hd E.
  pose proof (Z.mod_pos_bound (a + j) 512). pose proof (Z.mod_pos_bound (a + k) 512).
  assert ((a + j) mod 512 = (a + k) mod 512) as Em by lia.
  pose proof (Z.div_mod (a + j) 512). pose proof (Z.div_mod (a + k) 512). lia.
Qed.

Lemma u32_ne a b : 0 < b - a < 4294967296 -> u32 a <> u32 b.
Proof.
  intros Hd E. unfold u32 in E. pose proof (Z.div_mod a 4294967296). pose proof (Z.div_mod b 4294967296). lia.
Qed.

Lemma pipe_full x q : pipe_abs x q -> (pi_nwrite x =? u32 (pi_nread x + PIPESIZE)) = (Z.of_nat (length q) =? PIPESIZE).
Proof.
  intros [_ Hr Hw Hl _]. rewrite Hw. unfold PIPESIZE in *.
  destruct (Z.eqb_spec (Z.of_nat (length q)) 512) as [->|Hne]; [apply Z.eqb_refl|]. apply Z.eqb_neq, u32_ne. lia.
Qed.
Lemma pipe_empty x q : pipe_abs x q -> (pi_nread x =? pi_nwrite x) = bool_decide (q = []).
Proof.
  intros [_ Hr Hw Hl _]. rewrite Hw. unfold PIPESIZE in *. destruct q as [|b q].
  - rewrite bool_decide_true by done. apply Z.eqb_eq. cbn. rewrite Z.add_0_r, u32_id; lia.
  - rewrite bool_decide_false by done. apply Z.eqb_neq. rewrite <- (u32_id (pi_nread x)) at 1 by lia.
    apply u32_ne. cbn [length] in *. lia.
Qed.

Definition push (b : Z) (x : pipe) : pipe :=
  set_pi_nwrite (u32 (pi_nwrite x + 1)) (set_pi_data (<[Z.to_nat (pi_nwrite x mod PIPESIZE) := b]> (pi_data x)) x).

Lemma push_abs x q b : pipe_abs x q -> Z.of_nat (length q) < PIPESIZE -> pipe_abs (push b x) (q ++ [b]).
Proof.
  intros [Hd Hr Hw Hl Hb] Hlt. unfold push. split; cbn [pi_data pi_nread pi_nwrite set_pi_nwrite set_pi_data].
  - by rewrite length_insert.
  - done.
  - rewrite Hw, u32_add_l, length_app. cbn. f_equal. lia.
  - rewrite length_app. cbn. lia.
  - intros k c Hk. fold (ring_index (pi_nwrite x)). fold (ring_index (pi_nread x + Z.of_nat k)).
    rewrite Hw, ring_index_u32. apply lookup_app_Some in Hk as [Hk|[Hge Hk]].
    + rewrite list_lookup_insert_ne; [by apply Hb|]. apply not_eq_sym, ring_index_ne.
      * split; [lia|]. apply lookup_lt_Some in Hk. lia.
      * unfold PIPESIZE in *. lia.
    + apply list_lookup_singleton_Some in Hk as [Hk <-]. replace k with (length q) by lia.
      apply list_lookup_insert_eq. rewrite Hd. apply ring_index_lt.
Qed.

Lemma pop_abs x q b : pipe_abs x (b :: q) -> pipe_abs (set_pi_nread (u32 (pi_nread x + 1)) x) q.
Proof.
  intros [Hd Hr Hw Hl Hb]. split; cbn [pi_data pi_nread pi_nwrite set_pi_nread].
  - done.
  - apply u32_range.
  - rewrite Hw, u32_add_l. f_equal. cbn [length]. lia.
  - cbn [length] in Hl. lia.
  - intros k c Hk. specialize (Hb (S k) c Hk). rewrite <- Hb. f_equal.
    fold (ring_index (u32 (pi_nread x + 1) + Z.of_nat k)). fold (ring_index (pi_nread x + Z.of_nat (S k))).
    rewrite <- ring_index_u32, u32_add_l, ring_index_u32. f_equal. lia.
Qed.

(** ** Effects on the kernel state *)

Definition put_pipe (p : Z) (x : pipe) (s : kst) : kst := set_pipes (<[p := x]> (pipes s)) s.
Definition woken (ch : chan) (s : kst) : kst :=
  set_kcore (set_procs (wake (Some ch) <$> procs (kcore_of s)) (kcore_of s)) s.
(** Process [i] asleep on [ch], the CPU in the scheduler with its lock. *)
Definition asleep (i : nat) (ch : chan) (s : kst) : kst :=
  let c := kcore_of s in
  set_kcore (set_procs (alter (fun p => set_p_state SLEEPING (set_p_chan (Some ch) p)) i (procs c))
    (set_held [LkPtable] c)) s.
Definition locked (lk : lockid) (s : kst) : kst := set_kcore (set_held [lk] (kcore_of s)) s.

Lemma put_pipe_twice p x y s : put_pipe p x (put_pipe p y s) = put_pipe p x s.
Proof. unfold put_pipe. cbn. by rewrite insert_insert_eq. Qed.

Lemma core_acquire lk s : held (kcore_of s) = [] -> core (acquire lk) s = Ok tt (locked lk s).
Proof.
  intros Hh. apply wp_eq. rewrite wp_core. apply wp_acquire; [rewrite Hh; apply not_elem_of_nil|].
  by rewrite Hh.
Qed.
Lemma core_release lk s : held (kcore_of s) = [lk] -> core (release lk) s = Ok tt (set_kcore (set_held [] (kcore_of s)) s).
Proof.
  intros Hh. apply wp_eq. rewrite wp_core. apply wp_release; [rewrite Hh; left|].
  rewrite Hh. by rewrite remove1_cons.
Qed.
Lemma core_wakeup ch s : LkPtable ∉ held (kcore_of s) -> core (wakeup ch) s = Ok tt (woken ch s).
Proof. intros Hh. apply wp_eq. rewrite wp_core. by apply wp_wakeup. Qed.

Lemma core_sleep ch lk s i pr :
  held (kcore_of s) = [lk] -> lk <> LkPtable -> cur (kcore_of s) = Some i -> procs (kcore_of s) !! i = Some pr ->
  core (sleep ch lk) s = Switched (asleep i ch s).
Proof.
  intros Hh Hlk Hc Hp. assert (i < length (procs (kcore_of s)))%nat as Hlt by (by eapply lookup_lt_Some).
  unfold core, lift.
  assert (sleep ch lk (kcore_of s) = Switched (set_procs (<[i := set_p_state SLEEPING (set_p_chan (Some ch) pr)]>
    (procs (kcore_of s))) (set_held [LkPtable] (kcore_of s)))) as E.
  { unfold sleep, myproc. erewrite (bind_ok (gets cur)) by reflexivity. rewrite Hc.
    rewrite decide_False by done. erewrite bind_ok.
    2: { apply (wp_eq _ _ tt (set_held [LkPtable] (kcore_of s))). wp_simpl. apply wp_acquire.
         - rewrite Hh. by intros ?%list_elem_of_singleton.
         - apply wp_release; rewrite ?Hh; [right; left|]. cbn. rewrite decide_False by done. by rewrite decide_True. }
    erewrite bind_ok by (apply (wp_eq _ _ tt); apply (wp_upd_proc i _ pr); [exact Hp|split; reflexivity]).
    erewrite bind_ok by (apply (wp_eq _ _ tt); eapply (wp_upd_proc i);
      [cbn; by apply list_lookup_insert_eq|split; reflexivity]).
    cbn [procs set_procs set_held]. rewrite list_insert_insert_eq.
    assert (<[i := set_p_state SLEEPING (set_p_chan (Some ch) pr)]> (procs (kcore_of s)) !! i =
      Some (set_p_state SLEEPING (set_p_chan (Some ch) pr))) as Hps by (by apply list_lookup_insert_eq).
    revert Hps. generalize (<[i := set_p_state SLEEPING (set_p_chan (Some ch) pr)]> (procs (kcore_of s))). intros ps Hps.
    unfold sched, curproc, myproc, holding, get_proc, idx, gets, deref, mbind, M_bind, mret, M_ret.
    cbn [cur set_procs set_held procs held]. rewrite Hc. cbn -[lookup]. rewrite bool_decide_true by left.
    cbn -[lookup]. by rewrite Hps. }
  change (lget s) with (kcore_of s). rewrite E. f_equal. unfold asleep. cbn zeta.
  f_equal. f_equal. symmetry. apply list_eq. intros k. destruct (decide (k = i)) as [->|Hne].
  - by rewrite list_lookup_alter_eq, Hp, list_lookup_insert_eq.
  - by rewrite list_lookup_alter_ne, list_lookup_insert_ne.
Qed.

Section pipes.
Context `{KSyms}.

Lemma wp_get_pipe p x (Q : pipe -> kst -> Prop) s : pipes s !! p = Some x -> Q x s -> wp (get_pipe p) Q s.
Proof. intros Hp HQ. unfold get_pipe. wp_simpl. by rewrite Hp. Qed.
Lemma wp_upd_pipe p x f (Q : unit -> kst -> Prop) s :
  pipes s !! p = Some x -> Q tt (put_pipe p (f x) s) -> wp (upd_pipe p f) Q s.
Proof. intros Hp HQ. unfold upd_pipe. wp_simpl. by apply (wp_get_pipe p x). Qed.

Lemma wp_killed i pr (Q : bool -> kst -> Prop) s :
  cur (kcore_of s) = Some i -> procs (kcore_of s) !! i = Some pr ->
  Q (negb (p_killed pr =? 0)) s -> wp killed Q s.
Proof.
  intros Hc Hp HQ. unfold killed. wp_simpl. rewrite wp_core. apply (wp_curproc i); [done|].
  rewrite set_kcore_id, wp_bind, wp_core. apply (wp_get_proc i pr); [done|]. by rewrite set_kcore_id.
Qed.

(** The caller's buffer holds the bytes [l]. *)
Definition readable (s : kst) (addr : Z) (l : list Z) : Prop :=
  forall k b, l !! k = Some b -> exists a,
    utrans (kmem s) (kcr3 s) false (u32 (addr + Z.of_nat k)) = Some a /\ kmem s a = b.

Definition pushes (x : pipe) (l : list Z) : pipe := foldl (fun x b => push b x) x l.

Lemma pushes_abs x q l : pipe_abs x q -> Z.of_nat (length q + length l) <= PIPESIZE -> pipe_abs (pushes x l) (q ++ l).
Proof.
  revert x q. induction l as [|b l IH]; intros x q Hx Hl; [by rewrite app_nil_r|].
  change (b :: l) with ([b] ++ l). rewrite (assoc_L app). cbn [length] in Hl. apply (IH (push b x)).
  - apply push_abs; [done|lia].
  - rewrite length_app. cbn. lia.
Qed.
Lemma pushes_flags x l : pi_readopen (pushes x l) = pi_readopen x /\ pi_writeopen (pushes x l) = pi_writeopen x.
Proof. revert x. induction l as [|b l IH]; intros x; [done|]. exact (IH (push b x)). Qed.

Section write.
Context (p addr n : Z) (l : list Z) (s : kst) (x : pipe) (q : list Z) (i : nat) (pr : proc).
Context (Hp : pipes s !! p = Some x) (Hx : pipe_abs x q) (Hh : held (kcore_of s) = [])
  (Hc : cur (kcore_of s) = Some i) (Hpr : procs (kcore_of s) !! i = Some pr)
  (Hl : readable s addr l) (Hn : Z.of_nat (length l) = n).

Definition wstate (k : nat) : kst := put_pipe p (pushes x (take k l)) (locked (LkPipe p) s).

Lemma wstate_step k :
  (k < length l)%nat -> Z.of_nat (length q + k) < PIPESIZE ->
  pipewrite_step p addr n (Z.of_nat k) (wstate k) = Ok (inl (Z.of_nat (S k))) (wstate (S k)).
Proof.
  intros Hk Hroom. apply wp_eq. unfold pipewrite_step. destruct (Z.ltb_spec (Z.of_nat k) n); [|lia].
  destruct (lookup_lt_is_Some_2 l k Hk) as [b Hb].
  assert (pipes (wstate k) !! p = Some (pushes x (take k l))) as Hpk by apply lookup_insert_eq.
  assert (pipe_abs (pushes x (take k l)) (q ++ take k l)) as Ha by (apply pushes_abs; [done|rewrite length_take; lia]).
  wp_simpl. apply (wp_get_pipe p _ _ _ Hpk). rewrite (pipe_full _ _ Ha), length_app, length_take.
  destruct (Z.eqb_spec (Z.of_nat (length q + min k (length l))) PIPESIZE); [lia|].
  wp_simpl. destruct (Hl k b Hb) as (a & Ht & <-). apply (wp_uload _ a); [exact Ht|]. wp_simpl.
  apply (wp_upd_pipe p _ _ _ _ Hpk). wp_simpl. split; [f_equal; lia|].
  unfold wstate. rewrite put_pipe_twice. f_equal. rewrite (take_S_r _ _ _ Hb). unfold pushes. by rewrite foldl_app.
Qed.

Definition fits : nat := Z.to_nat (Z.min n (PIPESIZE - Z.of_nat (length q))).

Lemma pipewrite_run :
  pipewrite p addr n s =
    (r ← loop (Z.to_nat n + 1 - fits) (pipewrite_step p addr n) (Z.of_nat fits);
     match r with
     | None => core (release (LkPipe p)) ;; mret (-1)
     | Some _ => core (wakeup (ChPipeR p)) ;; core (release (LkPipe p)) ;; mret n
     end) (wstate fits).
Proof.
  unfold pipewrite. rewrite (bind_ok _ _ _ _ _ (core_acquire _ _ Hh)). unfold pipewrite_from.
  assert (locked (LkPipe p) s = wstate 0) as E0.
  { unfold wstate, put_pipe. cbn. rewrite (insert_id (pipes s)) by done. by destruct s. }
  pose proof (pa_len _ _ Hx) as Hlen.
  rewrite E0, Z.sub_0_r. replace (Z.to_nat n + 1)%nat with (fits + (Z.to_nat n + 1 - fits))%nat at 1 by (unfold fits; lia).
  unfold mbind, M_bind.
  rewrite (loop_steps _ Z.of_nat wstate fits); [done|].
  intros k Hk. apply wstate_step; unfold fits in Hk; lia.
Qed.

End write.

(** C23.  [pipewrite] of the bytes [l] on a pipe that holds the queue [q]
    appends them in order, through any wrap-around of the ring and of its
    counters.  With room for all of them it returns their number and wakes
    the readers.  Otherwise it appends what fits, and then gives up with -1
    if the reader is gone or the process was killed, and else goes to sleep
    until a reader makes room, having woken the readers. *)
Theorem pipewrite_appends p addr n l s x q i pr :
  pipes s !! p = Some x -> pipe_abs x q -> held (kcore_of s) = [] ->
  cur (kcore_of s) = Some i -> procs (kcore_of s) !! i = Some pr ->
  readable s addr l -> Z.of_nat (length l) = n ->
  let room := PIPESIZE - Z.of_nat (length q) in
  let now := take (Z.to_nat (Z.min n room)) l in
  let s' := put_pipe p (pushes x now) s in
  pipe_abs (pushes x now) (q ++ now) /\
  pipewrite p addr n s =
    if n <=? room then Ok n (woken (ChPipeR p) s')
    else if (pi_readopen x =? 0) || negb (p_killed pr =? 0) then Ok (-1) s'
    else Switched (asleep i (ChPipeW p) (woken (ChPipeR p) (locked (LkPipe p) s'))).
Proof.
  intros Hp Hx Hh Hc Hpr Hl Hn room now s'. pose proof (pa_len _ _ Hx) as Hlen.
  assert (pipe_abs (pushes x now) (q ++ now)) as Ha.
  { apply pushes_abs; [done|]. unfold now. rewrite length_take. unfold room in *. lia. }
  split; [exact Ha|]. rewrite (pipewrite_run p addr n l s x q i pr) by done.
  set (f := fits n q). assert (now = take f l) as Enow by done.
  assert (wstate p l s x f = locked (LkPipe p) s') as Es.
  { unfold wstate. rewrite <- Enow. done. }
  assert (pipes (wstate p l s x f) !! p = Some (pushes x now)) as Hpk by (unfold wstate; rewrite <- Enow; apply lookup_insert_eq).
  assert (held (kcore_of (wstate p l s x f)) = [LkPipe p]) as Hhk by done.
  destruct (Z.leb_spec n room) as [Hle|Hgt].
  - assert (Z.of_nat f = n) as Ef by (unfold f, fits; unfold room in Hle; lia).
    replace (Z.to_nat n + 1 - f)%nat with 1%nat by lia.
    rewrite (bind_ok _ _ _ (Some tt) (wstate p l s x f)).
    2: { apply loop_done. rewrite Ef. unfold pipewrite_step. by rewrite Z.ltb_irrefl. }
    rewrite (bind_ok _ _ _ _ _ (core_wakeup _ _ ltac:(rewrite Hhk; by intros ?%list_elem_of_singleton))).
    rewrite (bind_ok _ _ _ _ _ (core_release _ (woken (ChPipeR p) (wstate p l s x f)) Hhk)). rewrite Es.
    unfold mret, M_ret. f_equal. unfold woken, locked, s', set_kcore, kcore_of in *. cbn in *. rewrite <- Hh.
    by destruct s as [[[[[] ? ? ?] ?] ? ? ?] ? ? ? ? ? ?].
  - assert (Z.of_nat f = room) as Ef by (unfold f, fits; fold room; lia).
    replace (Z.to_nat n + 1 - f)%nat with (S (Z.to_nat n - f))%nat by lia.
    assert (pipewrite_step p addr n (Z.of_nat f) (wstate p l s x f) =
      if (pi_readopen x =? 0) || negb (p_killed pr =? 0) then Ok (inr None) (wstate p l s x f)
      else Switched (asleep i (ChPipeW p) (woken (ChPipeR p) (wstate p l s x f)))) as Estep.
    { unfold pipewrite_step. destruct (Z.ltb_spec (Z.of_nat f) n); [|lia].
      rewrite (bind_ok _ _ _ (pushes x now) (wstate p l s x f)); [|apply wp_eq; apply (wp_get_pipe p _ _ _ Hpk); done].
      rewrite (pipe_full _ _ Ha), length_app. unfold now at 1. rewrite length_take.
      destruct (Z.eqb_spec (Z.of_nat (length q + min (Z.to_nat (Z.min n room)) (length l))) PIPESIZE);
        [|unfold room in *; lia].
      rewrite (proj1 (pushes_flags x now)).
      rewrite (bind_ok _ _ _ ((pi_readopen x =? 0) || negb (p_killed pr =? 0)) (wstate p l s x f)).
      2: { apply wp_eq. destruct (pi_readopen x =? 0); [done|]. by apply (wp_killed i pr). }
      destruct ((pi_readopen x =? 0) || negb (p_killed pr =? 0)); [done|].
      rewrite (bind_ok _ _ _ _ _ (core_wakeup _ _ ltac:(rewrite Hhk; by intros ?%list_elem_of_singleton))).
      erewrite bind_switched; [reflexivity|]. apply (core_sleep _ _ _ i (wake (Some (ChPipeR p)) pr)); [done|done|done|].
      unfold woken. cbn. by rewrite list_lookup_fmap, Hpr. }
    destruct ((pi_readopen x =? 0) || negb (p_killed pr =? 0)).
    2: { rewrite <- Es. by apply bind_switched, loop_switched. }
    rewrite (bind_ok _ _ _ None (wstate p l s x f)) by (by apply loop_done). rewrite (bind_ok _ _ _ _ _ (core_release _ _ Hhk)). rewrite Es.
    unfold mret, M_ret. f_equal. unfold locked, s', set_kcore, kcore_of in *. cbn in *. rewrite <- Hh.
    by destruct s as [[[[[] ? ? ?] ?] ? ? ?] ? ? ? ? ? ?].
Qed.

(** The caller's buffer can be written: its bytes are at the distinct
    addresses [pas], and no page table is among them. *)
Record writable (s : kst) (addr : Z) (pas : list Z) : Prop := {
  wr_nodup : NoDup pas;
  wr_trans : forall m, (forall a, a ∉ pas -> m a = kmem s a) -> forall k a, pas !! k = Some a ->
    utrans m (kcr3 s) true (u32 (addr + Z.of_nat k)) = Some a }.

Definition stores (m : mem) (pas bytes : list Z) : mem := foldl (fun m p => mset m p.1 p.2) m (zip pas bytes).

Lemma stores_app m pas b a bytes :
  length pas = length bytes -> stores m (pas ++ [a]) (bytes ++ [b]) = mset (stores m pas bytes) a b.
Proof. intros Hl. unfold stores. rewrite zip_with_app by done. by rewrite foldl_app. Qed.

Lemma stores_out m pas bytes a : a ∉ pas -> stores m pas bytes a = m a.
Proof.
  revert m bytes. induction pas as [|c pas IH]; intros m [|b bytes] Hn; try done.
  apply not_elem_of_cons in Hn as [Hne Hn]. unfold stores in *. cbn. rewrite IH by done.
  unfold mset. by destruct (Z.eqb_spec a c).
Qed.

Lemma stores_in m pas bytes j a b :
  NoDup pas -> pas !! j = Some a -> bytes !! j = Some b -> stores m pas bytes a = b.
Proof.
  intros Hd. revert m bytes j. induction Hd as [|c pas Hc Hd IH]; intros m [|d bytes] [|j] Ha Hb; try done.
  - cbn in Ha, Hb. simplify_eq. unfold stores. cbn. fold (stores (mset m a b) pas bytes).
    rewrite stores_out by done. unfold mset. by rewrite Z.eqb_refl.
  - exact (IH (mset m c d) bytes j Ha Hb).
Qed.

Definition pop (x : pipe) : pipe := set_pi_nread (u32 (pi_nread x + 1)) x.
Definition pops (x : pipe) (k : nat) : pipe := Nat.iter k pop x.

Lemma pops_abs x q k : pipe_abs x q -> (k <= length q)%nat -> pipe_abs (pops x k) (drop k q).
Proof.
  intros Hx. induction k as [|k IH]; intros Hk; [by rewrite drop_0|].
  destruct (lookup_lt_is_Some_2 q k ltac:(lia)) as [b Hb]. apply (pop_abs _ _ b).
  rewrite <- (drop_S _ _ _ Hb). apply IH. lia.
Qed.

Lemma wp_get_front x b q s (Q : Z -> kst -> Prop) :
  pipe_abs x (b :: q) -> Q b s -> wp (idx (pi_data x) (Z.to_nat (pi_nread x mod PIPESIZE))) Q s.
Proof.
  intros Hx HQ. apply (wp_idx _ _ b); [|done]. rewrite <- (pa_bytes _ _ Hx 0%nat b) by done.
  by rewrite Z.add_0_r.
Qed.

Section read.
Context (p addr n : Z) (s : kst) (x : pipe) (q pas : list Z).
Context (Hp : pipes s !! p = Some x) (Hx : pipe_abs x q) (Hn : 0 <= n) (Hw : writable s addr pas)
  (Hpas : (Z.to_nat (Z.min n (Z.of_nat (length q))) <= length pas)%nat).

Definition rstate (k : nat) : kst :=
  put_pipe p (pops x k) (set_kmem (stores (kmem s) (take k pas) (take k q)) (locked (LkPipe p) s)).

Lemma rstate_step k :
  (k < Z.to_nat (Z.min n (Z.of_nat (length q))))%nat ->
  piperead_step p addr n (Z.of_nat k) (rstate k) = Ok (inl (Z.of_nat (S k))) (rstate (S k)).
Proof.
  intros Hk. apply wp_eq. unfold piperead_step. destruct (Z.ltb_spec (Z.of_nat k) n); [|lia].
  destruct (lookup_lt_is_Some_2 q k ltac:(lia)) as [b Hb].
  destruct (lookup_lt_is_Some_2 pas k ltac:(lia)) as [a Ha].
  assert (pipes (rstate k) !! p = Some (pops x k)) as Hpk by apply lookup_insert_eq.
  assert (pipe_abs (pops x k) (b :: drop (S k) q)) as Habs.
  { rewrite <- (drop_S _ _ _ Hb). apply pops_abs; [done|lia]. }
  wp_simpl. apply (wp_get_pipe p _ _ _ Hpk). rewrite (pipe_empty _ _ Habs), bool_decide_false by done.
  wp_simpl. apply (wp_get_front _ b _ _ _ Habs). wp_simpl. apply (wp_upd_pipe p _ _ _ _ Hpk). wp_simpl.
  apply (wp_ustore _ a).
  { apply (wr_trans _ _ _ Hw); [|done]. intros c Hc. cbn. apply stores_out.
    intros Hin. apply Hc. by eapply elem_of_take in Hin as (? & ?%list_elem_of_lookup_2 & _). }
  split; [f_equal; lia|]. unfold rstate. rewrite (take_S_r _ _ _ Ha), (take_S_r _ _ _ Hb), stores_app.
  2: { rewrite !length_take. lia. }
  change (pops x (S k)) with (pop (pops x k)). unfold put_pipe. cbn. by rewrite insert_insert_eq.
Qed.
End read.

(** C24.  [piperead] takes bytes from the front of the queue: as many as are
    there, at most [n], stored in order in the caller's buffer, and the
    writers are woken.  On an empty pipe it returns 0 when no writer is left,
    -1 when the process was killed, and else sleeps until a writer comes. *)
Theorem piperead_takes p addr n s x q pas i pr :
  pipes s !! p = Some x -> pipe_abs x q -> held (kcore_of s) = [] ->
  cur (kcore_of s) = Some i -> procs (kcore_of s) !! i = Some pr -> 0 <= n ->
  writable s addr pas -> (Z.to_nat (Z.min n (Z.of_nat (length q))) <= length pas)%nat ->
  let k := Z.to_nat (Z.min n (Z.of_nat (length q))) in
  let m := stores (kmem s) (take k pas) (take k q) in
  pipe_abs (pops x k) (drop k q) /\
  (forall j b, take k q !! j = Some b ->
     exists a, utrans m (kcr3 s) true (u32 (addr + Z.of_nat j)) = Some a /\ m a = b) /\
  piperead p addr n s =
    if bool_decide (q = []) && negb (pi_writeopen x =? 0) then
      if negb (p_killed pr =? 0) then Ok (-1) s
      else Switched (asleep i (ChPipeR p) (locked (LkPipe p) s))
    else Ok (Z.of_nat k) (woken (ChPipeW p) (put_pipe p (pops x k) (set_kmem m s))).
Proof.
  intros Hp Hx Hh Hc Hpr Hn Hw Hpas k m. split; [apply pops_abs; [done|lia]|].
  assert (forall a, a ∉ pas -> m a = kmem s a) as Hm.
  { intros a Ha. apply stores_out. intros Hin. apply Ha.
    by eapply elem_of_take in Hin as (? & ?%list_elem_of_lookup_2 & _). }
  split.
  { intros j b Hj. pose proof (lookup_lt_Some _ _ _ Hj) as Hlt. rewrite length_take in Hlt.
    destruct (lookup_lt_is_Some_2 pas j ltac:(lia)) as [a Ha]. exists a.
    split; [by apply (wr_trans _ _ _ Hw)|].
    apply (stores_in _ _ _ j); [eapply sublist_NoDup; [apply (wr_nodup _ _ _ Hw)|apply sublist_take]| |done].
    rewrite lookup_take_lt by lia. done. }
  unfold piperead. rewrite (bind_ok _ _ _ _ _ (core_acquire _ _ Hh)). unfold piperead_from.
  rewrite (bind_ok _ _ _ x (locked (LkPipe p) s)) by (apply wp_eq; by apply (wp_get_pipe p x)).
  rewrite (pipe_empty _ _ Hx). destruct (bool_decide (q = []) && negb (pi_writeopen x =? 0)) eqn:Eb.
  - rewrite (bind_ok _ _ _ (negb (p_killed pr =? 0)) (locked (LkPipe p) s)) by (apply wp_eq; by apply (wp_killed i pr)).
    destruct (negb (p_killed pr =? 0)).
    + rewrite (bind_ok _ _ _ _ _ (core_release _ (locked (LkPipe p) s) eq_refl)). unfold mret, M_ret. f_equal.
      unfold locked, set_kcore, kcore_of in *. cbn in *. rewrite <- Hh.
      by destruct s as [[[[[] ? ? ?] ?] ? ? ?] ? ? ? ? ? ?].
    + apply bind_switched. by apply (core_sleep _ _ _ i pr).
  - assert (locked (LkPipe p) s = rstate p s x q pas 0) as E0.
    { unfold rstate, put_pipe. cbn. rewrite (insert_id (pipes s)) by done. by destruct s. }
    assert (loop (Z.to_nat n + 1) (piperead_step p addr n) 0 (locked (LkPipe p) s) =
      Ok (Z.of_nat k) (rstate p s x q pas k)) as El.
    { rewrite E0. replace (Z.to_nat n + 1)%nat with (k + S (Z.to_nat n - k))%nat by lia.
      rewrite (loop_steps _ Z.of_nat (rstate p s x q pas) k).
      2: { intros j Hj. by apply rstate_step. }
      apply loop_done. unfold piperead_step. destruct (Z.ltb_spec (Z.of_nat k) n) as [Hlt|]; [|done].
      rewrite (bind_ok _ _ _ (pops x k) (rstate p s x q pas k)).
      2: { apply wp_eq. apply (wp_get_pipe p (pops x k)); [apply lookup_insert_eq|done]. }
      assert (pipe_abs (pops x k) (drop k q)) as Ha by (apply pops_abs; [done|lia]).
      rewrite (pipe_empty _ _ Ha), bool_decide_true; [done|]. apply drop_ge. lia. }
    rewrite (bind_ok _ _ _ _ _ El).
    rewrite (bind_ok _ _ _ _ _ (core_wakeup (ChPipeW p) (rstate p s x q pas k) ltac:(cbn; by intros ?%list_elem_of_singleton))).
    rewrite (bind_ok _ _ _ _ _ (core_release (LkPipe p) (woken (ChPipeW p) (rstate p s x q pas k)) eq_refl)).
    unfold mret, M_ret. f_equal. unfold rstate, woken, locked, put_pipe, set_kmem, set_kcore, kcore_of in *.
    cbn in *. rewrite <- Hh. by destruct s as [[[[[] ? ? ?] ?] ? ? ?] ? ? ? ? ? ?].
Qed.
End pipes.

(** ** Witnesses *)

Definition demo_pipe : pipe := mkPipe (replicate 510 0 ++ [104; 105]) 4294967294 0 1 1.
Definition demo_runner : proc :=
  mkProc 4096 2149580800 0 RUNNING 1 None (mkTf 0 0 0 0 0 0 0 0 0 0 0 0 0 0 0 0 0 0 0) (mkContext 0 0 0 0 0)
    None 0 (replicate NOFILE None) None [].
(** A page directory at physical address 2M whose first table maps the first
    page to physical page 2M + 8K. *)
Definition demo_mem : mem :=
  store32 (store32 (fun a => u8 a) 2149580800 2101255) 2149584896 2105351.
Definition demo_kst : kst :=
  mkK (mkFs (mkLst (mkBst (mkCore [] (Some 0%nat) [demo_runner] 2 None ∅ 2097152 0 0) [] [] []) (mkLog 0 0 0 0 0 0 []))
         (mkSb 0 0 0 0 0 0 0) [] demo_cons)
    1 0 demo_mem [] {[2149601280 := demo_pipe]} 0.

#[local] Instance pipe_syms : KSyms := 
  {| sym_end := 2148532224; sym_data := 2148536320; sym_forkret := 2148532300; sym_trapret := 2148532400 |}.

(** The counters of the demo pipe are about to wrap around. *)
Lemma demo_pipe_abs : pipe_abs demo_pipe [104; 105].
Proof.
  split; try done. intros k b Hk. destruct k as [|[|k]]; [by injection Hk as <-|by injection Hk as <-|done].
Qed.

Lemma demo_readable : readable demo_kst 16 [16; 17; 18].
Proof.
  intros k b Hk. exists (2149588992 + 16 + Z.of_nat k).
  destruct k as [|[|[|k]]]; try done; injection Hk as <-; split; reflexivity.
Qed.

Lemma demo_writable : writable demo_kst 16 [2149589008; 2149589009].
Proof.
  split.
  - apply NoDup_cons; split; [intros ?%list_elem_of_singleton; lia|apply NoDup_singleton].
  - intros m Hm k a Hk.
    assert (forall b, 2149580800 <= b < 2149588992 -> load32 m b = load32 demo_mem b) as Hl.
    { intros b Hb. unfold load32. rewrite !Hm; [done|..]; rewrite !not_elem_of_cons; (split_and!; [lia|lia|apply not_elem_of_nil]). }
    assert (load32 m 2149580800 = 2101255) as Hpd by (rewrite Hl by lia; reflexivity).
    assert (load32 m 2149584896 = 2105351) as Hpt by (rewrite Hl by lia; reflexivity).
    assert (forall va, PDX va = 0 -> PTX va = 0 -> utrans m 2097152 true va = Some (2149588992 + Z.land va 4095)) as Hu.
    { intros va E1 E2. unfold utrans. rewrite E1, E2. change (P2V 2097152 + 4 * 0) with 2149580800. rewrite Hpd.
      change (P2V (PTE_ADDR 2101255) + 4 * 0) with 2149584896. rewrite Hpt. reflexivity. }
    destruct k as [|[|k]]; try done; injection Hk as <-; apply Hu; reflexivity.
Qed.

Lemma pipewrite_appends_witness :
  pipe_abs (pushes demo_pipe [16; 17; 18]) [104; 105; 16; 17; 18] /\
  pipewrite 2149601280 16 3 demo_kst =
    Ok 3 (woken (ChPipeR 2149601280) (put_pipe 2149601280 (pushes demo_pipe [16; 17; 18]) demo_kst)).
Proof.
  exact (pipewrite_appends 2149601280 16 3 [16; 17; 18] demo_kst demo_pipe [104; 105] 0 demo_runner
    eq_refl demo_pipe_abs eq_refl eq_refl eq_refl demo_readable eq_refl).
Defined.

Lemma piperead_takes_witness :
  pipe_abs (pops demo_pipe 2) [] /\
  (forall j b, [104; 105] !! j = Some b -> exists a,
     utrans (stores demo_mem [2149589008; 2149589009] [104; 105]) 2097152 true (u32 (16 + Z.of_nat j)) = Some a /\
     stores demo_mem [2149589008; 2149589009] [104; 105] a = b) /\
  piperead 2149601280 16 5 demo_kst =
    Ok 2 (woken (ChPipeW 2149601280) (put_pipe 2149601280 (pops demo_pipe 2)
      (set_kmem (stores demo_mem [2149589008; 2149589009] [104; 105]) demo_kst))).
Proof.
  exact (piperead_takes 2149601280 16 5 demo_kst demo_pipe [104; 105] [2149589008; 2149589009] 0 demo_runner
    eq_refl demo_pipe_abs eq_refl eq_refl eq_refl ltac:(lia) demo_writable ltac:(cbn; lia)).
Defined.
