(* ===== verification/Proc.v ===== *)
(** * Processes

    Models the rest of [proc.c]: creating, growing, copying, ending and
    reaping processes, and the process listing; [getcallerpcs] of
    [spinlock.c].  The trap frame and the context of a process are values in
    its record; the word [trapret] that [allocproc] puts between them on the
    kernel stack is stored in memory. *)

From S2P Require Import Prelude Bytes Core Bio Log StringLib Cons Fs Vm Kern File.

Definition FL_IF : Z := 512.
Definition DPL_USER : Z := 3.
Definition SEG_UCODE : Z := 3.
Definition SEG_UDATA : Z := 4.

Definition zero_tf : trapframe := mkTf 0 0 0 0 0 0 0 0 0 0 0 0 0 0 0 0 0 0 0.
Definition set_tf_eax v t := mkTf (tf_edi t) (tf_esi t) (tf_ebp t) (tf_oesp t) (tf_ebx t) (tf_edx t) (tf_ecx t) v
  (tf_gs t) (tf_fs t) (tf_es t) (tf_ds t) (tf_trapno t) (tf_err t) (tf_eip t) (tf_cs t) (tf_eflags t) (tf_esp t) (tf_ss t).
Definition set_tf_eip v t := mkTf (tf_edi t) (tf_esi t) (tf_ebp t) (tf_oesp t) (tf_ebx t) (tf_edx t) (tf_ecx t) (tf_eax t)
  (tf_gs t) (tf_fs t) (tf_es t) (tf_ds t) (tf_trapno t) (tf_err t) v (tf_cs t) (tf_eflags t) (tf_esp t) (tf_ss t).
Definition set_tf_esp v t := mkTf (tf_edi t) (tf_esi t) (tf_ebp t) (tf_oesp t) (tf_ebx t) (tf_edx t) (tf_ecx t) (tf_eax t)
  (tf_gs t) (tf_fs t) (tf_es t) (tf_ds t) (tf_trapno t) (tf_err t) (tf_eip t) (tf_cs t) (tf_eflags t) v (tf_ss t).

(** [safestrcpy] into the 16 bytes of [name]: the string is cut to 15 bytes. *)
Definition safe_name (old src : list Z) : list Z := splice old 0 (take 15 (cstr src) ++ [0]).

Section proc.
Context `{KSyms}.

Definition pupd (p : nat) (f : proc -> proc) : M kst unit := core (upd_proc p f).
Definition pget (p : nat) : M kst proc := core (get_proc p).

(** Of 4096 bytes of kernel stack the trap frame takes the last 76. *)
Definition allocproc : M kst (option nat) :=
  core (acquire LkPtable) ;;
  c ← gets (lget (Lens := k_core));
  match list_find (fun p => p_state p = UNUSED) (procs c) with
  | None => core (release LkPtable) ;; mret None
  | Some (p, _) =>
      pupd p (set_p_state EMBRYO) ;;
      pupd p (set_p_pid (nextpid c)) ;;
      core (modify (fun c => set_nextpid (s32 (nextpid c + 1)) c)) ;;
      core (release LkPtable) ;;
      k ← vm kalloc;
      pupd p (set_p_kstack k) ;;
      if k =? 0 then pupd p (set_p_state UNUSED) ;; mret None else
      let sp := k + KSTACKSIZE - 76 - 4 in
      vm (wr32 sp sym_trapret) ;;
      pupd p (set_p_context (mkContext 0 0 0 0 sym_forkret)) ;;
      mret (Some p)
  end.

(** [initcode] is the linked binary of [initcode.S]. *)
Definition userinit (initcode : list Z) : M kst unit :=
  o ← allocproc;
  core (modify (set_initproc o)) ;;
  p ← deref o;
  d ← vm setupkvm;
  pupd p (set_p_pgdir d) ;;
  if d =? 0 then panic "userinit: out of memory?" else
  vm (inituvm d initcode) ;;
  pupd p (set_p_sz PGSIZE) ;;
  let cs := Z.lor (Z.shiftl SEG_UCODE 3) DPL_USER in
  let ds := Z.lor (Z.shiftl SEG_UDATA 3) DPL_USER in
  pupd p (set_p_tf (mkTf 0 0 0 0 0 0 0 0 0 0 ds ds 0 0 0 cs FL_IF PGSIZE ds)) ;;
  pupd p (fun x => set_p_name (safe_name (p_name x) (str "initcode")) x) ;;
  d ← fs (namei devsw (str "/"));
  pupd p (set_p_cwd d) ;;
  core (acquire LkPtable) ;;
  pupd p (set_p_state RUNNABLE) ;;
  core (release LkPtable).

Definition growproc (n : Z) : M kst Z :=
  p ← core curproc;
  x ← pget p;
  sz ← (if 0 <? n then vm (allocuvm (p_pgdir x) (p_sz x) (u32 (p_sz x + n)))
        else if n <? 0 then vm (deallocuvm (p_pgdir x) (p_sz x) (u32 (p_sz x + n)))
        else mret (p_sz x));
  if negb (n =? 0) && (sz =? 0) then mret (-1) else
  pupd p (set_p_sz sz) ;;
  core (switchuvm (Some p)) ;;
  mret 0.

(** [np->ofile[fd] = filedup(curproc->ofile[fd])] for the open descriptors. *)
Definition fork_file (cp np : nat) (fd : nat) : M kst unit :=
  x ← pget cp;
  o ← idx (p_ofile x) fd;
  match o with
  | None => skip
  | Some f => f ← filedup f; pupd np (fun y => set_p_ofile (<[fd := Some f]> (p_ofile y)) y)
  end.
Definition fork : M kst Z :=
  cp ← core curproc;
  o ← allocproc;
  match o with
  | None => mret (-1)
  | Some np =>
      x ← pget cp;
      d ← vm (copyuvm (p_pgdir x) (p_sz x));
      pupd np (set_p_pgdir d) ;;
      if d =? 0 then
        y ← pget np;
        vm (kfree (p_kstack y)) ;;
        pupd np (set_p_kstack 0) ;;
        pupd np (set_p_state UNUSED) ;;
        mret (-1)
      else
        x ← pget cp;
        pupd np (set_p_sz (p_sz x)) ;;
        pupd np (set_p_parent (Some cp)) ;;
        pupd np (set_p_tf (set_tf_eax 0 (p_tf x))) ;;
        for_range 0 NOFILE (fork_file cp np) ;;
        d ← fs (idup (p_cwd x));
        pupd np (set_p_cwd d) ;;
        pupd np (fun y => set_p_name (safe_name (p_name y) (p_name x)) y) ;;
        y ← pget np;
        core (acquire LkPtable) ;;
        pupd np (set_p_state RUNNABLE) ;;
        core (release LkPtable) ;;
        mret (p_pid y)
  end.

Definition exit_file (cp : nat) (fd : nat) : M kst unit :=
  x ← pget cp;
  o ← idx (p_ofile x) fd;
  match o with
  | None => skip
  | Some f => fileclose f ;; pupd cp (fun y => set_p_ofile (<[fd := None]> (p_ofile y)) y)
  end.
(** Pass a child of [cp] to init. *)
Definition reparent (cp i : nat) : M kcore unit :=
  x ← get_proc i;
  if decide (p_parent x = Some cp) then
    c ← gets initproc;
    upd_proc i (set_p_parent c) ;;
    if decide (p_state x = ZOMBIE) then wakeup1 (ChProc <$> c) else skip
  else skip.
(** The last part, which only changes the process table. *)
Definition exit_core (cp : nat) : M kcore unit :=
  acquire LkPtable ;;
  x ← get_proc cp;
  wakeup1 (ChProc <$> p_parent x) ;;
  ps ← gets procs;
  for_range 0 (length ps) (reparent cp) ;;
  upd_proc cp (set_p_state ZOMBIE) ;;
  sched ;;
  panic "zombie exit".
Definition exit : M kst unit :=
  cp ← core curproc;
  c ← gets (lget (Lens := k_core));
  if decide (Some cp = initproc c) then panic "init exiting" else
  for_range 0 NOFILE (exit_file cp) ;;
  logop begin_op ;;
  x ← pget cp;
  fs (iput (p_cwd x)) ;;
  logop end_op ;;
  pupd cp (set_p_cwd None) ;;
  core (exit_core cp).

(** The scan of [wait]: are there children, and the first that has exited. *)
Fixpoint wait_scan (cp : nat) (ps : list proc) (i : nat) (kids : bool) : bool * option nat :=
  match ps with
  | [] => (kids, None)
  | x :: ps' =>
      if decide (p_parent x = Some cp) then
        if decide (p_state x = ZOMBIE) then (true, Some i) else wait_scan cp ps' (S i) true
      else wait_scan cp ps' (S i) kids
  end.
(** [wait] with the process table locked. *)
Definition wait_locked (cp : nat) : M kst Z :=
  c ← gets (lget (Lens := k_core));
  match wait_scan cp (procs c) 0 false with
  | (_, Some i) =>
      x ← pget i;
      vm (kfree (p_kstack x)) ;;
      pupd i (set_p_kstack 0) ;;
      vm (freevm (p_pgdir x)) ;;
      pupd i (set_p_pid 0) ;;
      pupd i (set_p_parent None) ;;
      pupd i (fun y => set_p_name (<[0%nat := 0]> (p_name y)) y) ;;
      pupd i (set_p_killed 0) ;;
      pupd i (set_p_state UNUSED) ;;
      core (release LkPtable) ;;
      mret (p_pid x)
  | (kids, None) =>
      x ← pget cp;
      if negb kids || negb (p_killed x =? 0) then core (release LkPtable) ;; mret (-1) else
      core (sleep (ChProc cp) LkPtable) ;; spin
  end.
Definition wait : M kst Z :=
  cp ← core curproc; core (acquire LkPtable) ;; wait_locked cp.
Definition wait_resume : M kst Z :=
  cp ← core curproc; core (sleep_resume LkPtable) ;; wait_locked cp.

(** The first switch to a process; [first] says whether it is the first ever,
    which initializes the inode cache and the log of the root device. *)
Definition forkret (first : bool) : M kst unit :=
  core (release LkPtable) ;;
  if first then fs (iinit ROOTDEV) ;; logop (initlog ROOTDEV) else skip.

(** ** procdump *)

(** The return addresses on the stack of frames that starts at [ebp]. *)
Fixpoint getcallerpcs (m : mem) (ebp : Z) (n : nat) : list Z :=
  match n with
  | O => []
  | S n' => if (ebp =? 0) || (ebp <? KERNBASE) || (ebp =? 4294967295) then replicate n 0
            else load32 m (ebp + 4) :: getcallerpcs m (load32 m ebp) n'
  end.

Definition state_name (st : procstate) : string :=
  match st with
  | UNUSED => "unused" | EMBRYO => "embryo" | SLEEPING => "sleep "
  | RUNNABLE => "runble" | RUNNING => "run   " | ZOMBIE => "zombie"
  end.
Fixpoint procdump_pcs (pcs : list Z) : M kst unit :=
  match pcs with
  | [] => skip
  | pc :: pcs' => if pc =? 0 then skip else cprintf (Some (str " %p")) [AInt pc] ;; procdump_pcs pcs'
  end.
Definition procdump_one (i : nat) : M kst unit :=
  x ← pget i;
  if decide (p_state x = UNUSED) then skip else
  cprintf (Some (str "%d %s %s")) [AInt (p_pid x); AStr (Some (str (state_name (p_state x)))); AStr (Some (cstr (p_name x)))] ;;
  (if decide (p_state x = SLEEPING) then
     m ← gets kmem; procdump_pcs (getcallerpcs m (ctx_ebp (p_context x)) 10)
   else skip) ;;
  cprintf (Some [10]) [].
Definition procdump : M kst unit :=
  c ← gets (lget (Lens := k_core)); for_range 0 (length (procs c)) procdump_one.
End proc.
