(* ===== verification/Exec.v ===== *)
(** * exec: loading a program

    Models [exec.c], [elf.h] and [loaduvm] of [vm.c].  Path and arguments are
    the strings in the caller's memory, without their terminating zero.  The
    [goto bad] of the source is the [exec_bad] of each failing branch. *)

From S2P Require Import Prelude Bytes Core Bio Log StringLib Cons Fs Vm Kern File Proc.

Definition ELF_MAGIC : Z := 1179403647.
Definition ELF_PROG_LOAD : Z := 1.
Definition MAXARG : nat := 32.

(** The fields of [struct elfhdr] and [struct proghdr] that [exec] uses, and
    their offsets. *)
Definition elf_magic (h : list Z) : Z := get32 h 0.
Definition elf_entry (h : list Z) : Z := get32 h 24.
Definition elf_phoff (h : list Z) : Z := get32 h 28.
Definition elf_phnum (h : list Z) : Z := get16 h 44.
Definition sizeof_elfhdr : Z := 52.
Definition ph_type (h : list Z) : Z := get32 h 0.
Definition ph_off (h : list Z) : Z := get32 h 4.
Definition ph_vaddr (h : list Z) : Z := get32 h 8.
Definition ph_filesz (h : list Z) : Z := get32 h 16.
Definition ph_memsz (h : list Z) : Z := get32 h 20.
Definition sizeof_proghdr : Z := 32.

Section exec.
Context `{KSyms}.

Definition loaduvm_step (pgdir addr : Z) (ip : nat) (offset sz i : Z) : M kst (Z + Z) :=
  if i <? sz then
    p ← vm (walkpgdir pgdir (u32 (addr + i)) false);
    match p with
    | None => panic "loaduvm: address should exist"
    | Some pte =>
        e ← vm (rd32 pte);
        let pa := PTE_ADDR e in
        let n := if u32 (sz - i) <? PGSIZE then u32 (sz - i) else PGSIZE in
        r ← fs (readi devsw ip (u32 (offset + i)) n);
        vm (upd_mem (store_bytes (P2V pa) (snd r))) ;;
        if negb (fst r =? n) then mret (inr (-1)) else mret (inl (u32 (i + PGSIZE)))
    end
  else mret (inr 0).
Definition loaduvm (pgdir addr : Z) (ip : nat) (offset sz : Z) : M kst Z :=
  if negb (addr mod PGSIZE =? 0) then panic "loaduvm: addr must be page aligned" else
  loop (Z.to_nat (sz / PGSIZE) + 2) (loaduvm_step pgdir addr ip offset sz) 0.

(** One program header: [inr None] is a [goto bad]. *)
Definition exec_segment (ip : nat) (pgdir phnum : Z) (l : Z * Z * Z) : M kst (Z * Z * Z + option Z) :=
  let '(i, off, sz) := l in
  if i <? phnum then
    r ← fs (readi devsw ip (u32 off) sizeof_proghdr);
    let ph := snd r in
    let next := s32 (off + sizeof_proghdr) in
    if negb (fst r =? sizeof_proghdr) then mret (inr None) else
    if negb (ph_type ph =? ELF_PROG_LOAD) then mret (inl (i + 1, next, sz)) else
    if ph_memsz ph <? ph_filesz ph then mret (inr None) else
    if u32 (ph_vaddr ph + ph_memsz ph) <? ph_vaddr ph then mret (inr None) else
    sz ← vm (allocuvm pgdir sz (u32 (ph_vaddr ph + ph_memsz ph)));
    if sz =? 0 then mret (inr None) else
    if negb (ph_vaddr ph mod PGSIZE =? 0) then mret (inr None) else
    r ← loaduvm pgdir (ph_vaddr ph) ip (ph_off ph) (ph_filesz ph);
    if r <? 0 then mret (inr None) else mret (inl (i + 1, next, sz))
  else mret (inr (Some sz)).
Definition exec_segments (ip : nat) (pgdir : Z) (elf : list Z) : M kst (option Z) :=
  loop (Z.to_nat (elf_phnum elf) + 1) (exec_segment ip pgdir (elf_phnum elf)) (0, s32 (elf_phoff elf), 0).

(** Push the argument strings: the stack pointer and the addresses pushed. *)
Fixpoint exec_args (pgdir : Z) (argv : list (list Z)) (sp : Z) (argc : nat) (acc : list Z)
    : M kst (option (Z * list Z)) :=
  match argv with
  | [] => mret (Some (sp, acc))
  | arg :: argv' =>
      if (MAXARG <=? argc)%nat then mret None else
      let sp := Z.land (u32 (sp - (Z.of_nat (length arg) + 1))) 4294967292 in
      r ← vm (copyout pgdir sp (arg ++ [0]));
      if r <? 0 then mret None else exec_args pgdir argv' sp (S argc) (acc ++ [sp])
  end.

(** [bad]: free the new page table and the inode, if there are any. *)
Definition exec_bad (pgdir : Z) (ip : option nat) : M kst Z :=
  (if negb (pgdir =? 0) then vm (freevm pgdir) else skip) ;;
  (match ip with Some _ => fs (iunlockput ip) ;; logop end_op | None => skip end) ;;
  mret (-1).

(** The part of a path after its last slash. *)
Fixpoint last_elem (last s : list Z) : list Z :=
  match s with
  | [] => last
  | c :: s' => if c =? 47 then last_elem s' s' else last_elem last s'
  end.

(** Switch the process to its new image. *)
Definition exec_commit (cp : nat) (path : list Z) (elf : list Z) (pgdir sz sp : Z) : M kst Z :=
  pupd cp (fun x => set_p_name (safe_name (p_name x) (last_elem path path)) x) ;;
  x ← pget cp;
  pupd cp (set_p_pgdir pgdir) ;;
  pupd cp (set_p_sz sz) ;;
  pupd cp (fun x => set_p_tf (set_tf_eip (elf_entry elf) (p_tf x)) x) ;;
  pupd cp (fun x => set_p_tf (set_tf_esp sp (p_tf x)) x) ;;
  core (switchuvm (Some cp)) ;;
  vm (freevm (p_pgdir x)) ;;
  mret 0.

(** The stack: two pages, the first inaccessible, then the arguments. *)
Definition exec_stack (cp : nat) (path elf : list Z) (argv : list (list Z)) (pgdir sz : Z) : M kst Z :=
  let sz := PGROUNDUP sz in
  sz ← vm (allocuvm pgdir sz (u32 (sz + 2 * PGSIZE)));
  if sz =? 0 then exec_bad pgdir None else
  vm (clearpteu pgdir (u32 (sz - 2 * PGSIZE))) ;;
  r ← exec_args pgdir argv sz 0 [];
  match r with
  | None => exec_bad pgdir None
  | Some (sp, ptrs) =>
      let argc := Z.of_nat (length ptrs) in
      let ustack := [4294967295; argc; u32 (sp - (argc + 1) * 4)] ++ ptrs ++ [0] in
      let sp := u32 (sp - (3 + argc + 1) * 4) in
      r ← vm (copyout pgdir sp (ustack ≫= le_enc 4));
      if r <? 0 then exec_bad pgdir None else exec_commit cp path elf pgdir sz sp
  end.

Definition exec (path : list Z) (argv : list (list Z)) : M kst Z :=
  cp ← core curproc;
  logop begin_op ;;
  o ← fs (namei devsw path);
  match o with
  | None => logop end_op ;; cprintf (Some (str "exec: fail" ++ [10])) [] ;; mret (-1)
  | Some ip =>
      fs (ilock (Some ip)) ;;
      r ← fs (readi devsw ip 0 sizeof_elfhdr);
      let elf := snd r in
      if negb (fst r =? sizeof_elfhdr) then exec_bad 0 (Some ip) else
      if negb (elf_magic elf =? ELF_MAGIC) then exec_bad 0 (Some ip) else
      pgdir ← vm setupkvm;
      if pgdir =? 0 then exec_bad 0 (Some ip) else
      o ← exec_segments ip pgdir elf;
      match o with
      | None => exec_bad pgdir (Some ip)
      | Some sz =>
          fs (iunlockput (Some ip)) ;;
          logop end_op ;;
          exec_stack cp path elf argv pgdir sz
      end
  end.
End exec.
