(* ===== verification/Syscall.v ===== *)
(** * System calls

    Models [syscall.c], [sysproc.c] and [sysfile.c].  The arguments of a call
    are fetched from the user stack through the page table; a string argument
    is returned as its bytes.  The table [syscalls] is the function
    [syscall_fn] of the call number. *)

From S2P Require Import Prelude Bytes Core Bio Log StringLib Cons Fs Vm Kern File Proc Exec.

Definition O_RDONLY : Z := 0.
Definition O_WRONLY : Z := 1.
Definition O_RDWR : Z := 2.
Definition O_CREATE : Z := 512.

Section syscall.
Context `{KSyms}.

(** ** syscall.c *)

Definition curp : M kst proc := p ← core curproc; pget p.

(** A word of user memory. *)
Definition uload32 (a : Z) : M kst Z := l ← vm (uloads a 4); mret (le_dec l).

Definition fetchint (addr : Z) : M kst (option Z) :=
  x ← curp;
  if (p_sz x <=? addr) || (p_sz x <? u32 (addr + 4)) then mret None else
  w ← uload32 addr; mret (Some (s32 w)).

(** The bytes from [a] up to a zero below [ep]. *)
Fixpoint fetchstr_loop (a ep : Z) (n : nat) : M kst (option (list Z)) :=
  match n with
  | O => mret None
  | S n' => if a <? ep then
              b ← vm (uload a);
              if b =? 0 then mret (Some []) else
              l ← fetchstr_loop (a + 1) ep n'; mret (cons b <$> l)
            else mret None
  end.
Definition fetchstr (addr : Z) : M kst (option (list Z)) :=
  x ← curp;
  if p_sz x <=? addr then mret None else
  fetchstr_loop addr (p_sz x) (Z.to_nat (p_sz x - addr) + 1).

Definition argint (n : Z) : M kst (option Z) :=
  x ← curp; fetchint (u32 (tf_esp (p_tf x) + 4 + 4 * n)).
Definition argptr (n size : Z) : M kst (option Z) :=
  x ← curp;
  o ← argint n;
  match o with
  | None => mret None
  | Some i =>
      if (size <? 0) || (p_sz x <=? u32 i) || (p_sz x <? u32 (u32 i + size)) then mret None
      else mret (Some (u32 i))
  end.
Definition argstr (n : Z) : M kst (option (list Z)) :=
  o ← argint n;
  match o with None => mret None | Some addr => fetchstr (u32 addr) end.

(** ** sysproc.c *)

Definition sys_fork : M kst Z := fork.
Definition sys_exit : M kst Z := exit ;; mret 0.
Definition sys_wait : M kst Z := wait.
Definition sys_kill : M kst Z :=
  o ← argint 0; match o with None => mret (-1) | Some pid => core (kill pid) end.
Definition sys_getpid : M kst Z := x ← curp; mret (p_pid x).
Definition sys_sbrk : M kst Z :=
  o ← argint 0;
  match o with
  | None => mret (-1)
  | Some n => x ← curp; r ← growproc n; mret (if r <? 0 then -1 else s32 (p_sz x))
  end.
(** [ticks - ticks0 < n] compares as unsigned. *)
Definition sys_sleep_locked (ticks0 n : Z) : M kst Z :=
  t ← gets ticks;
  if u32 (t - ticks0) <? u32 n then
    k ← killed;
    if (k : bool) then core (release LkTicks) ;; mret (-1) else
    core (sleep ChTicks LkTicks) ;; spin
  else core (release LkTicks) ;; mret 0.
Definition sys_sleep : M kst Z :=
  o ← argint 0;
  match o with
  | None => mret (-1)
  | Some n => core (acquire LkTicks) ;; t ← gets ticks; sys_sleep_locked t n
  end.
Definition sys_sleep_resume (ticks0 n : Z) : M kst Z :=
  core (sleep_resume LkTicks) ;; sys_sleep_locked ticks0 n.
Definition sys_uptime : M kst Z :=
  core (acquire LkTicks) ;; t ← gets ticks; core (release LkTicks) ;; mret (s32 t).

(** ** sysfile.c: descriptors *)

(** The descriptor and its file. *)
Definition argfd (n : Z) : M kst (option (nat * nat)) :=
  o ← argint n;
  match o with
  | None => mret None
  | Some fd =>
      if (fd <? 0) || (Z.of_nat NOFILE <=? fd) then mret None else
      x ← curp;
      f ← idx (p_ofile x) (Z.to_nat fd);
      mret ((fun f => (Z.to_nat fd, f)) <$> f)
  end.

Definition set_ofile (p : nat) (fd : nat) (f : option nat) : M kst unit :=
  pupd p (fun x => set_p_ofile (<[fd := f]> (p_ofile x)) x).
Definition fdalloc (f : nat) : M kst Z :=
  p ← core curproc; x ← pget p;
  match list_find (fun o => o = None) (p_ofile x) with
  | Some (fd, _) => set_ofile p fd (Some f) ;; mret (Z.of_nat fd)
  | None => mret (-1)
  end.

Definition sys_dup : M kst Z :=
  o ← argfd 0;
  match o with
  | None => mret (-1)
  | Some (_, f) => fd ← fdalloc f; if fd <? 0 then mret (-1) else filedup f ;; mret fd
  end.
(** The three arguments of read and write, in the order the source checks. *)
Definition arg_rw : M kst (option (nat * Z * Z)) :=
  o ← argfd 0;
  match o with
  | None => mret None
  | Some (_, f) =>
      o ← argint 2;
      match o with
      | None => mret None
      | Some n => o ← argptr 1 n; mret ((fun p => (f, p, n)) <$> o)
      end
  end.
Definition sys_read : M kst Z :=
  o ← arg_rw; match o with None => mret (-1) | Some (f, p, n) => fileread f p n end.
Definition sys_write : M kst Z :=
  o ← arg_rw; match o with None => mret (-1) | Some (f, p, n) => filewrite f p n end.
Definition sys_close : M kst Z :=
  o ← argfd 0;
  match o with
  | None => mret (-1)
  | Some (fd, f) => p ← core curproc; set_ofile p fd None ;; fileclose f ;; mret 0
  end.
Definition sizeof_stat : Z := 20.
Definition sys_fstat : M kst Z :=
  o ← argfd 0;
  match o with
  | None => mret (-1)
  | Some (_, f) =>
      o ← argptr 1 sizeof_stat; match o with None => mret (-1) | Some st => filestat f st end
  end.
End syscall.
