(* ===== verification/Sysfile.v ===== *)
(** * File-system system calls and the dispatcher

    Models the rest of [sysfile.c] (names, creation, opening, pipes, exec) and
    [syscall] of [syscall.c]. *)

From S2P Require Import Prelude Bytes Core Bio Log StringLib Cons Fs Vm Kern File Proc Exec Syscall.

Section sysfile.
Context `{KSyms}.

Definition inode_of (i : nat) : M kst inode := fs (get_inode i).
Definition iset (i : nat) (f : inode -> inode) : M kst unit := fs (upd_inode i f).
Definition add_nlink (k : Z) (ip : inode) : inode := set_i_nlink (s16 (i_nlink ip + k)) ip.

(** The error exit of [sys_link]. *)
Definition link_bad (ip : nat) : M kst Z :=
  fs (ilock (Some ip)) ;;
  iset ip (add_nlink (-1)) ;;
  fs (iupdate ip) ;;
  fs (iunlockput (Some ip)) ;;
  logop end_op ;;
  mret (-1).

(** [name], the buffer on the stack, starts with arbitrary contents. *)
Definition link_paths (name old new : list Z) : M kst Z :=
  logop begin_op ;;
  o ← fs (namei devsw old);
  match o with
  | None => logop end_op ;; mret (-1)
  | Some ip =>
      fs (ilock (Some ip)) ;;
      x ← inode_of ip;
      if i_type x =? T_DIR then fs (iunlockput (Some ip)) ;; logop end_op ;; mret (-1) else
      iset ip (add_nlink 1) ;;
      fs (iupdate ip) ;;
      fs (iunlock (Some ip)) ;;
      o ← fs (nameiparent devsw new name);
      match o with
      | None => link_bad ip
      | Some (dp, name) =>
          fs (ilock (Some dp)) ;;
          d ← inode_of dp; x ← inode_of ip;
          r ← (if negb (i_dev d =? i_dev x) then mret (-1) else fs (dirlink devsw dp name (i_inum x)));
          if r <? 0 then fs (iunlockput (Some dp)) ;; link_bad ip else
          fs (iunlockput (Some dp)) ;;
          fs (iput (Some ip)) ;;
          logop end_op ;;
          mret 0
      end
  end.
Definition sys_link (name : list Z) : M kst Z :=
  o ← argstr 0;
  match o with
  | None => mret (-1)
  | Some old => o ← argstr 1; match o with None => mret (-1) | Some new => link_paths name old new end
  end.

Definition isdirempty_step (dp : nat) (off : Z) : M kst (Z + Z) :=
  x ← inode_of dp;
  if u32 off <? i_size x then
    r ← fs (readi devsw dp (u32 off) DIRENT);
    if negb (fst r =? DIRENT) then panic "isdirempty: readi" else
    if negb (de_inum (snd r) =? 0) then mret (inr 0) else mret (inl (s32 (off + DIRENT)))
  else mret (inr 1).
Definition isdirempty (dp : nat) : M kst Z :=
  x ← inode_of dp;
  loop (Z.to_nat (i_size x / DIRENT) + 2) (isdirempty_step dp) (2 * DIRENT).

Definition unlink_bad (dp : nat) : M kst Z :=
  fs (iunlockput (Some dp)) ;; logop end_op ;; mret (-1).
Definition unlink_path (name path : list Z) : M kst Z :=
  logop begin_op ;;
  o ← fs (nameiparent devsw path name);
  match o with
  | None => logop end_op ;; mret (-1)
  | Some (dp, name) =>
      fs (ilock (Some dp)) ;;
      if (namecmp name (str ".") =? 0) || (namecmp name (str "..") =? 0) then unlink_bad dp else
      o ← fs (dirlookup devsw dp name);
      match o with
      | None => unlink_bad dp
      | Some (ip, off) =>
          fs (ilock (Some ip)) ;;
          x ← inode_of ip;
          if i_nlink x <? 1 then panic "unlink: nlink < 1" else
          e ← (if i_type x =? T_DIR then isdirempty ip else mret 1);
          if e =? 0 then fs (iunlockput (Some ip)) ;; unlink_bad dp else
          r ← fs (writei devsw dp (replicate (Z.to_nat DIRENT) 0) off DIRENT);
          if negb (r =? DIRENT) then panic "unlink: writei" else
          x ← inode_of ip;
          (if i_type x =? T_DIR then iset dp (add_nlink (-1)) ;; fs (iupdate dp) else skip) ;;
          fs (iunlockput (Some dp)) ;;
          iset ip (add_nlink (-1)) ;;
          fs (iupdate ip) ;;
          fs (iunlockput (Some ip)) ;;
          logop end_op ;;
          mret 0
      end
  end.
Definition sys_unlink (name : list Z) : M kst Z :=
  o ← argstr 0; match o with None => mret (-1) | Some path => unlink_path name path end.

(** A locked inode for a new or existing file at [path]. *)
Definition create (name path : list Z) (type major minor : Z) : M kst (option nat) :=
  o ← fs (nameiparent devsw path name);
  match o with
  | None => mret None
  | Some (dp, name) =>
      fs (ilock (Some dp)) ;;
      o ← fs (dirlookup devsw dp name);
      match o with
      | Some (ip, _) =>
          fs (iunlockput (Some dp)) ;;
          fs (ilock (Some ip)) ;;
          x ← inode_of ip;
          if (type =? T_FILE) && (i_type x =? T_FILE) then mret (Some ip) else
          fs (iunlockput (Some ip)) ;; mret None
      | None =>
          d ← inode_of dp;
          ip ← fs (ialloc (i_dev d) type);
          fs (ilock (Some ip)) ;;
          iset ip (fun x => set_i_nlink 1 (set_i_majmin major minor x)) ;;
          fs (iupdate ip) ;;
          (if type =? T_DIR then
             iset dp (add_nlink 1) ;;
             fs (iupdate dp) ;;
             x ← inode_of ip; d ← inode_of dp;
             r1 ← fs (dirlink devsw ip (str ".") (i_inum x));
             r2 ← (if r1 <? 0 then mret r1 else fs (dirlink devsw ip (str "..") (i_inum d)));
             if r2 <? 0 then panic "create dots" else skip
           else skip) ;;
          x ← inode_of ip;
          r ← fs (dirlink devsw dp name (i_inum x));
          if r <? 0 then panic "create: dirlink" else
          fs (iunlockput (Some dp)) ;;
          mret (Some ip)
      end
  end.

(** Give the locked inode [ip] a file and a descriptor. *)
Definition open_inode (ip : nat) (omode : Z) : M kst Z :=
  f ← filealloc;
  fd ← (match f with None => mret (-1) | Some f => fdalloc f end);
  if fd <? 0 then
    (match f with Some f => fileclose f | None => skip end) ;;
    fs (iunlockput (Some ip)) ;; logop end_op ;; mret (-1)
  else
  f ← deref f;
  fs (iunlock (Some ip)) ;;
  logop end_op ;;
  upd_file f (fun x => mkFile FD_INODE (f_ref x)
    (if Z.land omode O_WRONLY =? 0 then 1 else 0)
    (if negb (Z.land omode O_WRONLY =? 0) || negb (Z.land omode O_RDWR =? 0) then 1 else 0)
    (f_pipe x) (Some ip) 0) ;;
  mret fd.
Definition open_path (name path : list Z) (omode : Z) : M kst Z :=
  logop begin_op ;;
  if negb (Z.land omode O_CREATE =? 0) then
    o ← create name path T_FILE 0 0;
    match o with None => logop end_op ;; mret (-1) | Some ip => open_inode ip omode end
  else
    o ← fs (namei devsw path);
    match o with
    | None => logop end_op ;; mret (-1)
    | Some ip =>
        fs (ilock (Some ip)) ;;
        x ← inode_of ip;
        if (i_type x =? T_DIR) && negb (omode =? O_RDONLY)
        then fs (iunlockput (Some ip)) ;; logop end_op ;; mret (-1)
        else open_inode ip omode
    end.
Definition sys_open (name : list Z) : M kst Z :=
  o ← argstr 0;
  match o with
  | None => mret (-1)
  | Some path => o ← argint 1; match o with None => mret (-1) | Some m => open_path name path m end
  end.

(** The common end of [sys_mkdir] and [sys_mknod]. *)
Definition made (o : option nat) : M kst Z :=
  match o with
  | None => logop end_op ;; mret (-1)
  | Some ip => fs (iunlockput (Some ip)) ;; logop end_op ;; mret 0
  end.
Definition sys_mkdir (name : list Z) : M kst Z :=
  logop begin_op ;;
  o ← argstr 0;
  ip ← (match o with None => mret None | Some path => create name path T_DIR 0 0 end);
  made ip.
Definition sys_mknod (name : list Z) : M kst Z :=
  logop begin_op ;;
  o ← argstr 0;
  ip ← (match o with
        | None => mret None
        | Some path =>
            o ← argint 1;
            match o with
            | None => mret None
            | Some major =>
                o ← argint 2;
                match o with
                | None => mret None
                | Some minor => create name path T_DEV (s16 major) (s16 minor)
                end
            end
        end);
  made ip.
Definition sys_chdir : M kst Z :=
  p ← core curproc;
  logop begin_op ;;
  o ← argstr 0;
  ip ← (match o with None => mret None | Some path => fs (namei devsw path) end);
  match ip with
  | None => logop end_op ;; mret (-1)
  | Some ip =>
      fs (ilock (Some ip)) ;;
      x ← inode_of ip;
      if negb (i_type x =? T_DIR) then fs (iunlockput (Some ip)) ;; logop end_op ;; mret (-1) else
      fs (iunlock (Some ip)) ;;
      y ← pget p;
      fs (iput (p_cwd y)) ;;
      logop end_op ;;
      pupd p (set_p_cwd (Some ip)) ;;
      mret 0
  end.

(** The argument vector at [uargv]: at most [MAXARG] entries with its null. *)
Fixpoint fetch_argv (uargv : Z) (i : nat) (n : nat) : M kst (option (list (list Z))) :=
  match n with
  | O => mret None
  | S n' =>
      o ← fetchint (u32 (uargv + 4 * Z.of_nat i));
      match o with
      | None => mret None
      | Some uarg =>
          if uarg =? 0 then mret (Some []) else
          o ← fetchstr (u32 uarg);
          match o with
          | None => mret None
          | Some a => l ← fetch_argv uargv (S i) n'; mret (cons a <$> l)
          end
      end
  end.
Definition sys_exec : M kst Z :=
  o ← argstr 0;
  match o with
  | None => mret (-1)
  | Some path =>
      o ← argint 1;
      match o with
      | None => mret (-1)
      | Some uargv =>
          o ← fetch_argv (u32 uargv) 0 MAXARG;
          match o with None => mret (-1) | Some argv => exec path argv end
      end
  end.
Definition sys_pipe : M kst Z :=
  o ← argptr 0 8;
  match o with
  | None => mret (-1)
  | Some fd =>
      o ← pipealloc;
      match o with
      | None => mret (-1)
      | Some (rf, wf) =>
          fd0 ← fdalloc rf;
          fd1 ← (if fd0 <? 0 then mret (-1) else fdalloc wf);
          if fd1 <? 0 then
            p ← core curproc;
            (if 0 <=? fd0 then set_ofile p (Z.to_nat fd0) None else skip) ;;
            fileclose rf ;; fileclose wf ;; mret (-1)
          else
            vm (ustores fd (le_enc 4 fd0)) ;;
            vm (ustores (u32 (fd + 4)) (le_enc 4 fd1)) ;;
            mret 0
      end
  end.

(** ** The dispatcher *)

(** [name] is the contents of the stack where the calls keep a path element. *)
Definition syscall_fn (name : list Z) (num : Z) : option (M kst Z) :=
  match num with
  | 1 => Some sys_fork | 2 => Some sys_exit | 3 => Some sys_wait | 4 => Some sys_pipe
  | 5 => Some sys_read | 6 => Some sys_kill | 7 => Some sys_exec | 8 => Some sys_fstat
  | 9 => Some sys_chdir | 10 => Some sys_dup | 11 => Some sys_getpid | 12 => Some sys_sbrk
  | 13 => Some sys_sleep | 14 => Some sys_uptime | 15 => Some (sys_open name) | 16 => Some sys_write
  | 17 => Some (sys_mknod name) | 18 => Some (sys_unlink name) | 19 => Some (sys_link name)
  | 20 => Some (sys_mkdir name) | 21 => Some sys_close
  | _ => None
  end.

Definition set_eax (p : nat) (v : Z) : M kst unit :=
  pupd p (fun x => set_p_tf (set_tf_eax (u32 v) (p_tf x)) x).
Definition syscall (name : list Z) : M kst unit :=
  p ← core curproc;
  x ← pget p;
  let num := s32 (tf_eax (p_tf x)) in
  match syscall_fn name num with
  | Some f => r ← f; set_eax p r
  | None =>
      cprintf (Some (str "%d %s: unknown sys call %d" ++ [10]))
        [AInt (p_pid x); AStr (Some (cstr (p_name x))); AInt num] ;;
      set_eax p (-1)
  end.
End sysfile.
