(* ===== verification/Trap.v ===== *)
(** * Traps

    Models [trap] of [trap.c] with the interrupt handlers it calls: the clock,
    the keyboard and the serial port ([kbdintr], [uartintr]).  [tenv] is what
    the handler reads from the hardware.  [lapiceoi] and the no-op [ideintr]
    of [memide.c] leave the state alone. *)

From S2P Require Import Prelude Bytes Core Bio Log StringLib Kbd Cons Fs Vm Kern File Proc Exec Syscall Sysfile.

Definition T_SYSCALL : Z := 64.
Definition T_IRQ0 : Z := 32.
Definition IRQ_TIMER : Z := 0.
Definition IRQ_KBD : Z := 1.
Definition IRQ_COM1 : Z := 4.
Definition IRQ_IDE : Z := 14.
Definition IRQ_SPURIOUS : Z := 31.

Record tenv := mkTenv {
  te_cpu : Z;          (* cpuid() *)
  te_cr2 : Z;
  te_kbd : list Z;     (* what kbdgetc returns until it has no more *)
  te_uart : list Z;    (* what uartgetc returns until it has no more *)
  te_name : list Z }.  (* the stack where a path element goes *)

Section trap.
Context `{KSyms}.

(** [trap] for a system call. *)
Definition trap_syscall (tf : trapframe) (e : tenv) : M kst unit :=
  k ← killed; (if (k : bool) then exit else skip) ;;
  p ← core curproc;
  pupd p (set_p_tf tf) ;;
  syscall (te_name e) ;;
  k ← killed; if (k : bool) then exit else skip.

Definition timer (e : tenv) : M kst unit :=
  if te_cpu e =? 0 then
    core (acquire LkTicks) ;;
    modify (fun s => set_ticks (u32 (ticks s + 1)) s) ;;
    core (wakeup ChTicks) ;;
    core (release LkTicks)
  else skip.

(** Neither an interrupt nor a system call: in the kernel a panic, in user
    space the process is killed. *)
Definition trap_other (tf : trapframe) (e : tenv) : M kst unit :=
  mp ← core myproc;
  match mp with
  | Some p =>
      if Z.land (tf_cs tf) 3 =? 0 then
        cprintf (Some (str "unexpected trap %d from cpu %d eip %x (cr2=0x%x)" ++ [10]))
          (AInt <$> [tf_trapno tf; te_cpu e; tf_eip tf; te_cr2 e]) ;;
        panic "trap"
      else
        x ← pget p;
        cprintf (Some (str "pid %d %s: trap %d err %d on cpu %d eip 0x%x addr 0x%x--kill proc" ++ [10]))
          [AInt (p_pid x); AStr (Some (cstr (p_name x))); AInt (tf_trapno tf); AInt (tf_err tf);
           AInt (te_cpu e); AInt (tf_eip tf); AInt (te_cr2 e)] ;;
        pupd p (set_p_killed 1)
  | None =>
      cprintf (Some (str "unexpected trap %d from cpu %d eip %x (cr2=0x%x)" ++ [10]))
        (AInt <$> [tf_trapno tf; te_cpu e; tf_eip tf; te_cr2 e]) ;;
      panic "trap"
  end.

Definition trap_dispatch (tf : trapframe) (e : tenv) : M kst unit :=
  let n := tf_trapno tf in
  if n =? T_IRQ0 + IRQ_TIMER then timer e else
  if (n =? T_IRQ0 + IRQ_IDE) || (n =? T_IRQ0 + IRQ_IDE + 1) then skip else
  if n =? T_IRQ0 + IRQ_KBD then consoleintr procdump (te_kbd e) else
  if n =? T_IRQ0 + IRQ_COM1 then consoleintr procdump (te_uart e) else
  if (n =? T_IRQ0 + 7) || (n =? T_IRQ0 + IRQ_SPURIOUS) then
    cprintf (Some (str "cpu%d: spurious interrupt at %x:%x" ++ [10]))
      (AInt <$> [te_cpu e; tf_cs tf; tf_eip tf])
  else trap_other tf e.

(** Exit if the process was killed and was in user space. *)
Definition exit_if_killed (tf : trapframe) : M kst unit :=
  mp ← core myproc;
  match mp with
  | None => skip
  | Some p => x ← pget p;
      if negb (p_killed x =? 0) && (Z.land (tf_cs tf) 3 =? DPL_USER) then exit else skip
  end.

(** After [yield] comes back, [trap] ends with [exit_if_killed]. *)
Definition trap (tf : trapframe) (e : tenv) : M kst unit :=
  if tf_trapno tf =? T_SYSCALL then trap_syscall tf e else
  trap_dispatch tf e ;;
  exit_if_killed tf ;;
  mp ← core myproc;
  (match mp with
   | None => skip
   | Some p => x ← pget p;
       if bool_decide (p_state x = RUNNING) && (tf_trapno tf =? T_IRQ0 + IRQ_TIMER) then core yield else skip
   end) ;;
  exit_if_killed tf.
Definition trap_resume (tf : trapframe) : M kst unit := core yield_resume ;; exit_if_killed tf.
End trap.
