(* ===== verification/ProcSpec.v ===== *)
(** * Exit, wait and the scheduler

    What [exit] does to the process table, that a parent waiting for its child
    finds it, and that a pass of the scheduler runs every runnable process. *)

From Stdlib Require Import Sorted.
From S2P Require Import Prelude Bytes Core Bio Log StringLib Cons Fs Vm Kern File FileSpec Proc.

(** ** exit *)

Definition reparented (cp : nat) (init : option nat) (p : proc) : proc :=
  if decide (p_parent p = Some cp) then set_p_parent init p else p.
Definition zombie_child (cp : nat) (p : proc) : bool :=
  bool_decide (p_parent p = Some cp) && bool_decide (p_state p = ZOMBIE).

(** What the end of [exit] makes of the process in slot [i]: children pass to
    init, the parent is woken, and init too if it inherits a zombie. *)
Definition exit_entry (cp : nat) (par init : option nat) (zombies : bool) (i : nat) (p : proc) : proc :=
  let p := wake (ChProc <$> par) (reparented cp init p) in
  let p := if zombies then wake (ChProc <$> init) p else p in
  if decide (i = cp) then set_p_state ZOMBIE p else p.

Lemma wake_parent ch p : p_parent (wake ch p) = p_parent p.
Proof. unfold wake. by case_decide. Qed.
Lemma wake_zombie ch p : p_state (wake ch p) = ZOMBIE <-> p_state p = ZOMBIE.
Proof. unfold wake. case_decide as E; [|done]. destruct E as [E _]. cbn. rewrite E. split; discriminate. Qed.
Lemma wake_set_parent ch v p : set_p_parent v (wake ch p) = wake ch (set_p_parent v p).
Proof. unfold wake. cbn. by repeat case_decide. Qed.
Lemma wake_idem ch p : wake ch (wake ch p) = wake ch p.
Proof. unfold wake. repeat case_decide; naive_solver. Qed.

Section exit.
Context (cp : nat) (par init : option nat) (ps : list proc).

Definition inherits (i : nat) : bool := existsb (zombie_child cp) (take i ps).

(** The table after [i] iterations of the loop of [exit]. *)
Definition exit_mid (i k : nat) (p : proc) : proc :=
  let p := wake (ChProc <$> par) (if decide (k < i)%nat then reparented cp init p else p) in
  if inherits i then wake (ChProc <$> init) p else p.

Lemma inherits_S i p : ps !! i = Some p -> inherits (S i) = inherits i || zombie_child cp p.
Proof. intros Hp. unfold inherits. rewrite (take_S_r _ _ _ Hp), existsb_app. cbn. by rewrite orb_false_r. Qed.

Lemma exit_mid_parent i p : p_parent (exit_mid i i p) = p_parent p.
Proof.
  unfold exit_mid. rewrite decide_False by lia. destruct (inherits i); by rewrite !wake_parent.
Qed.
Lemma exit_mid_zombie i p : p_state (exit_mid i i p) = ZOMBIE <-> p_state p = ZOMBIE.
Proof.
  unfold exit_mid. rewrite decide_False by lia. destruct (inherits i); by rewrite !wake_zombie.
Qed.

Lemma exit_mid_other i k p :
  k <> i -> inherits (S i) = inherits i -> exit_mid (S i) k p = exit_mid i k p.
Proof.
  intros Hk E. unfold exit_mid. rewrite E. by destruct (decide (k < S i)%nat), (decide (k < i)%nat); try lia.
Qed.

Lemma wp_reparent i p c :
  ps !! i = Some p -> procs c = imap (exit_mid i) ps -> initproc c = init ->
  wp (reparent cp i) (fun _ c' => c' = set_procs (imap (exit_mid (S i)) ps) c) c.
Proof.
  intros Hp Hc Hi. assert (procs c !! i = Some (exit_mid i i p)) as Hl by (by rewrite Hc, list_lookup_imap, Hp).
  pose proof (inherits_S i p Hp) as HS. unfold reparent. wp_simpl. apply (wp_get_proc i _ _ _ Hl).
  rewrite exit_mid_parent. destruct (decide (p_parent p = Some cp)) as [Ep|Ep].
  - wp_simpl. apply (wp_upd_proc i _ _ _ _ Hl).
    assert (zombie_child cp p = bool_decide (p_state p = ZOMBIE)) as Ez
      by (unfold zombie_child; by rewrite bool_decide_true).
    assert (set_p_parent init (exit_mid i i p) =
      (if inherits i then wake (ChProc <$> init) else fun q => q) (wake (ChProc <$> par) (reparented cp init p))) as Enew.
    { unfold exit_mid, reparented. rewrite decide_False by lia. rewrite decide_True by done.
      destruct (inherits i); by rewrite !wake_set_parent. }
    rewrite Hi. destruct (decide (p_state (exit_mid i i p) = ZOMBIE)) as [Ez'|Ez'].
    + rewrite exit_mid_zombie in Ez'. rewrite bool_decide_true in Ez by done. rewrite Ez, orb_true_r in HS.
      unfold wakeup1. wp_simpl. unfold set_procs. cbn. f_equal. rewrite Hc, Enew.
      apply list_eq. intros k. rewrite list_lookup_fmap, list_lookup_imap. destruct (decide (k = i)) as [->|Hne].
      * rewrite list_lookup_insert_eq by (rewrite length_imap; by eapply lookup_lt_Some). rewrite Hp. cbn.
        unfold exit_mid. rewrite HS, decide_True by lia. by destruct (inherits i); rewrite ?wake_idem.
      * rewrite list_lookup_insert_ne by done. rewrite list_lookup_imap. destruct (ps !! k) as [q|]; [|done]. cbn.
        unfold exit_mid. rewrite HS. f_equal.
        destruct (decide (k < S i)%nat), (decide (k < i)%nat); try lia; by destruct (inherits i); rewrite ?wake_idem.
    + rewrite exit_mid_zombie in Ez'. rewrite bool_decide_false in Ez by done. rewrite Ez, orb_false_r in HS.
      wp_simpl. unfold set_procs. cbn. f_equal. rewrite Hc, Enew.
      apply list_eq. intros k. rewrite list_lookup_imap. destruct (decide (k = i)) as [->|Hne].
      * rewrite list_lookup_insert_eq by (rewrite length_imap; by eapply lookup_lt_Some). rewrite Hp. cbn.
        unfold exit_mid. rewrite HS, decide_True by lia. by destruct (inherits i).
      * rewrite list_lookup_insert_ne by done. rewrite list_lookup_imap. destruct (ps !! k) as [q|]; [|done]. cbn.
        by rewrite exit_mid_other.
  - assert (zombie_child cp p = false) as Ez by (unfold zombie_child; by rewrite bool_decide_false).
    rewrite Ez, orb_false_r in HS. wp_simpl. destruct c as [? ? ? ? ? ? ? ? ?]. cbn in *. unfold set_procs. cbn. f_equal.
    rewrite Hc. apply list_eq. intros k. rewrite !list_lookup_imap. destruct (decide (k = i)) as [->|Hne].
    + rewrite Hp. cbn. f_equal. unfold exit_mid, reparented. rewrite HS, decide_False, decide_True by lia.
      by rewrite decide_False.
    + destruct (ps !! k) as [q|]; [|done]. cbn. by rewrite exit_mid_other.
Qed.
End exit.

Lemma imap_fmap {A B} (f : A -> B) l : imap (fun _ => f) l = f <$> l.
Proof. apply list_eq. intros i. by rewrite list_lookup_imap, list_lookup_fmap. Qed.

Lemma sched_switches c i p :
  cur c = Some i -> procs c !! i = Some p -> held c = [LkPtable] -> p_state p <> RUNNING -> sched c = Switched c.
Proof.
  intros Hc Hp Hh Hs. unfold sched, curproc, myproc, holding, get_proc, idx, gets, deref, mbind, M_bind, mret, M_ret.
  rewrite Hc, Hh. rewrite bool_decide_true by left. cbn -[lookup]. rewrite Hh. cbn -[lookup]. rewrite Hp.
  by rewrite bool_decide_false.
Qed.

Lemma exit_core_run c cp x :
  held c = [] -> cur c = Some cp -> procs c !! cp = Some x ->
  exit_core cp c = Switched (set_held [LkPtable]
    (set_procs (imap (exit_entry cp (p_parent x) (initproc c) (existsb (zombie_child cp) (procs c))) (procs c)) c)).
Proof.
  intros Hh Hc Hx. set (ps := procs c) in *. unfold exit_core.
  rewrite (bind_ok _ _ _ tt (set_held [LkPtable] c)).
  2: { apply wp_eq. apply wp_acquire; rewrite Hh; [apply not_elem_of_nil|done]. }
  rewrite (bind_ok _ _ _ x (set_held [LkPtable] c)) by (apply wp_eq; by apply (wp_get_proc cp x)).
  set (par := p_parent x). set (init := initproc c).
  set (st := fun i => set_procs (imap (exit_mid cp par init ps i) ps) (set_held [LkPtable] c)).
  rewrite (bind_ok _ _ _ tt (st 0%nat)).
  2: { apply wp_eq. unfold wakeup1. wp_simpl. split; [done|]. unfold st. f_equal.
       rewrite <- imap_fmap. apply imap_ext. intros i p _. unfold exit_mid. by rewrite decide_False by lia. }
  erewrite (bind_ok (gets procs)) by reflexivity.
  rewrite (bind_ok _ _ _ tt (st (length ps))).
  2: { apply wp_eq. unfold st at 1. cbn [procs set_procs]. rewrite length_imap.
       eapply wp_mono; [apply (wp_for_range (fun i c' => c' = st i))|].
       - intros j c' Hj ->. destruct (lookup_lt_is_Some_2 ps j ltac:(lia)) as [p Hp].
         eapply wp_mono; [by apply (wp_reparent cp par init ps j p)|]. intros [] c'' ->. done.
       - done.
       - by intros [] c' ->. }
  assert (cp < length ps)%nat as Hlt by (by eapply lookup_lt_Some).
  assert (procs (st (length ps)) !! cp = Some (exit_mid cp par init ps (length ps) cp x)) as Hl.
  { unfold st. cbn. by rewrite list_lookup_imap, Hx. }
  assert (<[cp := set_p_state ZOMBIE (exit_mid cp par init ps (length ps) cp x)]> (procs (st (length ps))) =
    imap (exit_entry cp par init (existsb (zombie_child cp) ps)) ps) as Et.
  { apply list_eq. intros k. rewrite list_lookup_imap. destruct (decide (k = cp)) as [->|Hne].
    - rewrite list_lookup_insert_eq by (unfold st; cbn; by rewrite length_imap). rewrite Hx. cbn. f_equal.
      unfold exit_entry, exit_mid, inherits. rewrite !decide_True by done. by rewrite firstn_all.
    - rewrite list_lookup_insert_ne by done. unfold st. cbn. rewrite list_lookup_imap.
      destruct (ps !! k) as [q|] eqn:Hk; [|done]. cbn. f_equal. unfold exit_entry, exit_mid, inherits.
      rewrite decide_True by (by eapply lookup_lt_Some). rewrite decide_False by done. by rewrite firstn_all. }
  rewrite (bind_ok _ _ _ tt (set_procs (imap (exit_entry cp par init (existsb (zombie_child cp) ps)) ps) (set_held [LkPtable] c))).
  2: { apply wp_eq. apply (wp_upd_proc cp _ _ _ _ Hl). rewrite Et. done. }
  apply bind_switched. apply (sched_switches _ cp (exit_entry cp par init (existsb (zombie_child cp) ps) cp x)); try done.
  - cbn. by rewrite list_lookup_imap, Hx.
  - unfold exit_entry. by rewrite decide_True.
Qed.

(** The end of [exit]: the process gives up the CPU as a zombie, its
    children now have init as their parent, the process that waits for it is
    runnable, init is runnable if it slept in [wait] and inherits a zombie,
    and nothing else in the table changes. *)
Theorem exit_reparents c cp x :
  held c = [] -> cur c = Some cp -> procs c !! cp = Some x ->
  exit_core cp c = Switched (set_held [LkPtable]
    (set_procs (imap (exit_entry cp (p_parent x) (initproc c) (existsb (zombie_child cp) (procs c))) (procs c)) c)).
Proof. apply exit_core_run. Qed.

(** ** wait *)

Lemma wait_scan_found cp ps k kids j p :
  ps !! j = Some p -> p_parent p = Some cp -> p_state p = ZOMBIE ->
  exists i q, wait_scan cp ps k kids = (true, Some (k + i)%nat) /\ (i <= j)%nat /\
    ps !! i = Some q /\ p_parent q = Some cp /\ p_state q = ZOMBIE.
Proof.
  revert k kids j. induction ps as [|q ps IH]; intros k kids j Hj Hp Hz; [done|]. cbn [wait_scan].
  assert (forall b, q <> p \/ (0 < j)%nat -> exists i r, wait_scan cp ps (S k) b = (true, Some (k + i)%nat) /\ (i <= j)%nat /\
    (q :: ps) !! i = Some r /\ p_parent r = Some cp /\ p_state r = ZOMBIE) as Hrest.
  { intros b Hq. destruct j as [|j]; [injection Hj as ->; destruct Hq; [done|lia]|].
    destruct (IH (S k) b j Hj Hp Hz) as (i & r & E & Hi & Hr & H1 & H2).
    exists (S i), r. rewrite Nat.add_succ_r. split_and!; [exact E|lia|exact Hr|done|done]. }
  destruct (decide (p_parent q = Some cp)) as [Eq|Eq].
  - destruct (decide (p_state q = ZOMBIE)) as [Ez|Ez].
    + exists 0%nat, q. rewrite Nat.add_0_r. split_and!; [done|lia|done..].
    + apply Hrest. left. congruence.
  - apply Hrest. left. congruence.
Qed.

Lemma wait_scan_none cp ps k kids :
  (forall j p, ps !! j = Some p -> p_parent p = Some cp -> p_state p <> ZOMBIE) ->
  wait_scan cp ps k kids = (kids || existsb (fun p => bool_decide (p_parent p = Some cp)) ps, None).
Proof.
  revert k kids. induction ps as [|q ps IH]; intros k kids Hn; cbn [wait_scan existsb]; [by rewrite orb_false_r|].
  assert (forall j p, ps !! j = Some p -> p_parent p = Some cp -> p_state p <> ZOMBIE) as Hn'
    by (intros j p Hj; exact (Hn (S j) p Hj)).
  destruct (decide (p_parent q = Some cp)) as [Eq|Eq].
  - rewrite decide_False by (by apply (Hn 0%nat)). rewrite IH by done. rewrite bool_decide_true by done.
    by rewrite orb_true_r.
  - rewrite IH by done. by rewrite bool_decide_false by done.
Qed.

(** C25.  A child's exit is never lost: once a process has gone through the
    end of [exit], its parent is runnable if it slept in [wait], and the scan
    of [wait] that the parent makes next finds an exited child of it. *)
Theorem exit_found_by_wait c cp x par y :
  held c = [] -> cur c = Some cp -> procs c !! cp = Some x -> p_parent x = Some par -> par <> cp ->
  procs c !! par = Some y ->
  exists c' y' i z, exit_core cp c = Switched c' /\ procs c' !! par = Some y' /\
    (p_state y = SLEEPING -> p_chan y = Some (ChProc par) -> p_state y' = RUNNABLE) /\
    wait_scan par (procs c') 0 false = (true, Some i) /\
    procs c' !! i = Some z /\ p_parent z = Some par /\ p_state z = ZOMBIE.
Proof.
  intros Hh Hc Hx Hpar Hne Hy. eexists. set (e := exit_entry cp (p_parent x) (initproc c) (existsb (zombie_child cp) (procs c))).
  assert (imap e (procs c) !! cp = Some (e cp x)) as Hl by (by rewrite list_lookup_imap, Hx).
  assert (p_parent (e cp x) = Some par) as Hp1.
  { unfold e, exit_entry, reparented. rewrite (decide_False (P := p_parent x = Some cp)) by (rewrite Hpar; congruence).
    rewrite decide_True by done. cbn. by destruct (existsb _ _); rewrite !wake_parent. }
  assert (p_state (e cp x) = ZOMBIE) as Hz1 by (unfold e, exit_entry; by rewrite decide_True).
  destruct (wait_scan_found par (imap e (procs c)) 0 false cp _ Hl Hp1 Hz1) as (i & z & Es & _ & Hz & Hzp & Hzz).
  exists (e par y), i, z. split; [by apply exit_core_run|]. cbn [procs set_procs set_held].
  split; [by rewrite list_lookup_imap, Hy|]. split; [|done].
  intros Hs Hch. unfold e, exit_entry. rewrite decide_False by done. rewrite Hpar.
  assert (p_state (wake (ChProc <$> Some par) (reparented cp (initproc c) y)) = RUNNABLE) as Hw.
  { unfold wake. rewrite decide_True; [done|]. unfold reparented. by destruct (decide _). }
  destruct (existsb _ _); [|done]. unfold wake at 1. rewrite decide_False; [done|]. rewrite Hw. by intros [? _].
Qed.

(** ** The scheduler *)

Definition runnable (c : kcore) (j : nat) : Prop := exists p, procs c !! j = Some p /\ p_state p = RUNNABLE.

(** Process [k] ran, from its dispatch in [c] until it switched back in [c']:
    it holds the table lock, and only the scheduler takes a process out of
    the runnable state. *)
Definition ran (k : nat) (c c' : kcore) : Prop :=
  held c' = [LkPtable] /\ forall j, j <> k -> runnable c j -> runnable c' j.

(** A whole pass of the scheduler over the table: the processes dispatched. *)
Inductive pass : outcome kcore (option nat) -> list nat -> kcore -> Prop :=
| pass_end c : pass (Ok None c) [] c
| pass_run k c c1 ds c' : ran k c c1 -> pass (scheduler_back k c1) ds c' -> pass (Ok (Some k) c) (k :: ds) c'.

Lemma scheduler_from_cases i c :
  held c = [LkPtable] ->
  (exists c', scheduler_from i c = Ok None c' /\ forall j, (i <= j)%nat -> ~ runnable c j) \/
  (exists k c', scheduler_from i c = Ok (Some k) c' /\ (i <= k)%nat /\ runnable c k /\
     (forall j, (i <= j < k)%nat -> ~ runnable c j) /\ (forall l, l <> k -> runnable c l -> runnable c' l)) \/
  (exists msg, scheduler_from i c = Panic msg).
Proof.
  intros Hh.
  assert (forall j p, (i <= j)%nat -> procs c !! j = Some p -> drop i (procs c) !! (j - i)%nat = Some p) as Hdrop.
  { intros j p Hj Hp. rewrite lookup_drop. by replace (i + (j - i))%nat with j by lia. }
  unfold scheduler_from. erewrite (bind_ok (gets procs)) by reflexivity.
  destruct (list_find _ (drop i (procs c))) as [[d q]|] eqn:Ef.
  - apply list_find_Some in Ef as (Hd & Hq & Hmin). rewrite lookup_drop in Hd. right.
    unfold switchuvm, get_proc, upd_proc, idx, mbind, M_bind, modify, gets, mret, M_ret, panic.
    cbn -[lookup insert]. rewrite Hd. cbn -[lookup insert].
    destruct (p_kstack q =? 0); [right; by eexists|]. destruct (p_pgdir q =? 0); [right; by eexists|]. left.
    cbn -[lookup insert]. rewrite ?Hd. cbn -[lookup insert].
    eexists _, _. split; [reflexivity|]. split; [lia|]. split; [by exists q|]. split.
    + intros j Hj (p & Hp & Hr). apply (Hmin (j - i)%nat p); [|lia|done]. apply Hdrop; [lia|done].
    + intros l Hl (q' & Hq' & Hr'). exists q'. cbn -[lookup insert]. by rewrite list_lookup_insert_ne.
  - left. apply list_find_None in Ef. rewrite Forall_forall in Ef. eexists. split.
    + unfold release, holding, mbind, M_bind, gets, modify, mret, M_ret. rewrite Hh.
      rewrite bool_decide_true by left. reflexivity.
    + intros j Hj (p & Hp & Hr). apply (Ef p); [|done]. apply list_elem_of_lookup. exists (j - i)%nat. by apply Hdrop.
Qed.

Lemma pass_from o ds c' : pass o ds c' -> forall i c, o = scheduler_from i c -> held c = [LkPtable] ->
  (forall j, (i <= j)%nat -> runnable c j -> j ∈ ds) /\ Forall (fun k => i <= k)%nat ds /\ StronglySorted lt ds.
Proof.
  induction 1 as [c0|k c0 c1 ds c' [Hh1 Hr1] Hp IH]; intros i c E Hh;
    destruct (scheduler_from_cases i c Hh) as [(c2 & E2 & Hn)|[(k2 & c2 & E2 & Hik & Hrk & Hmin & Hkeep)|(msg & E2)]];
    rewrite E2 in E; try discriminate; injection E; intros; subst.
  - split; [|split; constructor]. intros j Hj Hr. by destruct (Hn j Hj).
  - destruct (IH (S k2) (set_cur None (set_cr3 (V2P (kpgdir c1)) c1)) eq_refl Hh1) as (H1 & H2 & H3). split_and!.
    + intros j Hj Hr. destruct (decide (j = k2)) as [->|Hne]; [left|]. right.
      destruct (decide (j < k2)%nat) as [Hlt|Hge]; [by destruct (Hmin j)|].
      apply H1; [lia|]. apply (Hr1 j Hne), (Hkeep j Hne Hr).
    + constructor; [done|]. eapply Forall_impl; [exact H2|]. intros x Hx. cbn in *. lia.
    + constructor; [done|]. eapply Forall_impl; [exact H2|]. intros x Hx. cbn in *. lia.
Qed.

(** C26.  The scheduler is fair: a pass over the table dispatches every process
    that is runnable when the pass starts, each once and in the order of the
    table, whatever the processes do while they run. *)
Theorem scheduler_runs_all c ds c' j :
  held c = [] -> pass (scheduler_start c) ds c' -> runnable c j -> j ∈ ds /\ StronglySorted lt ds.
Proof.
  intros Hh Hp Hr. unfold scheduler_start in Hp.
  rewrite (bind_ok _ _ _ tt (set_held [LkPtable] c)) in Hp.
  2: { apply wp_eq. apply wp_acquire; rewrite Hh; [apply not_elem_of_nil|done]. }
  destruct (pass_from _ _ _ Hp 0 (set_held [LkPtable] c) eq_refl eq_refl) as (H1 & _ & H3).
  split; [apply H1; [lia|exact Hr]|done].
Qed.

(** ** Witnesses *)

Definition demo_proc (st : procstate) (ch : option chan) (par : option nat) : proc :=
  mkProc 4096 2149580800 2149584896 st 1 par zero_tf (mkContext 0 0 0 0 0) ch 0 [] None [].
(** Init waits; process 1 exits, its child 2 is a zombie, 3 is another child. *)
Definition demo_table : list proc :=
  [demo_proc SLEEPING (Some (ChProc 0)) None; demo_proc RUNNING None (Some 0%nat);
   demo_proc ZOMBIE None (Some 1%nat); demo_proc RUNNABLE None (Some 1%nat)].
Definition demo_exit : kcore := mkCore [] (Some 1%nat) demo_table 5 (Some 0%nat) ∅ 0 0 0.

Lemma exit_reparents_witness :
  exit_core 1 demo_exit = Switched (mkCore [LkPtable] (Some 1%nat)
    [demo_proc RUNNABLE (Some (ChProc 0)) None; demo_proc ZOMBIE None (Some 0%nat);
     demo_proc ZOMBIE None (Some 0%nat); demo_proc RUNNABLE None (Some 0%nat)] 5 (Some 0%nat) ∅ 0 0 0).
Proof. exact (exit_reparents demo_exit 1 (demo_proc RUNNING None (Some 0%nat)) eq_refl eq_refl eq_refl). Defined.

Lemma exit_found_by_wait_witness :
  exists c' y' i z, exit_core 1 demo_exit = Switched c' /\ procs c' !! 0%nat = Some y' /\
    (SLEEPING = SLEEPING -> Some (ChProc 0) = Some (ChProc 0) -> p_state y' = RUNNABLE) /\
    wait_scan 0 (procs c') 0 false = (true, Some i) /\
    procs c' !! i = Some z /\ p_parent z = Some 0%nat /\ p_state z = ZOMBIE.
Proof.
  exact (exit_found_by_wait demo_exit 1 (demo_proc RUNNING None (Some 0%nat)) 0
    (demo_proc SLEEPING (Some (ChProc 0)) None) eq_refl eq_refl eq_refl eq_refl ltac:(done) eq_refl).
Defined.

(** Two runnable processes, the first of which yields. *)
Definition demo_sched (a b : procstate) (h : list lockid) (c : option nat) (d : Z) (e : Z) : kcore :=
  mkCore h c [demo_proc a None None; demo_proc b None None] 3 None ∅ d e 0.

Lemma scheduler_runs_all_witness :
  exists ds c', pass (scheduler_start (demo_sched RUNNABLE RUNNABLE [] None 0 0)) ds c' /\
    1%nat ∈ ds /\ StronglySorted lt ds.
Proof.
  set (o := scheduler_start _).
  assert (pass o [0%nat; 1%nat] (demo_sched RUNNABLE RUNNABLE [] None 2147483648 2149588992)) as Hp.
  { apply (pass_run 0 (demo_sched RUNNING RUNNABLE [LkPtable] (Some 0%nat) 2097152 2149588992)
      (demo_sched RUNNABLE RUNNABLE [LkPtable] (Some 0%nat) 2097152 2149588992)).
    { split; [done|]. intros [|[|j]] Hj (p & Hp & Hr); [done|by exists (demo_proc RUNNABLE None None)|done]. }
    apply (pass_run 1 (demo_sched RUNNABLE RUNNING [LkPtable] (Some 1%nat) 2097152 2149588992)
      (demo_sched RUNNABLE RUNNABLE [LkPtable] (Some 1%nat) 2097152 2149588992)).
    { split; [done|]. intros [|[|j]] Hj (p & Hp & Hr); [by exists (demo_proc RUNNABLE None None)|done|done]. }
    apply pass_end. }
  eexists _, _. split; [exact Hp|].
  apply (scheduler_runs_all (demo_sched RUNNABLE RUNNABLE [] None 0 0) _ _ 1 eq_refl Hp).
  by exists (demo_proc RUNNABLE None None).
Defined.
