(* ===== verification/SysSpec.v ===== *)
(** * System-call arguments, process identifiers, growing a process *)

From S2P Require Import Prelude Bytes Core Bio Log StringLib Cons Fs Vm VmAlloc Kern File FileSpec Proc Exec Syscall.

Section args.
Context `{KSyms} (s : kst) (i : nat) (x : proc).
Context (Hcur : cur (kcore_of s) = Some i) (Hx : procs (kcore_of s) !! i = Some x)
  (Hsz : 0 <= p_sz x <= KERNBASE).

(** The byte and the word the process sees at an address. *)
Definition ubyte (a : Z) : Z := default 0 (kmem s <$> utrans (kmem s) (kcr3 s) false a).
Definition uword (a : Z) : Z := le_dec [ubyte a; ubyte (a + 1); ubyte (a + 2); ubyte (a + 3)].

(** All of the process's memory is mapped. *)
Definition mapped : Prop := forall a, 0 <= a < p_sz x -> is_Some (utrans (kmem s) (kcr3 s) false a).

Lemma wp_curp (Q : proc -> kst -> Prop) : Q x s -> wp curp Q s.
Proof.
  intros HQ. unfold curp, pget. wp_simpl. rewrite wp_core. apply (wp_curproc i); [done|].
  rewrite set_kcore_id, wp_core. apply (wp_get_proc i x); [done|]. by rewrite set_kcore_id.
Qed.

Context (Hm : mapped).

Lemma wp_ubyte a (Q : Z -> kst -> Prop) : 0 <= a < p_sz x -> Q (ubyte a) s -> wp (vm (uload a)) Q s.
Proof.
  intros Ha HQ. destruct (Hm a Ha) as [b Hb]. apply (wp_uload a b); [done|].
  unfold ubyte in HQ. by rewrite Hb in HQ.
Qed.

Lemma vm_bind {A B} (m : M vst A) (f : A -> M vst B) t : vm (m ≫= f) t = (a ← vm m; vm (f a)) t.
Proof.
  unfold vm, lift, mbind, M_bind. destruct (m (lget t)) as [a v| | | |]; try done.
  assert (lget (lset v t) = v) as -> by (by destruct v as [[] ? ? ? ?]).
  destruct (f a v) as [b w| |w| |]; try done; destruct w as [[] ? ? ? ?]; by destruct t as [[[[] ?] ? ? ?] ? ? ? ? ? ?].
Qed.

Lemma wp_uloads a n (Q : list Z -> kst -> Prop) :
  0 <= a -> a + Z.of_nat n <= p_sz x -> Q ((fun k => ubyte (a + Z.of_nat k)) <$> seq 0 n) s -> wp (vm (uloads a n)) Q s.
Proof.
  revert a Q. induction n as [|n IH]; intros a Q Ha Hn HQ; cbn [uloads].
  { unfold vm. rewrite wp_lift, wp_ret. change (Q [] (lset (Lens := k_vm) (lget s) s)). by rewrite vm_id. }
  unfold wp. rewrite vm_bind. change (wp (b ← vm (uload a); vm (l ← uloads (u32 (a + 1)) n; mret (b :: l))) Q s).
  rewrite wp_bind. apply wp_ubyte; [lia|]. unfold wp. rewrite vm_bind.
  change (wp (l ← vm (uloads (u32 (a + 1)) n); vm (mret (ubyte a :: l))) Q s). rewrite wp_bind.
  unfold KERNBASE in *. rewrite u32_id by lia. apply IH; [lia|lia|].
  unfold vm. rewrite wp_lift, wp_ret. change (Q (ubyte a :: ((fun k => ubyte (a + 1 + Z.of_nat k)) <$> seq 0 n)) (lset (Lens := k_vm) (lget s) s)).
  rewrite vm_id. cbn [seq fmap list_fmap] in HQ. rewrite Z.add_0_r in HQ.
  replace ((fun k => ubyte (a + 1 + Z.of_nat k)) <$> seq 0 n) with ((fun k => ubyte (a + Z.of_nat k)) <$> seq 1 n); [done|].
  rewrite <- (fmap_S_seq 0 n), <- list_fmap_compose. apply list_fmap_ext. intros j k _. cbn. f_equal. lia.
Qed.

Definition fetched (a : Z) : option Z := if a + 4 <=? p_sz x then Some (s32 (uword a)) else None.

Lemma wp_fetchint a (Q : option Z -> kst -> Prop) :
  0 <= a < 4294967296 -> Q (fetched a) s -> wp (fetchint a) Q s.
Proof.
  intros Ha HQ. unfold fetchint. wp_simpl. apply wp_curp. unfold fetched in HQ. unfold KERNBASE in Hsz.
  destruct (Z.leb_spec (p_sz x) a); cbn [orb].
  { wp_simpl. by destruct (Z.leb_spec (a + 4) (p_sz x)); [lia|]. }
  rewrite u32_id by lia. destruct (Z.ltb_spec (p_sz x) (a + 4)).
  { wp_simpl. by destruct (Z.leb_spec (a + 4) (p_sz x)); [lia|]. }
  destruct (Z.leb_spec (a + 4) (p_sz x)); [|lia]. unfold uload32. wp_simpl. apply wp_uloads; [lia|lia|]. wp_simpl.
  cbn [seq fmap list_fmap] in *. by rewrite Z.add_0_r.
Qed.

Definition arg_addr (n : Z) : Z := u32 (tf_esp (p_tf x) + 4 + 4 * n).

Lemma wp_argint n (Q : option Z -> kst -> Prop) : Q (fetched (arg_addr n)) s -> wp (argint n) Q s.
Proof.
  intros HQ. unfold argint. wp_simpl. apply wp_curp. apply wp_fetchint; [apply u32_range|done].
Qed.

Lemma fetchstr_loop_spec a n (Q : option (list Z) -> kst -> Prop) :
  0 <= a -> p_sz x - a < Z.of_nat n ->
  (forall l, a + Z.of_nat (length l) < p_sz x -> (forall k b, l !! k = Some b -> ubyte (a + Z.of_nat k) = b /\ b <> 0) ->
     ubyte (a + Z.of_nat (length l)) = 0 -> Q (Some l) s) ->
  ((forall b, a <= b < p_sz x -> ubyte b <> 0) -> Q None s) ->
  wp (fetchstr_loop a (p_sz x) n) Q s.
Proof.
  revert a Q. induction n as [|n IH]; intros a Q Ha Hn HS HN; cbn [fetchstr_loop].
  { apply HN. lia. }
  destruct (Z.ltb_spec a (p_sz x)) as [Hlt|]; [|apply HN; lia].
  wp_simpl. apply wp_ubyte; [lia|]. destruct (Z.eqb_spec (ubyte a) 0) as [E|E].
  - wp_simpl. apply HS; cbn; [lia|done|by rewrite Z.add_0_r].
  - wp_simpl. apply IH; [lia|lia| |].
    + intros l H1 H2 H3. wp_simpl. apply (HS (ubyte a :: l)); cbn [length].
      * lia.
      * intros [|k] b Hk; [injection Hk as <-; by rewrite Z.add_0_r|].
        destruct (H2 k b Hk) as [<- ?]. split; [|done]. f_equal. lia.
      * rewrite <- H3. f_equal. lia.
    + intros H1. wp_simpl. apply HN. intros b Hb. destruct (decide (b = a)) as [->|]; [done|]. apply H1. lia.
Qed.
End args.

(** C27.  Checking of system-call arguments: for a process whose memory is all
    mapped, [argptr] never faults, leaves the state alone, and accepts exactly
    the buffers that lie inside the process, with no wrap-around of the
    address arithmetic; [fetchstr] returns exactly a string that ends inside
    the process, and fails exactly when there is none. *)
Theorem arguments_checked `{KSyms} s i x n size addr :
  cur (kcore_of s) = Some i -> procs (kcore_of s) !! i = Some x -> 0 <= p_sz x <= KERNBASE -> mapped s x ->
  -2147483648 <= size < 2147483648 -> 0 <= addr < 4294967296 ->
  (exists r, argptr n size s = Ok r s /\
     let a := arg_addr x n in let p := u32 (uword s a) in
     r = if bool_decide (a + 4 <= p_sz x /\ 0 <= size /\ p < p_sz x /\ p + size <= p_sz x) then Some p else None) /\
  (exists r, fetchstr addr s = Ok r s /\
     match r with
     | Some l => addr + Z.of_nat (length l) < p_sz x /\
         (forall k b, l !! k = Some b -> ubyte s (addr + Z.of_nat k) = b /\ b <> 0) /\
         ubyte s (addr + Z.of_nat (length l)) = 0
     | None => forall b, addr <= b < p_sz x -> ubyte s b <> 0
     end).
Proof.
  intros Hc Hx Hsz Hm Hs Ha. unfold KERNBASE in Hsz. split.
  - assert (wp (argptr n size) (fun r t => t = s /\ r =
      if bool_decide (arg_addr x n + 4 <= p_sz x /\ 0 <= size /\ u32 (uword s (arg_addr x n)) < p_sz x /\
         u32 (uword s (arg_addr x n)) + size <= p_sz x) then Some (u32 (uword s (arg_addr x n))) else None) s)
      as (r & t & E & -> & Hr)%wp_inv; [|eauto].
    unfold argptr. wp_simpl. apply (wp_curp s i x); [done..|]. wp_simpl. apply (wp_argint s i x); [done..|].
    unfold fetched. destruct (Z.leb_spec (arg_addr x n + 4) (p_sz x)).
    2: { wp_simpl. rewrite bool_decide_false; [done|lia]. }
    assert (u32 (s32 (uword s (arg_addr x n))) = u32 (uword s (arg_addr x n))) as ->.
    { unfold s32. rewrite u32_sub_l with (x := uword s (arg_addr x n) + 2147483648). f_equal. lia. }
    pose proof (u32_range (uword s (arg_addr x n))). set (p := u32 (uword s (arg_addr x n))) in *.
    destruct (Z.ltb_spec size 0), (Z.leb_spec (p_sz x) p); cbn [orb]; wp_simpl; try (rewrite bool_decide_false; [done|lia]).
    rewrite u32_id by lia. destruct (Z.ltb_spec (p_sz x) (p + size)); wp_simpl; split; try done.
    + by rewrite bool_decide_false by lia.
    + by rewrite bool_decide_true by lia.
  - assert (wp (fetchstr addr) (fun r t => t = s /\ match r with
     | Some l => addr + Z.of_nat (length l) < p_sz x /\
         (forall k b, l !! k = Some b -> ubyte s (addr + Z.of_nat k) = b /\ b <> 0) /\
         ubyte s (addr + Z.of_nat (length l)) = 0
     | None => forall b, addr <= b < p_sz x -> ubyte s b <> 0
     end) s) as (r & t & E & -> & Hr)%wp_inv; [|eauto].
    unfold fetchstr. wp_simpl. apply (wp_curp s i x); [done..|].
    destruct (Z.leb_spec (p_sz x) addr); [wp_simpl; split; [done|lia]|].
    apply (fetchstr_loop_spec s x); [done..|lia|lia| |]; eauto.
Qed.

(** ** Process identifiers *)

(** Identifiers in use are positive, below [nextpid], and distinct. *)
Record pids_ok (c : kcore) : Prop := {
  po_range : forall i p, procs c !! i = Some p -> p_state p <> UNUSED -> 0 < p_pid p < nextpid c;
  po_uniq : forall i j p q, procs c !! i = Some p -> procs c !! j = Some q ->
    p_state p <> UNUSED -> p_state q <> UNUSED -> p_pid p = p_pid q -> i = j }.

Lemma pids_insert c i p k :
  pids_ok c -> 0 < nextpid c -> procs c !! i = Some p -> p_pid k = nextpid c ->
  pids_ok (set_nextpid (nextpid c + 1) (set_procs (<[i := k]> (procs c)) c)).
Proof.
  intros [H1 H2] H0 Hi Hk. assert (i < length (procs c))%nat as Hlt by (by eapply lookup_lt_Some).
  assert (forall j q, procs c !! j = Some q -> p_state q <> UNUSED -> p_pid q <> p_pid k) as Hne.
  { intros j q Hj Hs. specialize (H1 j q Hj Hs). lia. }
  split; cbn [procs set_procs set_nextpid nextpid].
  - intros j q Hj Hs. destruct (decide (j = i)) as [->|Hji].
    + rewrite list_lookup_insert_eq in Hj by done. injection Hj as <-. lia.
    + rewrite list_lookup_insert_ne in Hj by done. specialize (H1 j q Hj Hs). lia.
  - intros a b p' q Ha Hb Hsa Hsb E.
    destruct (decide (a = i)) as [->|Hai], (decide (b = i)) as [->|Hbi]; [done| | |].
    + rewrite list_lookup_insert_eq in Ha by done. rewrite list_lookup_insert_ne in Hb by done.
      injection Ha as <-. by destruct (Hne b q Hb Hsb).
    + rewrite list_lookup_insert_eq in Hb by done. rewrite list_lookup_insert_ne in Ha by done.
      injection Hb as <-. by destruct (Hne a p' Ha Hsa).
    + rewrite list_lookup_insert_ne in Ha, Hb by done. by eapply H2.
Qed.

Lemma pids_same c i p k :
  pids_ok c -> procs c !! i = Some p -> p_pid k = p_pid p -> (p_state k <> UNUSED -> p_state p <> UNUSED) ->
  pids_ok (set_procs (<[i := k]> (procs c)) c).
Proof.
  intros [H1 H2] Hi Hk Hu. assert (i < length (procs c))%nat as Hlt by (by eapply lookup_lt_Some).
  assert (forall j q, (<[i := k]> (procs c)) !! j = Some q -> p_state q <> UNUSED ->
    exists r, procs c !! j = Some r /\ p_state r <> UNUSED /\ p_pid r = p_pid q) as Hold.
  { intros j q Hj Hs. destruct (decide (j = i)) as [->|Hji].
    - rewrite list_lookup_insert_eq in Hj by done. injection Hj as <-. exists p. auto.
    - rewrite list_lookup_insert_ne in Hj by done. by exists q. }
  split; cbn [procs set_procs nextpid].
  - intros j q Hj Hs. destruct (Hold j q Hj Hs) as (r & Hr & Hrs & <-). by apply (H1 j).
  - intros a b p' q Ha Hb Hsa Hsb E. destruct (Hold a p' Ha Hsa) as (r & Hr & Hrs & Er).
    destruct (Hold b q Hb Hsb) as (r' & Hr' & Hrs' & Er'). apply (H2 a b r r'); [done..|congruence].
Qed.

Definition vst_of (s : kst) : vst := lget (Lens := k_vm) s.
Definition set_kfreelist (f : Z) (s : kst) : kst :=
  mkK (kfs s) (kuse_lock s) f (kmem s) (files s) (pipes s) (ticks s).

Section pids.
Context `{KSyms}.

Lemma wp_kalloc_k s l (Q : Z -> kst -> Prop) :
  LkKmem ∉ held (kcore_of s) -> kmem_ok (vst_of s) l ->
  match l with
  | [] => Q 0 s
  | v :: l' => page_ok v -> kmem_ok (vst_of (set_kfreelist (load32 (kmem s) v) s)) l' ->
      Q v (set_kfreelist (load32 (kmem s) v) s)
  end -> wp (vm kalloc) Q s.
Proof.
  intros Hh Hk HQ. unfold vm. rewrite wp_lift. apply (wp_kalloc _ l); [done|done|]. destruct l as [|v l].
  - change (Q 0 (lset (Lens := k_vm) (lget s) s)). by rewrite vm_id.
  - intros v' -> Hk'.
    assert (lset (Lens := k_vm) (set_freelist (load32 (kmemory (vst_of s)) v) (vst_of s)) s = set_kfreelist (load32 (kmem s) v) s) as Es
      by (by destruct s as [[[[] ?] ? ? ?] ? ? ? ? ? ?]).
    change (Q v (lset (Lens := k_vm) (set_freelist (load32 (kmemory (vst_of s)) v) (vst_of s)) s)). rewrite Es.
    apply HQ; [by apply (Forall_inv (km_pages _ _ Hk))|exact Hk'].
Qed.

Lemma wp_pupd i p f (Q : unit -> kst -> Prop) s :
  procs (kcore_of s) !! i = Some p ->
  Q tt (set_kcore (set_procs (<[i := f p]> (procs (kcore_of s))) (kcore_of s)) s) -> wp (pupd i f) Q s.
Proof. intros Hp HQ. unfold pupd. rewrite wp_core. by apply (wp_upd_proc i f p). Qed.

(** The slot that [allocproc] fills. *)
Definition embryo (pid kstack : Z) (p : proc) : proc :=
  set_p_context (mkContext 0 0 0 0 sym_forkret) (set_p_kstack kstack (set_p_pid pid (set_p_state EMBRYO p))).

Lemma allocproc_taken s i p :
  held (kcore_of s) = [] -> list_find (fun p => p_state p = UNUSED) (procs (kcore_of s)) = Some (i, p) ->
  nextpid (kcore_of s) < 2147483647 -> 0 < nextpid (kcore_of s) ->
  forall l, kmem_ok (vst_of s) l ->
  wp allocproc (fun r t => exists k, procs (kcore_of t) = <[i := k]> (procs (kcore_of s)) /\
    nextpid (kcore_of t) = nextpid (kcore_of s) + 1 /\ held (kcore_of t) = [] /\ p_pid k = nextpid (kcore_of s) /\
    match l with
    | [] => r = None /\ p_state k = UNUSED
    | v :: _ => r = Some i /\ k = embryo (nextpid (kcore_of s)) v p /\ kfreelist t = load32 (kmem s) v
    end) s.
Proof.
  intros Hh Hf Hn H0 l Hk. pose proof Hf as (Hi & Hu & _)%list_find_Some.
  assert (i < length (procs (kcore_of s)))%nat as Hlt by (by eapply lookup_lt_Some).
  assert (forall k, (<[i := k]> (procs (kcore_of s))) !! i = Some k) as Hins by (intros k; by apply list_lookup_insert_eq).
  unfold allocproc. rewrite wp_bind. eapply wp_intro; [by apply core_acquire|].
  wp_simpl. change (lget (locked LkPtable s)) with (set_held [LkPtable] (kcore_of s)). cbn [procs set_held].
  rewrite Hf. wp_simpl.
  apply (wp_pupd i p); [done|]. wp_simpl. eapply (wp_pupd i); [apply Hins|]. wp_simpl.
  cbn [procs set_procs kcore_of set_kcore kfs set_kfs flog set_flog lbio set_lbio bcore set_bcore set_held].
  unfold core at 1. rewrite wp_lift, wp_modify. wp_simpl. eapply wp_intro; [by apply core_release|]. wp_simpl.
  apply (wp_kalloc_k _ l).
  { apply not_elem_of_nil. }
  { destruct Hk as [K1 K2 K3]. split; [exact K1|exact K2|exact K3]. }
  destruct l as [|v l].
  - wp_simpl. eapply (wp_pupd i); [cbn; rewrite !list_insert_insert_eq; apply Hins|]. cbn [Z.eqb]. wp_simpl.
    eapply (wp_pupd i); [cbn; rewrite !list_insert_insert_eq; apply Hins|]. wp_simpl.
    eexists. cbn. rewrite !list_insert_insert_eq. split; [reflexivity|]. split; [apply s32_id; lia|done].
  - intros Hv Hkv. wp_simpl. eapply (wp_pupd i); [cbn; rewrite !list_insert_insert_eq; apply Hins|].
    destruct (Z.eqb_spec v 0) as [->|Hv0]; [pose proof (page_word32 _ Hv); destruct Hv; unfold KERNBASE in *; lia|].
    wp_simpl. unfold vm at 1. rewrite wp_lift. unfold wr32, upd_mem. rewrite wp_modify. wp_simpl.
    eapply (wp_pupd i); [cbn; rewrite !list_insert_insert_eq; apply Hins|]. wp_simpl.
    eexists. cbn. rewrite !list_insert_insert_eq. split; [reflexivity|]. split; [apply s32_id; lia|]. done.
Qed.
End pids.

(** [allocproc] hands out fresh process identifiers: identifiers in use
    stay distinct and below [nextpid].  It takes an unused slot, which becomes
    an embryo with the old [nextpid] and a kernel stack from the free list,
    and fails, leaving the slot unused, when there is no memory; it fails
    without a change when no slot is unused. *)
Theorem allocproc_fresh `{KSyms} s l :
  held (kcore_of s) = [] -> kmem_ok (vst_of s) l -> pids_ok (kcore_of s) -> 0 < nextpid (kcore_of s) < 2147483647 ->
  exists r t, allocproc s = Ok r t /\ pids_ok (kcore_of t) /\ held (kcore_of t) = [] /\
    match r with
    | Some i => exists p v l', procs (kcore_of s) !! i = Some p /\ p_state p = UNUSED /\ l = v :: l' /\
        procs (kcore_of t) = <[i := embryo (nextpid (kcore_of s)) v p]> (procs (kcore_of s))
    | None => l = [] \/ t = s /\ Forall (fun p => p_state p <> UNUSED) (procs (kcore_of s))
    end.
Proof.
  intros Hh Hk Hp Hn. destruct (list_find (fun p => p_state p = UNUSED) (procs (kcore_of s))) as [[i p]|] eqn:Hf.
  - destruct (wp_inv _ _ _ (allocproc_taken s i p Hh Hf ltac:(lia) ltac:(lia) l Hk))
      as (r & t & E & k & Hprocs & Hnext & Hheld & Hpid & Hr).
    apply list_find_Some in Hf as (Hi & Hu & _). exists r, t. split_and!; [done| |done|].
    + destruct (pids_insert _ i p k Hp ltac:(lia) Hi Hpid) as [P1 P2].
      cbn [procs set_procs set_nextpid nextpid] in P1, P2. split; rewrite Hprocs, ?Hnext; done.
    + destruct l as [|v l]; destruct Hr as (-> & Hr); [by left|]. destruct Hr as [-> _]. by exists p, v, l.
  - exists None, s. split_and!; [|done|done|right; split; [done|exact (proj1 (list_find_None _ _) Hf)]].
    unfold allocproc. rewrite (bind_ok _ _ _ _ _ (core_acquire _ _ Hh)).
    erewrite (bind_ok (gets _)) by reflexivity. change (procs (lget (locked LkPtable s))) with (procs (kcore_of s)).
    rewrite Hf. rewrite (bind_ok _ _ _ _ _ (core_release LkPtable (locked LkPtable s) eq_refl)).
    unfold mret, M_ret. f_equal. unfold locked, set_kcore, kcore_of in *. cbn in *. rewrite <- Hh.
    by destruct s as [[[[[] ? ? ?] ?] ? ? ?] ? ? ? ? ? ?].
Qed.

(** ** Witnesses *)

#[local] Existing Instance pipe_syms.

(** The process of [demo_kst] with a stack pointer of 8 sees the bytes
    0, 1, 2, ... of its page. *)
Definition sys_proc : proc := set_p_sz 64 (set_p_tf (set_tf_esp 8 zero_tf) demo_runner).
Definition sys_kst : kst := set_kcore (set_procs [sys_proc] (kcore_of demo_kst)) demo_kst.

Lemma sys_mapped : mapped sys_kst sys_proc.
Proof.
  intros a Ha. cbn in Ha. assert (forallb (fun a => bool_decide (is_Some (utrans (kmem sys_kst) (kcr3 sys_kst) false a)))
    (Z.of_nat <$> seq 0 64) = true) as Hc by (vm_compute; reflexivity).
  rewrite forallb_forall in Hc. eapply bool_decide_eq_true_1, Hc, list_elem_of_In, list_elem_of_fmap.
  exists (Z.to_nat a). split; [lia|]. apply elem_of_seq. lia.
Qed.

(** The word at 12 is 252579084: no such buffer; no string in the page ends. *)
Lemma arguments_checked_witness :
  (exists r, argptr 0 4 sys_kst = Ok r sys_kst /\
     let a := arg_addr sys_proc 0 in let p := u32 (uword sys_kst a) in
     r = if bool_decide (a + 4 <= 64 /\ 0 <= 4 /\ p < 64 /\ p + 4 <= 64) then Some p else None) /\
  (exists r, fetchstr 60 sys_kst = Ok r sys_kst /\
     match r with
     | Some l => 60 + Z.of_nat (length l) < 64 /\
         (forall k b, l !! k = Some b -> ubyte sys_kst (60 + Z.of_nat k) = b /\ b <> 0) /\
         ubyte sys_kst (60 + Z.of_nat (length l)) = 0
     | None => forall b, 60 <= b < 64 -> ubyte sys_kst b <> 0
     end).
Proof.
  apply (arguments_checked sys_kst 0 sys_proc 0 4 60);
    [reflexivity|reflexivity|cbn; unfold KERNBASE; lia|apply sys_mapped|lia|lia].
Defined.

(** Two slots, one in use, and one free page. *)
Definition alloc_kst : kst :=
  mkK (set_flog (set_lbio (set_bcore (mkCore [] None [demo_runner; set_p_state UNUSED demo_runner] 2 None ∅ 0 0 0)
         (lbio (flog (kfs demo_kst)))) (flog (kfs demo_kst))) (kfs demo_kst))
    1 2149580800 (store32 (fun _ => 0) 2149580800 0) [] ∅ 0.

Lemma allocproc_fresh_witness :
  exists r t, allocproc alloc_kst = Ok r t /\ pids_ok (kcore_of t) /\ held (kcore_of t) = [] /\
    match r with
    | Some i => exists p v l', procs (kcore_of alloc_kst) !! i = Some p /\ p_state p = UNUSED /\ [2149580800] = v :: l' /\
        procs (kcore_of t) = <[i := embryo 2 v p]> (procs (kcore_of alloc_kst))
    | None => [2149580800] = [] \/ t = alloc_kst /\ Forall (fun p => p_state p <> UNUSED) (procs (kcore_of alloc_kst))
    end.
Proof.
  apply (allocproc_fresh alloc_kst [2149580800]); [reflexivity| | |cbn; lia].
  - split; [vm_compute; done|apply NoDup_singleton|].
    repeat constructor; cbn; unfold PGSIZE, KERNBASE, PHYSTOP; (done || lia).
  - split.
    + intros [|[|i]] p Hp Hs; try done; injection Hp as <-; [cbn; lia|done].
    + intros [|[|i]] [|[|j]] p q Hp Hq Hsp Hsq _; try done; injection Hp as <-; injection Hq as <-; done.
Defined.

(** ** Shrinking a process to nothing *)

(** A process of one page, all of it mapped, as [demo_kst]. *)
Definition shrink_kst : kst :=
  set_kcore (set_procs [set_p_kstack 2149597184 demo_runner] (kcore_of demo_kst)) demo_kst.

(** [growproc] by minus the size of the process frees all its pages but
    takes the new size 0 for an error: it returns -1 and leaves the old size,
    so the process is left with 4096 bytes of which none is mapped. *)
Theorem growproc_to_zero_fails :
  match growproc (-4096) shrink_kst with
  | Ok r t => r = -1 /\ (p_sz <$> procs (kcore_of t) !! 0%nat) = Some 4096 /\
      utrans (kmem shrink_kst) (kcr3 shrink_kst) false 0 = Some 2149588992 /\
      utrans (kmem t) (kcr3 t) false 0 = None
  | _ => False
  end.
Proof. vm_compute. repeat split. Qed.
