(* ===== verification/Spinlock.v ===== *)
(** * Spin locks between CPUs

    Models [spinlock.c]: [pushcli], [popcli], [holding], [acquire] and
    [release] with their atomic steps, run by any number of CPUs in any
    interleaving.  [cpus] is the state of each CPU: its nesting of [pushcli],
    the saved and the current interrupt flag, where it is inside [acquire] or
    [release], and (a ghost) the locks it has acquired.  The call stack that
    [acquire] records for debugging is left out. *)

From S2P Require Import Prelude Core.

Inductive lockpc :=
| Idle
| AcqSpin (lk : lockid)    (* in the loop on xchg *)
| AcqGot (lk : lockid)     (* xchg returned 0, lk->cpu not yet set *)
| RelStore (lk : lockid)   (* lk->cpu cleared, lk->locked not yet *)
| RelPop.                  (* before popcli *)

Record scpu := mkCpu {
  ncli : Z; intena : bool; iflag : bool; lpc : lockpc; owned : list lockid }.
Record spin := mkSpin { sp_locked : Z; sp_cpu : option nat }.
Record sst := mkSst { cpus : list scpu; spins : lockid -> spin }.

Definition set_ncli v c := mkCpu v (intena c) (iflag c) (lpc c) (owned c).
Definition set_intena v c := mkCpu (ncli c) v (iflag c) (lpc c) (owned c).
Definition set_iflag v c := mkCpu (ncli c) (intena c) v (lpc c) (owned c).
Definition set_lpc v c := mkCpu (ncli c) (intena c) (iflag c) v (owned c).
Definition set_owned v c := mkCpu (ncli c) (intena c) (iflag c) (lpc c) v.

Definition get_cpu (me : nat) : M sst scpu := l ← gets cpus; idx l me.
Definition upd_cpu (me : nat) (f : scpu -> scpu) : M sst unit :=
  c ← get_cpu me; modify (fun s => mkSst (<[me := f c]> (cpus s)) (spins s)).
Definition get_spin (lk : lockid) : M sst spin := gets (fun s => spins s lk).
Definition put_spin (lk : lockid) (v : spin) : M sst unit :=
  modify (fun s => mkSst (cpus s) (fun l => if decide (l = lk) then v else spins s l)).

Definition initlock (lk : lockid) : M sst unit := put_spin lk (mkSpin 0 None).

Definition pushcli (me : nat) : M sst unit :=
  c ← get_cpu me;
  let eflags := iflag c in
  upd_cpu me (set_iflag false) ;;
  (if ncli c =? 0 then upd_cpu me (set_intena eflags) else skip) ;;
  upd_cpu me (fun c => set_ncli (ncli c + 1) c).

Definition popcli (me : nat) : M sst unit :=
  c ← get_cpu me;
  if iflag c then panic "popcli - interruptible" else
  upd_cpu me (fun c => set_ncli (ncli c - 1) c) ;;
  c ← get_cpu me;
  if ncli c <? 0 then panic "popcli" else
  if (ncli c =? 0) && intena c then upd_cpu me (set_iflag true) else skip.

Definition holding (me : nat) (lk : lockid) : M sst bool :=
  pushcli me ;;
  l ← get_spin lk;
  let r := negb (sp_locked l =? 0) && bool_decide (sp_cpu l = Some me) in
  popcli me ;;
  mret r.

(** ** The atomic steps of acquire and release *)

Definition acquire_start (me : nat) (lk : lockid) : M sst unit :=
  pushcli me ;;
  h ← holding me lk;
  if (h : bool) then panic "acquire" else upd_cpu me (set_lpc (AcqSpin lk)).
(** The loop condition [xchg(&lk->locked, 1) != 0]. *)
Definition acquire_xchg (me : nat) (lk : lockid) : M sst unit :=
  l ← get_spin lk;
  put_spin lk (mkSpin 1 (sp_cpu l)) ;;
  if sp_locked l =? 0 then upd_cpu me (set_lpc (AcqGot lk)) else skip.
Definition acquire_done (me : nat) (lk : lockid) : M sst unit :=
  l ← get_spin lk;
  put_spin lk (mkSpin (sp_locked l) (Some me)) ;;
  upd_cpu me (fun c => set_lpc Idle (set_owned (lk :: owned c) c)).

Definition release_start (me : nat) (lk : lockid) : M sst unit :=
  h ← holding me lk;
  if negb h then panic "release" else
  l ← get_spin lk;
  put_spin lk (mkSpin (sp_locked l) None) ;;
  upd_cpu me (fun c => set_lpc (RelStore lk) (set_owned (remove1 lk (owned c)) c)).
Definition release_store (me : nat) (lk : lockid) : M sst unit :=
  l ← get_spin lk;
  put_spin lk (mkSpin 0 (sp_cpu l)) ;;
  upd_cpu me (set_lpc RelPop).
Definition release_pop (me : nat) : M sst unit := popcli me ;; upd_cpu me (set_lpc Idle).

(** [acquire] and [release] run to their end, the loop at most [fuel] times. *)
Definition acquire_all (fuel : nat) (me : nat) (lk : lockid) : M sst unit :=
  acquire_start me lk ;;
  loop fuel (fun _ : unit =>
    acquire_xchg me lk ;;
    c ← get_cpu me;
    match lpc c with AcqGot _ => mret (inr tt) | _ => mret (inl tt) end) tt ;;
  acquire_done me lk.
Definition release_all (me : nat) (lk : lockid) : M sst unit :=
  release_start me lk ;; release_store me lk ;; release_pop me.

(** ** Interleaving *)

Inductive lstep : sst -> sst -> Prop :=
| LAcquire s s' me lk c : cpus s !! me = Some c -> lpc c = Idle -> acquire_start me lk s = Ok tt s' -> lstep s s'
| LXchg s s' me lk c : cpus s !! me = Some c -> lpc c = AcqSpin lk -> acquire_xchg me lk s = Ok tt s' -> lstep s s'
| LGot s s' me lk c : cpus s !! me = Some c -> lpc c = AcqGot lk -> acquire_done me lk s = Ok tt s' -> lstep s s'
| LRelease s s' me lk c : cpus s !! me = Some c -> lpc c = Idle -> release_start me lk s = Ok tt s' -> lstep s s'
| LStore s s' me lk c : cpus s !! me = Some c -> lpc c = RelStore lk -> release_store me lk s = Ok tt s' -> lstep s s'
| LPop s s' me c : cpus s !! me = Some c -> lpc c = RelPop -> release_pop me s = Ok tt s' -> lstep s s'.

(** ** The invariant *)

(** The CPU is past the xchg of an [acquire], not yet past the store of the
    [release]. *)
Definition claims (c : scpu) (lk : lockid) : Prop := lk ∈ owned c \/ lpc c = AcqGot lk \/ lpc c = RelStore lk.

Definition in_call (c : scpu) : Z := match lpc c with Idle => 0 | _ => 1 end.

(** The lock the CPU is taking or giving back. *)
Definition pc_lock (c : scpu) : option lockid :=
  match lpc c with AcqSpin l | AcqGot l | RelStore l => Some l | _ => None end.

Record spin_inv (s : sst) : Prop := {
  si_locked : forall lk, sp_locked (spins s lk) = 0 \/ sp_locked (spins s lk) = 1;
  si_claim : forall me c lk, cpus s !! me = Some c -> claims c lk -> sp_locked (spins s lk) = 1;
  si_excl : forall i j c d lk, cpus s !! i = Some c -> cpus s !! j = Some d -> claims c lk -> claims d lk -> i = j;
  si_owner : forall me c lk, cpus s !! me = Some c -> (lk ∈ owned c <-> sp_cpu (spins s lk) = Some me);
  si_fresh : forall me c lk, cpus s !! me = Some c -> pc_lock c = Some lk -> lk ∉ owned c;
  si_nodup : forall me c, cpus s !! me = Some c -> NoDup (owned c);
  si_ncli : forall me c, cpus s !! me = Some c -> ncli c = Z.of_nat (length (owned c)) + in_call c;
  si_iflag : forall me c, cpus s !! me = Some c -> 0 < ncli c -> iflag c = false }.

Section step.
Context (s : sst) (me : nat) (c c' : scpu) (sps : lockid -> spin) (lk : lockid).
Context (Hi : spin_inv s) (Hc : cpus s !! me = Some c).

Definition others (P : nat -> scpu -> Prop) : Prop := forall j d, j <> me -> cpus s !! j = Some d -> P j d.

(** A step of CPU [me] that touches only the lock [lk]. *)
Lemma spin_inv_step :
  (forall l, l <> lk -> sps l = spins s l) ->
  (forall l, l <> lk -> claims c' l -> claims c l) -> (forall l, l <> lk -> l ∈ owned c' <-> l ∈ owned c) ->
  (sp_locked (sps lk) = 0 \/ sp_locked (sps lk) = 1) ->
  (claims c' lk -> sp_locked (sps lk) = 1 /\ others (fun _ d => ~ claims d lk)) ->
  others (fun _ d => claims d lk -> sp_locked (sps lk) = 1) ->
  (lk ∈ owned c' <-> sp_cpu (sps lk) = Some me) ->
  others (fun j d => lk ∈ owned d <-> sp_cpu (sps lk) = Some j) ->
  (forall l, pc_lock c' = Some l -> l ∉ owned c') -> NoDup (owned c') -> ncli c' = Z.of_nat (length (owned c')) + in_call c' -> (0 < ncli c' -> iflag c' = false) ->
  spin_inv (mkSst (<[me := c']> (cpus s)) sps).
Proof.
  intros Hsp Hcl Hown Hlk Hme Hoth Hmine Howner Hfr Hnd Hn Hf.
  assert (me < length (cpus s))%nat as Hlt by (by eapply lookup_lt_Some).
  assert (forall j d, <[me := c']> (cpus s) !! j = Some d -> j = me /\ d = c' \/ j <> me /\ cpus s !! j = Some d) as Hl.
  { intros j d. destruct (decide (j = me)) as [->|Hne].
    - rewrite list_lookup_insert_eq by done. intros [= <-]. by left.
    - rewrite list_lookup_insert_ne by done. by right. }
  destruct Hi as [I1 I2 I3 I4 I8 I5 I6 I7]. split; cbn [cpus spins].
  - intros l. destruct (decide (l = lk)) as [->|Hne]; [done|]. by rewrite Hsp.
  - intros j d l [[-> ->]|[Hj Hd]]%Hl Hcd; destruct (decide (l = lk)) as [->|Hne]; rewrite ?Hsp by done.
    + by apply Hme.
    + by eapply I2, Hcl.
    + by eapply Hoth.
    + by eapply I2.
  - intros i j d e l [[-> ->]|[Hj Hd]]%Hl [[-> ->]|[Hk He]]%Hl H1 H2; [done| | |by eapply I3];
      destruct (decide (l = lk)) as [->|Hne].
    + destruct (Hme H1) as [_ Ho]. by destruct (Ho j e Hk He).
    + eapply I3; [exact Hc|exact He|by apply Hcl|done].
    + destruct (Hme H2) as [_ Ho]. by destruct (Ho i d Hj Hd).
    + eapply I3; [exact Hd|exact Hc|done|by apply Hcl].
  - intros j d l [[-> ->]|[Hj Hd]]%Hl; destruct (decide (l = lk)) as [->|Hne]; rewrite ?Hsp by done.
    + done.
    + rewrite Hown by done. by apply I4.
    + by apply Howner.
    + by apply I4.
  - intros j d l [[-> ->]|[Hj Hd]]%Hl; [apply Hfr|by eapply I8].
  - intros j d [[-> ->]|[Hj Hd]]%Hl; [done|by eapply I5].
  - intros j d [[-> ->]|[Hj Hd]]%Hl; [done|by eapply I6].
  - intros j d [[-> ->]|[Hj Hd]]%Hl; [done|by eapply I7].
Qed.
End step.

(** ** What the steps do *)

Lemma wp_get_cpu me c (Q : scpu -> sst -> Prop) s : cpus s !! me = Some c -> Q c s -> wp (get_cpu me) Q s.
Proof. intros Hc HQ. unfold get_cpu. wp_simpl. by apply (wp_idx _ _ c). Qed.
Lemma wp_upd_cpu me c f (Q : unit -> sst -> Prop) s :
  cpus s !! me = Some c -> Q tt (mkSst (<[me := f c]> (cpus s)) (spins s)) -> wp (upd_cpu me f) Q s.
Proof. intros Hc HQ. unfold upd_cpu. wp_simpl. by apply (wp_get_cpu me c). Qed.

Definition pushed (c : scpu) : scpu :=
  mkCpu (ncli c + 1) (if ncli c =? 0 then iflag c else intena c) false (lpc c) (owned c).

Section ops.
Context (s : sst) (me : nat) (c : scpu) (Hc : cpus s !! me = Some c).

Lemma cpu_at d : <[me := d]> (cpus s) !! me = Some d.
Proof. apply list_lookup_insert_eq. by eapply lookup_lt_Some. Qed.

Ltac at_me := cbn [cpus]; rewrite ?list_insert_insert_eq; apply cpu_at.

Lemma pushcli_run : pushcli me s = Ok tt (mkSst (<[me := pushed c]> (cpus s)) (spins s)).
Proof.
  apply wp_eq. unfold pushcli. wp_simpl. apply (wp_get_cpu me c); [done|]. wp_simpl. apply (wp_upd_cpu me c); [done|].
  unfold pushed. destruct (ncli c =? 0); wp_simpl.
  - eapply (wp_upd_cpu me); [at_me|]. wp_simpl. eapply (wp_upd_cpu me); [at_me|].
    cbn. by rewrite !list_insert_insert_eq.
  - eapply (wp_upd_cpu me); [at_me|]. cbn. by rewrite !list_insert_insert_eq.
Qed.

Lemma popcli_after : 0 <= ncli c -> exists t, popcli me (mkSst (<[me := pushed c]> (cpus s)) (spins s)) = Ok tt t.
Proof.
  intros Hn. assert (wp (popcli me) (fun _ _ => True) (mkSst (<[me := pushed c]> (cpus s)) (spins s)))
    as ([] & t & E & _)%wp_inv; [|by exists t].
  unfold popcli. wp_simpl. eapply (wp_get_cpu me); [at_me|]. cbn [iflag pushed]. wp_simpl.
  eapply (wp_upd_cpu me); [at_me|]. wp_simpl. eapply (wp_get_cpu me); [at_me|]. cbn [ncli set_ncli pushed].
  destruct (Z.ltb_spec (ncli c + 1 - 1) 0); [lia|]. destruct (_ && _); wp_simpl; [|done].
  eapply (wp_upd_cpu me); [at_me|done].
Qed.

(** [holding] tells whether this CPU acquired the lock. *)
Lemma holding_run lk :
  (lk ∈ owned c <-> sp_cpu (spins s lk) = Some me) -> (lk ∈ owned c -> sp_locked (spins s lk) = 1) ->
  0 < ncli c -> iflag c = false -> holding me lk s = Ok (bool_decide (lk ∈ owned c)) s.
Proof.
  intros Ho Hl Hn Hf. unfold holding.
  rewrite (bind_ok _ _ _ _ _ pushcli_run). erewrite (bind_ok (get_spin lk)) by reflexivity. cbn [spins].
  rewrite (bind_ok _ _ _ tt s).
  - unfold mret, M_ret. f_equal. destruct (decide (lk ∈ owned c)) as [Hin|Hout].
    + rewrite (Hl Hin). rewrite !bool_decide_true by naive_solver. done.
    + rewrite !bool_decide_false by naive_solver. by rewrite andb_false_r.
  - apply wp_eq. unfold popcli. wp_simpl. eapply (wp_get_cpu me); [at_me|]. cbn [iflag pushed].
    wp_simpl. eapply (wp_upd_cpu me); [at_me|]. wp_simpl. eapply (wp_get_cpu me); [at_me|].
    cbn [ncli set_ncli pushed]. destruct (Z.ltb_spec (ncli c + 1 - 1) 0); [lia|].
    destruct (Z.eqb_spec (ncli c + 1 - 1) 0); [lia|]. cbn [andb]. wp_simpl. split; [done|]. cbn [cpus spins]. rewrite list_insert_insert_eq.
    match goal with |- mkSst (<[_ := ?d]> _) _ = _ => assert (d = c) as -> end.
    { unfold pushed, set_ncli. cbn. destruct c as [nc ie fl pc ow]. cbn in *. subst fl.
      destruct (Z.eqb_spec nc 0); [lia|]. f_equal. lia. }
    rewrite list_insert_id by done. by destruct s.
Qed.

End ops.

(** The same for a CPU inside the system. *)
Section runs.
Context (s : sst) (me : nat) (c : scpu) (lk : lockid) (Hi : spin_inv s) (Hc : cpus s !! me = Some c).

Lemma ncli_pos : 0 <= ncli c.
Proof. rewrite (si_ncli _ Hi me c Hc). unfold in_call. destruct (lpc c); lia. Qed.

Lemma acquire_start_run :
  acquire_start me lk s =
    if bool_decide (lk ∈ owned c) then Panic "acquire"
    else Ok tt (mkSst (<[me := set_lpc (AcqSpin lk) (pushed c)]> (cpus s)) (spins s)).
Proof.
  unfold acquire_start. rewrite (bind_ok _ _ _ _ _ (pushcli_run s me c Hc)). pose proof ncli_pos.
  rewrite (bind_ok _ _ _ _ _ (holding_run (mkSst (<[me := pushed c]> (cpus s)) (spins s)) me (pushed c)
    (cpu_at s me c Hc _) lk (si_owner _ Hi me c lk Hc) (fun Ho => si_claim _ Hi me c lk Hc (or_introl Ho))
    ltac:(cbn; lia) eq_refl)).
  change (owned (pushed c)) with (owned c). destruct (bool_decide (lk ∈ owned c)); [done|].
  apply wp_eq. eapply (wp_upd_cpu me); [apply (cpu_at s me c Hc)|]. cbn. by rewrite list_insert_insert_eq.
Qed.

Lemma release_start_run :
  lpc c = Idle -> 0 < ncli c ->
  release_start me lk s =
    if bool_decide (lk ∈ owned c)
    then Ok tt (mkSst (<[me := set_lpc (RelStore lk) (set_owned (remove1 lk (owned c)) c)]> (cpus s))
      (fun l => if decide (l = lk) then mkSpin 1 None else spins s l))
    else Panic "release".
Proof.
  intros Hpc Hn. unfold release_start.
  rewrite (bind_ok _ _ _ _ _ (holding_run s me c Hc lk (si_owner _ Hi me c lk Hc)
    (fun Ho => si_claim _ Hi me c lk Hc (or_introl Ho)) Hn (si_iflag _ Hi me c Hc Hn))).
  case_bool_decide as Hin; cbn [negb]; [|done].
  apply wp_eq. unfold get_spin, put_spin. wp_simpl. apply (wp_upd_cpu me c); [done|].
  by rewrite (si_claim _ Hi me c lk Hc (or_introl Hin)).
Qed.

Lemma release_not_held : lk ∉ owned c -> release_start me lk s = Panic "release".
Proof.
  intros Hout. unfold release_start. destruct (popcli_after s me c Hc ncli_pos) as [t Ht].
  rewrite (bind_ok _ _ _ false t); [done|]. unfold holding.
  rewrite (bind_ok _ _ _ _ _ (pushcli_run s me c Hc)). erewrite (bind_ok (get_spin lk)) by reflexivity. cbn [spins].
  rewrite bool_decide_false by (intros Ho; apply Hout; by apply (si_owner _ Hi me c lk Hc)). rewrite andb_false_r.
  by rewrite (bind_ok _ _ _ _ _ Ht).
Qed.

Lemma release_pop_run :
  lpc c = RelPop ->
  release_pop me s = Ok tt (mkSst (<[me := mkCpu (ncli c - 1) (intena c)
    (if (ncli c - 1 =? 0) && intena c then true else false) Idle (owned c)]> (cpus s)) (spins s)).
Proof.
  intros Hpc. assert (0 < ncli c) as Hn by (rewrite (si_ncli _ Hi me c Hc); unfold in_call; rewrite Hpc; lia).
  pose proof (si_iflag _ Hi me c Hc Hn) as Hf. apply wp_eq. unfold release_pop, popcli. wp_simpl.
  apply (wp_get_cpu me c); [done|]. rewrite Hf. wp_simpl. apply (wp_upd_cpu me c); [done|]. wp_simpl.
  eapply (wp_get_cpu me); [cbn [cpus]; apply (cpu_at s me c Hc)|]. cbn [ncli set_ncli intena].
  destruct (Z.ltb_spec (ncli c - 1) 0); [lia|].
  destruct ((ncli c - 1 =? 0) && intena c); wp_simpl.
  - eapply (wp_upd_cpu me); [cbn [cpus]; apply (cpu_at s me c Hc)|].
    eapply (wp_upd_cpu me); [cbn [cpus]; rewrite list_insert_insert_eq; apply (cpu_at s me c Hc)|].
    cbn. by rewrite !list_insert_insert_eq.
  - eapply (wp_upd_cpu me); [cbn [cpus]; apply (cpu_at s me c Hc)|].
    cbn [cpus spins]. rewrite !list_insert_insert_eq. split; [done|]. do 2 f_equal.
    unfold set_lpc, set_ncli. cbn. by rewrite Hf.
Qed.
End runs.

Lemma remove1_other lk l (k : lockid) : k <> lk -> k ∈ remove1 lk l <-> k ∈ l.
Proof.
  intros Hk. induction l as [|x l IH]; cbn; [done|]. case_decide as E; rewrite !elem_of_cons; [subst; naive_solver|].
  by rewrite IH.
Qed.
Lemma remove1_gone lk l : NoDup l -> lk ∉ remove1 lk l.
Proof.
  induction 1 as [|x l Hx Hl IH]; cbn; [apply not_elem_of_nil|]. case_decide as E; [by subst|].
  rewrite not_elem_of_cons. by split; [congruence|].
Qed.
Lemma remove1_nodup lk l : NoDup l -> NoDup (remove1 lk l).
Proof.
  induction 1 as [|x l Hx Hl IH]; cbn; [constructor|]. case_decide as E; [done|]. constructor; [|done].
  by rewrite remove1_other.
Qed.
Lemma remove1_length lk l : lk ∈ l -> length l = S (length (remove1 lk l)).
Proof.
  induction l as [|x l IH]; cbn; [by intros ?%not_elem_of_nil|]. case_decide as E; [done|].
  intros [->|H]%elem_of_cons; [done|]. cbn. by rewrite <- IH.
Qed.

Section lsteps.
Context (s : sst) (me : nat) (c : scpu) (Hi : spin_inv s) (Hc : cpus s !! me = Some c).

Lemma mine lk : lk ∈ owned c <-> sp_cpu (spins s lk) = Some me.
Proof. by apply (si_owner _ Hi). Qed.
Lemma theirs lk : others s me (fun j d => lk ∈ owned d <-> sp_cpu (spins s lk) = Some j).
Proof. intros j d _ Hd. by apply (si_owner _ Hi). Qed.
Lemma exclusive lk : claims c lk -> others s me (fun _ d => ~ claims d lk).
Proof. intros Hcl j d Hj Hd Hcd. apply Hj. by eapply (si_excl _ Hi). Qed.
Lemma ncli_eq : ncli c = Z.of_nat (length (owned c)) + in_call c.
Proof. by apply (si_ncli _ Hi me). Qed.

Lemma step_acquire lk : lpc c = Idle -> lk ∉ owned c ->
  spin_inv (mkSst (<[me := set_lpc (AcqSpin lk) (pushed c)]> (cpus s)) (spins s)).
Proof.
  intros Hpc Hout. pose proof ncli_eq as Hn. unfold in_call in Hn. rewrite Hpc in Hn.
  apply (spin_inv_step s me c _ _ lk); try done.
  - intros l _ [Hl|[Hl|Hl]]; [by left|done|done].
  - apply (si_locked _ Hi).
  - by intros [Hl|[Hl|Hl]].
  - intros j d _ Hd. by apply (si_claim _ Hi j d).
  - apply mine.
  - apply theirs.
  - by intros l [= <-].
  - exact (si_nodup _ Hi me c Hc).
  - cbn. unfold in_call. cbn. lia.
Qed.

Definition xchged (lk : lockid) : lockid -> spin :=
  fun l => if decide (l = lk) then mkSpin 1 (sp_cpu (spins s lk)) else spins s l.

Lemma step_xchg_free lk : lpc c = AcqSpin lk -> sp_locked (spins s lk) = 0 ->
  spin_inv (mkSst (<[me := set_lpc (AcqGot lk) c]> (cpus s)) (xchged lk)).
Proof.
  intros Hpc E0. pose proof ncli_eq as Hn. unfold in_call in Hn. rewrite Hpc in Hn.
  assert (forall j d, cpus s !! j = Some d -> ~ claims d lk) as Hfree.
  { intros j d Hd Hcl. rewrite (si_claim _ Hi j d lk Hd Hcl) in E0. lia. }
  apply (spin_inv_step s me c _ _ lk); try done; unfold xchged; rewrite ?decide_True by done; cbn [sp_locked sp_cpu].
  - intros l Hl. by rewrite decide_False.
  - intros l Hl [H|[H|H]]; [by left|cbn in H; congruence|done].
  - by right.
  - intros _. split; [done|]. intros j d _ Hd. by apply Hfree with j.
  - by intros j d.
  - apply mine.
  - apply theirs.
  - intros l [= <-]. apply (si_fresh _ Hi me c lk Hc). unfold pc_lock. by rewrite Hpc.
  - exact (si_nodup _ Hi me c Hc).
  - apply (si_iflag _ Hi me c Hc).
Qed.

Lemma step_xchg_busy lk : sp_locked (spins s lk) <> 0 -> spin_inv (mkSst (<[me := c]> (cpus s)) (xchged lk)).
Proof.
  intros E0. assert (sp_locked (spins s lk) = 1) as E1 by (destruct (si_locked _ Hi lk); done).
  apply (spin_inv_step s me c _ _ lk); try done; unfold xchged; rewrite ?decide_True by done; cbn [sp_locked sp_cpu].
  - intros l Hl. by rewrite decide_False.
  - by right.
  - intros Hcl. split; [done|]. by apply exclusive.
  - by intros j d.
  - apply mine.
  - apply theirs.
  - intros l Hl. by apply (si_fresh _ Hi me c).
  - exact (si_nodup _ Hi me c Hc).
  - apply ncli_eq.
  - apply (si_iflag _ Hi me c Hc).
Qed.

Lemma step_got lk : lpc c = AcqGot lk ->
  spin_inv (mkSst (<[me := set_lpc Idle (set_owned (lk :: owned c) c)]> (cpus s))
    (fun l => if decide (l = lk) then mkSpin (sp_locked (spins s lk)) (Some me) else spins s l)).
Proof.
  intros Hpc. pose proof ncli_eq as Hn. unfold in_call in Hn. rewrite Hpc in Hn.
  assert (claims c lk) as Hcl by (right; by left). pose proof (si_claim _ Hi me c lk Hc Hcl) as E1.
  assert (lk ∉ owned c) as Hout by (apply (si_fresh _ Hi me c lk Hc); unfold pc_lock; by rewrite Hpc).
  apply (spin_inv_step s me c _ _ lk); try done; rewrite ?decide_True by done; cbn [sp_locked sp_cpu].
  - intros l Hl. by rewrite decide_False.
  - intros l Hl [[H|H]%elem_of_cons|[H|H]]; [done|by left|done|done].
  - intros l Hl. cbn. rewrite elem_of_cons. naive_solver.
  - by right.
  - intros _. split; [done|]. by apply exclusive.
  - by intros j d.
  - split; [done|intros _; left].
  - intros j d Hj Hd. split; [intros Hin; destruct (exclusive lk Hcl j d Hj Hd); by left|intros [= ->]; done].
  - constructor; [done|]. exact (si_nodup _ Hi me c Hc).
  - cbn [ncli set_lpc set_owned owned length]. unfold in_call. cbn. lia.
  - apply (si_iflag _ Hi me c Hc).
Qed.

Lemma step_release lk : lpc c = Idle -> lk ∈ owned c ->
  spin_inv (mkSst (<[me := set_lpc (RelStore lk) (set_owned (remove1 lk (owned c)) c)]> (cpus s))
    (fun l => if decide (l = lk) then mkSpin 1 None else spins s l)).
Proof.
  intros Hpc Hin. pose proof ncli_eq as Hn. unfold in_call in Hn. rewrite Hpc, (remove1_length lk) in Hn by done.
  pose proof (si_nodup _ Hi me c Hc) as Hnd. assert (claims c lk) as Hcl by (by left).
  pose proof (remove1_gone lk _ Hnd) as Hgone.
  apply (spin_inv_step s me c _ _ lk); try done; rewrite ?decide_True by done; cbn [sp_locked sp_cpu].
  - intros l Hl. by rewrite decide_False.
  - intros l Hl [H|[H|H]]; [left; by apply (proj1 (remove1_other lk _ l Hl))|done|cbn in H; congruence].
  - intros l Hl. by apply remove1_other.
  - by right.
  - intros _. split; [done|]. by apply exclusive.
  - by intros j d.
  - split; [intros H; by destruct Hgone|done].
  - intros j d Hj Hd. split; [|done]. intros Hin'. destruct (exclusive lk Hcl j d Hj Hd). by left.
  - by intros l [= <-].
  - by apply remove1_nodup.
  - cbn [ncli set_lpc set_owned owned]. unfold in_call. cbn. lia.
  - apply (si_iflag _ Hi me c Hc).
Qed.

Lemma step_store lk : lpc c = RelStore lk ->
  spin_inv (mkSst (<[me := set_lpc RelPop c]> (cpus s))
    (fun l => if decide (l = lk) then mkSpin 0 (sp_cpu (spins s lk)) else spins s l)).
Proof.
  intros Hpc. pose proof ncli_eq as Hn. unfold in_call in Hn. rewrite Hpc in Hn.
  assert (claims c lk) as Hcl by (right; by right).
  assert (lk ∉ owned c) as Hout by (apply (si_fresh _ Hi me c lk Hc); unfold pc_lock; by rewrite Hpc).
  apply (spin_inv_step s me c _ _ lk); try done; rewrite ?decide_True by done; cbn [sp_locked sp_cpu].
  - intros l Hl. by rewrite decide_False.
  - intros l Hl [H|[H|H]]; [by left|done|done].
  - by left.
  - by intros [H|[H|H]].
  - intros j d Hj Hd Hcd. by destruct (exclusive lk Hcl j d Hj Hd).
  - apply mine.
  - apply theirs.
  - exact (si_nodup _ Hi me c Hc).
  - apply (si_iflag _ Hi me c Hc).
Qed.

Lemma step_pop (lk : lockid) : lpc c = RelPop ->
  spin_inv (mkSst (<[me := mkCpu (ncli c - 1) (intena c) (if (ncli c - 1 =? 0) && intena c then true else false) Idle (owned c)]> (cpus s)) (spins s)).
Proof.
  intros Hpc. pose proof ncli_eq as Hn. unfold in_call in Hn. rewrite Hpc in Hn.
  apply (spin_inv_step s me c _ _ lk); try done.
  - intros l _ [H|[H|H]]; [by left|done|done].
  - apply (si_locked _ Hi).
  - intros [H|[H|H]]; [|done|done]. split; [apply (si_claim _ Hi me c lk Hc); by left|apply exclusive; by left].
  - intros j d _ Hd. by apply (si_claim _ Hi j d).
  - apply mine.
  - apply theirs.
  - exact (si_nodup _ Hi me c Hc).
  - cbn. unfold in_call. cbn. lia.
  - cbn. intros Hpos. destruct (Z.eqb_spec (ncli c - 1) 0); [lia|]. done.
Qed.
End lsteps.

Lemma ok_state {A} (m : M sst A) s a t t' : m s = Ok a t -> wp m (fun _ u => u = t') s -> t = t'.
Proof. unfold wp. by intros ->. Qed.

Lemma spin_inv_lstep s s' : spin_inv s -> lstep s s' -> spin_inv s'.
Proof.
  intros Hi Hs.
  destruct Hs as [s s' me lk c Hc Hpc E|s s' me lk c Hc Hpc E|s s' me lk c Hc Hpc E|s s' me lk c Hc Hpc E|s s' me lk c Hc Hpc E|s s' me c Hc Hpc E].
  - rewrite (acquire_start_run s me c lk Hi Hc) in E. case_bool_decide as Hin; [done|]. injection E as <-.
    by apply (step_acquire s me c).
  - destruct (Z.eqb_spec (sp_locked (spins s lk)) 0) as [E0|E0].
    + rewrite (ok_state _ _ _ _ (mkSst (<[me := set_lpc (AcqGot lk) c]> (cpus s)) (xchged s lk)) E).
      { by apply step_xchg_free. }
      unfold acquire_xchg, get_spin, put_spin. wp_simpl. rewrite E0. by apply (wp_upd_cpu me c).
    + rewrite (ok_state _ _ _ _ (mkSst (<[me := c]> (cpus s)) (xchged s lk)) E); [by apply step_xchg_busy|].
      unfold acquire_xchg, get_spin, put_spin. wp_simpl. destruct (Z.eqb_spec (sp_locked (spins s lk)) 0); [done|].
      wp_simpl. by rewrite (list_insert_id (cpus s)).
  - rewrite (ok_state _ _ _ _ (mkSst (<[me := set_lpc Idle (set_owned (lk :: owned c) c)]> (cpus s))
      (fun l => if decide (l = lk) then mkSpin (sp_locked (spins s lk)) (Some me) else spins s l)) E); [by apply step_got|].
    unfold acquire_done, get_spin, put_spin. wp_simpl. by apply (wp_upd_cpu me c).
  - destruct (decide (lk ∈ owned c)) as [Hin|Hout].
    + rewrite (release_start_run s me c lk Hi Hc Hpc) in E.
      * rewrite bool_decide_true in E by done. injection E as <-. by apply step_release.
      * rewrite (si_ncli _ Hi me c Hc). destruct (owned c); [by apply not_elem_of_nil in Hin|]. cbn [length]. unfold in_call. rewrite Hpc. lia.
    + by rewrite (release_not_held s me c lk Hi Hc Hout) in E.
  - rewrite (ok_state _ _ _ _ (mkSst (<[me := set_lpc RelPop c]> (cpus s))
      (fun l => if decide (l = lk) then mkSpin 0 (sp_cpu (spins s lk)) else spins s l)) E); [by apply step_store|].
    unfold release_store, get_spin, put_spin. wp_simpl. by apply (wp_upd_cpu me c).
  - rewrite (release_pop_run s me c Hi Hc Hpc) in E. injection E as <-. by apply (step_pop s me c Hi Hc LkPtable).
Qed.

(** ** The system from boot *)

Definition spin_boot (n : nat) : sst := mkSst (replicate n (mkCpu 0 false true Idle [])) (fun _ => mkSpin 0 None).

Lemma spin_boot_inv n : spin_inv (spin_boot n).
Proof.
  assert (forall me c, cpus (spin_boot n) !! me = Some c -> c = mkCpu 0 false true Idle []) as Hl
    by (by intros me c [-> _]%lookup_replicate).
  split; cbn [spins spin_boot sp_locked sp_cpu].
  - by left.
  - intros me c lk ->%Hl [H|[H|H]]; [by apply not_elem_of_nil in H|done|done].
  - intros i j c d lk ->%Hl _ [H|[H|H]]; [by apply not_elem_of_nil in H|done|done].
  - intros me c lk ->%Hl. split; [by intros H%not_elem_of_nil|done].
  - intros me c lk ->%Hl. done.
  - intros me c ->%Hl. constructor.
  - intros me c ->%Hl. done.
  - intros me c ->%Hl. done.
Qed.

Lemma spin_inv_reach s t : spin_inv s -> rtc lstep s t -> spin_inv t.
Proof. intros Hi Hr. induction Hr as [|x y z Hs _ IH]; [done|]. apply IH. by eapply spin_inv_lstep. Qed.

(** C28.  Mutual exclusion: whatever number of CPUs run [acquire] and [release]
    in whatever interleaving of their atomic steps, no two of them are between
    the exchange of an [acquire] and the store of the [release] of the same
    lock, the lock is marked as locked then, and a CPU that has acquired a
    lock runs with interrupts off. *)
Theorem spinlock_mutual_exclusion n s i c lk :
  rtc lstep (spin_boot n) s -> cpus s !! i = Some c -> claims c lk ->
  sp_locked (spins s lk) = 1 /\ iflag c = false /\
  (lk ∈ owned c -> sp_cpu (spins s lk) = Some i) /\
  forall j d, cpus s !! j = Some d -> claims d lk -> j = i.
Proof.
  intros Hr Hc Hcl. pose proof (spin_inv_reach _ _ (spin_boot_inv n) Hr) as Hi. split_and!.
  - by eapply si_claim.
  - eapply (si_iflag _ Hi i c Hc). rewrite (si_ncli _ Hi i c Hc). unfold in_call.
    destruct Hcl as [H|[H|H]]; [|rewrite H; lia|rewrite H; lia].
    destruct (owned c); [by apply not_elem_of_nil in H|]. cbn [length]. destruct (lpc c); lia.
  - by apply (si_owner _ Hi).
  - intros j d Hd Hcd. by eapply (si_excl _ Hi).
Qed.

(** ** The lock set of the other components *)

Lemma acquire_all_free s me c lk :
  spin_inv s -> cpus s !! me = Some c -> lpc c = Idle -> lk ∉ owned c -> sp_locked (spins s lk) = 0 ->
  exists s' c', acquire_all 1 me lk s = Ok tt s' /\ spin_inv s' /\ cpus s' !! me = Some c' /\
    owned c' = lk :: owned c /\ lpc c' = Idle.
Proof.
  intros Hi Hc Hpc Hout H0. pose proof (acquire_start_run s me c lk Hi Hc) as E1. rewrite bool_decide_false in E1 by done.
  set (c1 := set_lpc (AcqSpin lk) (pushed c)) in E1. set (s1 := mkSst (<[me := c1]> (cpus s)) (spins s)) in E1.
  assert (spin_inv s1) as Hi1 by (by apply step_acquire).
  assert (cpus s1 !! me = Some c1) as Hc1 by (apply (cpu_at s me c Hc)).
  set (s2 := mkSst (<[me := set_lpc (AcqGot lk) c1]> (cpus s1)) (xchged s1 lk)).
  assert (spin_inv s2) as Hi2 by (by apply step_xchg_free).
  assert (cpus s2 !! me = Some (set_lpc (AcqGot lk) c1)) as Hc2 by (apply (cpu_at s1 me c1 Hc1)).
  assert (acquire_xchg me lk s1 = Ok tt s2) as E2.
  { apply wp_eq. unfold acquire_xchg, get_spin, put_spin. wp_simpl. cbn [spins s1]. rewrite H0. by apply (wp_upd_cpu me c1). }
  eexists _, _. split; [|split; [by apply (step_got s2 me _ Hi2 Hc2 lk)|split; [apply (cpu_at s2 me _ Hc2)|done]]].
  unfold acquire_all. rewrite (bind_ok _ _ _ _ _ E1). rewrite (bind_ok _ _ _ tt s2).
  - apply wp_eq. unfold acquire_done, get_spin, put_spin. wp_simpl. eapply (wp_upd_cpu me); [exact Hc2|done].
  - apply loop_done. rewrite (bind_ok _ _ _ _ _ E2). apply wp_eq. wp_simpl. by apply (wp_get_cpu me _ _ _ Hc2).
Qed.

Lemma release_all_held s me c lk :
  spin_inv s -> cpus s !! me = Some c -> lpc c = Idle -> lk ∈ owned c ->
  exists s' c', release_all me lk s = Ok tt s' /\ spin_inv s' /\ cpus s' !! me = Some c' /\
    owned c' = remove1 lk (owned c) /\ lpc c' = Idle /\ sp_locked (spins s' lk) = 0.
Proof.
  intros Hi Hc Hpc Hin.
  assert (0 < ncli c) as Hn.
  { rewrite (si_ncli _ Hi me c Hc). unfold in_call. rewrite Hpc, (remove1_length lk) by done. lia. }
  pose proof (release_start_run s me c lk Hi Hc Hpc Hn) as E1. rewrite bool_decide_true in E1 by done.
  set (c1 := set_lpc (RelStore lk) (set_owned (remove1 lk (owned c)) c)) in E1.
  set (s1 := mkSst _ _) in E1. assert (spin_inv s1) as Hi1 by (by apply step_release).
  assert (cpus s1 !! me = Some c1) as Hc1 by (apply (cpu_at s me c Hc)).
  set (s2 := mkSst (<[me := set_lpc RelPop c1]> (cpus s1))
    (fun l => if decide (l = lk) then mkSpin 0 (sp_cpu (spins s1 lk)) else spins s1 l)).
  assert (spin_inv s2) as Hi2 by (by apply step_store).
  assert (cpus s2 !! me = Some (set_lpc RelPop c1)) as Hc2 by (apply (cpu_at s1 me c1 Hc1)).
  assert (release_store me lk s1 = Ok tt s2) as E2.
  { apply wp_eq. unfold release_store, get_spin, put_spin. wp_simpl. by apply (wp_upd_cpu me c1). }
  pose proof (release_pop_run s2 me _ Hi2 Hc2 eq_refl) as E3.
  eexists _, _. split; [|split; [by apply (step_pop s2 me _ Hi2 Hc2 lk)|split; [apply (cpu_at s2 me _ Hc2)|]]].
  - unfold release_all. by rewrite (bind_ok _ _ _ _ _ E1), (bind_ok _ _ _ _ _ E2).
  - split_and!; [done|done|]. cbn. by rewrite decide_True.
Qed.

(** The set of held locks that the single-CPU components work with is
    implemented by the locks in memory: on a CPU whose acquired locks are the
    set, [acquire] of a lock that is free or already held here, and
    [release], end as the lock-set operations do, with the same panics, and
    the acquired locks are again the set. *)
Theorem spinlock_refines_lockset s me c lk k :
  spin_inv s -> cpus s !! me = Some c -> lpc c = Idle -> held k = owned c ->
  (sp_locked (spins s lk) = 0 \/ lk ∈ owned c ->
   match acquire lk k with
   | Ok _ k' => exists s' c', acquire_all 1 me lk s = Ok tt s' /\ spin_inv s' /\ cpus s' !! me = Some c' /\
       owned c' = held k' /\ lpc c' = Idle
   | Panic msg => acquire_all 1 me lk s = Panic msg
   | _ => False
   end) /\
  match release lk k with
  | Ok _ k' => exists s' c', release_all me lk s = Ok tt s' /\ spin_inv s' /\ cpus s' !! me = Some c' /\
      owned c' = held k' /\ lpc c' = Idle
  | Panic msg => release_all me lk s = Panic msg
  | _ => False
  end.
Proof.
  intros Hi Hc Hpc Hk. unfold acquire, release, Core.holding. split.
  - intros Hfree. erewrite bind_ok by reflexivity. rewrite Hk. case_bool_decide as Hin.
    + unfold panic. unfold acquire_all. apply bind_panic. rewrite (acquire_start_run s me c lk Hi Hc).
      by rewrite bool_decide_true.
    + destruct Hfree as [Hfree|]; [|done].
      destruct (acquire_all_free s me c lk Hi Hc Hpc Hin Hfree) as (s' & c' & E & Hi' & Hc' & Ho & Hp).
      exists s', c'. cbn. by rewrite Hk.
  - erewrite bind_ok by reflexivity. rewrite Hk. case_bool_decide as Hin.
    + destruct (release_all_held s me c lk Hi Hc Hpc Hin) as (s' & c' & E & Hi' & Hc' & Ho & Hp & _).
      exists s', c'. cbn. by rewrite Hk.
    + unfold panic. unfold release_all. apply bind_panic. by apply (release_not_held s me c).
Qed.

(** ** Witnesses *)

(** CPU 1 of two takes the log's lock while CPU 0 is about to. *)
Definition demo_locks : sst :=
  mkSst [mkCpu 1 true false (AcqSpin LkLog) []; mkCpu 1 true false Idle [LkLog]]
    (fun l => if decide (l = LkLog) then mkSpin 1 (Some 1%nat)
              else (if decide (l = LkLog) then mkSpin 1 None else mkSpin 0 None)).

Lemma demo_locks_reach : rtc lstep (spin_boot 2) demo_locks.
Proof.
  eapply rtc_l; [eapply (LAcquire _ _ 0 LkLog); reflexivity|].
  eapply rtc_l; [eapply (LAcquire _ _ 1 LkLog); reflexivity|].
  eapply rtc_l; [eapply (LXchg _ _ 1 LkLog); reflexivity|].
  eapply rtc_l; [eapply (LGot _ _ 1 LkLog); reflexivity|]. apply rtc_refl.
Qed.

Lemma spinlock_mutual_exclusion_witness :
  sp_locked (spins demo_locks LkLog) = 1 /\ false = false /\
  (LkLog ∈ [LkLog] -> sp_cpu (spins demo_locks LkLog) = Some 1%nat) /\
  forall j d, cpus demo_locks !! j = Some d -> claims d LkLog -> j = 1%nat.
Proof.
  apply (spinlock_mutual_exclusion 2 demo_locks 1 (mkCpu 1 true false Idle [LkLog]) LkLog);
    [apply demo_locks_reach|reflexivity|left; left].
Defined.

Lemma spinlock_refines_lockset_witness :
  (0 = 0 \/ LkLog ∈ [] ->
   exists s' c', acquire_all 1 0 LkLog (spin_boot 1) = Ok tt s' /\ spin_inv s' /\ cpus s' !! 0%nat = Some c' /\
       owned c' = [LkLog] /\ lpc c' = Idle) /\
  release_all 0 LkLog (spin_boot 1) = Panic "release".
Proof.
  exact (spinlock_refines_lockset (spin_boot 1) 0 (mkCpu 0 false true Idle []) LkLog
    (mkCore [] None [] 1 None ∅ 0 0 0) (spin_boot_inv 1) eq_refl eq_refl eq_refl).
Defined.
