(* ===== verification/Grep.v ===== *)
(** * grep

    Models [grep.c]: the regular expression matcher of Kernighan and Pike and
    the loop that cuts its input into lines.  Strings are lists of bytes
    without their terminating zero; [read] is given by the chunks it returns. *)

From S2P Require Import Prelude Bytes.

(** ** The matcher *)

Fixpoint matchhere (re text : list Z) {struct re} : bool :=
  match re with
  | [] => true
  | c :: re1 =>
      match re1 with
      | d :: re2 =>
          if d =? 42 then
            (* matchstar(re[0], re+2, text) *)
            (fix matchstar (text : list Z) : bool :=
               matchhere re2 text ||
               match text with
               | t :: text' => if (t =? c) || (c =? 46) then matchstar text' else false
               | [] => false
               end) text
          else
            match text with
            | t :: text' => if (c =? 46) || (c =? t) then matchhere re1 text' else false
            | [] => false
            end
      | [] =>
          if c =? 36 then match text with [] => true | _ => false end else
          match text with
          | t :: text' => if (c =? 46) || (c =? t) then matchhere re1 text' else false
          | [] => false
          end
      end
  end.

Fixpoint matchstar (c : Z) (re text : list Z) : bool :=
  matchhere re text ||
  match text with
  | t :: text' => if (t =? c) || (c =? 46) then matchstar c re text' else false
  | [] => false
  end.

(** The loop of [match] over the suffixes of the text. *)
Fixpoint match_from (re text : list Z) : bool :=
  matchhere re text || match text with [] => false | _ :: text' => match_from re text' end.
Definition match_ (re text : list Z) : bool :=
  match re with
  | c :: re' => if c =? 94 then matchhere re' text else match_from re text
  | [] => match_from re text
  end.

(** ** What an expression means *)

Inductive item := Char (c : Z) | Any | Star (c : Z).

(** The items of an expression, and whether it ends with the anchor [$]. *)
Fixpoint items (re : list Z) : list item * bool :=
  match re with
  | [] => ([], false)
  | c :: re1 =>
      match re1 with
      | d :: re2 =>
          if d =? 42 then let '(l, e) := items re2 in (Star c :: l, e)
          else let '(l, e) := items re1 in ((if c =? 46 then Any else Char c) :: l, e)
      | [] => if c =? 36 then ([], true) else ([if c =? 46 then Any else Char c], false)
      end
  end.

Definition fits (c t : Z) : Prop := t = c \/ c = 46.
Inductive matches : list item -> list Z -> Prop :=
| MNil : matches [] []
| MChar c l w : matches l w -> matches (Char c :: l) (c :: w)
| MAny t l w : matches l w -> matches (Any :: l) (t :: w)
| MStar c v l w : Forall (fits c) v -> matches l w -> matches (Star c :: l) (v ++ w).

(** The expression matches at the start of the text. *)
Definition matches_at (re text : list Z) : Prop :=
  exists w rest, text = w ++ rest /\ matches (fst (items re)) w /\ (snd (items re) = true -> rest = []).

Lemma matchhere_star c d re text : d = 42 -> matchhere (c :: d :: re) text = matchstar c re text.
Proof. intros ->. induction text as [|t text IH]; cbn in *; [done|]. by rewrite IH. Qed.

Lemma matches_at_nil text : matches_at [] text.
Proof. exists [], text. split_and!; [done|constructor|done]. Qed.

Lemma matchstar_spec c re :
  (forall text, matchhere re text = true <-> matches_at re text) ->
  forall text, matchstar c re text = true <->
    exists v rest, text = v ++ rest /\ Forall (fits c) v /\ matches_at re rest.
Proof.
  intros IH text. induction text as [|t text IHt]; cbn [matchstar]; rewrite orb_true_iff, IH.
  - split.
    + intros [H|H]; [|done]. exists [], []. by split_and!.
    + intros (v & rest & E & _ & H). symmetry in E. apply app_nil in E as [-> ->]. by left.
  - split.
    + intros [H|H]; [by exists [], (t :: text)|]. destruct (_ || _) eqn:Eb; [|done].
      apply IHt in H as (v & rest & -> & Hv & H). exists (t :: v), rest. split_and!; [done| |done].
      constructor; [|done]. apply orb_true_iff in Eb as [E|E]; apply Z.eqb_eq in E; [by left|by right].
    + intros ([|u v] & rest & E & Hv & H); [left; cbn in E; by subst|]. right.
      injection E as -> ->. inversion Hv as [|? ? Hu Hv']; subst.
      assert ((u =? c) || (c =? 46) = true) as ->.
      { destruct Hu as [-> | ->]; [by rewrite Z.eqb_refl|by rewrite orb_true_r]. }
      apply IHt. by exists v, rest.
Qed.

(** One ordinary character of the expression. *)
Definition one (c : Z) : item := if c =? 46 then Any else Char c.

Lemma items_one c d re :
  d <> 42 -> items (c :: d :: re) = (one c :: fst (items (d :: re)), snd (items (d :: re))).
Proof.
  intros Hd%Z.eqb_neq.
  change (items (c :: d :: re)) with
    (if d =? 42 then let '(l, e) := items re in (Star c :: l, e)
     else let '(l, e) := items (d :: re) in (one c :: l, e)).
  rewrite Hd. by destruct (items (d :: re)).
Qed.

Lemma one_step c re1 text :
  items (c :: re1) = (one c :: fst (items re1), snd (items re1)) ->
  (forall text, matchhere re1 text = true <-> matches_at re1 text) ->
  match text with t :: text' => if (c =? 46) || (c =? t) then matchhere re1 text' else false | [] => false end = true
    <-> matches_at (c :: re1) text.
Proof.
  intros Ei IH. unfold matches_at at 1. rewrite Ei. cbn [fst snd]. destruct text as [|t text].
  { split; [done|]. intros (w & rest & E & Hm & _). symmetry in E. apply app_nil in E as [-> ->].
    unfold one in Hm. destruct (c =? 46); inversion Hm. }
  split.
  - destruct (_ || _) eqn:Eb; [|done]. intros (w & rest & -> & Hm & He)%IH. exists (t :: w), rest. split_and!; [done| |done].
    unfold one. destruct (Z.eqb_spec c 46); [by constructor|]. cbn in Eb. apply Z.eqb_eq in Eb. subst. by constructor.
  - intros (w & rest & E & Hm & He). unfold one in Hm. destruct (Z.eqb_spec c 46) as [E46|E46].
    + inversion Hm as [| |? ? w' Hm'|]; subst. injection E as -> ->. cbn. apply IH. by exists w', rest.
    + inversion Hm as [|? ? w' Hm'| |]; subst. injection E as -> ->. rewrite Z.eqb_refl, orb_true_r. apply IH. by exists w', rest.
Qed.

Lemma matchhere_spec n re text : (length re <= n)%nat -> matchhere re text = true <-> matches_at re text.
Proof.
  revert re text. induction n as [|n IH]; intros re text Hn.
  { destruct re; [|cbn in Hn; lia]. split; [intros _; apply matches_at_nil|done]. }
  destruct re as [|c [|d re]].
  - split; [intros _; apply matches_at_nil|done].
  - cbn [matchhere]. destruct (Z.eqb_spec c 36) as [->|Hc].
    + split.
      * destruct text; [|done]. intros _. exists [], []. split_and!; [done|constructor|done].
      * intros (w & rest & -> & Hm & He). cbn in Hm. inversion Hm; subst. by rewrite (He eq_refl).
    + apply (one_step c []); [cbn [items]; by rewrite (proj2 (Z.eqb_neq c 36) Hc)|]. intros t. apply IH. cbn. lia.
  - destruct (decide (d = 42)) as [->|Hd].
    + rewrite matchhere_star by done. rewrite (matchstar_spec c re) by (intros t; apply IH; cbn in *; lia).
      unfold matches_at. cbn [items]. cbn [Z.eqb Pos.eqb]. destruct (items re) as [l e]. cbn [fst snd]. split.
      * intros (v & rest & -> & Hv & w & rest' & -> & Hm & He). exists (v ++ w), rest'.
        split_and!; [by rewrite (assoc_L app)|by constructor|done].
      * intros (w & rest & -> & Hm & He). inversion Hm as [| | |? v ? w' Hv Hm']; subst.
        exists v, (w' ++ rest). split_and!; [by rewrite (assoc_L app)|done|]. by exists w', rest.
    + cbn [matchhere]. destruct (Z.eqb_spec d 42); [done|].
      apply (one_step c (d :: re)).
      * by apply items_one.
      * intros t. apply IH. cbn in *. lia.
Qed.

Lemma match_from_spec re text :
  match_from re text = true <-> exists pre rest, text = pre ++ rest /\ matches_at re rest.
Proof.
  induction text as [|t text IH]; cbn [match_from]; rewrite orb_true_iff, (matchhere_spec (length re)) by done.
  - split; [intros [H|H]; [by exists [], []|done]|].
    intros (pre & rest & E & H). symmetry in E. apply app_nil in E as [-> ->]. by left.
  - rewrite IH. split.
    + intros [H|(pre & rest & -> & H)]; [by exists [], (t :: text)|by exists (t :: pre), rest].
    + intros ([|u pre] & rest & E & H); [left; cbn in E; by subst|right]. injection E as -> ->. by exists pre, rest.
Qed.

(** C29.  The backtracking matcher decides the language of the expression: an
    expression [^re] matches a text exactly when [re] does at its start, any
    other one when it does at the start of some suffix, where a character
    followed by [*] stands for any run of it, [.] for any character, and a
    final [$] for the end of the text. *)
Theorem match_correct re text :
  match_ re text = true <->
  match re with
  | 94 :: re' => matches_at re' text
  | _ => exists pre rest, text = pre ++ rest /\ matches_at re rest
  end.
Proof.
  unfold match_. destruct re as [|c re']; [apply match_from_spec|].
  destruct (Z.eqb_spec c 94) as [->|Hc]; [by apply (matchhere_spec (length re'))|].
  rewrite match_from_spec. destruct c as [|p|p]; try done. do 7 (destruct p as [p|p|]; try done).
Qed.

(** ** Lines *)

(** The line up to the next newline and what follows it; a zero byte hides
    the rest, as [strchr] does not look past it. *)
Fixpoint next_line (l : list Z) : option (list Z * list Z) :=
  match l with
  | [] => None
  | c :: l' => if c =? 10 then Some ([], l') else if c =? 0 then None
               else '(a, b) ← next_line l'; Some (c :: a, b)
  end.

(** The complete lines of the buffer: what is written, and the tail. *)
Fixpoint grep_lines (fuel : nat) (pattern buf : list Z) : list Z * list Z :=
  match fuel with
  | O => ([], buf)
  | S f => match next_line buf with
           | None => ([], buf)
           | Some (line, rest) =>
               let '(out, tail) := grep_lines f pattern rest in
               ((if match_ pattern line then line ++ [10] else []) ++ out, tail)
           end
  end.

Definition BUFSIZE : nat := 1024.

(** What [read] still has to give: a regular file is one piece, a terminal or
    a pipe hands over one piece at a time; an empty one is an end of file. *)
Definition read (n : nat) (pieces : list (list Z)) : list Z * list (list Z) :=
  match pieces with
  | [] => ([], [])
  | p :: ps => (take n p, if (length p <=? n)%nat then ps else drop n p :: ps)
  end.

(** [grep] with [pending], the [m] bytes kept at the start of the buffer. *)
Fixpoint grep (fuel : nat) (pattern pending : list Z) (pieces : list (list Z)) : list Z :=
  match fuel with
  | O => []
  | S f =>
      let '(chunk, pieces) := read (BUFSIZE - length pending - 1) pieces in
      if decide (chunk = []) then [] else
      let buf := pending ++ chunk in
      let '(out, tail) := grep_lines (length buf + 1) pattern buf in
      (* p == buf: no complete line was found *)
      out ++ grep f pattern (if (length tail =? length buf)%nat then [] else tail) pieces
  end.

(** ** The lines of a text *)

Fixpoint lines (cur l : list Z) : list (list Z) :=
  match l with
  | [] => []
  | c :: l' => if c =? 10 then cur :: lines [] l' else lines (cur ++ [c]) l'
  end.
(** The terminated lines that match, each with its newline. *)
Definition matching (pattern l : list Z) : list Z :=
  concat (map (fun x => x ++ [10]) (filter (fun x => match_ pattern x = true) (lines [] l))).

(** No line is longer than the buffer holds, with [n] bytes of it seen. *)
Fixpoint short (n : nat) (l : list Z) : bool :=
  match l with
  | [] => true
  | c :: l' => if c =? 10 then short 0 l' else (S n <? BUFSIZE - 1)%nat && short (S n) l'
  end.
Definition ends_line (l : list Z) : bool := match last l with Some c => c =? 10 | None => false end.
(** What a terminal gives: pieces that end a line, the last one excepted. *)
Fixpoint line_pieces (pieces : list (list Z)) : bool :=
  match pieces with
  | [] => true
  | p :: ps => negb (length p =? 0)%nat && short 0 p && forallb (fun c => negb (c =? 0)) p
               && ((length ps =? 0)%nat || ends_line p) && line_pieces ps
  end.

Section Lines.
  Context (pattern : list Z).
  Local Notation nz := (Forall (fun c : Z => c <> 0)).

Lemma next_line_none l cur : nz l -> next_line l = None -> 10 ∉ l /\ lines cur l = [].
Proof.
  intros Hz. revert cur. induction Hz as [|c l Hc Hz IH]; intros cur; cbn; [by split; [apply not_elem_of_nil|]|].
  destruct (Z.eqb_spec c 10); [done|]. destruct (Z.eqb_spec c 0); [done|].
  destruct (next_line l) as [[a b]|]; [done|]. intros _. destruct (IH (cur ++ [c]) eq_refl). split; [|done].
  rewrite not_elem_of_cons. by split.
Qed.
Lemma next_line_some l a b : next_line l = Some (a, b) -> l = a ++ 10 :: b /\ 10 ∉ a.
Proof.
  revert a. induction l as [|c l IH]; intros a; cbn; [done|].
  destruct (Z.eqb_spec c 10) as [->|Hc]; [intros [= <- <-]; split; [done|apply not_elem_of_nil]|].
  destruct (Z.eqb_spec c 0); [done|]. destruct (next_line l) as [[a' b']|]; cbn; [|done].
  intros [= <- <-]. destruct (IH a' eq_refl) as [-> Hn]. split; [done|]. rewrite not_elem_of_cons. by split.
Qed.
Lemma lines_app cur a b : 10 ∉ a -> lines cur (a ++ 10 :: b) = (cur ++ a) :: lines [] b.
Proof.
  revert cur. induction a as [|c a IH]; intros cur; [by rewrite app_nil_r|].
  rewrite not_elem_of_cons. intros [Hc Ha]. cbn. destruct (Z.eqb_spec c 10); [done|].
  rewrite IH by done. by rewrite <- (assoc_L app).
Qed.
Lemma matching_line a b :
  10 ∉ a -> matching pattern (a ++ 10 :: b) = (if match_ pattern a then a ++ [10] else []) ++ matching pattern b.
Proof.
  intros Ha. unfold matching. rewrite lines_app by done. cbn [app]. rewrite filter_cons.
  by destruct (match_ pattern a).
Qed.
Lemma matching_none l : 10 ∉ l -> matching pattern l = [].
Proof.
  unfold matching. intros Hl. assert (forall cur, lines cur l = []) as ->; [|done].
  induction l as [|c l IH]; intros cur; cbn; [done|]. rewrite not_elem_of_cons in Hl. destruct Hl as [Hc Hl].
  destruct (Z.eqb_spec c 10); [by subst|by apply IH].
Qed.

(** What the inner loop does to a buffer. *)
Lemma grep_lines_spec fuel buf out tail :
  nz buf -> grep_lines fuel pattern buf = (out, tail) -> (length buf < fuel)%nat ->
  10 ∉ tail /\ (exists pre, buf = pre ++ tail /\ (10 ∈ buf -> exists pre', pre = pre' ++ [10])) /\
  forall more, matching pattern (buf ++ more) = out ++ matching pattern (tail ++ more).
Proof.
  revert buf out. induction fuel as [|fuel IH]; intros buf out Hz E0 Hf; [lia|]. revert E0. cbn.
  destruct (next_line buf) as [[line rest]|] eqn:En.
  - apply next_line_some in En as [-> Hn]. rewrite Forall_app, Forall_cons in Hz. destruct Hz as (_ & _ & Hz).
    rewrite length_app in Hf. cbn in Hf. destruct (grep_lines fuel pattern rest) as [out' tail'] eqn:E.
    intros [= <- <-]. destruct (IH rest out' Hz E ltac:(lia)) as (H1 & (pre & Hp & Hp') & H3). split_and!; [done| |].
    + exists (line ++ 10 :: pre). split; [rewrite Hp; by list_simplifier|]. intros _.
      destruct (decide (10 ∈ rest)) as [Hi|Hi].
      * destruct (Hp' Hi) as [pre' ->]. exists (line ++ 10 :: pre'). by list_simplifier.
      * exists line. destruct pre as [|x pre]; [done|]. exfalso. subst rest. destruct fuel; [lia|]. cbn [grep_lines] in E.
        destruct (next_line _) as [[a b]|] eqn:En.
        { apply next_line_some in En as [En _]. apply Hi. rewrite En. set_solver. }
        injection E as _ E. apply (f_equal length) in E. cbn in E. rewrite length_app in E. lia.
    + intros more. rewrite <- (assoc_L app). cbn [app]. rewrite matching_line by done. rewrite H3. by rewrite (assoc_L app).
  - intros [= <- <-]. apply (next_line_none _ []) in En as [Hn _]; [|done]. split_and!; [done| |done].
    exists []. split; [done|]. by intros Hi.
Qed.

Lemma short_app n a l :
  10 ∉ a -> short n (a ++ l) = true -> (a = [] \/ (n + length a < BUFSIZE - 1)%nat).
Proof.
  revert n. induction a as [|c a IH]; intros n; [by left|]. rewrite not_elem_of_cons. intros [Hc Ha]. cbn [app short].
  destruct (Z.eqb_spec c 10); [done|]. rewrite andb_true_iff, Nat.ltb_lt. intros [H1 H2]. right.
  destruct (IH (S n) Ha H2) as [->|H]; cbn [length]; lia.
Qed.
Lemma short_after n a l : short n (a ++ 10 :: l) = true -> short 0 l = true.
Proof.
  revert n. induction a as [|c a IH]; intros n; [done|]. cbn [app short].
  destruct (c =? 10); [apply IH|]. rewrite andb_true_iff. intros [_ H]. by apply IH in H.
Qed.
Lemma short_prefix n a b : short n (a ++ b) = true -> short n a = true.
Proof.
  revert n. induction a as [|c a IH]; intros n; [done|]. cbn [app short].
  destruct (c =? 10); [apply IH|]. rewrite !andb_true_iff. intros [? H]. split; [done|]. by apply IH.
Qed.

(** What the loop keeps: the pending bytes are an unfinished line that fits,
    and with the piece being read its lines stay short. *)
Definition loop_inv (pending : list Z) (pieces : list (list Z)) : Prop :=
  10 ∉ pending /\ nz pending /\
  match pieces with
  | [] => True
  | p :: ps => p <> [] /\ nz p /\ short 0 (pending ++ p) = true /\ (ps = [] \/ ends_line p = true)
               /\ line_pieces ps = true
  end.

Lemma line_pieces_inv pieces : line_pieces pieces = true -> loop_inv [] pieces.
Proof.
  intros H. unfold loop_inv. split; [apply not_elem_of_nil|]. split; [by apply Forall_nil|].
  destruct pieces as [|p ps]; cbn [line_pieces] in H; [done|].
  rewrite !andb_true_iff, negb_true_iff, Nat.eqb_neq, orb_true_iff, Nat.eqb_eq, forallb_forall in H.
  destruct H as ((((H1 & H2) & H3) & H4) & H5). split_and!; [by intros ->| |done| |done].
  - rewrite List.Forall_forall. intros c Hc%H3 ->. by cbn in Hc.
  - destruct H4 as [H4|H4]; [left; by apply nil_length_inv|by right].
Qed.

Lemma ends_line_elem l : ends_line l = true -> exists a, l = a ++ [10].
Proof.
  unfold ends_line. destruct (last l) as [c|] eqn:E; [|done]. intros ->%Z.eqb_eq. by apply last_Some in E.
Qed.
Lemma tail_of_line (a pre tail : list Z) : a ++ [10] = pre ++ tail -> 10 ∉ tail -> tail = [].
Proof.
  intros E Hn. destruct tail as [|x tail _] using rev_ind; [done|]. exfalso. apply Hn.
  rewrite (assoc_L app) in E. apply app_inj_tail in E as [_ <-]. set_solver.
Qed.

(** A read that ends the piece. *)
Lemma step_piece_end pending p ps out tail :
  loop_inv pending (p :: ps) -> nz (pending ++ p) ->
  grep_lines (length (pending ++ p) + 1) pattern (pending ++ p) = (out, tail) ->
  let keep := if (length tail =? length (pending ++ p))%nat then [] else tail in
  loop_inv keep ps /\ matching pattern (pending ++ p ++ concat ps) = out ++ matching pattern (keep ++ concat ps).
Proof.
  intros (Hn & Hz & Hp & Hzp & Hs & He & Hps) Hzb E keep.
  destruct (grep_lines_spec _ _ _ _ Hzb E ltac:(lia)) as (Ht & (pre & Eb & _) & Hmat).
  assert (keep = tail \/ keep = []) as Hk by (unfold keep; destruct (_ =? _)%nat; auto).
  rewrite (assoc_L app), Hmat. destruct ps as [|q ps].
  - cbn [concat]. rewrite !app_nil_r, (matching_none tail) by done. split.
    + unfold loop_inv. rewrite Eb, Forall_app in Hzb.
      destruct Hzb, Hk as [-> | ->]; split_and!; (done || apply not_elem_of_nil || by apply Forall_nil).
    + rewrite matching_none; [done|]. destruct Hk as [-> | ->]; [done|apply not_elem_of_nil].
  - destruct He as [He|He]; [done|]. apply ends_line_elem in He as [a ->]. rewrite (assoc_L app) in Eb.
    apply tail_of_line in Eb; [|done]. assert (keep = []) as -> by (destruct Hk; congruence).
    subst tail. split; [by apply line_pieces_inv|done].
Qed.

(** A read that fills the buffer. *)
Lemma step_full pending p ps n out tail :
  loop_inv pending (p :: ps) -> nz (pending ++ p) -> n = (BUFSIZE - length pending - 1)%nat -> (n < length p)%nat ->
  grep_lines (length (pending ++ take n p) + 1) pattern (pending ++ take n p) = (out, tail) ->
  let keep := if (length tail =? length (pending ++ take n p))%nat then [] else tail in
  loop_inv keep (drop n p :: ps) /\
  matching pattern (pending ++ p ++ concat ps) = out ++ matching pattern (keep ++ drop n p ++ concat ps).
Proof.
  intros (Hn & Hz & Hp & Hzp & Hs & He & Hps) Hzb En Hlt E keep.
  assert (pending ++ p = (pending ++ take n p) ++ drop n p) as Ep by (rewrite <- (assoc_L app); by rewrite take_drop).
  assert (nz (pending ++ take n p)) as Hzt by (rewrite Ep, Forall_app in Hzb; by destruct Hzb).
  assert (10 ∈ pending ++ take n p) as Hin.
  { destruct (decide (10 ∈ pending ++ take n p)) as [|Hi]; [done|]. exfalso. rewrite Ep in Hs.
    destruct (short_app 0 _ _ Hi Hs) as [H|H].
    - apply (f_equal length) in H. rewrite length_app, length_take in H. cbn in H. unfold BUFSIZE in *. lia.
    - rewrite length_app, length_take in H. unfold BUFSIZE in *. lia. }
  destruct (grep_lines_spec _ _ _ _ Hzt E ltac:(lia)) as (Ht & (pre & Eb & Hpre) & Hmat).
  destruct (Hpre Hin) as [pre' ->].
  assert (keep = tail) as ->.
  { unfold keep. rewrite Eb, !length_app. destruct (Nat.eqb_spec (length tail) (length pre' + length [10] + length tail)); [cbn in *; lia|done]. }
  split; [|by rewrite (assoc_L app pending), Ep, <- (assoc_L app), Hmat].
  rewrite Eb, Forall_app in Hzt. split_and!; [done|by destruct Hzt| |by apply Forall_drop| | |done].
  - intros H%(f_equal length). rewrite length_drop in H. cbn in H. lia.
  - rewrite Ep, Eb in Hs. list_simplifier. by apply short_after in Hs.
  - destruct He as [He|He]; [by left|right]. apply ends_line_elem in He as [a ->].
    rewrite length_app in Hlt. cbn in Hlt. rewrite drop_app_le by lia. unfold ends_line. by rewrite last_snoc.
Qed.

Lemma grep_spec fuel pending pieces :
  loop_inv pending pieces -> (length (concat pieces) < fuel)%nat ->
  grep fuel pattern pending pieces = matching pattern (pending ++ concat pieces).
Proof.
  revert pending pieces. induction fuel as [|fuel IH]; intros pending pieces Hi Hf; [lia|]. cbn [grep].
  destruct pieces as [|p ps].
  { cbn. rewrite app_nil_r, matching_none; [done|by destruct Hi]. }
  pose proof Hi as (Hn & Hz & Hp & Hzp & Hs & _). cbn [read]. set (n := (BUFSIZE - length pending - 1)%nat).
  assert (0 < n)%nat as H0.
  { subst n. destruct (short_app 0 pending p Hn Hs) as [-> | H]; unfold BUFSIZE in *; cbn [length] in *; lia. }
  assert (nz (pending ++ p)) as Hzb by (by apply Forall_app).
  assert (0 < length p)%nat as Hp0 by (destruct p; [done|cbn; lia]).
  cbn [concat] in Hf |- *. rewrite length_app in Hf.
  destruct (decide (take n p = [])) as [Hc|_].
  { apply (f_equal length) in Hc. rewrite length_take in Hc. cbn [length] in Hc. lia. }
  destruct (Nat.leb_spec (length p) n) as [Hle|Hgt].
  - rewrite take_ge by done. destruct (grep_lines _ _ _) as [out tail] eqn:E.
    destruct (step_piece_end _ _ _ _ _ Hi Hzb E) as [H1 H2]. rewrite H2, IH; [done|done|lia].
  - destruct (grep_lines _ _ _) as [out tail] eqn:E.
    destruct (step_full _ _ _ _ _ _ Hi Hzb eq_refl Hgt E) as [H1 H2]. rewrite H2, IH; [done|done|].
    cbn [concat]. rewrite length_app, length_drop. lia.
Qed.
End Lines.

(** On input without zero bytes whose lines fit in the buffer, given as
    a whole file or piece by piece where every piece but the last ends a line,
    [grep] writes exactly the terminated lines that match, in order; one read
    per input byte and one more are enough for the loop to end. *)
Theorem grep_prints_matching pattern pieces :
  line_pieces pieces = true ->
  grep (length (concat pieces) + 1) pattern [] pieces = matching pattern (concat pieces).
Proof. intros H. apply grep_spec; [by apply line_pieces_inv|lia]. Qed.
Lemma grep_prints_matching_witness :
  line_pieces [[97; 98; 10; 99; 10]; [98; 10]] = true /\ grep 8 [98] [] [[97; 98; 10; 99; 10]; [98; 10]] = [97; 98; 10; 98; 10].
Proof. split; [vm_compute; reflexivity|]. exact (grep_prints_matching [98] [[97; 98; 10; 99; 10]; [98; 10]] eq_refl). Defined.

(** When a read ends inside a line, and the buffer holds no newline, the
    part of the line read so far is thrown away ([p == buf] also when the
    buffer is not full): the line "ab" delivered as "a" and "b" is not found
    by the pattern "a", and is found by "^b". *)
Theorem grep_loses_partial_line :
  matching [97] [97; 98; 10] = [97; 98; 10] /\ grep 4 [97] [] [[97]; [98; 10]] = [] /\
  matching [94; 98] [97; 98; 10] = [] /\ grep 4 [94; 98] [] [[97]; [98; 10]] = [98; 10].
Proof. vm_compute. done. Qed.
