(* ===== verification/Malloc.v ===== *)
(** * The user-level memory allocator

    Models [umalloc.c], the allocator of Kernighan and Ritchie: a circular
    list of free blocks ordered by address, kept in the headers of the blocks
    themselves.  The memory of the process is a map from word addresses to
    words; a header is two words ([s.ptr], [s.size]) and a block of [n] units
    is [8 * n] bytes.  [sbrk] is the system call, used through the contract of
    class [SbrkOk]. *)

From S2P Require Import Prelude.

(** ** State *)

Record ust := mkUst { umem : gmap Z Z; freep : Z; ubrk : Z }.
Definition set_umem (m : gmap Z Z) (s : ust) : ust := mkUst m (freep s) (ubrk s).
Definition set_freep (p : Z) (s : ust) : ust := mkUst (umem s) p (ubrk s).

(** A word of memory; other addresses are not mapped. *)
Definition ld (a : Z) : M ust Z := s ← get; deref (umem s !! a).
Definition st (a v : Z) : M ust unit :=
  s ← get; deref (umem s !! a) ;; modify (set_umem (<[a := v]> (umem s))).

Class Sbrk := sbrk : Z -> M ust Z.

(** Memory of [n] bytes at [a]: the words [sbrk] adds. *)
Fixpoint words (a : Z) (n : nat) : gmap Z Z :=
  match n with O => ∅ | S n' => <[a := 0]> (words (a + 4) n') end.
Definition KERNBASE : Z := 2147483648.

(** What the system call promises for a positive number of bytes: it fails
    and changes nothing, or the memory grows by that many bytes of zeros. *)
Class SbrkOk `{Sbrk} := sbrk_grows : forall n s, 0 < n < KERNBASE ->
  sbrk n s = Ok 4294967295 s \/
  (ubrk s + n <= KERNBASE /\
   sbrk n s = Ok (ubrk s) (mkUst (umem s ∪ words (ubrk s) (Z.to_nat (n / 4))) (freep s) (ubrk s + n))).

Section Malloc.
Context `{Sbrk} (base : Z).

(** ** Operations *)

Definition free_step (bp p : Z) : M ust (Z + Z) :=
  nx ← ld p;
  if (p <? bp) && (bp <? nx) then mret (inr p) else
  if (nx <=? p) && ((p <? bp) || (bp <? nx)) then mret (inr p) else
  mret (inl nx).

(** [bp] joined to the block after it. *)
Definition free_upper (bp p : Z) : M ust unit :=
  n ← ld (bp + 4);
  nx ← ld p;
  if u32 (bp + 8 * n) =? nx then
    n2 ← ld (nx + 4);
    st (bp + 4) (u32 (n + n2)) ;;
    x ← ld nx;
    st bp x
  else st bp nx.
(** [p] joined to [bp]. *)
Definition free_lower (bp p : Z) : M ust unit :=
  np ← ld (p + 4);
  if u32 (p + 8 * np) =? bp then
    n ← ld (bp + 4);
    st (p + 4) (u32 (np + n)) ;;
    x ← ld bp;
    st p x
  else st p bp.
Definition free (ap : Z) : M ust unit :=
  let bp := u32 (ap - 8) in
  s ← get;
  p ← loop (size (umem s) + 1) (free_step bp) (freep s);
  free_upper bp p ;;
  free_lower bp p ;;
  modify (set_freep p).

Definition morecore (nu : Z) : M ust Z :=
  let nu := if nu <? 4096 then 4096 else nu in
  p ← sbrk (u32 (nu * 8));
  if p =? 4294967295 then mret 0 else
  st (p + 4) nu ;;
  free (u32 (p + 8)) ;;
  gets freep.

Definition nunits (nbytes : Z) : Z := u32 (u32 (nbytes + 8 - 1) / 8 + 1).

Definition malloc_step (nu : Z) (l : Z * Z) : M ust (Z * Z + Z) :=
  let '(prevp, p) := l in
  n ← ld (p + 4);
  if nu <=? n then
    p' ← (if n =? nu then nx ← ld p; st prevp nx ;; mret p
          else st (p + 4) (u32 (n - nu)) ;;
               let q := u32 (p + 8 * u32 (n - nu)) in
               st (q + 4) nu ;; mret q);
    modify (set_freep prevp) ;;
    mret (inr (u32 (p' + 8)))
  else
    s ← get;
    if p =? freep s then
      p ← morecore nu;
      if p =? 0 then mret (inr 0) else nx ← ld p; mret (inl (p, nx))
    else nx ← ld p; mret (inl (p, nx)).
Definition malloc (nbytes : Z) : M ust Z :=
  let nu := nunits nbytes in
  s ← get;
  (if freep s =? 0 then modify (set_freep base) ;; st base base ;; st (base + 4) 0 else skip) ;;
  s ← get;
  p ← ld (freep s);
  loop (2 * size (umem s) + 2) (malloc_step nu) (freep s, p).

(** ** The heap

    [fl] are the free blocks in address order, [base] first, and [al] the
    blocks in use; a block is its address and its size in units. *)

Local Notation blk := (Z * Z)%type.
Definition first (e : Z) (l : list blk) : Z := match l with [] => e | (a, _) :: _ => a end.

(** The headers link the blocks of [l] in order, the last one to [e]. *)
Fixpoint seg (m : gmap Z Z) (l : list blk) (e : Z) : Prop :=
  match l with
  | [] => True
  | (a, n) :: l' => m !! a = Some (first e l') /\ m !! (a + 4) = Some n /\ seg m l' e
  end.
(** The blocks of [l] lie above [lo], in order, with a gap between them. *)
Fixpoint sep (lo : Z) (l : list blk) : Prop :=
  match l with
  | [] => True
  | (a, n) :: l' => lo < a /\ 0 <= n /\ sep (a + Z.max 7 (8 * n)) l'
  end.
Definition apart (x y : blk) : Prop :=
  fst x + Z.max 8 (8 * snd x) <= fst y \/ fst y + Z.max 8 (8 * snd y) <= fst x.
Definition inside (s : ust) (x : blk) : Prop :=
  fst x + Z.max 8 (8 * snd x) <= ubrk s /\
  forall i, 0 <= i < Z.max 2 (2 * snd x) -> is_Some (umem s !! (fst x + 4 * i)).

Record heap (s : ust) (fl al : list blk) : Prop := {
  h_root : exists tl, fl = (base, 0) :: tl;
  h_seg : seg (umem s) fl base;
  h_sep : sep 0 fl;
  h_al : Forall (fun x => 1 <= snd x /\ base < fst x /\ umem s !! (fst x + 4) = Some (snd x)) al;
  h_apart : Forall (fun x => Forall (apart x) al) fl;
  h_pair : ForallOrdPairs apart al;
  h_in : Forall (inside s) (fl ++ al);
  h_brk : 0 <= ubrk s <= KERNBASE;
  h_freep : freep s ∈ fl.*1 }.

(** ** Lists of blocks *)

Definition fin (lo : Z) (l : list blk) : Z := foldl (fun _ x => fst x + Z.max 7 (8 * snd x)) lo l.

Lemma seg_app m l1 l2 e : seg m (l1 ++ l2) e <-> seg m l1 (first e l2) /\ seg m l2 e.
Proof.
  induction l1 as [|[a n] l1 IH]; cbn; [naive_solver|]. rewrite IH.
  assert (first e (l1 ++ l2) = first (first e l2) l1) as -> by (by destruct l1 as [|[]]). naive_solver.
Qed.
Lemma seg_frame m m' l e :
  (forall a n, (a, n) ∈ l -> m' !! a = m !! a /\ m' !! (a + 4) = m !! (a + 4)) -> seg m l e -> seg m' l e.
Proof.
  induction l as [|[a n] l IH]; cbn; [done|]. intros Hm (H1 & H2 & H3).
  destruct (Hm a n) as [E1 E2]; [set_solver|]. rewrite E1, E2. split_and!; [done|done|]. apply IH; [|done].
  intros b k Hb. apply (Hm b k). set_solver.
Qed.
Lemma sep_app lo l1 l2 : sep lo (l1 ++ l2) <-> sep lo l1 /\ sep (fin lo l1) l2.
Proof. revert lo. induction l1 as [|[a n] l1 IH]; intros lo; cbn; [naive_solver|]. rewrite IH. naive_solver. Qed.
Lemma sep_weaken lo lo' l : lo' <= lo -> sep lo l -> sep lo' l.
Proof. destruct l as [|[a n] l]; cbn; [done|]. intros ? (? & ? & ?). split_and!; [lia|done|done]. Qed.
Lemma sep_above lo l a n : sep lo l -> (a, n) ∈ l -> lo < a /\ 0 <= n.
Proof.
  revert lo. induction l as [|[b k] l IH]; intros lo; cbn; [by intros _ ?%not_elem_of_nil|].
  intros (H1 & H2 & H3) [[= -> ->]|Hin]%elem_of_cons; [done|]. destruct (IH _ H3 Hin). lia.
Qed.
Lemma sep_below lo l a n : sep lo l -> (a, n) ∈ l -> a + Z.max 7 (8 * n) <= fin lo l.
Proof.
  revert lo. induction l as [|[b k] l IH]; intros lo; cbn; [by intros _ ?%not_elem_of_nil|].
  intros (H1 & H2 & H3) [[= -> ->]|Hin]%elem_of_cons; [|by apply IH].
  clear -H3. revert H3. generalize (b + Z.max 7 (8 * k)). intros lo. revert lo.
  induction l as [|[c j] l IH]; cbn; intros lo; [lia|]. intros (H1 & H2 & H3). specialize (IH _ H3). cbn in IH.
  assert (lo <= c + Z.max 7 (8 * j)) by lia. unfold fin in *. cbn in *. lia.
Qed.
(** What lies before and after a block of an ordered list. *)
Lemma sep_split lo l1 p n l2 a k :
  sep lo (l1 ++ (p, n) :: l2) ->
  ((a, k) ∈ l1 -> a + Z.max 7 (8 * k) < p) /\ ((a, k) ∈ l2 -> p + Z.max 7 (8 * n) < a).
Proof.
  intros (H1 & H2 & H3 & H4)%sep_app. split; intros Hin.
  - apply (sep_below lo) in Hin; [lia|done].
  - eapply sep_above in Hin; [|exact H4]. lia.
Qed.
Lemma seg_lookup m l1 p n l2 e :
  seg m (l1 ++ (p, n) :: l2) e -> m !! p = Some (first e l2) /\ m !! (p + 4) = Some n.
Proof. intros (_ & ? & ? & _)%seg_app. done. Qed.

(** ** Loads and stores *)

Lemma wp_ld_eq a v (Q : Z -> ust -> Prop) s : umem s !! a = Some v -> wp (ld a) Q s = Q v s.
Proof. intros E. unfold ld. wp_simpl. unfold wp, deref. by rewrite E. Qed.
Lemma wp_ld a v (Q : Z -> ust -> Prop) s : umem s !! a = Some v -> Q v s -> wp (ld a) Q s.
Proof. intros E. by rewrite (wp_ld_eq _ _ _ _ E). Qed.
Lemma wp_st a v (Q : unit -> ust -> Prop) s :
  is_Some (umem s !! a) -> Q tt (set_umem (<[a := v]> (umem s)) s) -> wp (st a v) Q s.
Proof. intros [w E] HQ. unfold st. wp_simpl. unfold wp, deref. by rewrite E. Qed.

(** ** The search of [free] *)

Section Search.
  Context (s : ust) (bp p np : Z) (l1 l2 : list blk).
  Local Notation fl := (l1 ++ (p, np) :: l2).
  Hypothesis Hroot : exists tl, fl = (base, 0) :: tl.
  Hypothesis Hseg : seg (umem s) fl base.
  Hypothesis Hsep : sep 0 fl.
  Hypothesis Hlo : p < bp.
  Hypothesis Hhi : l2 = [] \/ bp < first base l2.

Lemma base_least a n : (a, n) ∈ fl -> base <= a.
Proof.
  destruct Hroot as [tl E]. rewrite E in *. intros [[= -> ->]|Hin]%elem_of_cons; [lia|].
  destruct Hsep as (_ & _ & H1). destruct (sep_above _ _ _ _ H1 Hin). lia.
Qed.
Lemma free_step_at a n u v :
  fl = u ++ (a, n) :: v -> umem s !! a = Some (first base v).
Proof. intros E. rewrite E in Hseg. by apply seg_lookup in Hseg as [? _]. Qed.

Lemma free_walk_low v u fuel (Q : Z -> ust -> Prop) :
  l1 = u ++ v -> (length v + 1 <= fuel)%nat -> Q p s -> wp (loop fuel (free_step bp) (first p v)) Q s.
Proof.
  revert u fuel. induction v as [|[a n] v IH]; intros u fuel E Hf HQ; (destruct fuel as [|fuel]; [cbn in Hf; lia|]);
    cbn [loop first]; unfold free_step; wp_simpl.
  - eapply wp_ld; [by eapply (free_step_at p np l1 l2)|].
    assert (base <= p) by (eapply (base_least p np); set_solver).
    destruct (Z.ltb_spec p bp); [|lia]. destruct Hhi as [-> | Hl].
    + cbn [first]. destruct (Z.leb_spec base p); [|lia]. destruct (_ && _); by wp_simpl.
    + destruct (Z.ltb_spec bp (first base l2)); [|lia]. by wp_simpl.
  - eapply wp_ld; [eapply (free_step_at a n u (v ++ (p, np) :: l2)); rewrite E; by rewrite <- ?app_assoc|].
    assert (first base (v ++ (p, np) :: l2) = first p v) as -> by (by destruct v as [|[]]).
    assert (a < first p v /\ first p v <= p) as [? ?].
    { pose proof Hsep as Hs. rewrite E in Hs. pose proof Hs as Ht. rewrite <- app_assoc in Ht. cbn [app] in Ht. destruct v as [|[b k] v].
      - destruct (sep_split _ _ _ _ _ p np Ht) as [_ H1]. specialize (H1 ltac:(set_solver)). cbn. lia.
      - destruct (sep_split _ u a n _ b k Ht) as [_ H1]. specialize (H1 ltac:(set_solver)).
        destruct (sep_split _ _ p np l2 b k Hs) as [H2 _]. specialize (H2 ltac:(set_solver)). cbn. lia. }
    destruct (Z.ltb_spec bp (first p v)); [lia|]. destruct (Z.leb_spec (first p v) a); [lia|].
    rewrite andb_false_r. cbn [andb]. wp_simpl. apply (IH (u ++ [(a, n)])); [rewrite E; by rewrite <- ?app_assoc|cbn in Hf; lia|done].
Qed.

Lemma free_walk_high v u fuel (Q : Z -> ust -> Prop) :
  l2 = u ++ v -> (length v + length l1 + 1 <= fuel)%nat -> Q p s ->
  wp (loop fuel (free_step bp) (first base v)) Q s.
Proof.
  revert u fuel. induction v as [|[a n] v IH]; intros u fuel E Hf HQ.
  - cbn [first]. replace base with (first p l1); [by apply (free_walk_low l1 [])|].
    destruct Hroot as [tl Er]. destruct l1 as [|[b k] l]; cbn in Er; by injection Er.
  - destruct fuel as [|fuel]; [cbn in Hf; lia|]. cbn [loop first]. unfold free_step. wp_simpl.
    assert (fl = (l1 ++ (p, np) :: u) ++ (a, n) :: v) as El by (rewrite E; by rewrite <- ?app_assoc).
    eapply wp_ld; [by eapply (free_step_at a n _ v El)|].
    assert (bp < a) as Hb.
    { destruct Hhi as [H1|H1]; [rewrite E in H1; by destruct u|]. rewrite E in H1. destruct u as [|[b k] u]; [done|]. cbn in H1.
      rewrite El in Hsep. destruct (sep_split _ _ _ _ _ b k Hsep) as [H2 _]. specialize (H2 ltac:(set_solver)). lia. }
    assert (base <= p) by (eapply (base_least p np); set_solver).
    destruct (Z.ltb_spec a bp); [lia|]. cbn [andb orb].
    assert ((first base v <=? a) && (bp <? first base v) = false) as ->.
    { apply andb_false_iff. destruct v as [|[b k] v]; cbn [first]; [right; apply Z.ltb_ge; lia|left; apply Z.leb_gt].
      rewrite El in Hsep. destruct (sep_split _ _ _ _ _ b k Hsep) as [_ H2]. specialize (H2 ltac:(set_solver)). lia. }
    wp_simpl. apply (IH (u ++ [(a, n)])); [rewrite E; by rewrite <- ?app_assoc|cbn in Hf; lia|done].
Qed.

Lemma free_search fuel (Q : Z -> ust -> Prop) :
  freep s ∈ fl.*1 -> (length fl < fuel)%nat -> Q p s -> wp (loop fuel (free_step bp) (freep s)) Q s.
Proof.
  intros ([a n] & -> & Hin)%list_elem_of_fmap Hf HQ. rewrite length_app in Hf. cbn in Hf.
  apply elem_of_app in Hin as [(u & v & E)%list_elem_of_split|[E|(u & v & E)%list_elem_of_split]%elem_of_cons].
  - apply (free_walk_low ((a, n) :: v) u); [done| |done]. rewrite E, length_app in Hf. lia.
  - injection E as -> ->. apply (free_walk_low [] l1); [by rewrite app_nil_r|cbn; lia|done].
  - apply (free_walk_high ((a, n) :: v) u); [done| |done]. rewrite E, length_app in Hf. lia.
Qed.
End Search.

Lemma free_place l bp lo :
  sep lo l -> first bp l < bp -> Forall (fun x => fst x <> bp) l ->
  exists l1 p np l2, l = l1 ++ (p, np) :: l2 /\ p < bp /\ (l2 = [] \/ bp < first base l2).
Proof.
  revert lo. induction l as [|[a n] l IH]; intros lo; cbn [first]; [lia|].
  intros (H1 & H2 & H3) Hlt (Ha & Hl)%Forall_cons. destruct l as [|[b k] l]; [exists [], a, n, []; auto|].
  destruct (Z.lt_ge_cases b bp).
  - destruct (IH _ H3 ltac:(done) Hl) as (l1 & p & np & l2 & -> & ?). by exists ((a, n) :: l1), p, np, l2.
  - exists [], a, n, ((b, k) :: l). split_and!; [done|done|]. right. cbn. apply Forall_cons in Hl as [Hb _]. cbn in Hb. lia.
Qed.

(** ** Joining blocks *)

(** What holds of two adjacent blocks holds of the block they make. *)
Definition joins (P : blk -> Prop) : Prop :=
  forall a n k, 1 <= n -> 0 <= k -> P (a, n) -> P (a + 8 * n, k) -> P (a, n + k).
Definition units (l : list blk) : Z := foldr (fun x z => snd x + z) 0 l.
(** [l'] is [l] with adjacent blocks joined. *)
Definition glued (l l' : list blk) : Prop :=
  (forall P, joins P -> Forall P l -> Forall P l') /\ units l' = units l /\ (length l' <= length l)%nat.
(** Only the header at [a] differs. *)
Definition hdr_only (a : Z) (m m' : gmap Z Z) : Prop :=
  (forall k, k <> a -> k <> a + 4 -> m' !! k = m !! k) /\ (forall k, is_Some (m !! k) -> is_Some (m' !! k)).

Lemma insert_some (m : gmap Z Z) a v k : is_Some (m !! k) -> is_Some (<[a := v]> m !! k).
Proof. destruct (decide (a = k)) as [-> | ?]; [rewrite lookup_insert_eq; eauto|by rewrite lookup_insert_ne]. Qed.
Lemma hdr_only_1 a v m : hdr_only a m (<[a := v]> m).
Proof. split; [intros k ? ?; by rewrite lookup_insert_ne|intros k; apply insert_some]. Qed.
Lemma hdr_only_2 a v w m : hdr_only a m (<[a := v]> (<[a + 4 := w]> m)).
Proof. split; [intros k ? ?; by rewrite !lookup_insert_ne|intros k Hk; by do 2 apply insert_some]. Qed.
(** Blocks that lie beyond a header keep their links. *)
Lemma seg_hdr_above a m m' l e : hdr_only a m m' -> sep (a + 7) l -> seg m l e -> seg m' l e.
Proof.
  intros [Hm _] Hs. apply seg_frame. intros b n Hb. destruct (sep_above _ _ _ _ Hs Hb). split; apply Hm; lia.
Qed.

Lemma wp_free_upper s bp p n l2 (Q : unit -> ust -> Prop) :
  umem s !! (bp + 4) = Some n -> 1 <= n -> is_Some (umem s !! bp) ->
  umem s !! p = Some (first base l2) -> seg (umem s) l2 base -> sep (bp + 8 * n - 1) l2 ->
  0 <= base < bp -> bp + 8 * n < 4294967296 -> Forall (fun x => fst x + 8 * snd x < 4294967296) l2 ->
  (forall n' l2' m', hdr_only bp (umem s) m' -> m' !! bp = Some (first base l2') -> m' !! (bp + 4) = Some n' ->
     n <= n' -> seg m' l2' base -> sep (bp + 8 * n') l2' -> glued ((bp, n) :: l2) ((bp, n') :: l2') ->
     Q tt (set_umem m' s)) ->
  wp (free_upper bp p) Q s.
Proof.
  intros En Hn [w Ew] Ep Hseg Hsep Hb Hmax Hl HQ. unfold free_upper. wp_simpl. eapply wp_ld; [done|]. wp_simpl.
  eapply wp_ld; [done|]. rewrite u32_id by lia. destruct (Z.eqb_spec (bp + 8 * n) (first base l2)) as [E|E].
  - destruct l2 as [|[a n2] l2]; [cbn in E; lia|]. cbn [first] in E. subst a. destruct Hseg as (E1 & E2 & Hseg).
    destruct Hsep as (_ & Hn2 & Hsep). apply Forall_cons in Hl as [Hl0 Hl]. cbn in Hl0. wp_simpl.
    eapply wp_ld; [done|]. wp_simpl. rewrite u32_id by lia. eapply wp_st; [by rewrite En|]. wp_simpl.
    eapply wp_ld; [cbn; rewrite lookup_insert_ne by lia; exact E1|].
    eapply wp_st; [cbn; rewrite lookup_insert_ne by lia; by rewrite Ew|].
    assert (hdr_only bp (umem s) (<[bp := first base l2]> (<[bp + 4 := n + n2]> (umem s)))) as Hh by apply hdr_only_2.
    apply (HQ (n + n2) l2 (<[bp := first base l2]> (<[bp + 4 := n + n2]> (umem s)))); [done|by rewrite lookup_insert_eq|rewrite lookup_insert_ne by lia; by rewrite lookup_insert_eq|lia| | |].
    + eapply seg_hdr_above; [exact Hh| |done]. eapply sep_weaken; [|exact Hsep]. lia.
    + eapply sep_weaken; [|exact Hsep]. lia.
    + split_and!; [|cbn; lia|cbn; lia]. intros P HP [P1 [P2 P3]%Forall_cons]%Forall_cons.
      apply Forall_cons. split; [|done]. by apply HP.
  - eapply wp_st; [by rewrite Ew|].
    assert (hdr_only bp (umem s) (<[bp := first base l2]> (umem s))) as Hh by apply hdr_only_1.
    assert (sep (bp + 8 * n) l2) as Hs.
    { destruct l2 as [|[a n2] l2]; [done|]. cbn in *. destruct Hsep as (? & ? & ?). split_and!; [lia|done|done]. }
    apply (HQ n l2); [done|by rewrite lookup_insert_eq|by rewrite lookup_insert_ne by lia|done| |done|by split_and!].
    eapply seg_hdr_above; [exact Hh| |done]. eapply sep_weaken; [|exact Hs]. lia.
Qed.

Lemma wp_free_lower s bp p n np l2 (Q : unit -> ust -> Prop) :
  umem s !! bp = Some (first base l2) -> umem s !! (bp + 4) = Some n -> 1 <= n ->
  seg (umem s) l2 base -> sep (bp + 8 * n) l2 ->
  umem s !! (p + 4) = Some np -> is_Some (umem s !! p) -> 0 <= np ->
  0 <= p -> p + Z.max 8 (8 * np) <= bp -> bp + 8 * n < 4294967296 ->
  (forall np' l2' m', hdr_only p (umem s) m' -> seg m' ((p, np') :: l2') base -> sep (p - 1) ((p, np') :: l2') ->
     (np = 0 -> np' = 0) -> Exists (fun x => n <= snd x) ((p, np') :: l2') ->
     glued ((p, np) :: (bp, n) :: l2) ((p, np') :: l2') -> Q tt (set_umem m' s)) ->
  wp (free_lower bp p) Q s.
Proof.
  intros E1 E2 Hn Hseg Hsep E3 [w E4] Hnp Hp Hgap Hmax HQ. unfold free_lower. wp_simpl. eapply wp_ld; [done|].
  rewrite u32_id by lia. destruct (Z.eqb_spec (p + 8 * np) bp) as [E|E].
  - wp_simpl. eapply wp_ld; [done|]. wp_simpl. rewrite u32_id by lia. eapply wp_st; [by rewrite E3|]. wp_simpl.
    eapply wp_ld; [cbn; rewrite lookup_insert_ne by lia; exact E1|].
    eapply wp_st; [cbn; rewrite lookup_insert_ne by lia; by rewrite E4|].
    assert (hdr_only p (umem s) (<[p := first base l2]> (<[p + 4 := np + n]> (umem s)))) as Hh by apply hdr_only_2.
    apply (HQ (np + n) l2 (<[p := first base l2]> (<[p + 4 := np + n]> (umem s)))); [done| | |lia| |].
    + cbn. split_and!; [by rewrite lookup_insert_eq|rewrite lookup_insert_ne by lia; by rewrite lookup_insert_eq|].
      eapply seg_hdr_above; [exact Hh| |done]. eapply sep_weaken; [|exact Hsep]. lia.
    + cbn. split_and!; [lia|lia|]. eapply sep_weaken; [|exact Hsep]. lia.
    + apply Exists_cons. left. cbn. lia.
    + split_and!; [|cbn; lia|cbn; lia]. intros P HP [P1 [P2 P3]%Forall_cons]%Forall_cons.
      apply Forall_cons. split; [|done]. apply HP; [lia|lia|done|by rewrite E].
  - eapply wp_st; [by rewrite E4|].
    assert (hdr_only p (umem s) (<[p := bp]> (umem s))) as Hh by apply hdr_only_1.
    apply (HQ np ((bp, n) :: l2)); [done| | |done|by apply Exists_cons; right; apply Exists_cons; left|by split_and!].
    + cbn. split_and!; [by rewrite lookup_insert_eq|by rewrite lookup_insert_ne by lia|by rewrite lookup_insert_ne by lia|by rewrite lookup_insert_ne by lia|].
      eapply seg_hdr_above; [exact Hh| |done]. eapply sep_weaken; [|exact Hsep]. lia.
    + cbn. split_and!; [lia|lia|lia|lia|]. eapply sep_weaken; [|exact Hsep]. lia.
Qed.

Lemma units_app l1 l2 : units (l1 ++ l2) = units l1 + units l2.
Proof. unfold units. induction l1 as [|x l1 IH]; cbn in *; lia. Qed.
Lemma glued_cons x l l' : glued l l' -> glued (x :: l) (x :: l').
Proof.
  intros (H1 & H2 & H3). unfold units in *. split_and!; [|cbn; lia|cbn; lia].
  intros P HP [? ?]%Forall_cons. apply Forall_cons. split; [done|by apply H1].
Qed.
Lemma glued_app l0 l l' : glued l l' -> glued (l0 ++ l) (l0 ++ l').
Proof. induction l0; [done|]. intros. by apply glued_cons, IHl0. Qed.
Lemma glued_trans l1 l2 l3 : glued l1 l2 -> glued l2 l3 -> glued l1 l3.
Proof. intros (H1 & H2 & H3) (H4 & H5 & H6). split_and!; [intros P HP ?; by apply H4, H1|lia|lia]. Qed.
Lemma glued_perm l l' : l ≡ₚ l' -> glued l l'.
Proof.
  intros Hp. split_and!; [intros P _; by rewrite Hp| |by rewrite Hp].
  induction Hp; cbn in *; unfold units in *; lia.
Qed.
Lemma joins_apart al : Forall (fun y => 1 <= snd y) al -> joins (fun x => Forall (apart x) al).
Proof.
  intros Hal a n k Hn Hk H1 H2. apply Forall_forall. intros y Hy. rewrite Forall_forall in Hal, H1, H2.
  specialize (Hal y Hy). specialize (H1 y Hy). specialize (H2 y Hy). unfold apart in *. cbn in *. lia.
Qed.
Lemma joins_inside s : joins (inside s).
Proof.
  intros a n k Hn Hk [H1 H2] [H3 H4]. cbn in *. split; cbn; [lia|]. intros i Hi.
  destruct (Z.lt_ge_cases i (2 * n)); [apply H2; lia|].
  replace (a + 4 * i) with (a + 8 * n + 4 * (i - 2 * n)) by lia. apply H4. lia.
Qed.
Lemma inside_mono s s' x :
  (forall k, is_Some (umem s !! k) -> is_Some (umem s' !! k)) -> ubrk s <= ubrk s' -> inside s x -> inside s' x.
Proof. intros H1 H2 [H3 H4]. split; [lia|]. intros i Hi. by apply H1, H4. Qed.
Lemma sep_nodup lo l : sep lo l -> NoDup (l.*1).
Proof.
  revert lo. induction l as [|[a n] l IH]; intros lo; cbn; [constructor|]. intros (H1 & H2 & H3).
  constructor; [|by eapply IH]. intros ([b k] & -> & Hin)%list_elem_of_fmap. destruct (sep_above _ _ _ _ H3 Hin). cbn in *. lia.
Qed.
Lemma blocks_fit s l lo : sep lo l -> Forall (inside s) l -> (length l <= size (umem s))%nat.
Proof.
  intros Hs Hi. rewrite <- size_dom. rewrite <- (length_fmap fst), <- (size_list_to_set (C := gset Z)) by (by eapply sep_nodup).
  apply subseteq_size. intros a ([b k] & -> & Hin)%elem_of_list_to_set%list_elem_of_fmap.
  rewrite Forall_forall in Hi. destruct (Hi _ Hin) as [_ H1]. apply elem_of_dom. cbn in *.
  replace b with (b + 4 * 0) by lia. apply H1. lia.
Qed.

(** The address [k] is in none of the blocks. *)
Definition outside (bs : list blk) (k : Z) : Prop := Forall (fun x => ~ fst x <= k < fst x + Z.max 8 (8 * snd x)) bs.
Lemma joins_outside k : joins (fun x => ~ fst x <= k < fst x + Z.max 8 (8 * snd x)).
Proof. intros a n j Hn Hj. cbn. lia. Qed.
(** Memory outside the blocks of [bs] is unchanged. *)
Definition only (bs : list blk) (m m' : gmap Z Z) : Prop := forall k, outside bs k -> m' !! k = m !! k.
Lemma only_hdr a n bs m m' : (a, n) ∈ bs -> hdr_only a m m' -> only bs m m'.
Proof. intros Hin [H1 _] k Hk. unfold outside in Hk. rewrite Forall_forall in Hk. specialize (Hk _ Hin). cbn in Hk. apply H1; lia. Qed.
Lemma only_trans bs m1 m2 m3 : only bs m1 m2 -> only bs m2 m3 -> only bs m1 m3.
Proof. intros H1 H2 k Hk. rewrite H2 by done. by apply H1. Qed.

(** ** [free] *)

(** A heap where the headers of [p] and [bp] were rewritten. *)
Lemma heap_join s m' fl' l1 p np l2 bp n al np' l2' :
  heap s (l1 ++ (p, np) :: l2) ((bp, n) :: al) -> p < bp ->
  (forall k, k <> p -> k <> p + 4 -> k <> bp -> k <> bp + 4 -> m' !! k = umem s !! k) ->
  (forall k, is_Some (umem s !! k) -> is_Some (m' !! k)) ->
  seg m' ((p, np') :: l2') base -> sep (p - 1) ((p, np') :: l2') -> (np = 0 -> np' = 0) ->
  glued ((p, np) :: (bp, n) :: l2) ((p, np') :: l2') -> fl' = l1 ++ (p, np') :: l2' ->
  heap (mkUst m' p (ubrk s)) fl' al.
Proof.
  intros [Hroot Hseg Hsep Hal Hap Hpair Hin Hbrk Hfp] Hlt Hm Hdom Hseg' Hsep' H0 Hg ->.
  apply Forall_cons in Hal as [[Hn Hbp] Hal].
  inversion_clear Hpair as [|? ? Hb Hpair']. rewrite Forall_forall in Hb.
  assert (forall x, x ∈ l1 ++ (p, np) :: (bp, n) :: l2 -> x ∈ (l1 ++ (p, np) :: l2) \/ x = (bp, n)) as Hsub by set_solver.
  destruct Hg as (HP & _ & _).
  assert (forall P, joins P -> Forall P (l1 ++ (p, np) :: l2) -> P (bp, n) -> Forall P (l1 ++ (p, np') :: l2')) as Hall.
  { intros P HJ HF HB. apply Forall_app in HF as [HF1 [HF2 HF3]%Forall_cons]. apply Forall_app. split; [done|].
    apply HP; [done|]. apply Forall_cons. split; [done|]. by apply Forall_cons. }
  split; cbn [umem freep ubrk].
  - destruct Hroot as [tl E]. destruct l1 as [|x l1]; cbn in E; injection E as -> E; [|by eexists].
    subst. rewrite (H0 eq_refl). by eexists.
  - apply seg_app in Hseg as [Hseg1 _]. apply seg_app. split; [|done]. eapply seg_frame; [|exact Hseg1].
    intros a k Ha. destruct (sep_split _ _ _ _ _ a k Hsep) as [H1 _]. specialize (H1 Ha). split; apply Hm; lia.
  - apply sep_app in Hsep as (H1 & H2 & _). apply sep_app. split; [done|]. destruct Hsep' as (? & ? & ?). by split_and!.
  - rewrite Forall_forall in Hal, Hap |- *. intros x Hx. destruct (Hal x Hx) as (H1 & H2 & H3). split_and!; [done|done|].
    rewrite Hm; [done|..].
    all: specialize (Hap (p, np) ltac:(set_solver)); apply Forall_cons in Hap as [_ Hap]; rewrite Forall_forall in Hap.
    all: specialize (Hap x Hx); specialize (Hb x Hx); unfold apart in *; cbn in *; lia.
  - apply Hall.
    + apply joins_apart. eapply Forall_impl; [exact Hal|]. by intros x [? _].
    + eapply Forall_impl; [exact Hap|]. by intros x [_ ?]%Forall_cons.
    + by apply Forall_forall.
  - done.
  - apply Forall_app in Hin as [Hf [Hi Ha]%Forall_cons].
    assert (forall x, inside s x -> inside (mkUst m' p (ubrk s)) x) as Hmono by (intros x; apply inside_mono; [done|cbn; lia]).
    apply Forall_app. split; [|by eapply Forall_impl]. apply Hall; [apply joins_inside|by eapply Forall_impl|by apply Hmono].
  - done.
  - rewrite fmap_app. set_solver.
Qed.

Lemma wp_free s fl bp n al (Q : unit -> ust -> Prop) :
  heap s fl ((bp, n) :: al) ->
  (forall fl' s', heap s' fl' al -> only ((bp, n) :: fl) (umem s) (umem s') -> ubrk s' = ubrk s ->
     glued ((bp, n) :: fl) fl' -> Exists (fun x => n <= snd x) fl' -> Q tt s') ->
  wp (free (bp + 8)) Q s.
Proof.
  intros Hh HQ. pose proof Hh as [Hroot Hseg Hsep Hal Hap Hpair Hin Hbrk Hfp].
  pose proof (proj1 (Forall_app _ _ _) Hin) as [Hif [[Hib Hbm] _]%Forall_cons]. cbn in Hib, Hbm.
  apply Forall_cons in Hal as [(Hn & Hbb & Ebn) Hal]. cbn in Hn, Hbb, Ebn. unfold KERNBASE in *.
  assert (forall x, x ∈ fl -> apart x (bp, n)) as Hab.
  { rewrite Forall_forall in Hap. intros x Hx. specialize (Hap x Hx). by apply Forall_cons in Hap as [? _]. }
  assert (0 < base) as Hb0 by (destruct Hroot as [tl ->]; by destruct Hsep).
  unfold free. wp_simpl. replace (u32 (bp + 8 - 8)) with bp by (rewrite u32_id; lia).
  destruct (free_place fl bp 0) as (l1 & p & np & l2 & -> & Hlt & Hhi); [done| | |].
  { destruct Hroot as [tl ->]. cbn. lia. }
  { apply Forall_forall. intros x Hx. specialize (Hab x Hx). unfold apart in Hab. cbn in Hab. lia. }
  eapply (free_search s bp p np l1 l2); try done.
  { rewrite Nat.add_1_r. apply Nat.lt_succ_r. by eapply blocks_fit. }
  destruct (seg_lookup _ _ _ _ _ _ Hseg) as [Ep Enp]. pose proof Hseg as (Hs1 & _ & _ & Hs2)%seg_app.
  pose proof Hsep as (Hp1 & Hp2 & Hp3 & Hp4)%sep_app.
  assert (0 < p) as Hp0 by (destruct (sep_above 0 _ p np Hsep); [set_solver|lia]).
  assert (forall x, x ∈ l2 -> bp + 8 * n <= fst x) as Hl2.
  { intros x Hx. specialize (Hab x ltac:(set_solver)). unfold apart in Hab. cbn in Hab.
    enough (bp < fst x) by lia. destruct Hhi as [-> | Hhi]; [by apply not_elem_of_nil in Hx|].
    destruct l2 as [|[a k] l2]; [by apply not_elem_of_nil in Hx|]. cbn in Hhi.
    apply elem_of_cons in Hx as [-> | Hx]; [done|]. destruct Hp4 as (_ & _ & H4). destruct x as [b j].
    destruct (sep_above _ _ _ _ H4 Hx). cbn. lia. }
  wp_simpl. eapply (wp_free_upper s bp p n l2); try done; [| |lia|lia| |].
  - replace bp with (bp + 4 * 0) by lia. apply Hbm. lia.
  - destruct l2 as [|[a k] l2]; [done|]. destruct Hp4 as (? & ? & ?). split_and!; try done. specialize (Hl2 (a, k) ltac:(set_solver)). cbn in Hl2. lia.
  - apply Forall_forall. intros x Hx. rewrite Forall_forall in Hif. destruct (Hif x ltac:(set_solver)). lia.
  - intros n' l2' m1 Hm1 E1 E2 Hn' Hs' Hp' Hg1.
    assert (p + Z.max 8 (8 * np) <= bp) as Hgap by (specialize (Hab (p, np) ltac:(set_solver)); unfold apart in Hab; cbn in Hab; lia).
    assert (inside s (bp, n')) as [Hib' _].
    { destruct Hg1 as (HP & _). assert (Forall (inside s) ((bp, n') :: l2')) as [? _]%Forall_cons; [|done].
      apply HP; [apply joins_inside|]. apply Forall_cons. split; [by split|]. by apply Forall_app in Hif as [_ [_ ?]%Forall_cons]. }
    cbn in Hib'. assert (m1 !! p = umem s !! p /\ m1 !! (p + 4) = umem s !! (p + 4)) as [Ep' Enp'] by (destruct Hm1 as [Hm1 _]; split; apply Hm1; lia).
    wp_simpl. eapply (wp_free_lower (set_umem m1 s) bp p n' np l2'); cbn [umem set_umem]; try done; [lia|by rewrite Enp'|by rewrite Ep', Ep|lia|lia|].
    intros np' l3 m2 Hm2 Hs3 Hp3' H0 Hbig Hg2. wp_simpl.
    assert (glued ((p, np) :: (bp, n) :: l2) ((p, np') :: l3)) as Hg by (eapply glued_trans; [by apply glued_cons|done]).
    destruct Hm1 as [Hm1 Hd1], Hm2 as [Hm2 Hd2].
    apply (HQ (l1 ++ (p, np') :: l3)).
    + eapply (heap_join s m2 _ l1 p np l2 bp n al np' l3); try done.
      * intros k ? ? ? ?. rewrite Hm2, Hm1 by done. done.
      * intros k Hk. by apply Hd2, Hd1.
    + eapply only_trans; [eapply (only_hdr bp n _ _ m1)|eapply (only_hdr p np)]; [set_solver|by split|set_solver|by split].
    + done.
    + eapply glued_trans; [apply glued_perm|by apply glued_app]. clear. induction l1 as [|x l1 IH]; cbn; [by constructor|].
      by rewrite perm_swap, IH.
    + apply Exists_app. right. eapply Exists_impl; [exact Hbig|]. intros x Hx. cbn in Hx. lia.
Qed.

(** ** [morecore] *)

Lemma words_in a n i : 0 <= i < Z.of_nat n -> words a n !! (a + 4 * i) = Some 0.
Proof.
  revert a i. induction n as [|n IH]; intros a i Hi; [lia|]. cbn [words].
  destruct (decide (i = 0)) as [-> | Hi0]; [replace (a + 4 * 0) with a by lia; by rewrite lookup_insert_eq|].
  rewrite lookup_insert_ne by lia. replace (a + 4 * i) with (a + 4 + 4 * (i - 1)) by lia. apply IH. lia.
Qed.
Lemma words_below a n k : k < a -> words a n !! k = None.
Proof.
  revert a. induction n as [|n IH]; intros a Hk; cbn; [done|]. rewrite lookup_insert_ne by lia. apply IH. lia.
Qed.

(** The heap with the memory [sbrk] gave as a block in use. *)
Lemma heap_grow s fl al nu :
  heap s fl al -> 1 <= nu -> ubrk s + 8 * nu <= KERNBASE ->
  heap (mkUst (<[ubrk s + 4 := nu]> (umem s ∪ words (ubrk s) (Z.to_nat (u32 (nu * 8) / 4)))) (freep s) (ubrk s + 8 * nu))
       fl ((ubrk s, nu) :: al).
Proof.
  intros [Hroot Hseg Hsep Hal Hap Hpair Hin Hbrk Hfp] Hnu Hlim. unfold KERNBASE in *. rewrite u32_id by lia.
  replace (nu * 8 / 4) with (2 * nu) by (apply Z.div_unique with 0; lia).
  set (w := words (ubrk s) (Z.to_nat (2 * nu))). set (m' := <[ubrk s + 4 := nu]> (umem s ∪ w)).
  assert (forall k, is_Some (umem s !! k) -> k < ubrk s -> m' !! k = umem s !! k) as Hold.
  { intros k [v E] Hk. unfold m'. rewrite lookup_insert_ne by lia. rewrite E. by apply lookup_union_Some_l. }
  assert (forall k, is_Some (umem s !! k) -> is_Some (m' !! k)) as Hsome.
  { intros k [v E]. apply insert_some. exists v. by apply lookup_union_Some_l. }
  assert (forall x, x ∈ fl ++ al -> fst x + Z.max 8 (8 * snd x) <= ubrk s) as Hend.
  { intros x Hx. rewrite Forall_forall in Hin. by destruct (Hin x Hx). }
  assert (inside (mkUst m' (freep s) (ubrk s + 8 * nu)) (ubrk s, nu)) as Hnew.
  { split; cbn; [lia|]. intros i Hi. apply insert_some. destruct (umem s !! (ubrk s + 4 * i)) as [v|] eqn:E.
    - exists v. by apply lookup_union_Some_l.
    - exists 0. rewrite lookup_union_r by done. apply words_in. lia. }
  split; cbn [umem freep ubrk]; try done.
  - eapply seg_frame; [|exact Hseg]. intros a n Ha. specialize (Hend (a, n) ltac:(set_solver)). cbn in Hend.
    rewrite Forall_forall in Hin. destruct (Hin (a, n) ltac:(set_solver)) as [_ Hm]. cbn in Hm.
    split; apply Hold; try lia; [replace a with (a + 4 * 0) by lia|replace (a + 4) with (a + 4 * 1) by lia]; apply Hm; lia.
  - apply Forall_cons. cbn. split.
    + split_and!; [done| |unfold m'; by rewrite lookup_insert_eq]. destruct Hroot as [tl ->]. specialize (Hend (base, 0) ltac:(set_solver)). cbn in Hend. lia.
    + rewrite Forall_forall in Hal |- *. intros x Hx. destruct (Hal x Hx) as (H1 & H2 & H3). split_and!; [done|done|].
      rewrite Hold; [done|by rewrite H3|]. specialize (Hend x ltac:(set_solver)). lia.
  - rewrite Forall_forall in Hap |- *. intros x Hx. apply Forall_cons. split; [|by apply Hap].
    left. cbn. apply Hend. set_solver.
  - constructor; [|done]. apply Forall_forall. intros x Hx. right. cbn. apply Hend. set_solver.
  - apply Forall_app in Hin as [Hi1 Hi2]. apply Forall_app. split; [|apply Forall_cons; split; [done|]].
    all: eapply Forall_impl; [eassumption|]; intros x; apply inside_mono; [done|cbn; lia].
  - unfold KERNBASE. lia.
Qed.

(** What the allocator leaves alone: memory in no free block. *)
Definition kept (fl : list blk) (s s' : ust) : Prop :=
  forall k, k < ubrk s -> outside fl k -> umem s' !! k = umem s !! k.

Lemma outside_glued fl fl' k bp n : glued ((bp, n) :: fl) fl' -> k < bp -> outside fl k -> outside fl' k.
Proof.
  intros (HP & _) Hk Ho. apply HP; [apply joins_outside|]. apply Forall_cons. split; [cbn; lia|done].
Qed.

Lemma wp_morecore `{!SbrkOk} s fl al nu (Q : Z -> ust -> Prop) :
  heap s fl al -> 1 <= nu -> 8 * nu < KERNBASE ->
  Q 0 s ->
  (forall s' fl', heap s' fl' al -> kept fl s s' -> (forall k, k < ubrk s -> outside fl k -> outside fl' k) ->
     Exists (fun x => nu <= snd x) fl' -> (length fl' <= S (length fl))%nat -> ubrk s <= ubrk s' -> Q (freep s') s') ->
  wp (morecore nu) Q s.
Proof.
  intros Hh Hnu Hlim HQ0 HQ. unfold morecore. wp_simpl. set (n := if nu <? 4096 then 4096 else nu).
  assert (nu <= n /\ 8 * n < KERNBASE) as [Hn1 Hn2] by (unfold n, KERNBASE in *; destruct (Z.ltb_spec nu 4096); lia).
  destruct (sbrk_grows (u32 (n * 8)) s) as [E|[Hb E]]; [unfold KERNBASE in *; rewrite u32_id; lia| |].
  { eapply wp_intro; [exact E|]. by wp_simpl. }
  eapply wp_intro; [exact E|]. pose proof (h_brk _ _ _ Hh) as Hbrk. unfold KERNBASE in *. rewrite (u32_id (n * 8)) in Hb |- * by lia.
  destruct (Z.eqb_spec (ubrk s) 4294967295); [lia|]. wp_simpl.
  pose proof (heap_grow s fl al n Hh ltac:(lia) ltac:(unfold KERNBASE; lia)) as Hg. rewrite (u32_id (n * 8)) in Hg by lia.
  set (w := words (ubrk s) (Z.to_nat (n * 8 / 4))) in *.
  assert (n * 8 / 4 = 2 * n) as Ew by (symmetry; apply Z.div_unique with 0; lia).
  apply wp_st.
  { cbn. destruct (umem s !! (ubrk s + 4)) as [v|] eqn:Ev; [exists v; by apply lookup_union_Some_l|].
    exists 0. rewrite lookup_union_r by done. unfold w. rewrite Ew. apply (words_in _ _ 1). lia. }
  unfold set_umem. cbn [umem freep ubrk]. replace (ubrk s + n * 8) with (ubrk s + 8 * n) by lia.
  rewrite (u32_id (ubrk s + 8)) by lia. wp_simpl. eapply (wp_free _ fl (ubrk s) n al); [exact Hg|].
  intros fl' s' Hh' Ho Hu Hgl Hex. wp_simpl. cbn [umem ubrk] in Ho, Hu. apply (HQ s' fl'); try done.
  - intros k Hk Hout. rewrite Ho by (apply Forall_cons; split; [cbn; lia|done]). rewrite lookup_insert_ne by lia.
    destruct (umem s !! k) as [v|] eqn:Ev; [by apply lookup_union_Some_l|].
    rewrite lookup_union_r by done. by apply words_below.
  - intros k Hk. eapply outside_glued; [exact Hgl|lia].
  - eapply Exists_impl; [exact Hex|]. intros x Hx. cbn in Hx. lia.
  - by destruct Hgl as (_ & _ & ?).
  - lia.
Qed.

(** ** Taking a block *)

(** The used blocks keep their headers when only free ones are written. *)
Lemma used_kept s fl al m' :
  heap s fl al -> only fl (umem s) m' ->
  Forall (fun x => 1 <= snd x /\ base < fst x /\ m' !! (fst x + 4) = Some (snd x)) al.
Proof.
  intros [_ _ _ Hal Hap _ _ _ _] Ho. rewrite Forall_forall in Hal, Hap |- *. intros x Hx.
  destruct (Hal x Hx) as (H1 & H2 & H3). split_and!; [done|done|]. rewrite Ho; [done|].
  apply Forall_forall. intros y Hy. specialize (Hap y Hy). rewrite Forall_forall in Hap. specialize (Hap x Hx).
  unfold apart in Hap. lia.
Qed.
Lemma apart_sym x y : apart x y -> apart y x.
Proof. unfold apart. tauto. Qed.
Lemma sep_apart lo l1 p n l2 x : sep lo (l1 ++ (p, n) :: l2) -> x ∈ l1 ++ l2 -> apart x (p, n).
Proof.
  intros Hs Hx. destruct x as [a k]. destruct (sep_split _ _ _ _ _ a k Hs) as [H1 H2]. unfold apart. cbn.
  apply elem_of_app in Hx as [Hx|Hx]; [specialize (H1 Hx)|specialize (H2 Hx)]; lia.
Qed.

Lemma heap_take_exact s l0 r k p n l2 al :
  heap s (l0 ++ (r, k) :: (p, n) :: l2) al -> 1 <= n ->
  heap (mkUst (<[r := first base l2]> (umem s)) r (ubrk s)) (l0 ++ (r, k) :: l2) ((p, n) :: al).
Proof.
  intros Hh Hn. set (m' := <[r := first base l2]> (umem s)).
  assert (hdr_only r (umem s) m') as Hm by apply hdr_only_1.
  assert (only (l0 ++ (r, k) :: (p, n) :: l2) (umem s) m') as Ho by (eapply (only_hdr r k); [set_solver|done]).
  pose proof (used_kept _ _ _ _ Hh Ho) as Hal'. destruct Hm as [Hm Hd].
  pose proof Hh as [Hroot Hseg Hsep Hal Hap Hpair Hin Hbrk Hfp].
  pose proof Hseg as (Hs0 & Hs1 & Hs2 & Hs3 & Hs4 & Hs5)%seg_app. pose proof Hsep as (Hp0 & Hp1 & Hp2 & Hp3 & Hp4 & Hp5)%sep_app.
  assert (l0 ++ (r, k) :: (p, n) :: l2 = (l0 ++ [(r, k)]) ++ (p, n) :: l2) as El by (by rewrite <- app_assoc).
  assert (forall x, x ∈ l0 ++ (r, k) :: l2 -> x ∈ l0 ++ (r, k) :: (p, n) :: l2 /\ apart x (p, n)) as Hsub.
  { intros x Hx. split; [set_solver|]. rewrite El in Hsep. eapply sep_apart; [exact Hsep|by rewrite <- app_assoc]. }
  assert (forall x, inside s x -> inside (mkUst m' r (ubrk s)) x) as Hmono by (intros x; apply inside_mono; [done|cbn; lia]).
  rewrite Forall_forall in Hap, Hin. split; cbn [umem freep ubrk].
  - destruct Hroot as [tl E]. destruct l0 as [|x l0]; cbn in E; injection E as -> E; [subst|]; by eexists.
  - apply seg_app. cbn [first seg]. split_and!.
    + eapply seg_frame; [|exact Hs0]. intros a j Ha. destruct (sep_split _ _ _ _ _ a j Hsep) as [H1 _]. specialize (H1 Ha).
      split; apply Hm; lia.
    + by unfold m'; rewrite lookup_insert_eq.
    + rewrite <- Hs2. unfold m'. by rewrite lookup_insert_ne by lia.
    + eapply (seg_hdr_above r _ m'); [by split| |exact Hs5]. eapply sep_weaken; [|exact Hp5]. lia.
  - apply sep_app. cbn [sep]. split_and!; [done|done|done|]. eapply sep_weaken; [|exact Hp5]. lia.
  - apply Forall_cons. cbn. split_and!; [done| |rewrite Hm by lia; done|done].
    destruct Hroot as [tl E]. rewrite E in Hsep. destruct Hsep as (_ & _ & Hsep).
    assert ((p, n) ∈ tl) as Hpt.
    { assert ((p, n) ∈ (base, 0) :: tl) as H1 by (rewrite <- E; set_solver). apply elem_of_cons in H1 as [[= -> ->]|H1]; [lia|done]. }
    destruct (sep_above _ _ _ _ Hsep Hpt). lia.
  - apply Forall_forall. intros x Hx. destruct (Hsub x Hx). apply Forall_cons. split; [done|by apply Hap].
  - constructor; [|done]. apply Hap. set_solver.
  - apply Forall_forall. intros x Hx. apply Hmono, Hin. set_solver.
  - done.
  - rewrite fmap_app. set_solver.
Qed.

Lemma heap_take_split s l1 p n nu l2 al f :
  heap s (l1 ++ (p, n) :: l2) al -> 1 <= nu < n -> f ∈ (l1 ++ (p, n) :: l2).*1 ->
  heap (mkUst (<[p + 8 * (n - nu) + 4 := nu]> (<[p + 4 := n - nu]> (umem s))) f (ubrk s))
    (l1 ++ (p, n - nu) :: l2) ((p + 8 * (n - nu), nu) :: al).
Proof.
  intros Hh Hn Hf. set (q := p + 8 * (n - nu)). set (m' := <[q + 4 := nu]> (<[p + 4 := n - nu]> (umem s))).
  assert (forall k, k <> p + 4 -> k <> q + 4 -> m' !! k = umem s !! k) as Hm by (intros k ? ?; unfold m'; by rewrite !lookup_insert_ne).
  assert (only (l1 ++ (p, n) :: l2) (umem s) m') as Ho.
  { intros k Hk. apply Forall_app in Hk as [_ [Hk _]%Forall_cons]. cbn in Hk. apply Hm; unfold q; lia. }
  pose proof (used_kept _ _ _ _ Hh Ho) as Hal'. pose proof Hh as [Hroot Hseg Hsep Hal Hap Hpair Hin Hbrk Hfp].
  pose proof Hseg as (Hs0 & Hs1 & Hs2 & Hs3)%seg_app. pose proof Hsep as (Hp0 & Hp1 & Hp2 & Hp3)%sep_app.
  assert (forall x, x ∈ l1 ++ l2 -> apart x (p, n)) as Hsub by (intros x Hx; by eapply sep_apart).
  assert (p <> base) as Hpb.
  { intros ->. destruct Hroot as [tl E]. destruct l1 as [|[a j] l1]; cbn in E; injection E as E1 E2; [lia|]. subst.
    destruct (sep_split _ _ _ _ _ base 0 Hsep) as [H1 _]. specialize (H1 ltac:(set_solver)). lia. }
  assert (forall x, inside s x -> inside (mkUst m' f (ubrk s)) x) as Hmono.
  { intros x. apply inside_mono; [|cbn; lia]. intros k Hk. by do 2 apply insert_some. }
  rewrite Forall_forall in Hap, Hin. assert ((p, n) ∈ l1 ++ (p, n) :: l2) as Hpin by set_solver.
  destruct (Hin (p, n) ltac:(set_solver)) as [Hie Him]. cbn in Hie, Him.
  split; cbn [umem freep ubrk].
  - destruct Hroot as [tl E]. destruct l1 as [|x l1]; cbn in E |- *; injection E as E1 E2; [congruence|]. subst. by eexists.
  - apply seg_app. cbn [first seg]. split_and!.
    + eapply seg_frame; [|exact Hs0]. intros a j Ha. destruct (sep_split _ _ _ _ _ a j Hsep) as [H1 _]. specialize (H1 Ha).
      split; apply Hm; unfold q; lia.
    + rewrite Hm; [done|lia|unfold q; lia].
    + unfold m'. rewrite lookup_insert_ne by (unfold q; lia). by rewrite lookup_insert_eq.
    + eapply seg_frame; [|exact Hs3]. intros a j Ha. destruct (sep_above _ _ _ _ Hp3 Ha). split; apply Hm; unfold q; lia.
  - apply sep_app. cbn [sep]. split_and!; [done|done|lia|]. eapply sep_weaken; [|exact Hp3]. lia.
  - apply Forall_cons. cbn. split_and!; [lia| |unfold m'; by rewrite lookup_insert_eq|done].
    destruct Hroot as [tl E]. assert (base <= p); [|unfold q; lia]. rewrite E in Hsep, Hpin. destruct Hsep as (_ & _ & Hsep).
    apply elem_of_cons in Hpin as [[= -> ->]|Hpt]; [lia|]. destruct (sep_above _ _ _ _ Hsep Hpt). lia.
  - apply Forall_app. split; [|apply Forall_cons; split].
    1,3: apply Forall_forall; intros x Hx; apply Forall_cons; split; [|apply Hap; set_solver];
      specialize (Hsub x ltac:(set_solver)); unfold apart, q in *; cbn in *; lia.
    apply Forall_cons. split; [unfold apart, q; cbn; lia|]. specialize (Hap _ Hpin). eapply Forall_impl; [exact Hap|].
    unfold apart. intros x. cbn. lia.
  - constructor; [|done]. specialize (Hap _ Hpin). rewrite Forall_forall in Hap, Hal. apply Forall_forall. intros x Hx.
    specialize (Hap x Hx). destruct (Hal x Hx). unfold apart, q in *. cbn in *. lia.
  - apply Forall_forall. intros x Hx. apply elem_of_app in Hx as [Hx|[-> | Hx]%elem_of_cons].
    + apply elem_of_app in Hx as [Hx|[-> | Hx]%elem_of_cons]; [apply Hmono, Hin; set_solver| |apply Hmono, Hin; set_solver].
      apply Hmono. split; cbn; [lia|]. intros i Hi. apply Him. lia.
    + apply Hmono. split; cbn; [unfold q; lia|]. intros i Hi. unfold q.
      replace (p + 8 * (n - nu) + 4 * i) with (p + 4 * (2 * (n - nu) + i)) by lia. apply Him. lia.
    + apply Hmono, Hin. set_solver.
  - done.
  - rewrite fmap_app in *. exact Hf.
Qed.

(** ** [malloc] *)

(** [malloc] handed out the block [r] points into. *)
Definition got (fl al : list blk) (nu : Z) (s : ust) (r : Z) (s' : ust) : Prop :=
  exists a fl', r = a + 8 /\ heap s' fl' ((a, nu) :: al) /\ kept fl s s'.
(** [prevp] is the block before the one that follows [l1] in the circle. *)
Definition before (fl l1 : list blk) (prevp : Z) : Prop :=
  prevp ∈ fl.*1 /\ (l1 = [] \/ exists l0 k, l1 = l0 ++ [(prevp, k)]).

Section Walk.
  Context (s : ust) (fl al : list blk) (nu : Z).
  Hypothesis Hheap : heap s fl al.
  Hypothesis Hnu : 1 <= nu.

Lemma before_next l1 a n l2 : fl = l1 ++ (a, n) :: l2 -> before fl (l1 ++ [(a, n)]) a.
Proof. intros ->. split; [rewrite fmap_app; set_solver|]. right. by exists l1, n. Qed.

Lemma wp_malloc_hit l1 prevp p n l2 (Q : Z * Z + Z -> ust -> Prop) :
  fl = l1 ++ (p, n) :: l2 -> before fl l1 prevp -> nu <= n ->
  (forall r s', got fl al nu s r s' -> Q (inr r) s') -> wp (malloc_step nu (prevp, p)) Q s.
Proof.
  intros E [Hprev Hbef] Hn HQ. pose proof Hheap as [Hroot Hseg Hsep _ _ _ Hin Hbrk _].
  rewrite E in Hseg. pose proof (seg_lookup _ _ _ _ _ _ Hseg) as [Ep En].
  rewrite Forall_forall in Hin. destruct (Hin (p, n)) as [Hi1 Hi2]; [set_solver|]. cbn in Hi1, Hi2. unfold KERNBASE in Hbrk.
  assert (0 < p) as Hp0 by (destruct (sep_above 0 fl p n Hsep); [set_solver|lia]).
  destruct Hbef as [-> | (l0 & k & ->)]; [destruct Hroot as [tl Er]; rewrite E in Er; injection Er; lia|].
  rewrite <- app_assoc in E, Hseg. cbn [app] in E, Hseg. unfold malloc_step. wp_simpl. eapply wp_ld; [done|].
  destruct (Z.leb_spec nu n); [|lia]. wp_simpl. destruct (Z.eqb_spec n nu) as [-> | Hne].
  - wp_simpl. eapply wp_ld; [done|]. wp_simpl. apply wp_st.
    { apply seg_app in Hseg as (_ & -> & _). done. }
    wp_simpl. rewrite u32_id by lia. apply HQ. exists p, (l0 ++ (prevp, k) :: l2). split_and!; [done| |].
    + unfold set_freep, set_umem. cbn. apply heap_take_exact; [by rewrite <- E|lia].
    + intros a Ha Ho. cbn. rewrite lookup_insert_ne; [done|]. intros ->. unfold outside in Ho. rewrite Forall_forall in Ho.
      apply (Ho (a, k)); [rewrite E; set_solver|cbn; lia].
  - wp_simpl. rewrite (u32_id (n - nu)) by lia. rewrite (u32_id (p + 8 * (n - nu))) by lia. apply wp_st; [by rewrite En|]. wp_simpl.
    apply wp_st.
    { cbn. apply insert_some. replace (p + 8 * (n - nu) + 4) with (p + 4 * (2 * (n - nu) + 1)) by lia. apply Hi2. lia. }
    wp_simpl. rewrite u32_id by lia. apply HQ. eexists _, (_ ++ (p, n - nu) :: l2). split_and!; [done| |].
    + unfold set_freep, set_umem. cbn [umem freep ubrk].
      apply (heap_take_split s (l0 ++ [(prevp, k)])); [rewrite <- app_assoc; cbn; by rewrite <- E|lia|].
      rewrite <- app_assoc. cbn [app]. by rewrite <- E.
    + intros a Ha Ho. unfold outside in Ho. rewrite Forall_forall in Ho. specialize (Ho (p, n) ltac:(rewrite E; set_solver)). cbn in Ho |- *.
      rewrite !lookup_insert_ne by lia. done.
Qed.

Lemma wp_malloc_miss l1 prevp p n l2 (Q : Z * Z + Z -> ust -> Prop) :
  fl = l1 ++ (p, n) :: l2 -> n < nu -> p <> freep s ->
  Q (inl (p, first base l2)) s -> wp (malloc_step nu (prevp, p)) Q s.
Proof.
  intros E Hn Hf HQ. pose proof (h_seg _ _ _ Hheap) as Hseg. rewrite E in Hseg. apply seg_lookup in Hseg as [Ep En].
  unfold malloc_step. wp_simpl. eapply wp_ld; [done|]. destruct (Z.leb_spec nu n); [lia|]. wp_simpl.
  destruct (Z.eqb_spec p (freep s)); [done|]. wp_simpl. by eapply wp_ld.
Qed.

(** The walk from the block after [freep] to [freep]; [Hend] says what
    happens when no block on the way was large enough. *)
Context (f nf : Z) (l1 l2 : list blk) (fe : nat) (Q : Z -> ust -> Prop).
Hypothesis Hfl : fl = l1 ++ (f, nf) :: l2.
Hypothesis Hf : freep s = f.
Hypothesis Hhit : forall r s', got fl al nu s r s' -> Q r s'.
Hypothesis Hend : forall fuel prevp, Forall (fun x => snd x < nu) fl -> (fe < fuel)%nat ->
  wp (loop fuel (malloc_step nu) (prevp, f)) Q s.

Lemma not_freep u a n v : fl = u ++ (a, n) :: v -> (a, n) ∈ l1 ++ l2 -> a <> freep s.
Proof.
  intros _ Hin. rewrite Hf. pose proof (h_sep _ _ _ Hheap) as Hs. rewrite Hfl in Hs.
  pose proof (sep_apart _ _ _ _ _ _ Hs Hin) as Ha. unfold apart in Ha. cbn in Ha. lia.
Qed.

Lemma walk_low v u prevp fuel :
  l1 = u ++ v -> before fl u prevp -> Forall (fun x => snd x < nu) u -> Forall (fun x => snd x < nu) l2 ->
  (length v + fe < fuel)%nat -> wp (loop fuel (malloc_step nu) (prevp, first f v)) Q s.
Proof.
  revert u prevp fuel. induction v as [|[a n] v IH]; intros u prevp fuel E Hb Hu Hl2 Hfu.
  - rewrite app_nil_r in E. subst u. cbn [first]. destruct (Z.le_gt_cases nu nf).
    + destruct fuel as [|fuel]; [lia|]. cbn [loop]. wp_simpl. eapply (wp_malloc_hit l1 prevp f nf l2); try done.
    + apply Hend; [|lia]. rewrite Hfl. apply Forall_app. split; [done|]. by apply Forall_cons.
  - destruct fuel as [|fuel]; [lia|]. cbn [loop first]. wp_simpl.
    assert (fl = u ++ (a, n) :: v ++ (f, nf) :: l2) as E' by (rewrite Hfl, E; by rewrite <- app_assoc).
    destruct (Z.le_gt_cases nu n); [eapply (wp_malloc_hit u prevp a n); try done|].
    eapply (wp_malloc_miss u prevp a n _ _ E'); [lia|eapply not_freep; [exact E'|rewrite E; set_solver]|].
    assert (first base (v ++ (f, nf) :: l2) = first f v) as -> by (by destruct v as [|[]]).
    apply (IH (u ++ [(a, n)])); [rewrite E; by rewrite <- app_assoc|by eapply before_next| |done|cbn in Hfu; lia].
    apply Forall_app. split; [done|]. by apply Forall_singleton.
Qed.

Lemma walk_high v u prevp fuel :
  l2 = u ++ v -> before fl (l1 ++ (f, nf) :: u) prevp -> Forall (fun x => snd x < nu) u ->
  (length v + length l1 + fe < fuel)%nat -> wp (loop fuel (malloc_step nu) (prevp, first base v)) Q s.
Proof.
  revert u prevp fuel. induction v as [|[a n] v IH]; intros u prevp fuel E Hb Hu Hfu.
  - rewrite app_nil_r in E. subst u. cbn [first]. destruct (h_root _ _ _ Hheap) as [tl Er]. rewrite Hfl in Er.
    replace base with (first f l1) by (destruct l1 as [|[]]; cbn in *; by injection Er).
    apply (walk_low l1 []); [done| |done|done|cbn in Hfu; lia]. split; [by destruct Hb|by left].
  - destruct fuel as [|fuel]; [lia|]. cbn [loop first]. wp_simpl.
    assert (fl = (l1 ++ (f, nf) :: u) ++ (a, n) :: v) as E' by (rewrite Hfl, E; by rewrite <- app_assoc).
    destruct (Z.le_gt_cases nu n); [eapply (wp_malloc_hit _ prevp a n v); try done|].
    eapply (wp_malloc_miss _ prevp a n _ _ E'); [lia|eapply not_freep; [exact E'|rewrite E; set_solver]|].
    apply (IH (u ++ [(a, n)])); [rewrite E; by rewrite <- app_assoc| | |cbn in Hfu; lia].
    + replace (l1 ++ (f, nf) :: u ++ [(a, n)]) with ((l1 ++ (f, nf) :: u) ++ [(a, n)]) by (by rewrite <- app_assoc).
      by eapply before_next.
    + apply Forall_app. split; [done|]. by apply Forall_singleton.
Qed.
End Walk.

Lemma freep_split s fl al : heap s fl al ->
  exists l1 n l2, fl = l1 ++ (freep s, n) :: l2 /\ 0 < freep s /\
    umem s !! freep s = Some (first base l2) /\ umem s !! (freep s + 4) = Some n.
Proof.
  intros Hh. pose proof (h_freep _ _ _ Hh) as ([f n] & E & Hin)%list_elem_of_fmap. cbn in E. rewrite E.
  pose proof (sep_above _ _ _ _ (h_sep _ _ _ Hh) Hin) as [Hf _].
  apply list_elem_of_split in Hin as (l1 & l2 & ->). exists l1, n, l2.
  destruct (seg_lookup _ _ _ _ _ _ (h_seg _ _ _ Hh)). by split_and!.
Qed.

(** A walk through a heap that has a large enough block finds one. *)
Lemma walk_finds s fl al nu fuel (Q : Z -> ust -> Prop) :
  heap s fl al -> 1 <= nu -> Exists (fun x => nu <= snd x) fl -> (length fl <= fuel)%nat ->
  (forall r s', got fl al nu s r s' -> Q r s') ->
  wp (p ← ld (freep s); loop fuel (malloc_step nu) (freep s, p)) Q s.
Proof.
  intros Hh Hnu Hex Hfu HQ. destruct (freep_split _ _ _ Hh) as (l1 & n & l2 & E & _ & Ef & _). wp_simpl. eapply wp_ld; [done|].
  eapply (walk_high s fl al nu Hh Hnu (freep s) n l1 l2 0 Q E eq_refl HQ) with (u := []); try done.
  - intros f' p Hall _. exfalso. apply Exists_exists in Hex as (x & Hx & Hle). rewrite Forall_forall in Hall. specialize (Hall x Hx). lia.
  - by eapply before_next.
  - rewrite E, length_app in Hfu. cbn in Hfu. lia.
Qed.

Lemma wp_malloc_loop `{!SbrkOk} s fl al nu fuel (Q : Z -> ust -> Prop) :
  heap s fl al -> 1 <= nu -> 8 * nu < KERNBASE -> (2 * length fl + 1 <= fuel)%nat -> Q 0 s ->
  (forall r s', got fl al nu s r s' -> Q r s') ->
  wp (p ← ld (freep s); loop fuel (malloc_step nu) (freep s, p)) Q s.
Proof.
  intros Hh Hnu Hlim Hfu HQ0 HQ. destruct (freep_split _ _ _ Hh) as (l1 & n & l2 & E & _ & Ef & En). wp_simpl. eapply wp_ld; [done|].
  eapply (walk_high s fl al nu Hh Hnu (freep s) n l1 l2 (S (length fl)) Q E eq_refl HQ) with (u := []); [|done|by eapply before_next|done|].
  2: { rewrite E, length_app in Hfu |- *. cbn [length] in *. lia. }
  intros [|fuel'] prevp Hall Hf'; [lia|]. cbn [loop]. wp_simpl. unfold malloc_step at 1. wp_simpl. eapply wp_ld; [exact En|].
  rewrite Forall_forall in Hall. specialize (Hall (freep s, n) ltac:(rewrite E; set_solver)). cbn in Hall.
  destruct (Z.leb_spec nu n); [lia|]. wp_simpl. destruct (Z.eqb_spec (freep s) (freep s)); [|done]. wp_simpl.
  eapply wp_morecore; [done|done|done|by wp_simpl|].
  intros s' fl' Hh' Hk Ho Hex Hlen Hub. destruct (freep_split _ _ _ Hh') as (l1' & n' & l2' & E' & Hpos & Ef' & _).
  destruct (Z.eqb_spec (freep s') 0); [lia|]. wp_simpl. eapply wp_ld; [done|]. wp_simpl.
  pose proof (walk_finds s' fl' al nu fuel' Q Hh' Hnu Hex ltac:(lia)) as Hw. rewrite wp_bind, (wp_ld_eq _ _ _ _ Ef') in Hw. apply Hw.
  intros r s'' (a & fl'' & -> & Hh'' & Hk''). apply HQ. exists a, fl''. split_and!; [done|done|].
  intros k Hkb Hout. rewrite Hk'' by (lia || by apply Ho). by apply Hk.
Qed.

(** The allocator before its first call: the words of [base] exist. *)
Definition fresh (s : ust) : Prop :=
  freep s = 0 /\ 0 < base /\ base + 8 <= ubrk s <= KERNBASE /\ is_Some (umem s !! base) /\ is_Some (umem s !! (base + 4)).
Definition ready (s : ust) (fl al : list blk) : Prop :=
  heap s fl al \/ (fresh s /\ fl = [(base, 0)] /\ al = []).

Lemma heap_init s : fresh s ->
  heap (mkUst (<[base + 4 := 0]> (<[base := base]> (umem s))) base (ubrk s)) [(base, 0)] [].
Proof.
  intros (_ & Hb & Hu & H1 & H2). split; cbn [umem freep ubrk].
  - by exists [].
  - cbn. split_and!; [rewrite lookup_insert_ne by lia; by rewrite lookup_insert_eq|by rewrite lookup_insert_eq|done].
  - cbn. lia.
  - constructor.
  - by repeat constructor.
  - constructor.
  - apply Forall_singleton. split; cbn; [lia|]. intros i Hi. do 2 apply insert_some.
    destruct (decide (i = 0)) as [-> | ?]; [by replace (base + 4 * 0) with base by lia|by replace (base + 4 * i) with (base + 4) by lia].
  - lia.
  - set_solver.
Qed.

Lemma nunits_enough nbytes : 0 <= nbytes < KERNBASE - 15 ->
  1 <= nunits nbytes /\ 8 * nunits nbytes < KERNBASE /\ nbytes <= 8 * (nunits nbytes - 1).
Proof.
  unfold KERNBASE, nunits. intros Hn. rewrite (u32_id (nbytes + 8 - 1)) by lia.
  pose proof (Z.div_mod (nbytes + 8 - 1) 8 ltac:(lia)). pose proof (Z.mod_pos_bound (nbytes + 8 - 1) 8 ltac:(lia)).
  rewrite u32_id by lia. lia.
Qed.
End Malloc.

(** ** Theorems *)

(** C30.  [malloc] of fewer than KERNBASE - 15 bytes (larger sizes wrap, see
    [malloc_wraps]) returns: either 0,
    when [sbrk] refuses, with the blocks in use and free as they were, or a
    block of at least the requested size that overlaps no block in use and no
    free block; memory in no free block is left alone.  The search ends within
    two rounds of the free list. *)
Theorem malloc_allocates `{SbrkOk} base s fl al nbytes :
  ready base s fl al -> 0 <= nbytes < KERNBASE - 15 ->
  wp (malloc base nbytes) (fun r s' =>
    (r = 0 /\ heap base s' fl al /\ kept fl s s') \/
    exists a n fl', r = a + 8 /\ nbytes <= 8 * (n - 1) /\ heap base s' fl' ((a, n) :: al) /\ kept fl s s') s.
Proof.
  intros Hr Hn. destruct (nunits_enough nbytes Hn) as (Hn1 & Hn2 & Hn3).
  assert (exists s0, heap base s0 fl al /\ kept fl s s0 /\ ubrk s0 = ubrk s /\ forall Q,
    wp (s ← get; p ← ld (freep s); loop (2 * size (umem s) + 2) (malloc_step (nunits nbytes)) (freep s, p)) Q s0 ->
    wp (malloc base nbytes) Q s) as (s0 & Hh & Hk & Hu & Hw).
  { destruct Hr as [Hh|(Hfr & -> & ->)].
    - exists s. split_and!; [done|by intros k|done|]. intros Q HQ. unfold malloc. rewrite wp_bind, wp_get.
      destruct (freep_split _ _ _ _ Hh) as (? & ? & ? & _ & Hpos & _). destruct (Z.eqb_spec (freep s) 0); [lia|].
      by rewrite wp_bind, wp_skip.
    - exists (mkUst (<[base + 4 := 0]> (<[base := base]> (umem s))) base (ubrk s)). split_and!; [by apply heap_init| |done|].
      + intros k Hkb Ho. unfold outside in Ho. rewrite Forall_singleton in Ho. cbn in Ho. cbn [umem].
        rewrite !lookup_insert_ne; [done|lia|lia].
      + intros Q HQ. unfold malloc. destruct Hfr as (E & _ & _ & H1 & H2). rewrite wp_bind, wp_get, E. cbn [Z.eqb].
        rewrite !wp_bind, wp_modify, wp_bind. apply wp_st; [done|]. apply wp_st; [by apply insert_some|]. exact HQ. }
  apply Hw. rewrite wp_bind, wp_get. pose proof (blocks_fit _ _ _ (h_sep _ _ _ _ Hh) (proj1 (proj1 (Forall_app _ _ _) (h_in _ _ _ _ Hh)))) as Hfit.
  eapply (wp_malloc_loop base s0 fl al); try done; [lia|by left|].
  intros r s' (a & fl' & -> & Hh' & Hk'). right. exists a, (nunits nbytes), fl'. split_and!; [done|done|done|].
  intros k Hkb Ho. rewrite Hk' by (done || lia). by apply Hk.
Qed.

(** C31.  [free] of a block in use returns: the block joins the free ones,
    adjacent free blocks merged so that a gap separates any two, no unit is
    lost, and memory outside that block and the free ones is left alone. *)
Theorem free_releases `{Sbrk} base s fl al a n :
  heap base s fl ((a, n) :: al) ->
  wp (free (a + 8)) (fun _ s' => exists fl', heap base s' fl' al /\ units fl' = units fl + n /\
    kept ((a, n) :: fl) s s') s.
Proof.
  intros Hh. eapply wp_free; [exact Hh|]. intros fl' s' Hh' Ho _ (_ & Hu & _) _. exists fl'. split_and!; [done| |].
  - rewrite Hu. unfold units. cbn. lia.
  - intros k _. apply Ho.
Qed.

(** ** A concrete heap *)

(** A process of [limit] bytes at most. *)
Definition sbrk_limit (limit : Z) : Sbrk := fun n s =>
  if ubrk s + n <=? limit
  then Ok (ubrk s) (mkUst (umem s ∪ words (ubrk s) (Z.to_nat (n / 4))) (freep s) (ubrk s + n))
  else Ok 4294967295 s.
#[local] Instance sbrk_demo : Sbrk := sbrk_limit 40960.
#[local] Instance sbrk_demo_ok : SbrkOk.
Proof.
  intros n s Hn. unfold sbrk, sbrk_demo, sbrk_limit. destruct (Z.leb_spec (ubrk s + n) 40960); [right|by left].
  split; [unfold KERNBASE; lia|done].
Qed.
Definition demo : ust := mkUst (words 4096 2) 0 4104.
Lemma demo_fresh : fresh 4096 demo.
Proof. repeat split; vm_compute; (done || by eexists). Qed.

Lemma malloc_allocates_witness :
  fresh 4096 demo /\
  wp (malloc 4096 100) (fun r s' =>
    (r = 0 /\ heap 4096 s' [(4096, 0)] [] /\ kept [(4096, 0)] demo s') \/
    exists a n fl', r = a + 8 /\ 100 <= 8 * (n - 1) /\ heap 4096 s' fl' [(a, n)] /\ kept [(4096, 0)] demo s') demo.
Proof.
  split; [exact demo_fresh|]. apply (malloc_allocates 4096 demo [(4096, 0)] [] 100).
  - right. split_and!; [exact demo_fresh|reflexivity|reflexivity].
  - unfold KERNBASE. lia.
Defined.

(** A heap with one used block of two units and nothing free. *)
Definition demo1 : ust :=
  mkUst (<[4108 := 2]> (<[4100 := 0]> (<[4096 := 4096]> (words 4096 6)))) 4096 4120.
Lemma demo1_heap : heap 4096 demo1 [(4096, 0)] [(4104, 2)].
Proof.
  split; try (vm_compute; repeat split; done).
  - by eexists.
  - apply Forall_singleton. by vm_compute.
  - apply Forall_singleton, Forall_singleton. left. by vm_compute.
  - repeat constructor.
  - apply Forall_cons. split; [|apply Forall_singleton]; (split; [by vm_compute|]); cbn [fst snd]; intros i Hi.
    + assert (i = 0 \/ i = 1) as [-> | ->] by lia; vm_compute; by eexists.
    + assert (i = 0 \/ i = 1 \/ i = 2 \/ i = 3) as [-> |[-> |[-> | ->]]] by lia; vm_compute; by eexists.
  - set_solver.
Qed.
Lemma free_releases_witness :
  heap 4096 demo1 [(4096, 0)] [(4104, 2)] /\
  wp (free 4112) (fun _ s' => exists fl', heap 4096 s' fl' [] /\ units fl' = 2 /\
    kept [(4104, 2); (4096, 0)] demo1 s') demo1.
Proof. split; [exact demo1_heap|]. exact (free_releases 4096 demo1 [(4096, 0)] [] 4104 2 demo1_heap). Defined.

(** The unit count wraps: [malloc] of 4 GB less one byte succeeds with a
    block that has a header and no room at all; and 4 GB less eight bytes asks
    [sbrk] for no memory, so that the header of the new block is written
    outside the process. *)
Theorem malloc_wraps :
  nunits 4294967295 = 1 /\
  match malloc 4096 4294967295 demo with Ok r s' => r = 36872 /\ umem s' !! (r - 4) = Some 1 /\ ubrk s' = r | _ => False end /\
  u32 (nunits 4294967288 * 8) = 0 /\ malloc 4096 4294967288 demo = Fault.
Proof. split_and!; vm_compute; done. Qed.
