(* ===== verification/Sh.v ===== *)
(** * The shell's parser

    Models the parser of [sh.c].  The line is a list of bytes without its
    terminating zero; a pointer into it is the suffix it points at, the end
    [es] being the empty suffix, and the cursor [*ps] is the state of the
    parsing routines.  The nodes [malloc] makes are the constructors of [cmd].
    A word is the pair of pointers [q] and [eq] that delimit it. *)

From S2P Require Import Prelude Bytes.

Definition ptr : Type := list Z.
Definition word : Type := ptr * ptr.

Definition MAXARGS : nat := 10.
Definition O_RDONLY : Z := 0.
Definition O_WRONLY : Z := 1.
Definition O_CREATE : Z := 512.

(** Commands over words of type [W]. *)
Inductive cmd_ (W : Type) :=
| EXEC (argv : list W)
| REDIR (c : cmd_ W) (file : W) (mode fd : Z)
| PIPE (left right : cmd_ W)
| LIST (left right : cmd_ W)
| BACK (c : cmd_ W).
Arguments EXEC {W} argv.
Arguments REDIR {W} c file mode fd.
Arguments PIPE {W} left right.
Arguments LIST {W} left right.
Arguments BACK {W} c.
Definition cmd : Type := cmd_ word.

Definition whitespace : list Z := [32; 9; 13; 10; 11].
Definition symbols : list Z := str "<|>&;()".
Definition strchr (s : list Z) (c : Z) : bool := existsb (Z.eqb c) s.

Fixpoint skip_ws (s : ptr) : ptr :=
  match s with
  | c :: s' => if strchr whitespace c then skip_ws s' else s
  | [] => []
  end.
Fixpoint skip_word (s : ptr) : ptr :=
  match s with
  | c :: s' => if negb (strchr whitespace c) && negb (strchr symbols c) then skip_word s' else s
  | [] => []
  end.

(** The kind of the token at [q] and where it ends. *)
Definition token (q : ptr) : Z * ptr :=
  match q with
  | [] => (0, q)
  | c :: s =>
      if strchr (str "|();&<") c then (c, s) else
      if c =? 62 then
        match s with
        | d :: s' => if d =? 62 then (43, s') else (c, s)
        | [] => (c, s)
        end
      else (97, skip_word q)
  end.
Definition gettoken : M ptr (Z * word) :=
  s ← get;
  let q := skip_ws s in
  let '(ret, eq) := token q in
  modify (fun _ => skip_ws eq) ;;
  mret (ret, (q, eq)).

Definition peek (toks : list Z) : M ptr bool :=
  s ← get;
  let s := skip_ws s in
  modify (fun _ => s) ;;
  mret (match s with [] => false | c :: _ => strchr toks c end).

(** A redirection: its file, mode and descriptor. *)
Definition redir_ (W : Type) : Type := W * Z * Z.
Abbreviation redir := (redir_ word).
Definition redircmd {W} (c : cmd_ W) (r : redir_ W) : cmd_ W := let '(file, mode, fd) := r in REDIR c file mode fd.

(** [parseredirs] wraps [cmd] in the redirections that follow; they are
    returned as a list, first one innermost, because [parseexec] goes on
    filling the [execcmd] inside. *)
Definition parseredirs_step (rs : list redir) : M ptr (list redir + list redir) :=
  b ← peek (str "<>");
  if (b : bool) then
    t ← gettoken;
    w ← gettoken;
    if negb (fst w =? 97) then panic "missing file for redirection" else
    if fst t =? 60 then mret (inl (rs ++ [(snd w, O_RDONLY, 0)])) else
    if (fst t =? 62) || (fst t =? 43) then mret (inl (rs ++ [(snd w, Z.lor O_WRONLY O_CREATE, 1)])) else
    mret (inl rs)
  else mret (inr rs).
Definition parseredirs : M ptr (list redir) :=
  s ← get; loop (length s + 1) parseredirs_step [].

Definition parseexec_step (l : list word * list redir) : M ptr ((list word * list redir) + (list word * list redir)) :=
  let '(argv, rs) := l in
  b ← peek (str "|)&;");
  if (b : bool) then mret (inr (argv, rs)) else
  t ← gettoken;
  if fst t =? 0 then mret (inr (argv, rs)) else
  if negb (fst t =? 97) then panic "syntax" else
  let argv := argv ++ [snd t] in
  if (MAXARGS <=? length argv)%nat then panic "too many args" else
  rs' ← parseredirs;
  mret (inl (argv, rs ++ rs')).

Section Line.
  Context (parseline : M ptr cmd).

Definition parseblock : M ptr cmd :=
  b ← peek (str "(");
  if negb b then panic "parseblock" else
  gettoken ;;
  c ← parseline;
  b ← peek (str ")");
  if negb b then panic "syntax - missing )" else
  gettoken ;;
  rs ← parseredirs;
  mret (foldl redircmd c rs).

Definition parseexec : M ptr cmd :=
  b ← peek (str "(");
  if (b : bool) then parseblock else
  rs ← parseredirs;
  s ← get;
  '(argv, rs) ← loop (length s + 1) parseexec_step ([], rs);
  mret (foldl redircmd (EXEC argv) rs).

Fixpoint parsepipe (fuel : nat) : M ptr cmd :=
  match fuel with
  | O => fun _ => OutOfFuel
  | S f =>
      c ← parseexec;
      b ← peek (str "|");
      if (b : bool) then gettoken ;; r ← parsepipe f; mret (PIPE c r) else mret c
  end.

Definition back_step (c : cmd) : M ptr (cmd + cmd) :=
  b ← peek (str "&");
  if (b : bool) then gettoken ;; mret (inl (BACK c)) else mret (inr c).
End Line.

Fixpoint parseline (fuel : nat) : M ptr cmd :=
  match fuel with
  | O => fun _ => OutOfFuel
  | S f =>
      s ← get;
      c ← parsepipe (parseline f) (length s + 1);
      s ← get;
      c ← loop (length s + 1) back_step c;
      b ← peek (str ";");
      if (b : bool) then gettoken ;; r ← parseline f; mret (LIST c r) else mret c
  end.

(** The offsets where [nulterminate] writes a zero, in the order of the writes. *)
Fixpoint ends (c : cmd) : list ptr :=
  match c with
  | EXEC argv => map snd argv
  | REDIR c file _ _ => ends c ++ [snd file]
  | PIPE l r | LIST l r => ends l ++ ends r
  | BACK c => ends c
  end.
Definition store0 (buf : list Z) (p : ptr) : list Z := <[(length buf - 1 - length p)%nat := 0]> buf.
(** The buffer has the line and its terminating zero. *)
Definition nulterminate (c : cmd) (buf : list Z) : list Z := foldl store0 buf (ends c).

Definition parse_fuel (line : list Z) : nat := length line + 1.
Definition parsecmd (line : list Z) : M ptr (cmd * list Z) :=
  modify (fun _ => line) ;;
  c ← parseline (parse_fuel line);
  peek [] ;;
  s ← get;
  if decide (s = []) then mret (c, nulterminate c (line ++ [0])) else panic "syntax".

(** ** Every word the parser finds, and termination *)

Definition wordchar (c : Z) : bool := negb (strchr whitespace c) && negb (strchr symbols c).
Definition stops (s : ptr) : Prop := match s with [] => True | c :: _ => wordchar c = false end.
(** A word of the line: a run of word characters, ended by another one. *)
Definition wordok (line : list Z) (w : word) : Prop :=
  exists pre text, line = pre ++ fst w /\ fst w = text ++ snd w /\ text <> [] /\
    Forall (fun c => wordchar c = true) text /\ stops (snd w).
Fixpoint cmd_words {W} (c : cmd_ W) : list W :=
  match c with
  | EXEC argv => argv
  | REDIR c file _ _ => cmd_words c ++ [file]
  | PIPE l r | LIST l r => cmd_words l ++ cmd_words r
  | BACK c => cmd_words c
  end.

(** Returns with [Q], or stops with a message. *)
Definition safe {St A} (m : M St A) (Q : A -> St -> Prop) (s : St) : Prop :=
  match m s with Ok a s' => Q a s' | Panic _ => True | _ => False end.

Section safe.
Context {St : Type}.
Lemma safe_bind {A B} (m : M St A) (f : A -> M St B) Q s :
  safe (m ≫= f) Q s = safe m (fun a => safe (f a) Q) s.
Proof. unfold safe, mbind, M_bind. by destruct (m s). Qed.
Lemma safe_mono {A} (m : M St A) (Q Q' : A -> St -> Prop) s :
  safe m Q s -> (forall a s', Q a s' -> Q' a s') -> safe m Q' s.
Proof. unfold safe. destruct (m s); naive_solver. Qed.
Lemma safe_wp {A} (m : M St A) Q s : wp m Q s -> safe m Q s.
Proof. unfold safe, wp. by destruct (m s). Qed.
Lemma safe_loop {L R} (I : L -> St -> Prop) (mu : L -> St -> nat) fuel
    (body : L -> M St (L + R)) (Q : R -> St -> Prop) l s :
  (forall l s, I l s ->
     safe (body l) (fun r s' => match r with
                  | inl l' => I l' s' /\ (mu l' s' < mu l s)%nat
                  | inr r' => Q r' s' end) s) ->
  I l s -> (mu l s < fuel)%nat -> safe (loop fuel body l) Q s.
Proof.
  intros Hb. revert l s. induction fuel as [|fuel IH]; intros l s HI Hmu; [lia|]. cbn [loop]. rewrite safe_bind.
  eapply safe_mono; [by apply Hb|]. intros [l'|r'] s' H; [|done]. destruct H. apply IH; [done|lia].
Qed.
End safe.

Lemma skip_ws_suffix s : skip_ws s `suffix_of` s.
Proof. induction s as [|c s IH]; [done|]. cbn [skip_ws]. destruct (strchr whitespace c); [by apply suffix_cons_r|done]. Qed.
Lemma skip_ws_length s : (length (skip_ws s) <= length s)%nat.
Proof. apply suffix_length, skip_ws_suffix. Qed.
Lemma skip_ws_idem s : skip_ws (skip_ws s) = skip_ws s.
Proof.
  induction s as [|c s IH]; [done|]. cbn [skip_ws]. destruct (strchr whitespace c) eqn:E; [done|]. cbn [skip_ws]. by rewrite E.
Qed.
Lemma skip_ws_head s c s' : skip_ws s = c :: s' -> strchr whitespace c = false.
Proof.
  induction s as [|d s IH]; [done|]. cbn [skip_ws]. destruct (strchr whitespace d) eqn:E; [done|]. by intros [= -> ->].
Qed.
Lemma skip_word_spec s :
  exists text, s = text ++ skip_word s /\ Forall (fun c => wordchar c = true) text /\ stops (skip_word s).
Proof.
  induction s as [|c s (text & E & Ht & Hs)]; [by exists []|]. cbn [skip_word]. fold (wordchar c). destruct (wordchar c) eqn:Ec.
  - exists (c :: text). cbn. rewrite <- E. by split_and!; [|constructor|].
  - exists []. by split_and!.
Qed.

(** What [token] does at a place where blanks have been skipped. *)
Lemma token_spec line q t e :
  q `suffix_of` line -> (forall c q', q = c :: q' -> strchr whitespace c = false) -> token q = (t, e) ->
  e `suffix_of` q /\ (t = 0 \/ (length e < length q)%nat) /\ (q <> [] -> (length e < length q)%nat) /\ (t = 97 -> wordok line (q, e)).
Proof.
  intros Hq Hw. unfold token. destruct q as [|c s]; [intros [= <- <-]; by split_and!; [|left|..]|].
  destruct (strchr (str "|();&<") c) eqn:E1.
  { intros [= <- <-]. split_and!; [by apply suffix_cons_r|right; cbn; lia|cbn; lia|]. intros ->. by vm_compute in E1. }
  destruct (Z.eqb_spec c 62) as [-> | Hc].
  { destruct s as [|d s]; [intros [= <- <-]; split_and!; [by apply suffix_cons_r|right; cbn; lia|cbn; lia|done]|].
    destruct (d =? 62); intros [= <- <-]; split_and!; try done; try (right; cbn; lia); try (cbn; lia); [by do 2 apply suffix_cons_r|by apply suffix_cons_r]. }
  intros [= <- <-]. destruct (skip_word_spec (c :: s)) as (text & E & Ht & Hs).
  assert (text <> []) as Hne.
  { intros ->. assert (skip_word (c :: s) = c :: s) as E' by (by rewrite E at 2). rewrite E' in Hs. cbn [stops] in Hs.
    specialize (Hw c s eq_refl). unfold wordchar in Hs. rewrite Hw in Hs. cbn [negb andb] in Hs. clear -E1 Hc Hs.
    apply negb_false_iff in Hs. unfold strchr in Hs. apply existsb_exists in Hs as (x & Hin & Ex%Z.eqb_eq). subst x.
    cbn in Hin. destruct_or! Hin; subst c; (done || by vm_compute in E1). }
  assert (length (skip_word (c :: s)) < length (c :: s))%nat as Hlt.
  { rewrite E at 2. rewrite length_app. destruct text; [done|cbn; lia]. }
  split_and!; [by exists text|by right|done|].
  - intros _. destruct Hq as [pre Hq]. exists pre, text. by split_and!.
Qed.

Section Safe.
  Context (line : list Z).
  Local Notation inv := (fun s : ptr => s `suffix_of` line).
Definition goodc (c : cmd) : Prop := Forall (wordok line) (cmd_words c).
(** What a parsing routine started at [s] promises. *)
Definition parses (s : ptr) (c : cmd) (s' : ptr) : Prop :=
  goodc c /\ s' `suffix_of` line /\ (length s' <= length s)%nat.

Lemma safe_gettoken (Q : Z * word -> ptr -> Prop) s :
  inv s ->
  (forall t w s', inv s' -> (length s' <= length s)%nat -> (t = 0 \/ (length s' < length s)%nat) ->
     (skip_ws s <> [] -> (length s' < length s)%nat) -> (t = 97 -> wordok line w) -> Q (t, w) s') ->
  safe gettoken Q s.
Proof.
  intros Hs HQ. unfold safe, gettoken, mbind, M_bind, get. cbn -[token skip_ws].
  destruct (token (skip_ws s)) as [t e] eqn:Et. cbn -[token skip_ws].
  assert (skip_ws s `suffix_of` line) as Hi by (etrans; [apply skip_ws_suffix|done]).
  destruct (token_spec line (skip_ws s) t e Hi) as (H1 & H2 & H3 & H4); [intros c q'; apply skip_ws_head|done|].
  pose proof (skip_ws_length s). pose proof (skip_ws_length e). pose proof (suffix_length _ _ H1).
  apply HQ; [by do 2 (etrans; [apply skip_ws_suffix || exact H1|])|lia|destruct H2; [by left|right; lia]|intros H'; specialize (H3 H'); lia|done].
Qed.
Lemma safe_peek toks (Q : bool -> ptr -> Prop) s :
  inv s ->
  (forall b s', inv s' -> (length s' <= length s)%nat -> (b = true -> skip_ws s' <> []) -> skip_ws s' = s' -> Q b s') ->
  safe (peek toks) Q s.
Proof.
  intros Hs HQ. apply HQ; [by etrans; [apply skip_ws_suffix|]|apply skip_ws_length| |apply skip_ws_idem].
  rewrite skip_ws_idem. by destruct (skip_ws s).
Qed.

Lemma safe_parseredirs s :
  inv s -> safe parseredirs (fun rs s' => Forall (fun r => wordok line (fst (fst r))) rs /\ inv s' /\ (length s' <= length s)%nat) s.
Proof.
  intros Hs. unfold parseredirs. rewrite safe_bind. cbn [safe get].
  apply (safe_loop (fun rs s' => Forall (fun r => wordok line (fst (fst r))) rs /\ inv s' /\ (length s' <= length s)%nat)
    (fun _ s' => length s')); [|by split_and!|lia].
  intros rs s1 (Hr & Hi & Hl). unfold parseredirs_step. rewrite safe_bind. apply safe_peek; [done|].
  intros [] s2 Hi2 Hl2 Hne _; [|split_and!; [done|done|lia]]. rewrite safe_bind. apply safe_gettoken; [done|].
  intros t w s3 Hi3 _ _ Hlt _. specialize (Hlt (Hne eq_refl)). rewrite safe_bind. apply safe_gettoken; [done|].
  intros t' w' s4 Hi4 Hl4 _ _ Hw. cbn [fst snd]. destruct (Z.eqb_spec t' 97) as [Ht | Ht]; [|done]. cbn [negb].
  specialize (Hw Ht).
  repeat case_match; (split; [split_and!; [|done|lia]|lia]); try done; apply Forall_app; split; try done; by apply Forall_singleton.
Qed.

Lemma goodc_redirs c rs :
  goodc c -> Forall (fun r => wordok line (fst (fst r))) rs -> goodc (foldl redircmd c rs).
Proof.
  revert c. induction rs as [|[[f m] d] rs IH]; intros c Hc; cbn; [done|]. intros [Hf Hr]%Forall_cons. apply IH; [|done].
  unfold goodc. cbn. apply Forall_app. split; [done|]. by apply Forall_singleton.
Qed.

Lemma safe_exec_loop s rs0 :
  inv s -> Forall (fun r => wordok line (fst (fst r))) rs0 ->
  safe (loop (length s + 1) parseexec_step ([], rs0)) (fun '(argv, rs) s' =>
    Forall (wordok line) argv /\ Forall (fun r => wordok line (fst (fst r))) rs /\ inv s' /\ (length s' <= length s)%nat) s.
Proof.
  intros Hs Hr0.
  apply (safe_loop (fun '(argv, rs) s' => Forall (wordok line) argv /\ Forall (fun r => wordok line (fst (fst r))) rs /\ inv s' /\ (length s' <= length s)%nat)
    (fun _ s' => length s')); [|by split_and!|lia].
  intros [argv rs] s1 (Ha & Hr & Hi & Hl). unfold parseexec_step. rewrite safe_bind. apply safe_peek; [done|].
  intros [] s2 Hi2 Hl2 _ _; [split_and!; try done; lia|]. rewrite safe_bind. apply safe_gettoken; [done|].
  intros t w s3 Hi3 Hl3 Hlt _ Hw. cbn [fst snd]. destruct (Z.eqb_spec t 0) as [-> | Ht0]; [split_and!; try done; lia|].
  destruct Hlt as [?|Hlt]; [done|]. destruct (Z.eqb_spec t 97) as [Ht|Ht]; [|done]. cbn [negb].
  destruct (_ <=? _)%nat; [done|]. rewrite safe_bind. eapply safe_mono; [by apply safe_parseredirs|].
  intros rs' s4 (Hr4 & Hi4 & Hl4). split; [split_and!; [| |done|lia]|lia]; apply Forall_app; split; try done.
  apply Forall_singleton. by apply Hw.
Qed.

Section Inner.
  Context (pl : M ptr cmd) (n : nat).
  Hypothesis Hpl : forall s, inv s -> (length s < n)%nat -> safe pl (parses s) s.

Lemma safe_parseblock s : inv s -> (length s <= n)%nat -> safe (parseblock pl) (parses s) s.
Proof.
  intros Hs Hn. unfold parseblock. rewrite safe_bind. apply safe_peek; [done|]. intros [] s1 Hi1 Hl1 Hne _; [|done]. cbn [negb].
  rewrite safe_bind. apply safe_gettoken; [done|]. intros t w s2 Hi2 _ _ Hlt _. specialize (Hlt (Hne eq_refl)).
  rewrite safe_bind. eapply safe_mono; [apply Hpl; [done|lia]|]. intros c s3 (Hc & Hi3 & Hl3).
  rewrite safe_bind. apply safe_peek; [done|]. intros [] s4 Hi4 Hl4 _ _; [|done]. cbn [negb].
  rewrite safe_bind. apply safe_gettoken; [done|]. intros t5 w5 s5 Hi5 Hl5 _ _ _.
  rewrite safe_bind. eapply safe_mono; [by apply safe_parseredirs|]. intros rs s6 (Hr & Hi6 & Hl6).
  split_and!; [by apply goodc_redirs|done|lia].
Qed.
Lemma safe_parseexec s : inv s -> (length s <= n)%nat -> safe (parseexec pl) (parses s) s.
Proof.
  intros Hs Hn. unfold parseexec. rewrite safe_bind. apply safe_peek; [done|]. intros [] s1 Hi1 Hl1 _ _.
  { eapply safe_mono; [apply safe_parseblock; [done|lia]|]. intros c s' (H1 & H2 & H3). split_and!; [done|done|lia]. }
  rewrite safe_bind. eapply safe_mono; [by apply safe_parseredirs|]. intros rs s2 (Hr & Hi2 & Hl2).
  rewrite safe_bind. cbn [safe get]. rewrite safe_bind. eapply safe_mono; [by apply safe_exec_loop|].
  intros [argv rs'] s3 (Ha & Hr' & Hi3 & Hl3). split_and!; [by apply goodc_redirs|done|lia].
Qed.
Lemma safe_parsepipe f s : inv s -> (length s <= n)%nat -> (length s < f)%nat -> safe (parsepipe pl f) (parses s) s.
Proof.
  revert s. induction f as [|f IH]; intros s Hs Hn Hf; [lia|]. cbn [parsepipe]. rewrite safe_bind.
  eapply safe_mono; [by apply safe_parseexec|]. intros c s1 (Hc & Hi1 & Hl1). rewrite safe_bind. apply safe_peek; [done|].
  intros [] s2 Hi2 Hl2 Hne _; [|split_and!; [done|done|lia]]. rewrite safe_bind. apply safe_gettoken; [done|].
  intros t w s3 Hi3 _ _ Hlt _. specialize (Hlt (Hne eq_refl)). rewrite safe_bind.
  eapply safe_mono; [apply IH; [done|lia|lia]|]. intros r s4 (Hr & Hi4 & Hl4). split_and!; [by apply Forall_app|done|lia].
Qed.
End Inner.

Lemma safe_back c s : inv s -> goodc c -> safe (loop (length s + 1) back_step c) (parses s) s.
Proof.
  intros Hs Hc. apply (safe_loop (parses s) (fun _ s' => length s')); [|by split_and!|lia].
  intros c1 s1 (H1 & H2 & H3). unfold back_step. rewrite safe_bind. apply safe_peek; [done|].
  intros [] s2 Hi2 Hl2 Hne _; [|split_and!; [done|done|lia]]. rewrite safe_bind. apply safe_gettoken; [done|].
  intros t w s3 Hi3 _ _ Hlt _. specialize (Hlt (Hne eq_refl)). split; [split_and!; [done|done|lia]|lia].
Qed.
Lemma safe_parseline f s : inv s -> (length s < f)%nat -> safe (parseline f) (parses s) s.
Proof.
  revert s. induction f as [|f IH]; intros s Hs Hf; [lia|]. cbn [parseline]. rewrite safe_bind. cbn [safe get]. rewrite safe_bind.
  eapply safe_mono; [apply (safe_parsepipe (parseline f) f); [done|done|lia|lia]|]. intros c s1 (Hc & Hi1 & Hl1).
  rewrite safe_bind. cbn [safe get]. rewrite safe_bind. eapply safe_mono; [by apply safe_back|]. intros c2 s2 (Hc2 & Hi2 & Hl2).
  rewrite safe_bind. apply safe_peek; [done|]. intros [] s3 Hi3 Hl3 Hne _; [|split_and!; [done|done|lia]].
  rewrite safe_bind. apply safe_gettoken; [done|]. intros t w s4 Hi4 _ _ Hlt _. specialize (Hlt (Hne eq_refl)).
  rewrite safe_bind. eapply safe_mono; [apply IH; [done|lia]|]. intros r s5 (Hr & Hi5 & Hl5).
  split_and!; [by apply Forall_app|done|lia].
Qed.
End Safe.

(** ** Terminating the words *)

(** The C string at a pointer into the line, in the buffer [buf]. *)
Fixpoint cstring (l : list Z) : list Z :=
  match l with [] => [] | c :: l' => if c =? 0 then [] else c :: cstring l' end.
Definition string_at (buf : list Z) (p : ptr) : list Z := cstring (drop (length buf - 1 - length p) buf).
Definition text (w : word) : list Z := take (length (fst w) - length (snd w)) (fst w).

Lemma ends_words c : ends c = map snd (cmd_words c).
Proof.
  induction c as [argv|c IH f m d|l IHl r IHr|l IHl r IHr|c IH]; cbn; [done| | | |done].
  all: rewrite map_app; by rewrite ?IH, ?IHl, ?IHr.
Qed.

Lemma length_store0 buf ps : length (foldl store0 buf ps) = length buf.
Proof. revert buf. induction ps as [|p ps IH]; intros buf; cbn; [done|]. rewrite IH. apply length_insert. Qed.
Lemma lookup_store0 n buf ps i :
  length buf = n -> (i < n)%nat ->
  foldl store0 buf ps !! i = if decide (Exists (fun p => i = n - 1 - length p)%nat ps) then Some 0 else buf !! i.
Proof.
  revert buf. induction ps as [|p ps IH]; intros buf Hn Hi; cbn.
  { destruct (decide _) as [H|]; [by apply Exists_nil in H|done]. }
  rewrite IH by (unfold store0; rewrite ?length_insert; done). unfold store0. rewrite Hn.
  case_decide as H; case_decide as H'; try done.
  - exfalso. apply H'. apply Exists_cons. by right.
  - apply Exists_cons in H' as [-> |H']; [|done]. apply list_lookup_insert_eq. lia.
  - apply list_lookup_insert_ne. intros <-. apply H'. apply Exists_cons. by left.
Qed.

(** No zero is written inside a word. *)
Lemma word_untouched line w w' i :
  wordok line w -> wordok line w' ->
  (length line - length (fst w) <= i < length line - length (snd w))%nat -> i <> (length line - length (snd w'))%nat.
Proof.
  intros (pre & t & E1 & E2 & _ & Ht & _) (pre' & t' & E1' & E2' & _ & _ & Hs') Hi ->.
  rewrite E2 in E1. rewrite E2', app_assoc in E1'. destruct w as [q e], w' as [q' e']. cbn [fst snd] in *.
  assert (length line = length pre + length t + length e)%nat as El by (rewrite E1, !length_app; lia).
  assert (length line = length (pre' ++ t') + length e')%nat as El' by (rewrite E1', length_app; done).
  assert (length q = length t + length e)%nat as Eq by (rewrite E2; apply length_app).
  destruct e' as [|c e']; [cbn in *; lia|]. cbn in Hs'.
  assert (line !! length (pre' ++ t') = Some c) as H1 by (rewrite E1'; apply list_lookup_middle; done).
  rewrite E1 in H1. cbn [length] in *. rewrite lookup_app_r in H1 by lia. rewrite lookup_app_l in H1 by lia.
  apply (Forall_lookup_1 _ _ _ _ Ht) in H1. congruence.
Qed.

Lemma cstring_app t rest : Forall (fun c => c <> 0) t -> cstring (t ++ 0 :: rest) = t.
Proof. induction t as [|c t IH]; [done|]. intros [Hc Ht]%Forall_cons. cbn. destruct (Z.eqb_spec c 0); [done|]. by rewrite IH. Qed.

Lemma text_word line w : wordok line w -> exists pre t, line = pre ++ t ++ snd w /\ fst w = t ++ snd w /\ text w = t.
Proof.
  intros (pre & t & E1 & E2 & _). exists pre, t. split_and!; [congruence|done|]. unfold text. rewrite E2, length_app.
  replace (length t + length (snd w) - length (snd w))%nat with (length t) by lia. apply take_app_length.
Qed.

Lemma nulterminate_word line c w :
  Forall (fun x => x <> 0) line -> goodc line c -> w ∈ cmd_words c ->
  string_at (nulterminate c (line ++ [0])) (fst w) = text w.
Proof.
  intros Hz Hc Hw. unfold goodc in Hc. rewrite Forall_forall in Hc. pose proof (Hc w Hw) as Hok.
  destruct (text_word line w Hok) as (pre & t & E1 & E2 & ->). unfold nulterminate. set (buf := line ++ [0]).
  assert (length buf = length line + 1)%nat as Hlb by (unfold buf; rewrite length_app; done).
  assert (length line = length pre + length t + length (snd w))%nat as El by (rewrite E1, !length_app; lia).
  set (out := foldl store0 buf (ends c)). assert (length out = length buf) as Hlo by apply length_store0.
  assert (forall i, (i < length buf)%nat -> out !! i = if decide (Exists (fun p => i = length buf - 1 - length p)%nat (ends c)) then Some 0 else buf !! i) as Hout
    by (intros i Hi; by apply lookup_store0).
  assert (drop (length pre) out = t ++ 0 :: drop (length pre + length t + 1) out) as Ed.
  { apply list_eq. intros i. rewrite lookup_drop. destruct (decide (i < length t)%nat) as [Hi|Hi].
    - rewrite lookup_app_l, Hout by lia. destruct (decide _) as [He|_].
      + exfalso. rewrite ends_words in He. apply Exists_exists in He as (p & (w' & -> & Hw')%list_elem_of_fmap & Hp).
        assert (length (fst w) = length t + length (snd w))%nat by (rewrite E2; apply length_app).
        eapply (word_untouched line w w' (length pre + i)); [done|by apply Hc|lia|]. lia.
      + unfold buf. rewrite lookup_app_l by lia. rewrite E1. rewrite lookup_app_r by lia.
        rewrite lookup_app_l by lia. f_equal. lia.
    - rewrite lookup_app_r by lia. destruct (decide (i = length t)) as [-> | Hne].
      + rewrite Nat.sub_diag. cbn. rewrite Hout by lia. destruct (decide _) as [_|He]; [done|]. exfalso. apply He.
        rewrite ends_words. apply Exists_exists. exists (snd w). split; [by apply list_elem_of_fmap_2|lia].
      + destruct (i - length t)%nat as [|j] eqn:Ej; [lia|].
        transitivity (drop (length pre + length t + 1) out !! j); [rewrite lookup_drop; f_equal; lia|done]. }
  unfold string_at. rewrite Hlo. replace (length buf - 1 - length (fst w))%nat with (length pre)
    by (rewrite E2, length_app; lia).
  rewrite Ed. apply cstring_app. rewrite E1 in Hz. rewrite !Forall_app in Hz. naive_solver.
Qed.

(** C32.  The parser ends on every line: it returns a command or stops with a
    message, within the fuel of one level per character.  The words of the
    command it returns are non-empty runs of word characters of the line, and
    after [nulterminate] each pointer to a word is a C string that is exactly
    that word. *)
Theorem parsecmd_words line :
  Forall (fun c => c <> 0) line ->
  match parsecmd line [] with
  | Ok (c, buf) _ => length buf = (length line + 1)%nat /\
      forall w, w ∈ cmd_words c -> wordok line w /\ string_at buf (fst w) = text w
  | Panic _ => True
  | _ => False
  end.
Proof.
  intros Hz.
  assert (safe (parsecmd line) (fun '(c, buf) _ => goodc line c /\ buf = nulterminate c (line ++ [0])) []) as H.
  { unfold parsecmd. rewrite safe_bind. cbn [safe modify]. rewrite safe_bind.
    eapply safe_mono; [apply (safe_parseline line); [done|unfold parse_fuel; lia]|]. intros c s' (Hc & Hi & _).
    rewrite safe_bind. apply (safe_peek line); [done|]. intros b s2 _ _ _ _. rewrite safe_bind. cbn [safe get].
    case_decide; [|done]. change (goodc line c /\ nulterminate c (line ++ [0]) = nulterminate c (line ++ [0])). by split. }
  unfold safe in H. destruct (parsecmd line []) as [[c buf] s'| | | |]; try done. destruct H as [Hc ->].
  split; [unfold nulterminate; rewrite length_store0, length_app; done|].
  intros w Hw. split; [unfold goodc in Hc; rewrite Forall_forall in Hc; by apply Hc|by apply (nulterminate_word line)].
Qed.
Lemma parsecmd_words_witness :
  match parsecmd (str "cat<a|wc") [] with
  | Ok (c, buf) _ => length buf = 9%nat /\
      forall w, w ∈ cmd_words c -> wordok (str "cat<a|wc") w /\ string_at buf (fst w) = text w
  | Panic _ => True
  | _ => False
  end.
Proof. apply (parsecmd_words (str "cat<a|wc")). repeat constructor; vm_compute; discriminate. Defined.
