(* ===== verification/ShPrint.v ===== *)
(** * Parsing what is printed

    A printer for the commands of [Sh] and the proof that the shell's parser
    reads back what it prints. *)

From S2P Require Import Prelude Bytes Sh.

(** Commands with their words as text. *)
Abbreviation tree := (cmd_ (list Z)).
Abbreviation tredir := (redir_ (list Z)).
Fixpoint texts (c : cmd) : tree :=
  match c with
  | EXEC argv => EXEC (map text argv)
  | REDIR c file mode fd => REDIR (texts c) (text file) mode fd
  | PIPE l r => PIPE (texts l) (texts r)
  | LIST l r => LIST (texts l) (texts r)
  | BACK c => BACK (texts c)
  end.
Definition rtext (r : redir) : tredir := let '(f, m, d) := r in (text f, m, d).

Definition level {W} (c : cmd_ W) : nat :=
  match c with EXEC _ | REDIR _ _ _ _ => 0 | PIPE _ _ => 1 | BACK _ => 2 | LIST _ _ => 3 end.
Definition paren (b : bool) (l : list Z) : list Z := if b then l else 40 :: l ++ [41].
Definition show_redir (r : tredir) : list Z :=
  let '(f, m, d) := r in 32 :: (if m =? 0 then 60 else 62) :: 32 :: f.
Definition show_args (argv : list (list Z)) : list Z := concat (map (cons 32) argv).
Fixpoint show (c : tree) : list Z :=
  match c with
  | EXEC argv => show_args argv
  | REDIR c f m d => paren (level c <=? 0)%nat (show c) ++ show_redir (f, m, d)
  | PIPE l r => paren (level l <=? 0)%nat (show l) ++ 124 :: paren (level r <=? 1)%nat (show r)
  | BACK c => paren (level c <=? 2)%nat (show c) ++ [38]
  | LIST l r => paren (level l <=? 2)%nat (show l) ++ 59 :: show r
  end.
Definition at_level (lv : nat) (c : tree) : list Z := paren (level c <=? lv)%nat (show c).

(** What can be written: words of word characters, fewer than [MAXARGS]
    arguments, and the redirections the syntax has. *)
Definition wf_word (w : list Z) : bool := negb (length w =? 0)%nat && forallb wordchar w.
Definition wf_redir (r : tredir) : bool :=
  let '(f, m, d) := r in wf_word f && (((m =? 0) && (d =? 0)) || ((m =? 513) && (d =? 1))).
Fixpoint wf (c : tree) : bool :=
  match c with
  | EXEC argv => forallb wf_word argv && (length argv <? MAXARGS)%nat
  | REDIR c f m d => wf c && wf_redir (f, m, d)
  | PIPE l r | LIST l r => wf l && wf r
  | BACK c => wf c
  end.

(** ** Tokens *)

(** Two cursors that differ in blanks only. *)
Definition same (s t : ptr) : Prop := skip_ws s = skip_ws t.

Lemma wp_peek toks (Q : bool -> ptr -> Prop) s :
  wp (peek toks) Q s = Q (match skip_ws s with [] => false | c :: _ => strchr toks c end) (skip_ws s).
Proof. done. Qed.
Lemma wp_gettoken (Q : Z * word -> ptr -> Prop) s :
  wp gettoken Q s = let '(t, e) := token (skip_ws s) in Q (t, (skip_ws s, e)) (skip_ws e).
Proof. unfold wp, gettoken, mbind, M_bind, get. cbn -[token skip_ws]. by destruct (token (skip_ws s)). Qed.

Lemma skip_ws_blank l : skip_ws (32 :: l) = skip_ws l.
Proof. done. Qed.
Lemma skip_ws_char c l : strchr whitespace c = false -> skip_ws (c :: l) = c :: l.
Proof. intros E. cbn [skip_ws]. by rewrite E. Qed.
Lemma wf_word_cons w : wf_word w = true -> exists c w', w = c :: w' /\ wordchar c = true /\ Forall (fun c => wordchar c = true) w.
Proof.
  unfold wf_word. destruct w as [|c w]; [done|]. rewrite andb_true_iff. intros [_ H]. exists c, w.
  rewrite forallb_forall in H. split_and!; [done|apply H; by left|by apply List.Forall_forall].
Qed.
Lemma wordchar_not c : wordchar c = true -> strchr whitespace c = false /\ strchr symbols c = false.
Proof. unfold wordchar. rewrite andb_true_iff, !negb_true_iff. done. Qed.
Lemma skip_word_app w r : Forall (fun c => wordchar c = true) w -> stops r -> skip_word (w ++ r) = r.
Proof.
  intros Hw Hr. induction Hw as [|c w Hc Hw IH]; cbn [app].
  - destruct r as [|c r]; [done|]. cbn [skip_word]. fold (wordchar c). cbn in Hr. by rewrite Hr.
  - cbn [skip_word]. fold (wordchar c). by rewrite Hc.
Qed.
(** Subsets of the symbols. *)
Lemma not_symbol toks c :
  strchr symbols c = false -> forallb (strchr symbols) toks = true -> strchr toks c = false.
Proof.
  intros Hc Ht. apply not_true_iff_false. unfold strchr at 1. rewrite existsb_exists. intros (x & Hin & ->%Z.eqb_eq).
  rewrite forallb_forall in Ht. rewrite (Ht _ Hin) in Hc. done.
Qed.
Lemma token_word w r : wf_word w = true -> stops r -> skip_ws (w ++ r) = w ++ r /\ token (w ++ r) = (97, r).
Proof.
  intros Hw Hr. destruct (wf_word_cons w Hw) as (c & w' & -> & Hc & Hall). destruct (wordchar_not c Hc) as [H1 H2].
  split; [by apply skip_ws_char|]. cbn [app token]. rewrite (not_symbol (str "|();&<")) by done.
  assert (c =? 62 = false) as ->.
  { pose proof (not_symbol [62] c H2 eq_refl) as H3. unfold strchr in H3. cbn in H3. by rewrite orb_false_r in H3. }
  f_equal. by apply (skip_word_app (c :: w')).
Qed.
Lemma text_app w r : text (w ++ r, r) = w.
Proof.
  unfold text. cbn [fst snd]. rewrite length_app. replace (length w + length r - length r)%nat with (length w) by lia.
  apply take_app_length.
Qed.

(** The next token is a word. *)
Lemma wp_gettoken_word s w r (Q : Z * word -> ptr -> Prop) :
  same s (w ++ r) -> wf_word w = true -> stops r ->
  (forall p, text p = w -> Q (97, p) (skip_ws r)) -> wp gettoken Q s.
Proof.
  intros Hs Hw Hr HQ. destruct (token_word w r Hw Hr) as [E1 E2]. rewrite wp_gettoken, Hs, E1, E2. apply HQ, text_app.
Qed.
(** The next token is a one-character symbol. *)
Lemma wp_gettoken_sym s c r (Q : Z * word -> ptr -> Prop) :
  same s (c :: r) -> strchr (str "|();&<") c = true \/ (c = 62 /\ stops r /\ r <> [] /\ head r = Some 32) ->
  (forall p, Q (c, p) (skip_ws r)) -> wp gettoken Q s.
Proof.
  intros Hs Hc HQ. rewrite wp_gettoken, Hs.
  assert (strchr whitespace c = false) as Hw.
  { destruct Hc as [Hc|[-> _]]; [|done]. unfold strchr in Hc. apply existsb_exists in Hc as (x & Hin & ->%Z.eqb_eq).
    cbn in Hin. by destruct_or! Hin; subst x. }
  rewrite skip_ws_char by done. cbn [token]. destruct Hc as [-> |(-> & _ & Hne & Hh)]; [apply HQ|].
  destruct r as [|d r]; [done|]. injection Hh as ->. apply HQ.
Qed.

(** ** Redirections and arguments *)

Definition showr (rs : list tredir) : list Z := concat (map show_redir rs).
(** The next character is not one of [toks]. *)
Definition not_next (toks : list Z) (s : ptr) : Prop :=
  match skip_ws s with [] => True | c :: _ => strchr toks c = false end.

Lemma same_refl s : same s s.
Proof. done. Qed.
Lemma same_skip s : same (skip_ws s) s.
Proof. apply skip_ws_idem. Qed.
Lemma wp_peek_no toks s t (Q : bool -> ptr -> Prop) :
  same s t -> not_next toks t -> Q false (skip_ws t) -> wp (peek toks) Q s.
Proof. intros Hs Hn HQ. rewrite wp_peek, Hs. unfold not_next in Hn. destruct (skip_ws t); [done|]. by rewrite Hn. Qed.
Lemma wp_peek_yes toks s c r (Q : bool -> ptr -> Prop) :
  same s (c :: r) -> strchr whitespace c = false -> strchr toks c = true -> Q true (c :: r) -> wp (peek toks) Q s.
Proof. intros Hs Hw Ht HQ. by rewrite wp_peek, Hs, skip_ws_char, Ht by done. Qed.
Lemma not_next_word toks w r : wf_word w = true -> forallb (strchr symbols) toks = true -> not_next toks (32 :: w ++ r).
Proof.
  intros Hw Ht. destruct (wf_word_cons w Hw) as (c & w' & -> & Hc & _). destruct (wordchar_not c Hc) as [H1 H2].
  unfold not_next. cbn [app]. rewrite skip_ws_blank, skip_ws_char by done. by apply not_symbol.
Qed.
Lemma stops_showr rs rest : stops rest -> stops (showr rs ++ rest).
Proof. destruct rs as [|[[f m] d] rs]; done. Qed.

Lemma wp_redirs_loop rs rest s acc fuel (Q : list redir -> ptr -> Prop) :
  forallb wf_redir rs = true -> stops rest -> not_next (str "<>") rest ->
  same s (showr rs ++ rest) -> (length rs < fuel)%nat ->
  (forall out, map rtext out = map rtext acc ++ rs -> Q out (skip_ws rest)) ->
  wp (loop fuel parseredirs_step acc) Q s.
Proof.
  revert s acc fuel. induction rs as [|[[f m] d] rs IH]; intros s acc [|fuel] Hw Hst Hn Hs Hf HQ; try (cbn in Hf; lia);
    cbn [loop]; rewrite wp_bind; unfold parseredirs_step; rewrite wp_bind.
  - eapply wp_peek_no; [done|done|]. cbv iota. apply HQ. by rewrite app_nil_r.
  - cbn [forallb wf_redir] in Hw. rewrite !andb_true_iff in Hw. destruct Hw as [[Hwf Hmd] Hw].
    cbn [showr map concat show_redir app] in Hs. rewrite <- app_assoc in Hs. fold (showr rs) in Hs.
    set (c := if m =? 0 then 60 else 62) in *. unfold same in Hs. rewrite skip_ws_blank in Hs.
    assert (c = 60 \/ c = 62) as Hc by (unfold c; destruct (m =? 0); auto).
    eapply (wp_peek_yes _ s c); [exact Hs|by destruct Hc as [-> | ->]|by destruct Hc as [-> | ->]|]. cbv iota.
    rewrite wp_bind. eapply wp_gettoken_sym; [apply same_refl| |intros p1].
    { destruct Hc as [-> | ->]; [by left|right; by split_and!]. }
    rewrite wp_bind. eapply (wp_gettoken_word _ f (showr rs ++ rest)); [by unfold same; rewrite skip_ws_blank, skip_ws_idem|done|by apply stops_showr|].
    intros p2 Hp2. cbn [fst snd]. cbn [Z.eqb Pos.eqb negb].
    assert ((m = 0 /\ d = 0 /\ c = 60) \/ (m = 513 /\ d = 1 /\ c = 62)) as Hcase.
    { rewrite orb_true_iff, !andb_true_iff, !Z.eqb_eq in Hmd. destruct Hmd as [[-> ->]|[-> ->]]; [by left|by right]. }
    destruct Hcase as [(-> & -> & ->)|(-> & -> & ->)]; cbn [Z.eqb Pos.eqb orb]; rewrite wp_ret; cbv iota;
      (apply IH; [done|done|done|apply same_skip|cbn in Hf; lia|]);
      intros out Ho; apply HQ; rewrite Ho, map_app, <- app_assoc; cbn; by rewrite Hp2.
Qed.

Lemma showr_length rs rest : (length rs <= length (skip_ws (showr rs ++ rest)))%nat.
Proof.
  destruct rs as [|[[f m] d] rs]; [cbn; lia|]. cbn [showr map concat show_redir app]. rewrite skip_ws_blank, <- app_assoc.
  rewrite skip_ws_char by (by destruct (m =? 0)). fold (showr rs). cbn [length]. rewrite !length_app.
  enough (length rs <= length (showr rs))%nat by lia. clear. induction rs as [|[[f m] d] rs IH]; [done|].
  cbn [showr map concat]. rewrite length_app. fold (showr rs). cbn. lia.
Qed.
Lemma wp_parseredirs rs rest s (Q : list redir -> ptr -> Prop) :
  forallb wf_redir rs = true -> stops rest -> not_next (str "<>") rest -> same s (showr rs ++ rest) ->
  (forall out, map rtext out = rs -> Q out (skip_ws rest)) -> wp parseredirs Q s.
Proof.
  intros Hw Hst Hn Hs HQ. unfold parseredirs. rewrite wp_bind, wp_get.
  eapply wp_redirs_loop; try done. pose proof (showr_length rs rest). rewrite <- Hs in *. pose proof (skip_ws_length s). lia.
Qed.

(** What may follow a command of each level. *)
Definition delims (lv : nat) : list Z :=
  match lv with O => str "|)&;" | 1%nat => str ")&;" | 2%nat => str ");" | _ => str ")" end.
Definition ends_at (lv : nat) (rest : ptr) : Prop :=
  match rest with [] => True | c :: _ => strchr (delims lv) c = true end.
Lemma ends_in lv c : strchr (delims lv) c = true -> c ∈ str "|)&;".
Proof.
  unfold strchr. rewrite existsb_exists. intros (x & Hin & ->%Z.eqb_eq). rewrite list_elem_of_In.
  destruct lv as [|[|[|lv]]]; cbn in *; tauto.
Qed.
Lemma ends_skip lv rest : ends_at lv rest -> skip_ws rest = rest /\ stops rest /\ not_next (str "<>") rest /\ not_next (str "(") rest.
Proof.
  destruct rest as [|c rest]; [done|]. intros Hc%ends_in. unfold not_next. cbn in Hc.
  rewrite list_elem_of_In in Hc. cbn in Hc. by destruct_or! Hc; subst c.
Qed.

(** The loop of [parseexec] at the end of the arguments. *)
Lemma wp_exec_end rest argv rs fuel (Q : list word * list redir -> ptr -> Prop) :
  ends_at 0 rest -> (0 < fuel)%nat -> Q (argv, rs) rest -> wp (loop fuel parseexec_step (argv, rs)) Q rest.
Proof.
  intros He Hf HQ. destruct fuel as [|fuel]; [lia|]. destruct (ends_skip 0 rest He) as (Es & _).
  cbn [loop]. rewrite wp_bind. unfold parseexec_step. rewrite wp_bind, wp_peek, Es. destruct rest as [|c rest].
  - rewrite wp_bind. done.
  - cbn in He |- *. by rewrite He.
Qed.
Lemma wp_exec_args argv a argv0 rs0 rs rest s fuel (Q : list word * list redir -> ptr -> Prop) :
  wf_word a = true -> forallb wf_word argv = true -> (length argv0 + S (length argv) < MAXARGS)%nat ->
  forallb wf_redir rs = true -> ends_at 0 rest -> same s (show_args (a :: argv) ++ showr rs ++ rest) ->
  (S (length argv) < fuel)%nat ->
  (forall argv' rs', map text argv' = map text argv0 ++ a :: argv -> map rtext rs' = map rtext rs0 ++ rs -> Q (argv', rs') rest) ->
  wp (loop fuel parseexec_step (argv0, rs0)) Q s.
Proof.
  revert a argv0 rs0 s fuel. induction argv as [|b argv IH]; intros a argv0 rs0 s [|fuel] Ha Hargv Hmax Hrs He Hs Hf HQ;
    try (cbn in Hf; lia); destruct (ends_skip 0 rest He) as (Es & Est & En & _); cbn [loop]; rewrite wp_bind; unfold parseexec_step.
  all: cbn [show_args map concat app] in Hs; rewrite <- ?app_assoc in Hs; cbn [app] in Hs.
  all: rewrite wp_bind; eapply wp_peek_no; [exact Hs|by apply not_next_word|]; cbv iota.
  all: rewrite skip_ws_blank, wp_bind.
  - eapply (wp_gettoken_word _ a (showr rs ++ rest)); [apply same_skip|done|by apply stops_showr|]. intros p Hp.
    cbn [fst snd Z.eqb Pos.eqb negb]. rewrite length_app. cbn [length].
    destruct (Nat.leb_spec MAXARGS (length argv0 + 1)); [cbn in Hmax; lia|]. rewrite wp_bind.
    eapply (wp_parseredirs rs rest); [done|done|done|apply same_skip|]. intros out Ho. rewrite Es. cbv iota.
    apply wp_exec_end; [done|cbn in Hf; lia|]. apply HQ; rewrite map_app; [cbn; by rewrite Hp|by rewrite Ho].
  - cbn [forallb] in Hargv. apply andb_true_iff in Hargv as [Hb Hargv].
    set (r := 32 :: (b ++ concat (map (cons 32) argv)) ++ showr rs ++ rest) in *.
    assert (r = 32 :: b ++ concat (map (cons 32) argv) ++ showr rs ++ rest) as Er by (unfold r; by rewrite <- app_assoc).
    eapply (wp_gettoken_word _ a r); [apply same_skip|done|done|]. intros p Hp.
    cbn [fst snd Z.eqb Pos.eqb negb]. rewrite length_app. cbn [length] in Hmax |- *.
    destruct (Nat.leb_spec MAXARGS (length argv0 + 1)); [lia|]. rewrite wp_bind.
    eapply (wp_parseredirs [] r); [done|done|rewrite Er; by apply not_next_word|apply same_skip|]. intros out Ho. cbv iota.
    destruct out; [|done]. rewrite app_nil_r.
    apply (IH b); [done|done|rewrite length_app; cbn; lia|done|done| |cbn in Hf; lia|].
    + apply same_skip.
    + intros argv' rs' H1 H2. apply HQ; [|done]. rewrite H1, map_app, <- app_assoc. cbn. by rewrite Hp.
Qed.

(** ** The levels of the grammar *)

Definition P0 (t : tree) : Prop := forall f rs rest s,
  forallb wf_redir rs = true -> ends_at 0 rest -> same s (at_level 0 t ++ showr rs ++ rest) -> (length s <= f)%nat ->
  wp (parseexec (parseline f)) (fun c s' => texts c = foldl redircmd t rs /\ s' = rest) s.
Definition P1 (t : tree) : Prop := forall f g rest s,
  ends_at 1 rest -> same s (at_level 1 t ++ rest) -> (length s <= f)%nat -> (length s < g)%nat ->
  wp (parsepipe (parseline f) g) (fun c s' => texts c = t /\ s' = rest) s.
Definition P2 (t : tree) : Prop := forall f k rest s,
  ends_at 2 rest -> same s (at_level 2 t ++ replicate k 38 ++ rest) -> (length s <= f)%nat ->
  wp (s ← get; c ← parsepipe (parseline f) (length s + 1); s ← get; loop (length s + 1) back_step c)
    (fun c s' => texts c = Nat.iter k BACK t /\ s' = rest) s.
Definition P3 (t : tree) : Prop := forall f rest s,
  ends_at 3 rest -> same s (show t ++ rest) -> (length s < f)%nat ->
  wp (parseline f) (fun c s' => texts c = t /\ s' = rest) s.

Lemma texts_redirs c rs : texts (foldl redircmd c rs) = foldl redircmd (texts c) (map rtext rs).
Proof. revert c. induction rs as [|[[f m] d] rs IH]; intros c; cbn; [done|]. apply IH. Qed.
Lemma at_level_ge lv lv' t : level t <> lv' -> lv' = S lv -> at_level lv' t = at_level lv t.
Proof. intros H ->. unfold at_level. f_equal. destruct (Nat.leb_spec (level t) (S lv)), (Nat.leb_spec (level t) lv); try done; lia. Qed.
Lemma ends_mono lv lv' rest : (lv <= lv')%nat -> ends_at lv' rest -> ends_at lv rest.
Proof.
  intros Hl. unfold ends_at. destruct rest as [|c rest]; [done|]. unfold strchr. rewrite !existsb_exists.
  intros (x & Hin & Hx). exists x. split; [|done]. clear Hx.
  destruct lv as [|[|[|lv]]], lv' as [|[|[|lv']]]; cbn in *; try lia; tauto.
Qed.

Lemma exec_P0 argv : wf (EXEC argv) = true -> P0 (EXEC argv).
Proof.
  cbn [wf]. rewrite andb_true_iff, Nat.ltb_lt. intros [Hw Hm] f rs rest s Hrs He Hs Hf.
  destruct (ends_skip 0 rest He) as (Es & Est & En & Ep). change (at_level 0 (EXEC argv)) with (show_args argv) in Hs.
  unfold parseexec. rewrite wp_bind. destruct argv as [|a argv].
  - cbn [show_args map concat app] in Hs. eapply wp_peek_no; [exact Hs| |].
    { destruct rs as [|[[g m] d] rs]; [done|]. unfold not_next. cbn [showr map concat show_redir app].
      rewrite skip_ws_blank. rewrite skip_ws_char; by destruct (m =? 0). }
    cbv iota. rewrite wp_bind. eapply (wp_parseredirs rs rest); [done|done|done|apply same_skip|]. intros out Ho. rewrite Es.
    rewrite wp_bind, wp_get, wp_bind. apply wp_exec_end; [done|lia|]. cbv iota beta. rewrite wp_ret. rewrite texts_redirs, Ho. done.
  - cbn [forallb] in Hw. apply andb_true_iff in Hw as [Ha Hw].
    assert (show_args (a :: argv) ++ showr rs ++ rest = 32 :: a ++ show_args argv ++ showr rs ++ rest) as E
      by (cbn; by rewrite <- app_assoc).
    eapply wp_peek_no; [exact Hs|rewrite E; by apply not_next_word|]. cbv iota. rewrite wp_bind.
    eapply (wp_parseredirs [] (show_args (a :: argv) ++ showr rs ++ rest)); [done|done|rewrite E; by apply not_next_word|apply same_skip|].
    intros out Ho. destruct out; [|done]. rewrite wp_bind, wp_get, wp_bind.
    eapply (wp_exec_args argv a [] [] rs rest); [done|done|done|done|done|apply same_skip| |].
    + rewrite E, skip_ws_blank. destruct (wf_word_cons a Ha) as (c & w' & -> & Hc & _). destruct (wordchar_not c Hc) as [Hc1 _].
      cbn [app]. rewrite skip_ws_char by done. cbn [length]. rewrite !length_app.
      enough (length argv <= length (show_args argv))%nat by (unfold show_args in *; lia).
      clear. induction argv as [|x l IH]; [done|]. cbn [show_args map concat length]. rewrite length_app. cbn [length].
      fold (show_args l). lia.
    + intros argv' rs' H1 H2. cbv iota beta. rewrite wp_ret, texts_redirs. cbn [texts]. rewrite H1. cbn in H2. rewrite H2. done.
Qed.

Lemma redir_P0 t f m d : wf_redir (f, m, d) = true -> P0 t -> P0 (REDIR t f m d).
Proof.
  intros Hw IH f' rs rest s Hrs He Hs Hf. apply (IH f' ((f, m, d) :: rs)); [|done| |done].
  - cbn [forallb]. by rewrite Hw.
  - unfold same. rewrite Hs. f_equal. change (at_level 0 (REDIR t f m d)) with (at_level 0 t ++ show_redir (f, m, d)).
    cbn [showr map concat]. by rewrite <- !app_assoc.
Qed.

Lemma lift_01 t : level t <> 1%nat -> P0 t -> P1 t.
Proof.
  intros Hl IH f [|g] rest s He Hs Hf Hg; [lia|]. cbn [parsepipe]. rewrite wp_bind. rewrite (at_level_ge 0 1) in Hs by done.
  eapply wp_mono; [apply (IH f [] rest s); [done|by eapply ends_mono; [|exact He]; lia|done|done]|].
  intros c s' [Hc ->]. rewrite wp_bind. eapply wp_peek_no; [apply same_refl| |].
  - unfold not_next. destruct (ends_skip 1 rest He) as (-> & _). destruct rest as [|x rest]; [done|].
    apply existsb_exists in He as (y & Hin & ->%Z.eqb_eq). cbn in Hin. by destruct_or! Hin; subst y.
  - destruct (ends_skip 1 rest He) as (-> & _). by rewrite wp_ret.
Qed.

(** A cursor before a symbol is longer than what follows the symbol. *)
Lemma skip_ws_keeps A c X : strchr whitespace c = false -> (length X < length (skip_ws (A ++ c :: X)))%nat.
Proof.
  intros Hc. induction A as [|a A IH]; cbn [app].
  - rewrite skip_ws_char by done. cbn. lia.
  - cbn [skip_ws]. destruct (strchr whitespace a); [done|]. cbn. rewrite length_app. cbn. lia.
Qed.
Lemma same_longer s A c X : same s (A ++ c :: X) -> strchr whitespace c = false -> (length (skip_ws X) < length s)%nat.
Proof.
  intros Hs Hc. pose proof (skip_ws_keeps A c X Hc) as H. rewrite <- Hs in H. pose proof (skip_ws_length s). pose proof (skip_ws_length X). lia.
Qed.

Lemma pipe_P1 l r : P0 l -> P1 r -> P1 (PIPE l r).
Proof.
  intros IHl IHr f [|g] rest s He Hs Hf Hg; [lia|]. cbn [parsepipe]. rewrite wp_bind.
  change (at_level 1 (PIPE l r)) with (at_level 0 l ++ 124 :: at_level 1 r) in Hs. rewrite <- app_assoc in Hs. cbn [app] in Hs.
  pose proof (same_longer _ _ _ _ Hs eq_refl).
  eapply wp_mono; [apply (IHl f [] (124 :: at_level 1 r ++ rest) s); [done|done|exact Hs|done]|].
  intros c s' [Hc ->]. rewrite wp_bind. eapply wp_peek_yes; [apply same_refl|done|done|]. cbv iota. rewrite wp_bind.
  eapply wp_gettoken_sym; [apply same_refl|by left|]. intros _. rewrite wp_bind.
  eapply wp_mono; [apply (IHr f g rest); [done|apply same_skip|lia|lia]|]. intros c' s' [Hc' ->]. rewrite wp_ret. cbn [texts]. by rewrite Hc, Hc'.
Qed.

Lemma iter_back k t : Nat.iter k BACK (BACK t) = Nat.iter (S k) (@BACK (list Z)) t.
Proof. apply Nat.iter_swap. Qed.
Lemma wp_back_loop k rest c fuel (Q : cmd -> ptr -> Prop) :
  ends_at 2 rest -> (k < fuel)%nat ->
  (forall c', texts c' = Nat.iter k BACK (texts c) -> Q c' rest) -> wp (loop fuel back_step c) Q (replicate k 38 ++ rest).
Proof.
  intros He. destruct (ends_skip 2 rest He) as (Es & _). revert c fuel. induction k as [|k IH]; intros c [|fuel] Hf HQ; try lia;
    cbn [loop]; rewrite wp_bind; unfold back_step; rewrite wp_bind.
  - cbn [replicate app]. rewrite wp_peek, Es. assert (match rest with [] => false | x :: _ => strchr (str "&") x end = false) as ->.
    { destruct rest as [|x rest]; [done|]. apply existsb_exists in He as (y & Hin & ->%Z.eqb_eq). cbn in Hin. by destruct_or! Hin; subst y. }
    by apply HQ.
  - cbn [replicate app]. eapply wp_peek_yes; [apply same_refl|done|done|]. cbv iota. rewrite wp_bind.
    eapply wp_gettoken_sym; [apply same_refl|by left|]. intros _. rewrite wp_ret. cbv iota.
    replace (skip_ws (replicate k 38 ++ rest)) with (replicate k 38 ++ rest) by (by destruct k).
    apply IH; [lia|]. intros c' Hc'. apply HQ. rewrite Hc'. cbn [texts]. apply iter_back.
Qed.

Lemma ends_back k rest : ends_at 2 rest -> ends_at 1 (replicate k 38 ++ rest).
Proof. destruct k; [by apply ends_mono; lia|done]. Qed.
Lemma lift_12 t : level t <> 2%nat -> P1 t -> P2 t.
Proof.
  intros Hl IH f k rest s He Hs Hf. rewrite (at_level_ge 1 2) in Hs by done. rewrite wp_bind, wp_get, wp_bind.
  eapply wp_mono; [apply (IH f _ (replicate k 38 ++ rest)); [by apply ends_back|done|done|lia]|].
  intros c s' [Hc ->]. rewrite wp_bind, wp_get. apply wp_back_loop; [done|rewrite length_app, length_replicate; lia|].
  intros c' Hc'. by rewrite Hc', Hc.
Qed.
Lemma back_P2 t : P2 t -> P2 (BACK t).
Proof.
  intros IH f k rest s He Hs Hf. rewrite iter_back. apply (IH f (S k)); [done| |done]. unfold same. rewrite Hs. f_equal.
  change (at_level 2 (BACK t)) with (at_level 2 t ++ [38]). by rewrite <- app_assoc.
Qed.

Lemma parseline_S f : parseline (S f) =
  (s ← get; c ← parsepipe (parseline f) (length s + 1); s ← get; c ← loop (length s + 1) back_step c;
   b ← peek (str ";"); if (b : bool) then gettoken ;; r ← parseline f; mret (LIST c r) else mret c).
Proof. done. Qed.
(** [parseline] after its first pipeline and the [&]s. *)
Lemma wp_parseline f s Q :
  wp (s ← get; c ← parsepipe (parseline f) (length s + 1); s ← get; loop (length s + 1) back_step c)
    (fun c => wp (b ← peek (str ";"); if (b : bool) then gettoken ;; r ← parseline f; mret (LIST c r) else mret c) Q) s ->
  wp (parseline (S f)) Q s.
Proof. rewrite parseline_S. rewrite !wp_bind, !wp_get, !wp_bind. intros H. eapply wp_mono; [exact H|]. intros c s'. by rewrite !wp_bind, !wp_get, !wp_bind. Qed.

Lemma lift_23 t : level t <> 3%nat -> P2 t -> P3 t.
Proof.
  intros Hl IH [|f] rest s He Hs Hf; [lia|]. apply wp_parseline. replace (show t) with (at_level 2 t) in Hs.
  2: { unfold at_level. destruct t; done. }
  eapply wp_mono; [apply (IH f 0%nat rest); [by eapply ends_mono; [|exact He]; lia|done|lia]|].
  intros c s' [Hc ->]. rewrite wp_bind. destruct (ends_skip 3 rest He) as (Es & _). rewrite wp_peek, Es.
  assert (match rest with [] => false | x :: _ => strchr (str ";") x end = false) as ->; [|by rewrite wp_ret].
  destruct rest as [|x rest]; [done|]. apply existsb_exists in He as (y & Hin & ->%Z.eqb_eq). cbn in Hin. by destruct_or! Hin; subst y.
Qed.
Lemma list_P3 l r : P2 l -> P3 r -> P3 (LIST l r).
Proof.
  intros IHl IHr [|f] rest s He Hs Hf; [lia|]. apply wp_parseline.
  change (show (LIST l r)) with (at_level 2 l ++ 59 :: show r) in Hs. rewrite <- app_assoc in Hs. cbn [app] in Hs.
  pose proof (same_longer _ _ _ _ Hs eq_refl).
  eapply wp_mono; [apply (IHl f 0%nat (59 :: show r ++ rest)); [done|exact Hs|lia]|].
  intros c s' [Hc ->]. rewrite wp_bind. eapply wp_peek_yes; [apply same_refl|done|done|]. cbv iota. rewrite wp_bind.
  eapply wp_gettoken_sym; [apply same_refl|by left|]. intros _. rewrite wp_bind.
  eapply wp_mono; [apply (IHr f rest); [done|apply same_skip|lia]|]. intros c' s' [Hc' ->]. rewrite wp_ret. cbn [texts]. by rewrite Hc, Hc'.
Qed.
Lemma lift_30 t : level t <> 0%nat -> P3 t -> P0 t.
Proof.
  intros Hl IH f rs rest s Hrs He Hs Hf. destruct (ends_skip 0 rest He) as (Es & Est & En & _).
  assert (at_level 0 t = 40 :: show t ++ [41]) as E by (unfold at_level; destruct t; done).
  rewrite E in Hs. cbn [app] in Hs. rewrite <- app_assoc in Hs. cbn [app] in Hs. pose proof (same_longer _ [] _ _ Hs eq_refl).
  unfold parseexec. rewrite wp_bind. eapply wp_peek_yes; [exact Hs|done|done|]. cbv iota. unfold parseblock.
  rewrite wp_bind. eapply wp_peek_yes; [apply same_refl|done|done|]. cbn [negb]. rewrite wp_bind.
  eapply wp_gettoken_sym; [apply same_refl|by left|]. intros _. rewrite wp_bind.
  eapply wp_mono; [apply (IH f (41 :: showr rs ++ rest)); [done|apply same_skip|lia]|]. intros c s' [Hc ->].
  rewrite wp_bind. eapply wp_peek_yes; [apply same_refl|done|done|]. cbn [negb]. rewrite wp_bind.
  eapply wp_gettoken_sym; [apply same_refl|by left|]. intros _. rewrite wp_bind.
  eapply (wp_parseredirs rs rest); [done|done|done|apply same_skip|]. intros out Ho. rewrite wp_ret, texts_redirs, Hc, Ho. by rewrite Es.
Qed.

Lemma show_parses t : wf t = true -> P0 t /\ P1 t /\ P2 t /\ P3 t.
Proof.
  induction t as [argv|t IH f m d|l IHl r IHr|l IHl r IHr|t IH]; intros Hw.
  - assert (P0 (EXEC argv)) as H by (by apply exec_P0). eauto 10 using lift_01, lift_12, lift_23 with arith.
  - cbn [wf] in Hw. apply andb_true_iff in Hw as [H1 H2]. destruct (IH H1) as (H & _).
    pose proof (redir_P0 _ _ _ _ H2 H). eauto 10 using lift_01, lift_12, lift_23 with arith.
  - cbn [wf] in Hw. apply andb_true_iff in Hw as [H1 H2]. destruct (IHl H1) as (H & _), (IHr H2) as (_ & H' & _).
    pose proof (pipe_P1 _ _ H H'). assert (P3 (PIPE l r)) by (apply lift_23, lift_12; done). split_and!; [by apply lift_30|done|by apply lift_12|done].
  - cbn [wf] in Hw. apply andb_true_iff in Hw as [H1 H2]. destruct (IHl H1) as (_ & _ & H & _), (IHr H2) as (_ & _ & _ & H').
    pose proof (list_P3 _ _ H H'). assert (P0 (LIST l r)) by (by apply lift_30). split_and!; [done|by apply lift_01|by apply lift_12, lift_01|done].
  - cbn [wf] in Hw. destruct (IH Hw) as (_ & _ & H & _). pose proof (back_P2 _ H).
    assert (P3 (BACK t)) by (by apply lift_23). assert (P0 (BACK t)) by (by apply lift_30). split_and!; [done|by apply lift_01|done|done].
Qed.

(** C33.  The parser reads back every printed command: for a command tree
    whose words are made of word characters, with fewer than [MAXARGS]
    arguments, parsing its text gives the same tree; pipes and lists associate
    to the right, [&] binds tighter than [;], and redirections bind to the
    command they follow. *)
Theorem parse_show t :
  wf t = true ->
  exists c buf, parsecmd (show t) [] = Ok (c, buf) [] /\ texts c = t.
Proof.
  intros Hw. destruct (show_parses t Hw) as (_ & _ & _ & H3).
  assert (wp (parsecmd (show t)) (fun r s' => texts (fst r) = t /\ s' = []) []) as ([c buf] & s' & E & Hc & ->)%wp_inv; [|by eauto].
  unfold parsecmd. rewrite wp_bind, wp_modify, wp_bind.
  eapply wp_mono; [apply (H3 _ []); [done|by rewrite app_nil_r|unfold parse_fuel; lia]|]. intros c s' [Hc ->].
  rewrite wp_bind, wp_peek, wp_bind, wp_get. by case_decide.
Qed.
Lemma parse_show_witness :
  wf (LIST (BACK (PIPE (EXEC [str "ls"; str "-l"]) (REDIR (EXEC [str "wc"]) (str "out") 513 1))) (EXEC [])) = true /\
  exists c buf,
    parsecmd (show (LIST (BACK (PIPE (EXEC [str "ls"; str "-l"]) (REDIR (EXEC [str "wc"]) (str "out") 513 1))) (EXEC []))) [] = Ok (c, buf) [] /\
    texts c = LIST (BACK (PIPE (EXEC [str "ls"; str "-l"]) (REDIR (EXEC [str "wc"]) (str "out") 513 1))) (EXEC []).
Proof. split; [vm_compute; reflexivity|]. apply (parse_show (LIST (BACK (PIPE _ (REDIR (EXEC _) _ 513 1))) (EXEC []))). vm_compute. reflexivity. Defined.
