(* ===== verification/ShRun.v ===== *)
(** * Running shell commands

    Models [runcmd] of [sh.c] with the descriptor table of each process: which
    programs it starts, and with which open files.  System calls may fail
    where the code checks them ([open], [pipe], [fork]); a process that
    [runcmd] forks runs its part of the command with a copy of the table.
    Descriptors are allocated as [fdalloc] of [sysfile.c] does, lowest first. *)

From S2P Require Import Prelude Sh ShPrint.

(** An open file: what the shell was started with, a file it opened, or an
    end of the [n]th pipe. *)
Inductive ofile := Inherited (k : nat) | Opened (name : list Z) (mode : Z) | PipeR (n : nat) | PipeW (n : nat).
Definition fdtable : Type := list (option ofile).
Definition NOFILE : nat := 16.

Fixpoint fd_alloc (t : fdtable) (f : ofile) : option (nat * fdtable) :=
  match t with
  | [] => None
  | None :: t' => Some (0%nat, Some f :: t')
  | x :: t' => '(fd, t'') ← fd_alloc t' f; Some (S fd, x :: t'')
  end.
Definition close (fd : nat) (t : fdtable) : fdtable := <[fd := None]> t.
(** [dup] does nothing on a bad descriptor or a full table. *)
Definition dup (fd : nat) (t : fdtable) : fdtable :=
  match t !! fd with
  | Some (Some f) => match fd_alloc t f with Some (_, t') => t' | None => t end
  | _ => t
  end.
Definition pipe (n : nat) (t : fdtable) : option (nat * nat * fdtable) :=
  '(p0, t) ← fd_alloc t (PipeR n);
  '(p1, t) ← fd_alloc t (PipeW n);
  Some (p0, p1, t).

(** A program started: its arguments and its descriptors. *)
Definition started (T : Type) : Type := list (list Z) * T.

(** The child of a pipe that runs the left or the right command. *)
Definition left_end (p0 p1 : nat) (t : fdtable) : fdtable := close p1 (close p0 (dup p1 (close 1 t))).
Definition right_end (p0 p1 : nat) (t : fdtable) : fdtable := close p1 (close p0 (dup p0 (close 0 t))).

(** [runs n t c evs n']: [runcmd c] in a process with table [t], when [n]
    pipes were made before, starts the programs [evs] in it and its children.
    After the second fork of [PIPE] the process itself only closes its
    ends of the pipe, waits and exits: it starts nothing with the table it then
    has, which is not kept. *)
Inductive runs : nat -> fdtable -> tree -> list (started fdtable) -> nat -> Prop :=
| RunEmpty n t : runs n t (EXEC []) [] n
| RunExec n t argv : argv <> [] -> runs n t (EXEC argv) [(argv, t)] n
| RunOpenFails n t c f m d : runs n t (REDIR c f m d) [] n
| RunRedir n t c f m d fd t' evs n' :
    fd_alloc (close (Z.to_nat d) t) (Opened f m) = Some (fd, t') -> runs n t' c evs n' ->
    runs n t (REDIR c f m d) evs n'
| RunNoFork n t l r : runs n t (LIST l r) [] n
| RunList n t l r e1 n1 e2 n2 : runs n t l e1 n1 -> runs n1 t r e2 n2 -> runs n t (LIST l r) (e1 ++ e2) n2
| RunPipeFails n t l r : runs n t (PIPE l r) [] n
| RunPipe0 n t l r p0 p1 t' : pipe n t = Some (p0, p1, t') -> runs n t (PIPE l r) [] (S n)
| RunPipe1 n t l r p0 p1 t' e1 n1 :
    pipe n t = Some (p0, p1, t') -> runs (S n) (left_end p0 p1 t') l e1 n1 -> runs n t (PIPE l r) e1 n1
| RunPipe n t l r p0 p1 t' e1 n1 e2 n2 :
    pipe n t = Some (p0, p1, t') -> runs (S n) (left_end p0 p1 t') l e1 n1 ->
    runs n1 (right_end p0 p1 t') r e2 n2 -> runs n t (PIPE l r) (e1 ++ e2) n2
| RunBackFails n t c : runs n t (BACK c) [] n
| RunBack n t c evs n' : runs n t c evs n' -> runs n t (BACK c) evs n'.

(** ** What a command line means

    Programs have an input, an output and an error file and nothing else.
    [full] are the programs of the command when no system call fails; [plan]
    also has the runs where some part of it was not started. *)

Definition io : Type := ofile * ofile * ofile.
Inductive plan : nat -> io -> tree -> list (started io) -> nat -> Prop :=
| PlanNone n s c n' : (n <= n')%nat -> plan n s c [] n'
| PlanExec n s argv : argv <> [] -> plan n s (EXEC argv) [(argv, s)] n
| PlanIn n i o e c f m evs n' : plan n (Opened f m, o, e) c evs n' -> plan n (i, o, e) (REDIR c f m 0) evs n'
| PlanOut n i o e c f m evs n' : plan n (i, Opened f m, e) c evs n' -> plan n (i, o, e) (REDIR c f m 1) evs n'
| PlanList n s l r e1 n1 e2 n2 : plan n s l e1 n1 -> plan n1 s r e2 n2 -> plan n s (LIST l r) (e1 ++ e2) n2
| PlanPipe n i o e l r e1 n1 e2 n2 :
    plan (S n) (i, PipeW n, e) l e1 n1 -> plan n1 (PipeR n, o, e) r e2 n2 -> plan n (i, o, e) (PIPE l r) (e1 ++ e2) n2
| PlanBack n s c evs n' : plan n s c evs n' -> plan n s (BACK c) evs n'.

Fixpoint full (n : nat) (s : io) (c : tree) : list (started io) * nat :=
  match c with
  | EXEC argv => (if decide (argv = []) then [] else [(argv, s)], n)
  | REDIR c f m d =>
      let '(i, o, e) := s in full n (if d =? 0 then (Opened f m, o, e) else (i, Opened f m, e)) c
  | PIPE l r =>
      let '(i, o, e) := s in
      let '(e1, n1) := full (S n) (i, PipeW n, e) l in
      let '(e2, n2) := full n1 (PipeR n, o, e) r in (e1 ++ e2, n2)
  | LIST l r => let '(e1, n1) := full n s l in let '(e2, n2) := full n1 s r in (e1 ++ e2, n2)
  | BACK c => full n s c
  end.

(** The table with just three descriptors. *)
Definition std (s : io) : fdtable :=
  let '(i, o, e) := s in Some i :: Some o :: Some e :: replicate (NOFILE - 3) None.
Definition with_std (x : started io) : started fdtable := (fst x, std (snd x)).

(** Redirections are of descriptors 0 and 1, as the parser makes them. *)
Fixpoint redirs_ok (c : tree) : bool :=
  match c with
  | EXEC _ => true
  | REDIR c _ _ d => redirs_ok c && ((d =? 0) || (d =? 1))
  | PIPE l r | LIST l r => redirs_ok l && redirs_ok r
  | BACK c => redirs_ok c
  end.

Lemma pipe_std n i o e :
  exists t', pipe n (std (i, o, e)) = Some (3%nat, 4%nat, t') /\
    left_end 3 4 t' = std (i, PipeW n, e) /\ right_end 3 4 t' = std (PipeR n, o, e).
Proof. eexists. by split_and!. Qed.

Lemma redir_std d f m i o e :
  (d =? 0) || (d =? 1) = true ->
  exists fd, fd_alloc (close (Z.to_nat d) (std (i, o, e))) (Opened f m) =
    Some (fd, std (if d =? 0 then (Opened f m, o, e) else (i, Opened f m, e))).
Proof. rewrite orb_true_iff, !Z.eqb_eq. intros [-> | ->]; by eexists. Qed.

Lemma runs_full c n s : redirs_ok c = true -> runs n (std s) c (map with_std (fst (full n s c))) (snd (full n s c)).
Proof.
  revert n s. induction c as [argv|c IH f m d|l IHl r IHr|l IHl r IHr|c IH]; intros n s Hok; cbn [full redirs_ok] in *.
  - case_decide; [subst; constructor|by constructor].
  - apply andb_true_iff in Hok as [Hc Hd]. destruct s as [[i o] e]. destruct (redir_std d f m i o e Hd) as [fd E].
    eapply RunRedir; [exact E|by apply IH].
  - apply andb_true_iff in Hok as [Hl Hr]. destruct s as [[i o] e]. destruct (pipe_std n i o e) as (t' & E & El & Er).
    specialize (IHl (S n) (i, PipeW n, e) Hl). destruct (full (S n) _ l) as [e1 n1].
    specialize (IHr n1 (PipeR n, o, e) Hr). destruct (full n1 _ r) as [e2 n2]. cbn [fst snd] in *. rewrite map_app.
    eapply RunPipe; [exact E|by rewrite El|by rewrite Er].
  - apply andb_true_iff in Hok as [Hl Hr]. specialize (IHl n s Hl). destruct (full n s l) as [e1 n1].
    specialize (IHr n1 s Hr). destruct (full n1 s r) as [e2 n2]. cbn [fst snd] in *. rewrite map_app. by eapply RunList.
  - apply RunBack. by apply IH.
Qed.

Lemma runs_plan n t c evs n' :
  runs n t c evs n' -> redirs_ok c = true -> forall s, t = std s ->
  exists pevs, plan n s c pevs n' /\ evs = map with_std pevs.
Proof.
  induction 1 as [n t|n t argv Ha|n t c f m d|n t c f m d fd t' evs n' E Hr IH|n t l r|n t l r e1 n1 e2 n2 H1 IH1 H2 IH2
    |n t l r|n t l r p0 p1 t' E|n t l r p0 p1 t' e1 n1 E H1 IH1|n t l r p0 p1 t' e1 n1 e2 n2 E H1 IH1 H2 IH2|n t c|n t c evs n' H IH];
    intros Hok s ->; cbn [redirs_ok] in Hok;
    try (exists []; split; [constructor; lia|done]).
  - exists [(argv, s)]. split; [by constructor|done].
  - apply andb_true_iff in Hok as [Hc Hd]. destruct s as [[i o] e]. destruct (redir_std d f m i o e Hd) as [fd' E'].
    rewrite E in E'. injection E' as -> ->. destruct (IH Hc _ eq_refl) as (pevs & Hp & ->). exists pevs. split; [|done].
    apply orb_true_iff in Hd as [Hd|Hd]; apply Z.eqb_eq in Hd; subst d; cbn [Z.eqb] in Hp; by constructor.
  - apply andb_true_iff in Hok as [Hl Hr]. destruct (IH1 Hl s eq_refl) as (p1 & Hp1 & ->), (IH2 Hr s eq_refl) as (p2 & Hp2 & ->).
    exists (p1 ++ p2). split; [by eapply PlanList|by rewrite map_app].
  - apply andb_true_iff in Hok as [Hl Hr]. destruct s as [[i o] e]. destruct (pipe_std n i o e) as (t'' & E' & El & _).
    rewrite E in E'. injection E' as -> -> ->. destruct (IH1 Hl _ El) as (q1 & Hq1 & ->). exists (q1 ++ []).
    split; [eapply PlanPipe; [exact Hq1|by constructor]|by rewrite app_nil_r].
  - apply andb_true_iff in Hok as [Hl Hr]. destruct s as [[i o] e]. destruct (pipe_std n i o e) as (t'' & E' & El & Er).
    rewrite E in E'. injection E' as -> -> ->. destruct (IH1 Hl _ El) as (q1 & Hq1 & ->), (IH2 Hr _ Er) as (q2 & Hq2 & ->).
    exists (q1 ++ q2). split; [by eapply PlanPipe|by rewrite map_app].
  - destruct (IH Hok s eq_refl) as (pevs & Hp & ->). exists pevs. split; [by constructor|done].
Qed.

(** C34.  [runcmd] leaks no descriptors: started with just an input, an
    output and an error file, every program of the command, in whatever
    process, runs with exactly three descriptors, the ones the command line
    says; in a pipe, the left command holds no other end than its output and
    the right command none but its input, so readers see the end of file when
    the writers exit.  Failing system calls only leave programs out, and when
    none fails every program of the command is started. *)
Theorem runcmd_refines_plan n s c :
  redirs_ok c = true ->
  runs n (std s) c (map with_std (fst (full n s c))) (snd (full n s c)) /\
  forall evs n', runs n (std s) c evs n' ->
    exists pevs, plan n s c pevs n' /\ evs = map with_std pevs.
Proof. intros Hok. split; [by apply runs_full|]. intros evs n' Hr. by eapply runs_plan. Qed.
Lemma runcmd_refines_plan_witness :
  redirs_ok (PIPE (EXEC [str "ls"]) (REDIR (EXEC [str "wc"]) (str "out") 513 1)) = true /\
  runs 0 (std (Inherited 0, Inherited 1, Inherited 2)) (PIPE (EXEC [str "ls"]) (REDIR (EXEC [str "wc"]) (str "out") 513 1))
    [([str "ls"], std (Inherited 0, PipeW 0, Inherited 2));
     ([str "wc"], std (PipeR 0, Opened (str "out") 513, Inherited 2))] 1.
Proof.
  split; [reflexivity|].
  destruct (runcmd_refines_plan 0 (Inherited 0, Inherited 1, Inherited 2)
    (PIPE (EXEC [str "ls"]) (REDIR (EXEC [str "wc"]) (str "out") 513 1)) eq_refl) as [H _]. exact H.
Defined.
