(* ===== verification/Ulib.v ===== *)
(** * The user library

    Models [ulib.c], [printf.c] and the counting loop of [wc.c].  Memory is a
    function from addresses to bytes as in [StringLib]; loops that run to a
    terminating zero have fuel.  What a program writes is the list of its
    characters. *)

From S2P Require Import Prelude Bytes StringLib.

(** ** ulib.c *)

Fixpoint strcpy (fuel : nat) (m : mem) (s t : Z) : option mem :=
  match fuel with
  | O => None
  | S f => let c := m t in let m := mset m s c in
           if c =? 0 then Some m else strcpy f m (s + 1) (t + 1)
  end.
Fixpoint strcmp (fuel : nat) (m : mem) (p q : Z) : option Z :=
  match fuel with
  | O => None
  | S f => if negb (m p =? 0) && (m p =? m q) then strcmp f m (p + 1) (q + 1) else Some (u8 (m p) - u8 (m q))
  end.
Fixpoint strlen_from (fuel : nat) (m : mem) (s n : Z) : option Z :=
  match fuel with
  | O => None
  | S f => if m (s + n) =? 0 then Some n else strlen_from f m s (n + 1)
  end.
Definition strlen (fuel : nat) (m : mem) (s : Z) : option Z := strlen_from fuel m s 0.
Definition memset (m : mem) (dst c n : Z) : mem := stosb m dst c (Z.to_nat n).
(** The address found, or 0. *)
Fixpoint strchr (fuel : nat) (m : mem) (s c : Z) : option Z :=
  match fuel with
  | O => None
  | S f => if m s =? 0 then Some 0 else if m s =? c then Some s else strchr f m (s + 1) c
  end.
(** [gets] with the characters [read] still gives; what is left of them. *)
Fixpoint gets_loop (fuel : nat) (m : mem) (buf i max : Z) (inp : list Z) : mem * list Z :=
  match fuel with
  | O => (m, inp)
  | S f =>
      if i + 1 <? max then
        match inp with
        | [] => (mset m (buf + i) 0, [])
        | c :: inp' =>
            let m := mset m (buf + i) c in
            if (c =? 10) || (c =? 13) then (mset m (buf + (i + 1)) 0, inp') else gets_loop f m buf (i + 1) max inp'
        end
      else (mset m (buf + i) 0, inp)
  end.
Definition gets (m : mem) (buf max : Z) (inp : list Z) : mem * list Z :=
  gets_loop (Z.to_nat max + 1) m buf 0 max inp.
(** Signed overflow wraps here. *)
Fixpoint atoi_loop (n : Z) (s : list Z) : Z :=
  match s with
  | c :: s' => if (48 <=? c) && (c <=? 57) then atoi_loop (s32 (n * 10 + c - 48)) s' else n
  | [] => n
  end.
Definition atoi (s : list Z) : Z := atoi_loop 0 s.
Fixpoint memmove_loop (m : mem) (dst src : Z) (n : nat) : mem :=
  match n with O => m | S n' => memmove_loop (mset m dst (m src)) (dst + 1) (src + 1) n' end.
Definition memmove (m : mem) (dst src n : Z) : mem := memmove_loop m dst src (Z.to_nat n).

(** ** printf.c *)

Definition digit (d : Z) : Z := if d <? 10 then 48 + d else 65 + (d - 10).
Fixpoint digits (fuel : nat) (x base : Z) : list Z :=
  match fuel with
  | O => []
  | S f => digit (x mod base) :: (if x / base =? 0 then [] else digits f (x / base) base)
  end.
Definition printint (xx base sgn : Z) : list Z :=
  let neg := negb (sgn =? 0) && (xx <? 0) in
  let x := if neg then u32 (- xx) else u32 xx in
  let buf := digits 10 x base in
  reverse (if neg then buf ++ [45] else buf).

(** An argument word, or the string it points at ([None] for null). *)
Inductive arg := AInt (v : Z) | AStr (s : option (list Z)).
Definition conv (c : Z) (args : list arg) : option (list Z * list arg) :=
  if c =? 100 then match args with AInt v :: args => Some (printint (s32 v) 10 1, args) | _ => None end else
  if (c =? 120) || (c =? 112) then match args with AInt v :: args => Some (printint (s32 v) 16 0, args) | _ => None end else
  if c =? 115 then match args with AStr s :: args => Some (default (str "(null)") s, args) | _ => None end else
  if c =? 99 then match args with AInt v :: args => Some ([u8 v], args) | _ => None end else
  if c =? 37 then Some ([c], args) else
  Some ([37; c], args).
(** [percent] is the state after a percent sign; missing arguments are
    whatever the stack holds, [None] here. *)
Fixpoint printf (percent : bool) (fmt : list Z) (args : list arg) : option (list Z) :=
  match fmt with
  | [] => Some []
  | c :: fmt =>
      if percent then '(out, args) ← conv c args; rest ← printf false fmt args; Some (out ++ rest)
      else if c =? 37 then printf true fmt args
      else rest ← printf false fmt args; Some (c :: rest)
  end.

(** ** wc.c *)

Record counts := mkCounts { cl : Z; cw : Z; cc : Z; inword : bool }.
Definition count1 (k : counts) (b : Z) : counts :=
  let c := s32 (cc k + 1) in
  let l := if b =? 10 then s32 (cl k + 1) else cl k in
  if existsb (Z.eqb b) [32; 13; 9; 10; 11] then mkCounts l (cw k) c false
  else if inword k then mkCounts l (cw k) c true
  else mkCounts l (s32 (cw k + 1)) c true.
(** [wc] over the chunks that [read] returns, up to an empty one. *)
Fixpoint wc (k : counts) (chunks : list (list Z)) : counts :=
  match chunks with
  | [] | [] :: _ => k
  | chunk :: chunks => wc (foldl count1 k chunk) chunks
  end.
Definition report (k : counts) (name : list Z) : option (list Z) :=
  printf false (str "%d %d %d %s" ++ [10])
    [AInt (u32 (cl k)); AInt (u32 (cw k)); AInt (u32 (cc k)); AStr (Some name)].

(** ** Copying *)

Lemma mod_succ x k : 0 < k -> (x + 1) mod k = if x mod k =? k - 1 then 0 else x mod k + 1.
Proof.
  intros Hk. pose proof (Z.div_mod x k ltac:(lia)). pose proof (Z.mod_pos_bound x k Hk). destruct (Z.eqb_spec (x mod k) (k - 1)).
  - symmetry. apply Z.mod_unique with (x / k + 1); lia.
  - symmetry. apply Z.mod_unique with (x / k); lia.
Qed.
Lemma memmove_loop_spec m d s n a :
  memmove_loop m d s n a =
    if (d <=? a) && (a <? d + Z.of_nat n)
    then if (s <? d) && (d <? s + Z.of_nat n) then m (s + (a - d) mod (d - s)) else m (s + (a - d))
    else m a.
Proof.
  revert m d s. induction n as [|n IH]; intros m d s; cbn [memmove_loop].
  { destruct (Z.leb_spec d a), (Z.ltb_spec a (d + Z.of_nat 0)); cbn [andb]; (done || lia). }
  rewrite IH. replace (d + 1 - (s + 1)) with (d - s) by lia.
  destruct (Z.leb_spec d a) as [Ha|Ha], (Z.leb_spec (d + 1) a) as [Ha1|Ha1]; try lia; cbn [andb].
  2: { assert (a = d) as -> by lia. rewrite mset_eq, Z.sub_diag, Zmod_0_l. destruct (Z.ltb_spec d (d + Z.of_nat (S n))); [|lia].
       destruct (_ && _); f_equal; lia. }
  2: { by rewrite mset_ne by lia. }
  destruct (Z.ltb_spec a (d + 1 + Z.of_nat n)), (Z.ltb_spec a (d + Z.of_nat (S n))); try lia; [|by rewrite mset_ne by lia].
  destruct (Z.ltb_spec (s + 1) (d + 1)) as [Hsd|Hsd], (Z.ltb_spec s d); try lia; cbn [andb].
  2: { rewrite mset_ne by lia. f_equal. lia. }
  replace (a - d) with (a - (d + 1) + 1) by lia. rewrite mod_succ by lia. pose proof (Z.mod_pos_bound (a - (d + 1)) (d - s) ltac:(lia)).
  destruct (Z.ltb_spec (d + 1) (s + 1 + Z.of_nat n)), (Z.ltb_spec d (s + Z.of_nat (S n))); try lia.
  - destruct (Z.eqb_spec ((a - (d + 1)) mod (d - s)) (d - s - 1)) as [E|E].
    + rewrite E. replace (s + 1 + (d - s - 1)) with d by lia. rewrite mset_eq. f_equal. lia.
    + rewrite mset_ne by lia. f_equal. lia.
  - rewrite (Z.mod_small (a - (d + 1))) by lia. destruct (Z.eqb_spec (a - (d + 1)) (d - s - 1)) as [E|E].
    + rewrite E. replace (s + 1 + (d - s - 1)) with d by lia. rewrite mset_eq. f_equal. lia.
    + rewrite mset_ne by lia. f_equal. lia.
  - rewrite mset_ne by lia. f_equal. lia.
Qed.

(** The library's [memmove] agrees with the kernel's on areas that do
    not overlap and when it moves data down; when it moves data up into an
    area that overlaps the source it is no [memmove]: it repeats the first
    [dst - src] bytes of the source over the whole destination. *)
Theorem umemmove_spec (m : mem) (dst src n a : Z) :
  0 <= n ->
  memmove m dst src n a =
    if (src <? dst) && (dst <? src + n)
    then if (dst <=? a) && (a <? dst + n) then m (src + (a - dst) mod (dst - src)) else m a
    else StringLib.memmove m dst src n a.
Proof.
  intros Hn. unfold memmove, StringLib.memmove. rewrite memmove_loop_spec, Z2Nat.id by done.
  destruct (Z.ltb_spec src dst), (Z.ltb_spec dst (src + n)); cbn [andb]; [done|..].
  all: by rewrite copy_up_spec, Z2Nat.id by lia.
Qed.
Lemma umemmove_spec_witness :
  memmove (fun a => a) 101 100 8 107 = 100 /\ StringLib.memmove (fun a => a) 101 100 8 107 = 106.
Proof. rewrite (umemmove_spec (fun a => a) 101 100 8 107 ltac:(lia)). split; reflexivity. Defined.

(** ** Numbers *)

Lemma atoi_app l1 l2 n : Forall (fun c => 48 <= c <= 57) l1 -> atoi_loop n (l1 ++ l2) = atoi_loop (atoi_loop n l1) l2.
Proof.
  intros H. revert n. induction H as [|c l Hc Hl IH]; intros n; cbn; [done|].
  destruct (Z.leb_spec 48 c), (Z.leb_spec c 57); cbn [andb]; try lia. apply IH.
Qed.
Lemma digits_10_range f x : Forall (fun c => 48 <= c <= 57) (digits f x 10).
Proof.
  revert x. induction f as [|f IH]; intros x; cbn; [constructor|]. pose proof (Z.mod_pos_bound x 10 ltac:(lia)).
  constructor; [unfold digit; destruct (Z.ltb_spec (x mod 10) 10); lia|]. destruct (_ =? 0); [constructor|apply IH].
Qed.
Lemma atoi_digits f x : 0 <= x < 10 ^ Z.of_nat f -> x < 2147483648 -> (0 < f)%nat -> atoi_loop 0 (reverse (digits f x 10)) = x.
Proof.
  revert x. induction f as [|f IH]; intros x Hx Hm Hf; [lia|]. cbn [digits]. rewrite reverse_cons.
  rewrite atoi_app by (apply Forall_reverse; destruct (_ =? 0); [constructor|apply digits_10_range]).
  pose proof (Z.div_mod x 10 ltac:(lia)). pose proof (Z.mod_pos_bound x 10 ltac:(lia)). pose proof (Z.div_pos x 10 ltac:(lia) ltac:(lia)).
  assert (atoi_loop 0 (reverse (if x / 10 =? 0 then [] else digits f (x / 10) 10)) = x / 10) as ->.
  { destruct (Z.eqb_spec (x / 10) 0) as [-> | E]; [done|]. rewrite Nat2Z.inj_succ, Z.pow_succ_r in Hx by lia.
    destruct f; [cbn in Hx; lia|]. apply IH; [|lia|lia]. split; [lia|]. apply Z.div_lt_upper_bound; lia. }
  cbn. unfold digit. destruct (Z.ltb_spec (x mod 10) 10); [|lia].
  destruct (Z.leb_spec 48 (48 + x mod 10)), (Z.leb_spec (48 + x mod 10) 57); cbn [andb]; try lia.
  rewrite s32_id by lia. lia.
Qed.

(** [atoi] reads back the non-negative numbers [printf] writes with a
    percent d. *)
Theorem atoi_printf x rest :
  0 <= x < 2147483648 -> (match rest with c :: _ => c < 48 \/ 57 < c | [] => True end) ->
  exists out, printf false (str "%d") [AInt x] = Some out /\ atoi (out ++ rest) = x.
Proof.
  intros Hx Hr. eexists. split; [reflexivity|]. rewrite app_nil_r, s32_id by lia. unfold printint. cbn [Z.eqb negb andb].
  destruct (Z.ltb_spec x 0); [lia|]. rewrite u32_id by lia. unfold atoi.
  rewrite atoi_app by (apply Forall_reverse, digits_10_range). rewrite atoi_digits; [|cbn; lia|lia|lia].
  destruct rest as [|c rest]; [done|]. cbn. destruct (Z.leb_spec 48 c), (Z.leb_spec c 57); cbn [andb]; (done || lia).
Qed.
Lemma atoi_printf_witness :
  exists out, printf false (str "%d") [AInt 2147483647] = Some out /\ atoi (out ++ [32]) = 2147483647.
Proof. apply (atoi_printf 2147483647 [32]); [lia|left; lia]. Defined.
