(* ===== verification/LinuxTime.v ===== *)
(** * Linux 0.12: the clock at start-up

    Models [kernel/mktime.c], which turns a date into seconds since 1970, and
    [time_init] of [init/main.c], which takes the date from the CMOS clock: a
    function from the number of a read and the register to the byte read.
    [int] and [long] have 32 bits; every operation wraps. *)

From S2P Require Import Prelude.

(** ** kernel_mktime *)

Record tm := mkTm { tm_sec : Z; tm_min : Z; tm_hour : Z; tm_mday : Z; tm_mon : Z; tm_year : Z }.

Definition MINUTE : Z := 60.
Definition HOUR : Z := 60 * MINUTE.
Definition DAY : Z := 24 * HOUR.
Definition YEAR : Z := 365 * DAY.

(** Seconds before each month of a leap year. *)
Definition month : list Z :=
  [0; DAY * 31; DAY * (31 + 29); DAY * (31 + 29 + 31); DAY * (31 + 29 + 31 + 30); DAY * (31 + 29 + 31 + 30 + 31);
   DAY * (31 + 29 + 31 + 30 + 31 + 30); DAY * (31 + 29 + 31 + 30 + 31 + 30 + 31); DAY * (31 + 29 + 31 + 30 + 31 + 30 + 31 + 31);
   DAY * (31 + 29 + 31 + 30 + 31 + 30 + 31 + 31 + 30); DAY * (31 + 29 + 31 + 30 + 31 + 30 + 31 + 31 + 30 + 31);
   DAY * (31 + 29 + 31 + 30 + 31 + 30 + 31 + 31 + 30 + 31 + 30)].

(** [None]: the month is outside the table. *)
Definition kernel_mktime (t : tm) : option Z :=
  let year := s32 (tm_year t - 70) in
  let res := s32 (s32 (YEAR * year) + s32 (DAY * Z.quot (s32 (year + 1)) 4)) in
  m ← (if tm_mon t <? 0 then None else month !! Z.to_nat (tm_mon t));
  let res := s32 (res + m) in
  let res := if (1 <? tm_mon t) && negb (Z.rem (s32 (year + 2)) 4 =? 0) then s32 (res - DAY) else res in
  let res := s32 (res + s32 (DAY * s32 (tm_mday t - 1))) in
  let res := s32 (res + s32 (HOUR * tm_hour t)) in
  let res := s32 (res + s32 (MINUTE * tm_min t)) in
  Some (s32 (res + tm_sec t)).

(** ** time_init *)

Definition BCD_TO_BIN (v : Z) : Z := Z.land v 15 + Z.shiftr v 4 * 10.
(** The loop that reads the clock until the seconds have not changed. *)
Fixpoint read_clock (CMOS_READ : nat -> Z -> Z) (fuel n : nat) : option tm :=
  match fuel with
  | O => None
  | S fuel' =>
      let t := mkTm (CMOS_READ n 0) (CMOS_READ (n + 1)%nat 2) (CMOS_READ (n + 2)%nat 4) (CMOS_READ (n + 3)%nat 7) (CMOS_READ (n + 4)%nat 8) (CMOS_READ (n + 5)%nat 9) in
      if tm_sec t =? CMOS_READ (n + 6)%nat 0 then Some t else read_clock CMOS_READ fuel' (n + 7)
  end.
Definition time_init (CMOS_READ : nat -> Z -> Z) (fuel : nat) : option Z :=
  t ← read_clock CMOS_READ fuel 0;
  kernel_mktime (mkTm (BCD_TO_BIN (tm_sec t)) (BCD_TO_BIN (tm_min t)) (BCD_TO_BIN (tm_hour t)) (BCD_TO_BIN (tm_mday t)) (BCD_TO_BIN (tm_mon t) - 1) (BCD_TO_BIN (tm_year t))).

(** ** The Gregorian calendar *)

Definition leap (y : Z) : bool := (y mod 4 =? 0) && (negb (y mod 100 =? 0) || (y mod 400 =? 0)).
Definition month_days (y m : Z) : Z :=
  if m =? 1 then (if leap y then 29 else 28)
  else if (m =? 3) || (m =? 5) || (m =? 8) || (m =? 10) then 30 else 31.
Definition year_days (y : Z) : Z := if leap y then 366 else 365.
Definition sum (l : list Z) : Z := foldr Z.add 0 l.

(** Days from 1 January 1970 to day [d] of month [m], both counted from 0, of
    year [y]: the days of the years and the months that have passed. *)
Definition days_since_1970 (y m d : Z) : Z :=
  sum (year_days <$> seqZ 1970 (y - 1970)) + sum (month_days y <$> seqZ 0 m) + d.
Definition seconds_since_1970 (y m d hh mm ss : Z) : Z :=
  ((days_since_1970 y m d * 24 + hh) * 60 + mm) * 60 + ss.

(** ** The magic offsets *)

(** Both counts of the days of a date agree, checked for each month of the years
    from 1970 to 2099. *)
Lemma days_agree y m : 1970 <= y < 2100 -> 0 <= m < 12 ->
  exists x, month !! Z.to_nat m = Some x /\
  DAY * days_since_1970 y m 0 =
    YEAR * (y - 1970) + DAY * Z.quot (y - 1970 + 1) 4 + x -
    (if (1 <? m) && negb (Z.rem (y - 1970 + 2) 4 =? 0) then DAY else 0).
Proof.
  intros Hy Hm.
  assert (forallb (fun y => forallb (fun m => match month !! Z.to_nat m with None => false | Some x =>
      DAY * days_since_1970 y m 0 =? YEAR * (y - 1970) + DAY * Z.quot (y - 1970 + 1) 4 + x -
        (if (1 <? m) && negb (Z.rem (y - 1970 + 2) 4 =? 0) then DAY else 0) end) (seqZ 0 12)) (seqZ 1970 130) = true) as H
    by (vm_compute; reflexivity).
  rewrite forallb_forall in H. specialize (H y ltac:(apply list_elem_of_In, elem_of_seqZ; lia)).
  rewrite forallb_forall in H. specialize (H m ltac:(apply list_elem_of_In, elem_of_seqZ; lia)). cbv beta in H.
  destruct (month !! Z.to_nat m) as [x|]; [|done]. exists x. split; [done|]. by apply Z.eqb_eq.
Qed.

Lemma days_bound y m : 1970 <= y < 2039 -> 0 <= m < 12 -> 0 <= days_since_1970 y m 0 < 25202.
Proof.
  intros Hy Hm.
  assert (forallb (fun y => forallb (fun m => (0 <=? days_since_1970 y m 0) && (days_since_1970 y m 0 <? 25202)) (seqZ 0 12)) (seqZ 1970 69) = true) as H
    by (vm_compute; reflexivity).
  rewrite forallb_forall in H. specialize (H y ltac:(apply list_elem_of_In, elem_of_seqZ; lia)).
  rewrite forallb_forall in H. specialize (H m ltac:(apply list_elem_of_In, elem_of_seqZ; lia)).
  apply andb_prop in H as [?%Z.leb_le ?%Z.ltb_lt]. lia.
Qed.

(** ** Wrapping *)

Lemma s32_wrap x : exists k, s32 x = x + 4294967296 * k.
Proof.
  exists (- ((x + 2147483648) / 4294967296)). unfold s32. pose proof (Z.div_mod (x + 2147483648) 4294967296). lia.
Qed.
(** Inner reductions do not matter under an outer one. *)
Ltac wrap32 := repeat match goal with |- s32 ?a = _ => match a with context [s32 ?x] => destruct (s32_wrap x) as [? ->] end end.

Lemma month_days_le y m : month_days y m <= 31.
Proof. unfold month_days. repeat case_match; lia. Qed.

Lemma days_split y m d : days_since_1970 y m d = days_since_1970 y m 0 + d.
Proof. unfold days_since_1970. lia. Qed.

(** ** The CMOS clock *)

(** What the clock shows: two decimal digits in each register. *)
Definition to_bcd (v : Z) : Z := 16 * (v / 10) + v mod 10.
Definition cmos_clock (y m d hh mm ss : Z) (reg : Z) : Z :=
  to_bcd (if reg =? 0 then ss else if reg =? 2 then mm else if reg =? 4 then hh else if reg =? 7 then d else if reg =? 8 then m + 1 else y mod 100).
Lemma bcd_roundtrip v : 0 <= v < 100 -> BCD_TO_BIN (to_bcd v) = v.
Proof.
  intros Hv. assert (forallb (fun v => BCD_TO_BIN (to_bcd v) =? v) (seqZ 0 100) = true) as H by (vm_compute; reflexivity).
  rewrite forallb_forall in H. apply Z.eqb_eq, (H v), list_elem_of_In, elem_of_seqZ. lia.
Qed.
(** The clock ticks during the first [k] turns of the loop and is still in the
    next one. *)
Lemma read_clock_ok clock f k : forall n fuel, (k < fuel)%nat ->
  (forall j, (j < k)%nat -> clock (n + 7 * j)%nat 0 <> clock (n + 7 * j + 6)%nat 0) -> (forall i, (i < 7)%nat -> clock (n + 7 * k + i)%nat = f) ->
  read_clock clock fuel n = Some (mkTm (f 0) (f 2) (f 4) (f 7) (f 8) (f 9)).
Proof.
  induction k as [|k IH]; intros n fuel Hk Hd Hs; (destruct fuel as [|fuel]; [lia|]); cbn [read_clock tm_sec].
  - rewrite Nat.mul_0_r, Nat.add_0_r in Hs. rewrite !Hs by lia. pose proof (Hs 0%nat ltac:(lia)) as H0. rewrite Nat.add_0_r in H0. by rewrite H0, Z.eqb_refl.
  - pose proof (Hd 0%nat ltac:(lia)) as H0. rewrite Nat.mul_0_r, Nat.add_0_r in H0. rewrite (proj2 (Z.eqb_neq _ _) H0). apply IH; [lia|..].
    + intros j Hj. specialize (Hd (S j) ltac:(lia)). replace (n + 7 * S j)%nat with (n + 7 + 7 * j)%nat in Hd by lia. exact Hd.
    + intros i Hi. rewrite <- (Hs i Hi). f_equal. lia.
Qed.

(** C37.  [kernel_mktime] agrees with the Gregorian calendar on every date from
    1970 to 2099 (years 70 to 199 of [struct tm]): its result is the number of
    seconds that have passed since
    1970, reduced to the 32 bits of a long, and the number itself while the
    year is before 2038.  At start-up, where the CMOS clock gives the last two
    digits of the year only, [time_init] gets the seconds right in the years
    from 1970 to 1999, if the clock holds still in some turn of its loop. *)
Theorem mktime_correct y m d hh mm ss :
  1970 <= y < 2100 -> 0 <= m < 12 -> 1 <= d <= month_days y m -> 0 <= hh < 24 -> 0 <= mm < 60 -> 0 <= ss < 60 ->
  kernel_mktime (mkTm ss mm hh d m (y - 1900)) = Some (s32 (seconds_since_1970 y m (d - 1) hh mm ss)) /\
  (y < 2038 -> kernel_mktime (mkTm ss mm hh d m (y - 1900)) = Some (seconds_since_1970 y m (d - 1) hh mm ss)) /\
  (y < 2000 -> forall clock k fuel, (k < fuel)%nat -> (forall j, (j < k)%nat -> clock (7 * j)%nat 0 <> clock (7 * j + 6)%nat 0) ->
     (forall i, (i < 7)%nat -> clock (7 * k + i)%nat = cmos_clock y m d hh mm ss) ->
     time_init clock fuel = Some (seconds_since_1970 y m (d - 1) hh mm ss)).
Proof.
  intros Hy Hm Hd Hhh Hmm Hss. destruct (days_agree y m Hy Hm) as (x & Ex & Ed).
  assert (kernel_mktime (mkTm ss mm hh d m (y - 1900)) = Some (s32 (seconds_since_1970 y m (d - 1) hh mm ss))) as E.
  { unfold kernel_mktime. cbn [tm_sec tm_min tm_hour tm_mday tm_mon tm_year]. destruct (Z.ltb_spec m 0); [lia|]. rewrite Ex. cbn [mbind option_bind].
    replace (y - 1900 - 70) with (y - 1970) by lia. rewrite !(s32_id (y - 1970)), !(s32_id (y - 1970 + 1)), !(s32_id (y - 1970 + 2)) by lia.
    rewrite (s32_id (d - 1)) by (pose proof (month_days_le y m); lia).
    f_equal. unfold seconds_since_1970. rewrite days_split. unfold YEAR, HOUR, MINUTE in *.
    assert (DAY = 86400) as HD by done. rewrite HD in *. set (D := days_since_1970 y m 0) in *. set (q := Z.quot (y - 1970 + 1) 4) in *.
    set (b := (1 <? m) && negb (Z.rem (y - 1970 + 2) 4 =? 0)) in *.
    destruct b; wrap32; unfold s32; f_equal; Z.div_mod_to_equations; lia. }
  assert (y < 2038 -> kernel_mktime (mkTm ss mm hh d m (y - 1900)) = Some (seconds_since_1970 y m (d - 1) hh mm ss)) as E38.
  2: { split_and!; [done|done|]. intros Hlt clock k fuel Hk Hd' Hs. unfold time_init. rewrite (read_clock_ok clock (cmos_clock y m d hh mm ss) k 0 fuel Hk Hd' Hs).
       cbn [mbind option_bind tm_sec tm_min tm_hour tm_mday tm_mon tm_year]. unfold cmos_clock. cbn [Z.eqb Pos.eqb]. pose proof (month_days_le y m). pose proof (Z.mod_pos_bound y 100 ltac:(lia)).
       rewrite !bcd_roundtrip by lia. replace (y mod 100) with (y - 1900) by (Z.div_mod_to_equations; lia). replace (m + 1 - 1) with m by lia. apply E38. lia. }
  intros Hlt. rewrite E. f_equal. apply s32_id. unfold seconds_since_1970. rewrite days_split.
  pose proof (days_bound y m ltac:(lia) Hm) as Hb.
  assert (days_since_1970 y m 0 + month_days y m <= 24837) as Hc.
  { assert (forallb (fun y => forallb (fun m => days_since_1970 y m 0 + month_days y m <=? 24837) (seqZ 0 12)) (seqZ 1970 68) = true) as H
      by (vm_compute; reflexivity).
    rewrite forallb_forall in H. specialize (H y ltac:(apply list_elem_of_In, elem_of_seqZ; lia)).
    rewrite forallb_forall in H. specialize (H m ltac:(apply list_elem_of_In, elem_of_seqZ; lia)). by apply Z.leb_le. }
  lia.
Qed.

(** The first day the calendar is wrong, 1 March 2100: the year 2100 is taken
    for a leap year. *)
Example mktime_2100 :
  kernel_mktime (mkTm 0 0 0 1 2 200) = Some (s32 (seconds_since_1970 2100 2 0 0 0 0 + DAY)).
Proof. vm_compute. reflexivity. Qed.

(** 1 January 2005: the clock shows the year as 05, which is taken for 1905. *)
Example time_init_2005 : time_init (fun _ => cmos_clock 2005 0 1 0 0 0) 1 = Some (s32 (- 2051222400)) /\ seconds_since_1970 2005 0 0 0 0 0 = 1104537600.
Proof. vm_compute. auto. Qed.

(** 19 January 2038, 03:14:08, one second after the last that fits. *)
Lemma mktime_correct_witness :
  kernel_mktime (mkTm 8 14 3 19 0 138) = Some (-2147483648) /\ kernel_mktime (mkTm 0 0 12 29 1 100) = Some 951825600 /\
  time_init (fun n => cmos_clock 1992 0 12 18 9 (if (n =? 0)%nat then 58 else 59)) 2 = Some 695239799.
Proof.
  destruct (mktime_correct 2038 0 19 3 14 8 ltac:(lia) ltac:(lia) ltac:(vm_compute; split; congruence) ltac:(lia) ltac:(lia) ltac:(lia)) as [E1 _].
  destruct (mktime_correct 2000 1 29 12 0 0 ltac:(lia) ltac:(lia) ltac:(vm_compute; split; congruence) ltac:(lia) ltac:(lia) ltac:(lia)) as (_ & E2 & _).
  destruct (mktime_correct 1992 0 12 18 9 59 ltac:(lia) ltac:(lia) ltac:(vm_compute; split; congruence) ltac:(lia) ltac:(lia) ltac:(lia)) as (_ & _ & E3).
  split; [exact E1|]. split; [exact (E2 ltac:(lia))|]. rewrite (E3 ltac:(lia) _ 1%nat 2%nat); [vm_compute; reflexivity|lia| |].
  - intros [|j] Hj; [vm_compute; congruence|lia].
  - intros i Hi. reflexivity.
Defined.
