(* ===== verification/LinuxSched.v ===== *)
(** * Linux 0.12: scheduling, sleeping and timers

    Models [kernel/sched.c].  The fields of a task that only [kernel/fork.c]
    and [kernel/exit.c] use are grouped in [pinfo].  A task pointer is a slot of [task]; the variables
    wait queues live in are numbered ([queues]).  [switch_to] to another task
    suspends the run ([Switched]).  Calls into the drivers (screen, disk,
    beeper, ports) and of timer functions are recorded in [events]. *)

From S2P Require Import Prelude.

Definition NR_TASKS : nat := 64.
Definition HZ : Z := 100.
Definition TASK_RUNNING : Z := 0.
Definition TASK_INTERRUPTIBLE : Z := 1.
Definition TASK_UNINTERRUPTIBLE : Z := 2.
Definition TASK_ZOMBIE : Z := 3.
Definition TASK_STOPPED : Z := 4.
Definition _S (nr : Z) : Z := Z.shiftl 1 (nr - 1).
Definition SIGKILL : Z := 9.
Definition SIGALRM : Z := 14.
Definition SIGSTOP : Z := 19.
Definition _BLOCKABLE : Z := Z.lnot (Z.lor (_S SIGKILL) (_S SIGSTOP)).
Definition TIME_REQUESTS : nat := 64.

(** The saved registers, and the fields of a task [fork] and [exit] use;
    [p_cptr], [p_ysptr] and [p_osptr] are the youngest child and the younger
    and older siblings. *)
Record tss_struct := mkTss {
  t_esp0 : Z; t_eip : Z; t_eflags : Z; t_eax : Z; t_ecx : Z; t_edx : Z; t_ebx : Z; t_esp : Z; t_ebp : Z; t_esi : Z; t_edi : Z;
  t_es : Z; t_cs : Z; t_ss : Z; t_ds : Z; t_fs : Z; t_gs : Z; t_ldt : Z; t_back_link : Z; t_ss0 : Z; t_trace_bitmap : Z }.
Record pinfo := mkInfo {
  exit_code : Z; pgrp : Z; session : Z; leader : Z; tty : Z;
  p_cptr : option nat; p_ysptr : option nat; p_osptr : option nat;
  sa_handler : list Z; cutime : Z; cstime : Z; start_time : Z;
  filp : list (option nat); pwd : option nat; root : option nat;
  code_base : Z; code_limit : Z; data_base : Z; data_limit : Z; tss : tss_struct }.

Record task_struct := mkTask {
  state : Z; counter : Z; priority : Z; signal : Z; blocked : Z;
  pid : Z; p_pptr : nat; uid : Z; euid : Z; gid : Z; egid : Z;
  timeout : Z; alarm : Z; utime : Z; stime : Z; info : pinfo }.

Definition set_state v t := mkTask v (counter t) (priority t) (signal t) (blocked t) (pid t) (p_pptr t) (uid t) (euid t) (gid t) (egid t) (timeout t) (alarm t) (utime t) (stime t) (info t).
Definition set_counter v t := mkTask (state t) v (priority t) (signal t) (blocked t) (pid t) (p_pptr t) (uid t) (euid t) (gid t) (egid t) (timeout t) (alarm t) (utime t) (stime t) (info t).
Definition set_priority v t := mkTask (state t) (counter t) v (signal t) (blocked t) (pid t) (p_pptr t) (uid t) (euid t) (gid t) (egid t) (timeout t) (alarm t) (utime t) (stime t) (info t).
Definition set_signal v t := mkTask (state t) (counter t) (priority t) v (blocked t) (pid t) (p_pptr t) (uid t) (euid t) (gid t) (egid t) (timeout t) (alarm t) (utime t) (stime t) (info t).
Definition set_timeout v t := mkTask (state t) (counter t) (priority t) (signal t) (blocked t) (pid t) (p_pptr t) (uid t) (euid t) (gid t) (egid t) v (alarm t) (utime t) (stime t) (info t).
Definition set_alarm v t := mkTask (state t) (counter t) (priority t) (signal t) (blocked t) (pid t) (p_pptr t) (uid t) (euid t) (gid t) (egid t) (timeout t) v (utime t) (stime t) (info t).
Definition set_utime v t := mkTask (state t) (counter t) (priority t) (signal t) (blocked t) (pid t) (p_pptr t) (uid t) (euid t) (gid t) (egid t) (timeout t) (alarm t) v (stime t) (info t).
Definition set_stime v t := mkTask (state t) (counter t) (priority t) (signal t) (blocked t) (pid t) (p_pptr t) (uid t) (euid t) (gid t) (egid t) (timeout t) (alarm t) (utime t) v (info t).

(** A timer request; [t_fn] names its function, [None] is a free entry. *)
Record timer := mkTimer { t_jiffies : Z; t_fn : option nat; t_next : option nat }.

Inductive event :=
| EUnblank | EBlank | EHdTimeout | EBeepStop | ETimer (fn : nat) | EOutDOR (v : Z)
| EPrint (msg : string).

Record sst := mkS {
  task : list (option task_struct);
  current : nat;
  jiffies : Z;
  queues : list (option nat);   (* 0 to 3: wait_motor *)
  mon_timer : list Z;
  moff_timer : list Z;
  current_DOR : Z;
  selected : Z;
  timer_list : list timer;
  next_timer : option nat;
  blankcount : Z; blankinterval : Z; blanked : Z; hd_timeout : Z; beepcount : Z;
  events : list event }.

Definition set_task v s := mkS v (current s) (jiffies s) (queues s) (mon_timer s) (moff_timer s) (current_DOR s) (selected s) (timer_list s) (next_timer s) (blankcount s) (blankinterval s) (blanked s) (hd_timeout s) (beepcount s) (events s).
Definition set_current v s := mkS (task s) v (jiffies s) (queues s) (mon_timer s) (moff_timer s) (current_DOR s) (selected s) (timer_list s) (next_timer s) (blankcount s) (blankinterval s) (blanked s) (hd_timeout s) (beepcount s) (events s).
Definition set_queues v s := mkS (task s) (current s) (jiffies s) v (mon_timer s) (moff_timer s) (current_DOR s) (selected s) (timer_list s) (next_timer s) (blankcount s) (blankinterval s) (blanked s) (hd_timeout s) (beepcount s) (events s).
Definition set_mon v s := mkS (task s) (current s) (jiffies s) (queues s) v (moff_timer s) (current_DOR s) (selected s) (timer_list s) (next_timer s) (blankcount s) (blankinterval s) (blanked s) (hd_timeout s) (beepcount s) (events s).
Definition set_moff v s := mkS (task s) (current s) (jiffies s) (queues s) (mon_timer s) v (current_DOR s) (selected s) (timer_list s) (next_timer s) (blankcount s) (blankinterval s) (blanked s) (hd_timeout s) (beepcount s) (events s).
Definition set_DOR v s := mkS (task s) (current s) (jiffies s) (queues s) (mon_timer s) (moff_timer s) v (selected s) (timer_list s) (next_timer s) (blankcount s) (blankinterval s) (blanked s) (hd_timeout s) (beepcount s) (events s).
Definition set_timers v s := mkS (task s) (current s) (jiffies s) (queues s) (mon_timer s) (moff_timer s) (current_DOR s) (selected s) v (next_timer s) (blankcount s) (blankinterval s) (blanked s) (hd_timeout s) (beepcount s) (events s).
Definition set_next_timer v s := mkS (task s) (current s) (jiffies s) (queues s) (mon_timer s) (moff_timer s) (current_DOR s) (selected s) (timer_list s) v (blankcount s) (blankinterval s) (blanked s) (hd_timeout s) (beepcount s) (events s).
Definition set_blank c b s := mkS (task s) (current s) (jiffies s) (queues s) (mon_timer s) (moff_timer s) (current_DOR s) (selected s) (timer_list s) (next_timer s) c (blankinterval s) b (hd_timeout s) (beepcount s) (events s).
Definition set_hd v s := mkS (task s) (current s) (jiffies s) (queues s) (mon_timer s) (moff_timer s) (current_DOR s) (selected s) (timer_list s) (next_timer s) (blankcount s) (blankinterval s) (blanked s) v (beepcount s) (events s).
Definition set_beep v s := mkS (task s) (current s) (jiffies s) (queues s) (mon_timer s) (moff_timer s) (current_DOR s) (selected s) (timer_list s) (next_timer s) (blankcount s) (blankinterval s) (blanked s) (hd_timeout s) v (events s).
Definition emit e s := mkS (task s) (current s) (jiffies s) (queues s) (mon_timer s) (moff_timer s) (current_DOR s) (selected s) (timer_list s) (next_timer s) (blankcount s) (blankinterval s) (blanked s) (hd_timeout s) (beepcount s) (events s ++ [e]).

Definition event_ (e : event) : M sst unit := modify (emit e).
Definition get_task (i : nat) : M sst task_struct := l ← gets task; t ← idx l i; deref t.
Definition upd_task (i : nat) (f : task_struct -> task_struct) : M sst unit :=
  t ← get_task i; modify (fun s => set_task (<[i := Some (f t)]> (task s)) s).
Definition get_queue (p : nat) : M sst (option nat) := l ← gets queues; idx l p.
Definition put_queue (p : nat) (v : option nat) : M sst unit :=
  get_queue p ;; modify (fun s => set_queues (<[p := v]> (queues s)) s).

(** ** schedule *)

(** One entry of the first loop: timeouts, alarms and signals. *)
Definition check_signals (now : Z) (t : task_struct) : task_struct :=
  let t := if negb (timeout t =? 0) && (timeout t <? now)
           then let t := set_timeout 0 t in if state t =? TASK_INTERRUPTIBLE then set_state TASK_RUNNING t else t
           else t in
  let t := if negb (alarm t =? 0) && (alarm t <? now)
           then set_alarm 0 (set_signal (Z.lor (signal t) (_S SIGALRM)) t) else t in
  if negb (Z.land (signal t) (Z.lnot (Z.land _BLOCKABLE (blocked t))) =? 0) && (state t =? TASK_INTERRUPTIBLE)
  then set_state TASK_RUNNING t else t.

(** A loop from the last task down to the first but one. *)
Definition for_tasks (f : task_struct -> task_struct) (s : sst) : sst :=
  set_task (match task s with [] => [] | t0 :: l => t0 :: map (option_map f) l end) s.

(** The selection loop, from slot [i] down: [c] and [next] so far. *)
Fixpoint best (l : list (option task_struct)) (i : nat) (c : Z) (next : nat) : Z * nat :=
  match i with
  | O => (c, next)
  | S i' =>
      match l !! i with
      | Some (Some t) => if (state t =? TASK_RUNNING) && (c <? counter t) then best l i' (counter t) i else best l i' c next
      | _ => best l i' c next
      end
  end.

Definition recalc (t : task_struct) : task_struct := set_counter (s32 (Z.shiftr (counter t) 1 + priority t)) t.

Definition pick_step (_ : unit) : M sst (unit + nat) :=
  s ← get;
  let '(c, next) := best (task s) (NR_TASKS - 1) (-1) 0 in
  if negb (c =? 0) then mret (inr next) else modify (for_tasks recalc) ;; mret (inl tt).

(** [switch_to]: nothing happens when [n] is the current task. *)
Definition switch_to (n : nat) : M sst unit :=
  s ← get; if (n =? current s)%nat then skip else fun s => Switched (set_current n s).

Definition schedule (fuel : nat) : M sst unit :=
  now ← gets jiffies;
  modify (for_tasks (check_signals now)) ;;
  next ← loop fuel pick_step tt;
  switch_to next.

Definition sys_pause (fuel : nat) : M sst Z :=
  c ← gets current;
  upd_task c (set_state TASK_INTERRUPTIBLE) ;;
  schedule fuel ;; mret 0.

(** ** Sleeping *)

(** From the label [repeat] on, after [schedule] has returned. *)
Definition sleep_step (fuel : nat) (p : nat) (_ : unit) : M sst (unit + unit) :=
  q ← get_queue p;
  c ← gets current;
  match q with
  | Some h =>
      if negb (h =? c)%nat then
        upd_task h (set_state 0) ;;
        upd_task c (set_state TASK_UNINTERRUPTIBLE) ;;
        schedule fuel ;; mret (inl tt)
      else mret (inr tt)
  | None => mret (inr tt)
  end.
(** What [__sleep_on] does once its task runs again; [tmp] is on its stack. *)
Definition sleep_resume (fuel : nat) (p : nat) (tmp : option nat) : M sst unit :=
  loop fuel (sleep_step fuel p) tt ;;
  q ← get_queue p;
  (match q with None => event_ (EPrint "Warning: *P = NULL") | Some _ => skip end) ;;
  put_queue p tmp ;;
  match tmp with None => skip | Some t => upd_task t (set_state 0) end.
Definition __sleep_on (fuel : nat) (p : option nat) (st : Z) : M sst unit :=
  match p with
  | None => skip
  | Some p =>
      c ← gets current;
      if (c =? 0)%nat then panic "task[0] trying to sleep" else
      tmp ← get_queue p;
      put_queue p (Some c) ;;
      upd_task c (set_state st) ;;
      schedule fuel ;;
      sleep_resume fuel p tmp
  end.
Definition interruptible_sleep_on fuel p := __sleep_on fuel p TASK_INTERRUPTIBLE.
Definition sleep_on fuel p := __sleep_on fuel p TASK_UNINTERRUPTIBLE.

Definition wake_up (p : option nat) : M sst unit :=
  match p with
  | None => skip
  | Some p =>
      q ← get_queue p;
      match q with
      | None => skip
      | Some h =>
          t ← get_task h;
          (if state t =? TASK_STOPPED then event_ (EPrint "wake_up: TASK_STOPPED") else skip) ;;
          (if state t =? TASK_ZOMBIE then event_ (EPrint "wake_up: TASK_ZOMBIE") else skip) ;;
          upd_task h (set_state 0)
      end
  end.

(** ** Floppy motors *)

Definition ticks_to_floppy_on (nr : Z) : M sst Z :=
  if 3 <? nr then panic "floppy_on: nr>3" else
  let i := Z.to_nat nr in
  modify (fun s => set_moff (<[i := 10000]> (moff_timer s)) s) ;;
  s ← get;
  let mask := Z.lor (u8 (Z.shiftl 16 nr)) (current_DOR s) in
  let mask := if selected s =? 0 then Z.lor (Z.land mask 252) nr else mask in
  (if negb (mask =? current_DOR s) then
     event_ (EOutDOR mask) ;;
     m ← idx (mon_timer s) i;
     (if negb (Z.land (Z.lxor mask (current_DOR s)) 240 =? 0)
      then modify (fun s => set_mon (<[i := HZ / 2]> (mon_timer s)) s)
      else if m <? 2 then modify (fun s => set_mon (<[i := 2]> (mon_timer s)) s) else skip) ;;
     modify (set_DOR mask)
   else skip) ;;
  s ← get; idx (mon_timer s) i.

Definition floppy_on (fuel : nat) (nr : Z) : M sst unit :=
  loop fuel (fun _ : unit =>
    t ← ticks_to_floppy_on nr;
    if negb (t =? 0) then sleep_on fuel (Some (Z.to_nat nr)) ;; mret (inl tt) else mret (inr tt)) tt.
Definition floppy_off (nr : Z) : M sst unit :=
  l ← gets moff_timer; idx l (Z.to_nat nr) ;;
  modify (fun s => set_moff (<[Z.to_nat nr := 3 * HZ]> (moff_timer s)) s).

Definition floppy_tick (i : nat) : M sst unit :=
  s ← get;
  let mask := u8 (Z.shiftl 16 (Z.of_nat i)) in
  if Z.land mask (current_DOR s) =? 0 then skip else
  mon ← idx (mon_timer s) i;
  moff ← idx (moff_timer s) i;
  if negb (mon =? 0) then
    modify (fun s => set_mon (<[i := mon - 1]> (mon_timer s)) s) ;;
    if mon - 1 =? 0 then wake_up (Some i) else skip
  else if moff =? 0 then
    modify (set_DOR (Z.land (current_DOR s) (u8 (Z.lnot mask)))) ;;
    event_ (EOutDOR (Z.land (current_DOR s) (u8 (Z.lnot mask))))
  else modify (fun s => set_moff (<[i := moff - 1]> (moff_timer s)) s).
Definition do_floppy_timer : M sst unit := for_range 0 4 floppy_tick.

(** ** Timers *)

Definition get_timer (i : nat) : M sst timer := l ← gets timer_list; idx l i.
Definition put_timer (i : nat) (t : timer) : M sst unit :=
  get_timer i ;; modify (fun s => set_timers (<[i := t]> (timer_list s)) s).

(** The first free entry. *)
Fixpoint free_timer (l : list timer) : option nat :=
  match l with
  | [] => None
  | t :: l' => match t_fn t with None => Some 0%nat | Some _ => S <$> free_timer l' end
  end.

(** The loop of [add_timer] at entry [p]: swap with an earlier successor. *)
Definition add_timer_step (p : nat) : M sst (nat + unit) :=
  x ← get_timer p;
  match t_next x with
  | None => mret (inr tt)
  | Some n =>
      y ← get_timer n;
      if t_jiffies y <? t_jiffies x then
        put_timer p (mkTimer (t_jiffies y) (t_fn y) (Some n)) ;;
        put_timer n (mkTimer (s32 (t_jiffies x - t_jiffies y)) (t_fn x) (t_next y)) ;;
        mret (inl n)
      else mret (inr tt)
  end.

Definition add_timer (jiffies : Z) (fn : option nat) : M sst unit :=
  match fn with
  | None => skip
  | Some f =>
      if jiffies <=? 0 then event_ (ETimer f) else
      l ← gets timer_list;
      match free_timer l with
      | None => panic "No more time requests free"
      | Some p =>
          nt ← gets next_timer;
          put_timer p (mkTimer jiffies (Some f) nt) ;;
          modify (set_next_timer (Some p)) ;;
          loop (S TIME_REQUESTS) add_timer_step p
      end
  end.

(** The loop of [do_timer] over expired timers. *)
Definition expire_step (_ : unit) : M sst (unit + unit) :=
  nt ← gets next_timer;
  match nt with
  | None => mret (inr tt)
  | Some p =>
      x ← get_timer p;
      if t_jiffies x <=? 0 then
        put_timer p (mkTimer (t_jiffies x) None (t_next x)) ;;
        modify (set_next_timer (t_next x)) ;;
        f ← deref (t_fn x);
        event_ (ETimer f) ;; mret (inl tt)
      else mret (inr tt)
  end.
Definition run_timers : M sst unit :=
  nt ← gets next_timer;
  match nt with
  | None => skip
  | Some p =>
      x ← get_timer p;
      put_timer p (mkTimer (s32 (t_jiffies x - 1)) (t_fn x) (t_next x)) ;;
      loop (S TIME_REQUESTS) expire_step tt
  end.

Definition do_timer (fuel : nat) (cpl : Z) : M sst unit :=
  s ← get;
  (if negb (blankcount s =? 0) || (blankinterval s =? 0) then
     (if negb (blanked s =? 0) then event_ EUnblank else skip) ;;
     modify (set_blank (if negb (blankcount s =? 0) then blankcount s - 1 else 0) 0)
   else if blanked s =? 0 then event_ EBlank ;; modify (set_blank (blankcount s) 1) else skip) ;;
  s ← get;
  (if negb (hd_timeout s =? 0) then
     modify (set_hd (hd_timeout s - 1)) ;; if hd_timeout s - 1 =? 0 then event_ EHdTimeout else skip
   else skip) ;;
  s ← get;
  (if negb (beepcount s =? 0) then
     modify (set_beep (beepcount s - 1)) ;; if beepcount s - 1 =? 0 then event_ EBeepStop else skip
   else skip) ;;
  c ← gets current;
  (if negb (cpl =? 0) then upd_task c (fun t => set_utime (s32 (utime t + 1)) t)
   else upd_task c (fun t => set_stime (s32 (stime t + 1)) t)) ;;
  run_timers ;;
  s ← get;
  (if negb (Z.land (current_DOR s) 240 =? 0) then do_floppy_timer else skip) ;;
  upd_task c (fun t => set_counter (s32 (counter t - 1)) t) ;;
  t ← get_task c;
  if 0 <? counter t then skip else
  upd_task c (set_counter 0) ;;
  if cpl =? 0 then skip else schedule fuel.

(** ** System calls *)

Definition sys_alarm (seconds : Z) : M sst Z :=
  c ← gets current; t ← get_task c; now ← gets jiffies;
  let old := if negb (alarm t =? 0) then s32 (u32 (alarm t - now) / HZ) else s32 (alarm t) in
  upd_task c (set_alarm (if 0 <? seconds then u32 (now + HZ * seconds) else 0)) ;;
  mret old.
Definition sys_getpid : M sst Z := c ← gets current; t ← get_task c; mret (pid t).
Definition sys_getppid : M sst Z := c ← gets current; t ← get_task c; f ← get_task (p_pptr t); mret (pid f).
Definition sys_getuid : M sst Z := c ← gets current; t ← get_task c; mret (uid t).
Definition sys_geteuid : M sst Z := c ← gets current; t ← get_task c; mret (euid t).
Definition sys_getgid : M sst Z := c ← gets current; t ← get_task c; mret (gid t).
Definition sys_getegid : M sst Z := c ← gets current; t ← get_task c; mret (egid t).
Definition sys_nice (increment : Z) : M sst Z :=
  c ← gets current; t ← get_task c;
  (if 0 <? s32 (priority t - increment) then upd_task c (set_priority (s32 (priority t - increment))) else skip) ;;
  mret 0.

(** ** What schedule chooses *)

Lemma nodup_bound (ns : list nat) k : NoDup ns -> Forall (fun n => (n < k)%nat) ns -> (length ns <= k)%nat.
Proof.
  intros Hd Hb. rewrite <- (length_seq k 0). apply submseteq_length, NoDup_submseteq; [done|].
  intros x Hx. apply elem_of_seq. pose proof (Forall_forall (fun n => (n < k)%nat) ns) as [H _]. specialize (H Hb x Hx). lia.
Qed.


Definition task_ok (t : task_struct) : Prop := 1 <= priority t <= 1073741824 /\ 0 <= counter t < 2147483648.
Record sched_ok (s : sst) : Prop := {
  so_len : length (task s) = NR_TASKS;
  so_tasks : forall i t, task s !! i = Some (Some t) -> task_ok t }.

(** Task [i], not the idle task, is runnable with counter [c]. *)
Definition runs (l : list (option task_struct)) (i : nat) (c : Z) : Prop :=
  (1 <= i)%nat /\ exists t, l !! i = Some (Some t) /\ state t = TASK_RUNNING /\ counter t = c.

Lemma best_spec l : forall i c next,
  (best l i c next = (c, next) /\ forall j k, (j <= i)%nat -> runs l j k -> k <= c) \/
  (exists c' n', best l i c next = (c', n') /\ c < c' /\ (n' <= i)%nat /\ runs l n' c' /\
     forall j k, (j <= i)%nat -> runs l j k -> k <= c' /\ ((n' < j)%nat -> k < c')).
Proof.
  induction i as [|i IH]; intros c next; cbn [best].
  - left. split; [done|]. intros j k Hj [H1 _]. lia.
  - destruct (l !! S i) as [[t|]|] eqn:El.
    2,3: destruct (IH c next) as [[E H]|(c' & n' & E & H1 & H2 & H3 & H4)];
      [left; split; [done|]|right; exists c', n'; split_and!; [done|done|lia|done|]];
      intros j k Hj Hr; (destruct (decide (j = S i)) as [->|]; [by destruct Hr as (_ & t' & Hl & _); rewrite El in Hl|]);
      [apply (H j k); [lia|done]|apply (H4 j k); [lia|done]].
    destruct (Z.eqb_spec (state t) TASK_RUNNING) as [Hs|Hs], (Z.ltb_spec c (counter t)) as [Hc|Hc]; cbn [andb].
    + assert (runs l (S i) (counter t)) as Hrun by (split; [lia|by exists t]).
      right. destruct (IH (counter t) (S i)) as [[E H]|(c' & n' & E & H1 & H2 & H3 & H4)].
      * exists (counter t), (S i). split_and!; [done|lia|lia|done|]. intros j k Hj Hr. split; [|lia].
        destruct (decide (j = S i)) as [->|]; [|apply (H j k); [lia|done]].
        destruct Hr as (_ & t' & Hl & _ & <-). rewrite El in Hl. injection Hl as <-. lia.
      * exists c', n'. split_and!; [done|lia|lia|done|]. intros j k Hj Hr.
        destruct (decide (j = S i)) as [->|]; [|apply (H4 j k); [lia|done]].
        destruct Hr as (_ & t' & Hl & _ & <-). rewrite El in Hl. injection Hl as <-. lia.
    + destruct (IH c next) as [[E H]|(c' & n' & E & H1 & H2 & H3 & H4)].
      * left. split; [done|]. intros j k Hj Hr. destruct (decide (j = S i)) as [->|]; [|apply (H j k); [lia|done]].
        destruct Hr as (_ & t' & Hl & _ & <-). rewrite El in Hl. injection Hl as <-. lia.
      * right. exists c', n'. split_and!; [done|done|lia|done|]. intros j k Hj Hr.
        destruct (decide (j = S i)) as [->|]; [|apply (H4 j k); [lia|done]].
        destruct Hr as (_ & t' & Hl & _ & <-). rewrite El in Hl. injection Hl as <-. lia.
    + destruct (IH c next) as [[E H]|(c' & n' & E & H1 & H2 & H3 & H4)];
        [left; split; [done|]|right; exists c', n'; split_and!; [done|done|lia|done|]];
        intros j k Hj Hr; (destruct (decide (j = S i)) as [->|]; [destruct Hr as (_ & t' & Hl & Hs' & _); rewrite El in Hl; injection Hl as <-; done|]);
        [apply (H j k); [lia|done]|apply (H4 j k); [lia|done]].
    + destruct (IH c next) as [[E H]|(c' & n' & E & H1 & H2 & H3 & H4)];
        [left; split; [done|]|right; exists c', n'; split_and!; [done|done|lia|done|]];
        intros j k Hj Hr; (destruct (decide (j = S i)) as [->|]; [destruct Hr as (_ & t' & Hl & Hs' & _); rewrite El in Hl; injection Hl as <-; done|]);
        [apply (H j k); [lia|done]|apply (H4 j k); [lia|done]].
Qed.

(** The task with the largest counter, of the highest slot among equals; the
    idle task when there is none. *)
Definition chosen (l : list (option task_struct)) (n : nat) : Prop :=
  (n = 0%nat /\ forall j k, ~ runs l j k) \/
  (exists c, runs l n c /\ 0 < c /\ forall j k, runs l j k -> k <= c /\ ((n < j)%nat -> k < c)).

Lemma for_tasks_lookup f s i : (1 <= i)%nat -> task (for_tasks f s) !! i = option_map f <$> (task s !! i).
Proof.
  intros Hi. unfold for_tasks. cbn [task set_task]. destruct (task s) as [|t0 l]; [done|]. destruct i as [|i]; [lia|].
  change ((?x :: ?k) !! S i) with (k !! i). clear. revert i. induction l as [|x l IH]; intros [|i]; try done. cbn. apply IH.
Qed.
Lemma for_tasks_0 f s : task (for_tasks f s) !! 0%nat = task s !! 0%nat.
Proof. unfold for_tasks. cbn. by destruct (task s). Qed.

Lemma for_tasks_ok f s : (forall t, task_ok t -> task_ok (f t)) -> sched_ok s -> sched_ok (for_tasks f s).
Proof.
  intros Hf [H1 H2]. split.
  - unfold for_tasks. cbn. rewrite <- H1. destruct (task s); [done|]. cbn. by rewrite length_map.
  - intros [|i] t; [rewrite for_tasks_0; apply H2|]. rewrite for_tasks_lookup by lia.
    destruct (task s !! S i) as [[t'|]|] eqn:E; try done. cbn. intros [= <-]. apply Hf. by eapply H2.
Qed.

Lemma check_signals_ok now t : task_ok t -> task_ok (check_signals now t).
Proof. unfold check_signals, task_ok. intros H. repeat case_match; cbn; done. Qed.

Lemma recalc_counter t : task_ok t -> counter (recalc t) = counter t / 2 + priority t.
Proof.
  intros [H1 H2]. unfold recalc. cbn. rewrite Z.shiftr_div_pow2 by lia. change (2 ^ 1) with 2.
  assert (0 <= counter t / 2 <= 1073741823) by (split; [apply Z.div_pos; lia|apply Z.lt_succ_r, Z.div_lt_upper_bound; lia]).
  apply s32_id. lia.
Qed.
Lemma recalc_ok t : task_ok t -> task_ok (recalc t).
Proof.
  intros Ht. pose proof Ht as [H1 H2]. split; [done|]. rewrite recalc_counter by done.
  assert (0 <= counter t / 2 <= 1073741823) by (split; [apply Z.div_pos; lia|apply Z.lt_succ_r, Z.div_lt_upper_bound; lia]). lia.
Qed.
Lemma recalc_pos t : task_ok t -> 0 < counter (recalc t).
Proof.
  intros Ht. rewrite recalc_counter by done. pose proof Ht as [H1 H2].
  assert (0 <= counter t / 2) by (apply Z.div_pos; lia). lia.
Qed.

Lemma runs_lt s i c : sched_ok s -> runs (task s) i c -> (i <= NR_TASKS - 1)%nat /\ 0 <= c.
Proof.
  intros [H1 H2] (_ & t & Hl & _ & <-). split; [apply lookup_lt_Some in Hl; rewrite H1 in Hl; unfold NR_TASKS in *; lia|].
  destruct (H2 i t Hl). lia.
Qed.

(** Recalculation keeps who is runnable. *)
Lemma runs_recalc s i c : sched_ok s -> runs (task (for_tasks recalc s)) i c <->
  exists c0 t, runs (task s) i c0 /\ task s !! i = Some (Some t) /\ c = counter (recalc t).
Proof.
  intros Hok. split.
  - intros (Hi & t & Hl & Hs & <-). rewrite for_tasks_lookup in Hl by lia.
    destruct (task s !! i) as [[t'|]|] eqn:E; try done. injection Hl as <-. exists (counter t'), t'. split_and!; [|done|done].
    split; [done|]. by exists t'.
  - intros (c0 & t & (Hi & t' & Hl & Hs & _) & Hl' & ->). rewrite Hl in Hl'. injection Hl' as ->. split; [done|]. exists (recalc t).
    rewrite for_tasks_lookup, Hl by lia. done.
Qed.

(** Two rounds of the loop are enough. *)
Lemma pick_two s fuel : sched_ok s -> (2 <= fuel)%nat ->
  exists n s', loop fuel pick_step tt s = Ok n s' /\ chosen (task s') n /\
    ((s' = s /\ ~ (exists j, runs (task s) j 0 /\ forall i k, runs (task s) i k -> k = 0)) \/
     (s' = for_tasks recalc s /\ exists j, runs (task s) j 0 /\ forall i k, runs (task s) i k -> k = 0)).
Proof.
  intros Hok Hf. destruct fuel as [|[|fuel]]; [lia|lia|].
  destruct (best_spec (task s) (NR_TASKS - 1) (-1) 0) as [[E H]|(c & n & E & H1 & H2 & H3 & H4)].
  - assert (forall j k, ~ runs (task s) j k) as Hnone.
    { intros j k Hr. destruct (runs_lt s j k Hok Hr). specialize (H j k ltac:(lia) Hr). lia. }
    exists 0%nat, s. split_and!; [|by left; split|left; split; [done|]; intros (j & Hr & _); by eapply Hnone].
    apply loop_done. unfold pick_step. erewrite bind_ok by reflexivity. by rewrite E.
  - destruct (decide (c = 0)) as [->|Hc].
    + assert (forall i k, runs (task s) i k -> k = 0) as Hz.
      { intros i k Hr. destruct (runs_lt s i k Hok Hr). destruct (H4 i k ltac:(lia) Hr). lia. }
      set (s1 := for_tasks recalc s). assert (sched_ok s1) as Hok1 by (apply for_tasks_ok; [apply recalc_ok|done]).
      assert (pick_step tt s = Ok (inl tt) s1) as E1.
      { unfold pick_step. erewrite bind_ok by reflexivity. by rewrite E. }
      destruct H3 as (Hn & t & Hl & Hs & Hct).
      assert (runs (task s1) n (counter (recalc t))) as Hr1.
      { apply runs_recalc; [done|]. exists 0, t. split_and!; [|done|done]. split; [done|]. by exists t. }
      destruct (best_spec (task s1) (NR_TASKS - 1) (-1) 0) as [[E' H']|(c' & n' & E' & H1' & H2' & H3' & H4')].
      { destruct (runs_lt s1 _ _ Hok1 Hr1) as [L1 L2]. specialize (H' _ _ L1 Hr1). lia. }
      assert (0 < c') as Hc'.
      { destruct (runs_lt s1 _ _ Hok1 Hr1) as [L1 L2]. destruct (H4' _ _ L1 Hr1) as [Hle _].
        pose proof (recalc_pos t (so_tasks _ Hok n t Hl)). lia. }
      exists n', s1. split_and!.
      * rewrite (loop_next _ _ _ _ _ _ E1). apply loop_done. unfold pick_step. erewrite bind_ok by reflexivity.
        rewrite E'. destruct (Z.eqb_spec c' 0); [lia|]. reflexivity.
      * right. exists c'. split_and!; [done|done|]. intros j k Hr. apply H4'; [by apply (runs_lt s1 j k)|done].
      * right. split; [done|]. exists n. split; [|done]. split; [done|]. by exists t.
    + exists n, s. split_and!.
      * apply loop_done. unfold pick_step. erewrite bind_ok by reflexivity. rewrite E. by rewrite (proj2 (Z.eqb_neq _ _) Hc).
      * right. exists c. destruct (runs_lt s n c Hok H3). split_and!; [done|lia|]. intros j k Hr. apply H4; [by apply (runs_lt s j k)|done].
      * left. split; [done|]. intros (j & _ & Hz). apply Hc. by eapply Hz.
Qed.

(** C38.  The scheduler always decides, after at most one recalculation of the
    counters: it runs the runnable task with the most time left, taking the
    one in the highest slot among equals, and the idle task exactly when no
    task is runnable; counters are recalculated exactly when every runnable
    task has used up its time.  Alarms and timeouts that have passed have been
    delivered before, and all tasks stay well formed. *)
Theorem schedule_decides s fuel :
  sched_ok s -> (2 <= fuel)%nat ->
  let s1 := for_tasks (check_signals (jiffies s)) s in
  exists n s', schedule fuel s = (if (n =? current s)%nat then Ok tt s' else Switched (set_current n s')) /\
    sched_ok s' /\ chosen (task s') n /\
    ((s' = for_tasks recalc s1 /\ exists j, runs (task s1) j 0 /\ forall i k, runs (task s1) i k -> k = 0) \/
     (s' = s1 /\ ~ exists j, runs (task s1) j 0 /\ forall i k, runs (task s1) i k -> k = 0)).
Proof.
  intros Hok Hf s1. assert (sched_ok s1) as Hok1 by (apply for_tasks_ok; [apply check_signals_ok|done]).
  destruct (pick_two s1 fuel Hok1 Hf) as (n & s' & E & Hc & Hs). exists n, s'. split_and!; [|..].
  - unfold schedule. erewrite bind_ok by reflexivity. erewrite bind_ok by reflexivity. fold s1. rewrite (bind_ok _ _ _ _ _ E).
    unfold switch_to. erewrite bind_ok by reflexivity. assert (current s' = current s) as -> by (by destruct Hs as [[-> _]|[-> _]]).
    by destruct (n =? current s)%nat.
  - destruct Hs as [[-> _]|[-> _]]; [done|]. apply for_tasks_ok; [apply recalc_ok|done].
  - done.
  - destruct Hs; [by right|by left].
Qed.

Definition no_tss : tss_struct := mkTss 0 0 0 0 0 0 0 0 0 0 0 0 0 0 0 0 0 0 0 0 0.
Definition no_info : pinfo := mkInfo 0 0 0 0 (-1) None None None (replicate 32 0) 0 0 0 (replicate 20 None) None None 0 0 0 0 no_tss.

(** ** Two tasks that have used up their time, one of them waiting with an
    alarm that is due *)

Definition demo_task (st count al : Z) : task_struct := mkTask st count 15 0 0 0 0 0 0 0 0 0 al 0 0 no_info.
Definition demo_sched (st2 : Z) : sst :=
  mkS (Some (demo_task 0 0 0) :: Some (demo_task 0 0 0) :: Some (demo_task st2 0 50) :: replicate 61 None)
    1 100 (replicate 4 None) (replicate 4 0) (replicate 4 0) 12 0 (replicate 64 (mkTimer 0 None None)) None 0 0 0 0 0 [].

Lemma demo_sched_ok st2 : sched_ok (demo_sched st2).
Proof.
  split; [reflexivity|]. intros [|[|[|i]]] t Ht; [injection Ht as <-; unfold task_ok; cbn; lia..|].
  change (replicate 61 None !! i = Some (Some t)) in Ht. by apply lookup_replicate in Ht as [? _].
Qed.

(** The alarm makes task 2 runnable, both get new time, and task 2 runs. *)
Lemma schedule_decides_witness : exists n s', schedule 2 (demo_sched TASK_INTERRUPTIBLE) = Switched (set_current n s') /\
  chosen (task s') n /\ n = 2%nat.
Proof.
  destruct (schedule_decides (demo_sched TASK_INTERRUPTIBLE) 2 (demo_sched_ok _) ltac:(lia)) as (n & s' & E & _ & Hc & _).
  destruct (Nat.eqb_spec n (current (demo_sched TASK_INTERRUPTIBLE))) as [->|Hn].
  - exfalso. vm_compute in E. discriminate E.
  - exists n, s'. split; [exact E|]. split; [exact Hc|]. apply (f_equal (fun o => match o with Switched x => current x | _ => 0%nat end)) in E.
    cbn [current set_current] in E. rewrite <- E. vm_compute. reflexivity.
Defined.
