(* ===== verification/LinuxTimer.v ===== *)
(** * Linux 0.12: when timers fire

    The pending timers form a list in which each entry counts from the expiry
    of the one before it.  [add_timer] and the timer half of [do_timer] are
    proved against that list, and the list against absolute expiry times. *)

From S2P Require Import Prelude LinuxSched.

(** ** The list in the timer table *)

(** From [p], the entries [ns] hold the delays and functions [l]. *)
Fixpoint chain (ts : list timer) (p : option nat) (ns : list nat) (l : list (Z * nat)) : Prop :=
  match ns, l with
  | [], [] => p = None
  | n :: ns', (d, f) :: l' => p = Some n /\ exists nx, ts !! n = Some (mkTimer d (Some f) nx) /\ chain ts nx ns' l'
  | _, _ => False
  end.

Record tmid (s : sst) (ns : list nat) (l : list (Z * nat)) : Prop := {
  tk_chain : chain (timer_list s) (next_timer s) ns l;
  tk_nodup : NoDup ns;
  tk_len : length (timer_list s) = TIME_REQUESTS;
  tk_free : forall i t, timer_list s !! i = Some t -> t_fn t = None <-> i ∉ ns;
  tk_delays : Forall (fun x => 0 <= x.1 < 2147483648) l }.
(** Between ticks nothing is due. *)
Definition timers_ok (s : sst) (ns : list nat) (l : list (Z * nat)) : Prop :=
  tmid s ns l /\ forall x, head l = Some x -> 0 < x.1.

Lemma tchain_ext ts ts' p ns l : (forall n, n ∈ ns -> ts' !! n = ts !! n) -> chain ts p ns l -> chain ts' p ns l.
Proof.
  revert p l. induction ns as [|n ns IH]; intros p [|[d f] l] He; try done. intros [-> (nx & Hn & Hc)]. split; [done|].
  exists nx. rewrite He by left. split; [done|]. apply IH; [|done]. intros m Hm. apply He. by right.
Qed.
Lemma chain_length ts p ns l : chain ts p ns l -> length ns = length l.
Proof.
  revert p l. induction ns as [|n ns IH]; intros p [|[d f] l]; try done. intros [_ (nx & _ & Hc)]. cbn. f_equal. by eapply IH.
Qed.
Lemma chain_bound ts p ns l : chain ts p ns l -> Forall (fun n => (n < length ts)%nat) ns.
Proof.
  revert p l. induction ns as [|n ns IH]; intros p [|[d f] l]; try done. intros [_ (nx & Hn & Hc)].
  constructor; [by eapply lookup_lt_Some|by eapply IH].
Qed.

(** ** Insertion *)

Fixpoint tinsert (j : Z) (f : nat) (l : list (Z * nat)) : list (Z * nat) :=
  match l with
  | [] => [(j, f)]
  | (d, g) :: l' => if d <? j then (d, g) :: tinsert (j - d) f l' else (j, f) :: (d, g) :: l'
  end.

Lemma wp_put_timer i t x s (Q : unit -> sst -> Prop) :
  timer_list s !! i = Some x -> Q tt (set_timers (<[i := t]> (timer_list s)) s) -> wp (put_timer i t) Q s.
Proof. intros Hi HQ. unfold put_timer, get_timer. wp_simpl. by apply (wp_idx _ _ x). Qed.
Lemma wp_get_timer i x s (Q : timer -> sst -> Prop) : timer_list s !! i = Some x -> Q x s -> wp (get_timer i) Q s.
Proof. intros Hi HQ. unfold get_timer. wp_simpl. by apply (wp_idx _ _ x). Qed.

(** The contents move along the chain; the links do not change. *)
Lemma wp_add_loop fuel : forall s p ns j f l (Q : unit -> sst -> Prop),
  chain (timer_list s) (Some p) (p :: ns) ((j, f) :: l) -> NoDup (p :: ns) -> (length l < fuel)%nat ->
  0 <= j < 2147483648 -> Forall (fun x => 0 <= x.1 < 2147483648) l ->
  (forall ts, chain ts (Some p) (p :: ns) (tinsert j f l) -> length ts = length (timer_list s) ->
     (forall i, i ∉ p :: ns -> ts !! i = timer_list s !! i) ->
     (forall i, i ∈ p :: ns -> exists t, ts !! i = Some t /\ t_fn t <> None) -> Q tt (set_timers ts s)) ->
  wp (loop fuel add_timer_step p) Q s.
Proof.
  induction fuel as [|fuel IH]; intros s p ns j f l Q Hc Hd Hlen Hj Hl HQ; [lia|]. cbn [loop]. wp_simpl.
  pose proof Hc as [_ (nx & Hp & Hc')]. unfold add_timer_step. wp_simpl. apply (wp_get_timer _ (mkTimer j (Some f) nx)); [done|]. cbn [t_next].
  assert (set_timers (timer_list s) s = s) as Eid by (by destruct s).
  assert (forall ns l nx, chain (timer_list s) nx ns l -> forall i, i ∈ ns -> exists t, timer_list s !! i = Some t /\ t_fn t <> None) as Hin.
  { clear. induction ns as [|n ns IH]; intros [|[d g] l] nx; try done; [intros _ i []%not_elem_of_nil|].
    intros [_ (nx' & Hn & Hc)] i [->|Hi]%elem_of_cons; [by exists (mkTimer d (Some g) nx')|by eapply IH]. }
  destruct ns as [|n ns], l as [|[d g] l]; try done.
  { cbn in Hc'. subst nx. wp_simpl. rewrite <- Eid. apply HQ; [done|done|done|by eapply Hin]. }
  destruct Hc' as [-> (ny & Hn & Hc')]. wp_simpl. apply (wp_get_timer _ (mkTimer d (Some g) ny)); [done|]. cbn [t_jiffies t_fn t_next].
  apply Forall_cons in Hl as [Hdr Hl]. cbn [fst] in Hdr. cbn [tinsert] in HQ. destruct (Z.ltb_spec d j) as [Hlt|Hge].
  2: { wp_simpl. rewrite <- Eid. apply HQ; [done|done|done|by eapply Hin]. }
  apply NoDup_cons in Hd as [Hpn Hd]. pose proof Hd as [Hnn _]%NoDup_cons.
  assert (p <> n) as Hne by (intros ->; apply Hpn; left). wp_simpl.
  apply (wp_put_timer _ _ (mkTimer j (Some f) (Some n))); [done|]. wp_simpl.
  apply (wp_put_timer _ _ (mkTimer d (Some g) ny)); [cbn; by rewrite list_lookup_insert_ne|]. wp_simpl. cbn [timer_list set_timers].
  rewrite s32_id by lia. set (ts1 := <[n := _]> (<[p := _]> (timer_list s))).
  assert (length ts1 = length (timer_list s)) as El1 by (unfold ts1; by rewrite !length_insert).
  assert (n < length (timer_list s))%nat as Hnl by (by eapply lookup_lt_Some).
  assert (p < length (timer_list s))%nat as Hpl by (by eapply lookup_lt_Some).
  eapply (IH _ n ns (j - d) f l); [|done|cbn in Hlen; lia|lia|done|].
  - cbn [timer_list set_timers chain]. split; [done|]. exists ny. split; [unfold ts1; apply list_lookup_insert_eq; by rewrite length_insert|].
    eapply tchain_ext; [|exact Hc']. intros m Hm. unfold ts1. rewrite !list_lookup_insert_ne; [done| |]; intros <-; [apply Hpn; by right|done].
  - cbn [timer_list set_timers]. intros ts Hts Hl' Hout Hsome.
    assert (ts !! p = Some (mkTimer d (Some g) (Some n))) as Ep.
    { rewrite Hout by done. unfold ts1. rewrite list_lookup_insert_ne by done. by apply list_lookup_insert_eq. }
    change (Q tt (set_timers ts s)). apply HQ.
    + split; [done|]. exists (Some n). done.
    + by rewrite Hl'.
    + intros i Hi. rewrite Hout by (intros Hi'; apply Hi; by right). unfold ts1.
      rewrite !list_lookup_insert_ne; [done| |]; intros <-; apply Hi; [left|right; left].
    + intros i [->|Hi]%elem_of_cons; [by eexists|by apply Hsome].
Qed.

Lemma free_timer_spec l : match free_timer l with
  | Some p => exists t, l !! p = Some t /\ t_fn t = None
  | None => forall i t, l !! i = Some t -> t_fn t <> None end.
Proof.
  induction l as [|t l IH]; cbn; [done|]. destruct (t_fn t) eqn:E; [|by exists t]. destruct (free_timer l) as [p|]; cbn.
  - exact IH.
  - intros [|i] t' Hl; [injection Hl as <-; congruence|by apply (IH i t')].
Qed.

Lemma tinsert_ok j f l : 0 < j < 2147483648 -> Forall (fun x => 0 <= x.1 < 2147483648) l -> (forall x, head l = Some x -> 0 < x.1) ->
  Forall (fun x => 0 <= x.1 < 2147483648) (tinsert j f l) /\ (forall x, head (tinsert j f l) = Some x -> 0 < x.1).
Proof.
  intros Hj Hl Hh. split.
  - assert (0 <= j < 2147483648) as Hj' by lia. clear Hj Hh. revert j Hj'. induction Hl as [|[d g] l Hd Hl IH]; intros j Hj; cbn [tinsert].
    + by apply Forall_singleton.
    + cbn [fst] in Hd. destruct (Z.ltb_spec d j); [constructor; [done|apply IH; lia]|constructor; [done|by constructor]].
  - destruct l as [|[d g] l]; cbn [tinsert]; [intros x [= <-]; cbn; lia|].
    destruct (Z.ltb_spec d j); cbn; intros x [= <-]; [by apply (Hh (d, g))|cbn; lia].
Qed.

Lemma wp_add_timer s ns l j f (Q : unit -> sst -> Prop) :
  timers_ok s ns l -> 0 < j < 2147483648 -> (length ns < TIME_REQUESTS)%nat ->
  (forall s' ns', timers_ok s' ns' (tinsert j f l) -> events s' = events s -> Q tt s') -> wp (add_timer j (Some f)) Q s.
Proof.
  intros [[T1 T2 T3 T4 T5] T6] Hj Hroom HQ. unfold add_timer. destruct (Z.leb_spec j 0); [lia|]. wp_simpl.
  pose proof (free_timer_spec (timer_list s)) as Hf. destruct (free_timer (timer_list s)) as [p|].
  2: { exfalso. assert (length (seq 0 TIME_REQUESTS) <= length ns)%nat as Hle; [|rewrite length_seq in Hle; lia].
       apply submseteq_length, NoDup_submseteq; [apply NoDup_seq|]. intros i Hi%elem_of_seq.
       destruct (lookup_lt_is_Some_2 (timer_list s) i) as [t Ht]; [lia|].
       destruct (decide (i ∈ ns)); [done|]. exfalso. apply (Hf i t Ht). by apply (T4 i t). }
  destruct Hf as (t & Hp & Hfn). assert (p ∉ ns) as Hpn by (by apply (T4 p t)). wp_simpl.
  apply (wp_put_timer _ _ t); [done|]. wp_simpl. cbn [timer_list set_timers].
  set (ts1 := <[p := mkTimer j (Some f) (next_timer s)]> (timer_list s)).
  assert (p < length (timer_list s))%nat as Hpl by (by eapply lookup_lt_Some).
  assert (length ns = length l) as El by (by eapply chain_length).
  eapply (wp_add_loop _ _ p ns j f l).
  - cbn [timer_list set_timers set_next_timer chain]. split; [done|]. exists (next_timer s). split; [by apply list_lookup_insert_eq|].
    eapply tchain_ext; [|exact T1]. intros n Hn. unfold ts1. apply list_lookup_insert_ne. by intros ->.
  - by apply NoDup_cons.
  - rewrite <- El. lia.
  - lia.
  - done.
  - cbn [timer_list set_timers set_next_timer]. intros ts Hc Hlen Hout Hin. destruct (tinsert_ok j f l Hj T5 T6) as [I1 I2].
    apply (HQ _ (p :: ns)); [|done]. split; [|done]. split; cbn [timer_list next_timer set_timers set_next_timer]; try done.
    + by apply NoDup_cons.
    + rewrite Hlen. unfold ts1. by rewrite length_insert.
    + intros i x Hi. destruct (decide (i ∈ p :: ns)) as [Hin'|Hnin].
      * destruct (Hin i Hin') as (y & Hy & Hyn). rewrite Hi in Hy. injection Hy as <-. split; [done|]. intros Hx. by destruct Hx.
      * rewrite Hout in Hi by done. apply not_elem_of_cons in Hnin as Hn2. destruct Hn2 as [N1 N2].
        unfold ts1 in Hi. rewrite list_lookup_insert_ne in Hi by done. split; [done|]. intros _. by apply (T4 i x).
Qed.

(** ** A tick *)

Fixpoint due (l : list (Z * nat)) : list nat * list (Z * nat) :=
  match l with
  | (d, f) :: l' => if d <=? 0 then (f :: (due l').1, (due l').2) else ([], l)
  | [] => ([], [])
  end.
Definition tick (l : list (Z * nat)) : list nat * list (Z * nat) :=
  match l with (d, f) :: l' => due ((d - 1, f) :: l') | [] => ([], []) end.

Lemma wp_expire fuel : forall s ns l (Q : unit -> sst -> Prop), tmid s ns l -> (length l < fuel)%nat ->
  (forall s' ns', timers_ok s' ns' (due l).2 -> (length ns' <= length ns)%nat -> events s' = events s ++ (ETimer <$> (due l).1) -> Q tt s') ->
  wp (loop fuel expire_step tt) Q s.
Proof.
  induction fuel as [|fuel IH]; intros s ns l Q [T1 T2 T3 T4 T5] Hlen HQ; [lia|]. cbn [loop]. rewrite wp_bind. unfold expire_step at 1. rewrite wp_bind, wp_gets.
  destruct ns as [|n ns], l as [|[d f] l]; try done.
  { cbn in T1. rewrite T1. wp_simpl. apply (HQ s []); [split; [by split|done]|done|by rewrite app_nil_r]. }
  pose proof T1 as [Hnt (nx & Hn & Hc)]. rewrite Hnt. wp_simpl. apply (wp_get_timer _ (mkTimer d (Some f) nx)); [done|]. cbn [t_jiffies t_fn t_next].
  apply Forall_cons in T5 as [Hd T5]. cbn [fst] in Hd. cbn [due] in HQ. destruct (Z.leb_spec d 0) as [Hle|Hgt].
  2: { wp_simpl. apply (HQ s (n :: ns)); [|done|by rewrite app_nil_r]. split; [|intros x [= <-]; done]. split; try done. by constructor. }
  wp_simpl. apply (wp_put_timer _ _ (mkTimer d (Some f) nx)); [done|]. wp_simpl. cbn [deref]. unfold event_. wp_simpl.
  apply NoDup_cons in T2 as [Hnn T2]. assert (n < length (timer_list s))%nat as Hnl by (by eapply lookup_lt_Some).
  eapply (IH _ ns l).
  - split; cbn [timer_list next_timer set_timers set_next_timer emit].
    + eapply tchain_ext; [|exact Hc]. intros m Hm. apply list_lookup_insert_ne. by intros ->.
    + done.
    + by rewrite length_insert.
    + intros i t Hi. destruct (decide (i = n)) as [->|Hne].
      * rewrite list_lookup_insert_eq in Hi by done. injection Hi as <-. done.
      * rewrite list_lookup_insert_ne in Hi by done. rewrite (T4 i t Hi), not_elem_of_cons. split; [by intros [_ ?]|by split].
    + done.
  - cbn in Hlen. lia.
  - intros s' ns' Hok Hlen' Ev. apply (HQ s' ns'); [done|cbn; lia|]. rewrite Ev. cbn [events emit set_next_timer set_timers].
    by rewrite <- app_assoc.
Qed.

Lemma wp_run_timers s ns l (Q : unit -> sst -> Prop) : timers_ok s ns l ->
  (forall s' ns', timers_ok s' ns' (tick l).2 -> (length ns' <= length ns)%nat -> events s' = events s ++ (ETimer <$> (tick l).1) -> Q tt s') ->
  wp run_timers Q s.
Proof.
  intros [T Hh] HQ. pose proof T as [T1 T2 T3 T4 T5]. unfold run_timers. wp_simpl. destruct ns as [|n ns], l as [|[d f] l]; try done.
  { cbn in T1. rewrite T1. wp_simpl. apply (HQ s []); [split; done|done|by rewrite app_nil_r]. }
  pose proof T1 as [Hnt (nx & Hn & Hc)]. rewrite Hnt. wp_simpl. apply (wp_get_timer _ (mkTimer d (Some f) nx)); [done|]. cbn [t_jiffies t_fn t_next].
  wp_simpl. apply (wp_put_timer _ _ (mkTimer d (Some f) nx)); [done|]. wp_simpl. specialize (Hh (d, f) eq_refl). cbn in Hh.
  apply Forall_cons in T5 as [Hd T5]. cbn [fst] in Hd. rewrite s32_id by lia.
  pose proof (chain_length _ _ _ _ T1) as El. pose proof (nodup_bound _ _ T2 (chain_bound _ _ _ _ T1)) as Hb. rewrite T3 in Hb.
  apply NoDup_cons in T2 as HT2. destruct HT2 as [Hnn _]. assert (n < length (timer_list s))%nat as Hnl by (by eapply lookup_lt_Some).
  eapply (wp_expire _ _ (n :: ns) ((d - 1, f) :: l)).
  - split; cbn [timer_list next_timer set_timers].
    + split; [done|]. exists nx. split; [by apply list_lookup_insert_eq|]. eapply tchain_ext; [|exact Hc].
      intros m Hm. apply list_lookup_insert_ne. by intros ->.
    + done.
    + by rewrite length_insert.
    + intros i t Hi. destruct (decide (i = n)) as [->|Hne].
      * rewrite list_lookup_insert_eq in Hi by done. injection Hi as <-. cbn. split; [done|]. intros Hx. destruct Hx. left.
      * rewrite list_lookup_insert_ne in Hi by done. by apply T4.
    + constructor; [cbn; lia|done].
  - cbn in *. lia.
  - intros s' ns' Hok Hlen Ev. by apply (HQ s' ns').
Qed.

(** ** Expiry times *)

(** When each timer is due, counted from now, if [base] is the time the first
    delay counts from. *)
Fixpoint expiries (base : Z) (l : list (Z * nat)) : list (Z * nat) :=
  match l with (d, f) :: l' => (base + d, f) :: expiries (base + d) l' | [] => [] end.
Definition later (k : Z) (l : list (Z * nat)) : list (Z * nat) := (fun x => (x.1 + k, x.2)) <$> l.
Definition fired (n : Z) (l : list (Z * nat)) : list nat := snd <$> filter (fun x => x.1 <= n) l.
Definition total (l : list (Z * nat)) : Z := foldr (fun x a => x.1 + a) 0 l.

Lemma expiries_base b k l : expiries (b + k) l = later k (expiries b l).
Proof.
  revert b. induction l as [|[d f] l IH]; intros b; [done|]. cbn [expiries later]. unfold later in *. rewrite fmap_cons. cbn [fst snd].
  f_equal; [f_equal; lia|]. rewrite <- IH. f_equal. lia.
Qed.
Lemma expiries_ge b l x : Forall (fun x => 0 <= x.1 < 2147483648) l -> x ∈ expiries b l -> b <= x.1.
Proof.
  revert b. induction l as [|[d f] l IH]; intros b Hl; cbn [expiries]; [intros []%not_elem_of_nil|].
  apply Forall_cons in Hl as [Hd Hl]. cbn in Hd. intros [->|Hx]%elem_of_cons; [cbn; lia|]. specialize (IH _ Hl Hx). lia.
Qed.

Lemma due_expiries l : Forall (fun x => 0 <= x.1 < 2147483648) l ->
  expiries 0 l = ((fun f => (0, f)) <$> (due l).1) ++ expiries 0 (due l).2 /\ (forall x, x ∈ expiries 0 (due l).2 -> 0 < x.1) /\
  Forall (fun x => 0 <= x.1 < 2147483648) (due l).2.
Proof.
  induction l as [|[d f] l IH]; intros Hl; cbn [due]; [split_and!; [done|intros x []%not_elem_of_nil|done]|].
  pose proof Hl as [Hd Hl']%Forall_cons. cbn in Hd. destruct (Z.leb_spec d 0) as [Hle|Hgt].
  - assert (d = 0) as -> by lia. destruct (IH Hl') as (E & H1 & H2). cbn [fst snd expiries]. change (0 + 0) with 0. rewrite E. done.
  - split_and!; [done| |done]. intros x [->|Hx]%elem_of_cons; [cbn; lia|]. apply expiries_ge in Hx; [lia|done].
Qed.

Lemma fired_app n a b : fired n (a ++ b) = fired n a ++ fired n b.
Proof. unfold fired. by rewrite filter_app, fmap_app. Qed.
Lemma fired_later n k l : fired n (later k l) = fired (n - k) l.
Proof.
  unfold fired, later. induction l as [|[e f] l IH]; [done|]. rewrite fmap_cons, !filter_cons. cbn [fst snd].
  destruct (decide (e + k <= n)), (decide (e <= n - k)); try lia; rewrite ?fmap_cons, IH; done.
Qed.
Lemma fired_zeros n fs : 0 <= n -> fired n ((fun f => (0, f)) <$> fs) = fs.
Proof. intros Hn. unfold fired. induction fs as [|f fs IH]; [done|]. rewrite fmap_cons, filter_cons. cbn [fst]. rewrite decide_True by done. rewrite fmap_cons. by rewrite IH. Qed.
Lemma fired_none l : (forall x, x ∈ l -> 0 < x.1) -> fired 0 l = [].
Proof.
  intros Hl. unfold fired. induction l as [|x l IH]; [done|]. rewrite filter_cons. rewrite decide_False by (specialize (Hl x ltac:(left)); lia).
  apply IH. intros y Hy. apply Hl. by right.
Qed.

(** Repeated ticks fire exactly the timers that are due, in order. *)
Fixpoint ticks (n : nat) (l : list (Z * nat)) : list nat * list (Z * nat) :=
  match n with O => ([], l) | S n' => ((tick l).1 ++ (ticks n' (tick l).2).1, (ticks n' (tick l).2).2) end.

Lemma ticks_fired n l : Forall (fun x => 0 <= x.1 < 2147483648) l -> (forall x, x ∈ expiries 0 l -> 0 < x.1) ->
  (ticks n l).1 = fired (Z.of_nat n) (expiries 0 l).
Proof.
  revert l. induction n as [|n IH]; intros l Hl Hpos; cbn [ticks fst]; [by rewrite fired_none|].
  destruct l as [|[d f] l]; cbn [tick].
  { cbn. assert (forall n, (ticks n []).1 = []) as -> by (clear; intros n; induction n; done). done. }
  assert (0 < d) as Hd by (specialize (Hpos (0 + d, f) ltac:(left)); cbn in Hpos; lia).
  assert (Forall (fun x => 0 <= x.1 < 2147483648) ((d - 1, f) :: l)) as Hl1.
  { apply Forall_cons in Hl as [H1 H2]. constructor; [cbn in *; lia|done]. }
  destruct (due_expiries _ Hl1) as (E & H1 & H2). rewrite IH by done.
  assert (expiries 0 ((d, f) :: l) = later 1 (expiries 0 ((d - 1, f) :: l))) as ->.
  { rewrite <- expiries_base. cbn [expiries]. f_equal; [f_equal; lia|f_equal; lia]. }
  rewrite fired_later, E, fired_app, fired_zeros by lia. f_equal. f_equal. lia.
Qed.

(** Where a new timer goes: what is due before it keeps its time, what is due
    at the same time or after it is put off by the delay from the timer before
    the new one. *)
Lemma expiries_tinsert j f l base : 0 < j -> Forall (fun x => 0 <= x.1 < 2147483648) l ->
  exists l1 l2, l = l1 ++ l2 /\
    expiries base (tinsert j f l) = expiries base l1 ++ [(base + j, f)] ++ later (j - total l1) (expiries (base + total l1) l2) /\
    (forall x, x ∈ expiries base l1 -> x.1 < base + j) /\ (forall x, x ∈ expiries (base + total l1) l2 -> base + j <= x.1).
Proof.
  intros Hj Hl. revert j base Hj. induction l as [|[d g] l IH]; intros j base Hj; cbn [tinsert].
  - exists [], []. split_and!; [done|done|intros x []%not_elem_of_nil..].
  - pose proof Hl as [Hd Hl']%Forall_cons. cbn in Hd. destruct (Z.ltb_spec d j) as [Hlt|Hge].
    + destruct (IH Hl' (j - d) (base + d) ltac:(lia)) as (l1 & l2 & -> & E & H1 & H2).
      exists ((d, g) :: l1), l2. assert (total ((d, g) :: l1) = d + total l1) as Et by done.
      replace (base + d + total l1) with (base + total ((d, g) :: l1)) in E, H2 by lia. split_and!; [done| | |].
      * cbn [expiries]. rewrite E. cbn [app]. replace (base + d + (j - d)) with (base + j) by lia.
        by replace (j - d - total l1) with (j - total ((d, g) :: l1)) by lia.
      * intros x [->|Hx]%elem_of_cons; [cbn; lia|]. specialize (H1 x Hx). lia.
      * intros x Hx. specialize (H2 x Hx). lia.
    + exists [], ((d, g) :: l). cbn [app total foldr]. rewrite Z.add_0_r, Z.sub_0_r. split_and!; [done| |intros x []%not_elem_of_nil|].
      * change (expiries base ((j, f) :: (d, g) :: l)) with ((base + j, f) :: expiries (base + j) ((d, g) :: l)). by rewrite expiries_base.
      * intros x [->|Hx]%elem_of_cons; [cbn; lia|]. apply expiries_ge in Hx; [lia|done].
Qed.

Lemma head_expiries l : Forall (fun x => 0 <= x.1 < 2147483648) l -> (forall x, head l = Some x -> 0 < x.1) ->
  forall x, x ∈ expiries 0 l -> 0 < x.1.
Proof.
  destruct l as [|[d f] l]; [intros _ _ x []%not_elem_of_nil|]. intros [Hd Hl]%Forall_cons Hh x Hx. specialize (Hh (d, f) eq_refl). cbn in Hh.
  cbn [expiries] in Hx. apply elem_of_cons in Hx as [->|Hx]; [cbn; lia|]. apply expiries_ge in Hx; [lia|done].
Qed.

Lemma wp_ticks n : forall i s ns l (Q : unit -> sst -> Prop), timers_ok s ns l ->
  (forall s', events s' = events s ++ (ETimer <$> (ticks n l).1) -> Q tt s') ->
  wp (for_range i n (fun _ => run_timers)) Q s.
Proof.
  induction n as [|n IH]; intros i s ns l Q Hok HQ; cbn [for_range ticks].
  - rewrite wp_skip. apply HQ. by rewrite app_nil_r.
  - rewrite wp_bind. apply (wp_run_timers s ns l); [done|]. intros s1 ns1 Hok1 _ E1. apply (IH _ s1 ns1 (tick l).2); [done|].
    intros s2 E2. apply HQ. rewrite E2, E1. cbn [fst ticks]. by rewrite fmap_app, app_assoc.
Qed.

(** C39.  A timer set with [add_timer] for [j] ticks from now runs at exactly the
    [j]th tick, and the timers due before it run when they were due; but every
    timer due at the same time or later is put off, by the delay between the
    new timer and the one before it, because its own delay is not reduced. *)
Theorem timers_fire s ns l j f n :
  timers_ok s ns l -> 0 < j < 2147483648 -> (length ns < TIME_REQUESTS)%nat ->
  exists l1 l2 s', l = l1 ++ l2 /\
    (add_timer j (Some f) ;; for_range 0 n (fun _ => run_timers)) s = Ok tt s' /\
    events s' = events s ++ (ETimer <$> fired (Z.of_nat n)
      (expiries 0 l1 ++ [(j, f)] ++ later (j - total l1) (expiries (total l1) l2))) /\
    (forall x, x ∈ expiries 0 l1 -> x.1 < j) /\ (forall x, x ∈ expiries (total l1) l2 -> j <= x.1).
Proof.
  intros Hok Hj Hroom. pose proof Hok as [[T1 T2 T3 T4 T5] T6].
  destruct (expiries_tinsert j f l 0 ltac:(lia) T5) as (l1 & l2 & El & E & H1 & H2). rewrite !Z.add_0_l in *.
  assert (wp (add_timer j (Some f) ;; for_range 0 n (fun _ => run_timers))
    (fun _ s' => events s' = events s ++ (ETimer <$> (ticks n (tinsert j f l)).1)) s) as ([] & s' & Er & Ev)%wp_inv.
  { rewrite wp_bind. apply (wp_add_timer s ns l); [done|done|done|]. intros s1 ns1 Hok1 E1. apply (wp_ticks n 0 s1 ns1 (tinsert j f l)); [done|].
    intros s2 E2. by rewrite E2, E1. }
  exists l1, l2, s'. split_and!; [done|done| |done|done]. rewrite Ev. destruct (tinsert_ok j f l Hj T5 T6) as [I1 I2].
  rewrite ticks_fired by (done || by apply head_expiries). by rewrite E.
Qed.

(** ** A timer that waits ten ticks, and one set after it for five *)

Definition demo_sst : sst :=
  mkS (Some (mkTask 0 15 15 0 0 0 0 0 0 0 0 0 0 0 0 no_info) :: replicate 63 None) 0 0 (replicate 4 None) (replicate 4 0) (replicate 4 0) 12 0
    (mkTimer 10 (Some 7%nat) None :: replicate 63 (mkTimer 0 None None)) (Some 0%nat) 0 0 0 0 0 [].

Lemma demo_timers : timers_ok demo_sst [0%nat] [(10, 7%nat)].
Proof.
  split; [split|].
  - split; [done|]. by exists None.
  - apply NoDup_singleton.
  - done.
  - intros [|i] t Ht; [injection Ht as <-; cbn; split; [done|]; intros Hx; destruct Hx; left|].
    change (replicate 63 (mkTimer 0 None None) !! i = Some t) in Ht. apply lookup_replicate in Ht as [-> _]. split; [|done]. intros _ Hx%list_elem_of_singleton. done.
  - apply Forall_singleton. cbn. lia.
  - intros x [= <-]. done.
Qed.

(** The first is due after 15 ticks instead of 10. *)
Lemma timers_fire_witness :
  exists l1 l2 s', [(10, 7%nat)] = l1 ++ l2 /\
    (add_timer 5 (Some 8%nat) ;; for_range 0 14 (fun _ => run_timers)) demo_sst = Ok tt s' /\
    events s' = [ETimer 8] /\
    (forall x, x ∈ expiries 0 l1 -> x.1 < 5) /\ (forall x, x ∈ expiries (total l1) l2 -> 5 <= x.1).
Proof.
  destruct (timers_fire demo_sst [0%nat] [(10, 7%nat)] 5 8 14 demo_timers ltac:(lia) ltac:(unfold TIME_REQUESTS; cbn; lia))
    as (l1 & l2 & s' & H1 & H2 & H3 & H4 & H5).
  exists l1, l2, s'. split_and!; [done|done| |done|done].
  assert ((add_timer 5 (Some 8%nat) ;; for_range 0 14 (fun _ => run_timers)) demo_sst = Ok tt s') as E by exact H2.
  vm_compute in E. injection E as <-. reflexivity.
Defined.
