(* ===== verification/LinuxSleep.v ===== *)
(** * Linux 0.12: nobody is left asleep

    A wait queue of [kernel/sched.c] is a pointer to the last task that went
    to sleep; the rest of the queue is in the variables [tmp] on the kernel
    stacks of the sleepers.  Here those stacks are explicit ([frames]), the
    operations of several tasks interleave as steps, and a wake-up is proved
    to reach every sleeper. *)

From stdpp Require Import gmap fin_map_dom relations.
From S2P Require Import Prelude LinuxSched.

(** ** The state of a task, and what [schedule] may do to it *)

Definition tstate (s : sst) (i : nat) : option Z :=
  match task s !! i with Some (Some t) => Some (state t) | _ => None end.

(** Nothing but the waking of interruptible tasks. *)
Record sframe (s s' : sst) : Prop := {
  sf_ok : sched_ok s';
  sf_queues : queues s' = queues s;
  sf_state : forall i, tstate s' i = tstate s i \/ (tstate s i = Some TASK_INTERRUPTIBLE /\ tstate s' i = Some TASK_RUNNING) }.

Lemma tstate_for_tasks f s i : tstate (for_tasks f s) i =
  match task s !! i with Some (Some t) => Some (state (match i with O => t | S _ => f t end)) | _ => None end.
Proof.
  unfold tstate. destruct i as [|i]; [rewrite for_tasks_0; done|]. rewrite for_tasks_lookup by lia.
  by destruct (task s !! S i) as [[t|]|].
Qed.
Lemma tstate_recalc s i : tstate (for_tasks recalc s) i = tstate s i.
Proof. rewrite tstate_for_tasks. unfold tstate. destruct (task s !! i) as [[t|]|]; try done. by destruct i. Qed.

Lemma check_signals_state now t :
  state (check_signals now t) = state t \/ (state t = TASK_INTERRUPTIBLE /\ state (check_signals now t) = TASK_RUNNING).
Proof. unfold check_signals. repeat case_match; cbn in *; rewrite ?andb_true_iff, ?Z.eqb_eq in *; naive_solver. Qed.

Lemma schedule_frame s fuel : sched_ok s -> (2 <= fuel)%nat ->
  exists n s', schedule fuel s = (if (n =? current s)%nat then Ok tt s' else Switched (set_current n s')) /\
    current s' = current s /\ sframe s s' /\ (n = 0%nat \/ tstate s' n = Some TASK_RUNNING).
Proof.
  intros Hok Hf. set (s1 := for_tasks (check_signals (jiffies s)) s).
  assert (sched_ok s1) as Hok1 by (apply for_tasks_ok; [apply check_signals_ok|done]).
  destruct (pick_two s1 fuel Hok1 Hf) as (n & s' & E & Hc & Hs). exists n, s'. split_and!.
  - unfold schedule. erewrite bind_ok by reflexivity. erewrite bind_ok by reflexivity. fold s1. rewrite (bind_ok _ _ _ _ _ E).
    unfold switch_to. erewrite bind_ok by reflexivity. assert (current s' = current s) as -> by (by destruct Hs as [[-> _]|[-> _]]).
    by destruct (n =? current s)%nat.
  - by destruct Hs as [[-> _]|[-> _]].
  - assert (forall i, tstate s1 i = tstate s i \/ (tstate s i = Some TASK_INTERRUPTIBLE /\ tstate s1 i = Some TASK_RUNNING)) as H1.
    { intros i. unfold s1. rewrite tstate_for_tasks. unfold tstate. destruct (task s !! i) as [[t|]|]; [|by left|by left].
      destruct i as [|i]; [by left|]. destruct (check_signals_state (jiffies s) t) as [->|[E1 E2]]; [by left|right].
      by rewrite E1, E2. }
    destruct Hs as [[-> _]|[-> _]]; (split; [|done|]); [done|done|apply for_tasks_ok; [apply recalc_ok|done]|].
    intros i. rewrite tstate_recalc. apply H1.
  - destruct Hc as [[-> _]|(c & (_ & t & Hl & Ht & _) & _)]; [by left|right]. unfold tstate. by rewrite Hl, Ht.
Qed.

(** ** The steps of the sleeping code *)

Lemma upd_state s h v z : sched_ok s -> tstate s h = Some z ->
  exists s', upd_task h (set_state v) s = Ok tt s' /\ sched_ok s' /\ queues s' = queues s /\ current s' = current s /\
    forall i, tstate s' i = if decide (i = h) then Some v else tstate s i.
Proof.
  intros [H1 H2] Ht. unfold tstate in Ht. destruct (task s !! h) as [[t|]|] eqn:E; try done.
  eexists. split_and!.
  - unfold upd_task, get_task. erewrite bind_ok.
    2: { erewrite bind_ok by reflexivity. erewrite bind_ok by (unfold idx; by rewrite E). reflexivity. }
    reflexivity.
  - split; cbn; [by rewrite length_insert|]. intros i t' Hi.
    destruct (decide (i = h)) as [->|]; [|rewrite list_lookup_insert_ne in Hi by done; by eapply H2].
    rewrite list_lookup_insert_eq in Hi by (by eapply lookup_lt_Some). injection Hi as <-. by apply (H2 h t).
  - done.
  - done.
  - intros i. unfold tstate. cbn. destruct (decide (i = h)) as [->|]; [|by rewrite list_lookup_insert_ne].
    by rewrite list_lookup_insert_eq by (by eapply lookup_lt_Some).
Qed.

Lemma get_queue_ok p q s : queues s !! p = Some q -> get_queue p s = Ok q s.
Proof. intros Hq. unfold get_queue. erewrite bind_ok by reflexivity. unfold idx. by rewrite Hq. Qed.
Lemma put_queue_ok p q v s : queues s !! p = Some q -> put_queue p v s = Ok tt (set_queues (<[p := v]> (queues s)) s).
Proof. intros Hq. unfold put_queue. by rewrite (bind_ok _ _ _ _ _ (get_queue_ok _ _ _ Hq)). Qed.
Lemma tstate_set_queues v s i : tstate (set_queues v s) i = tstate s i.
Proof. done. Qed.
Lemma sched_ok_ext s s' : task s' = task s -> sched_ok s -> sched_ok s'.
Proof. intros E [H1 H2]. split; rewrite E; done. Qed.

(** Task [i] becomes runnable when there is one. *)
Definition waked (i : option nat) (s s' : sst) : Prop :=
  forall j, tstate s' j = if decide (Some j = i) then Some TASK_RUNNING else tstate s j.

(** Leaving the queue: the next sleeper takes the place of the current task. *)
Lemma leave_ok s p q tmp : sched_ok s -> queues s !! p = Some (Some q) -> (forall t, tmp = Some t -> is_Some (tstate s t)) ->
  exists s', (q0 ← get_queue p; (match q0 with None => event_ (EPrint "Warning: *P = NULL") | Some _ => skip end) ;;
              put_queue p tmp ;; match tmp with None => skip | Some t => upd_task t (set_state 0) end) s = Ok tt s' /\
    sched_ok s' /\ queues s' = <[p := tmp]> (queues s) /\ waked tmp s s'.
Proof.
  intros Hok Hq Ht. rewrite (bind_ok _ _ _ _ _ (get_queue_ok _ _ _ Hq)). erewrite bind_ok by reflexivity.
  rewrite (bind_ok _ _ _ _ _ (put_queue_ok _ _ tmp _ Hq)). set (s1 := set_queues _ s).
  destruct tmp as [t|]; [|exists s1; split_and!; [done|by apply (sched_ok_ext s)|done|intros j; by rewrite decide_False]].
  destruct (Ht t eq_refl) as [z Hz]. destruct (upd_state s1 t TASK_RUNNING z) as (s' & E & H1 & H2 & H3 & H4); [by apply (sched_ok_ext s)|done|].
  exists s'. split_and!; [done|done|by rewrite H2|]. intros j. rewrite H4. unfold s1. rewrite tstate_set_queues.
  repeat case_decide; naive_solver.
Qed.

(** The last to go to sleep leaves at once. *)
Lemma resume_head s p tmp fuel : sched_ok s -> (1 <= fuel)%nat -> queues s !! p = Some (Some (current s)) ->
  (forall t, tmp = Some t -> is_Some (tstate s t)) ->
  exists s', sleep_resume fuel p tmp s = Ok tt s' /\ sched_ok s' /\ queues s' = <[p := tmp]> (queues s) /\ waked tmp s s'.
Proof.
  intros Hok Hf Hq Ht. unfold sleep_resume. destruct fuel as [|fuel]; [lia|].
  erewrite bind_ok; [by eapply leave_ok|]. apply loop_done. unfold sleep_step.
  rewrite (bind_ok _ _ _ _ _ (get_queue_ok _ _ _ Hq)). erewrite bind_ok by reflexivity. by rewrite Nat.eqb_refl.
Qed.

(** Any other wakes the last one and goes back to sleep. *)
Lemma resume_other s p tmp fuel h : sched_ok s -> (2 <= fuel)%nat -> queues s !! p = Some (Some h) -> h <> current s ->
  current s <> 0%nat -> is_Some (tstate s h) -> is_Some (tstate s (current s)) ->
  exists s1 s', sleep_resume fuel p tmp s = Switched s' /\ sframe s1 s' /\ queues s1 = queues s /\
    forall i, tstate s1 i = if decide (i = current s) then Some TASK_UNINTERRUPTIBLE else if decide (i = h) then Some TASK_RUNNING else tstate s i.
Proof.
  intros Hok Hf Hq Hne H0 [z1 Hz1] [z2 Hz2].
  destruct (upd_state s h TASK_RUNNING z1 Hok Hz1) as (sa & Ea & A1 & A2 & A3 & A4).
  assert (exists z, tstate sa (current s) = Some z) as [z3 Hz3] by (rewrite A4, decide_False by done; by exists z2).
  destruct (upd_state sa (current s) TASK_UNINTERRUPTIBLE z3 A1 Hz3) as (sb & Eb & B1 & B2 & B3 & B4).
  destruct (schedule_frame sb fuel B1 Hf) as (n & s' & Es & _ & Hfr & Hn).
  assert (n <> current s) as Hnc.
  { intros ->. destruct Hn as [?|Hn]; [done|]. destruct (sf_state _ _ Hfr (current s)) as [E|[E _]].
    - rewrite Hn, B4, decide_True in E by done. done.
    - rewrite B4, decide_True in E by done. done. }
  assert (current sb = current s) as Ecur by (by rewrite B3, A3).
  exists sb, (set_current n s'). split_and!.
  - unfold sleep_resume. apply bind_switched. destruct fuel as [|fuel]; [lia|]. apply loop_switched. unfold sleep_step.
    rewrite (bind_ok _ _ _ _ _ (get_queue_ok _ _ _ Hq)). erewrite bind_ok by reflexivity.
    rewrite (proj2 (Nat.eqb_neq h (current s))) by done. cbn [negb].
    rewrite (bind_ok _ _ _ _ _ Ea), (bind_ok _ _ _ _ _ Eb). apply bind_switched. rewrite Es, Ecur.
    by rewrite (proj2 (Nat.eqb_neq n (current s))).
  - destruct Hfr as [F1 F2 F3]. split; [by apply (sched_ok_ext s')|done|done].
  - by rewrite B2.
  - intros i. rewrite B4. case_decide; [done|]. apply A4.
Qed.

(** Going to sleep; with a signal pending the task may leave again at once. *)
Lemma sleep_ok s p st q fuel : sched_ok s -> (2 <= fuel)%nat -> current s <> 0%nat -> queues s !! p = Some q -> q <> Some (current s) ->
  is_Some (tstate s (current s)) -> (forall t, q = Some t -> is_Some (tstate s t)) ->
  exists s1 s2, sframe s1 s2 /\ queues s1 = <[p := Some (current s)]> (queues s) /\
    (forall i, tstate s1 i = if decide (i = current s) then Some st else tstate s i) /\
    (__sleep_on fuel (Some p) st s = Switched s2 \/
     exists s', __sleep_on fuel (Some p) st s = Ok tt s' /\ sched_ok s' /\ queues s' = queues s /\ waked q s2 s').
Proof.
  intros Hok Hf H0 Hq Hqc [z Hz] Ht. set (sa := set_queues (<[p := Some (current s)]> (queues s)) s).
  assert (sched_ok sa) as Hoka by (by apply (sched_ok_ext s)).
  destruct (upd_state sa (current s) st z Hoka Hz) as (sb & Eb & B1 & B2 & B3 & B4).
  destruct (schedule_frame sb fuel B1 Hf) as (n & s2 & Es & Ec2 & Hfr & Hn). rewrite B3 in Ec2. cbn in Ec2. pose proof Hfr as [F1 F2 F3].
  assert (p < length (queues s))%nat as Hp by (by eapply lookup_lt_Some).
  assert (queues s2 !! p = Some (Some (current s))) as Hq2 by (rewrite F2, B2; by apply list_lookup_insert_eq).
  assert (current sb = current s) as Ecur by (by rewrite B3).
  assert (forall R, schedule fuel sb = R -> __sleep_on fuel (Some p) st s =
    match R with Ok _ x => sleep_resume fuel p q x | Panic m => Panic m | Switched x => Switched x | Fault => Fault | OutOfFuel => OutOfFuel end) as Hun.
  { intros R <-. unfold __sleep_on. erewrite bind_ok by reflexivity. rewrite (proj2 (Nat.eqb_neq _ _) H0).
    rewrite (bind_ok _ _ _ _ _ (get_queue_ok _ _ _ Hq)), (bind_ok _ _ _ _ _ (put_queue_ok _ _ _ _ Hq)), (bind_ok _ _ _ _ _ Eb).
    reflexivity. }
  exists sb. destruct (Nat.eqb_spec n (current sb)) as [->|Hnc].
  - exists s2. split_and!; [done|done|done|right]. rewrite (Hun _ Es).
    destruct (resume_head s2 p q fuel F1 ltac:(lia)) as (s' & E & R1 & R2 & R3).
    { by rewrite Hq2, Ec2. }
    { intros t Et. destruct (Ht t Et) as [zt Hzt]. destruct (F3 t) as [E|[_ E]]; rewrite E; [|done]. rewrite B4. case_decide; [done|].
      unfold sa. rewrite tstate_set_queues. by eexists. }
    exists s'. split_and!; [done|done| |done]. rewrite R2, F2, B2. cbn. rewrite list_insert_insert_eq. by apply list_insert_id.
  - exists (set_current n s2). split_and!; [split; [by apply (sched_ok_ext s2)|done|done]|done|done|left]. by rewrite (Hun _ Es).
Qed.

(** ** Tasks that share a queue *)

(** The variable [tmp] of every task inside [__sleep_on]. *)
Notation frames := (gmap nat (option nat)).
Definition config : Type := sst * frames.

Section Queue.
Context (fuel p : nat).

(** A sleeper that is runnable gets the processor. *)
Inductive resume : config -> config -> Prop :=
| rs_again s k c tmp s' : k !! c = Some tmp -> tstate s c = Some TASK_RUNNING ->
    sleep_resume fuel p tmp (set_current c s) = Switched s' -> resume (s, k) (s', k)
| rs_leave s k c tmp s' : k !! c = Some tmp -> tstate s c = Some TASK_RUNNING ->
    sleep_resume fuel p tmp (set_current c s) = Ok tt s' -> resume (s, k) (s', delete c k).

(** Resumptions, other tasks going to sleep, and wake-ups, in any order. *)
Inductive wstep : config -> config -> Prop :=
| ws_resume x y : resume x y -> wstep x y
| ws_sleep s k c st q s' : k !! c = None -> tstate s c = Some TASK_RUNNING -> queues s !! p = Some q ->
    __sleep_on fuel (Some p) st (set_current c s) = Switched s' -> wstep (s, k) (s', <[c := q]> k)
| ws_stay s k c st s' : k !! c = None -> tstate s c = Some TASK_RUNNING ->
    __sleep_on fuel (Some p) st (set_current c s) = Ok tt s' -> wstep (s, k) (s', k)
| ws_wake s k s' : wake_up (Some p) s = Ok tt s' -> wstep (s, k) (s', k).

(** From the queue variable [q] through the stacks, the sleepers [l]. *)
Fixpoint wchain (k : frames) (q : option nat) (l : list nat) : Prop :=
  match l with
  | [] => q = None
  | n :: l' => q = Some n /\ exists t, k !! n = Some t /\ wchain k t l'
  end.

Record waiting (s : sst) (k : frames) (l : list nat) : Prop := {
  wt_sched : sched_ok s;
  wt_chain : exists q, queues s !! p = Some q /\ wchain k q l;
  wt_nodup : NoDup l;
  wt_dom : forall n, is_Some (k !! n) <-> n ∈ l;
  wt_tasks : forall n, n ∈ l -> n <> 0%nat /\ is_Some (tstate s n) }.

Lemma wchain_ext k k' q l : (forall n, n ∈ l -> k' !! n = k !! n) -> wchain k q l -> wchain k' q l.
Proof.
  revert q. induction l as [|n l IH]; intros q He; [done|]. intros [-> (t & Ht & Hc)]. split; [done|].
  exists t. rewrite He by left. split; [done|]. apply IH; [|done]. intros m Hm. apply He. by right.
Qed.
Lemma wchain_head k q l : wchain k q l -> q = head l.
Proof. by destruct l as [|n l]; [|intros [-> _]]. Qed.

Lemma waiting_size s k l : waiting s k l -> size k = length l.
Proof.
  intros [_ _ H1 H2 _]. rewrite <- (size_dom (D := gset nat) k), <- (size_list_to_set (C := gset nat) l) by done.
  f_equal. apply set_eq. intros n. by rewrite elem_of_dom, H2, elem_of_list_to_set.
Qed.

(** The queue [l] when task states change only. *)
Lemma waiting_states s s' k l : waiting s k l -> sched_ok s' -> queues s' !! p = queues s !! p ->
  (forall i, is_Some (tstate s i) -> is_Some (tstate s' i)) -> waiting s' k l.
Proof.
  intros [H1 H2 H3 H4 H5] Hok Hq Hs. split; [done|by rewrite Hq|done|done|]. intros n Hn. destruct (H5 n Hn) as [? ?]. eauto.
Qed.

Context (Hfuel : (2 <= fuel)%nat).

Definition keeps (s s' : sst) (i : nat) : Prop :=
  tstate s' i = tstate s i \/ (tstate s i = Some TASK_INTERRUPTIBLE /\ tstate s' i = Some TASK_RUNNING).

Lemma keeps_some s s' i : keeps s s' i -> is_Some (tstate s i) -> is_Some (tstate s' i).
Proof. by intros [->|[_ ->]]. Qed.

Lemma step_leave s k c tmp l s' : waiting s k (c :: l) -> k !! c = Some tmp ->
  sleep_resume fuel p tmp (set_current c s) = Ok tt s' -> waiting s' (delete c k) l /\ waked (head l) s s'.
Proof.
  intros [H1 (q & Hq & Hc) H3 H4 H5] Hk E. destruct Hc as [-> (t & Ht & Hc)]. rewrite Ht in Hk. injection Hk as ->.
  apply NoDup_cons in H3 as [Hn Hd]. pose proof (wchain_head _ _ _ Hc) as Eh.
  destruct (resume_head (set_current c s) p tmp fuel) as (s2 & E2 & R1 & R2 & R3); [by apply (sched_ok_ext s)|lia|done| |].
  { intros t ->. apply H5. right. destruct l as [|x l]; [done|]. injection Eh as ->. left. }
  rewrite E2 in E. injection E as <-. rewrite Eh in R3. split; [|done]. cbn in R2.
  assert (p < length (queues s))%nat as Hp by (by eapply lookup_lt_Some). split.
  - done.
  - exists tmp. rewrite R2. split; [by apply list_lookup_insert_eq|]. eapply wchain_ext; [|exact Hc].
    intros m Hm. apply lookup_delete_ne. by intros ->.
  - done.
  - intros m. destruct (decide (m = c)) as [->|Hmc].
    + rewrite lookup_delete_eq. split; [by intros [? ?]|done].
    + rewrite lookup_delete_ne by done. rewrite H4, elem_of_cons. naive_solver.
  - intros m Hm. destruct (H5 m) as [Hm0 Hms]; [by right|]. split; [done|]. rewrite R3. by case_decide.
Qed.

Lemma step_again s k c tmp h l : waiting s k (h :: l) -> c ∈ l -> k !! c = Some tmp ->
  exists s', sleep_resume fuel p tmp (set_current c s) = Switched s' /\ waiting s' k (h :: l) /\
    tstate s' c = Some TASK_UNINTERRUPTIBLE /\ tstate s' h = Some TASK_RUNNING /\ forall i, i <> c -> i <> h -> keeps s s' i.
Proof.
  intros Hw Hc Hk. pose proof Hw as [H1 (q & Hq & [-> _]) H3 H4 H5].
  assert (h <> c) as Hne by (intros ->; by apply NoDup_cons in H3 as [? _]).
  destruct (H5 c) as [C1 C2]; [by right|]. destruct (H5 h) as [D1 D2]; [left|].
  destruct (resume_other (set_current c s) p tmp fuel h) as (s1 & s' & E & [F1 F2 F3] & F4 & F5); try done; [by apply (sched_ok_ext s)|].
  cbn in F4, F5. exists s'. split_and!; [done| | | |].
  - apply (waiting_states s); [done|done|by rewrite F2, F4|]. intros i Hi. apply (keeps_some s1); [apply F3|]. rewrite F5. by repeat case_decide.
  - destruct (F3 c) as [->|[E' _]]; rewrite F5, decide_True in * by done; done.
  - destruct (F3 h) as [->|[E' _]]; rewrite F5, decide_False, decide_True in * by done; done.
  - intros i Hic Hih. destruct (F3 i) as [E1|[E1 E2]]; rewrite F5, !decide_False in E1 by done; [by left|by right].
Qed.

(** A resumption either takes the last sleeper out, or passes the wake-up on. *)
Lemma resume_cases s k l s' k' : waiting s k l -> resume (s, k) (s', k') ->
  (exists c l', l = c :: l' /\ waiting s' k' l' /\ waked (head l') s s') \/
  (exists c h l', l = h :: l' /\ c ∈ l' /\ waiting s' k' l /\ tstate s c = Some TASK_RUNNING /\
     tstate s' c = Some TASK_UNINTERRUPTIBLE /\ tstate s' h = Some TASK_RUNNING /\ forall i, i <> c -> i <> h -> keeps s s' i).
Proof.
  intros Hw Hr.
  assert (exists c tmp, k !! c = Some tmp /\ tstate s c = Some TASK_RUNNING /\
    ((sleep_resume fuel p tmp (set_current c s) = Switched s' /\ k' = k) \/
     (sleep_resume fuel p tmp (set_current c s) = Ok tt s' /\ k' = delete c k))) as (c & tmp & Hk & Hst & He).
  { inversion Hr; subst; eauto 10. }
  assert (c ∈ l) as Hcl by (apply (wt_dom _ _ _ Hw); by exists tmp). destruct l as [|h l]; [by apply not_elem_of_nil in Hcl|].
  destruct (decide (c = h)) as [->|Hch].
  - left. exists h, l. split; [done|]. destruct He as [[E _]|[E ->]]; [|by eapply step_leave].
    destruct Hw as [H1 (q & Hq & [-> (t & Ht & Hc)]) H3 H4 H5]. rewrite Hk in Ht. injection Ht as <-.
    destruct (resume_head (set_current h s) p tmp fuel) as (s2 & E2 & _); [by apply (sched_ok_ext s)|lia|done| |congruence].
    intros t ->. apply H5. right. apply wchain_head in Hc. destruct l; [done|]. injection Hc as ->. left.
  - apply elem_of_cons in Hcl as [?|Hcl]; [done|]. right. exists c, h, l.
    destruct (step_again s k c tmp h l Hw Hcl Hk) as (s2 & E2 & S1 & S2 & S3 & S4).
    destruct He as [[E ->]|[E _]]; [|congruence]. rewrite E2 in E. injection E as ->. split_and!; done.
Qed.

(** ** Sleeping and waking *)

Lemma step_sleep s k l c st q s' : waiting s k l -> k !! c = None -> tstate s c = Some TASK_RUNNING -> queues s !! p = Some q ->
  __sleep_on fuel (Some p) st (set_current c s) = Switched s' ->
  waiting s' (<[c := q]> k) (c :: l) /\ forall i, i <> c -> keeps s s' i.
Proof.
  intros [H1 (q' & Hq' & Hc) H3 H4 H5] Hk Ht Hq E. rewrite Hq in Hq'. injection Hq' as <-.
  assert (c ∉ l) as Hcl by (rewrite <- H4, Hk; by intros [? ?]).
  assert (c <> 0%nat) as Hc0 by (intros ->; by cbn in E). pose proof (wchain_head _ _ _ Hc) as Eh.
  assert (p < length (queues s))%nat as Hp by (by eapply lookup_lt_Some).
  destruct (sleep_ok (set_current c s) p st q fuel) as (s1 & s2 & [F1 F2 F3] & Q1 & T1 & HE); [by apply (sched_ok_ext s)|done|done|done| |by eexists| |].
  { rewrite Eh. destruct l; [done|]. intros [= ->]. apply Hcl. left. }
  { intros t ->. apply H5. destruct l; [done|]. injection Eh as ->. left. }
  destruct HE as [E2|(s3 & E2 & _)]; rewrite E2 in E; [|done]. injection E as ->. cbn in Q1, T1.
  assert (forall i, i <> c -> keeps s s' i) as Hkeep.
  { intros i Hi. unfold keeps. destruct (F3 i) as [Ei|[E1 Ei]]; rewrite Ei; [left|right; split; [|done]; revert E1]; by rewrite T1, decide_False. }
  split; [|done]. split.
  - done.
  - exists (Some c). rewrite F2, Q1. split; [by apply list_lookup_insert_eq|]. split; [done|]. exists q. split; [by rewrite lookup_insert_eq|].
    eapply wchain_ext; [|exact Hc]. intros m Hm. apply lookup_insert_ne. by intros ->.
  - by constructor.
  - intros m. rewrite elem_of_cons. destruct (decide (m = c)) as [->|]; [rewrite lookup_insert_eq; naive_solver|].
    rewrite lookup_insert_ne by done. rewrite H4. naive_solver.
  - intros m [->|Hm]%elem_of_cons.
    + split; [done|]. destruct (F3 c) as [->|[_ ->]]; [rewrite T1, decide_True by done|]; by eexists.
    + destruct (H5 m Hm) as [M1 M2]. split; [done|]. destruct (decide (m = c)) as [->|Hmc]; [done|]. by apply (keeps_some s), M2; apply Hkeep.
Qed.

Lemma step_stay s k l c st s' : waiting s k l -> k !! c = None -> tstate s c = Some TASK_RUNNING ->
  __sleep_on fuel (Some p) st (set_current c s) = Ok tt s' ->
  waiting s' k l /\ forall i, i <> c -> keeps s s' i \/ tstate s' i = Some TASK_RUNNING.
Proof.
  intros Hw Hk Ht E. pose proof Hw as [H1 (q & Hq & Hc) H3 H4 H5].
  assert (c ∉ l) as Hcl by (rewrite <- H4, Hk; by intros [? ?]).
  assert (c <> 0%nat) as Hc0 by (intros ->; by cbn in E). pose proof (wchain_head _ _ _ Hc) as Eh.
  destruct (sleep_ok (set_current c s) p st q fuel) as (s1 & s2 & [F1 F2 F3] & Q1 & T1 & HE); [by apply (sched_ok_ext s)|done|done|done| |by eexists| |].
  { rewrite Eh. destruct l; [done|]. intros [= ->]. apply Hcl. left. }
  { intros t ->. apply H5. destruct l; [done|]. injection Eh as ->. left. }
  destruct HE as [E2|(s3 & E2 & R1 & R2 & R3)]; rewrite E2 in E; [done|]. injection E as ->. cbn in Q1, T1, R2.
  split.
  - apply (waiting_states s); [done|done|by rewrite R2|]. intros i Hi. rewrite R3. case_decide; [done|].
    apply (keeps_some s1); [apply F3|]. rewrite T1. by case_decide.
  - intros i Hi. rewrite R3. case_decide; [by right|left]. unfold keeps. rewrite R3, decide_False by done.
    destruct (F3 i) as [Ei|[E1 Ei]]; rewrite Ei; [left|right; split; [|done]; revert E1]; by rewrite T1, decide_False.
Qed.

(** [wake_up] makes the last sleeper runnable. *)
Lemma step_wake s k l s' : waiting s k l -> wake_up (Some p) s = Ok tt s' -> waiting s' k l /\ waked (head l) s s'.
Proof.
  intros Hw E. pose proof Hw as [H1 (q & Hq & Hc) H3 H4 H5]. pose proof (wchain_head _ _ _ Hc) as Eh. rewrite <- Eh. unfold wake_up in E.
  rewrite (bind_ok _ _ _ _ _ (get_queue_ok _ _ _ Hq)) in E. destruct q as [h|]; [|injection E as <-; split; [done|]; intros j; by rewrite decide_False].
  destruct (H5 h) as [_ [z Hz]]; [destruct l; [done|]; injection Eh as ->; left|]. pose proof Hz as Hz'. unfold tstate in Hz'.
  destruct (task s !! h) as [[t|]|] eqn:Et; try done.
  assert (get_task h s = Ok t s) as Eg.
  { unfold get_task. erewrite bind_ok by reflexivity. erewrite bind_ok by (unfold idx; by rewrite Et). reflexivity. }
  rewrite (bind_ok _ _ _ _ _ Eg) in E.
  assert (exists sx, upd_task h (set_state 0) sx = Ok tt s' /\ task sx = task s /\ queues sx = queues s) as (sx & Ex & Tx & Qx).
  { destruct (state t =? TASK_STOPPED), (state t =? TASK_ZOMBIE); cbn in E; eexists; (split; [exact E|done]). }
  assert (forall i, tstate sx i = tstate s i) as Tst by (intros i; unfold tstate; by rewrite Tx).
  destruct (upd_state sx h TASK_RUNNING z) as (sy & Ey & Y1 & Y2 & Y3 & Y4); [by apply (sched_ok_ext s)|by rewrite Tst|].
  change (set_state TASK_RUNNING) with (set_state 0) in Ey. rewrite Ey in Ex. injection Ex as ->.
  assert (waked (Some h) s s') as Hwk by (intros j; rewrite Y4, Tst; repeat case_decide; naive_solver).
  split; [|done]. apply (waiting_states s); [done|done|by rewrite Y2, Qx|]. intros i Hi. rewrite Hwk. by case_decide.
Qed.

(** ** Every sleeper leaves *)

Definition awake (s : sst) (l : list nat) : Prop := l = [] \/ exists n, n ∈ l /\ tstate s n = Some TASK_RUNNING.

Lemma awake_waked s s' l : waked (head l) s s' -> awake s' l.
Proof.
  intros Hw. destruct l as [|h l]; [by left|right]. exists h. split; [left|]. by rewrite Hw, decide_True.
Qed.

Lemma wstep_waiting s k l s' k' : waiting s k l -> wstep (s, k) (s', k') -> exists l', waiting s' k' l' /\ (k <> ∅ -> awake s l -> awake s' l').
Proof.
  intros Hw Hs. inversion Hs as [x y Hr|s0 k0 c st q s1 Hk Ht Hq E|s0 k0 c st s1 Hk Ht E|s0 k0 s1 E]; subst.
  - destruct (resume_cases _ _ _ _ _ Hw Hr) as [(c & l' & -> & Hw' & Hwk)|(c & h & l' & -> & Hc & Hw' & _ & _ & Hh & _)].
    + exists l'. split; [done|]. intros _ _. by eapply awake_waked.
    + exists (h :: l'). split; [done|]. intros _ _. right. exists h. split; [left|done].
  - destruct (step_sleep _ _ _ _ _ _ _ Hw Hk Ht Hq E) as [Hw' Hkp]. exists (c :: l). split; [done|].
    destruct Hw as [_ (q' & Hq' & Hc) _ H4 _]. intros Hne [->|(n & Hn & Hr)].
    + destruct Hne. apply map_empty. intros n. apply eq_None_not_Some. rewrite H4. apply not_elem_of_nil.
    + right. exists n. split; [by right|]. assert (n <> c) as Hnc by (intros ->; apply H4 in Hn as [? ?]; congruence).
      destruct (Hkp n Hnc) as [->|[Hx _]]; [done|]. rewrite Hr in Hx. done.
  - destruct (step_stay _ _ _ _ _ _ Hw Hk Ht E) as [Hw' Hkp]. exists l. split; [done|]. intros _ [->|(n & Hn & Hr)]; [by left|right].
    exists n. split; [done|]. assert (n <> c) as Hnc by (intros ->; apply (wt_dom _ _ _ Hw) in Hn as [? ?]; congruence).
    destruct (Hkp n Hnc) as [[->|[Hx _]]|]; [done|rewrite Hr in Hx; done|done].
  - destruct (step_wake _ _ _ _ Hw E) as [Hw' Hwk]. exists l. split; [done|]. intros _ _. by eapply awake_waked.
Qed.

(** The resumptions left: each sleeper goes back to sleep at most once for
    every one that leaves. *)
Definition restless (s : sst) (n : nat) : Prop := tstate s n <> Some TASK_UNINTERRUPTIBLE.
#[local] Instance restless_dec s n : Decision (restless s n).
Proof. unfold restless. apply _. Defined.
Definition left_over (s : sst) (l : list nat) : nat := (length l * length l + length (filter (restless s) (tail l)))%nat.

Lemma filter_lt (P Q : nat -> Prop) `{!forall x, Decision (P x), !forall x, Decision (Q x)} l c :
  (forall x, x ∈ l -> Q x -> P x) -> c ∈ l -> P c -> ~ Q c -> (length (filter Q l) < length (filter P l))%nat.
Proof.
  assert (forall l, (forall x, x ∈ l -> Q x -> P x) -> (length (filter Q l) <= length (filter P l))%nat) as Hle.
  { clear l c. induction l as [|x l IH]; intros Hi; [done|]. rewrite !filter_cons.
    assert (Q x -> P x) by (apply Hi; left). assert (length (filter Q l) <= length (filter P l))%nat by (apply IH; intros y Hy; apply Hi; by right).
    repeat case_decide; cbn; naive_solver lia. }
  induction l as [|x l IH]; intros Hi Hc HP HQ; [by apply not_elem_of_nil in Hc|]. rewrite !filter_cons.
  assert (forall y, y ∈ l -> Q y -> P y) as Hl by (intros y Hy; apply Hi; by right).
  apply elem_of_cons in Hc as [->|Hc].
  - specialize (Hle l Hl). repeat case_decide; try done. cbn. lia.
  - assert (Q x -> P x) by (apply Hi; left). specialize (IH Hl Hc HP HQ). repeat case_decide; cbn; naive_solver lia.
Qed.

Lemma resume_less s k l s' k' : waiting s k l -> resume (s, k) (s', k') ->
  exists l', waiting s' k' l' /\ (left_over s' l' < left_over s l)%nat.
Proof.
  intros Hw Hr. unfold left_over. destruct (resume_cases _ _ _ _ _ Hw Hr) as [(c & l' & -> & Hw' & _)|(c & h & l' & -> & Hc & Hw' & C1 & C2 & C3 & C4)].
  - exists l'. split; [done|]. assert (length (filter (restless s') (tail l')) <= length l')%nat.
    { etrans; [apply length_filter|]. by destruct l'; cbn; lia. }
    cbn [length tail]. nia.
  - exists (h :: l'). split; [done|]. cbn [tail]. apply Nat.add_lt_mono_l. apply (filter_lt _ _ _ c); [|done|unfold restless; by rewrite C1|unfold restless; naive_solver].
    intros x Hx Hq. destruct (decide (x = c)) as [->|Hxc]; [by unfold restless; rewrite C1|].
    assert (x <> h) as Hxh by (intros ->; apply wt_nodup in Hw'; by apply NoDup_cons in Hw' as [? _]).
    unfold restless in *. destruct (C4 x Hxc Hxh) as [<-|[-> _]]; done.
Qed.

Lemma resume_bound m : forall s k l y, waiting s k l -> nsteps resume m (s, k) y -> (m <= left_over s l)%nat.
Proof.
  induction m as [|m IH]; intros s k l y Hw Hn; [lia|]. inversion Hn as [|? ? [s' k'] ? Hr Hn']; subst.
  destruct (resume_less _ _ _ _ _ Hw Hr) as (l' & Hw' & Hlt). specialize (IH _ _ _ _ Hw' Hn'). lia.
Qed.

(** A runnable sleeper can always be resumed. *)
Lemma resume_progress s k l n : waiting s k l -> n ∈ l -> tstate s n = Some TASK_RUNNING -> exists y, resume (s, k) y.
Proof.
  intros Hw Hn Hr. pose proof Hw as [H1 (q & Hq & Hc) H3 H4 H5]. apply H4 in Hn as Hk. destruct Hk as [tmp Hk].
  destruct l as [|h l]; [by apply not_elem_of_nil in Hn|]. destruct (decide (n = h)) as [->|Hnh].
  - destruct Hc as [-> (t & Ht & Hc)]. rewrite Hk in Ht. injection Ht as <-.
    destruct (resume_head (set_current h s) p tmp fuel) as (s2 & E2 & _); [by apply (sched_ok_ext s)|lia|done| |by eexists; eapply rs_leave].
    intros t ->. apply H5. right. apply wchain_head in Hc. destruct l; [done|]. injection Hc as ->. left.
  - apply elem_of_cons in Hn as [?|Hn]; [done|]. destruct (step_again s k n tmp h l Hw Hn Hk) as (s2 & E2 & _). by eexists; eapply rs_again.
Qed.

(** Steps while somebody waits. *)
Definition busy (x y : config) : Prop := wstep x y /\ x.2 <> ∅.

Lemma reach_waiting x y l : rtc wstep x y -> waiting x.1 x.2 l -> exists l', waiting y.1 y.2 l'.
Proof.
  intros Hr. revert l. induction Hr as [x|[s k] [s' k'] y Hs Hr IH]; intros l Hw; [by exists l|].
  destruct (wstep_waiting _ _ _ _ _ Hw Hs) as (l' & Hw' & _). by apply (IH l').
Qed.
Lemma busy_awake x y l : rtc busy x y -> waiting x.1 x.2 l -> awake x.1 l -> exists l', waiting y.1 y.2 l' /\ awake y.1 l'.
Proof.
  intros Hr. revert l. induction Hr as [x|[s k] [s' k'] y [Hs Hne] Hr IH]; intros l Hw Ha; [by exists l|].
  destruct (wstep_waiting _ _ _ _ _ Hw Hs) as (l' & Hw' & Ha'). apply (IH l'); [done|]. by apply Ha'.
Qed.
End Queue.

Lemma waiting_empty p s k : waiting p s k [] <-> sched_ok s /\ queues s !! p = Some None /\ k = ∅.
Proof.
  split.
  - intros [H1 (q & Hq & ->) H3 H4 H5]. split_and!; [done|done|]. apply map_empty. intros n. apply eq_None_not_Some. rewrite H4. apply not_elem_of_nil.
  - intros (H1 & H2 & ->). split; [done|by exists None|apply NoDup_nil_2|..].
    + intros n. rewrite lookup_empty. split; [by intros [? ?]|by intros ?%not_elem_of_nil].
    + by intros n ?%not_elem_of_nil.
Qed.

(** C16.  A wake-up is never lost: tasks go to sleep on a queue, are resumed
    and woken in any order; after a [wake_up], and until the queue has once
    been empty, resumptions of sleepers cannot go on without end (with n
    sleepers, at most n*n + n of them) and stop only with the queue empty,
    however many tasks have joined it meanwhile. *)
Theorem wake_up_reaches_all fuel p s0 s k s1 y :
  (2 <= fuel)%nat -> sched_ok s0 -> queues s0 !! p = Some None ->
  rtc (wstep fuel p) (s0, ∅) (s, k) -> wake_up (Some p) s = Ok tt s1 -> rtc (busy fuel p) (s1, k) y ->
  (forall m z, nsteps (resume fuel p) m y z -> (m <= size y.2 * size y.2 + size y.2)%nat) /\
  (nf (resume fuel p) y -> y.2 = ∅ /\ queues y.1 !! p = Some None).
Proof.
  intros Hf Hok Hq Hr Hw Hb.
  destruct (reach_waiting fuel p Hf _ _ [] Hr) as [l Hl]; [by apply waiting_empty|].
  destruct (step_wake p _ _ _ _ Hl Hw) as [Hl1 Hwk]. pose proof (awake_waked _ _ _ Hwk) as Ha.
  destruct (busy_awake fuel p Hf _ _ _ Hb Hl1 Ha) as (l' & Hl' & Ha'). destruct y as [sy ky]. cbn [fst snd] in *. split.
  - intros m z Hm. pose proof (resume_bound fuel p Hf _ _ _ _ _ Hl' Hm) as Hle. rewrite (waiting_size _ _ _ _ Hl').
    etrans; [exact Hle|]. unfold left_over. apply Nat.add_le_mono_l. etrans; [apply length_filter|]. destruct l'; cbn; lia.
  - intros Hnf. destruct Ha' as [->|(n & Hn & Hrun)]; [apply waiting_empty in Hl' as (_ & H1 & H2); done|].
    destruct Hnf. by eapply resume_progress.
Qed.

(** ** Two sleepers and one wake-up *)

Definition after_sleep (c : nat) (s : sst) : sst :=
  match sleep_on 2 (Some 0%nat) (set_current c s) with Switched s' => s' | _ => s end.
Definition demo_asleep : sst := after_sleep 2 (after_sleep 1 (demo_sched TASK_RUNNING)).
Definition demo_frames : frames := <[2%nat := Some 1%nat]> (<[1%nat := None]> ∅).
Definition demo_woken : sst := match wake_up (Some 0%nat) demo_asleep with Ok _ s' => s' | _ => demo_asleep end.

Lemma demo_reach : rtc (wstep 2 0) (demo_sched TASK_RUNNING, ∅) (demo_asleep, demo_frames).
Proof.
  eapply rtc_l; [eapply (ws_sleep _ _ _ _ 1 TASK_UNINTERRUPTIBLE None (after_sleep 1 (demo_sched TASK_RUNNING))); vm_compute; reflexivity|].
  eapply rtc_l; [eapply (ws_sleep _ _ _ _ 2 TASK_UNINTERRUPTIBLE (Some 1%nat) demo_asleep); vm_compute; reflexivity|]. apply rtc_refl.
Qed.

Lemma wake_up_reaches_all_witness :
  (forall m z, nsteps (resume 2 0) m (demo_woken, demo_frames) z -> (m <= 6)%nat) /\
  (nf (resume 2 0) (demo_woken, demo_frames) -> demo_frames = ∅ /\ queues demo_woken !! 0%nat = Some None).
Proof.
  exact (wake_up_reaches_all 2 0 (demo_sched TASK_RUNNING) demo_asleep demo_frames demo_woken (demo_woken, demo_frames)
    ltac:(lia) (demo_sched_ok _) eq_refl demo_reach ltac:(vm_compute; reflexivity) (rtc_refl _ _)).
Defined.
