(* ===== verification/LinuxMm.v ===== *)
(** * Linux 0.12: pages, copy on write, demand loading and swapping

    Models [mm/memory.c] and [mm/swap.c].  Physical memory is a function from
    the address of a 32-bit word to its value; the page directory is at 0.
    [mem_map] counts the users of each page above [LOW_MEM].  The block driver
    under the swap device stores pages ([swap_page]); [do_exit] leaves the
    routine with the exit code recorded ([Switched]).  [bmap] and [bread_page]
    of the file system are the interface [FileOps].  Messages of [printk] are
    recorded in [messages].  [invalidate] flushes the translation buffer of
    the processor, which the model does not have. *)

From S2P Require Import Prelude.

Definition PAGE_SIZE : Z := 4096.
Definition LOW_MEM : Z := 1048576.
Definition PAGING_MEMORY : Z := 15 * 1024 * 1024.
Definition PAGING_PAGES : nat := 3840.
Definition USED : Z := 100.
Definition PAGE_DIRTY : Z := 64.
Definition TASK_SIZE : Z := 67108864.
Definition LIBRARY_OFFSET : Z := 67108864 - 4194304.
Definition BLOCK_SIZE : Z := 1024.
Definition SIGSEGV : Z := 11.
Definition SWAP_BITS : Z := 32768.
Definition MAP_NR (addr : Z) : Z := Z.shiftr (u32 (addr - LOW_MEM)) 12.
Definition page_of (e : Z) : Z := Z.land 4294963200 e.

(** The fields of a task these routines use. *)
Record mtask := mkMtask { start_code : Z; end_data : Z; executable : option nat; library : option nat }.

Record mm := mkMm {
  mem : Z -> Z;
  mem_map : list Z;
  HIGH_MEMORY : Z;
  swap_bitmap : option Z;
  SWAP_DEV : Z;
  swap_page : Z -> Z -> Z;
  blk_size : option Z;          (* blk_size[MAJOR(SWAP_DEV)][MINOR(SWAP_DEV)] *)
  dir_entry : Z; page_entry : Z;
  mtasks : list (option mtask);
  mcurrent : nat;
  i_count : nat -> Z;
  messages : list string;
  exited : option Z }.

Definition set_mem v s := mkMm v (mem_map s) (HIGH_MEMORY s) (swap_bitmap s) (SWAP_DEV s) (swap_page s) (blk_size s) (dir_entry s) (page_entry s) (mtasks s) (mcurrent s) (i_count s) (messages s) (exited s).
Definition set_map v s := mkMm (mem s) v (HIGH_MEMORY s) (swap_bitmap s) (SWAP_DEV s) (swap_page s) (blk_size s) (dir_entry s) (page_entry s) (mtasks s) (mcurrent s) (i_count s) (messages s) (exited s).
Definition set_high v s := mkMm (mem s) (mem_map s) v (swap_bitmap s) (SWAP_DEV s) (swap_page s) (blk_size s) (dir_entry s) (page_entry s) (mtasks s) (mcurrent s) (i_count s) (messages s) (exited s).
Definition set_bitmap v s := mkMm (mem s) (mem_map s) (HIGH_MEMORY s) v (SWAP_DEV s) (swap_page s) (blk_size s) (dir_entry s) (page_entry s) (mtasks s) (mcurrent s) (i_count s) (messages s) (exited s).
Definition set_swap v s := mkMm (mem s) (mem_map s) (HIGH_MEMORY s) (swap_bitmap s) (SWAP_DEV s) v (blk_size s) (dir_entry s) (page_entry s) (mtasks s) (mcurrent s) (i_count s) (messages s) (exited s).
Definition set_dir_entry v s := mkMm (mem s) (mem_map s) (HIGH_MEMORY s) (swap_bitmap s) (SWAP_DEV s) (swap_page s) (blk_size s) v (page_entry s) (mtasks s) (mcurrent s) (i_count s) (messages s) (exited s).
Definition set_page_entry v s := mkMm (mem s) (mem_map s) (HIGH_MEMORY s) (swap_bitmap s) (SWAP_DEV s) (swap_page s) (blk_size s) (dir_entry s) v (mtasks s) (mcurrent s) (i_count s) (messages s) (exited s).
Definition say m s := mkMm (mem s) (mem_map s) (HIGH_MEMORY s) (swap_bitmap s) (SWAP_DEV s) (swap_page s) (blk_size s) (dir_entry s) (page_entry s) (mtasks s) (mcurrent s) (i_count s) (messages s ++ [m]) (exited s).
Definition set_exited v s := mkMm (mem s) (mem_map s) (HIGH_MEMORY s) (swap_bitmap s) (SWAP_DEV s) (swap_page s) (blk_size s) (dir_entry s) (page_entry s) (mtasks s) (mcurrent s) (i_count s) (messages s) v.

Definition printk (m : string) : M mm unit := modify (say m).
Definition do_exit {A} (code : Z) : M mm A := fun s => Switched (set_exited (Some code) s).
Definition oom {A} : M mm A := printk "out of memory" ;; do_exit SIGSEGV.

(** Words and bytes of physical memory. *)
Definition poke (m : Z -> Z) (a v : Z) : Z -> Z := fun x => if x =? a then v else m x.
Definition rd (a : Z) : M mm Z := gets (fun s => mem s a).
Definition wr (a v : Z) : M mm unit := modify (fun s => set_mem (poke (mem s) a v) s).
Definition rd_byte (a : Z) : M mm Z := w ← rd (4 * (a / 4)); mret (Z.land (Z.shiftr w (8 * (a mod 4))) 255).
Definition clr_byte (a : Z) : M mm unit :=
  w ← rd (4 * (a / 4)); wr (4 * (a / 4)) (Z.land w (u32 (Z.lnot (Z.shiftl 255 (8 * (a mod 4)))))).
Definition in_page (p x : Z) : bool := (p <=? x) && (x <? p + PAGE_SIZE).
(** [copy_page], and filling a page from elsewhere. *)
Definition fill_page (p : Z) (f : Z -> Z) (m : Z -> Z) : Z -> Z := fun x => if in_page p x then f (x - p) else m x.
Definition copy_page (from to : Z) : M mm unit :=
  modify (fun s => set_mem (fill_page to (fun o => mem s (from + o)) (mem s)) s).
Definition read_swap_page (nr page : Z) : M mm unit :=
  modify (fun s => set_mem (fill_page page (swap_page s nr) (mem s)) s).
Definition write_swap_page (nr page : Z) : M mm unit :=
  modify (fun s => set_swap (fun n => if n =? nr then (fun o => mem s (page + o)) else swap_page s n) s).

Definition get_map (i : Z) : M mm Z := l ← gets mem_map; idx l (Z.to_nat i).
Definition put_map (i v : Z) : M mm unit :=
  get_map i ;; modify (fun s => set_map (<[Z.to_nat i := v]> (mem_map s)) s).

Definition free_page (addr : Z) : M mm unit :=
  if addr <? LOW_MEM then skip else
  h ← gets HIGH_MEMORY;
  if h <=? addr then panic "trying to free nonexistent page" else
  let i := Z.shiftr (addr - LOW_MEM) 12 in
  c ← get_map i;
  put_map i (u8 (c - 1)) ;;
  if negb (c =? 0) then skip else put_map i 0 ;; panic "trying to free free page".

(** ** Swap space *)

Definition bit (addr nr : Z) : M mm bool := w ← rd (addr + 4 * (nr / 32)); mret (Z.testbit w (nr mod 32)).
Definition setbit (addr nr : Z) : M mm bool :=
  w ← rd (addr + 4 * (nr / 32)); wr (addr + 4 * (nr / 32)) (Z.lor w (Z.shiftl 1 (nr mod 32))) ;; mret (Z.testbit w (nr mod 32)).
Definition clrbit (addr nr : Z) : M mm bool :=
  w ← rd (addr + 4 * (nr / 32)); wr (addr + 4 * (nr / 32)) (Z.ldiff w (Z.shiftl 1 (nr mod 32))) ;; mret (Z.testbit w (nr mod 32)).

Definition get_swap_step (b nr : Z) : M mm (Z + Z) :=
  if nr <? 32768 then r ← clrbit b nr; mret (if (r : bool) then inr nr else inl (nr + 1)) else mret (inr 0).
Definition get_swap_page : M mm Z :=
  b ← gets swap_bitmap;
  match b with None => mret 0 | Some b => loop 32769 (get_swap_step b) 1 end.

Definition swap_free (swap_nr : Z) : M mm unit :=
  if swap_nr =? 0 then skip else
  b ← gets swap_bitmap;
  bad ← match b with
        | Some b => if swap_nr <? SWAP_BITS then setbit b swap_nr else mret true
        | None => mret true
        end;
  if (bad : bool) then printk "Swap-space bad (swap_free())" else skip.

Definition try_to_swap_out (table_ptr : Z) : M mm Z :=
  page ← rd table_ptr;
  if Z.land 1 page =? 0 then mret 0 else
  if PAGING_MEMORY <? u32 (page - LOW_MEM) then mret 0 else
  if negb (Z.land PAGE_DIRTY page =? 0) then
    c ← get_map (MAP_NR (page_of page));
    if negb (c =? 1) then mret 0 else
    swap_nr ← get_swap_page;
    if swap_nr =? 0 then mret 0 else
    wr table_ptr (u32 (Z.shiftl swap_nr 1)) ;;
    write_swap_page swap_nr (page_of page) ;;
    free_page (page_of page) ;;
    mret 1
  else wr table_ptr 0 ;; free_page page ;; mret 1.

Definition FIRST_VM_PAGE : Z := Z.shiftr TASK_SIZE 12.
Definition LAST_VM_PAGE : Z := 1024 * 1024.
Definition VM_PAGES : Z := LAST_VM_PAGE - FIRST_VM_PAGE.

Definition next_dir : M mm unit :=
  modify (fun s => let d := dir_entry s + 1 in set_dir_entry (if 1024 <=? d then Z.shiftr FIRST_VM_PAGE 10 else d) s).
(** The first loop: a directory entry with a table; [counter] and [pg_table]. *)
Definition find_dir_step (counter : Z) : M mm (Z + Z * Z) :=
  if 0 <? counter then
    d ← gets dir_entry; pg_table ← rd (4 * d);
    if negb (Z.land pg_table 1 =? 0) then mret (inr (counter, pg_table))
    else next_dir ;; mret (inl (counter - 1024))
  else mret (inr (counter, 0)).
(** From the label [repeat]; [None] is the [break]. *)
Definition next_table_step (counter : Z) : M mm (Z + option (Z * Z)) :=
  next_dir ;;
  d ← gets dir_entry; pg_table ← rd (4 * d);
  if Z.land pg_table 1 =? 0 then
    if 0 <? counter - 1024 then mret (inl (counter - 1024)) else mret (inr None)
  else mret (inr (Some (counter, page_of pg_table))).
Definition swap_out_step (fuel : nat) (l : Z * Z) : M mm (Z * Z + Z) :=
  let '(counter, pg_table) := l in
  if negb (0 <? counter) then printk "Out of swap-memory" ;; mret (inr 0) else
  modify (fun s => set_page_entry (page_entry s + 1) s) ;;
  e ← gets page_entry;
  t ← (if 1024 <=? e then modify (set_page_entry 0) ;; loop fuel next_table_step (counter - 1)
       else mret (Some (counter - 1, pg_table)));
  match t with
  | None => printk "Out of swap-memory" ;; mret (inr 0)
  | Some (counter, pg_table) =>
      e ← gets page_entry;
      r ← try_to_swap_out (4 * e + pg_table);
      mret (if negb (r =? 0) then inr 1 else inl (counter, pg_table))
  end.
Definition swap_out (fuel : nat) : M mm Z :=
  '(counter, pg_table) ← loop fuel find_dir_step VM_PAGES;
  loop fuel (swap_out_step fuel) (counter, page_of pg_table).

(** The scan of [mem_map] from its end for a free page. *)
Fixpoint last_free (l : list Z) (i : nat) : option nat :=
  match i with
  | O => None
  | S i' => match l !! i' with Some 0 => Some i' | _ => last_free l i' end
  end.
(** The assembly part: the page is marked used and cleared. *)
Definition grab_page : M mm Z :=
  l ← gets mem_map;
  match last_free l PAGING_PAGES with
  | None => mret 0
  | Some i =>
      let addr := Z.shiftl (Z.of_nat i) 12 + LOW_MEM in
      put_map (Z.of_nat i) 1 ;;
      modify (fun s => set_mem (fill_page addr (fun _ => 0) (mem s)) s) ;;
      mret addr
  end.
Definition get_free_page_step (fuel : nat) (_ : unit) : M mm (unit + Z) :=
  res ← grab_page;
  h ← gets HIGH_MEMORY;
  if h <=? res then mret (inl tt) else
  if res =? 0 then r ← swap_out fuel; mret (if negb (r =? 0) then inl tt else inr res)
  else mret (inr res).
Definition get_free_page (fuel : nat) : M mm Z := loop fuel (get_free_page_step fuel) tt.

Definition swap_in (fuel : nat) (table_ptr : Z) : M mm unit :=
  b ← gets swap_bitmap;
  match b with
  | None => printk "Trying to swap in without swap bit-map"
  | Some b =>
      e ← rd table_ptr;
      if negb (Z.land 1 e =? 0) then printk "trying to swap in present page" else
      let swap_nr := Z.shiftr e 1 in
      if swap_nr =? 0 then printk "No swap page in swap_in" else
      page ← get_free_page fuel;
      (if page =? 0 then oom else skip) ;;
      read_swap_page swap_nr page ;;
      old ← setbit b swap_nr;
      (if (old : bool) then printk "swapping in multiply from same page" else skip) ;;
      wr table_ptr (Z.lor page (Z.lor PAGE_DIRTY 7))
  end.

(** ** Page tables *)

(** One entry of [free_page_tables]. *)
Definition free_entry (pg_table : Z) (nr : nat) : M mm unit :=
  let a := pg_table + 4 * Z.of_nat nr in
  e ← rd a;
  if e =? 0 then skip else
  (if negb (Z.land 1 e =? 0) then free_page (page_of e) else swap_free (Z.shiftr e 1)) ;;
  wr a 0.
Definition free_dir (dir0 : Z) (k : nat) : M mm unit :=
  let dir := dir0 + 4 * Z.of_nat k in
  d ← rd dir;
  if Z.land 1 d =? 0 then skip else
  for_range 0 1024 (free_entry (page_of d)) ;;
  free_page (page_of d) ;;
  wr dir 0.
Definition free_page_tables (from size : Z) : M mm Z :=
  if negb (Z.land from 4194303 =? 0) then panic "free_page_tables called with wrong alignment" else
  if from =? 0 then panic "Trying to free up swapper memory space" else
  let n := Z.shiftr (u32 (size + 4194303)) 22 in
  let dir := Z.land (Z.shiftr from 20) 4092 in
  for_range 0 (Z.to_nat n) (free_dir dir) ;;
  mret 0.

(** One entry of [copy_page_tables]; the loop state is the index, the result
    is the -1 of running out of memory or 0. *)
Definition copy_entry (fuel : nat) (from_table to_table : Z) (total : nat) (nr : nat) : M mm (nat + Z) :=
  if negb (nr <? total)%nat then mret (inr 0) else
  let fa := from_table + 4 * Z.of_nat nr in
  let ta := to_table + 4 * Z.of_nat nr in
  this_page ← rd fa;
  if this_page =? 0 then mret (inl (S nr)) else
  if Z.land 1 this_page =? 0 then
    new_page ← get_free_page fuel;
    if new_page =? 0 then mret (inr (-1)) else
    read_swap_page (Z.shiftr this_page 1) new_page ;;
    wr ta this_page ;;
    wr fa (Z.lor new_page (Z.lor PAGE_DIRTY 7)) ;;
    mret (inl (S nr))
  else
    let this_page := Z.ldiff this_page 2 in
    wr ta this_page ;;
    (if LOW_MEM <? this_page then
       wr fa this_page ;;
       let i := Z.shiftr (this_page - LOW_MEM) 12 in
       c ← get_map i; put_map i (u8 (c + 1))
     else skip) ;;
    mret (inl (S nr)).
Definition copy_dir (fuel : nat) (from from_dir0 to_dir0 : Z) (total k : nat) : M mm (nat + Z) :=
  if negb (k <? total)%nat then mret (inr 0) else
  let from_dir := from_dir0 + 4 * Z.of_nat k in
  let to_dir := to_dir0 + 4 * Z.of_nat k in
  t ← rd to_dir;
  if negb (Z.land 1 t =? 0) then panic "copy_page_tables: already exist" else
  f ← rd from_dir;
  if Z.land 1 f =? 0 then mret (inl (S k)) else
  to_page_table ← get_free_page fuel;
  if to_page_table =? 0 then mret (inr (-1)) else
  wr to_dir (Z.lor to_page_table 7) ;;
  let nr := if from =? 0 then 160%nat else 1024%nat in
  r ← loop (S nr) (copy_entry fuel (page_of f) to_page_table nr) 0%nat;
  mret (if r =? 0 then inl (S k) else inr r).
Definition copy_page_tables (fuel : nat) (from to size : Z) : M mm Z :=
  if negb (Z.land from 4194303 =? 0) || negb (Z.land to 4194303 =? 0) then panic "copy_page_tables called with wrong alignment" else
  let from_dir := Z.land (Z.shiftr from 20) 4092 in
  let to_dir := Z.land (Z.shiftr to 20) 4092 in
  let n := Z.to_nat (Z.shiftr (u32 (size + 4194303)) 22) in
  loop (S n) (copy_dir fuel from from_dir to_dir n) 0%nat.

(** The entry for [address], whose page table is made when missing; 0 when
    there is no memory for it. *)
Definition put_page_flags (flags : Z) (fuel : nat) (page address : Z) : M mm Z :=
  h ← gets HIGH_MEMORY;
  (if (page <? LOW_MEM) || (h <=? page) then printk "Trying to put page" else skip) ;;
  c ← get_map (Z.shiftr (u32 (page - LOW_MEM)) 12);
  (if negb (c =? 1) then printk "mem_map disagrees" else skip) ;;
  let dir := Z.land (Z.shiftr address 20) 4092 in
  d ← rd dir;
  pt ← (if negb (Z.land d 1 =? 0) then mret (Some (page_of d))
        else tmp ← get_free_page fuel;
             if tmp =? 0 then mret None else wr dir (Z.lor tmp 7) ;; mret (Some tmp));
  match pt with
  | None => mret 0
  | Some pt => wr (pt + 4 * Z.land (Z.shiftr address 12) 1023) (Z.lor page flags) ;; mret page
  end.
Definition put_page := put_page_flags 7.
Definition put_dirty_page := put_page_flags (Z.lor PAGE_DIRTY 7).

(** ** Page faults *)

Definition un_wp_page (fuel : nat) (table_entry : Z) : M mm unit :=
  e ← rd table_entry;
  let old_page := page_of e in
  one ← (if LOW_MEM <=? old_page then c ← get_map (MAP_NR old_page); mret (c =? 1) else mret false);
  if (one : bool) then wr table_entry (Z.lor e 2) else
  new_page ← get_free_page fuel;
  (if new_page =? 0 then oom else skip) ;;
  (if LOW_MEM <=? old_page then c ← get_map (MAP_NR old_page); put_map (MAP_NR old_page) (u8 (c - 1)) else skip) ;;
  copy_page old_page new_page ;;
  wr table_entry (Z.lor new_page 7).

Definition cur : M mm mtask := l ← gets mtasks; c ← gets mcurrent; t ← idx l c; deref t.

(** The address of the table entry for [address], below directory entry [d]. *)
Definition entry_addr (d address : Z) : Z := Z.land (Z.shiftr address 10) 4092 + page_of d.

Definition do_wp_page (fuel : nat) (address : Z) : M mm unit :=
  (if address <? TASK_SIZE then printk "BAD! KERNEL MEMORY WP-ERR!" else skip) ;;
  t ← cur;
  (if TASK_SIZE <? u32 (address - start_code t) then printk "Bad things happen: page error in do_wp_page" ;; do_exit SIGSEGV else skip) ;;
  d ← rd (Z.land (Z.shiftr address 20) 4092);
  un_wp_page fuel (entry_addr d address).

Definition write_verify (fuel : nat) (address : Z) : M mm unit :=
  d ← rd (Z.land (Z.shiftr address 20) 4092);
  if Z.land d 1 =? 0 then skip else
  e ← rd (entry_addr d address);
  if Z.land 3 e =? 1 then un_wp_page fuel (entry_addr d address) else skip.

Definition get_empty_page (fuel : nat) (address : Z) : M mm unit :=
  tmp ← get_free_page fuel;
  r ← (if tmp =? 0 then mret 0 else put_page fuel tmp address);
  if r =? 0 then free_page tmp ;; oom else skip.

Definition try_to_share (fuel : nat) (address : Z) (p : mtask) : M mm bool :=
  t ← cur;
  let from_dir := Z.land (Z.shiftr address 20) 4092 + Z.land (Z.shiftr (start_code p) 20) 4092 in
  let to_dir := Z.land (Z.shiftr address 20) 4092 + Z.land (Z.shiftr (start_code t) 20) 4092 in
  from ← rd from_dir;
  if Z.land from 1 =? 0 then mret false else
  let from_page := entry_addr from address in
  e ← rd from_page;
  if negb (Z.land e 65 =? 1) then mret false else
  let phys_addr := page_of e in
  h ← gets HIGH_MEMORY;
  if (h <=? phys_addr) || (phys_addr <? LOW_MEM) then mret false else
  to ← rd to_dir;
  to ← (if Z.land to 1 =? 0 then
          n ← get_free_page fuel;
          if n =? 0 then oom else wr to_dir (Z.lor n 7) ;; mret n
        else mret to);
  let to_page := entry_addr to address in
  x ← rd to_page;
  if negb (Z.land 1 x =? 0) then panic "try_to_share: to_page already exists" else
  e ← rd from_page;
  wr from_page (Z.ldiff e 2) ;;
  wr to_page (Z.ldiff e 2) ;;
  let i := Z.shiftr (phys_addr - LOW_MEM) 12 in
  c ← get_map i; put_map i (u8 (c + 1)) ;;
  mret true.

(** From task [i] down to task 1. *)
Fixpoint share_tasks (fuel : nat) (inode : nat) (address : Z) (i : nat) : M mm bool :=
  match i with
  | O => mret false
  | S i' =>
      l ← gets mtasks; c ← gets mcurrent;
      match l !! i with
      | Some (Some p) =>
          if (i =? c)%nat then share_tasks fuel inode address i' else
          let f := if address <? LIBRARY_OFFSET then executable p else library p in
          if negb (bool_decide (f = Some inode)) then share_tasks fuel inode address i' else
          r ← try_to_share fuel address p;
          if (r : bool) then mret true else share_tasks fuel inode address i'
      | _ => share_tasks fuel inode address i'
      end
  end.
Definition share_page (fuel : nat) (inode : nat) (address : Z) : M mm bool :=
  n ← gets i_count;
  if n inode <? 2 then mret false else share_tasks fuel inode address 63.

(** What a page fault needs of the file system. *)
Class FileOps := {
  bmap : nat -> Z -> M mm Z;
  i_dev : nat -> Z;
  bread_page : Z -> Z -> list Z -> M mm unit }.

Section Faults.
Context `{FileOps}.

Definition do_no_page (fuel : nat) (address : Z) : M mm unit :=
  (if address <? TASK_SIZE then printk "BAD!! KERNEL PAGE MISSING" else skip) ;;
  t ← cur;
  (if TASK_SIZE <? u32 (address - start_code t) then printk "Bad things happen: nonexistent page error in do_no_page" ;; do_exit SIGSEGV else skip) ;;
  d ← rd (Z.land (Z.shiftr address 20) 4092);
  e ← (if Z.land d 1 =? 0 then mret 0 else rd (entry_addr d address));
  if negb (e =? 0) && (Z.land 1 e =? 0) then swap_in fuel (entry_addr d address) else
  let address := page_of address in
  let tmp := u32 (address - start_code t) in
  let '(inode, block) :=
    if LIBRARY_OFFSET <=? tmp then (library t, 1 + (tmp - LIBRARY_OFFSET) / BLOCK_SIZE)
    else if tmp <? end_data t then (executable t, 1 + tmp / BLOCK_SIZE)
    else (None, 0) in
  match inode with
  | None => get_empty_page fuel address
  | Some inode =>
      shared ← share_page fuel inode tmp;
      if (shared : bool) then skip else
      page ← get_free_page fuel;
      (if page =? 0 then oom else skip) ;;
      n0 ← bmap inode block; n1 ← bmap inode (block + 1); n2 ← bmap inode (block + 2); n3 ← bmap inode (block + 3);
      bread_page page (i_dev inode) [n0; n1; n2; n3] ;;
      let i := s32 (tmp + 4096 - end_data t) in
      let i := if 4095 <? i then 0 else i in
      for_range 0 (Z.to_nat i) (fun k => clr_byte (page + 4095 - Z.of_nat k)) ;;
      r ← put_page fuel page address;
      if negb (r =? 0) then skip else free_page page ;; oom
  end.
End Faults.

(** ** Start-up and statistics *)

Definition mem_init (start_mem end_mem : Z) : M mm unit :=
  modify (set_high end_mem) ;;
  for_range 0 PAGING_PAGES (fun i => put_map (Z.of_nat i) USED) ;;
  for_range 0 (Z.to_nat (Z.shiftr (end_mem - start_mem) 12)) (fun k => put_map (MAP_NR start_mem + Z.of_nat k) 0).

(** The loops of [show_mem]: pages that are free, counted and shared. *)
Fixpoint count_map (l : list Z) : Z * Z * Z :=
  match l with
  | [] => (0, 0, 0)
  | c :: l' =>
      let '(free, total, shared) := count_map l' in
      if c =? USED then (free, total, shared)
      else if c =? 0 then (free + 1, total + 1, shared) else (free, total + 1, shared + (c - 1))
  end.
Definition show_entry (h pg_tbl : Z) (m : Z -> Z) (j : nat) : Z :=
  let e := m (pg_tbl + 4 * Z.of_nat j) in
  if negb (Z.land e 1 =? 0) && (LOW_MEM <? e) && negb (h <? e) then 1 else 0.
Definition show_dir (l : Z * Z * Z) : M mm (Z * Z * Z + Z) :=
  let '(i, k, free) := l in
  if negb (i <? 1024) then mret (inr free) else
  d ← rd (4 * i);
  h ← gets HIGH_MEMORY;
  if negb (Z.land 1 d =? 0) && (h <? d) then printk "page directory" ;; mret (inl (i, k, free)) else
  (if Z.land 1 d =? 0 then skip else
   for_range 0 1024 (fun j =>
     e ← rd (page_of d + 4 * Z.of_nat j);
     if negb (Z.land e 1 =? 0) && (LOW_MEM <? e) && (h <? e) then printk "page_dir" else skip)) ;;
  m ← gets mem;
  let n := if Z.land 1 d =? 0 then 0
           else (if LOW_MEM <? d then 1 else 0) + foldr Z.add 0 (map (show_entry h (page_of d) m) (seq 0 1024)) in
  let i := i + 1 in
  if (Z.land i 15 =? 0) && negb (k + n =? 0) then printk "Process" ;; mret (inl (i, 0, free + n + 1))
  else mret (inl (i, k + n, free + n)).
Definition show_mem (fuel : nat) : M mm (Z * Z * Z) :=
  printk "Mem-info:" ;;
  l ← gets mem_map;
  let '(free, total, shared) := count_map l in
  printk "free pages" ;; printk "pages shared" ;;
  free ← loop fuel show_dir (4, 0, free);
  printk "Memory found" ;; mret (free, total, shared).

Definition check_bits_step (b swap_size i : Z) : M mm (Z + bool) :=
  if negb (i <? SWAP_BITS) then mret (inr true) else
  let i := if i =? 1 then swap_size else i in
  r ← bit b i;
  mret (if (r : bool) then inr false else inl (i + 1)).
Definition count_bit (b : Z) (s : mm) (i : nat) : bool := Z.testbit (mem s (b + 4 * (Z.of_nat i / 32))) (Z.of_nat i mod 32).
Definition drop_bitmap (b : Z) : M mm unit := free_page b ;; modify (set_bitmap None).
Definition signature : list Z := str "SWAP-SPACE".
Definition init_swapping (fuel : nat) : M mm unit :=
  dev ← gets SWAP_DEV;
  if dev =? 0 then skip else
  sz ← gets blk_size;
  match sz with
  | None => printk "Unable to get size of swap device"
  | Some swap_size =>
      if swap_size =? 0 then skip else
      if swap_size <? 100 then printk "Swap device too small" else
      let swap_size := Z.shiftr swap_size 2 in
      let swap_size := if SWAP_BITS <? swap_size then SWAP_BITS else swap_size in
      b ← get_free_page fuel;
      if b =? 0 then modify (set_bitmap None) ;; printk "Unable to start swapping: out of memory :-)" else
      modify (set_bitmap (Some b)) ;;
      read_swap_page 0 b ;;
      s ← get;
      let name := map (fun i => Z.land (Z.shiftr (mem s (4 * ((b + 4086 + Z.of_nat i) / 4))) (8 * ((b + 4086 + Z.of_nat i) mod 4))) 255) (seq 0 10) in
      if negb (bool_decide (name = signature)) then printk "Unable to find swap-space signature" ;; drop_bitmap b else
      for_range 0 10 (fun k => clr_byte (b + 4086 + Z.of_nat k)) ;;
      ok ← loop 32770 (check_bits_step b swap_size) 0;
      if negb ok then printk "Bad swap-space bit-map" ;; drop_bitmap b else
      s ← get;
      let j := length (filter (fun i => count_bit b s i = true) (seq 1 (Z.to_nat swap_size - 1))) in
      if (j =? 0)%nat then drop_bitmap b else printk "Swap device ok"
  end.
