(* ===== verification/LinuxCow.v ===== *)
(** * Linux 0.12: reference counts and copy on write

    [mm_ok] says that [mem_map] counts, for every page, the entries of the
    page directory and of the page tables that refer to it, besides the users
    inside the kernel, and that a page some entry may write has no other user.
    The page fault for a write, [fork]'s copy of the page tables and [exit]'s
    release of them are proved against it. *)

From stdpp Require Import gmap.
From S2P Require Import Prelude LinuxMm.

(** ** Entries *)

Definition present (e : Z) : bool := Z.testbit e 0.
Definition writable (e : Z) : bool := Z.testbit e 1.
Definition word (e : Z) : Prop := 0 <= e < 4294967296.

Lemma page_of_spec e : word e -> page_of e = 4096 * (e / 4096).
Proof.
  intros He. unfold page_of. transitivity (Z.shiftl (Z.shiftr e 12) 12).
  - apply Z.bits_inj'. intros i Hi. rewrite Z.land_spec, Z.shiftl_spec by lia.
    change 4294963200 with (Z.shiftl (Z.ones 20) 12). rewrite Z.shiftl_spec by lia.
    destruct (Z.lt_ge_cases i 12) as [Hlt|Hge].
    + by rewrite !(Z.testbit_neg_r _ (i - 12)) by lia.
    + rewrite Z.shiftr_spec by lia. replace (i - 12 + 12) with i by lia. destruct (Z.lt_ge_cases i 32).
      * by rewrite Z.ones_spec_low by lia.
      * rewrite (testbit_high e 32) by (unfold word in He; lia). apply andb_false_r.
  - rewrite Z.shiftl_mul_pow2, Z.shiftr_div_pow2 by lia. change (2 ^ 12) with 4096. lia.
Qed.
Lemma land1 e : (Z.land 1 e =? 0) = negb (present e).
Proof.
  rewrite Z.land_comm. change 1 with (Z.ones 1). rewrite Z.land_ones by lia. change (2 ^ 1) with 2. unfold present.
  rewrite <- Z.bit0_mod. by destruct (Z.testbit e 0).
Qed.
Lemma land1' e : (Z.land e 1 =? 0) = negb (present e).
Proof. by rewrite Z.land_comm, land1. Qed.
Lemma present_0 : present 0 = false.
Proof. done. Qed.

(** A page address and its flags. *)
Definition frame (p : Z) : Prop := p mod 4096 = 0 /\ word p.
Lemma frame_page_of e : word e -> frame (page_of e).
Proof. intros He. rewrite page_of_spec by done. split; [rewrite Z.mul_comm; apply Z.mod_mul; lia|]. unfold word in *. pose proof (Z.div_mod e 4096). pose proof (Z.mod_pos_bound e 4096). lia. Qed.

Lemma lor_frame p f : frame p -> 0 <= f < 4096 -> Z.lor p f = p + f.
Proof.
  intros [H1 H2] Hf. assert (p = Z.shiftl (p / 4096) 12) as ->.
  { rewrite Z.shiftl_mul_pow2 by lia. change (2 ^ 12) with 4096. pose proof (Z.div_mod p 4096). lia. }
  rewrite lor_shiftl by (try (change (2 ^ 12) with 4096); lia). by rewrite Z.shiftl_mul_pow2 by lia.
Qed.
Lemma entry_page p f : frame p -> 0 <= f < 4096 -> page_of (p + f) = p /\ word (p + f).
Proof.
  intros [H1 [H2 H3]] Hf. pose proof (Z.div_mod p 4096). assert (word (p + f)) as Hw by (unfold word; lia).
  split; [|done]. rewrite page_of_spec by done. replace (p + f) with (f + p / 4096 * 4096) by lia.
  rewrite Z.div_add, Z.div_small by lia. lia.
Qed.
Lemma entry_bit p f i : frame p -> 0 <= f < 4096 -> 0 <= i < 12 -> Z.testbit (p + f) i = Z.testbit f i.
Proof.
  intros Hp Hf Hi. rewrite <- lor_frame, Z.lor_spec by done. destruct Hp as [H1 H2].
  assert (p = Z.shiftl (p / 4096) 12) as ->.
  { rewrite Z.shiftl_mul_pow2 by lia. change (2 ^ 12) with 4096. pose proof (Z.div_mod p 4096). lia. }
  rewrite Z.shiftl_spec, Z.testbit_neg_r by lia. done.
Qed.

(** Clearing and setting the write bit. *)
Lemma word_split e : word e -> frame (page_of e) /\ e = page_of e + e mod 4096 /\ 0 <= e mod 4096 < 4096.
Proof.
  intros He. split; [by apply frame_page_of|]. rewrite page_of_spec by done. pose proof (Z.div_mod e 4096). pose proof (Z.mod_pos_bound e 4096). lia.
Qed.
Lemma word_bits e : 0 <= e -> (forall i, 32 <= i -> Z.testbit e i = false) -> word e.
Proof.
  intros H0 Hb. split; [done|]. destruct (decide (e = 0)) as [->|Hn]; [lia|]. change 4294967296 with (2 ^ 32).
  apply Z.log2_lt_pow2; [lia|]. destruct (Z.lt_ge_cases (Z.log2 e) 32) as [|Hge]; [done|]. specialize (Hb _ Hge).
  rewrite Z.bit_log2 in Hb by lia. done.
Qed.
Lemma page_of_bits e e' : (forall i, 12 <= i -> Z.testbit e i = Z.testbit e' i) -> page_of e = page_of e'.
Proof.
  intros H. unfold page_of. apply Z.bits_inj'. intros i Hi. rewrite !Z.land_spec. destruct (Z.lt_ge_cases i 12).
  - change 4294963200 with (Z.shiftl (Z.ones 20) 12). by rewrite Z.shiftl_spec, Z.testbit_neg_r by lia.
  - by rewrite H.
Qed.
Lemma bit2 i : i <> 1 -> Z.testbit 2 i = false.
Proof. intros Hi. change 2 with (2 ^ 1). by rewrite Z.pow2_bits_false. Qed.
Lemma ldiff2_spec e : word e -> word (Z.ldiff e 2) /\ page_of (Z.ldiff e 2) = page_of e /\ present (Z.ldiff e 2) = present e /\ writable (Z.ldiff e 2) = false.
Proof.
  intros He. split_and!.
  - apply word_bits; [apply Z.ldiff_nonneg; unfold word in He; lia|]. intros i Hi. rewrite Z.ldiff_spec, bit2 by lia.
    rewrite (testbit_high e 32) by (unfold word in He; lia). done.
  - apply page_of_bits. intros i Hi. rewrite Z.ldiff_spec, bit2 by lia. apply andb_true_r.
  - unfold present. rewrite Z.ldiff_spec, bit2 by lia. apply andb_true_r.
  - unfold writable. rewrite Z.ldiff_spec. apply andb_false_r.
Qed.
Lemma lor2_spec e : word e -> word (Z.lor e 2) /\ page_of (Z.lor e 2) = page_of e /\ present (Z.lor e 2) = present e /\ writable (Z.lor e 2) = true.
Proof.
  intros He. split_and!.
  - apply word_bits; [apply Z.lor_nonneg; unfold word in He; lia|]. intros i Hi. rewrite Z.lor_spec, bit2 by lia.
    rewrite (testbit_high e 32) by (unfold word in He; lia). done.
  - apply page_of_bits. intros i Hi. rewrite Z.lor_spec, bit2 by lia. apply orb_false_r.
  - unfold present. rewrite Z.lor_spec, bit2 by lia. apply orb_false_r.
  - unfold writable. rewrite Z.lor_spec. apply orb_true_r.
Qed.

(** ** Who refers to a page *)

Definition nr (p : Z) : nat := Z.to_nat ((p - LOW_MEM) / 4096).
Definition addr_of (n : nat) : Z := LOW_MEM + 4096 * Z.of_nat n.
Definition refers (e : Z) (n : nat) : Prop := present e = true /\ LOW_MEM <= page_of e /\ nr (page_of e) = n.

(** Words of the directory, except those of task 0; words of page tables. *)
Definition dslot (a : Z) : Prop := 64 <= a < 4096 /\ a mod 4 = 0.
Definition in_table (m : Z -> Z) (d a : Z) : Prop :=
  present (m d) = true /\ page_of (m d) <= a < page_of (m d) + 4096 /\ a mod 4 = 0.
Definition tslot (m : Z -> Z) (a : Z) : Prop := exists d, dslot d /\ in_table m d a.
Definition slot (m : Z -> Z) (a : Z) : Prop := dslot a \/ tslot m a.

(** [X n] users of page [n] are inside the kernel. *)
Definition refs_ok (m : Z -> Z) (mp : list Z) (X : nat -> Z) : Prop :=
  exists R : nat -> gset Z,
    (forall n a, a ∈ R n <-> slot m a /\ refers (m a) n) /\
    (forall n c, mp !! n = Some c -> c = Z.of_nat (size (R n)) + X n /\ 0 <= X n).

Record mm_ok (s : mm) (X : nat -> Z) : Prop := {
  ok_len : length (mem_map s) = PAGING_PAGES;
  ok_byte : forall n c, mem_map s !! n = Some c -> 0 <= c < 256;
  ok_high : LOW_MEM < HIGH_MEMORY s <= 16777216;
  ok_nonex : forall n c, mem_map s !! n = Some c -> HIGH_MEMORY s <= addr_of n -> c <> 0;
  ok_word : forall a, slot (mem s) a -> word (mem s a);
  ok_refs : refs_ok (mem s) (mem_map s) X;
  ok_tab : forall d, dslot d -> present (mem s d) = true ->
    LOW_MEM <= page_of (mem s d) < HIGH_MEMORY s /\ mem_map s !! nr (page_of (mem s d)) = Some 1;
  ok_pte : forall a, tslot (mem s) a -> present (mem s a) = true -> page_of (mem s a) < HIGH_MEMORY s;
  ok_excl : forall a, tslot (mem s) a -> present (mem s a) = true -> writable (mem s a) = true -> LOW_MEM <= page_of (mem s a) ->
    mem_map s !! nr (page_of (mem s a)) = Some 1 }.

Lemma addr_of_nr p : frame p -> LOW_MEM <= p -> addr_of (nr p) = p.
Proof.
  intros [H1 H2] Hp. unfold addr_of, nr, LOW_MEM in *. rewrite Z2Nat.id by (apply Z.div_pos; lia).
  pose proof (Z.div_mod (p - 1048576) 4096). assert ((p - 1048576) mod 4096 = 0).
  { change 1048576 with (256 * 4096). rewrite Zminus_mod, H1. done. }
  lia.
Qed.
Lemma nr_addr_of n : nr (addr_of n) = n.
Proof. unfold nr, addr_of. replace (LOW_MEM + 4096 * Z.of_nat n - LOW_MEM) with (Z.of_nat n * 4096) by lia. rewrite Z.div_mul by lia. lia. Qed.
Lemma frame_addr_of n : (n < PAGING_PAGES)%nat -> frame (addr_of n).
Proof.
  intros Hn. unfold frame, addr_of, LOW_MEM, word, PAGING_PAGES in *. split; [|lia].
  replace (1048576 + 4096 * Z.of_nat n) with ((256 + Z.of_nat n) * 4096) by lia. apply Z.mod_mul. lia.
Qed.
Lemma nr_inj p q : frame p -> frame q -> LOW_MEM <= p -> LOW_MEM <= q -> nr p = nr q -> p = q.
Proof. intros Hp Hq H1 H2 E. rewrite <- (addr_of_nr p), <- (addr_of_nr q) by done. by rewrite E. Qed.

(** Two pages are the same or apart. *)
Lemma frames_apart p q x : frame p -> frame q -> p <= x < p + 4096 -> q <= x < q + 4096 -> p = q.
Proof. intros [H1 _] [H2 _] Hp Hq. pose proof (Z.div_mod p 4096). pose proof (Z.div_mod q 4096). nia. Qed.

Lemma in_table_ext m m' d a : m' d = m d -> in_table m' d a <-> in_table m d a.
Proof. intros E. unfold in_table. by rewrite E. Qed.
Lemma tslot_ext m m' a : (forall d, dslot d -> m' d = m d) -> tslot m' a <-> tslot m a.
Proof.
  intros He. split; intros (d & Hd & Hi); exists d; (split; [done|]); eapply in_table_ext; try exact Hi; rewrite He; done.
Qed.
Lemma slot_ext m m' a : (forall d, dslot d -> m' d = m d) -> slot m' a <-> slot m a.
Proof. intros He. unfold slot. by rewrite (tslot_ext m m'). Qed.

Lemma elem_size (a : Z) (Y : gset Z) : a ∈ Y -> (1 <= size Y)%nat.
Proof. intros Ha. destruct (size Y) eqn:E; [|lia]. apply size_empty_inv in E. set_solver. Qed.
Lemma size_one (a b : Z) (Y : gset Z) : a ∈ Y -> b ∈ Y -> size Y = 1%nat -> a = b.
Proof. intros Ha Hb E. apply size_1_elem_of in E as [x Hx]. set_solver. Qed.

Section Ok.
Context (s : mm) (X : nat -> Z) (Hok : mm_ok s X).

Lemma dir_word d : dslot d -> word (mem s d).
Proof. intros Hd. apply (ok_word _ _ Hok). by left. Qed.
Lemma tslot_word a : tslot (mem s) a -> word (mem s a).
Proof. intros Ha. apply (ok_word _ _ Hok). by right. Qed.
Lemma tslot_high a : tslot (mem s) a -> LOW_MEM <= a < HIGH_MEMORY s + 4096.
Proof. intros (d & Hd & Hp & Ha & _). destruct (ok_tab _ _ Hok d Hd Hp) as [? _]. lia. Qed.
Lemma tslot_not_dslot a : tslot (mem s) a -> ~ dslot a.
Proof. intros Ht [Hd _]. apply tslot_high in Ht. unfold LOW_MEM in Ht. lia. Qed.

(** The page a reference counts for exists. *)
Lemma refers_cnt e n : word e -> refers e n -> page_of e < HIGH_MEMORY s -> exists c, mem_map s !! n = Some c.
Proof.
  intros Hw (_ & Hl & <-) Hh. apply lookup_lt_is_Some. rewrite (ok_len _ _ Hok).
  pose proof (ok_high _ _ Hok) as [_ H16]. pose proof (addr_of_nr _ (frame_page_of e Hw) Hl) as E. unfold addr_of, PAGING_PAGES, LOW_MEM in *. lia.
Qed.
Lemma slot_cnt a n : slot (mem s) a -> refers (mem s a) n -> exists c, mem_map s !! n = Some c /\ 1 <= c.
Proof.
  intros Hs Hr. assert (page_of (mem s a) < HIGH_MEMORY s) as Hh.
  { destruct Hs as [Hd|Ht]; [by apply (ok_tab _ _ Hok); destruct Hr|by apply (ok_pte _ _ Hok); destruct Hr]. }
  destruct (refers_cnt (mem s a) n) as [c Hc]; [by apply (ok_word _ _ Hok)|done|done|]. exists c. split; [done|].
  destruct (ok_refs _ _ Hok) as (R & HR & Hcnt). destruct (Hcnt n c Hc) as [-> HX].
  assert (a ∈ R n) as Hin by (by apply HR). apply elem_size in Hin. lia.
Qed.
(** A page with one user has one reference. *)
Lemma sole_ref a b n : slot (mem s) a -> slot (mem s) b -> refers (mem s a) n -> refers (mem s b) n -> mem_map s !! n = Some 1 -> a = b /\ X n = 0.
Proof.
  intros Ha Hb Hra Hrb Hc. destruct (ok_refs _ _ Hok) as (R & HR & Hcnt). destruct (Hcnt n 1 Hc) as [E HX].
  assert (a ∈ R n) as Hina by (by apply HR). assert (b ∈ R n) as Hinb by (by apply HR).
  pose proof (elem_size _ _ Hina). split; [|lia]. apply (size_one a b (R n)); [done|done|lia].
Qed.
(** Only its directory entry refers to a page table. *)
Lemma table_sole d a : dslot d -> present (mem s d) = true -> slot (mem s) a -> present (mem s a) = true -> page_of (mem s a) = page_of (mem s d) -> a = d.
Proof.
  intros Hd Hp Ha Hpa E. destruct (ok_tab _ _ Hok d Hd Hp) as [H1 H2].
  apply (sole_ref a d (nr (page_of (mem s d)))); [done|by left|by rewrite <- E; split_and!; [|lia|]|by split_and!; [|lia|]|done].
Qed.
Lemma dir_frame d : dslot d -> frame (page_of (mem s d)).
Proof. intros Hd. by apply frame_page_of, dir_word. Qed.

(** Every table word lies under one directory entry. *)
Lemma in_table_unique d d' a : dslot d -> dslot d' -> in_table (mem s) d a -> in_table (mem s) d' a -> d = d'.
Proof.
  intros Hd Hd' (H1 & H2 & _) (H3 & H4 & _). apply table_sole; [done|done|by left|done|].
  by eapply frames_apart; [apply dir_frame|apply dir_frame|..].
Qed.
End Ok.

(** What lies outside directory and tables does not matter. *)
Lemma mm_frame s s' X : mm_ok s X -> mem_map s' = mem_map s -> HIGH_MEMORY s' = HIGH_MEMORY s ->
  (forall a, slot (mem s) a -> mem s' a = mem s a) -> mm_ok s' X.
Proof.
  intros Hok Em Eh Es. assert (forall d, dslot d -> mem s' d = mem s d) as Ed by (intros d Hd; apply Es; by left).
  assert (forall a, slot (mem s') a <-> slot (mem s) a) as Hs by (intros a; by apply slot_ext).
  assert (forall a, tslot (mem s') a <-> tslot (mem s) a) as Ht by (intros a; by apply tslot_ext).
  assert (forall a, tslot (mem s') a -> mem s' a = mem s a) as Et by (intros a Ha; apply Es; right; by apply Ht).
  destruct Hok as [H1 H2 H3 H4 H5 H6 H7 H8 H9]. split; rewrite ?Em, ?Eh; try done.
  - intros a Ha. apply Hs in Ha. rewrite Es by done. by apply H5.
  - destruct H6 as (R & HR & Hc). exists R. split; [|done]. intros n a. rewrite HR, Hs. split; intros [Ha Hr]; (split; [done|]); by rewrite Es in *.
  - intros d Hd. rewrite Ed by done. by apply H7.
  - intros a Ha. rewrite Et by done. apply H8. by apply Ht.
  - intros a Ha. rewrite Et by done. apply H9. by apply Ht.
Qed.

(** One address [a] changes its reference. *)
Lemma refs_update m m' mp mp' X X' a (o o' : nat -> bool) : refs_ok m mp X ->
  (forall n, o n = true <-> slot m a /\ refers (m a) n) -> (forall n, o' n = true <-> slot m' a /\ refers (m' a) n) ->
  (forall n b, b <> a -> (slot m' b /\ refers (m' b) n) <-> (slot m b /\ refers (m b) n)) ->
  (forall n c', mp' !! n = Some c' -> exists c, mp !! n = Some c /\ 0 <= X' n /\
     c' - X' n - Z.b2z (o' n) = c - X n - Z.b2z (o n)) ->
  refs_ok m' mp' X'.
Proof.
  intros (R & HR & Hc) Ho Ho' Hb Hcnt. exists (fun n => (if o' n then {[a]} else ∅) ∪ (R n ∖ {[a]})). split.
  - intros n b. rewrite elem_of_union, elem_of_difference, elem_of_singleton. destruct (decide (b = a)) as [->|Hne].
    + rewrite <- Ho'. destruct (o' n); set_solver.
    + rewrite Hb, <- HR by done. destruct (o' n); set_solver.
  - intros n c' Hn. destruct (Hcnt n c' Hn) as (c & Hn' & HX & E). destruct (Hc n c Hn') as [E2 HX2]. split; [|done].
    assert (size ((if o' n then {[a]} else ∅) ∪ (R n ∖ {[a]})) = (if o' n then 1 else 0) + size (R n ∖ {[a]}))%nat as ->.
    { rewrite size_union by (destruct (o' n); set_solver). destruct (o' n); [by rewrite size_singleton|by rewrite size_empty]. }
    assert (Z.of_nat (size (R n ∖ {[a]})) = Z.of_nat (size (R n)) - Z.b2z (o n)) as E3.
    { destruct (o n) eqn:Eo.
      - rewrite size_difference by (apply singleton_subseteq_l; apply HR; by apply Ho). rewrite size_singleton. cbn [Z.b2z].
        assert (a ∈ R n) as Hin by (apply HR; by apply Ho). pose proof (elem_size _ _ Hin). lia.
      - assert (R n ∖ {[a]} = R n) as ->; [|cbn; lia]. apply difference_disjoint_L. apply disjoint_singleton_r. rewrite HR, <- Ho, Eo. done. }
    destruct (o' n); cbn [Z.b2z] in *; lia.
Qed.

#[export] Instance refers_dec e n : Decision (refers e n).
Proof. unfold refers. apply _. Defined.
Definition hit (e : Z) (n : nat) : Z := Z.b2z (bool_decide (refers e n)).

Lemma poke_eq m a v : poke m a v a = v.
Proof. unfold poke. by rewrite Z.eqb_refl. Qed.
Lemma poke_ne m a v x : x <> a -> poke m a v x = m x.
Proof. intros Hx. unfold poke. by rewrite (proj2 (Z.eqb_neq x a)). Qed.

(** A table entry takes another value. *)
Lemma pte_update s s' X X' a e' : mm_ok s X -> tslot (mem s) a -> word e' ->
  (present e' = true -> page_of e' < HIGH_MEMORY s /\ forall d, dslot d -> present (mem s d) = true -> page_of (mem s d) <> page_of e') ->
  (forall x, slot (mem s) x -> mem s' x = if decide (x = a) then e' else mem s x) ->
  HIGH_MEMORY s' = HIGH_MEMORY s -> length (mem_map s') = length (mem_map s) ->
  (forall n c', mem_map s' !! n = Some c' -> exists c, mem_map s !! n = Some c /\ 0 <= c' < 256 /\ 0 <= X' n /\
     c' - X' n - hit e' n = c - X n - hit (mem s a) n /\ (HIGH_MEMORY s <= addr_of n -> c' <> 0)) ->
  (forall b n, slot (mem s) b -> b <> a -> refers (mem s b) n -> dslot b \/ writable (mem s b) = true -> mem_map s' !! n = mem_map s !! n) ->
  (forall n, refers e' n -> writable e' = true -> mem_map s' !! n = Some 1) ->
  mm_ok s' X'.
Proof.
  intros Hok Ha Hw He Hm Hh Hl Hc Hb Hx. pose proof (tslot_not_dslot s X Hok a Ha) as Hna.
  assert (forall d, dslot d -> mem s' d = mem s d) as Ed by (intros d Hd; rewrite Hm by (by left); by rewrite decide_False by (by intros ->)).
  assert (forall b, slot (mem s') b <-> slot (mem s) b) as Hs by (intros b; by apply slot_ext).
  assert (forall b, tslot (mem s') b <-> tslot (mem s) b) as Ht by (intros b; by apply tslot_ext).
  assert (mem s' a = e') as Ea by (rewrite Hm by (by right); by rewrite decide_True).
  pose proof Hok as [H1 H2 H3 H4 H5 H6 H7 H8 H9]. split.
  - by rewrite Hl.
  - intros n c' Hn. by destruct (Hc n c' Hn) as (c & _ & ? & _).
  - by rewrite Hh.
  - intros n c' Hn. rewrite Hh. destruct (Hc n c' Hn) as (c & _ & _ & _ & _ & Hz). done.
  - intros b Hb'. apply Hs in Hb'. rewrite Hm by done. case_decide; [done|by apply H5].
  - apply (refs_update (mem s) _ (mem_map s) _ X _ a (fun n => bool_decide (refers (mem s a) n)) (fun n => bool_decide (refers e' n))); [done|..].
    + intros n. rewrite bool_decide_eq_true. split; [intros Hr; split; [by right|done]|by intros [_ ?]].
    + intros n. rewrite bool_decide_eq_true, Ea. split; [intros Hr; split; [apply Hs; by right|done]|by intros [_ ?]].
    + intros n b Hne. rewrite Hs. split; intros [Hb1 Hb2]; (split; [done|]); rewrite Hm in * by done; by rewrite decide_False in *.
    + intros n c' Hn. destruct (Hc n c' Hn) as (c & Hn' & _ & HX & E & _). exists c. split_and!; [done|done|]. unfold hit in E. lia.
  - intros d Hd. rewrite Ed, Hh by done. intros Hp. destruct (H7 d Hd Hp) as [T1 T2]. split; [done|].
    erewrite Hb; [done|by left| |by split_and!; [| |reflexivity]; [|lia]|by left]. by intros ->.
  - intros b Hb'. apply Ht in Hb'. rewrite Hm, Hh by (by right). case_decide; [intros Hp; by apply He|by apply H8].
  - intros b Hb'. apply Ht in Hb'. rewrite Hm by (by right). case_decide; [intros; by apply Hx|]. intros Hp Hwr Hlo.
    erewrite (Hb b); [by apply H9|by right|done|by split_and!|by right].
Qed.

(** ** Taking a free page *)

Definition held (n : nat) (X : nat -> Z) : nat -> Z := fun k => if decide (k = n) then X k + 1 else X k.

Lemma last_free_some l i n : (n < i)%nat -> l !! n = Some 0 -> exists k, last_free l i = Some k /\ l !! k = Some 0.
Proof.
  induction i as [|i IH]; intros Hn Hl; [lia|]. cbn [last_free]. destruct (decide (n = i)) as [->|Hne].
  - rewrite Hl. by exists i.
  - destruct (IH ltac:(lia) Hl) as (k & E & Hk). destruct (l !! i) as [[]|] eqn:Ei; eauto.
Qed.

Lemma in_page_spec p x : in_page p x = true <-> p <= x < p + 4096.
Proof. unfold in_page, PAGE_SIZE. rewrite andb_true_iff, Z.leb_le, Z.ltb_lt. done. Qed.

(** A page nobody uses holds no directory or table word. *)
Lemma unused_no_slot s X n a : mm_ok s X -> mem_map s !! n = Some 0 -> slot (mem s) a -> in_page (addr_of n) a = false.
Proof.
  intros Hok Hn Ha. destruct (in_page (addr_of n) a) eqn:E; [|done]. apply in_page_spec in E.
  assert (n < PAGING_PAGES)%nat as Hlt by (rewrite <- (ok_len _ _ Hok); by eapply lookup_lt_Some).
  destruct Ha as [[Hd _]|(d & Hd & Hp & Ha & _)]; [unfold addr_of, LOW_MEM in E; lia|].
  destruct (ok_tab _ _ Hok d Hd Hp) as [T1 T2].
  assert (addr_of n = page_of (mem s d)) as Ea by (by eapply frames_apart; [apply frame_addr_of|eapply dir_frame|..]).
  rewrite <- Ea, nr_addr_of in T2. congruence.
Qed.
Lemma unused_no_ref s X n a : mm_ok s X -> mem_map s !! n = Some 0 -> slot (mem s) a -> ~ refers (mem s a) n.
Proof. intros Hok Hn Ha Hr. destruct (slot_cnt s X Hok a n Ha Hr) as (c & Hc & Hc1). rewrite Hn in Hc. injection Hc as <-. lia. Qed.

Definition grabbed (n : nat) (s : mm) : mm :=
  set_mem (fill_page (addr_of n) (fun _ => 0) (mem s)) (set_map (<[n := 1]> (mem_map s)) s).

Lemma grabbed_ok s X n : mm_ok s X -> mem_map s !! n = Some 0 -> mm_ok (grabbed n s) (held n X).
Proof.
  intros Hok Hn. set (s1 := set_map (<[n := 1]> (mem_map s)) s).
  assert (n < length (mem_map s))%nat as Hlt by (by eapply lookup_lt_Some).
  assert (forall a k, slot (mem s) a -> refers (mem s a) k -> k <> n) as Hne by (intros a k Ha Hr ->; by eapply unused_no_ref).
  assert (mm_ok s1 (held n X)) as Hok1.
  { pose proof Hok as [H1 H2 H3 H4 H5 H6 H7 H8 H9]. split; cbn [s1 mem mem_map HIGH_MEMORY set_map]; try done.
    - by rewrite length_insert.
    - intros k c [(<- & <- & _)|[Hk Hc]]%list_lookup_insert_Some; [lia|by eapply H2].
    - intros k c [(<- & <- & _)|[Hk Hc]]%list_lookup_insert_Some; [done|by eapply H4].
    - destruct H6 as (R & HR & Hc). exists R. split; [done|]. unfold held. intros k c [(<- & <- & _)|[Hk Hl]]%list_lookup_insert_Some.
      + rewrite decide_True by done. destruct (Hc n 0 Hn). lia.
      + rewrite decide_False by done. by apply Hc.
    - intros d Hd Hp. destruct (H7 d Hd Hp) as [T1 T2]. split; [done|]. rewrite list_lookup_insert_ne; [done|].
      intros E. eapply (Hne d); [by left|by split_and!; [|lia|reflexivity]|done].
    - intros a Ha Hp Hwr Hlo. rewrite list_lookup_insert_ne; [by apply H9|]. intros E.
      eapply (Hne a); [by right|by split_and!|done]. }
  eapply mm_frame; [exact Hok1|done|done|]. intros a Ha. unfold grabbed. cbn [mem set_mem set_map]. unfold fill_page.
  by rewrite (unused_no_slot s X n a Hok Hn Ha).
Qed.

Lemma get_free_page_ok s X fuel : mm_ok s X -> (1 <= fuel)%nat -> (exists n, mem_map s !! n = Some 0) ->
  exists n, mem_map s !! n = Some 0 /\ addr_of n < HIGH_MEMORY s /\ get_free_page fuel s = Ok (addr_of n) (grabbed n s).
Proof.
  intros Hok Hf [n0 Hn0].
  destruct (last_free_some (mem_map s) PAGING_PAGES n0) as (n & E & Hn); [rewrite <- (ok_len _ _ Hok); by eapply lookup_lt_Some|done|].
  assert (addr_of n < HIGH_MEMORY s) as Hh.
  { destruct (Z.lt_ge_cases (addr_of n) (HIGH_MEMORY s)) as [|Hge]; [done|]. by destruct (ok_nonex _ _ Hok n 0 Hn Hge). }
  exists n. split_and!; [done|done|]. destruct fuel as [|fuel]; [lia|]. apply loop_done. unfold get_free_page_step.
  assert (grab_page s = Ok (addr_of n) (grabbed n s)) as Eg.
  { unfold grab_page. erewrite bind_ok by reflexivity. rewrite E. unfold put_map, get_map. erewrite bind_ok.
    2: { erewrite bind_ok; [reflexivity|]. erewrite bind_ok by reflexivity. unfold idx. by rewrite Nat2Z.id, Hn. }
    erewrite bind_ok by reflexivity. rewrite Nat2Z.id, Z.shiftl_mul_pow2 by lia. change (2 ^ 12) with 4096.
    unfold grabbed. replace (Z.of_nat n * 4096 + LOW_MEM) with (addr_of n) by (unfold addr_of; lia). reflexivity. }
  rewrite (bind_ok _ _ _ _ _ Eg). erewrite bind_ok by reflexivity. change (HIGH_MEMORY (grabbed n s)) with (HIGH_MEMORY s).
  rewrite (proj2 (Z.leb_gt _ _) Hh). rewrite (proj2 (Z.eqb_neq _ _)) by (unfold addr_of, LOW_MEM; lia). reflexivity.
Qed.

Lemma grabbed_mem s X n a : mm_ok s X -> mem_map s !! n = Some 0 -> slot (mem s) a -> mem (grabbed n s) a = mem s a.
Proof. intros Hok Hn Ha. unfold grabbed. cbn. unfold fill_page. by rewrite (unused_no_slot s X n a Hok Hn Ha). Qed.
Lemma grabbed_slot s X n a : mm_ok s X -> mem_map s !! n = Some 0 -> slot (mem (grabbed n s)) a <-> slot (mem s) a.
Proof. intros Hok Hn. apply slot_ext. intros d Hd. eapply grabbed_mem; [done..|by left]. Qed.
Lemma grabbed_tslot s X n a : mm_ok s X -> mem_map s !! n = Some 0 -> tslot (mem (grabbed n s)) a <-> tslot (mem s) a.
Proof. intros Hok Hn. apply tslot_ext. intros d Hd. eapply grabbed_mem; [done..|by left]. Qed.

Lemma get_map_ok i c s : mem_map s !! Z.to_nat i = Some c -> get_map i s = Ok c s.
Proof. intros Hc. unfold get_map. erewrite bind_ok by reflexivity. unfold idx. by rewrite Hc. Qed.
Lemma put_map_ok i v c s : mem_map s !! Z.to_nat i = Some c -> put_map i v s = Ok tt (set_map (<[Z.to_nat i := v]> (mem_map s)) s).
Proof. intros Hc. unfold put_map. by rewrite (bind_ok _ _ _ _ _ (get_map_ok _ _ _ Hc)). Qed.
Lemma map_nr e : LOW_MEM <= e < 4294967296 -> Z.to_nat (Z.shiftr (e - LOW_MEM) 12) = nr (page_of e).
Proof.
  intros He. unfold nr. rewrite page_of_spec by (unfold word, LOW_MEM in *; lia). rewrite Z.shiftr_div_pow2 by lia. change (2 ^ 12) with 4096.
  f_equal. unfold LOW_MEM. change 1048576 with (256 * 4096). replace (e - 256 * 4096) with (e + (-256) * 4096) by lia.
  rewrite Z.div_add by lia. replace (4096 * (e / 4096) - 256 * 4096) with ((e / 4096 - 256) * 4096) by lia. rewrite Z.div_mul by lia. lia.
Qed.
Lemma MAP_NR_nr p : frame p -> LOW_MEM <= p -> Z.to_nat (MAP_NR p) = nr p.
Proof.
  intros [H1 H2] Hp. unfold MAP_NR. unfold word, LOW_MEM in *. rewrite u32_id by lia. rewrite map_nr by (unfold LOW_MEM; lia).
  f_equal. rewrite page_of_spec by (unfold word; lia). pose proof (Z.div_mod p 4096). lia.
Qed.

(** The words of a used page, directory and tables apart. *)
Definition data_kept (s s' : mm) : Prop :=
  forall x, ~ slot (mem s) x -> (x < LOW_MEM \/ exists n c, mem_map s !! n = Some c /\ c <> 0 /\ in_page (addr_of n) x = true) -> mem s' x = mem s x.

Lemma data_kept_grabbed s X n : mm_ok s X -> mem_map s !! n = Some 0 -> data_kept s (grabbed n s).
Proof.
  intros Hok Hn x Hx Hu. unfold grabbed. cbn. unfold fill_page. destruct (in_page (addr_of n) x) eqn:E; [|done]. apply in_page_spec in E.
  destruct Hu as [Hlo|(k & c & Hk & Hc & Hp)]; [unfold addr_of in E; lia|]. apply in_page_spec in Hp. assert (k = n) as ->; [|congruence].
  unfold addr_of in *. lia.
Qed.

(** The entry of a shared page, and what its owner sees through it. *)
Lemma un_wp_sole s X fuel a : mm_ok s X -> tslot (mem s) a -> present (mem s a) = true ->
  LOW_MEM <= page_of (mem s a) -> mem_map s !! nr (page_of (mem s a)) = Some 1 ->
  un_wp_page fuel a s = Ok tt (set_mem (poke (mem s) a (Z.lor (mem s a) 2)) s) /\
  mm_ok (set_mem (poke (mem s) a (Z.lor (mem s a) 2)) s) X.
Proof.
  intros Hok Ha Hp Hlo Hc. pose proof (tslot_word s X Hok a Ha) as Hw. destruct (lor2_spec _ Hw) as (W1 & W2 & W3 & W4).
  assert (forall n, refers (Z.lor (mem s a) 2) n <-> refers (mem s a) n) as Hr by (intros n; unfold refers; by rewrite W2, W3).
  split.
  - unfold un_wp_page. erewrite bind_ok by reflexivity. rewrite (proj2 (Z.leb_le _ _) Hlo).
    erewrite bind_ok; [|erewrite bind_ok by (apply get_map_ok; rewrite MAP_NR_nr by (done || by apply frame_page_of); exact Hc); reflexivity].
    reflexivity.
  - eapply (pte_update s _ X X a (Z.lor (mem s a) 2)); [done|done|done|..]; cbn [mem HIGH_MEMORY mem_map set_mem]; try done.
    + rewrite W2, W3. intros _. split; [by apply (ok_pte _ _ Hok)|]. intros d Hd Hpd E.
      apply (tslot_not_dslot s X Hok a Ha). rewrite (table_sole s X Hok d a); [done|done|done|by right|done|done].
    + intros x Hx. unfold poke. case_decide; [by subst; rewrite Z.eqb_refl|by rewrite (proj2 (Z.eqb_neq _ _))].
    + intros n c Hn. exists c. split_and!; [done|by apply (ok_byte _ _ Hok n c)..| | |by apply (ok_nonex _ _ Hok)].
      * destruct (ok_refs _ _ Hok) as (R & _ & HR). by apply (HR n c).
      * unfold hit. by rewrite (bool_decide_ext _ _ (Hr n)).
    + intros n [_ [_ <-]]%Hr _. done.
Qed.

Lemma un_wp_copy s X fuel a : mm_ok s X -> (1 <= fuel)%nat -> tslot (mem s) a -> present (mem s a) = true -> (exists n, mem_map s !! n = Some 0) ->
  (LOW_MEM <= page_of (mem s a) -> mem_map s !! nr (page_of (mem s a)) <> Some 1) ->
  exists n mp, mem_map s !! n = Some 0 /\ addr_of n < HIGH_MEMORY s /\
    let s' := set_mem (poke (fill_page (addr_of n) (fun o => mem (grabbed n s) (page_of (mem s a) + o)) (mem (grabbed n s))) a (addr_of n + 7)) (set_map mp s) in
    un_wp_page fuel a s = Ok tt s' /\ mm_ok s' X.
Proof.
  intros Hok Hf Ha Hp Hfree Hne. pose proof (tslot_word s X Hok a Ha) as Hw. pose proof (frame_page_of _ Hw) as Hfr.
  destruct (get_free_page_ok s X fuel Hok Hf Hfree) as (n & Hn & Hh & Eg). pose proof (grabbed_ok s X n Hok Hn) as Hok1.
  assert (slot (mem s) a) as Hsa by (by right). assert (mem (grabbed n s) a = mem s a) as Ea by (by eapply grabbed_mem).
  assert (n < length (mem_map s))%nat as Hlt by (by eapply lookup_lt_Some). pose proof Hlt as Hlt'. rewrite (ok_len _ _ Hok) in Hlt'.
  pose proof (frame_addr_of n Hlt') as Hfn. destruct (entry_page (addr_of n) 7 Hfn ltac:(lia)) as [P1 P2].
  assert (present (addr_of n + 7) = true) as P3 by (unfold present; rewrite entry_bit by (done || lia); done).
  set (old := page_of (mem s a)) in *. set (mp1 := <[n := 1]> (mem_map s)).
  set (mp := if decide (LOW_MEM <= old) then alter (fun c => c - 1) (nr old) mp1 else mp1).
  assert (forall c, LOW_MEM <= old -> mem_map s !! nr old = Some c -> 2 <= c < 256 /\ nr old <> n /\ mp1 !! nr old = Some c) as Hold.
  { intros c Hlo Hc. assert (refers (mem s a) (nr old)) as Hr by done. destruct (slot_cnt s X Hok a _ Hsa Hr) as (c2 & Hc2 & Hge).
    rewrite Hc in Hc2. injection Hc2 as <-. pose proof (ok_byte _ _ Hok _ _ Hc). assert (c <> 1) by (intros ->; by apply Hne).
    assert (nr old <> n) as Hno by (intros E; rewrite E, Hn in Hc; injection Hc; lia). split_and!; [lia|lia|done|].
    unfold mp1. by rewrite list_lookup_insert_ne. }
  assert (LOW_MEM <= old -> exists c, mem_map s !! nr old = Some c) as Hcold.
  { intros Hlo. by apply (refers_cnt s X Hok (mem s a) (nr old)); [| |apply (ok_pte _ _ Hok)]. }
  exists n, mp. split_and!; [done|done|]. intros s'. split.
  - unfold un_wp_page. erewrite bind_ok by reflexivity. fold old.
    erewrite (bind_ok _ _ s false s).
    2: { destruct (Z.leb_spec LOW_MEM old) as [Hlo|]; [|done]. destruct (Hcold Hlo) as [c Hc]. destruct (Hold c Hlo Hc) as ([? ?] & _).
         erewrite bind_ok by (apply get_map_ok; rewrite MAP_NR_nr by done; exact Hc). rewrite (proj2 (Z.eqb_neq c 1)) by lia. done. }
    rewrite (bind_ok _ _ _ _ _ Eg). rewrite (proj2 (Z.eqb_neq (addr_of n) 0)) by (unfold addr_of, LOW_MEM; lia).
    erewrite bind_ok by reflexivity.
    erewrite (bind_ok _ _ (grabbed n s) tt (set_map mp (grabbed n s))).
    2: { unfold mp. destruct (Z.leb_spec LOW_MEM old) as [Hlo|Hlo]; [rewrite decide_True by done|rewrite decide_False by lia; done].
         destruct (Hcold Hlo) as [c Hc]. destruct (Hold c Hlo Hc) as ([? ?] & Hno & Hc1).
         erewrite bind_ok by (apply get_map_ok; rewrite MAP_NR_nr by done; exact Hc1).
         rewrite (put_map_ok _ _ c) by (rewrite MAP_NR_nr by done; exact Hc1). rewrite MAP_NR_nr by done. change (mem_map (grabbed n s)) with mp1.
         do 2 f_equal. rewrite u8_id by lia. apply list_eq. intros i. destruct (decide (i = nr old)) as [->|Hi].
         - rewrite list_lookup_insert_eq by (by eapply lookup_lt_Some). by rewrite list_lookup_alter_eq, Hc1.
         - by rewrite list_lookup_insert_ne, list_lookup_alter_ne. }
    erewrite bind_ok by reflexivity. rewrite lor_frame by (done || lia). reflexivity.
  - assert (forall x, slot (mem s) x -> x <> a -> mem s' x = mem (grabbed n s) x) as Hmx.
    { intros x Hx Hxa. unfold s'. cbn. unfold poke. rewrite (proj2 (Z.eqb_neq x a)) by done. unfold fill_page at 1.
      by rewrite (unused_no_slot s X n x Hok Hn Hx). }
    assert (mem s' a = addr_of n + 7) as Ea' by (unfold s', poke; cbn; by rewrite Z.eqb_refl).
    apply (pte_update (grabbed n s) s' (held n X) X a (addr_of n + 7)); [done|by eapply grabbed_tslot|done| | |done| | | |].
    + intros _. rewrite P1. split; [done|]. intros d Hd Hpd E. destruct (ok_tab _ _ Hok d Hd) as [_ T2]; [by erewrite <- grabbed_mem by (eauto || by left)|].
      erewrite grabbed_mem in E by (eauto || by left). rewrite E, nr_addr_of in T2. congruence.
    + intros x Hx. apply (grabbed_slot s X n x Hok Hn) in Hx. case_decide as Hxa; [by rewrite Hxa|by apply Hmx].
    + unfold s', mp, mp1. cbn. case_decide; by rewrite ?length_alter, ?length_insert.
    + rewrite Ea. change (mem_map (grabbed n s)) with mp1. change (mem_map s') with mp. change (HIGH_MEMORY (grabbed n s)) with (HIGH_MEMORY s).
      intros k c' Hk. assert (bool_decide (refers (addr_of n + 7) k) = bool_decide (k = n)) as Hh1.
      { apply bool_decide_ext. unfold refers. rewrite P1, P3, nr_addr_of. unfold addr_of. naive_solver lia. }
      assert (exists c, mp1 !! k = Some c /\ c' = if decide (LOW_MEM <= old /\ k = nr old) then c - 1 else c) as (c & Hc & Ec).
      { unfold mp in Hk. case_decide as Hlo; [|by exists c'; rewrite decide_False by naive_solver].
        destruct (decide (k = nr old)) as [->|Hko].
        - rewrite list_lookup_alter_eq in Hk. destruct (mp1 !! nr old) as [c|]; [|done]. injection Hk as <-. exists c. by rewrite decide_True.
        - rewrite list_lookup_alter_ne in Hk by done. exists c'. by rewrite decide_False by naive_solver. }
      exists c. split; [done|]. destruct (ok_refs _ _ Hok1) as (R & _ & HR). destruct (HR k c Hc) as [_ HX]. pose proof (ok_byte _ _ Hok1 k c Hc) as Hbyte.
      assert (0 <= X k) as HXk by (destruct (ok_refs _ _ Hok) as (R0 & _ & HR0); assert (exists c0, mem_map s !! k = Some c0) as [c0 Hc0] by (apply lookup_lt_is_Some; apply lookup_lt_Some in Hc; unfold mp1 in Hc; by rewrite length_insert in Hc); by apply (HR0 k c0)).
      unfold hit. rewrite Hh1.
      assert (bool_decide (refers (mem s a) k) = bool_decide (LOW_MEM <= old /\ k = nr old)) as ->.
      { apply bool_decide_ext. unfold refers. fold old. naive_solver. }
      subst c'. case_decide as Hd.
      * destruct Hd as [Hlo ->]. destruct (Hcold Hlo) as [c0 Hc0]. destruct (Hold c0 Hlo Hc0) as ([? ?] & Hno & Hc1). rewrite Hc in Hc1. injection Hc1 as <-.
        rewrite bool_decide_eq_false_2 by done. rewrite bool_decide_eq_true_2 by done. cbn [Z.b2z]. unfold held. rewrite decide_False by done. lia.
      * rewrite (bool_decide_eq_false_2 (LOW_MEM <= old /\ k = nr old)) by done. unfold held. destruct (decide (k = n)) as [->|Hkn].
        -- rewrite bool_decide_eq_true_2 by done. unfold mp1 in Hc. rewrite list_lookup_insert_eq in Hc by done. injection Hc as <-. cbn [Z.b2z].
           split_and!; [lia|lia|done|lia|lia].
        -- rewrite bool_decide_eq_false_2 by done. cbn [Z.b2z]. split_and!; [lia|lia|done|lia|]. apply (ok_nonex _ _ Hok1 k c Hc).
    + intros b k Hb Hba Hr Hbw. change (mem_map (grabbed n s)) with mp1. change (mem_map s') with mp. unfold mp. case_decide as Hlo; [|done].
      apply list_lookup_alter_ne. intros <-. apply (grabbed_slot s X n b Hok Hn) in Hb. erewrite grabbed_mem in Hr, Hbw by done.
      apply Hne; [done|]. pose proof Hr as (R1 & R2 & R3). rewrite <- R3.
      destruct Hbw as [Hd|Hwr]; [by apply (ok_tab _ _ Hok)|]. destruct Hb as [Hd|Ht]; [by apply (ok_tab _ _ Hok)|by apply (ok_excl _ _ Hok)].
    + intros k (_ & _ & <-) _. rewrite P1, nr_addr_of. change (mem_map s') with mp. unfold mp.
      assert (mp1 !! n = Some 1) as E1 by (by apply list_lookup_insert_eq). case_decide as Hlo; [|done].
      destruct (Hcold Hlo) as [c0 Hc0]. destruct (Hold c0 Hlo Hc0) as (_ & Hno & _). by rewrite list_lookup_alter_ne.
Qed.

(** C11.  Copy on write: when a task writes to a page it may not write, and it
    is the only user of the page or some page is free, the
    fault leaves it with an entry it may write whose page no other entry
    refers to, holding what the task saw before; no other entry changes, what
    is seen through the others does not change, and the reference counts
    remain exact. *)
Theorem un_wp_page_isolates s X fuel a :
  mm_ok s X -> (1 <= fuel)%nat -> tslot (mem s) a -> present (mem s a) = true ->
  (LOW_MEM <= page_of (mem s a) /\ mem_map s !! nr (page_of (mem s a)) = Some 1) \/ (exists n, mem_map s !! n = Some 0) ->
  exists s', un_wp_page fuel a s = Ok tt s' /\ mm_ok s' X /\
    present (mem s' a) = true /\ writable (mem s' a) = true /\
    (forall o, 0 <= o < 4096 -> mem s' (page_of (mem s' a) + o) = mem s (page_of (mem s a) + o)) /\
    (forall b, slot (mem s) b -> b <> a -> mem s' b = mem s b /\ (present (mem s b) = true -> page_of (mem s b) <> page_of (mem s' a))) /\
    data_kept s s'.
Proof.
  intros Hok Hf Ha Hp Hfree. assert (slot (mem s) a) as Hsa by (by right). pose proof (tslot_word s X Hok a Ha) as Hw.
  destruct (decide (LOW_MEM <= page_of (mem s a) /\ mem_map s !! nr (page_of (mem s a)) = Some 1)) as [[Hlo Hc]|Hn].
  - destruct (un_wp_sole s X fuel a Hok Ha Hp Hlo Hc) as [E Hok']. destruct (lor2_spec _ Hw) as (_ & W2 & W3 & W4).
    set (s' := set_mem _ s) in *. exists s'. assert (mem s' a = Z.lor (mem s a) 2) as Ea by apply poke_eq.
    assert (forall x, x <> a -> mem s' x = mem s x) as Ex by (intros x Hx; by apply poke_ne).
    split; [exact E|]. split; [done|]. rewrite Ea, W2, W3. split_and!; [done|done| | |].
    + intros o Ho. apply Ex. intros Eo. pose proof Ha as (d & Hd & Hpd & Hr & _).
      eapply (table_sole s X Hok d) in Hsa; [|done|done|done|].
      * rewrite Hsa in Hr. pose proof (proj1 (ok_tab _ _ Hok d Hd Hpd)) as [HL _]. destruct Hd. unfold LOW_MEM in *. lia.
      * eapply frames_apart; [by apply frame_page_of|by eapply dir_frame| |exact Hr]. lia.
    + intros b Hb Hba. split; [by apply Ex|]. intros Hpb Eb. apply Hba.
      apply (sole_ref s X Hok b a (nr (page_of (mem s a)))); [done|done|by rewrite <- Eb; split_and!; [|rewrite Eb|]|by split_and!|done].
    + intros x Hx _. apply Ex. by intros ->.
  - destruct Hfree as [?|Hfree]; [done|]. destruct (un_wp_copy s X fuel a Hok Hf Ha Hp Hfree) as (n & mp & Hn0 & Hh & E & Hok'); [naive_solver|].
    assert (n < PAGING_PAGES)%nat as Hlt by (rewrite <- (ok_len _ _ Hok); by eapply lookup_lt_Some). pose proof (frame_addr_of n Hlt) as Hfn.
    destruct (entry_page (addr_of n) 7 Hfn ltac:(lia)) as [P1 _].
    assert (forall b, slot (mem s) b -> present (mem s b) = true -> page_of (mem s b) <> addr_of n) as Hno.
    { intros b Hb Hpb Eb. apply (unused_no_ref s X n b Hok Hn0 Hb). split_and!; [done|rewrite Eb; unfold addr_of; lia|]. by rewrite Eb, nr_addr_of. }
    set (s' := set_mem _ _) in *. exists s'. assert (mem s' a = addr_of n + 7) as Ea by apply poke_eq.
    assert (forall x, x <> a -> mem s' x = fill_page (addr_of n) (fun o => mem (grabbed n s) (page_of (mem s a) + o)) (mem (grabbed n s)) x) as Ex
      by (intros x Hx; by apply poke_ne).
    split; [exact E|]. split; [done|]. rewrite Ea, P1. split_and!.
    + unfold present. rewrite entry_bit by (done || lia). done.
    + unfold writable. rewrite entry_bit by (done || lia). done.
    + intros o Ho. rewrite Ex.
      2: { intros Eo. rewrite <- Eo in Hsa. pose proof (unused_no_slot s X n _ Hok Hn0 Hsa) as Hip. rewrite (proj2 (in_page_spec _ _)) in Hip by lia. done. }
      unfold fill_page at 1. rewrite (proj2 (in_page_spec _ _)) by lia. replace (addr_of n + o - addr_of n) with o by lia.
      unfold grabbed. cbn. unfold fill_page. destruct (in_page (addr_of n) (page_of (mem s a) + o)) eqn:Eip; [|done].
      apply in_page_spec in Eip. destruct (Hno a Hsa Hp). eapply frames_apart; [by apply frame_page_of|done| |exact Eip]. lia.
    + intros b Hb Hba. split; [|by apply Hno]. rewrite Ex by done.
      unfold fill_page at 1. rewrite (unused_no_slot s X n b Hok Hn0 Hb). by eapply grabbed_mem.
    + intros x Hx Hu. pose proof (data_kept_grabbed s X n Hok Hn0 x Hx Hu) as Hk. rewrite Ex by (by intros ->). unfold fill_page at 1. destruct (in_page (addr_of n) x) eqn:Eip; [|done]. apply in_page_spec in Eip.
      destruct Hu as [Hlo|(k & c & Hk' & Hc & Hkp)]; [unfold addr_of in Eip; lia|]. apply in_page_spec in Hkp. assert (k = n) as ->; [|congruence].
      unfold addr_of in *. lia.
Qed.
