(* ===== verification/LinuxFork.v ===== *)
(** * Linux 0.12: page tables at fork and exit

    [copy_page_tables] gives the child the pages of its parent: those in memory
    read-only for both, those on the swap device as the copies there, while the
    parent gets them read in.  It keeps the reference counts exact. *)

From stdpp Require Import gmap.
From S2P Require Import Prelude LinuxMm LinuxCow.

(** Entry [i] of the table below directory entry [d]. *)
Definition pte (m : Z -> Z) (d : Z) (i : nat) : Z := if present (m d) then m (page_of (m d) + 4 * Z.of_nat i) else 0.
Definition cow (e : Z) : Z := if present e then Z.ldiff e 2 else e.
Definition protect (e : Z) : Z := if present e && (LOW_MEM <=? page_of e) then Z.ldiff e 2 else e.
Definition swapped (e : Z) : bool := negb (e =? 0) && negb (present e).

(** Entry [e] of the parent, for a page that is on the swap device, has become
    [f]: a page that was free, for the parent alone to read and write, dirty,
    with what the swap device has. *)
Definition read_in (s s' : mm) (e f : Z) : Prop := exists p,
  mem_map s !! p = Some 0 /\ f = addr_of p + 71 /\ forall o, 0 <= o < 4096 -> mem s' (addr_of p + o) = swap_page s (Z.shiftr e 1) o.
(** Entry [e] of the parent has become [f], and its child has got [t]. *)
Definition passed_on (s s' : mm) (e f t : Z) : Prop := t = cow e /\ if swapped e then read_in s s' e f else f = protect e.

(** The pages needed for the entries from [i] on of a table. *)
Definition swaps (f : nat -> Z) (i : nat) : nat := length (filter (fun j => swapped (f j) = true) (seq i (1024 - i))).
Lemma swaps_S f i : (i < 1024)%nat -> swaps f i = ((if swapped (f i) then 1 else 0) + swaps f (S i))%nat.
Proof.
  intros Hi. unfold swaps. replace (1024 - i)%nat with (S (1024 - S i)) by lia. cbn [seq]. rewrite filter_cons.
  destruct (swapped (f i)); case_decide; done.
Qed.
Lemma swaps_ext f g i : (forall j, (j < 1024)%nat -> f j = g j) -> swaps f i = swaps g i.
Proof.
  intros E. unfold swaps. assert (Forall (fun j => f j = g j) (seq i (1024 - i))) as H by (apply Forall_forall; intros j Hj%elem_of_seq; apply E; lia).
  f_equal. induction H as [|j l Hj _ IH]; [done|]. by rewrite !filter_cons, IH, Hj.
Qed.
Lemma size_without (F : gset nat) p : (size F <= S (size (F ∖ {[p]})))%nat.
Proof.
  pose proof (size_difference_alt F {[p]}) as Hs. assert (size (F ∩ {[p]}) <= 1)%nat; [|lia].
  rewrite <- (size_singleton (C := gset nat) p). apply subseteq_size. set_solver.
Qed.
Lemma same_frame n k x : in_page (addr_of n) x = true -> in_page (addr_of k) x = true -> n = k.
Proof. rewrite !in_page_spec. unfold addr_of. lia. Qed.

Lemma entry_slot s X d i : mm_ok s X -> dslot d -> present (mem s d) = true -> (i < 1024)%nat -> in_table (mem s) d (page_of (mem s d) + 4 * Z.of_nat i).
Proof.
  intros Hok Hd Hp Hi. split; [done|]. split; [lia|]. destruct (dir_frame s X Hok d Hd) as [Hf _].
  pose proof (Z.div_mod (page_of (mem s d)) 4096). replace (page_of (mem s d) + 4 * Z.of_nat i) with ((1024 * (page_of (mem s d) / 4096) + Z.of_nat i) * 4) by lia.
  apply Z.mod_mul. lia.
Qed.
Lemma table_index m d a : in_table m d a -> frame (page_of (m d)) -> exists i, (i < 1024)%nat /\ a = page_of (m d) + 4 * Z.of_nat i.
Proof.
  intros (_ & Hr & Ha) [Hf _]. exists (Z.to_nat ((a - page_of (m d)) / 4)).
  pose proof (Z.div_mod (page_of (m d)) 4096). pose proof (Z.div_mod a 4). pose proof (Z.div_mod (a - page_of (m d)) 4). pose proof (Z.mod_pos_bound (a - page_of (m d)) 4).
  rewrite Z2Nat.id by (apply Z.div_pos; lia). lia.
Qed.

(** ** A new table *)

Lemma dir_add s X d n : mm_ok s (held n X) -> X n = 0 -> 0 <= X n -> dslot d -> present (mem s d) = false ->
  mem_map s !! n = Some 1 -> addr_of n < HIGH_MEMORY s ->
  (forall b, slot (mem s) b -> ~ refers (mem s b) n) -> (forall x, in_page (addr_of n) x = true -> mem s x = 0) ->
  mm_ok (set_mem (poke (mem s) d (addr_of n + 7)) s) X.
Proof.
  intros Hok HX _ Hd Hnp Hn Hh Hnr Hz. set (m' := poke (mem s) d (addr_of n + 7)).
  pose proof Hok as [H1 H2 H3 H4 H5 H6 H7 H8 H9].
  assert (n < PAGING_PAGES)%nat as Hlt by (rewrite <- H1; by eapply lookup_lt_Some). pose proof (frame_addr_of n Hlt) as Hfn.
  destruct (entry_page (addr_of n) 7 Hfn ltac:(lia)) as [P1 P2].
  assert (present (addr_of n + 7) = true) as P3 by (unfold present; rewrite entry_bit by (done || lia); done).
  assert (m' d = addr_of n + 7) as Ed by apply poke_eq. assert (forall x, x <> d -> m' x = mem s x) as Ex by (intros x Hx; by apply poke_ne).
  assert (forall a, tslot m' a -> tslot (mem s) a /\ a <> d \/ (mem s a = 0 /\ m' a = 0)) as Ht.
  { intros a (d' & Hd' & Hi). destruct (decide (d' = d)) as [->|Hne].
    - destruct Hi as (_ & Hr & _). rewrite Ed, P1 in Hr. right. assert (mem s a = 0) as E0 by (apply Hz, in_page_spec; lia). split; [done|].
      rewrite Ex; [done|]. intros ->. destruct Hd. unfold addr_of, LOW_MEM in Hr. lia.
    - left. assert (tslot (mem s) a) as Hta by (exists d'; split; [done|]; eapply in_table_ext; [|exact Hi]; by rewrite Ex).
      split; [done|]. intros ->. by eapply tslot_not_dslot. }
  split; cbn [mem mem_map HIGH_MEMORY set_mem]; try done; fold m'.
  - intros a [Ha|Ha].
    + destruct (decide (a = d)) as [->|Hne]; [by rewrite Ed|]. rewrite Ex by done. apply H5. by left.
    + destruct (Ht a Ha) as [[Ha' Hne]|[_ ->]]; [|unfold word; lia]. rewrite Ex by done. apply H5. by right.
  - apply (refs_update (mem s) m' (mem_map s) (mem_map s) (held n X) X d (fun _ => false) (fun k => bool_decide (k = n))); [done| | | |].
    + intros k. split; [done|]. intros [_ [Hp _]]. congruence.
    + intros k. rewrite bool_decide_eq_true, Ed. unfold refers. rewrite P1, P3, nr_addr_of. split; [intros ->|by intros (_ & _ & _ & ->)].
      split; [by left|]. split_and!; [done|unfold addr_of; lia|done].
    + intros k b Hne. rewrite Ex by done. split; intros [Hb Hr]; (split; [|done]).
      * destruct Hb as [Hb|Hb]; [by left|]. destruct (Ht b Hb) as [[Hb' _]|[E0 _]]; [by right|]. rewrite E0 in Hr. by destruct Hr.
      * destruct Hb as [Hb|(d' & Hd' & Hi)]; [by left|right]. exists d'. split; [done|]. eapply in_table_ext; [|exact Hi]. rewrite Ex; [done|].
        intros ->. destruct Hi. congruence.
    + intros k c' Hk. exists c'. split; [done|]. destruct H6 as (R & _ & HR). destruct (HR k c' Hk) as [_ Hx]. unfold held in *.
      destruct (decide (k = n)) as [->|Hkn]; [rewrite bool_decide_eq_true_2 by done|rewrite bool_decide_eq_false_2 by done]; cbn [Z.b2z]; lia.
  - intros d' Hd'. destruct (decide (d' = d)) as [->|Hne].
    + rewrite Ed, P1, nr_addr_of. intros _. split; [|done]. unfold addr_of, LOW_MEM in *. lia.
    + rewrite Ex by done. by apply H7.
  - intros a Ha. destruct (Ht a Ha) as [[Ha' Hne]|[_ ->]]; [|done]. rewrite Ex by done. by apply H8.
  - intros a Ha. destruct (Ht a Ha) as [[Ha' Hne]|[_ ->]]; [|done]. rewrite Ex by done. by apply H9.
Qed.

(** ** One entry copied *)

Lemma count_bump s X n c : mm_ok s X -> mem_map s !! n = Some c -> 0 <= X n.
Proof. intros Hok Hc. destruct (ok_refs _ _ Hok) as (R & _ & HR). by apply (HR n c). Qed.

(** A read-only copy of a reference. *)
Lemma share_ok s X fa ta e1 n c : mm_ok s X -> tslot (mem s) fa -> tslot (mem s) ta -> fa <> ta -> mem s ta = 0 ->
  word e1 -> present e1 = true -> writable e1 = false -> page_of e1 = page_of (mem s fa) -> present (mem s fa) = true ->
  writable (mem s fa) = false -> LOW_MEM <= page_of e1 -> n = nr (page_of e1) -> mem_map s !! n = Some c -> c < 255 ->
  mm_ok (set_map (<[n := c + 1]> (mem_map s)) (set_mem (poke (mem s) ta e1) s)) X.
Proof.
  intros Hok Hfa Hta Hne Ez Hw Hp Hwr Epg Hpf Hwf Hlo -> Hc Hc255. set (n := nr (page_of e1)) in *.
  assert (refers (mem s fa) n) as Hrf by (unfold n; rewrite Epg; split_and!; [done|by rewrite <- Epg|done]).
  pose proof (slot_cnt s X Hok fa n ltac:(by right) Hrf) as (c0 & Hc0 & Hge). rewrite Hc in Hc0. injection Hc0 as <-.
  eapply (pte_update s _ X X ta e1); [done|done|done|..]; cbn [mem mem_map HIGH_MEMORY set_mem set_map]; try done.
  - intros _. rewrite Epg. split; [by apply (ok_pte _ _ Hok)|]. intros d Hd Hpd E. apply (tslot_not_dslot s X Hok fa Hfa).
    rewrite (table_sole s X Hok d fa); [done|done|done|by right|done|done].
  - intros x Hx. case_decide as Hxa; [rewrite Hxa; apply poke_eq|by apply poke_ne].
  - apply length_insert.
  - intros k c' Hk. assert (hit (mem s ta) k = 0) as E0 by (rewrite Ez; unfold hit; rewrite bool_decide_eq_false_2; [done|by intros []]).
    rewrite E0. apply list_lookup_insert_Some in Hk as [(<- & <- & _)|[Hkn Hk]].
    + exists c. unfold hit. rewrite bool_decide_eq_true_2 by (by split_and!). cbn [Z.b2z]. pose proof (ok_byte _ _ Hok _ _ Hc).
      split_and!; [done|lia|lia|by eapply count_bump|lia|lia].
    + exists c'. unfold hit. rewrite bool_decide_eq_false_2 by (by intros (_ & _ & <-)). cbn [Z.b2z].
      pose proof (ok_byte _ _ Hok _ _ Hk). split_and!; [done|lia|lia|by eapply count_bump|lia|by apply (ok_nonex _ _ Hok)].
  - intros b k Hb Hbt Hr Hbw. apply list_lookup_insert_ne. intros <-. assert (mem_map s !! n = Some 1) as Hc1.
    { destruct Hr as (R1 & R2 & <-). destruct Hbw as [Hd|Hw']; [by apply (ok_tab _ _ Hok)|]. destruct Hb as [Hd|Ht]; [by apply (ok_tab _ _ Hok)|by apply (ok_excl _ _ Hok)]. }
    destruct (sole_ref s X Hok b fa n) as [-> _]; [done|by right|done|done|done|]. destruct Hbw as [Hd|]; [by apply (tslot_not_dslot s X Hok fa Hfa)|congruence].
  - intros k _ Hwr'. congruence.
Qed.

(** Taking away the right to write. *)
Lemma protect_ok s X a : mm_ok s X -> tslot (mem s) a -> present (mem s a) = true -> mm_ok (set_mem (poke (mem s) a (Z.ldiff (mem s a) 2)) s) X.
Proof.
  intros Hok Ha Hp. pose proof (tslot_word s X Hok a Ha) as Hw. destruct (ldiff2_spec _ Hw) as (W1 & W2 & W3 & W4).
  eapply (pte_update s _ X X a (Z.ldiff (mem s a) 2)); [done|done|done|..]; cbn [mem mem_map HIGH_MEMORY set_mem]; try done.
  - intros _. rewrite W2. split; [by apply (ok_pte _ _ Hok)|]. intros d Hd Hpd E. apply (tslot_not_dslot s X Hok a Ha).
    rewrite (table_sole s X Hok d a); [done|done|done|by right|done|done].
  - intros x Hx. case_decide as Hxa; [rewrite Hxa; apply poke_eq|by apply poke_ne].
  - intros n c Hn. exists c. pose proof (ok_byte _ _ Hok _ _ Hn). split_and!; [done|lia|lia|by eapply count_bump| |by apply (ok_nonex _ _ Hok)].
    unfold hit. assert (bool_decide (refers (Z.ldiff (mem s a) 2) n) = bool_decide (refers (mem s a) n)) as ->; [|done].
    apply bool_decide_ext. unfold refers. by rewrite W2, W3.
  - intros n _ Hwr. congruence.
Qed.
(** An entry for a page of low memory, which is not counted, or for none. *)
Lemma low_ok s X a e1 : mm_ok s X -> tslot (mem s) a -> mem s a = 0 -> word e1 -> (present e1 = true -> page_of e1 < LOW_MEM) -> mm_ok (set_mem (poke (mem s) a e1) s) X.
Proof.
  intros Hok Ha Ez Hw Hlo.
  eapply (pte_update s _ X X a e1); [done|done|done|..]; cbn [mem mem_map HIGH_MEMORY set_mem]; try done.
  - intros Hp. specialize (Hlo Hp). pose proof (ok_high _ _ Hok). split; [lia|]. intros d Hd Hpd E. pose proof (proj1 (ok_tab _ _ Hok d Hd Hpd)). lia.
  - intros x Hx. case_decide as Hxa; [rewrite Hxa; apply poke_eq|by apply poke_ne].
  - intros n c Hn. exists c. pose proof (ok_byte _ _ Hok _ _ Hn). split_and!; [done|lia|lia|by eapply count_bump| |by apply (ok_nonex _ _ Hok)].
    unfold hit. rewrite Ez, !bool_decide_eq_false_2; [done|by intros []|intros (Hp & ? & _); specialize (Hlo Hp); lia].
  - intros n (Hp & ? & _). specialize (Hlo Hp). lia.
Qed.

(** A page the kernel has taken is entered for one task, which may write it. *)
Lemma enter_ok s X a p : mm_ok s (held p X) -> 0 <= X p -> tslot (mem s) a -> present (mem s a) = false -> mem_map s !! p = Some 1 -> addr_of p < HIGH_MEMORY s ->
  (forall b, slot (mem s) b -> ~ refers (mem s b) p) -> mm_ok (set_mem (poke (mem s) a (addr_of p + 71)) s) X.
Proof.
  intros Hok HX Ha Hnp Hp Hh Hno. assert (p < PAGING_PAGES)%nat as Hlt by (rewrite <- (ok_len _ _ Hok); by eapply lookup_lt_Some).
  pose proof (frame_addr_of p Hlt) as Hfn. destruct (entry_page (addr_of p) 71 Hfn ltac:(lia)) as [P1 P2].
  assert (present (addr_of p + 71) = true) as P3 by (unfold present; rewrite entry_bit by (done || lia); done).
  eapply (pte_update s _ (held p X) X a (addr_of p + 71)); [done|done|done|..]; cbn [mem mem_map HIGH_MEMORY set_mem]; try done.
  - intros _. rewrite P1. split; [done|]. intros d Hd Hpd E. apply (Hno d); [by left|]. split_and!; [done|rewrite E; unfold addr_of; lia|by rewrite E, nr_addr_of].
  - intros x Hx. case_decide as Hxa; [rewrite Hxa; apply poke_eq|by apply poke_ne].
  - intros n c Hn. exists c. pose proof (ok_byte _ _ Hok _ _ Hn). pose proof (count_bump _ _ _ _ Hok Hn) as HXn. unfold hit.
    rewrite (bool_decide_eq_false_2 (refers (mem s a) n)) by (intros [Hx _]; congruence).
    assert (bool_decide (refers (addr_of p + 71) n) = bool_decide (n = p)) as -> by (apply bool_decide_ext; unfold refers; rewrite P1, P3, nr_addr_of; unfold addr_of; naive_solver lia).
    unfold held in *. destruct (decide (n = p)) as [->|Hne]; [rewrite bool_decide_eq_true_2 by done|rewrite bool_decide_eq_false_2 by done]; cbn [Z.b2z];
      (split_and!; [done|lia|lia|lia|lia|by apply (ok_nonex _ _ Hok)]).
  - intros n (_ & _ & <-) _. by rewrite P1, nr_addr_of.
Qed.
(** A page a table entry refers to is no table. *)
Lemma data_no_slot s X a p x : mm_ok s X -> tslot (mem s) a -> refers (mem s a) p -> in_page (addr_of p) x = true -> ~ slot (mem s) x.
Proof.
  intros Hok Ha (Hp & Hlo & En) Hx Hs. apply in_page_spec in Hx. assert (addr_of p = page_of (mem s a)) as Ep by (rewrite <- En; apply addr_of_nr; [apply frame_page_of; by eapply tslot_word|done]).
  destruct Hs as [[Hd _]|(d & Hd & Hpd & Hr & _)]; [unfold addr_of, LOW_MEM in Hx; lia|]. apply (tslot_not_dslot s X Hok a Ha).
  rewrite (table_sole s X Hok d a); [done|done|done|by right|done|]. eapply frames_apart; [apply frame_page_of; by eapply tslot_word|by eapply dir_frame| |exact Hr]. lia.
Qed.

(** ** A table copied *)

Section Table.
Context (fuel : nat) (s0 : mm) (X : nat -> Z) (df dt : Z) (extra : nat).
Notation Pf := (page_of (mem s0 df)).
Notation Pt := (page_of (mem s0 dt)).
Notation fent j := (mem s0 (Pf + 4 * Z.of_nat j)).
Notation need i := (extra + swaps (fun j => fent j) i)%nat.
Context (Hfuel : (1 <= fuel)%nat) (Hok0 : mm_ok s0 X) (Hdf : dslot df) (Hdt : dslot dt) (Hne : df <> dt)
  (Hpf : present (mem s0 df) = true) (Hpt : present (mem s0 dt) = true)
  (Hempty : forall j, (j < 1024)%nat -> mem s0 (Pt + 4 * Z.of_nat j) = 0)
  (Hinj : forall j j' n, (j < 1024)%nat -> (j' < 1024)%nat -> refers (fent j) n -> refers (fent j') n -> j = j')
  (Hcnt : forall j n c, (j < 1024)%nat -> refers (fent j) n -> mem_map s0 !! n = Some c -> c < 255)
  (Hfree : exists F : gset nat, (need 0 <= size F)%nat /\ forall p, p ∈ F -> mem_map s0 !! p = Some 0).

(** Outside the pages nobody uses. *)
Notation used s x := (forall p, mem_map s !! p = Some 0 -> in_page (addr_of p) x = false).

Record tcopy (s : mm) (i : nat) : Prop := {
  tc_ok : mm_ok s X;
  tc_swap : swap_page s = swap_page s0;
  tc_pass : forall j, (j < i)%nat -> passed_on s0 s (fent j) (mem s (Pf + 4 * Z.of_nat j)) (mem s (Pt + 4 * Z.of_nat j));
  tc_rest : forall x, (forall j, (j < i)%nat -> x <> Pf + 4 * Z.of_nat j /\ x <> Pt + 4 * Z.of_nat j) -> used s0 x -> mem s x = mem s0 x;
  tc_map : forall n, mem_map s0 !! n <> Some 0 -> (forall j, (j < i)%nat -> ~ refers (fent j) n) -> mem_map s !! n = mem_map s0 !! n;
  tc_mono : forall n c, mem_map s0 !! n = Some c -> exists c', mem_map s !! n = Some c' /\ c <= c';
  tc_high : HIGH_MEMORY s = HIGH_MEMORY s0;
  tc_free : exists F : gset nat, (need i <= size F)%nat /\ forall p, p ∈ F -> mem_map s !! p = Some 0 }.

Lemma tables_apart j j' : (j < 1024)%nat -> (j' < 1024)%nat -> Pf + 4 * Z.of_nat j <> Pt + 4 * Z.of_nat j'.
Proof.
  intros Hj Hj' E. apply Hne. apply (in_table_unique s0 X Hok0 df dt (Pf + 4 * Z.of_nat j)); [done|done| |]; [by eapply entry_slot|].
  rewrite E. by eapply entry_slot.
Qed.

Lemma tcopy_0 : tcopy s0 0.
Proof. split; try done; try lia. intros n c Hc. by exists c. Qed.

(** Pages that are free now were free before; the words of directory and
    tables lie in used pages. *)
Lemma tcopy_zero s i n : tcopy s i -> mem_map s !! n = Some 0 -> mem_map s0 !! n = Some 0.
Proof.
  intros T Hn. destruct (mem_map s0 !! n) as [c|] eqn:E.
  - destruct (tc_mono _ _ T n c E) as (c' & Hc' & Hle). rewrite Hn in Hc'. injection Hc' as <-. pose proof (ok_byte _ _ Hok0 n c E). f_equal. lia.
  - apply lookup_ge_None in E. apply lookup_lt_Some in Hn. rewrite (ok_len _ _ (tc_ok _ _ T)) in Hn. rewrite (ok_len _ _ Hok0) in E. lia.
Qed.
Lemma slot_used x : slot (mem s0) x -> used s0 x.
Proof. intros Hx p Hp. by eapply unused_no_slot. Qed.
Lemma tcopy_dirs s i d : tcopy s i -> dslot d -> mem s d = mem s0 d.
Proof.
  intros T Hd. apply (tc_rest _ _ T); [|apply slot_used; by left]. intros j Hj. pose proof (proj1 (ok_tab _ _ Hok0 df Hdf Hpf)). pose proof (proj1 (ok_tab _ _ Hok0 dt Hdt Hpt)).
  destruct Hd. unfold LOW_MEM in *. lia.
Qed.
Lemma tcopy_slots s i j : tcopy s i -> (j < 1024)%nat -> tslot (mem s) (Pf + 4 * Z.of_nat j) /\ tslot (mem s) (Pt + 4 * Z.of_nat j).
Proof.
  intros T Hj. split; (eapply tslot_ext; [intros d Hd; by apply (tcopy_dirs s i d T)|]); [exists df|exists dt]; (split; [done|]); by eapply entry_slot.
Qed.
Lemma tcopy_at s i : tcopy s i -> (i < 1024)%nat -> mem s (Pf + 4 * Z.of_nat i) = fent i /\ mem s (Pt + 4 * Z.of_nat i) = 0.
Proof.
  intros T Hi. destruct (tcopy_slots s0 0 i tcopy_0 Hi) as [S1 S2]. split.
  - apply (tc_rest _ _ T); [|apply slot_used; by right]. intros j Hj. split; [lia|apply tables_apart; lia].
  - rewrite (tc_rest _ _ T); [by apply Hempty| |apply slot_used; by right]. intros j Hj. split; [intros E; symmetry in E; revert E; apply tables_apart; lia|lia].
Qed.

(** Extending the copy by entry [i]. *)
Lemma tcopy_S s s' i : tcopy s i -> (i < 1024)%nat -> mm_ok s' X -> HIGH_MEMORY s' = HIGH_MEMORY s -> swap_page s' = swap_page s ->
  (forall x, x <> Pf + 4 * Z.of_nat i -> x <> Pt + 4 * Z.of_nat i -> used s x -> mem s' x = mem s x) ->
  passed_on s0 s' (fent i) (mem s' (Pf + 4 * Z.of_nat i)) (mem s' (Pt + 4 * Z.of_nat i)) ->
  (forall n, mem_map s !! n <> Some 0 -> ~ refers (fent i) n -> mem_map s' !! n = mem_map s !! n) ->
  (forall n c, mem_map s !! n = Some c -> exists c', mem_map s' !! n = Some c' /\ c <= c') ->
  (exists F : gset nat, (need (S i) <= size F)%nat /\ forall p, p ∈ F -> mem_map s' !! p = Some 0) -> tcopy s' (S i).
Proof.
  intros T Hi Hok Hh Hsw Hm Hent Hmap Hmono HF. pose proof T as [T1 T2 T3 T4 T5 T6 T7 _]. split; [done|by rewrite Hsw|..].
  - intros j Hj. destruct (decide (j = i)) as [->|Hji]; [done|]. specialize (T3 j ltac:(lia)). destruct (tcopy_slots s i j T ltac:(lia)) as [Sf St].
    destruct (tcopy_slots s i i T Hi) as [Sfi Sti].
    assert (mem s' (Pf + 4 * Z.of_nat j) = mem s (Pf + 4 * Z.of_nat j)) as ->.
    { apply Hm; [lia|apply tables_apart; lia|]. intros p Hp. eapply unused_no_slot; [exact T1|done|by right]. }
    assert (mem s' (Pt + 4 * Z.of_nat j) = mem s (Pt + 4 * Z.of_nat j)) as ->.
    { apply Hm; [intros E; symmetry in E; revert E; apply tables_apart; lia|lia|]. intros p Hp. eapply unused_no_slot; [exact T1|done|by right]. }
    destruct T3 as [E1 E2]. split; [done|]. destruct (swapped (fent j)); [|done]. destruct E2 as (p & Hp & Ef & Ec). exists p. split_and!; [done|done|].
    assert (refers (mem s (Pf + 4 * Z.of_nat j)) p) as Hr.
    { assert (p < PAGING_PAGES)%nat as Hlt by (rewrite <- (ok_len _ _ Hok0); by eapply lookup_lt_Some). destruct (entry_page (addr_of p) 71 (frame_addr_of p Hlt) ltac:(lia)) as [P1 _].
      rewrite Ef. unfold refers. rewrite P1, nr_addr_of. split_and!; [|unfold addr_of; lia|done]. unfold present. rewrite entry_bit; [done|by apply frame_addr_of|lia|lia]. }
    intros o Ho. assert (in_page (addr_of p) (addr_of p + o) = true) as Hin by (apply in_page_spec; lia). pose proof (data_no_slot s X _ p _ T1 Sf Hr Hin) as Hns.
    rewrite Hm; [by apply Ec|intros E; apply Hns; rewrite E; by right|intros E; apply Hns; rewrite E; by right|]. intros q Hq. destruct (in_page (addr_of q) (addr_of p + o)) eqn:Eq; [|done].
    rewrite (same_frame _ _ _ Eq Hin) in Hq. exfalso. by eapply (unused_no_ref s X p); [exact T1|exact Hq|right; exact Sf|].
  - intros x Hx Hu. destruct (Hx i ltac:(lia)). rewrite Hm; [|done|done|intros p Hp; apply Hu; by eapply tcopy_zero]. apply T4; [|done]. intros j Hj. apply Hx. lia.
  - intros n Hn0 Hn. rewrite Hmap; [|intros Hz; apply Hn0; by eapply tcopy_zero|apply Hn; lia]. apply T5; [done|]. intros j Hj. apply Hn. lia.
  - intros n c Hc. destruct (T6 n c Hc) as (c1 & Hc1 & Hle1). destruct (Hmono n c1 Hc1) as (c2 & Hc2 & Hle2). exists c2. split; [done|lia].
  - by rewrite Hh.
  - done.
Qed.

(** A page on the swap device. *)
Lemma copy_swapped s i : tcopy s i -> (i < 1024)%nat -> fent i <> 0 -> present (fent i) = false ->
  exists s', copy_entry fuel Pf Pt 1024 i s = Ok (inl (S i)) s' /\ tcopy s' (S i).
Proof.
  intros T Hi Hnz Hnp. destruct (tcopy_at s i T Hi) as [Ef Et]. destruct (tcopy_slots s i i T Hi) as [Hfa Hta]. pose proof (tc_ok _ _ T) as Hok.
  set (fa := Pf + 4 * Z.of_nat i) in *. set (ta := Pt + 4 * Z.of_nat i) in *. assert (fa <> ta) as Hft by (by apply tables_apart). set (e := mem s0 fa) in *.
  assert (swapped e = true) as Hsw by (unfold swapped; by rewrite (proj2 (Z.eqb_neq _ _) Hnz), Hnp).
  destruct (tc_free _ _ T) as (F & HF & HF0). rewrite swaps_S in HF by done. fold fa e in HF. rewrite Hsw in HF.
  destruct (get_free_page_ok s X fuel Hok Hfuel) as (p & Hp & Hh & Eg); [destruct (size_pos_elem_of F ltac:(lia)) as [q Hq]; exists q; by apply HF0|].
  assert (p < length (mem_map s))%nat as Hlt by (by eapply lookup_lt_Some). pose proof (frame_addr_of p ltac:(by rewrite <- (ok_len _ _ Hok))) as Hfn.
  set (s1 := grabbed p s). set (m2 := fill_page (addr_of p) (swap_page s (Z.shiftr e 1)) (mem s1)).
  assert (forall x, in_page (addr_of p) x = false -> m2 x = mem s x) as E2 by (intros x Hx; unfold m2, s1, grabbed; cbn; unfold fill_page; by rewrite Hx).
  assert (forall x, slot (mem s) x -> in_page (addr_of p) x = false) as Hin by (intros x Hx; by eapply unused_no_slot).
  assert (mm_ok (set_mem m2 s1) (held p X)) as Hok2.
  { eapply mm_frame; [apply (grabbed_ok s X p Hok Hp)|done|done|]. intros a Ha. apply (grabbed_slot s X p a Hok Hp) in Ha. cbn. rewrite E2 by (by apply Hin). symmetry. by eapply grabbed_mem. }
  assert (forall d, dslot d -> m2 d = mem s d) as Ed by (intros d Hd; apply E2, Hin; by left).
  set (m3 := poke m2 ta e). assert (mm_ok (set_mem m3 s1) (held p X)) as Hok3.
  { apply (low_ok (set_mem m2 s1)); [done|by apply (tslot_ext (mem s))|cbn; by rewrite E2, Et by (apply Hin; by right)| |by rewrite Hnp]. rewrite <- Ef. by eapply tslot_word. }
  assert (forall d, dslot d -> m3 d = mem s d) as Ed3 by (intros d Hd; unfold m3; rewrite poke_ne by (intros ->; by apply (tslot_not_dslot s X Hok ta)); by apply Ed).
  assert (m3 fa = e) as E3 by (unfold m3; rewrite poke_ne by done; by rewrite E2, Ef by (apply Hin; by right)).
  set (s4 := set_mem (poke m3 fa (addr_of p + 71)) s1). assert (mm_ok s4 X) as Hok4.
  { apply (enter_ok (set_mem m3 s1)); [done|by eapply count_bump|by apply (tslot_ext (mem s))|cbn; by rewrite E3|cbn; by apply list_lookup_insert_eq|done|].
    intros b Hb Hr. cbn in Hb, Hr. apply (slot_ext (mem s) m3 b Ed3) in Hb. destruct (decide (b = ta)) as [->|Hbt].
    - unfold m3 in Hr. rewrite poke_eq in Hr. destruct Hr as [Hr _]. congruence.
    - unfold m3 in Hr. rewrite poke_ne, E2 in Hr by (done || by apply Hin). exact (unused_no_ref s X p b Hok Hp Hb Hr). }
  exists s4. split.
  - unfold copy_entry. rewrite (proj2 (Nat.ltb_lt i 1024)) by done. cbn [negb]. fold fa ta. erewrite bind_ok by reflexivity. rewrite Ef.
    rewrite (proj2 (Z.eqb_neq _ _) Hnz), land1, Hnp. cbn [negb]. rewrite (bind_ok _ _ _ _ _ Eg).
    rewrite (proj2 (Z.eqb_neq _ _)) by (unfold addr_of, LOW_MEM; lia). do 3 erewrite bind_ok by reflexivity. change (Z.lor PAGE_DIRTY 7) with 71.
    rewrite lor_frame by (done || lia). reflexivity.
  - apply (tcopy_S s); fold fa ta; try done.
    + intros x Hx1 Hx2 Hu. cbn. rewrite poke_ne by done. unfold m3. rewrite poke_ne by done. apply E2. by apply Hu.
    + cbn. rewrite poke_eq, (poke_ne m3 fa _ ta) by done. unfold m3. rewrite poke_eq. split; [unfold cow; fold e; by rewrite Hnp|]. fold e. rewrite Hsw. exists p.
      split_and!; [by eapply tcopy_zero|done|]. intros o Ho. assert (in_page (addr_of p) (addr_of p + o) = true) as Hio by (apply in_page_spec; lia).
      assert (addr_of p + o <> fa /\ addr_of p + o <> ta) as [N1 N2] by (split; intros E; rewrite E, Hin in Hio by (by right); done).
      change (mem s4) with (poke m3 fa (addr_of p + 71)). unfold m3. rewrite !poke_ne by done. unfold m2, fill_page. rewrite Hio, <- (tc_swap _ _ T). f_equal. lia.
    + intros n Hn _. cbn. apply list_lookup_insert_ne. by intros ->.
    + intros n c Hc. cbn. destruct (decide (n = p)) as [->|Hnp']; [|rewrite list_lookup_insert_ne by done; eauto using Z.le_refl].
      rewrite list_lookup_insert_eq by done. exists 1. split; [done|]. rewrite Hp in Hc. injection Hc as <-. lia.
    + exists (F ∖ {[p]}). pose proof (size_without F p). split; [lia|]. intros q [Hq1 Hq2]%elem_of_difference. cbn. rewrite list_lookup_insert_ne by (intros ->; by apply Hq2, elem_of_singleton). by apply HF0.
Qed.

Lemma copy_entry_ok s i : tcopy s i -> (i < 1024)%nat -> exists s', copy_entry fuel Pf Pt 1024 i s = Ok (inl (S i)) s' /\ tcopy s' (S i).
Proof.
  intros T Hi. destruct (tcopy_at s i T Hi) as [Ef Et]. destruct (tcopy_slots s i i T Hi) as [Hfa Hta]. pose proof (tc_ok _ _ T) as Hok.
  destruct (decide (fent i = 0)) as [E0|Hnz].
  { assert (swapped (fent i) = false) as Hsw by (by rewrite E0). exists s. split; [unfold copy_entry; rewrite (proj2 (Nat.ltb_lt i 1024)) by done; cbn [negb]; erewrite bind_ok by reflexivity; by rewrite Ef, E0|].
    apply (tcopy_S s); try done; [rewrite Ef, Et; split; by rewrite ?Hsw, E0|eauto using Z.le_refl|]. pose proof (tc_free _ _ T) as (F & HF & HF0). rewrite swaps_S, Hsw in HF by done. by exists F. }
  destruct (present (fent i)) eqn:Hp; [|by apply copy_swapped]. assert (swapped (fent i) = false) as Hsw by (unfold swapped; by rewrite Hp, andb_false_r).
  pose proof (tslot_word s X Hok _ Hfa) as Hw. rewrite Ef in Hw. destruct (ldiff2_spec _ Hw) as (W1 & W2 & W3 & W4).
  set (fa := Pf + 4 * Z.of_nat i) in *. set (ta := Pt + 4 * Z.of_nat i) in *. assert (fa <> ta) as Hft by (by apply tables_apart). set (e := mem s0 fa) in *.
  destruct (tc_free _ _ T) as (F & HF & HF0). rewrite swaps_S in HF by done. fold fa e in HF. rewrite Hsw in HF. cbn [Nat.add] in HF.
  unfold copy_entry. rewrite (proj2 (Nat.ltb_lt i 1024)) by done. cbn [negb]. fold fa ta. erewrite bind_ok by reflexivity. rewrite Ef.
  rewrite (proj2 (Z.eqb_neq _ _) Hnz), land1, Hp. cbn [negb].
  erewrite bind_ok by reflexivity. pose proof (word_split _ W1) as (Fr1 & Fr2 & Fr3). rewrite W2 in Fr1, Fr2.
  destruct (Z.lt_ge_cases (page_of e) LOW_MEM) as [Hlo|Hlo].
  - assert (Z.ldiff e 2 <= LOW_MEM) as Hle.
    { destruct Fr1 as [Fm _]. pose proof (Z.div_mod (page_of e) 4096). unfold LOW_MEM in *. lia. }
    rewrite (proj2 (Z.ltb_ge _ _) Hle). eexists. split; [reflexivity|]. eapply (tcopy_S s); fold fa ta; [done|done| |done|done| | |done|eauto using Z.le_refl|by exists F].
    + apply low_ok; [done|done|done|done|by rewrite W2].
    + intros x Hx1 Hx2 _. by apply poke_ne.
    + cbn [mem set_mem]. rewrite poke_eq, poke_ne, Ef by done. fold e. split; [unfold cow; by rewrite Hp|]. rewrite Hsw. unfold protect. by rewrite Hp, (proj2 (Z.leb_gt _ _) Hlo).
  - assert (refers e (nr (page_of e))) as Hr by done.
    assert (present (mem s fa) = true) as Hpfa by (by rewrite Ef).
    destruct (slot_cnt s X Hok fa (nr (page_of e))) as (c & Hc & Hge); [by right|by rewrite Ef|].
    assert (c < 255) as Hc255.
    { apply (Hcnt i (nr (page_of e)) c Hi Hr). rewrite <- (tc_map _ _ T); [done| |].
      - intros Hz. eapply (unused_no_ref s0 X _ fa Hok0 Hz); [right; by apply (tcopy_slots s0 0 i tcopy_0 Hi)|done].
      - intros j Hj Hrj. assert (j = i); [|lia]. apply (Hinj j i (nr (page_of e))); [lia|done|done|done]. }
    assert (Z.testbit (Z.ldiff e 2) 0 = true) as Hodd by (by unfold present in W3; rewrite W3).
    assert (LOW_MEM < Z.ldiff e 2) as Hgt.
    { destruct (decide (Z.ldiff e 2 mod 4096 = 0)) as [E|]; [|lia]. rewrite Fr2, E, Z.add_0_r in Hodd.
      replace (page_of e) with (page_of e + 0) in Hodd by lia. rewrite entry_bit in Hodd by (done || lia). done. }
    rewrite (proj2 (Z.ltb_lt _ _) Hgt). erewrite bind_ok.
    2: { erewrite bind_ok by reflexivity. erewrite bind_ok by (apply get_map_ok; rewrite map_nr by (unfold word in W1; lia); rewrite W2; exact Hc).
         apply (put_map_ok _ _ c). rewrite map_nr by (unfold word in W1; lia). rewrite W2. exact Hc. }
    eexists. split; [reflexivity|]. rewrite map_nr by (unfold word in W1; lia). rewrite W2, u8_id by lia. cbn [mem mem_map set_mem].
    eapply (tcopy_S s); fold fa ta; [done|done| |done|done| | | | |].
    + set (s1 := set_mem (poke (mem s) fa (Z.ldiff (mem s fa) 2)) s). assert (mm_ok s1 X) as Hok1 by (by apply protect_ok).
      assert (forall d, dslot d -> mem s1 d = mem s d) as Ed1 by (intros d Hd; apply poke_ne; intros ->; by apply (tslot_not_dslot s X Hok fa)).
      assert (mem s1 fa = Z.ldiff e 2) as Ef1 by (unfold s1; cbn; by rewrite poke_eq, Ef).
      eapply mm_frame; [apply (share_ok s1 X fa ta (Z.ldiff e 2) (nr (page_of e)) c); try done|..]; try done.
      * by apply (tslot_ext (mem s)).
      * by apply (tslot_ext (mem s)).
      * unfold s1. cbn. by rewrite poke_ne.
      * by rewrite Ef1.
      * by rewrite Ef1, W3.
      * by rewrite Ef1.
      * by rewrite W2.
      * by rewrite W2.
      * intros a _. unfold s1. cbn. unfold poke. rewrite Ef. fold e. by destruct (a =? fa), (a =? ta).
    + intros x Hx1 Hx2 _. cbn. by rewrite !poke_ne.
    + cbn [mem set_mem set_map]. rewrite poke_eq, (poke_ne _ fa _ ta), poke_eq by done. fold e. split; [unfold cow; by rewrite Hp|]. rewrite Hsw. unfold protect. by rewrite Hp, (proj2 (Z.leb_le _ _) Hlo).
    + intros n _ Hn. cbn [mem_map set_map]. apply list_lookup_insert_ne. by intros <-.
    + intros n c1 Hc1. cbn [mem_map set_map]. destruct (decide (n = nr (page_of e))) as [->|Hnn].
      * rewrite list_lookup_insert_eq by (by eapply lookup_lt_Some). exists (c + 1). split; [done|]. rewrite Hc in Hc1. injection Hc1 as <-. lia.
      * rewrite list_lookup_insert_ne by done. eauto using Z.le_refl.
    + exists F. split; [done|]. intros q Hq. specialize (HF0 q Hq). cbn [mem_map set_map]. rewrite list_lookup_insert_ne; [done|]. intros <-. rewrite Hc in HF0. injection HF0. lia.
Qed.

Lemma copy_table_ok : exists s', loop 1025 (copy_entry fuel Pf Pt 1024) 0%nat s0 = Ok 0 s' /\ tcopy s' 1024.
Proof.
  assert (forall k i s, (i + k = 1024)%nat -> tcopy s i -> exists s', loop (S k) (copy_entry fuel Pf Pt 1024) i s = Ok 0 s' /\ tcopy s' 1024) as Hl.
  { induction k as [|k IH]; intros i s Hik Ht.
    - assert (i = 1024)%nat as -> by lia. exists s. split; [|done]. by apply loop_done.
    - destruct (copy_entry_ok s i Ht ltac:(lia)) as (s1 & E & Ht1). destruct (IH (S i) s1 ltac:(lia) Ht1) as (s2 & E2 & Ht2).
      exists s2. split; [|done]. by rewrite (loop_next _ _ _ _ _ _ E). }
  apply (Hl 1024%nat 0%nat s0); [done|apply tcopy_0].
Qed.
End Table.

(** ** A directory entry copied *)

(** Used pages stay used, and what is in them stays. *)
Record kept (s s' : mm) : Prop := {
  kp_data : data_kept s s';
  kp_slots : forall x, slot (mem s') x -> slot (mem s) x \/ exists n, mem_map s !! n = Some 0 /\ in_page (addr_of n) x = true;
  kp_mono : forall n c, mem_map s !! n = Some c -> exists c', mem_map s' !! n = Some c' /\ c <= c' }.

Lemma kept_refl s : kept s s.
Proof. split; [done|by left|eauto using Z.le_refl]. Qed.
Lemma kept_trans s1 s2 s3 X : mm_ok s1 X -> length (mem_map s2) = length (mem_map s1) -> kept s1 s2 -> kept s2 s3 -> kept s1 s3.
Proof.
  intros Hok Hlen [A1 A2 A3] [B1 B2 B3].
  assert (forall n, mem_map s2 !! n = Some 0 -> mem_map s1 !! n = Some 0) as Hz.
  { intros n Hn. destruct (mem_map s1 !! n) as [c|] eqn:E.
    - destruct (A3 n c E) as (c' & Hc' & Hle). rewrite Hn in Hc'. injection Hc' as <-. pose proof (ok_byte _ _ Hok n c E). f_equal. lia.
    - apply lookup_ge_None in E. apply lookup_lt_Some in Hn. lia. }
  assert (forall n x, mem_map s1 !! n = Some 0 -> in_page (addr_of n) x = true ->
    (x < LOW_MEM \/ exists k c, mem_map s1 !! k = Some c /\ c <> 0 /\ in_page (addr_of k) x = true) -> False) as Hun.
  { intros n x Hn Hp [Hlo|(k & c & Hk & Hc & Hpk)]; [apply in_page_spec in Hp; unfold addr_of in Hp; lia|].
    rewrite (same_frame n k x Hp Hpk) in Hn. congruence. }
  split.
  - intros x Hx Hu. rewrite B1, A1; [done|done|done| |].
    + intros Hx2. destruct (A2 x Hx2) as [?|(n & Hn & Hp)]; [done|]. by eapply Hun.
    + destruct Hu as [Hlo|(k & c & Hk & Hc & Hpk)]; [by left|right]. destruct (A3 k c Hk) as (c' & Hc' & Hle). exists k, c'.
      pose proof (ok_byte _ _ Hok k c Hk). split_and!; [done|lia|done].
  - intros x Hx. destruct (B2 x Hx) as [Hx2|(n & Hn & Hp)]; [by apply A2|]. right. exists n. split; [by apply Hz|done].
  - intros n c Hc. destruct (A3 n c Hc) as (c1 & H1 & L1). destruct (B3 n c1 H1) as (c2 & H2 & L2). exists c2. split; [done|lia].
Qed.

(** The directory entry [dt] has become a copy of [df], with [extra] free
    pages left. *)
Record dir_copied (s s' : mm) (X : nat -> Z) (df dt : Z) (extra : nat) : Prop := {
  dc_ok : mm_ok s' X;
  dc_high : HIGH_MEMORY s' = HIGH_MEMORY s;
  dc_dirs : forall d, dslot d -> d <> dt -> mem s' d = mem s d;
  dc_swap : swap_page s' = swap_page s;
  dc_pass : forall i, (i < 1024)%nat -> passed_on s s' (pte (mem s) df i) (pte (mem s') df i) (pte (mem s') dt i);
  dc_others : forall d i, dslot d -> d <> df -> d <> dt -> (i < 1024)%nat -> pte (mem s') d i = pte (mem s) d i;
  dc_kept : kept s s';
  dc_map : forall n, mem_map s !! n <> Some 0 -> (forall i, (i < 1024)%nat -> ~ refers (pte (mem s) df i) n) -> mem_map s' !! n = mem_map s !! n;
  dc_free : exists F : gset nat, (extra <= size F)%nat /\ forall p, p ∈ F -> mem_map s' !! p = Some 0 }.

Section Dir.
Context (fuel : nat) (s : mm) (X : nat -> Z) (df dt : Z) (extra : nat).
Context (Hfuel : (1 <= fuel)%nat) (Hok : mm_ok s X) (Hdf : dslot df) (Hdt : dslot dt) (Hne : df <> dt)
  (Hpf : present (mem s df) = true) (Hpt : present (mem s dt) = false)
  (Hinj : forall i i' n, (i < 1024)%nat -> (i' < 1024)%nat -> refers (pte (mem s) df i) n -> refers (pte (mem s) df i') n -> i = i')
  (Hcnt : forall i n c, (i < 1024)%nat -> refers (pte (mem s) df i) n -> mem_map s !! n = Some c -> c < 255)
  (Hfree : exists F : gset nat, (S (extra + swaps (pte (mem s) df) 0) <= size F)%nat /\ forall p, p ∈ F -> mem_map s !! p = Some 0).

(** The new table, still empty. *)
Definition with_table (n : nat) : mm := set_mem (poke (mem (grabbed n s)) dt (addr_of n + 7)) (grabbed n s).

Lemma with_table_mem n x : mem_map s !! n = Some 0 -> x <> dt -> in_page (addr_of n) x = false -> mem (with_table n) x = mem s x.
Proof. intros Hn Hx Hp. unfold with_table, grabbed. cbn. rewrite poke_ne by done. unfold fill_page. by rewrite Hp. Qed.
Lemma with_table_slot n x : mem_map s !! n = Some 0 -> slot (mem s) x -> x <> dt -> mem (with_table n) x = mem s x.
Proof. intros Hn Hx Hd. apply with_table_mem; [done|done|]. by apply (unused_no_slot s X). Qed.
Lemma with_table_ok n : mem_map s !! n = Some 0 -> addr_of n < HIGH_MEMORY s -> mm_ok (with_table n) X.
Proof.
  intros Hn Hh. assert (n < length (mem_map s))%nat as Hlt by (by eapply lookup_lt_Some). apply (dir_add _ X dt n).
  - by apply grabbed_ok.
  - destruct (ok_refs _ _ Hok) as (R & _ & HR). destruct (HR n 0 Hn). lia.
  - by eapply count_bump.
  - done.
  - erewrite grabbed_mem; [done|done|done|by left].
  - cbn. by apply list_lookup_insert_eq.
  - done.
  - intros b Hb. apply (grabbed_slot s X n b Hok Hn) in Hb. rewrite (grabbed_mem s X n b Hok Hn Hb). by apply (unused_no_ref s X).
  - intros x Hx. unfold grabbed. cbn. unfold fill_page. by rewrite Hx.
Qed.

Lemma copy_dir_body : exists n s', mem_map s !! n = Some 0 /\ get_free_page fuel s = Ok (addr_of n) (grabbed n s) /\
  loop 1025 (copy_entry fuel (page_of (mem s df)) (addr_of n) 1024) 0%nat (with_table n) = Ok 0 s' /\ dir_copied s s' X df dt extra.
Proof.
  destruct Hfree as (F & HF & HF0).
  destruct (get_free_page_ok s X fuel Hok Hfuel) as (n & Hn & Hh & Eg); [destruct (size_pos_elem_of F ltac:(lia)) as [q Hq]; exists q; by apply HF0|].
  assert (n < PAGING_PAGES)%nat as Hlt by (rewrite <- (ok_len _ _ Hok); by eapply lookup_lt_Some). pose proof (frame_addr_of n Hlt) as Hfn.
  assert (n < length (mem_map s))%nat as Hlt' by (by eapply lookup_lt_Some).
  destruct (entry_page (addr_of n) 7 Hfn ltac:(lia)) as [P1 P2]. set (s2 := with_table n). pose proof (with_table_ok n Hn Hh) as Hok2. fold s2 in Hok2.
  assert (mem s2 dt = addr_of n + 7) as Edt by apply poke_eq.
  assert (mem s2 df = mem s df) as Edf by (apply with_table_slot; [done|by left|done]).
  assert (present (mem s2 dt) = true) as Hpt2 by (rewrite Edt; unfold present; rewrite entry_bit by (done || lia); done).
  assert (forall i, (i < 1024)%nat -> mem s2 (page_of (mem s df) + 4 * Z.of_nat i) = pte (mem s) df i) as Ee.
  { intros i Hi. unfold pte. rewrite Hpf. assert (tslot (mem s) (page_of (mem s df) + 4 * Z.of_nat i)) as Hts by (exists df; split; [done|]; by eapply entry_slot).
    apply with_table_slot; [done|by right|]. intros E. rewrite E in Hts. by apply (tslot_not_dslot s X Hok dt). }
  assert (forall i n', (i < 1024)%nat -> refers (pte (mem s) df i) n' -> n' <> n) as Hnn.
  { intros i n' Hi Hr ->. unfold pte in Hr. rewrite Hpf in Hr. apply (unused_no_ref s X n (page_of (mem s df) + 4 * Z.of_nat i) Hok Hn); [|done].
    right. exists df. split; [done|]. by eapply entry_slot. }
  assert (mem_map s2 !! n = Some 1) as Hn2 by (cbn; by apply list_lookup_insert_eq).
  assert (forall k, k <> n -> mem_map s2 !! k = mem_map s !! k) as Hm2 by (intros k Hk; cbn; by rewrite list_lookup_insert_ne).
  assert (forall k, mem_map s2 !! k = Some 0 -> mem_map s !! k = Some 0) as Hz2 by (intros k Hk; rewrite <- Hm2; [done|]; intros ->; congruence).
  destruct (copy_table_ok fuel s2 X df dt extra) as (s' & El & [T1 T2 T3 T4 T5 T6 T7 T8]); [done|done|done|done|done|by rewrite Edf|done|..].
  { intros j Hj. rewrite Edt, P1. unfold s2, with_table, grabbed. cbn. rewrite poke_ne by (destruct Hdt; unfold addr_of, LOW_MEM; lia).
    unfold fill_page. by rewrite (proj2 (in_page_spec _ _)) by lia. }
  { intros j j' k Hj Hj'. rewrite Edf, !Ee by done. by apply Hinj. }
  { intros j k c Hj. rewrite Edf, Ee by done. intros Hr Hc. apply (Hcnt j k c Hj Hr). by rewrite <- Hm2 by (by apply (Hnn j)). }
  { exists (F ∖ {[n]}). pose proof (size_without F n). rewrite (swaps_ext _ (pte (mem s) df)) by (intros j Hj; rewrite Edf; by apply Ee). split; [lia|].
    intros q [Hq1 Hq2]%elem_of_difference. rewrite Hm2 by (intros ->; by apply Hq2, elem_of_singleton). by apply HF0. }
  rewrite Edf in El, T3, T4, T5. rewrite Edt, P1 in El, T3, T4. exists n, s'. split_and!; [done|done|done|].
  assert (forall d, dslot d -> mem s' d = mem s2 d) as Ed'.
  { intros d Hd. apply T4; [intros j Hj; pose proof (proj1 (ok_tab _ _ Hok df Hdf Hpf)); destruct Hd; unfold addr_of, LOW_MEM in *; lia|].
    intros q Hq. eapply unused_no_slot; [exact Hok2|done|by left]. }
  assert (forall d, dslot d -> d <> dt -> mem s' d = mem s d) as Edd by (intros d Hd Hd'; rewrite Ed' by done; apply with_table_slot; [done|by left|done]).
  assert (forall x, x <> dt -> (forall p, mem_map s !! p = Some 0 -> in_page (addr_of p) x = false) -> (forall j, (j < 1024)%nat -> x <> page_of (mem s df) + 4 * Z.of_nat j) -> mem s' x = mem s x) as Erest.
  { intros x Hx Hp Hj. pose proof (Hp n Hn) as Hpn. rewrite T4; [by apply with_table_mem| |intros q Hq; by apply Hp, Hz2]. intros j Hj'. split; [by apply Hj|]. intros ->.
    rewrite (proj2 (in_page_spec _ _)) in Hpn by lia. done. }
  split; [done|done|done|done|..].
  - intros i Hi. assert (pte (mem s') dt i = mem s' (addr_of n + 4 * Z.of_nat i)) as -> by (unfold pte; rewrite Ed', Edt, P1 by done; rewrite Edt in Hpt2; by rewrite Hpt2).
    assert (pte (mem s') df i = mem s' (page_of (mem s df) + 4 * Z.of_nat i)) as -> by (unfold pte; by rewrite Edd, Hpf by done).
    specialize (T3 i Hi). rewrite Ee in T3 by done. destruct T3 as [E1 E2]. split; [done|]. destruct (swapped (pte (mem s) df i)); [|done].
    destruct E2 as (q & Hq & Eq & Ec). exists q. split_and!; [by apply Hz2|done|done].
  - intros d i Hd Hdd Hdt' Hi. unfold pte. rewrite Edd by done. destruct (present (mem s d)) eqn:Hp; [|done].
    pose proof (entry_slot s X d i Hok Hd Hp Hi) as Hit. apply Erest.
    + intros E. rewrite E in Hit. apply (tslot_not_dslot s X Hok dt); [by exists d|done].
    + intros q Hq. apply (unused_no_slot s X q _ Hok Hq). right. by exists d.
    + intros j Hj E. rewrite E in Hit. apply Hdd. apply (in_table_unique s X Hok d df (page_of (mem s df) + 4 * Z.of_nat j)); [done|done|done|].
      by eapply entry_slot.
  - split.
    + intros x Hx Hu. apply Erest.
      * intros ->. apply Hx. by left.
      * intros q Hq. destruct (in_page (addr_of q) x) eqn:Ep; [|done]. destruct Hu as [Hlo|(k & c & Hk & Hc & Hkp)]; [apply in_page_spec in Ep; unfold addr_of in Ep; lia|].
        rewrite <- (same_frame q k x Ep Hkp) in Hk. congruence.
      * intros j Hj ->. apply Hx. right. exists df. split; [done|]. by eapply entry_slot.
    + intros x [Hx|(d & Hd & Hi)]; [by left; left|]. destruct (decide (d = dt)) as [->|Hdd].
      * right. exists n. split; [done|]. destruct Hi as (_ & Hr & _). rewrite Ed', Edt, P1 in Hr by done. apply in_page_spec. lia.
      * left. right. exists d. split; [done|]. eapply in_table_ext; [|exact Hi]. by rewrite Edd.
    + intros k c Hc. assert (exists c1, mem_map s2 !! k = Some c1 /\ c <= c1) as (c1 & H1 & L1).
      { destruct (decide (k = n)) as [->|Hkn]; [|rewrite Hm2 by done; eauto using Z.le_refl]. exists 1. split; [done|]. rewrite Hn in Hc. injection Hc as <-. lia. }
      destruct (T6 k c1 H1) as (c2 & H2 & L2). exists c2. split; [done|lia].
  - intros k Hk Hr. assert (k <> n) as Hkn by (intros ->; congruence). rewrite T5; [by rewrite Hm2|by rewrite Hm2|]. intros j Hj. rewrite Ee by done. by apply Hr.
  - destruct T8 as (F' & HF' & HF0'). exists F'. split; [lia|done].
Qed.
End Dir.

(** ** The tables of a task copied *)

Lemma dir_slot n k j : 16 <= k -> k + Z.of_nat n <= 1024 -> (j < n)%nat -> dslot (4 * k + 4 * Z.of_nat j).
Proof. intros H1 H2 Hj. split; [lia|]. replace (4 * k + 4 * Z.of_nat j) with ((k + Z.of_nat j) * 4) by lia. apply Z.mod_mul. lia. Qed.

Section Fork.
Context (fuel : nat) (s0 : mm) (X : nat -> Z) (kf kt : Z) (n : nat).
Notation df j := (4 * kf + 4 * Z.of_nat j).
Notation dt j := (4 * kt + 4 * Z.of_nat j).

(** The pages needed from the [k]th of the [n] tables on: one for each table,
    one for each page that is on the swap device. *)
Definition fork_need (k : nat) : nat := sum_list_with (fun j => S (swaps (pte (mem s0) (df j)) 0)) (seq k (n - k)).

(** A child can be given the [n] directory entries of its parent from [kf]
    on as entries [kt] on: they are free, each page of the parent that is in
    memory is mapped by one of its entries and by fewer than 255 entries in
    all, and there are free pages for the tables and for the pages that have to
    be read in. *)
Record fork_pre : Prop := {
  fp_from : 16 <= kf /\ kf + Z.of_nat n <= 1024;
  fp_to : 16 <= kt /\ kt + Z.of_nat n <= 1024;
  fp_apart : kf + Z.of_nat n <= kt \/ kt + Z.of_nat n <= kf;
  fp_empty : forall j, (j < n)%nat -> present (mem s0 (dt j)) = false;
  fp_inj : forall j j' i i' p, (j < n)%nat -> (j' < n)%nat -> (i < 1024)%nat -> (i' < 1024)%nat ->
    refers (pte (mem s0) (df j) i) p -> refers (pte (mem s0) (df j') i') p -> j = j' /\ i = i';
  fp_cnt : forall j i p c, (j < n)%nat -> (i < 1024)%nat -> refers (pte (mem s0) (df j) i) p -> mem_map s0 !! p = Some c -> c < 255;
  fp_free : exists F : gset nat, (fork_need 0 <= size F)%nat /\ forall p, p ∈ F -> mem_map s0 !! p = Some 0 }.

Context (Hfuel : (1 <= fuel)%nat) (Hok0 : mm_ok s0 X) (Hpre : fork_pre).

Record copied (s : mm) (k : nat) : Prop := {
  cp_ok : mm_ok s X;
  cp_high : HIGH_MEMORY s = HIGH_MEMORY s0;
  cp_dirs : forall d, dslot d -> (forall j, (j < k)%nat -> d <> dt j) -> mem s d = mem s0 d;
  cp_swap : swap_page s = swap_page s0;
  cp_pass : forall j i, (j < k)%nat -> (i < 1024)%nat -> passed_on s0 s (pte (mem s0) (df j) i) (pte (mem s) (df j) i) (pte (mem s) (dt j) i);
  cp_others : forall d i, dslot d -> (forall j, (j < k)%nat -> d <> df j /\ d <> dt j) -> (i < 1024)%nat -> pte (mem s) d i = pte (mem s0) d i;
  cp_kept : kept s0 s;
  cp_map : forall p c, mem_map s0 !! p = Some c -> c <> 0 ->
    (forall j i, (j < k)%nat -> (i < 1024)%nat -> ~ refers (pte (mem s0) (df j) i) p) -> mem_map s !! p = Some c;
  cp_free : exists F : gset nat, (fork_need k <= size F)%nat /\ forall p, p ∈ F -> mem_map s !! p = Some 0 }.

Lemma copied_0 : copied s0 0.
Proof. split; try done; [lia|apply kept_refl|]. apply Hpre. Qed.
Lemma fork_need_S k : (k < n)%nat -> fork_need k = (S (swaps (pte (mem s0) (df k)) 0) + fork_need (S k))%nat.
Proof. intros Hk. unfold fork_need. replace (n - k)%nat with (S (n - S k)) by lia. done. Qed.

Lemma df_slot j : (j < n)%nat -> dslot (df j).
Proof. intros Hj. destruct (fp_from Hpre). by apply (dir_slot n). Qed.
Lemma dt_slot j : (j < n)%nat -> dslot (dt j).
Proof. intros Hj. destruct (fp_to Hpre). by apply (dir_slot n). Qed.
Lemma df_dt j j' : (j < n)%nat -> (j' < n)%nat -> df j <> dt j'.
Proof. intros Hj Hj'. destruct (fp_apart Hpre); lia. Qed.

(** A missing table of the parent is passed over. *)
Lemma copied_skip s k : copied s k -> (k < n)%nat -> present (mem s0 (df k)) = false -> copied s (S k).
Proof.
  intros [C1 C2 C3 C4 C5 C6 C7 C8 C9] Hk Hnp.
  assert (forall i, pte (mem s0) (df k) i = 0) as E0 by (intros i; unfold pte; by rewrite Hnp).
  assert (mem s (df k) = mem s0 (df k)) as Ef by (apply C3; [by apply df_slot|]; intros j Hj; apply df_dt; lia).
  assert (mem s (dt k) = mem s0 (dt k)) as Et by (apply C3; [by apply dt_slot|]; intros j Hj; lia).
  split; try done.
  - intros d Hd Hj. apply C3; [done|]. intros j Hj'. apply Hj. lia.
  - intros j i Hj Hi. destruct (decide (j = k)) as [->|]; [|apply C5; [lia|done]]. rewrite E0. unfold pte. by rewrite Et, Ef, Hnp, (fp_empty Hpre k Hk).
  - intros d i Hd Hj. apply C6; [done|]. intros j Hj'. apply Hj. lia.
  - intros p c Hp Hc Hr. apply C8; [done|done|]. intros j i Hj. apply Hr. lia.
  - destruct C9 as (F & HF & HF'). exists F. rewrite fork_need_S in HF by done. split; [lia|done].
Qed.

(** What has been passed on stays so. *)
Lemma passed_on_kept s k s' e j i : copied s k -> kept s s' -> dslot (df j) -> (i < 1024)%nat ->
  pte (mem s') (df j) i = pte (mem s) (df j) i -> pte (mem s') (dt j) i = pte (mem s) (dt j) i ->
  passed_on s0 s e (pte (mem s) (df j) i) (pte (mem s) (dt j) i) -> passed_on s0 s' e (pte (mem s') (df j) i) (pte (mem s') (dt j) i).
Proof.
  intros Hc [K1 _ _] Hd Hi -> -> [E1 E2]. split; [done|]. destruct (swapped e); [|done]. destruct E2 as (p & Hp & Ef & Ec). exists p. split_and!; [done|done|].
  intros o Ho. assert (in_page (addr_of p) (addr_of p + o) = true) as Hin by (apply in_page_spec; lia). pose proof (cp_ok _ _ Hc) as Hok.
  assert (p < PAGING_PAGES)%nat as Hlt by (rewrite <- (ok_len _ _ Hok0); by eapply lookup_lt_Some). destruct (entry_page (addr_of p) 71 (frame_addr_of p Hlt) ltac:(lia)) as [P1 _].
  assert (present (addr_of p + 71) = true) as P3 by (unfold present; rewrite entry_bit; [done|by apply frame_addr_of|lia|lia]).
  assert (refers (addr_of p + 71) p) as Hr by (unfold refers; rewrite P1, nr_addr_of; split_and!; [done|unfold addr_of; lia|done]).
  unfold pte in Ef. destruct (present (mem s (df j))) eqn:Hpd; [|exfalso; unfold addr_of, LOW_MEM in Ef; lia].
  assert (tslot (mem s) (page_of (mem s (df j)) + 4 * Z.of_nat i)) as Ht by (exists (df j); split; [done|by eapply entry_slot]). rewrite <- Ef in Hr.
  rewrite K1; [by apply Ec|by eapply data_no_slot|]. right. destruct (slot_cnt s X Hok _ p ltac:(by right) Hr) as (c & Hc' & Hc1). exists p, c. split_and!; [done|lia|done].
Qed.

Lemma copied_dir s k s' : copied s k -> (k < n)%nat -> present (mem s0 (df k)) = true -> dir_copied s s' X (df k) (dt k) (fork_need (S k)) -> copied s' (S k).
Proof.
  intros Hc Hk Hp [D1 D2 D3 D4 D5 D6 D7 D8 D9]. pose proof Hc as [C1 C2 C3 C4 C5 C6 C7 C8 C9].
  assert (forall i, (i < 1024)%nat -> pte (mem s) (df k) i = pte (mem s0) (df k) i) as Ef.
  { intros i Hi. apply C6; [by apply df_slot| |done]. intros j Hj. split; [lia|apply df_dt; lia]. }
  assert (forall p, mem_map s !! p = Some 0 -> mem_map s0 !! p = Some 0) as Hz.
  { intros p Hz. destruct (mem_map s0 !! p) as [c|] eqn:E.
    - destruct (kp_mono _ _ C7 p c E) as (c' & Hc' & Hle). rewrite Hz in Hc'. injection Hc' as <-. pose proof (ok_byte _ _ Hok0 p c E). f_equal. lia.
    - apply lookup_ge_None in E. apply lookup_lt_Some in Hz. rewrite (ok_len _ _ C1) in Hz. rewrite (ok_len _ _ Hok0) in E. lia. }
  split.
  - done.
  - by rewrite D2.
  - intros d Hd Hj. rewrite D3 by (done || apply Hj; lia). apply C3; [done|]. intros j Hj'. apply Hj. lia.
  - by rewrite D4.
  - intros j i Hj Hi. destruct (decide (j = k)) as [->|].
    + specialize (D5 i Hi). rewrite Ef in D5 by done. destruct D5 as [E1 E2]. split; [done|]. destruct (swapped (pte (mem s0) (df k) i)); [|done].
      destruct E2 as (p & Hp' & Efp & Ec). exists p. split_and!; [by apply Hz|done|]. by rewrite <- C4.
    + eapply (passed_on_kept s k); [done|done|apply df_slot; lia|done| | |apply C5; [lia|done]].
      * apply D6; [apply df_slot; lia|lia|apply df_dt; lia|done].
      * apply D6; [apply dt_slot; lia|apply not_eq_sym, df_dt; lia|lia|done].
  - intros d i Hd Hj Hi. destruct (Hj k ltac:(lia)). rewrite D6 by done. apply C6; [done| |done]. intros j Hj'. apply Hj. lia.
  - eapply kept_trans; [exact Hok0| |exact C7|done]. by rewrite (ok_len _ _ C1), (ok_len _ _ Hok0).
  - intros p c Hc' Hc0 Hr. assert (mem_map s !! p = Some c) as Hs.
    { apply C8; [done|done|]. intros j i Hj. apply Hr. lia. }
    rewrite D8; [done|congruence|]. intros i Hi. rewrite Ef by done. apply Hr; [lia|done].
  - done.
Qed.

Lemma copy_dir_step from s k : from <> 0 -> copied s k -> (k < n)%nat ->
  exists s', copy_dir fuel from (4 * kf) (4 * kt) n k s = Ok (inl (S k)) s' /\ copied s' (S k).
Proof.
  intros Hfrom Hc Hk. pose proof Hc as [C1 C2 C3 C4 C5 C6 C7 C8 C9].
  assert (mem s (df k) = mem s0 (df k)) as Ef by (apply C3; [by apply df_slot|]; intros j Hj; apply df_dt; lia).
  assert (mem s (dt k) = mem s0 (dt k)) as Et by (apply C3; [by apply dt_slot|]; intros j Hj; lia).
  unfold copy_dir. rewrite (proj2 (Nat.ltb_lt k n)) by done. cbn [negb]. erewrite bind_ok by reflexivity.
  rewrite Et, land1, (fp_empty Hpre k Hk). cbn [negb]. erewrite bind_ok by reflexivity. rewrite Ef, land1.
  destruct (present (mem s0 (df k))) eqn:Hp; cbn [negb]; [|exists s; split; [done|]; by apply copied_skip].
  assert (forall i, (i < 1024)%nat -> pte (mem s) (df k) i = pte (mem s0) (df k) i) as Ee.
  { intros i Hi. apply C6; [by apply df_slot| |done]. intros j Hj. split; [lia|apply df_dt; lia]. }
  destruct (copy_dir_body fuel s X (df k) (dt k) (fork_need (S k))) as (p & s' & Hp0 & Eg & El & Hd); [done|done|by apply df_slot|by apply dt_slot|by apply df_dt|by rewrite Ef|by rewrite Et, (fp_empty Hpre k Hk)|..].
  { intros i i' q Hi Hi'. rewrite !Ee by done. intros R1 R2. by apply (fp_inj Hpre k k i i' q). }
  { intros i q c Hi. rewrite Ee by done. intros Hr Hc'.
    assert (exists c0, mem_map s0 !! q = Some c0 /\ 1 <= c0) as (c0 & Hc0 & Hge).
    { unfold pte in Hr. rewrite Hp in Hr. eapply (slot_cnt s0 X Hok0); [|exact Hr]. right. exists (df k). split; [by apply df_slot|]. eapply entry_slot; eauto. by apply df_slot. }
    assert (mem_map s !! q = Some c0) as E.
    { apply C8; [done|lia|]. intros j i' Hj Hi' Hr'. destruct (fp_inj Hpre j k i' i q); [lia|done|done|done|done|done|lia]. }
    rewrite Hc' in E. injection E as ->. by apply (fp_cnt Hpre k i q). }
  { destruct C9 as (F & HF & HF'). exists F. rewrite fork_need_S in HF by done. rewrite (swaps_ext _ (pte (mem s0) (df k))) by exact Ee. split; [lia|done]. }
  exists s'. split; [|by eapply copied_dir].
  assert (p < PAGING_PAGES)%nat as Hlt by (rewrite <- (ok_len _ _ C1); by eapply lookup_lt_Some).
  rewrite (bind_ok _ _ _ _ _ Eg). rewrite (proj2 (Z.eqb_neq (addr_of p) 0)) by (unfold addr_of, LOW_MEM; lia).
  erewrite bind_ok by reflexivity. rewrite lor_frame by (apply frame_addr_of || lia; done). rewrite (proj2 (Z.eqb_neq from 0)) by done.
  rewrite Ef in El. unfold with_table in El. rewrite (bind_ok _ _ _ _ _ El). done.
Qed.

Lemma copy_dirs_ok from : from <> 0 -> exists s', loop (S n) (copy_dir fuel from (4 * kf) (4 * kt) n) 0%nat s0 = Ok 0 s' /\ copied s' n.
Proof.
  intros Hfrom.
  assert (forall m k s, (k + m = n)%nat -> copied s k -> exists s', loop (S m) (copy_dir fuel from (4 * kf) (4 * kt) n) k s = Ok 0 s' /\ copied s' n) as Hl.
  { induction m as [|m IH]; intros k s Hkm Hc.
    - assert (k = n) as -> by lia. exists s. split; [|done]. apply loop_done. unfold copy_dir. by rewrite Nat.ltb_irrefl.
    - destruct (copy_dir_step from s k Hfrom Hc ltac:(lia)) as (s1 & E & Hc1). destruct (IH (S k) s1 ltac:(lia) Hc1) as (s2 & E2 & Hc2).
      exists s2. split; [|done]. by rewrite (loop_next _ _ _ _ _ _ E). }
  apply (Hl n 0%nat s0); [lia|apply copied_0].
Qed.
End Fork.

Lemma dir_address k : 0 <= k < 1024 -> Z.land (Z.shiftr (4194304 * k) 20) 4092 = 4 * k.
Proof.
  intros Hk. rewrite Z.shiftr_div_pow2 by lia. change (2 ^ 20) with 1048576. replace (4194304 * k) with (4 * k * 1048576) by lia. rewrite Z.div_mul by lia.
  replace (4 * k) with (Z.shiftl k 2) by (rewrite Z.shiftl_mul_pow2 by lia; lia). change 4092 with (Z.shiftl (Z.ones 10) 2).
  rewrite <- Z.shiftl_land, Z.land_ones by lia. by rewrite Z.mod_small by lia.
Qed.
Lemma aligned k : Z.land (4194304 * k) 4194303 = 0.
Proof. change 4194303 with (Z.ones 22). rewrite Z.land_ones by lia. change (2 ^ 22) with 4194304. rewrite Z.mul_comm. apply Z.mod_mul. lia. Qed.
Lemma dir_count size n : 0 <= size < 4290772992 -> Z.of_nat n = (size + 4194303) / 4194304 -> Z.to_nat (Z.shiftr (u32 (size + 4194303)) 22) = n.
Proof. intros Hs Hn. rewrite u32_id by lia. rewrite Z.shiftr_div_pow2 by lia. change (2 ^ 22) with 4194304. rewrite <- Hn. lia. Qed.

Lemma copy_page_tables_ok fuel s X kf kt n size :
  (1 <= fuel)%nat -> mm_ok s X -> fork_pre s kf kt n -> 0 < size < 4290772992 -> Z.of_nat n = (size + 4194303) / 4194304 ->
  exists s', copy_page_tables fuel (4194304 * kf) (4194304 * kt) size s = Ok 0 s' /\ copied s X kf kt n s' n.
Proof.
  intros Hf Hok Hpre Hs Hn. pose proof Hpre as [[F1 F2] [F3 F4] F5 _ _ _ _].
  assert (1 <= Z.of_nat n) by (rewrite Hn; apply Z.div_le_lower_bound; lia).
  destruct (copy_dirs_ok fuel s X kf kt n Hf Hok Hpre (4194304 * kf) ltac:(lia)) as (s' & E & Hc).
  exists s'. split; [|done]. unfold copy_page_tables. rewrite !aligned, !dir_address, (dir_count size n) by (done || lia). exact E.
Qed.

(** C14.  Fork: if each page of the parent is mapped once by it and by fewer
    than 255 entries in all, and there are free pages for the tables and for
    the pages that are on the swap device, [copy_page_tables] returns 0.
    Afterwards every page the parent has in memory is mapped at the same place
    in the child and neither of the two may write to it any more; of a page on
    the swap device the child has the copy there, and the parent a page of its
    own with the same contents, read from the device.  The tables of all other
    tasks and the contents of all pages in use are as before, and the reference
    counts are exact. *)
Theorem copy_page_tables_shares fuel s X kf kt n size :
  (1 <= fuel)%nat -> mm_ok s X -> fork_pre s kf kt n -> 0 < size < 4290772992 -> Z.of_nat n = (size + 4194303) / 4194304 ->
  exists s', copy_page_tables fuel (4194304 * kf) (4194304 * kt) size s = Ok 0 s' /\ mm_ok s' X /\
    (forall j i, (j < n)%nat -> (i < 1024)%nat ->
       passed_on s s' (pte (mem s) (4 * kf + 4 * Z.of_nat j) i) (pte (mem s') (4 * kf + 4 * Z.of_nat j) i) (pte (mem s') (4 * kt + 4 * Z.of_nat j) i)) /\
    (forall d i, dslot d -> (forall j, (j < n)%nat -> d <> 4 * kf + 4 * Z.of_nat j /\ d <> 4 * kt + 4 * Z.of_nat j) ->
       (i < 1024)%nat -> pte (mem s') d i = pte (mem s) d i) /\
    data_kept s s'.
Proof.
  intros Hf Hok Hpre Hs Hn. destruct (copy_page_tables_ok fuel s X kf kt n size Hf Hok Hpre Hs Hn) as (s' & E & Hc).
  exists s'. split_and!; [done|apply Hc|..].
  - apply (cp_pass _ _ _ _ _ _ _ Hc).
  - apply (cp_others _ _ _ _ _ _ _ Hc).
  - apply (kp_data _ _ (cp_kept _ _ _ _ _ _ _ Hc)).
Qed.
