(* ===== verification/LinuxExit.v ===== *)
(** * Linux 0.12: giving back the page tables

    [free_page_tables] drops every reference of a range of directory entries;
    demonstrations of a fork, a write and an exit on a small memory. *)

From stdpp Require Import gmap.
From S2P Require Import Prelude LinuxMm LinuxCow LinuxFork.

(** The swap map lies in a page the kernel holds. *)
Definition bitmap_ok (s : mm) (X : nat -> Z) : Prop :=
  forall b, swap_bitmap s = Some b -> exists k, b = addr_of k /\ (k < PAGING_PAGES)%nat /\ 1 <= X k.
Definition in_bitmap (s : mm) (x : Z) : Prop := exists b, swap_bitmap s = Some b /\ in_page b x = true.

Lemma bitmap_no_slot s X x : mm_ok s X -> bitmap_ok s X -> in_bitmap s x -> ~ slot (mem s) x.
Proof.
  intros Hok Hb (b & Eb & Hx) Hs. destruct (Hb b Eb) as (k & -> & Hk & HX). apply in_page_spec in Hx.
  destruct Hs as [[Hd _]|(d & Hd & Hp & Hr & _)]; [unfold addr_of, LOW_MEM in Hx; lia|].
  destruct (ok_tab _ _ Hok d Hd Hp) as [T1 T2].
  assert (addr_of k = page_of (mem s d)) as E by (eapply frames_apart; [by apply frame_addr_of|by eapply dir_frame|exact Hx|exact Hr]).
  destruct (sole_ref s X Hok d d (nr (page_of (mem s d)))) as [_ E0]; [by left|by left|by split_and!; [|lia|]|by split_and!; [|lia|]|done|].
  rewrite <- E, nr_addr_of in E0. lia.
Qed.

(** States that differ in the swap map and in messages only. *)
Record bframe (s s' : mm) : Prop := {
  bf_mem : forall x, ~ in_bitmap s x -> mem s' x = mem s x;
  bf_map : mem_map s' = mem_map s;
  bf_high : HIGH_MEMORY s' = HIGH_MEMORY s;
  bf_bitmap : swap_bitmap s' = swap_bitmap s }.

(** Swap page [m] is marked as free. *)
Definition free_bit (s : mm) (m : Z) : bool :=
  match swap_bitmap s with Some b => Z.testbit (mem s (b + 4 * (m / 32))) (m mod 32) | None => false end.
(** The swap pages that have become free are those the entries in [P] are for. *)
Definition given_back (s s' : mm) (P : Z -> Prop) : Prop := forall m, 0 <= m < SWAP_BITS ->
  (free_bit s' m = true <-> free_bit s m = true \/ (swap_bitmap s <> None /\ exists e, P e /\ swapped e = true /\ Z.shiftr e 1 = m)).

Lemma bit_in_bitmap s b m : swap_bitmap s = Some b -> 0 <= m < SWAP_BITS -> in_bitmap s (b + 4 * (m / 32)).
Proof.
  intros Eb Hm. exists b. split; [done|]. apply in_page_spec. unfold SWAP_BITS in Hm.
  assert (0 <= m / 32 < 1024) by (split; [apply Z.div_pos; lia|apply Z.div_lt_upper_bound; lia]). lia.
Qed.
Lemma free_bit_same s s' m : 0 <= m < SWAP_BITS -> swap_bitmap s' = swap_bitmap s -> (forall x, in_bitmap s x -> mem s' x = mem s x) -> free_bit s' m = free_bit s m.
Proof. intros Hm Eb Ex. unfold free_bit. rewrite Eb. destruct (swap_bitmap s) as [b|] eqn:E; [|done]. by rewrite Ex by (by eapply bit_in_bitmap). Qed.
Lemma given_back_ext s s' (P Q : Z -> Prop) : (forall e, swapped e = true -> P e <-> Q e) -> given_back s s' P -> given_back s s' Q.
Proof.
  intros E H m Hm. rewrite (H m Hm). apply or_iff_compat_l, and_iff_compat_l. split; intros (e & He & Hs & Em); exists e; (split_and!; [by apply (E e Hs)|done|done]).
Qed.
Lemma given_back_none s s' (P : Z -> Prop) : (forall e, P e -> swapped e = false) -> swap_bitmap s' = swap_bitmap s -> (forall x, in_bitmap s x -> mem s' x = mem s x) -> given_back s s' P.
Proof. intros HP Eb Ex m Hm. rewrite (free_bit_same s s' m Hm Eb Ex). split; [by left|]. intros [?|(_ & e & He & Hs & _)]; [done|]. rewrite HP in Hs; done. Qed.
Lemma given_back_trans s1 s2 s3 P Q : given_back s1 s2 P -> given_back s2 s3 Q -> swap_bitmap s2 = swap_bitmap s1 -> given_back s1 s3 (fun e => P e \/ Q e).
Proof.
  intros H1 H2 Eb m Hm. rewrite (H2 m Hm), (H1 m Hm), Eb. split.
  - intros [[?|(Hb & e & He & Hr)]|(Hb & e & He & Hr)]; [by left|right; split; [done|]; exists e; split; [by left|done]|right; split; [done|]; exists e; split; [by right|done]].
  - intros [?|(Hb & e & [He|He] & Hr)]; [by left; left|left; right; split; [done|]; by exists e|right; split; [done|]; by exists e].
Qed.

Lemma bit_one i : Z.testbit 1 i = (i =? 0).
Proof. change 1 with (2 ^ 0). rewrite Z.pow2_bits_eqb by lia. apply Z.eqb_sym. Qed.
Lemma swap_free_ok s nr : 0 <= nr -> exists s', swap_free nr s = Ok tt s' /\ bframe s s' /\
  forall m, 0 <= m < SWAP_BITS -> (free_bit s' m = true <-> free_bit s m = true \/ (swap_bitmap s <> None /\ nr <> 0 /\ nr = m)).
Proof.
  intros Hnr. unfold swap_free. destruct (Z.eqb_spec nr 0) as [->|Hnz]; [exists s; split_and!; [done|done|]; naive_solver|]. erewrite bind_ok by reflexivity.
  destruct (swap_bitmap s) as [b|] eqn:Eb; [|eexists; split_and!; [reflexivity|by split|]; intros m Hm; rewrite (free_bit_same s) by done; naive_solver].
  destruct (Z.ltb_spec nr SWAP_BITS) as [Hlt|Hge]; [|eexists; split_and!; [reflexivity|by split|]; intros m Hm; rewrite (free_bit_same s) by done; naive_solver lia].
  pose proof (bit_in_bitmap s b nr Eb ltac:(lia)) as Hin. set (w := mem s (b + 4 * (nr / 32))). set (m1 := poke (mem s) (b + 4 * (nr / 32)) (Z.lor w (Z.shiftl 1 (nr mod 32)))).
  assert (exists s', (r ← setbit b nr; if (r : bool) then printk "Swap-space bad (swap_free())" else skip) s = Ok tt s' /\ mem s' = m1 /\ mem_map s' = mem_map s /\
    HIGH_MEMORY s' = HIGH_MEMORY s /\ swap_bitmap s' = swap_bitmap s) as (s' & E & E1 & E2 & E3 & E4).
  { unfold setbit. erewrite bind_ok by reflexivity. destruct (Z.testbit _ _); by eexists. }
  exists s'. split_and!; [exact E| |].
  - split; [|done|done|done]. intros x Hx. rewrite E1. apply poke_ne. by intros ->.
  - intros m Hm. unfold free_bit. rewrite E4, Eb, E1. assert (0 <= nr mod 32 < 32) by (apply Z.mod_pos_bound; lia). assert (0 <= m mod 32 < 32) by (apply Z.mod_pos_bound; lia).
    pose proof (Z.div_mod nr 32 ltac:(lia)). pose proof (Z.div_mod m 32 ltac:(lia)). destruct (decide (m / 32 = nr / 32)) as [Ed|Hd].
    + rewrite Ed. unfold m1. rewrite poke_eq, Z.lor_spec, Z.shiftl_spec, orb_true_iff by lia. fold w. rewrite bit_one, Z.eqb_eq. naive_solver lia.
    + unfold m1. rewrite poke_ne by lia. split; [by left|]. intros [?|(_ & _ & ->)]; [done|lia].
Qed.

Lemma bframe_ok s s' X : mm_ok s X -> bitmap_ok s X -> bframe s s' -> mm_ok s' X.
Proof.
  intros Hok Hb [B1 B2 B3 B4]. apply (mm_frame s); [done|done|done|]. intros a Ha. apply B1. intros Hx. by eapply bitmap_no_slot.
Qed.

Lemma free_page_ok s p c : frame p -> LOW_MEM <= p < HIGH_MEMORY s -> mem_map s !! nr p = Some c -> 1 <= c < 256 ->
  free_page p s = Ok tt (set_map (<[nr p := c - 1]> (mem_map s)) s).
Proof.
  intros Hf Hr Hc Hc1. assert (page_of p = p) as Ep by (rewrite page_of_spec by apply Hf; destruct Hf as [Hf _]; pose proof (Z.div_mod p 4096); lia).
  assert (word p) as Hw by apply Hf. unfold free_page. rewrite (proj2 (Z.ltb_ge _ _)) by lia. erewrite bind_ok by reflexivity.
  rewrite (proj2 (Z.leb_gt _ _)) by lia.
  erewrite bind_ok by (apply get_map_ok; rewrite map_nr, Ep by (unfold word in Hw; lia); exact Hc).
  erewrite bind_ok by (apply (put_map_ok _ _ c); rewrite map_nr, Ep by (unfold word in Hw; lia); exact Hc).
  rewrite (proj2 (Z.eqb_neq c 0)) by lia. rewrite map_nr, Ep by (unfold word in Hw; lia). by rewrite u8_id by lia.
Qed.

(** ** One entry dropped *)

(** A table entry is cleared and its page loses a user. *)
Lemma drop_ok s X a mp : mm_ok s X -> tslot (mem s) a ->
  (mp = if decide (present (mem s a) = true /\ LOW_MEM <= page_of (mem s a)) then alter (fun c => c - 1) (nr (page_of (mem s a))) (mem_map s) else mem_map s) ->
  mm_ok (set_mem (poke (mem s) a 0) (set_map mp s)) X.
Proof.
  intros Hok Ha ->. assert (forall n, refers (mem s a) n -> exists c, mem_map s !! n = Some c /\ 1 <= c) as Hge by (intros n; apply (slot_cnt s X Hok); by right).
  eapply (pte_update s _ X X a 0); [done|done|unfold word; lia|..]; cbn [mem mem_map HIGH_MEMORY set_mem set_map]; try done.
  - intros x Hx. case_decide as Hxa; [rewrite Hxa; apply poke_eq|by apply poke_ne].
  - case_decide; [apply length_alter|done].
  - intros n c' Hn. unfold hit. rewrite (bool_decide_eq_false_2 (refers 0 n)) by (by intros []). case_decide as Hd.
    + destruct Hd as [Hp Hlo]. assert (refers (mem s a) (nr (page_of (mem s a)))) as Hr by done. destruct (Hge _ Hr) as (c & Hc & Hc1).
      pose proof (ok_byte _ _ Hok _ _ Hc). destruct (decide (n = nr (page_of (mem s a)))) as [->|Hne].
      * rewrite list_lookup_alter_eq, Hc in Hn. injection Hn as <-. exists c. rewrite bool_decide_eq_true_2 by done. cbn [Z.b2z].
        split_and!; [done|lia|lia|by eapply count_bump|lia|]. intros Hh. pose proof (ok_pte _ _ Hok a Ha Hp) as Hhi.
        rewrite addr_of_nr in Hh by (done || apply frame_page_of; by eapply tslot_word). lia.
      * rewrite list_lookup_alter_ne in Hn by done. pose proof (ok_byte _ _ Hok _ _ Hn). exists c'.
        rewrite bool_decide_eq_false_2 by (by intros (_ & _ & <-)). cbn [Z.b2z]. split_and!; [done|lia|lia|by eapply count_bump|lia|by apply (ok_nonex _ _ Hok)].
    + pose proof (ok_byte _ _ Hok _ _ Hn). exists c'. rewrite bool_decide_eq_false_2 by (intros (? & ? & _); naive_solver). cbn [Z.b2z].
      split_and!; [done|lia|lia|by eapply count_bump|lia|by apply (ok_nonex _ _ Hok)].
  - intros b n Hb Hba Hr Hbw. case_decide as Hd; [|done]. apply list_lookup_alter_ne. intros <-.
    apply Hba. apply (sole_ref s X Hok b a (nr (page_of (mem s a)))); [done|by right|done|by destruct Hd|].
    destruct Hr as (R1 & R2 & <-). destruct Hbw as [Hdb|Hw']; [by apply (ok_tab _ _ Hok)|]. destruct Hb as [Hdb|Ht]; [by apply (ok_tab _ _ Hok)|by apply (ok_excl _ _ Hok)].
Qed.

Lemma free_entry_ok s X d i : mm_ok s X -> bitmap_ok s X -> dslot d -> present (mem s d) = true -> (i < 1024)%nat ->
  let a := page_of (mem s d) + 4 * Z.of_nat i in
  exists s', free_entry (page_of (mem s d)) i s = Ok tt s' /\ mm_ok s' X /\ mem s' a = 0 /\
    (forall x, x <> a -> ~ in_bitmap s x -> mem s' x = mem s x) /\ HIGH_MEMORY s' = HIGH_MEMORY s /\ swap_bitmap s' = swap_bitmap s /\
    given_back s s' (fun e => e = mem s a).
Proof.
  intros Hok Hb Hd Hp Hi a. assert (tslot (mem s) a) as Ha by (exists d; split; [done|by eapply entry_slot]).
  pose proof (tslot_word s X Hok a Ha) as Hw. unfold free_entry. fold a. erewrite bind_ok by reflexivity.
  assert (forall x, in_bitmap s x -> x <> a) as Hna by (intros x Hx ->; by apply (bitmap_no_slot s X a Hok Hb Hx); right).
  destruct (Z.eqb_spec (mem s a) 0) as [E0|Hnz]; [exists s; split_and!; try done; apply given_back_none; [intros e ->; by rewrite E0|done|done]|]. rewrite land1.
  assert (forall s1, present (mem s a) = true -> mem s1 = mem s -> HIGH_MEMORY s1 = HIGH_MEMORY s -> swap_bitmap s1 = swap_bitmap s -> mm_ok (set_mem (poke (mem s) a 0) s1) X ->
    exists s', wr a 0 s1 = Ok tt s' /\ mm_ok s' X /\ mem s' a = 0 /\ (forall x, x <> a -> ~ in_bitmap s x -> mem s' x = mem s x) /\
      HIGH_MEMORY s' = HIGH_MEMORY s /\ swap_bitmap s' = swap_bitmap s /\ given_back s s' (fun e => e = mem s a)) as Hend.
  { intros s1 E0 E1 E2 E3 Hok1. eexists. split; [reflexivity|]. cbn [mem HIGH_MEMORY swap_bitmap set_mem]. rewrite E1. split_and!; [done|apply poke_eq| |done|done|].
    - intros x Hx _. by apply poke_ne.
    - apply given_back_none; [intros e ->; unfold swapped; by rewrite E0, andb_false_r|done|]. intros x Hx. cbn. rewrite poke_ne by (by apply Hna). by rewrite ?E1. }
  destruct (present (mem s a)) eqn:Hpa; cbn [negb].
  - destruct (decide (LOW_MEM <= page_of (mem s a))) as [Hlo|Hlo].
    + destruct (slot_cnt s X Hok a (nr (page_of (mem s a)))) as (c & Hc & Hc1); [by right|done|]. pose proof (ok_byte _ _ Hok _ _ Hc).
      pose proof (ok_pte _ _ Hok a Ha Hpa). rewrite (bind_ok _ _ _ _ _ (free_page_ok s (page_of (mem s a)) c (frame_page_of _ Hw) ltac:(lia) Hc ltac:(lia))).
      apply Hend; [done|done|done|done|]. apply (drop_ok s X a); [done|done|]. rewrite decide_True by done. apply list_eq. intros n.
      destruct (decide (n = nr (page_of (mem s a)))) as [->|Hn]; [|by rewrite list_lookup_insert_ne, list_lookup_alter_ne].
      by rewrite list_lookup_insert_eq, list_lookup_alter_eq, Hc by (by eapply lookup_lt_Some).
    + unfold free_page. rewrite (proj2 (Z.ltb_lt _ _)) by lia. erewrite bind_ok by reflexivity. apply Hend; [done|done|done|done|].
      eapply mm_frame; [apply (drop_ok s X a (mem_map s)); [done|done|rewrite decide_False; [done|by intros [_ ?]]]|done|done|done].
  - destruct (swap_free_ok s (Z.shiftr (mem s a) 1)) as (s1 & E1 & B & Hbits); [apply Z.shiftr_nonneg; unfold word in Hw; lia|].
    rewrite (bind_ok _ _ _ _ _ E1). pose proof (bframe_ok s s1 X Hok Hb B) as Hok1. destruct B as [B1 B2 B3 B4].
    assert (forall x, slot (mem s) x -> mem s1 x = mem s x) as Es by (intros x Hx; apply B1; intros Hx'; by apply (bitmap_no_slot s X x Hok Hb Hx')).
    assert (tslot (mem s1) a) as Ha1 by (apply (tslot_ext (mem s)); [|done]; intros d' Hd'; apply Es; by left).
    eexists. split; [reflexivity|]. cbn [mem HIGH_MEMORY swap_bitmap set_mem]. split_and!; [|apply poke_eq| |done|done|].
    + eapply mm_frame; [apply (drop_ok s1 X a (mem_map s1)); [done|done|]|done|done|done]. rewrite Es by (by right). rewrite decide_False; [done|]. intros [Hx _]. congruence.
    + intros x Hx Hnb. rewrite poke_ne by done. by apply B1.
    + assert (swapped (mem s a) = true) as Hsw by (unfold swapped; by rewrite (proj2 (Z.eqb_neq _ _) Hnz), Hpa).
      assert (Z.shiftr (mem s a) 1 <> 0) as Hn0.
      { intros E. rewrite Z.shiftr_div_pow2 in E by lia. change (2 ^ 1) with 2 in E. unfold word in Hw. pose proof (Z.div_mod (mem s a) 2 ltac:(lia)) as Hdm.
        assert (mem s a mod 2 = 0) as Em by (rewrite <- Z.bit0_mod; unfold present in Hpa; by rewrite Hpa). lia. }
      intros m Hm. rewrite (free_bit_same s1 _ m Hm); [|done|intros x (b & Eb & Hx); cbn; apply poke_ne, Hna; exists b; by rewrite <- B4].
      rewrite (Hbits m Hm). apply or_iff_compat_l, and_iff_compat_l. split; [intros [_ E]; by exists (mem s a)|]. by intros (e & -> & _ & E).
Qed.

(** ** A table dropped *)

Lemma free_table_ok s0 X d : mm_ok s0 X -> bitmap_ok s0 X -> dslot d -> present (mem s0 d) = true ->
  wp (for_range 0 1024 (free_entry (page_of (mem s0 d)))) (fun _ s => mm_ok s X /\
    (forall i, (i < 1024)%nat -> mem s (page_of (mem s0 d) + 4 * Z.of_nat i) = 0) /\
    (forall x, (forall i, (i < 1024)%nat -> x <> page_of (mem s0 d) + 4 * Z.of_nat i) -> ~ in_bitmap s0 x -> mem s x = mem s0 x) /\
    HIGH_MEMORY s = HIGH_MEMORY s0 /\ swap_bitmap s = swap_bitmap s0 /\
    given_back s0 s (fun e => exists i, (i < 1024)%nat /\ e = mem s0 (page_of (mem s0 d) + 4 * Z.of_nat i))) s0.
Proof.
  intros Hok0 Hb Hd Hp. set (P := page_of (mem s0 d)).
  assert (forall i, (i < 1024)%nat -> ~ in_bitmap s0 (P + 4 * Z.of_nat i)) as Hnb.
  { intros i Hi Hx. apply (bitmap_no_slot s0 X _ Hok0 Hb Hx). right. exists d. split; [done|]. by eapply entry_slot. }
  assert (~ in_bitmap s0 d) as Hnd by (intros Hx; apply (bitmap_no_slot s0 X _ Hok0 Hb Hx); by left).
  eapply wp_mono; [apply (wp_for_range (fun j s => mm_ok s X /\ (forall i, (i < j)%nat -> mem s (P + 4 * Z.of_nat i) = 0) /\
    (forall x, (forall i, (i < j)%nat -> x <> P + 4 * Z.of_nat i) -> ~ in_bitmap s0 x -> mem s x = mem s0 x) /\
    HIGH_MEMORY s = HIGH_MEMORY s0 /\ swap_bitmap s = swap_bitmap s0 /\
    given_back s0 s (fun e => exists i, (i < j)%nat /\ e = mem s0 (P + 4 * Z.of_nat i))) 1024)|].
  - intros j s Hj (I1 & I2 & I3 & I4 & I5 & I6).
    assert (mem s d = mem s0 d) as Ed.
    { apply I3; [|done]. intros i Hi. pose proof (proj1 (ok_tab _ _ Hok0 d Hd Hp)). destruct Hd. unfold P, LOW_MEM in *. lia. }
    destruct (free_entry_ok s X d j I1) as (s' & E & R1 & R2 & R3 & R4 & R5 & R6); [by intros b; rewrite I5; apply Hb|done|by rewrite Ed|lia|].
    rewrite Ed in *. fold P in E, R2, R3, R6. eapply wp_intro; [exact E|]. split_and!; [done| | |by rewrite R4|by rewrite R5|].
    + intros i Hi. destruct (decide (i = j)) as [->|]; [done|]. rewrite R3; [apply I2; lia|lia|]. intros (b & Eb & Hx). rewrite I5 in Eb.
      apply (Hnb i); [lia|by exists b].
    + intros x Hx Hxb. rewrite R3; [apply I3; [|done]|apply Hx; lia|]; [intros i Hi; apply Hx; lia|]. intros (b & Eb & Hx'). rewrite I5 in Eb. apply Hxb. by exists b.
    + assert (mem s (P + 4 * Z.of_nat j) = mem s0 (P + 4 * Z.of_nat j)) as Ej by (apply I3; [intros i Hi; lia|apply Hnb; lia]). rewrite Ej in R6.
      eapply given_back_ext; [|exact (given_back_trans _ _ _ _ _ I6 R6 I5)]. intros e _. cbn beta. split; [intros [(i & Hi & ->)| ->]; [exists i; split; [lia|done]|exists j; split; [lia|done]]|].
      intros (i & Hi & ->). destruct (decide (i = j)) as [->|]; [by right|left; exists i; split; [lia|done]].
  - split_and!; [done|lia|done|done|done|]. apply given_back_none; [intros e (i & Hi & _); lia|done|done].
  - intros [] s H. exact H.
Qed.

Lemma dir_remove s X d : mm_ok s X -> dslot d -> present (mem s d) = true ->
  (forall i, (i < 1024)%nat -> mem s (page_of (mem s d) + 4 * Z.of_nat i) = 0) ->
  mm_ok (set_mem (poke (mem s) d 0) (set_map (<[nr (page_of (mem s d)) := 0]> (mem_map s)) s)) X.
Proof.
  intros Hok Hd Hp Hz. set (n := nr (page_of (mem s d))). destruct (ok_tab _ _ Hok d Hd Hp) as [T1 T2]. fold n in T2.
  pose proof Hok as [H1 H2 H3 H4 H5 H6 H7 H8 H9]. assert (refers (mem s d) n) as Hrd by (split_and!; [done|lia|done]).
  destruct (sole_ref s X Hok d d n) as [_ HX]; [by left|by left|done|done|done|].
  assert (forall b, slot (mem s) b -> refers (mem s b) n -> b = d) as Hsole by (intros b Hb Hr; apply (sole_ref s X Hok b d n); [done|by left|done|done|done]).
  set (m' := poke (mem s) d 0). assert (m' d = 0) as Ed by apply poke_eq. assert (forall x, x <> d -> m' x = mem s x) as Ex by (intros x Hx; by apply poke_ne).
  assert (forall a, tslot m' a -> tslot (mem s) a /\ a <> d) as Ht.
  { intros a (d' & Hd' & Hi). destruct (decide (d' = d)) as [->|Hne]; [destruct Hi as [Hpp _]; by rewrite Ed in Hpp|].
    assert (tslot (mem s) a) as Hta by (exists d'; split; [done|]; eapply in_table_ext; [|exact Hi]; by rewrite Ex).
    split; [done|]. intros ->. by apply (tslot_not_dslot s X Hok d). }
  assert (forall b k, b <> d -> slot (mem s) b -> refers (mem s b) k -> slot m' b) as Hback.
  { intros b k Hb [Hs|(d' & Hd' & Hi)] Hr; [by left|]. destruct (decide (d' = d)) as [->|Hne].
    - destruct (table_index (mem s) d b Hi) as (i & Hi' & ->); [by eapply dir_frame|]. rewrite Hz in Hr by done. by destruct Hr.
    - right. exists d'. split; [done|]. eapply in_table_ext; [|exact Hi]. by rewrite Ex. }
  split; cbn [mem mem_map HIGH_MEMORY set_mem set_map]; fold m'; try done.
  - by rewrite length_insert.
  - intros k c [(<- & <- & _)|[_ Hk]]%list_lookup_insert_Some; [lia|by eapply H2].
  - intros k c [(<- & <- & _)|[_ Hk]]%list_lookup_insert_Some; [|by eapply H4]. unfold n. rewrite addr_of_nr by (lia || by eapply dir_frame). lia.
  - intros a [Ha|Ha].
    + destruct (decide (a = d)) as [->|Hne]; [rewrite Ed; unfold word; lia|]. rewrite Ex by done. apply H5. by left.
    + destruct (Ht a Ha) as [Ha' Hne]. rewrite Ex by done. apply H5. by right.
  - apply (refs_update (mem s) m' (mem_map s) _ X X d (fun k => bool_decide (k = n)) (fun _ => false)); [done| | | |].
    + intros k. rewrite bool_decide_eq_true. split; [intros ->; split; [by left|done]|]. by intros [_ (_ & _ & <-)].
    + intros k. split; [done|]. rewrite Ed. by intros [_ [? _]].
    + intros k b Hb. rewrite Ex by done. split; intros [Hs Hr]; (split; [|done]); [|by eapply Hback].
      destruct Hs as [Hs|Hs]; [by left|right]. by apply Ht.
    + intros k c' [(<- & <- & _)|[Hkn Hk]]%list_lookup_insert_Some.
      * exists 1. rewrite bool_decide_eq_true_2 by done. cbn [Z.b2z]. split_and!; [done|lia|lia].
      * exists c'. rewrite bool_decide_eq_false_2 by done. cbn [Z.b2z]. split_and!; [done|by eapply count_bump|lia].
  - intros d' Hd'. destruct (decide (d' = d)) as [->|Hne]; [by rewrite Ed|]. rewrite Ex by done. intros Hp'. destruct (H7 d' Hd' Hp') as [U1 U2]. split; [done|].
    rewrite list_lookup_insert_ne; [done|]. intros E. apply Hne, Hsole; [by left|]. split_and!; [done|lia|done].
  - intros a Ha. destruct (Ht a Ha) as [Ha' Hne]. rewrite Ex by done. by apply H8.
  - intros a Ha Hpa Hwa Hla. destruct (Ht a Ha) as [Ha' Hne]. rewrite Ex in * by done. rewrite list_lookup_insert_ne; [by apply H9|].
    intros E. apply Hne, Hsole; [by right|by split_and!].
Qed.

(** What is left of a state once directory entry [d] is gone. *)
Record dir_freed (s s' : mm) (X : nat -> Z) (d : Z) : Prop := {
  df_ok : mm_ok s' X;
  df_gone : present (mem s' d) = false;
  df_dirs : forall d', dslot d' -> d' <> d -> mem s' d' = mem s d';
  df_pte : forall d' i, dslot d' -> d' <> d -> (i < 1024)%nat -> pte (mem s') d' i = pte (mem s) d' i;
  df_data : forall x, ~ slot (mem s) x -> ~ in_bitmap s x -> mem s' x = mem s x;
  df_slots : forall x, slot (mem s') x -> slot (mem s) x;
  df_bitmap : swap_bitmap s' = swap_bitmap s;
  df_bits : given_back s s' (fun e => exists i, (i < 1024)%nat /\ e = pte (mem s) d i) }.

Lemma free_dir_ok s X dir0 k : mm_ok s X -> bitmap_ok s X -> dslot (dir0 + 4 * Z.of_nat k) ->
  exists s', free_dir dir0 k s = Ok tt s' /\ dir_freed s s' X (dir0 + 4 * Z.of_nat k).
Proof.
  intros Hok Hb Hd. set (d := dir0 + 4 * Z.of_nat k) in *. unfold free_dir. fold d. erewrite bind_ok by reflexivity. rewrite land1.
  destruct (present (mem s d)) eqn:Hp; cbn [negb]; [|exists s; split; [done|]; split; try done; apply given_back_none; [intros e (i & _ & ->); unfold pte; by rewrite Hp|done|done]].
  destruct (wp_inv _ _ _ (free_table_ok s X d Hok Hb Hd Hp)) as ([] & s1 & E & R1 & R2 & R3 & R4 & R5 & R6). rewrite (bind_ok _ _ _ _ _ E).
  set (P := page_of (mem s d)) in *. destruct (ok_tab _ _ Hok d Hd Hp) as [T1 T2]. fold P in T1, T2.
  assert (forall d', dslot d' -> mem s1 d' = mem s d') as Ed.
  { intros d' Hd'. apply R3; [intros i Hi; destruct Hd'; unfold LOW_MEM in T1; lia|]. intros Hx. apply (bitmap_no_slot s X _ Hok Hb Hx). by left. }
  assert (frame P) as HfP by (by eapply dir_frame).
  assert (present (mem s1 d) = true) as Hp1 by (by rewrite Ed).
  pose proof (proj2 (ok_tab _ _ R1 d Hd Hp1)) as T2'. rewrite Ed in T2' by done. fold P in T2'.
  rewrite (bind_ok _ _ _ _ _ (free_page_ok s1 P 1 HfP ltac:(rewrite R4; lia) T2' ltac:(lia))).
  eexists. split; [reflexivity|]. cbn [mem set_map].
  assert (forall d' i, dslot d' -> d' <> d -> present (mem s d') = true -> (i < 1024)%nat -> mem s1 (page_of (mem s d') + 4 * Z.of_nat i) = mem s (page_of (mem s d') + 4 * Z.of_nat i)) as Ept.
  { intros d' i Hd' Hne Hp' Hi. pose proof (entry_slot s X d' i Hok Hd' Hp' Hi) as Hit. apply R3.
    - intros j Hj E'. apply Hne. rewrite E' in Hit. apply (in_table_unique s X Hok d' d _ Hd' Hd Hit). by eapply entry_slot.
    - intros Hx. apply (bitmap_no_slot s X _ Hok Hb Hx). right. by exists d'. }
  assert (mm_ok (set_mem (poke (mem s1) d 0) (set_map (<[nr P := 1 - 1]> (mem_map s1)) s1)) X) as Hfin.
  { assert (nr P = nr (page_of (mem s1 d))) as -> by (by rewrite Ed). apply dir_remove; [done|done|done|]. intros i Hi. rewrite (Ed d Hd). by apply R2. }
  split; cbn [mem swap_bitmap set_mem set_map]; [done|by rewrite poke_eq|..].
  - intros d' Hd' Hne. rewrite poke_ne by done. by apply Ed.
  - intros d' i Hd' Hne Hi. unfold pte. rewrite (poke_ne _ _ _ d') by done. rewrite Ed by done. destruct (present (mem s d')) eqn:Hp'; [|done].
    rewrite poke_ne; [by apply Ept|]. pose proof (proj1 (ok_tab _ _ Hok d' Hd' Hp')). destruct Hd. unfold LOW_MEM in *. lia.
  - intros x Hx Hxb. rewrite poke_ne by (intros ->; apply Hx; by left). apply R3; [|done]. intros i Hi ->. apply Hx. right. exists d. split; [done|]. by eapply entry_slot.
  - intros x [Hx|(d' & Hd' & Hi)]; [by left|right]. exists d'. split; [done|]. destruct (decide (d' = d)) as [->|Hne].
    + destruct Hi as [Hpp _]. by rewrite poke_eq in Hpp.
    + eapply in_table_ext; [|exact Hi]. rewrite poke_ne by done. by rewrite Ed.
  - done.
  - assert (~ in_bitmap s d) as Hnd by (intros Hx; apply (bitmap_no_slot s X _ Hok Hb Hx); by left). intros m Hm.
    rewrite (free_bit_same s1 _ m Hm); [|done|intros x (b & Eb & Hx); cbn; apply poke_ne; intros ->; apply Hnd; exists b; by rewrite <- R5].
    rewrite (R6 m Hm). unfold pte. rewrite Hp. done.
Qed.

(** What is left of a state once [n] directory entries from [k] on are gone. *)
Record tables_freed (s s' : mm) (X : nat -> Z) (k : Z) (n : nat) : Prop := {
  tf_ok : mm_ok s' X;
  tf_gone : forall j, (j < n)%nat -> present (mem s' (4 * k + 4 * Z.of_nat j)) = false;
  tf_others : forall d i, dslot d -> (forall j, (j < n)%nat -> d <> 4 * k + 4 * Z.of_nat j) -> (i < 1024)%nat ->
    mem s' d = mem s d /\ pte (mem s') d i = pte (mem s) d i;
  tf_data : forall x, ~ slot (mem s) x -> ~ in_bitmap s x -> mem s' x = mem s x;
  tf_slots : forall x, slot (mem s') x -> slot (mem s) x;
  tf_bitmap : swap_bitmap s' = swap_bitmap s;
  tf_bits : given_back s s' (fun e => exists j i, (j < n)%nat /\ (i < 1024)%nat /\ e = pte (mem s) (4 * k + 4 * Z.of_nat j) i) }.

Lemma free_page_tables_ok s X k n size :
  mm_ok s X -> bitmap_ok s X -> 16 <= k -> k + Z.of_nat n <= 1024 -> 0 < size < 4290772992 -> Z.of_nat n = (size + 4194303) / 4194304 ->
  exists s', free_page_tables (4194304 * k) size s = Ok 0 s' /\ tables_freed s s' X k n.
Proof.
  intros Hok Hb Hk Hkn Hs Hn. assert (1 <= Z.of_nat n) by (rewrite Hn; apply Z.div_le_lower_bound; lia).
  assert (wp (for_range 0 n (free_dir (4 * k))) (fun _ s' => tables_freed s s' X k n) s) as Hw.
  { apply (wp_for_range (fun m s' => tables_freed s s' X k m) n).
    - intros m s1 Hm [I1 I2 I3 I4 I5 I6 I7]. pose proof (dir_slot n k m Hk Hkn ltac:(lia)) as Hds.
      destruct (free_dir_ok s1 X (4 * k) m I1) as (s2 & E & [D1 D2 D3 D4 D5 D6 D7 D8]); [by intros b; rewrite I6; apply Hb|done|].
      eapply wp_intro; [exact E|]. split; [done| | | | |by rewrite D7|].
      + intros j Hj. destruct (decide (j = m)) as [->|]; [done|]. rewrite D3; [apply I2; lia|apply (dir_slot n); lia|lia].
      + intros d i Hd Hj Hi. destruct (I3 d i Hd) as [J1 J2]; [intros j Hj'; apply Hj; lia|done|]. rewrite D3, D4 by (done || apply Hj; lia). done.
      + intros x Hx Hxb. rewrite D5, I4; [done|done|done| |]; [by intros ?; apply Hx, I5|]. intros (b & Eb & Hx'). rewrite I6 in Eb. apply Hxb. by exists b.
      + intros x Hx. by apply I5, D6.
      + assert (forall i, (i < 1024)%nat -> pte (mem s1) (4 * k + 4 * Z.of_nat m) i = pte (mem s) (4 * k + 4 * Z.of_nat m) i) as Em by (intros i Hi; apply I3; [done|intros j Hj; lia|done]).
        eapply given_back_ext; [|exact (given_back_trans _ _ _ _ _ I7 D8 I6)]. intros e _. cbn beta. split.
        * intros [(j & i & Hj & Hi & ->)|(i & Hi & ->)]; [exists j, i; split_and!; [lia|done|done]|]. exists m, i. rewrite Em by done. split_and!; [lia|done|done].
        * intros (j & i & Hj & Hi & ->). destruct (decide (j = m)) as [->|]; [right; exists i; by rewrite Em|left; exists j, i; split_and!; [lia|done|done]].
    - split; try done; [lia|]. apply given_back_none; [intros e (j & _ & Hj & _); lia|done|done]. }
  apply wp_inv in Hw as ([] & s' & E & Hf). exists s'. split; [|done].
  unfold free_page_tables. rewrite aligned, (dir_count size n), dir_address by (done || lia). rewrite (proj2 (Z.eqb_neq (4194304 * k) 0)) by lia.
  change (negb (0 =? 0)) with false. cbv beta zeta iota. by rewrite (bind_ok _ _ _ _ _ E).
Qed.

(** C15.  Exit: [free_page_tables] returns 0 whatever the tables of the task
    hold (it never frees a page that is free already); its directory entries
    are gone, the tables of all other tasks and everything outside directory,
    tables and swap map is as before, every page has lost exactly the
    references the task had, and in the swap map the pages of the task that
    were on the swap device have become free, and no others. *)
Theorem free_page_tables_releases s X k n size :
  mm_ok s X -> bitmap_ok s X -> 16 <= k -> k + Z.of_nat n <= 1024 -> 0 < size < 4290772992 -> Z.of_nat n = (size + 4194303) / 4194304 ->
  exists s', free_page_tables (4194304 * k) size s = Ok 0 s' /\ mm_ok s' X /\
    (forall j, (j < n)%nat -> present (mem s' (4 * k + 4 * Z.of_nat j)) = false) /\
    (forall d i, dslot d -> (forall j, (j < n)%nat -> d <> 4 * k + 4 * Z.of_nat j) -> (i < 1024)%nat ->
       mem s' d = mem s d /\ pte (mem s') d i = pte (mem s) d i) /\
    (forall x, ~ slot (mem s) x -> ~ in_bitmap s x -> mem s' x = mem s x) /\
    (forall b, swap_bitmap s = Some b -> swap_bitmap s' = Some b /\ forall m, 0 <= m < SWAP_BITS ->
       (Z.testbit (mem s' (b + 4 * (m / 32))) (m mod 32) = true <->
        Z.testbit (mem s (b + 4 * (m / 32))) (m mod 32) = true \/
        exists j i, (j < n)%nat /\ (i < 1024)%nat /\ swapped (pte (mem s) (4 * k + 4 * Z.of_nat j) i) = true /\ Z.shiftr (pte (mem s) (4 * k + 4 * Z.of_nat j) i) 1 = m)).
Proof.
  intros Hok Hb Hk Hkn Hs Hn. destruct (free_page_tables_ok s X k n size Hok Hb Hk Hkn Hs Hn) as (s' & E & [F1 F2 F3 F4 _ F5 F6]). exists s'. split_and!; try done.
  intros b Eb. rewrite F5. split; [done|]. intros m Hm. specialize (F6 m Hm). unfold free_bit in F6. rewrite F5, Eb in F6. rewrite F6. apply or_iff_compat_l. split.
  - intros (_ & e & (j & i & Hj & Hi & ->) & Hr). by exists j, i.
  - intros (j & i & Hj & Hi & Hr). split; [done|]. eexists. split; [by exists j, i|done].
Qed.

(** ** Two tasks that share a page

    The tables at pages 10 and 12 map page 11, dirty and read-only. *)

Definition demo_mem (x : Z) : Z :=
  if x =? 64 then 1089543 else if x =? 128 then 1097735 else
  if (x =? 1089536) || (x =? 1097728) then 1093701 else if x =? 1093632 then 42 else 0.
Definition demo_mm : mm :=
  mkMm demo_mem (<[10%nat := 1]> (<[11%nat := 2]> (<[12%nat := 1]> (replicate 3840 0)))) 16777216 None 0 (fun _ _ => 0) None 16 (-1)
    [] 0 (fun _ => 0) [] None.
Definition no_users : nat -> Z := fun _ => 0.

Lemma demo_cases x : present (demo_mem x) = true -> x = 64 \/ x = 128 \/ x = 1089536 \/ x = 1097728.
Proof.
  unfold demo_mem. destruct (Z.eqb_spec x 64), (Z.eqb_spec x 128), (Z.eqb_spec x 1089536), (Z.eqb_spec x 1097728); cbn [orb]; auto.
  by destruct (x =? 1093632).
Qed.
Lemma demo_word x : word (demo_mem x).
Proof. unfold demo_mem, word. repeat case_match; lia. Qed.
Lemma demo_map n c : mem_map demo_mm !! n = Some c -> (n = 10%nat /\ c = 1) \/ (n = 11%nat /\ c = 2) \/ (n = 12%nat /\ c = 1) \/ (c = 0 /\ n <> 10%nat /\ n <> 11%nat /\ n <> 12%nat).
Proof.
  cbn [mem_map demo_mm]. intros [(<- & <- & _)|[H1 [(<- & <- & _)|[H2 [(<- & <- & _)|[H3 [-> _]%lookup_replicate]]%list_lookup_insert_Some]]%list_lookup_insert_Some]]%list_lookup_insert_Some;
    naive_solver.
Qed.
Lemma demo_dir d : dslot d -> present (demo_mem d) = true -> d = 64 \/ d = 128.
Proof. intros [Hd _] [?|[?|[?|?]]]%demo_cases; auto; lia. Qed.
Lemma demo_tslot a : tslot demo_mem a -> (1089536 <= a < 1093632 \/ 1097728 <= a < 1101824) /\ a mod 4 = 0.
Proof. intros (d & Hd & Hp & Hr & Ha). destruct (demo_dir d Hd Hp) as [-> | ->]; vm_compute (page_of _) in Hr; (split; [lia|done]). Qed.
Lemma demo_slots : slot demo_mem 64 /\ slot demo_mem 128 /\ tslot demo_mem 1089536 /\ tslot demo_mem 1097728.
Proof.
  split_and!; [left; split; [lia|done]|left; split; [lia|done]|exists 64|exists 128]; (split; [split; [lia|done]|]);
    (split; [done|]); vm_compute (page_of _); (split; [lia|done]).
Qed.

Lemma demo_ok : mm_ok demo_mm no_users.
Proof.
  destruct demo_slots as (S1 & S2 & S3 & S4). split; cbn [mem HIGH_MEMORY demo_mm].
  - reflexivity.
  - intros n c Hn. apply demo_map in Hn. lia.
  - unfold LOW_MEM. lia.
  - intros n c Hn Hh. apply lookup_lt_Some in Hn. change (length (mem_map demo_mm)) with 3840%nat in Hn. unfold addr_of, LOW_MEM in Hh. lia.
  - intros a _. apply demo_word.
  - exists (fun n => if decide (n = 10%nat) then {[64]} else if decide (n = 12%nat) then {[128]} else if decide (n = 11%nat) then {[1089536; 1097728]} else ∅). split.
    + intros n a. split.
      * repeat case_decide; subst; rewrite ?elem_of_union, ?elem_of_singleton; [intros ->|intros ->|intros [-> | ->]|by intros ?%elem_of_empty].
        all: split; [by auto || by right|]; by vm_compute.
      * intros [_ (Hp & _ & <-)]. apply demo_cases in Hp as [->|[->|[->| ->]]]; vm_compute (nr _); cbn; set_solver.
    + intros n c Hn. unfold no_users. split; [|lia]. apply demo_map in Hn as [[-> ->]|[[-> ->]|[[-> ->]|(-> & ? & ? & ?)]]]; [reflexivity..|].
      by rewrite !decide_False by done.
  - intros d Hd Hp. destruct (demo_dir d Hd Hp) as [-> | ->]; vm_compute (page_of _); unfold LOW_MEM; (split; [lia|reflexivity]).
  - intros a _ Hp. apply demo_cases in Hp as [->|[->|[->| ->]]]; vm_compute (page_of _); lia.
  - intros a Ha Hp. apply demo_tslot in Ha as [Ha _]. apply demo_cases in Hp as [->|[->|[->| ->]]]; [lia|lia|by vm_compute|by vm_compute].
Qed.

(** The first task writes: it gets a page of its own with the same content. *)
Lemma un_wp_page_isolates_witness : exists s', un_wp_page 1 1089536 demo_mm = Ok tt s' /\
  writable (mem s' 1089536) = true /\ mem s' (page_of (mem s' 1089536) + 0) = 42 /\ mem s' 1097728 = 1093701.
Proof.
  destruct (un_wp_page_isolates demo_mm no_users 1 1089536 demo_ok ltac:(lia) (proj1 (proj2 (proj2 demo_slots))) eq_refl ltac:(right; by exists 0%nat))
    as (s' & E & _ & _ & Hw & Hc & Hb & _).
  exists s'. split; [exact E|]. split; [exact Hw|]. split; [by rewrite Hc by lia|]. apply Hb; [right; apply demo_slots|done].
Defined.

Lemma demo_pte i : (i < 1024)%nat -> pte demo_mem 64 i = if (i =? 0)%nat then 1093701 else 0.
Proof.
  intros Hi. assert (present (demo_mem 64) = true) as E1 by reflexivity. assert (page_of (demo_mem 64) = 1089536) as E2 by reflexivity.
  unfold pte. rewrite E1, E2. destruct (Nat.eqb_spec i 0) as [->|Hn]; [reflexivity|].
  unfold demo_mem. rewrite !(proj2 (Z.eqb_neq _ _)) by lia. done.
Qed.

(** The first task forks a third one. *)
Lemma demo_fork_pre : fork_pre demo_mm 16 48 1.
Proof.
  assert (forall i p, (i < 1024)%nat -> refers (pte demo_mem 64 i) p -> i = 0%nat /\ p = 11%nat) as Hr.
  { intros i p Hi. rewrite demo_pte by done. destruct (Nat.eqb_spec i 0); [|by intros []]. intros (_ & _ & <-). by vm_compute. }
  split; try lia.
  - intros [|j] Hj; [reflexivity|lia].
  - intros [|j] [|j'] i i' p Hj Hj' Hi Hi' R1 R2; try lia. apply Hr in R1 as [-> _]; [|done]. by apply Hr in R2 as [-> _].
  - intros [|j] i p c Hj Hi R1 Hc; [|lia]. apply demo_map in Hc. lia.
  - exists {[0%nat]}. rewrite size_singleton. split; [by vm_compute|]. by intros p ->%elem_of_singleton.
Qed.

(** The same memory with a page of the first task on the swap device, whose
    map is in page 20: swap pages 4 and others are in use. *)
Definition swap_mm : mm :=
  let m := grabbed 20 (set_mem (poke demo_mem 1089540 8) demo_mm) in
  mkMm (mem m) (mem_map m) (HIGH_MEMORY m) (Some (addr_of 20)) 0 (fun n _ => if n =? 4 then 7 else 0) None 16 (-1) [] 0 (fun _ => 0) [] None.
Definition swap_users : nat -> Z := held 20 no_users.

Lemma swap_mm_ok : mm_ok swap_mm swap_users.
Proof.
  assert (mm_ok (set_mem (poke demo_mem 1089540 8) demo_mm) no_users) as Hok.
  { apply (low_ok demo_mm); [exact demo_ok| |reflexivity|unfold word; lia|done]. exists 64. split; [split; [lia|done]|]. split; [done|]. vm_compute (page_of _). split; [lia|done]. }
  eapply mm_frame; [apply (grabbed_ok _ _ 20 Hok)|..]; done.
Qed.
Lemma swap_bitmap_ok : bitmap_ok swap_mm swap_users.
Proof. intros b [= <-]. exists 20%nat. split; [done|]. split; [unfold PAGING_PAGES; lia|done]. Qed.
Lemma swap_pte i : (i < 1024)%nat -> pte (mem swap_mm) 64 i = if (i =? 0)%nat then 1093701 else if (i =? 1)%nat then 8 else 0.
Proof.
  intros Hi. assert (forall x, in_page (addr_of 20) x = false -> mem swap_mm x = poke demo_mem 1089540 8 x) as E by (intros x Hx; cbn [mem swap_mm grabbed set_mem set_map]; unfold fill_page; by rewrite Hx).
  assert (present (poke demo_mem 1089540 8 64) = true) as E1 by reflexivity. assert (page_of (poke demo_mem 1089540 8 64) = 1089536) as E2 by reflexivity.
  unfold pte. rewrite E, E1, E2 by done.
  assert (in_page (addr_of 20) (1089536 + 4 * Z.of_nat i) = false) as Hx.
  { destruct (in_page _ _) eqn:Ep; [|done]. apply in_page_spec in Ep. unfold addr_of, LOW_MEM in Ep. lia. }
  rewrite E by done. unfold poke, demo_mem. destruct (Nat.eqb_spec i 0) as [->|Hn]; [reflexivity|]. destruct (Nat.eqb_spec i 1) as [->|Hn1]; [reflexivity|].
  rewrite !(proj2 (Z.eqb_neq _ _)) by lia. done.
Qed.
Lemma swap_fork_pre : fork_pre swap_mm 16 48 1.
Proof.
  assert (forall i p, (i < 1024)%nat -> refers (pte (mem swap_mm) 64 i) p -> i = 0%nat /\ p = 11%nat) as Hr.
  { intros i p Hi. rewrite swap_pte by done. destruct (Nat.eqb_spec i 0); [intros (_ & _ & <-); by vm_compute|]. destruct (i =? 1)%nat; by intros []. }
  split; try lia.
  - intros [|j] Hj; [reflexivity|lia].
  - intros [|j] [|j'] i i' p Hj Hj' Hi Hi' R1 R2; try lia. apply Hr in R1 as [-> _]; [|done]. by apply Hr in R2 as [-> _].
  - intros [|j] i p c Hj Hi R1 Hc; [|lia]. apply Hr in R1 as [_ ->]; [|done]. vm_compute in Hc. injection Hc as <-. lia.
  - exists {[0%nat; 1%nat]}. rewrite size_union, !size_singleton by set_solver. split; [by vm_compute|]. intros p [->%elem_of_singleton| ->%elem_of_singleton]%elem_of_union; reflexivity.
Qed.
Lemma copy_page_tables_shares_witness : exists s' p, copy_page_tables 1 67108864 201326592 4194304 swap_mm = Ok 0 s' /\
  pte (mem s') 192 0 = 1093701 /\ pte (mem s') 64 0 = 1093701 /\ pte (mem s') 192 1 = 8 /\ pte (mem s') 64 1 = addr_of p + 71 /\ mem s' (addr_of p + 100) = 7.
Proof.
  destruct (copy_page_tables_shares 1 swap_mm swap_users 16 48 1 4194304 ltac:(lia) swap_mm_ok swap_fork_pre ltac:(lia) eq_refl) as (s' & E & _ & Hc & _).
  destruct (Hc 0%nat 0%nat ltac:(lia) ltac:(lia)) as [H1 H2]. destruct (Hc 0%nat 1%nat ltac:(lia) ltac:(lia)) as [H3 (p & _ & H4 & H5)].
  exists s', p. split; [exact E|]. split; [exact H1|]. split; [exact H2|]. split; [exact H3|]. split; [exact H4|]. rewrite H5 by lia. reflexivity.
Defined.

(** The first task exits: its page is shared still, swap page 4 is free. *)
Lemma free_page_tables_releases_witness : exists s', free_page_tables 67108864 67108864 swap_mm = Ok 0 s' /\
  present (mem s' 64) = false /\ pte (mem s') 128 0 = 1093701 /\ Z.testbit (mem s' 1130496) 4 = true.
Proof.
  destruct (free_page_tables_releases swap_mm swap_users 16 16 67108864 swap_mm_ok swap_bitmap_ok ltac:(lia) ltac:(lia) ltac:(lia) eq_refl) as (s' & E & _ & Hg & Ho & _ & Hb).
  exists s'. split; [exact E|]. split; [exact (Hg 0%nat ltac:(lia))|]. split; [destruct (Ho 128 0%nat) as [_ H]; [split; [lia|reflexivity]|lia|lia|exact H]|].
  destruct (Hb _ eq_refl) as [_ H]. apply (H 4 ltac:(unfold SWAP_BITS; lia)). right. exists 0%nat, 1%nat. split; [lia|]. split; [lia|]. split; reflexivity.
Defined.

(** ** Slips in the source *)

(** Without a free page, [get_free_page] called by [un_wp_page] may swap out
    the page that is to be copied: here it is clean and mapped by the two tasks
    only, gets free, is taken as the new page and cleared.  Its contents are
    lost, and it is mapped with a count of 0. *)
Definition full_mm : mm :=
  mkMm (fun x => if (x =? 1089536) || (x =? 1097728) then 1093637 else demo_mem x) (<[11%nat := 2]> (replicate 3840 1)) 16777216 None 0 (fun _ _ => 0) None 16 (-1)
    [] 0 (fun _ => 0) [] None.
Example un_wp_page_full : mem full_mm 1093632 = 42 /\
  match un_wp_page 3000 1089536 full_mm with
  | Ok _ s' => mem s' 1089536 = 1093639 /\ mem_map s' !! 11%nat = Some 0 /\ mem s' 1093632 = 0 /\ mem s' 1097728 = 0
  | _ => False end.
Proof. vm_compute. auto. Qed.

(** The copy made for a write is entered as clean, whatever the page was: a
    swap-out before the write throws the dirty page away instead of saving it. *)
Lemma cow_page_dropped :
  match (un_wp_page 1 1089536 ;; try_to_swap_out 1089536) demo_mm with
  | Ok r s' => r = 1 /\ mem s' 1089536 = 0 /\ swap_page s' = swap_page demo_mm
  | _ => False end /\
  match try_to_swap_out 1089536 demo_mm with Ok r s' => r = 0 /\ mem s' 1089536 = 1093701 | _ => False end.
Proof. vm_compute. auto 10. Qed.

(** [show_mem] never gets past a directory entry above [HIGH_MEMORY]: its
    [continue] skips the increment. *)
Lemma show_mem_hangs fuel s : present (mem s 16) = true -> HIGH_MEMORY s < mem s 16 -> show_mem fuel s = OutOfFuel.
Proof.
  intros Hp Hh. unfold show_mem. do 2 (erewrite bind_ok by reflexivity). destruct (count_map _) as [[free total] shared].
  do 2 (erewrite bind_ok by reflexivity). cbn [mem_map say].
  assert (forall f s1, mem s1 = mem s -> HIGH_MEMORY s1 = HIGH_MEMORY s -> loop f show_dir (4, 0, free) s1 = OutOfFuel) as Hl.
  { induction f as [|f IH]; intros s1 E1 E2; [done|]. erewrite loop_next; [apply (IH (say "page directory" s1)); done|].
    unfold show_dir. cbn [Z.ltb negb Z.compare Pos.compare Pos.compare_cont]. erewrite bind_ok by reflexivity. erewrite bind_ok by reflexivity.
    rewrite E1, E2. change (4 * 4) with 16. rewrite land1, Hp. cbn [negb]. rewrite (proj2 (Z.ltb_lt _ _) Hh). done. }
  unfold mbind, M_bind. by rewrite Hl.
Qed.
