(* ===== verification/LinuxProc.v ===== *)
(** * Linux 0.12: processes

    Models [kernel/fork.c] and [kernel/exit.c] over the scheduler
    ([LinuxSched]) and memory ([LinuxMm]).  A task pointer is a slot of
    [task], whose memory part is the same slot of [mtasks]; [task_page] is the
    page its structure is in.  Closing files,
    dropping inodes, and writing to user memory are recorded in [calls]. *)

From S2P Require Import Prelude LinuxSched LinuxMm.

Definition EPERM : Z := 1.
Definition ESRCH : Z := 3.
Definition ECHILD : Z := 10.
Definition EAGAIN : Z := 11.
Definition ENOMEM : Z := 12.
Definition EINVAL : Z := 22.
Definition ERESTARTSYS : Z := 512.
Definition SIGHUP : Z := 1.
Definition SIGCHLD : Z := 17.
Definition SIGCONT : Z := 18.
Definition SIGTSTP : Z := 20.
Definition SIGTTIN : Z := 21.
Definition SIGTTOU : Z := 22.
Definition NR_OPEN : nat := 20.
Definition WNOHANG : Z := 1.
Definition WUNTRACED : Z := 2.
Definition _LDT (n : Z) : Z := Z.shiftl n 4 + 40.

Inductive call :=
| CClose (fd : nat) | CIput (i : nat) | CPutLong (v addr : Z) | CSetDesc (nr : nat) | CSaveMath (nr : nat).

Record lst := mkL {
  k_s : sst;
  k_m : mm;
  last_pid : Z;
  task_page : nat -> Z;
  f_count : nat -> Z;
  last_task_used_math : option nat;
  tty_ids : nat -> Z * Z;           (* process group and session of a terminal *)
  fg_console : nat;
  calls : list call }.

Definition set_ks v s := mkL v (k_m s) (last_pid s) (task_page s) (f_count s) (last_task_used_math s) (tty_ids s) (fg_console s) (calls s).
Definition set_km v s := mkL (k_s s) v (last_pid s) (task_page s) (f_count s) (last_task_used_math s) (tty_ids s) (fg_console s) (calls s).
Definition set_last_pid v s := mkL (k_s s) (k_m s) v (task_page s) (f_count s) (last_task_used_math s) (tty_ids s) (fg_console s) (calls s).
Definition set_task_page v s := mkL (k_s s) (k_m s) (last_pid s) v (f_count s) (last_task_used_math s) (tty_ids s) (fg_console s) (calls s).
Definition set_f_count v s := mkL (k_s s) (k_m s) (last_pid s) (task_page s) v (last_task_used_math s) (tty_ids s) (fg_console s) (calls s).
Definition set_math v s := mkL (k_s s) (k_m s) (last_pid s) (task_page s) (f_count s) v (tty_ids s) (fg_console s) (calls s).
Definition set_tty_ids v s := mkL (k_s s) (k_m s) (last_pid s) (task_page s) (f_count s) (last_task_used_math s) v (fg_console s) (calls s).
Definition add_call c s := mkL (k_s s) (k_m s) (last_pid s) (task_page s) (f_count s) (last_task_used_math s) (tty_ids s) (fg_console s) (calls s ++ [c]).

#[export] Instance lens_ks : Lens lst sst := {| lget := k_s; lset := set_ks |}.
#[export] Instance lens_km : Lens lst mm := {| lget := k_m; lset := set_km |}.

Definition call_ (c : call) : M lst unit := modify (add_call c).
Definition curr : M lst nat := gets (fun s => current (k_s s)).
Definition tsk (i : nat) : M lst task_struct := lift (get_task i).
Definition upd (i : nat) (f : task_struct -> task_struct) : M lst unit := lift (upd_task i f).
Definition print (m : string) : M lst unit := lift (event_ (EPrint m)).

(** Fields of [pinfo]. *)
Definition on_info (f : pinfo -> pinfo) (t : task_struct) : task_struct :=
  mkTask (state t) (counter t) (priority t) (signal t) (blocked t) (pid t) (p_pptr t) (uid t) (euid t) (gid t) (egid t) (timeout t) (alarm t) (utime t) (stime t) (f (info t)).
Definition set_exit_code v i := mkInfo v (pgrp i) (session i) (leader i) (tty i) (p_cptr i) (p_ysptr i) (p_osptr i) (sa_handler i) (cutime i) (cstime i) (start_time i) (filp i) (pwd i) (root i) (code_base i) (code_limit i) (data_base i) (data_limit i) (tss i).
Definition set_tty v i := mkInfo (exit_code i) (pgrp i) (session i) (leader i) v (p_cptr i) (p_ysptr i) (p_osptr i) (sa_handler i) (cutime i) (cstime i) (start_time i) (filp i) (pwd i) (root i) (code_base i) (code_limit i) (data_base i) (data_limit i) (tss i).
Definition set_cptr v i := mkInfo (exit_code i) (pgrp i) (session i) (leader i) (tty i) v (p_ysptr i) (p_osptr i) (sa_handler i) (cutime i) (cstime i) (start_time i) (filp i) (pwd i) (root i) (code_base i) (code_limit i) (data_base i) (data_limit i) (tss i).
Definition set_ysptr v i := mkInfo (exit_code i) (pgrp i) (session i) (leader i) (tty i) (p_cptr i) v (p_osptr i) (sa_handler i) (cutime i) (cstime i) (start_time i) (filp i) (pwd i) (root i) (code_base i) (code_limit i) (data_base i) (data_limit i) (tss i).
Definition set_osptr v i := mkInfo (exit_code i) (pgrp i) (session i) (leader i) (tty i) (p_cptr i) (p_ysptr i) v (sa_handler i) (cutime i) (cstime i) (start_time i) (filp i) (pwd i) (root i) (code_base i) (code_limit i) (data_base i) (data_limit i) (tss i).
Definition set_ctimes u v i := mkInfo (exit_code i) (pgrp i) (session i) (leader i) (tty i) (p_cptr i) (p_ysptr i) (p_osptr i) (sa_handler i) u v (start_time i) (filp i) (pwd i) (root i) (code_base i) (code_limit i) (data_base i) (data_limit i) (tss i).
Definition set_dirs v w i := mkInfo (exit_code i) (pgrp i) (session i) (leader i) (tty i) (p_cptr i) (p_ysptr i) (p_osptr i) (sa_handler i) (cutime i) (cstime i) (start_time i) (filp i) v w (code_base i) (code_limit i) (data_base i) (data_limit i) (tss i).
Definition set_bases v w i := mkInfo (exit_code i) (pgrp i) (session i) (leader i) (tty i) (p_cptr i) (p_ysptr i) (p_osptr i) (sa_handler i) (cutime i) (cstime i) (start_time i) (filp i) (pwd i) (root i) v (code_limit i) w (data_limit i) (tss i).
(** What [copy_process] sets in the copy of its parent. *)
Definition child_info now r i := mkInfo (exit_code i) (pgrp i) (session i) 0 (tty i) (p_cptr i) (p_ysptr i) (p_osptr i) (sa_handler i) 0 0 now (filp i) (pwd i) (root i) (code_base i) (code_limit i) (data_base i) (data_limit i) r.
Definition set_pptr v t := mkTask (state t) (counter t) (priority t) (signal t) (blocked t) (pid t) v (uid t) (euid t) (gid t) (egid t) (timeout t) (alarm t) (utime t) (stime t) (info t).
Definition set_blocked v t := mkTask (state t) (counter t) (priority t) (signal t) v (pid t) (p_pptr t) (uid t) (euid t) (gid t) (egid t) (timeout t) (alarm t) (utime t) (stime t) (info t).

(** ** The two views of the task table *)

Definition set_slot (nr : nat) (v : option task_struct) : M lst unit :=
  l ← gets (fun s => task (k_s s)); idx l nr ;;
  modify (fun s => set_ks (set_task (<[nr := v]> (task (k_s s))) (k_s s)) s).
Definition with_mtask (nr : nat) (v : option mtask) (s : lst) : lst :=
  let m := k_m s in
  set_km (mkMm (mem m) (mem_map m) (HIGH_MEMORY m) (swap_bitmap m) (SWAP_DEV m) (swap_page m) (blk_size m) (dir_entry m) (page_entry m)
    (<[nr := v]> (mtasks m)) (mcurrent m) (i_count m) (messages m) (exited m)) s.
Definition set_mtask (nr : nat) (v : option mtask) : M lst unit := modify (with_mtask nr v).
Definition clear_slot (nr : nat) : M lst unit := set_slot nr None ;; set_mtask nr None.

(** ** kernel/fork.c *)

Definition verify_step (fuel : nat) (l : Z * Z) : M lst (Z * Z + unit) :=
  let '(size, start) := l in
  if 0 <? size then lift (write_verify fuel start) ;; mret (inl (s32 (size - 4096), u32 (start + 4096))) else mret (inr tt).
Definition verify_area (fuel : nat) (addr size : Z) : M lst unit :=
  c ← curr; t ← tsk c;
  loop (Z.to_nat (size / 4096) + 3) (verify_step fuel)
    (s32 (size + Z.land addr 4095), u32 (Z.land addr 4294963200 + data_base (info t))).

Definition copy_mem (fuel nr : nat) : M lst Z :=
  c ← curr; t ← tsk c;
  let i := info t in
  if negb (data_base i =? code_base i) then panic "We don't support separate I&D" else
  if data_limit i <? code_limit i then panic "Bad data_limit" else
  let new := u32 (Z.of_nat nr * TASK_SIZE) in
  l ← gets (fun s => mtasks (k_m s));
  p ← idx l nr; p ← deref p;
  set_mtask nr (Some (mkMtask new (end_data p) (executable p) (library p))) ;;
  upd nr (on_info (set_bases new new)) ;;
  r ← lift (copy_page_tables fuel (data_base i) new (data_limit i));
  if negb (r =? 0) then lift (free_page_tables new (data_limit i)) ;; mret (- ENOMEM) else mret 0.

(** The registers a system call saved. *)
Record regs := mkRegs {
  r_ebp : Z; r_edi : Z; r_esi : Z; r_gs : Z; r_ebx : Z; r_ecx : Z; r_edx : Z;
  r_fs : Z; r_es : Z; r_ds : Z; r_eip : Z; r_cs : Z; r_eflags : Z; r_esp : Z; r_ss : Z }.
Definition sel (v : Z) : Z := Z.land v 65535.
Definition child_tss (nr : nat) (p : Z) (r : regs) : tss_struct :=
  mkTss (u32 (4096 + p)) (r_eip r) (r_eflags r) 0 (r_ecx r) (r_edx r) (r_ebx r) (r_esp r) (r_ebp r) (r_esi r) (r_edi r)
    (sel (r_es r)) (sel (r_cs r)) (sel (r_ss r)) (sel (r_ds r)) (sel (r_fs r)) (sel (r_gs r)) (_LDT (Z.of_nat nr)) 0 16 2147483648.
Definition child_of (t : task_struct) (pid now : Z) (r : tss_struct) : task_struct :=
  mkTask TASK_UNINTERRUPTIBLE (priority t) (priority t) 0 (blocked t) pid (p_pptr t) (uid t) (euid t) (gid t) (egid t) (timeout t) 0 0 0 (child_info now r (info t)).

(** One user more; the counts are unsigned shorts. *)
Definition bump (f : nat -> Z) (i : nat) : nat -> Z := fun j => if (j =? i)%nat then u16 (f j + 1) else f j.
Definition hold_file (f : option nat) : M lst unit :=
  match f with None => skip | Some f => modify (fun s => set_f_count (bump (f_count s) f) s) end.
Definition hold_inode (i : option nat) : M lst unit :=
  match i with
  | None => skip
  | Some i => modify (fun s => let m := k_m s in
      set_km (mkMm (mem m) (mem_map m) (HIGH_MEMORY m) (swap_bitmap m) (SWAP_DEV m) (swap_page m) (blk_size m) (dir_entry m) (page_entry m)
        (mtasks m) (mcurrent m) (bump (i_count m) i) (messages m) (exited m)) s)
  end.

(** The child becomes the youngest of its parent. *)
Definition link_child (c nr : nat) : M lst unit :=
  t ← tsk c;
  upd nr (fun p => set_pptr c (on_info (fun i => set_osptr (p_cptr (info t)) (set_ysptr None (set_cptr None i))) p)) ;;
  (match p_cptr (info t) with None => skip | Some o => upd o (on_info (set_ysptr (Some nr))) end) ;;
  upd c (on_info (set_cptr (Some nr))) ;;
  upd nr (set_state TASK_RUNNING).

Definition copy_process (fuel nr : nat) (r : regs) : M lst Z :=
  p ← lift (get_free_page fuel);
  if p =? 0 then mret (- EAGAIN) else
  c ← curr; t ← tsk c;
  lp ← gets last_pid; now ← gets (fun s => jiffies (k_s s));
  set_slot nr (Some (child_of t lp now (child_tss nr p r))) ;;
  modify (fun s => set_task_page (fun i => if (i =? nr)%nat then p else task_page s i) s) ;;
  ml ← gets (fun s => mtasks (k_m s));
  mt ← idx ml c; mt ← deref mt;
  set_mtask nr (Some mt) ;;
  m ← gets last_task_used_math;
  (if bool_decide (m = Some c) then call_ (CSaveMath nr) else skip) ;;
  e ← copy_mem fuel nr;
  if negb (e =? 0) then clear_slot nr ;; lift (free_page p) ;; mret (- EAGAIN) else
  let i := info t in
  for_range 0 NR_OPEN (fun k => f ← idx (filp i) k; hold_file f) ;;
  hold_inode (pwd i) ;; hold_inode (root i) ;; hold_inode (executable mt) ;; hold_inode (library mt) ;;
  call_ (CSetDesc nr) ;;
  link_child c nr ;;
  mret lp.

(** Is [n] a process or a process group? *)
Definition id_used (n : Z) (l : list (option task_struct)) : bool :=
  existsb (fun t => match t with Some t => (pid t =? n) || (pgrp (info t) =? n) | None => false end) l.
Definition next_pid (n : Z) : Z := let n := s32 (n + 1) in if n <? 0 then 1 else n.
Definition find_pid_step (_ : unit) : M lst (unit + unit) :=
  s ← get;
  modify (set_last_pid (next_pid (last_pid s))) ;;
  mret (if id_used (next_pid (last_pid s)) (task (k_s s)) then inl tt else inr tt).
Fixpoint free_slot (l : list (option task_struct)) (i n : nat) : option nat :=
  match n with
  | O => None
  | S n' => match l !! i with Some None => Some i | _ => free_slot l (S i) n' end
  end.
Definition find_empty_process : M lst Z :=
  loop 130 find_pid_step tt ;;
  l ← gets (fun s => task (k_s s));
  match free_slot l 1 63 with Some i => mret (Z.of_nat i) | None => mret (- EAGAIN) end.

(** ** kernel/exit.c *)

Definition release (fuel : nat) (p : option nat) : M lst unit :=
  match p with
  | None => skip
  | Some p =>
      c ← curr;
      if (p =? c)%nat then print "task releasing itself" else
      l ← gets (fun s => task (k_s s));
      match l !! p with
      | Some (Some t) =>
          if (p =? 0)%nat then panic "trying to release non-existent task" else
          clear_slot p ;;
          (match p_osptr (info t) with None => skip | Some o => upd o (on_info (set_ysptr (p_ysptr (info t)))) end) ;;
          (match p_ysptr (info t) with
           | Some y => upd y (on_info (set_osptr (p_osptr (info t))))
           | None => upd (p_pptr t) (on_info (set_cptr (p_osptr (info t))))
           end) ;;
          pages ← gets task_page;
          lift (free_page (pages p)) ;;
          lift (schedule fuel)
      | _ => panic "trying to release non-existent task"
      end
  end.

Definition bad_task_ptr (l : list (option task_struct)) (p : option nat) : bool :=
  match p with None => false | Some p => match l !! p with Some (Some _) => false | _ => true end end.
Definition warn (b : bool) (m : string) : M lst unit := if b then print m else skip.
Definition audit_task (i : nat) : M lst unit :=
  l ← gets (fun s => task (k_s s));
  x ← idx l i;
  match x with
  | None => skip
  | Some t =>
      let f := info t in
      warn (bad_task_ptr l (Some (p_pptr t))) "parent link is bad" ;;
      warn (bad_task_ptr l (p_cptr f)) "child link is bad" ;;
      warn (bad_task_ptr l (p_ysptr f)) "ys link is bad" ;;
      warn (bad_task_ptr l (p_osptr f)) "os link is bad" ;;
      warn (p_pptr t =? i)%nat "parent link points to self" ;;
      warn (bool_decide (p_cptr f = Some i)) "child link points to self" ;;
      warn (bool_decide (p_ysptr f = Some i)) "ys link points to self" ;;
      warn (bool_decide (p_osptr f = Some i)) "os link points to self" ;;
      (match p_osptr f with
       | None => skip
       | Some o =>
           u ← tsk o;
           (if negb (p_pptr t =? p_pptr u)%nat then tsk (p_pptr u) ;; print "older sibling parent is" else skip) ;;
           warn (negb (bool_decide (p_ysptr (info u) = Some i))) "older sibling has mismatched ys link"
       end) ;;
      (match p_ysptr f with
       | None => skip
       | Some y =>
           u ← tsk y;
           (if negb (p_pptr t =? p_pptr u)%nat then o ← deref (p_osptr f); u ← tsk o; tsk (p_pptr u) ;; print "younger sibling parent is" else skip) ;;
           warn (negb (bool_decide (p_osptr (info u) = Some i))) "younger sibling has mismatched os link"
       end) ;;
      match p_cptr f with
      | None => skip
      | Some k =>
          u ← tsk k;
          warn (negb (p_pptr u =? i)%nat) "youngest child has mismatched parent link" ;;
          warn (bool_decide (p_ysptr (info u) <> None)) "youngest child has non-NULL ys link"
      end
  end.
Definition audit_ptree : M lst unit := for_range 1 63 audit_task.

Definition stop_signals : Z := Z.lor (Z.lor (_S SIGSTOP) (_S SIGTSTP)) (Z.lor (_S SIGTTIN) (_S SIGTTOU)).
Definition send_sig (sig : Z) (p : option nat) (priv : Z) : M lst Z :=
  match p with
  | None => mret (- EINVAL)
  | Some p =>
      c ← curr; ct ← tsk c; t ← tsk p;
      if (priv =? 0) && negb (euid ct =? euid t) && negb (euid ct =? 0) then mret (- EPERM) else
      (if (sig =? SIGKILL) || (sig =? SIGCONT) then
         (if state t =? TASK_STOPPED then upd p (set_state TASK_RUNNING) else skip) ;;
         upd p (on_info (set_exit_code 0)) ;;
         upd p (fun t => set_signal (Z.land (signal t) (Z.lnot stop_signals)) t)
       else skip) ;;
      if (sig <? 1) || (32 <? sig) then fault else
      h ← idx (sa_handler (info t)) (Z.to_nat (sig - 1));
      if h =? 1 then mret 0 else
      (if (SIGSTOP <=? sig) && (sig <=? SIGTTOU) then upd p (fun t => set_signal (Z.land (signal t) (Z.lnot (_S SIGCONT))) t) else skip) ;;
      upd p (fun t => set_signal (Z.lor (signal t) (_S sig)) t) ;;
      mret 0
  end.

(** The task of a slot, which these loops do not check to be there. *)
Definition slot_task (i : nat) : M lst task_struct := l ← gets (fun s => task (k_s s)); x ← idx l i; deref x.
Fixpoint session_scan (i : nat) (g : Z) : M lst Z :=
  match i with
  | O => mret (-1)
  | S i' => t ← slot_task i; if pgrp (info t) =? g then mret (session (info t)) else session_scan i' g
  end.
Definition session_of_pgrp (g : Z) : M lst Z := session_scan 63 g.

Fixpoint kill_scan (i : nat) (g sig priv retval : Z) (found : bool) : M lst Z :=
  match i with
  | O => mret (if found then 0 else retval)
  | S i' =>
      t ← slot_task i;
      if pgrp (info t) =? g then
        err ← (if sig =? 0 then mret 0 else send_sig sig (Some i) priv);
        if negb (err =? 0) then kill_scan i' g sig priv err found else kill_scan i' g sig priv retval true
      else kill_scan i' g sig priv retval found
  end.
Definition kill_pg (g sig priv : Z) : M lst Z :=
  if (sig <? 1) || (32 <? sig) || (g <=? 0) then mret (- EINVAL) else kill_scan 63 g sig priv (- ESRCH) false.

Fixpoint proc_scan (i : nat) (n sig priv : Z) : M lst Z :=
  match i with
  | O => mret (- ESRCH)
  | S i' =>
      t ← slot_task i;
      if pid t =? n then (if sig =? 0 then mret 0 else send_sig sig (Some i) priv) else proc_scan i' n sig priv
  end.
Definition kill_proc (n sig priv : Z) : M lst Z :=
  if (sig <? 1) || (32 <? sig) then mret (- EINVAL) else proc_scan 63 n sig priv.

Fixpoint kill_all (i : nat) (sig retval : Z) : M lst Z :=
  match i with
  | O => mret retval
  | S i' =>
      l ← gets (fun s => task (k_s s)); x ← idx l i;
      err ← send_sig sig (match x with None => None | Some _ => Some i end) 0;
      kill_all i' sig (if negb (err =? 0) then err else retval)
  end.
Definition sys_kill (n sig : Z) : M lst Z :=
  if n =? 0 then c ← curr; t ← tsk c; kill_pg (pid t) sig 0 else
  if n =? -1 then kill_all 63 sig 0 else
  if n <? 0 then kill_pg (- n) sig 0 else kill_proc n sig 0.

Fixpoint orphan_scan (l : list (option task_struct)) (i : nat) (g : Z) : M lst bool :=
  match i with
  | O => mret true
  | S i' =>
      match l !! i with
      | Some (Some t) =>
          if negb (pgrp (info t) =? g) || (state t =? TASK_ZOMBIE) then orphan_scan l i' g else
          f ← tsk (p_pptr t);
          if pid f =? 1 then orphan_scan l i' g else
          if negb (pgrp (info f) =? g) && (session (info f) =? session (info t)) then mret false else orphan_scan l i' g
      | _ => orphan_scan l i' g
      end
  end.
Definition is_orphaned_pgrp (g : Z) : M lst bool := l ← gets (fun s => task (k_s s)); orphan_scan l 63 g.
Fixpoint stopped_scan (i : nat) (g : Z) : M lst bool :=
  match i with
  | O => mret false
  | S i' =>
      t ← slot_task i;
      if negb (pgrp (info t) =? g) then stopped_scan i' g else
      if state t =? TASK_STOPPED then mret true else stopped_scan i' g
  end.
Definition has_stopped_jobs (g : Z) : M lst bool := stopped_scan 63 g.

(** Hang up a process group that has become an orphan with stopped jobs. *)
Definition hangup_orphans (near : bool) (g : Z) : M lst unit :=
  if negb near then skip else
  o ← is_orphaned_pgrp g;
  if negb o then skip else
  h ← has_stopped_jobs g;
  if negb h then skip else kill_pg g SIGHUP 1 ;; kill_pg g SIGCONT 1 ;; skip.

(** The loop over the children of the task [c] that exits, at child [p]. *)
Definition inherit_step (c p : nat) : M lst (nat + unit) :=
  upd p (set_pptr 1%nat) ;;
  t ← tsk p;
  (if state t =? TASK_ZOMBIE then upd 1 (fun t => set_signal (Z.lor (signal t) (_S SIGCHLD)) t) else skip) ;;
  ct ← tsk c;
  hangup_orphans (negb (pgrp (info t) =? pgrp (info ct)) && (session (info t) =? session (info ct))) (pgrp (info t)) ;;
  t ← tsk p;
  match p_osptr (info t) with
  | Some o => mret (inl o)
  | None =>
      init ← tsk 1;
      upd p (on_info (set_osptr (p_cptr (info init)))) ;;
      init ← tsk 1; y ← deref (p_cptr (info init));
      upd y (on_info (set_ysptr (Some p))) ;;
      ct ← tsk c;
      upd 1 (on_info (set_cptr (p_cptr (info ct)))) ;;
      upd c (on_info (set_cptr None)) ;;
      mret (inr tt)
  end.

Fixpoint detach_tty (i : nat) (sess : Z) : M lst unit :=
  match i with
  | O => skip
  | S i' => t ← slot_task i; (if session (info t) =? sess then upd i (on_info (set_tty (-1))) else skip) ;; detach_tty i' sess
  end.
Definition TTY_TABLE (fg : nat) (n : Z) : nat := if n =? 0 then fg else if n <? 64 then Z.to_nat (n - 1) else Z.to_nat n.
Definition leave_session (t : task_struct) : M lst unit :=
  if leader (info t) =? 0 then skip else
  (if 0 <=? tty (info t) then
     s ← get;
     let n := TTY_TABLE (fg_console s) (tty (info t)) in
     (if 0 <? fst (tty_ids s n) then kill_pg (fst (tty_ids s n)) SIGHUP 1 ;; skip else skip) ;;
     modify (fun s => set_tty_ids (fun m => if (m =? n)%nat then (0, 0) else tty_ids s m) s)
   else skip) ;;
  detach_tty 63 (session (info t)).

Definition iput (i : option nat) : M lst unit := match i with None => skip | Some i => call_ (CIput i) end.
(** Files and directories are given up. *)
Definition drop_files (c : nat) : M lst unit :=
  t ← tsk c;
  for_range 0 NR_OPEN (fun k => f ← idx (filp (info t)) k; match f with None => skip | Some _ => call_ (CClose k) end) ;;
  iput (pwd (info t)) ;; iput (root (info t)) ;;
  upd c (on_info (set_dirs None None)) ;;
  l ← gets (fun s => mtasks (k_m s)); mt ← idx l c; mt ← deref mt;
  iput (executable mt) ;; iput (library mt) ;;
  set_mtask c (Some (mkMtask (start_code mt) (end_data mt) None None)).

(** Parent and children hear of the exit. *)
Definition pass_children (c : nat) : M lst unit :=
  t ← tsk c; f ← tsk (p_pptr t);
  hangup_orphans (negb (pgrp (info f) =? pgrp (info t)) && (session (info f) =? session (info t))) (pgrp (info t)) ;;
  upd (p_pptr t) (fun f => set_signal (Z.lor (signal f) (_S SIGCHLD)) f) ;;
  t ← tsk c;
  match p_cptr (info t) with None => skip | Some p => loop (S NR_TASKS) (inherit_step c) p end.

Definition do_exit (fuel : nat) (code : Z) : M lst unit :=
  c ← curr; t ← tsk c;
  lift (free_page_tables (code_base (info t)) (code_limit (info t))) ;;
  lift (free_page_tables (data_base (info t)) (data_limit (info t))) ;;
  drop_files c ;;
  upd c (fun t => on_info (set_exit_code code) (set_state TASK_ZOMBIE t)) ;;
  pass_children c ;;
  t ← tsk c;
  leave_session t ;;
  m ← gets last_task_used_math;
  (if bool_decide (m = Some c) then modify (set_math None) else skip) ;;
  audit_ptree ;;
  lift (schedule fuel).
Definition sys_exit (fuel : nat) (error_code : Z) : M lst unit := do_exit fuel (Z.shiftl (Z.land error_code 255) 8).

(** One child of [sys_waitpid]; the loop state is the child and [flag], the
    result the process id to return, if any. *)
Definition wanted (n : Z) (ct t : task_struct) : bool :=
  if 0 <? n then pid t =? n
  else if n =? 0 then pgrp (info t) =? pgrp (info ct)
  else if negb (n =? -1) then pgrp (info t) =? - n else true.
Definition wait_step (fuel : nat) (n stat_addr options : Z) (l : option nat * bool) : M lst (option nat * bool + option Z * bool) :=
  let '(p, flag) := l in
  match p with
  | None => mret (inr (None, flag))
  | Some p =>
      c ← curr; ct ← tsk c; t ← tsk p;
      if negb (wanted n ct t) then mret (inl (p_osptr (info t), flag)) else
      if state t =? TASK_STOPPED then
        if (Z.land options WUNTRACED =? 0) || (exit_code (info t) =? 0) then mret (inl (p_osptr (info t), flag)) else
        call_ (CPutLong (Z.lor (s32 (Z.shiftl (exit_code (info t)) 8)) 127) stat_addr) ;;
        upd p (on_info (set_exit_code 0)) ;;
        mret (inr (Some (pid t), flag))
      else if state t =? TASK_ZOMBIE then
        upd c (on_info (set_ctimes (s32 (cutime (info ct) + utime t)) (s32 (cstime (info ct) + stime t)))) ;;
        call_ (CPutLong (exit_code (info t)) stat_addr) ;;
        release fuel (Some p) ;;
        audit_ptree ;;
        mret (inr (Some (pid t), flag))
      else mret (inl (p_osptr (info t), true))
  end.
(** From the label [repeat] on: what the call returns, or, once [schedule]
    has returned, the old mask. *)
Definition wait_pass (fuel : nat) (n stat_addr options : Z) : M lst (Z + Z) :=
  c ← curr; ct ← tsk c;
  '(r, flag) ← loop (S NR_TASKS) (wait_step fuel n stat_addr options) (p_cptr (info ct), false);
  match r with Some r => mret (inl r) | None =>
  if negb flag then mret (inl (- ECHILD)) else
  if negb (Z.land options WNOHANG =? 0) then mret (inl 0) else
  ct ← tsk c;
  upd c (set_state TASK_INTERRUPTIBLE) ;;
  upd c (set_blocked (Z.land (blocked ct) (Z.lnot (_S SIGCHLD)))) ;;
  lift (schedule fuel) ;;
  mret (inr (blocked ct))
  end.
(** What follows once the task runs again: an interrupted call, or [repeat]. *)
Definition wait_resume (oldblocked : Z) : M lst (option Z) :=
  c ← curr;
  upd c (set_blocked oldblocked) ;;
  ct ← tsk c;
  if negb (Z.land (signal ct) (Z.lnot (Z.lor (blocked ct) (_S SIGCHLD))) =? 0) then mret (Some (- ERESTARTSYS)) else mret None.
Definition sys_waitpid (fuel : nat) (n stat_addr options : Z) : M lst Z :=
  verify_area fuel stat_addr 4 ;;
  loop fuel (fun _ : unit =>
    r ← wait_pass fuel n stat_addr options;
    match r with
    | inl v => mret (inr v)
    | inr old => x ← wait_resume old; mret (match x with Some v => inr v | None => inl tt end)
    end) tt.
