(* ===== verification/LinuxTree.v ===== *)
(** * Linux 0.12: the tree of processes

    The links [p_pptr], [p_cptr], [p_ysptr], [p_osptr] of the tasks represent
    a tree in which each process has a list of children, youngest first.  The
    tree is defined on the links alone; [fork], [exit] and [release] are the
    expected operations on the lists of children. *)

From S2P Require Import Prelude LinuxSched LinuxProc.

(** ** Links *)

Record links := mkLinks { lp : nat; lc : option nat; ly : option nat; lo : option nat }.
Definition links_of (t : task_struct) : links := mkLinks (p_pptr t) (p_cptr (info t)) (p_ysptr (info t)) (p_osptr (info t)).
Definition view (l : list (option task_struct)) (i : nat) : option links :=
  match l !! i with Some (Some t) => Some (links_of t) | _ => None end.

(** The sibling before position [j]. *)
Definition before (l : list nat) (j : nat) : option nat := match j with O => None | S j' => l !! j' end.

(** [depth] witnesses that the parents form no circle. *)
Record tree (v : nat -> option links) (kids : nat -> list nat) (depth : nat -> nat) : Prop := {
  tr_kid : forall i j c, kids i !! j = Some c ->
    exists k, v c = Some k /\ lp k = i /\ lo k = kids i !! S j /\ ly k = before (kids i) j /\ (depth i < depth c)%nat;
  tr_par : forall i k, v i = Some k -> lc k = kids i !! 0%nat /\ (i <> 0%nat -> i ∈ kids (lp k));
  tr_some : forall i, kids i <> [] -> is_Some (v i);
  tr_nodup : forall i, NoDup (kids i);
  tr_zero : forall i, 0%nat ∉ kids i;
  tr_init : kids 0%nat = [1%nat] }.

Lemma tree_ext v v' kids depth : (forall i, v' i = v i) -> tree v kids depth -> tree v' kids depth.
Proof.
  intros E [T1 T2 T3 T4 T5 T6]. split; try done.
  - intros i j c H. rewrite E. by apply T1.
  - intros i k. rewrite E. apply T2.
  - intros i. rewrite E. apply T3.
Qed.

Section Tree.
Context (v : nat -> option links) (kids : nat -> list nat) (depth : nat -> nat) (Ht : tree v kids depth).

Lemma kid_parent i c : c ∈ kids i -> exists k, v c = Some k /\ lp k = i /\ (depth i < depth c)%nat.
Proof. intros [j Hj]%list_elem_of_lookup. destruct (tr_kid _ _ _ Ht i j c Hj) as (k & H1 & H2 & _ & _ & H3). eauto. Qed.
Lemma kid_unique i i' c : c ∈ kids i -> c ∈ kids i' -> i = i'.
Proof. intros (k & H1 & <- & _)%kid_parent (k' & H1' & <- & _)%kid_parent. congruence. Qed.
Lemma kid_not_self i : i ∉ kids i.
Proof. intros (k & _ & _ & H)%kid_parent. lia. Qed.
Lemma init_live : exists k, v 1%nat = Some k /\ lp k = 0%nat.
Proof. destruct (kid_parent 0 1) as (k & H1 & H2 & _); [rewrite (tr_init _ _ _ Ht); left|eauto]. Qed.

(** Every process but the first two descends from init. *)
Lemma descends i : is_Some (v i) -> i <> 0%nat -> i <> 1%nat -> kids 1%nat <> [] /\ (depth 1 < depth i)%nat.
Proof.
  remember (depth i) as d eqn:Ed. revert i Ed. induction (lt_wf d) as [d _ IH]. intros i -> [k Hk] H0 H1.
  destruct (tr_par _ _ _ Ht i k Hk) as [_ Hp]. specialize (Hp H0). destruct (kid_parent _ _ Hp) as (k' & E & _ & Hd).
  destruct (decide (lp k = 0%nat)) as [E0|Hn0].
  { rewrite E0, (tr_init _ _ _ Ht) in Hp. by apply list_elem_of_singleton in Hp. }
  destruct (decide (lp k = 1%nat)) as [E1|Hn1].
  { rewrite E1 in *. split; [|done]. intros E'. rewrite E' in Hp. by apply not_elem_of_nil in Hp. }
  assert (is_Some (v (lp k))) as Hs by (apply (tr_some _ _ _ Ht); intros E'; rewrite E' in Hp; by apply not_elem_of_nil in Hp).
  destruct (IH _ Hd (lp k) eq_refl Hs Hn0 Hn1). split; [done|lia].
Qed.

(** Where [c] stands among the children of its parent. *)
Lemma position i k : v i = Some k -> i <> 0%nat -> exists j, kids (lp k) !! j = Some i /\ lo k = kids (lp k) !! S j /\ ly k = before (kids (lp k)) j.
Proof.
  intros Hk H0. destruct (tr_par _ _ _ Ht i k Hk) as [_ Hp]. specialize (Hp H0). apply list_elem_of_lookup in Hp as [j Hj]. exists j.
  destruct (tr_kid _ _ _ Ht _ j i Hj) as (k' & E & _ & H1 & H2 & _). rewrite Hk in E. by injection E as <-.
Qed.
End Tree.

(** ** fork *)

Definition set_kids (i : nat) (l : list nat) (kids : nat -> list nat) : nat -> list nat := fun j => if decide (j = i) then l else kids j.

Definition fork_view (c nr : nat) (kc : links) (v : nat -> option links) (i : nat) : option links :=
  if decide (i = nr) then Some (mkLinks c None None (lc kc))
  else if decide (i = c) then Some (mkLinks (lp kc) (Some nr) (ly kc) (lo kc))
  else if decide (lc kc = Some i) then (fun k => mkLinks (lp k) (lc k) (Some nr) (lo k)) <$> v i
  else v i.

Lemma fork_tree v kids depth c nr kc : tree v kids depth -> v c = Some kc -> c <> 0%nat -> v nr = None -> nr <> 0%nat ->
  tree (fork_view c nr kc v) (set_kids c (nr :: kids c) kids) (fun i => if decide (i = nr) then S (depth c) else depth i).
Proof.
  intros Ht Hc Hc0 Hnr Hnr0. pose proof (tr_par _ _ _ Ht c kc Hc) as [Hlc _].
  assert (nr <> c) as Hne by congruence.
  assert (forall i, nr ∉ kids i) as Hnk by (intros i Hi; destruct (kid_parent _ _ _ Ht i nr Hi) as (k & E & _); congruence).
  assert (kids nr = []) as Hnil by (destruct (kids nr) eqn:E; [done|]; destruct (tr_some _ _ _ Ht nr) as [k Hk]; [by rewrite E|congruence]).
  assert (forall i k, v i = Some k -> i <> nr -> exists k', fork_view c nr kc v i = Some k' /\ lp k' = lp k /\ lo k' = lo k /\
     ly k' = (if decide (kids c !! 0%nat = Some i) then Some nr else ly k) /\ (i <> c -> lc k' = lc k)) as Hold.
  { intros i k Hk Hi. unfold fork_view. rewrite decide_False by done. rewrite Hlc. destruct (decide (i = c)) as [->|Hic].
    - rewrite Hc in Hk. injection Hk as <-. eexists. split_and!; [done|done|done| |done]. rewrite decide_False; [done|].
      intros E. apply (kid_not_self _ _ _ Ht c). apply list_elem_of_lookup. by exists 0%nat.
    - case_decide; rewrite Hk; eexists; split_and!; done. }
  split.
  - intros i j x. unfold set_kids. destruct (decide (i = c)) as [->|Hic].
    + destruct j as [|j]; cbn [lookup list_lookup before].
      * intros [= <-]. eexists. unfold fork_view. rewrite decide_True by done. split_and!; [done|done|done|done|]. rewrite decide_False by done. rewrite decide_True by done. lia.
      * intros Hj. destruct (tr_kid _ _ _ Ht c j x Hj) as (k & E & E1 & E2 & E3 & Hd).
        assert (x <> nr) as Hx by (intros ->; apply (Hnk c), list_elem_of_lookup; by exists j).
        destruct (Hold x k E Hx) as (k' & F & F1 & F2 & F3 & _). exists k'. split_and!; [done|by rewrite F1|by rewrite F2| |].
        -- rewrite F3. destruct j as [|j]; [by rewrite decide_True|]. rewrite decide_False; [done|]. intros E0. assert (0 = S j)%nat; [|done].
           eapply NoDup_lookup; [apply (tr_nodup _ _ _ Ht c)|exact E0|exact Hj].
        -- rewrite (decide_False (P := x = nr)) by done. by rewrite decide_False.
    + intros Hj. destruct (tr_kid _ _ _ Ht i j x Hj) as (k & E & E1 & E2 & E3 & Hd).
      assert (x <> nr) as Hx by (intros ->; apply (Hnk i), list_elem_of_lookup; by exists j).
      assert (i <> nr) as Hin by (intros ->; rewrite Hnil in Hj; done).
      destruct (Hold x k E Hx) as (k' & F & F1 & F2 & F3 & _). exists k'. split_and!; [done|by rewrite F1|by rewrite F2| |by rewrite !decide_False].
      rewrite F3, decide_False; [done|]. intros E0. apply Hic. symmetry. apply (kid_unique _ _ _ Ht c i x); apply list_elem_of_lookup; eauto.
  - intros i k Hk. destruct (decide (i = nr)) as [->|Hin].
    + unfold fork_view in Hk. rewrite decide_True in Hk by done. injection Hk as <-. cbn. unfold set_kids. rewrite decide_False by done. rewrite Hnil.
      split; [done|]. intros _. rewrite decide_True by done. left.
    + destruct (v i) as [k0|] eqn:E; [|unfold fork_view in Hk; rewrite decide_False in Hk by done; repeat case_decide; subst; try congruence; by rewrite E in Hk].
      destruct (Hold i k0 E Hin) as (k' & F & F1 & F2 & F3 & F4). rewrite Hk in F. injection F as <-. destruct (tr_par _ _ _ Ht i k0 E) as [P1 P2]. split.
      * unfold set_kids. destruct (decide (i = c)) as [->|Hic]; [|rewrite F4 by done; done].
        unfold fork_view in Hk. rewrite decide_False, decide_True in Hk by done. by injection Hk as <-.
      * intros Hi0. rewrite F1. unfold set_kids. destruct (decide (lp k0 = c)) as [D|]; [right; rewrite <- D; auto|auto].
  - intros i. unfold set_kids. case_decide as D; [intros _; subst i; unfold fork_view; rewrite decide_False, decide_True by done; by eexists|].
    intros Hi. destruct (tr_some _ _ _ Ht i Hi) as [k Hk]. destruct (decide (i = nr)) as [->|Hin]; [congruence|].
    destruct (Hold i k Hk Hin) as (k' & F & _). by exists k'.
  - intros i. unfold set_kids. case_decide; [|apply (tr_nodup _ _ _ Ht)]. constructor; [apply Hnk|apply (tr_nodup _ _ _ Ht)].
  - intros i. unfold set_kids. case_decide; [|apply (tr_zero _ _ _ Ht)]. rewrite elem_of_cons. intros [?|?]; [by subst|by eapply (tr_zero _ _ _ Ht)].
  - unfold set_kids. rewrite decide_False by done. apply (tr_init _ _ _ Ht).
Qed.

(** ** exit *)

Definition exit_view (c z h : nat) (ks : list nat) (v : nat -> option links) (i : nat) : option links :=
  (fun k => mkLinks (if decide (i ∈ ks) then 1%nat else lp k)
    (if decide (i = 1%nat) then ks !! 0%nat else if decide (i = c) then None else lc k)
    (if decide (i = h) then Some z else ly k) (if decide (i = z) then Some h else lo k)) <$> v i.

Lemma exit_tree v kids depth c z h : tree v kids depth -> is_Some (v c) -> c <> 0%nat -> c <> 1%nat -> last (kids c) = Some z -> kids 1%nat !! 0%nat = Some h ->
  tree (exit_view c z h (kids c) v) (set_kids 1 (kids c ++ kids 1%nat) (set_kids c [] kids)) depth.
Proof.
  intros Ht Hc Hc0 Hc1 Hz Hh. set (ks := kids c) in *.
  destruct (descends _ _ _ Ht c Hc Hc0 Hc1) as [Hne1 Hdc].
  assert (forall x, x ∈ kids 1%nat -> x ∉ ks) as Hdisj by (intros x H1 H2; apply Hc1; by eapply (kid_unique _ _ _ Ht)).
  assert (h ∈ kids 1%nat) as Hhk by (apply list_elem_of_lookup; by exists 0%nat).
  assert (z ∈ ks) as Hzk by (apply last_Some_elem_of in Hz; done).
  rewrite last_lookup in Hz.
  assert (forall j x, ks !! j = Some x -> x = z <-> j = pred (length ks)) as Hlast.
  { intros j x Hj. split; [intros ->; by eapply NoDup_lookup; [apply (tr_nodup _ _ _ Ht c)| |]|]. intros ->. congruence. }
  assert (forall i k, v i = Some k -> exists k', exit_view c z h ks v i = Some k' /\ lp k' = (if decide (i ∈ ks) then 1%nat else lp k) /\
    lc k' = (if decide (i = 1%nat) then ks !! 0%nat else if decide (i = c) then None else lc k) /\
    ly k' = (if decide (i = h) then Some z else ly k) /\ lo k' = (if decide (i = z) then Some h else lo k)) as Hold.
  { intros i k Hk. unfold exit_view. rewrite Hk. eexists. by split_and!. }
  split.
  - intros i j x. unfold set_kids at 1. destruct (decide (i = 1%nat)) as [->|Hi1].
    + intros [Hj|[Hlen Hj]]%lookup_app_Some.
      * destruct (tr_kid _ _ _ Ht c j x Hj) as (k & E & E1 & E2 & E3 & Hd). destruct (Hold x k E) as (k' & F & F1 & F2 & F3 & F4).
        assert (x ∈ ks) as Hx by (apply list_elem_of_lookup; by exists j). pose proof (lookup_lt_Some _ _ _ Hj) as Hlt.
        unfold set_kids. rewrite decide_True by done. exists k'. split_and!; [done|by rewrite F1, decide_True| | |lia].
        -- rewrite F4. destruct (decide (x = z)) as [D|D].
           ++ apply (Hlast j x Hj) in D. rewrite lookup_app_r by (subst j; lia). by replace (S j - length ks)%nat with 0%nat by (subst j; lia).
           ++ rewrite E2. rewrite lookup_app_l; [done|]. assert (j <> pred (length ks)) by (intros D'; apply D, (Hlast j x Hj); done). lia.
        -- rewrite F3, decide_False by (intros ->; by apply (Hdisj h)). rewrite E3. destruct j as [|j]; [done|]. cbn [before]. rewrite lookup_app_l; [done|lia].
      * destruct (tr_kid _ _ _ Ht 1 _ x Hj) as (k & E & E1 & E2 & E3 & Hd). destruct (Hold x k E) as (k' & F & F1 & F2 & F3 & F4).
        assert (x ∈ kids 1%nat) as Hx by (apply list_elem_of_lookup; by eexists).
        unfold set_kids. rewrite decide_True by done. exists k'. split_and!; [done|rewrite F1, decide_False by (by apply Hdisj); done| | |lia].
        -- rewrite F4, decide_False by (intros ->; by apply (Hdisj z)). rewrite E2, lookup_app_r by lia. f_equal. lia.
        -- rewrite F3. destruct (decide (x = h)) as [D|D].
           ++ subst x. assert (j - length ks = 0)%nat as Ej by (eapply NoDup_lookup; [apply (tr_nodup _ _ _ Ht 1)|exact Hj|exact Hh]).
              assert (j = length ks) as -> by lia. assert (length ks <> 0)%nat by (destruct ks; [by apply not_elem_of_nil in Hzk|done]).
              destruct (length ks) as [|m] eqn:El; [done|]. cbn [before]. rewrite lookup_app_l by (rewrite El; lia). exact (eq_sym Hz).
           ++ rewrite E3. destruct (j - length ks)%nat as [|m] eqn:Em; [destruct D; rewrite Hh in Hj; by injection Hj|].
              destruct j as [|j]; [lia|]. cbn [before]. rewrite lookup_app_r by lia. f_equal. lia.
    + unfold set_kids at 1. destruct (decide (i = c)) as [->|Hic]; [done|]. intros Hj.
      destruct (tr_kid _ _ _ Ht i j x Hj) as (k & E & E1 & E2 & E3 & Hd). destruct (Hold x k E) as (k' & F & F1 & F2 & F3 & F4).
      assert (x ∈ kids i) as Hx by (apply list_elem_of_lookup; by exists j).
      assert (x ∉ ks) as Hxk by (intros Hx'; apply Hic; by eapply (kid_unique _ _ _ Ht)).
      unfold set_kids. rewrite !(decide_False (P := i = _)) by done. exists k'. split_and!; [done|rewrite F1, decide_False by done; done| | |done].
      * rewrite F4, decide_False by (by intros ->). done.
      * rewrite F3, decide_False; [done|]. intros ->. apply Hi1. by eapply (kid_unique _ _ _ Ht).
  - intros i k' Hk'. destruct (v i) as [k|] eqn:E; [|unfold exit_view in Hk'; by rewrite E in Hk'].
    destruct (Hold i k E) as (k2 & F & F1 & F2 & F3 & F4). rewrite Hk' in F. injection F as <-. destruct (tr_par _ _ _ Ht i k E) as [P1 P2]. split.
    + rewrite F2. unfold set_kids. destruct (decide (i = 1%nat)) as [->|]; [|destruct (decide (i = c)); done].
      destruct ks; [by apply not_elem_of_nil in Hzk|done].
    + intros Hi0. rewrite F1. unfold set_kids. destruct (decide (i ∈ ks)) as [Hik|Hik]; [rewrite decide_True by done; apply elem_of_app; by left|].
      specialize (P2 Hi0). destruct (decide (lp k = 1%nat)) as [El|]; [apply elem_of_app; right; by rewrite <- El|].
      destruct (decide (lp k = c)) as [El|]; [rewrite El in P2; done|done].
  - intros i Hi. assert (is_Some (v i)) as [k Hk].
    { unfold set_kids in Hi. destruct (decide (i = 1%nat)) as [->|]; [destruct (init_live _ _ _ Ht) as (k & Hk & _); by exists k|].
      destruct (decide (i = c)); [done|by apply (tr_some _ _ _ Ht)]. }
    destruct (Hold i k Hk) as (k' & F & _). by exists k'.
  - intros i. unfold set_kids. case_decide; [|case_decide; [apply NoDup_nil_2|apply (tr_nodup _ _ _ Ht)]].
    apply NoDup_app. split_and!; [apply (tr_nodup _ _ _ Ht)| |apply (tr_nodup _ _ _ Ht)]. intros x H1 H2. by apply (Hdisj x).
  - intros i. unfold set_kids. case_decide; [|case_decide; [apply not_elem_of_nil|apply (tr_zero _ _ _ Ht)]].
    rewrite elem_of_app. intros [?|?]; by eapply (tr_zero _ _ _ Ht).
  - unfold set_kids. rewrite !decide_False by done. apply (tr_init _ _ _ Ht).
Qed.

(** ** release *)

Definition release_view (p : nat) (kp : links) (v : nat -> option links) (i : nat) : option links :=
  if decide (i = p) then None else
  (fun k => mkLinks (lp k) (if decide (i = lp kp /\ ly kp = None) then lo kp else lc k)
    (if decide (lo kp = Some i) then ly kp else ly k) (if decide (ly kp = Some i) then lo kp else lo k)) <$> v i.

Lemma release_tree v kids depth p kp l1 l2 : tree v kids depth -> v p = Some kp -> p <> 0%nat -> p <> 1%nat -> kids p = [] -> kids (lp kp) = l1 ++ p :: l2 ->
  tree (release_view p kp v) (set_kids (lp kp) (l1 ++ l2) kids) depth.
Proof.
  intros Ht Hp Hp0 Hp1 Hnil Hsplit. set (i0 := lp kp) in *.
  assert (kids i0 !! length l1 = Some p) as Hpos by (rewrite Hsplit, lookup_app_r, Nat.sub_diag by lia; done).
  destruct (tr_kid _ _ _ Ht i0 _ p Hpos) as (k0 & E0 & _ & Elo & Ely & Hdp). rewrite Hp in E0. injection E0 as <-.
  assert (lo kp = l2 !! 0%nat) as Elo' by (rewrite Elo, Hsplit, lookup_app_r by lia; by replace (S (length l1) - length l1)%nat with 1%nat by lia).
  assert (ly kp = last l1) as Ely'.
  { rewrite Ely, last_lookup, Hsplit. destruct (length l1) as [|m] eqn:El; [by destruct l1|]. cbn [before pred]. rewrite lookup_app_l by lia. done. }
  pose proof (tr_nodup _ _ _ Ht i0) as Hnd. rewrite Hsplit in Hnd. apply NoDup_app in Hnd as (N1 & N2 & N3). apply NoDup_cons in N3 as [N3 N4].
  assert (p ∉ l1) as Hp1' by (intros H; apply (N2 p H); left).
  assert (i0 <> p) as Hip by (intros E; apply (kid_not_self _ _ _ Ht i0); rewrite E at 1; apply list_elem_of_lookup; by eexists).
  assert (forall x, x ∈ kids i0 -> x <> p -> x ∈ l1 ++ l2) as Hin by (intros x; rewrite Hsplit, !elem_of_app, elem_of_cons; naive_solver).
  assert (forall i k, v i = Some k -> i <> p -> exists k', release_view p kp v i = Some k' /\ lp k' = lp k /\
    lc k' = (if decide (i = i0 /\ ly kp = None) then lo kp else lc k) /\
    ly k' = (if decide (lo kp = Some i) then ly kp else ly k) /\ lo k' = (if decide (ly kp = Some i) then lo kp else lo k)) as Hold.
  { intros i k Hk Hi. unfold release_view. rewrite decide_False, Hk by done. eexists. by split_and!. }
  assert (forall x, lo kp = Some x -> x ∈ l2) as Ho by (intros x Hx; apply list_elem_of_lookup; exists 0%nat; by rewrite <- Elo').
  assert (forall x, ly kp = Some x -> x ∈ l1) as Hy by (intros x Hx; rewrite Ely' in Hx; by apply last_Some_elem_of in Hx).
  split.
  - intros i j x. unfold set_kids at 1. destruct (decide (i = i0)) as [->|Hi].
    + intros [Hj|[Hlen Hj]]%lookup_app_Some.
      * pose proof (lookup_lt_Some _ _ _ Hj) as Hlt. assert (x ∈ l1) as Hx by (apply list_elem_of_lookup; by exists j).
        destruct (tr_kid _ _ _ Ht i0 j x) as (k & E & E1 & E2 & E3 & Hd); [by rewrite Hsplit, lookup_app_l|].
        destruct (Hold x k E) as (k' & F & F1 & F2 & F3 & F4); [by intros ->|]. unfold set_kids. rewrite decide_True by done.
        exists k'. split_and!; [done|by rewrite F1| | |done].
        -- rewrite F4. destruct (decide (ly kp = Some x)) as [D|D].
           ++ rewrite Ely', last_lookup in D. assert (j = pred (length l1)) as Ej by (eapply NoDup_lookup; [exact N1|exact Hj|exact D]).
              rewrite Elo', lookup_app_r by lia. by replace (S j - length l1)%nat with 0%nat by lia.
           ++ rewrite E2, Hsplit. assert (S j <> length l1) as Hne.
              { intros E'. apply D. rewrite Ely', last_lookup, <- E'. done. }
              by rewrite !lookup_app_l by lia.
        -- rewrite F3, decide_False by (intros Hx'; apply (N2 x Hx); right; by apply Ho). rewrite E3, Hsplit. destruct j as [|j]; [done|]. cbn [before]. by rewrite !lookup_app_l by lia.
      * assert (x ∈ l2) as Hx by (apply list_elem_of_lookup; by eexists).
        destruct (tr_kid _ _ _ Ht i0 (S j) x) as (k & E & E1 & E2 & E3 & Hd).
        { rewrite Hsplit, lookup_app_r by lia. by replace (S j - length l1)%nat with (S (j - length l1)) by lia. }
        destruct (Hold x k E) as (k' & F & F1 & F2 & F3 & F4); [by intros ->|]. unfold set_kids. rewrite decide_True by done.
        exists k'. split_and!; [done|by rewrite F1| | |done].
        -- rewrite F4, decide_False by (intros Hx'; apply (N2 x (Hy x Hx')); by right). rewrite E2, Hsplit, !lookup_app_r by lia.
           by replace (S (S j) - length l1)%nat with (S (S j - length l1)) by lia.
        -- rewrite F3. destruct (decide (lo kp = Some x)) as [D|D].
           ++ rewrite Elo' in D. assert (j - length l1 = 0)%nat as Ej by (eapply NoDup_lookup; [exact N4|exact Hj|exact D]).
              rewrite Ely', last_lookup. assert (j = length l1) as -> by lia. destruct (length l1) as [|m] eqn:El; [by destruct l1|]. cbn [before pred]. rewrite lookup_app_l by lia. done.
           ++ rewrite E3. cbn [before]. rewrite Hsplit, lookup_app_r by lia. destruct (j - length l1)%nat as [|m] eqn:Em; [destruct D; by rewrite Elo'|].
              destruct j as [|j]; [lia|]. cbn [before]. rewrite lookup_app_r by lia. cbn. f_equal. lia.
    + intros Hj. assert (x ∈ kids i) as Hx by (apply list_elem_of_lookup; by exists j).
      destruct (tr_kid _ _ _ Ht i j x Hj) as (k & E & E1 & E2 & E3 & Hd).
      assert (x ∉ kids i0) as Hx0 by (intros Hx'; apply Hi; by eapply (kid_unique _ _ _ Ht)).
      assert (x ∉ l1 /\ x ∉ l2 /\ x <> p) as (X1 & X2 & X3) by (rewrite Hsplit, elem_of_app, elem_of_cons in Hx0; naive_solver).
      destruct (Hold x k E X3) as (k' & F & F1 & F2 & F3 & F4). unfold set_kids. rewrite (decide_False (P := i = i0)) by done.
      exists k'. split_and!; [done|by rewrite F1|rewrite F4, decide_False by (intros ?; by apply X1, Hy); done|rewrite F3, decide_False by (intros ?; by apply X2, Ho); done|done].
  - intros i k' Hk'. destruct (decide (i = p)) as [->|Hip']; [unfold release_view in Hk'; by rewrite decide_True in Hk'|].
    destruct (v i) as [k|] eqn:E; [|unfold release_view in Hk'; rewrite decide_False, E in Hk'; done].
    destruct (Hold i k E Hip') as (k2 & F & F1 & F2 & F3 & F4). rewrite Hk' in F. injection F as <-. destruct (tr_par _ _ _ Ht i k E) as [P1 P2]. split.
    + rewrite F2. unfold set_kids. destruct (decide (i = i0)) as [->|Hi].
      * rewrite P1, Hsplit. destruct l1 as [|y l1]; cbn in *; [rewrite Ely', decide_True by done; done|]. rewrite decide_False; [done|].
        intros [_ D]. rewrite Ely' in D. by apply last_None in D.
      * rewrite decide_False by naive_solver. done.
    + intros Hi0. rewrite F1. unfold set_kids. specialize (P2 Hi0). destruct (decide (lp k = i0)) as [D|]; [|done]. apply Hin; [by rewrite <- D|done].
  - intros i Hi. assert (is_Some (v i) /\ i <> p) as [[k Hk] Hn].
    { unfold set_kids in Hi. destruct (decide (i = i0)) as [->|]; [split; [|done]; apply (tr_some _ _ _ Ht); rewrite Hsplit; by destruct l1|].
      split; [by apply (tr_some _ _ _ Ht)|]. by intros ->. }
    destruct (Hold i k Hk Hn) as (k' & F & _). by exists k'.
  - intros i. unfold set_kids. case_decide; [|apply (tr_nodup _ _ _ Ht)]. apply NoDup_app. split_and!; [done| |done]. intros x H1 H2. apply (N2 x H1). by right.
  - intros i. unfold set_kids. case_decide; [|apply (tr_zero _ _ _ Ht)]. intros H0. apply (tr_zero _ _ _ Ht i0). rewrite Hsplit, elem_of_app, elem_of_cons.
    apply elem_of_app in H0. naive_solver.
  - unfold set_kids. case_decide as D; [|apply (tr_init _ _ _ Ht)]. pose proof (tr_init _ _ _ Ht) as Hi. rewrite D, Hsplit in Hi.
    destruct l1 as [|y l1]; cbn in Hi; injection Hi as E1 E2; [congruence|by destruct l1].
Qed.
