(* ===== verification/LinuxLife.v ===== *)
(** * Linux 0.12: birth and death of processes

    The routines of [LinuxProc] run on the tree of [LinuxTree] and on the
    reference counts of [LinuxCow]. *)

From S2P Require Import Prelude LinuxSched LinuxMm LinuxProc LinuxTree.

(** ** Running on a task table *)

Definition with_tasks (l : list (option task_struct)) (s : lst) : lst := set_ks (set_task l (k_s s)) s.
Notation tasks_of s := (task (k_s s)).

Lemma with_tasks_id s : with_tasks (tasks_of s) s = s.
Proof. by destruct s as [[] ? ? ? ? ? ? ? ?]. Qed.

Lemma tsk_ok i t s : tasks_of s !! i = Some (Some t) -> tsk i s = Ok t s.
Proof.
  intros H. unfold tsk. erewrite lift_ok; [|unfold get_task; erewrite bind_ok by reflexivity; erewrite bind_ok by (unfold idx, lget; cbn; by rewrite H); reflexivity].
  by destruct s as [[] ? ? ? ? ? ? ? ?].
Qed.
Lemma upd_ok i t f s : tasks_of s !! i = Some (Some t) -> upd i f s = Ok tt (with_tasks (<[i := Some (f t)]> (tasks_of s)) s).
Proof.
  intros H. unfold upd. erewrite lift_ok; [reflexivity|]. unfold upd_task. erewrite bind_ok; [reflexivity|]. unfold get_task.
  erewrite bind_ok by reflexivity. erewrite bind_ok by (unfold idx, lget; cbn; by rewrite H). reflexivity.
Qed.
Lemma set_slot_ok i x v s : tasks_of s !! i = Some x -> set_slot i v s = Ok tt (with_tasks (<[i := v]> (tasks_of s)) s).
Proof. intros H. unfold set_slot. erewrite bind_ok by reflexivity. erewrite bind_ok by (unfold idx; by rewrite H). reflexivity. Qed.
Lemma clear_slot_ok i x s : tasks_of s !! i = Some x -> clear_slot i s = Ok tt (with_tasks (<[i := None]> (tasks_of s)) (with_mtask i None s)).
Proof. intros H. unfold clear_slot. by rewrite (bind_ok _ _ _ _ _ (set_slot_ok i x None s H)). Qed.
Lemma bind_upd {A} i t f s (k : unit -> M lst A) : tasks_of s !! i = Some (Some t) ->
  (upd i f ≫= k) s = k tt (with_tasks (<[i := Some (f t)]> (tasks_of s)) s).
Proof. intros H. by rewrite (bind_ok _ _ _ _ _ (upd_ok i t f s H)). Qed.
Lemma bind_tsk {A} i t s (k : task_struct -> M lst A) : tasks_of s !! i = Some (Some t) -> (tsk i ≫= k) s = k t s.
Proof. intros H. by rewrite (bind_ok _ _ _ _ _ (tsk_ok i t s H)). Qed.

(** What of a task the links are not: the scheduler's part, and identity. *)
Definition attrs (t : task_struct) : Z * Z * Z * Z * Z * (Z * Z * Z) * (Z * Z) :=
  (counter t, priority t, pid t, state t, exit_code (info t), (pgrp (info t), session (info t), leader (info t)), (cutime (info t), cstime (info t))).
Definition sview (l : list (option task_struct)) (i : nat) : option _ :=
  match l !! i with Some (Some t) => Some (attrs t) | _ => None end.

Lemma view_insert l i t j : (i < length l)%nat -> view (<[i := Some t]> l) j = if decide (j = i) then Some (links_of t) else view l j.
Proof. intros Hi. unfold view. case_decide as D; [subst; by rewrite list_lookup_insert_eq|by rewrite list_lookup_insert_ne]. Qed.
Lemma sview_insert l i t j : (i < length l)%nat -> sview (<[i := Some t]> l) j = if decide (j = i) then Some (attrs t) else sview l j.
Proof. intros Hi. unfold sview. case_decide as D; [subst; by rewrite list_lookup_insert_eq|by rewrite list_lookup_insert_ne]. Qed.
Lemma view_lookup l i k : view l i = Some k <-> exists t, l !! i = Some (Some t) /\ links_of t = k.
Proof.
  unfold view. split; [|intros (t & -> & <-); done]. destruct (l !! i) as [[t|]|]; try done. intros [= <-]. by exists t.
Qed.
Lemma sview_same l l' i t : sview l' i = sview l i -> l !! i = Some (Some t) -> exists t', l' !! i = Some (Some t') /\ attrs t' = attrs t.
Proof. unfold sview. intros E H. rewrite H in E. destruct (l' !! i) as [[t'|]|]; try done. exists t'. split; [done|congruence]. Qed.

Lemma sched_ok_sview s l : sched_ok s -> length l = length (task s) -> (forall i, sview l i = sview (task s) i) -> sched_ok (set_task l s).
Proof.
  intros [H1 H2] Hl Hs. split; cbn; [by rewrite Hl|]. intros i t Hi. specialize (Hs i). unfold sview in Hs. rewrite Hi in Hs.
  destruct (task s !! i) as [[t0|]|] eqn:E; try done. injection Hs as E1 E2 _ _ _ _ _ _ _ _. specialize (H2 i t0 E). unfold task_ok in *. by rewrite E1, E2.
Qed.

(** ** The links of a new process *)

Lemma link_child_ok c nr s tc p : (c <> nr)%nat -> tasks_of s !! c = Some (Some tc) -> tasks_of s !! nr = Some (Some p) ->
  (forall o, p_cptr (info tc) = Some o -> o <> c /\ o <> nr /\ is_Some (view (tasks_of s) o)) ->
  exists l, link_child c nr s = Ok tt (with_tasks l s) /\ length l = length (tasks_of s) /\
    (forall i, view l i = fork_view c nr (links_of tc) (view (tasks_of s)) i) /\
    (forall i, sview l i = if decide (i = nr) then Some (attrs (set_state TASK_RUNNING p)) else sview (tasks_of s) i) /\
    l !! nr = Some (Some (set_state TASK_RUNNING (set_pptr c (on_info (fun i => set_osptr (p_cptr (info tc)) (set_ysptr None (set_cptr None i))) p)))).
Proof.
  intros Hne Hc Hp Ho. assert (c < length (tasks_of s))%nat as Lc by (by eapply lookup_lt_Some). assert (nr < length (tasks_of s))%nat as Ln by (by eapply lookup_lt_Some).
  unfold link_child. rewrite (bind_tsk _ _ _ _ Hc), (bind_upd _ _ _ _ _ Hp). set (p1 := set_pptr c _).
  assert (view (tasks_of s) c = Some (links_of tc)) as Vc by (unfold view; by rewrite Hc).
  assert (sview (tasks_of s) c = Some (attrs tc)) as Sc by (unfold sview; by rewrite Hc).
  destruct (p_cptr (info tc)) as [o|] eqn:Eo.
  - destruct (Ho o eq_refl) as (Hoc & Hon & [ko Hko]). apply view_lookup in Hko as (to & Hto & <-). assert (o < length (tasks_of s))%nat as Lo by (by eapply lookup_lt_Some).
    rewrite (bind_upd _ to) by (cbn; by rewrite list_lookup_insert_ne by done).
    rewrite (bind_upd _ tc) by (cbn; by rewrite !list_lookup_insert_ne by done).
    rewrite (upd_ok _ p1) by (cbn; rewrite !list_lookup_insert_ne by done; by rewrite list_lookup_insert_eq).
    eexists. split; [reflexivity|]. cbn [k_s task with_tasks set_task set_ks]. split_and!; [by rewrite !length_insert| | |by rewrite list_lookup_insert_eq by (by rewrite !length_insert)].
    + intros i. rewrite !view_insert by (by rewrite ?length_insert). unfold fork_view. cbn [lc lp ly lo links_of]. rewrite Eo.
      assert (view (tasks_of s) o = Some (links_of to)) as Vo by (unfold view; by rewrite Hto).
      repeat case_decide; try congruence; simplify_eq; try done. by rewrite Vo.
    + intros i. rewrite !sview_insert by (by rewrite ?length_insert).
      assert (sview (tasks_of s) o = Some (attrs to)) as So by (unfold sview; by rewrite Hto).
      repeat case_decide; subst; try done; congruence.
  - erewrite bind_ok by reflexivity.
    rewrite (bind_upd _ tc) by (cbn; by rewrite !list_lookup_insert_ne by done).
    rewrite (upd_ok _ p1) by (cbn; rewrite !list_lookup_insert_ne by done; by rewrite list_lookup_insert_eq).
    eexists. split; [reflexivity|]. cbn [k_s task with_tasks set_task set_ks]. split_and!; [by rewrite !length_insert| | |by rewrite list_lookup_insert_eq by (by rewrite !length_insert)].
    + intros i. rewrite !view_insert by (by rewrite ?length_insert). unfold fork_view. cbn [lc lp ly lo links_of]. rewrite Eo.
      repeat case_decide; try congruence; done.
    + intros i. rewrite !sview_insert by (by rewrite ?length_insert). repeat case_decide; subst; try done; congruence.
Qed.

(** ** The audit *)

Lemma audit_task_ok i s kids depth : tree (view (tasks_of s)) kids depth -> length (tasks_of s) = 64%nat -> (1 <= i < 64)%nat -> audit_task i s = Ok tt s.
Proof.
  intros Ht Hlen Hi. destruct (lookup_lt_is_Some_2 (tasks_of s) i) as [x Hx]; [lia|]. unfold audit_task.
  erewrite bind_ok by reflexivity. erewrite bind_ok by (unfold idx; by rewrite Hx). destruct x as [t|]; [|done].
  assert (view (tasks_of s) i = Some (links_of t)) as Vi by (unfold view; by rewrite Hx).
  destruct (position _ _ _ Ht i _ Vi ltac:(lia)) as (j & Hj & Elo & Ely). destruct (tr_par _ _ _ Ht i _ Vi) as [Elc Hin]. specialize (Hin ltac:(lia)).
  cbn [lp lc ly lo links_of] in *. set (P := p_pptr t) in *. pose proof (tr_nodup _ _ _ Ht P) as Hnd.
  assert (forall k, is_Some (view (tasks_of s) k) -> bad_task_ptr (tasks_of s) (Some k) = false) as Hgood.
  { intros k [w Hw]. apply view_lookup in Hw as (u & Hu & _). cbn. by rewrite Hu. }
  assert (forall k, k ∈ kids P -> is_Some (view (tasks_of s) k)) as Hk by (intros k Hk; destruct (kid_parent _ _ _ Ht P k Hk) as (w & Hw & _); by exists w).
  assert (bad_task_ptr (tasks_of s) (Some P) = false) as B1 by (apply Hgood, (tr_some _ _ _ Ht); intros E; rewrite E in Hin; by apply not_elem_of_nil in Hin).
  assert (bad_task_ptr (tasks_of s) (p_cptr (info t)) = false) as B2.
  { rewrite Elc. destruct (kids i !! 0%nat) as [k|] eqn:E; [|done]. apply Hgood. destruct (tr_kid _ _ _ Ht i 0 k E) as (w & Hw & _). by exists w. }
  assert (bad_task_ptr (tasks_of s) (p_osptr (info t)) = false) as B3.
  { rewrite Elo. destruct (kids P !! S j) as [k|] eqn:E; [|done]. apply Hgood, Hk. apply list_elem_of_lookup. by exists (S j). }
  assert (bad_task_ptr (tasks_of s) (p_ysptr (info t)) = false) as B4.
  { rewrite Ely. destruct j as [|j]; [done|]. cbn [before]. destruct (kids P !! j) as [k|] eqn:E; [|done]. apply Hgood, Hk. apply list_elem_of_lookup. by exists j. }
  assert ((P =? i)%nat = false) as B5 by (apply Nat.eqb_neq; intros E; apply (kid_not_self _ _ _ Ht i); by rewrite E in Hin).
  assert (bool_decide (p_cptr (info t) = Some i) = false) as B6.
  { apply bool_decide_eq_false. rewrite Elc. intros E. apply (kid_not_self _ _ _ Ht i), list_elem_of_lookup. by exists 0%nat. }
  assert (bool_decide (p_ysptr (info t) = Some i) = false) as B7.
  { apply bool_decide_eq_false. rewrite Ely. destruct j as [|j]; [done|]. cbn [before]. intros E. assert (j = S j); [|lia]. by eapply NoDup_lookup. }
  assert (bool_decide (p_osptr (info t) = Some i) = false) as B8.
  { apply bool_decide_eq_false. rewrite Elo. intros E. assert (j = S j); [|lia]. by eapply NoDup_lookup. }
  rewrite B1, B2, B3, B4, B5, B6, B7, B8. do 8 (erewrite bind_ok by reflexivity).
  assert ((match p_osptr (info t) with
       | None => skip
       | Some o => u ← tsk o; (if negb (P =? p_pptr u)%nat then tsk (p_pptr u) ;; print "older sibling parent is" else skip) ;;
           warn (negb (bool_decide (p_ysptr (info u) = Some i))) "older sibling has mismatched ys link" end) s = Ok tt s) as C1.
  { destruct (p_osptr (info t)) as [o|] eqn:Eo; [|done]. symmetry in Elo. destruct (tr_kid _ _ _ Ht P (S j) o Elo) as (w & Hw & W1 & W2 & W3 & _).
    apply view_lookup in Hw as (u & Hu & <-). rewrite (bind_tsk _ _ _ _ Hu). cbn in W1, W3. rewrite W1, Nat.eqb_refl. erewrite bind_ok by reflexivity.
    by rewrite W3, Hj, bool_decide_eq_true_2. }
  rewrite (bind_ok _ _ _ _ _ C1).
  assert ((match p_ysptr (info t) with
       | None => skip
       | Some y => u ← tsk y;
           (if negb (P =? p_pptr u)%nat then o ← deref (p_osptr (info t)); u ← tsk o; tsk (p_pptr u) ;; print "younger sibling parent is" else skip) ;;
           warn (negb (bool_decide (p_osptr (info u) = Some i))) "younger sibling has mismatched os link" end) s = Ok tt s) as C2.
  { destruct (p_ysptr (info t)) as [y|] eqn:Ey; [|done]. destruct j as [|j]; [done|]. cbn [before] in Ely. symmetry in Ely.
    destruct (tr_kid _ _ _ Ht P j y Ely) as (w & Hw & W1 & W2 & W3 & _).
    apply view_lookup in Hw as (u & Hu & <-). rewrite (bind_tsk _ _ _ _ Hu). cbn in W1, W2. rewrite W1, Nat.eqb_refl. erewrite bind_ok by reflexivity.
    by rewrite W2, Hj, bool_decide_eq_true_2. }
  rewrite (bind_ok _ _ _ _ _ C2). destruct (p_cptr (info t)) as [k|] eqn:Ek; [|done]. symmetry in Elc.
  destruct (tr_kid _ _ _ Ht i 0 k Elc) as (w & Hw & W1 & W2 & W3 & _). apply view_lookup in Hw as (u & Hu & <-). rewrite (bind_tsk _ _ _ _ Hu).
  cbn in W1, W3. rewrite W1, Nat.eqb_refl, W3. reflexivity.
Qed.
Lemma audit_ok s kids depth : tree (view (tasks_of s)) kids depth -> length (tasks_of s) = 64%nat -> audit_ptree s = Ok tt s.
Proof.
  intros Ht Hlen. apply wp_eq. eapply wp_mono; [apply (wp_for_range (fun _ s' => s' = s) 63); [|done]|by intros [] s'].
  intros j s' Hj ->. eapply wp_intro; [by eapply audit_task_ok; [| |lia]|done].
Qed.

(** ** Routines that change links only *)

(** The table [l] has the links [v], and the rest is as in [l0]. *)
Record linked (l0 l : list (option task_struct)) (v : nat -> option links) : Prop := {
  lk_len : length l = length l0;
  lk_view : forall i, view l i = v i;
  lk_stat : forall i, sview l i = sview l0 i;
  lk_sig : forall i t0 t b, l0 !! i = Some (Some t0) -> l !! i = Some (Some t) -> Z.testbit (signal t0) b = true -> Z.testbit (signal t) b = true }.

Lemma linked_refl l : linked l l (view l).
Proof. split; try done. intros i t0 t b E1 E2. congruence. Qed.
Lemma linked_ext l0 l v v' : (forall i, v' i = v i) -> linked l0 l v -> linked l0 l v'.
Proof. intros E [H1 H2 H3 H4]. split; [done| |done|done]. intros i. by rewrite E. Qed.

Lemma linked_tsk l0 l v i k s : linked l0 l v -> v i = Some k ->
  exists t, l !! i = Some (Some t) /\ links_of t = k /\ tsk i (with_tasks l s) = Ok t (with_tasks l s).
Proof. intros [_ H _ _] Hk. rewrite <- H in Hk. apply view_lookup in Hk as (t & Ht & E). exists t. split_and!; [done|done|]. by apply tsk_ok. Qed.

Lemma linked_insert l0 l v i t u (g : links -> links) : linked l0 l v -> l !! i = Some (Some t) -> links_of u = g (links_of t) -> attrs u = attrs t ->
  (forall b, Z.testbit (signal t) b = true -> Z.testbit (signal u) b = true) ->
  linked l0 (<[i := Some u]> l) (fun j => if decide (j = i) then g <$> v j else v j).
Proof.
  intros [H1 H2 H3 H4] Ht Hg Hst Hsig. assert (i < length l)%nat as Hi by (by eapply lookup_lt_Some). split.
  - by rewrite length_insert.
  - intros j. rewrite view_insert by done. case_decide as D; [|done]. subst j. rewrite <- H2, Hg. unfold view. by rewrite Ht.
  - intros j. rewrite sview_insert by done. case_decide as D; [|done]. subst j. rewrite Hst, <- H3. unfold sview. by rewrite Ht.
  - intros j t0 t' b Hj0 Hj Hb. destruct (decide (j = i)) as [->|D].
    + rewrite list_lookup_insert_eq in Hj by done. injection Hj as <-. apply Hsig. by eapply H4.
    + rewrite list_lookup_insert_ne in Hj by done. by eapply H4.
Qed.
Lemma linked_upd l0 l v i f g s : linked l0 l v -> is_Some (v i) -> (forall t, links_of (f t) = g (links_of t)) -> (forall t, attrs (f t) = attrs t) ->
  (forall t b, Z.testbit (signal t) b = true -> Z.testbit (signal (f t)) b = true) ->
  exists l', upd i f (with_tasks l s) = Ok tt (with_tasks l' s) /\ linked l0 l' (fun j => if decide (j = i) then g <$> v j else v j).
Proof.
  intros Hl [k Hk] Hg Hst Hsig. destruct (linked_tsk _ _ _ _ _ s Hl Hk) as (t & Ht & Et & _).
  exists (<[i := Some (f t)]> l). split; [exact (upd_ok i t f (with_tasks l s) Ht)|]. apply (linked_insert l0 l v i t (f t) g); auto.
Qed.
Lemma linked_trans l0 l1 l2 v1 v2 : linked l0 l1 v1 -> linked l1 l2 v2 -> linked l0 l2 v2.
Proof.
  intros [A1 A2 A3 A4] [B1 B2 B3 B4]. split; [by rewrite B1|done|intros i; by rewrite B3|].
  intros i t0 t b H0 H Hb. destruct (sview_same l0 l1 i t0 (A3 i) H0) as (t1 & H1 & _). eapply B4; [exact H1|exact H|]. by eapply A4.
Qed.

(** Two tasks in one session but different process groups. *)
Definition near (t u : task_struct) : bool := negb (pgrp (info t) =? pgrp (info u)) && (session (info t) =? session (info u)).
Lemma near_stat t u t' u' : attrs t' = attrs t -> attrs u' = attrs u -> near t' u' = near t u.
Proof. unfold attrs, near. intros [= _ _ _ _ _ E1 E2 _ _ _] [= _ _ _ _ _ E3 E4 _ _ _]. by rewrite E1, E2, E3, E4. Qed.

(** ** Orphaned process groups *)

(** The group [g] has a living member besides the task [c] and its children
    whose parent, not init, is in another group of the same session. *)
Definition contact (l : list (option task_struct)) (c : nat) (g : Z) : Prop := exists i u f,
  (0 < i < 64)%nat /\ i <> c /\ l !! i = Some (Some u) /\ p_pptr u <> c /\ l !! p_pptr u = Some (Some f) /\
  pgrp (info u) = g /\ state u <> TASK_ZOMBIE /\ pid f <> 1 /\ pgrp (info f) <> g /\ session (info f) = session (info u).

Lemma contact_mono l l' c g : contact l c g -> (forall i, i <> c -> sview l' i = sview l i) ->
  (forall i u, l !! i = Some (Some u) -> i <> c -> p_pptr u <> c -> exists k, view l' i = Some k /\ lp k = p_pptr u) -> contact l' c g.
Proof.
  intros (i & u & f & Hi & Hic & Hu & Hpc & Hf & Hg & Hst & Hpid & Hpg & Hse) Hs Hv.
  destruct (sview_same l l' i u (Hs i Hic) Hu) as (u' & Hu' & Au). destruct (sview_same l l' _ f (Hs _ Hpc) Hf) as (f' & Hf' & Af).
  destruct (Hv i u Hu Hic Hpc) as (k & (u2 & Hu2 & <-)%view_lookup & Ep). rewrite Hu' in Hu2. injection Hu2 as <-. cbn in Ep.
  unfold attrs in Au, Af. injection Au as _ _ _ Ust _ Ug Us _ _ _. injection Af as _ _ Fp _ _ Fg Fs _ _ _.
  exists i, u', f'. rewrite Ep, Ust, Ug, Us, Fp, Fg, Fs. split_and!; (done || lia).
Qed.

(** Such a group is not orphaned. *)
Lemma not_orphaned s c g : contact (tasks_of s) c g ->
  (forall i u, tasks_of s !! i = Some (Some u) -> i <> 0%nat -> is_Some (view (tasks_of s) (p_pptr u))) -> is_orphaned_pgrp g s = Ok false s.
Proof.
  intros (i & u & f & Hi & _ & Hu & _ & Hf & Hg & Hst & Hpid & Hpg & Hse) Hpar. unfold is_orphaned_pgrp. erewrite bind_ok by reflexivity.
  assert (forall n, (i <= n)%nat -> orphan_scan (tasks_of s) n g s = Ok false s) as Hn; [|apply Hn; lia].
  induction n as [|n IH]; intros Hin; [lia|]. cbn [orphan_scan]. destruct (decide (i = S n)) as [<-|Hne].
  - rewrite Hu, Hg, Z.eqb_refl, (proj2 (Z.eqb_neq _ _) Hst). cbn [negb orb]. rewrite (bind_tsk _ _ _ _ Hf), (proj2 (Z.eqb_neq _ _) Hpid), (proj2 (Z.eqb_neq _ _) Hpg), Hse, Z.eqb_refl. done.
  - specialize (IH ltac:(lia)). destruct (tasks_of s !! S n) as [[w|]|] eqn:Ew; [|exact IH|exact IH]. destruct (_ || _); [exact IH|].
    destruct (Hpar (S n) w Ew ltac:(lia)) as (k & (fw & Hfw & _)%view_lookup). rewrite (bind_tsk _ _ _ _ Hfw). by repeat case_match.
Qed.
Lemma hangup_none b s c g : (b = true -> contact (tasks_of s) c g) ->
  (forall i u, tasks_of s !! i = Some (Some u) -> i <> 0%nat -> is_Some (view (tasks_of s) (p_pptr u))) -> hangup_orphans b g s = Ok tt s.
Proof. intros Hb Hpar. unfold hangup_orphans. destruct b; [|done]. cbn [negb]. by rewrite (bind_ok _ _ _ _ _ (not_orphaned s c g (Hb eq_refl) Hpar)). Qed.
Lemma tree_parents l kids depth : tree (view l) kids depth -> forall i u, l !! i = Some (Some u) -> i <> 0%nat -> is_Some (view l (p_pptr u)).
Proof.
  intros Ht i u Hu Hi. assert (view l i = Some (links_of u)) as V by (unfold view; by rewrite Hu). destruct (tr_par _ _ _ Ht i _ V) as [_ Hp]. specialize (Hp Hi). cbn in Hp.
  apply (tr_some _ _ _ Ht). intros E. rewrite E in Hp. by apply not_elem_of_nil in Hp.
Qed.

Section Inherit.
Context (s : lst) (l0 : list (option task_struct)) (v : nat -> option links) (kids : nat -> list nat) (depth : nat -> nat) (c : nat).
Context (Htree : tree v kids depth) (Hc : is_Some (v c)) (Hc0 : c <> 0%nat) (Hc1 : c <> 1%nat) (Hview : forall i, view l0 i = v i)
  (Hquiet : forall p t u, p ∈ kids c -> l0 !! p = Some (Some t) -> l0 !! c = Some (Some u) -> near t u = true -> contact l0 c (pgrp (info t))).
Notation ks := (kids c).

Definition inherit_view (j i : nat) : option links :=
  (fun k => mkLinks (if decide (i ∈ take j ks) then 1%nat else lp k) (lc k) (ly k) (lo k)) <$> v i.

Lemma inherit_some j i : is_Some (v i) -> is_Some (inherit_view j i).
Proof. intros [k Hk]. unfold inherit_view. rewrite Hk. by eexists. Qed.

Lemma inherit_contact l j g : linked l0 l (inherit_view j) -> contact l0 c g -> contact l c g.
Proof.
  intros L Hg. apply (contact_mono l0 l c g Hg); [intros i _; apply L|]. intros i u Hu Hic Hpc. rewrite (lk_view _ _ _ L). unfold inherit_view.
  assert (v i = Some (links_of u)) as Vi by (rewrite <- Hview; unfold view; by rewrite Hu). rewrite Vi. eexists. split; [reflexivity|]. cbn.
  rewrite decide_False; [done|]. intros Hin. apply elem_of_take in Hin as (n & Hn & _). destruct (tr_kid _ _ _ Htree c n i Hn) as (k & Hk & E & _).
  rewrite Vi in Hk. injection Hk as <-. by apply Hpc.
Qed.
Lemma inherit_parents l j i u : linked l0 l (inherit_view j) -> l !! i = Some (Some u) -> i <> 0%nat -> is_Some (view l (p_pptr u)).
Proof.
  intros L Hu Hi. rewrite (lk_view _ _ _ L). apply inherit_some. assert (view l i = Some (links_of u)) as V by (unfold view; by rewrite Hu).
  rewrite (lk_view _ _ _ L) in V. unfold inherit_view in V. destruct (v i) as [k|] eqn:Ek; [|done]. injection V as <- _ _ _. case_decide; [destruct (init_live _ _ _ Htree) as (k1 & -> & _); by eexists|].
  destruct (tr_par _ _ _ Htree i k Ek) as [_ Hp]. apply (tr_some _ _ _ Htree). intros E. specialize (Hp Hi). rewrite E in Hp. by apply not_elem_of_nil in Hp.
Qed.

(** Up to the test for an older sibling. *)
Lemma inherit_head l j p : linked l0 l (inherit_view j) -> ks !! j = Some p ->
  exists l' t, linked l0 l' (inherit_view (S j)) /\ l' !! p = Some (Some t) /\ p_osptr (info t) = ks !! S j /\
    inherit_step c p (with_tasks l s) =
    (match p_osptr (info t) with
     | Some o => mret (inl o)
     | None => init ← tsk 1; upd p (on_info (set_osptr (p_cptr (info init)))) ;;
         init ← tsk 1; y ← deref (p_cptr (info init)); upd y (on_info (set_ysptr (Some p))) ;;
         ct ← tsk c; upd 1 (on_info (set_cptr (p_cptr (info ct)))) ;; upd c (on_info (set_cptr None)) ;; mret (inr tt) end) (with_tasks l' s).
Proof.
  intros Hl Hj. destruct (tr_kid _ _ _ Htree c j p Hj) as (k & Hk & Kp & Ko & Ky & Hd).
  assert (p ∈ ks) as Hp by (apply list_elem_of_lookup; by exists j).
  destruct (linked_upd l0 l _ p (set_pptr 1%nat) (fun k => mkLinks 1 (lc k) (ly k) (lo k)) s Hl) as (l1 & E1 & L1); [by apply inherit_some; exists k|done|done|done|].
  assert (linked l0 l1 (inherit_view (S j))) as L1'.
  { eapply linked_ext; [|exact L1]. intros i. cbn. unfold inherit_view. rewrite (take_S_r _ _ _ Hj).
    destruct (v i) as [ki|] eqn:Ei; cbn; [|by case_decide].
    destruct (decide (i = p)) as [->|Hip].
    - rewrite Hk in Ei. injection Ei as <-. rewrite decide_True by (apply elem_of_app; right; left). done.
    - f_equal. assert (i ∈ take j ks ++ [p] <-> i ∈ take j ks) as Hiff by (rewrite elem_of_app, list_elem_of_singleton; naive_solver).
      destruct (decide (i ∈ take j ks ++ [p])), (decide (i ∈ take j ks)); naive_solver. }
  unfold inherit_step. rewrite (bind_ok _ _ _ _ _ E1). destruct (inherit_some (S j) p ltac:(by exists k)) as [kp Hkp].
  destruct (linked_tsk _ _ _ _ _ s L1' Hkp) as (t1 & Ht1 & Et1 & G1). rewrite (bind_ok _ _ _ _ _ G1).
  assert (exists l2, (if state t1 =? TASK_ZOMBIE then upd 1 (fun t => set_signal (Z.lor (signal t) (_S SIGCHLD)) t) else skip) (with_tasks l1 s) = Ok tt (with_tasks l2 s) /\ linked l0 l2 (inherit_view (S j))) as (l2 & E2 & L2).
  { destruct (state t1 =? TASK_ZOMBIE); [|by exists l1]. destruct (init_live _ _ _ Htree) as (k1 & Hk1 & _).
    destruct (linked_upd l0 l1 _ 1 (fun t => set_signal (Z.lor (signal t) (_S SIGCHLD)) t) id s L1') as (l2 & E & L); [by apply inherit_some; exists k1|done|done|intros t b Hb; cbn; by rewrite Z.lor_spec, Hb|].
    exists l2. split; [done|]. eapply linked_ext; [|exact L]. intros i. cbn. case_decide; [|done]. by destruct (inherit_view (S j) i). }
  rewrite (bind_ok _ _ _ _ _ E2). destruct (inherit_some (S j) c Hc) as [kc Hkc].
  destruct (linked_tsk _ _ _ _ _ s L2 Hkc) as (tc & Htc & Etc & G2). rewrite (bind_ok _ _ _ _ _ G2).
  destruct (linked_tsk _ _ _ _ _ s L2 Hkp) as (t2 & Ht2 & Et2 & G3).
  assert (hangup_orphans (near t1 tc) (pgrp (info t1)) (with_tasks l2 s) = Ok tt (with_tasks l2 s)) as Hn.
  { destruct (sview_same l1 l0 p t1 (eq_sym (lk_stat _ _ _ L1' p)) Ht1) as (u & Hu & Su). destruct (sview_same l2 l0 c tc (eq_sym (lk_stat _ _ _ L2 c)) Htc) as (w & Hw & Sw).
    apply (hangup_none _ _ c); [|intros i x; by apply inherit_parents with (j := S j)]. intros En. apply (inherit_contact l2 (S j)); [exact L2|].
    rewrite (near_stat u w t1 tc (eq_sym Su) (eq_sym Sw)) in En. assert (pgrp (info t1) = pgrp (info u)) as -> by (unfold attrs in Su; congruence). by eapply Hquiet. }
  rewrite (bind_ok _ _ _ _ _ Hn). rewrite (bind_ok _ _ _ _ _ G3).
  exists l2, t2. split_and!; [done|done| |done]. assert (lo kp = ks !! S j) as Elo.
  { unfold inherit_view in Hkp. rewrite Hk in Hkp. injection Hkp as <-. done. }
  rewrite <- Et2 in Elo. exact Elo.
Qed.

Lemma inherit_last l j z h : linked l0 l (inherit_view j) -> ks !! j = Some z -> ks !! S j = None -> kids 1%nat !! 0%nat = Some h ->
  exists l', inherit_step c z (with_tasks l s) = Ok (inr tt) (with_tasks l' s) /\ linked l0 l' (exit_view c z h ks v).
Proof.
  intros Hl Hj Hend Hh. destruct (inherit_head l j z Hl Hj) as (l1 & t & L1 & Ht & Eo & ->). rewrite Eo, Hend.
  assert (take (S j) ks = ks) as Htk by (apply take_ge; by apply lookup_ge_None).
  destruct (init_live _ _ _ Htree) as (k1 & Hk1 & _). destruct (tr_par _ _ _ Htree 1 k1 Hk1) as [P1 _]. rewrite Hh in P1.
  assert (z ∈ ks) as Hz by (apply list_elem_of_lookup; by exists j). assert (h ∈ kids 1%nat) as Hhk by (apply list_elem_of_lookup; by exists 0%nat).
  destruct (kid_parent _ _ _ Htree c z Hz) as (kz & Hkz & Kz & _). destruct (kid_parent _ _ _ Htree 1 h Hhk) as (kh & Hkh & Kh & _). destruct Hc as [kc Hkc].
  assert (z <> 1%nat) as Z1 by (intros ->; apply Hc0; apply (kid_unique _ _ _ Htree c 0 1); [done|]; rewrite (tr_init _ _ _ Htree); left).
  assert (z <> c) as Zc by (intros ->; by apply (kid_not_self _ _ _ Htree c)).
  assert (h <> 1%nat) as H1 by (intros ->; by apply (kid_not_self _ _ _ Htree 1)).
  assert (z <> h) as Zh by (intros ->; congruence).
  set (w0 := inherit_view (S j)) in *.
  assert (forall i, w0 i = (fun k => mkLinks (if decide (i ∈ ks) then 1%nat else lp k) (lc k) (ly k) (lo k)) <$> v i) as W0 by (intros i; unfold w0, inherit_view; by rewrite Htk).
  assert (w0 1%nat = Some (mkLinks (if decide (1%nat ∈ ks) then 1%nat else lp k1) (Some h) (ly k1) (lo k1))) as W1 by (rewrite W0, Hk1; cbn; by rewrite P1).
  destruct (linked_tsk _ _ _ _ _ s L1 W1) as (ti & Hti & Eti & G1). rewrite (bind_ok _ _ _ _ _ G1). injection Eti as _ Eci _ _. rewrite Eci.
  destruct (linked_upd l0 l1 w0 z (on_info (set_osptr (Some h))) (fun k => mkLinks (lp k) (lc k) (ly k) (Some h)) s L1) as (l2 & E2 & L2); [rewrite W0, Hkz; by eexists|done|done|done|].
  rewrite (bind_ok _ _ _ _ _ E2). match type of L2 with linked _ _ ?f => set (w1 := f) in * end.
  assert (w1 1%nat = w0 1%nat) as W11 by (unfold w1; by rewrite decide_False by done).
  destruct (linked_tsk _ _ _ _ _ s L2 (eq_trans W11 W1)) as (ti2 & Hti2 & Eti2 & G2). rewrite (bind_ok _ _ _ _ _ G2). injection Eti2 as _ Eci2 _ _. rewrite Eci2.
  erewrite bind_ok by reflexivity.
  destruct (linked_upd l0 l2 w1 h (on_info (set_ysptr (Some z))) (fun k => mkLinks (lp k) (lc k) (Some z) (lo k)) s L2) as (l3 & E3 & L3); [unfold w1; rewrite decide_False by done; rewrite W0, Hkh; by eexists|done|done|done|].
  rewrite (bind_ok _ _ _ _ _ E3). match type of L3 with linked _ _ ?f => set (w2 := f) in * end.
  assert (exists kc2, w2 c = Some kc2 /\ lc kc2 = ks !! 0%nat) as (kc2 & Wc & Ec2).
  { unfold w2, w1. rewrite (decide_False (P := c = z)) by done. rewrite W0, Hkc. destruct (tr_par _ _ _ Htree c kc Hkc) as [Pc _]. destruct (decide (c = h)); eexists; (split; [reflexivity|done]). }
  destruct (linked_tsk _ _ _ _ _ s L3 Wc) as (tc & Htc & Etc & G3). rewrite (bind_ok _ _ _ _ _ G3). rewrite <- Etc in Ec2. cbn in Ec2. rewrite Ec2.
  destruct (linked_upd l0 l3 w2 1 (on_info (set_cptr (ks !! 0%nat))) (fun k => mkLinks (lp k) (ks !! 0%nat) (ly k) (lo k)) s L3) as (l4 & E4 & L4); [unfold w2, w1; rewrite !decide_False by done; rewrite W1; by eexists|done|done|done|].
  rewrite (bind_ok _ _ _ _ _ E4). match type of L4 with linked _ _ ?f => set (w3 := f) in * end.
  destruct (linked_upd l0 l4 w3 c (on_info (set_cptr None)) (fun k => mkLinks (lp k) None (ly k) (lo k)) s L4) as (l5 & E5 & L5); [unfold w3; rewrite decide_False by done; by exists kc2|done|done|done|].
  rewrite (bind_ok _ _ _ _ _ E5). exists l5. split; [done|]. eapply linked_ext; [|exact L5]. intros i. cbn. unfold exit_view, w3, w2, w1. rewrite !W0.
  destruct (v i) as [ki|] eqn:Ei; cbn.
  2: { repeat case_decide; subst; congruence. }
  destruct (decide (i = c)) as [->|D1]; cbn; [rewrite !(decide_False (P := c = 1%nat)) by done; rewrite !(decide_False (P := c = z)) by done; destruct (decide (c = h)); done|].
  destruct (decide (i = 1%nat)) as [->|D2]; cbn; [rewrite !(decide_False (P := 1%nat = h)), !(decide_False (P := 1%nat = z)) by done; done|].
  destruct (decide (i = h)) as [->|D3]; cbn; [rewrite !(decide_False (P := h = z)) by done; done|].
  destruct (decide (i = z)) as [->|D4]; cbn; done.
Qed.

(** The children of [c] go to init. *)
Lemma inherit_loop z h p : (length ks <= NR_TASKS)%nat -> ks !! 0%nat = Some p -> last ks = Some z -> kids 1%nat !! 0%nat = Some h ->
  exists l, loop (S NR_TASKS) (inherit_step c) p (with_tasks l0 s) = Ok tt (with_tasks l s) /\ linked l0 l (exit_view c z h ks v).
Proof.
  intros Hlen Hp Hz Hh. rewrite last_lookup in Hz.
  assert (forall n j l p, (n + j = length ks)%nat -> ks !! j = Some p -> linked l0 l (inherit_view j) ->
    forall f, (n <= f)%nat -> exists l', loop f (inherit_step c) p (with_tasks l s) = Ok tt (with_tasks l' s) /\ linked l0 l' (exit_view c z h ks v)) as Hl.
  { induction n as [|n IH]; intros j l q Hn Hq Hl f Hf; [apply lookup_lt_Some in Hq; lia|]. destruct f as [|f]; [lia|].
    destruct (ks !! S j) as [o|] eqn:Eo.
    - destruct (inherit_head l j q Hl Hq) as (l1 & t & L1 & Ht & Et & E). rewrite Et, Eo in E. rewrite (loop_next _ _ _ _ _ _ E).
      apply (IH (S j)); [lia|done|done|lia].
    - assert (j = pred (length ks)) as Ej by (apply lookup_ge_None in Eo; lia). assert (q = z) as -> by (rewrite Ej in Hq; congruence).
      destruct (inherit_last l j z h Hl Hq Eo Hh) as (l' & E & L). exists l'. split; [by apply loop_done|done]. }
  apply (Hl (length ks) 0%nat l0 p); [lia|done| |lia]. eapply linked_ext; [|split; [done|exact Hview|done|intros i t0 t b E1 E2; congruence]]. intros i. unfold inherit_view. cbn [take].
  destruct (v i) as [[]|]; [|done]. cbn. by rewrite decide_False by apply not_elem_of_nil.
Qed.
End Inherit.
