(* ===== verification/LinuxFamily.v ===== *)
(** * Linux 0.12: exit, wait and fork

    The whole routines [do_exit], [release] and [copy_process], over the tree
    of processes and the reference counts of pages. *)

From S2P Require Import Prelude LinuxSched LinuxMm LinuxCow LinuxFork LinuxExit LinuxProc LinuxTree LinuxLife.

(** ** What [schedule] leaves alone *)

Lemma view_for_tasks f s i : (forall t, links_of (f t) = links_of t) -> view (task (for_tasks f s)) i = view (task s) i.
Proof.
  intros Hf. unfold view. destruct i as [|i]; [by rewrite for_tasks_0|]. rewrite for_tasks_lookup by lia.
  destruct (task s !! S i) as [[t|]|]; try done. cbn. by rewrite Hf.
Qed.
Lemma check_signals_keeps now t : links_of (check_signals now t) = links_of t /\ info (check_signals now t) = info t /\
  (state t = TASK_ZOMBIE -> state (check_signals now t) = TASK_ZOMBIE) /\ (forall b, Z.testbit (signal t) b = true -> Z.testbit (signal (check_signals now t)) b = true).
Proof.
  split_and!.
  - unfold check_signals. by repeat case_match.
  - unfold check_signals. by repeat case_match.
  - intros Hz. assert ((state t =? TASK_INTERRUPTIBLE) = false) as E1 by (by rewrite Hz). unfold check_signals.
    destruct (negb (timeout t =? 0) && (timeout t <? now)), (negb (alarm t =? 0) && (alarm t <? now)) eqn:Ea; cbn; rewrite ?E1; cbn; rewrite ?Ea; cbn; rewrite ?E1, ?andb_false_r; done.
  - intros b Hb. unfold check_signals. repeat (case_match; cbn in * ); rewrite ?Z.lor_spec, ?Hb; done.
Qed.

(** Slot [i] of a table after a run of the scheduler. *)
Definition kept_task (t u : task_struct) : Prop :=
  links_of u = links_of t /\ info u = info t /\ (state t = TASK_ZOMBIE -> state u = TASK_ZOMBIE) /\ (forall b, Z.testbit (signal t) b = true -> Z.testbit (signal u) b = true).

Lemma schedule_run s fuel : sched_ok s -> (2 <= fuel)%nat ->
  exists n s', schedule fuel s = (if (n =? current s)%nat then Ok tt s' else Switched (set_current n s')) /\ sched_ok s' /\
    (n = 0%nat \/ exists t, task s' !! n = Some (Some t) /\ state t = TASK_RUNNING) /\ events s' = events s /\ current s' = current s /\
    (forall i, view (task s') i = view (task s) i) /\
    (forall i t, task s !! i = Some (Some t) -> exists u, task s' !! i = Some (Some u) /\ kept_task t u).
Proof.
  intros Hok Hf. set (s1 := for_tasks (check_signals (jiffies s)) s). assert (sched_ok s1) as Hok1 by (apply for_tasks_ok; [apply check_signals_ok|done]).
  destruct (pick_two s1 fuel Hok1 Hf) as (n & s' & E & Hc & Hs). exists n, s'.
  assert (forall i t, task s !! i = Some (Some t) -> exists u, task s1 !! i = Some (Some u) /\ kept_task t u) as Hk1.
  { intros [|i] t Ht; [exists t; unfold s1; rewrite for_tasks_0; by split|]. exists (check_signals (jiffies s) t). unfold s1. rewrite for_tasks_lookup, Ht by lia.
    split; [done|apply check_signals_keeps]. }
  assert (forall i, view (task s1) i = view (task s) i) as Hv1 by (intros i; apply view_for_tasks; intros t; apply check_signals_keeps).
  split_and!.
  - unfold schedule. erewrite bind_ok by reflexivity. erewrite bind_ok by reflexivity. fold s1. rewrite (bind_ok _ _ _ _ _ E).
    unfold switch_to. erewrite bind_ok by reflexivity. assert (current s' = current s) as -> by (by destruct Hs as [[-> _]|[-> _]]).
    by destruct (n =? current s)%nat.
  - destruct Hs as [[-> _]|[-> _]]; [done|]. apply for_tasks_ok; [apply recalc_ok|done].
  - destruct Hc as [[-> _]|(c & (_ & t & Hl & Ht & _) & _)]; [by left|right; by exists t].
  - by destruct Hs as [[-> _]|[-> _]].
  - by destruct Hs as [[-> _]|[-> _]].
  - destruct Hs as [[-> _]|[-> _]]; [done|]. intros i. rewrite view_for_tasks by done. apply Hv1.
  - destruct Hs as [[-> _]|[-> _]]; [done|]. intros i t Ht. destruct (Hk1 i t Ht) as (u & Hu & Ku). destruct i as [|i]; [exists u; by rewrite for_tasks_0|].
    exists (recalc u). rewrite for_tasks_lookup, Hu by lia. split; [done|]. destruct Ku as (K1 & K2 & K3 & K4). by split_and!.
Qed.

(** ** The children of a task that exits *)

Definition adopt (c : nat) (kids : nat -> list nat) : nat -> list nat := set_kids 1 (kids c ++ kids 1%nat) (set_kids c [] kids).

Lemma tree_kids_ext v kids kids' depth : (forall i, kids' i = kids i) -> tree v kids depth -> tree v kids' depth.
Proof.
  intros E [T1 T2 T3 T4 T5 T6]. split; intros *; rewrite ?E; auto.
Qed.

(** No process group is orphaned when [c] exits: if its parent is in another
    group of the session, the group of [c] stays in contact without it, and
    if a child is, the group of that child does. *)
Definition quiet (l : list (option task_struct)) (kids : nat -> list nat) (c : nat) : Prop :=
  forall i t u, l !! c = Some (Some t) -> l !! i = Some (Some u) -> near u t = true ->
    (i = p_pptr t -> contact l c (pgrp (info t))) /\ (i ∈ kids c -> contact l c (pgrp (info u))).

Lemma kids_bound l kids depth c : tree (view l) kids depth -> (length (kids c) <= length l)%nat.
Proof.
  intros Ht. apply nodup_bound; [apply (tr_nodup _ _ _ Ht)|]. apply Forall_forall. intros x Hx. destruct (kid_parent _ _ _ Ht c x Hx) as (k & Hk & _).
  apply view_lookup in Hk as (t & Hl & _). by eapply lookup_lt_Some.
Qed.

Lemma pass_children_ok s kids depth c t : tree (view (tasks_of s)) kids depth -> c <> 0%nat -> c <> 1%nat -> tasks_of s !! c = Some (Some t) ->
  length (tasks_of s) = NR_TASKS -> quiet (tasks_of s) kids c ->
  exists l v, pass_children c s = Ok tt (with_tasks l s) /\ linked (tasks_of s) l v /\ tree v (adopt c kids) depth /\
    forall f, l !! p_pptr t = Some (Some f) -> Z.testbit (signal f) 16 = true.
Proof.
  intros Ht Hc0 Hc1 Hc Hlen Hq. set (l0 := tasks_of s) in *.
  assert (view l0 c = Some (links_of t)) as Vc by (unfold view; by rewrite Hc).
  destruct (tr_par _ _ _ Ht c _ Vc) as [Elc Hin]. specialize (Hin Hc0). cbn in Elc, Hin.
  destruct (tr_some _ _ _ Ht (p_pptr t)) as [kf Hkf]; [intros E; rewrite E in Hin; by apply not_elem_of_nil in Hin|].
  apply view_lookup in Hkf as (f & Hf & _). unfold pass_children. rewrite (bind_tsk _ _ _ _ Hc), (bind_tsk _ _ _ _ Hf).
  assert (hangup_orphans (near f t) (pgrp (info t)) s = Ok tt s) as Hn.
  { apply (hangup_none _ _ c); [|by eapply tree_parents]. intros En. by apply (Hq _ _ _ Hc Hf En). }
  rewrite (bind_ok _ _ _ _ _ Hn). rewrite (bind_upd _ _ _ _ _ Hf).
  set (f1 := set_signal _ f). fold l0. set (l1 := <[p_pptr t := Some f1]> l0).
  assert (linked l0 l1 (view l0)) as L1.
  { eapply linked_ext; [|eapply (linked_insert l0 l0 (view l0) (p_pptr t) f f1 id); [apply linked_refl|done|done|done|]].
    - intros i. cbn. case_decide; [|done]. by destruct (view l0 i).
    - intros b Hb. unfold f1. cbn. by rewrite Z.lor_spec, Hb. }
  assert (p_pptr t < length l0)%nat as Hpl by (by eapply lookup_lt_Some).
  assert (forall g, l1 !! p_pptr t = Some (Some g) -> Z.testbit (signal g) 16 = true) as Hsig.
  { intros g. unfold l1. rewrite list_lookup_insert_eq by done. intros [= <-]. unfold f1. cbn [signal set_signal]. rewrite Z.lor_spec.
    change (Z.testbit (_S SIGCHLD) 16) with true. apply orb_true_r. }
  destruct (linked_tsk _ _ _ _ _ s L1 Vc) as (t1 & Ht1 & Et1 & G1). rewrite (bind_ok _ _ _ _ _ G1).
  assert (p_cptr (info t1) = kids c !! 0%nat) as -> by (change (p_cptr (info t1)) with (lc (links_of t1)); by rewrite Et1).
  destruct (kids c !! 0%nat) as [p|] eqn:Ep.
  - destruct (descends _ _ _ Ht c ltac:(by exists (links_of t)) Hc0 Hc1) as [Hk1 _].
    destruct (kids 1%nat !! 0%nat) as [h|] eqn:Eh; [|destruct (kids 1%nat); done].
    destruct (last (kids c)) as [z|] eqn:Ez; [|apply last_None in Ez; by rewrite Ez in Ep].
    destruct (inherit_loop s l1 (view l0) kids depth c Ht ltac:(by exists (links_of t)) Hc0 Hc1) with (z := z) (h := h) (p := p) as (l2 & E2 & L2); try done.
    + apply (lk_view _ _ _ L1).
    + intros q u w Hqk Hu Hw. destruct (sview_same l1 l0 q u (eq_sym (lk_stat _ _ _ L1 q)) Hu) as (u0 & Hu0 & Su). destruct (sview_same l1 l0 c w (eq_sym (lk_stat _ _ _ L1 c)) Hw) as (w0 & Hw0 & Sw).
      rewrite (near_stat u0 w0 u w (eq_sym Su) (eq_sym Sw)). intros En. assert (pgrp (info u) = pgrp (info u0)) as -> by (unfold attrs in Su; congruence).
      apply (contact_mono l0 l1); [by apply (Hq _ _ _ Hw0 Hu0 En)|intros k _; apply L1|]. intros k x Hx _ _. exists (links_of x). split; [|done].
      rewrite (lk_view _ _ _ L1). unfold view. by rewrite Hx.
    + rewrite <- Hlen. by apply (kids_bound l0 kids depth).
    + exists l2, (exit_view c z h (kids c) (view l0)). split_and!; [exact E2|by eapply linked_trans|by apply exit_tree; eauto|].
      intros g Hg. destruct (sview_same l2 l1 (p_pptr t) g (eq_sym (lk_stat _ _ _ L2 _)) Hg) as (g1 & Hg1 & _). eapply (lk_sig _ _ _ L2); [exact Hg1|exact Hg|]. by apply Hsig.
  - assert (kids c = []) as Hnil by (by destruct (kids c)). exists l1, (view l0). split_and!; [done|done| |done].
    eapply tree_kids_ext; [|exact Ht]. intros i. unfold adopt, set_kids. rewrite Hnil. repeat case_decide; subst; done.
Qed.

(** ** Files *)

(** States that differ in the calls recorded only. *)
Record agree (s s' : lst) : Prop := {
  ag_s : k_s s' = k_s s; ag_m : k_m s' = k_m s; ag_math : last_task_used_math s' = last_task_used_math s;
  ag_page : task_page s' = task_page s }.
Lemma agree_call c s : agree s (add_call c s).
Proof. done. Qed.
Lemma agree_trans s1 s2 s3 : agree s1 s2 -> agree s2 s3 -> agree s1 s3.
Proof. intros [] []. split; congruence. Qed.

Lemma wp_iput i s (Q : unit -> lst -> Prop) : (forall s', agree s s' -> Q tt s') -> wp (iput i) Q s.
Proof. intros HQ. unfold iput. destruct i; [unfold call_; wp_simpl; apply HQ, agree_call|apply HQ; done]. Qed.

(** The parts of the memory state [mm_ok] is about. *)
Record mm_same (m m' : mm) : Prop := {
  ms_mem : mem m' = mem m; ms_map : mem_map m' = mem_map m; ms_high : HIGH_MEMORY m' = HIGH_MEMORY m; ms_bitmap : swap_bitmap m' = swap_bitmap m; ms_swap : swap_page m' = swap_page m }.
Lemma mm_same_ok m m' X : mm_ok m X -> mm_same m m' -> mm_ok m' X.
Proof. intros Hok [E1 E2 E3 E4 _]. apply (mm_frame m); [done|done|done|]. intros a _. by rewrite E1. Qed.

Lemma drop_files_ok s c t mt : tasks_of s !! c = Some (Some t) -> length (filp (info t)) = NR_OPEN -> mtasks (k_m s) !! c = Some (Some mt) ->
  exists s1 l1, drop_files c s = Ok tt s1 /\ k_s s1 = set_task l1 (k_s s) /\ linked (tasks_of s) l1 (view (tasks_of s)) /\ mm_same (k_m s) (k_m s1) /\
    task_page s1 = task_page s.
Proof.
  intros Hc Hlen Hmt.
  assert (wp (drop_files c) (fun _ s1 => exists l1, k_s s1 = set_task l1 (k_s s) /\ linked (tasks_of s) l1 (view (tasks_of s)) /\ mm_same (k_m s) (k_m s1) /\ task_page s1 = task_page s) s)
    as ([] & s1 & E & l1 & H)%wp_inv; [|by exists s1, l1].
  unfold drop_files. rewrite wp_bind. eapply wp_intro; [by apply tsk_ok|]. wp_simpl.
  eapply wp_mono; [apply (wp_for_range (fun _ s' => agree s s') NR_OPEN)|].
  - intros j s' Hj Ha. wp_simpl. destruct (lookup_lt_is_Some_2 (filp (info t)) j) as [f Hf]; [lia|]. eapply wp_idx; [exact Hf|].
    destruct f; [unfold call_; wp_simpl; by eapply agree_trans; [|apply agree_call]|done].
  - done.
  - intros [] s2 A2. wp_simpl. apply wp_iput. intros s3 A3. wp_simpl. apply wp_iput. intros s4 A4. pose proof (agree_trans _ _ _ (agree_trans _ _ _ A2 A3) A4) as A.
    rewrite wp_bind. destruct A as [As Am _ Ap]. eapply wp_intro; [apply upd_ok; by rewrite As|]. set (t2 := on_info _ t). rewrite As. set (l1 := <[c := Some t2]> (tasks_of s)).
    wp_simpl. eapply wp_idx; [cbn; rewrite Am; exact Hmt|]. wp_simpl. unfold deref. wp_simpl. apply wp_iput. intros s5 A5. wp_simpl. apply wp_iput. intros s6 A6.
    destruct (agree_trans _ _ _ A5 A6) as [Bs Bm _ Bp]. wp_simpl. exists l1. split_and!.
    + cbn. rewrite Bs. cbn. by rewrite As.
    + eapply linked_ext; [|eapply (linked_insert _ _ (view (tasks_of s)) c t t2 id); [apply linked_refl|done|done|done|done]].
      intros i. cbn. case_decide; [|done]. by destruct (view (tasks_of s) i).
    + cbn. rewrite Bm. cbn. rewrite Am. done.
    + cbn. rewrite Bp. cbn. by rewrite Ap.
Qed.

Lemma lift_m {A} (m : M mm A) s a x : m (k_m s) = Ok a x -> lift m s = Ok a (set_km x s).
Proof. intros E. unfold lift. cbn. by rewrite E. Qed.

(** ** exit *)

(** The task [c] can exit: it is neither the idle task nor init, it has its
    own 64 megabytes, is no session leader, and orphans no process group.
    (For a session leader, and for an orphaned group, [do_exit] goes through
    all slots of the task table without testing for empty ones.) *)
Record exit_pre (s : lst) (kids : nat -> list nat) (c : nat) (t : task_struct) (n1 n2 : nat) : Prop := {
  xp_current : current (k_s s) = c;
  xp_task : tasks_of s !! c = Some (Some t);
  xp_c : c <> 0%nat /\ c <> 1%nat;
  xp_sched : sched_ok (k_s s);
  xp_base : code_base (info t) = 4194304 * (16 * Z.of_nat c) /\ data_base (info t) = 4194304 * (16 * Z.of_nat c);
  xp_code : 0 < code_limit (info t) <= 67108864 /\ Z.of_nat n1 = (code_limit (info t) + 4194303) / 4194304;
  xp_data : 0 < data_limit (info t) <= 67108864 /\ Z.of_nat n2 = (data_limit (info t) + 4194303) / 4194304;
  xp_leader : leader (info t) = 0;
  xp_quiet : quiet (tasks_of s) kids c;
  xp_files : length (filp (info t)) = NR_OPEN;
  xp_mtask : exists mt, mtasks (k_m s) !! c = Some (Some mt) }.

Lemma limit_dirs n lim : 0 < lim <= 67108864 -> Z.of_nat n = (lim + 4194303) / 4194304 -> Z.of_nat n <= 16.
Proof. intros Hl ->. apply Z.lt_succ_r, Z.div_lt_upper_bound; lia. Qed.

(** The memory routines touch neither the tasks nor the inodes. *)
Definition mkeep {A} (m : M mm A) : Prop := forall s a s', m s = Ok a s' -> mtasks s' = mtasks s /\ i_count s' = i_count s.
Lemma mkeep_bind {A B} (m : M mm A) (f : A -> M mm B) : mkeep m -> (forall a, mkeep (f a)) -> mkeep (m ≫= f).
Proof.
  intros Hm Hf s b s' E. unfold mbind, M_bind in E. destruct (m s) as [a s1| | | |] eqn:Em; try done. destruct (Hf a s1 b s' E) as [-> ->]. by eapply Hm.
Qed.
Lemma mkeep_get {A} (f : mm -> A) : mkeep (gets f).
Proof. intros s a s' E. by injection E as _ <-. Qed.
Lemma mkeep_mod f : (forall s, mtasks (f s) = mtasks s /\ i_count (f s) = i_count s) -> mkeep (modify f).
Proof. intros Hf s a s' E. unfold modify in E. injection E as _ E. rewrite <- E. apply Hf. Qed.
Lemma mkeep_ret {A} (a : A) : mkeep (mret a).
Proof. intros s b s' E. by injection E as _ <-. Qed.
Lemma mkeep_panic {A} m : mkeep (panic (A := A) m).
Proof. done. Qed.
Lemma mkeep_idx {A} (l : list A) i : mkeep (idx l i).
Proof. intros s a s'. unfold idx. destruct (l !! i); [intros E; by injection E as _ <-|done]. Qed.
Lemma mkeep_for i n f : (forall j, mkeep (f j)) -> mkeep (for_range i n f).
Proof. intros Hf. revert i. induction n as [|n IH]; intros i; cbn [for_range]; [apply mkeep_ret|]. apply mkeep_bind; [apply Hf|]. intros _. apply IH. Qed.
Lemma mkeep_loop {A B} n (f : A -> M mm (A + B)) x : (forall y, mkeep (f y)) -> mkeep (loop n f x).
Proof.
  intros Hf. revert x. induction n as [|n IH]; intros x; cbn [loop]; [done|]. apply mkeep_bind; [apply Hf|]. intros [y|b]; [apply IH|apply mkeep_ret].
Qed.
Ltac mkeep := repeat match goal with
  | |- mkeep (loop _ _ _) => apply mkeep_loop; intros ?
  | |- mkeep (mbind _ _) => apply mkeep_bind; [|intros ?]
  | |- mkeep (gets _) => apply mkeep_get
  | |- mkeep (mret _) => apply mkeep_ret
  | |- mkeep (panic _) => apply mkeep_panic
  | |- mkeep (idx _ _) => apply mkeep_idx
  | |- mkeep (for_range _ _ _) => apply mkeep_for; intros ?
  | |- mkeep (modify _) => apply mkeep_mod; intros; split; reflexivity
  | |- mkeep (if ?b then _ else _) => destruct b
  | |- mkeep (match ?x with _ => _ end) => destruct x
  end.
Lemma mkeep_free from size : mkeep (free_page_tables from size).
Proof.
  unfold free_page_tables, free_dir, free_entry, free_page, swap_free, setbit, put_map, get_map, rd, wr, printk, skip. mkeep.
Qed.
Lemma mkeep_copy fuel from to size : mkeep (copy_page_tables fuel from to size).
Proof.
  assert (forall a, mkeep (free_page a)) as H1 by (intros a; unfold free_page, put_map, get_map, skip; mkeep).
  assert (mkeep get_swap_page) as H2 by (unfold get_swap_page, get_swap_step, clrbit, rd, wr; mkeep).
  assert (forall a, mkeep (try_to_swap_out a)) as H3.
  { intros a. unfold try_to_swap_out, get_map, write_swap_page, rd, wr. mkeep; auto. }
  assert (mkeep (get_free_page fuel)) as H4.
  { unfold get_free_page, get_free_page_step, grab_page, swap_out, swap_out_step, next_table_step, find_dir_step, next_dir, put_map, get_map, printk, rd. mkeep; auto. }
  unfold copy_page_tables, copy_dir, copy_entry, read_swap_page, put_map, get_map, rd, wr, skip. mkeep; auto.
Qed.

(** [do_exit] from where the files are gone, and from where the children are. *)
Definition exit_last (fuel c : nat) : M lst unit :=
  t ← tsk c;
  leave_session t ;;
  m ← gets last_task_used_math;
  (if bool_decide (m = Some c) then modify (set_math None) else skip) ;;
  audit_ptree ;;
  lift (schedule fuel).
Definition exit_rest (fuel : nat) (code : Z) (c : nat) : M lst unit :=
  upd c (fun t => on_info (set_exit_code code) (set_state TASK_ZOMBIE t)) ;; pass_children c ;; exit_last fuel c.

Lemma exit_memory fuel code s X kids c t n1 n2 : exit_pre s kids c t n1 n2 -> mm_ok (k_m s) X -> bitmap_ok (k_m s) X ->
  exists s3 l3, do_exit fuel code s = exit_rest fuel code c s3 /\ k_s s3 = set_task l3 (k_s s) /\ linked (tasks_of s) l3 (view (tasks_of s)) /\
    mm_ok (k_m s3) X /\ (forall j, (j < n2)%nat -> present (mem (k_m s3) (4 * (16 * Z.of_nat c) + 4 * Z.of_nat j)) = false).
Proof.
  intros [X1 X2 [X3 X4] X5 [B1 B2] [C1 C2] [D1 D2] X6 X7 X8 [mt X9]] Hok Hb.
  pose proof (limit_dirs _ _ C1 C2) as L1. pose proof (limit_dirs _ _ D1 D2) as L2.
  assert (c < 64)%nat as Hc64 by (apply lookup_lt_Some in X2; rewrite (so_len _ X5) in X2; exact X2).
  destruct (free_page_tables_ok (k_m s) X (16 * Z.of_nat c) n1 (code_limit (info t)) Hok Hb ltac:(lia) ltac:(lia) ltac:(lia) C2) as (m1 & E1 & F1).
  destruct (mkeep_free _ _ _ _ _ E1) as [K1 _]. pose proof (tf_bitmap _ _ _ _ _ F1) as Bm1.
  assert (bitmap_ok m1 X) as Hb1 by (intros b; rewrite Bm1; apply Hb).
  destruct (free_page_tables_ok m1 X (16 * Z.of_nat c) n2 (data_limit (info t)) (tf_ok _ _ _ _ _ F1) Hb1 ltac:(lia) ltac:(lia) ltac:(lia) D2) as (m2 & E2 & F2).
  destruct (mkeep_free _ _ _ _ _ E2) as [K2 _]. set (s2 := set_km m2 (set_km m1 s)).
  destruct (drop_files_ok s2 c t mt) as (s3 & l3 & E3 & S3 & L3 & M3 & _); [exact X2|done|cbn; by rewrite K2, K1|].
  exists s3, l3. split_and!; [|exact S3|exact L3|by eapply mm_same_ok; [apply F2|]|].
  - unfold do_exit. rewrite (bind_ok _ _ _ c s) by (unfold curr, gets; by rewrite X1). rewrite (bind_tsk _ _ _ _ X2), B1, B2.
    rewrite (bind_ok _ _ _ _ _ (lift_m _ s _ _ E1)), (bind_ok _ _ _ _ _ (lift_m _ (set_km m1 s) _ _ E2)). fold s2. by rewrite (bind_ok _ _ _ _ _ E3).
  - intros j Hj. rewrite (ms_mem _ _ M3). by apply F2.
Qed.

Lemma exit_last_ok fuel s c t kids depth : (2 <= fuel)%nat -> tasks_of s !! c = Some (Some t) -> leader (info t) = 0 -> state t = TASK_ZOMBIE -> c <> 0%nat ->
  sched_ok (k_s s) -> current (k_s s) = c -> tree (view (tasks_of s)) kids depth ->
  exists s', exit_last fuel c s = Switched s' /\ current (k_s s') <> c /\ k_m s' = k_m s /\ events (k_s s') = events (k_s s) /\
    (forall i, view (tasks_of s') i = view (tasks_of s) i) /\
    (forall i t, tasks_of s !! i = Some (Some t) -> exists u, tasks_of s' !! i = Some (Some u) /\ kept_task t u).
Proof.
  intros Hf Hc Hl Hz Hc0 Hs Hcur Ht. unfold exit_last. rewrite (bind_tsk _ _ _ _ Hc). unfold leave_session. rewrite Hl. cbn [Z.eqb]. erewrite bind_ok by reflexivity.
  erewrite bind_ok by reflexivity. set (s1 := if bool_decide (last_task_used_math s = Some c) then set_math None s else s).
  assert (k_s s1 = k_s s /\ k_m s1 = k_m s) as [Es Em] by (unfold s1; by case_bool_decide).
  rewrite (bind_ok _ _ _ tt s1) by (unfold s1; by case_bool_decide).
  rewrite (bind_ok _ _ _ _ _ (audit_ok s1 kids depth ltac:(by rewrite Es) ltac:(rewrite Es; apply Hs))).
  destruct (schedule_run (k_s s1) fuel ltac:(by rewrite Es) Hf) as (n & s2 & E & _ & Hn & Hev & Hcu & Hv & Hk). rewrite Es in *.
  assert (n <> c) as Hnc.
  { intros ->. destruct Hn as [Hn|(u & Hu & Hst)]; [done|]. destruct (Hk c t Hc) as (w & Hw & (_ & _ & Kz & _)). rewrite Hu in Hw. injection Hw as <-. rewrite (Kz Hz) in Hst. done. }
  assert ((n =? current (k_s s))%nat = false) as Hb by (apply Nat.eqb_neq; by rewrite Hcur). rewrite Hb in E.
  exists (set_ks (set_current n s2) s1). split_and!; [|done|done|done|done|done]. unfold lift. cbn [lget lens_ks]. by rewrite Es, E.
Qed.

Lemma exit_family s s3 l3 kids depth code c t n1 n2 : exit_pre s kids c t n1 n2 -> tree (view (tasks_of s)) kids depth ->
  k_s s3 = set_task l3 (k_s s) -> linked (tasks_of s) l3 (view (tasks_of s)) ->
  exists s5 t5, (forall fuel, exit_rest fuel code c s3 = exit_last fuel c s5) /\ k_m s5 = k_m s3 /\ sched_ok (k_s s5) /\ current (k_s s5) = c /\
    events (k_s s5) = events (k_s s) /\ tree (view (tasks_of s5)) (adopt c kids) depth /\ tasks_of s5 !! c = Some (Some t5) /\ state t5 = TASK_ZOMBIE /\
    exit_code (info t5) = code /\ leader (info t5) = 0 /\ exists f, tasks_of s5 !! p_pptr t = Some (Some f) /\ Z.testbit (signal f) 16 = true.
Proof.
  intros [X1 X2 [X3 X4] X5 _ _ _ X6 X7 X8 _] Ht S3 L3. assert (length (tasks_of s) = NR_TASKS) as Hlen by apply X5.
  assert (tasks_of s3 = l3) as T3 by (by rewrite S3).
  assert (view (tasks_of s) c = Some (links_of t)) as Vc by (unfold view; by rewrite X2).
  pose proof (lk_view _ _ _ L3 c) as V3. rewrite Vc in V3. apply view_lookup in V3 as (t3 & Ht3 & Et3).
  set (t4 := on_info (set_exit_code code) (set_state TASK_ZOMBIE t3)). set (l4 := <[c := Some t4]> l3). set (s4 := with_tasks l4 s3).
  assert (c < length l3)%nat as Hc3 by (by eapply lookup_lt_Some).
  assert (forall i, view l4 i = view (tasks_of s) i) as V4.
  { intros i. unfold l4. rewrite view_insert by done. case_decide as Dd; [|apply L3]. subst i. by rewrite Vc, <- Et3. }
  assert (forall i u, i <> c -> l4 !! i = Some (Some u) -> exists u0, tasks_of s !! i = Some (Some u0) /\ attrs u0 = attrs u) as S4.
  { intros i u Hi. unfold l4. rewrite list_lookup_insert_ne by done. intros Hu. apply (sview_same l3 (tasks_of s) i u (eq_sym (lk_stat _ _ _ L3 i)) Hu). }
  assert (pgrp (info t4) = pgrp (info t) /\ session (info t4) = session (info t) /\ leader (info t4) = leader (info t) /\ counter t4 = counter t /\ priority t4 = priority t) as (Q1 & Q2 & Q3 & Q4 & Q5).
  { destruct (sview_same l3 (tasks_of s) c t3 (eq_sym (lk_stat _ _ _ L3 c)) Ht3) as (u & Hu & Su). rewrite X2 in Hu. injection Hu as <-. unfold attrs in Su. injection Su as ? ? ? ? ? ? ? ? _ _. by subst t4. }
  assert (tree (view (tasks_of s4)) kids depth) as Ht4 by (by apply (tree_ext (view (tasks_of s)))).
  assert (length (tasks_of s4) = NR_TASKS) as Hlen4 by (cbn; unfold l4; rewrite length_insert, (lk_len _ _ _ L3); exact Hlen).
  assert (tasks_of s4 !! c = Some (Some t4)) as Hc4 by (by apply list_lookup_insert_eq).
  assert (p_pptr t4 = p_pptr t) as Ep by (change (p_pptr t4) with (lp (links_of t3)); by rewrite Et3).
  assert ((forall i, i <> c -> sview (tasks_of s4) i = sview (tasks_of s) i) /\
    (forall i u, tasks_of s !! i = Some (Some u) -> i <> c -> p_pptr u <> c -> exists k, view (tasks_of s4) i = Some k /\ lp k = p_pptr u)) as C4.
  { split; [intros i Hi; change (sview l4 i = sview (tasks_of s) i); unfold l4; rewrite sview_insert by done; rewrite decide_False by done; apply L3|].
    intros i u Hu _ _. exists (links_of u). split; [|done]. change (view l4 i = Some (links_of u)). rewrite V4. unfold view. by rewrite Hu. }
  assert (quiet (tasks_of s4) kids c) as Hq4.
  { intros i u w Hu Hw Hn. rewrite Hc4 in Hu. injection Hu as <-. rewrite Ep. assert (i <> c) as Hic.
    { intros ->. rewrite Hc4 in Hw. injection Hw as <-. unfold near in Hn. by rewrite Z.eqb_refl in Hn. }
    destruct (S4 i w Hic Hw) as (w0 & Hw0 & Sw). unfold attrs in Sw. injection Sw as _ _ _ _ _ Gp Gs _ _ _. rewrite Q1, <- Gp.
    assert (near w t4 = near w0 t) as En by (unfold near; by rewrite Q1, Q2, <- Gp, <- Gs). rewrite En in Hn. destruct (X7 i t w0 X2 Hw0 Hn) as [Hp Hk].
    split; intros Hi'; eapply contact_mono; [by apply Hp|by apply C4|by apply C4|by apply Hk|by apply C4|by apply C4]. }
  destruct (pass_children_ok s4 kids depth c t4 Ht4 X3 X4 Hc4 Hlen4 Hq4) as (l5 & v5 & E5 & L5 & Tr5 & Sig5). rewrite Ep in Sig5.
  set (s5 := with_tasks l5 s4).
  destruct (sview_same (tasks_of s4) l5 c t4 (lk_stat _ _ _ L5 c) Hc4) as (t5 & Ht5 & St5). unfold attrs in St5. injection St5 as _ _ _ Sta Exi _ _ Lea _ _.
  assert (length (tasks_of s5) = NR_TASKS) as Hlen5 by (cbn; by rewrite (lk_len _ _ _ L5)).
  assert (tree (view (tasks_of s5)) (adopt c kids) depth) as Ht5' by (apply (tree_ext v5); [apply (lk_view _ _ _ L5)|done]).
  assert (sched_ok (k_s s5)) as Hs5.
  { split; [exact Hlen5|]. intros i u Hu. destruct (sview_same l5 (tasks_of s4) i u (eq_sym (lk_stat _ _ _ L5 i)) Hu) as (u4 & Hu4 & Su4). unfold attrs in Su4. injection Su4 as G1 G2 _ _ _ _ _ _ _ _.
    unfold task_ok. rewrite <- G1, <- G2. destruct (decide (i = c)) as [->|Hi].
    - rewrite Hc4 in Hu4. injection Hu4 as <-. rewrite Q4, Q5. by apply (so_tasks _ X5 c t).
    - destruct (S4 i u4 Hi Hu4) as (u0 & Hu0 & Su0). unfold attrs in Su0. injection Su0 as G3 G4 _ _ _ _ _ _ _ _. rewrite <- G3, <- G4. by apply (so_tasks _ X5 i u0). }
  assert (exists f, l5 !! p_pptr t = Some (Some f)) as [f Hfl].
  { destruct (tr_par _ _ _ Ht c _ Vc) as [_ Hp]. specialize (Hp X3). cbn in Hp. destruct (tr_some _ _ _ Ht (p_pptr t)) as [k Hk]; [intros E; rewrite E in Hp; by apply not_elem_of_nil in Hp|].
    assert (view l4 (p_pptr t) = Some k) as Hk4 by (by rewrite V4). apply view_lookup in Hk4 as (f4 & Hf4 & _).
    destruct (sview_same l4 l5 (p_pptr t) f4 (lk_stat _ _ _ L5 _) Hf4) as (f & Hf & _). by exists f. }
  exists s5, t5. split_and!; try done.
  - intros fuel. unfold exit_rest. rewrite (bind_upd c t3) by (by rewrite T3). rewrite T3. fold t4 l4 s4. by rewrite (bind_ok _ _ _ _ _ E5).
  - unfold s5, s4. cbn. rewrite S3. exact X1.
  - unfold s5, s4. cbn. by rewrite S3.
  - rewrite Lea. by rewrite <- X6.
  - exists f. split; [done|by apply Sig5].
Qed.

(** C12.  Exit: for a task that is no session leader and whose exit orphans no
    process group (its own and those of its children in other groups of the
    session keep a living member whose parent, not init, is in another group
    of the session), [do_exit] gives the memory of the task back, turns it into a
    zombie with its exit code, signals its parent, hands all its children to
    init in the order they were in, finds nothing to complain about in the
    audit of the tree, and leaves for another task. *)
Theorem do_exit_correct fuel code s X kids depth c t n1 n2 :
  (2 <= fuel)%nat -> exit_pre s kids c t n1 n2 -> tree (view (tasks_of s)) kids depth -> mm_ok (k_m s) X -> bitmap_ok (k_m s) X ->
  exists s', do_exit fuel code s = Switched s' /\ current (k_s s') <> c /\ mm_ok (k_m s') X /\
    (forall j, (j < n2)%nat -> present (mem (k_m s') (4 * (16 * Z.of_nat c) + 4 * Z.of_nat j)) = false) /\
    tree (view (tasks_of s')) (adopt c kids) depth /\
    (exists t', tasks_of s' !! c = Some (Some t') /\ state t' = TASK_ZOMBIE /\ exit_code (info t') = code) /\
    (forall f, tasks_of s' !! p_pptr t = Some (Some f) -> Z.testbit (signal f) 16 = true) /\
    events (k_s s') = events (k_s s).
Proof.
  intros Hf Hpre Ht Hok Hb. destruct (exit_memory fuel code s X kids c t n1 n2 Hpre Hok Hb) as (s3 & l3 & E3 & S3 & L3 & Hok3 & Hgone).
  destruct (exit_family s s3 l3 kids depth code c t n1 n2 Hpre Ht S3 L3) as (s5 & t5 & E5 & M5 & Hs5 & Hcur5 & Ev5 & Ht5 & Hc5 & Z5 & X5 & L5 & Sig5).
  destruct (exit_last_ok fuel s5 c t5 (adopt c kids) depth Hf Hc5 L5 Z5 (proj1 (xp_c _ _ _ _ _ _ Hpre)) Hs5 Hcur5 Ht5) as (s' & E' & Hcur' & M' & Ev' & Hv' & Hk').
  exists s'. rewrite E3, E5, E', M', M5. split_and!; [done|done|done|done|by eapply tree_ext| | |by rewrite Ev'].
  - destruct (Hk' c t5 Hc5) as (u & Hu & (_ & Ki & Kz & _)). exists u. split_and!; [done|by apply Kz|by rewrite Ki].
  - intros f Hfl. destruct Sig5 as (f5 & Hf5 & Sf5). destruct (Hk' _ f5 Hf5) as (u & Hu & (_ & _ & _ & Ks)). rewrite Hfl in Hu. injection Hu as <-. by apply Ks.
Qed.

(** ** release *)

(** The kernel gives up its reference to page [n]. *)
Lemma unheld_ok s X n c : mm_ok s (held n X) -> 0 <= X n -> mem_map s !! n = Some c -> addr_of n < HIGH_MEMORY s ->
  1 <= c < 256 /\ mm_ok (set_map (<[n := c - 1]> (mem_map s)) s) X.
Proof.
  intros Hok HX Hn Hh. pose proof Hok as [H1 H2 H3 H4 H5 H6 H7 H8 H9]. destruct H6 as (R & HR & Hc).
  destruct (Hc n c Hn) as [Ec _]. unfold held in Ec. rewrite decide_True in Ec by done. pose proof (H2 n c Hn) as Hb. split; [lia|].
  assert (forall a, slot (mem s) a -> refers (mem s a) n -> 2 <= c) as Hr.
  { intros a Ha Hra. assert (a ∈ R n) as Hin by (by apply HR). pose proof (elem_size _ _ Hin). lia. }
  assert (forall a, slot (mem s) a -> refers (mem s a) n -> mem_map s !! n <> Some 1) as Hr1 by (intros a Ha Hra E; pose proof (Hr a Ha Hra); rewrite Hn in E; injection E as E; lia).
  split; cbn [mem mem_map HIGH_MEMORY set_map]; try done.
  - by rewrite length_insert.
  - intros k c' [(<- & <- & _)|[Hk Hc']]%list_lookup_insert_Some; [lia|by eapply H2].
  - intros k c' [(<- & <- & _)|[Hk Hc']]%list_lookup_insert_Some; [lia|by eapply H4].
  - exists R. split; [done|]. intros k c' [(<- & <- & _)|[Hk Hl]]%list_lookup_insert_Some; [lia|].
    specialize (Hc k c' Hl). unfold held in Hc. by rewrite decide_False in Hc.
  - intros d Hd Hp. destruct (H7 d Hd Hp) as [T1 T2]. split; [done|]. rewrite list_lookup_insert_ne; [done|].
    intros E. apply (Hr1 d); [by left|by split_and!; [|lia|]|by rewrite E].
  - intros a Ha Hp Hwr Hlo. specialize (H9 a Ha Hp Hwr Hlo). rewrite list_lookup_insert_ne; [done|].
    intros E. apply (Hr1 a); [by right|by split_and!|by rewrite E].
Qed.

(** The links of a task are taken out of the table, as [release] does it. *)
Definition unlink (p : nat) (t : task_struct) : M lst unit :=
  clear_slot p ;;
  (match p_osptr (info t) with None => skip | Some o => upd o (on_info (set_ysptr (p_ysptr (info t)))) end) ;;
  match p_ysptr (info t) with
  | Some y => upd y (on_info (set_osptr (p_osptr (info t))))
  | None => upd (p_pptr t) (on_info (set_cptr (p_osptr (info t))))
  end.

Lemma unlink_then {A} p t s s1 (k : M lst A) : unlink p t s = Ok tt s1 ->
  (clear_slot p ;;
   (match p_osptr (info t) with None => skip | Some o => upd o (on_info (set_ysptr (p_ysptr (info t)))) end) ;;
   (match p_ysptr (info t) with
    | Some y => upd y (on_info (set_osptr (p_osptr (info t))))
    | None => upd (p_pptr t) (on_info (set_cptr (p_osptr (info t))))
    end) ;; k) s = k s1.
Proof. unfold unlink, mbind, M_bind. intros E. repeat case_match; congruence. Qed.

Lemma view_None l p i : (p < length l)%nat -> view (<[p := None]> l) i = if decide (i = p) then None else view l i.
Proof. intros Hp. unfold view. case_decide as D; [subst; by rewrite list_lookup_insert_eq|by rewrite list_lookup_insert_ne]. Qed.

Lemma unlink_ok s kids depth p t : tree (view (tasks_of s)) kids depth -> tasks_of s !! p = Some (Some t) -> p <> 0%nat ->
  exists l, unlink p t s = Ok tt (with_tasks l (with_mtask p None s)) /\ linked (<[p := None]> (tasks_of s)) l (release_view p (links_of t) (view (tasks_of s))).
Proof.
  intros Ht Hp Hp0. assert (p < length (tasks_of s))%nat as Hlt by (by eapply lookup_lt_Some).
  assert (view (tasks_of s) p = Some (links_of t)) as Vp by (unfold view; by rewrite Hp).
  destruct (position _ _ _ Ht p _ Vp Hp0) as (j & Hj & Elo & Ely). cbn [lo ly lp links_of] in *. set (P := p_pptr t) in *. pose proof (tr_nodup _ _ _ Ht P) as Hnd.
  assert (forall k x, kids P !! k = Some x -> k <> j -> x <> p /\ is_Some (view (tasks_of s) x)) as Hsib.
  { intros k x Hk Hkj. split; [intros ->; apply Hkj; by eapply NoDup_lookup|]. destruct (tr_kid _ _ _ Ht P k x Hk) as (w & Hw & _). by exists w. }
  set (l0 := <[p := None]> (tasks_of s)). assert (forall i, i <> p -> view l0 i = view (tasks_of s) i) as V0 by (intros i Hi; unfold l0; rewrite view_None by done; by rewrite decide_False).
  assert (forall x, p_osptr (info t) = Some x -> x <> p /\ is_Some (view l0 x)) as Ho.
  { intros x Hx. destruct (Hsib (S j) x) as [H1 H2]; [by rewrite <- Elo|lia|]. split; [done|by rewrite V0]. }
  assert (forall x, p_ysptr (info t) = Some x -> x <> p /\ is_Some (view l0 x) /\ p_osptr (info t) <> Some x) as Hy.
  { intros x Hx. destruct j as [|j]; [by rewrite Hx in Ely|]. cbn [before] in Ely. rewrite Hx in Ely. destruct (Hsib j x) as [H1 H2]; [done|lia|].
    split_and!; [done|by rewrite V0|]. rewrite Elo. intros E. assert (j = S (S j)); [|lia]. by eapply NoDup_lookup. }
  assert (P <> p) as HPp by (intros E; apply (kid_not_self _ _ _ Ht P), list_elem_of_lookup; exists j; by rewrite E at 2).
  assert (is_Some (view l0 P)) as HP by (rewrite V0 by done; apply (tr_some _ _ _ Ht); intros E; by rewrite E in Hj).
  unfold unlink. rewrite (bind_ok _ _ _ _ _ (clear_slot_ok p _ s Hp)). fold l0. set (sm := with_mtask p None s). pose proof (linked_refl l0) as L0.
  set (v1 := fun i => if decide (p_osptr (info t) = Some i) then (fun k => mkLinks (lp k) (lc k) (p_ysptr (info t)) (lo k)) <$> view l0 i else view l0 i).
  assert (exists l1, (match p_osptr (info t) with None => skip | Some o => upd o (on_info (set_ysptr (p_ysptr (info t)))) end) (with_tasks l0 sm) = Ok tt (with_tasks l1 sm) /\ linked l0 l1 v1) as (l1 & E1 & L1).
  { unfold v1. destruct (p_osptr (info t)) as [o|] eqn:Eo; [|exists l0; split; [done|by eapply linked_ext; [|exact L0]]].
    destruct (linked_upd l0 l0 _ o (on_info (set_ysptr (p_ysptr (info t)))) (fun k => mkLinks (lp k) (lc k) (p_ysptr (info t)) (lo k)) sm L0) as (l1 & E1 & L1); [by apply Ho|done|done|done|].
    exists l1. split; [done|]. eapply linked_ext; [|exact L1]. intros i. cbn. repeat case_decide; congruence. }
  rewrite (bind_ok _ _ _ _ _ E1). destruct (p_ysptr (info t)) as [y|] eqn:Ey.
  - destruct (Hy y eq_refl) as (Hyp & Hys & Hyo).
    destruct (linked_upd l0 l1 _ y (on_info (set_osptr (p_osptr (info t)))) (fun k => mkLinks (lp k) (lc k) (ly k) (p_osptr (info t))) sm L1) as (l2 & E2 & L2); [unfold v1; by rewrite decide_False|done|done|done|].
    exists l2. split; [done|]. eapply linked_ext; [|exact L2]. intros i. cbn beta. unfold release_view, v1. cbn [lp lc ly lo links_of]. rewrite Ey. destruct (decide (i = p)) as [->|Hi].
    + rewrite !decide_False; [unfold l0; rewrite view_None, decide_True by done; done|intros E; by apply (Ho p)|done].
    + rewrite V0 by done. destruct (view (tasks_of s) i) as [k|]; [|by repeat case_decide]. repeat case_decide; destruct_and?; simplify_eq; try done; by destruct k.
  - destruct (linked_upd l0 l1 _ P (on_info (set_cptr (p_osptr (info t)))) (fun k => mkLinks (lp k) (p_osptr (info t)) (ly k) (lo k)) sm L1) as (l2 & E2 & L2);
      [unfold v1; case_decide; [destruct HP as [? ->]; by eexists|done]|done|done|done|].
    exists l2. split; [done|]. eapply linked_ext; [|exact L2]. intros i. cbn beta. unfold release_view, v1. cbn [lp lc ly lo links_of]. fold P. rewrite Ey. destruct (decide (i = p)) as [->|Hi].
    + rewrite !decide_False; [unfold l0; rewrite view_None, decide_True by done; done|intros E; by apply (Ho p)|done].
    + rewrite V0 by done. destruct (view (tasks_of s) i) as [k|]; [|by repeat case_decide]. cbn [fmap option_fmap option_map].
      rewrite (decide_False (P := None = Some i)) by done. destruct (decide (i = P)) as [->|HiP]; [rewrite (decide_True (P := P = P /\ _)) by done|rewrite (decide_False (P := i = P /\ _)) by (by intros [? _])];
        (case_decide; [done|by destruct k]).
Qed.

Lemma page_count s X n : mm_ok s X -> addr_of n < HIGH_MEMORY s -> exists c, mem_map s !! n = Some c.
Proof.
  intros Hok Hh. pose proof (ok_high _ _ Hok). apply lookup_lt_is_Some_2. rewrite (ok_len _ _ Hok). unfold addr_of, LOW_MEM, PAGING_PAGES in *. lia.
Qed.
Lemma free_held s X n : mm_ok s (held n X) -> 0 <= X n -> addr_of n < HIGH_MEMORY s ->
  exists s', free_page (addr_of n) s = Ok tt s' /\ mm_ok s' X.
Proof.
  intros Hok HX Hh. destruct (page_count _ _ _ Hok Hh) as [c Hc]. destruct (unheld_ok s X n c Hok HX Hc Hh) as [Hc1 Hok'].
  eexists. split; [|exact Hok']. rewrite <- (nr_addr_of n) in Hc |- * at 2. apply free_page_ok; [|unfold addr_of, LOW_MEM in *; lia|done|done].
  apply frame_addr_of. rewrite nr_addr_of in Hc. rewrite <- (ok_len _ _ Hok). by eapply lookup_lt_Some.
Qed.

(** [release] takes a dead child without children out of the task table and
    of its parent's list of children, the others keeping their order, and
    gives the page of its task structure back; it then lets the scheduler
    choose, and returns if the caller is chosen. *)
Lemma release_ok fuel s X kids depth p t n l1 l2 :
  (2 <= fuel)%nat -> sched_ok (k_s s) -> tree (view (tasks_of s)) kids depth ->
  tasks_of s !! p = Some (Some t) -> (p <> 0 /\ p <> 1 /\ p <> current (k_s s))%nat -> kids p = [] -> kids (p_pptr t) = l1 ++ p :: l2 ->
  mm_ok (k_m s) (held n X) -> 0 <= X n -> addr_of n < HIGH_MEMORY (k_m s) -> task_page s p = addr_of n ->
  exists s', release fuel (Some p) s = (if (current (k_s s') =? current (k_s s))%nat then Ok tt s' else Switched s') /\
    tasks_of s' !! p = Some None /\ tree (view (tasks_of s')) (set_kids (p_pptr t) (l1 ++ l2) kids) depth /\ mm_ok (k_m s') X /\ calls s' = calls s /\
    length (tasks_of s') = NR_TASKS /\
    (forall i u, i <> p -> tasks_of s !! i = Some (Some u) -> exists u', tasks_of s' !! i = Some (Some u') /\
       exit_code (info u') = exit_code (info u) /\ pgrp (info u') = pgrp (info u) /\ session (info u') = session (info u) /\
       cutime (info u') = cutime (info u) /\ cstime (info u') = cstime (info u)).
Proof.
  intros Hf Hs Ht Hp (Hp0 & Hp1 & Hpc) Hnil Hsplit Hok HX Hh Hpg.
  assert (p < length (tasks_of s))%nat as Hlt by (by eapply lookup_lt_Some).
  destruct (unlink_ok s kids depth p t Ht Hp Hp0) as (l & E & L). set (sm := with_mtask p None s).
  destruct (free_held (k_m sm) X n) as (m & Em & Hm); [by eapply mm_same_ok|done|done|].
  pose proof (lk_stat _ _ _ L) as Ls. set (s1 := set_km m (with_tasks l sm)).
  assert (forall i u, l !! i = Some (Some u) -> exists u0, tasks_of s !! i = Some (Some u0) /\ attrs u0 = attrs u) as Hold.
  { intros i u Hu. destruct (sview_same l _ i u (eq_sym (Ls i)) Hu) as (u0 & [(-> & Hu0 & _)|[_ Hu0]]%list_lookup_insert_Some & S0); [done|by exists u0]. }
  assert (sched_ok (k_s s1)) as Hs1.
  { split; cbn; [rewrite (lk_len _ _ _ L), length_insert; apply Hs|]. intros i u Hu. destruct (Hold i u Hu) as (u0 & Hu0 & S0). unfold attrs in S0. injection S0 as G1 G2 _ _ _ _ _ _ _ _.
    unfold task_ok. rewrite <- G1, <- G2. by apply (so_tasks _ Hs i). }
  destruct (schedule_run (k_s s1) fuel Hs1 Hf) as (k & s2 & Es & Hs2 & _ & _ & Hcu & Hv & Hk).
  exists (set_ks (set_current k s2) s1). split_and!.
  - unfold release. rewrite (bind_ok _ _ _ (current (k_s s)) s) by done. rewrite (proj2 (Nat.eqb_neq _ _) Hpc). rewrite (bind_ok _ _ _ (tasks_of s) s) by done.
    rewrite Hp, (proj2 (Nat.eqb_neq _ _) Hp0), (unlink_then _ _ _ _ _ E).
    rewrite (bind_ok _ _ _ (task_page s) (with_tasks l sm)) by done. rewrite Hpg.
    rewrite (bind_ok _ _ _ _ _ (lift_m _ (with_tasks l sm) _ _ Em)). fold s1. unfold lift. cbn [lget lens_ks]. rewrite Es. cbn [k_s set_ks current set_current].
    change (current (k_s s1)) with (current (k_s s)). destruct (Nat.eqb_spec k (current (k_s s))) as [->|_]; [|done].
    change (current (k_s s)) with (current (k_s s1)). rewrite <- Hcu. by destruct s2.
  - change (task s2 !! p = Some None). destruct (lookup_lt_is_Some_2 (task s2) p) as [x Hx].
    { pose proof (so_len _ Hs). pose proof (so_len _ Hs2). unfold s1 in *. lia. }
    rewrite Hx. destruct x as [x|]; [|done]. assert (view (task s2) p = Some (links_of x)) as V by (unfold view; by rewrite Hx).
    rewrite Hv in V. change (view l p = Some (links_of x)) in V. rewrite (lk_view _ _ _ L) in V. unfold release_view in V. by rewrite decide_True in V.
  - change (tree (view (task s2)) (set_kids (p_pptr t) (l1 ++ l2) kids) depth). eapply tree_ext; [intros i; rewrite Hv; apply (lk_view _ _ _ L)|].
    assert (view (tasks_of s) p = Some (links_of t)) as Vp by (unfold view; by rewrite Hp). by apply (release_tree _ _ _ p (links_of t)).
  - exact Hm.
  - done.
  - apply Hs2.
  - intros i u Hi Hu. change (tasks_of (set_ks (set_current k s2) s1)) with (task s2).
    destruct (sview_same (<[p := None]> (tasks_of s)) l i u (Ls i)) as (u1 & Hu1 & S1); [by rewrite list_lookup_insert_ne|].
    unfold attrs in S1. injection S1 as _ _ _ _ S1 S2 S3 _ S4 S5. destruct (Hk i u1 Hu1) as (u2 & Hu2 & (_ & Ki & _)). exists u2. rewrite Ki. done.
Qed.

(** ** waitpid *)

Section Wait.
Context (fuel : nat) (n stat_addr options : Z) (s : lst) (kids : nat -> list nat) (depth : nat -> nat) (c : nat) (ct : task_struct).
Context (Htree : tree (view (tasks_of s)) kids depth) (Hcur : current (k_s s) = c) (Hct : tasks_of s !! c = Some (Some ct)).

(** A child there is nothing to report of: [Some true] if the caller has to
    wait for it. *)
Definition passed (t : task_struct) : option bool :=
  if negb (wanted n ct t) then Some false
  else if state t =? TASK_STOPPED then (if (Z.land options WUNTRACED =? 0) || (exit_code (info t) =? 0) then Some false else None)
  else if state t =? TASK_ZOMBIE then None else Some true.
Definition alive (p : nat) : bool :=
  match tasks_of s !! p with Some (Some t) => bool_decide (passed t = Some true) | _ => false end.
Definition nothing (p : nat) : Prop := exists t, tasks_of s !! p = Some (Some t) /\ is_Some (passed t).

Lemma wait_skip j p flag : kids c !! j = Some p -> nothing p ->
  wait_step fuel n stat_addr options (Some p, flag) s = Ok (inl (kids c !! S j, flag || alive p)) s.
Proof.
  intros Hj (t & Ht & [b Hb]). destruct (tr_kid _ _ _ Htree c j p Hj) as (k & Hk & _ & Elo & _). apply view_lookup in Hk as (t' & Ht' & Ek).
  rewrite Ht in Ht'. injection Ht' as <-. rewrite <- Ek in Elo. cbn in Elo. unfold wait_step.
  rewrite (bind_ok _ _ _ c s) by (unfold curr, gets; by rewrite Hcur). rewrite (bind_tsk _ _ _ _ Hct), (bind_tsk _ _ _ _ Ht), Elo.
  unfold alive. rewrite Ht. unfold passed in *. repeat case_match; simplify_eq; cbn; by rewrite ?orb_false_r, ?orb_true_r.
Qed.

Lemma wait_passes l1 : forall l0 l2 flag m, kids c = l0 ++ l1 ++ l2 -> Forall nothing l1 ->
  loop (length l1 + m) (wait_step fuel n stat_addr options) ((l1 ++ l2) !! 0%nat, flag) s =
  loop m (wait_step fuel n stat_addr options) (l2 !! 0%nat, flag || existsb alive l1) s.
Proof.
  induction l1 as [|p l1 IH]; intros l0 l2 flag m Hk Hn; [by rewrite orb_false_r|]. apply Forall_cons in Hn as [Hp Hn'].
  assert (kids c !! length l0 = Some p) as Hj by (rewrite Hk, lookup_app_r, Nat.sub_diag by lia; done).
  cbn [length Nat.add app lookup list_lookup]. rewrite (loop_next _ _ _ _ _ _ (wait_skip (length l0) p flag Hj Hp)).
  assert (kids c !! S (length l0) = (l1 ++ l2) !! 0%nat) as -> by (rewrite Hk, lookup_app_r by lia; by replace (S (length l0) - length l0)%nat with 1%nat by lia).
  rewrite (IH (l0 ++ [p])); [|by rewrite <- app_assoc|done]. cbn [existsb]. by rewrite orb_assoc.
Qed.

Definition wait_after (l : option Z * bool) : M lst (Z + Z) :=
  let '(r, flag) := l in
  match r with Some r => mret (inl r) | None =>
  if negb flag then mret (inl (- ECHILD)) else
  if negb (Z.land options WNOHANG =? 0) then mret (inl 0) else
  t ← tsk c;
  upd c (set_state TASK_INTERRUPTIBLE) ;;
  upd c (set_blocked (Z.land (blocked t) (Z.lnot (_S SIGCHLD)))) ;;
  lift (schedule fuel) ;;
  mret (inr (blocked t))
  end.
Lemma wait_pass_start :
  wait_pass fuel n stat_addr options s = (loop (S NR_TASKS) (wait_step fuel n stat_addr options) (kids c !! 0%nat, false) ≫= wait_after) s.
Proof.
  unfold wait_pass. rewrite (bind_ok _ _ _ c s) by (unfold curr, gets; by rewrite Hcur). rewrite (bind_tsk _ _ _ _ Hct).
  assert (view (tasks_of s) c = Some (links_of ct)) as Vc by (unfold view; by rewrite Hct).
  destruct (tr_par _ _ _ Htree c _ Vc) as [Ec _]. cbn in Ec. by rewrite Ec.
Qed.

(** waitpid without a result: if no child that is asked for is dead, or
    stopped and not reported yet, the call fails with ECHILD when none of the
    children is asked for, and with WNOHANG returns 0 when one is; nothing
    changes. *)
Theorem wait_without_result : length (tasks_of s) = NR_TASKS -> Forall nothing (kids c) ->
  (existsb alive (kids c) = false -> wait_pass fuel n stat_addr options s = Ok (inl (- ECHILD)) s) /\
  (existsb alive (kids c) = true -> Z.land options WNOHANG <> 0 -> wait_pass fuel n stat_addr options s = Ok (inl 0) s).
Proof.
  intros Hlen Hn. pose proof (kids_bound _ _ _ c Htree) as Hb. rewrite Hlen in Hb.
  assert (loop (S NR_TASKS) (wait_step fuel n stat_addr options) (kids c !! 0%nat, false) s = Ok (None, existsb alive (kids c)) s) as E.
  { pose proof (wait_passes (kids c) [] [] false (S (NR_TASKS - length (kids c))) ltac:(by rewrite app_nil_r) Hn) as W. rewrite app_nil_r in W.
    replace (S NR_TASKS) with (length (kids c) + S (NR_TASKS - length (kids c)))%nat by lia. rewrite W. by apply loop_done. }
  rewrite wait_pass_start, (bind_ok _ _ _ _ _ E). unfold wait_after. split; [by intros ->|]. intros -> Hw. by rewrite (proj2 (Z.eqb_neq _ _) Hw).
Qed.

(** The step at a dead child, given what [release] does. *)
Lemma wait_step_dead p t flag m s' kids' : tasks_of s !! p = Some (Some t) -> wanted n ct t = true -> state t = TASK_ZOMBIE ->
  let ct1 := on_info (set_ctimes (s32 (cutime (info ct) + utime t)) (s32 (cstime (info ct) + stime t))) ct in
  release fuel (Some p) (add_call (CPutLong (exit_code (info t)) stat_addr) (with_tasks (<[c := Some ct1]> (tasks_of s)) s)) =
    (if (current (k_s s') =? c)%nat then Ok tt s' else Switched s') ->
  tree (view (tasks_of s')) kids' depth -> length (tasks_of s') = NR_TASKS ->
  loop (S m) (wait_step fuel n stat_addr options) (Some p, flag) s = (if (current (k_s s') =? c)%nat then Ok (Some (pid t), flag) s' else Switched s').
Proof.
  intros Hp Hw Hz ct1 E Ht' Hl'.
  assert (wait_step fuel n stat_addr options (Some p, flag) s = (if (current (k_s s') =? c)%nat then Ok (inr (Some (pid t), flag)) s' else Switched s')) as Es.
  { unfold wait_step. rewrite (bind_ok _ _ _ c s) by (unfold curr, gets; by rewrite Hcur). rewrite (bind_tsk _ _ _ _ Hct), (bind_tsk _ _ _ _ Hp), Hw, Hz. cbn [negb Z.eqb].
    change (TASK_ZOMBIE =? TASK_STOPPED) with false. change (TASK_ZOMBIE =? TASK_ZOMBIE) with true. cbn iota.
    rewrite (bind_upd _ _ _ _ _ Hct). erewrite bind_ok by reflexivity. unfold mbind at 1, M_bind at 1. fold ct1. rewrite E.
    destruct (current (k_s s') =? c)%nat; [|done]. by rewrite (bind_ok _ _ _ _ _ (audit_ok s' kids' depth Ht' Hl')). }
  destruct (current (k_s s') =? c)%nat; [by apply loop_done|]. cbn [loop]. unfold mbind, M_bind. by rewrite Es.
Qed.

(** C40.  waitpid reaps: once [verify_area] has made the status word writable,
    and the first child with something to report is dead and has no children,
    [sys_waitpid]
    stores its exit code, adds its user and system times to the caller's, takes it out of the
    table and of the list of children, gives its page back, and returns its
    process id, unless the scheduler called by [release] has another task run
    first. *)
Theorem wait_reaps s0 X p t k l1 l2 :
  (2 <= fuel)%nat -> verify_area fuel stat_addr 4 s0 = Ok tt s -> sched_ok (k_s s) -> c <> 0%nat -> kids c = l1 ++ p :: l2 -> Forall nothing l1 ->
  tasks_of s !! p = Some (Some t) -> wanted n ct t = true -> state t = TASK_ZOMBIE -> kids p = [] ->
  mm_ok (k_m s) (held k X) -> 0 <= X k -> addr_of k < HIGH_MEMORY (k_m s) -> task_page s p = addr_of k ->
  exists s', sys_waitpid fuel n stat_addr options s0 = (if (current (k_s s') =? c)%nat then Ok (pid t) s' else Switched s') /\
    tasks_of s' !! p = Some None /\ tree (view (tasks_of s')) (set_kids c (l1 ++ l2) kids) depth /\ mm_ok (k_m s') X /\
    calls s' = calls s ++ [CPutLong (exit_code (info t)) stat_addr] /\
    exists ct', tasks_of s' !! c = Some (Some ct') /\ cutime (info ct') = s32 (cutime (info ct) + utime t) /\ cstime (info ct') = s32 (cstime (info ct) + stime t).
Proof.
  intros Hf Hva Hs Hc0 Hk Hn Hp Hw Hz Hnil Hok HX Hh Hpg.
  assert (p ∈ kids c) as Hin by (rewrite Hk; apply elem_of_app; right; left). assert (p <> c) as Hpc by (intros ->; by apply (kid_not_self _ _ _ Htree c)).
  assert (p_pptr t = c) as Hpp.
  { destruct (kid_parent _ _ _ Htree c p Hin) as (w & Hw' & E & _). apply view_lookup in Hw' as (t' & Ht' & <-). rewrite Hp in Ht'. by injection Ht' as <-. }
  assert (p <> 0%nat /\ p <> 1%nat) as [Hp0 Hp1].
  { split; intros ->; [by apply (tr_zero _ _ _ Htree c)|]. apply Hc0. eapply (kid_unique _ _ _ Htree); [exact Hin|]. rewrite (tr_init _ _ _ Htree). left. }
  set (ct1 := on_info (set_ctimes (s32 (cutime (info ct) + utime t)) (s32 (cstime (info ct) + stime t))) ct).
  assert (c < length (tasks_of s))%nat as Hlt by (by eapply lookup_lt_Some).
  set (s1 := add_call (CPutLong (exit_code (info t)) stat_addr) (with_tasks (<[c := Some ct1]> (tasks_of s)) s)).
  assert (forall i, view (tasks_of s1) i = view (tasks_of s) i) as V1.
  { intros i. cbn. rewrite view_insert by done. case_decide as D; [|done]. subst i. unfold view. by rewrite Hct. }
  assert (sched_ok (k_s s1)) as Hs1.
  { split; cbn; [rewrite length_insert; apply Hs|]. intros i u [(<- & Hu & _)|[_ Hu]]%list_lookup_insert_Some; [|by eapply (so_tasks _ Hs)].
    injection Hu as <-. by apply (so_tasks _ Hs c ct). }
  destruct (release_ok fuel s1 X kids depth p t k l1 l2 Hf Hs1) as (s' & E & H1 & H2 & H3 & H4 & H5 & H6);
    [by eapply tree_ext|cbn; by rewrite list_lookup_insert_ne|cbn; by rewrite Hcur|done|by rewrite Hpp|done|done|done|done|].
  rewrite Hpp in H2. exists s'. split_and!; [|done|done|done|done|].
  - assert (loop (S NR_TASKS) (wait_step fuel n stat_addr options) (kids c !! 0%nat, false) s =
      (if (current (k_s s') =? c)%nat then Ok (Some (pid t), existsb alive l1) s' else Switched s')) as El.
    { pose proof (kids_bound _ _ _ c Htree) as Hb. rewrite (so_len _ Hs), Hk, length_app in Hb. cbn [length] in Hb.
      replace (S NR_TASKS) with (length l1 + S (NR_TASKS - length l1))%nat by lia. rewrite Hk, (wait_passes l1 [] (p :: l2) false _ Hk Hn). cbn [lookup list_lookup orb].
      eapply wait_step_dead; try done.  fold ct1 s1. rewrite E. change (current (k_s s1)) with (current (k_s s)). by rewrite Hcur. }
    unfold sys_waitpid. rewrite (bind_ok _ _ _ _ _ Hva). match goal with |- loop fuel ?f tt s = _ => replace (loop fuel f) with (loop (S (pred fuel)) f) by (f_equal; lia) end.
    assert (wait_pass fuel n stat_addr options s = (if (current (k_s s') =? c)%nat then Ok (inl (pid t)) s' else Switched s')) as Ew.
    { rewrite wait_pass_start. unfold mbind, M_bind. rewrite El. by destruct (current (k_s s') =? c)%nat. }
    destruct (current (k_s s') =? c)%nat; [apply loop_done; by rewrite (bind_ok _ _ _ _ _ Ew)|]. cbn [loop]. unfold mbind, M_bind. by rewrite Ew.
  - destruct (H6 c ct1) as (u & Hu & _ & _ & _ & Cu & Cs); [done|cbn; by apply list_lookup_insert_eq|]. by exists u.
Qed.
End Wait.

(** ** A family: init, its child 2 and, in slot 3, a child of 2 *)

Definition member (st : Z) (i up : nat) (down : option nat) : task_struct :=
  mkTask st 10 15 0 0 (Z.of_nat i) up 0 0 0 0 0 0 0 0
    (mkInfo 0 1 1 0 (-1) down None None (replicate 32 0) 0 0 0 (replicate 20 None) (Some 5%nat) (Some 5%nat)
       (67108864 * Z.of_nat i) 4194304 (67108864 * Z.of_nat i) 4194304 no_tss).
Definition family_mm : mm :=
  let m := grabbed 0 demo_mm in
  mkMm (mem m) (mem_map m) (HIGH_MEMORY m) None 0 (fun _ _ => 0) None 16 (-1)
    (replicate 4 (Some (mkMtask 0 0 (Some 6%nat) None)) ++ replicate 60 None) 0 (fun _ => 0) [] None.
Definition family (cur : nat) (kid : bool) : lst :=
  mkL (mkS (Some (member TASK_RUNNING 0 0 (Some 1%nat)) :: Some (member TASK_RUNNING 1 0 (Some 2%nat)) ::
         Some (member TASK_RUNNING 2 1 (if kid then Some 3%nat else None)) :: (if kid then Some (member TASK_ZOMBIE 3 2 None) else None) :: replicate 60 None)
       cur 100 (replicate 4 None) (replicate 4 0) (replicate 4 0) 12 0 (replicate 64 (mkTimer 0 None None)) None 0 0 0 0 0 [])
    family_mm 3 (fun _ => addr_of 0) (fun _ => 1) None (fun _ => (0, 0)) 0 [].
Definition family_kids (kid : bool) (i : nat) : list nat :=
  match i with 0%nat => [1%nat] | 1%nat => [2%nat] | 2%nat => if kid then [3%nat] else [] | _ => [] end.

Lemma family_lookup cur kid i t : tasks_of (family cur kid) !! i = Some (Some t) -> (i <= 3)%nat.
Proof. destruct i as [|[|[|[|i]]]]; [lia..|]. intros H. change (replicate 60 None !! i = Some (Some t)) in H. by apply lookup_replicate in H as [? _]. Qed.
Lemma family_view cur kid i k : view (tasks_of (family cur kid)) i = Some k -> (i <= 3)%nat.
Proof. intros (t & Ht & _)%view_lookup. by eapply family_lookup. Qed.
Lemma family_tree cur kid : tree (view (tasks_of (family cur kid))) (family_kids kid) id.
Proof.
  split.
  - intros i j x Hj. destruct i as [|[|[|i]]]; cbn in Hj; try done; [| |destruct kid; [|done]]; (destruct j as [|j]; [|done]; injection Hj as <-; eexists; split; [reflexivity|]; cbn; split_and!; (done || lia)).
  - intros i k Hk. pose proof (family_view _ _ _ _ Hk) as Hi. destruct i as [|[|[|[|i]]]]; [| | | |lia]; destruct kid; cbn in Hk; try done; injection Hk as <-; cbn; (split; [done|]); intros; (done || left).
  - intros i Hi. destruct i as [|[|[|i]]]; [by eexists..|done].
  - intros i. destruct i as [|[|[|i]]]; cbn; [apply NoDup_singleton..| |apply NoDup_nil_2]. destruct kid; [apply NoDup_singleton|apply NoDup_nil_2].
  - intros i. destruct i as [|[|[|i]]]; cbn; [by intros ?%list_elem_of_singleton..| |apply not_elem_of_nil]. destruct kid; [by intros ?%list_elem_of_singleton|apply not_elem_of_nil].
  - done.
Qed.
Lemma family_sched cur kid : sched_ok (k_s (family cur kid)).
Proof.
  split; [reflexivity|]. intros i t Ht. pose proof (family_lookup _ _ _ _ Ht) as Hi.
  destruct i as [|[|[|[|i]]]]; [| | | |lia]; cbn in Ht; (destruct kid; try done; injection Ht as <-; unfold task_ok; cbn; lia).
Qed.
Lemma family_mm_ok : mm_ok family_mm (held 0 no_users).
Proof. eapply mm_same_ok; [apply (grabbed_ok demo_mm no_users 0 demo_ok eq_refl)|done]. Qed.

(** A shell, task 2, with a job of two processes, tasks 3 and 4 of group 3;
    task 5 is a dead child of task 3. *)
Definition job_member (st : Z) (i up : nat) (down young old : option nat) (g : Z) : task_struct :=
  mkTask st 10 15 0 0 (Z.of_nat i) up 0 0 0 0 0 0 0 0
    (mkInfo 0 g 1 0 (-1) down young old (replicate 32 0) 0 0 0 (replicate 20 None) (Some 5%nat) (Some 5%nat)
       (67108864 * Z.of_nat i) 4194304 (67108864 * Z.of_nat i) 4194304 no_tss).
Definition job_tasks : list (option task_struct) :=
  [Some (job_member TASK_RUNNING 0 0 (Some 1%nat) None None 0); Some (job_member TASK_RUNNING 1 0 (Some 2%nat) None None 1);
   Some (job_member TASK_INTERRUPTIBLE 2 1 (Some 4%nat) None None 2); Some (job_member TASK_RUNNING 3 2 (Some 5%nat) (Some 4%nat) None 3);
   Some (job_member TASK_RUNNING 4 2 None None (Some 3%nat) 3); Some (job_member TASK_ZOMBIE 5 3 None None None 3)].
Definition job_mm : mm :=
  mkMm (mem family_mm) (mem_map family_mm) (HIGH_MEMORY family_mm) None 0 (fun _ _ => 0) None 16 (-1)
    (replicate 6 (Some (mkMtask 0 0 (Some 6%nat) None)) ++ replicate 58 None) 0 (fun _ => 0) [] None.
Definition job : lst :=
  mkL (set_task (job_tasks ++ replicate 58 None) (set_current 3 (k_s (family 3 true)))) job_mm 3 (fun _ => addr_of 0) (fun _ => 1) None (fun _ => (0, 0)) 0 [].
Definition job_kids (i : nat) : list nat :=
  match i with 0%nat => [1%nat] | 1%nat => [2%nat] | 2%nat => [4%nat; 3%nat] | 3%nat => [5%nat] | _ => [] end.

Lemma job_lookup i t : tasks_of job !! i = Some (Some t) -> (i <= 5)%nat.
Proof. destruct i as [|[|[|[|[|[|i]]]]]]; [lia..|]. intros H. change (replicate 58 None !! i = Some (Some t)) in H. by apply lookup_replicate in H as [? _]. Qed.
Ltac job_cases Ht := pose proof (job_lookup _ _ Ht) as Hi; match type of Hi with (?i <= 5)%nat => destruct i as [|[|[|[|[|[|i]]]]]] end; [| | | | | |lia]; injection Ht as <-.
Lemma job_tree : tree (view (tasks_of job)) job_kids id.
Proof.
  split.
  - intros i j x Hj. destruct i as [|[|[|[|i]]]]; cbn in Hj; try done; (destruct j as [|[|j]]; try done; injection Hj as <-; eexists; (split; [reflexivity|]); cbn; split_and!; (done || lia)).
  - intros i k (t & Ht & <-)%view_lookup. job_cases Ht; cbn; (split; [done|]); intros; try done; try (by left); by right; left.
  - intros i Hi. destruct i as [|[|[|[|i]]]]; [by eexists..|done].
  - intros i. apply (bool_decide_unpack _). by destruct i as [|[|[|[|i]]]].
  - intros i. apply (bool_decide_unpack _). by destruct i as [|[|[|[|i]]]].
  - done.
Qed.
Lemma job_exit_pre : exit_pre job job_kids 3 (job_member TASK_RUNNING 3 2 (Some 5%nat) (Some 4%nat) None 3) 1 1.
Proof.
  split; try done; [| |by eexists].
  - split; [reflexivity|]. intros i t Ht. job_cases Ht; unfold task_ok; cbn; lia.
  - intros i t u Ht Hu Hn. injection Ht as <-. job_cases Hu; try done; (split; [intros E; try discriminate E; clear E|by intros ?%(bool_decide_pack _)]).
    exists 4%nat. eexists _, _. split; [lia|]. split; [done|]. split; [reflexivity|]. split; [done|]. split; [reflexivity|]. by split_and!.
Qed.

(** One process of the job exits, the other still running: its dead child
    goes to init, and it is a zombie. *)
Lemma do_exit_correct_witness : exists s', do_exit 2 256 job = Switched s' /\ present (mem (k_m s') 192) = false /\
  exists t', tasks_of s' !! 3%nat = Some (Some t') /\ exit_code (info t') = 256 /\ adopt 3 job_kids 1 = [5%nat; 2%nat].
Proof.
  destruct (do_exit_correct 2 256 job (held 0 no_users) job_kids id 3 _ 1 1 ltac:(lia) job_exit_pre job_tree ltac:(by eapply mm_same_ok; [apply family_mm_ok|]) ltac:(by intros b))
    as (s' & E & _ & _ & Hg & _ & (t' & Ht & _ & Hx) & _).
  exists s'. split; [exact E|]. split; [exact (Hg 0%nat ltac:(lia))|]. exists t'. split; [exact Ht|]. split; [exact Hx|reflexivity].
Defined.

(** A session leader reads through the first empty slot of the table. *)
Example leader_exit_null : leave_session (on_info (fun i => mkInfo 0 2 2 1 (-1) None None None (sa_handler i) 0 0 0 (filp i) None None 0 0 0 0 no_tss) (member TASK_ZOMBIE 2 1 None)) job = Fault.
Proof. reflexivity. Qed.
(** So does the exit of the last process of a job. *)
Example last_of_job_null : hangup_orphans true 3 (with_tasks (<[4%nat := None]> (<[3%nat := Some (job_member TASK_ZOMBIE 3 2 None None None 3)]> (tasks_of job))) job) = Fault.
Proof. reflexivity. Qed.

(** Task 2 waits for any child: its dead child 3 is reported. *)
Lemma wait_reaps_witness : exists s', tasks_of s' !! 3%nat = Some None /\ mm_ok (k_m s') no_users /\ calls s' = [CPutLong 0 4096] /\
  sys_waitpid 2 (-1) 4096 0 (family 2 true) = (if (current (k_s s') =? 2)%nat then Ok 3 s' else Switched s').
Proof.
  destruct (wait_reaps 2 (-1) 4096 0 (family 2 true) (family_kids true) id 2 (member TASK_RUNNING 2 1 (Some 3%nat)) (family_tree 2 true) eq_refl eq_refl
    (family 2 true) no_users 3 (member TASK_ZOMBIE 3 2 None) 0 [] [] ltac:(lia) ltac:(reflexivity) (family_sched 2 true)) as (s' & E & H1 & _ & H2 & H3 & _);
    [done|reflexivity|by apply Forall_nil|reflexivity|reflexivity|reflexivity|reflexivity|exact family_mm_ok|reflexivity|reflexivity|reflexivity|].
  exists s'. split; [exact H1|]. split; [exact H2|]. split; [exact H3|exact E].
Defined.

(** Init waits for process 7, which is no child of it, and for any child
    without blocking. *)
Lemma wait_without_result_witness : wait_pass 2 7 4096 0 (family 1 false) = Ok (inl (-10)) (family 1 false) /\
  wait_pass 2 (-1) 4096 1 (family 1 false) = Ok (inl 0) (family 1 false).
Proof.
  split.
  - apply (wait_without_result 2 7 4096 0 (family 1 false) (family_kids false) id 1 (member TASK_RUNNING 1 0 (Some 2%nat)) (family_tree 1 false) eq_refl eq_refl eq_refl);
      [|reflexivity]. apply Forall_singleton. eexists. split; [reflexivity|by eexists].
  - apply (wait_without_result 2 (-1) 4096 1 (family 1 false) (family_kids false) id 1 (member TASK_RUNNING 1 0 (Some 2%nat)) (family_tree 1 false) eq_refl eq_refl eq_refl);
      [|reflexivity|done]. apply Forall_singleton. eexists. split; [reflexivity|by eexists].
Defined.
