(* ===== verification/LinuxBirth.v ===== *)
(** * Linux 0.12: fork

    [find_empty_process] and the whole of [copy_process], over the tree of
    processes and the reference counts of pages. *)

From S2P Require Import Prelude LinuxSched LinuxMm LinuxCow LinuxFork LinuxExit LinuxProc LinuxTree LinuxLife LinuxFamily.

(** ** A process id *)

Definition PID_MAX : Z := 2147483648.
Definition pid_ok (n : Z) : Prop := 0 <= n < PID_MAX.

Lemma next_pid_spec n : pid_ok n -> next_pid n = if n =? PID_MAX - 1 then 1 else n + 1.
Proof.
  unfold pid_ok, PID_MAX, next_pid. intros Hn. destruct (Z.eqb_spec n (2147483648 - 1)) as [->|Hne]; [reflexivity|].
  rewrite s32_id by lia. by rewrite (proj2 (Z.ltb_ge _ _)) by lia.
Qed.
Lemma next_pid_ok n : pid_ok n -> 1 <= next_pid n /\ pid_ok (next_pid n).
Proof. intros Hn. rewrite next_pid_spec by done. unfold pid_ok, PID_MAX in *. destruct (Z.eqb_spec n (2147483648 - 1)); lia. Qed.
Lemma pids_spec k n : pid_ok n -> Nat.iter (S k) next_pid n = (n + Z.of_nat k) mod (PID_MAX - 1) + 1.
Proof.
  intros Hn. unfold pid_ok, PID_MAX in *. induction k as [|k IH].
  - cbn [Nat.iter Z.of_nat]. rewrite next_pid_spec by done. unfold PID_MAX. rewrite Z.add_0_r. destruct (Z.eqb_spec n (2147483648 - 1)) as [->|Hne]; [reflexivity|]. by rewrite Z.mod_small by lia.
  - rewrite Nat.iter_succ, IH. pose proof (Z.mod_pos_bound (n + Z.of_nat k) (2147483648 - 1) ltac:(lia)) as Hb.
    rewrite next_pid_spec by (unfold pid_ok, PID_MAX; lia). rewrite Nat2Z.inj_succ. unfold PID_MAX.
    replace (n + Z.succ (Z.of_nat k)) with (n + Z.of_nat k + 1) by lia. rewrite <- (Z.add_mod_idemp_l (n + Z.of_nat k) 1) by lia.
    set (r := (n + Z.of_nat k) mod (2147483648 - 1)) in *. destruct (Z.eqb_spec (r + 1) (2147483648 - 1)) as [E|Hne]; [by rewrite E|]. by rewrite Z.mod_small by lia.
Qed.

(** The ids in use, at most two per task. *)
Definition ids (l : list (option task_struct)) : list Z :=
  flat_map (fun t => match t with Some t => [pid t; pgrp (info t)] | None => [] end) l.
Lemma ids_length l : (length (ids l) <= 2 * length l)%nat.
Proof. induction l as [|[t|] l IH]; cbn [ids flat_map length app] in *; [lia|fold (ids l) in *; lia|fold (ids l) in *; lia]. Qed.
Lemma id_used_spec n l : id_used n l = true -> In n (ids l).
Proof.
  unfold id_used, ids. rewrite existsb_exists, in_flat_map. intros (t & Ht & E). exists t. split; [done|]. destruct t as [t|]; [|done].
  apply orb_true_iff in E as [E|E]; apply Z.eqb_eq in E as ->; cbn; auto.
Qed.

(** Among 129 ids in a row one is free. *)
Lemma pid_free n l : pid_ok n -> length l = NR_TASKS -> exists k, (k < 129)%nat /\ id_used (Nat.iter (S k) next_pid n) l = false.
Proof.
  intros Hn Hl. set (f := fun k => Nat.iter (S k) next_pid n).
  assert (List.NoDup (map f (seq 0 129))) as Hnd.
  { apply NoDup_ListNoDup, (NoDup_fmap_2_strong f); [|apply NoDup_seq]. intros i j Hi%elem_of_seq Hj%elem_of_seq. unfold f. rewrite !pids_spec by done. intros E.
    assert ((n + Z.of_nat i) mod (PID_MAX - 1) = (n + Z.of_nat j) mod (PID_MAX - 1)) as E' by lia. unfold PID_MAX in E'.
    pose proof (Z.div_mod (n + Z.of_nat i) (2147483648 - 1) ltac:(lia)). pose proof (Z.div_mod (n + Z.of_nat j) (2147483648 - 1) ltac:(lia)). lia. }
  destruct (existsb (fun k => negb (id_used (f k) l)) (seq 0 129)) eqn:E.
  - apply existsb_exists in E as (k & Hk%in_seq & E%negb_true_iff). exists k. split; [lia|done].
  - assert (length (map f (seq 0 129)) <= length (ids l))%nat as Hle.
    { apply NoDup_incl_length; [done|]. intros x (k & <- & Hk)%in_map_iff. apply id_used_spec. destruct (id_used (f k) l) eqn:Eu; [done|].
      exfalso. assert (existsb (fun k => negb (id_used (f k) l)) (seq 0 129) = true); [|congruence]. apply existsb_exists. exists k. by rewrite Eu. }
    rewrite length_map, length_seq in Hle. pose proof (ids_length l). unfold NR_TASKS in Hl. lia.
Qed.

Lemma find_pid_loop m : forall s k, pid_ok (last_pid s) -> (k < m)%nat -> id_used (Nat.iter (S k) next_pid (last_pid s)) (tasks_of s) = false ->
  exists q, loop m find_pid_step tt s = Ok tt (set_last_pid q s) /\ id_used q (tasks_of s) = false /\ 1 <= q /\ pid_ok q.
Proof.
  induction m as [|m IH]; intros s k Hp Hk Hu; [lia|]. destruct (next_pid_ok _ Hp) as [H1 H2].
  destruct (id_used (next_pid (last_pid s)) (tasks_of s)) eqn:E.
  - destruct k as [|k]; [change (Nat.iter 1 next_pid (last_pid s)) with (next_pid (last_pid s)) in Hu; congruence|]. rewrite Nat.iter_succ_r in Hu.
    destruct (IH (set_last_pid (next_pid (last_pid s)) s) k H2 ltac:(lia) Hu) as (q & Eq & Hq). exists q. split; [|done].
    erewrite loop_next; [exact Eq|]. unfold find_pid_step. erewrite bind_ok by reflexivity. erewrite bind_ok by reflexivity. by rewrite E.
  - exists (next_pid (last_pid s)). split; [|done]. apply loop_done. unfold find_pid_step. erewrite bind_ok by reflexivity. erewrite bind_ok by reflexivity. by rewrite E.
Qed.

Lemma free_slot_spec l m : forall i, match free_slot l i m with
  | Some j => (i <= j < i + m)%nat /\ l !! j = Some None /\ forall q, (i <= q < j)%nat -> l !! q <> Some None
  | None => forall q, (i <= q < i + m)%nat -> l !! q <> Some None end.
Proof.
  induction m as [|m IH]; intros i; cbn [free_slot]; [intros q Hq; lia|]. specialize (IH (S i)).
  destruct (l !! i) as [[t|]|] eqn:E; [| |];
    try (destruct (free_slot l (S i) m) as [j|]; [destruct IH as (H1 & H2 & H3); split_and!; [lia|lia|done|]; intros q Hq; destruct (decide (q = i)) as [->|]; [congruence|apply H3; lia]
      |intros q Hq; destruct (decide (q = i)) as [->|]; [congruence|apply IH; lia]]).
  split_and!; [lia|lia|done|]. intros q Hq. lia.
Qed.

(** A new process: [find_empty_process] ends after at most 129 tries
    with a positive process id that is no process and no process group, even
    where the counter wraps around, changes nothing else, and returns the
    first free slot, or -EAGAIN when every slot but the first is taken. *)
Theorem find_empty_process_ok s : pid_ok (last_pid s) -> length (tasks_of s) = NR_TASKS ->
  exists q r, find_empty_process s = Ok r (set_last_pid q s) /\ id_used q (tasks_of s) = false /\ 1 <= q /\ pid_ok q /\
    ((exists i, r = Z.of_nat i /\ (1 <= i < NR_TASKS)%nat /\ tasks_of s !! i = Some None /\ forall j, (1 <= j < i)%nat -> tasks_of s !! j <> Some None) \/
     (r = - EAGAIN /\ forall j, (1 <= j < NR_TASKS)%nat -> tasks_of s !! j <> Some None)).
Proof.
  intros Hp Hl. destruct (pid_free _ _ Hp Hl) as (k & Hk & Hu). destruct (find_pid_loop 130 s k Hp ltac:(lia) Hu) as (q & E & Hq & Hq1 & Hq2).
  pose proof (free_slot_spec (tasks_of s) 63 1) as Hf. unfold find_empty_process. rewrite (bind_ok _ _ _ _ _ E).
  rewrite (bind_ok _ _ _ (tasks_of s) (set_last_pid q s)) by reflexivity. exists q. destruct (free_slot (tasks_of s) 1 63) as [i|].
  - exists (Z.of_nat i). split_and!; [done|done|done|done|]. left. exists i. destruct Hf as (H1 & H2 & H3). split_and!; try done; unfold NR_TASKS; lia.
  - exists (- EAGAIN). split_and!; [done|done|done|done|]. right. split; [done|]. intros j Hj. apply Hf. unfold NR_TASKS in Hj. lia.
Qed.

(** The counter at its largest value: 1 and 2 are taken, 3 is next. *)
Definition old_family : lst := set_last_pid 2147483647 (family 1 false).
Lemma find_empty_process_ok_witness : exists q, find_empty_process old_family = Ok 3 (set_last_pid q old_family) /\ id_used q (tasks_of old_family) = false /\ 1 <= q.
Proof.
  destruct (find_empty_process_ok old_family) as (q & r & E & H1 & H2 & _); [by vm_compute|reflexivity|].
  assert (r = 3) as ->; [|exists q; split; [exact E|split; [exact H1|exact H2]]].
  assert (find_empty_process old_family = Ok 3 (set_last_pid 3 old_family)) as E2 by reflexivity. rewrite E in E2. by injection E2.
Defined.

(** ** Memory for the child *)

Lemma grabbed_pte s X p d i : mm_ok s X -> mem_map s !! p = Some 0 -> dslot d -> (i < 1024)%nat -> pte (mem (grabbed p s)) d i = pte (mem s) d i.
Proof.
  intros Hok Hp Hd Hi. unfold pte. rewrite (grabbed_mem s X) by (done || by left). destruct (present (mem s d)) eqn:E; [|done].
  apply (grabbed_mem s X); [done|done|]. right. exists d. split; [done|by eapply entry_slot].
Qed.
Lemma fork_need_ext s s' kf n k : (forall j i, (j < n)%nat -> (i < 1024)%nat -> pte (mem s') (4 * kf + 4 * Z.of_nat j) i = pte (mem s) (4 * kf + 4 * Z.of_nat j) i) ->
  fork_need s' kf n k = fork_need s kf n k.
Proof.
  intros E. unfold fork_need. assert (Forall (fun j => (j < n)%nat) (seq k (n - k))) as H by (apply Forall_forall; intros j Hj%elem_of_seq; lia).
  induction H as [|j l Hj _ IH]; [done|]. cbn [sum_list_with]. rewrite IH. do 2 f_equal. apply swaps_ext. intros i Hi. by apply E.
Qed.
Lemma fork_pre_grabbed s X kf kt n p : mm_ok s X -> mem_map s !! p = Some 0 -> fork_pre s kf kt n ->
  (exists F : gset nat, (S (fork_need s kf n 0) <= size F)%nat /\ forall q, q ∈ F -> mem_map s !! q = Some 0) -> fork_pre (grabbed p s) kf kt n.
Proof.
  intros Hok Hp [F1 F2 F3 F4 F6 F7 _] (F & HF & HF0).
  assert (forall j i, (j < n)%nat -> (i < 1024)%nat -> pte (mem (grabbed p s)) (4 * kf + 4 * Z.of_nat j) i = pte (mem s) (4 * kf + 4 * Z.of_nat j) i) as E.
  { intros j i Hj Hi. apply (grabbed_pte s X); [done|done|by apply (dir_slot n); [apply F1|apply F1|]|done]. }
  split; try done.
  - intros j Hj. rewrite (grabbed_mem s X); [by apply F4|done|done|]. left. by apply (dir_slot n); [apply F2|apply F2|].
  - intros j j' i i' q Hj Hj' Hi Hi'. rewrite !E by done. by apply F6.
  - intros j i q c Hj Hi. rewrite E by done. intros Hr. cbn [grabbed mem_map set_mem set_map]. intros [(<- & <- & _)|[_ Hc]]%list_lookup_insert_Some; [lia|by eapply F7].
  - exists (F ∖ {[p]}). split.
    + pose proof (size_without F p). assert (fork_need (grabbed p s) kf n 0 = fork_need s kf n 0) as ->; [|lia].
      apply fork_need_ext. intros j i Hj Hi. apply E; [lia|done].
    + intros q [Hq Hne]%elem_of_difference. cbn [grabbed mem_map set_mem set_map]. rewrite list_lookup_insert_ne by (intros ->; set_solver). by apply HF0.
Qed.
Lemma fork_pre_same s s' kf kt n : fork_pre s kf kt n -> mm_same s s' -> fork_pre s' kf kt n.
Proof.
  intros [F1 F2 F3 F4 F5 F6 F7] [E1 E2 _ _ _]. split; rewrite ?E1, ?E2; try done. by rewrite (fork_need_ext s) by (intros; by rewrite E1).
Qed.

(** ** The rest of the state *)

(** States that differ in counts of users of files and inodes, and in calls. *)
Record same_but_counts (s s' : lst) : Prop := {
  sc_s : k_s s' = k_s s; sc_m : mm_same (k_m s) (k_m s'); sc_page : task_page s' = task_page s }.
Lemma mm_same_trans m1 m2 m3 : mm_same m1 m2 -> mm_same m2 m3 -> mm_same m1 m3.
Proof. intros [] []. split; congruence. Qed.
Lemma sbc_trans s1 s2 s3 : same_but_counts s1 s2 -> same_but_counts s2 s3 -> same_but_counts s1 s3.
Proof. intros [A1 A2 A3] [B1 B2 B3]. split; [congruence|by eapply mm_same_trans|congruence]. Qed.

(** How often [f] is in [l]. *)
Definition uses (l : list (option nat)) (f : nat) : Z := Z.of_nat (length (filter (fun o => o = Some f) l)).
Lemma uses_app l l' f : uses (l ++ l') f = uses l f + uses l' f.
Proof. unfold uses. rewrite filter_app, length_app. lia. Qed.
Lemma uses_one o f : uses [o] f = if decide (o = Some f) then 1 else 0.
Proof. unfold uses. rewrite filter_cons. by case_decide. Qed.

(** States that differ in counts of users of inodes: [l] has been taken. *)
Record counted (s s' : lst) (l : list (option nat)) : Prop := {
  co_same : same_but_counts s s';
  co_files : f_count s' = f_count s;
  co_mtasks : mtasks (k_m s') = mtasks (k_m s);
  co_inodes : forall i, u16 (i_count (k_m s') i) = u16 (i_count (k_m s) i + uses l i) }.
Lemma wp_hold_inode s0 l o s (Q : unit -> lst -> Prop) : counted s0 s l -> (forall s', counted s0 s' (l ++ [o]) -> Q tt s') -> wp (hold_inode o) Q s.
Proof.
  intros [C1 C2 C3 C4] HQ. unfold hold_inode. destruct o as [o|]; wp_simpl; apply HQ.
  - split; [|done|done|]; [eapply sbc_trans; [exact C1|by split]|]. intros i. cbn. unfold bump. rewrite uses_app, uses_one, Z.add_assoc.
    destruct (Nat.eqb_spec i o) as [->|Hne]; [rewrite decide_True by done|rewrite decide_False by congruence; rewrite Z.add_0_r; apply C4].
    unfold u16 in *. rewrite Z.mod_mod by lia. rewrite <- Z.add_mod_idemp_l, C4, Z.add_mod_idemp_l by lia. done.
  - split; [done|done|done|]. intros i. rewrite uses_app, uses_one, decide_False, Z.add_0_r by done. apply C4.
Qed.

Definition holds (i : pinfo) (mt : mtask) (nr : nat) : M lst unit :=
  for_range 0 NR_OPEN (fun k => f ← idx (filp i) k; hold_file f) ;;
  hold_inode (pwd i) ;; hold_inode (root i) ;; hold_inode (executable mt) ;; hold_inode (library mt) ;;
  call_ (CSetDesc nr).
Definition inodes_of (i : pinfo) (mt : mtask) : list (option nat) := [pwd i; root i; executable mt; library mt].
Definition held_all (s s' : lst) (i : pinfo) (mt : mtask) : Prop :=
  (forall f, u16 (f_count s' f) = u16 (f_count s f + uses (filp i) f)) /\
  (forall k, u16 (i_count (k_m s') k) = u16 (i_count (k_m s) k + uses (inodes_of i mt) k)).
Lemma holds_ok i mt nr s : length (filp i) = NR_OPEN -> exists s', holds i mt nr s = Ok tt s' /\ same_but_counts s s' /\ mtasks (k_m s') = mtasks (k_m s) /\ held_all s s' i mt.
Proof.
  intros Hl. assert (wp (holds i mt nr) (fun _ s' => same_but_counts s s' /\ mtasks (k_m s') = mtasks (k_m s) /\ held_all s s' i mt) s) as ([] & s' & E & H)%wp_inv; [|by exists s'].
  unfold holds. rewrite wp_bind. eapply wp_mono; [apply (wp_for_range (fun j s' => same_but_counts s s' /\ k_m s' = k_m s /\
    forall f, u16 (f_count s' f) = u16 (f_count s f + uses (take j (filp i)) f)) NR_OPEN)|].
  - intros j s' Hj (A1 & A2 & A3). wp_simpl. destruct (lookup_lt_is_Some_2 (filp i) j) as [o Ho]; [lia|]. eapply wp_idx; [exact Ho|]. rewrite (take_S_r _ _ _ Ho).
    destruct o as [o|]; cbn [hold_file]; wp_simpl.
    + split_and!; [eapply sbc_trans; [exact A1|by split]|done|]. intros f. cbn. unfold bump. rewrite uses_app, uses_one, Z.add_assoc.
      destruct (Nat.eqb_spec f o) as [->|Hne]; [rewrite decide_True by done|rewrite decide_False by congruence; rewrite Z.add_0_r; apply A3].
      unfold u16 in *. rewrite Z.mod_mod by lia. rewrite <- Z.add_mod_idemp_l, A3, Z.add_mod_idemp_l by lia. done.
    + split_and!; [done|done|]. intros f. rewrite uses_app, uses_one, decide_False, Z.add_0_r by done. apply A3.
  - split_and!; [by split|done|]. intros f. by rewrite take_0, Z.add_0_r.
  - intros [] s1 (A1 & A2 & A3). assert (counted s1 s1 []) as C0 by (split; [by split|done|done|intros k; by rewrite Z.add_0_r]).
    wp_simpl. eapply wp_hold_inode; [exact C0|]. intros s2 C2. wp_simpl. eapply wp_hold_inode; [exact C2|]. intros s3 C3. wp_simpl. eapply wp_hold_inode; [exact C3|]. intros s4 C4.
    wp_simpl. eapply wp_hold_inode; [exact C4|]. intros s5 [C5 C6 C7 C8]. unfold call_. wp_simpl. split_and!; [eapply sbc_trans; [exact A1|]; eapply sbc_trans; [exact C5|by split]|cbn; by rewrite C7, A2|].
    split; [intros f; cbn; rewrite C6, A3; by rewrite take_ge by lia|intros k; cbn; rewrite C8, A2; done].
Qed.
Lemma holds_then {A} i mt nr s s' (k : M lst A) : holds i mt nr s = Ok tt s' ->
  (for_range 0 NR_OPEN (fun k => f ← idx (filp i) k; hold_file f) ;;
   hold_inode (pwd i) ;; hold_inode (root i) ;; hold_inode (executable mt) ;; hold_inode (library mt) ;; call_ (CSetDesc nr) ;; k) s = k s'.
Proof. unfold holds, mbind, M_bind. intros E. repeat case_match; congruence. Qed.

(** ** fork *)

(** The base of the address space of slot [i]. *)
Definition base_of (i : nat) : Z := 4194304 * (16 * Z.of_nat i).
Lemma base_of_new nr : (nr < 64)%nat -> u32 (Z.of_nat nr * TASK_SIZE) = base_of nr.
Proof. intros H. unfold base_of, TASK_SIZE. rewrite u32_id by lia. lia. Qed.

(** The parent: a task with its own address space, of [n] page tables. *)
Record parent_ok (t : task_struct) (c n : nat) : Prop := {
  pa_base : code_base (info t) = base_of c /\ data_base (info t) = base_of c;
  pa_limit : code_limit (info t) <= data_limit (info t) /\ 0 < data_limit (info t) <= 67108864;
  pa_dirs : Z.of_nat n = (data_limit (info t) + 4194303) / 4194304;
  pa_files : length (filp (info t)) = NR_OPEN }.

Lemma copy_mem_ok fuel s X c nr n t ch mt : (1 <= fuel)%nat -> current (k_s s) = c -> (nr < 64)%nat -> tasks_of s !! c = Some (Some t) -> tasks_of s !! nr = Some (Some ch) ->
  mtasks (k_m s) !! nr = Some (Some mt) -> parent_ok t c n -> mm_ok (k_m s) X -> fork_pre (k_m s) (16 * Z.of_nat c) (16 * Z.of_nat nr) n ->
  exists s1 m, copy_mem fuel nr s = Ok 0 (set_km m (with_tasks (<[nr := Some (on_info (set_bases (base_of nr) (base_of nr)) ch)]> (tasks_of s)) s1)) /\
    same_but_counts s s1 /\ copied (k_m s1) X (16 * Z.of_nat c) (16 * Z.of_nat nr) n m n /\
    f_count s1 = f_count s /\ i_count m = i_count (k_m s) /\
    mtasks m = <[nr := Some (mkMtask (base_of nr) (end_data mt) (executable mt) (library mt))]> (mtasks (k_m s)).
Proof.
  intros Hf Hcur Hnr Hc Hch Hmt [[P1 P2] [P3 P4] P5 _] Hok Hpre.
  set (s1 := with_mtask nr (Some (mkMtask (base_of nr) (end_data mt) (executable mt) (library mt))) s). exists s1.
  assert (mm_same (k_m s) (k_m s1)) as Hsame by done.
  destruct (copy_page_tables_ok fuel (k_m s1) X (16 * Z.of_nat c) (16 * Z.of_nat nr) n (data_limit (info t)) Hf) as (m & E & Hcp);
    [by eapply mm_same_ok|by eapply fork_pre_same|lia|done|].
  destruct (mkeep_copy _ _ _ _ _ _ _ E) as [K1 K2]. exists m. split_and!; [|by split|done|done|done|done]. unfold copy_mem.
  rewrite (bind_ok _ _ _ c s) by (unfold curr, gets; by rewrite Hcur). rewrite (bind_tsk _ _ _ _ Hc), P1, P2, Z.eqb_refl. cbn [negb].
  rewrite (proj2 (Z.ltb_ge _ _) P3), base_of_new by done. erewrite bind_ok by reflexivity.
  rewrite (bind_ok _ _ _ (Some mt) s) by (unfold idx; by rewrite Hmt). erewrite bind_ok by reflexivity.
  rewrite (bind_ok _ _ _ tt s1) by done. rewrite (bind_upd nr ch) by done. change (tasks_of s1) with (tasks_of s).
  set (s2 := with_tasks _ s1). rewrite (bind_ok _ _ _ 0 (set_km m s2)); [done|]. by apply lift_m.
Qed.

Record birth_pre (s : lst) (c nr n : nat) (t : task_struct) (mt : mtask) : Prop := {
  bi_cur : current (k_s s) = c;
  bi_nz : c <> 0%nat /\ nr <> 0%nat;
  bi_len : length (tasks_of s) = NR_TASKS /\ length (mtasks (k_m s)) = NR_TASKS;
  bi_task : tasks_of s !! c = Some (Some t) /\ mtasks (k_m s) !! c = Some (Some mt);
  bi_free : tasks_of s !! nr = Some None;
  bi_parent : parent_ok t c n;
  bi_mem : fork_pre (k_m s) (16 * Z.of_nat c) (16 * Z.of_nat nr) n;
  bi_pages : exists F : gset nat, (S (fork_need (k_m s) (16 * Z.of_nat c) n 0) <= size F)%nat /\ forall q, q ∈ F -> mem_map (k_m s) !! q = Some 0 }.

(** [copy_process] up to the links: page [p] holds the new task. *)
Lemma birth fuel s X c nr n t mt r : (1 <= fuel)%nat -> birth_pre s c nr n t mt -> mm_ok (k_m s) X ->
  exists p s7, mem_map (k_m s) !! p = Some 0 /\
    copy_process fuel nr r s = (link_child c nr ;; mret (last_pid s)) s7 /\
    k_s s7 = set_task (<[nr := Some (on_info (set_bases (base_of nr) (base_of nr)) (child_of t (last_pid s) (jiffies (k_s s)) (child_tss nr (addr_of p) r)))]> (tasks_of s)) (k_s s) /\
    task_page s7 nr = addr_of p /\ mm_ok (k_m s7) (held p X) /\ held_all s s7 (info t) mt /\
    mtasks (k_m s7) !! nr = Some (Some (mkMtask (base_of nr) (end_data mt) (executable mt) (library mt))) /\
    (forall j i, (j < n)%nat -> (i < 1024)%nat ->
       passed_on (k_m s) (k_m s7) (pte (mem (k_m s)) (4 * (16 * Z.of_nat c) + 4 * Z.of_nat j) i)
         (pte (mem (k_m s7)) (4 * (16 * Z.of_nat c) + 4 * Z.of_nat j) i) (pte (mem (k_m s7)) (4 * (16 * Z.of_nat nr) + 4 * Z.of_nat j) i)).
Proof.
  intros Hf [B1 [B2 B3] [B4 B5] [B6 B7] B8 B9 B10 B11] Hok.
  assert (exists q, mem_map (k_m s) !! q = Some 0) as Hfree.
  { destruct B11 as (F & HF & HF0). destruct (size_pos_elem_of F ltac:(lia)) as [q Hq]. exists q. by apply HF0. }
  destruct (get_free_page_ok (k_m s) X fuel Hok Hf Hfree) as (p & Hp & Hh & Eg). pose proof (grabbed_ok _ _ _ Hok Hp) as Hok1.
  pose proof (fork_pre_grabbed _ _ _ _ _ _ Hok Hp B10 B11) as Hpre1. assert (nr < 64)%nat as Hnr by (apply lookup_lt_Some in B8; unfold NR_TASKS in *; lia).
  assert (c <> nr) as Hne by (intros ->; congruence).
  set (ch := child_of t (last_pid s) (jiffies (k_s s)) (child_tss nr (addr_of p) r)). set (s1 := set_km (grabbed p (k_m s)) s).
  set (s2 := with_tasks (<[nr := Some ch]> (tasks_of s)) s1). set (s3 := set_task_page (fun i => if (i =? nr)%nat then addr_of p else task_page s2 i) s2).
  set (s4 := with_mtask nr (Some mt) s3). set (s5 := if bool_decide (last_task_used_math s4 = Some c) then add_call (CSaveMath nr) s4 else s4).
  assert (k_s s5 = k_s s4 /\ k_m s5 = k_m s4 /\ task_page s5 = task_page s4 /\ f_count s5 = f_count s4) as (K1 & K2 & K3 & K4) by (unfold s5; by case_bool_decide).
  destruct (copy_mem_ok fuel s5 (held p X) c nr n t ch mt Hf) as (s5' & m & E6 & [C1 C2 C3] & Hcp & C4 & C5 & C6).
  { by rewrite K1. } { done. } { rewrite K1. cbn. by rewrite list_lookup_insert_ne. } { rewrite K1. cbn. apply list_lookup_insert_eq. rewrite B4. exact Hnr. }
  { rewrite K2. cbn. apply list_lookup_insert_eq. rewrite B5. exact Hnr. } { done. } { rewrite K2. by eapply mm_same_ok. } { rewrite K2. by eapply fork_pre_same. }
  set (s6 := set_km m _) in E6. destruct (holds_ok (info t) mt nr s6 (pa_files _ _ _ B9)) as (s7 & E7 & [D1 D2 D3] & D4 & [D5 D6]).
  exists p, s7. split_and!; [done| | | | | | |].
  - unfold copy_process. rewrite (bind_ok _ _ _ _ _ (lift_m _ s _ _ Eg)). fold s1.
    rewrite (proj2 (Z.eqb_neq _ _)) by (unfold addr_of, LOW_MEM; lia). rewrite (bind_ok _ _ _ c s1) by (unfold curr, gets; cbn; by rewrite B1).
    rewrite (bind_tsk _ t) by done. do 2 erewrite bind_ok by reflexivity. rewrite (bind_ok _ _ _ _ _ (set_slot_ok nr None (Some ch) s1 B8)). fold s2.
    rewrite (bind_ok _ _ _ tt s3) by done. erewrite bind_ok by reflexivity. rewrite (bind_ok _ _ _ (Some mt) s3) by (unfold idx; cbn; by rewrite B7).
    erewrite bind_ok by reflexivity. rewrite (bind_ok _ _ _ tt s4) by done. erewrite bind_ok by reflexivity.
    rewrite (bind_ok _ _ _ tt s5) by (unfold s5; by case_bool_decide). rewrite (bind_ok _ _ _ _ _ E6). cbn [negb Z.eqb]. by rewrite (holds_then _ _ _ _ _ _ E7).
  - rewrite D1. cbn. rewrite C1, K1. cbn. by rewrite list_insert_insert_eq.
  - rewrite D3. cbn. rewrite C3, K3. cbn. by rewrite Nat.eqb_refl.
  - eapply mm_same_ok; [apply Hcp|exact D2].
  - split; [intros f; rewrite D5; cbn; by rewrite C4, K4|intros k; rewrite D6; cbn; by rewrite C5, K2].
  - rewrite D4. cbn. rewrite C6, K2. cbn. apply list_lookup_insert_eq. rewrite length_insert, B5. exact Hnr.
  - intros j i Hj Hi. rewrite (ms_mem _ _ D2). change (mem (k_m s6)) with (mem m). pose proof (cp_pass _ _ _ _ _ _ _ Hcp j i Hj Hi) as Hps.
    rewrite (ms_mem _ _ C2), K2 in Hps. change (mem (k_m s4)) with (mem (grabbed p (k_m s))) in Hps.
    rewrite (grabbed_pte (k_m s) X p) in Hps; [|done|done| |done]; [|by apply (dir_slot n); [apply B10|apply B10|]].
    destruct Hps as [E1 E2]. split; [done|]. destruct (swapped _); [|done]. destruct E2 as (q & Hq & Ef & Ec). exists q.
    rewrite (ms_map _ _ C2), K2 in Hq. cbn in Hq. apply list_lookup_insert_Some in Hq as [(_ & ? & _)|[_ Hq]]; [done|]. split_and!; [done|done|].
    intros o Ho. rewrite (ms_mem _ _ D2). change (mem (k_m s6)) with (mem m). rewrite Ec by done. by rewrite (ms_swap _ _ C2), K2.
Qed.

(** The child [ch] of [t]: what it has of its parent, what is new, and the
    registers with which it leaves the system call. *)
Record is_child (t ch : task_struct) (nr : nat) (page n now : Z) (r : regs) : Prop := {
  ic_run : state ch = TASK_RUNNING /\ pid ch = n /\ counter ch = priority t /\ priority ch = priority t /\ signal ch = 0 /\ alarm ch = 0;
  ic_times : utime ch = 0 /\ stime ch = 0 /\ cutime (info ch) = 0 /\ cstime (info ch) = 0 /\ start_time (info ch) = now;
  ic_ids : uid ch = uid t /\ euid ch = euid t /\ gid ch = gid t /\ egid ch = egid t;
  ic_group : pgrp (info ch) = pgrp (info t) /\ session (info ch) = session (info t) /\ leader (info ch) = 0 /\ tty (info ch) = tty (info t);
  ic_signals : blocked ch = blocked t /\ sa_handler (info ch) = sa_handler (info t);
  ic_files : filp (info ch) = filp (info t) /\ pwd (info ch) = pwd (info t) /\ root (info ch) = root (info t);
  ic_space : code_base (info ch) = base_of nr /\ data_base (info ch) = base_of nr /\ code_limit (info ch) = code_limit (info t) /\ data_limit (info ch) = data_limit (info t);
  ic_regs : t_eax (tss (info ch)) = 0 /\ t_ebx (tss (info ch)) = r_ebx r /\ t_ecx (tss (info ch)) = r_ecx r /\ t_edx (tss (info ch)) = r_edx r /\
    t_esi (tss (info ch)) = r_esi r /\ t_edi (tss (info ch)) = r_edi r /\ t_ebp (tss (info ch)) = r_ebp r /\ t_esp (tss (info ch)) = r_esp r /\
    t_eip (tss (info ch)) = r_eip r /\ t_eflags (tss (info ch)) = r_eflags r;
  ic_segs : t_cs (tss (info ch)) = r_cs r mod 65536 /\ t_ds (tss (info ch)) = r_ds r mod 65536 /\ t_es (tss (info ch)) = r_es r mod 65536 /\
    t_fs (tss (info ch)) = r_fs r mod 65536 /\ t_gs (tss (info ch)) = r_gs r mod 65536 /\ t_ss (tss (info ch)) = r_ss r mod 65536;
  ic_kernel : t_esp0 (tss (info ch)) = page + 4096 /\ t_ss0 (tss (info ch)) = 16 /\ t_ldt (tss (info ch)) = 16 * Z.of_nat nr + 40 }.

Lemma sel_mod v : sel v = v mod 65536.
Proof. unfold sel. change 65535 with (Z.ones 16). by rewrite Z.land_ones by lia. Qed.

(** C10.  Fork: with a free slot and enough free pages (for the task, the page
    tables and the pages that are on the swap device), from a parent whose
    pages are each mapped once and by fewer than 255 entries,
    [copy_process] returns
    the new process id; the child is ready to run with its parent's
    registers, except that the call returns 0 in it, a kernel stack at the end
    of its own page, the address space of its slot, and its parent's
    identity, files and signal handling; it is the youngest
    child of its parent, the rest of the tree being as before; parent and
    child share all pages in memory read-only, and the counts of users are
    exact: of pages, and (modulo 65536, being unsigned shorts) of the open
    files and of the four inodes a task holds. *)
Theorem copy_process_correct fuel s X kids depth c nr n t mt r :
  (1 <= fuel)%nat -> birth_pre s c nr n t mt -> mm_ok (k_m s) X -> tree (view (tasks_of s)) kids depth ->
  exists p s' ch, copy_process fuel nr r s = Ok (last_pid s) s' /\ mem_map (k_m s) !! p = Some 0 /\ task_page s' nr = addr_of p /\ mm_ok (k_m s') (held p X) /\
    tree (view (tasks_of s')) (set_kids c (nr :: kids c) kids) (fun i => if decide (i = nr) then S (depth c) else depth i) /\
    tasks_of s' !! nr = Some (Some ch) /\ is_child t ch nr (addr_of p) (last_pid s) (jiffies (k_s s)) r /\
    mtasks (k_m s') !! nr = Some (Some (mkMtask (base_of nr) (end_data mt) (executable mt) (library mt))) /\
    (forall f, u16 (f_count s' f) = u16 (f_count s f + uses (filp (info t)) f)) /\
    (forall i, u16 (i_count (k_m s') i) = u16 (i_count (k_m s) i + uses [pwd (info t); root (info t); executable mt; library mt] i)) /\
    (forall j i, (j < n)%nat -> (i < 1024)%nat ->
       passed_on (k_m s) (k_m s') (pte (mem (k_m s)) (4 * (16 * Z.of_nat c) + 4 * Z.of_nat j) i)
         (pte (mem (k_m s')) (4 * (16 * Z.of_nat c) + 4 * Z.of_nat j) i) (pte (mem (k_m s')) (4 * (16 * Z.of_nat nr) + 4 * Z.of_nat j) i)).
Proof.
  intros Hf Hpre Hok Ht. destruct (birth fuel s X c nr n t mt r Hf Hpre Hok) as (p & s7 & Hp & E & S7 & P7 & M7 & [Hfc Hic] & Hmt & Hpte).
  destruct Hpre as [B1 [B2 B3] [B4 B5] [B6 B7] B8 _ _ _]. set (ch := on_info _ _) in S7. set (l7 := <[nr := Some ch]> (tasks_of s)) in S7.
  assert (nr < length (tasks_of s))%nat as Hnr by (by eapply lookup_lt_Some). assert (c <> nr) as Hne by (intros ->; congruence).
  assert (tasks_of s7 = l7) as T7 by (by rewrite S7). assert (view (tasks_of s) c = Some (links_of t)) as Vc by (unfold view; by rewrite B6).
  assert (view (tasks_of s) nr = None) as Vn by (unfold view; by rewrite B8).
  assert (forall i, i <> nr -> view l7 i = view (tasks_of s) i) as V7 by (intros i Hi; unfold l7; rewrite view_insert by done; by rewrite decide_False).
  destruct (link_child_ok c nr s7 t ch Hne) as (l & El & Hl & Hv & Hs & Hch).
  { rewrite T7. unfold l7. by rewrite list_lookup_insert_ne. } { rewrite T7. by apply list_lookup_insert_eq. }
  { intros o Ho. destruct (tr_par _ _ _ Ht c _ Vc) as [Elc _]. cbn in Elc. rewrite Ho in Elc. symmetry in Elc. destruct (tr_kid _ _ _ Ht c 0 o Elc) as (k & Hk & _).
    assert (o <> nr) as Hon by (intros ->; congruence). split_and!; [|done|rewrite T7, V7 by done; by exists k]. intros ->. apply (kid_not_self _ _ _ Ht c), list_elem_of_lookup. by exists 0%nat. }
  eexists p, (with_tasks l s7), _. split_and!; [by rewrite E, (bind_ok _ _ _ _ _ El)|done|done|done| |exact Hch| |done|done|done|done].
  - eapply tree_ext; [|by apply (fork_tree _ _ _ c nr (links_of t) Ht)]. intros i. change (view l i = fork_view c nr (links_of t) (view (tasks_of s)) i). rewrite Hv, T7. unfold fork_view.
    destruct (decide (i = nr)); [done|]. by rewrite V7.
  - apply lookup_lt_Some in Hp. rewrite (ok_len _ _ Hok) in Hp. unfold PAGING_PAGES in Hp. split; cbn -[sel u32 Z.add Z.mul]; rewrite ?sel_mod; split_and!; try done.
    + rewrite u32_id; unfold addr_of, LOW_MEM; lia.
    + unfold _LDT. rewrite Z.shiftl_mul_pow2 by lia. lia.
Qed.

(** Init forks a process into slot 3. *)
Definition demo_regs : regs := mkRegs 1 2 3 4 5 6 7 8 9 10 4096 15 514 8192 23.
Lemma family_pte i : (i < 1024)%nat -> pte (mem family_mm) 64 i = pte demo_mem 64 i.
Proof. intros Hi. apply (grabbed_pte demo_mm no_users 0 64 i); [exact demo_ok|reflexivity|split; [lia|done]|done]. Qed.
Lemma family_fork_pre : fork_pre family_mm 16 48 1.
Proof.
  apply (fork_pre_same (grabbed 0 demo_mm)); [|done]. apply (fork_pre_grabbed demo_mm no_users); [exact demo_ok|reflexivity|exact demo_fork_pre|].
  exists {[0%nat; 1%nat]}. rewrite size_union by set_solver. rewrite !size_singleton. split; [by vm_compute|]. intros q [->%elem_of_singleton| ->%elem_of_singleton]%elem_of_union; reflexivity.
Qed.
Lemma family_birth : birth_pre (family 1 false) 1 3 1 (member TASK_RUNNING 1 0 (Some 2%nat)) (mkMtask 0 0 (Some 6%nat) None).
Proof.
  split; try done.
  - exact family_fork_pre.
  - exists {[1%nat; 2%nat]}. rewrite size_union by set_solver. rewrite !size_singleton. split; [by vm_compute|]. intros q [->%elem_of_singleton| ->%elem_of_singleton]%elem_of_union; reflexivity.
Qed.
Lemma copy_process_correct_witness : exists s' ch, copy_process 1 3 demo_regs (family 1 false) = Ok 3 s' /\ tasks_of s' !! 3%nat = Some (Some ch) /\
  state ch = TASK_RUNNING /\ t_eax (tss (info ch)) = 0 /\ t_ebx (tss (info ch)) = 5 /\ u16 (i_count (k_m s') 5) = 2 /\ pte (mem (k_m s')) 192 0 = 1093701.
Proof.
  destruct (copy_process_correct 1 (family 1 false) (held 0 no_users) (family_kids false) id 1 3 1 _ _ demo_regs ltac:(lia) family_birth family_mm_ok (family_tree 1 false))
    as (p & s' & ch & E & _ & _ & _ & _ & H1 & [H2 _ _ _ _ _ _ H3 _ _] & _ & _ & H4 & H5).
  exists s', ch. split; [exact E|]. split; [exact H1|]. split; [apply H2|]. split; [apply H3|]. split; [apply H3|]. split; [rewrite H4; reflexivity|].
  destruct (H5 0%nat 0%nat ltac:(lia) ltac:(lia)) as [H6 _]. rewrite (H6 : pte (mem (k_m s')) 192 0 = _).
  change (4 * (16 * Z.of_nat 1) + 4 * Z.of_nat 0) with 64. change (k_m (family 1 false)) with family_mm. rewrite family_pte by lia. reflexivity.
Defined.

(** ** Signals to slots nobody uses *)

(** [kill_pg] and [kill_proc] read the task of an empty slot: with the last
    slot free they dereference a null pointer before they look at any
    process. *)
Lemma kill_null_slot n g sig priv s : 1 <= sig <= 32 -> 0 < g -> tasks_of s !! 63%nat = Some None ->
  kill_proc n sig priv s = Fault /\ kill_pg g sig priv s = Fault.
Proof.
  intros Hs Hg H. unfold kill_proc, kill_pg. rewrite !(proj2 (Z.ltb_ge _ _)), (proj2 (Z.leb_gt _ _)) by lia.
  assert (slot_task 63 s = Fault) as E.
  { unfold slot_task. erewrite bind_ok by reflexivity. rewrite (bind_ok _ _ _ None s) by (unfold idx; by rewrite H). done. }
  assert (forall i, slot_task (S i) s = Fault -> proc_scan (S i) n sig priv s = Fault /\ kill_scan (S i) g sig priv (- ESRCH) false s = Fault) as Hf
    by (intros i Ei; cbn [proc_scan kill_scan]; unfold mbind, M_bind; by rewrite Ei).
  exact (Hf 62%nat E).
Qed.
(** The test for existence, signal 0, is refused before it is reached. *)
Lemma kill_zero n g priv s : kill_proc n 0 priv s = Ok (- EINVAL) s /\ kill_pg g 0 priv s = Ok (- EINVAL) s.
Proof. done. Qed.
(** Signal 0 to all processes is not refused: it reads before the handlers. *)
Lemma kill_all_zero : sys_kill (-1) 0 (mkL (k_s (family 1 false)) family_mm 3 (fun _ => 0) (fun _ => 1) None (fun _ => (0, 0)) 0 []) = Fault.
Proof. reflexivity. Qed.
