(* ===== verification/LinuxBuf.v ===== *)
(** * Linux 0.12: the buffer cache

    Models [fs/buffer.c].  A buffer head is an index into [bhs].  A routine
    that sleeps is cut there: [getblk_at] runs [getblk] from one place where
    it can sleep to the next, and [getblk] strings the pieces together until
    it sleeps.  The address 0 is mapped in the kernel: a store through a null
    pointer to a buffer head does not fault but overwrites a word of the page
    directory; such stores are counted.  Device numbers have 16 bits and block
    numbers 32, as their fields in a buffer head do.  Requests to the devices
    and the other caches are an interface. *)

From S2P Require Import Prelude.

Definition NR_HASH : Z := 307.
Definition BLOCK_SIZE : Z := 1024.
Definition READ : Z := 0.
Definition WRITE : Z := 1.
Definition READA : Z := 2.
Definition WRITEA : Z := 3.
Definition MAJOR (a : Z) : Z := Z.shiftr (u32 a) 8.

Record buffer_head := mkBh {
  b_data : Z; b_blocknr : Z; b_dev : Z; b_uptodate : Z; b_dirt : Z; b_count : Z; b_lock : Z;
  b_prev : option nat; b_next : option nat; b_prev_free : option nat; b_next_free : option nat }.

Definition set_flags u d l b := mkBh (b_data b) (b_blocknr b) (b_dev b) u d (b_count b) l (b_prev b) (b_next b) (b_prev_free b) (b_next_free b).
Definition set_count v b := mkBh (b_data b) (b_blocknr b) (b_dev b) (b_uptodate b) (b_dirt b) v (b_lock b) (b_prev b) (b_next b) (b_prev_free b) (b_next_free b).
Definition set_id dev blk b := mkBh (b_data b) blk dev (b_uptodate b) (b_dirt b) (b_count b) (b_lock b) (b_prev b) (b_next b) (b_prev_free b) (b_next_free b).
Definition set_prev v b := mkBh (b_data b) (b_blocknr b) (b_dev b) (b_uptodate b) (b_dirt b) (b_count b) (b_lock b) v (b_next b) (b_prev_free b) (b_next_free b).
Definition set_next v b := mkBh (b_data b) (b_blocknr b) (b_dev b) (b_uptodate b) (b_dirt b) (b_count b) (b_lock b) (b_prev b) v (b_prev_free b) (b_next_free b).
Definition set_prev_free v b := mkBh (b_data b) (b_blocknr b) (b_dev b) (b_uptodate b) (b_dirt b) (b_count b) (b_lock b) (b_prev b) (b_next b) v (b_next_free b).
Definition set_next_free v b := mkBh (b_data b) (b_blocknr b) (b_dev b) (b_uptodate b) (b_dirt b) (b_count b) (b_lock b) (b_prev b) (b_next b) (b_prev_free b) v.

Record bcache := mkBc {
  bhs : list buffer_head;
  hash_table : list (option nat);
  free_list : option nat;
  null_stores : Z }.
Definition set_bhs v s := mkBc v (hash_table s) (free_list s) (null_stores s).
Definition set_hash v s := mkBc (bhs s) v (free_list s) (null_stores s).
Definition set_free_list v s := mkBc (bhs s) (hash_table s) v (null_stores s).
Definition add_null s := mkBc (bhs s) (hash_table s) (free_list s) (null_stores s + 1).

Definition get_bh (i : nat) : M bcache buffer_head := l ← gets bhs; idx l i.
Definition upd_bh (i : nat) (f : buffer_head -> buffer_head) : M bcache unit :=
  b ← get_bh i; modify (fun s => set_bhs (<[i := f b]> (bhs s)) s).

Definition _hashfn (dev block : Z) : nat := Z.to_nat (u32 (Z.lxor dev block) mod NR_HASH).
Definition get_hash (dev block : Z) : M bcache (option nat) := l ← gets hash_table; idx l (_hashfn dev block).
Definition put_hash (dev block : Z) (v : option nat) : M bcache unit :=
  get_hash dev block ;; modify (fun s => set_hash (<[_hashfn dev block := v]> (hash_table s)) s).

(** ** Queues *)

Definition remove_from_queues (bh : nat) : M bcache unit :=
  b ← get_bh bh;
  (match b_next b with Some n => upd_bh n (set_prev (b_prev b)) | None => skip end) ;;
  b ← get_bh bh;
  (match b_prev b with Some p => upd_bh p (set_next (b_next b)) | None => skip end) ;;
  b ← get_bh bh;
  h ← get_hash (b_dev b) (b_blocknr b);
  (if bool_decide (h = Some bh) then put_hash (b_dev b) (b_blocknr b) (b_next b) else skip) ;;
  match b_prev_free b, b_next_free b with
  | Some p, Some n =>
      upd_bh p (set_next_free (Some n)) ;;
      b ← get_bh bh; n ← deref (b_next_free b);
      upd_bh n (set_prev_free (b_prev_free b)) ;;
      f ← gets free_list;
      if bool_decide (f = Some bh) then b ← get_bh bh; modify (set_free_list (b_next_free b)) else skip
  | _, _ => panic "Free block list corrupted"
  end.

Definition insert_into_queues (bh : nat) : M bcache unit :=
  f ← gets free_list;
  upd_bh bh (set_next_free f) ;;
  f ← deref f;
  fb ← get_bh f;
  upd_bh bh (set_prev_free (b_prev_free fb)) ;;
  fb ← get_bh f; p ← deref (b_prev_free fb);
  upd_bh p (set_next_free (Some bh)) ;;
  upd_bh f (set_prev_free (Some bh)) ;;
  upd_bh bh (set_prev None) ;;
  upd_bh bh (set_next None) ;;
  b ← get_bh bh;
  if b_dev b =? 0 then skip else
  h ← get_hash (b_dev b) (b_blocknr b);
  upd_bh bh (set_next h) ;;
  put_hash (b_dev b) (b_blocknr b) (Some bh) ;;
  match h with Some n => upd_bh n (set_prev (Some bh)) | None => modify add_null end.

Definition find_step (dev block : Z) (tmp : option nat) : M bcache (option nat + option nat) :=
  match tmp with
  | None => mret (inr None)
  | Some t =>
      b ← get_bh t;
      mret (if (b_dev b =? dev) && (b_blocknr b =? block) then inr (Some t) else inl (b_next b))
  end.
Definition find_buffer (dev block : Z) : M bcache (option nat) :=
  l ← gets bhs; h ← get_hash dev block; loop (S (S (length l))) (find_step dev block) h.

(** ** getblk *)

(** Where [getblk] is: at [repeat]; in [get_hash_table], which has counted
    [bh]; or past the choice of [bh]. *)
Inductive gpc := Repeat | Hashed (bh : nat) | Chosen (bh : nat).
(** It sleeps, it has a device synchronised, it jumps, or it returns. *)
Inductive gout := Sleep (l : gpc) | Sync (dev : Z) (l : gpc) | Goto (l : gpc) | Got (bh : nat).

Definition BADNESS (b : buffer_head) : Z := Z.shiftl (b_dirt b) 1 + b_lock b.

(** [get_hash_table] from [wait_on_buffer] on. *)
Definition hashed (dev block : Z) (bh : nat) : M bcache gout :=
  b ← get_bh bh;
  if negb (b_lock b =? 0) then mret (Sleep (Hashed bh)) else
  if (b_dev b =? dev) && (b_blocknr b =? block) then mret (Got bh) else
  upd_bh bh (fun b => set_count (u8 (b_count b - 1)) b) ;; mret (Goto Repeat).

(** The loop over the free list: the buffer looked at and the best so far. *)
Definition choose_step (l : nat * option nat) : M bcache (nat * option nat + option nat) :=
  let '(tmp, bh) := l in
  t ← get_bh tmp;
  bad ← (match bh with None => mret true | Some b => x ← get_bh b; mret (BADNESS t <? BADNESS x) end);
  if (b_count t =? 0) && bad && (BADNESS t =? 0) then mret (inr (Some tmp)) else
  let bh := if (b_count t =? 0) && bad then Some tmp else bh in
  f ← gets free_list; n ← deref (b_next_free t);
  mret (if bool_decide (f = Some n) then inr bh else inl (n, bh)).
Definition choose : M bcache (option nat) :=
  l ← gets bhs; f ← gets free_list; f ← deref f; loop (S (length l)) choose_step (f, None).

(** The buffer [bh] becomes the one of the block. *)
Definition take_over (dev block : Z) (bh : nat) : M bcache unit :=
  upd_bh bh (set_count 1) ;;
  upd_bh bh (fun b => set_flags 0 0 (b_lock b) b) ;;
  remove_from_queues bh ;;
  upd_bh bh (set_id dev block) ;;
  insert_into_queues bh.

(** From a [wait_on_buffer] of the buffer chosen to its end. *)
Definition chosen (dev block : Z) (bh : nat) : M bcache gout :=
  b ← get_bh bh;
  if negb (b_lock b =? 0) then mret (Sleep (Chosen bh)) else
  if negb (b_count b =? 0) then mret (Goto Repeat) else
  if negb (b_dirt b =? 0) then mret (Sync (b_dev b) (Chosen bh)) else
  f ← find_buffer dev block;
  match f with
  | Some _ => mret (Goto Repeat)
  | None => take_over dev block bh ;; mret (Got bh)
  end.

Definition getblk_at (dev block : Z) (l : gpc) : M bcache gout :=
  match l with
  | Repeat =>
      f ← find_buffer dev block;
      match f with
      | Some bh => upd_bh bh (fun b => set_count (u8 (b_count b + 1)) b) ;; hashed dev block bh
      | None => c ← choose; match c with None => mret (Sleep Repeat) | Some bh => chosen dev block bh end
      end
  | Hashed bh => hashed dev block bh
  | Chosen bh => chosen dev block bh
  end.

(** ** The devices *)

(** What the cache needs of the drivers and of the caches above it. *)
Class DevOps := {
  ll_rw_block : Z -> nat -> M bcache unit;
  sync_inodes : M bcache unit;
  copy_block : Z -> Z -> M bcache unit;
  floppy_change : Z -> M bcache bool;
  super_devs : list Z;
  put_super : Z -> M bcache unit;
  invalidate_inodes : Z -> M bcache unit;
  wake_up_buffer : M bcache unit }.

Section Devices.
Context `{DevOps}.

Definition sleeps {A} : M bcache A := fun s => Switched s.
Definition wait_on_buffer (bh : nat) : M bcache unit := b ← get_bh bh; if b_lock b =? 0 then skip else sleeps.

Definition sys_sync : M bcache Z :=
  sync_inodes ;;
  l ← gets bhs;
  for_range 0 (length l) (fun i => wait_on_buffer i ;; b ← get_bh i; if b_dirt b =? 0 then skip else ll_rw_block WRITE i) ;;
  mret 0.

Definition sync_buffers (dev : Z) : M bcache unit :=
  l ← gets bhs;
  for_range 0 (length l) (fun i =>
    b ← get_bh i;
    if negb (b_dev b =? dev) then skip else
    wait_on_buffer i ;;
    b ← get_bh i;
    if (b_dev b =? dev) && negb (b_dirt b =? 0) then ll_rw_block WRITE i else skip).
Definition sync_dev (dev : Z) : M bcache Z := sync_buffers dev ;; sync_inodes ;; sync_buffers dev ;; mret 0.

Definition invalidate_buffers (dev : Z) : M bcache unit :=
  l ← gets bhs;
  for_range 0 (length l) (fun i =>
    b ← get_bh i;
    if negb (b_dev b =? dev) then skip else
    wait_on_buffer i ;;
    b ← get_bh i;
    if b_dev b =? dev then upd_bh i (fun b => set_flags 0 0 (b_lock b) b) else skip).

Definition check_disk_change (dev : Z) : M bcache unit :=
  if negb (MAJOR dev =? 2) then skip else
  c ← floppy_change (Z.land dev 3);
  if negb c then skip else
  for_range 0 (length super_devs) (fun i => d ← idx super_devs i; if d =? dev then put_super d else skip) ;;
  invalidate_inodes dev ;;
  invalidate_buffers dev.

(** [getblk] as far as it gets without sleeping. *)
Definition getblk (fuel : nat) (dev block : Z) : M bcache nat :=
  loop fuel (fun l =>
    r ← getblk_at dev block l;
    match r with
    | Sleep _ => sleeps
    | Sync d l => sync_dev d ;; mret (inl l)
    | Goto l => mret (inl l)
    | Got bh => mret (inr bh)
    end) Repeat.
Definition get_hash_table (fuel : nat) (dev block : Z) : M bcache (option nat) :=
  loop fuel (fun _ : unit =>
    f ← find_buffer dev block;
    match f with
    | None => mret (inr None)
    | Some bh =>
        upd_bh bh (fun b => set_count (u8 (b_count b + 1)) b) ;;
        r ← hashed dev block bh;
        match r with Sleep _ => sleeps | Got bh => mret (inr (Some bh)) | _ => mret (inl tt) end
    end) tt.

Definition brelse (buf : option nat) : M bcache unit :=
  match buf with
  | None => skip
  | Some i =>
      wait_on_buffer i ;;
      b ← get_bh i;
      upd_bh i (set_count (u8 (b_count b - 1))) ;;
      (if b_count b =? 0 then panic "Trying to free free buffer" else skip) ;;
      wake_up_buffer
  end.

(** [bread] once the buffer is there, and once it has been read. *)
Definition bread_end (bh : nat) : M bcache (option nat) :=
  wait_on_buffer bh ;;
  b ← get_bh bh;
  if negb (b_uptodate b =? 0) then mret (Some bh) else brelse (Some bh) ;; mret None.
Definition bread (fuel : nat) (dev block : Z) : M bcache (option nat) :=
  bh ← getblk fuel dev block;
  b ← get_bh bh;
  if negb (b_uptodate b =? 0) then mret (Some bh) else ll_rw_block READ bh ;; bread_end bh.

Fixpoint page_bufs (fuel : nat) (dev : Z) (bs : list Z) : M bcache (list (option nat)) :=
  match bs with
  | [] => mret []
  | b :: bs =>
      x ← (if b =? 0 then mret None
           else bh ← getblk fuel dev b; h ← get_bh bh; (if b_uptodate h =? 0 then ll_rw_block READ bh else skip) ;; mret (Some bh));
      l ← page_bufs fuel dev bs;
      mret (x :: l)
  end.
Fixpoint page_copy (address : Z) (l : list (option nat)) : M bcache unit :=
  match l with
  | [] => skip
  | x :: l =>
      (match x with
       | None => skip
       | Some bh =>
           wait_on_buffer bh ;;
           b ← get_bh bh;
           (if negb (b_uptodate b =? 0) then copy_block (b_data b) address else skip) ;;
           brelse (Some bh)
       end) ;;
      page_copy (address + BLOCK_SIZE) l
  end.
Definition bread_page (fuel : nat) (address dev : Z) (b : list Z) : M bcache unit :=
  l ← page_bufs fuel dev b; page_copy address l.

(** The blocks to read ahead end with a negative number; the request is made
    for the first buffer, [bh]. *)
Fixpoint read_ahead (fuel : nat) (dev : Z) (bh : nat) (args : list Z) : M bcache unit :=
  match args with
  | [] => fault
  | first :: args =>
      if first <? 0 then skip else
      tmp ← getblk fuel dev first;
      b ← get_bh tmp;
      (if b_uptodate b =? 0 then ll_rw_block READA bh else skip) ;;
      upd_bh tmp (fun b => set_count (u8 (b_count b - 1)) b) ;;
      read_ahead fuel dev bh args
  end.
Definition breada (fuel : nat) (dev first : Z) (args : list Z) : M bcache (option nat) :=
  bh ← getblk fuel dev first;
  b ← get_bh bh;
  (if b_uptodate b =? 0 then ll_rw_block READ bh else skip) ;;
  read_ahead fuel dev bh args ;;
  bread_end bh.
End Devices.

(** ** Start-up *)

Definition sizeof_bh : Z := 36.
(** The data areas of the buffers from the top down, above the heads, which
    start at [start] and of which there are [n]. *)
Fixpoint place_buffers (fuel : nat) (start : Z) (n : nat) (b : Z) : option (list Z) :=
  match fuel with
  | O => None
  | S fuel' =>
      let b := b - BLOCK_SIZE in
      if start + sizeof_bh * (Z.of_nat n + 1) <=? b then
        cons b <$> place_buffers fuel' start (S n) (if b =? 1048576 then 655360 else b)
      else Some []
  end.
Definition fresh_bh (n : nat) (blocknr : nat -> Z) (i : nat) (data : Z) : buffer_head :=
  mkBh data (blocknr i) 0 0 0 0 0 None None
    (if (i =? 0)%nat then Some (n - 1)%nat else Some (i - 1)%nat) (if (i =? n - 1)%nat then Some 0%nat else Some (S i)).
(** [blocknr] is what the block numbers are before anything is stored. *)
Definition buffer_init (buffer_end start : Z) (blocknr : nat -> Z) : option bcache :=
  ds ← place_buffers (Z.to_nat (buffer_end / BLOCK_SIZE) + 2) start 0 (if buffer_end =? 1048576 then 655360 else buffer_end);
  if (length ds =? 0)%nat then None else
  Some (mkBc (imap (fresh_bh (length ds) blocknr) ds) (replicate (Z.to_nat NR_HASH) None) (Some 0%nat) 0).
