(* ===== verification/LinuxCache.v ===== *)
(** * Linux 0.12: safety of the buffer cache

    The hash queues and the free list of [LinuxBuf] as lists, what taking a
    buffer out and putting it in does to them, and a system of tasks that run
    [getblk] and [brelse] interleaved at every place where they can sleep. *)

From S2P Require Import Prelude Dll LinuxBuf.

(** ** Accesses *)

Lemma get_bh_ok i b s : bhs s !! i = Some b -> get_bh i s = Ok b s.
Proof. intros H. unfold get_bh. erewrite bind_ok by reflexivity. unfold idx. by rewrite H. Qed.
Lemma upd_bh_ok i b f s : bhs s !! i = Some b -> upd_bh i f s = Ok tt (set_bhs (alter f i (bhs s)) s).
Proof.
  intros H. unfold upd_bh. rewrite (bind_ok _ _ _ _ _ (get_bh_ok _ _ _ H)). unfold modify. do 2 f_equal.
  apply list_eq. intros j. destruct (decide (j = i)) as [->|D]; [|by rewrite list_lookup_insert_ne, list_lookup_alter_ne by done].
  rewrite list_lookup_alter_eq, H, list_lookup_insert_eq by (by eapply lookup_lt_Some). done.
Qed.
Lemma bind_get {A} i b s (k : buffer_head -> M bcache A) : bhs s !! i = Some b -> (get_bh i ≫= k) s = k b s.
Proof. intros H. by rewrite (bind_ok _ _ _ _ _ (get_bh_ok _ _ _ H)). Qed.
Lemma bind_upd_bh {A} i f s (k : unit -> M bcache A) : is_Some (bhs s !! i) -> (upd_bh i f ≫= k) s = k tt (set_bhs (alter f i (bhs s)) s).
Proof. intros [b H]. by rewrite (bind_ok _ _ _ _ _ (upd_bh_ok _ _ _ _ H)). Qed.
Lemma alter_lookup {A} (f : A -> A) i (l : list A) j : alter f i l !! j = if decide (j = i) then f <$> l !! j else l !! j.
Proof. case_decide as D; [subst; apply list_lookup_alter_eq|by apply list_lookup_alter_ne]. Qed.

Lemma get_hash_ok d b v s : hash_table s !! _hashfn d b = Some v -> get_hash d b s = Ok v s.
Proof. intros H. unfold get_hash. erewrite bind_ok by reflexivity. unfold idx. by rewrite H. Qed.
Lemma put_hash_ok d b w v s : hash_table s !! _hashfn d b = Some v -> put_hash d b w s = Ok tt (set_hash (<[_hashfn d b := w]> (hash_table s)) s).
Proof. intros H. unfold put_hash. by rewrite (bind_ok _ _ _ _ _ (get_hash_ok _ _ _ _ H)). Qed.

Lemma hashfn_lt dev block : (_hashfn dev block < 307)%nat.
Proof. unfold _hashfn, NR_HASH. pose proof (Z.mod_pos_bound (u32 (Z.lxor dev block)) 307 ltac:(lia)). lia. Qed.

(** ** The free list *)

Definition nf (l : list buffer_head) (i : nat) : nat := match l !! i with Some b => default 0%nat (b_next_free b) | None => 0%nat end.
Definition pf (l : list buffer_head) (i : nat) : nat := match l !! i with Some b => default 0%nat (b_prev_free b) | None => 0%nat end.

Record ring (l : list buffer_head) (F : list nat) : Prop := {
  rg_nodup : NoDup F;
  rg_links : forall x, x ∈ F -> exists b, l !! x = Some b /\ b_next_free b = Some (nf l x) /\ b_prev_free b = Some (pf l x);
  rg_chain : match F with [] => True | x :: r => chain (nf l) (pf l) x r x end }.

(** Updates of one buffer that keep its place in the free list. *)
Definition same_free (b b' : buffer_head) : Prop := b_next_free b' = b_next_free b /\ b_prev_free b' = b_prev_free b.
Lemma nf_alter l i v j : (i < length l)%nat -> nf (alter (set_next_free (Some v)) i l) j = fupd (nf l) i v j.
Proof. intros [b H]%lookup_lt_is_Some_2. unfold nf, fupd. rewrite alter_lookup. case_decide as D; [subst; by rewrite H|done]. Qed.
Lemma pf_alter l i v j : (i < length l)%nat -> pf (alter (set_prev_free (Some v)) i l) j = fupd (pf l) i v j.
Proof. intros [b H]%lookup_lt_is_Some_2. unfold pf, fupd. rewrite alter_lookup. case_decide as D; [subst; by rewrite H|done]. Qed.
Lemma nf_same l f i j : (forall b, b_next_free (f b) = b_next_free b) -> nf (alter f i l) j = nf l j.
Proof. intros Hf. unfold nf. rewrite alter_lookup. case_decide as D; [|done]. destruct (l !! j); [cbn; by rewrite Hf|done]. Qed.
Lemma pf_same l f i j : (forall b, b_prev_free (f b) = b_prev_free b) -> pf (alter f i l) j = pf l j.
Proof. intros Hf. unfold pf. rewrite alter_lookup. case_decide as D; [|done]. destruct (l !! j); [cbn; by rewrite Hf|done]. Qed.

(** Lists that agree on the free list. *)
Lemma ring_ext l l' F : (forall x b, x ∈ F -> l !! x = Some b -> exists b', l' !! x = Some b' /\ same_free b b') -> ring l F -> ring l' F.
Proof.
  intros He [H1 H2 H3].
  assert (forall x, x ∈ F -> nf l' x = nf l x /\ pf l' x = pf l x) as Hf.
  { intros x Hx. destruct (H2 x Hx) as (b & Hb & _). destruct (He x b Hx Hb) as (b' & Hb' & E1 & E2). unfold nf, pf. by rewrite Hb, Hb', E1, E2. }
  split; [done| |].
  - intros x Hx. destruct (H2 x Hx) as (b & Hb & E1 & E2). destruct (He x b Hx Hb) as (b' & Hb' & E3 & E4). exists b'.
    destruct (Hf x Hx) as [-> ->]. by rewrite E3, E4.
  - destruct F as [|x r]; [done|]. apply (chain_ext (nf l) (pf l)); [| |done]; intros y Hy; apply Hf, elem_of_cons; naive_solver.
Qed.

(** The ring turned by one. *)
Lemma chain_turn nx pv x y r : chain nx pv x (y :: r) x -> chain nx pv y (r ++ [x]) y.
Proof. cbn. intros (H1 & H2 & H3). apply chain_app. by cbn. Qed.

(** Splitting off an element as the head of the ring. *)
Lemma ring_at l l1 y l2 : ring l (l1 ++ y :: l2) -> ring l (y :: l2 ++ l1).
Proof.
  revert y l2. induction l1 as [|x l1 IH] using rev_ind; intros y l2 Hr; [by rewrite app_nil_r|].
  rewrite <- app_assoc in Hr. cbn in Hr. specialize (IH x (y :: l2) Hr). destruct IH as [H1 H2 H3]. split.
  - rewrite app_assoc. apply (NoDup_Permutation_proper (x :: y :: l2 ++ l1)); [|exact H1]. apply (Permutation_cons_append (y :: l2 ++ l1) x).
  - intros z Hz. apply H2. set_solver.
  - cbn in H3 |- *. rewrite app_assoc. apply chain_turn. by cbn.
Qed.

(** All links of the buffers of [F] are there. *)
Definition linked (l : list buffer_head) (F : list nat) : Prop :=
  forall x, x ∈ F -> exists b, l !! x = Some b /\ is_Some (b_next_free b) /\ is_Some (b_prev_free b).
Lemma linked_links l F : linked l F -> forall x, x ∈ F -> exists b, l !! x = Some b /\ b_next_free b = Some (nf l x) /\ b_prev_free b = Some (pf l x).
Proof. intros H x Hx. destruct (H x Hx) as (b & Hb & [n Hn] & [p Hp]). exists b. unfold nf, pf. by rewrite Hb, Hn, Hp. Qed.
Lemma ring_linked l F : ring l F -> linked l F.
Proof. intros Hr x Hx. destruct (rg_links _ _ Hr x Hx) as (b & Hb & E1 & E2). exists b. by rewrite E1, E2. Qed.
Lemma linked_alter l F f i : (forall b, is_Some (b_next_free b) -> is_Some (b_next_free (f b))) -> (forall b, is_Some (b_prev_free b) -> is_Some (b_prev_free (f b))) ->
  linked l F -> linked (alter f i l) F.
Proof.
  intros H1 H2 H x Hx. destruct (H x Hx) as (b & Hb & Hn & Hp). rewrite alter_lookup. case_decide; rewrite Hb; [exists (f b)|exists b]; split_and!; auto.
Qed.
Lemma ring_mem l F x : ring l F -> x ∈ F -> (x < length l)%nat /\ nf l x ∈ F /\ pf l x ∈ F.
Proof.
  intros Hr Hx. destruct (rg_links _ _ Hr x Hx) as (b & Hb & _). split; [by eapply lookup_lt_Some|].
  destruct (list_elem_of_split _ _ Hx) as (l1 & l2 & ->). apply ring_at in Hr. pose proof (rg_chain _ _ Hr) as Hc. cbn in Hc.
  rewrite (chain_first _ _ _ _ _ Hc), (chain_last _ _ _ _ _ Hc). split.
  - destruct (l2 ++ l1) as [|y r] eqn:E; cbn; [set_solver|]. assert (y ∈ l2 ++ l1) by (rewrite E; left). set_solver.
  - destruct (last (l2 ++ l1)) as [y|] eqn:E; cbn; [|set_solver]. apply last_Some_elem_of in E. set_solver.
Qed.

(** A buffer taken out, as [remove_from_queues] does it. *)
Lemma ring_remove l l1 x l2 : ring l (l1 ++ x :: l2) ->
  ring (alter (set_prev_free (Some (pf l x))) (nf l x) (alter (set_next_free (Some (nf l x))) (pf l x) l)) (l1 ++ l2).
Proof.
  intros Hr. assert (x ∈ l1 ++ x :: l2) as Hx by set_solver. destruct (ring_mem _ _ _ Hr Hx) as (Hlt & Hn & Hp).
  destruct (ring_mem _ _ _ Hr Hn) as (Hln & _). destruct (ring_mem _ _ _ Hr Hp) as (Hlp & _).
  set (l' := alter _ _ _). apply ring_at in Hr.
  assert (ring l' (l2 ++ l1)) as H2.
  { assert (linked l' (x :: l2 ++ l1)) as Hlk by (apply linked_alter; [done|done|]; apply linked_alter; [done|done|]; by apply ring_linked). split.
    - pose proof (rg_nodup _ _ Hr) as Hnd. by apply NoDup_cons in Hnd as [_ ?].
    - apply linked_links. intros y Hy. apply Hlk. by right.
    - pose proof (rg_chain _ _ Hr) as Hc. pose proof (rg_nodup _ _ Hr) as Hnd. cbn in Hc. destruct (l2 ++ l1) as [|y r]; [done|]. apply chain_turn in Hc.
      apply (chain_unlink _ _ _ r x []) in Hc; [|apply (NoDup_Permutation_proper (x :: y :: r)); [apply (Permutation_cons_append (y :: r) x)|done]].
      rewrite app_nil_r in Hc. eapply chain_ext; [| |exact Hc]; intros z _; unfold l'.
      + rewrite nf_same by done. by apply nf_alter.
      + rewrite pf_alter by (by rewrite length_alter). unfold fupd. case_decide; [done|]. by apply pf_same. }
  destruct l1 as [|y l1]; [by rewrite app_nil_r in H2|]. by apply ring_at in H2.
Qed.

(** A buffer put at the end, as [insert_into_queues] does it. *)
Lemma ring_insert l f r b : ring l (f :: r) -> b ∉ f :: r -> (b < length l)%nat ->
  ring (alter (set_prev_free (Some b)) f (alter (set_next_free (Some b)) (pf l f)
    (alter (set_prev_free (Some (pf l f))) b (alter (set_next_free (Some f)) b l)))) ((f :: r) ++ [b]).
Proof.
  intros Hr Hb Hlt. assert (f ∈ f :: r) as Hf by left. destruct (ring_mem _ _ _ Hr Hf) as (Hlf & _ & Hp). destruct (ring_mem _ _ _ Hr Hp) as (Hlp & _).
  pose proof (rg_nodup _ _ Hr) as Hnd. pose proof Hnd as [Hfr Hndr]%NoDup_cons. set (l' := alter _ f _). split.
  - apply (NoDup_Permutation_proper (b :: f :: r)); [apply (Permutation_cons_append (f :: r) b)|]. by constructor.
  - apply linked_links. intros y Hy. unfold l'. apply linked_alter with (F := f :: r ++ [b]); [done|done| |exact Hy]. apply linked_alter; [done|done|].
    clear y Hy l'. intros y Hy. rewrite !alter_lookup. destruct (decide (y = b)) as [->|Hyb].
    + destruct (lookup_lt_is_Some_2 _ _ Hlt) as [x Hx]. rewrite Hx. eexists. split; [reflexivity|]. split; by eexists.
    + destruct (ring_linked _ _ Hr y) as (x & Hx & H1 & H2); [set_solver|]. exists x. by split_and!.
  - cbn [app]. rewrite <- (reverse_involutive (r ++ [b])). apply chain_rev. pose proof (chain_rev _ _ _ _ _ (rg_chain _ _ Hr)) as Hc. cbn [rg_chain] in Hc.
    apply (chain_push _ _ f (reverse r) b) in Hc; [|set_solver|by rewrite elem_of_reverse; set_solver|by rewrite elem_of_reverse|by apply (NoDup_Permutation_proper r); [symmetry; apply reverse_Permutation|]].
    rewrite reverse_app. cbn [reverse app]. eapply chain_ext; [| |exact Hc]; intros z _; unfold l'.
    + rewrite pf_alter by (by rewrite !length_alter). unfold fupd. destruct (decide (z = f)); [done|]. rewrite pf_same by done.
      rewrite pf_alter by (by rewrite !length_alter). unfold fupd. destruct (decide (z = b)); [done|]. by apply pf_same.
    + rewrite nf_same by done. rewrite nf_alter by (by rewrite !length_alter). unfold fupd. destruct (decide (z = pf l f)); [done|].
      rewrite nf_same by done. rewrite nf_alter by done. done.
Qed.

(** ** The hash queues *)

Definition before (l : list nat) (j : nat) : option nat := match j with O => None | S j' => l !! j' end.

(** The buffers of [F] that have a device are in the queues [C]. *)
Record hashq (l : list buffer_head) (ht : list (option nat)) (F : list nat) (C : nat -> list nat) : Prop := {
  hq_len : length ht = 307%nat;
  hq_head : forall h, (h < 307)%nat -> ht !! h = Some (C h !! 0%nat);
  hq_node : forall h j x, C h !! j = Some x -> x ∈ F /\ exists b, l !! x = Some b /\ b_dev b <> 0 /\ _hashfn (b_dev b) (b_blocknr b) = h /\
    b_next b = C h !! S j /\ b_prev b = before (C h) j;
  hq_nodup : forall h, NoDup (C h);
  hq_all : forall x b, x ∈ F -> l !! x = Some b -> b_dev b <> 0 -> x ∈ C (_hashfn (b_dev b) (b_blocknr b));
  hq_none : forall x b, x ∈ F -> l !! x = Some b -> b_dev b = 0 -> b_next b = None /\ b_prev b = None }.

(** Nothing of the queues depends on the rest of a buffer. *)
Definition same_hash (b b' : buffer_head) : Prop :=
  b_dev b' = b_dev b /\ b_blocknr b' = b_blocknr b /\ b_next b' = b_next b /\ b_prev b' = b_prev b.
Lemma hashq_ext l l' ht F C : (forall x b, x ∈ F -> l !! x = Some b -> exists b', l' !! x = Some b' /\ same_hash b b') ->
  (forall x, x ∈ F -> is_Some (l !! x)) -> hashq l ht F C -> hashq l' ht F C.
Proof.
  intros He Hs [H1 H2 H3 H4 H5 H6].
  assert (forall x b', x ∈ F -> l' !! x = Some b' -> exists b, l !! x = Some b /\ same_hash b b') as Hb.
  { intros x b' Hx Hb'. destruct (Hs x Hx) as [b Hb]. destruct (He x b Hx Hb) as (b2 & E & Hsame). rewrite Hb' in E. injection E as <-. by exists b. }
  split; try done.
  - intros h j x Hj. destruct (H3 h j x Hj) as (Hx & b & Hb' & E1 & E2 & E3 & E4). split; [done|]. destruct (He x b Hx Hb') as (b' & E & S1 & S2 & S3 & S4).
    exists b'. by rewrite S1, S2, S3, S4.
  - intros x b' Hx Hb' Hd. destruct (Hb x b' Hx Hb') as (b & Eb & S1 & S2 & _). rewrite S1, S2 in *. by eapply H5.
  - intros x b' Hx Hb' Hd. destruct (Hb x b' Hx Hb') as (b & Eb & S1 & S2 & S3 & S4). rewrite S3, S4. rewrite S1 in Hd. by eapply H6.
Qed.

Definition is_block (l : list buffer_head) (dev block : Z) (x : nat) : bool :=
  match l !! x with Some b => (b_dev b =? dev) && (b_blocknr b =? block) | None => false end.

Lemma queue_bound l ht F C h : hashq l ht F C -> (length (C h) <= length l)%nat.
Proof.
  intros Hq. assert (length (C h) <= length (seq 0 (length l)))%nat as Hle; [|by rewrite length_seq in Hle]. apply submseteq_length, NoDup_submseteq; [apply Hq|].
  intros x [j Hj]%list_elem_of_lookup. destruct (hq_node _ _ _ _ Hq h j x Hj) as (_ & b & Hb & _). apply elem_of_seq. apply lookup_lt_Some in Hb. lia.
Qed.
Lemma find_loop s C F h dev block : hashq (bhs s) (hash_table s) F C -> forall l2 l1 m, C h = l1 ++ l2 -> (length l2 < m)%nat ->
  loop m (find_step dev block) (l2 !! 0%nat) s = Ok (List.find (is_block (bhs s) dev block) l2) s.
Proof.
  intros Hq l2. induction l2 as [|x l2 IH]; intros l1 m Hc Hm; (destruct m as [|m]; [lia|]); [by apply loop_done|].
  assert (C h !! length l1 = Some x) as Hx by (rewrite Hc, lookup_app_r, Nat.sub_diag by lia; done).
  destruct (hq_node _ _ _ _ Hq h _ _ Hx) as (_ & b & Hb & _ & _ & En & _).
  cbn [List.find]. unfold is_block at 1. rewrite Hb. cbn [lookup list_lookup]. destruct ((b_dev b =? dev) && (b_blocknr b =? block)) eqn:E.
  - apply loop_done. unfold find_step. rewrite (bind_get _ _ _ _ Hb). by rewrite E.
  - erewrite loop_next; [|unfold find_step; rewrite (bind_get _ _ _ _ Hb); by rewrite E].
    rewrite En. assert (C h !! S (length l1) = l2 !! 0%nat) as -> by (rewrite Hc, lookup_app_r by lia; by replace (S (length l1) - length l1)%nat with 1%nat by lia).
    apply (IH (l1 ++ [x])); [by rewrite <- app_assoc|cbn in Hm; lia].
Qed.
Lemma find_buffer_ok s C F dev block : hashq (bhs s) (hash_table s) F C -> dev <> 0 ->
  exists r, find_buffer dev block s = Ok r s /\
    match r with
    | Some x => x ∈ F /\ exists b, bhs s !! x = Some b /\ b_dev b = dev /\ b_blocknr b = block
    | None => forall x b, x ∈ F -> bhs s !! x = Some b -> b_dev b = dev -> b_blocknr b <> block
    end.
Proof.
  intros Hq Hd. set (h := _hashfn dev block). exists (List.find (is_block (bhs s) dev block) (C h)). split.
  - unfold find_buffer. erewrite bind_ok by reflexivity.
    rewrite (bind_ok _ _ _ _ _ (get_hash_ok _ _ _ _ (hq_head _ _ _ _ Hq h (hashfn_lt _ _)))).
    apply (find_loop s C F h dev block Hq (C h) []); [done|]. pose proof (queue_bound _ _ _ _ h Hq). lia.
  - destruct (List.find _ _) as [x|] eqn:E.
    + apply find_some in E as [Hx E]. apply list_elem_of_In in Hx. apply list_elem_of_lookup in Hx as [j Hj]. destruct (hq_node _ _ _ _ Hq h j x Hj) as (Hx & b & Hb & _).
      split; [done|]. exists b. unfold is_block in E. rewrite Hb in E. apply andb_true_iff in E as [E1%Z.eqb_eq E2%Z.eqb_eq]. done.
    + intros x b Hx Hb Hdev Hblk. pose proof (hq_all _ _ _ _ Hq x b Hx Hb ltac:(by rewrite Hdev)) as Hin. rewrite Hdev, Hblk in Hin.
      apply list_elem_of_In in Hin. apply (find_none _ _ E x) in Hin. unfold is_block in Hin. by rewrite Hb, Hdev, Hblk, !Z.eqb_refl in Hin.
Qed.

(** ** Out of the queues *)

Definition unhash (b : buffer_head) (l : list buffer_head) : list buffer_head :=
  let l1 := match b_next b with Some n => alter (set_prev (b_prev b)) n l | None => l end in
  match b_prev b with Some p => alter (set_next (b_next b)) p l1 | None => l1 end.
Lemma unhash_lookup b l y : unhash b l !! y =
  (fun b' => (if decide (b_prev b = Some y) then set_next (b_next b) else id) ((if decide (b_next b = Some y) then set_prev (b_prev b) else id) b')) <$> l !! y.
Proof.
  unfold unhash. destruct (b_prev b) as [p|], (b_next b) as [n|]; rewrite ?alter_lookup; repeat case_decide; simplify_eq; match goal with |- context [l !! ?z] => destruct (l !! z) end; done.
Qed.

(** The rest of a buffer, which the queues do not concern. *)
Definition same_rest (b b' : buffer_head) : Prop :=
  b_dev b' = b_dev b /\ b_blocknr b' = b_blocknr b /\ b_count b' = b_count b /\ b_uptodate b' = b_uptodate b /\ b_dirt b' = b_dirt b /\ b_lock b' = b_lock b /\ b_data b' = b_data b.
Lemma unhash_fields b l y b0 : l !! y = Some b0 -> exists b', unhash b l !! y = Some b' /\ same_rest b0 b' /\ same_free b0 b' /\
  b_next b' = (if decide (b_prev b = Some y) then b_next b else b_next b0) /\ b_prev b' = (if decide (b_next b = Some y) then b_prev b else b_prev b0).
Proof. intros H. rewrite unhash_lookup, H. eexists. split; [reflexivity|]. repeat case_decide; done. Qed.
Lemma unhash_old b l y b' : unhash b l !! y = Some b' -> exists b0, l !! y = Some b0.
Proof. rewrite unhash_lookup. destruct (l !! y); [by eexists|done]. Qed.
Lemma filter_absent (x : nat) (l : list nat) : x ∉ l -> filter (.≠ x) l = l.
Proof. induction l as [|y l IH]; intros Hx; [done|]. rewrite filter_cons_True by set_solver. f_equal. apply IH. set_solver. Qed.

Definition drop_at (h x : nat) (C : nat -> list nat) : nat -> list nat := fun k => if decide (k = h) then filter (.≠ x) (C k) else C k.

Section Unhash.
Context (l : list buffer_head) (ht : list (option nat)) (F F' : list nat) (C : nat -> list nat) (x : nat) (b : buffer_head).
Context (Hq : hashq l ht F C) (Hx : x ∈ F) (Hb : l !! x = Some b) (HF' : forall y, y ∈ F' <-> y ∈ F /\ y <> x).
Notation h := (_hashfn (b_dev b) (b_blocknr b)).

Lemma queue_split : b_dev b <> 0 -> exists c1 c2, C h = c1 ++ x :: c2 /\ x ∉ c1 /\ x ∉ c2 /\ b_next b = c2 !! 0%nat /\ b_prev b = last c1 /\ filter (.≠ x) (C h) = c1 ++ c2.
Proof.
  intros Hd. pose proof (hq_all _ _ _ _ Hq x b Hx Hb Hd) as Hin. destruct (list_elem_of_split _ _ Hin) as (c1 & c2 & E). exists c1, c2.
  pose proof (hq_nodup _ _ _ _ Hq h) as Hnd. rewrite E in Hnd. apply NoDup_app in Hnd as (N1 & N2 & [N3 N4]%NoDup_cons).
  assert (C h !! length c1 = Some x) as Hj by (rewrite E, lookup_app_r, Nat.sub_diag by lia; done).
  destruct (hq_node _ _ _ _ Hq h _ _ Hj) as (_ & b' & Hb' & _ & _ & En & Ep). rewrite Hb in Hb'. injection Hb' as <-.
  assert (x ∉ c1) as Nx by (intros H; apply (N2 x H); left). split_and!; [done|done|done| | |].
  - rewrite En, E, lookup_app_r by lia. by replace (S (length c1) - length c1)%nat with 1%nat by lia.
  - rewrite Ep, last_lookup. destruct c1 as [|y c1]; [done|]. cbn [length before pred]. rewrite E, lookup_app_l by (cbn; lia). done.
  - rewrite E, filter_app, filter_cons_False, !filter_absent by (done || (intros H; by apply H)). done.
Qed.

Lemma not_own : b_next b <> Some x /\ b_prev b <> Some x.
Proof.
  destruct (decide (b_dev b = 0)) as [Hd|Hd]; [destruct (hq_none _ _ _ _ Hq x b Hx Hb Hd) as [-> ->]; done|].
  destruct (queue_split Hd) as (c1 & c2 & _ & H1 & H2 & -> & -> & _). split; intros E; [apply H2, list_elem_of_lookup; by exists 0%nat|by apply H1; apply last_Some_elem_of].
Qed.

Lemma unhash_ok : hashq (unhash b l) (if bool_decide (ht !! h = Some (Some x)) then <[h := b_next b]> ht else ht) F' (if decide (b_dev b = 0) then C else drop_at h x C).
Proof.
  destruct (decide (b_dev b = 0)) as [Hd|Hd].
  - destruct (hq_none _ _ _ _ Hq x b Hx Hb Hd) as [En Ep]. unfold unhash. rewrite En, Ep.
    rewrite bool_decide_eq_false_2; [|rewrite (hq_head _ _ _ _ Hq _ (hashfn_lt _ _)); intros [= E]; destruct (hq_node _ _ _ _ Hq _ _ _ E) as (_ & b' & Hb' & Hd' & _); congruence].
    destruct Hq as [H1 H2 H3 H4 H5 H6]. split; [done|done| |done|intros y b' [Hy _]%HF'; by apply H5|intros y b' [Hy _]%HF'; by apply H6].
    intros k j y Hj. destruct (H3 k j y Hj) as (Hy & b' & Hb' & Hd' & R). split; [|by exists b']. apply HF'. split; [done|]. intros ->. congruence.
  - destruct (queue_split Hd) as (c1 & c2 & E & N1 & N2 & En & Ep & Ef). pose proof Hq as [H1 H2 H3 H4 H5 H6].
    assert (drop_at h x C h = c1 ++ c2) as Eh by (unfold drop_at; by rewrite decide_True).
    assert (forall k, k <> h -> drop_at h x C k = C k) as Ek by (intros k Hk; unfold drop_at; by rewrite decide_False).
    assert (NoDup (c1 ++ c2)) as Nd by (rewrite <- Ef; apply NoDup_filter, H4). apply NoDup_app in Nd as (Nd1 & Nd2 & Nd3).
    assert (forall y, b_next b = Some y -> y ∈ c2) as Hn by (intros y Hy; apply list_elem_of_lookup; exists 0%nat; by rewrite <- En).
    assert (forall y, b_prev b = Some y -> y ∈ c1) as Hp by (intros y Hy; rewrite Ep in Hy; by apply last_Some_elem_of in Hy).
    split.
    + case_bool_decide; by rewrite ?length_insert.
    + intros k Hk. destruct (decide (k = h)) as [->|Hne]; [|rewrite Ek by done; case_bool_decide; [rewrite list_lookup_insert_ne by done|]; by apply H2].
      rewrite Eh, (H2 h Hk). rewrite E. destruct c1 as [|y c1].
      * rewrite bool_decide_eq_true_2 by done. rewrite list_lookup_insert_eq by (by rewrite H1). by rewrite En.
      * rewrite bool_decide_eq_false_2; [rewrite (H2 h Hk), E; done|]. cbn. intros [= ->]. apply N1. left.
    + intros k j y Hj. destruct (decide (k = h)) as [->|Hne].
      * rewrite Eh in Hj |- *. apply lookup_app_Some in Hj as [Hj|[Hlen Hj]].
        -- pose proof (lookup_lt_Some _ _ _ Hj) as Hlt. assert (y ∈ c1) as Hy by (apply list_elem_of_lookup; by exists j).
           destruct (H3 h j y) as (HyF & b0 & Hb0 & G1 & G2 & G3 & G4); [by rewrite E, lookup_app_l|]. split; [apply HF'; split; [done|by intros ->]|].
           destruct (unhash_fields b l y b0 Hb0) as (b' & Eb' & (R1 & R2 & _) & _ & Fn & Fp). exists b'. rewrite R1, R2, Fn, Fp. clear Fn Fp. split_and!; try done.
           ++ case_decide as D; [|].
              ** rewrite Ep, last_lookup in D. assert (j = pred (length c1)) as -> by (eapply NoDup_lookup; [exact Nd1|exact Hj|exact D]). rewrite En, lookup_app_r by lia.
                 by replace (S (pred (length c1)) - length c1)%nat with 0%nat by lia.
              ** rewrite G3, E. assert (S j <> length c1) as Hne by (intros E'; apply D; by rewrite Ep, last_lookup, <- E'). by rewrite !lookup_app_l by lia.
           ++ rewrite decide_False by (intros D; apply (Nd2 y Hy); by apply Hn). rewrite G4, E. destruct j as [|j]; [done|]. cbn [before]. by rewrite !lookup_app_l by lia.
        -- assert (y ∈ c2) as Hy by (apply list_elem_of_lookup; by eexists).
           destruct (H3 h (S j) y) as (HyF & b0 & Hb0 & G1 & G2 & G3 & G4); [rewrite E, lookup_app_r by lia; by replace (S j - length c1)%nat with (S (j - length c1)) by lia|].
           split; [apply HF'; split; [done|by intros ->]|].
           destruct (unhash_fields b l y b0 Hb0) as (b' & Eb' & (R1 & R2 & _) & _ & Fn & Fp). exists b'. rewrite R1, R2, Fn, Fp. clear Fn Fp. split_and!; try done.
           ++ rewrite decide_False by (intros D; apply (Nd2 y); [by apply Hp|done]). rewrite G3, E, !lookup_app_r by lia. by replace (S (S j) - length c1)%nat with (S (S j - length c1)) by lia.
           ++ rewrite G4, E. cbn [before]. case_decide as D.
              ** rewrite En in D. assert (j - length c1 = 0)%nat as Ej by (eapply NoDup_lookup; [exact Nd3|exact Hj|exact D]). rewrite Ep, last_lookup. assert (j = length c1) as -> by lia.
                 destruct (length c1) as [|m] eqn:El; [by destruct c1|]. cbn [before pred]. rewrite lookup_app_l by lia. done.
              ** rewrite lookup_app_r by lia. destruct (j - length c1)%nat as [|m] eqn:Em; [by rewrite En in D|].
                 destruct j as [|j]; [lia|]. cbn [before]. rewrite lookup_app_r by lia. cbn. f_equal. lia.
      * rewrite Ek in Hj |- * by done. destruct (H3 k j y Hj) as (HyF & b0 & Hb0 & G1 & G2 & G3 & G4).
        assert (forall z, z ∈ C h -> z <> y) as Hz by (intros z [i Hi]%list_elem_of_lookup ->; destruct (H3 h i y Hi) as (_ & b2 & Hb2 & _ & K & _); congruence).
        rewrite E in Hz. split; [apply HF'; split; [done|]; intros ->; apply (Hz x); [set_solver|done]|].
        destruct (unhash_fields b l y b0 Hb0) as (b' & Eb' & (R1 & R2 & _) & _ & Fn & Fp). exists b'. rewrite R1, R2, Fn, Fp. clear Fn Fp.
        rewrite !decide_False; [done|intros D; apply (Hz y); [apply elem_of_app; right; right; by apply Hn|done]|intros D; apply (Hz y); [apply elem_of_app; left; by apply Hp|done]].
    + intros k. destruct (decide (k = h)) as [->|Hne]; [rewrite Eh, <- Ef; apply NoDup_filter, H4|rewrite Ek by done; apply H4].
    + intros y b' [Hy Hyx]%HF' Hb'. destruct (unhash_old _ _ _ _ Hb') as [b0 E0]. destruct (unhash_fields b l y b0 E0) as (b2 & Eb2 & (R1 & R2 & _) & _). rewrite Hb' in Eb2. injection Eb2 as <-.
      rewrite R1, R2. intros Hd'. pose proof (H5 y b0 Hy E0 Hd') as Hin. unfold drop_at. case_decide; [|done]. by apply list_elem_of_filter.
    + intros y b' [Hy Hyx]%HF' Hb'. destruct (unhash_old _ _ _ _ Hb') as [b0 E0]. destruct (unhash_fields b l y b0 E0) as (b2 & Eb2 & (R1 & R2 & _) & _ & Fn & Fp). rewrite Hb' in Eb2. injection Eb2 as <-.
      rewrite R1, Fn, Fp. intros Hd'. assert (y ∉ C h) as Hny by (intros [i Hi]%list_elem_of_lookup; destruct (H3 h i y Hi) as (_ & b2 & Hb2 & K & _); congruence). rewrite E in Hny.
      rewrite !decide_False; [by eapply H6|intros D; apply Hny, elem_of_app; right; right; by apply Hn|intros D; apply Hny, elem_of_app; left; by apply Hp].
Qed.
End Unhash.

(** The cache but for the buffers outside [F]. *)
Record cache_ok (s : bcache) (F : list nat) (C : nat -> list nat) : Prop := {
  co_ring : ring (bhs s) F;
  co_hash : hashq (bhs s) (hash_table s) F C;
  co_free : free_list s = F !! 0%nat }.

(** All buffers are there and alike but for their links. *)
Definition alike (l l' : list buffer_head) : Prop := forall y b, l !! y = Some b -> exists b', l' !! y = Some b' /\ same_rest b b'.
Lemma alike_refl l : alike l l.
Proof. intros y b H. by exists b. Qed.
Lemma alike_trans l1 l2 l3 : alike l1 l2 -> alike l2 l3 -> alike l1 l3.
Proof.
  intros H1 H2 y b H. destruct (H1 y b H) as (b1 & E1 & R1). destruct (H2 y b1 E1) as (b2 & E2 & R2). exists b2. split; [done|]. unfold same_rest in *. naive_solver congruence.
Qed.
Lemma alike_alter l f i : (forall b, same_rest b (f b)) -> alike l (alter f i l).
Proof. intros Hf y b H. rewrite alter_lookup. case_decide; rewrite H; [exists (f b)|exists b]; by split. Qed.
Lemma alike_unhash l b : alike l (unhash b l).
Proof. intros y b0 H. destruct (unhash_fields b l y b0 H) as (b' & E & R & _). by exists b'. Qed.

Lemma unhash_run {A} s F C x b (k : unit -> M bcache A) : hashq (bhs s) (hash_table s) F C -> x ∈ F -> bhs s !! x = Some b ->
  (b ← get_bh x;
   (match b_next b with Some n => upd_bh n (set_prev (b_prev b)) | None => skip end) ;;
   b ← get_bh x;
   (match b_prev b with Some p => upd_bh p (set_next (b_next b)) | None => skip end) ;; k tt) s = k tt (set_bhs (unhash b (bhs s)) s).
Proof.
  intros Hq Hx Hb. rewrite (bind_get _ _ _ _ Hb). destruct (not_own _ _ _ _ _ _ Hq Hx Hb) as [Hn Hp].
  assert (forall y, b_next b = Some y \/ b_prev b = Some y -> is_Some (bhs s !! y)) as Hs.
  { intros y Hy. destruct (decide (b_dev b = 0)) as [Hd|Hd]; [destruct (hq_none _ _ _ _ Hq x b Hx Hb Hd) as [E1 E2]; rewrite E1, E2 in Hy; naive_solver|].
    destruct (queue_split _ _ _ _ _ _ Hq Hx Hb Hd) as (c1 & c2 & E & _ & _ & E1 & E2 & _).
    assert (y ∈ C (_hashfn (b_dev b) (b_blocknr b))) as [j Hj]%list_elem_of_lookup.
    { rewrite E. apply elem_of_app. destruct Hy as [Hy|Hy]; [right; right; apply list_elem_of_lookup; exists 0%nat; by rewrite <- E1|left; rewrite E2 in Hy; by apply last_Some_elem_of]. }
    destruct (hq_node _ _ _ _ Hq _ j y Hj) as (_ & b' & Hb' & _). by exists b'. }
  unfold unhash. destruct (b_next b) as [n|] eqn:En.
  - rewrite bind_upd_bh by (apply Hs; by left). rewrite (bind_get x b) by (cbn; rewrite alter_lookup, decide_False by congruence; done). rewrite En.
    destruct (b_prev b) as [p|] eqn:Ep; [|done]. rewrite bind_upd_bh; [done|]. cbn. rewrite alter_lookup. case_decide; [apply fmap_is_Some|]; apply Hs; by right.
  - erewrite bind_ok by reflexivity. rewrite (bind_get x b) by done. rewrite En. destruct (b_prev b) as [p|] eqn:Ep; [|by destruct s]. rewrite bind_upd_bh; [done|]. apply Hs; by right.
Qed.

Lemma remove_ok s F1 x F2 C b : cache_ok s (F1 ++ x :: F2) C -> F1 ++ F2 <> [] -> bhs s !! x = Some b ->
  exists s' C', remove_from_queues x s = Ok tt s' /\ cache_ok s' (F1 ++ F2) C' /\ alike (bhs s) (bhs s') /\ length (bhs s') = length (bhs s) /\ null_stores s' = null_stores s.
Proof.
  intros [Hr Hq Hf] Hne Hb. assert (x ∈ F1 ++ x :: F2) as Hx by set_solver. pose proof (rg_nodup _ _ Hr) as Hnd.
  assert (forall y, y ∈ F1 ++ F2 <-> y ∈ F1 ++ x :: F2 /\ y <> x) as HF.
  { intros y. rewrite !elem_of_app, elem_of_cons. apply NoDup_app in Hnd as (N1 & N2 & [N3 N4]%NoDup_cons). split; [|naive_solver].
    intros [Hy|Hy]; (split; [by auto|]); intros ->; [apply (N2 x Hy); left|done]. }
  set (l1 := unhash b (bhs s)). set (s1 := set_bhs l1 s).
  assert (ring l1 (F1 ++ x :: F2)) as Hr1 by (eapply ring_ext; [|exact Hr]; intros y b0 _ H0; destruct (unhash_fields b _ y b0 H0) as (b' & E & _ & R & _); by exists b').
  assert (l1 !! x = Some b) as Hb1.
  { unfold l1. rewrite unhash_lookup, Hb. destruct (not_own _ _ _ _ _ _ Hq Hx Hb). by rewrite !decide_False. }
  destruct (rg_links _ _ Hr1 x Hx) as (b' & Eb' & En & Ep). rewrite Hb1 in Eb'. injection Eb' as <-. set (n := nf l1 x) in *. set (p := pf l1 x) in *.
  destruct (ring_mem _ _ _ Hr1 Hx) as (Hlx & Hnm & Hpm). fold n in Hnm. fold p in Hpm.
  assert (chain (nf l1) (pf l1) x (F2 ++ F1) x) as Hc by (exact (rg_chain _ _ (ring_at _ _ _ _ Hr1))).
  assert (x ∉ F2 ++ F1) as Hx' by (intros H; apply (proj1 (HF x)); [set_solver|done]).
  assert (n <> x /\ p <> x /\ Some n = (F2 ++ F1) !! 0%nat) as (Hn & Hp & En0).
  { unfold n, p. rewrite (chain_first _ _ _ _ _ Hc), (chain_last _ _ _ _ _ Hc). destruct (F2 ++ F1) as [|y r] eqn:E; [destruct F1, F2; done|].
    cbn. split_and!; [set_solver| |done]. destruct (last (y :: r)) as [z|] eqn:Ez; [|by apply last_None in Ez]. cbn. apply last_Some_elem_of in Ez. set_solver. }
  set (ht := if bool_decide (hash_table s !! _hashfn (b_dev b) (b_blocknr b) = Some (Some x)) then <[_hashfn (b_dev b) (b_blocknr b) := b_next b]> (hash_table s) else hash_table s).
  set (l2 := alter (set_next_free (Some n)) p l1). set (l3 := alter (set_prev_free (Some p)) n l2).
  exists (mkBc l3 ht ((F1 ++ F2) !! 0%nat) (null_stores s)). eexists. split_and!; [| |..].
  - unfold remove_from_queues. rewrite (unhash_run s _ _ x b (fun _ => _) Hq Hx Hb). fold l1 s1. rewrite (bind_get x b) by done.
    pose proof (hq_head _ _ _ _ Hq _ (hashfn_lt (b_dev b) (b_blocknr b))) as Eh.
    rewrite (bind_ok _ _ _ _ _ (get_hash_ok _ _ _ s1 Eh)).
    rewrite (bind_ok _ _ _ tt (set_hash ht s1)).
    2: { unfold ht. rewrite Eh. destruct (decide (C (_hashfn (b_dev b) (b_blocknr b)) !! 0%nat = Some x)) as [D|D].
         - rewrite !bool_decide_eq_true_2 by (done || by rewrite D). by rewrite (put_hash_ok _ _ _ _ s1 Eh).
         - rewrite !bool_decide_eq_false_2 by (done || congruence). done. }
    rewrite Ep, En. rewrite bind_upd_bh by (apply lookup_lt_is_Some_2; by apply (ring_mem _ _ p Hr1)). cbn [bhs set_hash set_bhs s1]. fold l2.
    rewrite (bind_get x b) by (cbn; unfold l2; rewrite alter_lookup, decide_False by done; done). rewrite En. erewrite bind_ok by reflexivity.
    rewrite bind_upd_bh by (cbn; unfold l2; apply lookup_lt_is_Some_2; rewrite length_alter; by apply (ring_mem _ _ n Hr1)). cbn [bhs set_bhs]. rewrite Ep. fold l3.
    erewrite bind_ok by reflexivity. cbn [free_list set_bhs set_hash]. change (free_list s1) with (free_list s). rewrite Hf.
    destruct F1 as [|f F1].
    + rewrite bool_decide_eq_true_2 by done. rewrite (bind_get x b) by (cbn; unfold l3, l2; rewrite !alter_lookup, !decide_False by done; done). rewrite En, En0, app_nil_r. done.
    + rewrite bool_decide_eq_false_2; [unfold skip, mret, M_ret, set_bhs, set_hash; cbn in Hf |- *; by rewrite Hf|]. cbn. intros [= ->]. apply NoDup_cons in Hnd as [Hnd _]. apply Hnd. set_solver.
  - split; cbn; [by apply ring_remove| |done]. eapply hashq_ext; [| |by apply (unhash_ok (bhs s) (hash_table s) (F1 ++ x :: F2) (F1 ++ F2) C x b)].
    + intros y b0 _ H0. unfold l3, l2. rewrite !alter_lookup. fold l1 in H0. rewrite H0. repeat case_decide; by eexists.
    + intros y Hy. apply lookup_lt_is_Some_2. apply HF in Hy as [Hy _]. by apply (ring_mem _ _ y Hr1).
  - eapply alike_trans; [apply alike_unhash|]. eapply alike_trans; apply alike_alter; done.
  - cbn. unfold l3, l2, l1. rewrite !length_alter. unfold unhash. repeat case_match; by rewrite ?length_alter.
  - done.
Qed.

(** ** Into the queues *)

Definition push_at (h x : nat) (C : nat -> list nat) : nat -> list nat := fun k => if decide (k = h) then x :: C k else C k.

(** [x] at the head of its queue. *)
Lemma push_ok l ht F C x b : hashq l ht F C -> x ∉ F -> l !! x = Some b -> b_dev b <> 0 ->
  let h := _hashfn (b_dev b) (b_blocknr b) in
  let l1 := alter (set_next (C h !! 0%nat)) x (alter (set_next None) x (alter (set_prev None) x l)) in
  hashq (match C h !! 0%nat with Some n => alter (set_prev (Some x)) n l1 | None => l1 end) (<[h := Some x]> ht) (F ++ [x]) (push_at h x C).
Proof.
  intros Hq Hx Hb Hd h l1. pose proof Hq as [H1 H2 H3 H4 H5 H6]. set (l2 := match C h !! 0%nat with Some n => _ | None => _ end).
  assert (forall y, y ∈ F <-> y ∈ F /\ y <> x) as HyF by (intros y; split; [intros Hy; split; [done|by intros ->]|tauto]).
  assert (forall y b0, l !! y = Some b0 -> y <> x -> exists b', l2 !! y = Some b' /\ b_dev b' = b_dev b0 /\ b_blocknr b' = b_blocknr b0 /\ b_next b' = b_next b0 /\
    b_prev b' = (if decide (C h !! 0%nat = Some y) then Some x else b_prev b0)) as Hold.
  { intros y b0 H0 Hy. unfold l2, l1. destruct (C h !! 0%nat) as [n|]; rewrite ?alter_lookup, ?(decide_False (P := y = x)) by done; rewrite ?H0; repeat case_decide; simplify_eq; by eexists. }
  assert (forall n, C h !! 0%nat = Some n -> n <> x) as Hn by (intros n Hn ->; destruct (H3 h 0%nat x Hn) as [? _]; done).
  assert (exists b', l2 !! x = Some b' /\ b_dev b' = b_dev b /\ b_blocknr b' = b_blocknr b /\ b_next b' = C h !! 0%nat /\ b_prev b' = None) as (bx & Ex & X1 & X2 & X3 & X4).
  { unfold l2, l1. destruct (C h !! 0%nat) as [n|] eqn:En; rewrite !alter_lookup, ?(decide_True (P := x = x)), ?Hb by done; [rewrite decide_False by (intros E; by apply (Hn n))|]; by eexists. }
  assert (forall y b', l2 !! y = Some b' -> y <> x -> is_Some (l !! y)) as Hback.
  { intros y b' E Hy. unfold l2, l1 in E. destruct (C h !! 0%nat); rewrite ?alter_lookup, ?(decide_False (P := y = x)) in E by done; destruct (l !! y); [by eexists| |by eexists|]; [by case_decide|done]. }
  split.
  - by rewrite length_insert.
  - intros k Hk. unfold push_at. case_decide as D; [subst k; by rewrite list_lookup_insert_eq by (by rewrite H1)|]. rewrite list_lookup_insert_ne by done. by apply H2.
  - intros k j y. unfold push_at. destruct (decide (k = h)) as [->|Hk].
    + destruct j as [|j]; cbn [lookup list_lookup before].
      * intros [= <-]. split; [set_solver|]. exists bx. rewrite X1, X2. by split_and!.
      * intros Hj. destruct (H3 h j y Hj) as (Hy & b0 & H0 & G1 & G2 & G3 & G4). split; [set_solver|]. assert (y <> x) as Hyx by (by intros ->).
        destruct (Hold y b0 H0 Hyx) as (b' & E' & R1 & R2 & R3 & R4). exists b'. rewrite R1, R2, R3. split_and!; try done. rewrite R4. destruct j as [|j]; cbn [lookup list_lookup].
        -- by rewrite decide_True.
        -- rewrite decide_False, G4; [done|]. intros E0. assert (0 = S j)%nat; [|lia]. eapply NoDup_lookup; [apply (H4 h)|exact E0|exact Hj].
    + intros Hj. destruct (H3 k j y Hj) as (Hy & b0 & H0 & G1 & G2 & G3 & G4). split; [set_solver|]. assert (y <> x) as Hyx by (by intros ->).
      destruct (Hold y b0 H0 Hyx) as (b' & E' & R1 & R2 & R3 & R4). exists b'. rewrite R1, R2, R3, R4. split_and!; try done.
      rewrite decide_False; [done|]. intros E0. destruct (H3 h 0%nat y E0) as (_ & b1 & Hb1 & _ & K & _). congruence.
  - intros k. unfold push_at. case_decide; [|apply H4]. constructor; [|apply H4]. intros [j Hj]%list_elem_of_lookup. destruct (H3 k j x Hj) as [? _]. done.
  - intros y b' Hy Hb' Hd'. unfold push_at. destruct (decide (y = x)) as [->|Hyx].
    + rewrite Ex in Hb'. injection Hb' as <-. rewrite X1, X2. fold h. rewrite decide_True by done. left.
    + destruct (Hback y b' Hb' Hyx) as [b0 H0]. destruct (Hold y b0 H0 Hyx) as (b2 & E' & R1 & R2 & _). rewrite Hb' in E'. injection E' as <-. rewrite R1, R2 in *.
      assert (y ∈ C (_hashfn (b_dev b0) (b_blocknr b0))) as Hin by (apply H5; [set_solver|done|done]). case_decide; [by right|done].
  - intros y b' Hy Hb' Hd'. destruct (decide (y = x)) as [->|Hyx]; [rewrite Ex in Hb'; injection Hb' as <-; congruence|].
    destruct (Hback y b' Hb' Hyx) as [b0 H0]. destruct (Hold y b0 H0 Hyx) as (b2 & E' & R1 & R2 & R3 & R4). rewrite Hb' in E'. injection E' as <-. rewrite R3, R4.
    rewrite decide_False; [apply (H6 y b0); [set_solver|done|congruence]|]. intros E0. destruct (H3 h 0%nat y E0) as (_ & b1 & Hb1 & K & _). congruence.
Qed.

Lemma insert_ok s f r C x b : cache_ok s (f :: r) C -> x ∉ f :: r -> bhs s !! x = Some b -> b_dev b <> 0 ->
  exists s' C', insert_into_queues x s = Ok tt s' /\ cache_ok s' ((f :: r) ++ [x]) C' /\ alike (bhs s) (bhs s') /\ length (bhs s') = length (bhs s) /\
    null_stores s <= null_stores s' <= null_stores s + 1.
Proof.
  intros [Hr Hq Hf] Hx Hb Hd. assert (f ∈ f :: r) as Hfm by left. assert (f <> x) as Hfx by (intros ->; done).
  destruct (rg_links _ _ Hr f Hfm) as (fb & Hfb & En & Ep). destruct (ring_mem _ _ _ Hr Hfm) as (Hlf & _ & Hpm). destruct (ring_mem _ _ _ Hr Hpm) as (Hlp & _).
  assert (x < length (bhs s))%nat as Hlx by (by eapply lookup_lt_Some). assert (pf (bhs s) f <> x) as Hpx by (intros E; apply Hx; by rewrite <- E).
  set (l1 := alter (set_next_free (Some f)) x (bhs s)). set (l2 := alter (set_prev_free (Some (pf (bhs s) f))) x l1).
  set (l3 := alter (set_next_free (Some x)) (pf (bhs s) f) l2). set (l4 := alter (set_prev_free (Some x)) f l3).
  assert (ring l4 ((f :: r) ++ [x])) as Hr4 by (by apply ring_insert).
  assert (forall y b0, bhs s !! y = Some b0 -> exists b', l4 !! y = Some b' /\ same_hash b0 b' /\ same_rest b0 b') as H4.
  { intros y b0 H0. unfold l4, l3, l2, l1. rewrite !alter_lookup, H0. repeat case_decide; by eexists. }
  assert (hashq l4 (hash_table s) (f :: r) C) as Hq4.
  { eapply hashq_ext; [| |exact Hq]; [intros y b0 _ H0; destruct (H4 y b0 H0) as (b' & E & R & _); by exists b'|]. intros y Hy. destruct (ring_linked _ _ Hr y Hy) as (b0 & H0 & _). by exists b0. }
  destruct (H4 x b Hb) as (b4 & Hb4 & (R1 & R2 & _) & _). set (h := _hashfn (b_dev b) (b_blocknr b)).
  pose proof (push_ok l4 (hash_table s) (f :: r) C x b4 Hq4 Hx Hb4 ltac:(by rewrite R1)) as Hq5. cbn zeta in Hq5. rewrite R1, R2 in Hq5. fold h in Hq5.
  set (l5 := alter (set_prev None) x l4). set (l6 := alter (set_next None) x l5). fold l5 l6 in Hq5. set (l7 := alter (set_next (C h !! 0%nat)) x l6). fold l7 in Hq5.
  set (l8 := match C h !! 0%nat with Some n => alter (set_prev (Some x)) n l7 | None => l7 end). fold l8 in Hq5.
  exists (mkBc l8 (<[h := Some x]> (hash_table s)) (Some f) (match C h !! 0%nat with Some _ => null_stores s | None => null_stores s + 1 end)). eexists. split_and!.
  - unfold insert_into_queues. erewrite bind_ok by reflexivity. rewrite Hf. cbn [lookup list_lookup]. rewrite bind_upd_bh by (by eexists). fold l1. erewrite bind_ok by reflexivity.
    rewrite (bind_get f fb) by (cbn; unfold l1; rewrite alter_lookup, decide_False by done; done). rewrite bind_upd_bh by (cbn; unfold l1; rewrite alter_lookup, decide_True, Hb by done; by eexists).
    cbn [bhs set_bhs]. rewrite Ep. fold l2. rewrite (bind_get f fb) by (cbn; unfold l2, l1; rewrite !alter_lookup, !decide_False by done; done). rewrite Ep. erewrite bind_ok by reflexivity.
    rewrite bind_upd_bh by (cbn; unfold l2, l1; rewrite !alter_lookup, !decide_False by done; by apply lookup_lt_is_Some_2). cbn [bhs set_bhs]. fold l3.
    rewrite bind_upd_bh by (cbn; unfold l3, l2, l1; apply lookup_lt_is_Some_2; by rewrite !length_alter). cbn [bhs set_bhs]. fold l4.
    rewrite bind_upd_bh by (cbn; by eexists). cbn [bhs set_bhs]. fold l5. rewrite bind_upd_bh by (cbn; unfold l5; rewrite alter_lookup, decide_True, Hb4 by done; by eexists). cbn [bhs set_bhs]. fold l6.
    rewrite (bind_get x (set_next None (set_prev None b4))) by (cbn; unfold l6, l5; rewrite !alter_lookup, !decide_True, Hb4 by done; done). cbn [b_dev b_blocknr set_next set_prev].
    rewrite R1, R2, (proj2 (Z.eqb_neq _ _) Hd). pose proof (hq_head _ _ _ _ Hq _ (hashfn_lt (b_dev b) (b_blocknr b))) as Eh. fold h in Eh.
    match goal with |- (get_hash _ _ ≫= _) ?t = _ => rewrite (bind_ok _ _ _ _ _ (get_hash_ok (b_dev b) (b_blocknr b) _ t Eh)) end.
    rewrite bind_upd_bh by (cbn; unfold l6, l5; rewrite !alter_lookup, !decide_True, Hb4 by done; by eexists). cbn [bhs set_bhs]. fold l7.
    match goal with |- (put_hash _ _ _ ≫= _) ?t = _ => rewrite (bind_ok _ _ _ _ _ (put_hash_ok (b_dev b) (b_blocknr b) _ _ t Eh)) end. fold h.
    unfold l8. destruct (C h !! 0%nat) as [n|] eqn:E0; [|unfold modify, add_null, set_hash, set_bhs; cbn; by rewrite Hf].
    destruct (hq_node _ _ _ _ Hq h 0%nat n E0) as (Hnm & _). destruct (ring_mem _ _ _ Hr Hnm) as (Hln & _). destruct (lookup_lt_is_Some_2 l7 n) as [bn Hbn].
    { unfold l7, l6, l5, l4, l3, l2, l1. by rewrite !length_alter. }
    rewrite (upd_bh_ok n bn) by done. unfold set_hash, set_bhs; cbn; by rewrite Hf.
  - split; cbn; [|exact Hq5|done]. eapply ring_ext; [|exact Hr4]. intros y b0 _ H0. unfold l8, l7, l6, l5. destruct (C h !! 0%nat); rewrite !alter_lookup, H0; repeat case_decide; by eexists.
  - intros y b0 H0. destruct (H4 y b0 H0) as (b' & E' & _ & R). cbn. unfold l8, l7, l6, l5. destruct (C h !! 0%nat); rewrite !alter_lookup, E'; repeat case_decide; eexists; (split; [reflexivity|exact R]).
  - cbn. unfold l8, l7, l6, l5, l4, l3, l2, l1. destruct (C h !! 0%nat); by rewrite !length_alter.
  - cbn. destruct (C h !! 0%nat); lia.
  - cbn. destruct (C h !! 0%nat); lia.
Qed.
