(* ===== verification/LinuxGetblk.v ===== *)
(** * Linux 0.12: getblk among tasks

    What the pieces of [getblk] do to the cache, and the system of all tasks:
    they start [getblk], run it from one place where it can sleep to the next,
    and give buffers back, in any order, while devices and users change the
    flags of buffers. *)

From S2P Require Import Prelude Dll LinuxBuf LinuxCache.

(** ** The invariant of the cache *)

Definition uniq (l : list buffer_head) : Prop :=
  forall x y bx by_, l !! x = Some bx -> l !! y = Some by_ -> b_dev bx <> 0 -> b_dev by_ = b_dev bx -> b_blocknr by_ = b_blocknr bx -> x = y.

Record cinv (s : bcache) (F : list nat) (C : nat -> list nat) : Prop := {
  ci_ok : cache_ok s F C;
  ci_all : forall i, i ∈ F <-> (i < length (bhs s))%nat;
  ci_two : (2 <= length (bhs s))%nat;
  ci_uniq : uniq (bhs s) }.

(** Counts and flags do not matter. *)
Definition same_links (b b' : buffer_head) : Prop := same_hash b b' /\ same_free b b'.
Lemma cache_ok_ext s s' F C : (forall x b, x ∈ F -> bhs s !! x = Some b -> exists b', bhs s' !! x = Some b' /\ same_links b b') ->
  hash_table s' = hash_table s -> free_list s' = free_list s -> cache_ok s F C -> cache_ok s' F C.
Proof.
  intros He Eh Ef [H1 H2 H3]. split; [| |by rewrite Ef].
  - eapply ring_ext; [|exact H1]. intros x b Hx Hb. destruct (He x b Hx Hb) as (b' & E & _ & R). by exists b'.
  - rewrite Eh. eapply hashq_ext; [| |exact H2].
    + intros x b Hx Hb. destruct (He x b Hx Hb) as (b' & E & R & _). by exists b'.
    + intros x Hx. destruct (rg_links _ _ H1 x Hx) as (b & Hb & _). by exists b.
Qed.
Lemma cinv_ext s s' F C : length (bhs s') = length (bhs s) -> (forall x b, bhs s !! x = Some b -> exists b', bhs s' !! x = Some b' /\ same_links b b') ->
  hash_table s' = hash_table s -> free_list s' = free_list s -> cinv s F C -> cinv s' F C.
Proof.
  intros El He Eh Ef [H1 H2 H3 H4]. split; [eapply cache_ok_ext; [|done|done|exact H1]; intros x b _; apply He|by rewrite El|by rewrite El|].
  assert (forall x b', bhs s' !! x = Some b' -> exists b, bhs s !! x = Some b /\ same_links b b') as Hb.
  { intros x b' Hb'. destruct (lookup_lt_is_Some_2 (bhs s) x) as [b Hb]; [rewrite <- El; by eapply lookup_lt_Some|].
    destruct (He x b Hb) as (b2 & E & R). rewrite Hb' in E. injection E as <-. by exists b. }
  intros x y bx by_ Hx Hy. destruct (Hb x bx Hx) as (bx0 & Hx0 & (R1 & R2 & _) & _). destruct (Hb y by_ Hy) as (by0 & Hy0 & (R3 & R4 & _) & _).
  rewrite R1, R2, R3, R4. by apply H4.
Qed.
Lemma cinv_alter s F C f i : (forall b, same_links b (f b)) -> cinv s F C -> cinv (set_bhs (alter f i (bhs s)) s) F C.
Proof.
  intros Hf. apply cinv_ext; [cbn; by rewrite length_alter| |done|done]. intros x b Hb. cbn. rewrite alter_lookup, Hb. case_decide; [by exists (f b)|by exists b].
Qed.

(** ** A buffer changes its block *)

Definition is_now (b : buffer_head) (dev block : Z) : Prop := b_dev b = dev /\ b_blocknr b = block.

Lemma take_over_ok s F C dev block x b : cinv s F C -> dev <> 0 -> bhs s !! x = Some b ->
  (forall y by_, bhs s !! y = Some by_ -> b_dev by_ = dev -> b_blocknr by_ <> block) ->
  exists s' F' C', take_over dev block x s = Ok tt s' /\ cinv s' F' C' /\
    (exists b', bhs s' !! x = Some b' /\ is_now b' dev block /\ b_count b' = 1 /\ b_dirt b' = 0 /\ b_uptodate b' = 0 /\ b_lock b' = b_lock b) /\
    (forall y by_, y <> x -> bhs s !! y = Some by_ -> exists b', bhs s' !! y = Some b' /\ same_rest by_ b') /\
    length (bhs s') = length (bhs s) /\ null_stores s <= null_stores s' <= null_stores s + 1.
Proof.
  intros Hc Hd Hb Hno. set (l0 := alter (fun b => set_flags 0 0 (b_lock b) b) x (alter (set_count 1) x (bhs s))). set (s0 := set_bhs l0 s).
  assert (cinv s0 F C) as Hc0.
  { change s0 with (set_bhs (alter (fun b => set_flags 0 0 (b_lock b) b) x (bhs (set_bhs (alter (set_count 1) x (bhs s)) s))) (set_bhs (alter (set_count 1) x (bhs s)) s)).
    apply cinv_alter; [done|]. by apply cinv_alter. }
  set (b0 := set_flags 0 0 (b_lock b) (set_count 1 b)). assert (l0 !! x = Some b0) as Hb0 by (unfold l0; rewrite !alter_lookup, !decide_True, Hb by done; done).
  destruct Hc0 as [K1 K2 K3 K4]. assert (x ∈ F) as Hx by (apply K2; by eapply lookup_lt_Some). destruct (list_elem_of_split _ _ Hx) as (F1 & F2 & ->).
  pose proof (rg_nodup _ _ (co_ring _ _ _ K1)) as Hnd.
  assert (x ∉ F1 ++ F2) as Hx' by (apply NoDup_app in Hnd as (N1 & N2 & [N3 N4]%NoDup_cons); intros [H|H]%elem_of_app; [apply (N2 x H); left|done]).
  assert (F1 ++ F2 <> []) as Hne.
  { intros E. assert (0 ∈ F1 ++ x :: F2 /\ 1 ∈ F1 ++ x :: F2)%nat as [H0 H1] by (split; apply K2; cbn in *; lia). apply app_eq_nil in E as [-> ->]. apply list_elem_of_singleton in H0, H1. lia. }
  destruct (remove_ok s0 F1 x F2 C b0 K1 Hne Hb0) as (s2 & C2 & E2 & K5 & A2 & L2 & N2).
  destruct (A2 x b0 Hb0) as (b2 & Hb2 & R2). set (s3 := set_bhs (alter (set_id dev block) x (bhs s2)) s2).
  assert (cache_ok s3 (F1 ++ F2) C2) as K6.
  { eapply cache_ok_ext; [| | |exact K5]; try done. intros y by_ Hy Hby. cbn. rewrite alter_lookup, decide_False by (by intros ->). by exists by_. }
  destruct (F1 ++ F2) as [|f r] eqn:EF; [done|].
  assert (bhs s3 !! x = Some (set_id dev block b2)) as Hb3 by (cbn; rewrite alter_lookup, decide_True, Hb2 by done; done).
  destruct (insert_ok s3 f r C2 x (set_id dev block b2) K6 Hx' Hb3 Hd) as (s4 & C4 & E4 & K7 & A4 & L4 & N4).
  destruct (A4 x _ Hb3) as (b4 & Hb4 & R4).
  assert (forall y by_, y <> x -> bhs s !! y = Some by_ -> exists b', bhs s4 !! y = Some b' /\ same_rest by_ b') as Hoth.
  { intros y by_ Hy Hby. destruct (A2 y by_) as (c2 & Hc2 & S2); [cbn; unfold l0; by rewrite !alter_lookup, !decide_False|].
    destruct (A4 y c2) as (c4 & Hc4 & S4); [cbn; by rewrite alter_lookup, decide_False|]. exists c4. split; [done|]. unfold same_rest in *. destruct_and!. split_and!; congruence. }
  assert (length (bhs s4) = length (bhs s)) as Hlen by (rewrite L4; cbn; rewrite length_alter, L2; cbn; unfold l0; by rewrite !length_alter).
  exists s4, ((f :: r) ++ [x]), C4. split_and!; try done.
  - unfold take_over. rewrite bind_upd_bh by (by eexists). rewrite bind_upd_bh by (cbn; rewrite alter_lookup, decide_True, Hb by done; by eexists).
    change (set_bhs _ _) with s0. rewrite (bind_ok _ _ _ _ _ E2), bind_upd_bh by (by eexists). exact E4.
  - split; [done| |by rewrite Hlen; cbn in K3; unfold l0 in K3; rewrite !length_alter in K3|].
    + intros i. rewrite Hlen. assert (i ∈ (f :: r) ++ [x] <-> i ∈ F1 ++ x :: F2) as -> by (rewrite <- EF; set_solver). rewrite K2. cbn. unfold l0. by rewrite !length_alter.
    + assert (forall y by_, y <> x -> bhs s4 !! y = Some by_ -> exists b0, bhs s !! y = Some b0 /\ same_rest b0 by_) as Hback.
      { intros y by_ Hy Hby. destruct (lookup_lt_is_Some_2 (bhs s) y) as [c Hc']; [rewrite <- Hlen; by eapply lookup_lt_Some|].
        destruct (Hoth y c Hy Hc') as (c2 & E & S). rewrite Hby in E. injection E as <-. by exists c. }
      assert (is_now b4 dev block) as [I1 I2] by (unfold same_rest in R4; split; [by destruct R4 as (-> & _)|by destruct R4 as (_ & -> & _)]).
      intros y z by_ bz Hy Hz Hdy E1 E2'. destruct (decide (y = x)) as [->|Hyx], (decide (z = x)) as [->|Hzx]; [done| | |].
      * rewrite Hb4 in Hy. injection Hy as <-. destruct (Hback z bz Hzx Hz) as (c & Hc' & (S1 & S2 & _)). exfalso. apply (Hno z c Hc'); congruence.
      * rewrite Hb4 in Hz. injection Hz as <-. destruct (Hback y by_ Hyx Hy) as (c & Hc' & (S1 & S2 & _)). exfalso. apply (Hno y c Hc'); congruence.
      * destruct (Hback y by_ Hyx Hy) as (c & Hc' & (S1 & S2 & _)). destruct (Hback z bz Hzx Hz) as (d & Hd' & (S3 & S4 & _)).
        apply (ci_uniq _ _ _ Hc y z c d); congruence.
  - exists b4. unfold same_rest in R4, R2. cbn in R4, R2. destruct_and!. unfold is_now. split_and!; congruence.
  - change (null_stores s3) with (null_stores s2) in N4. rewrite N2 in N4. cbn in N4. lia.
  - change (null_stores s3) with (null_stores s2) in N4. rewrite N2 in N4. cbn in N4. lia.
Qed.

(** ** The choice of a buffer *)

Definition unused (s : bcache) (x : nat) : Prop := exists b, bhs s !! x = Some b /\ b_count b = 0.
Definition chosen_ok (s : bcache) (F : list nat) (r : option nat) : Prop :=
  match r with Some x => unused s x | None => forall x, x ∈ F -> ~ unused s x end.

Lemma ring_next l f r F1 x F2 : ring l (f :: r) -> f :: r = F1 ++ x :: F2 -> nf l x = default f (F2 !! 0%nat).
Proof.
  intros Hr E. rewrite E in Hr. pose proof (rg_chain _ _ (ring_at _ _ _ _ Hr)) as Hc. cbn in Hc. rewrite (chain_first _ _ _ _ _ Hc).
  destruct F2 as [|y F2]; [|done]. destruct F1 as [|z F1]; cbn in E |- *; by injection E.
Qed.

Lemma choose_loop s C f r : cache_ok s (f :: r) C -> forall F2 F1 x best m, f :: r = F1 ++ x :: F2 -> (length F2 < m)%nat -> chosen_ok s F1 best ->
  exists c, loop m choose_step (x, best) s = Ok c s /\ chosen_ok s (f :: r) c.
Proof.
  intros [Hr Hq Hf] F2. induction F2 as [|y F2 IH]; intros F1 x best m E Hm Hb; (destruct m as [|m]; [lia|]).
  all: assert (x ∈ f :: r) as Hx by (rewrite E; set_solver); destruct (rg_links _ _ Hr x Hx) as (b & Hbx & En & _); rewrite (ring_next _ _ _ _ _ _ Hr E) in En; cbn in En.
  all: assert (exists v, (match best with None => mret true | Some b0 => x0 ← get_bh b0; mret (BADNESS b <? BADNESS x0) end) s = Ok v s /\ (best = None -> v = true)) as (v & Ev & Hv)
    by (destruct best as [z|]; [destruct Hb as (bz & Hz & _); rewrite (bind_get _ _ _ _ Hz); by eexists|by exists true]).
  all: set (best' := if (b_count b =? 0) && v then Some x else best);
    assert (chosen_ok s (F1 ++ [x]) best') as Hb' by (unfold best'; destruct (Z.eqb_spec (b_count b) 0) as [Hz|Hz], v; cbn; try (by exists b);
      (destruct best as [z|]; [exact Hb|]; intros w [Hw|Hw%list_elem_of_singleton]%elem_of_app; [by apply Hb|subst w; intros (b' & Hb' & Hz'); specialize (Hv eq_refl); congruence])).
  all: destruct ((b_count b =? 0) && v && (BADNESS b =? 0)) eqn:Eg;
    [exists (Some x); split; [apply loop_done; unfold choose_step; rewrite (bind_get _ _ _ _ Hbx), (bind_ok _ _ _ _ _ Ev), Eg; done|];
     apply andb_true_iff in Eg as [[Eg%Z.eqb_eq _]%andb_true_iff _]; by exists b|].
  - exists best'. rewrite E. split; [|done]. apply loop_done. unfold choose_step. rewrite (bind_get _ _ _ _ Hbx), (bind_ok _ _ _ _ _ Ev), Eg.
    erewrite bind_ok by reflexivity. rewrite En, Hf. erewrite bind_ok by reflexivity. by rewrite bool_decide_eq_true_2.
  - destruct (IH (F1 ++ [x]) y best' m) as (c & Ec & Hc); [by rewrite <- app_assoc|cbn in Hm; lia|done|]. exists c. split; [|done].
    erewrite loop_next; [exact Ec|]. unfold choose_step. rewrite (bind_get _ _ _ _ Hbx), (bind_ok _ _ _ _ _ Ev), Eg.
    erewrite bind_ok by reflexivity. rewrite En, Hf. erewrite bind_ok by reflexivity. rewrite bool_decide_eq_false_2; [done|]. cbn. intros [= ->].
    pose proof (rg_nodup _ _ Hr) as Hnd. rewrite E in Hnd. destruct F1 as [|z F1]; cbn in E, Hnd; injection E as -> _; apply NoDup_cons in Hnd as [Hnd _]; set_solver.
Qed.
Lemma choose_ok s F C : cinv s F C -> exists c, choose s = Ok c s /\ chosen_ok s F c.
Proof.
  intros [Hc Ha Ht _]. destruct F as [|f r]; [exfalso; apply (not_elem_of_nil 0%nat), Ha; lia|].
  destruct (choose_loop s C f r Hc r [] f None (S (length (bhs s)))) as (c & E & Hok); [done| |by intros x ?%not_elem_of_nil|].
  - assert (length (f :: r) <= length (seq 0 (length (bhs s))))%nat as Hle; [|rewrite length_seq in Hle; cbn in Hle; lia].
    apply submseteq_length, NoDup_submseteq; [apply (rg_nodup _ _ (co_ring _ _ _ Hc))|]. intros x Hx. apply elem_of_seq. apply Ha in Hx. lia.
  - exists c. split; [|done]. unfold choose. erewrite bind_ok by reflexivity. erewrite bind_ok by reflexivity. rewrite (co_free _ _ _ Hc). erewrite bind_ok by reflexivity. exact E.
Qed.

(** ** The pieces of getblk *)

Definition hold (x : nat) (s : bcache) : bcache := set_bhs (alter (fun b => set_count (u8 (b_count b + 1)) b) x (bhs s)) s.

(** What a piece does: nothing, with the choice of a buffer; it counts the
    buffer of the block; or it makes an unused buffer the one of the block. *)
Inductive effect (dev block : Z) : gpc -> bcache -> gout -> bcache -> Prop :=
| ef_none l s r : (forall x, l <> Hashed x) ->
    r = Goto Repeat \/ r = Sleep Repeat \/ (exists x d, (x < length (bhs s))%nat /\ (r = Sleep (Chosen x) \/ r = Sync d (Chosen x))) -> effect dev block l s r s
| ef_hold s x b r : bhs s !! x = Some b -> is_now b dev block -> r = Got x \/ r = Sleep (Hashed x) -> effect dev block Repeat s r (hold x s)
| ef_held s x r : r = Got x \/ r = Sleep (Hashed x) -> effect dev block (Hashed x) s r s
| ef_take l s x s' : (forall x, l <> Hashed x) -> unused s x ->
    (exists b', bhs s' !! x = Some b' /\ is_now b' dev block /\ b_count b' = 1 /\ b_dirt b' = 0 /\ b_uptodate b' = 0 /\ b_lock b' = 0) ->
    (forall y b, y <> x -> bhs s !! y = Some b -> exists b', bhs s' !! y = Some b' /\ same_rest b b') -> effect dev block l s (Got x) s'.

Definition pc_ok (s : bcache) (dev block : Z) (l : gpc) : Prop :=
  match l with
  | Repeat => True
  | Hashed x => exists b, bhs s !! x = Some b /\ is_now b dev block
  | Chosen x => (x < length (bhs s))%nat
  end.

Lemma hashed_ok s dev block x b : bhs s !! x = Some b -> is_now b dev block -> exists r, hashed dev block x s = Ok r s /\ (r = Got x \/ r = Sleep (Hashed x)).
Proof.
  intros Hb [<- <-]. unfold hashed. rewrite (bind_get _ _ _ _ Hb), !Z.eqb_refl. destruct (b_lock b =? 0); cbn; eauto.
Qed.
Lemma chosen_run s F C dev block l x : cinv s F C -> dev <> 0 -> (x < length (bhs s))%nat -> (forall y, l <> Hashed y) ->
  exists r s' F' C', chosen dev block x s = Ok r s' /\ effect dev block l s r s' /\ cinv s' F' C' /\ length (bhs s') = length (bhs s) /\ null_stores s <= null_stores s' <= null_stores s + 1.
Proof.
  intros Hc Hd Hx Hl. destruct (lookup_lt_is_Some_2 _ _ Hx) as [b Hb]. unfold chosen. rewrite (bind_get _ _ _ _ Hb).
  assert (forall r, r = Goto Repeat \/ r = Sleep Repeat \/ (exists x d, (x < length (bhs s))%nat /\ (r = Sleep (Chosen x) \/ r = Sync d (Chosen x))) ->
    exists r' s' F' C', (mret r : M bcache gout) s = Ok r' s' /\ effect dev block l s r' s' /\ cinv s' F' C' /\ length (bhs s') = length (bhs s) /\ null_stores s <= null_stores s' <= null_stores s + 1) as Hsame.
  { intros r Hr. exists r, s, F, C. split_and!; [done|by apply ef_none|done|done|lia|lia]. }
  destruct (Z.eqb_spec (b_lock b) 0) as [El|El]; cbn [negb]; [|apply Hsame; right; right; exists x, 0; auto].
  destruct (Z.eqb_spec (b_count b) 0) as [Ec|Ec]; cbn [negb]; [|apply Hsame; eauto].
  destruct (Z.eqb_spec (b_dirt b) 0) as [Ed|Ed]; cbn [negb]; [|apply Hsame; right; right; exists x, (b_dev b); auto].
  destruct (find_buffer_ok s C F dev block (co_hash _ _ _ (ci_ok _ _ _ Hc)) Hd) as (f & Ef & Hf). rewrite (bind_ok _ _ _ _ _ Ef).
  destruct f as [y|]; [apply Hsame; auto|].
  destruct (take_over_ok s F C dev block x b Hc Hd Hb) as (s' & F' & C' & E & Hc' & (b' & Hb' & I & T1 & T2 & T3 & T4) & Ho & Hlen & Hn).
  { intros y by_ Hy. apply (Hf y by_); [|done]. apply (ci_all _ _ _ Hc). by eapply lookup_lt_Some. }
  exists (Got x), s', F', C'. split_and!; [by rewrite (bind_ok _ _ _ _ _ E)| |done|done|lia|lia]. apply ef_take; [done|by exists b| |done].
  exists b'. split_and!; try done; congruence.
Qed.
Lemma getblk_at_ok s F C dev block l : cinv s F C -> dev <> 0 -> pc_ok s dev block l ->
  exists r s' F' C', getblk_at dev block l s = Ok r s' /\ effect dev block l s r s' /\ cinv s' F' C' /\ length (bhs s') = length (bhs s) /\ null_stores s <= null_stores s' <= null_stores s + 1.
Proof.
  intros Hc Hd Hl. destruct l as [|x|x]; cbn [getblk_at].
  - destruct (find_buffer_ok s C F dev block (co_hash _ _ _ (ci_ok _ _ _ Hc)) Hd) as (f & Ef & Hf). rewrite (bind_ok _ _ _ _ _ Ef). destruct f as [x|].
    + destruct Hf as (Hx & b & Hb & I1 & I2). rewrite bind_upd_bh by (by eexists). fold (hold x s).
      destruct (hashed_ok (hold x s) dev block x (set_count (u8 (b_count b + 1)) b)) as (r & Er & Hr); [cbn; rewrite alter_lookup, decide_True, Hb by done; done|done|].
      exists r, (hold x s), F, C. split_and!; [done|by apply (ef_hold _ _ _ _ b)|by apply cinv_alter|cbn; by rewrite length_alter|cbn; lia|cbn; lia].
    + destruct (choose_ok s F C Hc) as (c & Ec & Hok). rewrite (bind_ok _ _ _ _ _ Ec). destruct c as [x|].
      * apply (chosen_run s F C); [done|done| |done]. destruct Hok as (b & Hb & _). by eapply lookup_lt_Some.
      * exists (Sleep Repeat), s, F, C. split_and!; [done|apply ef_none; [done|auto]|done|done|lia|lia].
  - destruct Hl as (b & Hb & I). destruct (hashed_ok s dev block x b Hb I) as (r & Er & Hr). exists r, s, F, C. split_and!; [done|by apply ef_held|done|done|lia|lia].
  - by apply (chosen_run s F C).
Qed.

(** ** All tasks *)

(** What a task is at, and the buffers it has got and not given back. *)
Record btask := mkBt { bt_run : option (Z * Z * gpc); bt_held : list (nat * Z * Z) }.
Record bsys := mkSys { cache : bcache; btasks : list btask }.

Definition after (t : btask) (dev block : Z) (r : gout) : btask :=
  match r with
  | Got x => mkBt None ((x, dev, block) :: bt_held t)
  | Sleep l | Sync _ l | Goto l => mkBt (Some (dev, block, l)) (bt_held t)
  end.

Section Tasks.
Context `{DevOps}.

Inductive bstep : bsys -> bsys -> Prop :=
| bs_start s k t dev block : btasks s !! k = Some t -> bt_run t = None -> 0 < dev < 65536 -> 0 <= block < 4294967296 ->
    bstep s (mkSys (cache s) (<[k := mkBt (Some (dev, block, Repeat)) (bt_held t)]> (btasks s)))
| bs_run s k t dev block l r c' : btasks s !! k = Some t -> bt_run t = Some (dev, block, l) ->
    (forall x b, bhs (cache s) !! x = Some b -> b_count b < 255) -> getblk_at dev block l (cache s) = Ok r c' ->
    bstep s (mkSys c' (<[k := after t dev block r]> (btasks s)))
| bs_brelse s k t x dev block h1 h2 c' : btasks s !! k = Some t -> bt_held t = h1 ++ (x, dev, block) :: h2 -> brelse (Some x) (cache s) = Ok tt c' ->
    bstep s (mkSys c' (<[k := mkBt (bt_run t) (h1 ++ h2)]> (btasks s)))
| bs_flags s x u d l : bstep s (mkSys (set_bhs (alter (set_flags u d l) x (bhs (cache s))) (cache s)) (btasks s)).
End Tasks.

Definition refs (t : btask) (x : nat) : Z :=
  Z.of_nat (length (filter (fun h => h.1.1 = x) (bt_held t))) +
  match bt_run t with Some (_, _, Hashed y) => if decide (y = x) then 1 else 0 | _ => 0 end.
Definition users (ts : list btask) (x : nat) : Z := foldr (fun t a => refs t x + a) 0 ts.

Lemma refs_nonneg t x : 0 <= refs t x.
Proof. unfold refs. repeat case_match; lia. Qed.
Lemma users_cons t ts x : users (t :: ts) x = refs t x + users ts x.
Proof. done. Qed.
Lemma users_nonneg ts x : 0 <= users ts x.
Proof. induction ts as [|t ts IH]; [done|]. rewrite users_cons. pose proof (refs_nonneg t x). lia. Qed.
Lemma users_insert ts k t t' x : ts !! k = Some t -> users (<[k := t']> ts) x = users ts x - refs t x + refs t' x.
Proof.
  revert k. induction ts as [|u ts IH]; intros k Hk; [done|]. destruct k as [|k].
  - injection Hk as ->. change (<[0%nat := t']> (t :: ts)) with (t' :: ts). rewrite !users_cons. lia.
  - change (<[S k := t']> (u :: ts)) with (u :: <[k := t']> ts). rewrite !users_cons, (IH k Hk). lia.
Qed.
Lemma users_ge ts k t x : ts !! k = Some t -> refs t x <= users ts x.
Proof. intros Hk. pose proof (users_insert ts k t (mkBt None []) x Hk) as E. pose proof (users_nonneg (<[k := mkBt None []]> ts) x). change (refs (mkBt None []) x) with 0 in E. lia. Qed.
Lemma held_refs t x d b : (x, d, b) ∈ bt_held t -> 1 <= refs t x.
Proof.
  intros Hin. unfold refs. assert ((x, d, b) ∈ filter (fun h : nat * Z * Z => h.1.1 = x) (bt_held t)) as Hf by (by apply list_elem_of_filter).
  destruct (filter _ (bt_held t)); [by apply not_elem_of_nil in Hf|]. cbn [length]. repeat case_match; lia.
Qed.

Definition task_ok (c : bcache) (t : btask) : Prop :=
  (forall x d b, (x, d, b) ∈ bt_held t -> exists bf, bhs c !! x = Some bf /\ is_now bf d b) /\
  match bt_run t with Some (d, b, l) => d <> 0 /\ pc_ok c d b l | None => True end.

Record sinv (s : bsys) (F : list nat) (C : nat -> list nat) : Prop := {
  si_cache : cinv (cache s) F C;
  si_count : forall x b, bhs (cache s) !! x = Some b -> b_count b = users (btasks s) x /\ b_count b < 256;
  si_tasks : forall k t, btasks s !! k = Some t -> task_ok (cache s) t }.

(** Buffers in use keep their block. *)
Lemma task_ok_keep c c' t : length (bhs c') = length (bhs c) ->
  (forall x b, 1 <= refs t x -> bhs c !! x = Some b -> exists b', bhs c' !! x = Some b' /\ b_dev b' = b_dev b /\ b_blocknr b' = b_blocknr b) -> task_ok c t -> task_ok c' t.
Proof.
  intros Hlen Hk [H1 H2]. split.
  - intros x d b Hin. destruct (H1 x d b Hin) as (bf & Hbf & I1 & I2). destruct (Hk x bf (held_refs _ _ _ _ Hin) Hbf) as (b' & Hb' & E1 & E2). exists b'. split; [done|]. split; congruence.
  - destruct (bt_run t) as [[[d b] l]|] eqn:Er; [|done]. destruct H2 as [H2 H3]. split; [done|]. destruct l as [|x|x]; cbn in *; [done| |by rewrite Hlen].
    destruct H3 as (bf & Hbf & I1 & I2). destruct (Hk x bf) as (b' & Hb' & E1 & E2); [unfold refs; rewrite Er, decide_True by done; lia|done|]. exists b'. split; [done|]. split; congruence.
Qed.

Definition one (x y : nat) : Z := if decide (x = y) then 1 else 0.
Lemma refs_got t dev block x y : bt_run t = None \/ (exists d b l, bt_run t = Some (d, b, l) /\ forall z, l <> Hashed z) -> refs (after t dev block (Got x)) y = refs t y + one x y.
Proof.
  intros Hr. unfold refs, after, one. cbn [bt_run bt_held]. rewrite filter_cons. cbn [fst].
  assert (match bt_run t with Some (_, _, Hashed z) => if decide (z = y) then 1 else 0 | _ => 0 end = 0) as ->.
  { destruct Hr as [->|(d & b & l & -> & Hl)]; [done|]. destruct l as [|z|z]; [done|by destruct (Hl z)|done]. }
  case_decide; cbn [length]; lia.
Qed.
Lemma refs_got_hashed t dev block x y d b : bt_run t = Some (d, b, Hashed x) -> refs (after t dev block (Got x)) y = refs t y.
Proof. intros Hr. unfold refs, after. rewrite Hr. cbn [bt_run bt_held]. rewrite filter_cons. cbn [fst]. case_decide; cbn [length]; lia. Qed.
Lemma refs_to t dev block l : forall y, refs (mkBt (Some (dev, block, l)) (bt_held t)) y =
  Z.of_nat (length (filter (fun h => h.1.1 = y) (bt_held t))) + match l with Hashed x => one x y | _ => 0 end.
Proof. intros y. unfold refs, one. cbn [bt_run bt_held]. by destruct l. Qed.

(** A step of one task [k], given what it does to the counts and blocks. *)
Lemma sinv_update s F C F' C' k t t' c' : sinv s F C -> btasks s !! k = Some t -> cinv c' F' C' -> length (bhs c') = length (bhs (cache s)) ->
  (forall x b', bhs c' !! x = Some b' -> exists b, bhs (cache s) !! x = Some b /\ b_count b' = b_count b - refs t x + refs t' x /\ b_count b' < 256) ->
  (forall x b, bhs (cache s) !! x = Some b -> (forall u, u ∈ btasks s -> refs u x <= 0) \/ (exists b', bhs c' !! x = Some b' /\ b_dev b' = b_dev b /\ b_blocknr b' = b_blocknr b)) ->
  task_ok c' t' -> sinv (mkSys c' (<[k := t']> (btasks s))) F' C'.
Proof.
  intros [S1 S2 S3] Hk Hc' Hlen Hcnt Hid Ht'. split; cbn [cache btasks]; [done| |].
  - intros x b' Hb'. destruct (Hcnt x b' Hb') as (b & Hb & E & Hlt). destruct (S2 x b Hb) as [E2 _]. rewrite (users_insert _ _ _ _ _ Hk). lia.
  - intros j u [(<- & <- & _)|[Hj Hu]]%list_lookup_insert_Some; [done|]. apply (task_ok_keep (cache s)); [done| |by eapply S3].
    intros x b Hr Hb. destruct (Hid x b Hb) as [Hz|Hz]; [|done]. specialize (Hz u ltac:(by eapply list_elem_of_lookup_2)). lia.
Qed.

Lemma run_step s F C k t dev block l : sinv s F C -> btasks s !! k = Some t -> bt_run t = Some (dev, block, l) ->
  (forall x b, bhs (cache s) !! x = Some b -> b_count b < 255) ->
  exists r c' F' C', getblk_at dev block l (cache s) = Ok r c' /\ sinv (mkSys c' (<[k := after t dev block r]> (btasks s))) F' C'.
Proof.
  intros Hs Hk Hr Hlt. destruct (si_tasks _ _ _ Hs k t Hk) as [Hheld Hrun]. rewrite Hr in Hrun. destruct Hrun as [Hd Hpc].
  destruct (getblk_at_ok (cache s) F C dev block l (si_cache _ _ _ Hs) Hd Hpc) as (r & c' & F' & C' & E & Hef & Hc' & Hlen & _).
  exists r, c', F', C'. split; [done|].
  assert (forall x b, bhs (cache s) !! x = Some b -> 0 <= b_count b) as Hpos by (intros x b Hb; destruct (si_count _ _ _ Hs x b Hb) as [-> _]; apply users_nonneg).
  inversion Hef as [l0 s0 r0 Hl Hrr|s0 x b r0 Hb I Hrr|s0 x r0 Hrr|l0 s0 x s1 Hl Hun Hnew Hoth]; subst.
  - apply (sinv_update s F C _ _ k t); [done|done|done|done| |intros x b Hb; right; by exists b|].
    + intros x b Hb. exists b. split; [done|]. split; [|specialize (Hlt x b Hb); lia]. unfold refs at 1. rewrite Hr.
      assert (match l with Hashed y => if decide (y = x) then 1 else 0 | _ => 0 end = 0) as -> by (destruct l as [|z|z]; [done|by destruct (Hl z)|done]).
      destruct Hrr as [->|[->|(y & d & _ & [->| ->])]]; cbn [after]; rewrite refs_to; lia.
    + destruct Hrr as [->|[->|(y & d & Hy & [->| ->])]]; cbn [after]; (split; [exact Hheld|]); cbn; by split.
  - assert (forall y, refs (after t dev block r) y = refs t y + one x y) as Hrefs.
    { intros y. destruct Hrr as [->| ->]; [apply refs_got; right; by eexists _, _, _|]. cbn [after]. rewrite refs_to. unfold refs. rewrite Hr. lia. }
    assert (forall y by_, bhs (cache s) !! y = Some by_ -> bhs (hold x (cache s)) !! y = Some (if decide (y = x) then set_count (u8 (b_count by_ + 1)) by_ else by_)) as Hl2.
    { intros y by_ Hy. cbn. rewrite alter_lookup, Hy. by case_decide. }
    apply (sinv_update s F C _ _ k t); [done|done|done|done| | |].
    + intros y b' Hb'. destruct (lookup_lt_is_Some_2 (bhs (cache s)) y) as [by_ Hy]; [rewrite <- Hlen; by eapply lookup_lt_Some|]. exists by_. split; [done|].
      rewrite (Hl2 y by_ Hy) in Hb'. injection Hb' as <-. rewrite Hrefs. unfold one. specialize (Hlt y by_ Hy). specialize (Hpos y by_ Hy).
      destruct (decide (y = x)) as [->|]; [rewrite decide_True by done; cbn; rewrite u8_id by lia; lia|rewrite decide_False by done; lia].
    + intros y by_ Hy. right. eexists. split; [by apply Hl2|]. by case_decide.
    + assert (exists bf, bhs (hold x (cache s)) !! x = Some bf /\ is_now bf dev block) as Hbx by (eexists; split; [by apply Hl2|by rewrite decide_True]).
      assert (forall z d b0, (z, d, b0) ∈ bt_held t -> exists bf, bhs (hold x (cache s)) !! z = Some bf /\ is_now bf d b0) as Hold.
      { intros z d b0 Hz. destruct (Hheld z d b0 Hz) as (bf & Hbf & J). eexists. split; [by apply Hl2|]. by case_decide. }
      destruct Hrr as [->| ->]; cbn [after]; split; cbn [bt_held bt_run]; [|done|exact Hold|by split].
      intros z d b0 [[= -> -> ->]|Hz]%elem_of_cons; [exact Hbx|by apply Hold].
  - assert (forall y, refs (after t dev block r) y = refs t y) as Hrefs.
    { intros y. destruct Hrr as [->| ->]; [by eapply refs_got_hashed|]. cbn [after]. rewrite refs_to. unfold refs, one. by rewrite Hr. }
    apply (sinv_update s F C _ _ k t); [done|done|done|done| |intros y b Hb; right; by exists b|].
    + intros y b Hb. exists b. rewrite Hrefs. split; [done|]. specialize (Hlt y b Hb). lia.
    + destruct Hrr as [->| ->]; cbn [after]; split; cbn [bt_held bt_run]; [|done|exact Hheld|by split].
      intros z d b0 [[= -> -> ->]|Hz]%elem_of_cons; [exact Hpc|by apply Hheld].
  - assert (forall y, refs (after t dev block (Got x)) y = refs t y + one x y) as Hrefs by (intros y; apply refs_got; right; by eexists _, _, _).
    destruct Hun as (b0 & Hb0 & Hz). destruct (si_count _ _ _ Hs x b0 Hb0) as [Ec _]. destruct Hnew as (bn & Hbn & In & Cn & _).
    assert (forall u, u ∈ btasks s -> refs u x <= 0) as Hnone by (intros u [j Hj]%list_elem_of_lookup; pose proof (users_ge _ _ _ x Hj); lia).
    apply (sinv_update s F C _ _ k t); [done|done|done|done| | |].
    + intros y b' Hb'. rewrite Hrefs. unfold one. destruct (decide (x = y)) as [<-|Hne].
      * exists b0. split; [done|]. rewrite Hbn in Hb'. injection Hb' as <-. pose proof (Hnone t ltac:(by eapply list_elem_of_lookup_2)). pose proof (refs_nonneg t x). lia.
      * destruct (lookup_lt_is_Some_2 (bhs (cache s)) y) as [by_ Hy]; [rewrite <- Hlen; by eapply lookup_lt_Some|]. exists by_. split; [done|].
        destruct (Hoth y by_ (not_eq_sym Hne) Hy) as (b2 & E2 & (_ & _ & Cc & _)). rewrite Hb' in E2. injection E2 as <-. specialize (Hlt y by_ Hy). lia.
    + intros y by_ Hy. destruct (decide (y = x)) as [->|Hyx]; [by left|]. right. destruct (Hoth y by_ Hyx Hy) as (b2 & E2 & (R1 & R2 & _)). by exists b2.
    + cbn [after]. split; cbn [bt_held bt_run]; [|done]. intros z d b1 [[= -> -> ->]|Hin]%elem_of_cons; [by exists bn|].
      destruct (Hheld z d b1 Hin) as (bf & Hbf & J1 & J2). assert (z <> x) as Hzx.
      { intros ->. pose proof (held_refs _ _ _ _ Hin). pose proof (Hnone t ltac:(by eapply list_elem_of_lookup_2)). lia. }
      destruct (Hoth z bf Hzx Hbf) as (b2 & E2 & (R1 & R2 & _)). exists b2. split; [done|]. split; congruence.
Qed.

Section Safety.
Context `{DevOps} (Hwake : forall s, wake_up_buffer s = Ok tt s).

Lemma brelse_run s x b : bhs s !! x = Some b -> b_lock b = 0 -> 1 <= b_count b < 256 ->
  brelse (Some x) s = Ok tt (set_bhs (alter (set_count (b_count b - 1)) x (bhs s)) s).
Proof.
  intros Hb Hl Hc. cbn [brelse]. rewrite (bind_ok _ _ _ tt s) by (unfold wait_on_buffer; rewrite (bind_get _ _ _ _ Hb), Hl; done).
  rewrite (bind_get _ _ _ _ Hb), bind_upd_bh by (by eexists). rewrite u8_id by lia. rewrite (proj2 (Z.eqb_neq _ _)) by lia. erewrite bind_ok by reflexivity. apply Hwake.
Qed.

Lemma held_ok s F C k t x dev block : sinv s F C -> btasks s !! k = Some t -> (x, dev, block) ∈ bt_held t ->
  exists b, bhs (cache s) !! x = Some b /\ is_now b dev block /\ 1 <= b_count b < 256.
Proof.
  intros Hs Hk Hin. destruct (proj1 (si_tasks _ _ _ Hs k t Hk) x dev block Hin) as (b & Hb & I). exists b. split_and!; [done|done| |].
  - destruct (si_count _ _ _ Hs x b Hb) as [-> _]. pose proof (held_refs _ _ _ _ Hin). pose proof (users_ge _ _ _ x Hk). lia.
  - by apply (si_count _ _ _ Hs x b Hb).
Qed.

Lemma brelse_step s F C k t x dev block h1 h2 c' : sinv s F C -> btasks s !! k = Some t -> bt_held t = h1 ++ (x, dev, block) :: h2 ->
  brelse (Some x) (cache s) = Ok tt c' -> sinv (mkSys c' (<[k := mkBt (bt_run t) (h1 ++ h2)]> (btasks s))) F C.
Proof.
  intros Hs Hk Hh E. assert ((x, dev, block) ∈ bt_held t) as Hin by (rewrite Hh; set_solver). destruct (held_ok _ _ _ _ _ _ _ _ Hs Hk Hin) as (b & Hb & I & Hc).
  assert (b_lock b = 0) as Hl.
  { destruct (Z.eq_dec (b_lock b) 0) as [|Hn]; [done|]. cbn [brelse] in E. unfold wait_on_buffer, mbind at 1, M_bind at 1 in E. rewrite (bind_get _ _ _ _ Hb), (proj2 (Z.eqb_neq _ _) Hn) in E. done. }
  rewrite (brelse_run _ _ _ Hb Hl Hc) in E. injection E as <-. set (c' := set_bhs _ _).
  assert (forall y by_, bhs (cache s) !! y = Some by_ -> bhs c' !! y = Some (if decide (y = x) then set_count (b_count b - 1) by_ else by_)) as Hl2.
  { intros y by_ Hy. unfold c'. cbn. rewrite alter_lookup, Hy. by case_decide. }
  assert (forall y, refs t y = refs (mkBt (bt_run t) (h1 ++ h2)) y + one x y) as Hrefs.
  { intros y. unfold refs, one. rewrite Hh. cbn [bt_run bt_held]. rewrite !filter_app, filter_cons, !length_app. cbn [fst]. case_decide; cbn [length]; lia. }
  apply (sinv_update s F C _ _ k t); [done|done|by apply cinv_alter; [|apply Hs]|unfold c'; cbn; by rewrite length_alter| | |].
  - intros y b' Hb'. destruct (lookup_lt_is_Some_2 (bhs (cache s)) y) as [by_ Hy]; [apply lookup_lt_Some in Hb'; unfold c' in Hb'; cbn in Hb'; by rewrite length_alter in Hb'|].
    exists by_. split; [done|]. rewrite (Hl2 y by_ Hy) in Hb'. injection Hb' as <-. rewrite (Hrefs y). destruct (si_count _ _ _ Hs y by_ Hy) as [_ Hlt]. unfold one.
    destruct (decide (y = x)) as [->|Hne]; [rewrite decide_True by done; rewrite Hb in Hy; injection Hy as <-; cbn; lia|rewrite decide_False by done; lia].
  - intros y by_ Hy. right. eexists. split; [by apply Hl2|]. by case_decide.
  - destruct (si_tasks _ _ _ Hs k t Hk) as [T1 T2]. split; cbn [bt_run bt_held].
    + intros z d b0 Hz. destruct (T1 z d b0) as (bf & Hbf & J); [rewrite Hh; set_solver|]. eexists. split; [by apply Hl2|]. by case_decide.
    + destruct (bt_run t) as [[[d b0] l]|]; [|done]. destruct T2 as [T2 T3]. split; [done|]. destruct l as [|z|z]; cbn in *; [done| |by rewrite length_alter].
      destruct T3 as (bf & Hbf & J). eexists. split; [by apply Hl2|]. by case_decide.
Qed.

Lemma sinv_step s s' F C : sinv s F C -> bstep s s' -> exists F' C', sinv s' F' C'.
Proof.
  intros Hs Hst. inversion Hst as [s0 k t dev block Hk Hr Hd Hb|s0 k t dev block l r c' Hk Hr Hlt E|s0 k t x dev block h1 h2 c' Hk Hh E|s0 x u d l]; subst.
  - exists F, C. apply (sinv_update s F C _ _ k t); [done|done|apply Hs|done| |intros y b Hy; right; by exists b|].
    + intros x b Hx. exists b. split; [done|]. rewrite refs_to. unfold refs. rewrite Hr. destruct (si_count _ _ _ Hs x b Hx). lia.
    + destruct (si_tasks _ _ _ Hs k t Hk) as [T1 _]. split; [exact T1|]. cbn. split; [lia|done].
  - destruct (run_step s F C k t dev block l Hs Hk Hr Hlt) as (r' & c2 & F' & C' & E2 & Hs'). rewrite E in E2. injection E2 as <- <-. by exists F', C'.
  - exists F, C. by eapply brelse_step.
  - exists F, C. destruct Hs as [S1 S2 S3]. split; cbn [cache btasks]; [by apply cinv_alter| |].
    + intros y b. cbn. rewrite alter_lookup. case_decide as D; [|apply S2]. destruct (bhs (cache s) !! y) as [b0|] eqn:E0; [|done]. cbn. intros [= <-]. by apply (S2 y b0).
    + intros k t Hk. apply (task_ok_keep (cache s)); [cbn; by rewrite length_alter| |by eapply S3]. intros y b _ Hy. cbn. rewrite alter_lookup, Hy. case_decide; by eexists.
Qed.
Lemma sinv_reach s s' F C : sinv s F C -> rtc bstep s s' -> exists F' C', sinv s' F' C'.
Proof. intros Hs Hr. revert F C Hs. induction Hr as [s|s s1 s2 Hst _ IH]; intros F C Hs; [by exists F, C|]. destruct (sinv_step s s1 F C Hs Hst) as (F1 & C1 & Hs1). by eapply IH. Qed.
End Safety.

(** ** Start-up *)

Definition fresh_bufs (n : nat) (blocknr : nat -> Z) (ds : list Z) : list buffer_head := imap (fresh_bh n blocknr) ds.
Lemma fresh_lookup n bn ds i b : fresh_bufs n bn ds !! i = Some b -> exists d, b = fresh_bh n bn i d /\ ds !! i = Some d.
Proof. unfold fresh_bufs. rewrite list_lookup_imap. destruct (ds !! i) as [d|]; [|done]. intros [= <-]. by exists d. Qed.

Lemma chain_seq nx pv n : forall a, (forall i, (a <= i < a + S n)%nat -> nx i = S i /\ pv (S i) = i) -> chain nx pv a (seq (S a) n) (S (a + n)).
Proof.
  induction n as [|n IH]; intros a Hi; cbn [seq chain]; [rewrite Nat.add_0_r; apply Hi; lia|]. destruct (Hi a ltac:(lia)) as [E1 E2]. split_and!; [done|done|].
  replace (a + S n)%nat with (S a + n)%nat by lia. apply IH. intros i Hr. apply Hi. lia.
Qed.

Lemma fresh_cinv bn ds : (2 <= length ds)%nat ->
  cinv (mkBc (fresh_bufs (length ds) bn ds) (replicate (Z.to_nat NR_HASH) None) (Some 0%nat) 0) (seq 0 (length ds)) (fun _ => []).
Proof.
  intros Hn. set (n := length ds) in *. set (l := fresh_bufs n bn ds). assert (length l = n) as Hl by (unfold l, fresh_bufs; by rewrite length_imap).
  assert (forall i, (i < n)%nat -> exists d, l !! i = Some (fresh_bh n bn i d)) as Hlook.
  { intros i Hi. destruct (lookup_lt_is_Some_2 ds i Hi) as [d Hd]. exists d. unfold l, fresh_bufs. by rewrite list_lookup_imap, Hd. }
  assert (forall i, (i < n)%nat -> nf l i = (if (i =? n - 1)%nat then 0 else S i)%nat /\ pf l i = (if (i =? 0)%nat then n - 1 else i - 1)%nat) as Hlinks.
  { intros i Hi. destruct (Hlook i Hi) as [d Hd]. unfold nf, pf. rewrite Hd. cbn. split; by case_match. }
  split; cbn [bhs].
  - split; cbn [bhs hash_table free_list].
    + split; [apply NoDup_seq| |].
      * apply linked_links. intros x Hx%elem_of_seq. destruct (Hlook x ltac:(lia)) as [d Hd]. eexists. split; [exact Hd|]. cbn. split; case_match; by eexists.
      * clearbody l n. destruct n as [|[|n]]; [lia|lia|]. change (seq 0 (S (S n))) with (0%nat :: seq 1 (S n)). rewrite (seq_S n 1). apply chain_app. split.
        -- apply (chain_seq (nf l) (pf l) n 0). intros i Hi. destruct (Hlinks i ltac:(lia)) as [-> _]. destruct (Hlinks (S i) ltac:(lia)) as [_ ->].
           rewrite (proj2 (Nat.eqb_neq i _)) by lia. cbn. split; lia.
        -- cbn [chain]. destruct (Hlinks (1 + n)%nat ltac:(lia)) as [-> _]. destruct (Hlinks 0%nat ltac:(lia)) as [_ ->]. rewrite (proj2 (Nat.eqb_eq _ _)) by lia. cbn. split; lia.
    + split; try done.
      * intros h Hh. rewrite lookup_replicate_2 by (unfold NR_HASH; lia). done.
      * intros h. apply NoDup_nil_2.
      * intros x b _ Hb Hd. apply fresh_lookup in Hb as (d & -> & _). done.
      * intros x b _ Hb _. apply fresh_lookup in Hb as (d & -> & _). done.
    + destruct n; [lia|done].
  - intros i. rewrite elem_of_seq, Hl. lia.
  - by rewrite Hl.
  - intros x y bx by_ Hx _ Hd. apply fresh_lookup in Hx as (d & -> & _). done.
Qed.

(** The tasks at start-up. *)
Definition idle (m : nat) : list btask := replicate m (mkBt None []).
Lemma idle_users m x : users (idle m) x = 0.
Proof. induction m as [|m IH]; [done|]. change (idle (S m)) with (mkBt None [] :: idle m). by rewrite users_cons, IH. Qed.
Lemma start_sinv buffer_end start bn c m : buffer_init buffer_end start bn = Some c -> (2 <= length (bhs c))%nat -> exists F C, sinv (mkSys c (idle m)) F C.
Proof.
  unfold buffer_init. destruct (place_buffers _ _ _ _) as [ds|]; [|done]. cbn. destruct (length ds =? 0)%nat; [done|]. intros [= <-] Hn. cbn in Hn. rewrite length_imap in Hn.
  exists (seq 0 (length ds)), (fun _ => []). split; cbn [cache btasks]; [by apply fresh_cinv| |].
  - intros x b Hb. apply (fresh_lookup (length ds) bn) in Hb as (d & -> & _). rewrite idle_users. cbn. lia.
  - intros k t [-> _]%lookup_replicate. split; [|done]. cbn. intros x d b ?%not_elem_of_nil. done.
Qed.

(** C4.  The buffer cache: whatever tasks do, interleaved at every place
    where [getblk] and [brelse] can sleep and with the flags of buffers
    changing at any time, no two buffers are ever of one block, a buffer a
    task has got stays the buffer of the block it asked for, counted, until it
    gives it back, [getblk] meets no corrupted list and no panic wherever it
    is, and giving back a buffer that is not locked succeeds. *)
Theorem buffer_cache_safe `{DevOps} (Hwake : forall s, wake_up_buffer s = Ok tt s) buffer_end start bn c m s :
  buffer_init buffer_end start bn = Some c -> (2 <= length (bhs c))%nat -> rtc bstep (mkSys c (idle m)) s ->
  (forall x y bx by_, bhs (cache s) !! x = Some bx -> bhs (cache s) !! y = Some by_ -> b_dev bx <> 0 -> b_dev by_ = b_dev bx -> b_blocknr by_ = b_blocknr bx -> x = y) /\
  (forall k t x dev block, btasks s !! k = Some t -> (x, dev, block) ∈ bt_held t ->
     exists b, bhs (cache s) !! x = Some b /\ b_dev b = dev /\ b_blocknr b = block /\ 1 <= b_count b /\ (b_lock b = 0 -> exists c', brelse (Some x) (cache s) = Ok tt c')) /\
  (forall k t dev block l, btasks s !! k = Some t -> bt_run t = Some (dev, block, l) -> exists r c', getblk_at dev block l (cache s) = Ok r c').
Proof.
  intros Hi Hn Hr. destruct (start_sinv _ _ _ _ m Hi Hn) as (F0 & C0 & Hs0). destruct (sinv_reach Hwake _ _ _ _ Hs0 Hr) as (F & C & Hs). split_and!.
  - apply (ci_uniq _ _ _ (si_cache _ _ _ Hs)).
  - intros k t x dev block Hk Hin. destruct (held_ok _ _ _ _ _ _ _ _ Hs Hk Hin) as (b & Hb & [I1 I2] & Hc). exists b. split_and!; [done|done|done|lia|].
    intros Hl. eexists. by apply brelse_run.
  - intros k t dev block l Hk Hrun. destruct (si_tasks _ _ _ Hs k t Hk) as [_ T]. rewrite Hrun in T. destruct T as [Hd Hpc].
    destruct (getblk_at_ok (cache s) F C dev block l (si_cache _ _ _ Hs) Hd Hpc) as (r & c' & _ & _ & E & _). by exists r, c'.
Qed.

(** Devices that do nothing, and four buffers. *)
Definition no_devs : DevOps :=
  {| ll_rw_block := fun _ _ => skip; sync_inodes := skip; copy_block := fun _ _ => skip; floppy_change := fun _ => mret false;
     super_devs := []; put_super := fun _ => skip; invalidate_inodes := fun _ => skip; wake_up_buffer := skip |}.
Definition four_bufs : option bcache := buffer_init 5120 512 (fun _ => 0).
(** Two tasks ask for one block, the first of them alone gives it back. *)
Definition shared_block : option (bsys * bsys) :=
  c ← four_bufs;
  match getblk_at 769 5 Repeat c with
  | Ok (Got x) c1 =>
      match getblk_at 769 5 Repeat c1 with
      | Ok (Got y) c2 =>
          match @brelse no_devs (Some x) c2 with
          | Ok _ c3 => Some (mkSys c (idle 2), mkSys c3 [mkBt None []; mkBt None [(y, 769, 5)]])
          | _ => None
          end
      | _ => None
      end
  | _ => None
  end.

Lemma buffer_cache_safe_witness : exists c s, four_bufs = Some c /\ shared_block = Some (mkSys c (idle 2), s) /\ rtc (@bstep no_devs) (mkSys c (idle 2)) s /\
  forall k t x dev block, btasks s !! k = Some t -> (x, dev, block) ∈ bt_held t ->
     exists b, bhs (cache s) !! x = Some b /\ b_dev b = dev /\ b_blocknr b = block /\ 1 <= b_count b /\ (b_lock b = 0 -> exists c', @brelse no_devs (Some x) (cache s) = Ok tt c').
Proof.
  destruct four_bufs as [c|] eqn:Ec; [|vm_compute in Ec; discriminate Ec].
  destruct shared_block as [[s0 s]|] eqn:Es; [|vm_compute in Es; discriminate Es].
  assert (length (bhs c) = 4%nat) as Hl by (vm_compute in Ec; by injection Ec as <-).
  assert (s0 = mkSys c (idle 2)) as -> by (vm_compute in Ec, Es; by simplify_eq).
  assert (rtc (@bstep no_devs) (mkSys c (idle 2)) s) as Hr.
  { vm_compute in Ec, Es. injection Ec as <-. injection Es as <-.
    eapply rtc_l; [apply (bs_start _ 0%nat (mkBt None []) 769 5); [reflexivity|reflexivity|lia|lia]|].
    eapply rtc_l; [eapply (bs_run _ 0%nat _ 769 5 Repeat); [reflexivity|reflexivity| |vm_compute; reflexivity]|].
    { intros x b Hb. revert x b Hb. apply Forall_lookup. repeat constructor. }
    eapply rtc_l; [apply (bs_start _ 1%nat (mkBt None []) 769 5); [reflexivity|reflexivity|lia|lia]|].
    eapply rtc_l; [eapply (bs_run _ 1%nat _ 769 5 Repeat); [reflexivity|reflexivity| |vm_compute; reflexivity]|].
    { intros x b Hb. revert x b Hb. apply Forall_lookup. repeat constructor. }
    eapply rtc_l; [eapply (bs_brelse _ 0%nat _ 0%nat 769 5 [] []); [reflexivity|reflexivity|vm_compute; reflexivity]|].
    apply rtc_refl. }
  exists c, s. split_and!; [done|done|done|].
  apply (@buffer_cache_safe no_devs (fun s => eq_refl) 5120 512 (fun _ => 0) c 2 s); [exact Ec|rewrite Hl; lia|exact Hr].
Defined.

(** ** Two slips *)

(** The first block of a device: its hash queue is empty, and
    [insert_into_queues] stores through the null [b_next]. *)
Example first_block_null_store : exists c c', four_bufs = Some c /\ getblk_at 769 5 Repeat c = Ok (Got 0%nat) c' /\ null_stores c = 0 /\ null_stores c' = 1.
Proof. eexists _, _. split; [vm_compute; reflexivity|]. split; [vm_compute; reflexivity|]. done. Qed.

(** Devices that read at once. *)
Definition quick_devs : DevOps :=
  {| ll_rw_block := fun _ i => upd_bh i (set_flags 1 0 0); sync_inodes := skip; copy_block := fun _ _ => skip; floppy_change := fun _ => mret false;
     super_devs := []; put_super := fun _ => skip; invalidate_inodes := fun _ => skip; wake_up_buffer := skip |}.
(** [breada] of blocks 5, 6: the request to read ahead is made for the buffer
    of block 5 again, the one of block 6 is never read. *)
Example breada_reads_first_only : exists c c', four_bufs = Some c /\ @breada quick_devs 3 769 5 [6; -1] c = Ok (Some 0%nat) c' /\
  (fun b => (b_blocknr b, b_uptodate b)) <$> take 2 (bhs c') = [(5, 1); (6, 0)].
Proof. eexists _, _. split; [vm_compute; reflexivity|]. split; vm_compute; reflexivity. Qed.
