(* ===== verification/LinuxSys.v ===== *)
(** * Linux 0.12: system calls on the caller and signals

    Models [kernel/sys.c] and [kernel/signal.c] over the processes
    ([LinuxProc]).  The fields of a task that only these calls use are in
    [tinfo]; [usr] are the bytes of the memory of the caller, as the routines
    of [asm/segment.h] reach it. *)

From S2P Require Import Prelude LinuxSched LinuxMm LinuxProc.

Definition EINTR : Z := 4.
Definition ENOSYS : Z := 38.
Definition ERROR : Z := 99.
Definition ERESTARTNOINTR : Z := 513.
Definition NGROUPS : nat := 32.
Definition NOGROUP : Z := -1.
Definition MAXHOSTNAMELEN : Z := 8.
Definition RLIM_NLIMITS : Z := 6.
Definition RUSAGE_SELF : Z := 0.
Definition RUSAGE_CHILDREN : Z := -1.
Definition SIGQUIT : Z := 3.
Definition SIGILL : Z := 4.
Definition SIGTRAP : Z := 5.
Definition SIGIOT : Z := 6.
Definition SIGFPE : Z := 8.
Definition SIGSEGV : Z := 11.
Definition SA_NOCLDSTOP : Z := 1.
Definition SA_INTERRUPT : Z := 536870912.
Definition SA_NOMASK : Z := 1073741824.
Definition SA_ONESHOT : Z := 2147483648.

(** What a [struct sigaction] has besides the handler. *)
Record sigact := mkSa { sa_mask : Z; sa_flags : Z; sa_restorer : Z }.
Record tinfo := mkX {
  suid : Z; sgid : Z; groups : list Z; rlim : list (Z * Z); umask : Z;
  end_code : Z; brk : Z; start_stack : Z; sigaction : list sigact }.

Record sysst := mkY {
  y_l : lst;
  x_task : nat -> tinfo;
  startup_time : Z;
  jiffies_offset : Z;
  sys_tz : Z * Z;
  firsttime : Z;
  thisname : list Z;
  usr : Z -> Z }.
Definition set_yl v s := mkY v (x_task s) (startup_time s) (jiffies_offset s) (sys_tz s) (firsttime s) (thisname s) (usr s).
Definition set_x v s := mkY (y_l s) v (startup_time s) (jiffies_offset s) (sys_tz s) (firsttime s) (thisname s) (usr s).
Definition set_clock v w s := mkY (y_l s) (x_task s) v w (sys_tz s) (firsttime s) (thisname s) (usr s).
Definition set_tz v s := mkY (y_l s) (x_task s) (startup_time s) (jiffies_offset s) v (firsttime s) (thisname s) (usr s).
Definition set_first v s := mkY (y_l s) (x_task s) (startup_time s) (jiffies_offset s) (sys_tz s) v (thisname s) (usr s).
Definition set_name v s := mkY (y_l s) (x_task s) (startup_time s) (jiffies_offset s) (sys_tz s) (firsttime s) v (usr s).
Definition set_usr v s := mkY (y_l s) (x_task s) (startup_time s) (jiffies_offset s) (sys_tz s) (firsttime s) (thisname s) v.

#[export] Instance lens_yl : Lens sysst lst := {| lget := y_l; lset := set_yl |}.

Definition set_saved u g x := mkX u g (groups x) (rlim x) (umask x) (end_code x) (brk x) (start_stack x) (sigaction x).
Definition set_groups v x := mkX (suid x) (sgid x) v (rlim x) (umask x) (end_code x) (brk x) (start_stack x) (sigaction x).
Definition set_rlim v x := mkX (suid x) (sgid x) (groups x) v (umask x) (end_code x) (brk x) (start_stack x) (sigaction x).
Definition set_umask v x := mkX (suid x) (sgid x) (groups x) (rlim x) v (end_code x) (brk x) (start_stack x) (sigaction x).
Definition set_brk v x := mkX (suid x) (sgid x) (groups x) (rlim x) (umask x) (end_code x) v (start_stack x) (sigaction x).
Definition set_sigaction v x := mkX (suid x) (sgid x) (groups x) (rlim x) (umask x) (end_code x) (brk x) (start_stack x) v.

(** Fields of a task. *)
Definition set_ids u e g h t := mkTask (state t) (counter t) (priority t) (signal t) (blocked t) (pid t) (p_pptr t) u e g h (timeout t) (alarm t) (utime t) (stime t) (info t).
Definition set_uid v t := set_ids v (euid t) (gid t) (egid t) t.
Definition set_euid v t := set_ids (uid t) v (gid t) (egid t) t.
Definition set_gid v t := set_ids (uid t) (euid t) v (egid t) t.
Definition set_egid v t := set_ids (uid t) (euid t) (gid t) v t.
Definition set_group p s l i := mkInfo (exit_code i) p s l (tty i) (p_cptr i) (p_ysptr i) (p_osptr i) (sa_handler i) (cutime i) (cstime i) (start_time i) (filp i) (pwd i) (root i) (code_base i) (code_limit i) (data_base i) (data_limit i) (tss i).
Definition set_handlers v i := mkInfo (exit_code i) (pgrp i) (session i) (leader i) (tty i) (p_cptr i) (p_ysptr i) (p_osptr i) v (cutime i) (cstime i) (start_time i) (filp i) (pwd i) (root i) (code_base i) (code_limit i) (data_base i) (data_limit i) (tss i).

(** The caller. *)
Definition me : M sysst nat := lift curr.
Definition my : M sysst task_struct := c ← me; lift (tsk c).
Definition my_x : M sysst tinfo := c ← me; gets (fun s => x_task s c).
Definition upd_me (f : task_struct -> task_struct) : M sysst unit := c ← me; lift (upd c f).
Definition upd_x (f : tinfo -> tinfo) : M sysst unit :=
  c ← me; modify (fun s => set_x (fun i => if (i =? c)%nat then f (x_task s i) else x_task s i) s).
Definition suser : M sysst bool := t ← my; mret (euid t =? 0).
Definition jiff : M sysst Z := gets (fun s => jiffies (k_s (y_l s))).

(** Its memory. *)
Definition get_fs_byte (a : Z) : M sysst Z := gets (fun s => usr s (u32 a)).
Definition put_fs_byte (v a : Z) : M sysst unit :=
  modify (fun s => set_usr (fun i => if i =? u32 a then u8 v else usr s i) s).
Definition get_fs_word (a : Z) : M sysst Z := x ← get_fs_byte a; y ← get_fs_byte (a + 1); mret (x + 256 * y).
Definition put_fs_word (v a : Z) : M sysst unit := put_fs_byte v a ;; put_fs_byte (Z.shiftr v 8) (a + 1).
Definition get_fs_long (a : Z) : M sysst Z := x ← get_fs_word a; y ← get_fs_word (a + 2); mret (x + 65536 * y).
Definition put_fs_long (v a : Z) : M sysst unit := put_fs_word v a ;; put_fs_word (Z.shiftr v 16) (a + 2).
(** Consecutive values from an address on. *)
Fixpoint put_longs (vs : list Z) (a : Z) : M sysst unit :=
  match vs with [] => skip | v :: vs => put_fs_long v a ;; put_longs vs (a + 4) end.
Fixpoint put_bytes (vs : list Z) (a : Z) : M sysst unit :=
  match vs with [] => skip | v :: vs => put_fs_byte v a ;; put_bytes vs (a + 1) end.

(** ** kernel/sys.c *)

Section Sys.
Variable fuel : nat.
Definition verify (addr size : Z) : M sysst unit := lift (verify_area fuel addr size).

(** [sys_ftime], [sys_break], [sys_ptrace] and the like. *)
Definition sys_nosys : M sysst Z := mret (- ENOSYS).

Definition sys_setregid (rgid egid_ : Z) : M sysst Z :=
  ok ← ((if 0 <? rgid then
          t ← my; su ← suser;
          if (gid t =? rgid) || su then upd_me (set_gid (u16 rgid)) ;; mret true else mret false
        else mret true) : M sysst bool);
  if negb ok then mret (- EPERM) else
  if 0 <? egid_ then
    t ← my; su ← suser;
    if (gid t =? egid_) || (egid t =? egid_) || su then
      upd_me (set_egid (u16 egid_)) ;; upd_x (fun x => set_saved (suid x) (u16 egid_) x) ;; mret 0
    else mret (- EPERM)
  else mret 0.

Definition sys_setgid (g : Z) : M sysst Z :=
  su ← suser; t ← my; x ← my_x;
  if (su : bool) then upd_x (fun x => set_saved (suid x) (u16 g) x) ;; upd_me (fun t => set_gid (u16 g) (set_egid (u16 g) t)) ;; mret 0
  else if (g =? gid t) || (g =? sgid x) then upd_me (set_egid (u16 g)) ;; mret 0
  else mret (- EPERM).

Definition CURRENT_TIME : M sysst Z :=
  s ← get; j ← jiff; mret (u32 (startup_time s + u32 (j + jiffies_offset s) / HZ)).
Definition sys_time (tloc : Z) : M sysst Z :=
  i ← CURRENT_TIME;
  (if tloc =? 0 then skip else verify tloc 4 ;; put_fs_long i tloc) ;;
  mret (s32 i).

Definition sys_setreuid (ruid euid_ : Z) : M sysst Z :=
  t ← my;
  let old_ruid := uid t in
  ok ← ((if 0 <? ruid then
          su ← suser;
          if (euid t =? ruid) || (old_ruid =? ruid) || su then upd_me (set_uid (u16 ruid)) ;; mret true else mret false
        else mret true) : M sysst bool);
  if negb ok then mret (- EPERM) else
  if 0 <? euid_ then
    t ← my; su ← suser;
    if (old_ruid =? euid_) || (euid t =? euid_) || su then
      upd_me (set_euid (u16 euid_)) ;; upd_x (fun x => set_saved (u16 euid_) (sgid x) x) ;; mret 0
    else upd_me (set_uid old_ruid) ;; mret (- EPERM)
  else mret 0.

Definition sys_setuid (u : Z) : M sysst Z :=
  su ← suser; t ← my; x ← my_x;
  if (su : bool) then upd_x (fun x => set_saved (u16 u) (sgid x) x) ;; upd_me (fun t => set_uid (u16 u) (set_euid (u16 u) t)) ;; mret 0
  else if (u =? uid t) || (u =? suid x) then upd_me (set_euid (u16 u)) ;; mret 0
  else mret (- EPERM).

Definition sys_stime (tptr : Z) : M sysst Z :=
  su ← suser;
  if negb su then mret (- EPERM) else
  v ← get_fs_long tptr; j ← jiff;
  modify (set_clock (u32 (v - j / HZ)) 0) ;; mret 0.

Definition sys_times (tbuf : Z) : M sysst Z :=
  (if tbuf =? 0 then skip else
   verify tbuf 16 ;; t ← my; put_longs [utime t; stime t; cutime (info t); cstime (info t)] tbuf) ;;
  j ← jiff; mret (s32 j).

Definition sys_brk (end_data_seg : Z) : M sysst Z :=
  x ← my_x;
  (if (end_code x <=? end_data_seg) && (end_data_seg <? u32 (start_stack x - 16384)) then upd_x (set_brk end_data_seg) else skip) ;;
  x ← my_x; mret (s32 (brk x)).

Definition pgid_step (c : nat) (n g : Z) (i : nat) : M sysst (nat + Z) :=
  if (NR_TASKS <=? i)%nat then mret (inr (- ESRCH)) else
  l ← gets (fun s => task (k_s (y_l s))); x ← idx l i;
  match x with
  | None => mret (inl (S i))
  | Some t =>
      if (pid t =? n) && ((p_pptr t =? c)%nat || (i =? c)%nat) then
        if negb (leader (info t) =? 0) then mret (inr (- EPERM)) else
        ct ← my;
        if negb (session (info t) =? session (info ct)) then mret (inr (- EPERM)) else
        bad ← (if g =? n then mret false else s ← lift (session_of_pgrp g); mret (negb (s =? session (info ct))));
        if (bad : bool) then mret (inr (- EPERM)) else
        lift (upd i (on_info (fun i => set_group g (session i) (leader i) i))) ;; mret (inr 0)
      else mret (inl (S i))
  end.
Definition sys_setpgid (n g : Z) : M sysst Z :=
  c ← me; t ← my;
  let n := if n =? 0 then pid t else n in
  let g := if g =? 0 then pid t else g in
  if g <? 0 then mret (- EINVAL) else loop (S NR_TASKS) (pgid_step c n g) 0%nat.
Definition sys_getpgrp : M sysst Z := t ← my; mret (pgrp (info t)).

Definition sys_setsid : M sysst Z :=
  t ← my; su ← suser;
  if negb (leader (info t) =? 0) && negb su then mret (- EPERM) else
  upd_me (on_info (set_group (pid t) (pid t) 1)) ;;
  upd_me (on_info (set_tty (-1))) ;;
  mret (pid t).

Definition getgroups_step (gidsetsize : Z) (l : nat * Z) : M sysst (nat * Z + Z) :=
  let '(i, grouplist) := l in
  x ← my_x;
  if (NGROUPS <=? i)%nat then mret (inr (Z.of_nat i)) else
  g ← idx (groups x) i;
  if g =? NOGROUP then mret (inr (Z.of_nat i)) else
  if gidsetsize =? 0 then mret (inl (S i, grouplist + 2)) else
  if gidsetsize <=? Z.of_nat i then mret (inr (- EINVAL)) else
  put_fs_word g grouplist ;; mret (inl (S i, grouplist + 2)).
Definition sys_getgroups (gidsetsize grouplist : Z) : M sysst Z :=
  (if gidsetsize =? 0 then skip else verify grouplist (s32 (2 * gidsetsize))) ;;
  loop (S NGROUPS) (getgroups_step gidsetsize) (0%nat, grouplist).

Definition put_group (i : nat) (v : Z) : M sysst unit := x ← my_x; idx (groups x) i ;; upd_x (fun x => set_groups (<[i := v]> (groups x)) x).
Definition sys_setgroups (gidsetsize grouplist : Z) : M sysst Z :=
  su ← suser;
  if negb su then mret (- EPERM) else
  if Z.of_nat NGROUPS <? gidsetsize then mret (- EINVAL) else
  let n := Z.to_nat gidsetsize in
  for_range 0 n (fun i => g ← get_fs_word (grouplist + 2 * Z.of_nat i); put_group i g) ;;
  (if (n <? NGROUPS)%nat then put_group n NOGROUP else skip) ;;
  mret 0.
Fixpoint in_groups (l : list Z) (n : nat) (grp : Z) : bool :=
  match n, l with
  | S n, g :: l => if g =? NOGROUP then false else if g =? grp then true else in_groups l n grp
  | _, _ => false
  end.
Definition in_group_p (grp : Z) : M sysst Z :=
  t ← my; x ← my_x;
  mret (if grp =? egid t then 1 else if in_groups (groups x) NGROUPS grp then 1 else 0).

Definition sys_uname (name : Z) : M sysst Z :=
  if name =? 0 then mret (- ERROR) else
  verify name 45 ;; n ← gets thisname; put_bytes n name ;; mret 0.

(** [nodename] is at offset 9 of [thisname]. *)
Definition put_node (i : nat) (v : Z) : M sysst unit :=
  l ← gets thisname; idx l (9 + i) ;; modify (set_name (<[(9 + i)%nat := v]> l)).
Definition name_step (name len : Z) (i : nat) : M sysst (nat + nat) :=
  if Z.of_nat i <? len then
    b ← get_fs_byte (name + Z.of_nat i);
    put_node i b ;;
    mret (if b =? 0 then inr i else inl (S i))
  else mret (inr i).
Definition sys_sethostname (name len : Z) : M sysst Z :=
  su ← suser;
  if negb su then mret (- EPERM) else
  if MAXHOSTNAMELEN <? len then mret (- EINVAL) else
  i ← loop 10 (name_step name len) 0%nat;
  l ← gets thisname; c ← idx l (9 + i);
  (if c =? 0 then skip else put_node (if 8 <? Z.of_nat i then 8 else i) 0) ;;
  mret 0.

(** A negative number is not refused: it indexes the fields that stand before
    [rlim] in a task, ten longs: the six ids, two to a long, [timeout],
    [alarm], [utime], [stime], [cutime], [cstime] and [start_time].  What stands
    before the ids (the pointers of the family, the groups) has no counterpart
    as longs here: a number below -5 is a fault of the model. *)
Definition two16 (lo hi : Z) : Z := s32 (lo + 65536 * hi).
Definition before_rlim (t : task_struct) (x : tinfo) : list Z :=
  [two16 (uid t) (euid t); two16 (suid x) (gid t); two16 (egid t) (sgid x); s32 (timeout t); s32 (alarm t);
   utime t; stime t; cutime (info t); cstime (info t); start_time (info t)].
Definition get_rlim (resource : Z) : M sysst (Z * Z) :=
  x ← my_x;
  if 0 <=? resource then idx (rlim x) (Z.to_nat resource) else
  if resource <? -5 then fault else
  t ← my;
  let i := Z.to_nat (2 * (resource + 5)) in
  a ← idx (before_rlim t x) i; b ← idx (before_rlim t x) (S i); mret (a, b).
Definition set_start_time v i := mkInfo (exit_code i) (pgrp i) (session i) (leader i) (tty i) (p_cptr i) (p_ysptr i) (p_osptr i) (sa_handler i) (cutime i) (cstime i) v (filp i) (pwd i) (root i) (code_base i) (code_limit i) (data_base i) (data_limit i) (tss i).
Definition put_rlim (resource cur_ max_ : Z) : M sysst unit :=
  if 0 <=? resource then upd_x (fun x => set_rlim (<[Z.to_nat resource := (cur_, max_)]> (rlim x)) x) else
  if resource =? -1 then upd_me (on_info (fun i => set_start_time max_ (set_ctimes (cutime i) cur_ i))) else
  if resource =? -2 then upd_me (fun t => on_info (fun i => set_ctimes max_ (cstime i) i) (set_stime cur_ t)) else
  if resource =? -3 then upd_me (fun t => set_utime max_ (set_alarm (u32 cur_) t)) else
  if resource =? -4 then
    upd_me (fun t => set_timeout (u32 max_) (set_egid (u16 cur_) t)) ;;
    upd_x (fun x => set_saved (suid x) (u16 (Z.shiftr cur_ 16)) x)
  else
    upd_me (fun t => set_ids (u16 cur_) (u16 (Z.shiftr cur_ 16)) (u16 (Z.shiftr max_ 16)) (egid t) t) ;;
    upd_x (fun x => set_saved (u16 max_) (sgid x) x).
Definition sys_getrlimit (resource rl : Z) : M sysst Z :=
  if RLIM_NLIMITS <=? resource then mret (- EINVAL) else
  verify rl 8 ;; r ← get_rlim resource; put_fs_long (fst r) rl ;; put_fs_long (snd r) (rl + 4) ;; mret 0.
Definition sys_setrlimit (resource rl : Z) : M sysst Z :=
  if RLIM_NLIMITS <=? resource then mret (- EINVAL) else
  old ← get_rlim resource;
  a ← get_fs_long rl; b ← get_fs_long (rl + 4);
  let new := (s32 a, s32 b) in
  su ← suser;
  if ((snd old <? fst new) || (snd old <? snd new)) && negb su then mret (- EPERM) else
  put_rlim resource (fst new) (snd new) ;; mret 0.

Definition CT_TO_SECS (x : Z) : Z := Z.quot x HZ.
Definition CT_TO_USECS (x : Z) : Z := Z.quot (Z.rem x HZ * 1000000) HZ.
Definition sys_getrusage (who ru : Z) : M sysst Z :=
  if negb (who =? RUSAGE_SELF) && negb (who =? RUSAGE_CHILDREN) then mret (- EINVAL) else
  verify ru 72 ;;
  t ← my;
  let '(u, k) := if who =? RUSAGE_SELF then (utime t, stime t) else (cutime (info t), cstime (info t)) in
  put_longs ([CT_TO_SECS u; CT_TO_USECS u; CT_TO_SECS k; CT_TO_USECS k] ++ replicate 14 0) ru ;;
  mret 0.

Definition sys_gettimeofday (tv tz : Z) : M sysst Z :=
  (if tv =? 0 then skip else
   verify tv 8 ;;
   s ← get; j ← jiff;
   let n := u32 (j + jiffies_offset s) in
   put_fs_long (u32 (startup_time s + CT_TO_SECS n)) tv ;;
   put_fs_long (CT_TO_USECS n) (tv + 4)) ;;
  (if tz =? 0 then skip else
   verify tz 8 ;;
   z ← gets sys_tz;
   put_fs_long (fst z) tz ;; put_fs_long (snd z) (tz + 4)) ;;
  mret 0.

Definition adjust_clock : M sysst unit :=
  modify (fun s => set_clock (u32 (startup_time s + fst (sys_tz s) * 60)) (jiffies_offset s) s).
Definition sys_settimeofday (tv tz : Z) : M sysst Z :=
  su ← suser;
  if negb su then mret (- EPERM) else
  (if tz =? 0 then skip else
   a ← get_fs_long tz;
   modify (fun s => set_tz (s32 a, snd (sys_tz s)) s) ;;
   b ← get_fs_long (tz + 4);
   modify (fun s => set_tz (fst (sys_tz s), s32 b) s) ;;
   f ← gets firsttime;
   if f =? 0 then skip else modify (set_first 0) ;; if tv =? 0 then adjust_clock else skip) ;;
  (if tv =? 0 then skip else
   sec ← get_fs_long tv; usec ← get_fs_long (tv + 4);
   j ← jiff;
   modify (set_clock (u32 (s32 sec - j / HZ)) (s32 (Z.quot (s32 (s32 usec * HZ)) 1000000 - j mod HZ)))) ;;
  mret 0.

Definition sys_umask (mask : Z) : M sysst Z :=
  x ← my_x; upd_x (set_umask (Z.land mask 511)) ;; mret (umask x).

(** ** kernel/signal.c *)

Definition sys_sgetmask : M sysst Z := t ← my; mret (blocked t).
Definition sys_ssetmask (newmask : Z) : M sysst Z :=
  t ← my;
  upd_me (set_blocked (Z.land (Z.land newmask (Z.lnot (_S SIGKILL))) (Z.lnot (_S SIGSTOP)))) ;;
  mret (blocked t).
Definition sys_sigpending (set : Z) : M sysst Z :=
  verify set 4 ;; t ← my; put_fs_long (Z.land (blocked t) (signal t)) set ;; mret 0.

(** The result, and what becomes of [restart] and [old_mask] in the saved
    registers, with which the call is made again. *)
Definition sys_sigsuspend (restart old_mask set : Z) : M sysst (Z * Z * Z) :=
  if negb (restart =? 0) then upd_me (set_blocked (s32 old_mask)) ;; mret (- EINTR, restart, old_mask) else
  t ← my;
  upd_me (set_blocked (s32 set)) ;;
  lift (lift (sys_pause fuel) : M lst Z) ;;
  mret (- ERESTARTNOINTR, 1, u32 (blocked t)).

Definition get_handler (i : nat) : M sysst Z := t ← my; idx (sa_handler (info t)) i.
Definition get_sa (i : nat) : M sysst sigact := x ← my_x; idx (sigaction x) i.
Definition put_handler (i : nat) (h : Z) : M sysst unit :=
  get_handler i ;; upd_me (on_info (fun n => set_handlers (<[i := h]> (sa_handler n)) n)).
Definition put_sa (i : nat) (a : sigact) : M sysst unit :=
  get_sa i ;; upd_x (fun x => set_sigaction (<[i := a]> (sigaction x)) x).

Definition bad_signum (signum : Z) : bool := (signum <? 1) || (32 <? signum) || (signum =? SIGKILL) || (signum =? SIGSTOP).

Definition save_old (h : Z) (a : sigact) (to : Z) : M sysst unit :=
  verify to 16 ;; put_longs [h; sa_mask a; sa_flags a; sa_restorer a] to.
Definition get_new (from : Z) : M sysst (Z * sigact) :=
  h ← get_fs_long from; m ← get_fs_long (from + 4); f ← get_fs_long (from + 8); r ← get_fs_long (from + 12);
  mret (h, mkSa m f r).

Definition sys_signal (signum handler restorer : Z) : M sysst Z :=
  if bad_signum signum then mret (- EINVAL) else
  let i := Z.to_nat (signum - 1) in
  old ← get_handler i;
  put_handler i (u32 handler) ;;
  put_sa i (mkSa 0 (Z.lor SA_ONESHOT SA_NOMASK) (u32 restorer)) ;;
  mret (s32 old).

Definition sys_sigaction (signum action oldaction : Z) : M sysst Z :=
  if bad_signum signum then mret (- EINVAL) else
  let i := Z.to_nat (signum - 1) in
  oh ← get_handler i; oa ← get_sa i;
  '(h, a) ← get_new action;
  put_handler i h ;; put_sa i a ;;
  (if oldaction =? 0 then skip else save_old oh oa oldaction) ;;
  a ← get_sa i;
  put_sa i (mkSa (if Z.land (sa_flags a) SA_NOMASK =? 0 then Z.lor (sa_mask a) (Z.shiftl 1 (signum - 1)) else 0) (sa_flags a) (sa_restorer a)) ;;
  mret 0.

Definition core_dump (signr : Z) : Z := 0.

(** The registers the signal changes, and those it saves: [eax] and
    [orig_eax] as the signed values they are compared as, [eip] and [esp] as
    addresses. *)
Record sframe := mkF { f_eax : Z; f_ecx : Z; f_edx : Z; f_orig_eax : Z; f_eip : Z; f_eflags : Z; f_esp : Z }.

(** An interrupted system call returns EINTR or is made again. *)
Definition restarted (signr flags : Z) (f : sframe) : sframe :=
  if negb (f_orig_eax f =? -1) && ((f_eax f =? - ERESTARTSYS) || (f_eax f =? - ERESTARTNOINTR)) then
    if (f_eax f =? - ERESTARTSYS) && (negb (Z.land flags SA_INTERRUPT =? 0) || (signr <? SIGCONT) || (SIGTTOU <? signr))
    then mkF (- EINTR) (f_ecx f) (f_edx f) (f_orig_eax f) (f_eip f) (f_eflags f) (f_esp f)
    else mkF (f_orig_eax f) (f_ecx f) (f_edx f) (f_orig_eax f) (u32 (f_eip f - 2)) (f_eflags f) (f_esp f)
  else f.

Definition stops (signr : Z) : bool := (signr =? SIGSTOP) || (signr =? SIGTSTP) || (signr =? SIGTTIN) || (signr =? SIGTTOU).
Definition dumps (signr : Z) : bool :=
  (signr =? SIGQUIT) || (signr =? SIGILL) || (signr =? SIGTRAP) || (signr =? SIGIOT) || (signr =? SIGFPE) || (signr =? SIGSEGV).

(** The default action; [true] when there may be more signals. *)
Definition default_action (signr : Z) : M sysst bool :=
  if (signr =? SIGCONT) || (signr =? SIGCHLD) then mret true else
  if stops signr then
    upd_me (fun t => on_info (set_exit_code signr) (set_state TASK_STOPPED t)) ;;
    t ← my;
    a ← (x ← gets (fun s => x_task s (p_pptr t)); idx (sigaction x) (Z.to_nat (SIGCHLD - 1)));
    (if Z.land (sa_flags a) SA_NOCLDSTOP =? 0
     then lift (upd (p_pptr t) (fun f => set_signal (Z.lor (signal f) (_S SIGCHLD)) f)) else skip) ;;
    mret true
  else
  (if dumps signr && negb (core_dump signr =? 0) then lift (LinuxProc.do_exit fuel (Z.lor signr 128)) else skip) ;;
  lift (LinuxProc.do_exit fuel signr) ;;
  mret false.

Definition do_signal (signr : Z) (f : sframe) : M sysst (Z * sframe) :=
  let i := Z.to_nat (signr - 1) in
  a ← get_sa i;
  let f := restarted signr (sa_flags a) f in
  h ← get_handler i;
  if h =? 1 then mret (1, f) else
  more ← (if h =? 0 then default_action signr else mret false);
  if (more : bool) then mret (1, f) else
  (if Z.land (sa_flags a) SA_ONESHOT =? 0 then skip else put_handler i 0) ;;
  let nomask := negb (Z.land (sa_flags a) SA_NOMASK =? 0) in
  let esp := u32 (f_esp f - (if nomask then 28 else 32)) in
  verify esp (if nomask then 28 else 32) ;;
  t ← my;
  put_longs ([sa_restorer a; signr] ++ (if nomask then [] else [blocked t]) ++ [f_eax f; f_ecx f; f_edx f; f_eflags f; f_eip f]) esp ;;
  upd_me (fun t => set_blocked (Z.lor (blocked t) (s32 (sa_mask a))) t) ;;
  mret (0, mkF (f_eax f) (f_ecx f) (f_edx f) (f_orig_eax f) h (f_eflags f) esp).
End Sys.
