(* ===== verification/LinuxCred.v ===== *)
(** * Linux 0.12: who may become whom

    The calls of [LinuxSys], with the calls of [LinuxProc] on processes, as
    steps of a system of tasks: what a task without privileges can make of
    its identity, its limits and the clock. *)

From S2P Require Import Prelude LinuxSched LinuxMm LinuxProc LinuxSys.

(** ** Relations every outcome of a routine stays in *)

Definition within {St A} (R : relation St) (m : M St A) : Prop :=
  forall s, match m s with Ok _ s' | Switched s' => R s s' | _ => True end.

Create HintDb within.

Section Within.
Context {St : Type} (R : relation St) {HR : PreOrder R}.

Lemma within_ret {A} (a : A) : within R (mret a).
Proof. intros s. cbn. reflexivity. Qed.
Lemma within_skip : within R skip.
Proof. intros s. cbn. reflexivity. Qed.
Lemma within_gets {A} (f : St -> A) : within R (gets f).
Proof. intros s. cbn. reflexivity. Qed.
Lemma within_get : within R get.
Proof. intros s. cbn. reflexivity. Qed.
Lemma within_fault {A} : within R (fault : M St A).
Proof. done. Qed.
Lemma within_panic {A} msg : within R (panic msg : M St A).
Proof. done. Qed.
Lemma within_idx {A} (l : list A) i : within R (idx l i).
Proof. unfold idx. case_match; [apply within_ret|apply within_fault]. Qed.
Lemma within_deref {A} (p : option A) : within R (deref p).
Proof. unfold deref. case_match; [apply within_ret|apply within_fault]. Qed.
Lemma within_modify f : (forall s, R s (f s)) -> within R (modify f).
Proof. intros Hf s. apply Hf. Qed.
Lemma within_bind {A B} (m : M St A) (f : A -> M St B) : within R m -> (forall a, within R (f a)) -> within R (m ≫= f).
Proof.
  intros Hm Hf s. specialize (Hm s). unfold mbind, M_bind. destruct (m s) as [a s1|msg|s1| |]; try done. specialize (Hf a s1).
  destruct (f a s1); try done; by etrans.
Qed.
Lemma within_loop {L Res} (body : L -> M St (L + Res)) : (forall l, within R (body l)) -> forall n l, within R (loop n body l).
Proof. intros Hb n. induction n as [|n IH]; intros l; cbn [loop]; [done|]. apply within_bind; [apply Hb|]. intros [l'|r]; [apply IH|apply within_ret]. Qed.
Lemma within_for n body : (forall i, within R (body i)) -> forall i, within R (for_range i n body).
Proof. intros Hb. induction n as [|n IH]; intros i; cbn [for_range]; [apply within_skip|]. apply within_bind; [apply Hb|]. intros _. apply IH. Qed.
End Within.

Lemma within_lift {St C A} `{Lens St C} (R : relation St) (R' : relation C) (m : M C A) :
  (forall s c, R' (lget s) c -> R s (lset c s)) -> within R' m -> within R (lift m).
Proof. intros Hl Hm s. specialize (Hm (lget s)). unfold lift. destruct (m (lget s)); try done; by apply Hl. Qed.

#[export] Hint Extern 1 (within _ (mret _)) => apply within_ret; typeclasses eauto : within.
#[export] Hint Extern 1 (within _ skip) => apply within_skip; typeclasses eauto : within.
#[export] Hint Extern 1 (within _ get) => apply within_get; typeclasses eauto : within.
#[export] Hint Extern 1 (within _ (gets _)) => apply within_gets; typeclasses eauto : within.
#[export] Hint Extern 1 (within _ (idx _ _)) => apply within_idx; typeclasses eauto : within.
#[export] Hint Extern 1 (within _ (deref _)) => apply within_deref; typeclasses eauto : within.
#[export] Hint Resolve within_fault within_panic : within.
(** Everything but the calls of other routines. *)
Ltac within := repeat first
  [ lazymatch goal with |- within _ _ => fail | |- forall _, _ => intro end
  | solve [eauto 3 with within]
  | match goal with |- PreOrder _ => typeclasses eauto end
  | apply within_loop
  | apply within_for
  | apply within_bind
  | match goal with
    | |- within _ (let '(_, _) := ?x in _) => destruct x
    | |- within _ (if ?b then _ else _) => destruct b
    | |- within _ (match ?x with _ => _ end) => destruct x
    end ].

(** ** Identities *)

Definition task_ids (t : task_struct) : Z * Z * Z * Z := (uid t, euid t, gid t, egid t).

(** The handlers of SIGKILL and SIGSTOP may be reset, but not set. *)
Definition sealed (k : nat) : Prop := k = 8%nat \/ k = 18%nat.
Definition like (t t' : task_struct) : Prop :=
  task_ids t' = task_ids t /\ forall k, sealed k -> sa_handler (info t') !! k = sa_handler (info t) !! k \/ sa_handler (info t') !! k = Some 0.
#[export] Instance like_pre : PreOrder like.
Proof.
  split; [intros t; split; auto|]. intros t1 t2 t3 [A1 A2] [B1 B2]. split; [congruence|]. intros k Hk. destruct (B2 k Hk) as [->|]; auto.
Qed.

(** No task gets another identity; tasks may go. *)
Definition same_s (s s' : sst) : Prop :=
  forall i t', task s' !! i = Some (Some t') -> exists t, task s !! i = Some (Some t) /\ like t t'.
Definition same_l (s s' : lst) : Prop := same_s (k_s s) (k_s s').
Definition x_creds (x : tinfo) : Z * Z * list Z * list (Z * Z) := (suid x, sgid x, groups x, rlim x).
Definition world (s : sysst) := (startup_time s, jiffies_offset s, sys_tz s, firsttime s, thisname s).
Definition same_y (s s' : sysst) : Prop :=
  same_l (y_l s) (y_l s') /\ (forall i, x_creds (x_task s' i) = x_creds (x_task s i)) /\ world s' = world s.

#[export] Instance same_s_pre : PreOrder same_s.
Proof.
  split; [intros s i t Ht; exists t; split; [done|reflexivity]|]. intros s1 s2 s3 H1 H2 i t3 Ht3. destruct (H2 i t3 Ht3) as (t2 & Ht2 & E2).
  destruct (H1 i t2 Ht2) as (t1 & Ht1 & E1). exists t1. split; [done|by etrans].
Qed.
#[export] Instance same_l_pre : PreOrder same_l.
Proof. split; [intros s; unfold same_l; reflexivity|intros s1 s2 s3; apply same_s_pre]. Qed.
#[export] Instance same_y_pre : PreOrder same_y.
Proof.
  split; [intros s; split_and!; [apply same_l_pre|done|done]|]. intros s1 s2 s3 (A1 & A2 & A3) (B1 & B2 & B3).
  split_and!; [by etrans|intros i; by rewrite B2|congruence].
Qed.

Lemma same_modify f : (forall s, task (f s) = task s) -> within same_s (modify f).
Proof. intros Hf. apply within_modify. intros s i t. rewrite Hf. exists t. split; [done|reflexivity]. Qed.
Lemma same_upd_task i f : (forall t, like t (f t)) -> within same_s (upd_task i f).
Proof.
  intros Hf s. unfold upd_task, get_task, mbind, M_bind, gets, idx. destruct (task s !! i) as [[t|]|] eqn:E; cbn; try done. intros j t'. cbn. intros [(<- & [= <-] & _)|[_ Hj]]%list_lookup_insert_Some.
  - by exists t.
  - exists t'. split; [done|reflexivity].
Qed.

Lemma like_check now t : like t (check_signals now t).
Proof. unfold check_signals. repeat case_match; split; auto. Qed.
Lemma same_for_tasks f : (forall t, like t (f t)) -> within same_s (modify (for_tasks f)).
Proof.
  intros Hf. apply within_modify. intros s i t'. unfold for_tasks. cbn. destruct (task s) as [|t0 l]; [done|]. destruct i as [|i]; [exists t'; split; [done|reflexivity]|]. intros Ht.
  change ((option_map f <$> l) !! i = Some (Some t')) in Ht. change ((t0 :: l) !! S i) with (l !! i). rewrite list_lookup_fmap in Ht.
  destruct (l !! i) as [[t|]|]; try done. injection Ht as <-. by exists t.
Qed.
Lemma same_switch n : within same_s (switch_to n).
Proof. intros s. unfold switch_to, mbind, M_bind, get. destruct (n =? current s)%nat; intros i t Ht; exists t; (split; [done|reflexivity]). Qed.
#[export] Hint Resolve same_switch : within.
#[export] Hint Extern 1 (within same_s (upd_task _ _)) => apply same_upd_task; split; auto : within.
#[export] Hint Extern 1 (within same_s (modify (for_tasks _))) => apply same_for_tasks; first [apply like_check | split; auto] : within.

Lemma same_schedule fuel : within same_s (schedule fuel).
Proof. unfold schedule, pick_step. within. Qed.
#[export] Hint Resolve same_schedule : within.
Lemma same_pause fuel : within same_s (sys_pause fuel).
Proof. unfold sys_pause. within. Qed.
#[export] Hint Resolve same_pause : within.

(** Routines of processes. *)
Lemma same_lift_s {A} (m : M sst A) : within same_s m -> within same_l (lift m).
Proof. apply within_lift. by intros s c. Qed.
Lemma same_lift_m {A} (m : M mm A) : within same_l (lift m).
Proof. apply (within_lift same_l (fun _ _ => True)); [|intros s; by case_match]. intros s c _. unfold same_l. cbn. reflexivity. Qed.
Lemma same_upd i f : (forall t, like t (f t)) -> within same_l (upd i f).
Proof. intros Hf. by apply same_lift_s, same_upd_task. Qed.
Lemma same_tsk i : within same_l (tsk i).
Proof. apply same_lift_s. unfold get_task. within. Qed.
Lemma same_keep_ks f : (forall s, k_s (f s) = k_s s) -> within same_l (modify f).
Proof. intros Hf. apply within_modify. intros s. unfold same_l. rewrite Hf. reflexivity. Qed.
Lemma same_print m : within same_l (print m).
Proof. by apply same_lift_s, same_modify. Qed.
#[export] Hint Resolve same_lift_s same_lift_m same_tsk same_print : within.
#[export] Hint Extern 1 (within same_l (upd _ _)) => apply same_upd; split; auto : within.
#[export] Hint Extern 1 (within same_l (modify _)) => apply same_keep_ks; done : within.
#[export] Hint Extern 1 (within same_l (call_ _)) => apply same_keep_ks; done : within.

Lemma same_curr : within same_l curr.
Proof. unfold curr. within. Qed.
#[export] Hint Resolve same_curr : within.
Lemma same_clear nr : within same_l (clear_slot nr).
Proof.
  intros s. unfold clear_slot, set_slot, set_mtask, mbind, M_bind, gets, idx. destruct (task (k_s s) !! nr) eqn:E; [|done]. cbn. unfold same_l. cbn.
  intros i t'. cbn. intros [(_ & [=] & _)|[_ Hi]]%list_lookup_insert_Some. exists t'. split; [done|reflexivity].
Qed.
#[export] Hint Resolve same_clear : within.
Lemma same_verify_area fuel a n : within same_l (verify_area fuel a n).
Proof. unfold verify_area, verify_step. within. Qed.
Lemma same_release fuel p : within same_l (release fuel p).
Proof. unfold release. within. Qed.
Lemma same_audit : within same_l audit_ptree.
Proof. unfold audit_ptree, audit_task, warn. within. Qed.
Lemma same_send sig p priv : within same_l (send_sig sig p priv).
Proof. unfold send_sig. within. Qed.
Lemma same_slot i : within same_l (slot_task i).
Proof. unfold slot_task. within. Qed.
#[export] Hint Resolve same_verify_area same_release same_audit same_send same_slot : within.
Lemma same_session g : within same_l (session_of_pgrp g).
Proof. unfold session_of_pgrp. generalize 63%nat. intros n. induction n as [|n IH]; cbn [session_scan]; within. Qed.
Lemma same_kill_pg g sig priv : within same_l (kill_pg g sig priv).
Proof.
  assert (forall n r f, within same_l (kill_scan n g sig priv r f)) as H by (intros n; induction n as [|n IH]; cbn [kill_scan]; within).
  unfold kill_pg. within.
Qed.
Lemma same_kill_proc n sig priv : within same_l (kill_proc n sig priv).
Proof.
  assert (forall i, within same_l (proc_scan i n sig priv)) as H by (intros i; induction i as [|i IH]; cbn [proc_scan]; within).
  unfold kill_proc. within.
Qed.
#[export] Hint Resolve same_session same_kill_pg same_kill_proc : within.
Lemma same_sys_kill n sig : within same_l (LinuxProc.sys_kill n sig).
Proof.
  assert (forall i r, within same_l (kill_all i sig r)) as H by (intros i; induction i as [|i IH]; cbn [kill_all]; within).
  unfold LinuxProc.sys_kill. within.
Qed.
Lemma same_hangup b g : within same_l (hangup_orphans b g).
Proof.
  assert (forall l i, within same_l (orphan_scan l i g)) as H1 by (intros l i; induction i as [|i IH]; cbn [orphan_scan]; within).
  assert (forall i, within same_l (stopped_scan i g)) as H2 by (intros i; induction i as [|i IH]; cbn [stopped_scan]; within).
  unfold hangup_orphans, is_orphaned_pgrp, has_stopped_jobs. within.
Qed.
#[export] Hint Resolve same_sys_kill same_hangup : within.
Lemma same_leave t : within same_l (leave_session t).
Proof.
  assert (forall i sess, within same_l (detach_tty i sess)) as H by (intros i sess; induction i as [|i IH]; cbn [detach_tty]; within).
  unfold leave_session. within.
Qed.
#[export] Hint Resolve same_leave : within.
Lemma same_do_exit fuel code : within same_l (LinuxProc.do_exit fuel code).
Proof. unfold LinuxProc.do_exit, drop_files, LinuxProc.iput, set_mtask, pass_children, inherit_step. within. Qed.
#[export] Hint Resolve same_do_exit : within.
Lemma same_waitpid fuel n a o : within same_l (sys_waitpid fuel n a o).
Proof. unfold sys_waitpid, wait_pass, wait_step, LinuxProc.wait_resume. within. Qed.
#[export] Hint Resolve same_waitpid : within.

(** ** The calls on the caller *)

Lemma same_lift_l {A} (m : M lst A) : within same_l m -> within same_y (lift m).
Proof. apply within_lift. intros s c H. by split_and!. Qed.
Lemma same_me : within same_y me.
Proof. apply same_lift_l, same_curr. Qed.
Lemma same_my : within same_y my.
Proof. unfold my. apply within_bind; [typeclasses eauto|apply same_me|]. intros i. apply same_lift_l, same_tsk. Qed.
Lemma same_my_x : within same_y my_x.
Proof. unfold my_x. apply within_bind; [typeclasses eauto|apply same_me|within]. Qed.
#[export] Hint Resolve same_lift_l same_me same_my same_my_x : within.
Lemma same_upd_me f : (forall t, like t (f t)) -> within same_y (upd_me f).
Proof. intros Hf. unfold upd_me. within. apply same_lift_l. by apply same_upd. Qed.
Lemma same_upd_x f : (forall x, x_creds (f x) = x_creds x) -> within same_y (upd_x f).
Proof.
  intros Hf. unfold upd_x. within. apply within_modify. intros s. split_and!; [unfold same_l; cbn; reflexivity| |done]. intros i. cbn. by case_match.
Qed.
Lemma same_usr f : within same_y (modify (fun s => set_usr (f s) s)).
Proof. apply within_modify. intros s. by split_and!. Qed.
#[export] Hint Extern 1 (within same_y (upd_me _)) => apply same_upd_me; split; auto : within.
#[export] Hint Extern 1 (within same_y (upd_x _)) => apply same_upd_x; done : within.
Lemma same_put_longs vs : forall a, within same_y (put_longs vs a).
Proof.
  assert (forall v a, within same_y (put_fs_byte v a)) as H by (intros v a; apply same_usr).
  induction vs as [|v vs IH]; intros a; cbn [put_longs]; [within|]. unfold put_fs_long, put_fs_word. within.
Qed.
Lemma same_put_byte v a : within same_y (put_fs_byte v a).
Proof. apply same_usr. Qed.
#[export] Hint Resolve same_put_longs same_put_byte : within.
Lemma same_put_long v a : within same_y (put_fs_long v a).
Proof. unfold put_fs_long, put_fs_word. within. Qed.
Lemma same_put_bytes vs : forall a, within same_y (put_bytes vs a).
Proof. induction vs as [|v vs IH]; intros a; cbn [put_bytes]; within. Qed.
Lemma same_get_long a : within same_y (get_fs_long a).
Proof. unfold get_fs_long, get_fs_word, get_fs_byte. within. Qed.
Lemma same_suser : within same_y suser.
Proof. unfold suser. within. Qed.
Lemma same_verify fuel a n : within same_y (verify fuel a n).
Proof. unfold verify. within. Qed.
#[export] Hint Resolve same_put_long same_put_bytes same_get_long same_suser same_verify : within.

(** ** The system *)

Inductive scall :=
| YNosys | YSetregid (r e : Z) | YSetgid (g : Z) | YTime (p : Z) | YSetreuid (r e : Z) | YSetuid (u : Z) | YStime (p : Z) | YTimes (p : Z) | YBrk (e : Z)
| YSetpgid (n g : Z) | YGetpgrp | YSetsid | YGetgroups (n p : Z) | YSetgroups (n p : Z) | YUname (p : Z) | YSethostname (p n : Z)
| YGetrlimit (r p : Z) | YSetrlimit (r p : Z) | YGetrusage (w p : Z) | YGettimeofday (v z : Z) | YSettimeofday (v z : Z) | YUmask (m : Z)
| YSgetmask | YSsetmask (m : Z) | YSigpending (p : Z) | YSigsuspend (r o m : Z) | YSignal (n h r : Z) | YSigaction (n a o : Z)
| YKill (n sig : Z) | YExit (code : Z) | YWaitpid (n a o : Z)
(** A signal is delivered on the way back from the kernel. *)
| YDeliver (signr : Z) (f : sframe).

Section Calls.
Variable fuel : nat.
Definition sys_call (c : scall) : M sysst unit :=
  match c with
  | YNosys => sys_nosys ;; skip
  | YSetregid r e => sys_setregid r e ;; skip
  | YSetgid g => sys_setgid g ;; skip
  | YTime p => sys_time fuel p ;; skip
  | YSetreuid r e => sys_setreuid r e ;; skip
  | YSetuid u => sys_setuid u ;; skip
  | YStime p => sys_stime p ;; skip
  | YTimes p => sys_times fuel p ;; skip
  | YBrk e => sys_brk e ;; skip
  | YSetpgid n g => sys_setpgid n g ;; skip
  | YGetpgrp => sys_getpgrp ;; skip
  | YSetsid => sys_setsid ;; skip
  | YGetgroups n p => sys_getgroups fuel n p ;; skip
  | YSetgroups n p => sys_setgroups n p ;; skip
  | YUname p => sys_uname fuel p ;; skip
  | YSethostname p n => sys_sethostname p n ;; skip
  | YGetrlimit r p => sys_getrlimit fuel r p ;; skip
  | YSetrlimit r p => sys_setrlimit r p ;; skip
  | YGetrusage w p => sys_getrusage fuel w p ;; skip
  | YGettimeofday v z => sys_gettimeofday fuel v z ;; skip
  | YSettimeofday v z => sys_settimeofday v z ;; skip
  | YUmask m => sys_umask m ;; skip
  | YSgetmask => sys_sgetmask ;; skip
  | YSsetmask m => sys_ssetmask m ;; skip
  | YSigpending p => sys_sigpending fuel p ;; skip
  | YSigsuspend r o m => sys_sigsuspend fuel r o m ;; skip
  | YSignal n h r => sys_signal n h r ;; skip
  | YSigaction n a o => sys_sigaction fuel n a o ;; skip
  | YKill n sig => lift (LinuxProc.sys_kill n sig) ;; skip
  | YExit code => lift (LinuxProc.sys_exit fuel code)
  | YWaitpid n a o => lift (sys_waitpid fuel n a o) ;; skip
  | YDeliver signr f => do_signal fuel signr f ;; skip
  end.

(** The calls that can change an identity, a limit or the clock. *)
Definition guarded (c : scall) : bool :=
  match c with
  | YSetregid _ _ | YSetgid _ | YSetreuid _ _ | YSetuid _ | YStime _ | YSetgroups _ _ | YSethostname _ _ | YSetrlimit _ _ | YSettimeofday _ _ => true
  | _ => false
  end.

Lemma same_put_handler i h : (sealed i -> h = 0) -> within same_y (put_handler i h).
Proof.
  intros Hi. unfold put_handler. apply within_bind; [typeclasses eauto|unfold get_handler; within|]. intros _. apply same_upd_me. intros t. split; [done|]. intros k Hk. cbn.
  destruct (decide (k = i)) as [->|Hne]; [|left; by rewrite list_lookup_insert_ne]. rewrite (Hi Hk), list_lookup_insert. case_decide; auto.
Qed.
#[local] Hint Extern 1 (within same_y (put_handler _ _)) => apply same_put_handler; done : within.
Lemma signum_open n : bad_signum n = false -> ~ sealed (Z.to_nat (n - 1)).
Proof.
  unfold bad_signum, SIGKILL, SIGSTOP. rewrite !orb_false_iff, Z.ltb_ge, Z.eqb_neq, Z.eqb_neq. unfold sealed. lia.
Qed.
Lemma same_signal n h r : within same_y (sys_signal n h r).
Proof.
  unfold sys_signal. destruct (bad_signum n) eqn:E; [within|]. apply signum_open in E. unfold get_handler, put_sa, get_sa. within.
Qed.
Lemma same_sigaction n a o : within same_y (sys_sigaction fuel n a o).
Proof.
  unfold sys_sigaction. destruct (bad_signum n) eqn:E; [within|]. apply signum_open in E. unfold get_handler, get_sa, put_sa, get_new, save_old. within.
Qed.
Lemma same_deliver signr f : within same_y (do_signal fuel signr f).
Proof. unfold do_signal, default_action, get_handler, get_sa. within. Qed.
Lemma same_groups n p : within same_y (sys_getgroups fuel n p).
Proof. unfold sys_getgroups, getgroups_step, put_fs_word. within. Qed.
#[local] Hint Resolve same_signal same_sigaction same_deliver same_groups : within.
Lemma same_unguarded c : guarded c = false -> within same_y (sys_call c).
Proof.
  destruct c; try done; intros _; cbn [sys_call];
    unfold sys_nosys, sys_time, CURRENT_TIME, jiff, sys_times, sys_brk, sys_setpgid, pgid_step, sys_getpgrp, sys_setsid, sys_uname, sys_getrlimit, get_rlim,
      sys_getrusage, sys_gettimeofday, sys_umask, sys_sgetmask, sys_ssetmask, sys_sigpending, sys_sigsuspend, LinuxProc.sys_exit; within.
Qed.
End Calls.

(** ** The guarded calls *)

Definition cur (s : sysst) : nat := current (k_s (y_l s)).
Definition task_at (s : sysst) (i : nat) : option task_struct := mjoin (task (k_s (y_l s)) !! i).

(** Only the caller changes. *)
Definition only_me (s s' : sysst) : Prop :=
  cur s' = cur s /\ (forall i, i <> cur s -> task_at s' i = task_at s i /\ x_task s' i = x_task s i) /\ (forall i, is_Some (task_at s' i) -> is_Some (task_at s i)).
#[export] Instance only_me_pre : PreOrder only_me.
Proof.
  split; [by intros s|]. intros s1 s2 s3 (A1 & A2 & A3) (B1 & B2 & B3). split_and!; [congruence| |by auto].
  intros i Hi. destruct (B2 i) as [-> ->]; [congruence|]. by apply A2.
Qed.

(** The task [t] and fields [x] of the caller, all else as in [s0]. *)
Record caller (s0 : sysst) (t : task_struct) (x : tinfo) (s : sysst) : Prop := {
  ca_cur : cur s = cur s0;
  ca_task : task (k_s (y_l s)) !! cur s0 = Some (Some t);
  ca_others : forall i, i <> cur s0 -> task (k_s (y_l s)) !! i = task (k_s (y_l s0)) !! i;
  ca_x : x_task s (cur s0) = x;
  ca_xs : forall i, i <> cur s0 -> x_task s i = x_task s0 i;
  ca_world : world s = world s0 }.

Definition ends {St A} (m : M St A) (Q : A -> St -> Prop) (s : St) : Prop :=
  match m s with Ok a s' => Q a s' | Switched _ => False | _ => True end.
Lemma ends_bind {St A B} (m : M St A) (f : A -> M St B) Q s : ends m (fun a => ends (f a) Q) s -> ends (m ≫= f) Q s.
Proof. unfold ends, mbind, M_bind. by destruct (m s). Qed.

Section Caller.
Context (s0 : sysst) (t : task_struct) (x : tinfo) (s : sysst) (Hc : caller s0 t x s).

Lemma ends_my Q : Q t s -> ends my Q s.
Proof.
  intros HQ. unfold ends, my, me, curr, tsk, get_task, lift, mbind, M_bind, gets, idx. cbn. change (current (k_s (y_l s))) with (cur s).
  rewrite (ca_cur _ _ _ _ Hc), (ca_task _ _ _ _ Hc). cbn. destruct s as [[] ? ? ? ? ? ? ?]. exact HQ.
Qed.
Lemma ends_my_x Q : Q x s -> ends my_x Q s.
Proof.
  intros HQ. unfold ends, my_x, me, curr, lift, mbind, M_bind, gets. cbn. change (current (k_s (y_l s))) with (cur s).
  rewrite (ca_cur _ _ _ _ Hc), (ca_x _ _ _ _ Hc). by destruct s.
Qed.
Lemma ends_suser Q : Q (euid t =? 0) s -> ends suser Q s.
Proof. intros HQ. unfold suser. by apply ends_bind, ends_my. Qed.
Lemma ends_upd_me f Q : (forall s', caller s0 (f t) x s' -> Q tt s') -> ends (upd_me f) Q s.
Proof.
  intros HQ. unfold ends, upd_me, me, curr, upd, upd_task, get_task, lift, mbind, M_bind, gets, modify, idx. cbn. change (current (k_s (y_l s))) with (cur s).
  destruct Hc as [C1 C2 C3 C4 C5 C6]. rewrite C1, C2. cbn. apply HQ. split; cbn; try done.
  - by rewrite list_lookup_insert_eq by (by eapply lookup_lt_Some).
  - intros i Hi. rewrite list_lookup_insert_ne by done. by apply C3.
Qed.
Lemma ends_upd_x f Q : (forall s', caller s0 t (f x) s' -> Q tt s') -> ends (upd_x f) Q s.
Proof.
  intros HQ. unfold ends, upd_x, me, curr, lift, mbind, M_bind, gets, modify. cbn. change (current (k_s (y_l s))) with (cur s).
  destruct Hc as [C1 C2 C3 C4 C5 C6]. rewrite C1. apply HQ. split; cbn; try done.
  - by rewrite Nat.eqb_refl, C4.
  - intros i Hi. rewrite (proj2 (Nat.eqb_neq _ _) Hi). by apply C5.
Qed.
End Caller.

(** ** What a caller without privileges can become *)

Record cred := mkCred { c_uid : Z; c_euid : Z; c_suid : Z; c_gid : Z; c_egid : Z; c_sgid : Z; c_groups : list Z; c_rlim : list (Z * Z) }.
Definition cred_of (t : task_struct) (x : tinfo) : cred := mkCred (uid t) (euid t) (suid x) (gid t) (egid t) (sgid x) (groups x) (rlim x).
Definition creds (s : sysst) (i : nat) : option cred := (fun t => cred_of t (x_task s i)) <$> task_at s i.
Definition uids (c : cred) : list Z := [c_uid c; c_euid c; c_suid c].
Definition gids (c : cred) : list Z := [c_gid c; c_egid c; c_sgid c].

Record confined (c c' : cred) : Prop := {
  cf_uids : uids c' ⊆ uids c;
  cf_gids : gids c' ⊆ gids c;
  cf_groups : c_groups c' = c_groups c;
  cf_rlim : Forall2 (fun r r' : Z * Z => snd r' <= snd r) (c_rlim c) (c_rlim c') }.
#[export] Instance confined_pre : PreOrder confined.
Proof.
  split.
  - intros c. split; try done. induction (c_rlim c); constructor; [lia|done].
  - intros c1 c2 c3 [A1 A2 A3 A4] [B1 B2 B3 B4]. split; [by etrans|by etrans|congruence|].
    revert B4. generalize (c_rlim c3). induction A4 as [|r r' l l' Hr _ IH]; intros l3 B4; inversion B4; subst; constructor; [lia|by apply IH].
Qed.
Definition plain (c : cred) : Prop := 0 ∉ uids c.
Lemma plain_confined c c' : confined c c' -> plain c -> plain c'.
Proof. intros [H _ _ _] Hp Hin. apply Hp. by apply H. Qed.

Definition ids_ok (c : cred) : Prop := Forall (fun v => 0 <= v < 65536) (uids c ++ gids c).

(** A step of the system: others keep what they are, the caller is confined
    unless it is the superuser, who alone changes the clock and the names. *)
Definition lawful (s s' : sysst) : Prop :=
  (forall i c', creds s' i = Some c' -> exists c, creds s i = Some c /\ (c' = c \/ i = cur s /\ (c_euid c = 0 \/ (ids_ok c -> confined c c')))) /\
  ((forall c, creds s (cur s) = Some c -> c_euid c <> 0) -> world s' = world s).

Lemma same_lawful s s' : same_y s s' -> lawful s s'.
Proof.
  intros (H1 & H2 & H3). split; [|done]. intros i c'. unfold creds, task_at. destruct (task (k_s (y_l s')) !! i) as [[t'|]|] eqn:E; try done. cbn. intros [= <-].
  destruct (H1 i t' E) as (t & Et & Ei & _). rewrite Et. cbn. eexists. split; [done|]. left. specialize (H2 i). unfold task_ids in Ei. unfold x_creds in H2.
  injection Ei as E1 E2 E3 E4. injection H2 as E5 E6 E7 E8. unfold cred_of. congruence.
Qed.
Lemma only_me_lawful s s' c0 : only_me s s' -> creds s (cur s) = Some c0 -> c_euid c0 = 0 -> lawful s s'.
Proof.
  intros (H1 & H2 & H3) Hc0 He. split; [|intros Hn; by destruct (Hn c0 Hc0)]. intros i c' Hc'. unfold creds in *. destruct (decide (i = cur s)) as [->|Hi].
  - destruct (H3 (cur s)) as [t Ht]; [by destruct (task_at s' (cur s))|]. rewrite Ht in *. eexists. split; [done|]. right. split; [done|]. left. by injection Hc0 as <-.
  - destruct (H2 i Hi) as [E1 E2]. rewrite E1, E2 in Hc'. exists c'. auto.
Qed.
(** The caller after a call that is not a superuser's. *)
Lemma caller_lawful s t x t' x' s' : caller s t x s -> caller s t' x' s' -> (ids_ok (cred_of t x) -> confined (cred_of t x) (cred_of t' x')) -> lawful s s'.
Proof.
  intros [_ C2 _ C4 _ _] [D1 D2 D3 D4 D5 D6] Hf. split; [|done]. intros i c'. unfold creds, task_at. destruct (decide (i = cur s)) as [->|Hi].
  - rewrite C2, C4, D2, D4. cbn. intros [= <-]. eexists. split; [done|]. right. auto.
  - rewrite D3, D5 by done. exists c'. auto.
Qed.

(** The superuser changes only itself. *)
Lemma only_lift {A} (m : M lst A) : (forall l, match m l with Ok _ l' | Switched l' => l' = l | _ => True end) -> within only_me (lift m).
Proof. intros Hm s. specialize (Hm (y_l s)). unfold lift. cbn. by destruct (m (y_l s)); subst; [destruct s| |destruct s| |]. Qed.
Lemma only_me_me : within only_me me.
Proof. by apply only_lift. Qed.
Lemma only_my : within only_me my.
Proof.
  unfold my. apply within_bind; [typeclasses eauto|apply only_me_me|]. intros i. apply only_lift. intros [l]. unfold tsk, get_task, lift, mbind, M_bind, gets, idx. cbn.
  by destruct (task l !! i) as [[]|]; [destruct l| |].
Qed.
Lemma only_upd_me f : within only_me (upd_me f).
Proof.
  intros s. unfold upd_me, me, curr, upd, upd_task, get_task, lift, mbind, M_bind, gets, modify, idx. cbn.
  destruct (task (k_s (y_l s)) !! current (k_s (y_l s))) as [[t|]|] eqn:E; cbn; try done. split_and!; [done| |]; unfold task_at; cbn.
  - intros i Hi. by rewrite list_lookup_insert_ne.
  - intros i. destruct (decide (i = cur s)) as [->|Hi]; [|by rewrite list_lookup_insert_ne]. by change (current (k_s (y_l s))) with (cur s) in E; rewrite E.
Qed.
Lemma only_upd_x f : within only_me (upd_x f).
Proof.
  intros s. unfold upd_x, me, curr, lift, mbind, M_bind, gets, modify. cbn. split_and!; [done| |done]. intros i Hi. cbn. change (current (k_s (y_l s))) with (cur s). by rewrite (proj2 (Nat.eqb_neq _ _) Hi).
Qed.
Lemma only_world f : (forall s, y_l (f s) = y_l s /\ x_task (f s) = x_task s) -> within only_me (modify f).
Proof. intros Hf s. destruct (Hf s) as [E1 E2]. cbn. unfold only_me, cur, task_at. by rewrite E1, E2. Qed.
#[export] Hint Resolve only_me_me only_my only_upd_me only_upd_x : within.
#[export] Hint Extern 1 (within only_me (modify _)) => apply only_world; done : within.
Lemma only_guarded fuel c : guarded c = true -> within only_me (sys_call fuel c).
Proof.
  destruct c; try done; intros _; cbn [sys_call];
    unfold sys_setregid, sys_setgid, sys_setreuid, sys_setuid, sys_stime, sys_setgroups, sys_sethostname, sys_setrlimit, sys_settimeofday,
      adjust_clock, get_rlim, put_rlim, name_step, put_node, put_group, suser, jiff, get_fs_long, get_fs_word, get_fs_byte, my_x; within.
Qed.

(** The guarded calls of others. *)
Lemma ends_get_long a Q s : (forall v, Q v s) -> ends (get_fs_long a) Q s.
Proof. intros HQ. apply HQ. Qed.
Lemma ends_idx {St A} (l : list A) i (Q : A -> St -> Prop) s : (forall v, l !! i = Some v -> Q v s) -> ends (idx l i) Q s.
Proof. intros HQ. unfold ends, idx. destruct (l !! i) as [v|] eqn:E; [|done]. cbn. by apply HQ. Qed.
Lemma caller_start s t : task (k_s (y_l s)) !! cur s = Some (Some t) -> caller s t (x_task s (cur s)) s.
Proof. by split. Qed.

Lemma ids_confined t x t' x' :
  uids (cred_of t' x') ⊆ uids (cred_of t x) -> gids (cred_of t' x') ⊆ gids (cred_of t x) -> groups x' = groups x -> rlim x' = rlim x -> confined (cred_of t x) (cred_of t' x').
Proof. intros H1 H2 H3 H4. split; [done|done|done|]. cbn. rewrite H4. by apply (cf_rlim (cred_of t x) (cred_of t x)). Qed.
Lemma ids_u16 t x v : ids_ok (cred_of t x) -> v ∈ uids (cred_of t x) ++ gids (cred_of t x) -> u16 v = v.
Proof. intros Hok Hv. apply u16_id. unfold ids_ok in Hok. rewrite Forall_forall in Hok. by apply Hok. Qed.

(** Run the code of a call on the caller. *)
Ltac run_caller := repeat first
  [ eapply ends_my; [eassumption|] | eapply ends_my_x; [eassumption|] | eapply ends_suser; [eassumption|]
  | eapply ends_upd_me; [eassumption|]; intros ? ? | eapply ends_upd_x; [eassumption|]; intros ? ?
  | apply ends_bind ].
(** A test of the code that an id is one the caller has. *)
Ltac own_id E := repeat (apply orb_true_iff in E as [E|E]); apply Z.eqb_eq in E; subst.

Lemma setuid_lawful s t x u : caller s t x s -> euid t <> 0 -> ends (sys_setuid u) (fun _ s' => lawful s s') s.
Proof.
  intros Hc He. unfold sys_setuid. run_caller. rewrite (proj2 (Z.eqb_neq _ _) He).
  destruct ((u =? uid t) || (u =? suid x)) eqn:E; run_caller; [|by apply (caller_lawful s t x t x)].
  eapply caller_lawful; [exact Hc|eassumption|]. intros Hok. own_id E; rewrite (ids_u16 t x) by set_solver; apply ids_confined; unfold uids; set_solver.
Qed.
Lemma setgid_lawful s t x g : caller s t x s -> euid t <> 0 -> ends (sys_setgid g) (fun _ s' => lawful s s') s.
Proof.
  intros Hc He. unfold sys_setgid. run_caller. rewrite (proj2 (Z.eqb_neq _ _) He).
  destruct ((g =? gid t) || (g =? sgid x)) eqn:E; run_caller; [|by apply (caller_lawful s t x t x)].
  eapply caller_lawful; [exact Hc|eassumption|]. intros Hok. own_id E; rewrite (ids_u16 t x) by set_solver; apply ids_confined; unfold gids; set_solver.
Qed.
Lemma setregid_lawful s t x r e : caller s t x s -> euid t <> 0 -> ends (sys_setregid r e) (fun _ s' => lawful s s') s.
Proof.
  intros Hc He. unfold sys_setregid. apply ends_bind.
  assert (forall s1 t1, caller s t1 x s1 -> euid t1 = euid t -> (ids_ok (cred_of t x) -> confined (cred_of t x) (cred_of t1 x) /\ ids_ok (cred_of t1 x)) ->
    ends (if 0 <? e then t2 ← my; su ← suser;
          if (gid t2 =? e) || (egid t2 =? e) || su then upd_me (set_egid (u16 e)) ;; upd_x (fun x => set_saved (suid x) (u16 e) x) ;; mret 0 else mret (- EPERM)
          else mret 0) (fun _ s' => lawful s s') s1) as Hrest.
  { intros s1 t1 Hc1 He1 Hf1. destruct (0 <? e); [|eapply caller_lawful; [exact Hc|exact Hc1|]; apply Hf1].
    run_caller. rewrite He1, (proj2 (Z.eqb_neq _ _) He), orb_false_r. destruct ((gid t1 =? e) || (egid t1 =? e)) eqn:E; run_caller.
    - eapply caller_lawful; [exact Hc|eassumption|]. intros Hok. destruct (Hf1 Hok) as [Hf Hok1]. etrans; [exact Hf|].
      own_id E; rewrite (ids_u16 t1 x) by set_solver; apply ids_confined; unfold gids; set_solver.
    - eapply caller_lawful; [exact Hc|exact Hc1|]. apply Hf1. }
  destruct (0 <? r); [|by apply (Hrest s t)]. run_caller. rewrite (proj2 (Z.eqb_neq _ _) He), orb_false_r. destruct (gid t =? r) eqn:E; run_caller.
  - eapply Hrest; [eassumption|done|]. intros Hok. own_id E. rewrite (ids_u16 t x) by set_solver. split; [apply ids_confined; unfold gids; set_solver|exact Hok].
  - by apply (caller_lawful s t x t x).
Qed.
Lemma setreuid_lawful s t x r e : caller s t x s -> euid t <> 0 -> ends (sys_setreuid r e) (fun _ s' => lawful s s') s.
Proof.
  intros Hc He. unfold sys_setreuid. run_caller.
  assert (forall s1 t1, caller s t1 x s1 -> (exists u, t1 = set_ids u (euid t) (gid t) (egid t) t /\ (ids_ok (cred_of t x) -> u ∈ uids (cred_of t x))) ->
    ends (if 0 <? e then t2 ← my; su ← suser;
          if (uid t =? e) || (euid t2 =? e) || su then upd_me (set_euid (u16 e)) ;; upd_x (fun x => set_saved (u16 e) (sgid x) x) ;; mret 0
          else upd_me (set_uid (uid t)) ;; mret (- EPERM)
          else mret 0) (fun _ s' => lawful s s') s1) as Hrest.
  { intros s1 t1 Hc1 (u & -> & Hu). destruct (0 <? e).
    - run_caller. cbn [set_ids euid]. rewrite (proj2 (Z.eqb_neq _ _) He), orb_false_r. destruct ((uid t =? e) || (euid t =? e)) eqn:E; run_caller.
      + eapply caller_lawful; [exact Hc|eassumption|]. intros Hok. specialize (Hu Hok). cbn in E. own_id E; rewrite (ids_u16 t x) by set_solver; apply ids_confined; unfold uids in *; set_solver.
      + eapply caller_lawful; [exact Hc|eassumption|]. intros _. apply ids_confined; unfold uids; set_solver.
    - eapply caller_lawful; [exact Hc|exact Hc1|]. intros Hok. specialize (Hu Hok). apply ids_confined; unfold uids in *; set_solver. }
  destruct (0 <? r); [|apply (Hrest s t); [done|]; exists (uid t); split; [by destruct t|set_solver]].
  run_caller. rewrite (proj2 (Z.eqb_neq _ _) He), orb_false_r. destruct ((euid t =? r) || (uid t =? r)) eqn:E; run_caller.
  - eapply Hrest; [eassumption|]. exists (u16 r). split; [done|]. intros Hok. own_id E; rewrite (ids_u16 t x) by set_solver; unfold uids; set_solver.
  - by apply (caller_lawful s t x t x).
Qed.
Lemma setrlimit_lawful s t x r p : 0 <= r -> caller s t x s -> euid t <> 0 -> ends (sys_setrlimit r p) (fun _ s' => lawful s s') s.
Proof.
  intros Hr Hc He. unfold sys_setrlimit, get_rlim, put_rlim. destruct (RLIM_NLIMITS <=? r); [by apply (caller_lawful s t x t x)|]. run_caller.
  rewrite (proj2 (Z.leb_le _ _) Hr). apply ends_idx. intros old Hold. apply ends_bind, ends_get_long. intros a. apply ends_bind, ends_get_long. intros b. run_caller.
  rewrite (proj2 (Z.eqb_neq _ _) He). cbn [negb fst snd]. rewrite andb_true_r. destruct ((snd old <? s32 a) || (snd old <? s32 b)) eqn:E; run_caller; [by apply (caller_lawful s t x t x)|].
  eapply caller_lawful; [exact Hc|eassumption|]. intros _. apply orb_false_iff in E as [_ E%Z.ltb_ge]. split; [done|done|done|]. cbn.
  assert (forall i l, l !! i = Some old -> Forall2 (fun r r' : Z * Z => snd r' <= snd r) l (<[i := (s32 a, s32 b)]> l)) as Hins; [|by apply Hins].
  intros i l. revert i. induction l as [|r0 l IH]; intros [|i] Hi; try done; cbn.
  - injection Hi as ->. constructor; [done|]. apply Forall_Forall2_diag, Forall_true. intros; lia.
  - constructor; [lia|by apply IH].
Qed.

Lemma suser_first s t x (m : M sysst Z) : caller s t x s -> euid t <> 0 -> ends (su ← suser; if negb su then mret (- EPERM) else m) (fun _ s' => lawful s s') s.
Proof. intros Hc He. apply ends_bind. eapply ends_suser; [exact Hc|]. rewrite (proj2 (Z.eqb_neq _ _) He). by apply (caller_lawful s t x t x). Qed.
(** The calls whose arguments name a limit, if any, that there is. *)
Definition limit_named (c : scall) : Prop := match c with YSetrlimit r _ => 0 <= r | _ => True end.
Lemma guarded_lawful fuel c s t x : guarded c = true -> limit_named c -> caller s t x s -> euid t <> 0 -> ends (sys_call fuel c) (fun _ s' => lawful s s') s.
Proof.
  intros Hg Hl Hc He. destruct c as [| | | | | | | | | | | | | | | | | | | | | | | | | | | | | | |]; try discriminate Hg; cbn [sys_call]; apply ends_bind.
  - by apply (setregid_lawful s t x).
  - by apply (setgid_lawful s t x).
  - by apply (setreuid_lawful s t x).
  - by apply (setuid_lawful s t x).
  - by apply (suser_first s t x).
  - by apply (suser_first s t x).
  - by apply (suser_first s t x).
  - by apply (setrlimit_lawful s t x).
  - by apply (suser_first s t x).
Qed.

(** Without a task nothing is done. *)
Lemma ends_no_task s Q : task_at s (cur s) = None -> ends my Q s.
Proof.
  intros H. unfold ends, my, me, curr, tsk, get_task, lift, mbind, M_bind, gets, idx. cbn. change (current (k_s (y_l s))) with (cur s). unfold task_at in H.
  by destruct (task (k_s (y_l s)) !! cur s) as [[]|].
Qed.
Lemma guarded_no_task fuel c s : guarded c = true -> limit_named c -> task_at s (cur s) = None -> ends (sys_call fuel c) (fun _ s' => s' = s) s.
Proof.
  intros Hg Hl Hn. assert (forall Q, ends suser Q s) as Hsu by (intros Q; by apply ends_bind, ends_no_task).
  destruct c; try discriminate Hg; cbn [sys_call]; apply ends_bind.
  - unfold sys_setregid. apply ends_bind. destruct (0 <? r); [by apply ends_bind, ends_no_task|]. cbn. destruct (0 <? e); [by apply ends_bind, ends_no_task|done].
  - apply ends_bind, Hsu.
  - by apply ends_bind, ends_no_task.
  - apply ends_bind, Hsu.
  - apply ends_bind, Hsu.
  - apply ends_bind, Hsu.
  - apply ends_bind, Hsu.
  - unfold sys_setrlimit, get_rlim. destruct (RLIM_NLIMITS <=? r); [done|]. apply ends_bind, ends_bind. unfold my_x. apply ends_bind.
    unfold ends at 1, me, curr, lift, gets. cbn. destruct s. cbn. rewrite (proj2 (Z.leb_le _ _) Hl). apply ends_idx. intros old _. apply ends_bind, ends_get_long. intros a. apply ends_bind, ends_get_long. intros b.
    apply ends_bind, Hsu.
  - apply ends_bind, Hsu.
Qed.

Definition left_at (o : outcome sysst unit) (s' : sysst) : Prop := o = Ok tt s' \/ o = Switched s'.
Lemma within_left R (m : M sysst unit) s s' : within R m -> left_at (m s) s' -> R s s'.
Proof. intros Hm. specialize (Hm s). intros [E|E]; by rewrite E in Hm. Qed.
Lemma call_lawful fuel c s s' : limit_named c -> left_at (sys_call fuel c s) s' -> lawful s s'.
Proof.
  intros Hn H. destruct (guarded c) eqn:Hg; [|by eapply same_lawful, within_left; [apply same_unguarded|]].
  destruct (task_at s (cur s)) as [t|] eqn:Et.
  - assert (task (k_s (y_l s)) !! cur s = Some (Some t)) as Et' by (unfold task_at in Et; destruct (task (k_s (y_l s)) !! cur s) as [[]|]; by simplify_eq/=).
    destruct (Z.eq_dec (euid t) 0) as [He|He].
    + apply (only_me_lawful s s' (cred_of t (x_task s (cur s)))); [|unfold creds; by rewrite Et|done]. eapply within_left; [by apply only_guarded|exact H].
    + pose proof (guarded_lawful fuel c s t _ Hg Hn (caller_start s t Et') He) as Hl. unfold ends in Hl. destruct H as [E|E]; by rewrite E in Hl.
  - pose proof (guarded_no_task fuel c s Hg Hn Et) as Hl. unfold ends in Hl. destruct H as [E|E]; rewrite E in Hl; [subst s'|done]. by apply same_lawful.
Qed.

(** Tasks make calls of [sys.c] and [signal.c] and [kill], [exit] and
    [waitpid], lose the processor, and change their own memory.  They do not
    fork or execute another program, and do not name a limit by a negative
    number (see [setrlimit_negative]). *)
Definition set_cur (i : nat) (s : sysst) : sysst := set_yl (set_ks (set_current i (k_s (y_l s))) (y_l s)) s.
Inductive ystep (fuel : nat) : sysst -> sysst -> Prop :=
| ys_call c s s' : limit_named c -> left_at (sys_call fuel c s) s' -> ystep fuel s s'
| ys_switch i s : ystep fuel s (set_cur i s)
| ys_user f s : ystep fuel s (set_usr f s).

Lemma step_lawful fuel s s' : ystep fuel s s' -> lawful s s'.
Proof. intros [c s1 s2 Hn H|i s1|f s1]; [by eapply call_lawful|split; [intros j c' Hc'; exists c'; auto|done] ..]. Qed.
Lemma confined_ids c c' : confined c c' -> ids_ok c -> ids_ok c'.
Proof.
  intros [H1 H2 _ _] Hok. unfold ids_ok in *. rewrite Forall_forall in *. intros v [Hv|Hv]%elem_of_app; apply Hok, elem_of_app; [left; by apply H1|right; by apply H2].
Qed.
Lemma lawful_plain s s' i c' : lawful s s' -> creds s' i = Some c' -> exists c, creds s i = Some c /\ (plain c -> ids_ok c -> confined c c').
Proof.
  intros [H _] Hc'. destruct (H i c' Hc') as (c & Hc & Hd). exists c. split; [done|]. intros Hp Hok. destruct Hd as [->|[_ [He|Hf]]]; [reflexivity| |by apply Hf].
  destruct Hp. unfold uids. rewrite He. set_solver.
Qed.
Lemma reach_plain fuel s s' : rtc (ystep fuel) s s' -> forall i c', creds s' i = Some c' -> exists c, creds s i = Some c /\ (plain c -> ids_ok c -> confined c c').
Proof.
  intros Hr. induction Hr as [s|s s1 s2 Hst _ IH]; intros i c' Hc'; [by exists c'|]. destruct (IH i c' Hc') as (c1 & Hc1 & H1).
  destruct (lawful_plain _ _ _ _ (step_lawful _ _ _ Hst) Hc1) as (c & Hc & H2). exists c. split; [done|]. intros Hp Hok. specialize (H2 Hp Hok). etrans; [exact H2|].
  apply H1; [by eapply plain_confined|by eapply confined_ids].
Qed.

