(* ===== verification/LinuxSignal.v ===== *)
(** * Linux 0.12: signals

    SIGKILL and SIGSTOP keep their default action in every run of the system
    of [LinuxCred], and what [do_signal] does to the registers and the stack
    of a task with a handler. *)

From S2P Require Import Prelude LinuxSched LinuxMm LinuxExit LinuxProc LinuxSys LinuxCred.

(** ** SIGKILL and SIGSTOP *)

Definition sealed_step (s s' : sysst) : Prop :=
  forall i t', task_at s' i = Some t' -> exists t, task_at s i = Some t /\
    forall k, sealed k -> sa_handler (info t') !! k = sa_handler (info t) !! k \/ sa_handler (info t') !! k = Some 0.
#[export] Instance sealed_pre : PreOrder sealed_step.
Proof.
  split; [intros s i t Ht; exists t; auto|]. intros s1 s2 s3 H1 H2 i t3 Ht3. destruct (H2 i t3 Ht3) as (t2 & Ht2 & E2). destruct (H1 i t2 Ht2) as (t1 & Ht1 & E1).
  exists t1. split; [done|]. intros k Hk. destruct (E2 k Hk) as [->|]; auto.
Qed.

Lemma task_at_Some s i t : task_at s i = Some t <-> task (k_s (y_l s)) !! i = Some (Some t).
Proof. unfold task_at. destruct (task (k_s (y_l s)) !! i) as [[]|]; cbn; split; congruence. Qed.
Lemma same_sealed s s' : same_y s s' -> sealed_step s s'.
Proof. intros (H & _) i t' Ht'%task_at_Some. destruct (H i t' Ht') as (t & Ht & _ & Hk). exists t. by rewrite task_at_Some. Qed.

Lemma sealed_same (s s' : sysst) : task (k_s (y_l s')) = task (k_s (y_l s)) -> sealed_step s s'.
Proof. intros E i t'. unfold task_at. rewrite E. exists t'. auto. Qed.
Lemma sealed_modify f : (forall s, y_l (f s) = y_l s) -> within sealed_step (modify f).
Proof. intros Hf. apply within_modify. intros s. apply sealed_same. by rewrite Hf. Qed.
Lemma sealed_me : within sealed_step me.
Proof. intros s. by apply sealed_same. Qed.
Lemma sealed_my : within sealed_step my.
Proof. intros s. pose proof (same_my s) as H. destruct (my s); try done; by apply same_sealed. Qed.
Lemma sealed_upd_me f : (forall t, sa_handler (info (f t)) = sa_handler (info t)) -> within sealed_step (upd_me f).
Proof.
  intros Hf s. unfold upd_me, me, curr, upd, upd_task, get_task, lift, mbind, M_bind, gets, modify, idx. cbn.
  destruct (task (k_s (y_l s)) !! current (k_s (y_l s))) as [[t|]|] eqn:E; cbn; try done. intros i t' Ht'%task_at_Some. cbn in Ht'.
  apply list_lookup_insert_Some in Ht' as [(<- & [= <-] & _)|[_ Ht']]; [exists t|exists t']; rewrite task_at_Some, ?Hf; auto.
Qed.
Lemma sealed_upd_x f : within sealed_step (upd_x f).
Proof. unfold upd_x. apply within_bind; [typeclasses eauto|apply sealed_me|]. intros c. by apply sealed_modify. Qed.
#[local] Hint Resolve sealed_me sealed_my sealed_upd_x : within.
#[local] Hint Extern 1 (within sealed_step (upd_me _)) => apply sealed_upd_me; done : within.
#[local] Hint Extern 1 (within sealed_step (modify _)) => apply sealed_modify; done : within.
Lemma sealed_call fuel c : within sealed_step (sys_call fuel c).
Proof.
  destruct (guarded c) eqn:Hg.
  - destruct c; try discriminate Hg; cbn [sys_call];
      unfold sys_setregid, sys_setgid, sys_setreuid, sys_setuid, sys_stime, sys_setgroups, sys_sethostname, sys_setrlimit, sys_settimeofday,
        adjust_clock, get_rlim, put_rlim, name_step, put_node, put_group, suser, jiff, get_fs_long, get_fs_word, get_fs_byte, my_x; within.
  - intros s. pose proof (same_unguarded fuel c Hg s) as H. destruct (sys_call fuel c s); try done; by apply same_sealed.
Qed.
Lemma reach_sealed fuel s s' : rtc (ystep fuel) s s' -> sealed_step s s'.
Proof.
  intros Hr. induction Hr as [s|s s1 s2 Hst _ IH]; [reflexivity|]. etrans; [|exact IH]. destruct Hst as [c s s1 _ H|i s|f s]; [|by apply sealed_same ..].
  pose proof (sealed_call fuel c s) as Hc. destruct H as [E|E]; by rewrite E in Hc.
Qed.

Definition defaults (t : task_struct) : Prop := forall k, sealed k -> sa_handler (info t) !! k = Some 0.

(** Reading the entries of the caller. *)
Lemma my_run {A} s t (k : task_struct -> M sysst A) : task_at s (cur s) = Some t -> (my ≫= k) s = k t s.
Proof.
  intros Ht%task_at_Some. unfold my, me, curr, tsk, get_task, lift, mbind, M_bind, gets, idx. cbn. change (current (k_s (y_l s))) with (cur s). rewrite Ht. by destruct s as [[] ? ? ? ? ? ? ?].
Qed.
Lemma get_handler_run {A} s t i h (k : Z -> M sysst A) : task_at s (cur s) = Some t -> sa_handler (info t) !! i = Some h -> (get_handler i ≫= k) s = k h s.
Proof.
  intros Ht Hh. rewrite (bind_ok _ _ _ h s); [done|]. unfold get_handler. rewrite (my_run s t) by done. unfold idx. by rewrite Hh.
Qed.
Lemma get_sa_run {A} s i a (k : sigact -> M sysst A) : sigaction (x_task s (cur s)) !! i = Some a -> (get_sa i ≫= k) s = k a s.
Proof.
  intros Ha. rewrite (bind_ok _ _ _ a s); [done|]. unfold get_sa, my_x, me, curr, lift, mbind, M_bind, gets, idx. cbn. change (current (k_s (y_l s))) with (cur s). rewrite Ha. by destruct s as [[] ? ? ? ? ? ? ?].
Qed.

Lemma bind_assoc_at {St A B C} (m : M St A) (f : A -> M St B) (g : B -> M St C) s : ((m ≫= f) ≫= g) s = (m ≫= fun a => f a ≫= g) s.
Proof. unfold mbind, M_bind. by destruct (m s). Qed.
Lemma default_kill fuel : default_action fuel SIGKILL = ((lift (LinuxProc.do_exit fuel SIGKILL) : M sysst unit) ≫= fun _ => mret false).
Proof. reflexivity. Qed.

(** SIGKILL and SIGSTOP are neither caught nor ignored: whatever the
    tasks do, their handlers stay the default ones, and a task to which SIGKILL
    is delivered goes into [do_exit] with it. *)
Theorem kill_certain fuel s s' : rtc (ystep fuel) s s' -> (forall i t, task_at s i = Some t -> defaults t) ->
  (forall i t, task_at s' i = Some t -> defaults t) /\
  (forall t a f, task_at s' (cur s') = Some t -> sigaction (x_task s' (cur s')) !! 8%nat = Some a ->
     exists k, do_signal fuel SIGKILL f s' = ((lift (LinuxProc.do_exit fuel SIGKILL) : M sysst unit) ≫= k) s').
Proof.
  intros Hr Hd. assert (forall i t, task_at s' i = Some t -> defaults t) as Hd'.
  { intros i t' Ht' k Hk. destruct (reach_sealed _ _ _ Hr i t' Ht') as (t & Ht & Hs). destruct (Hs k Hk) as [->|E]; [|done]. by apply (Hd i t). }
  split; [done|]. intros t a f Ht Ha. unfold do_signal. change (Z.to_nat (SIGKILL - 1)) with 8%nat. rewrite (get_sa_run _ _ a) by done.
  rewrite (get_handler_run _ t _ 0) by (done || by apply (Hd' _ _ Ht); left).
  change (0 =? 1) with false. change (0 =? 0) with true. cbv iota. rewrite default_kill. eexists. apply bind_assoc_at.
Qed.

(** ** The stack of a handler *)

(** Byte [k] of a long. *)
Definition byte_of (v : Z) (k : Z) : Z := u8 (Z.shiftr v (8 * k)).
(** Longs [vs] stored from [a] on make [u'] of the memory [u]. *)
Record stored (vs : list Z) (a : Z) (u u' : Z -> Z) : Prop := {
  sd_in : forall j v k, vs !! j = Some v -> 0 <= k < 4 -> u' (u32 (a + 4 * Z.of_nat j + k)) = byte_of v k;
  sd_out : forall x, (forall k, 0 <= k < 4 * Z.of_nat (length vs) -> x <> u32 (a + k)) -> u' x = u x }.

Lemma u32_offset_inj a j k : u32 (a + j) = u32 (a + k) -> -4294967296 < j - k < 4294967296 -> j = k.
Proof.
  unfold u32. intros E Hjk. pose proof (Z.div_mod (a + j) 4294967296 ltac:(lia)). pose proof (Z.div_mod (a + k) 4294967296 ltac:(lia)). nia.
Qed.
Definition wb (a v : Z) (u : Z -> Z) : Z -> Z := fun x => if x =? u32 a then u8 v else u x.
Lemma wb_eq a v u : wb a v u (u32 a) = u8 v.
Proof. unfold wb. by rewrite Z.eqb_refl. Qed.
Lemma wb_ne a j k v u : j <> k -> -4294967296 < j - k < 4294967296 -> wb (a + j) v u (u32 (a + k)) = u (u32 (a + k)).
Proof. intros Hne Hjk. unfold wb. destruct (Z.eqb_spec (u32 (a + k)) (u32 (a + j))) as [E|]; [|done]. apply u32_offset_inj in E; lia. Qed.
Lemma wb_out a v u x : x <> u32 a -> wb a v u x = u x.
Proof. intros H. unfold wb. by rewrite (proj2 (Z.eqb_neq _ _) H). Qed.

Lemma put_long_ok v a s : exists u', put_fs_long v a s = Ok tt (set_usr u' s) /\ stored [v] a (usr s) u'.
Proof.
  exists (wb (a + 3) (Z.shiftr v 24) (wb (a + 2) (Z.shiftr v 16) (wb (a + 1) (Z.shiftr v 8) (wb (a + 0) v (usr s))))). split.
  - unfold put_fs_long, put_fs_word, put_fs_byte, mbind, M_bind, modify. cbn. rewrite Z.shiftr_shiftr, <- Z.add_assoc, Z.add_0_r by lia. reflexivity.
  - split.
    + intros j w k Hj Hk. destruct j as [|j]; [injection Hj as <-|done]. replace (a + 4 * Z.of_nat 0 + k) with (a + k) by lia. unfold byte_of.
      assert (k = 0 \/ k = 1 \/ k = 2 \/ k = 3) as [->|[->|[->| ->]]] by lia; rewrite ?wb_ne by lia; by rewrite wb_eq.
    + intros x Hx. rewrite !wb_out; [done|..]; apply Hx; cbn; lia.
Qed.
Lemma put_longs_ok vs : 4 * Z.of_nat (length vs) <= 4294967296 -> forall a s, exists u', put_longs vs a s = Ok tt (set_usr u' s) /\ stored vs a (usr s) u'.
Proof.
  induction vs as [|v vs IH]; intros Hl a s; [exists (usr s); split; [by destruct s|by split]|]. cbn [length] in Hl. destruct (put_long_ok v a s) as (u1 & E1 & S1).
  destruct (IH ltac:(lia) (a + 4) (set_usr u1 s)) as (u2 & E2 & S2). exists u2. cbn [put_longs]. rewrite (bind_ok _ _ _ _ _ E1), E2. split; [done|]. split.
  - intros j w k Hj Hk. destruct j as [|j].
    + injection Hj as <-. rewrite (sd_out _ _ _ _ S2); [apply (sd_in _ _ _ _ S1 0%nat); done|]. intros k' Hk' E. rewrite <- !Z.add_assoc in E. apply u32_offset_inj in E; cbn in *; lia.
    + replace (a + 4 * Z.of_nat (S j) + k) with (a + 4 + 4 * Z.of_nat j + k) by lia. by apply (sd_in _ _ _ _ S2).
  - intros x Hx. rewrite (sd_out _ _ _ _ S2), (sd_out _ _ _ _ S1); [done|..].
    + intros k Hk. apply Hx. cbn in *. lia.
    + intros k Hk. rewrite <- Z.add_assoc. apply Hx. cbn. lia.
Qed.

(** Checking an area changes the memory of the machine only. *)
Definition mem_only (l l' : lst) : Prop := k_s l' = k_s l.
#[export] Instance mem_only_pre : PreOrder mem_only.
Proof. split; [by intros l|intros l1 l2 l3; unfold mem_only; congruence]. Qed.
Lemma mem_lift {A} (m : M mm A) : within mem_only (lift m).
Proof. intros l. unfold lift. by destruct (m (lget l)). Qed.
Lemma mem_curr : within mem_only curr.
Proof. by intros l. Qed.
Lemma mem_tsk i : within mem_only (tsk i).
Proof. intros l. unfold tsk, get_task, lift, mbind, M_bind, gets, idx. cbn. by destruct (task (k_s l) !! i) as [[]|]. Qed.
#[local] Hint Resolve mem_lift mem_curr mem_tsk : within.
Lemma verify_run fuel a n s s' : verify fuel a n s = Ok tt s' -> usr s' = usr s /\ x_task s' = x_task s /\ k_s (y_l s') = k_s (y_l s).
Proof.
  assert (within mem_only (verify_area fuel a n)) as H by (unfold verify_area, verify_step; within). specialize (H (y_l s)).
  unfold verify, lift. cbn. destruct (verify_area fuel a n (y_l s)) as [[] l'|?|?| |]; try done. intros [= <-]. by split_and!.
Qed.

Lemma upd_me_run f s t : task_at s (cur s) = Some t ->
  exists s', upd_me f s = Ok tt s' /\ cur s' = cur s /\ task_at s' (cur s) = Some (f t) /\ usr s' = usr s /\ x_task s' = x_task s.
Proof.
  intros Ht%task_at_Some. eexists. split.
  - unfold upd_me, me, curr, upd, upd_task, get_task, lift, mbind, M_bind, gets, modify, idx. cbn. change (current (k_s (y_l s))) with (cur s). rewrite Ht. reflexivity.
  - split_and!; try done. apply task_at_Some. cbn. by rewrite list_lookup_insert_eq by (by eapply lookup_lt_Some).
Qed.
Lemma put_handler_run i h s t h0 : task_at s (cur s) = Some t -> sa_handler (info t) !! i = Some h0 ->
  exists s', put_handler i h s = Ok tt s' /\ cur s' = cur s /\ usr s' = usr s /\ x_task s' = x_task s /\
    task_at s' (cur s) = Some (on_info (fun n => set_handlers (<[i := h]> (sa_handler n)) n) t).
Proof.
  intros Ht Hh. unfold put_handler. rewrite (get_handler_run s t i h0) by done.
  destruct (upd_me_run (on_info (fun n => set_handlers (<[i := h]> (sa_handler n)) n)) s t Ht) as (s' & E & E1 & E2 & E3 & E4). exists s'. by split_and!.
Qed.

(** The [eax] and the [eip] with which the interrupted task goes on once the
    handler is done: as they were when it was in no system call to be made
    again; from a call that fails with EINTR (4); or back at the two bytes of
    the call, with its number in [eax], to make it again. *)
Inductive resumes (signr flags : Z) (f : sframe) : Z -> Z -> Prop :=
| rs_as_it_was : f_orig_eax f = -1 \/ (f_eax f <> -512 /\ f_eax f <> -513) -> resumes signr flags f (f_eax f) (f_eip f)
| rs_fails : f_orig_eax f <> -1 -> f_eax f = -512 -> Z.testbit flags 29 = true \/ signr < 18 \/ 22 < signr -> resumes signr flags f (-4) (f_eip f)
| rs_again : f_orig_eax f <> -1 -> f_eax f = -513 \/ (f_eax f = -512 /\ Z.testbit flags 29 = false /\ 18 <= signr <= 22) ->
    resumes signr flags f (f_orig_eax f) ((f_eip f - 2) mod 2 ^ 32).

Lemma bit_of_mask v n : 0 <= n -> (Z.land v (2 ^ n) =? 0) = negb (Z.testbit v n).
Proof.
  intros Hn. destruct (Z.testbit v n) eqn:E; cbn [negb].
  - apply Z.eqb_neq. intros H. apply (f_equal (fun w => Z.testbit w n)) in H. rewrite Z.land_spec, E, Z.pow2_bits_true, Z.testbit_0_l in H; [discriminate|done].
  - apply Z.eqb_eq, Z.bits_inj'. intros m Hm. rewrite Z.land_spec, Z.testbit_0_l, Z.pow2_bits_eqb by done. destruct (Z.eqb_spec n m) as [<-|]; [by rewrite E|apply andb_false_r].
Qed.
Lemma restarted_resumes signr flags f : resumes signr flags f (f_eax (restarted signr flags f)) (f_eip (restarted signr flags f)) /\
  f_ecx (restarted signr flags f) = f_ecx f /\ f_edx (restarted signr flags f) = f_edx f /\ f_orig_eax (restarted signr flags f) = f_orig_eax f /\
  f_eflags (restarted signr flags f) = f_eflags f /\ f_esp (restarted signr flags f) = f_esp f.
Proof.
  unfold restarted, ERESTARTSYS, ERESTARTNOINTR, SIGCONT, SIGTTOU. change SA_INTERRUPT with (2 ^ 29). rewrite bit_of_mask, negb_involutive by done.
  destruct (Z.eqb_spec (f_orig_eax f) (-1)); cbn [negb andb]; [split_and!; try done; apply rs_as_it_was; auto|].
  destruct (Z.eqb_spec (f_eax f) (- (512))) as [Hx|Hx], (Z.eqb_spec (f_eax f) (- (513))); cbn [orb andb]; try lia; [|split_and!; try done; by apply rs_again; [|left]|split_and!; try done; apply rs_as_it_was; auto].
  destruct (Z.testbit flags 29) eqn:Ef, (Z.ltb_spec signr 18), (Z.ltb_spec 22 signr); cbn [orb]; (split_and!; try done); cbn [f_eax f_eip]; change (- EINTR) with (-4);
    change (u32 (f_eip f - 2)) with ((f_eip f - 2) mod 2 ^ 32); first [apply rs_fails; [done|lia|by auto]|apply rs_again; [done|right; split_and!; first [lia|done]]].
Qed.

(** What a handler finds above its stack pointer. *)
Definition sigframe (signr : Z) (a : sigact) (mask eax eip : Z) (f : sframe) : list Z :=
  [sa_restorer a; signr] ++ (if Z.testbit (sa_flags a) 30 then [] else [mask]) ++ [eax; f_ecx f; f_edx f; f_eflags f; eip].

(** C35.  A signal with a handler: once the stack can be written, [do_signal]
    goes on in the handler, with the return address to the restorer, the
    number of the signal, the mask of blocked signals unless SA_NOMASK is set,
    and the registers stored below the old stack pointer and nothing else in
    memory changed; an interrupted system call that asked for it fails with
    EINTR, or [eip] is two bytes back, at the call, and [eax] its number, so
    that it is made again; the handler of SA_ONESHOT is reset, and the signals
    of the mask are blocked. *)
Theorem do_signal_frame fuel s t a h signr f : task_at s (cur s) = Some t -> 1 <= signr <= 32 ->
  sigaction (x_task s (cur s)) !! Z.to_nat (signr - 1) = Some a -> sa_handler (info t) !! Z.to_nat (signr - 1) = Some h -> h <> 0 -> h <> 1 ->
  exists eax eip, resumes signr (sa_flags a) f eax eip /\
  let fr := sigframe signr a (blocked t) eax eip f in
  let esp := u32 (f_esp f - 4 * Z.of_nat (length fr)) in
  let i := Z.to_nat (signr - 1) in
  let once := Z.testbit (sa_flags a) 31 in
  exists s1, (if once then put_handler i 0 else skip) s = Ok tt s1 /\
  forall s2, verify fuel esp (4 * Z.of_nat (length fr)) s1 = Ok tt s2 ->
  exists s3 t3, do_signal fuel signr f s = Ok (0, mkF eax (f_ecx f) (f_edx f) (f_orig_eax f) h (f_eflags f) esp) s3 /\
    stored fr esp (usr s) (usr s3) /\ task_at s3 (cur s) = Some t3 /\
    blocked t3 = Z.lor (blocked t) (s32 (sa_mask a)) /\
    sa_handler (info t3) = (if once then <[i := 0]> (sa_handler (info t)) else sa_handler (info t)).
Proof.
  intros Ht Hn Ha Hh H0 H1. set (f1 := restarted signr (sa_flags a) f). destruct (restarted_resumes signr (sa_flags a) f) as (Hres & Fc & Fd & Fo & Fe & Fs). fold f1 in Hres, Fc, Fd, Fo, Fe, Fs.
  exists (f_eax f1), (f_eip f1). split; [done|]. intros fr esp i once.
  assert (exists s1 t1, (if once then put_handler i 0 else skip) s = Ok tt s1 /\ cur s1 = cur s /\ usr s1 = usr s /\ task_at s1 (cur s) = Some t1 /\
    blocked t1 = blocked t /\ sa_handler (info t1) = (if once then <[i := 0]> (sa_handler (info t)) else sa_handler (info t))) as (s1 & t1 & E1 & C1 & U1 & T1 & B1 & K1).
  { destruct once; [|by exists s, t]. destruct (put_handler_run i 0 s t h Ht Hh) as (s1 & E & E1 & E2 & _ & E4). eexists s1, _. by split_and!. }
  exists s1. split; [done|]. intros s2 E2. destruct (verify_run _ _ _ _ _ E2) as (U2 & _ & K2).
  assert (cur s2 = cur s) as C2 by (unfold cur in *; by rewrite K2).
  assert (task_at s2 (cur s2) = Some t1) as T2 by (rewrite C2; unfold task_at in *; by rewrite K2).
  assert (4 * Z.of_nat (length fr) = if Z.testbit (sa_flags a) 30 then 28 else 32) as Hlen by (unfold fr, sigframe; by destruct (Z.testbit (sa_flags a) 30)).
  assert (4 * Z.of_nat (length fr) <= 4294967296) as Hl by (rewrite Hlen; case_match; lia).
  destruct (put_longs_ok fr Hl esp s2) as (u & E3 & S3).
  destruct (upd_me_run (fun t => set_blocked (Z.lor (blocked t) (s32 (sa_mask a))) t) (set_usr u s2) t1 T2) as (s3 & E4 & _ & T3 & U3 & _).
  eexists s3, _. split; [|split_and!; [rewrite U3; cbn; by rewrite <- U1, <- U2|change (cur (set_usr u s2)) with (cur s2) in T3; rewrite C2 in T3; exact T3|cbn; by rewrite B1|exact K1]].
  unfold do_signal. rewrite (get_sa_run s _ a _ Ha), (get_handler_run s t _ h _ Ht Hh), (proj2 (Z.eqb_neq _ _) H1), (proj2 (Z.eqb_neq _ _) H0).
  erewrite bind_ok by reflexivity. cbv iota. fold i. fold f1.
  change SA_ONESHOT with (2 ^ 31). change SA_NOMASK with (2 ^ 30). rewrite !bit_of_mask, !negb_involutive by done. fold once.
  rewrite (bind_ok _ _ _ tt s1) by (rewrite <- E1; by destruct once).
  rewrite Hlen in E2. rewrite Fs, <- Hlen. fold esp. rewrite Hlen.
  rewrite (bind_ok _ _ _ _ _ E2), (my_run s2 t1 _ T2), B1. rewrite Fc, Fd, Fo, Fe. change ([sa_restorer a; signr] ++ _) with fr. rewrite (bind_ok _ _ _ _ _ E3), (bind_ok _ _ _ _ _ E4).
  reflexivity.
Qed.

(** ** A task with a handler, and one of an ordinary user *)

Definition user_info : pinfo := set_handlers (<[14%nat := 4096]> (replicate 32 0)) no_info.
Definition user_task : task_struct := mkTask 0 15 15 0 1 7 0 100 200 100 100 0 0 0 0 user_info.
Definition user_x : tinfo := mkX 200 100 (replicate 32 NOGROUP) (replicate 6 (1000, 1000)) 18 8192 8192 60000 (<[14%nat := mkSa 16384 SA_ONESHOT 4200]> (replicate 32 (mkSa 0 0 0))).
Definition user_sys : sysst :=
  mkY (mkL (mkS (Some (demo_task 0 0 0) :: Some user_task :: replicate 62 None) 1 100 (replicate 4 None) (replicate 4 0) (replicate 4 0) 12 0 [] None 0 0 0 0 0 [])
         demo_mm 7 (fun _ => 0) (fun _ => 0) None (fun _ => (0, 0)) 0 [])
    (fun _ => user_x) 0 0 (0, 0) 1 (replicate 45 0) (fun _ => 0).
Definition user_cred : cred := cred_of user_task user_x.


Lemma user_defaults i t : task_at user_sys i = Some t -> defaults t.
Proof.
  intros Ht%task_at_Some. destruct i as [|[|i]]; [injection Ht as <-; intros k [-> | ->]; reflexivity ..|].
  change (replicate 62 None !! i = Some (Some t)) in Ht. by apply lookup_replicate in Ht as [? _].
Qed.
(** An attempt to catch SIGKILL is refused. *)
Lemma kill_certain_witness : exists s', rtc (ystep 1) user_sys s' /\ (forall i t, task_at s' i = Some t -> defaults t).
Proof.
  destruct (sys_call 1 (YSignal SIGKILL 4096 0) user_sys) as [[] s'|?|?| |] eqn:E; try (vm_compute in E; discriminate E).
  assert (rtc (ystep 1) user_sys s') as Hr by (apply rtc_once, (ys_call 1 (YSignal SIGKILL 4096 0)); [done|by left]).
  exists s'. split; [done|]. apply (kill_certain 1 user_sys s' Hr). exact user_defaults.
Defined.

(** A call that is made again: the handler returns to its two bytes. *)
Lemma do_signal_frame_witness : exists s3 t3, do_signal 1 15 (mkF (-513) 1 2 37 5000 514 40000) user_sys = Ok (0, mkF 37 1 2 37 4096 514 39968) s3 /\
  stored [4200; 15; 1; 37; 1; 2; 514; 4998] 39968 (usr user_sys) (usr s3) /\ task_at s3 1 = Some t3 /\ blocked t3 = 16385 /\ sa_handler (info t3) !! 14%nat = Some 0.
Proof.
  destruct (do_signal_frame 1 user_sys user_task (mkSa 16384 SA_ONESHOT 4200) 4096 15 (mkF (-513) 1 2 37 5000 514 40000)) as (eax & eip & Hres & s1 & E1 & H);
    [vm_compute; reflexivity|lia|vm_compute; reflexivity|vm_compute; reflexivity|done|done|].
  assert (eax = 37 /\ eip = 4998) as [-> ->] by (inversion Hres; subst; cbn in *; first [done|exfalso; lia|exfalso; naive_solver]).
  destruct (verify 1 39968 32 s1) as [[] s2|?|?| |] eqn:E2; try (exfalso; vm_compute in E1; injection E1 as <-; vm_compute in E2; discriminate E2).
  destruct (H s2 E2) as (s3 & t3 & F1 & F2 & F3 & F4 & F5). exists s3, t3. split; [exact F1|]. split; [exact F2|]. split; [exact F3|]. split; [exact F4|]. by rewrite F5.
Defined.

(** ** Two slips *)

(** The fields before [rlim] in a task are the ids, and [setrlimit] does not
    refuse a negative number: an ordinary user makes itself the superuser. *)
Example setrlimit_negative : exists s' c', sys_call 1 (YSetrlimit (-5) 0) user_sys = Ok tt s' /\ creds s' 1 = Some c' /\ uids c' = [0; 0; 0] /\ c_gid c' = 0.
Proof. eexists _, _. split; [vm_compute; reflexivity|]. split; [vm_compute; reflexivity|]. done. Qed.

(** [sigsuspend], called as if to restart, blocks SIGKILL and SIGSTOP. *)
Example sigsuspend_blocks_kill : exists r s' t, sys_sigsuspend 1 1 (Z.lor (_S SIGKILL) (_S SIGSTOP)) 0 user_sys = Ok r s' /\ task_at s' 1 = Some t /\
  Z.testbit (blocked t) 8 = true /\ Z.testbit (blocked t) 18 = true.
Proof. eexists _, _, _. split; [vm_compute; reflexivity|]. split; [vm_compute; reflexivity|]. done. Qed.
