(* ===== verification/LinuxPrintf.v ===== *)
(** * Linux 0.12: formatted printing

    Models [kernel/vsprintf.c]: [number], the conversions and the loop over
    the format.  What is stored through [str] is the result; arguments are
    words or strings.  That numbers read back as what they were, and that
    [vsprintf] renders a format piece by piece. *)

From S2P Require Import Prelude.

Definition ZEROPAD : Z := 1.
Definition SIGN : Z := 2.
Definition PLUS : Z := 4.
Definition SPACE : Z := 8.
Definition LEFT : Z := 16.
Definition SPECIAL : Z := 32.
Definition SMALL : Z := 64.
Definition has (type flag : Z) : bool := negb (Z.land type flag =? 0).

Definition is_digit (c : Z) : bool := (48 <=? c) && (c <=? 57).
Fixpoint skip_atoi (i : Z) (s : list Z) : Z * list Z :=
  match s with
  | c :: s' => if is_digit c then skip_atoi (s32 (i * 10 + c - 48)) s' else (i, s)
  | [] => (i, [])
  end.

(** ** number *)

Definition digit_char (small : bool) (d : Z) : Z := if d <? 10 then 48 + d else (if small then 97 else 65) + (d - 10).
(** [tmp], filled from the lowest digit on; [None] is an overflow of its 36
    characters. *)
Fixpoint tmp_digits (room : nat) (small : bool) (base num : Z) : option (list Z) :=
  if num =? 0 then Some [] else
  match room with
  | O => None
  | S room' => cons (digit_char small (num mod base)) <$> tmp_digits room' small base (num / base)
  end.

(** [while (size-- > 0) *str++ = c]: what is stored and what is left. *)
Definition fill (size c : Z) : list Z * Z := (replicate (Z.to_nat size) c, if 0 <? size then -1 else size - 1).

Definition number (num base size precision type : Z) : option (list Z) :=
  let small := has type SMALL in
  let type := if has type LEFT then Z.land type (Z.lnot ZEROPAD) else type in
  if (base <? 2) || (36 <? base) then None else
  let c := if has type ZEROPAD then 48 else 32 in
  let neg := has type SIGN && (num <? 0) in
  let num := if neg then s32 (- num) else num in
  let sign := if neg then 45 else if has type PLUS then 43 else if has type SPACE then 32 else 0 in
  let size := if sign =? 0 then size else size - 1 in
  let size := if has type SPECIAL then (if base =? 16 then size - 2 else if base =? 8 then size - 1 else size) else size in
  tmp ← (if num =? 0 then Some [48] else tmp_digits 36 small base (u32 num));
  let i := Z.of_nat (length tmp) in
  let precision := if precision <? i then i else precision in
  let size := size - precision in
  let '(p1, size) := if has type (ZEROPAD + LEFT) then ([], size) else fill size 32 in
  let sgn := if sign =? 0 then [] else [sign] in
  let pre := if has type SPECIAL then (if base =? 8 then [48] else if base =? 16 then [48; digit_char small 33] else []) else [] in
  let '(p2, size) := if has type LEFT then ([], size) else fill size c in
  let zeros := replicate (Z.to_nat (precision - i)) 48 in
  let '(p3, _) := fill size 32 in
  Some (p1 ++ sgn ++ pre ++ p2 ++ zeros ++ reverse tmp ++ p3).

(** ** vsprintf *)

Inductive parg := PInt (v : Z) | PStr (s : list Z).
(** The characters stored so far, the arguments left, and the values stored
    through pointers by [%n]. *)
Record pst := mkP { p_out : list Z; p_args : list parg; p_counts : list (Z * Z) }.
Definition p_emit (l : list Z) (s : pst) : pst := mkP (p_out s ++ l) (p_args s) (p_counts s).
Definition int_arg (s : pst) : option (Z * pst) :=
  match p_args s with PInt v :: l => Some (v, mkP (p_out s) l (p_counts s)) | _ => None end.
Definition str_arg (s : pst) : option (list Z * pst) :=
  match p_args s with PStr v :: l => Some (v, mkP (p_out s) l (p_counts s)) | _ => None end.

Definition flag_of (c : Z) : option Z :=
  if c =? 45 then Some LEFT else if c =? 43 then Some PLUS else if c =? 32 then Some SPACE else if c =? 35 then Some SPECIAL else if c =? 48 then Some ZEROPAD else None.
Fixpoint get_flags (flags : Z) (fmt : list Z) : Z * list Z :=
  match fmt with
  | c :: fmt' => match flag_of c with Some f => get_flags (Z.lor flags f) fmt' | None => (flags, fmt) end
  | [] => (flags, [])
  end.
(** The character at the pointer; 0 at the end of the string. *)
Definition at_ (fmt : list Z) : Z := match fmt with c :: _ => c | [] => 0 end.

(** [field_width] and the flags. *)
Definition get_width (flags : Z) (fmt : list Z) (s : pst) : option (Z * Z * list Z * pst) :=
  if is_digit (at_ fmt) then let '(w, fmt) := skip_atoi 0 fmt in Some (w, flags, fmt, s)
  else if at_ fmt =? 42 then
    '(w, s) ← int_arg s;
    Some (if w <? 0 then (s32 (- w), Z.lor flags LEFT, fmt, s) else (w, flags, fmt, s))
  else Some (-1, flags, fmt, s).
Definition get_precision (fmt : list Z) (s : pst) : option (Z * list Z * pst) :=
  if at_ fmt =? 46 then
    let fmt := tail fmt in
    '(p, fmt, s) ← (if is_digit (at_ fmt) then let '(p, fmt) := skip_atoi 0 fmt in Some (p, fmt, s)
                    else if at_ fmt =? 42 then '(p, s) ← int_arg s; Some (p, fmt, s)
                    else Some (-1, fmt, s));
    Some (if p <? 0 then 0 else p, fmt, s)
  else Some (-1, fmt, s).
Definition get_qualifier (fmt : list Z) : list Z :=
  if (at_ fmt =? 104) || (at_ fmt =? 108) || (at_ fmt =? 76) then tail fmt else fmt.

Definition conv_number (base width precision flags : Z) (s : pst) : option pst :=
  '(v, s) ← int_arg s; l ← number (s32 v) base width precision flags; Some (p_emit l s).
Definition conv_string (width precision flags : Z) (s : pst) : option pst :=
  '(v, s) ← str_arg s;
  let len := Z.of_nat (length v) in
  let len := if precision <? 0 then len else if precision <? len then precision else len in
  let p := replicate (Z.to_nat (width - len)) 32 in
  let w := take (Z.to_nat len) v in
  Some (p_emit (if has flags LEFT then w ++ p else p ++ w) s).
Definition conv_char (width flags : Z) (s : pst) : option pst :=
  '(v, s) ← int_arg s;
  let p := replicate (Z.to_nat (width - 1)) 32 in
  Some (p_emit (if has flags LEFT then u8 v :: p else p ++ [u8 v]) s).

(** The conversion for the character [c]; [true] when [c] was the end of the
    string, which is then not passed over. *)
Definition convert (c width precision flags : Z) (s : pst) : option pst :=
  if c =? 99 then conv_char width flags s else
  if c =? 115 then conv_string width precision flags s else
  if c =? 111 then conv_number 8 width precision flags s else
  if c =? 112 then
    (if width =? -1 then conv_number 16 8 precision (Z.lor flags ZEROPAD) s else conv_number 16 width precision flags s) else
  if c =? 120 then conv_number 16 width precision (Z.lor flags SMALL) s else
  if c =? 88 then conv_number 16 width precision flags s else
  if (c =? 100) || (c =? 105) then conv_number 10 width precision (Z.lor flags SIGN) s else
  if c =? 117 then conv_number 10 width precision flags s else
  if c =? 110 then '(ip, s) ← int_arg s; Some (mkP (p_out s) (p_args s) (p_counts s ++ [(ip, Z.of_nat (length (p_out s)))])) else
  Some (p_emit ((if c =? 37 then [] else [37]) ++ (if c =? 0 then [] else [c])) s).

(** One directive, [fmt] being what follows the percent sign. *)
Definition directive (fmt : list Z) (s : pst) : option (list Z * pst) :=
  let '(flags, fmt) := get_flags 0 fmt in
  '(width, flags, fmt, s) ← get_width flags fmt s;
  '(precision, fmt, s) ← get_precision fmt s;
  let fmt := get_qualifier fmt in
  s ← convert (at_ fmt) width precision flags s;
  Some (tail fmt, s).
Fixpoint vsprintf_loop (fuel : nat) (fmt : list Z) (s : pst) : option pst :=
  match fuel, fmt with
  | _, [] => Some s
  | S fuel, c :: fmt =>
      if negb (c =? 37) then vsprintf_loop fuel fmt (p_emit [c] s)
      else '(fmt, s) ← directive fmt s; vsprintf_loop fuel fmt s
  | O, _ => None
  end.
(** The string without its final zero, and the state left. *)
Definition vsprintf (fmt : list Z) (args : list parg) : option (Z * pst) :=
  s ← vsprintf_loop (length fmt) fmt (mkP [] args []); Some (Z.of_nat (length (p_out s)), s).

(** ** Reading numbers back *)

(** A reader: blanks, a sign, 0x in base 16, and digits up to the first other
    character. *)
Definition char_val (c : Z) : Z :=
  if is_digit c then c - 48 else if (65 <=? c) && (c <=? 90) then c - 55 else if (97 <=? c) && (c <=? 122) then c - 87 else 99.
Fixpoint read_digits (base acc : Z) (l : list Z) : Z :=
  match l with c :: l' => if char_val c <? base then read_digits base (acc * base + char_val c) l' else acc | [] => acc end.
Definition drop_0x (base : Z) (l : list Z) : list Z :=
  match l with z :: x :: l' => if (base =? 16) && (z =? 48) && ((x =? 120) || (x =? 88)) then l' else l | _ => l end.
Definition read_sign (base : Z) (l : list Z) : Z :=
  match l with
  | c :: l' => if c =? 45 then - read_digits base 0 (drop_0x base l') else if c =? 43 then read_digits base 0 (drop_0x base l') else read_digits base 0 (drop_0x base l)
  | [] => 0
  end.
Fixpoint read_num (base : Z) (l : list Z) : Z :=
  match l with c :: l' => if c =? 32 then read_num base l' else read_sign base l | [] => 0 end.

Lemma char_val_digit small d : 0 <= d < 36 -> char_val (digit_char small d) = d.
Proof.
  intros Hd. unfold digit_char, char_val, is_digit. destruct (Z.ltb_spec d 10), small;
    repeat match goal with |- context [?a <=? ?b] => destruct (Z.leb_spec a b); cbn [andb]; try lia end.
Qed.
Lemma digit_char_sign small d : 0 <= d < 36 -> digit_char small d <> 32 /\ digit_char small d <> 43 /\ digit_char small d <> 45.
Proof. intros Hd. unfold digit_char. destruct (d <? 10), small; lia. Qed.

Definition are_digits (base : Z) (l : list Z) : Prop := Forall (fun c => exists small d, 0 <= d < base /\ c = digit_char small d) l.
Definition eval (base acc : Z) (l : list Z) : Z := foldl (fun a c => a * base + char_val c) acc l.
Lemma read_digits_app base acc l r : base <= 36 -> are_digits base l -> read_digits base acc (l ++ r) = read_digits base (eval base acc l) r.
Proof.
  intros Hb Hl. revert acc. induction Hl as [|c l (small & d & Hd & ->) _ IH]; intros acc; [done|]. cbn. rewrite char_val_digit by lia.
  rewrite (proj2 (Z.ltb_lt _ _)) by lia. rewrite IH. done.
Qed.
Lemma read_blanks base acc n : base <= 36 -> read_digits base acc (replicate n 32) = acc.
Proof. intros Hb. destruct n; [done|]. cbn. by rewrite (proj2 (Z.ltb_ge _ _)) by lia. Qed.
Lemma eval_app base acc l r : eval base acc (l ++ r) = eval base (eval base acc l) r.
Proof. apply foldl_app. Qed.
Lemma eval_zeros base n : eval base 0 (replicate n 48) = 0.
Proof. induction n as [|n IH]; [done|]. exact IH. Qed.

Lemma tmp_digits_ok base small : 2 <= base <= 36 -> forall room n, 0 <= n < 2 ^ Z.of_nat room ->
  exists l, tmp_digits room small base n = Some l /\ are_digits base l /\ (length l <= room)%nat /\ (n <> 0 -> l <> []) /\ eval base 0 (reverse l) = n /\
    n < base ^ Z.of_nat (length l) /\ (l <> [] -> base ^ (Z.of_nat (length l) - 1) <= n).
Proof.
  intros Hb room. induction room as [|room IH]; intros n Hn.
  - assert (n = 0) as -> by (cbn in Hn; lia). exists []. repeat split; [constructor|done|done|done].
  - cbn [tmp_digits]. destruct (Z.eqb_spec n 0) as [->|Hz]; [exists []; repeat split; [constructor|cbn; lia|done|done]|].
    destruct (IH (n / base)) as (l & E & Hl & Hlen & _ & Hv & Hu & Hlo).
    { split; [apply Z.div_pos; lia|]. apply Z.div_lt_upper_bound; [lia|]. rewrite Nat2Z.inj_succ, Z.pow_succ_r in Hn by lia. nia. }
    rewrite E. pose proof (Z.mod_pos_bound n base ltac:(lia)). exists (digit_char small (n mod base) :: l). pose proof (Z.div_mod n base ltac:(lia)) as Hdm.
    split_and!; [done| |cbn; lia|done| | |].
    + constructor; [by exists small, (n mod base)|done].
    + rewrite reverse_cons, eval_app, Hv. cbn. rewrite char_val_digit by lia. lia.
    + cbn [length]. rewrite Nat2Z.inj_succ, Z.pow_succ_r by lia. nia.
    + intros _. cbn [length]. rewrite Nat2Z.inj_succ. replace (Z.succ (Z.of_nat (length l)) - 1) with (Z.of_nat (length l)) by lia.
      destruct l as [|c l]; [cbn; pose proof (Z.div_pos n base); lia|]. specialize (Hlo ltac:(done)). cbn [length] in *. rewrite Nat2Z.inj_succ in *.
      replace (Z.succ (Z.of_nat (length l)) - 1) with (Z.of_nat (length l)) in Hlo by lia. rewrite Z.pow_succ_r by lia. nia.
Qed.

(** The prefix of a number. *)
Definition is_prefix (base : Z) (pre : list Z) : Prop := pre = [] \/ base = 8 /\ pre = [48] \/ base = 16 /\ (pre = [48; 120] \/ pre = [48; 88]).

(** Without a prefix nothing is dropped. *)
Lemma drop_none base body m : 2 <= base <= 36 -> are_digits base body -> drop_0x base (body ++ replicate m 32) = body ++ replicate m 32.
Proof.
  intros Hb Hd. destruct (Z.eqb_spec base 16) as [->|Hne].
  2: { unfold drop_0x. rewrite (proj2 (Z.eqb_neq _ _) Hne). cbn [andb]. by destruct (body ++ _) as [|? [|? ?]]. }
  assert (Forall (fun c => c <> 120 /\ c <> 88) (body ++ replicate m 32)) as Hx.
  { apply Forall_app. split; [|apply Forall_replicate; lia]. eapply Forall_impl; [exact Hd|]. intros c (small & d & Hd' & ->). unfold digit_char. destruct (Z.ltb_spec d 10), small; lia. }
  unfold drop_0x. destruct (body ++ _) as [|z [|x r]]; [done|done|]. apply Forall_cons in Hx as [_ [[H1 H2] _]%Forall_cons].
  by rewrite (proj2 (Z.eqb_neq x 120)), (proj2 (Z.eqb_neq x 88)), andb_false_r by done.
Qed.

(** The parts of a number: blanks, a sign, a prefix, digits, blanks. *)
Lemma read_parts base n sgn pre body m : 2 <= base <= 36 -> (sgn = [] \/ sgn = [45] \/ sgn = [43] \/ sgn = [32]) -> is_prefix base pre -> are_digits base body -> body <> [] ->
  read_num base (replicate n 32 ++ sgn ++ pre ++ body ++ replicate m 32) = if bool_decide (sgn = [45]) then - eval base 0 body else eval base 0 body.
Proof.
  intros Hb Hs Hp Hd Hne. set (r := pre ++ body ++ replicate m 32).
  assert (read_digits base 0 (drop_0x base r) = eval base 0 body) as Hr.
  { assert (read_digits base 0 (body ++ replicate m 32) = eval base 0 body) as H by (rewrite read_digits_app, read_blanks by (done || lia); done).
    unfold r. destruct Hp as [->|[[-> ->]|[-> [->| ->]]]]; [cbn [app]; by rewrite drop_none| |exact H|exact H].
    rewrite app_assoc, drop_none; [|done|apply Forall_app_2; [repeat constructor; by exists false, 0|done]]. cbn [app read_digits]. exact H. }
  assert (exists c r', r = c :: r' /\ c <> 32 /\ c <> 43 /\ c <> 45) as (c & r' & Ec & C1 & C2 & C3).
  { unfold r. destruct Hp as [->|[[_ ->]|[_ [->| ->]]]]; [|eexists _, _; split; [reflexivity|lia]..]. destruct body as [|c body]; [done|].
    apply Forall_cons in Hd as [(small & d & Hd & ->) _]. eexists _, _. split; [done|]. apply digit_char_sign. lia. }
  assert (read_num base r = eval base 0 body) as Hp'.
  { rewrite Ec in *. cbn [read_num]. rewrite (proj2 (Z.eqb_neq _ _)) by done. unfold read_sign. rewrite !(proj2 (Z.eqb_neq c _)) by done. exact Hr. }
  induction n as [|n IH]; [|exact IH]. cbn [replicate app]. destruct Hs as [->|[->|[->| ->]]]; [exact Hp'| | |exact Hp'].
  - change (- read_digits base 0 (drop_0x base r) = - eval base 0 body). by rewrite Hr.
  - exact Hr.
Qed.

Lemma has_nopad type f : Z.land (Z.lnot ZEROPAD) f = f -> has (Z.land type (Z.lnot ZEROPAD)) f = has type f.
Proof. intros E. unfold has. by rewrite <- Z.land_assoc, E. Qed.
Lemma has_either type f g : has type (Z.lor f g) = has type f || has type g.
Proof.
  unfold has. rewrite Z.land_lor_distr_r. destruct (Z.eqb_spec (Z.lor (Z.land type f) (Z.land type g)) 0) as [E|E].
  - apply Z.lor_eq_0_iff in E as [-> ->]. done.
  - destruct (Z.eqb_spec (Z.land type f) 0) as [E1|], (Z.eqb_spec (Z.land type g) 0) as [E2|]; try done. destruct E. by rewrite E1, E2.
Qed.
Lemma zeros_digits base n : 2 <= base -> are_digits base (replicate n 48).
Proof. intros Hb. apply Forall_replicate. exists false, 0. split; [lia|done]. Qed.
Lemma length_fill size c : Z.of_nat (length (fst (fill size c))) = Z.max 0 size.
Proof. cbn. rewrite length_replicate. lia. Qed.

(** [tmp] holds the digits of the number. *)
Lemma tmp_ok base small num : 2 <= base <= 36 -> -2147483648 <= num < 2147483648 ->
  exists tmp, (if num =? 0 then Some [48] else tmp_digits 36 small base (u32 num)) = Some tmp /\ are_digits base tmp /\ tmp <> [] /\ eval base 0 (reverse tmp) = u32 num /\
    u32 num < base ^ Z.of_nat (length tmp) /\ (length tmp <> 1%nat -> base ^ (Z.of_nat (length tmp) - 1) <= u32 num).
Proof.
  intros Hb Hn. destruct (Z.eqb_spec num 0) as [->|Hz].
  - exists [48]. split_and!; [done| |done|done| |done]; [apply (zeros_digits base 1); lia|]. cbn [length]. change (Z.of_nat 1) with 1. rewrite Z.pow_1_r. change (u32 0) with 0. lia.
  - destruct (tmp_digits_ok base small Hb 36 (u32 num)) as (l & E & H1 & _ & H2 & H3 & H4 & H5); [pose proof (u32_range num); change (2 ^ Z.of_nat 36) with 68719476736; lia|].
    assert (l <> []) as Hl; [|exists l; split_and!; [done|done|done|done|done|intros _; by apply H5]]. apply H2. intros Hz'. apply Hz. rewrite <- (s32_u32 num) by done. by rewrite Hz'.
Qed.
(** The parts put together. *)
Lemma parts_value base n sgn pre k z tmp m : 2 <= base <= 36 -> (sgn = [] \/ sgn = [45] \/ sgn = [43] \/ sgn = [32]) -> is_prefix base pre -> are_digits base tmp -> tmp <> [] ->
  read_num base (replicate n 32 ++ sgn ++ pre ++ replicate k 48 ++ replicate z 48 ++ reverse tmp ++ replicate m 32) =
  if bool_decide (sgn = [45]) then - eval base 0 (reverse tmp) else eval base 0 (reverse tmp).
Proof.
  intros Hb Hs Hp Hd Hne. set (body := replicate k 48 ++ replicate z 48 ++ reverse tmp).
  replace (replicate k 48 ++ _) with (body ++ replicate m 32) by (unfold body; by rewrite <- !app_assoc).
  assert (eval base 0 body = eval base 0 (reverse tmp)) as <- by (unfold body; by rewrite eval_app, eval_zeros, eval_app, eval_zeros).
  apply read_parts; [done|done|done| |].
  - repeat apply Forall_app_2; [apply zeros_digits; lia|apply zeros_digits; lia|by apply Forall_reverse].
  - unfold body. intros E. do 2 apply app_eq_nil in E as [_ E]. apply Hne. by rewrite <- (reverse_involutive tmp), E.
Qed.

(** The characters for the sign and for the prefix. *)
Definition sign_width (num type : Z) : Z := if (has type SIGN && (num <? 0)) || has type PLUS || has type SPACE then 1 else 0.
Definition prefix_width (base type : Z) : Z := if has type SPECIAL then (if base =? 16 then 2 else if base =? 8 then 1 else 0) else 0.

(** C36.  [number]: in every base it fits its buffer, and whatever the field
    width, precision and flags, what it prints reads back as the number, signed
    or unsigned as the flag says, down to the smallest.  It is exactly as wide
    as asked for, or, where that is more, as the sign, the prefix and the [k]
    digits of the number (or as many as the precision says) need. *)
Theorem number_reads_back num base size precision type : 2 <= base <= 36 -> -2147483648 <= num < 2147483648 ->
  exists l k, number num base size precision type = Some l /\ read_num base l = (if has type SIGN then num else u32 num) /\
    Z.of_nat (length l) = Z.max size (sign_width num type + prefix_width base type + Z.max precision k) /\
    1 <= k /\ Z.abs (read_num base l) < base ^ k /\ (k <> 1 -> base ^ (k - 1) <= Z.abs (read_num base l)).
Proof.
  intros Hb Hn. unfold number. rewrite (proj2 (Z.ltb_ge _ _)), (proj2 (Z.ltb_ge _ _)) by lia. cbn [orb].
  set (ty := if has type LEFT then _ else type). change (ZEROPAD + LEFT) with (Z.lor ZEROPAD LEFT). rewrite has_either.
  assert (has ty SIGN = has type SIGN /\ has ty SPECIAL = has type SPECIAL /\ has ty LEFT = has type LEFT /\ has ty PLUS = has type PLUS /\ has ty SPACE = has type SPACE) as (-> & -> & -> & -> & ->)
    by (unfold ty; destruct (has type LEFT) eqn:EL; [split_and!; rewrite ?has_nopad by done; done|done]).
  assert (has type LEFT = true -> has ty ZEROPAD = false) as HZ by (intros E; unfold ty; rewrite E; unfold has; rewrite <- Z.land_assoc; change (Z.land (Z.lnot ZEROPAD) ZEROPAD) with 0; by rewrite Z.land_0_r).
  unfold sign_width. set (neg := has type SIGN && (num <? 0)). set (num' := if neg then s32 (- num) else num).
  set (sign := if neg then 45 else _). set (sgn := if sign =? 0 then [] else [sign]).
  assert (sgn = [] \/ sgn = [45] \/ sgn = [43] \/ sgn = [32]) as Hsgn by (unfold sgn, sign; destruct neg, (has type PLUS), (has type SPACE); cbn; auto 10).
  assert (sgn = [45] <-> neg = true) as Hneg by (unfold sgn, sign; destruct neg, (has type PLUS), (has type SPACE); cbn; split; congruence).
  assert (Z.of_nat (length sgn) = (if neg || has type PLUS || has type SPACE then 1 else 0)) as <- by (unfold sgn, sign; by destruct neg, (has type PLUS), (has type SPACE)).
  destruct (tmp_ok base (has type SMALL) num' Hb) as (tmp & -> & Htd & Htn & Htv & Htu & Htl); [unfold num'; destruct neg; [apply s32_range|done]|].
  cbn [mbind option_bind].
  assert ((if neg then - u32 num' else u32 num') = if has type SIGN then num else u32 num) as Hval.
  { unfold num', neg. destruct (has type SIGN); cbn [andb]; [|done]. destruct (Z.ltb_spec num 0); [rewrite u32_s32 by lia; lia|apply u32_id; lia]. }
  assert (Z.abs (if has type SIGN then num else u32 num) = u32 num') as Habs by (rewrite <- Hval; pose proof (u32_range num'); destruct neg; lia).
  set (i := Z.of_nat (length tmp)). set (prec := if precision <? i then i else precision). assert (prec = Z.max precision i) as Epr by (unfold prec; destruct (Z.ltb_spec precision i); lia).
  set (pre := if has type SPECIAL then _ else []).
  assert (is_prefix base pre /\ Z.of_nat (length pre) = prefix_width base type) as [Hpre Hpw].
  { unfold pre, prefix_width, is_prefix. destruct (has type SPECIAL); [|auto]. destruct (Z.eqb_spec base 8) as [->|]; [auto|]. destruct (Z.eqb_spec base 16) as [->|]; [|auto]. destruct (has type SMALL); auto 10. }
  rewrite <- Hpw. set (sz := (if has type SPECIAL then _ else _) - prec).
  assert (sz + prec + Z.of_nat (length sgn) + Z.of_nat (length pre) = size) as Hsz.
  { rewrite Hpw. unfold sz, prefix_width, sgn. destruct (has type SPECIAL), (base =? 16), (base =? 8), (sign =? 0); cbn; lia. }
  set (zeros := replicate (Z.to_nat (prec - i)) 48). assert (Z.of_nat (length zeros) + i = prec) as Hzl by (unfold zeros; rewrite length_replicate; lia).
  assert (forall n k m, Z.of_nat (n + k + m) = Z.max 0 sz ->
    exists l d, Some (replicate n 32 ++ sgn ++ pre ++ replicate k 48 ++ zeros ++ reverse tmp ++ replicate m 32) = Some l /\ read_num base l = (if has type SIGN then num else u32 num) /\
    Z.of_nat (length l) = Z.max size (Z.of_nat (length sgn) + Z.of_nat (length pre) + Z.max precision d) /\
    1 <= d /\ Z.abs (read_num base l) < base ^ d /\ (d <> 1 -> base ^ (d - 1) <= Z.abs (read_num base l))) as Hall.
  { intros n k m Hlen. eexists _, i. split; [done|].
    assert (read_num base (replicate n 32 ++ sgn ++ pre ++ replicate k 48 ++ zeros ++ reverse tmp ++ replicate m 32) = if has type SIGN then num else u32 num) as Er.
    { unfold zeros. rewrite parts_value, Htv, <- Hval by done.
      destruct neg eqn:En; [by rewrite bool_decide_eq_true_2 by (by apply Hneg)|rewrite bool_decide_eq_false_2; [done|]; intros E; apply Hneg in E; congruence]. }
    rewrite Er, Habs. split_and!; [done| |destruct tmp; [done|cbn in i; lia]|done|intros Hd; apply Htl; lia].
    rewrite !length_app, !length_replicate, length_reverse. lia. }
  set (sz' := if 0 <? sz then -1 else sz - 1). assert (sz' < 0) as Hsz' by (unfold sz'; destruct (Z.ltb_spec 0 sz); lia).
  assert (forall x c : Z, x < 0 -> replicate (Z.to_nat x) c = []) as Hno by (intros x c Hx; by rewrite Z2Nat.nonpos by lia).
  destruct (has type LEFT) eqn:EL; [rewrite (HZ eq_refl)|destruct (has ty ZEROPAD)]; unfold fill; fold sz'; cbv beta iota zeta; cbn [orb].
  - apply (Hall 0%nat 0%nat). lia.
  - rewrite (Hno sz') by done. apply (Hall 0%nat _ 0%nat). lia.
  - rewrite (Hno sz'), (Hno (if 0 <? sz' then -1 else sz' - 1)) by (done || destruct (Z.ltb_spec 0 sz'); lia). apply (Hall _ 0%nat 0%nat). lia.
Qed.

(** The smallest number; one printed to the left after a plus sign; one in
    base 16 with its prefix, wider than asked for. *)
Lemma number_reads_back_witness : number (-2147483648) 10 0 (-1) SIGN = Some (str "-2147483648") /\
  (exists l, number 1234 16 8 6 (Z.lor PLUS LEFT) = Some l /\ l = str "+0004D2 " /\ read_num 16 l = 1234) /\
  (exists l, number (-1) 16 3 (-1) (Z.lor SPECIAL SMALL) = Some l /\ l = str "0xffffffff" /\ read_num 16 l = 4294967295).
Proof.
  split; [vm_compute; reflexivity|]. destruct (number_reads_back 1234 16 8 6 (Z.lor PLUS LEFT)) as (l & k & E & R & _); [lia|lia|].
  destruct (number_reads_back (-1) 16 3 (-1) (Z.lor SPECIAL SMALL)) as (l' & k' & E' & R' & _); [lia|lia|].
  split; [exists l; split; [exact E|]; split; [vm_compute in E; by injection E as <-|exact R]|].
  exists l'. split; [exact E'|]. split; [vm_compute in E'; by injection E' as <-|exact R'].
Defined.

(** ** Formats as sequences of pieces *)

Inductive piece :=
| Plain (c : Z)
| Conv (flags width : list Z) (precision : option (list Z)) (qualifier : option Z) (c : Z).

Definition is_qualifier (c : Z) : bool := (c =? 104) || (c =? 108) || (c =? 76).
Definition flag_chars (l : list Z) : Prop := Forall (fun c => is_Some (flag_of c)) l.
Definition digit_chars (l : list Z) : Prop := Forall (fun c => is_digit c = true) l.
(** A directive as the manual has them: a field width does not begin with 0,
    which is a flag, and is not [*]. *)
Definition piece_ok (p : piece) : Prop :=
  match p with
  | Plain c => c <> 37
  | Conv fl w pr q c =>
      flag_chars fl /\ digit_chars w /\ at_ w <> 48 /\ match pr with Some l => digit_chars l | None => True end /\
      match q with Some q => is_qualifier q = true | None => True end /\
      flag_of c = None /\ is_digit c = false /\ c <> 46 /\ c <> 42 /\ is_qualifier c = false
  end.
Definition show_piece (p : piece) : list Z :=
  match p with
  | Plain c => [c]
  | Conv fl w pr q c => 37 :: fl ++ w ++ (match pr with Some l => 46 :: l | None => [] end) ++ (match q with Some q => [q] | None => [] end) ++ [c]
  end.
Definition flags_value (fl : list Z) : Z := foldl (fun a c => Z.lor a (default 0 (flag_of c))) 0 fl.
Definition decimal (l : list Z) : Z := foldl (fun a c => s32 (a * 10 + c - 48)) 0 l.
Definition render (p : piece) (s : pst) : option pst :=
  match p with
  | Plain c => Some (p_emit [c] s)
  | Conv fl w pr q c =>
      convert c (match w with [] => -1 | _ => decimal w end)
        (match pr with None => -1 | Some [] => 0 | Some l => let p := decimal l in if p <? 0 then 0 else p end) (flags_value fl) s
  end.
Fixpoint render_all (l : list piece) (s : pst) : option pst := match l with [] => Some s | p :: l => s ← render p s; render_all l s end.

Lemma get_flags_app fl : forall a r, flag_chars fl -> flag_of (at_ r) = None -> get_flags a (fl ++ r) = (foldl (fun a c => Z.lor a (default 0 (flag_of c))) a fl, r).
Proof.
  induction fl as [|c fl IH]; intros a r Hfl Hr; cbn.
  - destruct r as [|c r]; [done|]. cbn in *. by rewrite Hr.
  - apply Forall_cons in Hfl as [[f Hf] Hfl]. rewrite Hf. by apply IH.
Qed.
Lemma skip_atoi_app w : forall a r, digit_chars w -> is_digit (at_ r) = false -> skip_atoi a (w ++ r) = (foldl (fun a c => s32 (a * 10 + c - 48)) a w, r).
Proof.
  induction w as [|c w IH]; intros a r Hw Hr; cbn.
  - destruct r as [|c r]; [done|]. cbn in *. by rewrite Hr.
  - apply Forall_cons in Hw as [Hc Hw]. rewrite Hc. by apply IH.
Qed.

(** What follows the flags, the width and the precision. *)
Definition q_text (q : option Z) (c : Z) (r : list Z) : list Z := match q with Some q => q :: c :: r | None => c :: r end.
Definition p_text (pr : option (list Z)) (t : list Z) : list Z := match pr with Some l => 46 :: l ++ t | None => t end.
Definition conv_ok (q : option Z) (c : Z) : Prop :=
  match q with Some q => is_qualifier q = true | None => True end /\ flag_of c = None /\ is_digit c = false /\ c <> 46 /\ c <> 42 /\ is_qualifier c = false.

Lemma q_text_at q c r : conv_ok q c -> let a := at_ (q_text q c r) in flag_of a = None /\ is_digit a = false /\ a <> 46 /\ a <> 42.
Proof.
  intros (Hq & H1 & H2 & H3 & H4 & _). destruct q as [q|]; cbn; [|done]. unfold is_qualifier in Hq. rewrite !orb_true_iff, !Z.eqb_eq in Hq. destruct Hq as [[->| ->]| ->]; done.
Qed.
Lemma p_text_at pr q c r : conv_ok q c -> let a := at_ (p_text pr (q_text q c r)) in flag_of a = None /\ is_digit a = false /\ a <> 42.
Proof. intros Hc. destruct pr as [l|]; cbn [p_text]; [done|]. destruct (q_text_at q c r Hc) as (H1 & H2 & _ & H4). done. Qed.
Lemma qualifier_skipped q c r : conv_ok q c -> get_qualifier (q_text q c r) = c :: r.
Proof.
  intros (Hq & _ & _ & _ & _ & Hc). unfold get_qualifier, is_qualifier in *. destruct q as [q|]; cbn; [by rewrite Hq|by rewrite Hc].
Qed.
Lemma width_read w fl t s : digit_chars w -> is_digit (at_ t) = false -> at_ t <> 42 ->
  get_width fl (w ++ t) s = Some (match w with [] => -1 | _ => decimal w end, fl, t, s).
Proof.
  intros Hw H1 H2. unfold get_width. destruct w as [|d w]; cbn [app].
  - by rewrite H1, (proj2 (Z.eqb_neq _ _) H2).
  - pose proof Hw as Hw'. apply Forall_cons in Hw' as [Hd _]. cbn [at_]. rewrite Hd. change (d :: w ++ t) with ((d :: w) ++ t). by rewrite skip_atoi_app.
Qed.
Lemma precision_read pr t s : match pr with Some l => digit_chars l | None => True end -> is_digit (at_ t) = false -> at_ t <> 42 -> at_ t <> 46 ->
  get_precision (p_text pr t) s = Some (match pr with None => -1 | Some [] => 0 | Some l => let p := decimal l in if p <? 0 then 0 else p end, t, s).
Proof.
  intros Hl H1 H2 H3. unfold get_precision. destruct pr as [l|]; cbn [p_text at_ tail]; [|by rewrite (proj2 (Z.eqb_neq _ _) H3)].
  change (46 =? 46) with true. cbv iota. destruct l as [|d l]; cbn [app].
  - rewrite H1, (proj2 (Z.eqb_neq _ _) H2). done.
  - pose proof Hl as Hl'. apply Forall_cons in Hl' as [Hd _]. cbn [at_]. rewrite Hd. change (d :: l ++ t) with ((d :: l) ++ t). by rewrite skip_atoi_app.
Qed.

Lemma directive_render fl w pr q c r s : piece_ok (Conv fl w pr q c) ->
  directive (fl ++ w ++ p_text pr (q_text q c r)) s = (s' ← render (Conv fl w pr q c) s; Some (r, s')).
Proof.
  intros (Hfl & Hw & H48 & Hpr & Hc). change (conv_ok q c) in Hc. destruct (p_text_at pr q c r Hc) as (P1 & P2 & P3). destruct (q_text_at q c r Hc) as (_ & Q2 & Q3 & Q4).
  unfold directive. rewrite get_flags_app; [|done|].
  - rewrite width_read by done. cbn [mbind option_bind]. rewrite precision_read by done. cbn [mbind option_bind]. by rewrite qualifier_skipped.
  - destruct w as [|d w]; [exact P1|]. cbn in *. apply Forall_cons in Hw as [Hd _]. unfold is_digit in Hd. apply andb_true_iff in Hd as [D1%Z.leb_le D2%Z.leb_le].
    unfold flag_of. repeat (rewrite (proj2 (Z.eqb_neq _ _)); [|lia]). done.
Qed.

(** [vsprintf] does what the pieces of its format say: characters are
    copied, and a directive is the conversion of its last letter with the
    flags, the field width and the precision written in it; the loop ends. *)
Theorem vsprintf_renders l args : Forall piece_ok l ->
  vsprintf (concat (map show_piece l)) args = (s ← render_all l (mkP [] args []); Some (Z.of_nat (length (p_out s)), s)).
Proof.
  intros Hl. unfold vsprintf. enough (forall l s n, Forall piece_ok l -> (length (concat (map show_piece l)) <= n)%nat -> vsprintf_loop n (concat (map show_piece l)) s = render_all l s) as H by (by rewrite H).
  clear. induction l as [|p l IH]; intros s n Hl Hn; [by destruct n|]. apply Forall_cons in Hl as [Hp Hl]. destruct p as [c|fl w pr q c]; cbn [map concat show_piece] in *.
  - cbn in Hn. destruct n as [|n]; [lia|]. cbn. cbn in Hp. rewrite (proj2 (Z.eqb_neq _ _) Hp). cbn. apply IH; [done|lia].
  - cbn in Hn. destruct n as [|n]; [lia|]. cbn [app vsprintf_loop]. change (37 =? 37) with true. cbv iota. cbn [negb].
    replace ((fl ++ _) ++ concat (map show_piece l)) with (fl ++ w ++ p_text pr (q_text q c (concat (map show_piece l))))
      by (unfold p_text, q_text; destruct pr, q; rewrite <- ?app_assoc; cbn; rewrite <- ?app_assoc; done).
    rewrite directive_render by done. cbn [render_all]. destruct (render _ s) as [s'|]; [|done]. cbn. apply IH; [done|]. rewrite length_app in Hn. lia.
Qed.

(** [printf ("%-5d|%08x %s", ...)]. *)
Lemma vsprintf_renders_witness : exists s, vsprintf (str "%-5d|%08x %s") [PInt (-42); PInt 48879; PStr (str "ok")] = Some (17, s) /\ p_out s = str "-42  |0000beef ok".
Proof. 
  eexists. assert (str "%-5d|%08x %s" = concat (map show_piece [Conv [45] [53] None None 100; Plain 124; Conv [48] [56] None None 120; Plain 32; Conv [] [] None None 115])) as -> by reflexivity.
  rewrite vsprintf_renders by (repeat constructor; done). split; [vm_compute; reflexivity|]. reflexivity.
Defined.

(** A width or precision given as [*] is taken from the arguments, but the
    star is then read again as the conversion. *)
Example star_not_skipped : vsprintf (str "%*d") [PInt 5; PInt 7] = Some (3, mkP (str "%*d") [PInt 7] []).
Proof. reflexivity. Qed.
