(* ===== verification/LinuxBlk.v ===== *)
(** * Linux 0.12: requests to block devices

    Models [kernel/blk_drv/ll_rw_blk.c], what the drivers share of
    [kernel/blk_drv/blk.h], and the ram disk, [kernel/blk_drv/ramdisk.c].  A
    request is an index into [reqs], a buffer one into [bufs].  A routine that
    sleeps is cut there and says where it is to go on; as a sleeper may go on
    at any time, waking it changes nothing.  The other drivers are an
    interface. *)

From S2P Require Import Prelude LinuxBuf.

Definition NR_BLK_DEV : nat := 7.
Definition NR_REQUEST : nat := 32.

Record request := mkRq {
  rq_dev : Z; rq_cmd : Z; rq_errors : Z; rq_sector : Z; rq_nr_sectors : Z; rq_buffer : Z;
  rq_waiting : option nat; rq_bh : option nat; rq_next : option nat }.
Definition set_rq_next v r := mkRq (rq_dev r) (rq_cmd r) (rq_errors r) (rq_sector r) (rq_nr_sectors r) (rq_buffer r) (rq_waiting r) (rq_bh r) v.
Definition set_rq_dev v r := mkRq v (rq_cmd r) (rq_errors r) (rq_sector r) (rq_nr_sectors r) (rq_buffer r) (rq_waiting r) (rq_bh r) (rq_next r).

(** [fns] says which majors have a driver, [ram] are the bytes of memory. *)
Record bio := mkBio {
  bufs : list buffer_head;
  reqs : list request;
  current_request : list (option nat);
  fns : list bool;
  ram : Z -> Z;
  rd_start : Z;
  rd_length : Z;
  printed : list string }.
Definition set_bufs v s := mkBio v (reqs s) (current_request s) (fns s) (ram s) (rd_start s) (rd_length s) (printed s).
Definition set_reqs v s := mkBio (bufs s) v (current_request s) (fns s) (ram s) (rd_start s) (rd_length s) (printed s).
Definition set_curs v s := mkBio (bufs s) (reqs s) v (fns s) (ram s) (rd_start s) (rd_length s) (printed s).
Definition set_fns v s := mkBio (bufs s) (reqs s) (current_request s) v (ram s) (rd_start s) (rd_length s) (printed s).
Definition set_ram v s := mkBio (bufs s) (reqs s) (current_request s) (fns s) v (rd_start s) (rd_length s) (printed s).
Definition set_rd v w s := mkBio (bufs s) (reqs s) (current_request s) (fns s) (ram s) v w (printed s).
Definition printk (m : string) : M bio unit :=
  modify (fun s => mkBio (bufs s) (reqs s) (current_request s) (fns s) (ram s) (rd_start s) (rd_length s) (printed s ++ [m])).

Definition get_buf (i : nat) : M bio buffer_head := l ← gets bufs; idx l i.
Definition upd_buf (i : nat) (f : buffer_head -> buffer_head) : M bio unit := b ← get_buf i; modify (fun s => set_bufs (<[i := f b]> (bufs s)) s).
Definition get_rq (i : nat) : M bio request := l ← gets reqs; idx l i.
Definition upd_rq (i : nat) (f : request -> request) : M bio unit := r ← get_rq i; modify (fun s => set_reqs (<[i := f r]> (reqs s)) s).
Definition get_cur (m : nat) : M bio (option nat) := l ← gets current_request; idx l m.
Definition put_cur (m : nat) (v : option nat) : M bio unit := get_cur m ;; modify (fun s => set_curs (<[m := v]> (current_request s)) s).

Definition set_lock v b := set_flags (b_uptodate b) (b_dirt b) v b.
Definition set_dirt v b := set_flags (b_uptodate b) v (b_lock b) b.
Definition set_uptodate v b := set_flags v (b_dirt b) (b_lock b) b.

Definition unlock_buffer (bh : nat) : M bio unit :=
  b ← get_buf bh;
  (if b_lock b =? 0 then printk "buffer not locked" else skip) ;;
  upd_buf bh (set_lock 0).

(** ** blk.h *)

Definition IN_ORDER (s1 s2 : request) : bool :=
  (rq_cmd s1 <? rq_cmd s2) ||
  ((rq_cmd s1 =? rq_cmd s2) && ((rq_dev s1 <? rq_dev s2) || ((rq_dev s1 =? rq_dev s2) && (rq_sector s1 <? rq_sector s2)))).

Definition end_request (major : nat) (uptodate : Z) : M bio unit :=
  c ← get_cur major; c ← deref c;
  r ← get_rq c;
  (match rq_bh r with None => skip | Some bh => upd_buf bh (set_uptodate uptodate) ;; unlock_buffer bh end) ;;
  (if uptodate =? 0 then
     printk "I/O error" ;;
     match rq_bh r with Some bh => get_buf bh ;; printk "dev, block" | None => printk "dev, block through a null pointer" end
   else skip) ;;
  upd_rq c (set_rq_dev (-1)) ;;
  r ← get_rq c;
  put_cur major (rq_next r).

(** What the hard disk makes of the request it works on, in [hd.c]: a sector
    has been read ([read_intr]) or written ([write_intr]) and more are left, or
    there was an error ([bad_rw_intr], [hd_times_out]; the floppy disks count
    errors in [bad_flp_intr]). *)
Definition sector_read (r : request) : request :=
  mkRq (rq_dev r) (rq_cmd r) 0 (u32 (rq_sector r + 1)) (rq_nr_sectors r - 1) (u32 (rq_buffer r + 512)) (rq_waiting r) (rq_bh r) (rq_next r).
Definition sector_written (r : request) : request :=
  mkRq (rq_dev r) (rq_cmd r) (rq_errors r) (u32 (rq_sector r + 1)) (rq_nr_sectors r - 1) (u32 (rq_buffer r + 512)) (rq_waiting r) (rq_bh r) (rq_next r).
Definition one_error (r : request) : request :=
  mkRq (rq_dev r) (rq_cmd r) (s32 (rq_errors r + 1)) (rq_sector r) (rq_nr_sectors r) (rq_buffer r) (rq_waiting r) (rq_bh r) (rq_next r).

(** ** The drivers *)

Class Drivers := { request_fn : nat -> M bio unit }.

Section Requests.
Context `{Drivers}.

(** ** ll_rw_blk.c *)

Definition place_step (req tmp : nat) : M bio (nat + nat) :=
  t ← get_rq tmp; q ← get_rq req;
  match rq_next t with
  | None => mret (inr tmp)
  | Some n =>
      nx ← get_rq n;
      mret (match rq_bh q with
            | None => match rq_bh nx with Some _ => inr tmp | None => inl n end
            | Some _ => if (IN_ORDER t q || negb (IN_ORDER t nx)) && IN_ORDER q nx then inr tmp else inl n
            end)
  end.
Definition add_request (major req : nat) : M bio unit :=
  upd_rq req (set_rq_next None) ;;
  q ← get_rq req;
  (match rq_bh q with Some bh => upd_buf bh (set_dirt 0) | None => skip end) ;;
  tmp ← get_cur major;
  match tmp with
  | None => put_cur major (Some req) ;; request_fn major
  | Some tmp =>
      tmp ← loop (S NR_REQUEST) (place_step req) tmp;
      t ← get_rq tmp;
      upd_rq req (set_rq_next (rq_next t)) ;;
      upd_rq tmp (set_rq_next (Some req))
  end.

(** The highest free request below [n]. *)
Fixpoint find_free (l : list request) (n : nat) : option nat :=
  match n with
  | O => None
  | S i => match l !! i with Some r => if rq_dev r <? 0 then Some i else find_free l i | None => None end
  end.
Definition room (rw : Z) : nat := if rw =? READ then NR_REQUEST else (NR_REQUEST * 2 / 3)%nat.

(** Where [make_request] can sleep: for the buffer, and for a free request,
    with the buffer locked. *)
Inductive mpc := MLock (rw : Z) (ahead : bool) | MReq (rw : Z) (ahead : bool).
Inductive mout := MSleep (l : mpc) | MDone.

Definition at_req (major bh : nat) (rw : Z) (ahead : bool) : M bio mout :=
  l ← gets reqs;
  match find_free l (room rw) with
  | None => if ahead then unlock_buffer bh ;; mret MDone else mret (MSleep (MReq rw ahead))
  | Some req =>
      b ← get_buf bh;
      upd_rq req (fun _ => mkRq (b_dev b) rw 0 (u32 (Z.shiftl (b_blocknr b) 1)) 2 (b_data b) None (Some bh) None) ;;
      add_request major req ;;
      mret MDone
  end.
Definition at_lock (major bh : nat) (rw : Z) (ahead : bool) : M bio mout :=
  b ← get_buf bh;
  if negb (b_lock b =? 0) then mret (MSleep (MLock rw ahead)) else
  upd_buf bh (set_lock 1) ;;
  if ((rw =? WRITE) && (b_dirt b =? 0)) || ((rw =? READ) && negb (b_uptodate b =? 0))
  then unlock_buffer bh ;; mret MDone else at_req major bh rw ahead.
Definition make_request (major : nat) (rw : Z) (bh : nat) : M bio mout :=
  let ahead := (rw =? READA) || (rw =? WRITEA) in
  b ← get_buf bh;
  if ahead && negb (b_lock b =? 0) then mret MDone else
  let rw := if ahead then if rw =? READA then READ else WRITE else rw in
  if negb (rw =? READ) && negb (rw =? WRITE) then panic "Bad block dev command, must be R/W/RA/WA" else
  at_lock major bh rw ahead.

Definition driver (major : Z) : M bio bool :=
  l ← gets fns; mret ((major <? Z.of_nat NR_BLK_DEV) && default false (l !! Z.to_nat major)).
Definition ll_rw_block (rw : Z) (bh : nat) : M bio mout :=
  b ← get_buf bh;
  ok ← driver (MAJOR (b_dev b));
  if negb ok then printk "Trying to read nonexistent block-device" ;; mret MDone else
  make_request (Z.to_nat (MAJOR (b_dev b))) rw bh.
(** Going on after sleeping. *)
Definition resume (bh : nat) (l : mpc) : M bio mout :=
  b ← get_buf bh;
  let major := Z.to_nat (MAJOR (b_dev b)) in
  match l with MLock rw ahead => at_lock major bh rw ahead | MReq rw ahead => at_req major bh rw ahead end.

(** A page of the swap device, for the task [me], which then waits; [None]
    when there is no free request and it sleeps to try again. *)
Definition ll_rw_page (rw dev page buffer : Z) (me : nat) : M bio (option unit) :=
  ok ← driver (MAJOR dev);
  if negb ok then printk "Trying to read nonexistent block-device" ;; mret (Some tt) else
  if negb (rw =? READ) && negb (rw =? WRITE) then panic "Bad block dev command, must be R/W" else
  l ← gets reqs;
  match find_free l NR_REQUEST with
  | None => mret None
  | Some req =>
      upd_rq req (fun _ => mkRq dev rw 0 (u32 (Z.shiftl page 3)) 8 buffer (Some me) None None) ;;
      add_request (Z.to_nat (MAJOR dev)) req ;;
      mret (Some tt)
  end.

Definition blk_dev_init : M bio unit :=
  for_range 0 NR_REQUEST (fun i => upd_rq i (fun r => set_rq_next None (set_rq_dev (-1) r))).
End Requests.

(** ** ramdisk.c *)

Definition MINOR (a : Z) : Z := Z.land a 255.
Definition memcpy (dst src n : Z) : M bio unit :=
  modify (fun s => set_ram (fun a => if (dst <=? a) && (a <? dst + n) then ram s (src + (a - dst)) else ram s a) s).

Definition rd_step (_ : unit) : M bio (unit + unit) :=
  c ← get_cur 1;
  match c with
  | None => mret (inr tt)
  | Some c =>
      r ← get_rq c;
      if negb (MAJOR (rq_dev r) =? 1) then panic "ramdisk: request list destroyed" else
      (match rq_bh r with None => skip | Some bh => b ← get_buf bh; if b_lock b =? 0 then panic "ramdisk: block not locked" else skip end) ;;
      s ← get;
      let addr := rd_start s + Z.shiftl (rq_sector r) 9 in
      let len := Z.shiftl (rq_nr_sectors r) 9 in
      if negb (MINOR (rq_dev r) =? 1) || (rd_start s + rd_length s <? addr + len) then end_request 1 0 ;; mret (inl tt) else
      (if rq_cmd r =? WRITE then memcpy addr (rq_buffer r) len
       else if rq_cmd r =? READ then memcpy (rq_buffer r) addr len
       else panic "unknown ramdisk-command") ;;
      end_request 1 1 ;; mret (inl tt)
  end.
Definition do_rd_request : M bio unit := loop (S (S NR_REQUEST)) rd_step tt.

Definition rd_init (mem_start length : Z) : M bio Z :=
  modify (fun s => set_fns (<[1%nat := true]> (fns s)) s) ;;
  modify (set_rd mem_start length) ;;
  modify (fun s => set_ram (fun a => if (mem_start <=? a) && (a <? mem_start + length) then 0 else ram s a) s) ;;
  mret length.

(** The ram disk is driver 1; the others only start their hardware. *)
#[export] Instance drivers : Drivers := {| request_fn m := if (m =? 1)%nat then do_rd_request else skip |}.
