(* ===== verification/LinuxElev.v ===== *)
(** * Linux 0.12: the queues of requests

    The order in which [add_request] of [LinuxBlk] keeps the queue of a
    device, and the system of tasks that make requests and devices that finish
    them, with every place where a task can sleep. *)

From S2P Require Import Prelude LinuxBuf LinuxBlk.

(** ** The order of requests *)

Definition key (r : request) : Z * Z * Z := (rq_cmd r, rq_dev r, rq_sector r).
Definition before_rq (a b : request) : Prop := IN_ORDER a b = true.

Lemma in_order_spec a b : IN_ORDER a b = true <->
  rq_cmd a < rq_cmd b \/ rq_cmd a = rq_cmd b /\ (rq_dev a < rq_dev b \/ rq_dev a = rq_dev b /\ rq_sector a < rq_sector b).
Proof. unfold IN_ORDER. by rewrite !orb_true_iff, !andb_true_iff, !orb_true_iff, !andb_true_iff, !Z.ltb_lt, !Z.eqb_eq. Qed.
Lemma in_order_trans a b c : before_rq a b -> before_rq b c -> before_rq a c.
Proof. unfold before_rq. rewrite !in_order_spec. lia. Qed.
Lemma in_order_total a b : key a <> key b -> IN_ORDER a b = false -> before_rq b a.
Proof.
  unfold before_rq. intros Hk Hn. rewrite in_order_spec. apply not_true_iff_false in Hn. rewrite in_order_spec in Hn. unfold key in Hk.
  destruct (Z.eq_dec (rq_cmd a) (rq_cmd b)) as [E1|], (Z.eq_dec (rq_dev a) (rq_dev b)) as [E2|], (Z.eq_dec (rq_sector a) (rq_sector b)) as [E3|]; try lia.
  destruct Hk. by rewrite E1, E2, E3.
Qed.
Lemma in_order_asym a b : before_rq a b -> IN_ORDER b a = false.
Proof. unfold before_rq. rewrite in_order_spec. intros H. apply not_true_iff_false. rewrite in_order_spec. lia. Qed.

(** Does [add_request] stop between [t] and [n]? *)
Definition stop (q t n : request) : bool :=
  match rq_bh q with
  | None => match rq_bh n with Some _ => true | None => false end
  | Some _ => (IN_ORDER t q || negb (IN_ORDER t n)) && IN_ORDER q n
  end.
(** The queue with [q] put behind [t] or later. *)
Fixpoint put_in (q t : request) (rest : list request) : list request :=
  match rest with
  | [] => [t; q]
  | n :: rest' => if stop q t n then t :: q :: rest else t :: put_in q n rest'
  end.

(** Ascending, and one ascent after another. *)
Fixpoint asc (t : request) (l : list request) : Prop := match l with [] => True | n :: l' => before_rq t n /\ asc n l' end.
Definition asc_list (l : list request) : Prop := match l with [] => True | t :: l' => asc t l' end.
Definition sweeps (l : list request) : Prop := match l with [] => True | h :: r => exists c d, r = c ++ d /\ asc h c /\ asc_list d end.

Section Insert.
Context (q : request) (Hq : is_Some (rq_bh q)).
Definition new (l : list request) : Prop := Forall (fun r => key q <> key r) l.
#[local] Ltac news := unfold new in *; cbn [app] in *; rewrite ?Forall_cons, ?Forall_app in *; tauto.

Lemma stop_bh t n : stop q t n = (IN_ORDER t q || negb (IN_ORDER t n)) && IN_ORDER q n.
Proof. unfold stop. by destruct Hq as [b ->]. Qed.
Lemma put_head t l : exists r, put_in q t l = t :: r.
Proof. destruct l as [|n l]; cbn; [by exists [q]|]. destruct (stop q t n); by eexists. Qed.

(** Into one ascent, ahead of [t] or behind. *)
Lemma put_above l : forall t, new (t :: l) -> asc t l -> before_rq t q -> exists r, put_in q t l = t :: r /\ asc t r.
Proof.
  induction l as [|n l IH]; intros t Hn Ha Ht; cbn [put_in]; [exists [q]; by cbn|]. destruct Ha as [H1 H2]. rewrite stop_bh, Ht. cbn [orb andb]. destruct (IN_ORDER q n) eqn:E.
  - exists (q :: n :: l). by cbn.
  - destruct (IH n) as (r & -> & Hr); [news|done|apply in_order_total; [news|done]|]. exists (n :: r). by cbn.
Qed.
Lemma put_below l : forall t, new (t :: l) -> asc t l -> before_rq q t -> put_in q t l = t :: l ++ [q].
Proof.
  induction l as [|n l IH]; intros t Hn Ha Ht; cbn [put_in]; [done|]. destruct Ha as [H1 H2]. rewrite stop_bh, H1, (in_order_asym _ _ Ht). cbn [orb andb negb].
  rewrite (IH n); [done|news|done|]. by eapply in_order_trans.
Qed.

Lemma put_two b a : forall t, new (t :: a ++ b) -> asc t a -> asc_list b -> exists c d, put_in q t (a ++ b) = t :: c ++ d /\ asc t c /\ asc_list d.
Proof.
  induction a as [|n a IH]; intros t Hn Ha Hb; cbn [app].
  - destruct b as [|b0 b]; cbn [put_in]; [by exists [], [q]|]. rewrite stop_bh. destruct (IN_ORDER q b0) eqn:E0.
    + rewrite andb_true_r. destruct (IN_ORDER t q || negb (IN_ORDER t b0)) eqn:E1; [by exists [], (q :: b0 :: b)|]. apply orb_false_iff in E1 as [E1 E2%negb_false_iff].
      rewrite put_below; [|news|done|done]. exists (b0 :: b), [q]. split; [done|]. split; [by split|done].
    + rewrite andb_false_r. destruct (put_above b b0) as (r & -> & Hr); [news|done|apply in_order_total; [news|done]|]. by exists [], (b0 :: r).
  - cbn [put_in]. destruct Ha as [H1 H2]. rewrite stop_bh, H1. cbn [negb]. rewrite orb_false_r. destruct (IN_ORDER t q && IN_ORDER q n) eqn:E.
    + apply andb_true_iff in E as [E1 E2]. exists (q :: n :: a), b. split; [done|]. by repeat split.
    + destruct (IH n) as (c & d & -> & Hc & Hd); [news|done|done|]. exists (n :: c), d. split; [done|]. by repeat split.
Qed.
(** The elevator goes on. *)
Lemma put_sweeps t l : new (t :: l) -> sweeps (t :: l) -> sweeps (put_in q t l).
Proof.
  intros Hn (c & d & -> & Hc & Hd). destruct (put_two d c t Hn Hc Hd) as (c' & d' & -> & Hc' & Hd'). by exists c', d'.
Qed.
End Insert.

Lemma sweeps_tail t l : sweeps (t :: l) -> sweeps l.
Proof.
  intros (c & d & -> & Hc & Hd). destruct c as [|n c]; [|destruct Hc as [_ Hc]; by exists c, d]. destruct d as [|n d]; [done|]. exists d, []. by rewrite app_nil_r.
Qed.
Lemma put_perm q t l : put_in q t l ≡ₚ q :: t :: l.
Proof.
  revert t. induction l as [|n l IH]; intros t; cbn [put_in]; [by constructor|]. destruct (stop q t n); [by constructor|]. rewrite (IH n). by constructor.
Qed.

(** ** Queues in the table of requests *)

(** A request without its link. *)
Definition core (r : request) : request := set_rq_next None r.
(** From [p] the requests [Q], which are [R], up to [e]. *)
Fixpoint qseg (l : list request) (p : option nat) (Q : list nat) (R : list request) (e : option nat) : Prop :=
  match Q, R with
  | [], [] => p = e
  | x :: Q, q :: R => p = Some x /\ exists r, l !! x = Some r /\ core r = q /\ qseg l (rq_next r) Q R e
  | _, _ => False
  end.

Lemma qseg_app l Q1 R1 Q2 R2 e : length Q1 = length R1 -> forall p, qseg l p (Q1 ++ Q2) (R1 ++ R2) e <-> exists p', qseg l p Q1 R1 p' /\ qseg l p' Q2 R2 e.
Proof.
  revert R1. induction Q1 as [|x Q1 IH]; intros R1 Hl p; destruct R1 as [|q R1]; try done; cbn [app qseg].
  - split; [by exists p|by intros (p' & -> & H)].
  - injection Hl as Hl. split.
    + intros (-> & r & Hr & Hc & H). apply (IH R1 Hl) in H as (p' & H1 & H2). exists p'. split; [|done]. split; [done|]. by exists r.
    + intros (p' & (-> & r & Hr & Hc & H1) & H2). split; [done|]. exists r. split_and!; [done|done|]. apply (IH R1 Hl). by exists p'.
Qed.
Lemma qseg_ext l l' Q R e : forall p, (forall x, x ∈ Q -> l' !! x = l !! x) -> qseg l p Q R e -> qseg l' p Q R e.
Proof.
  revert R. induction Q as [|x Q IH]; intros R p Hx; destruct R as [|q R]; try done; cbn [qseg]. intros (-> & r & Hr & Hc & H). split; [done|]. exists r.
  rewrite Hx by left. split_and!; [done|done|]. apply IH; [|done]. intros y Hy. apply Hx. by right.
Qed.
Lemma qseg_length l Q R e : forall p, qseg l p Q R e -> length Q = length R.
Proof. revert R. induction Q as [|x Q IH]; intros R p; destruct R as [|q R]; try done; cbn. intros (_ & r & _ & _ & H). f_equal. by eapply IH. Qed.
Lemma qseg_lookup l Q R e i x q : forall p, qseg l p Q R e -> Q !! i = Some x -> R !! i = Some q -> exists r, l !! x = Some r /\ core r = q.
Proof.
  revert R i. induction Q as [|y Q IH]; intros R i p; destruct R as [|q' R]; try done; cbn [qseg]. intros (_ & r & Hr & Hc & H). destruct i as [|i]; cbn.
  - intros [= <-] [= <-]. by exists r.
  - by eapply IH.
Qed.

(** ** Accesses *)

Lemma get_rq_run {A} i r s (k : request -> M bio A) : reqs s !! i = Some r -> (get_rq i ≫= k) s = k r s.
Proof. intros E. unfold get_rq, mbind, M_bind, gets, idx. cbn. by rewrite E. Qed.
Lemma upd_rq_run {A} i r f s (k : unit -> M bio A) : reqs s !! i = Some r -> (upd_rq i f ≫= k) s = k tt (set_reqs (<[i := f r]> (reqs s)) s).
Proof. intros E. unfold upd_rq, get_rq, mbind, M_bind, gets, idx, modify. cbn. by rewrite E. Qed.
Lemma get_buf_run {A} i b s (k : buffer_head -> M bio A) : bufs s !! i = Some b -> (get_buf i ≫= k) s = k b s.
Proof. intros E. unfold get_buf, mbind, M_bind, gets, idx. cbn. by rewrite E. Qed.
Lemma upd_buf_run {A} i b f s (k : unit -> M bio A) : bufs s !! i = Some b -> (upd_buf i f ≫= k) s = k tt (set_bufs (<[i := f b]> (bufs s)) s).
Proof. intros E. unfold upd_buf, get_buf, mbind, M_bind, gets, idx, modify. cbn. by rewrite E. Qed.
Lemma get_cur_run {A} m p s (k : option nat -> M bio A) : current_request s !! m = Some p -> (get_cur m ≫= k) s = k p s.
Proof. intros E. unfold get_cur, mbind, M_bind, gets, idx. cbn. by rewrite E. Qed.
Lemma put_cur_run m p v s : current_request s !! m = Some p -> put_cur m v s = Ok tt (set_curs (<[m := v]> (current_request s)) s).
Proof. intros E. unfold put_cur. by rewrite (get_cur_run m p). Qed.

(** Where [add_request] puts a request. *)
Lemma place_loop x q0 Q : forall R t rt n s, qseg (reqs s) (Some t) (t :: Q) (rt :: R) None -> reqs s !! x = Some q0 -> (length Q < n)%nat ->
  exists tmp rtmp Q1 Q2 R1 R2, loop n (place_step x) t s = Ok tmp s /\ t :: Q = Q1 ++ tmp :: Q2 /\ rt :: R = R1 ++ rtmp :: R2 /\ length Q1 = length R1 /\
    put_in (core q0) rt R = R1 ++ rtmp :: core q0 :: R2.
Proof.
  induction Q as [|y Q IH]; intros R t rt n s (_ & r & Hr & <- & Hseg) Hx Hn; (destruct n as [|n]; [lia|]); destruct R as [|ry R]; try done; cbn [qseg] in Hseg.
  - exists t, (core r), [], [], [], []. split_and!; try done. apply loop_done. unfold place_step. by rewrite (get_rq_run t r), (get_rq_run x q0), Hseg by done.
  - destruct Hseg as (Hnext & ry' & Hy & <- & Hseg). cbn [put_in].
    assert (place_step x t s = Ok (if stop (core q0) (core r) (core ry') then inr t else inl y) s) as Est.
    { unfold place_step. rewrite (get_rq_run t r), (get_rq_run x q0), Hnext, (get_rq_run y ry') by done. unfold stop. cbn. destruct (rq_bh q0), (rq_bh ry'); try done. }
    destruct (stop (core q0) (core r) (core ry')).
    + exists t, (core r), [], (y :: Q), [], (core ry' :: R). split_and!; try done. by apply loop_done.
    + destruct (IH R y (core ry') n s) as (tmp & rtmp & Q1 & Q2 & R1 & R2 & E & E1 & E2 & El & Ep); [split; [done|]; by exists ry'|done|cbn in Hn; lia|].
      exists tmp, rtmp, (t :: Q1), Q2, (core r :: R1), R2. rewrite (loop_next _ _ _ _ _ _ Est), E, E1, E2, Ep. cbn. by rewrite El.
Qed.

Lemma qseg_insert l x q0 t0 Q1 tmp Q2 R1 rtmp R2 : NoDup (x :: Q1 ++ tmp :: Q2) -> length Q1 = length R1 -> l !! x = Some q0 -> l !! tmp = Some t0 ->
  qseg l (head (Q1 ++ tmp :: Q2)) (Q1 ++ tmp :: Q2) (R1 ++ rtmp :: R2) None ->
  qseg (<[tmp := set_rq_next (Some x) t0]> (<[x := set_rq_next (rq_next t0) q0]> l)) (head (Q1 ++ tmp :: Q2)) (Q1 ++ tmp :: x :: Q2) (R1 ++ rtmp :: core q0 :: R2) None.
Proof.
  intros Hnd Hlen Hx Ht. apply NoDup_cons in Hnd as [Hxn Hnd]. apply NoDup_app in Hnd as (N1 & N2 & [N3 N4]%NoDup_cons).
  assert (x <> tmp) as Hne by set_solver. set (l' := <[tmp := _]> _).
  assert (forall y, y <> x -> y <> tmp -> l' !! y = l !! y) as Hl' by (intros y H1 H2; unfold l'; by rewrite !list_lookup_insert_ne).
  rewrite !qseg_app by done. intros (p' & S1 & (-> & r & Hr & Hc & S2)). rewrite Ht in Hr. injection Hr as <-. exists (Some tmp). split.
  - eapply qseg_ext; [|exact S1]. intros y Hy. apply Hl'; set_solver.
  - split; [done|]. eexists. split; [unfold l'; rewrite list_lookup_insert_eq; [reflexivity|rewrite length_insert; by eapply lookup_lt_Some]|]. split; [exact Hc|].
    split; [done|]. eexists. split; [unfold l'; rewrite list_lookup_insert_ne, list_lookup_insert_eq by (done || by eapply lookup_lt_Some); reflexivity|]. split; [done|].
    eapply qseg_ext; [|exact S2]. intros y Hy. apply Hl'; set_solver.
Qed.

(** ** The invariant of the system *)

Definition updf {A} (f : nat -> A) (m : nat) (v : A) : nat -> A := fun k => if decide (k = m) then v else f k.
Lemma updf_eq {A} (f : nat -> A) m v : updf f m v m = v.
Proof. unfold updf. by rewrite decide_True. Qed.
Lemma updf_ne {A} (f : nat -> A) m v k : k <> m -> updf f m v k = f k.
Proof. intros H. unfold updf. by rewrite decide_False. Qed.
Lemma concat_at {A} (f g : nat -> list A) m n : (m < n)%nat -> (forall k, k <> m -> g k = f k) ->
  exists rest, concat (map f (seq 0 n)) ≡ₚ f m ++ rest /\ concat (map g (seq 0 n)) ≡ₚ g m ++ rest.
Proof.
  intros Hm Hg. assert (seq 0 n = seq 0 m ++ m :: seq (S m) (n - S m)) as E.
  { change (m :: seq (S m) (n - S m)) with (seq (0 + m) (S (n - S m))). rewrite <- seq_app. f_equal. lia. }
  assert (forall h : nat -> list A, concat (map h (seq 0 n)) = concat (map h (seq 0 m)) ++ h m ++ concat (map h (seq (S m) (n - S m)))) as Ec by (intros h; by rewrite E, map_app, concat_app).
  exists (concat (map f (seq 0 m)) ++ concat (map f (seq (S m) (n - S m)))). rewrite !Ec.
  rewrite (map_ext_in g f (seq 0 m)), (map_ext_in g f (seq (S m) _)) by (intros k Hk%in_seq; apply Hg; lia). split; by rewrite Permutation_app_swap_app.
Qed.
Lemma elem_of_queues {A} (f : nat -> list A) n x : x ∈ concat (map f (seq 0 n)) <-> exists m, (m < n)%nat /\ x ∈ f m.
Proof.
  rewrite list_elem_of_In, in_concat. setoid_rewrite in_map_iff. split.
  - intros (l & (m & <- & Hm%in_seq) & Hx). exists m. split; [lia|by apply list_elem_of_In].
  - intros (m & Hm & Hx). exists (f m). split; [exists m; split; [done|apply in_seq; lia]|by apply list_elem_of_In].
Qed.

(** A task that is asleep in [make_request] for a buffer; past [lock_buffer]
    it holds its lock. *)
Definition rtask := option (nat * mpc).
Definition held_by (t : rtask) : list nat := match t with Some (b, MReq _ _) => [b] | _ => [] end.
Definition rq_bufs (R : list request) : list nat := omap rq_bh R.
Definition holds (R : nat -> list request) (ts : list rtask) : list nat := concat (map (fun m => rq_bufs (R m)) (seq 0 7)) ++ concat (map held_by ts).

Definition buf_ok (b : buffer_head) : Prop := 0 <= b_dev b < 65536 /\ 0 <= b_blocknr b < 2147483648.
Record bufs_ok (l : list buffer_head) : Prop := {
  bo_each : forall i b, l !! i = Some b -> buf_ok b;
  bo_uniq : forall i j b c, l !! i = Some b -> l !! j = Some c -> b_dev b = b_dev c -> b_blocknr b = b_blocknr c -> b_dev b <> 0 -> i = j }.
Definition the_rq (bf : buffer_head) (b : nat) (rw : Z) : request := mkRq (b_dev bf) rw 0 (u32 (Z.shiftl (b_blocknr bf) 1)) 2 (b_data bf) None (Some b) None.
Definition rw_ok (rw : Z) : Prop := rw = READ \/ rw = WRITE.

(** The swap device, [SWAP_DEV], and the requests for its pages. *)
Class SwapDev := { swap_dev : Z; swap_dev_ok : 0 <= swap_dev < 65536 }.
Definition page_rq `{SwapDev} (page rw buffer : Z) (me : nat) : request := mkRq swap_dev rw 0 (u32 (Z.shiftl page 3)) 8 buffer (Some me) None None.
(** The request of a locked buffer of the device, or of a page. *)
Definition fresh_rq `{SwapDev} (l : list buffer_head) (m : nat) (q : request) : Prop :=
  (exists b bf rw, l !! b = Some bf /\ q = the_rq bf b rw /\ rw_ok rw /\ Z.to_nat (MAJOR (b_dev bf)) = m /\ b_dev bf <> 0) \/
  (exists page rw buffer me, q = page_rq page rw buffer me /\ rw_ok rw /\ Z.to_nat (MAJOR swap_dev) = m).
(** A request of which the device has done [i] sectors, after [e] errors. *)
Definition part_done (i e : Z) (q : request) : request :=
  mkRq (rq_dev q) (rq_cmd q) e (if i =? 0 then rq_sector q else u32 (rq_sector q + i)) (rq_nr_sectors q - i)
    (if i =? 0 then rq_buffer q else u32 (rq_buffer q + 512 * i)) (rq_waiting q) (rq_bh q) (rq_next q).
(** The device works on the first request of its queue. *)
Definition good_queue `{SwapDev} (l : list buffer_head) (m : nat) (R : list request) : Prop :=
  match R with
  | [] => True
  | q :: R' => (exists q0 i e, fresh_rq l m q0 /\ 0 <= i < rq_nr_sectors q0 /\ q = part_done i e q0) /\ Forall (fresh_rq l m) R'
  end.
Definition task_good (s : bio) (t : rtask) : Prop :=
  match t with
  | None => True
  | Some (b, l) => exists bf, bufs s !! b = Some bf /\ (Z.to_nat (MAJOR (b_dev bf)) < 7)%nat /\ b_dev bf <> 0 /\ match l with MLock rw _ | MReq rw _ => rw_ok rw end
  end.

(** What a request in a queue is for, whatever has been done of it. *)
Definition for_dev `{SwapDev} (l : list buffer_head) (m : nat) (q : request) : Prop :=
  0 <= rq_dev q /\ MAJOR (rq_dev q) = Z.of_nat m /\ rw_ok (rq_cmd q) /\ match rq_bh q with Some b => is_Some (l !! b) | None => True end.
Definition swap_major `{SwapDev} : nat := Z.to_nat (MAJOR swap_dev).

Record binv `{SwapDev} (s : bio) (Q : nat -> list nat) (R : nat -> list request) (ts : list rtask) : Prop := {
  bi_reqs : length (reqs s) = 32%nat;
  bi_path : forall m, (m < 7)%nat -> exists p, current_request s !! m = Some p /\ qseg (reqs s) p (Q m) (R m) None;
  bi_nodup : NoDup (concat (map Q (seq 0 7)));
  bi_free : forall x r, reqs s !! x = Some r -> x ∉ concat (map Q (seq 0 7)) -> rq_dev r < 0;
  bi_good : forall m, (m < 7)%nat -> good_queue (bufs s) m (R m);
  bi_holds : NoDup (holds R ts);
  bi_locks : forall b, b ∈ holds R ts -> exists bf, bufs s !! b = Some bf /\ b_lock bf = 1;
  bi_tasks : forall t, t ∈ ts -> task_good s t;
  bi_sweeps : forall m, (m < 7)%nat -> m <> swap_major -> sweeps (R m);
  bi_bufs : bufs_ok (bufs s) }.

Section Invariant.
Context `{SwapDev}.

Lemma major_nonneg d : 0 <= MAJOR d.
Proof. unfold MAJOR. rewrite Z.shiftr_div_pow2 by lia. apply Z.div_pos; [apply u32_range|lia]. Qed.
Lemma fresh_for_dev l m q : bufs_ok l -> fresh_rq l m q -> for_dev l m q.
Proof.
  intros Hok [(b & bf & rw & Hb & -> & Hrw & Hm & _)|(page & rw & buffer & me & -> & Hrw & Hm)]; unfold for_dev; cbn.
  - destruct (bo_each _ Hok _ _ Hb) as [Hd _]. pose proof (major_nonneg (b_dev bf)). split_and!; [lia|lia|done|by exists bf].
  - pose proof swap_dev_ok. pose proof (major_nonneg swap_dev). split_and!; [lia|lia|done|done].
Qed.
Lemma good_for_dev l m R q : bufs_ok l -> good_queue l m R -> q ∈ R -> for_dev l m q.
Proof.
  intros Hok Hg Hq. destruct R as [|h R]; [by apply not_elem_of_nil in Hq|]. destruct Hg as [Hh HR]. apply elem_of_cons in Hq as [->|Hq].
  - destruct Hh as (q0 & i & e & Hf & _ & ->). exact (fresh_for_dev _ _ _ Hok Hf).
  - rewrite Forall_forall in HR. by apply fresh_for_dev, HR.
Qed.
Lemma fresh_part l m q : fresh_rq l m q -> exists q0 i e, fresh_rq l m q0 /\ 0 <= i < rq_nr_sectors q0 /\ q = part_done i e q0.
Proof.
  intros Hf. exists q, 0, (rq_errors q). split; [done|]. split; [|unfold part_done; destruct q; cbn; by rewrite Z.sub_0_r].
  by destruct Hf as [(b & bf & rw & _ & -> & _)|(page & rw & buffer & me & -> & _)].
Qed.
Lemma good_tail l m q R : good_queue l m (q :: R) -> good_queue l m R.
Proof. intros [_ HR]. destruct R as [|n R]; [done|]. apply Forall_cons in HR as [Hn HR]. by split; [apply fresh_part|]. Qed.
Lemma fresh_good l m R : Forall (fresh_rq l m) R -> good_queue l m R.
Proof. destruct R as [|q R]; [done|]. intros [Hq HR]%Forall_cons. by split; [apply fresh_part|]. Qed.

(** Buffers keep their block, and their lock while it is held. *)
Definition same_id (b b' : buffer_head) : Prop := b_dev b' = b_dev b /\ b_blocknr b' = b_blocknr b /\ b_data b' = b_data b.
Lemma the_rq_same b b' i rw : same_id b b' -> the_rq b' i rw = the_rq b i rw.
Proof. intros (E1 & E2 & E3). unfold the_rq. by rewrite E1, E2, E3. Qed.
Lemma good_queue_mono l l' m R : (forall q, fresh_rq l m q -> fresh_rq l' m q) -> good_queue l m R -> good_queue l' m R.
Proof.
  intros Hm. destruct R as [|q R]; [done|]. intros [Hq HR]. split; [|eapply Forall_impl; [exact HR|exact Hm]]. destruct Hq as (q0 & i & e & Hq & Hi & ->).
  exists q0, i, e. split_and!; [by apply Hm|lia|lia|done].
Qed.
Lemma binv_buf s Q R ts i bf f : binv s Q R ts -> bufs s !! i = Some bf -> same_id bf (f bf) -> (i ∈ holds R ts -> b_lock (f bf) = b_lock bf) ->
  binv (set_bufs (<[i := f bf]> (bufs s)) s) Q R ts.
Proof.
  intros [B1 B2 B3 B4 B5 B6 B7 B8 B9 B10] Hi Hid Hlock.
  assert (forall j b', <[i := f bf]> (bufs s) !! j = Some b' -> exists b, bufs s !! j = Some b /\ same_id b b' /\ (j ∈ holds R ts -> b_lock b' = b_lock b)) as Hback.
  { intros j b' [(<- & <- & _)|[_ Hj]]%list_lookup_insert_Some; [by exists bf|by exists b']. }
  assert (forall j b, bufs s !! j = Some b -> exists b', <[i := f bf]> (bufs s) !! j = Some b' /\ same_id b b' /\ (j ∈ holds R ts -> b_lock b' = b_lock b)) as Hfwd.
  { intros j b Hj. destruct (decide (j = i)) as [->|Hne]; [|exists b; by rewrite list_lookup_insert_ne]. rewrite Hi in Hj. injection Hj as <-.
    exists (f bf). by rewrite list_lookup_insert_eq by (by eapply lookup_lt_Some). }
  split; cbn; try done.
  - intros m Hm. eapply good_queue_mono; [|by apply B5]. intros q [(b & b0 & rw & Hb & -> & Hrw & Hmj & Hd)|Hq]; [left|by right]. destruct (Hfwd b b0 Hb) as (b' & Hb' & Hs & _). exists b, b', rw.
    rewrite (the_rq_same _ _ _ _ Hs). destruct Hs as (E & _). by rewrite E.
  - intros b Hb. destruct (B7 b Hb) as (b0 & Hb0 & Hl). destruct (Hfwd b b0 Hb0) as (b' & Hb' & _ & Hk). exists b'. by rewrite Hk.
  - intros [[b l]|] Ht; [|done]. destruct (B8 _ Ht) as (b0 & Hb0 & H1 & H2 & H3). destruct (Hfwd b b0 Hb0) as (b' & Hb' & (E & _) & _). exists b'. cbn. by rewrite E.
  - destruct B10 as [O1 O2]. split.
    + intros j b' Hj. destruct (Hback j b' Hj) as (b & Hb & (E1 & E2 & _) & _). unfold buf_ok. rewrite E1, E2. by eapply O1.
    + intros j k b' c' Hj Hk. destruct (Hback j b' Hj) as (b & Hb & (E1 & E2 & _) & _). destruct (Hback k c' Hk) as (c & Hc & (E3 & E4 & _) & _). rewrite E1, E2, E3, E4. by apply O2.
Qed.

Lemma binv_eq s s' Q R ts : bufs s' = bufs s -> reqs s' = reqs s -> current_request s' = current_request s -> binv s Q R ts -> binv s' Q R ts.
Proof. intros E1 E2 E3 [B1 B2 B3 B4 B5 B6 B7 B8 B9 B10]. split; rewrite ?E1, ?E2, ?E3; try done. intros t Ht. specialize (B8 t Ht). unfold task_good. by rewrite E1. Qed.

(** The head of a queue goes. *)
Lemma binv_pop s Q R ts m x Q' q R' r : binv s Q R ts -> (m < 7)%nat -> Q m = x :: Q' -> R m = q :: R' -> reqs s !! x = Some r ->
  binv (set_curs (<[m := rq_next r]> (current_request s)) (set_reqs (<[x := set_rq_dev (-1) r]> (reqs s)) s)) (updf Q m Q') (updf R m R') ts /\
  forall b, rq_bh q = Some b -> b ∉ holds (updf R m R') ts.
Proof.
  intros [B1 B2 B3 B4 B5 B6 B7 B8 B9 B10] Hm EQ ER Hr.
  destruct (concat_at Q (updf Q m Q') m 7 Hm) as (rQ & PQ & PQ'); [intros; by apply updf_ne|]. rewrite updf_eq, EQ in *.
  destruct (concat_at (fun k => rq_bufs (R k)) (fun k => rq_bufs (updf R m R' k)) m 7 Hm) as (rR & PR & PR'); [intros k Hk; by rewrite updf_ne|]. rewrite updf_eq, ER in *.
  destruct (B2 m Hm) as (p & Hp & Hseg). rewrite EQ, ER in Hseg. destruct Hseg as (-> & r' & Hr' & Hc & Hseg). rewrite Hr in Hr'. injection Hr' as <-.
  assert (x ∉ Q' ++ rQ /\ NoDup (Q' ++ rQ)) as [Hx HndQ] by (rewrite PQ in B3; by apply NoDup_cons in B3).
  set (hb := match rq_bh q with Some b => [b] | None => [] end).
  assert (rq_bufs (q :: R') = hb ++ rq_bufs R') as Eb by (unfold hb, rq_bufs; cbn; by destruct (rq_bh q)).
  assert (holds R ts ≡ₚ hb ++ holds (updf R m R') ts) as PH by (unfold holds; rewrite PR, PR', Eb; by rewrite <- !app_assoc).
  pose proof B6 as B6'. rewrite PH in B6'. apply NoDup_app in B6' as (_ & Hdis & HndR).
  split; [|intros b Eq; apply Hdis; unfold hb; rewrite Eq; left]. split; cbn; try done.
  - by rewrite length_insert.
  - intros k Hk. destruct (decide (k = m)) as [->|Hkm].
    + exists (rq_next r). rewrite !updf_eq, list_lookup_insert_eq by (by eapply lookup_lt_Some). split; [done|]. eapply qseg_ext; [|exact Hseg]. intros y Hy. rewrite list_lookup_insert_ne; [done|]. intros ->. apply Hx, elem_of_app. by left.
    + destruct (B2 k Hk) as (p & Hpk & Hsk). exists p. rewrite !updf_ne, list_lookup_insert_ne by done. split; [done|]. eapply qseg_ext; [|exact Hsk]. intros y Hy. rewrite list_lookup_insert_ne; [done|]. intros ->.
      apply Hx. assert (y ∈ concat (map (updf Q m Q') (seq 0 7))) as Hin by (apply elem_of_queues; exists k; by rewrite updf_ne). by rewrite PQ' in Hin.
  - by rewrite PQ'.
  - intros y r' [(<- & <- & _)|[Hne Hy]]%list_lookup_insert_Some Hn; [cbn; lia|]. apply (B4 y r' Hy). rewrite PQ. rewrite PQ' in Hn. cbn. intros [->|Hin]%elem_of_cons; done.
  - intros k Hk. destruct (decide (k = m)) as [->|Hkm]; [rewrite updf_eq; apply (good_tail _ _ q); rewrite <- ER; by apply B5|rewrite updf_ne by done; by apply B5].
  - intros y Hy. apply B7. rewrite PH, elem_of_app. by right.
  - intros k Hk Hne. destruct (decide (k = m)) as [->|Hkm]; [rewrite updf_eq; apply (sweeps_tail q); rewrite <- ER; by apply B9|rewrite updf_ne by done; by apply B9].
Qed.

(** What a routine leaves alone. *)
Definition rest_eq (s s' : bio) : Prop := reqs s' = reqs s /\ current_request s' = current_request s /\ fns s' = fns s /\ ram s' = ram s /\ rd_start s' = rd_start s /\ rd_length s' = rd_length s.
Lemma unlock_run b bf s : bufs s !! b = Some bf -> exists s', unlock_buffer b s = Ok tt s' /\ bufs s' = <[b := set_lock 0 bf]> (bufs s) /\ rest_eq s s'.
Proof.
  intros Hb. unfold unlock_buffer. rewrite (get_buf_run b bf) by done. destruct (b_lock bf =? 0).
  - erewrite bind_ok by reflexivity. eexists. split; [unfold upd_buf; rewrite (get_buf_run b bf) by done; reflexivity|]. done.
  - erewrite bind_ok by reflexivity. eexists. split; [unfold upd_buf; rewrite (get_buf_run b bf) by done; reflexivity|]. done.
Qed.

Lemma end_request_ok s Q R ts m x Q' q R' u : binv s Q R ts -> (m < 7)%nat -> Q m = x :: Q' -> R m = q :: R' ->
  exists s', end_request m u s = Ok tt s' /\ binv s' (updf Q m Q') (updf R m R') ts.
Proof.
  intros Hi Hm EQ ER. destruct (bi_path _ _ _ _ Hi m Hm) as (p & Hp & Hseg). rewrite EQ, ER in Hseg. destruct Hseg as (-> & r & Hr & Hc & _).
  destruct (binv_pop s Q R ts m x Q' q R' r Hi Hm EQ ER Hr) as [Hpop Hbn]. assert (rq_bh q = rq_bh r) as Hbh by (by rewrite <- Hc). rewrite Hbh in Hbn.
  destruct (good_for_dev _ _ _ q (bi_bufs _ _ _ _ Hi) (bi_good _ _ _ _ Hi m Hm)) as (_ & _ & _ & Hbuf); [rewrite ER; left|]. rewrite Hbh in Hbuf.
  unfold end_request. rewrite (get_cur_run m (Some x)) by done. cbn [deref]. erewrite bind_ok by reflexivity. rewrite (get_rq_run x r) by done.
  assert (exists s2, (match rq_bh r with None => skip | Some bh => upd_buf bh (set_uptodate u) ;; unlock_buffer bh end) s = Ok tt s2 /\ rest_eq s s2 /\
    match rq_bh r with None => bufs s2 = bufs s | Some b => exists bf, bufs s !! b = Some bf /\ bufs s2 = <[b := set_lock 0 (set_uptodate u bf)]> (bufs s) end) as (s2 & E2 & (F1 & F2 & F3 & F4 & F5 & F6) & Hb2).
  { destruct (rq_bh r) as [b|]; [|by exists s]. destruct Hbuf as [bf Hb]. set (s1 := set_bufs (<[b := set_uptodate u bf]> (bufs s)) s).
    destruct (unlock_run b (set_uptodate u bf) s1) as (s2 & E2 & Hb2 & Hrest); [cbn; by rewrite list_lookup_insert_eq by (by eapply lookup_lt_Some)|].
    exists s2. split; [rewrite (upd_buf_run b bf) by done; exact E2|]. split; [exact Hrest|]. exists bf. split; [done|]. rewrite Hb2. cbn. by rewrite list_insert_insert_eq. }
  rewrite (bind_ok _ _ _ _ _ E2).
  assert (exists s3, (if u =? 0 then printk "I/O error" ;; match rq_bh r with Some bh => get_buf bh ;; printk "dev, block" | None => printk "dev, block through a null pointer" end else skip) s2 = Ok tt s3 /\ bufs s3 = bufs s2 /\ rest_eq s2 s3) as (s3 & E3 & Hb3 & (G1 & G2 & G3 & G4 & G5 & G6)).
  { destruct (u =? 0); [|by exists s2]. destruct (rq_bh r) as [b|]; [|by eexists]. destruct Hb2 as (bf & Hb & Hb2).
    eexists. split; [unfold printk at 1; erewrite bind_ok by reflexivity; rewrite (get_buf_run b (set_lock 0 (set_uptodate u bf))); [reflexivity|]|done].
    cbn. rewrite Hb2. by rewrite list_lookup_insert_eq by (by eapply lookup_lt_Some). }
  rewrite (bind_ok _ _ _ _ _ E3). rewrite (upd_rq_run x r) by (by rewrite G1, F1). rewrite (get_rq_run x (set_rq_dev (-1) r)) by (cbn; rewrite list_lookup_insert_eq; [done|]; rewrite G1, F1; by eapply lookup_lt_Some).
  rewrite (put_cur_run m (Some x)) by (cbn; by rewrite G2, F2). eexists. split; [done|]. destruct (rq_bh r) as [b|].
  - destruct Hb2 as (bf & Hb & Hb2). eapply binv_eq; [| | |apply (binv_buf _ _ _ _ b bf (fun x => set_lock 0 (set_uptodate u x)) Hpop Hb); [done|]]; cbn; [by rewrite Hb3, Hb2|by rewrite G1, F1|by rewrite G2, F2|].
    intros Hin. by destruct (Hbn b eq_refl).
  - eapply binv_eq; [| | |exact Hpop]; cbn; [by rewrite Hb3|by rewrite G1, F1|by rewrite G2, F2].
Qed.

(** A request joins a queue, behind the first. *)
Lemma binv_put s Q R ts m x q l' p' Qm Rm : binv s Q R ts -> (m < 7)%nat -> x ∉ concat (map Q (seq 0 7)) -> fresh_rq (bufs s) m q ->
  (forall b, rq_bh q = Some b -> b ∉ holds R ts /\ exists bf, bufs s !! b = Some bf /\ b_lock bf = 1) ->
  length l' = length (reqs s) -> (forall y, y <> x -> y ∉ Q m -> l' !! y = reqs s !! y) ->
  qseg l' p' Qm Rm None -> Qm ≡ₚ x :: Q m -> Rm ≡ₚ q :: R m -> good_queue (bufs s) m Rm -> (m <> swap_major -> sweeps Rm) ->
  binv (set_curs (<[m := p']> (current_request s)) (set_reqs l' s)) (updf Q m Qm) (updf R m Rm) ts.
Proof.
  intros [B1 B2 B3 B4 B5 B6 B7 B8 B9 B10] Hm Hx Hfr Hbq Hlen Hout Hseg PQm PRm Hgd Hsw.
  destruct (concat_at Q (updf Q m Qm) m 7 Hm) as (rQ & PQ & PQ'); [intros; by apply updf_ne|]. rewrite updf_eq in PQ'.
  destruct (concat_at (fun k => rq_bufs (R k)) (fun k => rq_bufs (updf R m Rm k)) m 7 Hm) as (rR & PR & PR'); [intros k Hk; by rewrite updf_ne|]. rewrite updf_eq in PR'.
  set (hb := match rq_bh q with Some b => [b] | None => [] end).
  assert (rq_bufs Rm ≡ₚ hb ++ rq_bufs (R m)) as Eb by (unfold rq_bufs; rewrite PRm; unfold hb; cbn; by destruct (rq_bh q)).
  assert (concat (map (updf Q m Qm) (seq 0 7)) ≡ₚ x :: concat (map Q (seq 0 7))) as PQ2 by (rewrite PQ', PQ; apply (Permutation_app_tail rQ PQm)).
  assert (holds (updf R m Rm) ts ≡ₚ hb ++ holds R ts) as PH by (unfold holds; rewrite PR', PR, Eb; by rewrite <- !app_assoc).
  assert (forall b, b ∈ hb -> b ∉ holds R ts /\ exists bf, bufs s !! b = Some bf /\ b_lock bf = 1) as Hhb.
  { intros b. unfold hb. destruct (rq_bh q) as [b'|] eqn:E; [|by intros ?%not_elem_of_nil]. intros ->%list_elem_of_singleton. by apply Hbq. }
  assert (forall k y, k <> m -> (k < 7)%nat -> y ∈ Q k -> y <> x /\ y ∉ Q m) as Hk.
  { intros k y Hkm Hk7 Hy. split; [intros ->; apply Hx, elem_of_queues; by exists k|]. intros Hym. rewrite PQ in B3. apply NoDup_app in B3 as (_ & Hdis & _). apply (Hdis y Hym).
    assert (y ∈ concat (map (updf Q m []) (seq 0 7))) as Hin by (apply elem_of_queues; exists k; by rewrite updf_ne).
    destruct (concat_at Q (updf Q m []) m 7 Hm) as (r2 & P2 & P2'); [intros; by apply updf_ne|]. rewrite updf_eq in P2'. rewrite P2' in Hin. rewrite PQ in P2. apply Permutation_app_inv_l in P2. by rewrite P2. }
  split; cbn.
  - lia.
  - intros k Hk7. destruct (decide (k = m)) as [->|Hkm].
    + destruct (B2 m Hm) as (p & Hp & _). exists p'. rewrite !updf_eq, list_lookup_insert_eq by (by eapply lookup_lt_Some). done.
    + destruct (B2 k Hk7) as (p & Hp & Hs). exists p. rewrite !updf_ne, list_lookup_insert_ne by done. split; [done|]. eapply qseg_ext; [|exact Hs]. intros y Hy. destruct (Hk k y Hkm Hk7 Hy). by apply Hout.
  - rewrite PQ2. by apply NoDup_cons.
  - intros y r Hy Hn. rewrite PQ2, elem_of_cons in Hn. apply (B4 y r); [|tauto]. rewrite <- Hout; [done|tauto|]. intros Hym. apply Hn. right. apply elem_of_queues. by exists m.
  - intros k Hk7. destruct (decide (k = m)) as [->|Hkm]; [by rewrite updf_eq|rewrite updf_ne by done; by apply B5].
  - rewrite PH. apply NoDup_app. split_and!; [unfold hb; destruct (rq_bh q); repeat constructor; set_solver|intros b Hb; by apply Hhb|done].
  - intros y. rewrite PH, elem_of_app. intros [Hy|Hy]; [by apply Hhb|by apply B7].
  - intros t Ht. by apply B8.
  - intros k Hk7 Hne. destruct (decide (k = m)) as [->|Hkm]; [rewrite updf_eq; by apply Hsw|rewrite updf_ne by done; by apply B9].
  - done.
Qed.

(** The requests of a device without pages are for buffers, the first perhaps
    a sector on. *)
Lemma buf_sector s Q R ts b bf : binv s Q R ts -> bufs s !! b = Some bf -> u32 (Z.shiftl (b_blocknr bf) 1) = 2 * b_blocknr bf /\ 0 <= 2 * b_blocknr bf < 4294967295.
Proof. intros Hi Hb. destruct (bo_each _ (bi_bufs _ _ _ _ Hi) _ _ Hb) as [_ N]. rewrite Z.shiftl_mul_pow2, u32_id by lia. lia. Qed.
Lemma fresh_buf s Q R ts m q : binv s Q R ts -> m <> swap_major -> fresh_rq (bufs s) m q ->
  exists b bf, bufs s !! b = Some bf /\ rq_bh q = Some b /\ rq_dev q = b_dev bf /\ b_dev bf <> 0 /\ rq_nr_sectors q = 2 /\ rq_sector q = 2 * b_blocknr bf.
Proof.
  intros Hi Hne [(b & bf & rw & Hb & -> & _ & _ & Hd)|(page & rw & buffer & me & -> & _ & Hm)]; [|by destruct Hne]. exists b, bf. cbn. rewrite (proj1 (buf_sector _ _ _ _ _ _ Hi Hb)). done.
Qed.
Lemma queued_buf s Q R ts m q : binv s Q R ts -> (m < 7)%nat -> m <> swap_major -> q ∈ R m ->
  exists b bf i, bufs s !! b = Some bf /\ rq_bh q = Some b /\ rq_dev q = b_dev bf /\ b_dev bf <> 0 /\ 0 <= i < 2 /\ rq_sector q = 2 * b_blocknr bf + i.
Proof.
  intros Hi Hm Hne Hq. pose proof (bi_good _ _ _ _ Hi m Hm) as Hg. destruct (R m) as [|h R']; [by apply not_elem_of_nil in Hq|]. destruct Hg as [Hh HR].
  assert (fresh_rq (bufs s) m q -> exists b bf i, bufs s !! b = Some bf /\ rq_bh q = Some b /\ rq_dev q = b_dev bf /\ b_dev bf <> 0 /\ 0 <= i < 2 /\ rq_sector q = 2 * b_blocknr bf + i) as Hf.
  { intros Hf. destruct (fresh_buf _ _ _ _ _ _ Hi Hne Hf) as (b & bf & H1 & H2 & H3 & H4 & _ & H5). exists b, bf, 0. split_and!; (done || lia). }
  apply elem_of_cons in Hq as [->|Hq]; [|rewrite Forall_forall in HR; by apply Hf, HR]. destruct Hh as (q0 & i & e & Hh & Hr & ->).
  destruct (fresh_buf _ _ _ _ _ _ Hi Hne Hh) as (b & bf & H1 & H2 & H3 & H4 & H5 & H6). destruct (buf_sector _ _ _ _ _ _ Hi H1) as [_ Hs]. exists b, bf, i. cbn. rewrite H6, u32_id by lia. destruct (Z.eqb_spec i 0); split_and!; (done || lia).
Qed.
Lemma queued_held s Q R ts m q b : binv s Q R ts -> (m < 7)%nat -> q ∈ R m -> rq_bh q = Some b -> b ∈ holds R ts.
Proof. intros Hi Hm Hq Hb. apply elem_of_app. left. apply elem_of_queues. exists m. split; [done|]. unfold rq_bufs. apply list_elem_of_omap. by exists q. Qed.

(** No request in the queues has the key of a new one. *)
Lemma the_rq_key s Q R ts m b bf rw : binv s Q R ts -> (m < 7)%nat -> m <> swap_major -> b ∉ holds R ts -> bufs s !! b = Some bf -> new (the_rq bf b rw) (R m).
Proof.
  intros Hi Hm Hne Hbn Hb. apply Forall_forall. intros q Hq Hkey. destruct (queued_buf _ _ _ _ _ _ Hi Hm Hne Hq) as (b' & bf' & i & Hb' & Hbh & Hdev & Hd' & Hi2 & Hsec).
  pose proof (queued_held _ _ _ _ _ _ _ Hi Hm Hq Hbh) as Hin. unfold key in Hkey. cbn [rq_cmd rq_dev rq_sector the_rq] in Hkey. injection Hkey as _ E2 E3. rewrite (proj1 (buf_sector _ _ _ _ _ _ Hi Hb)), Hsec in E3.
  apply Hbn. by rewrite (bo_uniq _ (bi_bufs _ _ _ _ Hi) b b' bf bf' Hb Hb' ltac:(congruence) ltac:(lia) ltac:(congruence)).
Qed.
Lemma find_free_ok l n x : find_free l n = Some x -> exists r, l !! x = Some r /\ rq_dev r < 0.
Proof.
  induction n as [|n IH]; [done|]. cbn. destruct (l !! n) as [r|] eqn:E; [|done]. destruct (Z.ltb_spec (rq_dev r) 0); [|exact IH]. intros [= <-]. by exists r.
Qed.
Lemma free_unqueued s Q R ts x r : binv s Q R ts -> reqs s !! x = Some r -> rq_dev r < 0 -> x ∉ concat (map Q (seq 0 7)).
Proof.
  intros Hi Hx Hd Hin. apply elem_of_queues in Hin as (m & Hm & Hx'). apply list_elem_of_lookup in Hx' as [i Hi'].
  destruct (bi_path _ _ _ _ Hi m Hm) as (p & _ & Hseg). pose proof (qseg_length _ _ _ _ _ Hseg) as Hlen.
  destruct (lookup_lt_is_Some_2 (R m) i) as [q Hq]; [rewrite <- Hlen; by eapply lookup_lt_Some|]. destruct (qseg_lookup _ _ _ _ _ _ _ _ Hseg Hi' Hq) as (r' & Hr' & Hc).
  rewrite Hx in Hr'. injection Hr' as <-. destruct (good_for_dev _ _ _ q (bi_bufs _ _ _ _ Hi) (bi_good _ _ _ _ Hi m Hm)) as [Hdev _]; [by eapply list_elem_of_lookup_2|].
  assert (rq_dev r = rq_dev q) as E by (by rewrite <- Hc). lia.
Qed.

(** ** Drivers *)

(** A driver finishes requests of its device, and may change memory; the first
    request of the device may be a sector further, or have one error more. *)
Definition finishes (m : nat) (s s' : bio) : Prop := exists u f, end_request m u (set_ram f s) = Ok tt s'.
Definition moves_on (r r' : request) : Prop := (1 < rq_nr_sectors r /\ (r' = sector_read r \/ r' = sector_written r)) \/ r' = one_error r.
Definition progresses (m : nat) (s s' : bio) : Prop :=
  exists x r r' f, current_request s !! m = Some (Some x) /\ reqs s !! x = Some r /\ moves_on r r' /\ s' = set_reqs (<[x := r']> (reqs s)) (set_ram f s).
Definition drives (m : nat) (s s' : bio) : Prop := finishes m s s' \/ progresses m s s'.

Lemma finishes_binv m s s' Q R ts : (m < 7)%nat -> binv s Q R ts -> finishes m s s' -> exists Q' R', binv s' Q' R' ts.
Proof.
  intros Hm Hi (u & f & E). assert (binv (set_ram f s) Q R ts) as Hi' by (by apply (binv_eq s)). destruct (bi_path _ _ _ _ Hi' m Hm) as (p & Hp & Hseg).
  destruct (Q m) as [|x Q'] eqn:EQ, (R m) as [|q R'] eqn:ER; try done.
  - cbn in Hseg. subst p. unfold end_request in E. rewrite (get_cur_run m None) in E by done. done.
  - destruct (end_request_ok _ Q R ts m x Q' q R' u Hi' Hm EQ ER) as (s2 & E2 & Hi2). rewrite E in E2. injection E2 as <-. by eexists _, _.
Qed.

(** The first request, moved on, still is one of which a part is done, and
    stays ahead of what it was ahead of. *)
Lemma part_moves i e q r' : 0 <= i < rq_nr_sectors q -> moves_on (part_done i e q) r' -> exists i' e', 0 <= i' < rq_nr_sectors q /\ r' = part_done i' e' q.
Proof.
  assert (forall a b x, u32 ((if i =? 0 then x else u32 (x + a * i)) + b) = u32 (x + a * i + b)) as Hw.
  { intros a b x. destruct (Z.eqb_spec i 0) as [->|]; [by rewrite Z.mul_0_r, Z.add_0_r|]. unfold u32. by rewrite Zplus_mod_idemp_l. }
  assert (i + 1 =? 0 = false \/ i < 0) as Hz by (destruct (Z.eqb_spec (i + 1) 0); [right; lia|by left]).
  intros Hi [[Hn Hr]| ->]; [|by exists i, (s32 (e + 1))]. cbn in Hn.
  assert (exists e', r' = mkRq (rq_dev q) (rq_cmd q) e' (u32 (rq_sector (part_done i e q) + 1)) (rq_nr_sectors q - i - 1) (u32 (rq_buffer (part_done i e q) + 512)) (rq_waiting q) (rq_bh q) (rq_next q)) as [e' ->]
    by (destruct Hr as [->| ->]; by eexists).
  exists (i + 1), e'. split; [lia|].
  destruct Hz as [Hz|]; [|lia]. pose proof (Hw 1 1 (rq_sector q)) as H1. pose proof (Hw 512 512 (rq_buffer q)) as H2. rewrite Z.mul_1_l in H1.
  cbn [part_done rq_sector rq_buffer]. unfold part_done. rewrite Hz. replace (rq_sector q + (i + 1)) with (rq_sector q + i + 1) by lia. replace (rq_buffer q + 512 * (i + 1)) with (rq_buffer q + 512 * i + 512) by lia.
  by rewrite <- H1, <- H2, Z.sub_add_distr.
Qed.
Lemma moves_core r r' : moves_on r r' -> rq_next r' = rq_next r /\ moves_on (core r) (core r').
Proof. intros [[Hn [->| ->]]| ->]; (split; [done|]); [left; auto..|right; done]. Qed.
Lemma asc_head h h' l : (forall n, n ∈ l -> before_rq h n -> before_rq h' n) -> asc h l -> asc h' l.
Proof. destruct l as [|n l]; [done|]. intros Hn [H1 H2]. split; [apply Hn; [left|done]|done]. Qed.
Lemma sweeps_head h h' l : (forall n, n ∈ l -> before_rq h n -> before_rq h' n) -> sweeps (h :: l) -> sweeps (h' :: l).
Proof. intros Hn (c & d & -> & Hc & Hd). exists c, d. split; [done|]. split; [|done]. eapply asc_head; [|exact Hc]. intros n Hin. apply Hn, elem_of_app. by left. Qed.

Lemma progresses_binv m s s' Q R ts : (m < 7)%nat -> binv s Q R ts -> progresses m s s' -> exists R', binv s' Q R' ts.
Proof.
  intros Hm Hi (x & r & r' & f & Hcur & Hr & Hmv & ->). destruct (bi_path _ _ _ _ Hi m Hm) as (p & Hp & Hseg). rewrite Hcur in Hp. injection Hp as <-.
  destruct (Q m) as [|y Q'] eqn:EQ, (R m) as [|q R'] eqn:ER; try done. destruct Hseg as ([= <-] & r0 & Hr0 & Hc & Hseg). rewrite Hr in Hr0. injection Hr0 as <-.
  destruct (moves_core _ _ Hmv) as [Hnx Hmc]. rewrite Hc in Hmc. pose proof (bi_good _ _ _ _ Hi m Hm) as Hg. rewrite ER in Hg. destruct Hg as [(q0 & i & e & Hf & Hir & Hq) HR].
  rewrite Hq in Hmc. destruct (part_moves _ _ _ _ Hir Hmc) as (i' & e' & Hi' & Hq').
  assert (rq_bh r' = rq_bh q) as Hbh by (change (rq_bh r') with (rq_bh (core r')); by rewrite Hq', Hq).
  assert (x ∉ Q' /\ forall k, k <> m -> (k < 7)%nat -> x ∉ Q k) as [HxQ Hxk].
  { pose proof (bi_nodup _ _ _ _ Hi) as Hnd. destruct (concat_at Q (updf Q m []) m 7 Hm) as (rQ & PQ & PQ'); [intros; by apply updf_ne|]. rewrite updf_eq in PQ'. rewrite PQ, EQ in Hnd. apply NoDup_cons in Hnd as [Hn _].
    split; [intros Hx; apply Hn, elem_of_app; by left|]. intros k Hkm Hk Hx. apply Hn, elem_of_app. right. change rQ with ([] ++ rQ). rewrite <- PQ'. apply elem_of_queues. exists k. by rewrite updf_ne. }
  assert (forall y, y <> x -> <[x := r']> (reqs s) !! y = reqs s !! y) as Hne by (intros y Hy; by rewrite list_lookup_insert_ne).
  assert (holds (updf R m (core r' :: R')) ts = holds R ts) as Hh.
  { unfold holds. f_equal. f_equal. apply map_ext. intros k. destruct (decide (k = m)) as [->|Hkm]; [|by rewrite updf_ne]. rewrite updf_eq, ER. unfold rq_bufs. cbn. by rewrite Hbh. }
  exists (updf R m (core r' :: R')). pose proof Hi as [B1 B2 B3 B4 B5 B6 B7 B8 B9 B10]. split; cbn [bufs reqs current_request set_reqs set_ram]; rewrite ?Hh; try done.
  - by rewrite length_insert.
  - intros k Hk. destruct (decide (k = m)) as [->|Hkm].
    + exists (Some x). rewrite updf_eq, EQ. split; [done|]. split; [done|]. exists r'. split; [by rewrite list_lookup_insert_eq by (by eapply lookup_lt_Some)|]. split; [done|]. rewrite Hnx.
      eapply qseg_ext; [|exact Hseg]. intros y Hy. apply Hne. by intros ->.
    + destruct (B2 k Hk) as (p & Hpk & Hsk). exists p. rewrite updf_ne by done. split; [done|]. eapply qseg_ext; [|exact Hsk]. intros y Hy. apply Hne. intros ->. by apply (Hxk k).
  - intros y z [(<- & <- & _)|[Hyx Hy]]%list_lookup_insert_Some Hn; [|by apply (B4 y)]. destruct Hn. apply elem_of_queues. exists m. rewrite EQ. split; [done|left].
  - intros k Hk. destruct (decide (k = m)) as [->|Hkm]; [|rewrite updf_ne by done; by apply B5]. rewrite updf_eq. split; [|done]. by exists q0, i', e'.
  - intros k Hk Hks. destruct (decide (k = m)) as [->|Hkm]; [|rewrite updf_ne by done; by apply B9]. rewrite updf_eq. pose proof (B9 m Hk Hks) as Hsw. rewrite ER in Hsw. eapply sweeps_head; [|exact Hsw].
    intros n Hn. unfold before_rq. rewrite !in_order_spec, Hq', Hq. cbn [part_done rq_cmd rq_dev rq_sector].
    rewrite Forall_forall in HR. destruct (fresh_buf _ _ _ _ _ _ Hi Hks (HR n Hn)) as (bn & bfn & Hbn & _ & _ & _ & _ & Hsn).
    destruct (fresh_buf _ _ _ _ _ _ Hi Hks Hf) as (b0 & bf0 & Hb0 & _ & _ & _ & Hn0 & Hs0). destruct (buf_sector _ _ _ _ _ _ Hi Hb0) as [_ Hr0]. rewrite Hsn, Hs0, !u32_id by lia.
    destruct (Z.eqb_spec i 0), (Z.eqb_spec i' 0); lia.
Qed.
Lemma drives_binv m s s' Q R ts : (m < 7)%nat -> binv s Q R ts -> drives m s s' -> exists Q' R', binv s' Q' R' ts.
Proof. intros Hm Hi [Hf|Hp]; [by eapply finishes_binv|]. destruct (progresses_binv m s s' Q R ts Hm Hi Hp) as [R' Hi']. by exists Q, R'. Qed.
Lemma rtc_drives_binv m s s' Q R ts : (m < 7)%nat -> binv s Q R ts -> rtc (drives m) s s' -> exists Q' R', binv s' Q' R' ts.
Proof.
  intros Hm Hi Hr. revert Q R Hi. induction Hr as [s|s s1 s2 Hf _ IH]; intros Q R Hi; [by exists Q, R|]. destruct (drives_binv m s s1 Q R ts Hm Hi Hf) as (Q1 & R1 & Hi1). by eapply IH.
Qed.

End Invariant.

Class DriversOk `{SwapDev} `{Drivers} : Prop :=
  fn_drives : forall m s Q R ts, (m < 7)%nat -> binv s Q R ts -> exists s', request_fn m s = Ok tt s' /\ rtc (drives m) s s'.

(** ** Making requests *)

Lemma queue_short `{SwapDev} s Q R ts m : binv s Q R ts -> (m < 7)%nat -> (length (Q m) <= 32)%nat.
Proof.
  intros Hi Hm. assert (NoDup (Q m)) as Hnd.
  { pose proof (bi_nodup _ _ _ _ Hi) as Hq. destruct (concat_at Q Q m 7 Hm) as (r & P & _); [done|]. rewrite P in Hq. by apply NoDup_app in Hq as [? _]. }
  rewrite <- (length_seq 32 0). apply submseteq_length, NoDup_submseteq; [done|]. intros x [i Hx]%list_elem_of_lookup. apply elem_of_seq.
  destruct (bi_path _ _ _ _ Hi m Hm) as (p & _ & Hseg). destruct (lookup_lt_is_Some_2 (R m) i) as [q Hq]; [rewrite <- (qseg_length _ _ _ _ _ Hseg); by eapply lookup_lt_Some|].
  destruct (qseg_lookup _ _ _ _ _ _ _ _ Hseg Hx Hq) as (r & Hr & _). apply lookup_lt_Some in Hr. rewrite (bi_reqs _ _ _ _ Hi) in Hr. lia.
Qed.

Lemma good_put `{SwapDev} l m q t R : good_queue l m (t :: R) -> fresh_rq l m q -> good_queue l m (put_in q t R).
Proof.
  intros [Ht HR] Hq. destruct (put_head q t R) as (r & E). pose proof (put_perm q t R) as P. rewrite E in P |- *. split; [done|].
  assert (r ≡ₚ q :: R) as Pr by (apply (Permutation_cons_inv (a := t)); rewrite P; constructor). rewrite Pr. by constructor.
Qed.

Section Make.
Context `{DriversOk}.

Lemma add_request_ok s Q R ts m x r0 q : binv s Q R ts -> (m < 7)%nat -> reqs s !! x = Some r0 -> rq_dev r0 < 0 -> fresh_rq (bufs s) m q ->
  (forall b, rq_bh q = Some b -> b ∉ holds R ts /\ exists bf, bufs s !! b = Some bf /\ b_lock bf = 1) ->
  exists s' Q' R', add_request m x (set_reqs (<[x := q]> (reqs s)) s) = Ok tt s' /\ binv s' Q' R' ts.
Proof.
  intros Hi Hm Hx Hd Hfr Hbq. pose proof (free_unqueued _ _ _ _ _ _ Hi Hx Hd) as Hxq. set (l0 := <[x := q]> (reqs s)).
  assert (core q = q) as Hcq by (by destruct Hfr as [(? & ? & ? & _ & -> & _)|(? & ? & ? & ? & -> & _)]).
  assert (x < length (reqs s))%nat as Hxl by (by eapply lookup_lt_Some). assert (l0 !! x = Some q) as Hl0 by (unfold l0; by rewrite list_lookup_insert_eq).
  assert (forall y, y <> x -> l0 !! y = reqs s !! y) as Hl0' by (intros y Hy; unfold l0; by rewrite list_lookup_insert_ne).
  assert (x ∉ Q m) as Hxm by (intros Hin; apply Hxq, elem_of_queues; by exists m).
  destruct (bi_path _ _ _ _ Hi m Hm) as (p & Hp & Hseg).
  assert (qseg l0 p (Q m) (R m) None) as Hseg0 by (eapply qseg_ext; [|exact Hseg]; intros y Hy; apply Hl0'; by intros ->).
  assert (exists s1, (forall k : M bio unit, (upd_rq x (set_rq_next None) ;; q0 ← get_rq x; (match rq_bh q0 with Some bh => upd_buf bh (set_dirt 0) | None => skip end) ;; k) (set_reqs l0 s) = k s1) /\
    reqs s1 = l0 /\ current_request s1 = current_request s /\
    forall c l' Q' R', binv (set_curs c (set_reqs l' s)) Q' R' ts -> binv (set_curs c (set_reqs l' s1)) Q' R' ts) as (s1 & Hrun & Es1 & Ec1 & Hup).
  { assert (forall k : M bio unit, (upd_rq x (set_rq_next None) ;; q0 ← get_rq x; (match rq_bh q0 with Some bh => upd_buf bh (set_dirt 0) | None => skip end) ;; k) (set_reqs l0 s) =
      ((match rq_bh q with Some bh => upd_buf bh (set_dirt 0) | None => skip end) ;; k) (set_reqs l0 s)) as Hstart.
    { intros k. rewrite (upd_rq_run x q) by done. change (set_rq_next None q) with (core q). rewrite Hcq. cbn [reqs set_reqs]. unfold l0 at 1. rewrite list_insert_insert_eq. fold l0.
      change (set_reqs l0 (set_reqs l0 s)) with (set_reqs l0 s). by rewrite (get_rq_run x q) by done. }
    destruct (rq_bh q) as [b|]; [|exists (set_reqs l0 s); by split_and!]. destruct (Hbq b eq_refl) as (_ & bf & Hb & _). exists (set_bufs (<[b := set_dirt 0 bf]> (bufs s)) (set_reqs l0 s)). split_and!; try done.
    - intros k. rewrite Hstart. by rewrite (upd_buf_run b bf).
    - intros c l' Q' R' Hi'. apply (binv_buf _ _ _ _ b bf (set_dirt 0) Hi' Hb); done. }
  unfold add_request. rewrite Hrun. rewrite (get_cur_run m p) by (by rewrite Ec1).
  assert (forall l' p' Qm Rm, length l' = length (reqs s) -> (forall y, y <> x -> y ∉ Q m -> l' !! y = reqs s !! y) -> qseg l' p' Qm Rm None -> Qm ≡ₚ x :: Q m -> Rm ≡ₚ q :: R m ->
    good_queue (bufs s) m Rm -> (m <> swap_major -> sweeps Rm) -> binv (set_curs (<[m := p']> (current_request s)) (set_reqs l' s1)) (updf Q m Qm) (updf R m Rm) ts) as Hput.
  { intros l' p' Qm Rm G1 G2 G3 G4 G5 G6 G7. apply Hup. by apply (binv_put s Q R ts m x q l' p' Qm Rm). }
  destruct (Q m) as [|t Qt] eqn:EQ, (R m) as [|rt Rt] eqn:ER; try done.
  - cbn in Hseg0. subst p. rewrite (bind_ok _ _ _ _ _ (put_cur_run m None (Some x) s1 ltac:(by rewrite Ec1))), Ec1.
    assert (binv (set_curs (<[m := Some x]> (current_request s)) s1) (updf Q m [x]) (updf R m [q]) ts) as Hi1.
    { replace s1 with (set_reqs l0 s1) by (rewrite <- Es1; by destruct s1). apply (Hput l0 (Some x) [x] [q]); [unfold l0; apply length_insert|intros y Hy _; by apply Hl0'|split; [done|]; exists q; rewrite Hl0|done|done| |by exists [], []].
      - rewrite Hcq. split_and!; try done. by destruct Hfr as [(? & ? & ? & _ & -> & _)|(? & ? & ? & ? & -> & _)].
      - apply fresh_good. by constructor. }
    destruct (fn_drives m _ _ _ _ Hm Hi1) as (s' & E & Hr). destruct (rtc_drives_binv m _ _ _ _ _ Hm Hi1 Hr) as (Q' & R' & Hi'). exists s', Q', R'. done.
  - assert (p = Some t) as -> by (by destruct Hseg0). pose proof (queue_short _ _ _ _ m Hi Hm) as Hlen. rewrite EQ in Hlen. cbn in Hlen. rewrite <- Es1 in Hseg0, Hl0.
    destruct (place_loop x q Qt Rt t rt (S NR_REQUEST) s1 Hseg0 Hl0) as (tmp & rtmp & Q1 & Q2 & R1 & R2 & E & E1 & E2 & El & Ep); [unfold NR_REQUEST; lia|]. rewrite (bind_ok _ _ _ _ _ E).
    pose proof Hseg0 as Hseg1. rewrite E1, E2 in Hseg1. apply qseg_app in Hseg1 as (p1 & _ & (_ & t0 & Ht0 & _)); [|done]. rewrite (get_rq_run tmp t0) by done.
    rewrite (upd_rq_run x q) by done. assert (tmp <> x) as Hne by (intros ->; apply Hxm; rewrite E1; set_solver).
    assert ((upd_rq tmp (set_rq_next (Some x))) (set_reqs (<[x := set_rq_next (rq_next t0) q]> (reqs s1)) s1) =
      Ok tt (set_reqs (<[tmp := set_rq_next (Some x) t0]> (<[x := set_rq_next (rq_next t0) q]> (reqs s1))) s1)) as ->.
    { pose proof (upd_rq_run tmp t0 (set_rq_next (Some x)) (set_reqs (<[x := set_rq_next (rq_next t0) q]> (reqs s1)) s1) (fun _ => skip)) as Hu. cbn in Hu. rewrite list_lookup_insert_ne in Hu by done.
      specialize (Hu Ht0). unfold mbind, M_bind in Hu. destruct (upd_rq tmp _ _) as [[] ?|?|?| |]; try done. }
    eexists _, (updf Q m (Q1 ++ tmp :: x :: Q2)), (updf R m (put_in q rt Rt)). split; [reflexivity|]. rewrite Es1 in *.
    eapply binv_eq; [| | |apply (Hput (<[tmp := set_rq_next (Some x) t0]> (<[x := set_rq_next (rq_next t0) q]> l0)) (Some t) (Q1 ++ tmp :: x :: Q2))]; cbn.
    + done.
    + done.
    + rewrite Ec1. by rewrite list_insert_id.
    + unfold l0. by rewrite !length_insert.
    + intros y Hy Hyn. rewrite list_lookup_insert_ne; [rewrite list_lookup_insert_ne by done; by apply Hl0'|]. intros <-. apply Hyn. rewrite E1. set_solver.
    + rewrite <- Hcq at 2. rewrite Ep. replace (Some t) with (head (Q1 ++ tmp :: Q2)) by (by rewrite <- E1). apply qseg_insert; [|done|done|done|by rewrite <- E1, <- E2].
      rewrite <- E1. apply NoDup_cons. split; [done|]. pose proof (bi_nodup _ _ _ _ Hi) as Hnd. destruct (concat_at Q Q m 7 Hm) as (r & P & _); [done|]. rewrite P, EQ in Hnd. by apply NoDup_app in Hnd as [? _].
    + rewrite E1. rewrite <- !Permutation_middle. apply Permutation_swap.
    + apply put_perm.
    + apply good_put; [|done]. rewrite <- ER. by apply (bi_good _ _ _ _ Hi).
    + intros Hns. destruct Hfr as [(b & bf & rw & Hb & Eq & _)|(? & ? & ? & ? & -> & _ & ?)]; [|by destruct Hns]. destruct (Hbq b ltac:(by rewrite Eq)) as [Hbn _].
      pose proof (the_rq_key _ _ _ _ m b bf rw Hi Hm Hns Hbn Hb) as Hnew. rewrite ER, <- Eq in Hnew. pose proof (bi_sweeps _ _ _ _ Hi m Hm Hns) as Hsw. rewrite ER in Hsw. apply put_sweeps; [by rewrite Eq|done|done].
Qed.

(** Tasks go to sleep and are served. *)
Definition ts_after (ts : list rtask) (k b : nat) (o : mout) : list rtask := <[k := match o with MDone => None | MSleep l => Some (b, l) end]> ts.
Lemma holds_at R ts k t t' : ts !! k = Some t -> exists rest, holds R ts ≡ₚ held_by t ++ rest /\ holds R (<[k := t']> ts) ≡ₚ held_by t' ++ rest.
Proof.
  intros Hk. destruct (list_elem_of_split_length _ _ _ Hk) as (l1 & l2 & -> & ->). unfold holds. rewrite insert_app_r_alt, Nat.sub_diag by done. cbn.
  rewrite !map_app, !concat_app. cbn. set (A := concat (map (fun m => rq_bufs (R m)) (seq 0 7))). exists (A ++ concat (map held_by l1) ++ concat (map held_by l2)).
  split; rewrite (Permutation_app_swap_app (concat (map held_by l1))), Permutation_app_swap_app; done.
Qed.
Lemma binv_task s Q R ts k t t' : binv s Q R ts -> ts !! k = Some t -> task_good s t' -> (forall b, b ∈ held_by t' -> b ∉ holds R ts /\ exists bf, bufs s !! b = Some bf /\ b_lock bf = 1) ->
  binv s Q R (<[k := t']> ts).
Proof.
  intros [B1 B2 B3 B4 B5 B6 B7 B8 B9 B10] Hk Hg Hh. destruct (holds_at R ts k t t' Hk) as (rest & P & P'). split; try done.
  - rewrite P'. rewrite P in B6. apply NoDup_app in B6 as (_ & _ & Hr). apply NoDup_app. split_and!; [destruct t' as [[b [|]]|]; cbn; repeat constructor; set_solver| |done].
    intros b Hb Hin. destruct (Hh b Hb) as [Hn _]. apply Hn. rewrite P, elem_of_app. by right.
  - intros b. rewrite P', elem_of_app. intros [Hb|Hb]; [by apply Hh|]. apply B7. rewrite P, elem_of_app. by right.
  - intros u [j Hj]%list_elem_of_lookup. apply list_lookup_insert_Some in Hj as [(_ & <- & _)|[_ Hj]]; [done|]. apply B8. by eapply list_elem_of_lookup_2.
Qed.
Lemma binv_idle s Q R ts k t : binv s Q R ts -> ts !! k = Some t -> binv s Q R (<[k := None]> ts).
Proof. intros Hi Hk. eapply binv_task; [done|done|done|]. intros b Hb. by apply not_elem_of_nil in Hb. Qed.

Section Pieces.
Context s Q R ts k b bf rw (ahead : bool) (Hi : binv s Q R ts) (Hk : ts !! k = Some None) (Hb : bufs s !! b = Some bf)
  (Hm : (Z.to_nat (MAJOR (b_dev bf)) < 7)%nat) (Hd : b_dev bf <> 0) (Hrw : rw_ok rw).

Lemma done_idle : <[k := None]> ts = ts.
Proof. by apply list_insert_id. Qed.
Lemma unlock_ok s1 b1 : bufs s1 = <[b := b1]> (bufs s) -> same_id bf b1 -> b ∉ holds R ts -> reqs s1 = reqs s -> current_request s1 = current_request s ->
  exists s' Q' R', (unlock_buffer b ;; mret MDone) s1 = Ok MDone s' /\ binv s' Q' R' (ts_after ts k b MDone).
Proof.
  intros E1 Hid Hn E2 E3. destruct (unlock_run b b1 s1) as (s' & E & Eb & (F1 & F2 & _)); [rewrite E1, list_lookup_insert_eq by (by eapply lookup_lt_Some); done|].
  exists s', Q, R. rewrite (bind_ok _ _ _ _ _ E). split; [done|]. unfold ts_after. rewrite done_idle.
  eapply binv_eq; [| | |apply (binv_buf s Q R ts b bf (fun _ => set_lock 0 b1) Hi Hb); [exact Hid|done]]; cbn; [by rewrite Eb, E1, list_insert_insert_eq|congruence|congruence].
Qed.
Lemma at_req_ok : b ∉ holds R ts -> b_lock bf = 1 ->
  exists o s' Q' R', at_req (Z.to_nat (MAJOR (b_dev bf))) b rw ahead s = Ok o s' /\ binv s' Q' R' (ts_after ts k b o).
Proof.
  intros Hn Hl. unfold at_req. erewrite bind_ok by reflexivity. destruct (find_free (reqs s) (room rw)) as [x|] eqn:Ef.
  - apply find_free_ok in Ef as (r0 & Hx & Hr0). rewrite (get_buf_run b bf) by done. rewrite (upd_rq_run x r0) by done.
    destruct (add_request_ok s Q R ts _ x r0 (the_rq bf b rw) Hi Hm Hx Hr0) as (s' & Q' & R' & E & Hi'); [left; by exists b, bf, rw|intros b' [= <-]; split; [done|by exists bf]|]. exists MDone, s', Q', R'. rewrite (bind_ok _ _ _ _ _ E).
    split; [done|]. eapply binv_idle; [exact Hi'|exact Hk].
  - destruct ahead.
    + destruct (unlock_ok s bf) as (s' & Q' & R' & E & Hi'); [by rewrite list_insert_id|done|done|done|done|]. by exists MDone, s', Q', R'.
    + exists (MSleep (MReq rw false)), s, Q, R. split; [done|]. eapply binv_task; [exact Hi|exact Hk|by exists bf|]. intros b' ->%list_elem_of_singleton. split; [done|]. by exists bf.
Qed.
End Pieces.

Lemma at_lock_ok s Q R ts k b bf rw ahead : binv s Q R ts -> ts !! k = Some None -> bufs s !! b = Some bf -> (Z.to_nat (MAJOR (b_dev bf)) < 7)%nat -> b_dev bf <> 0 -> rw_ok rw ->
  exists o s' Q' R', at_lock (Z.to_nat (MAJOR (b_dev bf))) b rw ahead s = Ok o s' /\ binv s' Q' R' (ts_after ts k b o).
Proof.
  intros Hi Hk Hb Hm Hd Hrw. unfold at_lock. rewrite (get_buf_run b bf) by done. destruct (Z.eqb_spec (b_lock bf) 0) as [Hl|Hl]; cbn [negb].
  - assert (b ∉ holds R ts) as Hn by (intros Hin; destruct (bi_locks _ _ _ _ Hi b Hin) as (b0 & Hb0 & Hl0); rewrite Hb in Hb0; injection Hb0 as <-; lia).
    rewrite (upd_buf_run b bf) by done. set (s1 := set_bufs _ s). destruct (_ || _).
    + destruct (unlock_ok s Q R ts k b bf Hi Hk Hb s1 (set_lock 1 bf)) as (s' & Q' & R' & E & Hi'); try done. by exists MDone, s', Q', R'.
    + change (b_dev bf) with (b_dev (set_lock 1 bf)). apply (at_req_ok s1 Q R); [by apply (binv_buf _ _ _ _ b bf (set_lock 1))|done|cbn; by rewrite list_lookup_insert_eq by (by eapply lookup_lt_Some)|done|done|done|done|done].
  - exists (MSleep (MLock rw ahead)), s, Q, R. split; [done|]. eapply binv_task; [exact Hi|exact Hk|by exists bf|]. intros b' Hb'. by apply not_elem_of_nil in Hb'.
Qed.
End Make.

(** ** The ram disk keeps to this *)

Lemma binv_head `{SwapDev} s Q R ts m x Q' : binv s Q R ts -> (m < 7)%nat -> Q m = x :: Q' -> exists q R' r,
  R m = q :: R' /\ current_request s !! m = Some (Some x) /\ reqs s !! x = Some r /\ MAJOR (rq_dev r) = Z.of_nat m /\ rw_ok (rq_cmd r) /\
  forall b, rq_bh r = Some b -> exists bf, bufs s !! b = Some bf /\ b_lock bf = 1.
Proof.
  intros Hi Hm EQ. destruct (bi_path _ _ _ _ Hi m Hm) as (p & Hp & Hseg). rewrite EQ in Hseg. destruct (R m) as [|q R'] eqn:ER; [done|]. destruct Hseg as (-> & r & Hr & Hc & _).
  assert (q ∈ R m) as Hq by (rewrite ER; left). destruct (good_for_dev _ _ _ q (bi_bufs _ _ _ _ Hi) (bi_good _ _ _ _ Hi m Hm) Hq) as (_ & Hmj & Hrw & _).
  assert (rq_dev r = rq_dev q /\ rq_cmd r = rq_cmd q /\ rq_bh r = rq_bh q) as (E1 & E2 & E3) by (by rewrite <- Hc). exists q, R', r. rewrite E1, E2, E3. split_and!; try done.
  intros b Hb. apply (bi_locks _ _ _ _ Hi). by apply (queued_held s Q R ts m q).
Qed.
Lemma set_ram_id s : set_ram (ram s) s = s.
Proof. by destruct s. Qed.

(** One request of the ram disk. *)
Lemma rd_step_ok `{SwapDev} s Q R ts x Q' : binv s Q R ts -> Q 1%nat = x :: Q' -> exists u f s', rd_step tt s = Ok (inl tt) s' /\ end_request 1 u (set_ram f s) = Ok tt s' /\
  exists R', binv s' (updf Q 1 Q') (updf R 1 R') ts.
Proof.
  intros Hi EQ. destruct (binv_head s Q R ts 1 x Q' Hi ltac:(lia) EQ) as (q & R' & r & ER & Hcur & Hr & Em & Hrw & Hlock).
  assert (forall u f, exists s', end_request 1 u (set_ram f s) = Ok tt s' /\ binv s' (updf Q 1 Q') (updf R 1 R') ts) as Hend.
  { intros u f. destruct (end_request_ok (set_ram f s) Q R ts 1 x Q' q R' u) as (s' & E & Hi'); [by apply (binv_eq s)|lia|done|done|]. by exists s'. }
  unfold rd_step. rewrite (get_cur_run 1 (Some x)) by done. rewrite (get_rq_run x r), Em by done. change (Z.of_nat 1 =? 1) with true. cbn [negb].
  rewrite (bind_ok _ _ _ tt s) by (destruct (rq_bh r) as [b|]; [|done]; destruct (Hlock b eq_refl) as (bf & Hb & Hl); rewrite (get_buf_run b bf), (proj2 (Z.eqb_neq _ _)) by (done || lia); done).
  erewrite bind_ok by reflexivity. destruct (_ || _).
  - destruct (Hend 0 (ram s)) as (s' & E & Hi'). exists 0, (ram s), s'. rewrite set_ram_id in *. rewrite (bind_ok _ _ _ _ _ E). split_and!; [done|done|by exists R'].
  - destruct Hrw as [-> | ->]; cbn [Z.eqb READ WRITE]; unfold memcpy; erewrite bind_ok by reflexivity.
    all: match goal with |- context [set_ram ?g _] => destruct (Hend 1 g) as (s' & E & Hi'); exists 1, g, s' end; rewrite (bind_ok _ _ _ _ _ E); split_and!; [done|done|by exists R'].
Qed.
#[export] Instance drivers_ok `{SwapDev} : DriversOk (H0 := drivers).
Proof.
  intros m s Q R ts Hm Hi. cbn [request_fn drivers]. destruct (Nat.eqb_spec m 1) as [->|]; [|exists s; split; [done|apply rtc_refl]].
  unfold do_rd_request. assert (length (Q 1%nat) < S (S NR_REQUEST))%nat as Hn by (pose proof (queue_short _ _ _ _ 1 Hi Hm); unfold NR_REQUEST; lia).
  revert s Q R Hi Hn. generalize (S (S NR_REQUEST)). intros n. induction n as [|n IH]; intros s Q R Hi Hn; [lia|]. destruct (Q 1%nat) as [|x Q'] eqn:EQ.
  - exists s. split; [|apply rtc_refl]. apply loop_done. unfold rd_step. destruct (bi_path _ _ _ _ Hi 1%nat Hm) as (p & Hp & Hseg). rewrite EQ in Hseg. destruct (R 1%nat); [|done]. cbn in Hseg. subst p.
    by rewrite (get_cur_run 1 None).
  - destruct (rd_step_ok s Q R ts x Q' Hi EQ) as (u & f & s1 & E & Ee & R' & Hi1). destruct (IH s1 _ _ Hi1) as (s' & E' & Hr); [rewrite updf_eq; cbn in Hn; lia|].
    exists s'. rewrite (loop_next _ _ _ _ _ _ E). split; [done|]. eapply rtc_l; [left; by exists u, f|done].
Qed.

(** ** The system *)

Record rsys := mkR { io : bio; rts : list rtask }.
Definition command (rw : Z) : Prop := rw = READ \/ rw = WRITE \/ rw = READA \/ rw = WRITEA.
Definition on_device (s : bio) (b : nat) : Prop := exists bf, bufs s !! b = Some bf /\ b_dev bf <> 0.

Section System.
Context `{DriversOk}.

(** A task asks for a block, or for a page of the swap device; one that slept
    goes on; a device gets further with its first request or finishes it; a
    user marks a buffer dirty or out of date. *)
Inductive rstep : rsys -> rsys -> Prop :=
| rs_call s k rw b o s' : rts s !! k = Some None -> command rw -> on_device (io s) b -> ll_rw_block rw b (io s) = Ok o s' -> rstep s (mkR s' (ts_after (rts s) k b o))
| rs_resume s k b l o s' : rts s !! k = Some (Some (b, l)) -> resume b l (io s) = Ok o s' -> rstep s (mkR s' (ts_after (rts s) k b o))
| rs_page s k rw page buffer o s' : rts s !! k = Some None -> rw_ok rw -> ll_rw_page rw swap_dev page buffer k (io s) = Ok o s' -> rstep s (mkR s' (rts s))
| rs_drive s m s' : (m < 7)%nat -> drives m (io s) s' -> rstep s (mkR s' (rts s))
| rs_flags s b bf u d : bufs (io s) !! b = Some bf -> rstep s (mkR (set_bufs (<[b := set_flags u d (b_lock bf) bf]> (bufs (io s))) (io s)) (rts s)).

Definition rinv (s : rsys) : Prop := exists Q R, binv (io s) Q R (rts s).

Lemma ll_rw_block_ok s Q R ts k rw b : binv s Q R ts -> ts !! k = Some None -> command rw -> on_device s b ->
  exists o s' Q' R', ll_rw_block rw b s = Ok o s' /\ binv s' Q' R' (ts_after ts k b o).
Proof.
  intros Hi Hk Hrw (bf & Hb & Hd). unfold ll_rw_block. rewrite (get_buf_run b bf) by done. unfold driver. erewrite bind_ok by reflexivity.
  destruct (_ && _) eqn:Ed; cbn [negb].
  - apply andb_true_iff in Ed as [Ed%Z.ltb_lt _]. assert (Z.to_nat (MAJOR (b_dev bf)) < 7)%nat as Hm by (change (Z.of_nat NR_BLK_DEV) with 7 in Ed; lia).
    unfold make_request. rewrite (get_buf_run b bf) by done. set (ahead := (rw =? READA) || (rw =? WRITEA)). destruct (ahead && _) eqn:Ea.
    + exists MDone, s, Q, R. split; [done|]. by eapply binv_idle.
    + assert (rw_ok (if ahead then if rw =? READA then READ else WRITE else rw)) as Hrw' by (unfold ahead; destruct Hrw as [->|[->|[->| ->]]]; [by left|by right|by left|by right]).
      set (rw' := if ahead then _ else rw) in *. replace (negb (rw' =? READ) && negb (rw' =? WRITE)) with false by (by destruct Hrw' as [->| ->]). by apply (at_lock_ok s Q R).
  - eexists MDone, _, Q, R. split; [unfold printk; erewrite bind_ok by reflexivity; reflexivity|]. eapply binv_idle; [|exact Hk]. by apply (binv_eq s).
Qed.
Lemma ll_rw_page_ok s Q R ts rw page buffer k : binv s Q R ts -> rw_ok rw ->
  exists o s' Q' R', ll_rw_page rw swap_dev page buffer k s = Ok o s' /\ binv s' Q' R' ts.
Proof.
  intros Hi Hrw. unfold ll_rw_page, driver. erewrite bind_ok by reflexivity. destruct (_ && _) eqn:Ed; cbn [negb].
  - apply andb_true_iff in Ed as [Ed%Z.ltb_lt _]. pose proof (major_nonneg swap_dev) as Hmj. assert (Z.to_nat (MAJOR swap_dev) < 7)%nat as Hm by (change (Z.of_nat NR_BLK_DEV) with 7 in Ed; lia).
    replace (negb (rw =? READ) && negb (rw =? WRITE)) with false by (by destruct Hrw as [->| ->]). erewrite bind_ok by reflexivity.
    destruct (find_free (reqs s) NR_REQUEST) as [x|] eqn:Ef; [|by exists None, s, Q, R]. apply find_free_ok in Ef as (r0 & Hx & Hr0). rewrite (upd_rq_run x r0) by done.
    destruct (add_request_ok s Q R ts (Z.to_nat (MAJOR swap_dev)) x r0 (page_rq page rw buffer k) Hi Hm Hx Hr0) as (s' & Q' & R' & E & Hi'); [right; by exists page, rw, buffer, k|done|].
    exists (Some tt), s', Q', R'. by rewrite (bind_ok _ _ _ _ _ E).
  - eexists (Some tt), _, Q, R. split; [unfold printk; erewrite bind_ok by reflexivity; reflexivity|]. by apply (binv_eq s).
Qed.
Lemma resume_ok s Q R ts k b l : binv s Q R ts -> ts !! k = Some (Some (b, l)) -> exists o s' Q' R', resume b l s = Ok o s' /\ binv s' Q' R' (ts_after ts k b o).
Proof.
  intros Hi Hk. destruct (bi_tasks _ _ _ _ Hi (Some (b, l))) as (bf & Hb & Hm & Hd & Hrw); [by eapply list_elem_of_lookup_2|]. pose proof (binv_idle _ _ _ _ _ _ Hi Hk) as Hi0.
  assert (<[k := None]> ts !! k = Some None) as Hk0 by (by rewrite list_lookup_insert_eq by (by eapply lookup_lt_Some)).
  assert (forall o, ts_after (<[k := None]> ts) k b o = ts_after ts k b o) as Hta by (intros o; unfold ts_after; by rewrite list_insert_insert_eq).
  unfold resume. rewrite (get_buf_run b bf) by done. destruct l as [rw ahead|rw ahead].
  - destruct (at_lock_ok s Q R _ k b bf rw ahead Hi0 Hk0 Hb Hm Hd Hrw) as (o & s' & Q' & R' & E & Hi'). rewrite Hta in Hi'. by exists o, s', Q', R'.
  - destruct (holds_at R ts k _ None Hk) as (rest & P & P'). pose proof (bi_holds _ _ _ _ Hi) as Hnd. rewrite P in Hnd. cbn in Hnd, P'. apply NoDup_cons in Hnd as [Hn _].
    destruct (bi_locks _ _ _ _ Hi b) as (bf' & Hb' & Hl); [rewrite P; cbn; left|]. rewrite Hb in Hb'. injection Hb' as <-.
    destruct (at_req_ok s Q R _ k b bf rw ahead Hi0 Hk0 Hb Hm Hd Hrw) as (o & s' & Q' & R' & E & Hi'); [by rewrite P'|done|]. rewrite Hta in Hi'. by exists o, s', Q', R'.
Qed.
Lemma rinv_rstep s s' : rinv s -> rstep s s' -> rinv s'.
Proof.
  intros (Q & R & Hi) Hst. destruct Hst as [s k rw b o s' Hk Hrw Hd E|s k b l o s' Hk E|s k rw page buffer o s' Hk Hrw E|s m s' Hm Hf|s b bf u d Hb].
  - destruct (ll_rw_block_ok _ Q R _ k rw b Hi Hk Hrw Hd) as (o' & s2 & Q' & R' & E2 & Hi'). rewrite E in E2. injection E2 as <- <-. by exists Q', R'.
  - destruct (resume_ok _ Q R _ k b l Hi Hk) as (o' & s2 & Q' & R' & E2 & Hi'). rewrite E in E2. injection E2 as <- <-. by exists Q', R'.
  - destruct (ll_rw_page_ok _ Q R _ rw page buffer k Hi Hrw) as (o' & s2 & Q' & R' & E2 & Hi'). rewrite E in E2. injection E2 as <- <-. by exists Q', R'.
  - destruct (drives_binv m _ _ Q R _ Hm Hi Hf) as (Q' & R' & Hi'). by exists Q', R'.
  - exists Q, R. by apply (binv_buf _ _ _ _ b bf (set_flags u d (b_lock bf))).
Qed.
Lemma rinv_runs s s' : rinv s -> rtc rstep s s' -> rinv s'.
Proof. intros Hi Hr. induction Hr as [|s s1 s2 Hst _ IH]; [done|]. by apply IH, (rinv_rstep s). Qed.
End System.

(** ** Start-up *)

Lemma blk_init_ok s : length (reqs s) = 32%nat -> exists s', blk_dev_init s = Ok tt s' /\ bufs s' = bufs s /\ current_request s' = current_request s /\ length (reqs s') = 32%nat /\
  forall x r, reqs s' !! x = Some r -> rq_dev r = -1.
Proof.
  intros Hl. assert (wp blk_dev_init (fun _ s' => bufs s' = bufs s /\ current_request s' = current_request s /\ length (reqs s') = 32%nat /\
    forall x r, (x < 0 + NR_REQUEST)%nat -> reqs s' !! x = Some r -> rq_dev r = -1) s) as Hwp.
  { apply (wp_for_range (fun j s' => bufs s' = bufs s /\ current_request s' = current_request s /\ length (reqs s') = 32%nat /\ forall x r, (x < j)%nat -> reqs s' !! x = Some r -> rq_dev r = -1)).
    - intros j s1 Hj (E1 & E2 & E3 & E4). destruct (lookup_lt_is_Some_2 (reqs s1) j) as [r0 Hr0]; [unfold NR_REQUEST in Hj; lia|].
      unfold wp, upd_rq. rewrite (get_rq_run j r0) by done. cbn. rewrite length_insert. split_and!; try done.
      intros x r Hx [(<- & <- & _)|[Hne Hr]]%list_lookup_insert_Some; [done|]. apply (E4 x r); [lia|done].
    - split_and!; try done. intros x r Hx. lia. }
  apply wp_inv in Hwp as ([] & s' & E & H1 & H2 & H3 & H4). exists s'. split_and!; try done. intros x r Hr. apply (H4 x r); [apply lookup_lt_Some in Hr; unfold NR_REQUEST; lia|done].
Qed.
Lemma start_rinv `{SwapDev} s n : length (reqs s) = 32%nat -> current_request s = replicate 7 None -> (forall x r, reqs s !! x = Some r -> rq_dev r = -1) -> bufs_ok (bufs s) -> rinv (mkR s (replicate n None)).
Proof.
  intros H1 H2 H3 H4. exists (fun _ => []), (fun _ => []). assert (holds (fun _ => []) (replicate n None) = []) as Hh by (unfold holds; cbn; induction n; [done|exact IHn]).
  split; cbn [io rts]; rewrite ?Hh; try done.
  - intros m Hm. exists None. rewrite H2. by rewrite lookup_replicate_2.
  - apply NoDup_nil_2.
  - intros x r Hx _. rewrite (H3 x r Hx). lia.
  - apply NoDup_nil_2.
  - intros b Hb. by apply not_elem_of_nil in Hb.
  - intros t Ht. apply elem_of_replicate in Ht as [-> _]. done.
Qed.


(** ** Two tasks and a disk *)

Definition no_rq : request := mkRq 0 0 0 0 0 0 None None None.
(** Buffer [i] of block [n] of the first partition of the hard disk. *)
Definition disk_buf (n : Z) : buffer_head := mkBh (65536 + 1024 * n) n 769 0 0 1 0 None None None None.
Definition disk_io : bio :=
  mkBio [disk_buf 10; disk_buf 20; disk_buf 5; disk_buf 15] (replicate 32 no_rq) (replicate 7 None) [false; false; true; true; false; false; false] (fun _ => 0) 0 0 [].
(** Pages are swapped on a floppy disk. *)
#[local] Instance swap_floppy : SwapDev := {| swap_dev := 513; swap_dev_ok := ltac:(lia) |}.
Lemma disk_bufs_ok : bufs_ok (bufs disk_io).
Proof.
  split.
  - apply Forall_lookup. repeat constructor; cbn; lia.
  - intros i j b c Hi Hj _ Hn _. destruct i as [|[|[|[|i]]]], j as [|[|[|[|j]]]]; cbn in Hi, Hj; simplify_eq; try done; cbn in Hn; lia.
Qed.
Definition init_io : option bio := match blk_dev_init disk_io with Ok _ s => Some s | _ => None end.
(** The blocks of the queue of major 3, from the first request on. *)
Fixpoint queue_blocks (n : nat) (s : bio) (p : option nat) : list Z :=
  match n, p with
  | S n, Some x => match reqs s !! x with Some r => rq_sector r / 2 :: queue_blocks n s (rq_next r) | None => [] end
  | _, _ => []
  end.
Definition asks (b : nat) (s : bio) : option bio := match ll_rw_block READ b s with Ok MDone s' => Some s' | _ => None end.
Fixpoint asks_all (bs : list nat) (s : bio) : option bio := match bs with [] => Some s | b :: bs => s ← asks b s; asks_all bs s end.

(** The disk has read the first sector of its first request. *)
Definition first_sector (s : bio) : option bio :=
  match current_request s !! 3%nat with
  | Some (Some x) => r ← reqs s !! x; Some (set_reqs (<[x := sector_read r]> (reqs s)) (set_ram (ram s) s))
  | _ => None
  end.
Definition swaps (page : Z) (s : bio) : option bio := match ll_rw_page READ 513 page 0 0 s with Ok (Some tt) s' => Some s' | _ => None end.


(** ** Slips *)

(** A read that comes between the current request and a page being read from
    the swap device goes ahead of the page. *)
Example swap_overtaken : match (s ← init_io; s ← asks 0 s; match ll_rw_page READ 769 100 0 0 s with Ok (Some tt) s' => asks 1 s' | _ => None end) with
  | Some s => queue_blocks 10 s (mjoin (current_request s !! 3%nat)) = [10; 20; 400] | None => False end.
Proof. vm_compute. reflexivity. Qed.
(** Pages are put one behind the other, whatever their place: with three of
    them the arm turns three times. *)
Example swap_not_sorted : match (s ← init_io; s ← asks 0 s; match (ll_rw_page READ 769 300 0 0 ;; ll_rw_page READ 769 200 0 0 ;; ll_rw_page READ 769 100 0 0) s with Ok (Some tt) s' => Some s' | _ => None end) with
  | Some s => queue_blocks 10 s (mjoin (current_request s !! 3%nat)) = [10; 1200; 800; 400] | None => False end.
Proof. vm_compute. reflexivity. Qed.
(** An error on a page of the swap device has the number of the block read
    through the null pointer to the buffer it does not have. *)
Example swap_error_null : match (s ← init_io; match (ll_rw_page READ 769 5 0 0 ;; end_request 3 0) s with Ok _ s' => Some s' | _ => None end) with
  | Some s => printed s = ["I/O error"; "dev, block through a null pointer"]%string | None => False end.
Proof. vm_compute. reflexivity. Qed.
