(* ===== verification/Ide.v ===== *)
(** * The IDE disk driver

    Models [ide.c].  A buffer is an index into [ib], with the fields the
    driver uses.  What goes out to the ports is recorded in [outs]; what the
    controller answers is an argument of the routines that read it.  The
    routines run with [idelock] held, so they are atomic; [iderw] is cut where
    it sleeps, and [chans] has the buffer each process sleeps on, until
    [wakeup].  That requests are served in the order of the calls, one at a
    time, that nobody sleeps on a buffer that is not queued, and what the
    controller makes of what goes out to its ports. *)

From S2P Require Import Prelude.

Definition SECTOR_SIZE : Z := 512.
Definition IDE_BSIZE : Z := 512.
Definition IDE_FSSIZE : Z := 1000.
Definition IDE_BSY : Z := 128.
Definition IDE_DRDY : Z := 64.
Definition IDE_DF : Z := 32.
Definition IDE_ERR : Z := 1.
Definition IDE_CMD_READ : Z := 32.
Definition IDE_CMD_WRITE : Z := 48.
Definition IDE_CMD_RDMUL : Z := 196.
Definition IDE_CMD_WRMUL : Z := 197.
Definition IB_VALID : Z := 2.
Definition IB_DIRTY : Z := 4.

Record ibuf := mkIb { i_flags : Z; i_dev : Z; i_blockno : Z; i_qnext : option nat; i_data : list Z }.
Definition set_iflags v b := mkIb v (i_dev b) (i_blockno b) (i_qnext b) (i_data b).
Definition set_iqnext v b := mkIb (i_flags b) (i_dev b) (i_blockno b) v (i_data b).
Definition set_idata v b := mkIb (i_flags b) (i_dev b) (i_blockno b) (i_qnext b) v.

Inductive out := Outb (port v : Z) | Outsl (port : Z) (d : list Z).
Record idest := mkIde { ib : list ibuf; idequeue : option nat; havedisk1 : Z; outs : list out; chans : list (option nat) }.
Definition set_ib v s := mkIde v (idequeue s) (havedisk1 s) (outs s) (chans s).
Definition set_ideq v s := mkIde (ib s) v (havedisk1 s) (outs s) (chans s).
Definition set_disk1 v s := mkIde (ib s) (idequeue s) v (outs s) (chans s).
Definition set_chans v s := mkIde (ib s) (idequeue s) (havedisk1 s) (outs s) v.
Definition send (l : list out) : M idest unit := modify (fun s => mkIde (ib s) (idequeue s) (havedisk1 s) (outs s ++ l) (chans s)).

(** [sleep(b, &idelock)] of process [k], up to where it gives up the CPU, and
    [wakeup(b)]. *)
Definition ide_sleep (k b : nat) : M idest unit := l ← gets chans; idx l k ;; modify (set_chans (<[k := Some b]> l)).
Definition woken_from (b : nat) (c : option nat) : option nat := if bool_decide (c = Some b) then None else c.
Definition ide_wakeup (b : nat) : M idest unit := modify (fun s => set_chans (woken_from b <$> chans s) s).

Definition get_ib (i : nat) : M idest ibuf := l ← gets ib; idx l i.
Definition upd_ib (i : nat) (f : ibuf -> ibuf) : M idest unit := b ← get_ib i; modify (fun s => set_ib (<[i := f b]> (ib s)) s).

(** [r] is the first status of the controller with [IDE_DRDY] alone of the two
    bits waited for. *)
Definition idewait (checkerr r : Z) : Z :=
  if negb (checkerr =? 0) && negb (Z.land r (Z.lor IDE_DF IDE_ERR) =? 0) then -1 else 0.

(** [probe] are the readings of the status of disk 1. *)
Definition ideinit (probe : list Z) : M idest unit :=
  send [Outb 502 (Z.lor 224 (Z.shiftl 1 4))] ;;
  (if existsb (fun r => negb (r =? 0)) (take 1000 probe) then modify (set_disk1 1) else skip) ;;
  send [Outb 502 (Z.lor 224 (Z.shiftl 0 4))].

(** What starts the request for a buffer. *)
Definition start_outs (b : ibuf) : list out :=
  let sector_per_block := IDE_BSIZE / SECTOR_SIZE in
  let sector := s32 (i_blockno b * sector_per_block) in
  let read_cmd := if sector_per_block =? 1 then IDE_CMD_READ else IDE_CMD_RDMUL in
  let write_cmd := if sector_per_block =? 1 then IDE_CMD_WRITE else IDE_CMD_WRMUL in
  [Outb 1014 0; Outb 498 sector_per_block; Outb 499 (Z.land sector 255); Outb 500 (Z.land (Z.shiftr sector 8) 255); Outb 501 (Z.land (Z.shiftr sector 16) 255);
   Outb 502 (Z.lor (Z.lor 224 (Z.shiftl (Z.land (i_dev b) 1) 4)) (Z.land (Z.shiftr sector 24) 15))] ++
  (if negb (Z.land (i_flags b) IB_DIRTY =? 0) then [Outb 503 write_cmd; Outsl 496 (i_data b)] else [Outb 503 read_cmd]).
Definition idestart (b : option nat) : M idest unit :=
  match b with
  | None => panic "idestart"
  | Some i =>
      b ← get_ib i;
      if IDE_FSSIZE <=? i_blockno b then panic "incorrect blockno" else
      if 7 <? IDE_BSIZE / SECTOR_SIZE then panic "idestart" else
      send (start_outs b)
  end.

(** The controller answers with the status [r] and the data [d]. *)
Definition ideintr (r : Z) (d : list Z) : M idest unit :=
  q ← gets idequeue;
  match q with
  | None => skip
  | Some i =>
      b ← get_ib i;
      modify (set_ideq (i_qnext b)) ;;
      (if (Z.land (i_flags b) IB_DIRTY =? 0) && (0 <=? idewait 1 r) then upd_ib i (set_idata d) else skip) ;;
      upd_ib i (fun b => set_iflags (Z.lor (i_flags b) IB_VALID) b) ;;
      upd_ib i (fun b => set_iflags (Z.land (i_flags b) (Z.lnot IB_DIRTY)) b) ;;
      ide_wakeup i ;;
      q ← gets idequeue;
      match q with None => skip | Some n => idestart (Some n) end
  end.

Definition tail_step (b tmp : nat) : M idest (nat + unit) :=
  t ← get_ib tmp;
  match i_qnext t with
  | Some n => mret (inl n)
  | None => upd_ib tmp (set_iqnext (Some b)) ;; mret (inr tt)
  end.
(** Is the buffer up to date and clean? *)
Definition synced (b : ibuf) : bool := Z.land (i_flags b) (Z.lor IB_VALID IB_DIRTY) =? IB_VALID.
(** The loop at the end of [iderw]: [true] when it is left, [false] when it
    sleeps. *)
Definition iderw_wait (k b : nat) : M idest bool := x ← get_ib b; if synced x then mret true else ide_sleep k b ;; mret false.
(** The call of process [k]; [held] is what [holdingsleep] finds. *)
Definition iderw (held : bool) (k b : nat) : M idest bool :=
  x ← get_ib b;
  if negb held then panic "iderw: buf not locked" else
  if synced x then panic "iderw: nothing to do" else
  h ← gets havedisk1;
  if negb (i_dev x =? 0) && (h =? 0) then panic "iderw: ide disk 1 not present" else
  upd_ib b (set_iqnext None) ;;
  q ← gets idequeue; l ← gets ib;
  (match q with None => modify (set_ideq (Some b)) | Some t => loop (S (length l)) (tail_step b) t end) ;;
  q ← gets idequeue;
  (if bool_decide (q = Some b) then idestart (Some b) else skip) ;;
  iderw_wait k b.

(** ** The controller

    What a controller with the registers of an ATA drive makes of the writes to
    its ports: the number of sectors (port 0x1f2), the sector in four parts
    (0x1f3 to 0x1f5, and the low bits of 0x1f6) and the drive (bit 4 of 0x1f6)
    are taken when the command is given (0x1f7), 0x20 to read and 0x30 to write
    the data that follow (0x1f0). *)
Record request := mkRq { rq_write : bool; rq_drive : Z; rq_sector : Z; rq_count : Z; rq_data : list Z }.
Record ctl := mkCtl { reg : Z -> Z; given : list request }.
Definition ctl_step (c : ctl) (o : out) : ctl :=
  match o with
  | Outb port v =>
      if port =? 503 then
        mkCtl (reg c) (mkRq (v =? 48) (Z.b2z (Z.testbit (reg c 502) 4)) (reg c 499 + 256 * reg c 500 + 65536 * reg c 501 + 16777216 * (reg c 502 mod 16)) (reg c 498) [] :: given c)
      else mkCtl (fun p => if p =? port then v else reg c p) (given c)
  | Outsl port d =>
      match given c with
      | q :: l => if port =? 496 then mkCtl (reg c) (mkRq (rq_write q) (rq_drive q) (rq_sector q) (rq_count q) d :: l) else c
      | [] => c
      end
  end.
(** The requests given so far, the first first. *)
Definition requests (l : list out) : list request := reverse (given (fold_left ctl_step l (mkCtl (fun _ => 0) []))).

(** What a caller of [iderw] asks for: the block of the buffer, of one sector,
    written when the buffer is dirty and read otherwise. *)
Definition request_of (b : ibuf) : request :=
  mkRq (Z.testbit (i_flags b) 2) (i_dev b mod 2) (i_blockno b) 1 (if Z.testbit (i_flags b) 2 then i_data b else []).

Lemma dirty_bit f : negb (Z.land f IB_DIRTY =? 0) = Z.testbit f 2.
Proof.
  change IB_DIRTY with (2 ^ 2). destruct (Z.testbit f 2) eqn:E; [apply negb_true_iff, Z.eqb_neq|apply negb_false_iff, Z.eqb_eq].
  - intros H. apply (f_equal (fun w => Z.testbit w 2)) in H. rewrite Z.land_spec, E, Z.pow2_bits_true in H; [discriminate|lia].
  - apply Z.bits_inj'. intros m Hm. rewrite Z.land_spec, Z.testbit_0_l, Z.pow2_bits_eqb by lia. destruct (Z.eqb_spec 2 m) as [<-|]; [by rewrite E|apply andb_false_r].
Qed.
(** The sector and the drive as the registers give them. *)
Lemma sector_parts n : 0 <= n < IDE_FSSIZE ->
  Z.land n 255 + 256 * Z.land (Z.shiftr n 8) 255 + 65536 * Z.land (Z.shiftr n 16) 255 = n /\ Z.land (Z.shiftr n 24) 15 = 0.
Proof.
  unfold IDE_FSSIZE. intros Hn. change 255 with (Z.ones 8). change 15 with (Z.ones 4). rewrite !Z.land_ones, !Z.shiftr_div_pow2 by lia.
  rewrite (Z.div_small n (2 ^ 16)), (Z.div_small n (2 ^ 24)), (Z.mod_small (n / 2 ^ 8) (2 ^ 8)) by (try apply Z.div_lt_upper_bound; try apply Z.div_pos; lia || (split; [apply Z.div_pos|apply Z.div_lt_upper_bound]; lia)).
  change (2 ^ 8) with 256. pose proof (Z.div_mod n 256). split; [rewrite Z.mod_0_l; lia|done].
Qed.
Lemma drive_part d : let v := Z.lor (Z.lor 224 (Z.shiftl (Z.land d 1) 4)) 0 in Z.b2z (Z.testbit v 4) = d mod 2 /\ v mod 16 = 0.
Proof.
  cbn. change 1 with (Z.ones 1). rewrite Z.land_ones by lia. change (2 ^ 1) with 2. rewrite Z.lor_0_r.
  pose proof (Z.mod_pos_bound d 2 ltac:(lia)) as Hd. assert (d mod 2 = 0 \/ d mod 2 = 1) as [->| ->] by lia; done.
Qed.
Lemma requests_start l b : 0 <= i_blockno b < IDE_FSSIZE -> requests (l ++ start_outs b) = requests l ++ [request_of b].
Proof.
  intros Hb. unfold requests. rewrite fold_left_app. set (c := fold_left ctl_step l _).
  assert (given (fold_left ctl_step (start_outs b) c) = request_of b :: given c) as ->; [|apply reverse_cons].
  destruct (sector_parts (i_blockno b) Hb) as [E1 E2]. destruct (drive_part (i_dev b)) as [E3 E4]. unfold start_outs, request_of.
  change (IDE_BSIZE / SECTOR_SIZE) with 1. rewrite Z.mul_1_r, s32_id by (unfold IDE_FSSIZE in Hb; lia). rewrite E2, dirty_bit.
  destruct (Z.testbit (i_flags b) 2); cbn -[Z.mul Z.add Z.lor Z.land Z.shiftl Z.shiftr Z.testbit Z.modulo]; f_equal; rewrite E3, E4, E1, Z.mul_0_r, Z.add_0_r; done.
Qed.

(** ** The queue *)

Fixpoint qlist (l : list ibuf) (p : option nat) (Q : list nat) : Prop :=
  match Q with [] => p = None | x :: Q' => p = Some x /\ exists b, l !! x = Some b /\ qlist l (i_qnext b) Q' end.
Lemma qlist_ext l l' Q : forall p, (forall x b, x ∈ Q -> l !! x = Some b -> exists b', l' !! x = Some b' /\ i_qnext b' = i_qnext b) -> qlist l p Q -> qlist l' p Q.
Proof.
  induction Q as [|x Q IH]; intros p He; [done|]. intros (-> & b & Hb & H). destruct (He x b ltac:(left) Hb) as (b' & Hb' & E). split; [done|]. exists b'. rewrite E. split; [done|].
  apply IH; [|done]. intros y c Hy. apply He. by right.
Qed.
Lemma qlist_in l Q p x : qlist l p Q -> x ∈ Q -> exists b, l !! x = Some b.
Proof. revert p. induction Q as [|y Q IH]; intros p; [by intros _ ?%not_elem_of_nil|]. intros (_ & b & Hb & H) [->|Hx]%elem_of_cons; [by exists b|by eapply IH]. Qed.

Lemma get_ib_run {A} i b s (k : ibuf -> M idest A) : ib s !! i = Some b -> (get_ib i ≫= k) s = k b s.
Proof. intros E. unfold get_ib, mbind, M_bind, gets, idx. cbn. by rewrite E. Qed.
Lemma upd_ib_run {A} i b f s (k : unit -> M idest A) : ib s !! i = Some b -> (upd_ib i f ≫= k) s = k tt (set_ib (<[i := f b]> (ib s)) s).
Proof. intros E. unfold upd_ib, get_ib, mbind, M_bind, gets, idx, modify. cbn. by rewrite E. Qed.

(** A buffer is hung on the end. *)
Definition same_rq (c c' : ibuf) : Prop := i_flags c' = i_flags c /\ i_dev c' = i_dev c /\ i_blockno c' = i_blockno c /\ i_data c' = i_data c.
Lemma tail_run b Q : forall t n s, qlist (ib s) (Some t) (t :: Q) -> NoDup (t :: Q) -> b ∉ t :: Q -> (length Q < n)%nat -> (exists b0, ib s !! b = Some b0 /\ i_qnext b0 = None) ->
  exists l', loop n (tail_step b) t s = Ok tt (set_ib l' s) /\ qlist l' (Some t) ((t :: Q) ++ [b]) /\ length l' = length (ib s) /\
    (forall x, x ∉ t :: Q -> l' !! x = ib s !! x) /\ forall x c, ib s !! x = Some c -> exists c', l' !! x = Some c' /\ same_rq c c'.
Proof.
  induction Q as [|y Q IH]; intros t n s (_ & bt & Ht & Hq) Hnd Hb Hn (b0 & Hb0 & Hnb); (destruct n as [|n]; [lia|]).
  - cbn in Hq. exists (<[t := set_iqnext (Some b) bt]> (ib s)). split; [apply loop_done; unfold tail_step; rewrite (get_ib_run t bt), Hq by done; by rewrite (upd_ib_run t bt)|].
    assert (b <> t) as Hne by set_solver. split_and!; [|apply length_insert|intros x Hx; rewrite list_lookup_insert_ne by set_solver; done|].
    + split; [done|]. eexists. split; [by rewrite list_lookup_insert_eq by (by eapply lookup_lt_Some)|]. split; [done|]. exists b0. by rewrite list_lookup_insert_ne.
    + intros x c Hx. destruct (decide (x = t)) as [->|Hxt]; [|exists c; by rewrite list_lookup_insert_ne]. rewrite Ht in Hx. injection Hx as <-. eexists.
      split; [by rewrite list_lookup_insert_eq by (by eapply lookup_lt_Some)|done].
  - pose proof Hq as (Hy & _). apply NoDup_cons in Hnd as [Hty Hnd]. rewrite Hy in Hq.
    destruct (IH y n s Hq Hnd) as (l' & E & Hq' & Hl & Hout & Hc); [set_solver|cbn in Hn; lia|by exists b0|].
    erewrite loop_next by (unfold tail_step; rewrite (get_ib_run t bt), Hy by done; done). exists l'. split_and!; [done| |done|intros x Hx; apply Hout; set_solver|done].
    cbn [app qlist]. split; [done|]. exists bt. rewrite Hout by done. rewrite Hy. split; [done|exact Hq'].
Qed.

(** ** Processes *)

(** The buffer for which a process is in [iderw]; what every call asked for,
    and how many requests the controller has finished. *)
Record isys := mkIs { dev : idest; procs : list (option nat); asked : list request; served : nat }.

Definition may_call (s : isys) (b : nat) (x : ibuf) : Prop :=
  ib (dev s) !! b = Some x /\ (forall k, procs s !! k <> Some (Some b)) /\ synced x = false /\ 0 <= i_blockno x < IDE_FSSIZE /\ (i_dev x = 0 \/ havedisk1 (dev s) <> 0).

Inductive istep : isys -> isys -> Prop :=
| is_call s k b x r d' : procs s !! k = Some None -> may_call s b x -> iderw true k b (dev s) = Ok r d' ->
    istep s (mkIs d' (<[k := if r then None else Some b]> (procs s)) (asked s ++ [request_of x]) (served s))
(** A process that is awake goes on; one that sleeps may be woken by others
    ([kill]). *)
| is_resume s k b r d' : procs s !! k = Some (Some b) -> chans (dev s) !! k = Some None -> iderw_wait k b (dev s) = Ok r d' -> istep s (mkIs d' (<[k := if r then None else Some b]> (procs s)) (asked s) (served s))
| is_kill s k : istep s (mkIs (set_chans (<[k := None]> (chans (dev s))) (dev s)) (procs s) (asked s) (served s))
| is_intr s r d d' : ideintr r d (dev s) = Ok tt d' -> istep s (mkIs d' (procs s) (asked s) (if idequeue (dev s) then S (served s) else served s))
(** A process that is not waiting for a buffer changes it. *)
| is_user s b x f dv n d : ib (dev s) !! b = Some x -> (forall k, procs s !! k <> Some (Some b)) ->
    istep s (mkIs (set_ib (<[b := mkIb f dv n (i_qnext x) d]> (ib (dev s))) (dev s)) (procs s) (asked s) (served s)).

Record iinv (o0 : list out) (s : isys) (Q : list nat) : Prop := {
  ii_path : qlist (ib (dev s)) (idequeue (dev s)) Q;
  ii_nodup : NoDup Q;
  ii_asked : length (asked s) = (served s + length Q)%nat;
  ii_match : forall i x b, Q !! i = Some x -> ib (dev s) !! x = Some b -> asked s !! (served s + i)%nat = Some (request_of b);
  ii_outs : requests (outs (dev s)) = requests o0 ++ take (served s + Nat.min 1 (length Q)) (asked s);
  ii_len : length (chans (dev s)) = length (procs s);
  ii_sleep : forall k x, chans (dev s) !! k = Some (Some x) -> x ∈ Q /\ procs s !! k = Some (Some x);
  ii_wait : forall x, x ∈ Q -> exists b k, ib (dev s) !! x = Some b /\ synced b = false /\ 0 <= i_blockno b < IDE_FSSIZE /\ procs s !! k = Some (Some x);
  ii_procs : forall k x, procs s !! k = Some (Some x) -> exists b, ib (dev s) !! x = Some b /\ (x ∈ Q \/ synced b = true);
  ii_uniq : forall k k' x, procs s !! k = Some (Some x) -> procs s !! k' = Some (Some x) -> k = k' }.

Lemma idestart_run n b s : ib s !! n = Some b -> i_blockno b < IDE_FSSIZE -> idestart (Some n) s = Ok tt (mkIde (ib s) (idequeue s) (havedisk1 s) (outs s ++ start_outs b) (chans s)).
Proof. intros Hn Hb. unfold idestart. rewrite (get_ib_run n b) by done. by rewrite (proj2 (Z.leb_gt _ _)) by lia. Qed.
Lemma synced_after f : Z.land (Z.land (Z.lor f IB_VALID) (Z.lnot IB_DIRTY)) (Z.lor IB_VALID IB_DIRTY) = IB_VALID.
Proof.
  rewrite <- Z.land_assoc. change (Z.land (Z.lnot IB_DIRTY) (Z.lor IB_VALID IB_DIRTY)) with 2. change IB_VALID with 2.
  apply Z.bits_inj'. intros i Hi. rewrite Z.land_spec, Z.lor_spec. destruct (Z.testbit 2 i); [by rewrite orb_true_r|by rewrite andb_false_r].
Qed.

(** What an interrupt does to the head of the queue. *)
Lemma ideintr_run r d s x Q b : qlist (ib s) (idequeue s) (x :: Q) -> x ∉ Q -> ib s !! x = Some b -> (forall y, y ∈ Q -> exists c, ib s !! y = Some c /\ 0 <= i_blockno c < IDE_FSSIZE) ->
  exists b' o, ideintr r d s = Ok tt (mkIde (<[x := b']> (ib s)) (head Q) (havedisk1 s) (outs s ++ o) (woken_from x <$> chans s)) /\ synced b' = true /\ qlist (<[x := b']> (ib s)) (head Q) Q /\
    match Q with [] => o = [] | n :: _ => exists c, ib s !! n = Some c /\ o = start_outs c end.
Proof.
  intros (Eq & b0 & Hb0 & Hq) Hx Hb Hall. rewrite Hb in Hb0. injection Hb0 as <-.
  assert (i_qnext b = head Q) as En by (destruct Q; [exact Hq|by destruct Hq]).
  assert (exists b1, (if (Z.land (i_flags b) IB_DIRTY =? 0) && (0 <=? idewait 1 r) then upd_ib x (set_idata d) else skip) (set_ideq (i_qnext b) s) = Ok tt (set_ib (<[x := b1]> (ib s)) (set_ideq (i_qnext b) s)) /\
    i_flags b1 = i_flags b /\ i_qnext b1 = i_qnext b) as (b1 & E1 & F1 & G1).
  { destruct (_ && _); [exists (set_idata d b)|exists b]; (split; [|done]).
    - unfold upd_ib. by rewrite (get_ib_run x b).
    - cbn. by rewrite list_insert_id by done. }
  assert (forall l c, l = <[x := c]> (ib s) -> l !! x = Some c) as Hat by (intros l c ->; by rewrite list_lookup_insert_eq by (by eapply lookup_lt_Some)).
  set (b' := set_iflags (Z.land (Z.lor (i_flags b1) IB_VALID) (Z.lnot IB_DIRTY)) b1).
  assert (qlist (<[x := b']> (ib s)) (head Q) Q) as Hq'.
  { rewrite <- En. eapply qlist_ext; [|exact Hq]. intros y c Hy Hc. exists c. by rewrite list_lookup_insert_ne by (intros ->; done). }
  assert (ideintr r d s = (q ← gets idequeue; match q with None => skip | Some n => idestart (Some n) end) (set_chans (woken_from x <$> chans s) (set_ib (<[x := b']> (ib s)) (set_ideq (i_qnext b) s)))) as Erun.
  { unfold ideintr. erewrite bind_ok by reflexivity. rewrite Eq, (get_ib_run x b) by done. erewrite bind_ok by reflexivity. rewrite (bind_ok _ _ _ _ _ E1).
    rewrite (upd_ib_run x b1) by (cbn; by apply Hat). rewrite (upd_ib_run x (set_iflags (Z.lor (i_flags b1) IB_VALID) b1)) by (cbn; by rewrite list_insert_insert_eq, (Hat _ _ eq_refl)).
    cbn [ib set_ib]. rewrite !list_insert_insert_eq. by erewrite bind_ok by reflexivity. }
  rewrite Erun. erewrite bind_ok by reflexivity. cbn [idequeue set_chans set_ib set_ideq]. rewrite En. destruct Q as [|n Q]; cbn [head] in *.
  - exists b', []. split_and!; [by rewrite app_nil_r|unfold synced, b'; cbn; by rewrite synced_after|done|done].
  - destruct (Hall n ltac:(left)) as (c & Hc & Hblk). exists b', (start_outs c). split_and!; [|unfold synced, b'; cbn; by rewrite synced_after|done|by exists c].
    rewrite (idestart_run n c); [done| |lia]. cbn. rewrite list_lookup_insert_ne; [done|]. intros ->. apply Hx. left.
Qed.

(** The loop of [iderw] on a buffer that is not up to date. *)
Lemma wait_sleeps k b x s ck : ib s !! b = Some x -> synced x = false -> chans s !! k = Some ck -> iderw_wait k b s = Ok false (set_chans (<[k := Some b]> (chans s)) s).
Proof. intros Hb Hs Hk. unfold iderw_wait. rewrite (get_ib_run b x), Hs by done. unfold ide_sleep, mbind, M_bind, gets, idx, modify. cbn. by rewrite Hk. Qed.

(** What a call does to its end. *)
Lemma iderw_run k b x s Q : (k < length (chans s))%nat -> ib s !! b = Some x -> b ∉ Q -> NoDup Q -> qlist (ib s) (idequeue s) Q -> synced x = false -> i_blockno x < IDE_FSSIZE -> (i_dev x = 0 \/ havedisk1 s <> 0) ->
  exists l' q', iderw true k b s = Ok false (mkIde l' q' (havedisk1 s) (outs s ++ match Q with [] => start_outs x | _ => [] end) (<[k := Some b]> (chans s))) /\ qlist l' q' (Q ++ [b]) /\
    (forall y c, ib s !! y = Some c -> exists c', l' !! y = Some c' /\ same_rq c c').
Proof.
  intros [ck Hck]%lookup_lt_is_Some_2 Hb Hn Hnd Hq Hs Hblk Hdisk. unfold iderw. rewrite (get_ib_run b x), Hs by done. cbn [negb]. erewrite bind_ok by reflexivity.
  replace (negb (i_dev x =? 0) && (havedisk1 s =? 0)) with false by (destruct Hdisk as [->|Hd]; [done|]; rewrite (proj2 (Z.eqb_neq _ _) Hd); by rewrite andb_false_r).
  rewrite (upd_ib_run b x) by done. set (l0 := <[b := set_iqnext None x]> (ib s)). erewrite bind_ok by reflexivity. erewrite bind_ok by reflexivity.
  assert (l0 !! b = Some (set_iqnext None x)) as Hl0 by (unfold l0; by rewrite list_lookup_insert_eq by (by eapply lookup_lt_Some)).
  assert (forall y c, ib s !! y = Some c -> exists c', l0 !! y = Some c' /\ same_rq c c') as Hsame0.
  { intros y c Hy. destruct (decide (y = b)) as [->|Hyb]; [|exists c; unfold l0; by rewrite list_lookup_insert_ne]. rewrite Hb in Hy. injection Hy as <-. by eexists. }
  assert (qlist l0 (idequeue s) Q) as Hq0 by (eapply qlist_ext; [|exact Hq]; intros y c Hy Hc; exists c; unfold l0; by rewrite list_lookup_insert_ne by (intros ->; done)).
  assert (start_outs (set_iqnext None x) = start_outs x) as Hst by done. destruct Q as [|t Q].
  - cbn in Hq. cbn [idequeue set_ib]. rewrite Hq. erewrite bind_ok by reflexivity. erewrite bind_ok by reflexivity. rewrite bool_decide_eq_true_2 by done.
    erewrite bind_ok by (apply (idestart_run b (set_iqnext None x)); [exact Hl0|done]). rewrite (wait_sleeps k b (set_iqnext None x) _ ck) by done.
    exists l0, (Some b). split; [done|]. split; [|done]. split; [done|]. exists (set_iqnext None x). done.
  - pose proof Hq as (Et & _). cbn [idequeue set_ib]. rewrite Et in *.
    assert (length Q < S (length l0))%nat as Hlen.
    { assert (length (t :: Q) <= length (seq 0 (length l0)))%nat as Hle; [|rewrite length_seq in Hle; cbn in Hle; lia]. apply submseteq_length, NoDup_submseteq; [done|].
      intros y Hy. apply elem_of_seq. destruct (qlist_in _ _ _ _ Hq0 Hy) as [c Hc]. apply lookup_lt_Some in Hc. lia. }
    destruct (tail_run b Q t (S (length l0)) (set_ib l0 s) Hq0 Hnd Hn Hlen) as (l' & E & Hq' & _ & Hout & Hsame); [by eexists|]. rewrite (bind_ok _ _ _ _ _ E). erewrite bind_ok by reflexivity.
    cbn [idequeue set_ib]. rewrite Et, bool_decide_eq_false_2 by (intros [= ->]; set_solver). erewrite bind_ok by reflexivity.
    rewrite (wait_sleeps k b (set_iqnext None x) _ ck) by (done || cbn; rewrite Hout by done; exact Hl0). exists l', (Some t). split; [|split; [exact Hq'|]].
    + rewrite app_nil_r. unfold set_chans, set_ib. cbn. by rewrite Et.
    + intros y c Hy. destruct (Hsame0 y c Hy) as (c1 & Hc1 & S1). destruct (Hsame y c1 Hc1) as (c2 & Hc2 & S2). exists c2. split; [done|]. unfold same_rq in *. destruct_and!. split_and!; congruence.
Qed.

Lemma same_rq_outs c c' : same_rq c c' -> request_of c' = request_of c /\ synced c' = synced c /\ i_blockno c' = i_blockno c.
Proof. intros (Ef & Ed & Eb & Edt). unfold request_of, synced. by rewrite Ef, Ed, Eb, Edt. Qed.
Lemma ii_free o0 s Q b : iinv o0 s Q -> (forall k, procs s !! k <> Some (Some b)) -> b ∉ Q.
Proof. intros I Hf Hb. destruct (ii_wait _ _ _ I b Hb) as (c & k & _ & _ & _ & Hk). by apply (Hf k). Qed.

Lemma call_inv o0 s Q k b x : iinv o0 s Q -> procs s !! k = Some None -> may_call s b x ->
  exists d', iderw true k b (dev s) = Ok false d' /\ iinv o0 (mkIs d' (<[k := Some b]> (procs s)) (asked s ++ [request_of x]) (served s)) (Q ++ [b]).
Proof.
  intros I Hk (Hb & Hf & Hs & Hblk & Hdisk). pose proof (ii_free _ _ _ _ I Hf) as Hn.
  pose proof (ii_asked _ _ _ I) as Ha. assert (k < length (procs s))%nat as Hkl by (by eapply lookup_lt_Some). pose proof (ii_len _ _ _ I) as Hcl.
  destruct (iderw_run k b x (dev s) Q ltac:(lia) Hb Hn (ii_nodup _ _ _ I) (ii_path _ _ _ I) Hs ltac:(lia) Hdisk) as (l' & q' & E & Hq' & Hsame). eexists. split; [exact E|].
  assert (forall j, j <> k -> (<[k := Some b]> (procs s)) !! j = procs s !! j) as Hj by (intros j Hjk; by rewrite list_lookup_insert_ne).
  split; cbn [dev procs asked served ib idequeue outs chans].
  - exact Hq'.
  - apply NoDup_app. split_and!; [apply (ii_nodup _ _ _ I)|set_solver|apply NoDup_singleton].
  - rewrite !length_app, Ha. cbn. lia.
  - intros i y c Hi Hc. destruct (decide (i = length Q)) as [->|Hil].
    + rewrite list_lookup_middle in Hi by done. injection Hi as <-. destruct (Hsame b x Hb) as (c' & Hc' & Sc). rewrite Hc in Hc'. injection Hc' as <-.
      rewrite (proj1 (same_rq_outs _ _ Sc)), <- Ha. by apply list_lookup_middle.
    + assert (i < length Q)%nat as Hlt by (apply lookup_lt_Some in Hi; rewrite length_app in Hi; cbn in Hi; lia). rewrite lookup_app_l in Hi by done.
      destruct (qlist_in _ _ _ y (ii_path _ _ _ I)) as [c0 Hc0]; [by eapply list_elem_of_lookup_2|]. destruct (Hsame y c0 Hc0) as (c' & Hc' & Sc). rewrite Hc in Hc'. injection Hc' as <-.
      rewrite (proj1 (same_rq_outs _ _ Sc)), lookup_app_l by lia. by apply (ii_match _ _ _ I i y c0).
  - pose proof (ii_outs _ _ _ I) as Ho. rewrite length_app. replace (Nat.min 1 (length Q + length [b])) with 1%nat by (cbn [length]; lia). destruct Q as [|t Q].
    + rewrite requests_start, Ho, <- app_assoc by done. f_equal. cbn [length Nat.min] in Ha |- *. rewrite Nat.add_0_r in *. rewrite <- Ha. by rewrite firstn_all, take_ge by (rewrite length_app; cbn; lia).
    + replace (Nat.min 1 (length (t :: Q))) with 1%nat in Ho by (cbn [length]; lia). cbn [length] in Ha. by rewrite app_nil_r, Ho, take_app_le by lia.
  - by rewrite !length_insert.
  - intros j y [(<- & [= <-] & _)|[Hjk Hy]]%list_lookup_insert_Some; [split; [set_solver|by rewrite list_lookup_insert_eq]|].
    destruct (ii_sleep _ _ _ I j y Hy) as [Hin Hp]. rewrite Hj by done. set_solver.
  - intros y [Hy|Hy]%elem_of_app; [|apply list_elem_of_singleton in Hy as ->].
    + destruct (ii_wait _ _ _ I y Hy) as (c & j & Hc & Hsy & Hby & Hjp). destruct (Hsame y c Hc) as (c' & Hc' & Sc). destruct (same_rq_outs _ _ Sc) as (_ & E1 & E2).
      exists c', j. rewrite E1, E2. split_and!; try (done || lia). rewrite Hj; [done|]. intros ->. congruence.
    + destruct (Hsame b x Hb) as (c' & Hc' & Sc). destruct (same_rq_outs _ _ Sc) as (_ & E1 & E2). exists c', k. rewrite E1, E2. split_and!; try (done || lia). by rewrite list_lookup_insert_eq.
  - intros j y Hy. destruct (decide (j = k)) as [->|Hjk].
    + rewrite list_lookup_insert_eq in Hy by done. injection Hy as <-. destruct (Hsame b x Hb) as (c' & Hc' & _). exists c'. split; [done|left; set_solver].
    + rewrite Hj in Hy by done. destruct (ii_procs _ _ _ I j y Hy) as (c & Hc & Hor). destruct (Hsame y c Hc) as (c' & Hc' & Sc). exists c'. split; [done|].
      rewrite (proj1 (proj2 (same_rq_outs _ _ Sc))). set_solver.
  - intros j j' y Hy Hy'. destruct (decide (j = k)) as [->|Hjk], (decide (j' = k)) as [->|Hjk']; [done| | |rewrite Hj in Hy, Hy' by done; by eapply (ii_uniq _ _ _ I)].
    + rewrite list_lookup_insert_eq in Hy by done. injection Hy as <-. rewrite Hj in Hy' by done. by destruct (Hf j').
    + rewrite list_lookup_insert_eq in Hy' by done. injection Hy' as <-. rewrite Hj in Hy by done. by destruct (Hf j).
Qed.

Lemma intr_inv o0 s Q r d : iinv o0 s Q -> exists d', ideintr r d (dev s) = Ok tt d' /\ iinv o0 (mkIs d' (procs s) (asked s) (if idequeue (dev s) then S (served s) else served s)) (tail Q).
Proof.
  intros I. pose proof (ii_path _ _ _ I) as Hp. pose proof (ii_nodup _ _ _ I) as Hnd. destruct Q as [|x Q].
  { cbn in Hp. exists (dev s). unfold ideintr. erewrite bind_ok by reflexivity. rewrite Hp. split; [done|]. by destruct s. }
  apply NoDup_cons in Hnd as [Hx Hnd]. pose proof (qlist_in _ _ _ x Hp ltac:(left)) as [b Hb]. pose proof Hp as (Eq & _).
  destruct (ideintr_run r d (dev s) x Q b Hp Hx Hb) as (b' & o & E & Hsy & Hq' & Ho).
  { intros y Hy. destruct (ii_wait _ _ _ I y ltac:(by right)) as (c & _ & Hc & _ & Hblk & _). by exists c. }
  eexists. split; [exact E|]. rewrite Eq. pose proof (ii_asked _ _ _ I) as Ha. cbn in Ha.
  assert (forall y, y ∈ Q -> (<[x := b']> (ib (dev s))) !! y = ib (dev s) !! y) as Hne by (intros y Hy; apply list_lookup_insert_ne; intros ->; done).
  split; cbn [dev procs asked served ib idequeue outs chans tail]; try done.
  - lia.
  - intros i y c Hi Hc. rewrite Hne in Hc by (by eapply list_elem_of_lookup_2). rewrite <- (ii_match _ _ _ I (S i) y c Hi Hc). f_equal. lia.
  - pose proof (ii_outs _ _ _ I) as Hreq. cbn [length] in Hreq. replace (served s + Nat.min 1 (S (length Q)))%nat with (S (served s)) in Hreq by lia.
    destruct Q as [|n Q]; [by rewrite Ho, app_nil_r, Nat.add_0_r|].
    destruct Ho as (c & Hc & ->). destruct (ii_wait _ _ _ I n ltac:(right; left)) as (c0 & _ & Hc0 & _ & Hblk & _). rewrite Hc in Hc0. injection Hc0 as <-.
    pose proof (ii_match _ _ _ I 1%nat n c eq_refl Hc) as Hm. rewrite Nat.add_1_r in Hm. cbn [length Nat.min]. rewrite Nat.add_1_r.
    by rewrite requests_start, Hreq, (take_S_r _ _ _ Hm), app_assoc.
  - rewrite length_fmap. apply (ii_len _ _ _ I).
  - intros k y. rewrite list_lookup_fmap. destruct (chans (dev s) !! k) as [c|] eqn:Ec; [|done]. cbn. unfold woken_from. case_bool_decide as Hw; [done|]. intros [= ->].
    destruct (ii_sleep _ _ _ I k y Ec) as [[->|Hy]%elem_of_cons Hpk]; [done|by split].
  - intros y Hy. rewrite Hne by done. apply (ii_wait _ _ _ I). by right.
  - intros k y Hk. destruct (ii_procs _ _ _ I k y Hk) as (c & Hc & Hor). destruct (decide (y = x)) as [->|Hyx].
    + exists b'. split; [by apply list_lookup_insert_eq; eapply lookup_lt_Some|by right].
    + exists c. rewrite list_lookup_insert_ne by done. split; [done|]. destruct Hor as [[->|Hy]%elem_of_cons|]; auto.
  - apply (ii_uniq _ _ _ I).
Qed.

Lemma resume_inv o0 s Q k b : iinv o0 s Q -> procs s !! k = Some (Some b) -> chans (dev s) !! k = Some None ->
  exists r d', iderw_wait k b (dev s) = Ok r d' /\ (r = false <-> b ∈ Q) /\ iinv o0 (mkIs d' (<[k := if r then None else Some b]> (procs s)) (asked s) (served s)) Q.
Proof.
  intros I Hk Hch. destruct (ii_procs _ _ _ I k b Hk) as (x & Hx & Hor). exists (synced x).
  assert (b ∈ Q -> synced x = false) as HQ. { intros Hb. destruct (ii_wait _ _ _ I b Hb) as (c & _ & Hc & Hs & _). congruence. }
  assert (synced x = false <-> b ∈ Q) as Hiff by (split; [intros E; destruct Hor; [done|congruence]|done]).
  destruct (synced x) eqn:E.
  - exists (dev s). split; [unfold iderw_wait; by rewrite (get_ib_run b x), E|]. split; [done|]. assert (b ∉ Q) as Hn by (intros H; by apply Hiff in H).
    assert (forall j y, (<[k := None]> (procs s)) !! j = Some (Some y) -> procs s !! j = Some (Some y)) as Hj.
    { intros j y Hy. apply list_lookup_insert_Some in Hy as [(_ & [=] & _)|(_ & Hy)]. done. }
    assert (forall j y, procs s !! j = Some (Some y) -> y ∈ Q -> (<[k := None]> (procs s)) !! j = Some (Some y)) as Hj'.
    { intros j y Hy Hin. rewrite list_lookup_insert_ne; [done|]. intros ->. congruence. }
    split; cbn [dev procs asked served]; try apply I.
    + rewrite length_insert. apply I.
    + intros j y Hy. destruct (ii_sleep _ _ _ I j y Hy). auto.
    + intros y Hy. destruct (ii_wait _ _ _ I y Hy) as (c & j & Hc & Hs & Hblk & Hp). exists c, j. split_and!; first [done|lia|by apply Hj'].
    + intros j y Hy%Hj. by apply (ii_procs _ _ _ I j).
    + intros j j' y Hy%Hj Hy'%Hj. by eapply (ii_uniq _ _ _ I).
  - eexists. split; [by apply (wait_sleeps k b x _ None)|]. split; [done|]. rewrite (list_insert_id (procs s)) by done.
    split; cbn [dev procs asked served set_chans ib idequeue outs chans]; try apply I.
    + rewrite length_insert. apply I.
    + intros j y [(<- & [= <-] & _)|[_ Hy]]%list_lookup_insert_Some; [split; [by apply Hiff|done]|]. by apply (ii_sleep _ _ _ I).
Qed.

(** A process is woken: nobody else sleeps for that. *)
Lemma kill_inv o0 s Q k : iinv o0 s Q -> iinv o0 (mkIs (set_chans (<[k := None]> (chans (dev s))) (dev s)) (procs s) (asked s) (served s)) Q.
Proof.
  intros I. split; cbn [dev procs asked served set_chans ib idequeue outs chans]; try apply I.
  - rewrite length_insert. apply I.
  - intros j y [(_ & [=] & _)|[_ Hy]]%list_lookup_insert_Some. by apply (ii_sleep _ _ _ I).
Qed.

Lemma user_inv o0 s Q b x f dv n d : iinv o0 s Q -> ib (dev s) !! b = Some x -> (forall k, procs s !! k <> Some (Some b)) ->
  iinv o0 (mkIs (set_ib (<[b := mkIb f dv n (i_qnext x) d]> (ib (dev s))) (dev s)) (procs s) (asked s) (served s)) Q.
Proof.
  intros I Hb Hf. pose proof (ii_free _ _ _ _ I Hf) as Hn.
  assert (forall y, y ≠ b -> (<[b := mkIb f dv n (i_qnext x) d]> (ib (dev s))) !! y = ib (dev s) !! y) as Hne by (intros y Hy; by apply list_lookup_insert_ne).
  split; cbn [dev procs asked served ib idequeue outs chans set_ib]; try apply I.
  - eapply qlist_ext; [|apply I]. intros y c Hy Hc. exists c. rewrite Hne by (intros ->; done). done.
  - intros i y c Hi Hc. rewrite Hne in Hc by (intros ->; apply Hn; by eapply list_elem_of_lookup_2). by eapply (ii_match _ _ _ I).
  - intros y Hy. rewrite Hne by (intros ->; done). by apply (ii_wait _ _ _ I).
  - intros k y Hk. rewrite Hne by (intros ->; by apply (Hf k)). by apply (ii_procs _ _ _ I k).
Qed.

Lemma istep_inv o0 s s' Q : iinv o0 s Q -> istep s s' -> exists Q', iinv o0 s' Q'.
Proof.
  intros I Hst. destruct Hst as [s k b x r d' Hk Hm E|s k b r d' Hk Hch E|s k|s r d d' E|s b x f dv n d Hb Hf].
  - destruct (call_inv _ _ _ _ _ _ I Hk Hm) as (d0 & E0 & I'). rewrite E in E0. injection E0 as -> ->. by eexists.
  - destruct (resume_inv _ _ _ _ _ I Hk Hch) as (r0 & d0 & E0 & _ & I'). rewrite E in E0. injection E0 as -> ->. by eexists.
  - exists Q. by apply kill_inv.
  - destruct (intr_inv _ _ _ r d I) as (d0 & E0 & I'). rewrite E in E0. injection E0 as ->. by eexists.
  - exists Q. by eapply user_inv.
Qed.
Lemma ireach_inv o0 s s' : rtc istep s s' -> (exists Q, iinv o0 s Q) -> exists Q, iinv o0 s' Q.
Proof. induction 1 as [|s1 s2 s3 Hst _ IH]; [done|]. intros [Q I]. apply IH. by eapply istep_inv. Qed.

(** Before the first request. *)
Definition isys_start (np : nat) (d : idest) : isys := mkIs d (replicate np None) [] 0.
Lemma start_iinv np d : idequeue d = None -> chans d = replicate np None -> iinv (outs d) (isys_start np d) [].
Proof.
  intros Hq Hch. split; cbn; try done; try apply NoDup_nil_2.
  - by rewrite app_nil_r.
  - by rewrite Hch, !length_replicate.
  - intros k x. rewrite Hch. by intros [? _]%lookup_replicate.
  - intros x Hx. by apply not_elem_of_nil in Hx.
  - intros k x [? _]%lookup_replicate. done.
  - intros k k' x [? _]%lookup_replicate. done.
Qed.

(** Interrupts one after another, each with its answer. *)
Fixpoint intrs (ans : list (Z * list Z)) : M idest unit :=
  match ans with [] => skip | (r, d) :: ans' => ideintr r d ;; intrs ans' end.
Lemma intrs_inv o0 ans : forall s Q, iinv o0 s Q -> length ans = length Q -> exists d', intrs ans (dev s) = Ok tt d' /\ iinv o0 (mkIs d' (procs s) (asked s) (length (asked s))) [].
Proof.
  induction ans as [|[r d] ans IH]; intros s Q I Hl; destruct Q as [|x Q]; try done.
  - exists (dev s). split; [done|]. pose proof (ii_asked _ _ _ I) as Ha. rewrite Nat.add_0_r in Ha. rewrite Ha. by destruct s.
  - destruct (intr_inv _ _ _ r d I) as (d1 & E & I1). cbn in Hl. destruct (IH _ _ I1) as (d2 & E2 & I2); [cbn; lia|]. exists d2. cbn [intrs]. rewrite (bind_ok _ _ _ _ _ E). done.
Qed.

(** C9.  However calls of [iderw], interrupts of the disk, wake-ups by [kill]
    and changes to buffers nobody waits for interleave, the controller is given
    the requests of the calls in the order of the calls: for each it is told to
    read or write one sector, the one with the number of the block, on the
    drive of the buffer, with the data the buffer had at the call, and it is
    never given a second one before it has finished the first; the requests not
    finished are the queue that [idequeue] heads.  A process sleeps in [iderw]
    only on a buffer in the queue, an awake one leaves exactly when its buffer
    is no longer there, and no two wait for one buffer.  A call that respects
    the conditions of [iderw] and any interrupt return without a panic, and
    once the controller has answered as many times as requests are queued,
    whatever it answers, every process in [iderw] has been woken and leaves. *)
Theorem ide_fifo np d s : idequeue d = None -> chans d = replicate np None -> rtc istep (isys_start np d) s ->
  (exists Q, qlist (ib (dev s)) (idequeue (dev s)) Q /\ NoDup Q /\ length (asked s) = (served s + length Q)%nat /\
    (forall i x b, Q !! i = Some x -> ib (dev s) !! x = Some b -> asked s !! (served s + i)%nat = Some (request_of b)) /\
    requests (outs (dev s)) = requests (outs d) ++ take (served s + Nat.min 1 (length Q)) (asked s) /\
    (forall k x, chans (dev s) !! k = Some (Some x) -> x ∈ Q /\ procs s !! k = Some (Some x)) /\
    (forall k x, procs s !! k = Some (Some x) -> chans (dev s) !! k = Some None -> exists r d', iderw_wait k x (dev s) = Ok r d' /\ (r = false <-> x ∈ Q)) /\
    (forall x, x ∈ Q -> exists k, procs s !! k = Some (Some x)) /\
    forall ans, length ans = length Q -> exists d', intrs ans (dev s) = Ok tt d' /\ idequeue d' = None /\ requests (outs d') = requests (outs d) ++ asked s /\
      forall k x, procs s !! k = Some (Some x) -> chans d' !! k = Some None /\ exists d2, iderw_wait k x d' = Ok true d2) /\
  (forall k k' x, procs s !! k = Some (Some x) -> procs s !! k' = Some (Some x) -> k = k') /\
  (forall k b x, procs s !! k = Some None -> may_call s b x -> exists d', iderw true k b (dev s) = Ok false d') /\
  (forall r dt, exists d', ideintr r dt (dev s) = Ok tt d').
Proof.
  intros Hq Hch Hr. destruct (ireach_inv (outs d) _ _ Hr) as [Q I]; [exists []; by apply start_iinv|]. split_and!.
  - exists Q. split_and!; try apply I.
    + intros k x Hk Hc. destruct (resume_inv _ _ _ _ _ I Hk Hc) as (r & d' & E & Hiff & _). by exists r, d'.
    + intros x Hx. destruct (ii_wait _ _ _ I x Hx) as (_ & k & _ & _ & _ & Hk). by exists k.
    + intros ans Hl. destruct (intrs_inv _ _ _ _ I Hl) as (d' & E & I'). exists d'. split_and!; [done|apply (ii_path _ _ _ I')| |].
      * pose proof (ii_outs _ _ _ I') as Ho. cbn -[requests] in Ho. by rewrite Ho, Nat.add_0_r, firstn_all.
      * intros k x Hk. assert (chans d' !! k = Some None) as Hc.
        { pose proof (ii_len _ _ _ I') as Hl'. cbn in Hl'. destruct (lookup_lt_is_Some_2 (chans d') k) as [[y|] Hy]; [rewrite Hl'; by eapply lookup_lt_Some| |done].
          destruct (ii_sleep _ _ _ I' k y Hy) as [Hin _]. by apply not_elem_of_nil in Hin. }
        split; [done|]. destruct (resume_inv _ _ _ k x I') as ([] & d2 & E' & Hiff & _); [done|done|by exists d2|]. by destruct (not_elem_of_nil x (proj1 Hiff eq_refl)).
  - apply I.
  - intros k b x Hk Hm. destruct (call_inv _ _ _ _ _ _ I Hk Hm) as (d' & E & _). by exists d'.
  - intros r dt. destruct (intr_inv _ _ _ r dt I) as (d' & E & _). by exists d'.
Qed.

(** Two processes ask, the first request is answered, and the first process,
    woken, leaves. *)
Definition i_ex : idest := mkIde [mkIb 0 0 5 None []; mkIb 4 0 700 None [7]] None 0 [] [None; None].
Definition i_at (o : outcome idest unit) : idest := match o with Ok _ s => s | _ => i_ex end.
Definition i_bat (o : outcome idest bool) : idest := match o with Ok _ s => s | _ => i_ex end.
Definition i_ex1 : isys := mkIs (i_bat (iderw true 0 0 i_ex)) [Some 0%nat; None] [mkRq false 0 5 1 []] 0.
Definition i_ex2 : isys := mkIs (i_bat (iderw true 1 1 (dev i_ex1))) [Some 0%nat; Some 1%nat] (asked i_ex1 ++ [mkRq true 0 700 1 [7]]) 0.
Definition i_ex3 : isys := mkIs (i_at (ideintr 64 [9] (dev i_ex2))) [Some 0%nat; Some 1%nat] (asked i_ex2) 1.
Definition i_ex4 : isys := mkIs (dev i_ex3) [None; Some 1%nat] (asked i_ex2) 1.
Lemma ide_fifo_witness : rtc istep (isys_start 2 i_ex) i_ex4 /\ ib (dev i_ex4) !! 0%nat = Some (mkIb 2 0 5 (Some 1%nat) [9]) /\ chans (dev i_ex4) = [None; Some 1%nat] /\
  exists Q, qlist (ib (dev i_ex4)) (idequeue (dev i_ex4)) Q /\ length (asked i_ex4) = (served i_ex4 + length Q)%nat.
Proof.
  assert (rtc istep (isys_start 2 i_ex) i_ex4) as Hr.
  { eapply rtc_l; [apply (is_call (isys_start 2 i_ex) 0 0 (mkIb 0 0 5 None []) false (dev i_ex1)); [vm_compute; reflexivity| |vm_compute; reflexivity]|].
    { split_and!; [vm_compute; reflexivity| |vm_compute; reflexivity|cbn; lia|vm_compute; reflexivity|left; reflexivity]. intros [|[|k]]; vm_compute; discriminate. }
    eapply rtc_l; [apply (is_call i_ex1 1 1 (mkIb 4 0 700 None [7]) false (dev i_ex2)); [vm_compute; reflexivity| |vm_compute; reflexivity]|].
    { split_and!; [vm_compute; reflexivity| |vm_compute; reflexivity|cbn; lia|vm_compute; reflexivity|left; reflexivity]. intros [|[|k]]; vm_compute; discriminate. }
    eapply rtc_l; [apply (is_intr i_ex2 64 [9] (dev i_ex3)); vm_compute; reflexivity|].
    eapply rtc_l; [apply (is_resume i_ex3 0 0 true (dev i_ex3)); vm_compute; reflexivity|]. apply rtc_refl. }
  split; [exact Hr|]. split; [vm_compute; reflexivity|]. split; [vm_compute; reflexivity|].
  destruct (ide_fifo 2 i_ex i_ex4 eq_refl eq_refl Hr) as ((Q & Hq & _ & Ha & _) & _). exists Q. split; [exact Hq|exact Ha].
Defined.
