(* ===== verification/LinuxMalloc.v ===== *)
(** * Linux 0.12: the memory allocator of the kernel

    Models [lib/malloc.c] over the memory of [LinuxMm], whose pages it takes
    and gives back.  A descriptor is an address: its [page] is the word there,
    [next] and [freeptr] the words after, [refcnt] and [bucket_size] the two
    halves of the fourth.  Interrupts between the search of [free_s] and its
    [cli] are not modelled; [fuel] is for the search of a page to swap out. *)

From S2P Require Import Prelude LinuxMm LinuxCow LinuxFork LinuxExit LinuxFamily.

Record kmal := mkKm { kmm : mm; bucket_dir : list (Z * Z); free_bucket_desc : Z }.
#[export] Instance kmal_mm : Lens kmal mm := {| lget := kmm; lset m s := mkKm m (bucket_dir s) (free_bucket_desc s) |}.

Definition sizes : list Z := [16; 32; 64; 128; 256; 512; 1024; 2048; 4096].
(** The directory with the given chains. *)
Definition dirs_of (chs : list Z) : list (Z * Z) := zip sizes chs ++ [(0, 0)].
Definition kmal_start (m : mm) : kmal := mkKm m (dirs_of (replicate 9 0)) 0.

Definition mrd (a : Z) : M kmal Z := lift (rd a).
Definition mwr (a v : Z) : M kmal unit := lift (wr a v).
Definition page_at (b : Z) : M kmal Z := mrd b.
Definition next_at (b : Z) : M kmal Z := mrd (b + 4).
Definition freeptr_at (b : Z) : M kmal Z := mrd (b + 8).
Definition refcnt_at (b : Z) : M kmal Z := w ← mrd (b + 12); mret (Z.land w 65535).
Definition set_page (b v : Z) : M kmal unit := mwr b v.
Definition set_next (b v : Z) : M kmal unit := mwr (b + 4) v.
Definition set_freeptr (b v : Z) : M kmal unit := mwr (b + 8) v.
Definition set_refcnt (b v : Z) : M kmal unit := w ← mrd (b + 12); mwr (b + 12) (Z.lor (Z.land w 4294901760) (u16 v)).
Definition set_bsize (b v : Z) : M kmal unit := w ← mrd (b + 12); mwr (b + 12) (Z.lor (Z.land w 65535) (Z.shiftl (u16 v) 16)).
Definition get_dir (i : nat) : M kmal (Z * Z) := l ← gets bucket_dir; idx l i.
Definition set_chain (i : nat) (v : Z) : M kmal unit :=
  d ← get_dir i; modify (fun s => mkKm (kmm s) (<[i := (d.1, v)]> (bucket_dir s)) (free_bucket_desc s)).
Definition set_fbd (v : Z) : M kmal unit := modify (fun s => mkKm (kmm s) (bucket_dir s) v).

Definition init_bucket_desc (fuel : nat) : M kmal unit :=
  first ← lift (get_free_page fuel);
  if first =? 0 then panic "Out of memory in init_bucket_desc()" else
  for_range 0 255 (fun k => set_next (first + 16 * Z.of_nat k) (first + 16 * (Z.of_nat k + 1))) ;;
  f ← gets free_bucket_desc;
  set_next (first + 16 * 255) f ;;
  set_fbd first.

(** The first entry that is large enough, or the end marker. *)
Fixpoint find_dir (len : Z) (l : list (Z * Z)) : nat :=
  match l with
  | [] => 0
  | d :: l' => if (d.1 =? 0) || (len <=? d.1) then 0 else S (find_dir len l')
  end.
Definition CHAIN : nat := S PAGING_PAGES.
Definition space_step (b : Z) : M kmal (Z + Z) :=
  if b =? 0 then mret (inr 0) else
  f ← freeptr_at b;
  if negb (f =? 0) then mret (inr b) else n ← next_at b; mret (inl n).
(** A spare descriptor gets a page of free objects and joins the chain. *)
Definition fill_bucket (fuel : nat) (i : nat) (sz : Z) : M kmal Z :=
  b ← gets free_bucket_desc;
  n ← next_at b; set_fbd n ;;
  set_refcnt b 0 ;;
  set_bsize b sz ;;
  cp ← lift (get_free_page fuel);
  set_freeptr b cp ;; set_page b cp ;;
  if cp =? 0 then panic "Out of memory in kernel malloc()" else
  for_range 0 (Z.to_nat (PAGE_SIZE / sz) - 1) (fun k => mwr (cp + Z.of_nat k * sz) (cp + (Z.of_nat k + 1) * sz)) ;;
  mwr (cp + (PAGE_SIZE / sz - 1) * sz) 0 ;;
  d ← get_dir i; set_next b d.2 ;;
  set_chain i b ;;
  mret b.
Definition new_bucket (fuel : nat) (i : nat) (sz : Z) : M kmal Z :=
  f ← gets free_bucket_desc;
  (if f =? 0 then init_bucket_desc fuel else skip) ;;
  fill_bucket fuel i sz.
(** The first free object of a descriptor. *)
Definition take_obj (b : Z) : M kmal Z :=
  retval ← freeptr_at b;
  n ← mrd retval; set_freeptr b n ;;
  r ← refcnt_at b; set_refcnt b (r + 1) ;;
  mret retval.
Definition malloc (fuel : nat) (len : Z) : M kmal Z :=
  l ← gets bucket_dir;
  let i := find_dir len l in
  d ← get_dir i;
  if d.1 =? 0 then lift (printk "malloc called with impossibly large argument (%d)") ;; panic "malloc: bad arg" else
  b ← loop CHAIN space_step d.2;
  b ← (if b =? 0 then new_bucket fuel i d.1 else mret b);
  take_obj b.

Definition page_step (page : Z) (c : Z * Z) : M kmal ((Z * Z) + option (Z * Z)) :=
  if c.1 =? 0 then mret (inr None) else
  p ← page_at c.1;
  if p =? page then mret (inr (Some c)) else n ← next_at c.1; mret (inl (n, c.1)).
(** The entry, the descriptor and the one before it in the chain. *)
Definition dir_step (page size : Z) (i : nat) : M kmal (nat + option (nat * Z * Z)) :=
  d ← get_dir i;
  if d.1 =? 0 then mret (inr None) else
  if d.1 <? size then mret (inl (S i)) else
  r ← loop CHAIN (page_step page) (d.2, 0);
  match r with Some c => mret (inr (Some (i, c.1, c.2))) | None => mret (inl (S i)) end.
Definition prev_step (b p : Z) : M kmal (Z + Z) :=
  if p =? 0 then mret (inr 0) else
  n ← next_at p; if n =? b then mret (inr p) else mret (inl n).
(** A descriptor leaves its chain. *)
Definition unlink_bucket (i : nat) (b prev : Z) : M kmal unit :=
  d ← get_dir i;
  stale ← (if prev =? 0 then mret (negb (d.2 =? b)) else n ← next_at prev; mret (negb (n =? b)));
  prev ← (if stale : bool then loop CHAIN (prev_step b) d.2 else mret prev);
  if negb (prev =? 0) then n ← next_at b; set_next prev n
  else d ← get_dir i; if negb (d.2 =? b) then panic "malloc bucket chains corrupted" else n ← next_at b; set_chain i n.
(** The last object of a page has been freed. *)
Definition release_bucket (i : nat) (b prev : Z) : M kmal unit :=
  unlink_bucket i b prev ;;
  p ← page_at b; lift (free_page p) ;;
  f ← gets free_bucket_desc; set_next b f ;;
  set_fbd b.
(** An object joins the free ones of its descriptor; what is left in use. *)
Definition put_obj (b obj : Z) : M kmal Z :=
  f ← freeptr_at b; mwr obj f ;;
  set_freeptr b obj ;;
  r ← refcnt_at b; set_refcnt b (r - 1) ;;
  refcnt_at b.
Definition free_s (obj size : Z) : M kmal unit :=
  l ← gets bucket_dir;
  r ← loop (S (length l)) (dir_step (Z.land obj 4294963200) size) 0%nat;
  match r with
  | None => panic "Bad address passed to kernel free_s()"
  | Some (i, b, prev) =>
      r ← put_obj b obj;
      if r =? 0 then release_bucket i b prev else skip
  end.
