(* ===== verification/LinuxHeap.v ===== *)
(** * Linux 0.12: what the memory allocator of the kernel keeps

    The theorems about [LinuxMalloc]: descriptors and free objects are linked
    lists in pages the kernel holds, objects handed out are apart from each
    other and from everything else, and a page goes back when its last object
    does. *)

From S2P Require Import Prelude LinuxMm LinuxCow LinuxFork LinuxExit LinuxFamily LinuxMalloc.

(** ** Descriptors and objects *)

Record bd := mkBd { b_at : Z; b_page : nat; b_free : list Z }.

Fixpoint link (m : Z -> Z) (off p : Z) (l : list Z) : Prop :=
  match l with [] => p = 0 | a :: l' => p = a /\ link m off (m (a + off)) l' end.
Definition obj (sz : Z) (n : nat) (o : Z) : Prop := exists k, 0 <= k < 4096 / sz /\ o = addr_of n + k * sz.
Definition at_page (n : nat) (x : Z) : Prop := addr_of n <= x < addr_of n + 4096.
Definition desc_at (P : list nat) (a : Z) : Prop := exists p k, p ∈ P /\ 0 <= k < 256 /\ a = addr_of p + 16 * k.
Record bd_ok (m : Z -> Z) (sz : Z) (d : bd) : Prop := {
  bo_page : m (b_at d) = addr_of (b_page d);
  bo_free : link m 0 (m (b_at d + 8)) (b_free d);
  bo_cnt : m (b_at d + 12) = (4096 / sz - Z.of_nat (length (b_free d))) + 65536 * sz;
  bo_nodup : NoDup (b_free d);
  bo_obj : forall o, o ∈ b_free d -> obj sz (b_page d) o }.

(** Chains [C], spare descriptors [F], pages of descriptors [P]. *)
Record heap (m : Z -> Z) (chs : list Z) (f : Z) (C : list (list bd)) (F : list Z) (P : list nat) : Prop := {
  hp_chs : length chs = 9%nat;
  hp_len : length C = 9%nat;
  hp_chain : forall i sz ch ds, sizes !! i = Some sz -> chs !! i = Some ch -> C !! i = Some ds -> link m 4 ch (b_at <$> ds) /\ Forall (bd_ok m sz) ds;
  hp_spare : link m 4 f F;
  hp_at : NoDup ((b_at <$> concat C) ++ F);
  hp_in : forall a, a ∈ (b_at <$> concat C) ++ F -> desc_at P a;
  hp_pages : NoDup (P ++ (b_page <$> concat C)) }.

Definition own (X : nat -> Z) (L : list nat) : nat -> Z := fun n => X n + (if decide (n ∈ L) then 1 else 0).
Definition pages_of (C : list (list bd)) (P : list nat) : list nat := P ++ (b_page <$> concat C).
Record kinv (X : nat -> Z) (s : kmal) (C : list (list bd)) (F : list Z) (P : list nat) : Prop := {
  ki_heap : exists chs, bucket_dir s = dirs_of chs /\ heap (mem (kmm s)) chs (free_bucket_desc s) C F P;
  ki_users : forall n, 0 <= X n;
  ki_own : forall n, n ∈ pages_of C P -> mem_map (kmm s) !! n = Some 1 /\ addr_of n < HIGH_MEMORY (kmm s);
  ki_mm : mm_ok (kmm s) (own X (pages_of C P)) }.
(** No page in a chain is without an object that is handed out. *)
Definition used (C : list (list bd)) : Prop := forall i sz ds d, sizes !! i = Some sz -> C !! i = Some ds -> d ∈ ds -> Z.of_nat (length (b_free d)) < 4096 / sz.
(** An object of size [sz] that is handed out. *)
Definition live (C : list (list bd)) (o sz : Z) : Prop :=
  exists i ds d, sizes !! i = Some sz /\ C !! i = Some ds /\ d ∈ ds /\ obj sz (b_page d) o /\ o ∉ b_free d.

(** ** Separation *)

Lemma sizes_ok i sz : sizes !! i = Some sz -> 16 <= sz <= 4096 /\ sz mod 16 = 0 /\ 4096 mod sz = 0 /\ 1 <= 4096 / sz <= 256 /\ 4096 / sz * sz = 4096.
Proof. intros H. do 9 (destruct i as [|i]; [injection H as <-; vm_compute; intuition discriminate|]). done. Qed.
Lemma obj_at_page i sz n o : sizes !! i = Some sz -> obj sz n o -> at_page n o /\ at_page n (o + sz - 1) /\ o mod 16 = 0.
Proof.
  intros Hs (k & Hk & ->). destruct (sizes_ok _ _ Hs) as (H1 & H2 & _ & H3 & H4). unfold at_page. split_and!; [nia..|].
  unfold addr_of, LOW_MEM. rewrite Z.add_mod, Z.mul_mod, H2, Z.mul_0_r by lia. replace (1048576 + 4096 * Z.of_nat n) with ((65536 + 256 * Z.of_nat n) * 16) by lia. by rewrite Z.mod_mul.
Qed.
Lemma at_page_apart n n' x : at_page n x -> at_page n' x -> n = n'.
Proof. unfold at_page, addr_of. lia. Qed.
Lemma desc_word P a i : desc_at P a -> 0 <= i < 16 -> exists p, p ∈ P /\ at_page p (a + i).
Proof. intros (p & k & Hp & Hk & ->) Hi. exists p. split; [done|]. unfold at_page. lia. Qed.
Lemma desc_apart P a b i j : desc_at P a -> desc_at P b -> a <> b -> 0 <= i < 16 -> 0 <= j < 16 -> a + i <> b + j.
Proof. intros (p & k & _ & Hk & ->) (q & l & _ & Hl & ->) Hne Hi Hj. unfold addr_of, LOW_MEM in *. lia. Qed.
Lemma desc_pos P a : desc_at P a -> 0 < a.
Proof. intros (p & k & _ & Hk & ->). unfold addr_of, LOW_MEM. lia. Qed.

Lemma link_ext m m' off l : forall p, (forall a, a ∈ l -> m' (a + off) = m (a + off)) -> link m off p l -> link m' off p l.
Proof.
  induction l as [|a l IH]; intros p He; [done|]. intros [-> H]. split; [done|]. rewrite He by left. apply IH; [|done]. intros b Hb. apply He. by right.
Qed.
Lemma bd_ok_ext m m' sz d : (forall i, i = 0 \/ i = 8 \/ i = 12 -> m' (b_at d + i) = m (b_at d + i)) -> (forall o, o ∈ b_free d -> m' o = m o) -> bd_ok m sz d -> bd_ok m' sz d.
Proof.
  intros Hw Ho [H1 H2 H3 H4 H5]. pose proof (Hw 0 ltac:(auto)) as W0. rewrite !Z.add_0_r in W0. split; try done.
  - by rewrite W0.
  - rewrite Hw by auto. eapply link_ext; [|exact H2]. intros o Hin. rewrite Z.add_0_r. by apply Ho.
  - by rewrite Hw by auto.
Qed.
Lemma chains_at {A} (C : list (list A)) i ds : C !! i = Some ds -> exists rest, concat C ≡ₚ ds ++ rest /\ forall ds', concat (<[i := ds']> C) ≡ₚ ds' ++ rest.
Proof.
  revert i. induction C as [|c C IH]; intros i Hi; [done|]. destruct i as [|i]; cbn in Hi |- *; [injection Hi as <-; exists (concat C); done|].
  destruct (IH i Hi) as (rest & E & E'). exists (c ++ rest). split; [rewrite E|intros ds'; rewrite E']; by rewrite !app_assoc, (Permutation_app_comm c).
Qed.
Lemma chains_in {A} (C : list (list A)) i ds (d : A) : C !! i = Some ds -> d ∈ ds -> d ∈ concat C.
Proof. intros Hi Hd. destruct (chains_at C i ds Hi) as (rest & E & _). rewrite E. set_solver. Qed.
Lemma in_chains_at {A} (C : list (list A)) (d : A) : d ∈ concat C -> exists i ds, C !! i = Some ds /\ d ∈ ds.
Proof.
  induction C as [|c C IH]; cbn; [by intros ?%not_elem_of_nil|]. intros [H|H]%elem_of_app; [by exists 0%nat, c|]. destruct (IH H) as (i & ds & Hi & Hd). by exists (S i), ds.
Qed.

(** Outside [W] nothing has changed. *)
Definition keeps (m m' : Z -> Z) (W : Z -> Prop) : Prop := forall x, ~ W x -> m' x = m x.
Definition dwords (a : Z) (x : Z) : Prop := a <= x < a + 16.

Section Heap.
Context (m : Z -> Z) (chs : list Z) (f : Z) (C : list (list bd)) (F : list Z) (P : list nat) (H : heap m chs f C F P).

Lemma hp_desc d : d ∈ concat C -> desc_at P (b_at d).
Proof. intros Hd. apply (hp_in _ _ _ _ _ _ H), elem_of_app. left. by apply list_elem_of_fmap_2. Qed.
Lemma hp_spare_desc a : a ∈ F -> desc_at P a.
Proof. intros Ha. apply (hp_in _ _ _ _ _ _ H), elem_of_app. by right. Qed.
Lemma data_not_desc d p : d ∈ concat C -> p ∈ P -> p <> b_page d.
Proof.
  intros Hd Hp ->. pose proof (hp_pages _ _ _ _ _ _ H) as Hn. apply NoDup_app in Hn as (_ & Hn & _). apply (Hn _ Hp). by apply list_elem_of_fmap_2.
Qed.
Lemma desc_not_data d a x : d ∈ concat C -> desc_at P a -> dwords a x -> ~ at_page (b_page d) x.
Proof.
  intros Hd Ha Hx Hin. destruct (desc_word P a (x - a) Ha) as (p & Hp & Hat); [unfold dwords in Hx; lia|]. replace (a + (x - a)) with x in Hat by lia.
  apply (data_not_desc d p Hd Hp). by eapply at_page_apart.
Qed.
Lemma others i ds1 ds2 d : C !! i = Some (ds1 ++ d :: ds2) -> forall j ds d', C !! j = Some ds -> d' ∈ ds -> (j <> i \/ d' ∈ ds1 ++ ds2) -> d' ∈ concat C /\ b_at d' <> b_at d /\ b_page d' <> b_page d.
Proof.
  intros Hi j ds d' Hj Hd Hne. destruct (chains_at C i _ Hi) as (rest & E & E'). specialize (E' []).
  assert (d' ∈ (ds1 ++ ds2) ++ rest) as Hin.
  { destruct Hne as [Hne|Hin]; [|set_solver]. apply elem_of_app. right. change rest with ([] ++ rest). rewrite <- E'. eapply chains_in; [|exact Hd]. by rewrite list_lookup_insert_ne. }
  assert (concat C ≡ₚ d :: (ds1 ++ ds2) ++ rest) as E2 by (rewrite E; cbn; rewrite <- Permutation_middle; done).
  split; [rewrite E2; by right|].
  pose proof (hp_at _ _ _ _ _ _ H) as N1. apply NoDup_app in N1 as (N1 & _ & _). pose proof (hp_pages _ _ _ _ _ _ H) as N2. apply NoDup_app in N2 as (_ & _ & N2).
  rewrite E2 in N1, N2. apply NoDup_cons in N1 as [N1 _]. apply NoDup_cons in N2 as [N2 _]. split; intros Eq; [apply N1|apply N2]; rewrite <- Eq; by apply list_elem_of_fmap_2.
Qed.
(** Changes to one descriptor, one page and one [next]. *)
Definition W (a0 : Z) (n0 : nat) (q x : Z) : Prop := dwords a0 x \/ at_page n0 x \/ x = q + 4.
Lemma chain_of i sz ds : sizes !! i = Some sz -> C !! i = Some ds -> exists ch, chs !! i = Some ch /\ link m 4 ch (b_at <$> ds) /\ Forall (bd_ok m sz) ds.
Proof.
  intros Hs Hi. assert (exists ch, chs !! i = Some ch) as [ch Hch].
  { apply lookup_lt_is_Some_2. rewrite (hp_chs _ _ _ _ _ _ H), <- (hp_len _ _ _ _ _ _ H). by eapply lookup_lt_Some. }
  exists ch. split; [done|]. by eapply hp_chain.
Qed.
Lemma bd_of i sz ds d : sizes !! i = Some sz -> C !! i = Some ds -> d ∈ ds -> bd_ok m sz d.
Proof. intros Hs Hi Hd. destruct (chain_of i sz ds Hs Hi) as (ch & _ & _ & Hf). rewrite Forall_forall in Hf. by apply Hf. Qed.
Lemma frame_next m' a0 n0 q a : keeps m m' (W a0 n0 q) -> desc_at P a0 -> desc_at P q -> n0 ∉ P -> desc_at P a -> a <> a0 -> a <> q -> m' (a + 4) = m (a + 4).
Proof.
  intros Hk H0 Hq Hn Ha N0 Nq. apply Hk. intros [Hd|[Hat|Eq]].
  - eapply (desc_apart P a a0 4 (a + 4 - a0)); [done|done|done|lia|unfold dwords in Hd; lia|lia].
  - destruct (desc_word P a 4 Ha) as (p & Hp & Hat'); [lia|]. apply Hn. by rewrite (at_page_apart _ _ _ Hat Hat').
  - by eapply (desc_apart P a q 4 4); [| | | | |exact Eq].
Qed.
Lemma frame_bd m' a0 n0 q i sz ds d : keeps m m' (W a0 n0 q) -> desc_at P a0 -> desc_at P q -> n0 ∉ P -> sizes !! i = Some sz -> C !! i = Some ds -> d ∈ ds -> b_at d <> a0 -> b_page d <> n0 -> bd_ok m' sz d.
Proof.
  intros Hk H0 Hq Hn Hs Hi Hd N0 Np. assert (d ∈ concat C) as Hc by (by eapply chains_in). pose proof (hp_desc d Hc) as Ha.
  pose proof (bd_of i sz ds d Hs Hi Hd) as Hb. eapply bd_ok_ext; [| |exact Hb].
  - intros j Hj. apply Hk. intros [Hw|[Hat|Eq]].
    + eapply (desc_apart P (b_at d) a0 j (b_at d + j - a0)); [done|done|done|lia|unfold dwords in Hw; lia|lia].
    + destruct (desc_word P (b_at d) j Ha) as (p & Hp & Hat'); [lia|]. apply Hn. by rewrite (at_page_apart _ _ _ Hat Hat').
    + destruct (decide (b_at d = q)) as [E|Hne]; [lia|]. eapply (desc_apart P (b_at d) q j 4); [done|done|done|lia|lia|exact Eq].
  - intros o Ho. pose proof (bo_obj _ _ _ Hb o Ho) as Hob. destruct (obj_at_page i sz _ _ Hs Hob) as [Hat _]. apply Hk. intros [Hw|[Hat'|Eq]].
    + by eapply (desc_not_data d a0 o).
    + apply Np. by eapply at_page_apart.
    + eapply (desc_not_data d q o); [done|done| |done]. unfold dwords. lia.
Qed.
(** The chains but the [i]th one. *)
Lemma frame_chain m' a0 n0 q i ds1 ds2 : keeps m m' (W a0 n0 q) -> desc_at P a0 -> desc_at P q -> n0 ∉ P -> C !! i = Some (ds1 ++ ds2) ->
  (q = a0 \/ q ∈ b_at <$> ds1) -> a0 ∉ b_at <$> concat (<[i := ds1]> C) -> n0 ∉ b_page <$> concat (<[i := ds1]> C) ->
  forall j sz ch ds, j <> i -> sizes !! j = Some sz -> chs !! j = Some ch -> C !! j = Some ds -> link m' 4 ch (b_at <$> ds) /\ Forall (bd_ok m' sz) ds.
Proof.
  intros Hk H0 Hq Hn Hi Hqi Na Np j sz ch ds Hji Hs Hch Hj. destruct (hp_chain _ _ _ _ _ _ H j sz ch ds Hs Hch Hj) as [Hl _].
  assert (forall d, d ∈ ds -> d ∈ concat (<[i := ds1]> C)) as Hin by (intros d Hd; eapply (chains_in _ j); [|exact Hd]; by rewrite list_lookup_insert_ne).
  assert (forall d, d ∈ ds -> b_at d <> a0 /\ b_page d <> n0) as Hne by (intros d Hd; split; intros <-; [apply Na|apply Np]; apply list_elem_of_fmap_2; auto).
  split; [|apply Forall_forall; intros d Hd; destruct (Hne d Hd); by eapply frame_bd].
  eapply link_ext; [|exact Hl]. intros a (d & -> & Hd)%list_elem_of_fmap. destruct (Hne d Hd) as [Hd0 _]. eapply frame_next; try done; [apply hp_desc; by eapply chains_in|].
  destruct Hqi as [->|(d1 & -> & Hd1)%list_elem_of_fmap]; [done|]. apply list_elem_of_split in Hd1 as (l1 & l2 & ->). rewrite <- app_assoc in Hi. cbn in Hi.
  apply (others i l1 (l2 ++ ds2) d1 Hi j ds d Hj Hd). by left.
Qed.
End Heap.

Lemma keeps_weaken m m' (V V' : Z -> Prop) : keeps m m' V -> (forall x, V x -> V' x) -> keeps m m' V'.
Proof. intros Hk HV x Hx. apply Hk. auto. Qed.
Lemma chain_in m chs f C F P i ds a : heap m chs f C F P -> C !! i = Some ds -> a ∈ b_at <$> ds -> desc_at P a.
Proof. intros H Hi (d & -> & Hd)%list_elem_of_fmap. eapply hp_desc; [done|]. by eapply chains_in. Qed.
Lemma chain_nodup m chs f C F P i ds : heap m chs f C F P -> C !! i = Some ds -> NoDup (b_at <$> ds) /\ NoDup (b_page <$> ds).
Proof.
  intros H Hi. destruct (chains_at C i _ Hi) as (rest & E & _). pose proof (hp_at _ _ _ _ _ _ H) as N. apply NoDup_app in N as (N & _). pose proof (hp_pages _ _ _ _ _ _ H) as N'. apply NoDup_app in N' as (_ & _ & N').
  rewrite E, fmap_app in N. rewrite E, fmap_app in N'. apply NoDup_app in N as (N & _). by apply NoDup_app in N' as (N' & _).
Qed.
Lemma data_page_P m chs f C F P d : heap m chs f C F P -> d ∈ concat C -> b_page d ∉ P.
Proof. intros H Hd Hp. by eapply data_not_desc. Qed.

(** A descriptor hands out or takes back objects. *)
Lemma heap_swap m m' chs f C F P i sz ds1 ds2 d d' : heap m chs f C F P -> sizes !! i = Some sz -> C !! i = Some (ds1 ++ d :: ds2) -> b_at d' = b_at d -> b_page d' = b_page d ->
  keeps m m' (W (b_at d) (b_page d) (b_at d)) -> m' (b_at d + 4) = m (b_at d + 4) -> bd_ok m' sz d' -> heap m' chs f (<[i := ds1 ++ d' :: ds2]> C) F P.
Proof.
  intros H Hs Hi Ea Ep Hk Hnx Hb. destruct (chains_at C i _ Hi) as (rest & E & E').
  assert (i < length C)%nat as Hlt by (by eapply lookup_lt_Some).
  assert (d ∈ concat C) as Hd by (eapply chains_in; [exact Hi|set_solver]). pose proof (hp_desc _ _ _ _ _ _ H d Hd) as Hda. pose proof (data_page_P _ _ _ _ _ _ _ H Hd) as Hdp.
  assert (b_at <$> concat (<[i := ds1 ++ d' :: ds2]> C) ≡ₚ b_at <$> concat C) as Eat by (rewrite E, E', !fmap_app; cbn; by rewrite Ea).
  assert (b_page <$> concat (<[i := ds1 ++ d' :: ds2]> C) ≡ₚ b_page <$> concat C) as Epg by (rewrite E, E', !fmap_app; cbn; by rewrite Ep).
  assert (forall a, desc_at P a -> m' (a + 4) = m (a + 4)) as Hlink by (intros a Ha; destruct (decide (a = b_at d)) as [->|Hne]; [done|by eapply frame_next]).
  split; [apply H|by rewrite length_insert; apply H| |by eapply link_ext; [|apply H]; intros a Ha; apply Hlink; by eapply hp_spare_desc|rewrite Eat; apply H|intros a; rewrite Eat; apply H|rewrite Epg; apply H].
  intros j sz' ch ds Hsz Hch Hj. destruct (decide (j = i)) as [->|Hne].
  - rewrite list_lookup_insert_eq in Hj by done. injection Hj as <-. assert (sz' = sz) as -> by congruence. destruct (hp_chain _ _ _ _ _ _ H i sz ch _ Hs Hch Hi) as [Hl Hfa]. split.
    + rewrite fmap_app in *. cbn in *. rewrite Ea. eapply link_ext; [|exact Hl]. intros a Ha. apply Hlink. eapply chain_in; [done|exact Hi|]. by rewrite fmap_app.
    + apply Forall_forall. intros d'' [Hin|[->|Hin]%elem_of_cons]%elem_of_app; [|done|];
        (destruct (others _ _ _ _ _ _ H i ds1 ds2 d Hi i _ d'' Hi) as (_ & Na & Np); [set_solver|right; set_solver|]; eapply (frame_bd _ _ _ _ _ _ H m' (b_at d) (b_page d) (b_at d) i); try done; set_solver).
  - rewrite list_lookup_insert_ne in Hj by done. eapply (frame_chain _ _ _ _ _ _ H m' (b_at d) (b_page d) (b_at d) i [] (ds1 ++ d :: ds2)); try done; [by left|..];
      (intros (d'' & Eq & (j' & ds' & Hj' & Hd')%in_chains_at)%list_elem_of_fmap; apply list_lookup_insert_Some in Hj' as [(_ & <- & _)|[Hji Hj']]; [by apply not_elem_of_nil in Hd'|];
       by destruct (others _ _ _ _ _ _ H i ds1 ds2 d Hi j' ds' d'' Hj' Hd' ltac:(left; done)) as (_ & ? & ?)).
Qed.

Lemma link_cut m m' off l q a0 l2 : forall p, link m off p (l ++ q :: a0 :: l2) -> (forall x, x ∈ l ++ l2 -> m' (x + off) = m (x + off)) -> m' (q + off) = m (a0 + off) -> link m' off p (l ++ q :: l2).
Proof.
  induction l as [|x l IH]; intros p; cbn.
  - intros (-> & _ & Hl) He Hq. split; [done|]. rewrite Hq. by eapply link_ext.
  - intros (-> & Hl) He Hq. split; [done|]. rewrite He by left. apply IH; [done| |done]. intros y Hy. apply He. by right.
Qed.
(** A descriptor leaves its chain. *)
Lemma heap_drop m m' chs chs' f C F P i sz ds1 ds2 d q : heap m chs f C F P -> sizes !! i = Some sz -> C !! i = Some (ds1 ++ d :: ds2) ->
  keeps m m' (W (b_at d) (b_page d) q) -> m' (b_at d + 4) = f ->
  ((ds1 = [] /\ q = b_at d /\ chs' = <[i := m (b_at d + 4)]> chs) \/ (exists l pd, ds1 = l ++ [pd] /\ q = b_at pd /\ m' (q + 4) = m (b_at d + 4) /\ chs' = chs)) ->
  heap m' chs' (b_at d) (<[i := ds1 ++ ds2]> C) (b_at d :: F) P.
Proof.
  intros H Hs Hi Hk Hf Hq. destruct (chains_at C i _ Hi) as (rest & E & E'). specialize (E' (ds1 ++ ds2)).
  assert (i < length C)%nat as Hlt by (by eapply lookup_lt_Some). assert (i < length chs)%nat as Hlt' by (rewrite (hp_chs _ _ _ _ _ _ H), <- (hp_len _ _ _ _ _ _ H); done).
  assert (d ∈ concat C) as Hd by (eapply chains_in; [exact Hi|set_solver]). pose proof (hp_desc _ _ _ _ _ _ H d Hd) as Hda. pose proof (data_page_P _ _ _ _ _ _ _ H Hd) as Hdp.
  assert ((b_at <$> concat (<[i := ds1 ++ ds2]> C)) ++ b_at d :: F ≡ₚ (b_at <$> concat C) ++ F) as Eat by (rewrite E, E', !fmap_app; cbn; rewrite <- !Permutation_middle; done).
  assert (b_page d :: (P ++ (b_page <$> concat (<[i := ds1 ++ ds2]> C))) ≡ₚ P ++ (b_page <$> concat C)) as Epg by (rewrite E, E', !fmap_app; cbn; rewrite <- !Permutation_middle; cbn; rewrite <- !Permutation_middle; done).
  assert (forall d', d' ∈ ds1 ++ ds2 -> b_at d' <> b_at d /\ b_page d' <> b_page d) as Hoth by (intros d' Hd'; apply (others _ _ _ _ _ _ H i ds1 ds2 d Hi i _ d' Hi); [set_solver|by right]).
  assert (desc_at P q /\ (q = b_at d \/ q ∈ b_at <$> ds1)) as [Hqd Hqi].
  { destruct Hq as [(_ & -> & _)|(l & pd & -> & -> & _)]; [auto|]. split; [|right; rewrite fmap_app; set_solver]. eapply chain_in; [done|exact Hi|]. rewrite !fmap_app. set_solver. }
  assert (forall a, desc_at P a -> a <> b_at d -> a <> q -> m' (a + 4) = m (a + 4)) as Hlink by (intros a Ha N1 N2; by eapply frame_next).
  pose proof (hp_at _ _ _ _ _ _ H) as Nat. apply NoDup_app in Nat as (Nat & Ndis & _).
  split; [destruct Hq as [(_ & _ & ->)|(l & pd & _ & _ & _ & ->)]; rewrite ?length_insert; apply H|by rewrite length_insert; apply H| | |rewrite Eat; apply H|intros a; rewrite Eat; apply H|].
  - intros j sz' ch ds Hsz Hch Hj. destruct (decide (j = i)) as [->|Hne].
    + rewrite list_lookup_insert_eq in Hj by done. injection Hj as <-. assert (sz' = sz) as -> by congruence.
      split; [|apply Forall_forall; intros d' Hd'; destruct (Hoth d' Hd'); eapply (frame_bd _ _ _ _ _ _ H m' (b_at d) (b_page d) q i); try done; set_solver].
      destruct (chain_of _ _ _ _ _ _ H i sz _ Hs Hi) as (ch0 & Hch0 & Hl & _). destruct (chain_nodup _ _ _ _ _ _ _ _ H Hi) as [Nc _]. rewrite fmap_app in Hl, Nc. cbn in Hl, Nc.
      destruct Hq as [(-> & -> & ->)|(l & pd & -> & -> & Hpd & ->)].
      * rewrite list_lookup_insert_eq in Hch by done. injection Hch as <-. cbn in Hl |- *. eapply link_ext; [|apply Hl]. intros a Ha. assert (a <> b_at d) by (intros ->; by apply NoDup_cons in Nc as [? _]).
        apply Hlink; [|done|done]. eapply chain_in; [done|exact Hi|]. cbn. by right.
      * rewrite Hch in Hch0. injection Hch0 as <-. rewrite !fmap_app in *. cbn in *. rewrite <- app_assoc in *. cbn in *. eapply link_cut; [exact Hl| |done]. intros a Ha.
        apply Hlink; [eapply chain_in; [done|exact Hi|]; rewrite !fmap_app; cbn; set_solver|intros ->|intros ->]; clear -Nc Ha.
        -- apply NoDup_app in Nc as (_ & N1 & N2). apply NoDup_cons in N2 as [_ N2]. apply NoDup_cons in N2 as [N2 _]. apply elem_of_app in Ha as [Ha|Ha]; [|done]. apply (N1 _ Ha). set_solver.
        -- apply NoDup_app in Nc as (_ & N1 & N2). apply NoDup_cons in N2 as [N2 _]. apply elem_of_app in Ha as [Ha|Ha]; [apply (N1 _ Ha)|apply N2]; set_solver.
    + rewrite list_lookup_insert_ne in Hj by done.
      assert (chs !! j = Some ch) as Hch' by (destruct Hq as [(_ & _ & ->)|(l & pd & _ & _ & _ & ->)]; [by rewrite list_lookup_insert_ne in Hch|done]).
      eapply (frame_chain _ _ _ _ _ _ H m' (b_at d) (b_page d) q i ds1 (d :: ds2)); try done;
        (intros (d' & Eq & (j' & ds' & Hj' & Hd')%in_chains_at)%list_elem_of_fmap; apply list_lookup_insert_Some in Hj' as [(_ & <- & _)|[Hji Hj']]; [destruct (Hoth d'); [set_solver|congruence]|];
         by destruct (others _ _ _ _ _ _ H i ds1 ds2 d Hi j' ds' d' Hj' Hd' ltac:(left; done)) as (_ & ? & ?)).
  - split; [done|]. rewrite Hf. eapply link_ext; [|apply H]. intros a Ha. apply Hlink; [by eapply hp_spare_desc|intros ->|intros ->].
    + eapply (Ndis (b_at d)); [by apply list_elem_of_fmap_2|done].
    + destruct Hqi as [->|(d' & -> & Hd')%list_elem_of_fmap]; [eapply (Ndis (b_at d)); [by apply list_elem_of_fmap_2|done]|].
      eapply (Ndis (b_at d')); [apply list_elem_of_fmap_2; eapply chains_in; [exact Hi|set_solver]|done].
  - pose proof (hp_pages _ _ _ _ _ _ H) as Np. rewrite <- Epg in Np. by apply NoDup_cons in Np as [_ Np].
Qed.

(** A spare descriptor and a page of their own make the front of a chain. *)
Lemma heap_add m m' chs f C F P i sz ds ch a0 n0 fr : heap m chs f C (a0 :: F) P -> sizes !! i = Some sz -> C !! i = Some ds -> chs !! i = Some ch ->
  n0 ∉ P -> n0 ∉ b_page <$> concat C -> keeps m m' (W a0 n0 a0) -> m' (a0 + 4) = ch -> bd_ok m' sz (mkBd a0 n0 fr) ->
  heap m' (<[i := a0]> chs) (m (a0 + 4)) (<[i := mkBd a0 n0 fr :: ds]> C) F P.
Proof.
  intros H Hs Hi Hch HnP HnC Hk Hnx Hb. destruct (chains_at C i _ Hi) as (rest & E & E'). specialize (E' (mkBd a0 n0 fr :: ds)).
  assert (i < length C)%nat as Hlt by (by eapply lookup_lt_Some). assert (i < length chs)%nat as Hlt' by (by eapply lookup_lt_Some).
  pose proof (hp_at _ _ _ _ _ _ H) as Nat. apply NoDup_app in Nat as (Nat & Ndis & NF). apply NoDup_cons in NF as [NF _].
  assert (a0 ∉ b_at <$> concat C) as HaC by (intros Ha; eapply Ndis; [exact Ha|left]). assert (desc_at P a0) as Hda by (eapply hp_spare_desc; [done|left]).
  assert ((b_at <$> concat (<[i := mkBd a0 n0 fr :: ds]> C)) ++ F ≡ₚ (b_at <$> concat C) ++ a0 :: F) as Eat by (rewrite E, E', !fmap_app; cbn; rewrite <- !Permutation_middle; done).
  assert (P ++ (b_page <$> concat (<[i := mkBd a0 n0 fr :: ds]> C)) ≡ₚ n0 :: (P ++ (b_page <$> concat C))) as Epg by (rewrite E, E', !fmap_app; cbn; rewrite <- !Permutation_middle; done).
  assert (forall a, desc_at P a -> a <> a0 -> m' (a + 4) = m (a + 4)) as Hlink by (intros a Ha N1; by eapply frame_next).
  assert (<[i := ds]> C = C) as EC by (by apply list_insert_id).
  split; [by rewrite length_insert; apply H|by rewrite length_insert; apply H| | |rewrite Eat; apply H|intros a; rewrite Eat; apply H|].
  - intros j sz' ch' ds' Hsz Hch' Hj. destruct (decide (j = i)) as [->|Hne].
    + rewrite list_lookup_insert_eq in Hj by done. rewrite list_lookup_insert_eq in Hch' by done. injection Hj as <-. injection Hch' as <-. assert (sz' = sz) as -> by congruence.
      destruct (hp_chain _ _ _ _ _ _ H i sz ch ds Hs Hch Hi) as [Hl _]. split.
      * cbn. split; [done|]. rewrite Hnx. eapply link_ext; [|exact Hl]. intros a Ha. apply Hlink; [by eapply chain_in|]. intros ->. apply HaC. rewrite E, fmap_app. set_solver.
      * constructor; [done|]. apply Forall_forall. intros d Hd. assert (d ∈ concat C) by (by eapply chains_in).
        eapply (frame_bd _ _ _ _ _ _ H m' a0 n0 a0 i); try done; intros <-; [apply HaC|apply HnC]; by apply list_elem_of_fmap_2.
    + rewrite list_lookup_insert_ne in Hj by done. rewrite list_lookup_insert_ne in Hch' by done.
      eapply (frame_chain _ _ _ _ _ _ H m' a0 n0 a0 i ds []); try done; [by rewrite app_nil_r|by left|by rewrite EC..].
  - pose proof (hp_spare _ _ _ _ _ _ H) as [_ Hl]. eapply link_ext; [|exact Hl]. intros a Ha. apply Hlink; [eapply hp_spare_desc; [done|by right]|]. intros ->. done.
  - rewrite Epg. apply NoDup_cons. split; [|apply H]. rewrite elem_of_app. tauto.
Qed.

(** Changes to a page the allocator does not have. *)
Lemma heap_page m m' chs f C F P n : heap m chs f C F P -> n ∉ pages_of C P -> keeps m m' (at_page n) -> heap m' chs f C F P.
Proof.
  intros H Hn Hk. assert (n ∉ P /\ n ∉ b_page <$> concat C) as [HnP HnC] by (unfold pages_of in Hn; rewrite elem_of_app in Hn; tauto).
  assert (forall a j, desc_at P a -> 0 <= j < 16 -> m' (a + j) = m (a + j)) as Hd.
  { intros a j Ha Hj. apply Hk. intros Hat. destruct (desc_word P a j Ha Hj) as (p & Hp & Hat'). apply HnP. by rewrite (at_page_apart _ _ _ Hat Hat'). }
  split; try apply H.
  - intros i sz ch ds Hs Hch Hi. destruct (hp_chain _ _ _ _ _ _ H i sz ch ds Hs Hch Hi) as [Hl Hf]. split.
    + eapply link_ext; [|exact Hl]. intros a Ha. apply Hd; [by eapply chain_in|lia].
    + rewrite Forall_forall in Hf. apply Forall_forall. intros d Hin. assert (d ∈ concat C) as Hc by (by eapply chains_in). eapply bd_ok_ext; [| |by apply Hf].
      * intros j Hj. apply Hd; [by eapply hp_desc|lia].
      * intros o Ho. apply Hk. intros Hat. apply HnC. pose proof (bo_obj _ _ _ (Hf d Hin) o Ho) as Hob. destruct (obj_at_page i sz _ _ Hs Hob) as [Hat' _].
        rewrite (at_page_apart _ _ _ Hat Hat'). by apply list_elem_of_fmap_2.
  - eapply link_ext; [|apply H]. intros a Ha. apply Hd; [by eapply hp_spare_desc|lia].
Qed.
(** A page of spare descriptors. *)
Definition spares (n : nat) : list Z := (fun k => addr_of n + 16 * Z.of_nat k) <$> seq 0 256.
Lemma link_run m off g n : forall k, (forall j, (k <= j < k + n)%nat -> m (g j + off) = if (S j <? k + n)%nat then g (S j) else 0) -> link m off (if (n =? 0)%nat then 0 else g k) (g <$> seq k n).
Proof.
  induction n as [|n IH]; intros k Hj; [done|]. cbn. split; [done|]. rewrite Hj by lia. specialize (IH (S k)). destruct n as [|n]; cbn [Nat.eqb] in IH.
  - by rewrite (proj2 (Nat.ltb_ge _ _)) by lia.
  - rewrite (proj2 (Nat.ltb_lt _ _)) by lia. apply IH. intros j Hj'. rewrite Hj by lia. by replace (S k + S n)%nat with (k + S (S n))%nat by lia.
Qed.
Lemma heap_spares m m' chs C P n : heap m chs 0 C [] P -> n ∉ pages_of C P -> keeps m m' (at_page n) ->
  (forall k, (k < 256)%nat -> m' (addr_of n + 16 * Z.of_nat k + 4) = if (k <? 255)%nat then addr_of n + 16 * (Z.of_nat k + 1) else 0) -> heap m' chs (addr_of n) C (spares n) (n :: P).
Proof.
  intros H Hn Hk Hm. pose proof (heap_page _ _ _ _ _ _ _ _ H Hn Hk) as H'. assert (forall a, a ∈ spares n -> exists k, 0 <= k < 256 /\ a = addr_of n + 16 * k) as Hsp.
  { intros a (k & -> & Hin)%list_elem_of_fmap. apply elem_of_seq in Hin. exists (Z.of_nat k). split; [lia|done]. }
  assert (n ∉ P) as HnP by (intros Hp; apply Hn; unfold pages_of; set_solver). split; try apply H'.
  - pose proof (link_run m' 4 (fun k => addr_of n + 16 * Z.of_nat k) 256 0) as Hl. cbn [Nat.eqb] in Hl. rewrite Z.mul_0_r, Z.add_0_r in Hl. apply Hl. intros j Hj. rewrite Hm by lia.
    change (0 + 256)%nat with 256%nat. destruct (Nat.ltb_spec j 255), (Nat.ltb_spec (S j) 256); lia.
  - apply NoDup_app. split_and!.
    + pose proof (hp_at _ _ _ _ _ _ H) as N. by rewrite app_nil_r in N.
    + intros a (d & -> & Hd)%list_elem_of_fmap (k & Hk' & Ea)%Hsp. destruct (desc_word P (b_at d) 0 (hp_desc _ _ _ _ _ _ H d Hd)) as (p & Hp & Hat); [lia|].
      apply HnP. rewrite (at_page_apart n p (b_at d + 0)); [done| |done]. unfold at_page. lia.
    + apply (NoDup_fmap_2_strong _); [|apply NoDup_seq]. intros x y _ _ E. lia.
  - intros a [Ha|(k & Hk' & ->)%Hsp]%elem_of_app.
    + destruct (hp_in _ _ _ _ _ _ H a) as (p & k & Hp & R); [set_solver|]. exists p, k. split; [by right|done].
    + exists n, k. split; [left|done].
  - cbn. apply NoDup_cons. split; [done|apply H].
Qed.

(** ** Running the routines *)

Definition wmem (m : Z -> Z) (s : kmal) : kmal := mkKm (set_mem m (kmm s)) (bucket_dir s) (free_bucket_desc s).
Lemma mrd_run {A} a s (k : Z -> M kmal A) : (mrd a ≫= k) s = k (mem (kmm s) a) s.
Proof. by destruct s. Qed.
Lemma mwr_run {A} a v s (k : unit -> M kmal A) : (mwr a v ≫= k) s = k tt (wmem (poke (mem (kmm s)) a v) s).
Proof. done. Qed.
Lemma set_refcnt_run {A} b v s (k : unit -> M kmal A) : (set_refcnt b v ≫= k) s = k tt (wmem (poke (mem (kmm s)) (b + 12) (Z.lor (Z.land (mem (kmm s) (b + 12)) 4294901760) (u16 v))) s).
Proof. by destruct s. Qed.
Lemma set_bsize_run {A} b v s (k : unit -> M kmal A) : (set_bsize b v ≫= k) s = k tt (wmem (poke (mem (kmm s)) (b + 12) (Z.lor (Z.land (mem (kmm s) (b + 12)) 65535) (Z.shiftl (u16 v) 16))) s).
Proof. by destruct s. Qed.
Lemma refcnt_run {A} b s (k : Z -> M kmal A) : (refcnt_at b ≫= k) s = k (Z.land (mem (kmm s) (b + 12)) 65535) s.
Proof. by destruct s. Qed.
Lemma set_fbd_run {A} v s (k : unit -> M kmal A) : (set_fbd v ≫= k) s = k tt (mkKm (kmm s) (bucket_dir s) v).
Proof. done. Qed.
Lemma wmem_wmem m m' s : wmem m (wmem m' s) = wmem m s.
Proof. done. Qed.
Lemma for_writes g v n : forall k s, (forall i j, (k <= i < k + n)%nat -> (k <= j < k + n)%nat -> g i = g j -> i = j) ->
  exists m', for_range k n (fun j => mwr (g j) (v j)) s = Ok tt (wmem m' s) /\ (forall j, (k <= j < k + n)%nat -> m' (g j) = v j) /\ (forall x, (forall j, (k <= j < k + n)%nat -> x <> g j) -> m' x = mem (kmm s) x).
Proof.
  induction n as [|n IH]; intros k s Hinj; [exists (mem (kmm s)); split_and!; [by destruct s as [[] ? ?]|lia|done]|].
  destruct (IH (S k) (wmem (poke (mem (kmm s)) (g k) (v k)) s)) as (m' & E & H1 & H2); [intros i j Hi Hj; apply Hinj; lia|].
  exists m'. split_and!; [cbn [for_range]; by rewrite mwr_run|..].
  - intros j Hj. destruct (decide (j = k)) as [->|Hne]; [|apply H1; lia]. rewrite H2; [cbn; by rewrite poke_eq|]. intros i Hi E'. apply Hinj in E'; lia.
  - intros x Hx. rewrite H2 by (intros j Hj; apply Hx; lia). cbn. apply poke_ne, Hx. lia.
Qed.

(** The count and the size in one word. *)
Lemma cnt_lo c z : 0 <= c < 65536 -> Z.land (c + 65536 * z) 65535 = c.
Proof. intros Hc. change 65535 with (Z.ones 16). rewrite Z.land_ones by lia. change (2 ^ 16) with 65536. rewrite Z.mul_comm, Z.mod_add by lia. by rewrite Z.mod_small. Qed.
Lemma cnt_hi c z : 0 <= c < 65536 -> 0 <= z < 65536 -> Z.land (c + 65536 * z) 4294901760 = Z.shiftl z 16.
Proof.
  intros Hc Hz. rewrite Z.add_comm. replace (65536 * z + c) with (z * 2 ^ 16 + c) by lia. rewrite <- lor_shiftl by (cbn; lia). apply Z.bits_inj'. intros i Hi. rewrite Z.land_spec, Z.lor_spec.
  change 4294901760 with (Z.shiftl (Z.ones 16) 16). rewrite !Z.shiftl_spec by lia. destruct (Z.lt_ge_cases i 16) as [Hlt|Hge].
  - by rewrite !(Z.testbit_neg_r _ (i - 16)), andb_false_r by lia.
  - rewrite (Z.bits_above_log2 c i), orb_false_r; [|lia|destruct (decide (c = 0)) as [->|]; [cbn; lia|]; enough (Z.log2 c < 16) by lia; apply Z.log2_lt_pow2; cbn; lia].
    destruct (Z.lt_ge_cases i 32); [rewrite Z.ones_spec_low by lia; by rewrite andb_true_r|]. rewrite Z.ones_spec_high, andb_false_r by lia. symmetry. apply Z.bits_above_log2; [lia|].
    destruct (decide (z = 0)) as [->|]; [cbn; lia|]. enough (Z.log2 z < 16) by lia. apply Z.log2_lt_pow2; cbn; lia.
Qed.
Lemma cnt_set c z c' : 0 <= c < 65536 -> 0 <= z < 65536 -> 0 <= c' < 65536 -> Z.lor (Z.land (c + 65536 * z) 4294901760) (u16 c') = c' + 65536 * z.
Proof. intros Hc Hz Hc'. rewrite cnt_hi, u16_id by done. rewrite lor_shiftl by (cbn; lia). lia. Qed.
Lemma cnt_new w z : 0 <= z < 65536 -> Z.lor (Z.land (Z.lor (Z.land w 4294901760) (u16 0)) 65535) (Z.shiftl (u16 z) 16) = 65536 * z.
Proof.
  intros Hz. change (u16 0) with 0. rewrite Z.lor_0_r, <- Z.land_assoc. change (Z.land 4294901760 65535) with 0. rewrite Z.land_0_r, Z.lor_0_l, u16_id by done. rewrite Z.shiftl_mul_pow2 by lia. lia.
Qed.

Lemma find_dir_ok chs len : length chs = 9%nat -> 0 <= len <= 4096 ->
  exists i sz ch, find_dir len (dirs_of chs) = i /\ sizes !! i = Some sz /\ chs !! i = Some ch /\ dirs_of chs !! i = Some (sz, ch) /\ len <= sz /\ forall j z, sizes !! j = Some z -> len <= z -> sz <= z.
Proof.
  intros Hl Hlen. do 9 (destruct chs as [|? chs]; [done|]). destruct chs; [|done]. cbn.
  assert (forall sz, (forall z, z ∈ sizes -> len <= z -> sz <= z) -> forall j z, sizes !! j = Some z -> len <= z -> sz <= z) as Hmin by (intros sz Hz j y Hj; apply Hz; by eapply list_elem_of_lookup_2).
  repeat match goal with |- context [len <=? ?k] => destruct (Z.leb_spec len k); [eexists _, _, _; split_and!; [reflexivity..|lia|]; apply Hmin; intros y Hy Hle; unfold sizes in Hy; set_unfold in Hy; lia|]; cbn end. lia.
Qed.
Lemma dirs_lookup chs i sz ch : sizes !! i = Some sz -> chs !! i = Some ch -> dirs_of chs !! i = Some (sz, ch).
Proof.
  intros Hs Hc. unfold dirs_of. rewrite lookup_app_l; [by rewrite lookup_zip_with, Hs; cbn; rewrite Hc|].
  rewrite length_zip_with. apply lookup_lt_Some in Hs, Hc. lia.
Qed.
Lemma dirs_insert chs i sz v : sizes !! i = Some sz -> (i < length chs)%nat -> <[i := (sz, v)]> (dirs_of chs) = dirs_of (<[i := v]> chs).
Proof.
  intros Hs Hi. pose proof (lookup_lt_Some _ _ _ Hs) as Hlt. unfold dirs_of. rewrite insert_app_l by (rewrite length_zip_with; lia). f_equal.
  rewrite <- (list_insert_id sizes i sz) at 2 by done. by rewrite insert_zip_with.
Qed.
Lemma set_chain_run {A} i v s chs sz (k : unit -> M kmal A) : bucket_dir s = dirs_of chs -> sizes !! i = Some sz -> (i < length chs)%nat ->
  (set_chain i v ≫= k) s = k tt (mkKm (kmm s) (dirs_of (<[i := v]> chs)) (free_bucket_desc s)).
Proof.
  intros Hd Hs Hi. destruct (lookup_lt_is_Some_2 _ _ Hi) as [ch Hch]. unfold set_chain, get_dir, mbind, M_bind, gets, idx, modify. cbn. rewrite Hd, (dirs_lookup _ _ _ _ Hs Hch). unfold mret, M_ret. cbn [fst bucket_dir kmm free_bucket_desc]. by rewrite Hd, (dirs_insert _ _ _ _ Hs Hi).
Qed.
Lemma get_dir_run {A} i s chs sz ch (k : Z * Z -> M kmal A) : bucket_dir s = dirs_of chs -> sizes !! i = Some sz -> chs !! i = Some ch -> (get_dir i ≫= k) s = k (sz, ch) s.
Proof. intros Hd Hs Hc. unfold get_dir, mbind, M_bind, gets, idx. cbn. by rewrite Hd, (dirs_lookup _ _ _ _ Hs Hc). Qed.

(** ** The pages *)

Lemma mm_ok_users s X Y : mm_ok s X -> (forall n, X n = Y n) -> mm_ok s Y.
Proof.
  intros [H1 H2 H3 H4 H5 H6 H7 H8 H9] E. split; try done. destruct H6 as (R & HR & Hc). exists R. split; [done|]. intros n c Hn. rewrite <- E. by apply Hc.
Qed.
Lemma owned_no_slot s X n a : mm_ok s X -> mem_map s !! n = Some 1 -> 1 <= X n -> slot (mem s) a -> ~ at_page n a.
Proof.
  intros Hok Hn HX Ha Hat. assert (n < PAGING_PAGES)%nat as Hlt by (rewrite <- (ok_len _ _ Hok); by eapply lookup_lt_Some).
  destruct Ha as [[Hd _]|(d & Hd & Hp & Ha & _)]; [unfold at_page, addr_of, LOW_MEM in Hat; lia|]. destruct (ok_tab _ _ Hok d Hd Hp) as [T1 _].
  assert (addr_of n = page_of (mem s d)) as Ea by (by eapply frames_apart; [apply frame_addr_of|eapply dir_frame|..]).
  destruct (ok_refs _ _ Hok) as (R & HR & Hc). destruct (Hc n 1 Hn) as [Ec _].
  assert (d ∈ R n) as Hin by (apply HR; split; [by left|split_and!; [done|lia|by rewrite <- Ea, nr_addr_of]]). pose proof (elem_size _ _ Hin). lia.
Qed.
Lemma own_in X L n : n ∈ L -> own X L n = X n + 1.
Proof. intros H. unfold own. by rewrite decide_True. Qed.

Section Pages.
Context (X : nat -> Z).

Lemma mm_write s C F P m' : kinv X s C F P -> keeps (mem (kmm s)) m' (fun x => exists n, n ∈ pages_of C P /\ at_page n x) -> mm_ok (set_mem m' (kmm s)) (own X (pages_of C P)).
Proof.
  intros [_ H2 H3 H4] Hk. eapply (mm_frame (kmm s)); [exact H4|done|done|]. intros a Ha. apply Hk. intros (n & Hn & Hat). destruct (H3 n Hn) as [Hc _].
  eapply (owned_no_slot (kmm s)); [exact H4|exact Hc| |exact Ha|exact Hat]. rewrite own_in by done. specialize (H2 n). lia.
Qed.
Lemma kinv_write s C F P m' chs' f' C' F' P' : kinv X s C F P -> heap m' chs' f' C' F' P' -> keeps (mem (kmm s)) m' (fun x => exists n, n ∈ pages_of C P /\ at_page n x) ->
  (forall n, n ∈ pages_of C' P' <-> n ∈ pages_of C P) -> kinv X (mkKm (set_mem m' (kmm s)) (dirs_of chs') f') C' F' P'.
Proof.
  intros K Hh Hk Hp. pose proof (mm_write _ _ _ _ _ K Hk) as Hm. destruct K as [_ H2 H3 H4].
  split; cbn [kmm bucket_dir free_bucket_desc mem mem_map HIGH_MEMORY set_mem]; [by exists chs'|done|intros n Hn; apply H3; by apply Hp|].
  eapply mm_ok_users; [exact Hm|]. intros n. unfold own. by rewrite (decide_ext _ _ 1 0 (Hp n)).
Qed.
Lemma kinv_fresh s C F P n : kinv X s C F P -> mem_map (kmm s) !! n = Some 0 -> n ∉ pages_of C P.
Proof. intros K Hn Hin. destruct (ki_own _ _ _ _ _ K n Hin). congruence. Qed.
(** A page is taken, and the words of it set. *)
Lemma kinv_grab s C F P m' n chs' f' C' F' P' : kinv X s C F P -> mem_map (kmm s) !! n = Some 0 -> addr_of n < HIGH_MEMORY (kmm s) -> heap m' chs' f' C' F' P' ->
  keeps (mem (kmm s)) m' (fun x => exists k, (k = n \/ k ∈ pages_of C P) /\ at_page k x) -> (forall k, k ∈ pages_of C' P' <-> k = n \/ k ∈ pages_of C P) ->
  kinv X (mkKm (set_mem m' (grabbed n (kmm s))) (dirs_of chs') f') C' F' P'.
Proof.
  intros K Hn Hh Hhp Hk Hp. pose proof (kinv_fresh _ _ _ _ _ K Hn) as Hfr. destruct K as [_ H2 H3 H4]. pose proof (grabbed_ok _ _ _ H4 Hn) as Hg.
  assert (n < length (mem_map (kmm s)))%nat as Hlt by (by eapply lookup_lt_Some).
  assert (forall k, k = n \/ k ∈ pages_of C P -> (<[n := 1]> (mem_map (kmm s))) !! k = Some 1 /\ addr_of k < HIGH_MEMORY (kmm s)) as Hown.
  { intros k Hk'. destruct (decide (k = n)) as [->|Hne]; [by rewrite list_lookup_insert_eq by done|]. rewrite list_lookup_insert_ne by done. apply H3. by destruct Hk'. }
  assert (forall k, own X (pages_of C' P') k = held n (own X (pages_of C P)) k) as Eo.
  { intros k. unfold own, held. rewrite (decide_ext _ _ 1 0 (Hp k)). destruct (decide (k = n)) as [->|Hne]; [rewrite decide_True by auto; rewrite decide_False by done; lia|].
    destruct (decide (k ∈ pages_of C P)); [by rewrite decide_True by auto|by rewrite decide_False by tauto]. }
  split; cbn [kmm bucket_dir free_bucket_desc mem mem_map HIGH_MEMORY set_mem set_map grabbed]; [by exists chs'|done|intros k Hk'; by apply Hown, Hp|].
  eapply mm_ok_users; [eapply (mm_frame (grabbed n (kmm s))); [exact Hg|done|done|]|intros k; by rewrite Eo]. cbn [mem set_mem].
  intros a Ha. assert (forall k, k = n \/ k ∈ pages_of C P -> ~ at_page k a) as Hno.
  { intros k Hk'. eapply (owned_no_slot (grabbed n (kmm s)) _ k a Hg); [by apply Hown| |exact Ha]. rewrite <- Eo, own_in by (by apply Hp). specialize (H2 k). lia. }
  rewrite Hk; [|intros (k & Hk' & Hat); by apply (Hno k)]. unfold grabbed. cbn. unfold fill_page. destruct (in_page (addr_of n) a) eqn:E; [|done]. apply in_page_spec in E. exfalso. apply (Hno n); [by left|done].
Qed.

Lemma lift_run {A B} (g : M mm A) a c s (k : A -> M kmal B) : g (kmm s) = Ok a c -> (lift g ≫= k) s = k a (mkKm c (bucket_dir s) (free_bucket_desc s)).
Proof. intros E. apply bind_ok. exact (lift_ok g s a c E). Qed.
Lemma addr_pos n : (addr_of n =? 0) = false.
Proof. apply Z.eqb_neq. unfold addr_of, LOW_MEM. lia. Qed.
Lemma init_run fuel s C P : kinv X s C [] P -> (1 <= fuel)%nat -> (exists n, mem_map (kmm s) !! n = Some 0) ->
  exists n m', mem_map (kmm s) !! n = Some 0 /\ init_bucket_desc fuel s = Ok tt (mkKm (set_mem m' (grabbed n (kmm s))) (bucket_dir s) (addr_of n)) /\
    keeps (mem (kmm s)) m' (at_page n) /\ kinv X (mkKm (set_mem m' (grabbed n (kmm s))) (bucket_dir s) (addr_of n)) C (spares n) (n :: P).
Proof.
  intros K Hf Hfree. destruct (get_free_page_ok (kmm s) _ fuel (ki_mm _ _ _ _ _ K) Hf Hfree) as (n & Hn & Hh & Eg). destruct (ki_heap _ _ _ _ _ K) as (chs & Hd & Hp).
  pose proof (hp_spare _ _ _ _ _ _ Hp) as H0. cbn in H0. pose proof (kinv_fresh _ _ _ _ _ K Hn) as Hnf.
  destruct (for_writes (fun k => addr_of n + 16 * Z.of_nat k + 4) (fun k => addr_of n + 16 * (Z.of_nat k + 1)) 255 0 (mkKm (grabbed n (kmm s)) (bucket_dir s) (free_bucket_desc s))) as (m1 & E1 & W1 & O1); [lia|]. cbn beta in E1, W1, O1.
  set (m' := poke m1 (addr_of n + 16 * 255 + 4) 0). exists n, m'.
  assert (keeps (mem (kmm s)) m' (at_page n)) as Hk.
  { intros x Hx. unfold m'. rewrite poke_ne by (intros ->; apply Hx; unfold at_page; lia). rewrite O1 by (intros j Hj ->; apply Hx; unfold at_page; lia). cbn. unfold fill_page.
    destruct (in_page (addr_of n) x) eqn:E; [|done]. apply in_page_spec in E. destruct (Hx E). }
  split_and!; [done| |done|].
  - unfold init_bucket_desc, set_next. rewrite (lift_run _ _ _ _ _ Eg), addr_pos. rewrite (bind_ok _ _ _ _ _ E1). erewrite bind_ok by reflexivity. cbn [free_bucket_desc wmem]. rewrite H0. by rewrite mwr_run.
  - rewrite Hd. rewrite H0 in Hp. eapply (kinv_grab s C [] P m' n chs (addr_of n) C (spares n) (n :: P) K Hn Hh); [apply (heap_spares _ _ _ _ _ _ Hp Hnf Hk)|..].
    + intros k Hk'. unfold m'. destruct (Nat.ltb_spec k 255) as [Hlt|Hge]; [rewrite poke_ne by lia; apply W1; lia|]. replace k with 255%nat by lia. apply poke_eq.
    + eapply keeps_weaken; [exact Hk|]. intros x Hx. exists n. auto.
    + intros k. unfold pages_of. cbn. by rewrite elem_of_cons.
Qed.

Definition objs (sz : Z) (n : nat) : list Z := (fun k => addr_of n + Z.of_nat k * sz) <$> seq 0 (Z.to_nat (4096 / sz)).
(** The words of the new descriptor and of its page. *)
Lemma bd_ok_new m i sz a n : sizes !! i = Some sz -> m a = addr_of n -> m (a + 8) = addr_of n -> m (a + 12) = 65536 * sz ->
  (forall k, (k < Z.to_nat (4096 / sz) - 1)%nat -> m (addr_of n + Z.of_nat k * sz) = addr_of n + (Z.of_nat k + 1) * sz) -> m (addr_of n + (4096 / sz - 1) * sz) = 0 -> bd_ok m sz (mkBd a n (objs sz n)).
Proof.
  intros Hs E0 E8 E12 Hk Hl. destruct (sizes_ok _ _ Hs) as (S1 & S2 & S3 & S4 & S5). split; cbn [b_at b_page b_free].
  - done.
  - rewrite E8. pose proof (link_run m 0 (fun k => addr_of n + Z.of_nat k * sz) (Z.to_nat (4096 / sz)) 0) as HL. rewrite (proj2 (Nat.eqb_neq _ _)) in HL by lia. cbn [Z.of_nat] in HL. rewrite Z.mul_0_l, Z.add_0_r in HL. apply HL.
    intros j Hj. rewrite Z.add_0_r. destruct (Nat.ltb_spec (S j) (0 + Z.to_nat (4096 / sz))) as [Hlt|Hge]; [rewrite Hk by lia; f_equal; f_equal; lia|]. replace (Z.of_nat j) with (4096 / sz - 1) by lia. done.
  - rewrite E12. unfold objs. rewrite length_fmap, length_seq. lia.
  - apply (NoDup_fmap_2_strong _); [|apply NoDup_seq]. intros x y _ _ E. assert (Z.of_nat x * sz = Z.of_nat y * sz) as E2 by lia. apply Z.mul_cancel_r in E2; lia.
  - intros o (k & -> & Hin)%list_elem_of_fmap. apply elem_of_seq in Hin. exists (Z.of_nat k). split; [lia|done].
Qed.
Lemma desc_sep s C F P a n j x : kinv X s C F P -> desc_at P a -> n ∉ pages_of C P -> 0 <= j < 16 -> at_page n x -> x <> a + j.
Proof.
  intros K Ha Hn Hj Hx ->. destruct (desc_word P a j Ha Hj) as (p & Hp & Hat). apply Hn. rewrite (at_page_apart _ _ _ Hx Hat). unfold pages_of. apply elem_of_app. by left.
Qed.
Lemma desc_own s C F P a x : kinv X s C F P -> desc_at P a -> dwords a x -> exists n, n ∈ pages_of C P /\ at_page n x.
Proof. intros K Ha Hx. destruct (desc_word P a (x - a) Ha) as (p & Hp & Hat); [unfold dwords in Hx; lia|]. exists p. replace (a + (x - a)) with x in Hat by lia. split; [apply elem_of_app; by left|done]. Qed.

Lemma fill_run fuel s C F P a0 i sz ds : kinv X s C (a0 :: F) P -> sizes !! i = Some sz -> C !! i = Some ds -> (1 <= fuel)%nat -> (exists n, mem_map (kmm s) !! n = Some 0) ->
  exists n s', mem_map (kmm s) !! n = Some 0 /\ fill_bucket fuel i sz s = Ok a0 s' /\ kinv X s' (<[i := mkBd a0 n (objs sz n) :: ds]> C) F P /\ keeps (mem (kmm s)) (mem (kmm s')) (W a0 n a0) /\
    mem_map (kmm s') = <[n := 1]> (mem_map (kmm s)).
Proof.
  intros K Hs Hi Hf Hfree. destruct (ki_heap _ _ _ _ _ K) as (chs & Hd & Hp). destruct (chain_of _ _ _ _ _ _ Hp i sz ds Hs Hi) as (ch & Hch & _).
  destruct (sizes_ok _ _ Hs) as (S1 & _ & _ & S4 & S5). pose proof (hp_spare _ _ _ _ _ _ Hp) as [Ef _].
  assert (desc_at P a0) as Ha by (eapply hp_spare_desc; [exact Hp|left]). set (m := mem (kmm s)).
  set (m2 := poke (poke m (a0 + 12) (Z.lor (Z.land (m (a0 + 12)) 4294901760) (u16 0))) (a0 + 12) (65536 * sz)).
  assert (keeps m m2 (dwords a0)) as K2 by (intros x Hx; unfold m2; rewrite !poke_ne; [done|intros ->; apply Hx; unfold dwords; lia..]).
  assert (mm_ok (set_mem m2 (kmm s)) (own X (pages_of C P))) as Hmm by (eapply mm_write; [exact K|]; eapply keeps_weaken; [exact K2|]; intros x Hx; by eapply desc_own).
  destruct (get_free_page_ok _ _ fuel Hmm Hf Hfree) as (n & Hn & Hh & Eg). pose proof (kinv_fresh _ _ _ _ _ K Hn) as Hnf.
  assert (forall j x, 0 <= j < 16 -> at_page n x -> x <> a0 + j) as Hsep by (intros j x Hj Hx; by eapply desc_sep).
  assert (forall k, 0 <= k < 4096 / sz -> at_page n (addr_of n + k * sz)) as Hin by (intros k Hk; eapply (obj_at_page i); [exact Hs|by exists k]).
  set (m5 := poke (poke (mem (grabbed n (set_mem m2 (kmm s)))) (a0 + 8) (addr_of n)) a0 (addr_of n)).
  destruct (for_writes (fun k => addr_of n + Z.of_nat k * sz) (fun k => addr_of n + (Z.of_nat k + 1) * sz) (Z.to_nat (4096 / sz) - 1) 0 (mkKm (set_mem m5 (grabbed n (set_mem m2 (kmm s)))) (bucket_dir s) (m (a0 + 4)))) as (m6 & E6 & W6 & O6).
  { intros x y _ _ E. assert (Z.of_nat x * sz = Z.of_nat y * sz) as E2 by lia. apply Z.mul_cancel_r in E2; lia. }
  cbn beta in E6, W6, O6. cbn [kmm mem set_mem] in O6. set (m8 := poke (poke m6 (addr_of n + (4096 / sz - 1) * sz) 0) (a0 + 4) ch).
  assert (forall j, 0 <= j < 16 -> j <> 4 -> m8 (a0 + j) = m5 (a0 + j)) as D8.
  { intros j Hj N4. unfold m8. rewrite poke_ne by lia. rewrite poke_ne by (apply not_eq_sym, Hsep; [done|apply Hin; lia]). apply O6. intros k Hk. apply not_eq_sym, Hsep; [done|apply Hin; lia]. }
  assert (m8 a0 = addr_of n /\ m8 (a0 + 8) = addr_of n /\ m8 (a0 + 12) = 65536 * sz) as (M0 & M8 & M12).
  { pose proof (D8 0 ltac:(lia) ltac:(lia)) as D0. rewrite !Z.add_0_r in D0. rewrite D0, !D8 by lia. unfold m5. rewrite poke_eq. split; [done|]. split; [rewrite poke_ne by lia; apply poke_eq|].
    rewrite !poke_ne by lia. cbn [mem grabbed set_mem set_map]. unfold fill_page. destruct (in_page (addr_of n) (a0 + 12)) eqn:E; [apply in_page_spec in E; by destruct (Hsep 12 _ ltac:(lia) E)|]. unfold m2. apply poke_eq. }
  assert (keeps m m8 (W a0 n a0)) as K8.
  { intros x Hx. assert (~ dwords a0 x /\ ~ at_page n x) as [Hx1 Hx2] by (unfold W in Hx; tauto). assert (forall j, 0 <= j < 16 -> x <> a0 + j) as Hxj by (intros j Hj ->; apply Hx1; unfold dwords; lia).
    assert (forall k, 0 <= k < 4096 / sz -> x <> addr_of n + k * sz) as Hxk by (intros k Hk ->; by apply Hx2, Hin).
    unfold m8. rewrite poke_ne by (apply Hxj; lia). rewrite poke_ne by (apply Hxk; lia). rewrite O6 by (intros k Hk; apply Hxk; lia). unfold m5. rewrite poke_ne by (rewrite <- (Z.add_0_r a0); apply Hxj; lia). rewrite poke_ne by (apply Hxj; lia).
    cbn [mem grabbed set_mem set_map]. unfold fill_page. destruct (in_page (addr_of n) x) eqn:E; [apply in_page_spec in E; destruct (Hx2 E)|]. by apply K2. }
  exists n, (mkKm (set_mem m8 (grabbed n (kmm s))) (dirs_of (<[i := a0]> chs)) (m (a0 + 4))). split_and!; [done| | |done|done].
  - unfold fill_bucket. erewrite bind_ok by reflexivity. rewrite Ef. unfold next_at, set_freeptr, set_page, set_next. rewrite mrd_run, set_fbd_run, set_refcnt_run, set_bsize_run.
    cbn [wmem kmm bucket_dir free_bucket_desc mem set_mem]. rewrite poke_eq, cnt_new by lia. change (poke (poke _ _ _) _ _) with m2.
    rewrite (lift_run _ _ _ (wmem m2 (mkKm (kmm s) (bucket_dir s) (m (a0 + 4)))) _ Eg), !mwr_run, addr_pos. unfold PAGE_SIZE. erewrite bind_ok by exact E6. rewrite mwr_run.
    rewrite (get_dir_run i _ chs sz ch) by done. rewrite mwr_run. rewrite (set_chain_run i a0 _ chs sz); [reflexivity|exact Hd|exact Hs|by eapply lookup_lt_Some].
  - assert (n ∉ P /\ n ∉ b_page <$> concat C) as [HnP HnC] by (unfold pages_of in Hnf; rewrite elem_of_app in Hnf; tauto).
    eapply (kinv_grab s C (a0 :: F) P m8 n); [exact K|exact Hn|exact Hh|eapply (heap_add m m8 chs _ C F P i sz ds ch a0 n (objs sz n) Hp Hs Hi Hch HnP HnC K8)|..].
    + unfold m8. apply poke_eq.
    + eapply bd_ok_new; [exact Hs|done|done|done| |].
      * intros k Hk. unfold m8. rewrite poke_ne by (apply Hsep; [lia|apply Hin; lia]). rewrite poke_ne; [apply W6; lia|]. intros E. assert (Z.of_nat k * sz = (4096 / sz - 1) * sz) as E2 by lia. apply Z.mul_cancel_r in E2; lia.
      * unfold m8. rewrite poke_ne by (apply Hsep; [lia|apply Hin; lia]). apply poke_eq.
    + intros x Hx. apply K8. intros [Hw|[Hw| ->]]; apply Hx; [destruct (desc_own s C _ P a0 x K Ha Hw) as (k & Hk & Hat); exists k; auto|exists n; auto|].
      destruct (desc_own s C _ P a0 (a0 + 4) K Ha) as (k & Hk & Hat); [unfold dwords; lia|exists k; auto].
    + intros k. unfold pages_of. destruct (chains_at C i _ Hi) as (rest & E & E'). rewrite E, E', !fmap_app. cbn. set_solver.
Qed.

(** The first descriptor of a chain with a free object, if any. *)
Lemma space_run s sz ds : forall ch fuel, link (mem (kmm s)) 4 ch (b_at <$> ds) -> Forall (bd_ok (mem (kmm s)) sz) ds -> (forall d, d ∈ ds -> 0 < b_at d /\ forall o, o ∈ b_free d -> 0 < o) -> (length ds < fuel)%nat ->
  (loop fuel space_step ch s = Ok 0 s /\ forall d, d ∈ ds -> b_free d = []) \/
  exists ds1 d ds2 o fr, ds = ds1 ++ d :: ds2 /\ b_free d = o :: fr /\ loop fuel space_step ch s = Ok (b_at d) s.
Proof.
  induction ds as [|d ds IH]; intros ch fuel Hl Hf Hpos Hlen; (destruct fuel as [|fuel]; [cbn in Hlen; lia|]).
  - cbn in Hl. subst ch. left. split; [by apply loop_done|]. intros d Hd. by apply not_elem_of_nil in Hd.
  - destruct Hl as [-> Hl]. apply Forall_cons in Hf as [Hd Hf]. destruct (Hpos d ltac:(left)) as [Hp Ho]. pose proof (bo_free _ _ _ Hd) as Hfr.
    assert (forall r, (if negb (mem (kmm s) (b_at d + 8) =? 0) then mret (inr (b_at d)) else n ← next_at (b_at d); mret (inl n)) s = r -> space_step (b_at d) s = r) as Hst.
    { intros r Hr. unfold space_step, freeptr_at. rewrite (proj2 (Z.eqb_neq _ _)) by lia. by rewrite mrd_run. }
    destruct (b_free d) as [|o fr] eqn:Efr; cbn in Hfr.
    + rewrite Hfr in Hst. erewrite loop_next by (apply Hst; unfold next_at; cbn; by rewrite mrd_run). destruct (IH _ fuel Hl Hf) as [[E Hn]|(ds1 & d' & ds2 & o & fr & -> & E1 & E2)]; [intros; apply Hpos; by right|cbn in Hlen; lia|..].
      * left. split; [done|]. intros d' [->|Hd']%elem_of_cons; auto.
      * right. exists (d :: ds1), d', ds2, o, fr. done.
    + right. exists [], d, ds, o, fr. split_and!; [done|done|]. apply loop_done, Hst. destruct Hfr as [-> _]. rewrite (proj2 (Z.eqb_neq _ _)); [done|]. specialize (Ho o ltac:(left)). lia.
Qed.
Lemma chain_short s C F P i sz ds : kinv X s C F P -> sizes !! i = Some sz -> C !! i = Some ds -> (length ds < CHAIN)%nat.
Proof.
  intros K Hs Hi. destruct (ki_heap _ _ _ _ _ K) as (chs & _ & Hp). destruct (chain_nodup _ _ _ _ _ _ _ _ Hp Hi) as [_ N].
  assert (length (b_page <$> ds) <= length (seq 0 PAGING_PAGES))%nat as Hle; [|rewrite length_fmap, length_seq in Hle; unfold CHAIN; lia]. apply submseteq_length, NoDup_submseteq; [done|].
  intros n (d & -> & Hd)%list_elem_of_fmap. apply elem_of_seq. split; [lia|]. rewrite <- (ok_len _ _ (ki_mm _ _ _ _ _ K)).
  destruct (ki_own _ _ _ _ _ K (b_page d)) as [Hn _]; [unfold pages_of; apply elem_of_app; right; apply list_elem_of_fmap_2; by eapply chains_in|]. by eapply lookup_lt_Some.
Qed.
Lemma chain_pos s C F P i sz ds d : kinv X s C F P -> sizes !! i = Some sz -> C !! i = Some ds -> d ∈ ds -> 0 < b_at d /\ forall o, o ∈ b_free d -> 0 < o.
Proof.
  intros K Hs Hi Hd. destruct (ki_heap _ _ _ _ _ K) as (chs & _ & Hp). split; [eapply desc_pos, (hp_desc _ _ _ _ _ _ Hp); by eapply chains_in|].
  intros o Ho. destruct (obj_at_page i sz _ o Hs (bo_obj _ _ _ (bd_of _ _ _ _ _ _ Hp i sz ds d Hs Hi Hd) o Ho)) as [Hat _]. unfold at_page, addr_of, LOW_MEM in Hat. lia.
Qed.

(** An object is taken from a descriptor. *)
Lemma cnt_range m sz d i : sizes !! i = Some sz -> bd_ok m sz d -> Z.of_nat (length (b_free d)) <= 4096 / sz.
Proof.
  intros Hs Hb. destruct (sizes_ok _ _ Hs) as (S1 & _ & _ & S4 & _). assert (length (b_free d) <= length (objs sz (b_page d)))%nat as Hle; [|unfold objs in Hle; rewrite length_fmap, length_seq in Hle; lia].
  apply submseteq_length, NoDup_submseteq; [apply Hb|]. intros o Ho. destruct (bo_obj _ _ _ Hb o Ho) as (k & Hk & ->). apply list_elem_of_fmap. exists (Z.to_nat k). rewrite Z2Nat.id by lia. split; [done|]. apply elem_of_seq. lia.
Qed.
Lemma take_run s C F P i sz ds1 d ds2 o fr : kinv X s C F P -> sizes !! i = Some sz -> C !! i = Some (ds1 ++ d :: ds2) -> b_free d = o :: fr ->
  exists m', take_obj (b_at d) s = Ok o (wmem m' s) /\ keeps (mem (kmm s)) m' (dwords (b_at d)) /\ kinv X (wmem m' s) (<[i := ds1 ++ mkBd (b_at d) (b_page d) fr :: ds2]> C) F P.
Proof.
  intros K Hs Hi Hfr. destruct (ki_heap _ _ _ _ _ K) as (chs & Hd & Hp). pose proof (bd_of _ _ _ _ _ _ Hp i sz _ d Hs Hi ltac:(set_solver)) as Hb.
  destruct (sizes_ok _ _ Hs) as (S1 & _ & _ & S4 & _). pose proof (cnt_range _ _ _ _ Hs Hb) as Hc. assert (d ∈ concat C) as Hin by (eapply chains_in; [exact Hi|set_solver]). pose proof (hp_desc _ _ _ _ _ _ Hp d Hin) as Ha.
  destruct Hb as [B1 B2 B3 B4 B5]. rewrite Hfr in B2, B3, B4, B5, Hc. cbn [length] in B3, Hc. destruct B2 as [B2 B2']. rewrite Z.add_0_r in B2'. apply NoDup_cons in B4 as [B4 B4'].
  set (m := mem (kmm s)) in *. set (c := 4096 / sz - Z.of_nat (S (length fr))) in *. set (m' := poke (poke m (b_at d + 8) (m o)) (b_at d + 12) ((c + 1) + 65536 * sz)). exists m'.
  assert (keeps m m' (dwords (b_at d))) as Hk by (intros x Hx; unfold m'; rewrite !poke_ne; [done|intros ->; apply Hx; unfold dwords; lia..]).
  split_and!; [|done|].
  - unfold take_obj, freeptr_at, set_freeptr. rewrite mrd_run. fold m. rewrite B2, mrd_run. fold m. rewrite mwr_run, refcnt_run. cbn [wmem kmm mem set_mem]. fold m. rewrite (poke_ne _ _ _ (b_at d + 12)) by lia. rewrite B3, cnt_lo by lia.
    rewrite set_refcnt_run. cbn [wmem kmm mem set_mem]. fold m. rewrite (poke_ne _ _ _ (b_at d + 12)) by lia. rewrite B3, cnt_set by lia. done.
  - replace (wmem m' s) with (mkKm (set_mem m' (kmm s)) (dirs_of chs) (free_bucket_desc s)) by (rewrite <- Hd; done).
    eapply (kinv_write s C F P); [exact K|eapply (heap_swap m m' chs _ C F P i sz ds1 ds2 d); try done|..].
    + eapply keeps_weaken; [exact Hk|]. intros x Hx. by left.
    + unfold m'. by rewrite !poke_ne by lia.
    + assert (forall x, at_page (b_page d) x -> m' x = m x) as Hobj by (intros x Hx; apply Hk; intros Hw; by eapply (desc_not_data _ _ _ _ _ _ Hp d)).
      split; cbn [b_at b_page b_free]; [by unfold m'; rewrite !poke_ne by lia| | |done|intros x Hx; apply B5; by right].
      * replace (m' (b_at d + 8)) with (m o) by (unfold m'; rewrite poke_ne by lia; by rewrite poke_eq). eapply link_ext; [|exact B2']. intros x Hx. rewrite Z.add_0_r. apply Hobj. eapply (obj_at_page i); [exact Hs|]. apply B5. by right.
      * unfold m'. rewrite poke_eq. unfold c. lia.
    + eapply keeps_weaken; [exact Hk|]. intros x Hx. by eapply desc_own.
    + intros n. unfold pages_of. destruct (chains_at C i _ Hi) as (rest & E & E'). rewrite E, E', !fmap_app. cbn. set_solver.
Qed.

(** ** Objects handed out *)

Definition out_of (z : Z) (d : bd) (x : Z) : Prop := obj z (b_page d) x /\ x ∉ b_free d.
Lemma live_mid C i ds1 mid ds2 sz x z : sizes !! i = Some sz -> (i < length C)%nat ->
  live (<[i := ds1 ++ mid ++ ds2]> C) x z <-> (z = sz /\ exists d, d ∈ mid /\ out_of sz d x) \/ (z = sz /\ exists d, d ∈ ds1 ++ ds2 /\ out_of sz d x) \/
    (exists j ds d, j <> i /\ sizes !! j = Some z /\ C !! j = Some ds /\ d ∈ ds /\ out_of z d x).
Proof.
  intros Hs Hi. split.
  - intros (j & ds & d & Hz & Hj & Hd & Ho). apply list_lookup_insert_Some in Hj as [(<- & <- & _)|[Hne Hj]]; [|by right; right; exists j, ds, d].
    rewrite Hs in Hz. injection Hz as <-. rewrite !elem_of_app in Hd. destruct Hd as [Hd|[Hd|Hd]]; [right; left|left|right; left]; (split; [done|]); exists d; (split; [|done]); set_solver.
  - intros [(-> & d & Hd & Ho)|[(-> & d & Hd & Ho)|(j & ds & d & Hne & Hz & Hj & Hd & Ho)]].
    + exists i, (ds1 ++ mid ++ ds2), d. split_and!; [done|by apply list_lookup_insert_eq|set_solver|apply Ho..].
    + exists i, (ds1 ++ mid ++ ds2), d. split_and!; [done|by apply list_lookup_insert_eq|set_solver|apply Ho..].
    + exists j, ds, d. rewrite list_lookup_insert_ne by done. split_and!; [done..|apply Ho|apply Ho].
Qed.
Lemma live_here C i ds1 mid ds2 sz x z : sizes !! i = Some sz -> C !! i = Some (ds1 ++ mid ++ ds2) ->
  live C x z <-> (z = sz /\ exists d, d ∈ mid /\ out_of sz d x) \/ (z = sz /\ exists d, d ∈ ds1 ++ ds2 /\ out_of sz d x) \/ (exists j ds d, j <> i /\ sizes !! j = Some z /\ C !! j = Some ds /\ d ∈ ds /\ out_of z d x).
Proof. intros Hs Hi. rewrite <- (list_insert_id C i _ Hi) at 1. apply live_mid; [done|by eapply lookup_lt_Some]. Qed.
(** Objects handed out are apart. *)
Lemma live_place s C F P o z : kinv X s C F P -> live C o z -> exists n, n ∈ b_page <$> concat C /\ at_page n o /\ at_page n (o + z - 1) /\ 0 < z.
Proof.
  intros K (i & ds & d & Hs & Hi & Hd & Ho & _). destruct (obj_at_page i z _ o Hs Ho) as (H1 & H2 & _). destruct (sizes_ok _ _ Hs). exists (b_page d). split_and!; [apply list_elem_of_fmap_2; by eapply chains_in|done|done|lia].
Qed.
Lemma live_apart s C F P o z o' z' : kinv X s C F P -> live C o z -> live C o' z' -> o <> o' -> o + z <= o' \/ o' + z' <= o.
Proof.
  intros K L L' Hne. pose proof L as (i & ds & d & Hs & Hi & Hd & Ho & _). pose proof L' as (j & ds' & d' & Hs' & Hj & Hd' & Ho' & _).
  destruct (obj_at_page i z _ o Hs Ho) as (A1 & A2 & _). destruct (obj_at_page j z' _ o' Hs' Ho') as (A1' & A2' & _). destruct (sizes_ok _ _ Hs) as (S1 & _). destruct (sizes_ok _ _ Hs') as (S1' & _).
  destruct (decide (b_page d = b_page d')) as [Ep|Hp]; [|unfold at_page, addr_of in *; lia]. destruct (ki_heap _ _ _ _ _ K) as (chs & _ & Hp).
  assert (j = i) as ->.
  { destruct (decide (j = i)); [done|]. apply list_elem_of_split in Hd as (l1 & l2 & ->). by destruct (others _ _ _ _ _ _ Hp i l1 l2 d Hi j ds' d' Hj Hd' ltac:(by left)) as (_ & _ & []). }
  rewrite Hs in Hs'. injection Hs' as <-. destruct Ho as (k & Hk & ->), Ho' as (k' & Hk' & ->). rewrite Ep in *. assert (k < k' \/ k' < k) as Hkk by (assert (k <> k') by (intros ->; done); lia). nia.
Qed.

(** ** malloc *)

(** Words of pages of descriptors and of free pages. *)
Definition touched (s : kmal) (P : list nat) (x : Z) : Prop := exists k, at_page k x /\ (k ∈ P \/ mem_map (kmm s) !! k = Some 0).
(** Words of low memory, of pages in other use, and of objects handed out. *)
Definition outside (s : kmal) (C : list (list bd)) (P : list nat) (x : Z) : Prop :=
  x < LOW_MEM \/ (exists n c, mem_map (kmm s) !! n = Some c /\ c <> 0 /\ n ∉ pages_of C P /\ at_page n x) \/ exists o z, live C o z /\ o <= x < o + z.
Lemma outside_untouched s C F P x : kinv X s C F P -> outside s C P x -> ~ touched s P x.
Proof.
  intros K Ho (k & Hat & Hk). destruct Ho as [Hlo|[(n & c & Hn & Hc & Hnp & Hat')|(o & z & L & Hx)]].
  - unfold at_page, addr_of in Hat. lia.
  - rewrite (at_page_apart _ _ _ Hat Hat') in Hk. destruct Hk as [Hk|Hk]; [apply Hnp; unfold pages_of; set_solver|congruence].
  - destruct (live_place s C F P o z K L) as (n & Hn & A1 & A2 & Hz). assert (at_page n x) as Hat' by (unfold at_page in *; lia). rewrite (at_page_apart _ _ _ Hat Hat') in Hk.
    destruct (ki_own _ _ _ _ _ K n) as [Hm _]; [unfold pages_of; set_solver|]. destruct Hk as [Hk|Hk]; [|congruence]. destruct (ki_heap _ _ _ _ _ K) as (chs & _ & Hp).
    apply list_elem_of_fmap in Hn as (d & -> & Hd). by eapply (data_not_desc _ _ _ _ _ _ Hp).
Qed.
Lemma keeps_trans m m1 m2 (V : Z -> Prop) : keeps m m1 V -> keeps m1 m2 V -> keeps m m2 V.
Proof. intros H1 H2 x Hx. rewrite H2 by done. by apply H1. Qed.

Definition two_free (s : mm) : Prop := exists n1 n2, n1 <> n2 /\ mem_map s !! n1 = Some 0 /\ mem_map s !! n2 = Some 0.
Lemma new_bucket_run fuel s C F P i sz ds : kinv X s C F P -> sizes !! i = Some sz -> C !! i = Some ds -> (1 <= fuel)%nat -> two_free (kmm s) ->
  exists a0 n s1 F1 P1, new_bucket fuel i sz s = Ok a0 s1 /\ kinv X s1 (<[i := mkBd a0 n (objs sz n) :: ds]> C) F1 P1 /\ keeps (mem (kmm s)) (mem (kmm s1)) (touched s P) /\
    mem_map (kmm s) !! n = Some 0 /\ desc_at P1 a0 /\ forall p, p ∈ P1 -> p ∈ P \/ mem_map (kmm s) !! p = Some 0.
Proof.
  intros K Hs Hi Hf (n1 & n2 & Hne & H1 & H2). unfold new_bucket. erewrite bind_ok by reflexivity. destruct (ki_heap _ _ _ _ _ K) as (chs & _ & Hp). pose proof (hp_spare _ _ _ _ _ _ Hp) as Hfb. destruct F as [|a0 F].
  - cbn in Hfb. destruct (init_run fuel s C P K Hf ltac:(by exists n1)) as (n & m1 & Hn & E1 & K1 & I1). rewrite Hfb. cbn [Z.eqb]. rewrite (bind_ok _ _ _ _ _ E1).
    assert (exists k, (<[n := 1]> (mem_map (kmm s))) !! k = Some 0) as Hfree1 by (destruct (decide (n = n1)) as [->|]; [exists n2|exists n1]; by rewrite list_lookup_insert_ne).
    destruct (fill_run fuel _ C (tail (spares n)) (n :: P) (addr_of n + 16 * Z.of_nat 0) i sz ds I1 Hs Hi Hf Hfree1) as (n' & s2 & Hn' & E2 & I2 & K2 & _). cbn [kmm mem mem_map set_mem grabbed set_map] in Hn', K2.
    assert (mem_map (kmm s) !! n' = Some 0) as Hn0 by (apply list_lookup_insert_Some in Hn' as [(_ & ? & _)|[_ ?]]; done).
    assert (desc_at (n :: P) (addr_of n + 16 * Z.of_nat 0)) as Hda by (exists n, 0; split_and!; [left|lia..]).
    eexists _, n', s2, _, _. split; [exact E2|]. split; [exact I2|]. split_and!; [|done|done|intros p [->|Hp']%elem_of_cons; auto].
    eapply keeps_trans; [eapply keeps_weaken; [exact K1|]; intros x Hx; exists n; auto|]. eapply keeps_weaken; [exact K2|]. intros x [Hx|[Hx|Hx]]; [exists n|exists n'; auto|exists n]; (split; [unfold dwords, at_page in *; lia|auto]).
  - destruct Hfb as [Hfb _]. assert (desc_at P a0) as Hda by (eapply hp_spare_desc; [exact Hp|left]). rewrite Hfb, (proj2 (Z.eqb_neq a0 0)) by (pose proof (desc_pos _ _ Hda); lia). erewrite bind_ok by reflexivity.
    destruct (fill_run fuel s C F P a0 i sz ds K Hs Hi Hf ltac:(by exists n1)) as (n & s2 & Hn & E2 & I2 & K2 & _). exists a0, n, s2, F, P. split_and!; [done|done| |done|done|auto].
    eapply keeps_weaken; [exact K2|]. intros x Hx. assert (dwords a0 x \/ at_page n x) as [Hw|Hw] by (destruct Hx as [?|[?| ->]]; [auto|auto|left; unfold dwords; lia]); [|exists n; auto].
    destruct (desc_word P a0 (x - a0) Hda) as (p & Hp' & Hat); [unfold dwords in Hw; lia|]. exists p. replace (a0 + (x - a0)) with x in Hat by lia. auto.
Qed.
Lemma desc_touched s P P1 a x : desc_at P1 a -> (forall p, p ∈ P1 -> p ∈ P \/ mem_map (kmm s) !! p = Some 0) -> dwords a x -> touched s P x.
Proof.
  intros Ha HP Hw. destruct (desc_word P1 a (x - a) Ha) as (p & Hp & Hat); [unfold dwords in Hw; lia|]. replace (a + (x - a)) with x in Hat by lia. exists p. auto.
Qed.

Lemma free_not_live s C F P i sz ds d o z : kinv X s C F P -> sizes !! i = Some sz -> C !! i = Some ds -> d ∈ ds -> o ∈ b_free d -> ~ live C o z.
Proof.
  intros K Hs Hi Hd Ho (j & ds' & d' & Hz & Hj & Hd' & Ho' & Hn). destruct (ki_heap _ _ _ _ _ K) as (chs & _ & Hp).
  destruct (obj_at_page i sz _ o Hs (bo_obj _ _ _ (bd_of _ _ _ _ _ _ Hp i sz ds d Hs Hi Hd) o Ho)) as [A _]. destruct (obj_at_page j z _ o Hz Ho') as [A' _]. pose proof (at_page_apart _ _ _ A' A) as Ep.
  apply list_elem_of_split in Hd as (l1 & l2 & ->). destruct (decide (j = i)) as [->|Hne]; [|by destruct (others _ _ _ _ _ _ Hp i l1 l2 d Hi j ds' d' Hj Hd' ltac:(by left)) as (_ & _ & [])].
  rewrite Hi in Hj. injection Hj as <-. apply elem_of_app in Hd' as Hd2. rewrite elem_of_cons in Hd2. destruct Hd2 as [Hd2|[->|Hd2]]; [|done|]; by destruct (others _ _ _ _ _ _ Hp i l1 l2 d Hi i _ d' Hi Hd' ltac:(right; set_solver)) as (_ & _ & []).
Qed.
Lemma used_set C i ds1 ds2 d sz ds0 : used C -> sizes !! i = Some sz -> C !! i = Some ds0 -> (forall d', d' ∈ ds1 ++ ds2 -> d' ∈ ds0) -> Z.of_nat (length (b_free d)) < 4096 / sz -> used (<[i := ds1 ++ d :: ds2]> C).
Proof.
  intros Hu Hs Hi Hsub Hd j z ds d' Hz Hj Hd'. apply list_lookup_insert_Some in Hj as [(<- & <- & _)|[_ Hj]]; [|by eapply Hu].
  rewrite Hs in Hz. injection Hz as <-. apply elem_of_app in Hd' as [Hd'|[->|Hd']%elem_of_cons]; [|done|]; (eapply (Hu i); [done|exact Hi|]; apply Hsub; set_solver).
Qed.

(** What [malloc] does for a caller. *)
Definition malloc_post (s : kmal) (C : list (list bd)) (P : list nat) (len r : Z) (s' : kmal) : Prop :=
  exists sz C' F' P', kinv X s' C' F' P' /\ used C' /\ len <= sz /\ (forall j z, sizes !! j = Some z -> len <= z -> sz <= z) /\
    (forall x z, live C' x z <-> live C x z \/ x = r /\ z = sz) /\ (forall z, ~ live C r z) /\ forall x, outside s C P x -> mem (kmm s') x = mem (kmm s) x.
Lemma grow_post fuel len s C F P i sz ds : kinv X s C F P -> used C -> (1 <= fuel)%nat -> two_free (kmm s) -> sizes !! i = Some sz -> C !! i = Some ds -> len <= sz -> (forall j z, sizes !! j = Some z -> len <= z -> sz <= z) ->
  exists b s1 r s2, new_bucket fuel i sz s = Ok b s1 /\ take_obj b s1 = Ok r s2 /\ malloc_post s C P len r s2.
Proof.
  intros K Hu Hf Hfree Hs Hi Hle Hmin. destruct (sizes_ok _ _ Hs) as (S1 & _ & _ & S4 & _). assert (i < length C)%nat as Hlt by (by eapply lookup_lt_Some).
  destruct (new_bucket_run fuel s C F P i sz ds K Hs Hi Hf Hfree) as (a0 & n & s1 & F1 & P1 & En & K1 & Hk1 & Hn & Hda & HP1).
  assert (exists fr, objs sz n = addr_of n :: fr /\ length fr = (Z.to_nat (4096 / sz) - 1)%nat) as (fr & Hfr & Hlf).
  { unfold objs. destruct (Z.to_nat (4096 / sz)) as [|k] eqn:Ek; [lia|]. cbn. rewrite Z.add_0_r. eexists. split; [done|]. rewrite length_fmap, length_seq. lia. }
  destruct (take_run s1 _ F1 P1 i sz [] (mkBd a0 n (objs sz n)) ds (addr_of n) fr K1 Hs) as (m' & Et & Hkt & K2); [by apply list_lookup_insert_eq|done|]. cbn [b_at b_page app] in *. rewrite list_insert_insert_eq in K2.
  exists a0, s1, (addr_of n), (wmem m' s1). split; [exact En|]. split; [exact Et|]. exists sz, (<[i := mkBd a0 n fr :: ds]> C), F1, P1. split; [exact K2|].
  assert (addr_of n ∉ fr) as Nfr.
  { destruct (ki_heap _ _ _ _ _ K1) as (chs1 & _ & Hp1). pose proof (bd_of _ _ _ _ _ _ Hp1 i sz (mkBd a0 n (objs sz n) :: ds) _ Hs ltac:(by apply list_lookup_insert_eq) ltac:(left)) as Hb. pose proof (bo_nodup _ _ _ Hb) as N. cbn in N. rewrite Hfr in N. by apply NoDup_cons in N as [N _]. }
  assert (forall x, out_of sz (mkBd a0 n fr) x <-> x = addr_of n) as Hout.
  { intros x. unfold out_of. cbn. split; [|intros ->; split; [exists 0; lia|done]]. intros [(k & Hk & ->) Hx]. assert (addr_of n + k * sz ∈ objs sz n) as Hin; [|rewrite Hfr in Hin; apply elem_of_cons in Hin as [?|?]; done].
    apply list_elem_of_fmap. exists (Z.to_nat k). rewrite Z2Nat.id by lia. split; [done|]. apply elem_of_seq. lia. }
  split_and!; [eapply (used_set C i [] ds); [done|done|done|done|cbn; lia]|done|done| | |].
  - intros x z. pose proof (live_mid C i [] [mkBd a0 n fr] ds sz x z Hs Hlt) as L1. pose proof (live_here C i [] [] ds sz x z Hs Hi) as L2. cbn [app] in L1, L2. setoid_rewrite list_elem_of_singleton in L1. setoid_rewrite elem_of_nil in L2.
    rewrite L1, L2. pose proof (Hout x). naive_solver.
  - intros z L. destruct (live_place s C F P _ z K L) as (k & Hk & A & _). assert (k = n) as -> by (eapply at_page_apart; [exact A|]; unfold at_page; lia). eapply (kinv_fresh s C F P n K Hn). unfold pages_of. set_solver.
  - intros x Hx. apply (outside_untouched _ _ _ _ _ K) in Hx. cbn. rewrite Hkt by (intros Hw; by eapply Hx, desc_touched). by apply Hk1.
Qed.
Lemma take_post len s C F P i sz ds1 d ds2 o fr : kinv X s C F P -> used C -> sizes !! i = Some sz -> C !! i = Some (ds1 ++ d :: ds2) -> b_free d = o :: fr -> len <= sz -> (forall j z, sizes !! j = Some z -> len <= z -> sz <= z) ->
  exists r s2, take_obj (b_at d) s = Ok r s2 /\ malloc_post s C P len r s2.
Proof.
  intros K Hu Hs Hi Hfr Hle Hmin. destruct (ki_heap _ _ _ _ _ K) as (chs & Hd & Hp). assert (d ∈ ds1 ++ d :: ds2) as Hin by set_solver. pose proof (bd_of _ _ _ _ _ _ Hp i sz _ d Hs Hi Hin) as Hb.
  pose proof (cnt_range _ _ _ _ Hs Hb) as Hc. rewrite Hfr in Hc. cbn in Hc. pose proof (bo_nodup _ _ _ Hb) as N. rewrite Hfr in N. apply NoDup_cons in N as [N _].
  pose proof (bo_obj _ _ _ Hb o ltac:(rewrite Hfr; left)) as Ho. assert (i < length C)%nat as Hlt by (by eapply lookup_lt_Some).
  destruct (take_run s C F P i sz ds1 d ds2 o fr K Hs Hi Hfr) as (m' & Et & Hkt & K2). exists o, (wmem m' s). split; [exact Et|]. exists sz, (<[i := ds1 ++ mkBd (b_at d) (b_page d) fr :: ds2]> C), F, P. split; [exact K2|].
  assert (forall x, out_of sz (mkBd (b_at d) (b_page d) fr) x <-> out_of sz d x \/ x = o) as Hout.
  { intros x. unfold out_of. cbn. rewrite Hfr, not_elem_of_cons. destruct (decide (x = o)) as [->|]; tauto. }
  split_and!; [eapply (used_set C i ds1 ds2); [done|done|exact Hi|set_solver|cbn; lia]|done|done| | |].
  - intros x z. pose proof (live_mid C i ds1 [mkBd (b_at d) (b_page d) fr] ds2 sz x z Hs Hlt) as L1. pose proof (live_here C i ds1 [d] ds2 sz x z Hs Hi) as L2. cbn [app] in L1, L2. setoid_rewrite list_elem_of_singleton in L1. setoid_rewrite list_elem_of_singleton in L2.
    rewrite L1, L2. pose proof (Hout x). naive_solver.
  - intros z. eapply free_not_live; [exact K|exact Hs|exact Hi|exact Hin|rewrite Hfr; left].
  - intros x Hx. apply (outside_untouched _ _ _ _ _ K) in Hx. cbn. apply Hkt. intros Hw. eapply Hx, desc_touched; [eapply hp_desc; [exact Hp|by eapply chains_in]|auto|exact Hw].
Qed.
Lemma malloc_ok fuel len s C F P : kinv X s C F P -> used C -> 0 <= len <= 4096 -> (1 <= fuel)%nat -> two_free (kmm s) -> exists r s', malloc fuel len s = Ok r s' /\ malloc_post s C P len r s'.
Proof.
  intros K Hu Hlen Hf Hfree. destruct (ki_heap _ _ _ _ _ K) as (chs & Hd & Hp). destruct (find_dir_ok chs len (hp_chs _ _ _ _ _ _ Hp) Hlen) as (i & sz & ch & Efd & Hs & Hch & Hdl & Hle & Hmin).
  destruct (lookup_lt_is_Some_2 C i) as [ds Hi]; [rewrite (hp_len _ _ _ _ _ _ Hp), <- (hp_chs _ _ _ _ _ _ Hp); by eapply lookup_lt_Some|]. destruct (hp_chain _ _ _ _ _ _ Hp i sz ch ds Hs Hch Hi) as [Hl Hfa].
  unfold malloc. erewrite bind_ok by reflexivity. rewrite Hd, Efd, (get_dir_run i s chs sz ch) by done. cbn [fst snd]. rewrite (proj2 (Z.eqb_neq sz 0)) by (destruct (sizes_ok _ _ Hs); lia).
  destruct (space_run s sz ds ch CHAIN Hl Hfa) as [[El _]|(ds1 & d & ds2 & o & fr & -> & Hfr & El)]; [intros d Hin; by eapply chain_pos|by eapply chain_short|..]; rewrite (bind_ok _ _ _ _ _ El).
  - cbn [Z.eqb]. destruct (grow_post fuel len s C F P i sz ds K Hu Hf Hfree Hs Hi Hle Hmin) as (b & s1 & r & s2 & E1 & E2 & Hpost). rewrite (bind_ok _ _ _ _ _ E1). by exists r, s2.
  - destruct (chain_pos s C F P i sz _ d K Hs Hi) as [Hpos _]; [apply elem_of_app; right; left|]. rewrite (proj2 (Z.eqb_neq _ _)) by lia. erewrite bind_ok by reflexivity. by eapply take_post.
Qed.

(** ** free_s *)

Definition lastp (pv : Z) (ds : list bd) : Z := default pv (last (b_at <$> ds)).
Lemma lastp_cons pv d ds : lastp pv (d :: ds) = lastp (b_at d) ds.
Proof. unfold lastp. cbn. destruct ds as [|d' ds]; [done|]. cbn [fmap list_fmap]. rewrite last_cons_cons. destruct (last (b_at d' :: _)) eqn:E; [done|]. by apply last_None in E. Qed.
Lemma page_run s page ds : forall ch pv fuel, link (mem (kmm s)) 4 ch (b_at <$> ds) -> (forall d, d ∈ ds -> 0 < b_at d /\ mem (kmm s) (b_at d) = addr_of (b_page d)) -> (length ds < fuel)%nat ->
  ((forall d, d ∈ ds -> addr_of (b_page d) <> page) -> loop fuel (page_step page) (ch, pv) s = Ok None s) /\
  (forall ds1 d ds2, ds = ds1 ++ d :: ds2 -> (forall d', d' ∈ ds1 -> addr_of (b_page d') <> page) -> addr_of (b_page d) = page -> loop fuel (page_step page) (ch, pv) s = Ok (Some (b_at d, lastp pv ds1)) s).
Proof.
  induction ds as [|d0 ds IH]; intros ch pv fuel Hl Hpos Hlen; (destruct fuel as [|fuel]; [cbn in Hlen; lia|]).
  - cbn in Hl. subst ch. split; [intros _; by apply loop_done|]. intros [|? ?] d ds2 E; done.
  - destruct Hl as [-> Hl]. destruct (Hpos d0 ltac:(left)) as [Hp Hpg]. cbn [length] in Hlen.
    assert (page_step page (b_at d0, pv) s = Ok (if addr_of (b_page d0) =? page then inr (Some (b_at d0, pv)) else inl (mem (kmm s) (b_at d0 + 4), b_at d0)) s) as Est.
    { unfold page_step, page_at, next_at. cbn [fst]. rewrite (proj2 (Z.eqb_neq _ _)), mrd_run, Hpg by lia. destruct (_ =? page); [done|]. by rewrite mrd_run. }
    destruct (IH _ (b_at d0) fuel Hl ltac:(intros; apply Hpos; by right) ltac:(lia)) as [IH1 IH2]. split.
    + intros Hn. rewrite (proj2 (Z.eqb_neq _ _)) in Est by (apply Hn; left). rewrite (loop_next _ _ _ _ _ _ Est). apply IH1. intros d Hd. apply Hn. by right.
    + intros [|d1 ds1] d ds2 E Hn Hd; injection E as -> ->.
      * rewrite Hd, Z.eqb_refl in Est. rewrite (loop_done _ _ _ _ _ _ Est). done.
      * rewrite (proj2 (Z.eqb_neq _ _)) in Est by (apply Hn; left). rewrite (loop_next _ _ _ _ _ _ Est), lastp_cons. apply (IH2 ds1 d ds2); [done| |done]. intros d' Hd'. apply Hn. by right.
Qed.
(** The search finds the descriptor and the one before. *)
Lemma dir_run s C F P i sz ds1 d ds2 size : kinv X s C F P -> sizes !! i = Some sz -> C !! i = Some (ds1 ++ d :: ds2) -> size <= sz ->
  forall n j, (j + n = i)%nat -> forall fuel, (n < fuel)%nat -> loop fuel (dir_step (addr_of (b_page d)) size) j s = Ok (Some (i, b_at d, lastp 0 ds1)) s.
Proof.
  intros K Hs Hi Hsz. destruct (ki_heap _ _ _ _ _ K) as (chs & Hd & Hp).
  assert (forall j z ds, sizes !! j = Some z -> C !! j = Some ds -> exists ch, chs !! j = Some ch /\ link (mem (kmm s)) 4 ch (b_at <$> ds) /\ (forall d', d' ∈ ds -> 0 < b_at d' /\ mem (kmm s) (b_at d') = addr_of (b_page d')) /\ (length ds < CHAIN)%nat) as Hch.
  { intros j z ds Hz Hj. destruct (chain_of _ _ _ _ _ _ Hp j z ds Hz Hj) as (ch & Hc & Hl & Hf). rewrite Forall_forall in Hf. exists ch. split_and!; [done|done| |by eapply chain_short].
    intros d' Hd'. split; [exact (proj1 (chain_pos s C F P j z ds d' K Hz Hj Hd'))|apply (bo_page _ _ _ (Hf d' Hd'))]. }
  assert (forall d', addr_of (b_page d') = addr_of (b_page d) -> b_page d' = b_page d) as Hinj by (intros d' E; unfold addr_of in E; lia).
  induction n as [|n IH]; intros j Hj fuel Hf; (destruct fuel as [|fuel]; [lia|]).
  - replace j with i by lia. destruct (Hch i sz _ Hs Hi) as (ch & Hc & Hl & Hpg & Hlen). apply loop_done. unfold dir_step. rewrite (get_dir_run i s chs sz ch) by done. cbn [fst snd].
    rewrite (proj2 (Z.eqb_neq sz 0)) by (destruct (sizes_ok _ _ Hs); lia). rewrite (proj2 (Z.ltb_ge sz size)) by lia.
    destruct (page_run s (addr_of (b_page d)) _ ch 0 CHAIN Hl Hpg Hlen) as [_ E]. erewrite bind_ok; [|apply (E ds1 d ds2 eq_refl); [|done]]; [done|]. intros d' Hd' E'%Hinj.
    by destruct (others _ _ _ _ _ _ Hp i ds1 ds2 d Hi i _ d' Hi ltac:(apply elem_of_app; by left) ltac:(right; apply elem_of_app; by left)) as (_ & _ & []).
  - assert (exists z ds, sizes !! j = Some z /\ C !! j = Some ds) as (z & ds & Hz & Hjc).
    { assert (j < i)%nat by lia. pose proof (lookup_lt_Some _ _ _ Hi). pose proof (lookup_lt_Some _ _ _ Hs). destruct (lookup_lt_is_Some_2 sizes j) as [z Hz]; [lia|]. destruct (lookup_lt_is_Some_2 C j) as [ds Hds]; [lia|]. by exists z, ds. }
    destruct (Hch j z ds Hz Hjc) as (ch & Hc & Hl & Hpg & Hlen). rewrite (loop_next _ fuel j s (S j) s); [apply IH; lia|]. unfold dir_step. rewrite (get_dir_run j s chs z ch) by done. cbn [fst snd].
    rewrite (proj2 (Z.eqb_neq z 0)) by (destruct (sizes_ok _ _ Hz); lia). destruct (z <? size); [done|]. destruct (page_run s (addr_of (b_page d)) _ ch 0 CHAIN Hl Hpg Hlen) as [E _]. erewrite bind_ok; [|apply E]; [done|].
    intros d' Hd' E'%Hinj. by destruct (others _ _ _ _ _ _ Hp i ds1 ds2 d Hi j ds d' Hjc Hd' ltac:(left; lia)) as (_ & _ & []).
Qed.

(** An object goes back to its descriptor. *)
Lemma put_run s C F P i sz ds1 d ds2 o : kinv X s C F P -> sizes !! i = Some sz -> C !! i = Some (ds1 ++ d :: ds2) -> out_of sz d o -> Z.of_nat (length (b_free d)) < 4096 / sz ->
  exists m', put_obj (b_at d) o s = Ok (4096 / sz - Z.of_nat (S (length (b_free d)))) (wmem m' s) /\ keeps (mem (kmm s)) m' (fun x => dwords (b_at d) x \/ x = o) /\
    kinv X (wmem m' s) (<[i := ds1 ++ mkBd (b_at d) (b_page d) (o :: b_free d) :: ds2]> C) F P.
Proof.
  intros K Hs Hi [Ho Hnf] Hc. destruct (ki_heap _ _ _ _ _ K) as (chs & Hd & Hp). pose proof (bd_of _ _ _ _ _ _ Hp i sz _ d Hs Hi ltac:(set_solver)) as Hb.
  destruct (sizes_ok _ _ Hs) as (S1 & _ & _ & S4 & _). assert (d ∈ concat C) as Hin by (eapply chains_in; [exact Hi|set_solver]). pose proof (hp_desc _ _ _ _ _ _ Hp d Hin) as Ha.
  destruct (obj_at_page i sz _ o Hs Ho) as [Hat _]. assert (forall j, 0 <= j < 16 -> b_at d + j <> o) as Hsep by (intros j Hj <-; eapply (desc_not_data _ _ _ _ _ _ Hp d (b_at d)); [done|done| |exact Hat]; unfold dwords; lia).
  destruct Hb as [B1 B2 B3 B4 B5]. set (m := mem (kmm s)) in *. set (c := 4096 / sz - Z.of_nat (length (b_free d))) in *.
  set (m' := poke (poke (poke m o (m (b_at d + 8))) (b_at d + 8) o) (b_at d + 12) ((c - 1) + 65536 * sz)). exists m'.
  assert (keeps m m' (fun x => dwords (b_at d) x \/ x = o)) as Hk by (intros x Hx; unfold m'; rewrite !poke_ne; [done|intros ->; apply Hx; auto|intros ->; apply Hx; left; unfold dwords; lia..]).
  split_and!; [|done|].
  - unfold put_obj, freeptr_at, set_freeptr. rewrite mrd_run. fold m. rewrite !mwr_run, refcnt_run. cbn [wmem kmm mem set_mem]. fold m. rewrite !(poke_ne _ _ _ (b_at d + 12)) by (lia || apply Hsep; lia). rewrite B3, cnt_lo by lia.
    rewrite set_refcnt_run. cbn [wmem kmm mem set_mem]. fold m. rewrite !(poke_ne _ _ _ (b_at d + 12)) by (lia || apply Hsep; lia). rewrite B3, cnt_set by lia.
    change (poke (poke (poke _ _ _) _ _) _ _) with m'. unfold refcnt_at. rewrite mrd_run. cbn [wmem kmm mem set_mem]. replace (m' (b_at d + 12)) with (c - 1 + 65536 * sz) by (unfold m'; by rewrite poke_eq). rewrite cnt_lo by lia. by replace (c - 1) with (4096 / sz - Z.of_nat (S (length (b_free d)))) by lia.
  - replace (wmem m' s) with (mkKm (set_mem m' (kmm s)) (dirs_of chs) (free_bucket_desc s)) by (rewrite <- Hd; done).
    assert (m' (b_at d) = m (b_at d)) as M0 by (unfold m'; rewrite !poke_ne; [done|rewrite <- (Z.add_0_r (b_at d)); apply Hsep; lia|lia..]).
    eapply (kinv_write s C F P); [exact K|eapply (heap_swap m m' chs _ C F P i sz ds1 ds2 d); try done|..].
    + eapply keeps_weaken; [exact Hk|]. intros x [Hx| ->]; [by left|right; by left].
    + unfold m'. by rewrite !poke_ne by (lia || apply Hsep; lia).
    + split; cbn [b_at b_page b_free length]; [by rewrite M0| | |by apply NoDup_cons|intros x [->|Hx]%elem_of_cons; auto].
      * replace (m' (b_at d + 8)) with o by (unfold m'; rewrite poke_ne by lia; by rewrite poke_eq). split; [done|]. rewrite Z.add_0_r.
        replace (m' o) with (m (b_at d + 8)) by (unfold m'; rewrite !(poke_ne _ _ _ o) by (apply not_eq_sym, Hsep; lia); by rewrite poke_eq).
        eapply link_ext; [|exact B2]. intros x Hx. rewrite Z.add_0_r. apply Hk. intros [Hw| ->]; [|done]. eapply (desc_not_data _ _ _ _ _ _ Hp d); [done|exact Ha|exact Hw|]. eapply (obj_at_page i); [exact Hs|by apply B5].
      * unfold m'. rewrite poke_eq. unfold c. lia.
    + eapply keeps_weaken; [exact Hk|]. intros x [Hx| ->]; [by eapply desc_own|]. exists (b_page d). split; [|done]. unfold pages_of. apply elem_of_app. right. by apply list_elem_of_fmap_2.
    + intros n. unfold pages_of. destruct (chains_at C i _ Hi) as (rest & E & E'). rewrite E, E', !fmap_app. cbn. set_solver.
Qed.

Lemma link_next m off l a b l2 : forall p, link m off p (l ++ a :: b :: l2) -> m (a + off) = b.
Proof. induction l as [|x l IH]; intros p; cbn; [by intros (_ & <- & _)|]. intros [_ H]. by eapply IH. Qed.
(** A page without objects in use goes back. *)
Lemma kinv_drop s C F P i sz ds1 d ds2 m2 chs' F' f' : kinv X s C F P -> sizes !! i = Some sz -> C !! i = Some (ds1 ++ d :: ds2) -> heap m2 chs' f' (<[i := ds1 ++ ds2]> C) F' P ->
  keeps (mem (kmm s)) m2 (fun x => exists n, n ∈ pages_of C P /\ at_page n x) ->
  kinv X (mkKm (set_mem m2 (set_map (<[b_page d := 0]> (mem_map (kmm s))) (kmm s))) (dirs_of chs') f') (<[i := ds1 ++ ds2]> C) F' P.
Proof.
  intros K Hs Hi Hh Hk. pose proof (mm_write _ _ _ _ _ K Hk) as Hm. destruct (ki_heap _ _ _ _ _ K) as (chs & _ & Hp). destruct (chains_at C i _ Hi) as (rest & E & E'). specialize (E' (ds1 ++ ds2)).
  assert (pages_of C P ≡ₚ b_page d :: pages_of (<[i := ds1 ++ ds2]> C) P) as Epg by (unfold pages_of; rewrite E, E', !fmap_app; cbn; rewrite <- !Permutation_middle; cbn; rewrite <- !Permutation_middle; done).
  assert (b_page d ∉ pages_of (<[i := ds1 ++ ds2]> C) P) as Hnd by (pose proof (hp_pages _ _ _ _ _ _ Hp) as N; fold (pages_of C P) in N; rewrite Epg in N; by apply NoDup_cons in N as [N _]).
  destruct (ki_own _ _ _ _ _ K (b_page d)) as [Hc Hh']; [rewrite Epg; left|]. pose proof (ki_users _ _ _ _ _ K) as HX.
  assert (mm_ok (set_mem m2 (kmm s)) (held (b_page d) (own X (pages_of (<[i := ds1 ++ ds2]> C) P)))) as Hm2.
  { eapply mm_ok_users; [exact Hm|]. intros n. unfold own, held. rewrite (decide_ext (n ∈ pages_of C P) (n = b_page d \/ n ∈ pages_of (<[i := ds1 ++ ds2]> C) P)) by (rewrite Epg; apply elem_of_cons).
    destruct (decide (n = b_page d)) as [->|Hne]; [rewrite decide_True by auto; rewrite decide_False by done; lia|]. destruct (decide (n ∈ pages_of (<[i := ds1 ++ ds2]> C) P)); [by rewrite decide_True by auto|by rewrite decide_False by tauto]. }
  destruct (unheld_ok _ _ (b_page d) 1 Hm2) as [_ Hm3]; [unfold own; rewrite decide_False by done; specialize (HX (b_page d)); lia|exact Hc|exact Hh'|].
  split; cbn [kmm bucket_dir free_bucket_desc mem mem_map HIGH_MEMORY set_mem set_map]; [by exists chs'|done| |exact Hm3].
  intros n Hn. rewrite list_lookup_insert_ne by (intros <-; done). apply (ki_own _ _ _ _ _ K). rewrite Epg. by right.
Qed.
Lemma free_page_run s C F P m1 d : kinv X s C F P -> d ∈ concat C -> free_page (addr_of (b_page d)) (set_mem m1 (kmm s)) = Ok tt (set_map (<[b_page d := 0]> (mem_map (kmm s))) (set_mem m1 (kmm s))).
Proof.
  intros K Hd. destruct (ki_own _ _ _ _ _ K (b_page d)) as [Hc Hh]; [unfold pages_of; apply elem_of_app; right; by apply list_elem_of_fmap_2|].
  assert (b_page d < PAGING_PAGES)%nat as Hlt by (rewrite <- (ok_len _ _ (ki_mm _ _ _ _ _ K)); by eapply lookup_lt_Some).
  rewrite (free_page_ok (set_mem m1 (kmm s)) (addr_of (b_page d)) 1); [by rewrite nr_addr_of|by apply frame_addr_of|cbn; unfold addr_of in *; unfold LOW_MEM in *; lia|by rewrite nr_addr_of|lia].
Qed.
Lemma unlink_run s C F P i sz ds1 d ds2 chs : kinv X s C F P -> bucket_dir s = dirs_of chs -> heap (mem (kmm s)) chs (free_bucket_desc s) C F P -> sizes !! i = Some sz -> C !! i = Some (ds1 ++ d :: ds2) ->
  exists m1 chs1, unlink_bucket i (b_at d) (lastp 0 ds1) s = Ok tt (mkKm (set_mem m1 (kmm s)) (dirs_of chs1) (free_bucket_desc s)) /\
    ((ds1 = [] /\ m1 = mem (kmm s) /\ chs1 = <[i := mem (kmm s) (b_at d + 4)]> chs) \/ (exists l pd, ds1 = l ++ [pd] /\ m1 = poke (mem (kmm s)) (b_at pd + 4) (mem (kmm s) (b_at d + 4)) /\ chs1 = chs)).
Proof.
  intros K Hd Hp Hs Hi. destruct (chain_of _ _ _ _ _ _ Hp i sz _ Hs Hi) as (ch & Hch & Hl & Hfa). unfold unlink_bucket. rewrite (get_dir_run i s chs sz ch) by done. cbn [snd]. destruct ds1 as [|pd l _] using rev_ind.
  - destruct Hl as [-> Hl]. change (lastp 0 []) with 0. cbn [Z.eqb]. do 2 (erewrite bind_ok by (rewrite ?Z.eqb_refl; reflexivity)). cbn [Z.eqb negb]. rewrite (get_dir_run i s chs sz (b_at d)) by done. cbn [snd]. rewrite Z.eqb_refl. cbn [negb].
    unfold next_at. rewrite mrd_run. eexists _, _. split; [|by left]. pose proof (set_chain_run i (mem (kmm s) (b_at d + 4)) s chs sz (fun _ => mret tt) Hd Hs ltac:(by eapply lookup_lt_Some)) as E.
    unfold mbind, M_bind in E. destruct (set_chain i (mem (kmm s) (b_at d + 4)) s) as [[] s1| | | |]; [|done..]. injection E as ->. by destruct s as [[] ? ?].
  - assert (lastp 0 (l ++ [pd]) = b_at pd) as -> by (unfold lastp; rewrite fmap_app; change (b_at <$> [pd]) with [b_at pd]; by rewrite last_snoc). destruct (chain_pos s C F P i sz _ pd K Hs Hi ltac:(set_solver)) as [Hpos _]. rewrite (proj2 (Z.eqb_neq (b_at pd) 0)) by lia.
    rewrite fmap_app, fmap_app in Hl. cbn in Hl. rewrite <- app_assoc in Hl. cbn in Hl. pose proof (link_next _ _ _ _ _ _ _ Hl) as Hn.
    erewrite bind_ok by (unfold next_at; rewrite mrd_run, Hn, Z.eqb_refl; reflexivity). cbn [negb]. erewrite bind_ok by reflexivity. rewrite (proj2 (Z.eqb_neq (b_at pd) 0)) by lia. cbn [negb].
    unfold next_at. rewrite mrd_run. eexists _, chs. split; [|right; exists l, pd; done]. unfold set_next, mwr. erewrite lift_ok by reflexivity. cbn. by rewrite Hd.
Qed.
Lemma release_run s C F P i sz ds1 d ds2 : kinv X s C F P -> sizes !! i = Some sz -> C !! i = Some (ds1 ++ d :: ds2) ->
  exists s', release_bucket i (b_at d) (lastp 0 ds1) s = Ok tt s' /\ kinv X s' (<[i := ds1 ++ ds2]> C) (b_at d :: F) P /\ keeps (mem (kmm s)) (mem (kmm s')) (fun x => exists a, desc_at P a /\ dwords a x) /\
    mem_map (kmm s') = <[b_page d := 0]> (mem_map (kmm s)).
Proof.
  intros K Hs Hi. destruct (ki_heap _ _ _ _ _ K) as (chs & Hd & Hp). assert (d ∈ concat C) as Hin by (eapply chains_in; [exact Hi|set_solver]).
  pose proof (hp_desc _ _ _ _ _ _ Hp d Hin) as Ha. pose proof (bo_page _ _ _ (bd_of _ _ _ _ _ _ Hp i sz _ d Hs Hi ltac:(set_solver))) as Hpg.
  destruct (unlink_run s C F P i sz ds1 d ds2 chs K Hd Hp Hs Hi) as (m1 & chs1 & Eu & Hm1). set (m := mem (kmm s)) in *. set (m2 := poke m1 (b_at d + 4) (free_bucket_desc s)).
  assert (exists q, desc_at P q /\ keeps m m2 (W (b_at d) (b_page d) q) /\ keeps m m2 (fun x => dwords (b_at d) x \/ dwords q x) /\ m1 (b_at d) = m (b_at d) /\
    ((ds1 = [] /\ q = b_at d /\ chs1 = <[i := m (b_at d + 4)]> chs) \/ (exists l pd, ds1 = l ++ [pd] /\ q = b_at pd /\ m2 (q + 4) = m (b_at d + 4) /\ chs1 = chs))) as (q & Hqd & Hkw & Hkd & Hm1d & Hq).
  { destruct Hm1 as [(-> & -> & ->)|(l & pd & -> & -> & ->)].
    - exists (b_at d). split_and!; [done|..|done|by left]; intros x Hx; unfold m2; apply poke_ne; intros ->; apply Hx; left; unfold dwords; lia.
    - destruct (others _ _ _ _ _ _ Hp i (l ++ [pd]) ds2 d Hi i _ pd Hi) as (Hpc & Hpa & _); [set_solver|right; set_solver|]. pose proof (hp_desc _ _ _ _ _ _ Hp pd Hpc) as Hpd.
      exists (b_at pd). split_and!; [done|intros x Hx; unfold m2; rewrite !poke_ne; [done|intros ->; apply Hx; right; by right|intros ->; apply Hx; left; unfold dwords; lia]
        |intros x Hx; unfold m2; rewrite !poke_ne; [done|intros ->; apply Hx; right; unfold dwords; lia|intros ->; apply Hx; left; unfold dwords; lia]| |right; exists l, pd; split_and!; try done].
      + apply poke_ne. rewrite <- (Z.add_0_r (b_at d)). eapply (desc_apart P); [done|done|done|lia|lia].
      + unfold m2. rewrite poke_ne, poke_eq; [done|]. eapply (desc_apart P); [done|done|done|lia|lia]. }
  pose proof (heap_drop m m2 chs chs1 (free_bucket_desc s) C F P i sz ds1 ds2 d q Hp Hs Hi Hkw (poke_eq _ _ _) Hq) as Hh.
  assert (keeps m m2 (fun x => exists a, desc_at P a /\ dwords a x)) as Hka by (eapply keeps_weaken; [exact Hkd|]; intros x [Hx|Hx]; eauto).
  eexists. split; [|split; [eapply (kinv_drop s C F P i sz ds1 d ds2 m2 chs1); [exact K|exact Hs|exact Hi|exact Hh|]|done]].
  - unfold release_bucket. rewrite (bind_ok _ _ _ _ _ Eu). unfold page_at. rewrite mrd_run. cbn [kmm mem set_mem]. rewrite Hm1d, Hpg.
    rewrite (lift_run _ _ _ (mkKm (set_mem m1 (kmm s)) (dirs_of chs1) (free_bucket_desc s)) _ (free_page_run s C F P m1 d K Hin)). erewrite bind_ok by reflexivity. unfold set_next. by rewrite mwr_run.
  - eapply keeps_weaken; [exact Hka|]. intros x (a & Ha' & Hw). by eapply desc_own.
Qed.

Lemma page_mask n x : (n < PAGING_PAGES)%nat -> at_page n x -> Z.land x 4294963200 = addr_of n.
Proof.
  intros Hn Hx. unfold at_page, addr_of, LOW_MEM, PAGING_PAGES in *. rewrite Z.land_comm. change (Z.land 4294963200 x) with (page_of x). rewrite page_of_spec by (unfold word; lia).
  replace x with ((256 + Z.of_nat n) * 4096 + (x - 1048576 - 4096 * Z.of_nat n)) at 1 by lia. rewrite Z.div_add_l by lia. rewrite (Z.div_small (x - _ - _)) by lia. lia.
Qed.
(** A descriptor with a free object less than its page has one in use. *)
Lemma some_out m i sz d : sizes !! i = Some sz -> bd_ok m sz d -> Z.of_nat (length (b_free d)) < 4096 / sz -> exists x, out_of sz d x.
Proof.
  intros Hs Hb Hlt. destruct (sizes_ok _ _ Hs) as (S1 & _ & _ & S4 & _). destruct (decide (Forall (fun x => x ∈ b_free d) (objs sz (b_page d)))) as [Hall|Hnot].
  - exfalso. rewrite Forall_forall in Hall. assert (length (objs sz (b_page d)) <= length (b_free d))%nat as Hle; [|unfold objs in Hle; rewrite length_fmap, length_seq in Hle; lia]. apply submseteq_length, NoDup_submseteq; [|done].
    apply (NoDup_fmap_2_strong _); [|apply NoDup_seq]. intros x y _ _ E. assert (Z.of_nat x * sz = Z.of_nat y * sz) as E2 by lia. apply Z.mul_cancel_r in E2; lia.
  - apply not_Forall_Exists in Hnot; [|intros ?; apply _]. apply Exists_exists in Hnot as (x & (k & -> & Hk)%list_elem_of_fmap & Hx). exists (addr_of (b_page d) + Z.of_nat k * sz). split; [|exact Hx]. apply elem_of_seq in Hk. exists (Z.of_nat k). split; [lia|done].
Qed.

(** What [free_s] does for a caller. *)
Definition free_post (s : kmal) (C : list (list bd)) (P : list nat) (o : Z) (s' : kmal) : Prop :=
  exists C' F', kinv X s' C' F' P /\ used C' /\ (forall x z, live C' x z <-> live C x z /\ x <> o) /\ (forall x, outside s C P x -> x <> o -> mem (kmm s') x = mem (kmm s) x) /\
    forall n, at_page n o -> (forall x z, live C' x z -> ~ at_page n x) -> mem_map (kmm s') !! n = Some 0.
Lemma keep_post s C F P i sz ds1 d ds2 o m' : kinv X s C F P -> used C -> sizes !! i = Some sz -> C !! i = Some (ds1 ++ d :: ds2) -> out_of sz d o -> 4096 / sz - Z.of_nat (S (length (b_free d))) <> 0 ->
  keeps (mem (kmm s)) m' (fun x => dwords (b_at d) x \/ x = o) -> kinv X (wmem m' s) (<[i := ds1 ++ mkBd (b_at d) (b_page d) (o :: b_free d) :: ds2]> C) F P -> free_post s C P o (wmem m' s).
Proof.
  intros K Hu Hs Hi Ho Hc Hk K1. destruct (ki_heap _ _ _ _ _ K) as (chs & _ & Hp). assert (d ∈ ds1 ++ d :: ds2) as Hin by set_solver. assert (i < length C)%nat as Hlt by (by eapply lookup_lt_Some). pose proof (Hu i sz _ d Hs Hi Hin) as Hud.
  set (d' := mkBd (b_at d) (b_page d) (o :: b_free d)) in *. assert (Z.of_nat (length (b_free d')) < 4096 / sz) as Hld by (cbn; lia).
  assert (used (<[i := ds1 ++ d' :: ds2]> C)) as Hu1 by (eapply (used_set C i ds1 ds2); [done|done|exact Hi|set_solver|done]).
  assert (forall x, out_of sz d' x <-> out_of sz d x /\ x <> o) as Hout by (intros x; unfold out_of; cbn; rewrite not_elem_of_cons; tauto).
  exists (<[i := ds1 ++ d' :: ds2]> C), F. split_and!; [done|done| | |].
  - intros x z. pose proof (live_mid C i ds1 [d'] ds2 sz x z Hs Hlt) as L1. pose proof (live_here C i ds1 [d] ds2 sz x z Hs Hi) as L2. cbn [app] in L1, L2. setoid_rewrite list_elem_of_singleton in L1. setoid_rewrite list_elem_of_singleton in L2.
    assert (x = o -> forall j ds e, C !! j = Some ds -> e ∈ ds -> sizes !! j = Some z -> (j <> i \/ e ∈ ds1 ++ ds2) -> ~ out_of z e x) as Hex.
    { intros -> j ds e Hj He Hz Hne [Ho' _]. destruct (obj_at_page i sz _ o Hs (proj1 Ho)) as [A _]. destruct (obj_at_page j z _ o Hz Ho') as [A' _]. destruct (others _ _ _ _ _ _ Hp i ds1 ds2 d Hi j ds e Hj He Hne) as (_ & _ & Hn). apply Hn. by eapply at_page_apart. }
    rewrite L1, L2. specialize (Hout x). split.
    + intros [(-> & e & -> & He)|[(-> & e & He & Hoe)|(j & ds & e & Hj & Hz & Hjc & He & Hoe)]].
      * apply Hout in He as [He Hne]. split; [left; split; [done|]; by exists d|done].
      * split; [right; left; split; [done|]; by exists e|]. intros E. eapply (Hex E i (ds1 ++ d :: ds2) e Hi); [|exact Hs|by right|exact Hoe]. rewrite elem_of_app, elem_of_cons. apply elem_of_app in He. tauto.
      * split; [right; right; by exists j, ds, e|]. intros E. by eapply (Hex E j ds e Hjc He Hz (or_introl Hj)).
    + intros [[(-> & e & -> & He)|[H|H]] Hne]; [left; split; [done|]; exists d'; tauto|auto|auto].
  - intros x Hx Hxo. cbn. apply Hk. intros [Hw|Hw]; [|done]. eapply (outside_untouched _ _ _ _ _ K Hx), desc_touched; [eapply hp_desc; [exact Hp|by eapply chains_in]|auto|exact Hw].
  - intros n Hat Hno. destruct (ki_heap _ _ _ _ _ K1) as (chs1 & _ & Hp1). assert ((<[i := ds1 ++ d' :: ds2]> C) !! i = Some (ds1 ++ d' :: ds2)) as Hi1 by (by apply list_lookup_insert_eq).
    destruct (some_out _ i sz d' Hs (bd_of _ _ _ _ _ _ Hp1 i sz _ d' Hs Hi1 ltac:(set_solver)) Hld) as [x Hx]. destruct (obj_at_page i sz _ x Hs (proj1 Hx)) as [A _]. destruct (obj_at_page i sz _ o Hs (proj1 Ho)) as [A' _].
    destruct (Hno x sz); [exists i, (ds1 ++ d' :: ds2), d'; split_and!; [done|done|set_solver|apply Hx..]|]. by rewrite (at_page_apart _ _ _ Hat A').
Qed.

Lemma none_out m i sz d x : sizes !! i = Some sz -> bd_ok m sz d -> 4096 / sz <= Z.of_nat (length (b_free d)) -> ~ out_of sz d x.
Proof.
  intros Hs Hb Hle [Hx Hn]. destruct (sizes_ok _ _ Hs) as (S1 & _ & _ & S4 & _). assert (length (x :: b_free d) <= length (objs sz (b_page d)))%nat as H; [|unfold objs in H; rewrite length_fmap, length_seq in H; cbn in H; lia].
  apply submseteq_length, NoDup_submseteq; [apply NoDup_cons; split; [done|apply Hb]|]. intros y Hy. assert (obj sz (b_page d) y) as (k & Hk & ->) by (apply elem_of_cons in Hy as [->|Hy]; [done|by apply (bo_obj _ _ _ Hb)]).
  apply list_elem_of_fmap. exists (Z.to_nat k). rewrite Z2Nat.id by lia. split; [done|]. apply elem_of_seq. lia.
Qed.
Lemma drop_post s C F P i sz ds1 d ds2 o m' s' : kinv X s C F P -> used C -> sizes !! i = Some sz -> C !! i = Some (ds1 ++ d :: ds2) -> out_of sz d o -> 4096 / sz - Z.of_nat (S (length (b_free d))) = 0 ->
  keeps (mem (kmm s)) m' (fun x => dwords (b_at d) x \/ x = o) -> kinv X (wmem m' s) (<[i := ds1 ++ mkBd (b_at d) (b_page d) (o :: b_free d) :: ds2]> C) F P ->
  kinv X s' (<[i := ds1 ++ ds2]> C) (b_at d :: F) P -> keeps m' (mem (kmm s')) (fun x => exists a, desc_at P a /\ dwords a x) -> mem_map (kmm s') = <[b_page d := 0]> (mem_map (kmm s)) -> free_post s C P o s'.
Proof.
  intros K Hu Hs Hi Ho Hc Hk K1 K2 Hk2 Em. destruct (ki_heap _ _ _ _ _ K) as (chs & _ & Hp). assert (d ∈ ds1 ++ d :: ds2) as Hin by set_solver. assert (i < length C)%nat as Hlt by (by eapply lookup_lt_Some).
  assert (d ∈ concat C) as Hdc by (by eapply chains_in). destruct (ki_heap _ _ _ _ _ K1) as (chs1 & _ & Hp1). set (d' := mkBd (b_at d) (b_page d) (o :: b_free d)) in *.
  assert (forall x, ~ out_of sz d' x) as Hnone.
  { intros x. eapply (none_out _ i); [exact Hs|eapply (bd_of _ _ _ _ _ _ Hp1 i sz (ds1 ++ d' :: ds2)); [exact Hs|by apply list_lookup_insert_eq|apply elem_of_app; right; left]|cbn; lia]. }
  assert (forall x, out_of sz d x -> x = o) as Honly.
  { intros x [Hx Hn]. destruct (decide (x = o)) as [|Hne]; [done|]. destruct (Hnone x). split; [done|]. by apply not_elem_of_cons. }
  destruct (obj_at_page i sz _ o Hs (proj1 Ho)) as [A _].
  exists (<[i := ds1 ++ ds2]> C), (b_at d :: F). split_and!; [done| | | |].
  - intros j z ds e Hz Hj He. apply list_lookup_insert_Some in Hj as [(<- & <- & _)|[_ Hj]]; [|by eapply Hu]. rewrite Hs in Hz. injection Hz as <-. eapply (Hu i); [done|exact Hi|]. rewrite elem_of_app, elem_of_cons. apply elem_of_app in He. tauto.
  - intros x z. pose proof (live_mid C i ds1 [] ds2 sz x z Hs Hlt) as L1. pose proof (live_here C i ds1 [d] ds2 sz x z Hs Hi) as L2. cbn [app] in L1, L2. setoid_rewrite list_elem_of_singleton in L2. rewrite L1, L2. clear L1 L2.
    assert (forall j ds e, C !! j = Some ds -> e ∈ ds -> sizes !! j = Some z -> (j <> i \/ e ∈ ds1 ++ ds2) -> out_of z e x -> x <> o) as Hex.
    { intros j ds e Hj He Hz Hne [Ho' _] ->. destruct (obj_at_page j z _ o Hz Ho') as [A' _]. destruct (others _ _ _ _ _ _ Hp i ds1 ds2 d Hi j ds e Hj He Hne) as (_ & _ & Hn). apply Hn. by eapply at_page_apart. }
    split.
    + intros [(-> & e & []%not_elem_of_nil & _)|[(-> & e & He & Hoe)|(j & ds & e & Hj & Hz & Hjc & He & Hoe)]].
      * split; [right; left; split; [done|]; by exists e|]. eapply (Hex i (ds1 ++ d :: ds2) e Hi); [|exact Hs|by right|exact Hoe]. rewrite elem_of_app, elem_of_cons. apply elem_of_app in He. tauto.
      * split; [right; right; by exists j, ds, e|]. by eapply (Hex j ds e Hjc He Hz (or_introl Hj)).
    + intros [[(-> & e & -> & He)|[H|H]] Hne]; [by destruct Hne; apply Honly|auto|auto].
  - intros x Hx Hxo. pose proof (outside_untouched _ _ _ _ _ K Hx) as Hnt. rewrite Hk2; [apply Hk; intros [Hw|Hw]; [|done]; eapply Hnt, desc_touched; [exact (hp_desc _ _ _ _ _ _ Hp d Hdc)|auto|exact Hw]|]. intros (a & Ha & Hw). eapply Hnt, desc_touched; [exact Ha|auto|exact Hw].
  - intros n Hat _. rewrite Em, (at_page_apart _ _ _ Hat A). apply list_lookup_insert_eq. destruct (ki_own _ _ _ _ _ K (b_page d)) as [Hm _]; [unfold pages_of; apply elem_of_app; right; by apply list_elem_of_fmap_2|]. by eapply lookup_lt_Some.
Qed.
Lemma free_ok s C F P o sz size : kinv X s C F P -> used C -> live C o sz -> size <= sz -> exists s', free_s o size s = Ok tt s' /\ free_post s C P o s'.
Proof.
  intros K Hu (i & ds & d & Hs & Hi & Hd & Ho & Hn) Hsz. apply list_elem_of_split in Hd as (ds1 & ds2 & ->). destruct (ki_heap _ _ _ _ _ K) as (chs & Hdir & Hp). assert (d ∈ concat C) as Hdc by (eapply chains_in; [exact Hi|set_solver]).
  destruct (obj_at_page i sz _ o Hs Ho) as [A _]. destruct (ki_own _ _ _ _ _ K (b_page d)) as [Hm _]; [unfold pages_of; apply elem_of_app; right; by apply list_elem_of_fmap_2|].
  unfold free_s. erewrite bind_ok by reflexivity. rewrite (page_mask (b_page d) o); [|rewrite <- (ok_len _ _ (ki_mm _ _ _ _ _ K)); by eapply lookup_lt_Some|done].
  erewrite bind_ok; [|apply (dir_run s C F P i sz ds1 d ds2 size K Hs Hi Hsz i 0 eq_refl)].
  2: { rewrite Hdir. unfold dirs_of. rewrite length_app, length_zip_with, (hp_chs _ _ _ _ _ _ Hp). apply lookup_lt_Some in Hs. cbn in Hs |- *. lia. }
  destruct (put_run s C F P i sz ds1 d ds2 o K Hs Hi (conj Ho Hn) (Hu i sz _ d Hs Hi ltac:(set_solver))) as (m' & Ep & Hk & K1). rewrite (bind_ok _ _ _ _ _ Ep).
  destruct (Z.eqb_spec (4096 / sz - Z.of_nat (S (length (b_free d)))) 0) as [Hz|Hz]; [|eexists; split; [reflexivity|by eapply keep_post]].
  destruct (release_run (wmem m' s) _ F P i sz ds1 (mkBd (b_at d) (b_page d) (o :: b_free d)) ds2 K1 Hs) as (s' & Er & K2 & Hk2 & Em); [apply list_lookup_insert_eq; by eapply lookup_lt_Some|].
  cbn [b_at b_page] in *. rewrite list_insert_insert_eq in K2. exists s'. split; [exact Er|]. by eapply drop_post.
Qed.

(** The owner of an object writes to it. *)
Lemma user_write s C F P o z m' : kinv X s C F P -> live C o z -> keeps (mem (kmm s)) m' (fun x => o <= x < o + z) -> kinv X (wmem m' s) C F P.
Proof.
  intros K L Hk. destruct (ki_heap _ _ _ _ _ K) as (chs & Hd & Hp). destruct (live_place s C F P o z K L) as (n & Hn & A1 & A2 & Hz).
  assert (forall x, o <= x < o + z -> at_page n x) as Hat by (unfold at_page in *; lia).
  assert (forall a j, desc_at P a -> 0 <= j < 16 -> m' (a + j) = mem (kmm s) (a + j)) as Hdw.
  { intros a j Ha Hj. apply Hk. intros Hx%Hat. apply list_elem_of_fmap in Hn as (d & -> & Hdc). eapply (desc_not_data _ _ _ _ _ _ Hp d a); [done|done| |exact Hx]. unfold dwords. lia. }
  replace (wmem m' s) with (mkKm (set_mem m' (kmm s)) (dirs_of chs) (free_bucket_desc s)) by (rewrite <- Hd; done).
  eapply kinv_write; [exact K| |eapply keeps_weaken; [exact Hk|]; intros x Hx; exists n; split; [unfold pages_of; apply elem_of_app; by right|auto]|done].
  split; try apply Hp.
  - intros i sz ch ds Hs Hch Hi. destruct (hp_chain _ _ _ _ _ _ Hp i sz ch ds Hs Hch Hi) as [Hl Hf]. split.
    + eapply link_ext; [|exact Hl]. intros a Ha. apply Hdw; [by eapply chain_in|lia].
    + rewrite Forall_forall in Hf. apply Forall_forall. intros d Hin. eapply bd_ok_ext; [| |by apply Hf].
      * intros j Hj. apply Hdw; [eapply hp_desc; [exact Hp|by eapply chains_in]|lia].
      * intros o' Ho'. apply Hk. intros Hx. pose proof (bo_obj _ _ _ (Hf d Hin) o' Ho') as Hob. destruct (obj_at_page i sz _ o' Hs Hob) as [A' _]. pose proof (at_page_apart _ _ _ (Hat _ Hx) A') as ->.
        destruct L as (j & ds' & d' & Hz' & Hj & Hd' & Ho & Hnf). destruct (obj_at_page j z _ o Hz' Ho) as [A'' _]. pose proof (at_page_apart _ _ _ A1 A'') as Ep.
        apply list_elem_of_split in Hin as (l1 & l2 & ->). destruct (decide (j = i)) as [->|Hne]; [|by destruct (others _ _ _ _ _ _ Hp i l1 l2 d Hi j ds' d' Hj Hd' ltac:(by left)) as (_ & _ & [])].
        rewrite Hs in Hz'. injection Hz' as <-. rewrite Hi in Hj. injection Hj as <-. rewrite elem_of_app, elem_of_cons in Hd'. destruct Hd' as [Hd'|[->|Hd']].
        2: { destruct Hob as (k' & Hk' & ->), Ho as (k & Hk'' & ->). assert (k = k' \/ k <> k') as [->|Hkk] by lia; [done|]. nia. }
        all: by destruct (others _ _ _ _ _ _ Hp i l1 l2 d Hi i _ d' Hi ltac:(rewrite elem_of_app, elem_of_cons; auto) ltac:(right; rewrite elem_of_app; auto)) as (_ & _ & []).
  - eapply link_ext; [|apply Hp]. intros a Ha. apply Hdw; [by eapply hp_spare_desc|lia].
Qed.
Lemma start_kinv m : mm_ok m X -> (forall n, 0 <= X n) -> kinv X (kmal_start m) (replicate 9 []) [] [] /\ used (replicate 9 []).
Proof.
  intros Hm HX. split; [|intros i sz ds d _ [-> _]%lookup_replicate Hd; by apply not_elem_of_nil in Hd]. split.
  - exists (replicate 9 0). split; [done|]. split; try done; try apply NoDup_nil_2.
    + intros i sz ch ds _ [-> _]%lookup_replicate [-> _]%lookup_replicate. split; [done|by apply Forall_nil].
    + intros a Ha. by apply not_elem_of_nil in Ha.
  - done.
  - intros n Hn. by apply not_elem_of_nil in Hn.
  - eapply mm_ok_users; [exact Hm|]. intros n. unfold own. rewrite decide_False by apply not_elem_of_nil. lia.
Qed.
End Pages.

(** ** Callers *)

(** The size of the objects a request is served from. *)
Definition bucket_of (len : Z) : Z := default 0 (sizes !! find_dir len (dirs_of (replicate 9 0))).
Lemma bucket_of_ok len : 0 <= len <= 4096 -> exists i, sizes !! i = Some (bucket_of len) /\ len <= bucket_of len /\ forall j z, sizes !! j = Some z -> len <= z -> bucket_of len <= z.
Proof. intros Hl. destruct (find_dir_ok (replicate 9 0) len eq_refl Hl) as (i & sz & ch & E & Hs & _ & _ & H1 & H2). exists i. unfold bucket_of. rewrite E, Hs. done. Qed.

(** The allocator and the objects handed out with their sizes. *)
Inductive kstep (fuel : nat) : kmal * gmap Z Z -> kmal * gmap Z Z -> Prop :=
| ks_malloc s H len r s' : 0 <= len <= 4096 -> two_free (kmm s) -> malloc fuel len s = Ok r s' -> kstep fuel (s, H) (s', <[r := bucket_of len]> H)
| ks_free s H o z size s' : H !! o = Some z -> size <= z -> free_s o size s = Ok tt s' -> kstep fuel (s, H) (s', delete o H)
| ks_write s H o z a v : H !! o = Some z -> o <= a < o + z -> kstep fuel (s, H) (wmem (poke (mem (kmm s)) a v) s, H).

Definition hands (X : nat -> Z) (sh : kmal * gmap Z Z) : Prop :=
  exists C F P, kinv X sh.1 C F P /\ used C /\ forall o z, live C o z <-> sh.2 !! o = Some z.
Lemma malloc_hands X fuel s H len : hands X (s, H) -> 0 <= len <= 4096 -> (1 <= fuel)%nat -> two_free (kmm s) ->
  exists r s', malloc fuel len s = Ok r s' /\ hands X (s', <[r := bucket_of len]> H) /\ H !! r = None /\ forall o z x, H !! o = Some z -> o <= x < o + z -> mem (kmm s') x = mem (kmm s) x.
Proof.
  intros (C & F & P & K & Hu & HL) Hlen Hf Hfree. cbn [fst snd] in *. destruct (malloc_ok X fuel len s C F P K Hu Hlen Hf Hfree) as (r & s' & E & sz & C' & F' & P' & K' & Hu' & Hle & Hmin & Hl & Hnl & Hkeep).
  destruct (bucket_of_ok len Hlen) as (i & Hs & Hbl & Hbm). assert (live C' r sz) as Hr by (apply Hl; auto). pose proof Hr as (j & _ & _ & Hj & _).
  assert (sz = bucket_of len) as -> by (pose proof (Hmin _ _ Hs Hbl); pose proof (Hbm _ _ Hj Hle); lia).
  assert (H !! r = None) as Hnone by (destruct (H !! r) as [z|] eqn:Ez; [|done]; by apply HL, Hnl in Ez). exists r, s'. split_and!; [done| |done|].
  - exists C', F', P'. split_and!; [done|done|]. intros o z. cbn [snd]. rewrite Hl, HL, lookup_insert_Some. destruct (decide (o = r)) as [->|Hne]; [rewrite Hnone; naive_solver|naive_solver].
  - intros o z x Ho Hx. apply Hkeep. right; right. exists o, z. split; [by apply HL|done].
Qed.
Lemma free_hands X s H o z size : hands X (s, H) -> H !! o = Some z -> size <= z ->
  exists s', free_s o size s = Ok tt s' /\ hands X (s', delete o H) /\ (forall o' z' x, H !! o' = Some z' -> o' <> o -> o' <= x < o' + z' -> mem (kmm s') x = mem (kmm s) x) /\
    forall n, at_page n o -> (forall o' z', H !! o' = Some z' -> o' <> o -> ~ at_page n o') -> mem_map (kmm s') !! n = Some 0.
Proof.
  intros (C & F & P & K & Hu & HL) Ho Hsz. cbn [fst snd] in *. destruct (free_ok X s C F P o z size K Hu (proj2 (HL o z) Ho) Hsz) as (s' & E & C' & F' & K' & Hu' & Hl & Hkeep & Hpg).
  exists s'. split_and!; [done| | |].
  - exists C', F', P. split_and!; [done|done|]. intros o' z'. cbn [snd]. rewrite Hl, HL, lookup_delete_Some. naive_solver.
  - intros o' z' x Ho' Hne Hx. apply Hkeep; [right; right; exists o', z'; split; [by apply HL|done]|]. intros ->.
    destruct (live_place X s C F P o z K (proj2 (HL o z) Ho)) as (_ & _ & _ & _ & Hz). destruct (live_apart X s C F P o z o' z' K (proj2 (HL _ _) Ho) (proj2 (HL _ _) Ho')) as [?|?]; [done|lia|lia].
  - intros n Hat Hno. apply Hpg; [done|]. intros x z' [Hx Hne]%Hl. apply HL in Hx. by eapply Hno.
Qed.
Lemma write_hands X s H o z a v : hands X (s, H) -> H !! o = Some z -> o <= a < o + z -> hands X (wmem (poke (mem (kmm s)) a v) s, H).
Proof.
  intros (C & F & P & K & Hu & HL) Ho Ha. cbn [fst snd] in *. exists C, F, P. split_and!; [|done|done]. cbn [fst]. eapply (user_write X s C F P o z); [exact K|by apply HL|]. intros x Hx. apply poke_ne. intros ->. done.
Qed.
Lemma khands X fuel sh sh' : (1 <= fuel)%nat -> rtc (kstep fuel) sh sh' -> hands X sh -> hands X sh'.
Proof.
  intros Hf. induction 1 as [|a b c Hst _ IH]; [done|]. intros Hh. apply IH. destruct Hst as [s H len r s' Hlen Hfree E|s H o z size s' Ho Hsz E|s H o z a v Ho Ha].
  - destruct (malloc_hands X fuel s H len Hh Hlen Hf Hfree) as (r0 & s0 & E0 & Hh' & _). rewrite E in E0. injection E0 as -> ->. done.
  - destruct (free_hands X s H o z size Hh Ho Hsz) as (s0 & E0 & Hh' & _). rewrite E in E0. injection E0 as ->. done.
  - by eapply write_hands.
Qed.
Lemma no_hands X s : hands X (s, ∅) -> bucket_dir s = dirs_of (replicate 9 0).
Proof.
  intros (C & F & P & K & Hu & HL). cbn [fst snd] in *. destruct (ki_heap _ _ _ _ _ K) as (chs & -> & Hp). f_equal. pose proof (hp_chs _ _ _ _ _ _ Hp) as Hl. symmetry. apply replicate_as_Forall. split; [done|].
  apply Forall_forall. intros ch Hin. symmetry. apply list_elem_of_lookup_1 in Hin as [i Hi]. pose proof (lookup_lt_Some _ _ _ Hi) as Hlt. rewrite Hl in Hlt.
  destruct (lookup_lt_is_Some_2 sizes i) as [sz Hs]; [done|]. destruct (lookup_lt_is_Some_2 C i) as [ds Hc]; [by rewrite (hp_len _ _ _ _ _ _ Hp)|]. destruct (hp_chain _ _ _ _ _ _ Hp i sz ch ds Hs Hi Hc) as [Hlk Hf].
  destruct ds as [|d ds]; [done|]. exfalso. apply Forall_cons in Hf as [Hb _]. destruct (some_out _ i sz d Hs Hb (Hu i sz _ d Hs Hc ltac:(left))) as [x [Hx Hnf]].
  assert (live C x sz) as Hlv by (exists i, (d :: ds), d; split_and!; [done|done|left|done|done]). apply HL in Hlv. by rewrite lookup_empty in Hlv.
Qed.
Lemma malloc_large fuel chs m f len : length chs = 9%nat -> 4096 < len -> malloc fuel len (mkKm m (dirs_of chs) f) = Panic "malloc: bad arg".
Proof.
  intros Hl Hlen. do 9 (destruct chs as [|? chs]; [done|]). destruct chs; [|done]. unfold malloc. erewrite bind_ok by reflexivity. cbn [bucket_dir].
  assert (find_dir len (dirs_of [z; z0; z1; z2; z3; z4; z5; z6; z7]) = 9%nat) as ->; [|done]. cbn. by rewrite !(proj2 (Z.leb_gt len _)) by lia.
Qed.

(** C6.  The allocator of the kernel, over the pages of the memory manager.
    However calls of [malloc], each made while two pages are free (without them
    it may panic), calls of [free_s] and the writes of callers to their
    objects follow each other from start-up: objects in use are apart from each
    other, each within one page that the kernel alone uses and no page table
    refers to or lies in.  [malloc] of at most a page, with two pages free, returns an object of the smallest size that is
    enough, in nobody's hands, and changes no object in use; more than a page
    is a panic.  [free_s] of any object in use, with any size that is not
    larger than its own, finds it, changes no other object in use and gives
    the page back with its last object.  When no object is in use all chains
    are empty again. *)
Theorem kernel_heap X fuel m s H : mm_ok m X -> (forall n, 0 <= X n) -> (1 <= fuel)%nat -> rtc (kstep fuel) (kmal_start m, ∅) (s, H) ->
  (forall o z o' z', H !! o = Some z -> H !! o' = Some z' -> o <> o' -> o + z <= o' \/ o' + z' <= o) /\
  (forall o z, H !! o = Some z -> exists n, mem_map (kmm s) !! n = Some 1 /\ at_page n o /\ at_page n (o + z - 1) /\ forall a, slot (mem (kmm s)) a -> ~ at_page n a /\ ~ refers (mem (kmm s) a) n) /\
  (forall len, 0 <= len <= 4096 -> two_free (kmm s) -> exists r s', malloc fuel len s = Ok r s' /\ H !! r = None /\ len <= bucket_of len /\
    (forall o z, H !! o = Some z -> o + z <= r \/ r + bucket_of len <= o) /\ forall o z x, H !! o = Some z -> o <= x < o + z -> mem (kmm s') x = mem (kmm s) x) /\
  (forall len, 4096 < len -> malloc fuel len s = Panic "malloc: bad arg") /\
  (forall o z size, H !! o = Some z -> size <= z -> exists s', free_s o size s = Ok tt s' /\
    (forall o' z' x, H !! o' = Some z' -> o' <> o -> o' <= x < o' + z' -> mem (kmm s') x = mem (kmm s) x) /\
    forall n, at_page n o -> (forall o' z', H !! o' = Some z' -> o' <> o -> ~ at_page n o') -> mem_map (kmm s') !! n = Some 0) /\
  (H = ∅ -> bucket_dir s = dirs_of (replicate 9 0)).
Proof.
  intros Hm HX Hf Hr. assert (hands X (s, H)) as Hh.
  { eapply khands; [exact Hf|exact Hr|]. destruct (start_kinv X m Hm HX) as [K Hu]. exists (replicate 9 []), [], []. split_and!; [done|done|]. intros o z. cbn [snd]. rewrite lookup_empty. split; [|done]. intros (i & ds & d & _ & [-> _]%lookup_replicate & Hd & _). by apply not_elem_of_nil in Hd. }
  pose proof Hh as (C & F & P & K & Hu & HL). cbn [fst snd] in *. split_and!.
  - intros o z o' z' Ho Ho' Hne. by eapply (live_apart X s C F P); [|apply HL..|].
  - intros o z Ho. destruct (live_place X s C F P o z K (proj2 (HL o z) Ho)) as (n & Hn & A1 & A2 & _). assert (n ∈ pages_of C P) as Hnp by (unfold pages_of; apply elem_of_app; by right).
    destruct (ki_own _ _ _ _ _ K n Hnp) as [Hc _]. assert (1 <= own X (pages_of C P) n) as Ho1 by (rewrite own_in by done; specialize (HX n); lia). exists n. split_and!; [done|done|done|]. intros a Ha. split; [by eapply owned_no_slot; [apply K|..]|]. intros Hra.
    destruct (ok_refs _ _ (ki_mm _ _ _ _ _ K)) as (R & HR & Hcnt). destruct (Hcnt n 1 Hc) as [Ec _]. assert (a ∈ R n) as Hin by (apply HR; done). pose proof (elem_size _ _ Hin). lia.
  - intros len Hlen Hfree. destruct (malloc_hands X fuel s H len Hh Hlen Hf Hfree) as (r & s' & E & (C' & F' & P' & K' & _ & HL') & Hn & Hk). destruct (bucket_of_ok len Hlen) as (i & _ & Hle & _). exists r, s'. split_and!; [done|done|done| |done].
    intros o z Ho. cbn [fst snd] in *. assert (o <> r) as Hne by (intros ->; congruence). eapply (live_apart X s' C' F' P'); [exact K'|apply HL'; by rewrite lookup_insert_ne|apply HL'; by rewrite lookup_insert_eq|done].
  - intros len Hlen. destruct (ki_heap _ _ _ _ _ K) as (chs & Hd & Hp). destruct s as [mm0 bd0 f0]. cbn in Hd. subst bd0. apply malloc_large; [apply Hp|done].
  - intros o z size Ho Hsz. destruct (free_hands X s H o z size Hh Ho Hsz) as (s' & E & _ & H1 & H2). by exists s'.
  - intros ->. by eapply no_hands.
Qed.

(** An object of 20 bytes is taken and given back. *)
Lemma kernel_heap_witness : exists r s1 s2, malloc 1 20 (kmal_start demo_mm) = Ok r s1 /\ free_s r 0 s1 = Ok tt s2 /\ bucket_dir s2 = dirs_of (replicate 9 0).
Proof.
  assert (forall n, 0 <= no_users n) as HX by (intros n; unfold no_users; lia). assert (two_free (kmm (kmal_start demo_mm))) as H2 by (exists 0%nat, 1%nat; split_and!; [lia|reflexivity|reflexivity]).
  destruct (kernel_heap no_users 1 demo_mm (kmal_start demo_mm) ∅ demo_ok HX ltac:(lia) (rtc_refl _ _)) as (_ & _ & Hm & _).
  destruct (Hm 20 ltac:(lia) H2) as (r & s1 & E1 & _). assert (rtc (kstep 1) (kmal_start demo_mm, ∅) (s1, <[r := bucket_of 20]> ∅)) as R1 by (eapply rtc_once, ks_malloc; [lia|exact H2|exact E1]).
  destruct (kernel_heap no_users 1 demo_mm s1 _ demo_ok HX ltac:(lia) R1) as (_ & _ & _ & _ & Hf & _).
  destruct (Hf r 32 0 ltac:(rewrite lookup_insert_eq; reflexivity) ltac:(lia)) as (s2 & E2 & _).
  assert (rtc (kstep 1) (kmal_start demo_mm, ∅) (s2, delete r (<[r := bucket_of 20]> ∅))) as R2 by (eapply rtc_r; [exact R1|]; eapply (ks_free 1 s1 _ r 32 0 s2); [rewrite lookup_insert_eq; reflexivity|lia|exact E2]).
  destruct (kernel_heap no_users 1 demo_mm s2 _ demo_ok HX ltac:(lia) R2) as (_ & _ & _ & _ & _ & He).
  exists r, s1, s2. split; [exact E1|]. split; [exact E2|]. apply He. by rewrite delete_insert_eq, delete_id.
Defined.
