(* ===== verification/LinuxTty.v ===== *)
(** * Linux 0.12: terminals

    Models [kernel/chr_drv/tty_io.c] with the queues of [include/linux/tty.h],
    [tty_ioctl.c] and the pseudo terminals of [pty.c].  A terminal has its
    three queues in it; the pointers to them are null together
    ([has_queues]).  Characters are signed, as [char] is.  What moves the
    output of a terminal on ([tty->write]) and what is
    known of process groups are an interface; signals sent to groups are recorded.  Reading
    and writing are cut where they sleep; a sleeper may go on at any time.
    Memory of the user is a list of characters. *)

From S2P Require Import Prelude.

Definition TTY_BUF_SIZE : Z := 1024.
Definition EIO : Z := 5.
Definition EPERM : Z := 1.
Definition EINVAL : Z := 22.
Definition ENOTTY : Z := 25.
Definition EINTR : Z := 4.
Definition ERESTARTSYS : Z := 512.
Definition SIGINT : Z := 2.
Definition SIGQUIT : Z := 3.
Definition SIGTSTP : Z := 20.
Definition SIGTTIN : Z := 21.
Definition SIGTTOU : Z := 22.
Definition s8 (x : Z) : Z := (x + 128) mod 256 - 128.

(** ** Queues *)

Record tty_queue := mkQ { q_data : Z; q_head : Z; q_tail : Z; q_buf : list Z }.
Definition INC (a : Z) : Z := Z.land (u32 (a + 1)) (TTY_BUF_SIZE - 1).
Definition DEC (a : Z) : Z := Z.land (u32 (a - 1)) (TTY_BUF_SIZE - 1).
Definition EMPTY (q : tty_queue) : bool := q_head q =? q_tail q.
Definition LEFT (q : tty_queue) : Z := Z.land (u32 (q_tail q - q_head q - 1)) (TTY_BUF_SIZE - 1).
Definition FULL (q : tty_queue) : bool := LEFT q =? 0.
Definition qdec (q : tty_queue) : tty_queue := mkQ (q_data q) (DEC (q_head q)) (q_tail q) (q_buf q).
Definition qput (c : Z) (q : tty_queue) : tty_queue := mkQ (q_data q) (INC (q_head q)) (q_tail q) (<[Z.to_nat (q_head q) := c]> (q_buf q)).
Definition qdrop (q : tty_queue) : tty_queue := mkQ (q_data q) (q_head q) (INC (q_tail q)) (q_buf q).
Definition qcount (n : Z) (q : tty_queue) : tty_queue := mkQ (u32 (q_data q + n)) (q_head q) (q_tail q) (q_buf q).

(** ** Terminals *)

Record tty_struct := mkTty {
  c_iflag : Z; c_oflag : Z; c_cflag : Z; c_lflag : Z; c_line : Z; c_cc : list Z;
  t_pgrp : Z; t_session : Z; stopped : Z; has_queues : bool;
  read_q : tty_queue; write_q : tty_queue; secondary : tty_queue }.
Definition set_stopped v t := mkTty (c_iflag t) (c_oflag t) (c_cflag t) (c_lflag t) (c_line t) (c_cc t) (t_pgrp t) (t_session t) v (has_queues t) (read_q t) (write_q t) (secondary t).
Inductive qname := Qread | Qwrite | Qsec.
Definition qof (n : qname) (t : tty_struct) : tty_queue := match n with Qread => read_q t | Qwrite => write_q t | Qsec => secondary t end.
Definition qset (n : qname) (q : tty_queue) (t : tty_struct) : tty_struct :=
  mkTty (c_iflag t) (c_oflag t) (c_cflag t) (c_lflag t) (c_line t) (c_cc t) (t_pgrp t) (t_session t) (stopped t) (has_queues t)
    (match n with Qread => q | _ => read_q t end) (match n with Qwrite => q | _ => write_q t end) (match n with Qsec => q | _ => secondary t end).

(** The task that runs. *)
Record tcur := mkCur { u_tty : Z; u_pgrp : Z; u_session : Z; u_signal : Z; u_blocked : Z; u_timeout : Z; u_handler : Z -> Z }.
Record ttyst := mkTst { ttys : list tty_struct; fg_console : Z; NR_CONSOLES : Z; cr_flag : Z; cur : tcur; jiffies : Z; kills : list (Z * Z); notes : list string; ports : list (Z * Z) }.
Definition set_ttys v s := mkTst v (fg_console s) (NR_CONSOLES s) (cr_flag s) (cur s) (jiffies s) (kills s) (notes s) (ports s).
Definition set_fg v s := mkTst (ttys s) v (NR_CONSOLES s) (cr_flag s) (cur s) (jiffies s) (kills s) (notes s) (ports s).
Definition set_cr v s := mkTst (ttys s) (fg_console s) (NR_CONSOLES s) v (cur s) (jiffies s) (kills s) (notes s) (ports s).
Definition set_kills v s := mkTst (ttys s) (fg_console s) (NR_CONSOLES s) (cr_flag s) (cur s) (jiffies s) v (notes s) (ports s).
Definition set_timeout v s := let u := cur s in mkTst (ttys s) (fg_console s) (NR_CONSOLES s) (cr_flag s) (mkCur (u_tty u) (u_pgrp u) (u_session u) (u_signal u) (u_blocked u) v (u_handler u)) (jiffies s) (kills s) (notes s) (ports s).
Definition note m s := mkTst (ttys s) (fg_console s) (NR_CONSOLES s) (cr_flag s) (cur s) (jiffies s) (kills s) (notes s ++ [m]) (ports s).
Definition set_ports v s := mkTst (ttys s) (fg_console s) (NR_CONSOLES s) (cr_flag s) (cur s) (jiffies s) (kills s) (notes s) v.
Definition get_tty (i : nat) : M ttyst tty_struct := l ← gets ttys; idx l i.
Definition upd_tty (i : nat) (f : tty_struct -> tty_struct) : M ttyst unit := t ← get_tty i; modify (fun s => set_ttys (<[i := f t]> (ttys s)) s).
Definition PUTCH (c : Z) (n : qname) (i : nat) : M ttyst unit := upd_tty i (fun t => qset n (qput c (qof n t)) t).
Definition GETCH (n : qname) (i : nat) : M ttyst Z :=
  t ← get_tty i; c ← idx (q_buf (qof n t)) (Z.to_nat (q_tail (qof n t))); upd_tty i (fun t => qset n (qdrop (qof n t)) t) ;; mret c.
Definition LAST (n : qname) (i : nat) : M ttyst Z :=
  t ← get_tty i; idx (q_buf (qof n t)) (Z.to_nat (Z.land (TTY_BUF_SIZE - 1) (u32 (q_head (qof n t) - 1)))).
Definition kill_pg (pg sig : Z) : M ttyst unit := modify (fun s => set_kills (kills s ++ [(pg, sig)]) s).
Definition pending (s : ttyst) : bool := negb (Z.land (u_signal (cur s)) (Z.lnot (u_blocked (cur s))) =? 0).

Definition flag (w f : Z) : bool := negb (Z.land w f =? 0).
Definition L_CANON t := flag (c_lflag t) 2.
Definition L_ISIG t := flag (c_lflag t) 1.
Definition L_ECHO t := flag (c_lflag t) 8.
Definition L_ECHOCTL t := flag (c_lflag t) 512.
Definition L_TOSTOP t := flag (c_lflag t) 256.
Definition I_UCLC t := flag (c_iflag t) 512.
Definition I_NLCR t := flag (c_iflag t) 64.
Definition I_CRNL t := flag (c_iflag t) 256.
Definition I_NOCR t := flag (c_iflag t) 128.
Definition I_IXON t := flag (c_iflag t) 1024.
Definition O_POST t := flag (c_oflag t) 1.
Definition O_NLCR t := flag (c_oflag t) 4.
Definition O_CRNL t := flag (c_oflag t) 8.
Definition O_NLRET t := flag (c_oflag t) 32.
Definition O_LCUC t := flag (c_oflag t) 2.
Definition C_HUP t := Z.land (c_cflag t) 15 =? 0.
Definition VINTR : nat := 0.
Definition VQUIT : nat := 1.
Definition VERASE : nat := 2.
Definition VKILL : nat := 3.
Definition VEOF : nat := 4.
Definition VTIME : nat := 5.
Definition VMIN : nat := 6.
Definition VSTART : nat := 8.
Definition VSTOP : nat := 9.
Definition VSUSP : nat := 10.
Definition cc (t : tty_struct) (n : nat) : Z := default 0 (c_cc t !! n).
(** Is [c] the control character [n], and is that in use? *)
Definition is_cc (t : tty_struct) (n : nat) (c : Z) : bool := negb (cc t n =? 0) && (c =? cc t n).
(** [_ctype] has entries from -1 on. *)
Definition tolower (c : Z) : M ttyst Z := if c <? -1 then fault else mret (if (65 <=? c) && (c <=? 90) then c + 32 else c).
Definition toupper (c : Z) : M ttyst Z := if c <? -1 then fault else mret (if (97 <=? c) && (c <=? 122) then c - 32 else c).

Class TtyOps := { drv_write : nat -> M ttyst unit; is_orphaned_pgrp : Z -> bool; session_of_pgrp : Z -> Z }.

Section Tty.
Context `{TtyOps}.

(** ** Input *)

(** The last character is taken back from the queue of lines. *)
Definition rub (i : nat) (c : Z) : M ttyst unit :=
  t ← get_tty i;
  (if L_ECHO t then (if c <? 32 then PUTCH 127 Qwrite i else skip) ;; PUTCH 127 Qwrite i ;; drv_write i else skip) ;;
  upd_tty i (fun t => qset Qsec (qdec (secondary t)) t).
Definition kill_step (i : nat) (_ : unit) : M ttyst (unit + unit) :=
  t ← get_tty i;
  if EMPTY (secondary t) then mret (inr tt) else
  c ← LAST Qsec i;
  if (c =? 10) || is_cc t VEOF c then mret (inr tt) else
  rub i c ;; mret (inl tt).
Definition erase (i : nat) : M ttyst unit :=
  t ← get_tty i;
  if EMPTY (secondary t) then skip else
  c ← LAST Qsec i;
  if (c =? 10) || is_cc t VEOF c then skip else rub i c.
Definition echo (i : nat) (c : Z) : M ttyst unit :=
  t ← get_tty i;
  if L_ECHO t then
    (if c =? 10 then PUTCH 10 Qwrite i ;; PUTCH 13 Qwrite i
     else if c <? 32 then (if L_ECHOCTL t then PUTCH 94 Qwrite i ;; PUTCH (c + 64) Qwrite i else skip)
     else PUTCH c Qwrite i) ;;
    drv_write i
  else skip.
Definition accept (i : nat) (c : Z) : M ttyst unit :=
  t ← get_tty i;
  (if (c =? 10) || is_cc t VEOF c then upd_tty i (fun t => qset Qsec (qcount 1 (secondary t)) t) else skip) ;;
  echo i c ;;
  PUTCH c Qsec i.
Definition stop (i : nat) (v : Z) : M ttyst unit := upd_tty i (set_stopped v) ;; drv_write i.
(** What a character does once the input flags have been applied. *)
Definition cook_char (i : nat) (c : Z) : M ttyst unit :=
  t ← get_tty i;
  if L_CANON t && is_cc t VKILL c then loop (Z.to_nat TTY_BUF_SIZE) (kill_step i) tt
  else if L_CANON t && is_cc t VERASE c then erase i
  else if I_IXON t && is_cc t VSTOP c then stop i 1
  else if I_IXON t && is_cc t VSTART c then stop i 0
  else if L_ISIG t && is_cc t VINTR c then kill_pg (t_pgrp t) SIGINT
  else if L_ISIG t && is_cc t VQUIT c then kill_pg (t_pgrp t) SIGQUIT
  else if L_ISIG t && is_cc t VSUSP c then (if is_orphaned_pgrp (t_pgrp t) then skip else kill_pg (t_pgrp t) SIGTSTP)
  else accept i c.
Definition cook_step (i : nat) (_ : unit) : M ttyst (unit + unit) :=
  t ← get_tty i;
  if EMPTY (read_q t) then mret (inr tt) else
  if FULL (secondary t) then mret (inr tt) else
  c ← GETCH Qread i;
  if (c =? 13) && negb (I_CRNL t) && I_NOCR t then mret (inl tt) else
  let c := if c =? 13 then (if I_CRNL t then 10 else c) else if (c =? 10) && I_NLCR t then 13 else c in
  c ← (if I_UCLC t then tolower c else mret c);
  cook_char i c ;;
  mret (inl tt).
Definition copy_to_cooked (i : nat) : M ttyst unit :=
  t ← get_tty i;
  if negb (has_queues t) then modify (note "copy_to_cooked: missing queues") else
  loop (Z.to_nat TTY_BUF_SIZE) (cook_step i) tt.

Definition TTY_TABLE (nr : Z) : M ttyst nat :=
  f ← gets fg_console; mret (Z.to_nat (if negb (nr =? 0) then (if nr <? 64 then nr - 1 else nr) else f)).
Definition do_tty_interrupt (tty : Z) : M ttyst unit := i ← TTY_TABLE tty; copy_to_cooked i.
Definition change_console (new_console : Z) : M ttyst unit :=
  f ← gets fg_console; n ← gets NR_CONSOLES;
  if (new_console =? f) || (n <=? new_console) then skip else modify (set_fg new_console).

(** ** Reading *)

Definition tty_signal (sig : Z) : M ttyst Z :=
  u ← gets cur;
  if is_orphaned_pgrp (u_pgrp u) then mret (- EIO) else
  kill_pg (u_pgrp u) sig ;;
  if negb (Z.land (u_blocked u) (Z.shiftl 1 (sig - 1)) =? 0) || (u_handler u (sig - 1) =? 1) then mret (- EIO) else
  if negb (u_handler u (sig - 1) =? 0) then mret (- EINTR) else mret (- ERESTARTSYS).

(** A call under way: what is still wanted, and what the caller has. *)
Record rdcall := mkRd { r_nr : Z; r_out : list Z; r_min : Z; r_time : Z }.
Inductive rdres := RSleep (r : rdcall) | RNext (r : rdcall) | RDone (v : Z) (out : list Z).
Definition chars_step (i : nat) (a : Z * list Z) : M ttyst ((Z * list Z) + (Z * list Z)) :=
  t ← get_tty i;
  c ← GETCH Qsec i;
  (if is_cc t VEOF c || (c =? 10) then upd_tty i (fun t => qset Qsec (qcount (-1) (secondary t)) t) else skip) ;;
  if is_cc t VEOF c && L_CANON t then mret (inr a) else
  let a := (fst a - 1, snd a ++ [c]) in
  if fst a =? 0 then mret (inr a) else
  if (c =? 10) && L_CANON t then mret (inr a) else
  t ← get_tty i;
  if (0 <? fst a) && negb (EMPTY (secondary t)) then mret (inl a) else mret (inr a).
Definition read_done (r : rdcall) : M ttyst rdres :=
  modify (set_timeout 0) ;;
  p ← gets pending;
  if p && (length (r_out r) =? 0)%nat then mret (RDone (- ERESTARTSYS) (r_out r)) else mret (RDone (Z.of_nat (length (r_out r))) (r_out r)).
(** Once around the loop of [tty_read]. *)
Definition read_at (channel : Z) (i : nat) (other : option nat) (r : rdcall) : M ttyst rdres :=
  if r_nr r <=? 0 then read_done r else
  (match other with Some o => drv_write o | None => skip end) ;;
  t ← get_tty i;
  if EMPTY (secondary t) || (L_CANON t && negb (FULL (read_q t)) && (q_data (secondary t) =? 0)) then
    u ← gets cur; p ← gets pending;
    if (u_timeout u =? 0) || p then read_done r else
    hup ← (match other with Some o => if Z.land channel 192 =? 192 then t ← get_tty o; mret (C_HUP t) else mret false | None => mret false end);
    if hup : bool then read_done r else mret (RSleep r)
  else
    a ← loop (Z.to_nat TTY_BUF_SIZE) (chars_step i) (r_nr r, r_out r);
    let r := mkRd (fst a) (snd a) (r_min r) (r_time r) in
    (if negb (r_time r =? 0) then j ← gets jiffies; modify (set_timeout (u32 (r_time r + j))) else skip) ;;
    if L_CANON t || (r_min r <=? Z.of_nat (length (r_out r))) then read_done r else mret (RNext r).
Definition tty_read (channel nr : Z) : M ttyst rdres :=
  if 255 <? channel then mret (RDone (- EIO) []) else
  i ← TTY_TABLE channel;
  t ← get_tty i;
  if negb (has_queues t) then mret (RDone (- EIO) []) else
  u ← gets cur;
  if (u_tty u =? channel) && negb (t_pgrp t =? u_pgrp u) then v ← tty_signal SIGTTIN; mret (RDone v []) else
  let other := if Z.land channel 128 =? 0 then None else Some (Z.to_nat (Z.lxor channel 64)) in
  let time := 10 * cc t VTIME in
  let minimum := cc t VMIN in
  r ← (if L_CANON t then modify (set_timeout 4294967295) ;; mret (nr, 0)
       else if negb (minimum =? 0) then modify (set_timeout 4294967295) ;; mret (minimum, time)
       else (if negb (time =? 0) then j ← gets jiffies; modify (set_timeout (u32 (time + j))) else skip) ;; mret (nr, 0));
  read_at channel i other (mkRd nr [] (if nr <? fst r then nr else fst r) (snd r)).

(** ** Writing *)

Definition post_step (i : nat) (l : list Z) : M ttyst (list Z + list Z) :=
  t ← get_tty i;
  match l with
  | [] => mret (inr [])
  | c :: l' =>
      if FULL (write_q t) then mret (inr l) else
      f ← gets cr_flag;
      let c := if O_POST t then (if (c =? 13) && O_CRNL t then 10 else if (c =? 10) && O_NLRET t then 13 else c) else c in
      if O_POST t && (c =? 10) && (f =? 0) && O_NLCR t then modify (set_cr 1) ;; PUTCH 13 Qwrite i ;; mret (inl l) else
      c ← (if O_POST t && O_LCUC t then toupper c else mret c);
      modify (set_cr 0) ;; PUTCH c Qwrite i ;; mret (inl l')
  end.
Inductive wrres := WSleep (l : list Z) | WSched (l : list Z) | WDone (left : list Z).
(** Once around the loop of [tty_write] with the characters left; [slept]
    when it comes from the sleep in [sleep_if_full]. *)
Definition write_at (i : nat) (slept : bool) (l : list Z) : M ttyst wrres :=
  if (length l =? 0)%nat then mret (WDone l) else
  t ← get_tty i;
  p ← gets pending;
  if negb p && (if slept then LEFT (write_q t) <? 128 else FULL (write_q t)) then mret (WSleep l) else
  if p : bool then mret (WDone l) else
  l ← loop (Z.to_nat TTY_BUF_SIZE) (post_step i) l;
  drv_write i ;;
  if (length l =? 0)%nat then mret (WDone l) else mret (WSched l).
Definition tty_write (channel : Z) (l : list Z) : M ttyst (Z + wrres) :=
  if 255 <? channel then mret (inl (- EIO)) else
  i ← TTY_TABLE channel;
  t ← get_tty i;
  if negb (has_queues t) then mret (inl (- EIO)) else
  u ← gets cur;
  if L_TOSTOP t && (u_tty u =? channel) && negb (t_pgrp t =? u_pgrp u) then v ← tty_signal SIGTTOU; mret (inl v) else
  r ← write_at i false l; mret (inr r).

(** ** Pseudo terminals *)

Definition pty_step (from to : nat) (_ : unit) : M ttyst (unit + unit) :=
  f ← get_tty from; t ← get_tty to;
  if negb (stopped f =? 0) || EMPTY (write_q f) then mret (inr tt) else
  if FULL (read_q t) then (if FULL (secondary t) then mret (inr tt) else copy_to_cooked to ;; mret (inl tt)) else
  c ← GETCH Qwrite from;
  PUTCH c Qread to ;;
  p ← gets pending;
  if p : bool then mret (inr tt) else mret (inl tt).
Definition pty_copy (fuel : nat) (from to : nat) : M ttyst unit := loop fuel (pty_step from to) tt ;; copy_to_cooked to.
Definition mpty_write (fuel : nat) (nr : nat) : M ttyst unit :=
  if negb (Z.shiftr (Z.of_nat nr) 6 =? 2) then modify (note "bad mpty") else pty_copy fuel nr (nr + 64).
Definition spty_write (fuel : nat) (nr : nat) : M ttyst unit :=
  if negb (Z.shiftr (Z.of_nat nr) 6 =? 3) then modify (note "bad spty") else pty_copy fuel nr (nr - 64).
(** ** Control *)

Definition CHARS (q : tty_queue) : Z := Z.land (u32 (q_head q - q_tail q)) (TTY_BUF_SIZE - 1).
Definition quotient : list Z := [0; 2304; 1536; 1047; 857; 768; 576; 384; 192; 96; 64; 48; 24; 12; 6; 3].
Definition outb (v port : Z) : M ttyst unit := modify (fun s => set_ports (ports s ++ [(port, v)]) s).
(** The queues of some terminals are missing. *)
Definition queues (i : nat) : M ttyst unit := t ← get_tty i; if has_queues t then skip else fault.
Definition change_speed (i : nat) : M ttyst unit :=
  queues i ;;
  t ← get_tty i;
  let port := u16 (q_data (read_q t)) in
  if port =? 0 then skip else
  quot ← idx quotient (Z.to_nat (Z.land (c_cflag t) 15));
  outb 128 (port + 3) ;; outb (Z.land quot 255) port ;; outb (Z.shiftr quot 8) (port + 1) ;; outb 3 (port + 3).
(** The routine of a serial line, in [serial.c]: with characters to send it
    lets the chip interrupt when it can take one; [inb] is what the ports
    read. *)
Definition rs_write (inb : Z -> Z) (i : nat) : M ttyst unit :=
  queues i ;;
  t ← get_tty i;
  if EMPTY (write_q t) then skip else
  let port := u16 (q_data (write_q t) + 1) in
  outb (u8 (Z.lor (inb port) 2)) port.
Definition flush (n : qname) (i : nat) : M ttyst unit :=
  queues i ;;
  upd_tty i (fun t => qset n (mkQ (q_data (qof n t)) (q_tail (qof n t)) (q_tail (qof n t)) (q_buf (qof n t))) t).

(** What a caller passes and gets: the flags, 16 bits of them in the old
    format, and the first 8 of the control characters there. *)
Record termios := mkTios { ti_iflag : Z; ti_oflag : Z; ti_cflag : Z; ti_lflag : Z; ti_line : Z; ti_cc : list Z }.
Definition get_termios (i : nat) : M ttyst termios :=
  t ← get_tty i; mret (mkTios (c_iflag t) (c_oflag t) (c_cflag t) (c_lflag t) (c_line t) (c_cc t)).
Definition put_termios (u : termios) (t : tty_struct) : tty_struct :=
  mkTty (ti_iflag u) (ti_oflag u) (ti_cflag u) (ti_lflag u) (ti_line u) (ti_cc u) (t_pgrp t) (t_session t) (stopped t) (has_queues t) (read_q t) (write_q t) (secondary t).
(** A task in the background is stopped first, unless it ignores that. *)
Definition stop_background (i : nat) (channel : Z) : M ttyst Z :=
  t ← get_tty i; u ← gets cur;
  if (u_tty u =? channel) && negb (t_pgrp t =? u_pgrp u) then
    retsig ← tty_signal SIGTTOU;
    if (retsig =? - ERESTARTSYS) || (retsig =? - EINTR) then mret retsig else mret 0
  else mret 0.
Definition set_termios (i : nat) (u : termios) (channel : Z) : M ttyst Z :=
  r ← stop_background i channel;
  if negb (r =? 0) then mret r else
  upd_tty i (put_termios u) ;; change_speed i ;; mret 0.
Definition get_termio (i : nat) : M ttyst termios :=
  t ← get_tty i; mret (mkTios (u16 (c_iflag t)) (u16 (c_oflag t)) (u16 (c_cflag t)) (u16 (c_lflag t)) (c_line t) (take 8 (c_cc t))).
Definition low16 (w v : Z) : Z := Z.lor (Z.land w 4294901760) (u16 v).
Definition set_termio (i : nat) (u : termios) (channel : Z) : M ttyst Z :=
  r ← stop_background i channel;
  if negb (r =? 0) then mret r else
  upd_tty i (fun t => put_termios (mkTios (low16 (c_iflag t) (ti_iflag u)) (low16 (c_oflag t) (ti_oflag u)) (low16 (c_cflag t) (ti_cflag u)) (low16 (c_lflag t) (ti_lflag u)) (ti_line u) (ti_cc u ++ drop 8 (c_cc t))) t) ;;
  change_speed i ;; mret 0.
Definition set_pgrp v t := mkTty (c_iflag t) (c_oflag t) (c_cflag t) (c_lflag t) (c_line t) (c_cc t) v (t_session t) (stopped t) (has_queues t) (read_q t) (write_q t) (secondary t).

(** What is in the memory of the caller at [arg], and what is put there. *)
Record uarg := mkUa { ua_termios : termios; ua_long : Z }.
Inductive answer := ANone | ATerm (t : termios) | ALong (v : Z).
Definition ioctl_xonc (i : nat) (arg : Z) : M ttyst Z :=
  t ← get_tty i;
  if arg =? 0 then stop i 1 ;; mret 0
  else if arg =? 1 then stop i 0 ;; mret 0
  else if arg =? 2 then (if negb (cc t VSTOP =? 0) then queues i ;; PUTCH (s8 (cc t VSTOP)) Qwrite i else skip) ;; mret 0
  else if arg =? 3 then (if negb (cc t VSTART =? 0) then queues i ;; PUTCH (s8 (cc t VSTART)) Qwrite i else skip) ;; mret 0
  else mret (- EINVAL).
Definition ioctl_flush (i : nat) (arg : Z) : M ttyst Z :=
  if arg =? 0 then flush Qread i ;; mret 0
  else if arg =? 1 then flush Qwrite i ;; mret 0
  else if arg =? 2 then flush Qread i ;; flush Qwrite i ;; mret 0
  else mret (- EINVAL).
Definition ioctl_spgrp (i : nat) (dev pgrp : Z) : M ttyst Z :=
  u ← gets cur; t ← get_tty i;
  if (u_tty u <? 0) || negb (u_tty u =? dev) || negb (t_session t =? u_session u) then mret (- ENOTTY) else
  if pgrp <? 0 then mret (- EINVAL) else
  if negb (session_of_pgrp pgrp =? u_session u) then mret (- EPERM) else
  upd_tty i (set_pgrp pgrp) ;; mret 0.
Definition plain (m : M ttyst Z) : M ttyst (Z * answer) := r ← m; mret (r, ANone).
Definition tty_ioctl (dev cmd arg : Z) (ua : uarg) : M ttyst (Z * answer) :=
  u ← gets cur;
  if (Z.shiftr (u32 dev) 8 =? 5) && (u_tty u <? 0) then panic "tty_ioctl: dev<0" else
  let dev := if Z.shiftr (u32 dev) 8 =? 5 then u_tty u else Z.land dev 255 in
  i ← TTY_TABLE dev;
  t ← get_tty i;
  if cmd =? 21505 then r ← get_termios i; mret (0, ATerm r)
  else if cmd =? 21508 then flush Qread i ;; plain (set_termios i (ua_termios ua) dev)
  else if (cmd =? 21507) || (cmd =? 21506) then plain (set_termios i (ua_termios ua) dev)
  else if cmd =? 21509 then r ← get_termio i; mret (0, ATerm r)
  else if cmd =? 21512 then flush Qread i ;; plain (set_termio i (ua_termios ua) dev)
  else if (cmd =? 21511) || (cmd =? 21510) then plain (set_termio i (ua_termios ua) dev)
  else if cmd =? 21513 then mret (0, ANone)
  else if cmd =? 21514 then plain (ioctl_xonc i arg)
  else if cmd =? 21515 then plain (ioctl_flush i arg)
  else if cmd =? 21519 then mret (0, ALong (t_pgrp t))
  else if cmd =? 21520 then plain (ioctl_spgrp i dev (ua_long ua))
  else if cmd =? 21521 then queues i ;; mret (0, ALong (CHARS (write_q t)))
  else if cmd =? 21531 then queues i ;; mret (0, ALong (CHARS (secondary t)))
  else mret (- EINVAL, ANone).
End Tty.

(** ** Start-up *)

Definition empty_queue (d : Z) : tty_queue := mkQ d 0 0 (replicate 1024 0).
Definition INIT_C_CC : list Z := [3; 28; 127; 21; 4; 0; 1; 0; 17; 19; 26; 0; 18; 15; 23; 22; 0].
(** Entry [i] of the table; the queues of a serial line hold its port. *)
Definition tty_entry (consoles i : nat) : tty_struct :=
  let e := empty_queue 0 in
  let port := empty_queue (if (i =? 64)%nat then 1016 else 760) in
  if (i <? consoles)%nat then mkTty 256 (Z.lor 1 4) 0 (Z.lor (Z.lor (Z.lor (Z.lor (Z.lor 1024 1) 2) 8) 512) 2048) 0 INIT_C_CC 0 0 0 true e e e
  else if (64 <=? i)%nat && (i <? 66)%nat then mkTty 0 0 (Z.lor 11 48) 0 0 INIT_C_CC 0 0 0 true port port e
  else if (128 <=? i)%nat && (i <? 132)%nat then mkTty 0 0 (Z.lor 13 48) 0 0 INIT_C_CC 0 0 0 true e e e
  else if (192 <=? i)%nat && (i <? 196)%nat then mkTty 0 0 (Z.lor 13 48) (Z.lor (Z.lor 1024 1) 2) 0 INIT_C_CC 0 0 0 true e e e
  else mkTty 0 0 0 0 0 INIT_C_CC 0 0 0 false e e e.
Definition tty_init (consoles : nat) : M ttyst unit :=
  modify (set_ttys (tty_entry consoles <$> seq 0 256)) ;;
  modify (note "virtual consoles") ;; modify (note "pty's").

(** ** What a queue holds *)

Record qok (q : tty_queue) : Prop := { qk_len : length (q_buf q) = 1024%nat; qk_head : 0 <= q_head q < 1024; qk_tail : 0 <= q_tail q < 1024 }.
Definition qlen (q : tty_queue) : Z := (q_head q - q_tail q) mod 1024.
Definition qat (q : tty_queue) (k : nat) : Z := q_buf q !!! Z.to_nat ((q_tail q + Z.of_nat k) mod 1024).
Definition chars (q : tty_queue) : list Z := qat q <$> seq 0 (Z.to_nat (qlen q)).

Lemma mask1023 x : Z.land (u32 x) 1023 = x mod 1024.
Proof. change 1023 with (Z.ones 10). rewrite Z.land_ones by lia. change (2 ^ 10) with 1024. unfold u32. symmetry. apply Znumtheory.Zmod_div_mod; [lia|lia|]. by exists 4194304. Qed.
Lemma qlen_bound q : 0 <= qlen q < 1024.
Proof. apply Z.mod_pos_bound. lia. Qed.
Lemma length_chars q : length (chars q) = Z.to_nat (qlen q).
Proof. unfold chars. by rewrite length_fmap, length_seq. Qed.
Ltac mod1024 := unfold qlen, INC, DEC, TTY_BUF_SIZE in *; change (1024 - 1) with 1023 in *; rewrite ?mask1023 in *; Z.div_mod_to_equations; lia.
Lemma EMPTY_chars q : qok q -> EMPTY q = (length (chars q) =? 0)%nat.
Proof.
  intros [H1 H2 H3]. rewrite length_chars. unfold EMPTY. pose proof (qlen_bound q). destruct (Z.eqb_spec (q_head q) (q_tail q)) as [E|E]; symmetry; [apply Nat.eqb_eq|apply Nat.eqb_neq]; mod1024.
Qed.
Lemma FULL_chars q : qok q -> FULL q = (length (chars q) =? 1023)%nat.
Proof.
  intros [H1 H2 H3]. rewrite length_chars. unfold FULL, LEFT, TTY_BUF_SIZE. change (1024 - 1) with 1023. rewrite mask1023. pose proof (qlen_bound q).
  destruct (Z.eqb_spec ((q_tail q - q_head q - 1) mod 1024) 0) as [E|E]; symmetry; [apply Nat.eqb_eq|apply Nat.eqb_neq]; mod1024.
Qed.
Lemma qput_ok c q : qok q -> length (chars q) <> 1023%nat -> qok (qput c q) /\ chars (qput c q) = chars q ++ [c].
Proof.
  intros [H1 H2 H3] Hn. rewrite length_chars in Hn. pose proof (qlen_bound q) as Hb. assert (0 <= INC (q_head q) < 1024) as HI by (unfold INC, TTY_BUF_SIZE; change (1024 - 1) with 1023; rewrite mask1023; apply Z.mod_pos_bound; lia).
  split; [split; cbn; [by rewrite length_insert|done|done]|]. unfold chars. assert (qlen (qput c q) = qlen q + 1) as -> by (unfold qlen; cbn; mod1024).
  rewrite Z2Nat.inj_add, seq_app, fmap_app by lia. f_equal.
  - apply list_fmap_ext. intros k x Hk. apply lookup_seq in Hk as [-> Hk]. unfold qat. cbn. rewrite list_lookup_total_insert_ne; [done|]. intros E. apply Z2Nat.inj in E; [|lia|apply Z.mod_pos_bound; lia]. mod1024.
  - change (Z.to_nat 1) with 1%nat. cbn [seq fmap list_fmap]. f_equal. unfold qat. cbn [q_tail q_buf qput Nat.add]. replace (Z.to_nat ((q_tail q + Z.of_nat (Z.to_nat (qlen q))) mod 1024)) with (Z.to_nat (q_head q)); [apply list_lookup_total_insert_eq; rewrite H1; lia|]. f_equal. mod1024.
Qed.
Lemma qdrop_ok q : qok q -> chars q <> [] -> qok (qdrop q) /\ chars q = qat q 0 :: chars (qdrop q).
Proof.
  intros [H1 H2 H3] Hn. pose proof (qlen_bound q) as Hb. assert (0 < qlen q) as Hp by (destruct (decide (qlen q = 0)) as [E|]; [destruct Hn; unfold chars; by rewrite E|lia]).
  assert (0 <= INC (q_tail q) < 1024) as HI by (unfold INC, TTY_BUF_SIZE; change (1024 - 1) with 1023; rewrite mask1023; apply Z.mod_pos_bound; lia). split; [by split|].
  unfold chars. replace (Z.to_nat (qlen q)) with (S (Z.to_nat (qlen (qdrop q)))) by (unfold qlen in *; cbn; mod1024). rewrite <- cons_seq. cbn [fmap list_fmap]. f_equal. rewrite <- fmap_S_seq, <- list_fmap_compose.
  apply list_fmap_ext. intros k x _. unfold qat, compose. cbn. do 2 f_equal. mod1024.
Qed.
Lemma qdec_ok q : qok q -> chars q <> [] -> qok (qdec q) /\ chars q = chars (qdec q) ++ [q_buf q !!! Z.to_nat (Z.land (TTY_BUF_SIZE - 1) (u32 (q_head q - 1)))].
Proof.
  intros [H1 H2 H3] Hn. pose proof (qlen_bound q) as Hb. assert (0 < qlen q) as Hp by (destruct (decide (qlen q = 0)) as [E|]; [destruct Hn; unfold chars; by rewrite E|lia]).
  assert (0 <= DEC (q_head q) < 1024) as HI by (unfold DEC, TTY_BUF_SIZE; change (1024 - 1) with 1023; rewrite mask1023; apply Z.mod_pos_bound; lia). split; [by split|].
  unfold chars. assert (qlen q = qlen (qdec q) + 1) as Eq by (unfold qlen in *; cbn; mod1024). rewrite Eq, Z2Nat.inj_add, seq_app, fmap_app by (pose proof (qlen_bound (qdec q)); lia). f_equal. change (Z.to_nat 1) with 1%nat. cbn [seq fmap list_fmap]. f_equal. unfold qat. f_equal.
  rewrite Z.land_comm. unfold TTY_BUF_SIZE. change (1024 - 1) with 1023. rewrite mask1023. f_equal. pose proof (qlen_bound (qdec q)). mod1024.
Qed.
Lemma qcount_chars n q : chars (qcount n q) = chars q.
Proof. done. Qed.
