(* ===== verification/LinuxLine.v ===== *)
(** * Linux 0.12: the line discipline

    The theorems about [LinuxTty]: [copy_to_cooked] edits lines as a function
    on lists does, [tty_read] hands them out one at a time, [tty_write] puts
    out what the output flags make of the characters. *)

From S2P Require Import Prelude LinuxTty.

(** ** Editing a line *)

Definition is_end (t : tty_struct) (c : Z) : bool := (c =? 10) || is_cc t VEOF c.
Definition ends (t : tty_struct) (l : list Z) : Z := Z.of_nat (length (filter (fun c => is_end t c = true) l)).
Definition lower (c : Z) : Z := if (65 <=? c) && (c <=? 90) then c + 32 else c.
(** What the input flags make of a character. *)
Definition translate (t : tty_struct) (c : Z) : option Z :=
  if (c =? 13) && negb (I_CRNL t) && I_NOCR t then None else
  let c := if c =? 13 then (if I_CRNL t then 10 else c) else if (c =? 10) && I_NLCR t then 13 else c in
  Some (if I_UCLC t then lower c else c).
Fixpoint kill_rev (t : tty_struct) (l : list Z) : list Z :=
  match l with [] => [] | c :: l' => if is_end t c then l else kill_rev t l' end.
Definition kill_typed (t : tty_struct) (l : list Z) : list Z := reverse (kill_rev t (reverse l)).
Definition erase_char (t : tty_struct) (l : list Z) : list Z :=
  match reverse l with [] => l | c :: l' => if is_end t c then l else reverse l' end.

(** The first line of [l], at most [n] characters of it, and the rest; the
    end-of-file character ends a line and is not part of it. *)
Fixpoint first_line (t : tty_struct) (n : nat) (l : list Z) : list Z * list Z :=
  match n, l with
  | S n', c :: l' => if is_cc t VEOF c then ([], l') else if c =? 10 then ([c], l') else let r := first_line t n' l' in (c :: r.1, r.2)
  | _, _ => ([], l)
  end.

(** The lines typed, whether output is stopped, and the signals sent. *)
Record edit := mkEd { e_sec : list Z; e_stopped : Z; e_sigs : list Z }.
Definition edit_char `{TtyOps} (t : tty_struct) (c : Z) (x : edit) : edit :=
  if L_CANON t && is_cc t VKILL c then mkEd (kill_typed t (e_sec x)) (e_stopped x) (e_sigs x)
  else if L_CANON t && is_cc t VERASE c then mkEd (erase_char t (e_sec x)) (e_stopped x) (e_sigs x)
  else if I_IXON t && is_cc t VSTOP c then mkEd (e_sec x) 1 (e_sigs x)
  else if I_IXON t && is_cc t VSTART c then mkEd (e_sec x) 0 (e_sigs x)
  else if L_ISIG t && is_cc t VINTR c then mkEd (e_sec x) (e_stopped x) (e_sigs x ++ [SIGINT])
  else if L_ISIG t && is_cc t VQUIT c then mkEd (e_sec x) (e_stopped x) (e_sigs x ++ [SIGQUIT])
  else if L_ISIG t && is_cc t VSUSP c then mkEd (e_sec x) (e_stopped x) (e_sigs x ++ if is_orphaned_pgrp (t_pgrp t) then [] else [SIGTSTP])
  else mkEd (e_sec x ++ [c]) (e_stopped x) (e_sigs x).
Definition feed `{TtyOps} (t : tty_struct) (c : Z) (x : edit) : edit := match translate t c with None => x | Some c => edit_char t c x end.
Fixpoint cook `{TtyOps} (t : tty_struct) (x : edit) (inp : list Z) : edit * list Z :=
  match inp with
  | [] => (x, [])
  | c :: inp' => if (length (e_sec x) =? 1023)%nat then (x, inp) else cook t (feed t c x) inp'
  end.

Lemma bind_unit {St} (m : M St unit) s s' : (m ≫= (fun _ => mret tt)) s = Ok tt s' -> m s = Ok tt s'.
Proof. unfold mbind, M_bind. by destruct (m s) as [[]| | | |]. Qed.

(** ** Running on one terminal *)

(** The driver moves the output of terminal [i] on, or writes to ports, and
    does nothing else.  The routine of the serial lines does so ([rs_out]);
    that of the consoles, which may answer the terminal, and those of the
    pseudo terminals, which feed another terminal, do not. *)
Class OutOnly `{TtyOps} (i : nat) : Prop := {
  drv_out : forall s t, ttys s !! i = Some t -> has_queues t = true -> qok (write_q t) ->
    exists q p, drv_write i s = Ok tt (set_ports p (set_ttys (<[i := qset Qwrite q t]> (ttys s)) s)) /\ qok q }.
Lemma rs_out `{TtyOps} inb i : drv_write i = rs_write inb i -> OutOnly i.
Proof.
  intros E. split. intros s t Ht Hq Hw. exists (write_q t). rewrite E. unfold rs_write, queues, get_tty, outb, mbind, M_bind, gets, idx, modify. rewrite !Ht. cbn. rewrite Hq. cbn.
  replace (qset Qwrite (write_q t) t) with t by (by destruct t). rewrite list_insert_id, Ht by done. unfold mret, M_ret. destruct (EMPTY (write_q t)); [exists (ports s); by destruct s|]. eexists (ports s ++ _). split; [by destruct s|done].
Qed.

Section Line.
Context `{TtyOps} (i : nat) `{!OutOnly i} (s0 : ttyst) (Hi : (i < length (ttys s0))%nat).

Definition st (t : tty_struct) (k p : list (Z * Z)) : ttyst := set_ports p (set_kills k (set_ttys (<[i := t]> (ttys s0)) s0)).
Lemma st_at t k p : ttys (st t k p) !! i = Some t.
Proof. cbn. by apply list_lookup_insert_eq. Qed.
Lemma get_tty_run {A} t k p (K : tty_struct -> M ttyst A) : (get_tty i ≫= K) (st t k p) = K t (st t k p).
Proof. unfold get_tty, mbind, M_bind, gets, idx. by rewrite st_at. Qed.
Lemma upd_tty_run {A} f t k p (K : unit -> M ttyst A) : (upd_tty i f ≫= K) (st t k p) = K tt (st (f t) k p).
Proof. unfold upd_tty, get_tty, mbind, M_bind, gets, idx, modify. rewrite st_at. cbn. unfold st, set_ports, set_ttys, set_kills. cbn. by rewrite list_insert_insert_eq. Qed.
Lemma PUTCH_run {A} c n t k p (K : unit -> M ttyst A) : (PUTCH c n i ≫= K) (st t k p) = K tt (st (qset n (qput c (qof n t)) t) k p).
Proof. exact (upd_tty_run (fun t => qset n (qput c (qof n t)) t) t k p K). Qed.
Lemma kill_pg_run {A} pg sg t k p (K : unit -> M ttyst A) : (kill_pg pg sg ≫= K) (st t k p) = K tt (st t (k ++ [(pg, sg)]) p).
Proof. done. Qed.
Lemma GETCH_run {A} n t k p c l (K : Z -> M ttyst A) : qok (qof n t) -> chars (qof n t) = c :: l ->
  (GETCH n i ≫= K) (st t k p) = K c (st (qset n (qdrop (qof n t)) t) k p) /\ qok (qdrop (qof n t)) /\ chars (qdrop (qof n t)) = l.
Proof.
  intros Hq Hc. destruct (qdrop_ok _ Hq) as [Hq' E]; [by rewrite Hc|]. rewrite Hc in E. injection E as E1 E2. split; [|done]. unfold GETCH. destruct Hq as [L Hh Ht].
  assert (q_buf (qof n t) !! Z.to_nat (q_tail (qof n t)) = Some c) as Hl.
  { rewrite E1. unfold qat. rewrite Z.add_0_r, Z.mod_small by done. apply list_lookup_lookup_total_lt. rewrite L. lia. }
  unfold mbind at 1, M_bind at 1. rewrite get_tty_run. unfold mbind at 1, M_bind at 1, idx at 1. rewrite Hl. cbn [mret M_ret]. unfold mret, M_ret at 1. by rewrite upd_tty_run.
Qed.
Lemma LAST_run {A} t k p l c (K : Z -> M ttyst A) : qok (secondary t) -> chars (secondary t) = l ++ [c] -> (LAST Qsec i ≫= K) (st t k p) = K c (st t k p) /\ qok (qdec (secondary t)) /\ chars (qdec (secondary t)) = l.
Proof.
  intros Hq Hc. destruct (qdec_ok _ Hq) as [Hq' E]; [rewrite Hc; by destruct l|]. rewrite Hc in E. apply app_inj_tail in E as [E1 E2]. split; [|done]. unfold LAST.
  unfold mbind at 1, M_bind at 1. rewrite get_tty_run. cbn [qof]. unfold idx. rewrite list_lookup_lookup_total_lt; [by rewrite <- E2|]. rewrite (qk_len _ Hq), Z.land_comm. unfold TTY_BUF_SIZE. change (1024 - 1) with 1023. rewrite mask1023.
  pose proof (Z.mod_pos_bound (q_head (secondary t) - 1) 1024). lia.
Qed.

(** ** Editing *)

Context (t0 : tty_struct) (Hq0 : has_queues t0 = true).
(** The queue for the output, with what has gone to the ports so far. *)
Notation wout := (tty_queue * list (Z * Z))%type.
Definition wok (w : wout) : Prop := qok w.1.
Definition wput (c : Z) (w : wout) : wout := (qput c w.1, w.2).
Definition shape (v : Z) (rq : tty_queue) (w : wout) (sq : tty_queue) : tty_struct := mkTty (c_iflag t0) (c_oflag t0) (c_cflag t0) (c_lflag t0) (c_line t0) (c_cc t0) (t_pgrp t0) (t_session t0) v (has_queues t0) rq w.1 sq.
Definition sh (v : Z) (rq : tty_queue) (w : wout) (sq : tty_queue) (k : list (Z * Z)) : ttyst := st (shape v rq w sq) k w.2.
Lemma drv_run {A} v rq w sq k (K : unit -> M ttyst A) : wok w -> exists w', wok w' /\ (drv_write i ≫= K) (sh v rq w sq k) = K tt (sh v rq w' sq k).
Proof.
  intros Hw. destruct (drv_out (sh v rq w sq k) _ (st_at _ k w.2) Hq0 Hw) as (q & p & E & Hq). exists (q, p). split; [done|]. rewrite (bind_ok _ _ _ _ _ E). f_equal.
  unfold sh, st, set_ports, set_ttys, set_kills. cbn. by rewrite list_insert_insert_eq.
Qed.

Lemma qput_qok c q : qok q -> qok (qput c q).
Proof. intros [H1 H2 H3]. split; cbn; [by rewrite length_insert| |done]. unfold INC, TTY_BUF_SIZE. change (1024 - 1) with 1023. rewrite mask1023. apply Z.mod_pos_bound. lia. Qed.
Lemma wput_wok c w : wok w -> wok (wput c w).
Proof. apply qput_qok. Qed.
Lemma rub_run c v rq wq sq k : wok wq -> exists wq', wok wq' /\ rub i c (sh v rq wq sq k) = Ok tt (sh v rq wq' (qdec sq) k).
Proof.
  intros Hw. unfold rub, sh. rewrite get_tty_run.
  assert (exists wq', wok wq' /\ (if L_ECHO (shape v rq wq sq) then (if c <? 32 then PUTCH 127 Qwrite i else skip) ;; PUTCH 127 Qwrite i ;; drv_write i else skip) (sh v rq wq sq k) = Ok tt (sh v rq wq' sq k)) as (wq' & Hw' & E).
  { destruct (L_ECHO _); [|by exists wq]. assert (exists w1, wok w1 /\ (if c <? 32 then PUTCH 127 Qwrite i else skip) (sh v rq wq sq k) = Ok tt (sh v rq w1 sq k)) as (w1 & Hw1 & E1).
    { destruct (c <? 32); [|by exists wq]. exists (wput 127 wq). split; [by apply wput_wok|]. apply bind_unit. unfold sh. by rewrite PUTCH_run. }
    rewrite (bind_ok _ _ _ _ _ E1). unfold sh at 1. rewrite PUTCH_run. destruct (drv_run v rq (wput 127 w1) sq k (fun _ => mret tt)) as (q & Hq & E2); [by apply wput_wok|]. exists q. split; [done|]. by apply bind_unit. }
  exists wq'. split; [done|]. rewrite (bind_ok _ _ _ _ _ E). apply bind_unit. unfold sh. by rewrite upd_tty_run.
Qed.
Lemma echo_run c v rq wq sq k : wok wq -> exists wq', wok wq' /\ echo i c (sh v rq wq sq k) = Ok tt (sh v rq wq' sq k).
Proof.
  intros Hw. unfold echo, sh. rewrite get_tty_run. destruct (L_ECHO _); [|by exists wq].
  assert (exists w1, wok w1 /\ (if c =? 10 then PUTCH 10 Qwrite i ;; PUTCH 13 Qwrite i else if c <? 32 then (if L_ECHOCTL (shape v rq wq sq) then PUTCH 94 Qwrite i ;; PUTCH (c + 64) Qwrite i else skip) else PUTCH c Qwrite i) (sh v rq wq sq k) = Ok tt (sh v rq w1 sq k)) as (w1 & Hw1 & E1).
  { destruct (c =? 10); [|destruct (c <? 32); [destruct (L_ECHOCTL _); [|by exists wq]|]].
    - exists (wput 13 (wput 10 wq)). split; [by do 2 apply wput_wok|]. unfold sh at 1. rewrite PUTCH_run. apply bind_unit. by rewrite PUTCH_run.
    - exists (wput (c + 64) (wput 94 wq)). split; [by do 2 apply wput_wok|]. unfold sh at 1. rewrite PUTCH_run. apply bind_unit. by rewrite PUTCH_run.
    - exists (wput c wq). split; [by apply wput_wok|]. apply bind_unit. unfold sh at 1. by rewrite PUTCH_run. }
  rewrite (bind_ok _ _ _ _ _ E1). destruct (drv_run v rq w1 sq k (fun _ => mret tt)) as (q & Hq & E2); [done|]. exists q. split; [done|]. by apply bind_unit.
Qed.

Lemma kill_typed_snoc l c : kill_typed t0 (l ++ [c]) = if is_end t0 c then l ++ [c] else kill_typed t0 l.
Proof. unfold kill_typed. rewrite reverse_snoc. cbn [kill_rev]. destruct (is_end t0 c); [|done]. by rewrite reverse_cons, reverse_involutive. Qed.
Lemma erase_char_snoc l c : erase_char t0 (l ++ [c]) = if is_end t0 c then l ++ [c] else l.
Proof. unfold erase_char. rewrite reverse_snoc. destruct (is_end t0 c); [done|]. by rewrite reverse_involutive. Qed.
Lemma ends_snoc l c : ends t0 (l ++ [c]) = ends t0 l + if is_end t0 c then 1 else 0.
Proof. unfold ends. rewrite filter_app, length_app. cbn [filter list_filter]. destruct (is_end t0 c); [rewrite decide_True by done|rewrite decide_False by done]; cbn; lia. Qed.
Lemma ends_kill l : ends t0 (kill_typed t0 l) = ends t0 l.
Proof.
  induction l as [|c l IH] using rev_ind; [done|]. rewrite kill_typed_snoc. destruct (is_end t0 c) eqn:E; [done|]. rewrite ends_snoc, E, IH. lia.
Qed.
Lemma ends_erase l : ends t0 (erase_char t0 l) = ends t0 l.
Proof. destruct l as [|c l _] using rev_ind; [done|]. rewrite erase_char_snoc. destruct (is_end t0 c) eqn:E; [done|]. rewrite ends_snoc, E. lia. Qed.
Lemma ends_bound l : 0 <= ends t0 l <= Z.of_nat (length l).
Proof. unfold ends. pose proof (length_filter (fun c => is_end t0 c = true) l). lia. Qed.
Lemma chars_empty q : qok q -> EMPTY q = true <-> chars q = [].
Proof. intros Hq. rewrite (EMPTY_chars _ Hq), Nat.eqb_eq. split; [apply nil_length_inv|by intros ->]. Qed.
Lemma EMPTY_snoc q l c : qok q -> chars q = l ++ [c] -> EMPTY q = false.
Proof. intros Hq E. rewrite (EMPTY_chars _ Hq), E, length_app. cbn. by rewrite Nat.add_1_r. Qed.

Lemma kill_run n : forall v rq wq sq k, wok wq -> qok sq -> (length (chars sq) < n)%nat ->
  exists wq' sq', wok wq' /\ qok sq' /\ loop n (kill_step i) tt (sh v rq wq sq k) = Ok tt (sh v rq wq' sq' k) /\ chars sq' = kill_typed t0 (chars sq) /\ q_data sq' = q_data sq.
Proof.
  induction n as [|n IH]; intros v rq wq sq k Hw Hs Hn; [lia|]. destruct (chars sq) as [|c l _] eqn:E using rev_ind.
  - exists wq, sq. split_and!; [done|done| |by rewrite E|done]. apply loop_done. unfold kill_step, sh. rewrite get_tty_run. cbn [secondary shape]. by rewrite (proj2 (chars_empty _ Hs) E).
  - destruct (LAST_run (shape v rq wq sq) k wq.2 l c (fun c => if (c =? 10) || is_cc (shape v rq wq sq) VEOF c then mret (inr tt) else rub i c ;; mret (inl tt)) Hs E) as (El & Hd & Ec). change (secondary (shape v rq wq sq)) with sq in Hd, Ec.
    rewrite kill_typed_snoc. change ((c =? 10) || is_cc (shape v rq wq sq) VEOF c) with (is_end t0 c) in El. destruct (is_end t0 c) eqn:Ee.
    + exists wq, sq. split_and!; [done|done| |done|done]. apply loop_done. unfold kill_step, sh. rewrite get_tty_run. cbn [secondary shape]. rewrite (EMPTY_snoc _ _ _ Hs E). exact El.
    + destruct (rub_run c v rq wq sq k Hw) as (w1 & Hw1 & Er). rewrite length_app in Hn. cbn in Hn. destruct (IH v rq w1 (qdec sq) k Hw1 Hd) as (wq' & sq' & H1 & H2 & H3 & H4 & H5); [rewrite Ec; lia|].
      exists wq', sq'. split_and!; [done|done| |by rewrite H4, Ec|done]. rewrite (loop_next _ _ _ _ tt (sh v rq w1 (qdec sq) k)); [done|]. unfold kill_step, sh. rewrite get_tty_run. cbn [secondary shape]. rewrite (EMPTY_snoc _ _ _ Hs E), El. by rewrite (bind_ok _ _ _ _ _ Er).
Qed.
Lemma erase_run v rq wq sq k : wok wq -> qok sq ->
  exists wq' sq', wok wq' /\ qok sq' /\ erase i (sh v rq wq sq k) = Ok tt (sh v rq wq' sq' k) /\ chars sq' = erase_char t0 (chars sq) /\ q_data sq' = q_data sq.
Proof.
  intros Hw Hs. unfold erase, sh. rewrite get_tty_run. change (secondary (shape v rq wq sq)) with sq. destruct (chars sq) as [|c l _] eqn:E using rev_ind.
  - exists wq, sq. rewrite (proj2 (chars_empty _ Hs) E). split_and!; [done|done|done|by rewrite E|done].
  - rewrite (EMPTY_snoc _ _ _ Hs E), erase_char_snoc. destruct (LAST_run (shape v rq wq sq) k wq.2 l c (fun c => if (c =? 10) || is_cc (shape v rq wq sq) VEOF c then skip else rub i c) Hs E) as (El & Hd & Ec).
    change (secondary (shape v rq wq sq)) with sq in Hd, Ec. rewrite El. change ((c =? 10) || is_cc (shape v rq wq sq) VEOF c) with (is_end t0 c). destruct (is_end t0 c).
    + exists wq, sq. done.
    + destruct (rub_run c v rq wq sq k Hw) as (w1 & Hw1 & Er). exists w1, (qdec sq). done.
Qed.
Lemma accept_run c v rq wq sq k : wok wq -> qok sq -> length (chars sq) <> 1023%nat ->
  exists wq' sq', wok wq' /\ qok sq' /\ accept i c (sh v rq wq sq k) = Ok tt (sh v rq wq' sq' k) /\ chars sq' = chars sq ++ [c] /\ q_data sq' = if is_end t0 c then u32 (q_data sq + 1) else q_data sq.
Proof.
  intros Hw Hs Hn. unfold accept, sh. rewrite get_tty_run. change ((c =? 10) || is_cc (shape v rq wq sq) VEOF c) with (is_end t0 c). set (s1 := if is_end t0 c then qcount 1 sq else sq).
  assert (qok s1 /\ chars s1 = chars sq) as [Hs1 Ec] by (unfold s1; destruct (is_end t0 c); [split; [by destruct Hs|done]|done]).
  destruct (echo_run c v rq wq s1 k Hw) as (w1 & Hw1 & Ee). destruct (qput_ok c s1 Hs1) as [Hp Epc]; [by rewrite Ec|]. exists w1, (qput c s1). split_and!; [done|done| |by rewrite Epc, Ec|unfold s1; by destruct (is_end t0 c)].
  erewrite bind_ok; [rewrite (bind_ok _ _ _ _ _ Ee); apply bind_unit; unfold sh; by rewrite PUTCH_run|]. unfold s1. destruct (is_end t0 c); [|done]. apply bind_unit. by rewrite upd_tty_run.
Qed.

(** One character. *)
Definition sigs_to (l : list Z) : list (Z * Z) := (fun g => (t_pgrp t0, g)) <$> l.
Lemma stop_run b v rq wq sq k : wok wq -> exists wq', wok wq' /\ stop i b (sh v rq wq sq k) = Ok tt (sh b rq wq' sq k).
Proof.
  intros Hw. unfold stop, sh. rewrite upd_tty_run. destruct (drv_run b rq wq sq k (fun _ => mret tt)) as (q & Hq & E); [done|]. exists q. split; [done|]. by apply bind_unit.
Qed.
Lemma char_run c v rq wq sq k0 sg : wok wq -> qok sq -> length (chars sq) <> 1023%nat -> q_data sq = ends t0 (chars sq) ->
  let x := edit_char t0 c (mkEd (chars sq) v sg) in
  exists wq' sq', cook_char i c (sh v rq wq sq (k0 ++ sigs_to sg)) = Ok tt (sh (e_stopped x) rq wq' sq' (k0 ++ sigs_to (e_sigs x))) /\ wok wq' /\ qok sq' /\ chars sq' = e_sec x /\ q_data sq' = ends t0 (chars sq').
Proof.
  intros Hw Hs Hn Hd x. unfold cook_char, sh at 1. rewrite get_tty_run. fold (sh v rq wq sq (k0 ++ sigs_to sg)). pose proof (length_chars sq) as Hl. pose proof (qlen_bound sq) as Hb.
  change (L_CANON (shape v rq wq sq)) with (L_CANON t0). change (I_IXON (shape v rq wq sq)) with (I_IXON t0). change (L_ISIG (shape v rq wq sq)) with (L_ISIG t0).
  change (is_cc (shape v rq wq sq)) with (is_cc t0). change (t_pgrp (shape v rq wq sq)) with (t_pgrp t0). unfold x, edit_char.
  assert (forall g, k0 ++ sigs_to (sg ++ [g]) = (k0 ++ sigs_to sg) ++ [(t_pgrp t0, g)]) as Hsg by (intros g; unfold sigs_to; by rewrite fmap_app, app_assoc).
  destruct (L_CANON t0 && is_cc t0 VKILL c).
  { destruct (kill_run (Z.to_nat TTY_BUF_SIZE) v rq wq sq (k0 ++ sigs_to sg) Hw Hs) as (w & q & H1 & H2 & H3 & H4 & H5); [rewrite Hl; unfold TTY_BUF_SIZE; lia|]. exists w, q. split_and!; [done|done|done|done|]. rewrite H5, H4, ends_kill. done. }
  destruct (L_CANON t0 && is_cc t0 VERASE c).
  { destruct (erase_run v rq wq sq (k0 ++ sigs_to sg) Hw Hs) as (w & q & H1 & H2 & H3 & H4 & H5). exists w, q. split_and!; [done|done|done|done|]. rewrite H5, H4, ends_erase. done. }
  destruct (I_IXON t0 && is_cc t0 VSTOP c); [destruct (stop_run 1 v rq wq sq (k0 ++ sigs_to sg) Hw) as (w & H1 & H2); by exists w, sq|].
  destruct (I_IXON t0 && is_cc t0 VSTART c); [destruct (stop_run 0 v rq wq sq (k0 ++ sigs_to sg) Hw) as (w & H1 & H2); by exists w, sq|].
  destruct (L_ISIG t0 && is_cc t0 VINTR c); [exists wq, sq; split_and!; try done; cbn [e_sigs e_stopped]; by rewrite Hsg|].
  destruct (L_ISIG t0 && is_cc t0 VQUIT c); [exists wq, sq; split_and!; try done; cbn [e_sigs e_stopped]; by rewrite Hsg|].
  destruct (L_ISIG t0 && is_cc t0 VSUSP c).
  { exists wq, sq. split_and!; try done. cbn [e_sigs e_stopped]. destruct (is_orphaned_pgrp _); [by rewrite app_nil_r|by rewrite Hsg]. }
  destruct (accept_run c v rq wq sq (k0 ++ sigs_to sg) Hw Hs Hn) as (w & q & H1 & H2 & H3 & H4 & H5). exists w, q. split_and!; [done|done|done|done|]. rewrite H5, H4, ends_snoc, Hd. pose proof (ends_bound (chars sq)).
  destruct (is_end t0 c); [|lia]. apply u32_id. lia.
Qed.
Lemma feed_run c inp v rq wq sq k0 sg : qok rq -> wok wq -> qok sq -> chars rq = c :: inp -> length (chars sq) <> 1023%nat -> q_data sq = ends t0 (chars sq) -> (I_UCLC t0 = true -> -1 <= c) ->
  let x := feed t0 c (mkEd (chars sq) v sg) in
  exists rq' wq' sq', cook_step i tt (sh v rq wq sq (k0 ++ sigs_to sg)) = Ok (inl tt) (sh (e_stopped x) rq' wq' sq' (k0 ++ sigs_to (e_sigs x))) /\ qok rq' /\ wok wq' /\ qok sq' /\ chars rq' = inp /\ chars sq' = e_sec x /\ q_data sq' = ends t0 (chars sq').
Proof.
  intros Hr Hw Hs Ec Hn Hd Hu x. unfold cook_step, sh at 1. rewrite get_tty_run. change (read_q (shape v rq wq sq)) with rq. change (secondary (shape v rq wq sq)) with sq.
  replace (EMPTY rq) with false by (rewrite (EMPTY_chars _ Hr), Ec; done). replace (FULL sq) with false by (rewrite (FULL_chars _ Hs); symmetry; by apply Nat.eqb_neq).
  destruct (qdrop_ok rq Hr) as [Hr' Er']; [by rewrite Ec|]. rewrite Ec in Er'. injection Er' as _ Er'. symmetry in Er'.
  rewrite (proj1 (GETCH_run Qread (shape v rq wq sq) _ _ c inp _ Hr Ec)). change (qset Qread (qdrop (qof Qread (shape v rq wq sq))) (shape v rq wq sq)) with (shape v (qdrop rq) wq sq).
  change (I_CRNL (shape v rq wq sq)) with (I_CRNL t0). change (I_NOCR (shape v rq wq sq)) with (I_NOCR t0). change (I_NLCR (shape v rq wq sq)) with (I_NLCR t0). change (I_UCLC (shape v rq wq sq)) with (I_UCLC t0).
  unfold x, feed, translate. destruct ((c =? 13) && negb (I_CRNL t0) && I_NOCR t0); [by exists (qdrop rq), wq, sq|]. set (c1 := if c =? 13 then _ else _).
  erewrite bind_ok; [|instantiate (2 := if I_UCLC t0 then lower c1 else c1); destruct (I_UCLC t0); [|reflexivity]; unfold tolower; replace (c1 <? -1) with false; [reflexivity|]].
  2: { symmetry. apply Z.ltb_ge. specialize (Hu eq_refl). unfold c1. repeat case_match; lia. }
  destruct (char_run (if I_UCLC t0 then lower c1 else c1) v (qdrop rq) wq sq k0 sg Hw Hs Hn Hd) as (w & q & E & H1 & H2 & H3 & H4). exists (qdrop rq), w, q. fold (sh v (qdrop rq) wq sq (k0 ++ sigs_to sg)). rewrite (bind_ok _ _ _ _ _ E). done.
Qed.
Lemma cook_run inp : forall n v rq wq sq k0 sg, (length inp < n)%nat -> qok rq -> wok wq -> qok sq -> chars rq = inp -> q_data sq = ends t0 (chars sq) -> (I_UCLC t0 = true -> Forall (fun c => -1 <= c) inp) ->
  let r := cook t0 (mkEd (chars sq) v sg) inp in
  exists rq' wq' sq', loop n (cook_step i) tt (sh v rq wq sq (k0 ++ sigs_to sg)) = Ok tt (sh (e_stopped r.1) rq' wq' sq' (k0 ++ sigs_to (e_sigs r.1))) /\ qok rq' /\ wok wq' /\ qok sq' /\ chars rq' = r.2 /\ chars sq' = e_sec r.1 /\ q_data sq' = ends t0 (chars sq').
Proof.
  induction inp as [|c inp IH]; intros n v rq wq sq k0 sg Hn Hr Hw Hs Ec Hd Hu; (destruct n as [|n]; [lia|]).
  - cbn. exists rq, wq, sq. split_and!; try done. apply loop_done. unfold cook_step, sh. rewrite get_tty_run. change (read_q (shape v rq wq sq)) with rq. by rewrite (proj2 (chars_empty _ Hr) Ec).
  - cbn [cook]. cbn [e_sec]. destruct (Nat.eqb_spec (length (chars sq)) 1023) as [Hf|Hf].
    + exists rq, wq, sq. split_and!; try done. apply loop_done. unfold cook_step, sh. rewrite get_tty_run. change (read_q (shape v rq wq sq)) with rq. change (secondary (shape v rq wq sq)) with sq.
      replace (EMPTY rq) with false by (rewrite (EMPTY_chars _ Hr), Ec; done). rewrite (FULL_chars _ Hs), Hf. done.
    + assert (I_UCLC t0 = true -> -1 <= c /\ Forall (fun c => -1 <= c) inp) as Hu' by (intros E; specialize (Hu E); by apply Forall_cons in Hu).
      destruct (feed_run c inp v rq wq sq k0 sg Hr Hw Hs Ec Hf Hd) as (r1 & w1 & q1 & E & H1 & H2 & H3 & H4 & H5 & H6); [intros E; by apply Hu'|]. rewrite (loop_next _ _ _ _ _ _ E).
      destruct (feed t0 c (mkEd (chars sq) v sg)) as [sec2 v2 sg2] eqn:Ef. cbn [e_sec e_stopped e_sigs] in *. rewrite <- H5. cbn in Hn. apply IH; try done; [lia|]. intros E2. by apply Hu'.
Qed.

(** ** Reading *)

Lemma ends_cons c l : ends t0 (c :: l) = (if is_end t0 c then 1 else 0) + ends t0 l.
Proof. unfold ends. rewrite filter_cons. destruct (is_end t0 c); [rewrite decide_True by done|rewrite decide_False by done]; cbn [length]; lia. Qed.
Lemma GETCH_sec {A} v rq wq sq k c l (K : Z -> M ttyst A) : qok sq -> chars sq = c :: l -> (GETCH Qsec i ≫= K) (sh v rq wq sq k) = K c (sh v rq wq (qdrop sq) k).
Proof. intros Hs Ec. unfold sh. by rewrite (proj1 (GETCH_run Qsec (shape v rq wq sq) k wq.2 c l K Hs Ec)). Qed.
Lemma line_run n : forall nr out v rq wq sq k, L_CANON t0 = true -> (0 < nr)%nat -> qok sq -> chars sq <> [] -> (length (chars sq) <= n)%nat -> q_data sq = ends t0 (chars sq) ->
  let r := first_line t0 nr (chars sq) in
  exists sq', loop n (chars_step i) (Z.of_nat nr, out) (sh v rq wq sq k) = Ok (Z.of_nat nr - Z.of_nat (length r.1), out ++ r.1) (sh v rq wq sq' k) /\ qok sq' /\ chars sq' = r.2 /\ q_data sq' = ends t0 (chars sq').
Proof.
  induction n as [|n IH]; intros nr out v rq wq sq k Hcan Hnr Hs Hne Hlen Hd; (destruct (chars sq) as [|c l] eqn:Ec; [done|]); cbn in Hlen; [lia|]. destruct nr as [|nr]; [lia|].
  destruct (qdrop_ok sq Hs) as [Hs1 E1]; [by rewrite Ec|]. rewrite Ec in E1. injection E1 as _ E1. symmetry in E1.
  assert (exists q1, qok q1 /\ chars q1 = l /\ q_data q1 = ends t0 l /\ forall A (K : unit -> M ttyst A), ((if is_cc t0 VEOF c || (c =? 10) then upd_tty i (fun t => qset Qsec (qcount (-1) (secondary t)) t) else skip) ≫= K) (sh v rq wq (qdrop sq) k) = K tt (sh v rq wq q1 k)) as (q1 & Hq1 & Eq1 & Ed1 & Hrun).
  { rewrite ends_cons in Hd. unfold is_end in Hd. rewrite (orb_comm (is_cc t0 VEOF c)). destruct ((c =? 10) || is_cc t0 VEOF c).
    - exists (qcount (-1) (qdrop sq)). split_and!; [by destruct Hs1|done| |intros A K; unfold sh; by rewrite upd_tty_run]. cbn. rewrite Hd. pose proof (ends_bound l). pose proof (length_chars sq). pose proof (qlen_bound sq). rewrite Ec in *. cbn in *. rewrite u32_id; lia.
    - exists (qdrop sq). split_and!; [done|done|cbn; lia|done]. }
  assert (chars_step i (Z.of_nat (S nr), out) (sh v rq wq sq k) = Ok (if is_cc t0 VEOF c then inr (Z.of_nat (S nr), out) else if (nr =? 0)%nat || (c =? 10) || (length l =? 0)%nat then inr (Z.of_nat nr, out ++ [c]) else inl (Z.of_nat nr, out ++ [c])) (sh v rq wq q1 k)) as Est.
  { unfold chars_step. unfold sh at 1. rewrite get_tty_run. fold (sh v rq wq sq k). rewrite (GETCH_sec v rq wq sq k c l _ Hs Ec). change (is_cc (shape v rq wq sq)) with (is_cc t0). change (L_CANON (shape v rq wq sq)) with (L_CANON t0). rewrite Hrun, Hcan, !andb_true_r.
    destruct (is_cc t0 VEOF c); [done|]. cbn [fst snd]. replace (Z.of_nat (S nr) - 1) with (Z.of_nat nr) by lia. destruct (Nat.eqb_spec nr 0) as [->|Hn0]; [done|]. rewrite (proj2 (Z.eqb_neq (Z.of_nat nr) 0)) by lia.
    destruct (c =? 10); [done|]. cbn [orb]. unfold sh. rewrite get_tty_run. change (secondary (shape v rq wq q1)) with q1. rewrite (EMPTY_chars _ Hq1), Eq1, (proj2 (Z.ltb_lt 0 (Z.of_nat nr))) by lia. by destruct (length l =? 0)%nat. }
  cbn [first_line]. destruct (is_cc t0 VEOF c).
  { exists q1. cbn [fst snd length]. split_and!; [rewrite (loop_done _ _ _ _ _ _ Est), app_nil_r; do 2 f_equal; lia|done|done|by rewrite Ed1, Eq1]. }
  destruct (c =? 10) eqn:E10.
  { rewrite orb_true_r in Est. cbn [orb] in Est. exists q1. cbn [fst snd length]. split_and!; [rewrite (loop_done _ _ _ _ _ _ Est); do 2 f_equal; lia|done|done|by rewrite Ed1, Eq1]. }
  destruct (Nat.eqb_spec nr 0) as [->|Hn0].
  { exists q1. cbn [fst snd length]. split_and!; [rewrite (loop_done _ _ _ _ _ _ Est); do 2 f_equal; lia|done|done|by rewrite Ed1, Eq1]. }
  destruct l as [|c' l].
  { exists q1. destruct nr; [done|]. cbn [first_line fst snd length]. split_and!; [rewrite (loop_done _ _ _ _ _ _ Est); do 2 f_equal; lia|done|done|by rewrite Ed1, Eq1]. }
  cbn [orb length Nat.eqb] in Est. rewrite (loop_next _ _ _ _ _ _ Est). destruct (IH nr (out ++ [c]) v rq wq q1 k Hcan ltac:(lia) Hq1) as (sq' & E & H1 & H2 & H3); [by rewrite Eq1|rewrite Eq1; lia|by rewrite Ed1, Eq1|].
  rewrite Eq1 in E, H2. exists sq'. split_and!; [rewrite E, <- app_assoc; cbn [fst snd length app]; do 2 f_equal; lia|done|done|done].
Qed.
End Line.

Lemma cook_stops `{TtyOps} t inp : forall x, (cook t x inp).2 = [] \/ length (e_sec (cook t x inp).1) = 1023%nat.
Proof. induction inp as [|c inp IH]; intros x; cbn; [by left|]. destruct (Nat.eqb_spec (length (e_sec x)) 1023); [by right|apply IH]. Qed.

(** C7.  Serial terminals.  On a terminal whose [write] is that of the serial
    lines, [copy_to_cooked] ends and takes in the characters that have come one
    by one, until there is none or the queue of lines is full: what they make of
    the lines in it, the mode of the output and the signals sent to the group
    of the terminal is what [cook] says, with carriage returns, case, erase,
    kill, stop and start, interrupt, quit and suspend as the flags have them.
    The count kept with the queue is always the number of line ends in it.
    With a line there, a read in canonical mode returns the first line, or as
    much of it as fits, without the end-of-file character, and leaves the
    rest. *)
Theorem terminal_lines `{TtyOps} inb i s t : drv_write i = rs_write inb i ->
  ttys s !! i = Some t -> has_queues t = true -> qok (read_q t) -> qok (write_q t) -> qok (secondary t) ->
  q_data (secondary t) = ends t (chars (secondary t)) -> (I_UCLC t = true -> Forall (fun c => -1 <= c) (chars (read_q t))) ->
  let r := cook t (mkEd (chars (secondary t)) (stopped t) []) (chars (read_q t)) in
  (r.2 = [] \/ length (e_sec r.1) = 1023%nat) /\
  exists rq wq sq, let s1 := sh i s t (e_stopped r.1) rq wq sq (kills s ++ sigs_to t (e_sigs r.1)) in
    copy_to_cooked i s = Ok tt s1 /\ qok rq /\ wok wq /\ qok sq /\ chars rq = r.2 /\ chars sq = e_sec r.1 /\ q_data sq = ends t (chars sq) /\
    forall channel nr m, L_CANON t = true -> (0 < nr)%nat -> 0 < ends t (chars sq) -> pending s = false ->
      let l := first_line t nr (chars sq) in
      exists sq', read_at channel i None (mkRd (Z.of_nat nr) [] m 0) s1 = Ok (RDone (Z.of_nat (length l.1)) l.1) (set_timeout 0 (sh i s t (e_stopped r.1) rq wq sq' (kills s ++ sigs_to t (e_sigs r.1)))) /\
        qok sq' /\ chars sq' = l.2 /\ q_data sq' = ends t (chars sq').
Proof.
  intros Hdrv Ht Hq Hr Hw Hs Hd Hu r. pose proof (rs_out inb i Hdrv) as Hout. split; [apply cook_stops|]. assert (i < length (ttys s))%nat as Hi by (by eapply lookup_lt_Some).
  assert (s = sh i s t (stopped t) (read_q t) (write_q t, ports s) (secondary t) (kills s ++ sigs_to t [])) as Es.
  { unfold sh, st, set_ports, set_kills, set_ttys. cbn. rewrite app_nil_r. replace (shape t (stopped t) (read_q t) (write_q t, ports s) (secondary t)) with t by (by destruct t). rewrite list_insert_id by done. by destruct s. }
  destruct (cook_run i s Hi t Hq (chars (read_q t)) 1024 (stopped t) (read_q t) (write_q t, ports s) (secondary t) (kills s) []) as (rq & wq & sq & E & H1 & H2 & H3 & H4 & H5 & H6); try done.
  { rewrite length_chars. pose proof (qlen_bound (read_q t)). lia. }
  exists rq, wq, sq. split_and!; try done.
  - unfold copy_to_cooked. rewrite Es at 1. unfold sh at 1. rewrite get_tty_run by done. change (has_queues (shape t (stopped t) (read_q t) (write_q t, ports s) (secondary t))) with (has_queues t). rewrite Hq. exact E.
  - intros channel nr m Hcan Hnr He Hp l. destruct (line_run i s Hi t 1024 nr [] (e_stopped r.1) rq wq sq (kills s ++ sigs_to t (e_sigs r.1)) Hcan Hnr H3) as (sq' & El & L1 & L2 & L3); [intros E0; by rewrite E0 in He|rewrite length_chars; pose proof (qlen_bound sq); lia|done|].
    exists sq'. split_and!; [|done|done|done]. unfold read_at. cbn [r_nr r_out r_min r_time]. rewrite (proj2 (Z.leb_gt _ _)) by lia. erewrite bind_ok by reflexivity. unfold sh at 1. rewrite get_tty_run by done. change (secondary (shape t _ rq wq sq)) with sq.
    change (L_CANON (shape t _ rq wq sq)) with (L_CANON t). rewrite Hcan, H6, (proj2 (Z.eqb_neq _ _)) by lia. rewrite andb_false_r, (EMPTY_chars _ H3).
    assert (length (chars sq) =? 0 = false)%nat as -> by (apply Nat.eqb_neq; intros E0; apply nil_length_inv in E0; by rewrite E0 in He). cbn [orb]. fold (sh i s t (e_stopped r.1) rq wq sq (kills s ++ sigs_to t (e_sigs r.1))).
    rewrite (bind_ok _ _ _ _ _ El). cbn [fst snd r_time r_min r_out app]. erewrite bind_ok by reflexivity. cbn [orb]. unfold read_done. erewrite bind_ok by reflexivity. erewrite bind_ok by reflexivity. cbn [r_out].
    change (pending (set_timeout 0 (sh i s t (e_stopped r.1) rq wq sq' (kills s ++ sigs_to t (e_sigs r.1))))) with (pending s). by rewrite Hp.
Qed.

(** ** Writing *)

Definition upper (c : Z) : Z := if (97 <=? c) && (c <=? 122) then c - 32 else c.
Definition out_char (t : tty_struct) (c : Z) : Z := if O_POST t then (if (c =? 13) && O_CRNL t then 10 else if (c =? 10) && O_NLRET t then 13 else c) else c.
(** What the output flags make of characters, after a carriage return that
    has been put in front of a line feed when [f] is not 0. *)
Fixpoint post (t : tty_struct) (f : Z) (l : list Z) : list Z :=
  match l with
  | [] => []
  | c :: l' => let c := out_char t c in
      (if O_POST t && (c =? 10) && (f =? 0) && O_NLCR t then [13] else []) ++ (if O_POST t && O_LCUC t then upper c else c) :: post t 0 l'
  end.
Lemma post_run `{TtyOps} i t0 n : forall s0 l v rq wq sq k p, (i < length (ttys s0))%nat -> qok wq -> (1023 - length (chars wq) < n)%nat -> (O_POST t0 && O_LCUC t0 = true -> Forall (fun c => -1 <= c) l) ->
  exists l2 f2 o wq', loop n (post_step i) l (sh i s0 t0 v rq (wq, p) sq k) = Ok l2 (sh i (set_cr f2 s0) t0 v rq (wq', p) sq k) /\ qok wq' /\ chars wq' = chars wq ++ o /\
    post t0 (cr_flag s0) l = o ++ post t0 f2 l2 /\ (l2 = [] \/ length (chars wq') = 1023%nat) /\ exists l1, l = l1 ++ l2.
Proof.
  induction n as [|n IH]; intros s0 l v rq wq sq k p Hi Hw Hn Hu; [lia|]. assert (set_cr (cr_flag s0) s0 = s0) as Ecr by (by destruct s0). destruct l as [|c l].
  { exists [], (cr_flag s0), [], wq. rewrite app_nil_r, Ecr. split_and!; try done; [|by left|by exists []]. apply loop_done. unfold post_step, sh. by rewrite get_tty_run. }
  destruct (Nat.eqb_spec (length (chars wq)) 1023) as [Hf|Hf].
  { exists (c :: l), (cr_flag s0), [], wq. rewrite app_nil_r, Ecr. split_and!; try done; [|by right|by exists []]. apply loop_done. unfold post_step, sh. rewrite get_tty_run by done. change (write_q (shape t0 v rq (wq, p) sq)) with wq. by rewrite (FULL_chars _ Hw), Hf. }
  destruct (qput_ok (if O_POST t0 && (out_char t0 c =? 10) && (cr_flag s0 =? 0) && O_NLCR t0 then 13 else if O_POST t0 && O_LCUC t0 then upper (out_char t0 c) else out_char t0 c) wq Hw Hf) as [Hp Ep].
  assert (post_step i (c :: l) (sh i s0 t0 v rq (wq, p) sq k) = (if O_POST t0 && (out_char t0 c =? 10) && (cr_flag s0 =? 0) && O_NLCR t0
    then Ok (inl (c :: l)) (sh i (set_cr 1 s0) t0 v rq (qput 13 wq, p) sq k) else Ok (inl l) (sh i (set_cr 0 s0) t0 v rq (qput (if O_POST t0 && O_LCUC t0 then upper (out_char t0 c) else out_char t0 c) wq, p) sq k))) as Est.
  { unfold post_step. unfold sh at 1. cbn [snd]. rewrite get_tty_run by done. change (write_q (shape t0 v rq (wq, p) sq)) with wq. rewrite (FULL_chars _ Hw), (proj2 (Nat.eqb_neq _ _)) by done. erewrite bind_ok by reflexivity.
    change (O_POST (shape t0 v rq (wq, p) sq)) with (O_POST t0). change (O_CRNL (shape t0 v rq (wq, p) sq)) with (O_CRNL t0). change (O_NLRET (shape t0 v rq (wq, p) sq)) with (O_NLRET t0). change (O_NLCR (shape t0 v rq (wq, p) sq)) with (O_NLCR t0). change (O_LCUC (shape t0 v rq (wq, p) sq)) with (O_LCUC t0).
    change (cr_flag (st i s0 (shape t0 v rq (wq, p) sq) k p)) with (cr_flag s0). fold (out_char t0 c). destruct (O_POST t0 && (out_char t0 c =? 10) && (cr_flag s0 =? 0) && O_NLCR t0).
    - erewrite bind_ok by reflexivity. change (set_cr 1 (st i s0 (shape t0 v rq (wq, p) sq) k p)) with (st i (set_cr 1 s0) (shape t0 v rq (wq, p) sq) k p). by rewrite PUTCH_run.
    - erewrite bind_ok; [|instantiate (2 := if O_POST t0 && O_LCUC t0 then upper (out_char t0 c) else out_char t0 c); destruct (O_POST t0 && O_LCUC t0); [|reflexivity]; unfold toupper; replace (out_char t0 c <? -1) with false; [reflexivity|]].
      2: { symmetry. apply Z.ltb_ge. specialize (Hu eq_refl). apply Forall_cons in Hu as [Hu _]. unfold out_char. repeat case_match; lia. }
      erewrite bind_ok by reflexivity. change (set_cr 0 (st i s0 (shape t0 v rq (wq, p) sq) k p)) with (st i (set_cr 0 s0) (shape t0 v rq (wq, p) sq) k p). by rewrite PUTCH_run. }
  destruct (O_POST t0 && (out_char t0 c =? 10) && (cr_flag s0 =? 0) && O_NLCR t0) eqn:Eb; rewrite (loop_next _ _ _ _ _ _ Est).
  - destruct (IH (set_cr 1 s0) (c :: l) v rq (qput 13 wq) sq k p Hi Hp) as (l2 & f2 & o & wq' & E & H1 & H2 & H3 & H4 & H5); [rewrite Ep, length_app; cbn [length]; pose proof (length_chars wq); pose proof (qlen_bound wq); lia|done|]. exists l2, f2, (13 :: o), wq'. split_and!; [exact E|done|by rewrite H2, Ep, <- app_assoc| |done|done].
    cbn [post cr_flag set_cr] in H3 |- *. rewrite Eb. rewrite andb_false_r in H3. cbn [andb app] in H3 |- *. by rewrite H3.
  - assert (O_POST t0 && O_LCUC t0 = true -> Forall (fun c => -1 <= c) l) as Hu' by (intros E; specialize (Hu E); by apply Forall_cons in Hu as [_ Hu]).
    destruct (IH (set_cr 0 s0) l v rq _ sq k p Hi Hp) as (l2 & f2 & o & wq' & E & H1 & H2 & H3 & H4 & (l1 & H5)); [rewrite Ep, length_app; cbn [length]; pose proof (length_chars wq); pose proof (qlen_bound wq); lia|done|]. eexists l2, f2, (_ :: o), wq'. split_and!; [exact E|done|by rewrite H2, Ep, <- app_assoc| |done|by exists (c :: l1); rewrite H5].
    cbn [post]. rewrite Eb. cbn [app]. f_equal. exact H3.
Qed.

(** A round of [tty_write] on a serial line with room in the queue: the driver is given the
    queue with what the output flags make of the characters taken appended to
    it, the characters left are a rest of the buffer, and going on with them
    gives the rest of the output. *)
Theorem write_posts `{TtyOps} inb i s t l : drv_write i = rs_write inb i -> ttys s !! i = Some t -> has_queues t = true -> qok (write_q t) -> FULL (write_q t) = false -> pending s = false -> l <> [] -> (O_POST t && O_LCUC t = true -> Forall (fun c => -1 <= c) l) ->
  exists l2 f2 o wq s', let s1 := sh i (set_cr f2 s) t (stopped t) (read_q t) (wq, ports s) (secondary t) (kills s) in
    qok wq /\ chars wq = chars (write_q t) ++ o /\ post t (cr_flag s) l = o ++ post t f2 l2 /\ (l2 = [] \/ length (chars wq) = 1023%nat) /\ (exists l1, l = l1 ++ l2) /\
    drv_write i s1 = Ok tt s' /\ write_at i false l s = Ok (if (length l2 =? 0)%nat then WDone l2 else WSched l2) s'.
Proof.
  intros Hdrv Ht Hq Hw Hf Hp Hne Hu. pose proof (rs_out inb i Hdrv) as Hout. assert (i < length (ttys s))%nat as Hi by (by eapply lookup_lt_Some).
  assert (s = sh i s t (stopped t) (read_q t) (write_q t, ports s) (secondary t) (kills s)) as Es.
  { unfold sh, st, set_ports, set_kills, set_ttys. cbn. replace (shape t (stopped t) (read_q t) (write_q t, ports s) (secondary t)) with t by (by destruct t). rewrite list_insert_id by done. by destruct s. }
  destruct (post_run i t 1024 s l (stopped t) (read_q t) (write_q t) (secondary t) (kills s) (ports s) Hi Hw ltac:(lia) Hu) as (l2 & f2 & o & wq & E & H1 & H2 & H3 & H4 & H5).
  destruct (drv_out (sh i (set_cr f2 s) t (stopped t) (read_q t) (wq, ports s) (secondary t) (kills s)) (shape t (stopped t) (read_q t) (wq, ports s) (secondary t)) (st_at i (set_cr f2 s) Hi _ (kills s) (ports s)) Hq H1) as (q & pp & Eq & _).
  eexists l2, f2, o, wq, _. split_and!; [done|done|done|done|done|exact Eq|]. unfold write_at. destruct l as [|c l]; [done|]. cbn [length Nat.eqb]. rewrite Es at 1. unfold sh at 1. rewrite get_tty_run by done.
  change (write_q (shape t _ (read_q t) (write_q t, ports s) (secondary t))) with (write_q t). fold (sh i s t (stopped t) (read_q t) (write_q t, ports s) (secondary t) (kills s)). rewrite <- Es. erewrite bind_ok by reflexivity. rewrite Hp, Hf. cbn [negb andb].
  rewrite Es at 1. change (Z.to_nat TTY_BUF_SIZE) with 1024%nat. rewrite (bind_ok _ _ _ _ _ E), (bind_ok _ _ _ _ _ Eq). by destruct (length l2 =? 0)%nat.
Qed.

(** ** Settings *)

Lemma u16_low16 w v : u16 (low16 w v) = u16 v.
Proof.
  unfold low16, u16. change 65536 with (2 ^ 16). rewrite <- !Z.land_ones by lia. rewrite Z.land_lor_distr_l, <- (Z.land_assoc w). change (Z.land 4294901760 (Z.ones 16)) with 0. rewrite Z.land_0_r, Z.lor_0_l, <- Z.land_assoc, Z.land_diag. done.
Qed.
Section Settings.
Context `{TtyOps} (i : nat) (s : ttyst) (t : tty_struct) (Ht : ttys s !! i = Some t) (Hq : has_queues t = true).

Lemma settings_here : (i < length (ttys s))%nat.
Proof. by eapply lookup_lt_Some. Qed.
Lemma speed_run u k : exists p, change_speed i (st i s (put_termios u t) k (ports s)) = Ok tt (set_ports p (st i s (put_termios u t) k (ports s))).
Proof.
  unfold change_speed, queues. pose proof settings_here as Hi. erewrite bind_ok by (rewrite get_tty_run by done; change (has_queues (put_termios u t)) with (has_queues t); rewrite Hq; reflexivity).
  rewrite get_tty_run by done. destruct (u16 _ =? 0); [by exists (ports s)|]. assert (exists q, quotient !! Z.to_nat (Z.land (c_cflag (put_termios u t)) 15) = Some q) as [q Hlk].
  { apply lookup_lt_is_Some_2. change 15 with (Z.ones 4). rewrite Z.land_ones by lia. pose proof (Z.mod_pos_bound (c_cflag (put_termios u t)) (2 ^ 4) ltac:(lia)). change (length quotient) with 16%nat. lia. }
  unfold idx. rewrite Hlk. eexists. reflexivity.
Qed.
(** What is set is what is read back, and the queues stay. *)
Theorem settings_roundtrip dev u : (u_tty (cur s) <> dev \/ t_pgrp t = u_pgrp (cur s)) ->
  (exists s', set_termios i u dev s = Ok 0 s' /\ get_termios i s' = Ok u s' /\ ttys s' !! i = Some (put_termios u t)) /\
  (length (ti_cc u) = 8%nat -> exists s', set_termio i u dev s = Ok 0 s' /\
    get_termio i s' = Ok (mkTios (u16 (ti_iflag u)) (u16 (ti_oflag u)) (u16 (ti_cflag u)) (u16 (ti_lflag u)) (ti_line u) (ti_cc u)) s').
Proof.
  intros Hfg. pose proof settings_here as Hi. assert (s = st i s t (kills s) (ports s)) as Es by (unfold st, set_ports, set_kills, set_ttys; cbn; rewrite list_insert_id by done; by destruct s).
  assert (stop_background i dev s = Ok 0 s) as Eb.
  { unfold stop_background. rewrite Es at 1. rewrite get_tty_run, <- Es by done. erewrite bind_ok by reflexivity. replace ((u_tty (cur s) =? dev) && negb (t_pgrp t =? u_pgrp (cur s))) with false; [done|]. destruct Hfg as [Hd|Hd]; [by rewrite (proj2 (Z.eqb_neq _ _) Hd)|rewrite Hd, Z.eqb_refl; by rewrite andb_false_r]. }
  assert (forall v p, ttys (set_ports p (st i s (put_termios v t) (kills s) (ports s))) !! i = Some (put_termios v t)) as Hat by (intros v p; exact (st_at i s Hi _ _ (ports s))).
  split.
  - destruct (speed_run u (kills s)) as [p Ep]. exists (set_ports p (st i s (put_termios u t) (kills s) (ports s))). split_and!; [|unfold get_termios, get_tty, mbind, M_bind, gets, idx; rewrite Hat; by destruct u|apply Hat].
    unfold set_termios. rewrite (bind_ok _ _ _ _ _ Eb). cbn [Z.eqb negb]. rewrite Es at 1. rewrite upd_tty_run by done. by rewrite (bind_ok _ _ _ _ _ Ep).
  - intros Hcc. set (v := mkTios (low16 (c_iflag t) (ti_iflag u)) (low16 (c_oflag t) (ti_oflag u)) (low16 (c_cflag t) (ti_cflag u)) (low16 (c_lflag t) (ti_lflag u)) (ti_line u) (ti_cc u ++ drop 8 (c_cc t))).
    destruct (speed_run v (kills s)) as [p Ep]. exists (set_ports p (st i s (put_termios v t) (kills s) (ports s))). split.
    + unfold set_termio. rewrite (bind_ok _ _ _ _ _ Eb). cbn [Z.eqb negb]. rewrite Es at 1. rewrite upd_tty_run by done. fold v. by rewrite (bind_ok _ _ _ _ _ Ep).
    + unfold get_termio, get_tty, mbind, M_bind, gets, idx. rewrite Hat. cbn. rewrite !u16_low16, take_app_le by lia. rewrite take_ge by lia. done.
Qed.
End Settings.

(** ** A serial line *)

Definition serial : TtyOps := {| drv_write i := rs_write (fun _ => 13) i; is_orphaned_pgrp _ := false; session_of_pgrp _ := 0 |}.
Lemma empty_qok d : qok (empty_queue d).
Proof. split; [apply length_replicate|cbn; lia..]. Qed.

(** [ab], the erase character, [c] and the end of the line are typed, with
    echo on, and [ac] is read. *)
Definition typed : tty_queue := mkQ 1016 5 0 ([97; 98; 127; 99; 10] ++ replicate 1019 0).
Definition t_ex : tty_struct := qset Qwrite (empty_queue 1016) (qset Qread typed (tty_entry 1 0)).
Definition s_ex : ttyst := mkTst [t_ex] 0 1 0 (mkCur 0 0 0 0 0 0 (fun _ => 0)) 0 [] [] [].
Lemma terminal_lines_witness : exists s1 s2, @copy_to_cooked serial 0 s_ex = Ok tt s1 /\ @read_at serial 1 0 None (mkRd 10 [] 10 0) s1 = Ok (RDone 3 [97; 99; 10]) s2.
Proof.
  destruct (@terminal_lines serial (fun _ => 13) 0%nat s_ex t_ex eq_refl eq_refl eq_refl) as (_ & rq & wq & sq & E & _ & _ & _ & _ & Hsq & _ & Hread);
    [split; [reflexivity|cbn; lia..]|apply empty_qok|apply empty_qok|reflexivity|intros Hu; vm_compute in Hu; discriminate|].
  assert (chars sq = [97; 99; 10]) as Ec by (rewrite Hsq; vm_compute; reflexivity). rewrite Ec in Hread.
  destruct (Hread 1 10%nat 10 eq_refl ltac:(lia) ltac:(vm_compute; reflexivity) eq_refl) as (sq' & Er & _). eexists _, _. split; [exact E|]. exact Er.
Defined.

(** ** Divergences *)

(** A character put into a full queue empties it: echo does not look. *)
Lemma put_full_empties c q : qok q -> FULL q = true -> EMPTY (qput c q) = true.
Proof.
  intros Hq Hf. rewrite (FULL_chars _ Hq), length_chars in Hf. apply Nat.eqb_eq in Hf. destruct Hq as [H1 H2 H3]. unfold EMPTY. cbn. apply Z.eqb_eq. pose proof (qlen_bound q). mod1024.
Qed.
(** Start and stop are asked for among the local flags of a console, where the
    bit means something else: they do not work until a program sets them. *)
Lemma consoles_without_ixon consoles i : (i < consoles)%nat -> I_IXON (tty_entry consoles i) = false /\ flag (c_lflag (tty_entry consoles i)) 1024 = true.
Proof. intros Hi. unfold tty_entry. rewrite (proj2 (Nat.ltb_lt _ _) Hi). done. Qed.
(** A line feed for one terminal that waits with its carriage return put out
    takes the carriage return from a line feed for another. *)
Definition t_room1 : tty_struct := qset Qwrite (mkQ 0 1022 0 (replicate 1024 0)) (tty_entry 2 0).
Definition s_two : ttyst := mkTst [t_room1; tty_entry 2 1] 0 2 0 (mkCur 0 0 0 0 0 0 (fun _ => 0)) 0 [] [] [].
Lemma cr_flag_shared : exists s1 s2 t, loop 1024 (@post_step 0) [10] s_two = Ok [10] s1 /\ loop 1024 (@post_step 1) [10] s1 = Ok [] s2 /\ ttys s2 !! 1%nat = Some t /\ chars (write_q t) = [10] /\ post (tty_entry 2 1) 0 [10] = [13; 10].
Proof. do 3 eexists. split; [vm_compute; reflexivity|]. split; [vm_compute; reflexivity|]. split; [vm_compute; reflexivity|]. split; vm_compute; reflexivity. Qed.
(** Reading and writing refuse a terminal without queues; flushing it does
    not look. *)
Lemma flush_without_queues `{TtyOps} consoles dev : (consoles <= 8)%nat -> 9 <= dev < 64 -> forall u j k n p ua, tty_ioctl dev 21515 0 ua (mkTst (tty_entry consoles <$> seq 0 256) 0 0 0 u j k n p) = Fault.
Proof.
  intros Hc Hd u j k n p ua. unfold tty_ioctl. erewrite bind_ok by reflexivity. rewrite u32_id, Z.shiftr_div_pow2 by lia. change (2 ^ 8) with 256. rewrite (Z.div_small dev) by lia. cbn [Z.eqb andb]. change 255 with (Z.ones 8). rewrite Z.land_ones, Z.mod_small by (cbn; lia).
  unfold TTY_TABLE. erewrite bind_ok; [|erewrite bind_ok by reflexivity; rewrite (proj2 (Z.eqb_neq dev 0)), (proj2 (Z.ltb_lt dev 64)) by lia; reflexivity]. cbn [negb].
  assert ((tty_entry consoles <$> seq 0 256) !! Z.to_nat (dev - 1) = Some (tty_entry consoles (Z.to_nat (dev - 1)))) as Hl by (rewrite list_lookup_fmap, lookup_seq_lt by lia; done).
  assert (has_queues (tty_entry consoles (Z.to_nat (dev - 1))) = false) as Hq.
  { unfold tty_entry. rewrite (proj2 (Nat.ltb_ge _ consoles)) by lia. rewrite !(proj2 (Nat.leb_gt _ (Z.to_nat (dev - 1)))) by lia. done. }
  set (s := mkTst _ _ _ _ _ _ _ _ _). change (tty_entry consoles <$> seq 0 256) with (ttys s) in Hl. clearbody s.
  assert (forall A (K : tty_struct -> M ttyst A), (get_tty (Z.to_nat (dev - 1)) ≫= K) s = K (tty_entry consoles (Z.to_nat (dev - 1))) s) as Hg by (intros A K; unfold get_tty, mbind, M_bind, gets, idx; by rewrite Hl).
  rewrite Hg. cbn [Z.eqb Pos.eqb orb]. unfold plain, ioctl_flush, flush, queues. cbn [Z.eqb]. unfold mbind at 1 2 3, M_bind at 1 2 3. rewrite Hg, Hq. done.
Qed.
